(* ===== verification/_CoqProject ===== *)
-Q . S2P
Prelude.v
Crc.v
NetBytes.v
OpenSSL.v
Stun.v
StunSerialize.v
StunRoundTrip.v
Probe.v
ProbeStun.v
ProbeDtls.v
ProbeDispatch.v
Numeric.v
NumericSpec.v
TimeSpec.v
Base64.v
Escape.v
Utf8.v
Machine.v
HttpRequest.v
HttpParseUri.v
HttpRequestLine.v
HttpRequestLineSpec.v
HttpComplexUri.v
HttpComplexUriSpec.v
HttpChunked.v
HttpChunkedBody.v
HttpChunkedSpec.v
HttpChunkedBodySpec.v
HttpChunkedText.v
HttpHeaderLine.v
HttpHeaderLineSpec.v
HttpUri.v
HttpUriSpec.v
HttpUnsafeUri.v
UpstreamWeights.v
Upstream.v
UpstreamSpec.v
UpstreamInv.v
UpstreamMain.v
UpstreamFair.v
LimitReq.v
LimitReqSpec.v
Sprintf.v
SprintfSpec.v
Times.v
TimesSpec.v
TimesParse.v
Inet.v
InetSpec.v
Inet6Spec.v
Inet6Print.v
InetCidr.v
InetSock.v
HuffTables.v
Huff.v
HuffBits.v
HuffDecode.v
Hpack.v
HpackSpec.v
HpackTable.v
HpackTableSpec.v
HpackTableAdd.v
HttpRange.v
HttpRangeSpec.v
HttpRangeBody.v
Digest.v
Md5.v
Sha1.v
Crypt.v
CryptSpec.v
Radix.v
RadixInv.v
RadixWalk.v
RadixSpec.v
ProxyProtocol.v
ProxyProtocolSpec.v
Resolver.v
ResolverSpec.v
SslPreread.v
SslPrereadSpec.v
