(* ===== verification/Prelude.v ===== *)
(** * nginx-dtls: a verification library

    The repository is the nginx server with a DTLS transport for UDP and a probe
    handler for stream sessions. All sources are C below [nginx/src]; a name such
    as [core/ngx_string.c] in this library stands for [nginx/src/core/ngx_string.c].
    This library is a shallow embedding of those parts of the program that can be
    stated as functions of memory and state, with the theorems that make them
    correct. This file is the root; it also holds what the other files share.

    *** How the C code is rendered

    The platform is a 64-bit little-endian Unix (LP64), where unaligned access is
    allowed. An integer of [w] bits is a [Z]; an unsigned operation wraps around by
    [u8], [u16], [u32] or [u64], a signed one goes through [int64], which is a
    [Fault] if the result does not fit, as overflow is undefined in C. Memory is a
    [list Z] of bytes, a pointer an offset into it (or what is left of the list
    from there on), [NULL] is [None]. Every access goes through [get], [put],
    [slice] or [blit], which are a [Fault] outside the list. The result type [res]
    has three values: [Ok], [Fault] for what C leaves undefined, and [NoFuel] for a
    loop that was given too little fuel. A theorem that a function returns [Ok]
    thus says that it is memory safe, has no overflow, and terminates. Fuel is an
    upper bound of the rounds of a loop (nearly always the length of the input plus
    a constant), stated beside each loop and shown to be enough by the [Ok]
    theorems; where the claim is about the loop itself ([Stun.stun_parse_total]),
    any larger amount is shown to give the same result. A [goto] or a [switch] in
    a loop is a definition per label or state.

    *** The parts of the program, and where they are

    - The stream probe ([stream/ngx_stream_probe.c], [.h], and
      [ngx_stream_probe_module.c]): a phase handler of a stream session that
      answers UDP, RTP, STUN and DTLS probes itself. [NetBytes] has the accessors of
      packet fields; [Crc] the checksums, with those of [core/ngx_crc32.c]; [OpenSSL]
      is the interface to HMAC-SHA1; [Stun] parses STUN messages, [StunSerialize]
      writes them, [StunRoundTrip] relates both; [Probe] has the four handlers, the
      dispatch and the phase handler, [ProbeStun], [ProbeDtls] and [ProbeDispatch]
      their theorems: parsing is safe on every datagram, the writer refines an
      append-only encoder, the reply fits the datagram it replaces, and each probe
      gets the answer it should. [Probe.ngx_process_probe] is what the stream phase
      engine calls with the datagram of the session.
    - Text and numbers ([core/ngx_string.c], [core/ngx_parse.c]): [Numeric] has the
      parsers, [NumericSpec] and [TimeSpec] show exactly which number each returns;
      [Sprintf] is formatted output, [SprintfSpec] that it stays in its buffer,
      that numbers it prints are read back by the parsers, and what each
      directive appends; [Base64], [Escape] and
      [Utf8] the codings, with their round trips and buffer sizes.
    - HTTP requests ([http/ngx_http_parse.c], [http/ngx_http_request.c],
      [http/ngx_http_request_body.c]). [Machine] is the loop over bytes that all
      incremental parsers share, with the theorem that it does not matter how the
      input is cut. [HttpRequest] is the request structure; [HttpRequestLine],
      [HttpHeaderLine] and [HttpChunked] are the three state machines, and the files
      with [Spec] in their names the invariants of their states. [HttpComplexUri] is
      the in-place normalisation of a URI, refined by a stack of segments in
      [HttpComplexUriSpec]; [HttpUri] is [ngx_http_process_request_uri], which uses
      it only if the request line parser set a flag, and [HttpUriSpec] shows that
      the outcome is the normal form either way. [HttpParseUri] and [HttpUnsafeUri]
      treat URIs from other sources. [HttpChunkedBody] has the two filters that read
      and discard a chunked body; [HttpChunkedBodySpec] and [HttpChunkedText] refine
      them by the grammar of the coding. What the reader gets from memory and what the next
      filter returns are parameters; the lists of free and busy buffers, which it
      updates at its end, are not modelled.
    - Byte ranges ([http/modules/ngx_http_range_filter_module.c]): [HttpRange] has the
      header filter with the parser of the [Range] header, and the body filter on chains
      of buffers. [HttpRangeSpec] gives the grammar of the header and what it asks for,
      [HttpRangeBody] the bytes that are sent for one part and for several.
    - Load balancing of stream sessions ([stream/ngx_stream_upstream.c],
      [stream/ngx_stream_upstream_round_robin.c]): [Upstream] is a world of peers and
      sessions that share them, changed by one handler at a time. [UpstreamWeights]
      has the arithmetic of smooth weighted round robin, [UpstreamSpec] the choice
      of a peer, [UpstreamInv] the invariant of the world under every interleaving,
      [UpstreamMain] and [UpstreamFair] what follows: safety, the choice, fairness.
    - Request rate limiting ([http/modules/ngx_http_limit_req_module.c]): [LimitReq]
      is the leaky bucket in a shared zone, [LimitReqSpec] the bound on the requests
      that pass, whatever the allocator of the zone does: each eviction of the entry of a
      key is counted, for it forgets what the key has used.
    - Dates ([core/ngx_times.c], [core/ngx_parse_time.c]): [Times] has the calendar, the
      printer and the parser of dates; [TimesSpec] relates the calendar to counting days and
      has the printed texts, [TimesParse] relates these to what the parser accepts.
    - Addresses ([core/ngx_inet.c]): [Inet] has the parsers and printers of addresses,
      address ranges and socket addresses; [InetSpec] (IPv4), [Inet6Spec] and [Inet6Print]
      (IPv6), [InetCidr] (ranges) and [InetSock] (with ports) what they accept and print.
      [dotted] and [ipv6] read a text by its fields, without a loop over its
      characters; the parsers accept exactly the texts that these do.
    - HTTP/2 header compression ([http/ngx_http_huff_encode.c],
      [http/ngx_http_huff_decode.c], [http/v2]): [HuffTables] are the tables of the Huffman
      code, [Huff] the coder; [HuffBits] has the bits of numbers and what is
      written, [HuffDecode] what is accepted. [Hpack] has integers and strings, with
      their round trip in [HpackSpec]. [HpackTable] is the dynamic table with its two
      rings, [HpackTableSpec] the list that it stands for; it and
      [HpackTableAdd] show that each operation keeps the two together.

    - Digests and passwords ([core/ngx_md5.c], [core/ngx_sha1.c], [core/ngx_crypt.c]):
      [Digest] is what the two digests share, the buffering of data that comes in pieces,
      for any function of a block ([BlockHash]), and shows, for any that keeps the laws
      [BlockHashLaws], that the pieces do not matter. [Md5] and [Sha1] are the two
      instances, with the algorithms of the standards and the laws. [Crypt] has the four schemes of stored passwords,
      [CryptSpec] the texts that they store.

    - Radix trees ([core/ngx_radix_tree.c]): [Radix] has the operations on a store of nodes,
      once for both kinds of keys ([Cursor]). [RadixInv] says which nodes a tree has at
      which addresses, and that each change of a node keeps this; [RadixWalk]
      shows that the operations are those of a map from networks to values, for any cursor
      with the laws [CursorLaws], which [RadixSpec] proves for both, with runs of operations.

    - The PROXY protocol ([core/ngx_proxy_protocol.c]): [ProxyProtocol] reads and writes
      the headers; [ProxyProtocolSpec] gives their grammar and shows that
      it is what is read, and that what is written is read back.

    - Names in messages of the domain name system ([core/ngx_resolver.c]): [Resolver] makes
      the queries and takes a name out of a response; [ResolverSpec] says what a name in a
      message is, that exactly these are found, and that the names of the queries are read
      back.

    - The preread phase of stream sessions ([stream/ngx_stream_ssl_preread_module.c],
      [ngx_stream_core_preread_phase]): [SslPreread] has the parser of TLS records with the
      handler and the variables, and the phase, for any handler. [SslPrereadSpec] shows that
      the parser keeps its memory and ends, that it does not matter how the data is cut
      into records, segments and calls of the phase, and what the variables of a
      ClientHello are.

    *** The groups of theorems

    Memory safety and termination on every input of the size stated: [stun_parse_total],
    [probe_datagram_safe], [request_line_sound], [header_line_sound],
    [sprintf_bounded]. Refinement of an abstract specification:
    [stun_serialize_refines], [complex_uri_normalises], [process_uri_normal_form],
    [chunked_body_read], [hpack_table_refines], [radix32_refines]. Content of messages: [range_body_exact],
    [range_multipart_exact]. Invariants of states:
    [upstream_invariant], [header_line_sound]. Round trips: [stun_roundtrip], [proxy_header_roundtrip], [inet6_roundtrip],
    [resolver_query_roundtrip], [crypt_stored_accepted] and their like.
    Exact results with overflow: [atoi_exact], [range_parse_exact], [huff_decode_exact],
    [proxy_read_exact], [resolver_copy_exact], [preread_hello], [cidr_ranges], [parse_http_time_exact]. Equivalences:
    [probe_crc32_correct], [gmtime_calendar], [digests_exact],
    [preread_phase_one_call]. Long-run behaviour: [round_robin_fair],
    [limit_req_bound]. Where the code misbehaves, a theorem says so and when:
    [dtls_probe_out_of_bounds], [stun_parse_diverges], [stun_serialize_unaligned].

    *** Where a theorem has a condition or an exception

    [stun_parse_total]: of fewer than four bytes the parser reads the length outside of
    them. [probe_handler_phase]: its last part is about datagrams that are no hello with
    a session id or a cookie, an allocation that succeeds and a session with [c->udp]. [radix32_refines], [radix128_refines]: a run that deletes the network of all
    addresses from a tree of the root alone ends there, with a [NULL] pointer
    ([delete_root_fault]). [upstream_invariant], [round_robin_fair]: the directive does not
    keep the sum of the weights in range ([weights_overflow]); fairness is about servers
    without limits, marks and backups. [cidr_ranges], [proxy_header_roundtrip]:
    255.255.255.255, which the parser takes for an error. [limit_req_bound]: evictions, as
    above. [chunked_body_read]: memory that cannot be had, with the code that follows.

    *** What is not modelled, and why

    - The event loop, connections, timers, signals, processes, files and sockets
      ([event], [os], most of [core]): their behaviour is that of the operating
      system. The DTLS transport itself (in [event/ngx_event_openssl.c],
      [event/ngx_event_udp.c]) drives OpenSSL's state machine, which is not in the
      repository.
    - HTTP/2 but for its header compression, the phase engine, filters, proxying, the file cache, variables and
      scripts, mail, and the resolver but for the names in its messages: each needs connections, pools and chains of
      callbacks as its state.
    - The configuration reader and the directive tables: glue between strings and
      structures. Where a directive sets a parameter of a modelled part, the range
      of values it accepts is a hypothesis or is modelled (the [server] directive).
    - Memory pools, the slab allocator, and the containers built on raw pointers.
      Where a modelled part uses one (the slab of a rate limiting zone), it is a
      parameter.
    - Log messages. *)

From stdpp Require Export base list option numbers tactics strings.
From Stdlib Require Export ZArith Lia.
From Stdlib Require Strings.Byte.

#[global] Open Scope Z_scope.

(** ** Characters and strings

    C character constants are written ["A"%chr]: the notation is evaluated
    when it is parsed, so the kernel (and [lia]) sees the number. *)

Definition chr_of_bytes (l : list Byte.byte) : option Z :=
  match l with
  | [b] => Some (Z.of_N (Byte.to_N b))
  | _ => None
  end.

Definition bytes_of_chr (z : Z) : option (list Byte.byte) :=
  match Byte.of_N (Z.to_N z) with
  | Some b => Some [b]
  | None => None
  end.

Declare Scope chr_scope.
Delimit Scope chr_scope with chr.
String Notation Z chr_of_bytes bytes_of_chr : chr_scope.

(** The bytes of a C string literal, without its terminating zero. *)
Definition str (s : string) : list Z :=
  map (fun a => Z.of_N (Ascii.N_of_ascii a)) (String.list_ascii_of_string s).
Arguments str s%_string_scope.

Definition CR : Z := 13.
Definition LF : Z := 10.

Definition between (lo hi c : Z) : bool := (lo <=? c) && (c <=? hi).
Definition is_digit (c : Z) : bool := between "0"%chr "9"%chr c.

(** ** Machine integers

    Values are kept in [Z]; a conversion to an unsigned C type of width [w]
    is the reduction modulo [2^w]. The model is the LP64 one: [size_t],
    [ngx_uint_t], [ngx_int_t], [off_t] and [time_t] have 64 bits. *)

Definition u8 (z : Z) : Z := z mod 256.
Definition u16 (z : Z) : Z := z mod 65536.
Definition u32 (z : Z) : Z := z mod 4294967296.
Definition u64 (z : Z) : Z := z mod 18446744073709551616.

(** The conversion of an unsigned 64-bit value to a signed one. *)
Definition signed64 (z : Z) : Z :=
  let z := u64 z in
  if z <? 9223372036854775808 then z else z - 18446744073709551616.

Definition NGX_MAX_INT_T_VALUE : Z := 9223372036854775807.
Definition NGX_MAX_SIZE_T_VALUE : Z := 9223372036854775807.
Definition NGX_MAX_OFF_T_VALUE : Z := 9223372036854775807.
Definition NGX_MAX_TIME_T_VALUE : Z := 9223372036854775807.

Abbreviation is_byte z := (0 <= z < 256).
Abbreviation bytes := (Forall (fun z : Z => 0 <= z < 256)).

(** ** Return codes of [core/ngx_core.h] *)

Definition NGX_OK : Z := 0.
Definition NGX_ERROR : Z := -1.
Definition NGX_AGAIN : Z := -2.
Definition NGX_BUSY : Z := -3.
Definition NGX_DONE : Z := -4.
Definition NGX_DECLINED : Z := -5.

(** [src/stream/ngx_stream.h] *)
Definition NGX_STREAM_OK : Z := 200.
Definition NGX_STREAM_BAD_REQUEST : Z := 400.
Definition NGX_STREAM_INTERNAL_SERVER_ERROR : Z := 500.
Definition NGX_ABORT : Z := -6.

(** ** Results of code that touches memory

    [Fault]: the code reads or writes outside an object (undefined behaviour
    in C). [NoFuel]: a loop was still running when the fuel of the model ran
    out; theorems show that enough fuel is given. *)

Inductive res (A : Type) : Type :=
| Ok (a : A)
| Fault
| NoFuel.
Arguments Ok {A} a.
Arguments Fault {A}.
Arguments NoFuel {A}.

#[export] Instance res_ret : MRet res := fun _ a => Ok a.
#[export] Instance res_bind : MBind res := fun _ _ f r =>
  match r with
  | Ok a => f a
  | Fault => Fault
  | NoFuel => NoFuel
  end.

Lemma bind_Ok {A B} (r : res A) (f : A -> res B) (b : B) :
  r ≫= f = Ok b <-> exists a, r = Ok a /\ f a = Ok b.
Proof.
  destruct r as [a| |]; cbn; split.
  all: try (intros (? & [=] & ?)); try done; subst; eauto.
Qed.

Lemma Ok_bind {A B} (a : A) (f : A -> res B) : Ok a ≫= f = f a.
Proof. reflexivity. Qed.

(** ** Buffers: lists of bytes indexed by [Z] *)

Definition zlen {A} (l : list A) : Z := Z.of_nat (length l).

(** [b[i]] *)
Definition get (b : list Z) (i : Z) : res Z :=
  if i <? 0 then Fault
  else match b !! Z.to_nat i with
       | Some c => Ok c
       | None => Fault
       end.

(** [memcpy(tmp, b + i, n)] *)
Definition slice (b : list Z) (i n : Z) : res (list Z) :=
  if (0 <=? i) && (0 <=? n) && (i + n <=? zlen b)
  then Ok (take (Z.to_nat n) (drop (Z.to_nat i) b))
  else Fault.

(** [memcpy(b + i, src, zlen src)] *)
Definition blit (b : list Z) (i : Z) (src : list Z) : res (list Z) :=
  if (0 <=? i) && (i + zlen src <=? zlen b)
  then Ok (take (Z.to_nat i) b ++ src ++ drop (Z.to_nat (i + zlen src)) b)
  else Fault.

(** [b[i] = v] *)
Definition put (b : list Z) (i v : Z) : res (list Z) := blit b i [v].

(** [memcmp(l1, l2, n) == 0] on lists that hold the [n] bytes compared *)
Definition beq (l1 l2 : list Z) : bool := bool_decide (l1 = l2).

(** A signed 64-bit result; overflow is undefined in C. *)
Definition int64 (z : Z) : res Z :=
  if (-9223372036854775808 <=? z) && (z <=? 9223372036854775807) then Ok z else Fault.

Lemma int64_ok z :
  -9223372036854775808 <= z <= 9223372036854775807 -> int64 z = Ok z.
Proof.
  intros. unfold int64.
  destruct (Z.leb_spec (-9223372036854775808) z), (Z.leb_spec z 9223372036854775807);
    done || lia.
Qed.

(** ** Updating one field of a record

    [r <| f := v |>] is the record [r] with [v] in its field [f]. A record type
    declares how it is rebuilt from its fields; the setter of a field is found
    by abstracting that field in the rebuilt record. *)

Class Rebuild (R : Type) := rebuild : R -> R.
Class Setter {R T : Type} (f : R -> T) := set_field : T -> R -> R.

Ltac solve_setter :=
  match goal with
  | |- @Setter ?R ?T ?f =>
      let inst := constr:(_ : Rebuild R) in
      let body := eval hnf in inst in
      let abs := eval pattern f in body in
      match abs with
      | ?k _ =>
          let s := eval cbv beta in (fun v : T => k (fun _ => v)) in
          exact s
      end
  end.

#[export] Hint Extern 1 (Setter _) => solve_setter : typeclass_instances.

Notation "r <| f := v |>" := (set_field (f := f) v r)
  (at level 1, f at level 200, left associativity).

(** ** Automation *)

Create HintDb nginx.
Create Rewrite HintDb zlen.

(** Case analysis on every [match] and [if] of the goal, with the tests
    turned into equations, then arithmetic. *)
Ltac flatten :=
  repeat (case_match; simplify_eq/=; try done).

Ltac inv_bind H :=
  repeat match type of H with
  | _ ≫= _ = Ok _ =>
      let a := fresh "a" in
      let E := fresh "E" in
      apply bind_Ok in H as (a & E & H)
  end.

Ltac unfold_width := unfold u8, u16, u32, u64 in *.

(** [lia] after the division and modulo of the machine types are unfolded. *)
Ltac width_lia :=
  unfold_width; Z.to_euclidean_division_equations; lia.

(** ** Lemmas on lists and buffers *)

Section buffers.
Implicit Types (b l pre old post src : list Z).

Lemma zlen_nil {A} : zlen (@nil A) = 0.
Proof. reflexivity. Qed.

Lemma zlen_cons {A} (x : A) (l : list A) : zlen (x :: l) = 1 + zlen l.
Proof. unfold zlen. simpl. lia. Qed.

Lemma zlen_app {A} (l1 l2 : list A) : zlen (l1 ++ l2) = zlen l1 + zlen l2.
Proof. unfold zlen. rewrite length_app. lia. Qed.

Lemma zlen_nonneg {A} (l : list A) : 0 <= zlen l.
Proof. unfold zlen. lia. Qed.

Lemma zlen_replicate {A} n (x : A) : zlen (replicate n x) = Z.of_nat n.
Proof. unfold zlen. by rewrite length_replicate. Qed.

Lemma zlen_take {A} n (l : list A) :
  0 <= n <= zlen l -> zlen (take (Z.to_nat n) l) = n.
Proof. unfold zlen. rewrite length_take. lia. Qed.

Lemma zlen_drop {A} n (l : list A) :
  0 <= n <= zlen l -> zlen (drop (Z.to_nat n) l) = zlen l - n.
Proof. unfold zlen. rewrite length_drop. lia. Qed.

(** A list is cut in two at any place. *)
Lemma zlen_split {A} (l : list A) n : 0 <= n <= zlen l -> exists l1 l2 : list A, l = (l1 ++ l2)%list /\ zlen l1 = n /\ zlen l2 = zlen l - n.
Proof.
  intros H. exists (take (Z.to_nat n) l), (drop (Z.to_nat n) l). unfold zlen in *.
  rewrite take_drop, length_take, length_drop. split; [done|]. lia.
Qed.

(** A read inside the buffer succeeds. *)
Lemma get_ok b i : 0 <= i < zlen b -> exists c, get b i = Ok c.
Proof.
  unfold get, zlen. intros H.
  destruct (Z.ltb_spec i 0); [lia|].
  destruct (lookup_lt_is_Some_2 b (Z.to_nat i)) as [c ->]; [lia|eauto].
Qed.

Lemma get_byte b i c : bytes b -> get b i = Ok c -> is_byte c.
Proof.
  unfold get. intros Hb H. case_match; [done|]. case_match; simplify_eq.
  by eapply Forall_lookup_1 in Hb.
Qed.

Lemma get_oob b i : i < 0 \/ zlen b <= i -> get b i = Fault.
Proof.
  unfold get, zlen. intros H. destruct (Z.ltb_spec i 0); [done|].
  rewrite (proj2 (lookup_ge_None b (Z.to_nat i))); [done|lia].
Qed.

Lemma get_Ok_range b i c : get b i = Ok c -> 0 <= i < zlen b.
Proof.
  intros H. destruct (decide (0 <= i < zlen b)); [done|].
  rewrite get_oob in H by lia. done.
Qed.

Lemma get_app_l pre post i :
  i < zlen pre -> get (pre ++ post) i = get pre i.
Proof.
  unfold get, zlen. intros H. destruct (Z.ltb_spec i 0); [done|].
  by rewrite lookup_app_l by lia.
Qed.

Lemma get_app_r pre post i :
  0 <= i -> get (pre ++ post) (zlen pre + i) = get post i.
Proof.
  unfold get, zlen. intros H.
  destruct (Z.ltb_spec (Z.of_nat (length pre) + i) 0), (Z.ltb_spec i 0); try lia.
  rewrite lookup_app_r by lia.
  replace (Z.to_nat (Z.of_nat (length pre) + i) - length pre)%nat
    with (Z.to_nat i) by lia. done.
Qed.

Lemma get_cons_0 c l : get (c :: l) 0 = Ok c.
Proof. reflexivity. Qed.

Lemma get_cons_S c l i : 0 < i -> get (c :: l) i = get l (i - 1).
Proof.
  intros. replace i with (zlen [c] + (i - 1)) at 1 by (rewrite zlen_cons, zlen_nil; lia).
  apply (get_app_r [c] l). lia.
Qed.

Lemma blit_app pre old post src i :
  i = zlen pre -> zlen old = zlen src ->
  blit (pre ++ old ++ post) i src = Ok (pre ++ src ++ post).
Proof.
  intros -> Hl. unfold blit.
  pose proof (zlen_nonneg pre). pose proof (zlen_nonneg post).
  rewrite !zlen_app, Hl.
  destruct (Z.leb_spec 0 (zlen pre)), (Z.leb_spec (zlen pre + zlen src)
    (zlen pre + (zlen src + zlen post))); try lia.
  simpl. f_equal. unfold zlen in *. rewrite Nat2Z.id, take_app_length.
  f_equal. f_equal. rewrite app_assoc, drop_app_length'; [done|].
  rewrite length_app. lia.
Qed.

Lemma zlen_blit b i src b' : blit b i src = Ok b' -> zlen b' = zlen b.
Proof.
  unfold blit. case_match eqn:E; [|done]. intros [= <-].
  apply andb_true_iff in E as [E1 E2]. pose proof (zlen_nonneg src).
  rewrite !zlen_app, zlen_take, zlen_drop by lia. unfold zlen in *. lia.
Qed.

Lemma blit_ok b i src :
  0 <= i -> i + zlen src <= zlen b -> exists b', blit b i src = Ok b'.
Proof.
  intros. unfold blit.
  destruct (Z.leb_spec 0 i), (Z.leb_spec (i + zlen src) (zlen b)); try lia.
  simpl. eauto.
Qed.

Lemma slice_ok b i n :
  0 <= i -> 0 <= n -> i + n <= zlen b ->
  exists l, slice b i n = Ok l /\ zlen l = n.
Proof.
  intros. unfold slice.
  destruct (Z.leb_spec 0 i), (Z.leb_spec 0 n), (Z.leb_spec (i + n) (zlen b)); try lia.
  simpl. eexists. split; [done|].
  rewrite zlen_take; [done|]. rewrite zlen_drop; lia.
Qed.

Lemma slice_app pre l post i n :
  i = zlen pre -> n = zlen l -> slice (pre ++ l ++ post) i n = Ok l.
Proof.
  intros -> ->. unfold slice.
  pose proof (zlen_nonneg pre). pose proof (zlen_nonneg post).
  pose proof (zlen_nonneg l). rewrite !zlen_app.
  destruct (Z.leb_spec 0 (zlen pre)), (Z.leb_spec 0 (zlen l)),
    (Z.leb_spec (zlen pre + zlen l) (zlen pre + (zlen l + zlen post))); try lia.
  simpl. unfold zlen. by rewrite !Nat2Z.id, drop_app_length, take_app_length.
Qed.

Lemma slice_bytes b i n l : bytes b -> slice b i n = Ok l -> bytes l.
Proof.
  unfold slice. intros Hb. case_match; [|done]. intros [= <-].
  by apply Forall_take, Forall_drop.
Qed.

Lemma slice_slice b i n l j m :
  slice b i n = Ok l -> 0 <= j -> 0 <= m -> j + m <= n ->
  slice l j m = slice b (i + j) m.
Proof.
  unfold slice. intros H Hj Hm Hjm.
  destruct (Z.leb_spec 0 i), (Z.leb_spec 0 n), (Z.leb_spec (i + n) (zlen b)); try done.
  simplify_eq/=. rewrite zlen_take by (rewrite zlen_drop; lia).
  destruct (Z.leb_spec 0 j), (Z.leb_spec 0 m), (Z.leb_spec (j + m) n),
    (Z.leb_spec 0 (i + j)), (Z.leb_spec (i + j + m) (zlen b)); try lia.
  simpl. rewrite skipn_firstn_comm, drop_drop, take_take.
  repeat f_equal; lia.
Qed.

Lemma put_ok b i v :
  0 <= i < zlen b -> exists b', put b i v = Ok b' /\ zlen b' = zlen b.
Proof.
  intros. destruct (blit_ok b i [v]) as [b' Hb]; [lia|rewrite zlen_cons, zlen_nil; lia|].
  exists b'. split; [done|]. by eapply zlen_blit.
Qed.
End buffers.

(** The bytes of [l] stand in [b] at [i]. *)
Definition holds (b : list Z) (i : Z) (l : list Z) : Prop :=
  forall k c, l !! k = Some c -> get b (i + Z.of_nat k) = Ok c.

Lemma holds_cons b i c l : holds b i (c :: l) -> get b i = Ok c /\ holds b (i + 1) l.
Proof.
  intros H. split; [rewrite <- (Z.add_0_r i); by apply (H O)|].
  intros k c' Hk. rewrite <- (H (S k) c' Hk). f_equal. lia.
Qed.

Lemma holds_self l : holds l 0 l.
Proof.
  intros k c Hk. unfold get. rewrite Z.add_0_l, Nat2Z.id, Hk.
  destruct (Z.ltb_spec (Z.of_nat k) 0); [lia|done].
Qed.

Lemma holds_one b i c : get b i = Ok c -> holds b i [c].
Proof. intros H [|k] c'; [intros [= <-]; by rewrite Z.add_0_r|done]. Qed.

Lemma holds_app b i l1 l2 :
  holds b i l1 -> holds b (i + zlen l1) l2 -> holds b i (l1 ++ l2).
Proof.
  intros H1 H2 k c Hk. apply lookup_app_Some in Hk as [Hk|[Hl Hk]]; [by apply H1|].
  rewrite <- (H2 _ _ Hk). f_equal. unfold zlen. lia.
Qed.

Lemma holds_drop b i l k :
  holds b i l -> 0 <= k <= zlen l -> holds b (i + k) (drop (Z.to_nat k) l).
Proof.
  intros H Hk j c Hj. rewrite lookup_drop in Hj. rewrite <- (H _ _ Hj). f_equal. lia.
Qed.

Lemma holds_get b i l k c :
  holds b i l -> l !! Z.to_nat k = Some c -> 0 <= k -> get b (i + k) = Ok c.
Proof. intros H Hk H0. rewrite <- (Z2Nat.id k) by done. by apply H. Qed.

Lemma holds_bytes b i l : bytes b -> holds b i l -> bytes l.
Proof.
  intros Hb H. apply Forall_lookup. intros k c Hk. eapply get_byte; [exact Hb|]. by apply H.
Qed.

(** A part of a list stands where it stands. *)
Lemma holds_middle pre l post : holds (pre ++ l ++ post) (zlen pre) l.
Proof.
  intros k c Hk. rewrite get_app_r by lia.
  rewrite get_app_l by (apply lookup_lt_Some in Hk; unfold zlen; lia). unfold get.
  destruct (Z.ltb_spec (Z.of_nat k) 0); [lia|]. by rewrite Nat2Z.id, Hk.
Qed.

(** Every byte of [b] from [i] to [j] satisfies [P]. *)
Definition span (P : Z -> Prop) (b : list Z) (i j : Z) : Prop :=
  forall k, i <= k < j -> exists c, get b k = Ok c /\ P c.

Lemma span_nil P b i : span P b i i.
Proof. intros k Hk. lia. Qed.

Lemma span_snoc (P : Z -> Prop) b i j c :
  span P b i j -> get b j = Ok c -> P c -> span P b i (j + 1).
Proof.
  intros H Hc HP k Hk. destruct (decide (k = j)) as [->|]; [by exists c|]. apply H. lia.
Qed.

Lemma span_weaken (P Q : Z -> Prop) b i j :
  (forall c, P c -> Q c) -> span P b i j -> span Q b i j.
Proof. intros HPQ H k Hk. destruct (H k Hk) as (c & Hc & HP). eauto. Qed.

Lemma span_app P b i j k : span P b i j -> span P b j k -> span P b i k.
Proof. intros H1 H2 m Hm. destruct (decide (m < j)); [apply H1|apply H2]; lia. Qed.

#[export] Hint Resolve span_nil span_snoc : nginx.

Lemma get_blit b i src b' k :
  blit b i src = Ok b' ->
  get b' k = if decide (i <= k < i + zlen src) then get src (k - i) else get b k.
Proof.
  unfold blit. case_match eqn:E; [|done]. intros [= <-].
  apply andb_true_iff in E as [E1 E2]. pose proof (zlen_nonneg src).
  assert (zlen (take (Z.to_nat i) b) = i) as Hi by (rewrite zlen_take; lia).
  destruct (decide (k < i)) as [Hk|Hk].
  { rewrite decide_False by lia. rewrite get_app_l by lia.
    unfold get. destruct (k <? 0) eqn:E; [done|]. by rewrite lookup_take_lt by lia. }
  replace k with (zlen (take (Z.to_nat i) b) + (k - i)) at 1 by lia.
  rewrite get_app_r by lia. case_decide as Hd; [by rewrite get_app_l by lia|].
  replace (k - i) with (zlen src + (k - (i + zlen src))) by lia.
  rewrite get_app_r by lia. unfold get.
  destruct (Z.ltb_spec (k - (i + zlen src)) 0), (Z.ltb_spec k 0); try lia.
  rewrite lookup_drop. by replace (Z.to_nat (i + zlen src) + _)%nat with (Z.to_nat k) by lia.
Qed.

Lemma holds_blit b i src b' : blit b i src = Ok b' -> holds b' i src.
Proof.
  intros H k c Hk. rewrite (get_blit _ _ _ _ _ H). apply lookup_lt_Some in Hk as Hl.
  rewrite decide_True by (unfold zlen; lia). unfold get.
  destruct (Z.ltb_spec (i + Z.of_nat k - i) 0); [lia|].
  replace (Z.to_nat (i + Z.of_nat k - i)) with k by lia. by rewrite Hk.
Qed.

Lemma holds_blit_other b i src b' j l :
  blit b i src = Ok b' -> j + zlen l <= i \/ i + zlen src <= j ->
  holds b j l -> holds b' j l.
Proof.
  intros H Hj Hl k c Hk. rewrite (get_blit _ _ _ _ _ H). apply lookup_lt_Some in Hk as Hlt.
  rewrite decide_False by (unfold zlen in *; lia). by apply Hl.
Qed.

Lemma slice_holds b i n l : slice b i n = Ok l -> holds b i l /\ zlen l = n.
Proof.
  unfold slice. case_match eqn:E; [|done]. intros [= <-].
  assert (0 <= i /\ 0 <= n /\ i + n <= zlen b) as (H1 & H2 & H3) by lia. split.
  - intros k c Hk. unfold get. destruct (Z.ltb_spec (i + Z.of_nat k) 0); [lia|].
    apply lookup_take_Some in Hk as [Hk _]. rewrite lookup_drop in Hk.
    replace (Z.to_nat (i + Z.of_nat k)) with (Z.to_nat i + k)%nat by lia. by rewrite Hk.
  - rewrite zlen_take; [done|]. rewrite zlen_drop; lia.
Qed.

Lemma holds_eq b i l l' : holds b i l -> holds b i l' -> zlen l = zlen l' -> l = l'.
Proof.
  unfold zlen. intros H1 H2 Hl. apply (list_eq_same_length _ _ (length l)); [lia|done|].
  intros k x y _ Hx Hy. apply H1 in Hx. apply H2 in Hy. congruence.
Qed.

Lemma holds_take_drop b i l :
  holds b i l -> 0 <= i -> i + zlen l <= zlen b ->
  take (Z.to_nat (zlen l)) (drop (Z.to_nat i) b) = l.
Proof.
  intros H H0 H1. destruct (slice_ok b i (zlen l)) as (l' & Hs & Hl);
    [done|apply zlen_nonneg|done|].
  pose proof (slice_holds _ _ _ _ Hs) as [Hh _]. unfold slice in Hs.
  case_match; [|done]. injection Hs as ->. by eapply holds_eq.
Qed.

Lemma holds_app_prefix b i l1 l2 : holds b i (l1 ++ l2) -> holds b i l1.
Proof. intros H k c Hk. apply H. by apply lookup_app_l_Some. Qed.

Lemma holds_app_suffix b i l1 l2 : holds b i (l1 ++ l2) -> holds b (i + zlen l1) l2.
Proof.
  intros H k c Hk. rewrite <- (H (length l1 + k)%nat c).
  - f_equal. unfold zlen. lia.
  - rewrite lookup_app_r by lia. by replace (length l1 + k - length l1)%nat with k by lia.
Qed.

Lemma holds_split b i l :
  holds b i l -> 0 <= i -> i + zlen l <= zlen b ->
  b = take (Z.to_nat i) b ++ l ++ drop (Z.to_nat (i + zlen l)) b.
Proof.
  intros H H0 H1. rewrite <- (take_drop (Z.to_nat i) b) at 1. f_equal.
  rewrite <- (take_drop (Z.to_nat (zlen l)) (drop (Z.to_nat i) b)) at 1.
  rewrite (holds_take_drop b i l) by done. f_equal. rewrite drop_drop. f_equal.
  pose proof (zlen_nonneg l). lia.
Qed.

Lemma holds_slice b i l :
  holds b i l -> 0 <= i -> i + zlen l <= zlen b -> slice b i (zlen l) = Ok l.
Proof.
  intros H H0 H1. destruct (slice_ok b i (zlen l)) as (l' & Hs & Hl);
    [done|apply zlen_nonneg|done|].
  rewrite Hs. apply slice_holds in Hs as [Hs _]. f_equal. by eapply holds_eq.
Qed.

(** Straight-line code needs no fuel. *)
Definition fuelless {A} (r : res A) : Prop := r <> NoFuel.

Lemma fuelless_bind {A B} (r : res A) (f : A -> res B) :
  fuelless r -> (forall a, fuelless (f a)) -> fuelless (r ≫= f).
Proof. destruct r; [intros _ H; apply H|done|done]. Qed.

Lemma fuelless_Ok {A} (a : A) : fuelless (Ok a).
Proof. done. Qed.

Lemma fuelless_get b i : fuelless (get b i).
Proof. unfold get. by repeat case_match. Qed.

Lemma fuelless_slice b i n : fuelless (slice b i n).
Proof. unfold slice. by case_match. Qed.

Lemma fuelless_blit b i src : fuelless (blit b i src).
Proof. unfold blit. by case_match. Qed.

Lemma fuelless_Fault {A} (r : res A) :
  fuelless r -> (forall a, r <> Ok a) -> r = Fault.
Proof. destruct r; [|done|done]. naive_solver. Qed.

#[export] Hint Resolve fuelless_Ok fuelless_get fuelless_slice fuelless_blit : nginx.

#[export] Hint Rewrite @zlen_nil @zlen_cons @zlen_app @zlen_replicate : zlen.
#[export] Hint Resolve @zlen_nonneg : nginx.

Lemma u8_byte z : is_byte (u8 z).
Proof. apply Z.mod_pos_bound. lia. Qed.

Lemma u8_id z : is_byte z -> u8 z = z.
Proof. apply Z.mod_small. Qed.

#[export] Hint Resolve u8_byte : nginx.

(** Concrete bytes. *)
Lemma bytes_check l : forallb (fun z => between 0 255 z) l = true -> bytes l.
Proof.
  rewrite forallb_forall. intros H. apply Forall_forall. intros z Hz.
  apply list_elem_of_In in Hz. apply H in Hz. unfold between in Hz. lia.
Qed.

Lemma u16_id z : 0 <= z < 65536 -> u16 z = z.
Proof. apply Z.mod_small. Qed.

Lemma u32_id z : 0 <= z < 4294967296 -> u32 z = z.
Proof. apply Z.mod_small. Qed.

Lemma u64_id z : 0 <= z < 18446744073709551616 -> u64 z = z.
Proof. apply Z.mod_small. Qed.

Lemma signed64_id z : -9223372036854775808 <= z < 9223372036854775808 -> signed64 z = z.
Proof.
  intros Hz. unfold signed64. destruct (decide (0 <= z)).
  - rewrite u64_id by lia. destruct (Z.ltb_spec z 9223372036854775808); lia.
  - assert (u64 z = z + 18446744073709551616) as ->.
    { unfold u64. rewrite <- (Z.mod_add z 1), Z.mod_small; lia. }
    destruct (Z.ltb_spec (z + 18446744073709551616) 9223372036854775808); lia.
Qed.

Lemma u64_sub a b : u64 (u64 a - b) = u64 (a - b).
Proof. unfold u64. by rewrite Zminus_mod_idemp_l. Qed.

Lemma u64_add a b : u64 (u64 a + b) = u64 (a + b).
Proof. unfold u64. by rewrite Zplus_mod_idemp_l. Qed.

(** [t[i]] for an index that the code masks to the size of the table. *)
Definition table_at (t : list Z) (i : Z) : Z := nth (Z.to_nat i) t 0.

(** ** Bit ranges *)

Lemma land_shiftl_small a b n :
  0 <= n -> 0 <= a < 2 ^ n -> Z.land a (Z.shiftl b n) = 0.
Proof.
  intros Hn Ha. apply Z.bits_inj'. intros i Hi.
  rewrite Z.land_spec, Z.shiftl_spec, Z.bits_0 by lia.
  destruct (Z.ltb_spec i n).
  - by rewrite (Z.testbit_neg_r b) by lia; rewrite andb_false_r.
  - rewrite <- (Z.mod_small a (2 ^ n)), Z.mod_pow2_bits_high by lia. done.
Qed.

(** Joining disjoint bit ranges is an addition. *)
Lemma lor_shiftl_add a b n :
  0 <= n -> 0 <= a < 2 ^ n -> Z.lor a (Z.shiftl b n) = a + b * 2 ^ n.
Proof.
  intros Hn Ha. rewrite <- Z.add_nocarry_lor by (by apply land_shiftl_small).
  by rewrite Z.shiftl_mul_pow2.
Qed.

(** A mask of the low bits is a remainder. *)
Lemma land_low a m n : 0 <= n -> m = Z.ones n -> Z.land a m = a mod 2 ^ n.
Proof. intros Hn ->. by apply Z.land_ones. Qed.

Lemma shiftl_lor_add a b n :
  0 <= n -> 0 <= b < 2 ^ n -> Z.lor (Z.shiftl a n) b = a * 2 ^ n + b.
Proof. intros. rewrite Z.lor_comm, lor_shiftl_add by lia. lia. Qed.
