(* ===== verification/Crc.v ===== *)
(** * CRC-32

    The checksums of [src/core/ngx_crc32.c], [src/core/ngx_crc32.h] and the
    private copy in [src/stream/ngx_stream_probe.c]: the three tables, the
    byte-wise and nibble-wise loops, and their equivalence with the bit-wise
    definition of the reflected CRC-32 polynomial. *)

From S2P Require Import Prelude.

(** ** Tables *)

Definition crc32_table : list Z :=
  [
   0x00000000; 0x77073096; 0xee0e612c; 0x990951ba; 0x076dc419; 0x706af48f;
   0xe963a535; 0x9e6495a3; 0x0edb8832; 0x79dcb8a4; 0xe0d5e91e; 0x97d2d988;
   0x09b64c2b; 0x7eb17cbd; 0xe7b82d07; 0x90bf1d91; 0x1db71064; 0x6ab020f2;
   0xf3b97148; 0x84be41de; 0x1adad47d; 0x6ddde4eb; 0xf4d4b551; 0x83d385c7;
   0x136c9856; 0x646ba8c0; 0xfd62f97a; 0x8a65c9ec; 0x14015c4f; 0x63066cd9;
   0xfa0f3d63; 0x8d080df5; 0x3b6e20c8; 0x4c69105e; 0xd56041e4; 0xa2677172;
   0x3c03e4d1; 0x4b04d447; 0xd20d85fd; 0xa50ab56b; 0x35b5a8fa; 0x42b2986c;
   0xdbbbc9d6; 0xacbcf940; 0x32d86ce3; 0x45df5c75; 0xdcd60dcf; 0xabd13d59;
   0x26d930ac; 0x51de003a; 0xc8d75180; 0xbfd06116; 0x21b4f4b5; 0x56b3c423;
   0xcfba9599; 0xb8bda50f; 0x2802b89e; 0x5f058808; 0xc60cd9b2; 0xb10be924;
   0x2f6f7c87; 0x58684c11; 0xc1611dab; 0xb6662d3d; 0x76dc4190; 0x01db7106;
   0x98d220bc; 0xefd5102a; 0x71b18589; 0x06b6b51f; 0x9fbfe4a5; 0xe8b8d433;
   0x7807c9a2; 0x0f00f934; 0x9609a88e; 0xe10e9818; 0x7f6a0dbb; 0x086d3d2d;
   0x91646c97; 0xe6635c01; 0x6b6b51f4; 0x1c6c6162; 0x856530d8; 0xf262004e;
   0x6c0695ed; 0x1b01a57b; 0x8208f4c1; 0xf50fc457; 0x65b0d9c6; 0x12b7e950;
   0x8bbeb8ea; 0xfcb9887c; 0x62dd1ddf; 0x15da2d49; 0x8cd37cf3; 0xfbd44c65;
   0x4db26158; 0x3ab551ce; 0xa3bc0074; 0xd4bb30e2; 0x4adfa541; 0x3dd895d7;
   0xa4d1c46d; 0xd3d6f4fb; 0x4369e96a; 0x346ed9fc; 0xad678846; 0xda60b8d0;
   0x44042d73; 0x33031de5; 0xaa0a4c5f; 0xdd0d7cc9; 0x5005713c; 0x270241aa;
   0xbe0b1010; 0xc90c2086; 0x5768b525; 0x206f85b3; 0xb966d409; 0xce61e49f;
   0x5edef90e; 0x29d9c998; 0xb0d09822; 0xc7d7a8b4; 0x59b33d17; 0x2eb40d81;
   0xb7bd5c3b; 0xc0ba6cad; 0xedb88320; 0x9abfb3b6; 0x03b6e20c; 0x74b1d29a;
   0xead54739; 0x9dd277af; 0x04db2615; 0x73dc1683; 0xe3630b12; 0x94643b84;
   0x0d6d6a3e; 0x7a6a5aa8; 0xe40ecf0b; 0x9309ff9d; 0x0a00ae27; 0x7d079eb1;
   0xf00f9344; 0x8708a3d2; 0x1e01f268; 0x6906c2fe; 0xf762575d; 0x806567cb;
   0x196c3671; 0x6e6b06e7; 0xfed41b76; 0x89d32be0; 0x10da7a5a; 0x67dd4acc;
   0xf9b9df6f; 0x8ebeeff9; 0x17b7be43; 0x60b08ed5; 0xd6d6a3e8; 0xa1d1937e;
   0x38d8c2c4; 0x4fdff252; 0xd1bb67f1; 0xa6bc5767; 0x3fb506dd; 0x48b2364b;
   0xd80d2bda; 0xaf0a1b4c; 0x36034af6; 0x41047a60; 0xdf60efc3; 0xa867df55;
   0x316e8eef; 0x4669be79; 0xcb61b38c; 0xbc66831a; 0x256fd2a0; 0x5268e236;
   0xcc0c7795; 0xbb0b4703; 0x220216b9; 0x5505262f; 0xc5ba3bbe; 0xb2bd0b28;
   0x2bb45a92; 0x5cb36a04; 0xc2d7ffa7; 0xb5d0cf31; 0x2cd99e8b; 0x5bdeae1d;
   0x9b64c2b0; 0xec63f226; 0x756aa39c; 0x026d930a; 0x9c0906a9; 0xeb0e363f;
   0x72076785; 0x05005713; 0x95bf4a82; 0xe2b87a14; 0x7bb12bae; 0x0cb61b38;
   0x92d28e9b; 0xe5d5be0d; 0x7cdcefb7; 0x0bdbdf21; 0x86d3d2d4; 0xf1d4e242;
   0x68ddb3f8; 0x1fda836e; 0x81be16cd; 0xf6b9265b; 0x6fb077e1; 0x18b74777;
   0x88085ae6; 0xff0f6a70; 0x66063bca; 0x11010b5c; 0x8f659eff; 0xf862ae69;
   0x616bffd3; 0x166ccf45; 0xa00ae278; 0xd70dd2ee; 0x4e048354; 0x3903b3c2;
   0xa7672661; 0xd06016f7; 0x4969474d; 0x3e6e77db; 0xaed16a4a; 0xd9d65adc;
   0x40df0b66; 0x37d83bf0; 0xa9bcae53; 0xdebb9ec5; 0x47b2cf7f; 0x30b5ffe9;
   0xbdbdf21c; 0xcabac28a; 0x53b39330; 0x24b4a3a6; 0xbad03605; 0xcdd70693;
   0x54de5729; 0x23d967bf; 0xb3667a2e; 0xc4614ab8; 0x5d681b02; 0x2a6f2b94;
   0xb40bbe37; 0xc30c8ea1; 0x5a05df1b; 0x2d02ef8d].

Definition ngx_crc32_table256 : list Z :=
  [
   0x00000000; 0x77073096; 0xee0e612c; 0x990951ba; 0x076dc419; 0x706af48f;
   0xe963a535; 0x9e6495a3; 0x0edb8832; 0x79dcb8a4; 0xe0d5e91e; 0x97d2d988;
   0x09b64c2b; 0x7eb17cbd; 0xe7b82d07; 0x90bf1d91; 0x1db71064; 0x6ab020f2;
   0xf3b97148; 0x84be41de; 0x1adad47d; 0x6ddde4eb; 0xf4d4b551; 0x83d385c7;
   0x136c9856; 0x646ba8c0; 0xfd62f97a; 0x8a65c9ec; 0x14015c4f; 0x63066cd9;
   0xfa0f3d63; 0x8d080df5; 0x3b6e20c8; 0x4c69105e; 0xd56041e4; 0xa2677172;
   0x3c03e4d1; 0x4b04d447; 0xd20d85fd; 0xa50ab56b; 0x35b5a8fa; 0x42b2986c;
   0xdbbbc9d6; 0xacbcf940; 0x32d86ce3; 0x45df5c75; 0xdcd60dcf; 0xabd13d59;
   0x26d930ac; 0x51de003a; 0xc8d75180; 0xbfd06116; 0x21b4f4b5; 0x56b3c423;
   0xcfba9599; 0xb8bda50f; 0x2802b89e; 0x5f058808; 0xc60cd9b2; 0xb10be924;
   0x2f6f7c87; 0x58684c11; 0xc1611dab; 0xb6662d3d; 0x76dc4190; 0x01db7106;
   0x98d220bc; 0xefd5102a; 0x71b18589; 0x06b6b51f; 0x9fbfe4a5; 0xe8b8d433;
   0x7807c9a2; 0x0f00f934; 0x9609a88e; 0xe10e9818; 0x7f6a0dbb; 0x086d3d2d;
   0x91646c97; 0xe6635c01; 0x6b6b51f4; 0x1c6c6162; 0x856530d8; 0xf262004e;
   0x6c0695ed; 0x1b01a57b; 0x8208f4c1; 0xf50fc457; 0x65b0d9c6; 0x12b7e950;
   0x8bbeb8ea; 0xfcb9887c; 0x62dd1ddf; 0x15da2d49; 0x8cd37cf3; 0xfbd44c65;
   0x4db26158; 0x3ab551ce; 0xa3bc0074; 0xd4bb30e2; 0x4adfa541; 0x3dd895d7;
   0xa4d1c46d; 0xd3d6f4fb; 0x4369e96a; 0x346ed9fc; 0xad678846; 0xda60b8d0;
   0x44042d73; 0x33031de5; 0xaa0a4c5f; 0xdd0d7cc9; 0x5005713c; 0x270241aa;
   0xbe0b1010; 0xc90c2086; 0x5768b525; 0x206f85b3; 0xb966d409; 0xce61e49f;
   0x5edef90e; 0x29d9c998; 0xb0d09822; 0xc7d7a8b4; 0x59b33d17; 0x2eb40d81;
   0xb7bd5c3b; 0xc0ba6cad; 0xedb88320; 0x9abfb3b6; 0x03b6e20c; 0x74b1d29a;
   0xead54739; 0x9dd277af; 0x04db2615; 0x73dc1683; 0xe3630b12; 0x94643b84;
   0x0d6d6a3e; 0x7a6a5aa8; 0xe40ecf0b; 0x9309ff9d; 0x0a00ae27; 0x7d079eb1;
   0xf00f9344; 0x8708a3d2; 0x1e01f268; 0x6906c2fe; 0xf762575d; 0x806567cb;
   0x196c3671; 0x6e6b06e7; 0xfed41b76; 0x89d32be0; 0x10da7a5a; 0x67dd4acc;
   0xf9b9df6f; 0x8ebeeff9; 0x17b7be43; 0x60b08ed5; 0xd6d6a3e8; 0xa1d1937e;
   0x38d8c2c4; 0x4fdff252; 0xd1bb67f1; 0xa6bc5767; 0x3fb506dd; 0x48b2364b;
   0xd80d2bda; 0xaf0a1b4c; 0x36034af6; 0x41047a60; 0xdf60efc3; 0xa867df55;
   0x316e8eef; 0x4669be79; 0xcb61b38c; 0xbc66831a; 0x256fd2a0; 0x5268e236;
   0xcc0c7795; 0xbb0b4703; 0x220216b9; 0x5505262f; 0xc5ba3bbe; 0xb2bd0b28;
   0x2bb45a92; 0x5cb36a04; 0xc2d7ffa7; 0xb5d0cf31; 0x2cd99e8b; 0x5bdeae1d;
   0x9b64c2b0; 0xec63f226; 0x756aa39c; 0x026d930a; 0x9c0906a9; 0xeb0e363f;
   0x72076785; 0x05005713; 0x95bf4a82; 0xe2b87a14; 0x7bb12bae; 0x0cb61b38;
   0x92d28e9b; 0xe5d5be0d; 0x7cdcefb7; 0x0bdbdf21; 0x86d3d2d4; 0xf1d4e242;
   0x68ddb3f8; 0x1fda836e; 0x81be16cd; 0xf6b9265b; 0x6fb077e1; 0x18b74777;
   0x88085ae6; 0xff0f6a70; 0x66063bca; 0x11010b5c; 0x8f659eff; 0xf862ae69;
   0x616bffd3; 0x166ccf45; 0xa00ae278; 0xd70dd2ee; 0x4e048354; 0x3903b3c2;
   0xa7672661; 0xd06016f7; 0x4969474d; 0x3e6e77db; 0xaed16a4a; 0xd9d65adc;
   0x40df0b66; 0x37d83bf0; 0xa9bcae53; 0xdebb9ec5; 0x47b2cf7f; 0x30b5ffe9;
   0xbdbdf21c; 0xcabac28a; 0x53b39330; 0x24b4a3a6; 0xbad03605; 0xcdd70693;
   0x54de5729; 0x23d967bf; 0xb3667a2e; 0xc4614ab8; 0x5d681b02; 0x2a6f2b94;
   0xb40bbe37; 0xc30c8ea1; 0x5a05df1b; 0x2d02ef8d].

Definition ngx_crc32_table16 : list Z :=
  [
   0x00000000; 0x1db71064; 0x3b6e20c8; 0x26d930ac; 0x76dc4190; 0x6b6b51f4;
   0x4db26158; 0x5005713c; 0xedb88320; 0xf00f9344; 0xd6d6a3e8; 0xcb61b38c;
   0x9b64c2b0; 0x86d3d2d4; 0xa00ae278; 0xbdbdf21c].

(** ** Loops *)

(** One iteration of the byte-wise loops over a 256-entry table [t]. *)
Definition crc_byte (t : list Z) (crc c : Z) : Z :=
  Z.lxor (table_at t (Z.land (Z.lxor crc c) 0xff)) (Z.shiftr crc 8).

(** [ngx_get_crc32] of the probe: [size] bytes from the start of [data]. *)
Definition ngx_get_crc32 (data : list Z) (size : Z) : res Z :=
  p ← slice data 0 size;
  let crc := fold_left (crc_byte crc32_table) p 0xFFFFFFFF in
  Ok (Z.lxor crc 0xFFFFFFFF).

(** One iteration of [ngx_crc32_short]: the low nibble, then the high one. *)
Definition crc_nibbles (crc c : Z) : Z :=
  let crc := Z.lxor (table_at ngx_crc32_table16
               (Z.land (Z.lxor crc (Z.land c 0xf)) 0xf)) (Z.shiftr crc 4) in
  Z.lxor (table_at ngx_crc32_table16
    (Z.land (Z.lxor crc (Z.shiftr c 4)) 0xf)) (Z.shiftr crc 4).

Definition ngx_crc32_short (p : list Z) : Z :=
  Z.lxor (fold_left crc_nibbles p 0xffffffff) 0xffffffff.

Definition ngx_crc32_long (p : list Z) : Z :=
  Z.lxor (fold_left (crc_byte ngx_crc32_table256) p 0xffffffff) 0xffffffff.

Definition ngx_crc32_init : Z := 0xffffffff.

Definition ngx_crc32_update (crc : Z) (p : list Z) : Z :=
  fold_left (crc_byte ngx_crc32_table256) p crc.

Definition ngx_crc32_final (crc : Z) : Z := Z.lxor crc 0xffffffff.

(** ** Reference: the reflected polynomial, one bit at a time *)

Definition POLY : Z := 0xedb88320.

Definition crc_step (c : Z) : Z :=
  Z.lxor (Z.shiftr c 1) (if Z.odd c then POLY else 0).

Definition crc_steps (n : nat) (c : Z) : Z := Nat.iter n crc_step c.

Definition crc32_ref (p : list Z) : Z :=
  Z.lxor (fold_left (fun crc c => crc_steps 8 (Z.lxor crc c)) p 0xffffffff)
    0xffffffff.

(** ** The step is linear, and a shift on multiples of a power of two *)

Lemma crc_step_lxor a b : crc_step (Z.lxor a b) = Z.lxor (crc_step a) (crc_step b).
Proof.
  unfold crc_step. rewrite Z.shiftr_lxor.
  replace (Z.odd (Z.lxor a b)) with (xorb (Z.odd a) (Z.odd b))
    by (by rewrite <- !Z.bit0_odd, Z.lxor_spec).
  apply Z.bits_inj'. intros n Hn. rewrite !Z.lxor_spec.
  destruct (Z.odd a), (Z.odd b); cbn [xorb]; rewrite ?Z.bits_0;
    destruct (Z.testbit (Z.shiftr a 1) n), (Z.testbit (Z.shiftr b 1) n),
      (Z.testbit POLY n); reflexivity.
Qed.

Lemma crc_steps_lxor n a b :
  crc_steps n (Z.lxor a b) = Z.lxor (crc_steps n a) (crc_steps n b).
Proof.
  induction n as [|n IH]; [done|]. unfold crc_steps in *. simpl.
  by rewrite IH, crc_step_lxor.
Qed.

Lemma crc_step_double c : crc_step (Z.shiftl c 1) = c.
Proof.
  unfold crc_step. rewrite Z.shiftl_mul_pow2 by lia.
  rewrite Z.odd_mul. simpl. rewrite andb_false_r, Z.lxor_0_r.
  rewrite Z.shiftr_div_pow2 by lia. apply Z.div_mul. lia.
Qed.

Lemma crc_steps_shiftl n c : crc_steps n (Z.shiftl c (Z.of_nat n)) = c.
Proof.
  revert c. induction n as [|n IH]; intros c; [apply Z.shiftl_0_r|].
  unfold crc_steps in *. rewrite Nat.iter_succ_r.
  replace (Z.of_nat (S n)) with (Z.of_nat n + 1) by lia.
  rewrite <- Z.shiftl_shiftl by lia. by rewrite crc_step_double.
Qed.

Lemma crc_steps_add n m c : crc_steps (n + m) c = crc_steps n (crc_steps m c).
Proof. apply Nat.iter_add. Qed.

(** A number is its low bits and its high bits. *)
Lemma lxor_split n c : 0 <= n ->
  c = Z.lxor (Z.land c (Z.ones n)) (Z.shiftl (Z.shiftr c n) n).
Proof.
  intros Hn. apply Z.bits_inj'. intros i Hi.
  rewrite Z.lxor_spec, Z.land_spec, Z.shiftl_spec by lia.
  destruct (Z.ltb_spec i n).
  - rewrite Z.ones_spec_low, (Z.testbit_neg_r _ (i - n)) by lia.
    by rewrite andb_true_r, xorb_false_r.
  - rewrite Z.ones_spec_high, Z.shiftr_spec by lia.
    rewrite andb_false_r, xorb_false_l. f_equal. lia.
Qed.

Lemma crc_steps_split n c :
  crc_steps n c =
  Z.lxor (crc_steps n (Z.land c (Z.ones (Z.of_nat n)))) (Z.shiftr c (Z.of_nat n)).
Proof.
  rewrite (lxor_split (Z.of_nat n) c) at 1 by lia.
  by rewrite crc_steps_lxor, crc_steps_shiftl.
Qed.

(** ** The tables hold the steps of their index *)

Definition table_ok (n : nat) (t : list Z) : bool :=
  forallb (fun i => table_at t (Z.of_nat i) =? crc_steps n (Z.of_nat i))
    (seq 0 (Nat.pow 2 n)).

Lemma table_ok_at n t c :
  table_ok n t = true ->
  table_at t (Z.land c (Z.ones (Z.of_nat n)))
  = crc_steps n (Z.land c (Z.ones (Z.of_nat n))).
Proof.
  unfold table_ok. rewrite forallb_forall. intros H.
  set (i := Z.land c _). assert (0 <= i < 2 ^ Z.of_nat n) as Hi.
  { unfold i. rewrite Z.land_ones by lia.
    apply Z.mod_pos_bound, Z.pow_pos_nonneg; lia. }
  specialize (H (Z.to_nat i)). rewrite Z2Nat.id in H by lia.
  apply Z.eqb_eq, H, in_seq.
  assert (Z.of_nat (Nat.pow 2 n) = 2 ^ Z.of_nat n) by (rewrite Nat2Z.inj_pow; done).
  lia.
Qed.

Lemma crc32_table_steps : table_ok 8 crc32_table = true.
Proof. vm_compute. reflexivity. Qed.

Lemma ngx_crc32_table256_steps : table_ok 8 ngx_crc32_table256 = true.
Proof. vm_compute. reflexivity. Qed.

Lemma ngx_crc32_table16_steps : table_ok 4 ngx_crc32_table16 = true.
Proof. vm_compute. reflexivity. Qed.

(** ** Each iteration is eight steps *)

Lemma shiftr_byte_xor crc c n :
  Z.shiftr c n = 0 -> Z.shiftr crc n = Z.shiftr (Z.lxor crc c) n.
Proof. intros H. by rewrite Z.shiftr_lxor, H, Z.lxor_0_r. Qed.

Lemma byte_shiftr8 c : is_byte c -> Z.shiftr c 8 = 0.
Proof. intros. rewrite Z.shiftr_div_pow2 by lia. by apply Z.div_small. Qed.

Lemma crc_byte_steps t crc c :
  table_ok 8 t = true -> is_byte c ->
  crc_byte t crc c = crc_steps 8 (Z.lxor crc c).
Proof.
  intros Ht Hc. unfold crc_byte.
  rewrite (crc_steps_split 8), <- (table_ok_at 8 t) by done.
  f_equal. apply shiftr_byte_xor, byte_shiftr8, Hc.
Qed.

(** One table look-up by a nibble is four steps. *)
Lemma crc_nibble_steps crc d :
  Z.shiftr d 4 = 0 ->
  Z.lxor (table_at ngx_crc32_table16 (Z.land (Z.lxor crc d) 0xf)) (Z.shiftr crc 4)
  = crc_steps 4 (Z.lxor crc d).
Proof.
  intros Hd. rewrite (crc_steps_split 4).
  rewrite <- (table_ok_at 4 _ _ ngx_crc32_table16_steps).
  f_equal. by apply shiftr_byte_xor.
Qed.

Lemma crc_nibbles_steps crc c :
  is_byte c -> crc_nibbles crc c = crc_steps 8 (Z.lxor crc c).
Proof.
  intros Hc. unfold crc_nibbles. cbv zeta.
  assert (Z.shiftr (Z.land c 0xf) 4 = 0) as H1 by (by rewrite Z.shiftr_land, Z.land_0_r).
  assert (Z.shiftr (Z.shiftr c 4) 4 = 0) as H2
    by (rewrite Z.shiftr_shiftr by lia; by apply byte_shiftr8).
  rewrite !(crc_nibble_steps crc _ H1), (crc_nibble_steps _ _ H2).
  rewrite (crc_steps_add 4 4). f_equal.
  rewrite (lxor_split 4 c) at 3 by lia.
  rewrite <- Z.lxor_assoc, (crc_steps_lxor 4 _ (Z.shiftl _ _)).
  by rewrite (crc_steps_shiftl 4).
Qed.

(** Two loops whose iterations agree on bytes agree on byte strings. *)
Lemma fold_left_bytes (f g : Z -> Z -> Z) p crc :
  (forall crc c, is_byte c -> f crc c = g crc c) -> bytes p ->
  fold_left f p crc = fold_left g p crc.
Proof.
  intros Hfg Hp. revert crc. induction Hp as [|c p Hc _ IH]; intros crc; [done|].
  simpl. by rewrite Hfg, IH.
Qed.

Lemma crc32_long_ref p : bytes p -> ngx_crc32_long p = crc32_ref p.
Proof.
  intros Hp. unfold ngx_crc32_long, crc32_ref. f_equal.
  apply fold_left_bytes; [|done]. intros crc c Hc.
  apply crc_byte_steps; [apply ngx_crc32_table256_steps|done].
Qed.

(** ** Properties *)

(** C10: The table-driven checksums compute CRC-32: [ngx_get_crc32] of the probe on the
    bytes in front of any position of its data, [ngx_crc32_short], which reads a 16-entry
    table twice per byte, [ngx_crc32_long], which reads a 256-entry table once, and the
    incremental interface on any cut of the bytes in two all return the value that is
    computed bit by bit. *)
Theorem probe_crc32_correct (p q rest : list Z) :
  bytes p -> bytes q ->
  ngx_get_crc32 (p ++ q ++ rest) (zlen p + zlen q) = Ok (crc32_ref (p ++ q)) /\
  ngx_crc32_short (p ++ q) = crc32_ref (p ++ q) /\
  ngx_crc32_long (p ++ q) = crc32_ref (p ++ q) /\
  ngx_crc32_final (ngx_crc32_update (ngx_crc32_update ngx_crc32_init p) q) = crc32_ref (p ++ q).
Proof.
  intros Hp Hq. assert (bytes (p ++ q)) as Hb by (by apply Forall_app).
  split; [|split; [|split; [by apply crc32_long_ref|]]].
  - unfold ngx_get_crc32. rewrite app_assoc. rewrite <- (app_nil_l ((p ++ q) ++ rest)).
    rewrite slice_app, Ok_bind; [|done|by rewrite zlen_app]. f_equal. unfold crc32_ref. f_equal.
    apply fold_left_bytes; [|done]. intros crc c Hc. apply crc_byte_steps; [apply crc32_table_steps|done].
  - unfold ngx_crc32_short, crc32_ref. f_equal. by apply fold_left_bytes; [apply crc_nibbles_steps|].
  - rewrite <- crc32_long_ref by done.
    unfold ngx_crc32_final, ngx_crc32_update, ngx_crc32_long, ngx_crc32_init. by rewrite fold_left_app.
Qed.

Lemma probe_crc32_correct_witness :
  ngx_get_crc32 (str "123456789") 9 = Ok 0xcbf43926 /\
  ngx_crc32_short (str "1234" ++ str "56789") = ngx_crc32_long (str "1234" ++ str "56789").
Proof.
  destruct (probe_crc32_correct (str "1234") (str "56789") []) as (H1 & H2 & H3 & _);
    [vm_compute; repeat constructor; intros [=]..|].
  split; [|by rewrite H2, H3].
  change (ngx_get_crc32 (str "123456789") 9) with (ngx_get_crc32 (str "1234" ++ str "56789" ++ []) (zlen (str "1234") + zlen (str "56789"))).
  rewrite H1. vm_compute. reflexivity.
Defined.
