(* ===== verification/NetBytes.v ===== *)
(** * Network byte order

    The getters and setters of [src/stream/ngx_stream_probe.c]: every access
    to a multi-byte field of a STUN, DTLS or RTP packet goes through them. *)

From S2P Require Import Prelude.

(** ** Getters *)

Definition ngx_get_1_byte (data : list Z) (i : Z) : res Z := get data i.

Definition ngx_get_2_bytes (data : list Z) (i : Z) : res Z :=
  b1 ← get data (i + 1);
  b0 ← get data i;
  Ok (Z.lor b1 (Z.shiftl b0 8)).

Definition ngx_get_3_bytes (data : list Z) (i : Z) : res Z :=
  b2 ← get data (i + 2);
  b1 ← get data (i + 1);
  b0 ← get data i;
  Ok (Z.lor (Z.lor b2 (Z.shiftl b1 8)) (Z.shiftl b0 16)).

Definition ngx_get_4_bytes (data : list Z) (i : Z) : res Z :=
  b3 ← get data (i + 3);
  b2 ← get data (i + 2);
  b1 ← get data (i + 1);
  b0 ← get data i;
  Ok (Z.lor (Z.lor (Z.lor b3 (Z.shiftl b2 8)) (Z.shiftl b1 16)) (Z.shiftl b0 24)).

Definition ngx_get_8_bytes (data : list Z) (i : Z) : res Z :=
  hi ← ngx_get_4_bytes data i;
  lo ← ngx_get_4_bytes data (i + 4);
  Ok (Z.lor (Z.shiftl hi 32) lo).

(** ** Setters *)

Definition ngx_set_1_byte (data : list Z) (i value : Z) : res (list Z) :=
  put data i (u8 value).

Definition ngx_set_2_bytes (data : list Z) (i value : Z) : res (list Z) :=
  data ← put data (i + 1) (u8 value);
  put data i (u8 (Z.shiftr value 8)).

Definition ngx_set_3_bytes (data : list Z) (i value : Z) : res (list Z) :=
  data ← put data (i + 2) (u8 value);
  data ← put data (i + 1) (u8 (Z.shiftr value 8));
  put data i (u8 (Z.shiftr value 16)).

Definition ngx_set_4_bytes (data : list Z) (i value : Z) : res (list Z) :=
  data ← put data (i + 3) (u8 value);
  data ← put data (i + 2) (u8 (Z.shiftr value 8));
  data ← put data (i + 1) (u8 (Z.shiftr value 16));
  put data i (u8 (Z.shiftr value 24)).

Definition ngx_set_8_bytes (data : list Z) (i value : Z) : res (list Z) :=
  data ← put data (i + 7) (u8 value);
  data ← put data (i + 6) (u8 (Z.shiftr value 8));
  data ← put data (i + 5) (u8 (Z.shiftr value 16));
  data ← put data (i + 4) (u8 (Z.shiftr value 24));
  data ← put data (i + 3) (u8 (Z.shiftr value 32));
  data ← put data (i + 2) (u8 (Z.shiftr value 40));
  data ← put data (i + 1) (u8 (Z.shiftr value 48));
  put data i (u8 (Z.shiftr value 56)).

(** ** Specification: the big-endian digits of a number *)

Fixpoint be (n : nat) (v : Z) : list Z :=
  match n with
  | O => []
  | S n => u8 (Z.shiftr v (8 * Z.of_nat n)) :: be n v
  end.

Lemma length_be n v : length (be n v) = n.
Proof. induction n; simpl; auto. Qed.

Lemma zlen_be n v : zlen (be n v) = Z.of_nat n.
Proof. unfold zlen. by rewrite length_be. Qed.

Lemma be_bytes n v : bytes (be n v).
Proof. induction n; constructor; auto with nginx. Qed.

Lemma put_app pre c v post i :
  i = zlen pre -> put (pre ++ c :: post) i v = Ok (pre ++ v :: post).
Proof. intros. by apply (blit_app pre [c] post [v]). Qed.

(** A store at a known distance behind a prefix. *)
Lemma put_behind pre l v i k :
  i = zlen pre + Z.of_nat k -> (k < length l)%nat ->
  put (pre ++ l) i v = Ok (pre ++ <[k := v]> l).
Proof.
  intros -> Hk.
  destruct (lookup_lt_is_Some_2 l k Hk) as [c Hc].
  rewrite insert_take_drop by done.
  rewrite <- (take_drop_middle l k c Hc) at 1. rewrite !app_assoc.
  apply put_app. rewrite zlen_app. unfold zlen. rewrite length_take. lia.
Qed.

(** The setters write the digits. *)
Ltac setter_tac :=
  intros Hl ->;
  repeat match goal with
  | H : length ?l = S _ |- _ => destruct l; simplify_eq/=
  | H : length ?l = O |- _ => destruct l; simplify_eq/=
  end;
  rewrite <- ?app_comm_cons; cbn [app].

Lemma set_2_app pre old post i v :
  length old = 2%nat -> i = zlen pre ->
  ngx_set_2_bytes (pre ++ old ++ post) i v = Ok (pre ++ be 2 v ++ post).
Proof.
  setter_tac. unfold ngx_set_2_bytes.
  rewrite (put_behind pre _ _ _ 1) by (simpl; lia). rewrite Ok_bind.
  rewrite (put_behind pre _ _ _ 0) by (simpl; lia). reflexivity.
Qed.

Lemma set_3_app pre old post i v :
  length old = 3%nat -> i = zlen pre ->
  ngx_set_3_bytes (pre ++ old ++ post) i v = Ok (pre ++ be 3 v ++ post).
Proof.
  setter_tac. unfold ngx_set_3_bytes.
  rewrite (put_behind pre _ _ _ 2) by (simpl; lia). rewrite Ok_bind.
  rewrite (put_behind pre _ _ _ 1) by (simpl; lia). rewrite Ok_bind.
  rewrite (put_behind pre _ _ _ 0) by (simpl; lia). reflexivity.
Qed.

Lemma set_4_app pre old post i v :
  length old = 4%nat -> i = zlen pre ->
  ngx_set_4_bytes (pre ++ old ++ post) i v = Ok (pre ++ be 4 v ++ post).
Proof.
  setter_tac. unfold ngx_set_4_bytes.
  rewrite (put_behind pre _ _ _ 3) by (simpl; lia). rewrite Ok_bind.
  rewrite (put_behind pre _ _ _ 2) by (simpl; lia). rewrite Ok_bind.
  rewrite (put_behind pre _ _ _ 1) by (simpl; lia). rewrite Ok_bind.
  rewrite (put_behind pre _ _ _ 0) by (simpl; lia). reflexivity.
Qed.

Lemma set_8_app pre old post i v :
  length old = 8%nat -> i = zlen pre ->
  ngx_set_8_bytes (pre ++ old ++ post) i v = Ok (pre ++ be 8 v ++ post).
Proof.
  setter_tac. unfold ngx_set_8_bytes.
  rewrite (put_behind pre _ _ _ 7) by (simpl; lia). rewrite Ok_bind.
  rewrite (put_behind pre _ _ _ 6) by (simpl; lia). rewrite Ok_bind.
  rewrite (put_behind pre _ _ _ 5) by (simpl; lia). rewrite Ok_bind.
  rewrite (put_behind pre _ _ _ 4) by (simpl; lia). rewrite Ok_bind.
  rewrite (put_behind pre _ _ _ 3) by (simpl; lia). rewrite Ok_bind.
  rewrite (put_behind pre _ _ _ 2) by (simpl; lia). rewrite Ok_bind.
  rewrite (put_behind pre _ _ _ 1) by (simpl; lia). rewrite Ok_bind.
  rewrite (put_behind pre _ _ _ 0) by (simpl; lia). reflexivity.
Qed.

(** ** Getters read what setters wrote *)

Lemma lor_bytes_2 a b :
  is_byte a -> is_byte b -> Z.lor a (Z.shiftl b 8) = a + b * 256.
Proof. intros. by rewrite lor_shiftl_add by lia. Qed.

Lemma lor_bytes_3 a b c :
  is_byte a -> is_byte b -> is_byte c ->
  Z.lor (Z.lor a (Z.shiftl b 8)) (Z.shiftl c 16) = a + b * 256 + c * 65536.
Proof. intros. rewrite lor_bytes_2, lor_shiftl_add by lia. lia. Qed.

Lemma lor_bytes_4 a b c d :
  is_byte a -> is_byte b -> is_byte c -> is_byte d ->
  Z.lor (Z.lor (Z.lor a (Z.shiftl b 8)) (Z.shiftl c 16)) (Z.shiftl d 24)
  = a + b * 256 + c * 65536 + d * 16777216.
Proof. intros. rewrite lor_bytes_3, lor_shiftl_add by lia. lia. Qed.

(** A read at a known distance behind a prefix. *)
Lemma get_behind pre l i k c :
  i = zlen pre + Z.of_nat k -> l !! k = Some c -> get (pre ++ l) i = Ok c.
Proof.
  intros -> Hk. rewrite get_app_r by lia. unfold get.
  destruct (Z.ltb_spec (Z.of_nat k) 0); [lia|]. by rewrite Nat2Z.id, Hk.
Qed.

Ltac get_at i k := erewrite (get_behind _ _ i k) by first [lia | reflexivity].

Lemma get_2_raw pre a b post i :
  i = zlen pre -> is_byte a -> is_byte b ->
  ngx_get_2_bytes (pre ++ a :: b :: post) i = Ok (a * 256 + b).
Proof.
  intros. unfold ngx_get_2_bytes. get_at (i + 1) 1%nat. get_at i 0%nat.
  rewrite !Ok_bind, lor_bytes_2 by done. f_equal. lia.
Qed.

Lemma get_3_raw pre a b c post i :
  i = zlen pre -> is_byte a -> is_byte b -> is_byte c ->
  ngx_get_3_bytes (pre ++ a :: b :: c :: post) i = Ok (a * 65536 + b * 256 + c).
Proof.
  intros. unfold ngx_get_3_bytes. get_at (i + 2) 2%nat. get_at (i + 1) 1%nat. get_at i 0%nat.
  rewrite !Ok_bind, lor_bytes_3 by done. f_equal. lia.
Qed.

Lemma get_4_raw pre a b c d post i :
  i = zlen pre -> is_byte a -> is_byte b -> is_byte c -> is_byte d ->
  ngx_get_4_bytes (pre ++ a :: b :: c :: d :: post) i
  = Ok (a * 16777216 + b * 65536 + c * 256 + d).
Proof.
  intros. unfold ngx_get_4_bytes. get_at (i + 3) 3%nat. get_at (i + 2) 2%nat. get_at (i + 1) 1%nat.
  get_at i 0%nat. rewrite !Ok_bind, lor_bytes_4 by done. f_equal. lia.
Qed.

Lemma get_8_raw pre a b c d e f g h post i :
  i = zlen pre -> bytes [a; b; c; d; e; f; g; h] ->
  ngx_get_8_bytes (pre ++ a :: b :: c :: d :: e :: f :: g :: h :: post) i
  = Ok ((a * 16777216 + b * 65536 + c * 256 + d) * 4294967296
        + (e * 16777216 + f * 65536 + g * 256 + h)).
Proof.
  intros Hi Hb. repeat (apply Forall_cons in Hb as [? Hb]). unfold ngx_get_8_bytes.
  rewrite (get_4_raw pre _ _ _ _ _ i) by done. rewrite Ok_bind.
  rewrite (app_assoc pre [a; b; c; d] (e :: f :: g :: h :: post)) at 1.
  rewrite (get_4_raw (pre ++ [a; b; c; d])) by
    (rewrite ?zlen_app, ?Hi; done).
  rewrite Ok_bind, Z.lor_comm, lor_shiftl_add by lia. f_equal. lia.
Qed.

Ltac be_value := cbn [be app]; rewrite !Z.shiftr_div_pow2 by lia; cbn -[Z.div];
  f_equal; width_lia.

Lemma get_2_be pre v post i :
  i = zlen pre -> 0 <= v < 65536 ->
  ngx_get_2_bytes (pre ++ be 2 v ++ post) i = Ok v.
Proof.
  intros. cbn [be app]. rewrite get_2_raw by auto with nginx. be_value.
Qed.

Lemma get_3_be pre v post i :
  i = zlen pre -> 0 <= v < 16777216 ->
  ngx_get_3_bytes (pre ++ be 3 v ++ post) i = Ok v.
Proof.
  intros. cbn [be app]. rewrite get_3_raw by auto with nginx. be_value.
Qed.

Lemma get_4_be pre v post i :
  i = zlen pre -> 0 <= v < 4294967296 ->
  ngx_get_4_bytes (pre ++ be 4 v ++ post) i = Ok v.
Proof.
  intros. cbn [be app]. rewrite get_4_raw by auto with nginx. be_value.
Qed.

Lemma get_8_be pre v post i :
  i = zlen pre -> 0 <= v < 18446744073709551616 ->
  ngx_get_8_bytes (pre ++ be 8 v ++ post) i = Ok v.
Proof.
  intros. cbn [be app]. rewrite get_8_raw by (done || (repeat constructor; apply u8_byte)).
  be_value.
Qed.

(** ** Reads inside the buffer succeed, in range *)

Ltac getter_tac b :=
  repeat match goal with
  | |- context [get b ?i] =>
      let c := fresh "c" in let H := fresh "H" in
      destruct (get_ok b i) as [c H]; [lia|];
      rewrite H, ?Ok_bind;
      let Hc := fresh "Hc" in
      assert (bytes b -> is_byte c) as Hc by (intros; by eapply get_byte)
  end.

Lemma get_2_ok b i :
  0 <= i -> i + 2 <= zlen b ->
  exists v, ngx_get_2_bytes b i = Ok v /\ (bytes b -> 0 <= v < 65536).
Proof.
  intros. unfold ngx_get_2_bytes. getter_tac b.
  eexists. split; [done|]. intros Hb.
  specialize (Hc Hb). specialize (Hc0 Hb). rewrite lor_bytes_2 by done. lia.
Qed.

Lemma get_3_ok b i :
  0 <= i -> i + 3 <= zlen b -> exists v, ngx_get_3_bytes b i = Ok v.
Proof. intros. unfold ngx_get_3_bytes. getter_tac b. eauto. Qed.

Lemma get_4_ok b i :
  0 <= i -> i + 4 <= zlen b ->
  exists v, ngx_get_4_bytes b i = Ok v /\ (bytes b -> 0 <= v < 4294967296).
Proof.
  intros. unfold ngx_get_4_bytes. getter_tac b.
  eexists. split; [done|]. intros Hb.
  specialize (Hc Hb). specialize (Hc0 Hb). specialize (Hc1 Hb). specialize (Hc2 Hb).
  rewrite lor_bytes_4 by done. lia.
Qed.

Lemma get_8_ok b i :
  0 <= i -> i + 8 <= zlen b ->
  exists v, ngx_get_8_bytes b i = Ok v /\
            (bytes b -> 0 <= v < 18446744073709551616).
Proof.
  intros. unfold ngx_get_8_bytes.
  destruct (get_4_ok b i) as (hi & -> & Hhi); [lia..|].
  destruct (get_4_ok b (i + 4)) as (lo & -> & Hlo); [lia..|].
  rewrite !Ok_bind. eexists. split; [done|]. intros Hb.
  specialize (Hhi Hb). specialize (Hlo Hb).
  rewrite Z.lor_comm, lor_shiftl_add by lia. lia.
Qed.
