(* ===== verification/OpenSSL.v ===== *)
(** * The OpenSSL interface

    The probe calls OpenSSL for HMAC-SHA1 and takes three array sizes from its
    headers. OpenSSL is not part of the repository: what the code relies on is
    this class, and the theorems hold for every instance of it. *)

From S2P Require Import Prelude.

Class OpenSSL := {
  (** [HMAC(EVP_sha1(), key, data)]; [None] when an HMAC call fails. *)
  HMAC_SHA1 : list Z -> list Z -> option (list Z);
  (** A digest has 20 bytes. *)
  HMAC_SHA1_bytes : forall key data tag,
    HMAC_SHA1 key data = Some tag -> zlen tag = 20 /\ bytes tag;
  SSL3_RANDOM_SIZE : Z;
  SSL_MAX_SSL_SESSION_ID_LENGTH : Z;
  DTLS1_COOKIE_LENGTH : Z;
  (** The sizes of the TLS and DTLS specifications. *)
  SSL3_RANDOM_SIZE_32 : SSL3_RANDOM_SIZE = 32;
  SSL_MAX_SSL_SESSION_ID_LENGTH_32 : SSL_MAX_SSL_SESSION_ID_LENGTH = 32;
  DTLS1_COOKIE_LENGTH_255 : 255 <= DTLS1_COOKIE_LENGTH
}.

(** A concrete instance, on which definitions compute: a digest that sums the
    key and the data. *)
Definition toy_hmac (key data : list Z) : option (list Z) :=
  Some (replicate 20 (u8 (fold_left Z.add (key ++ data) 0))).

Lemma toy_hmac_bytes key data tag :
  toy_hmac key data = Some tag -> zlen tag = 20 /\ bytes tag.
Proof.
  intros [= <-]. split; [reflexivity|]. repeat constructor; apply u8_byte.
Qed.

Definition OpenSSL_toy : OpenSSL := {|
    HMAC_SHA1 := toy_hmac;
    HMAC_SHA1_bytes := toy_hmac_bytes;
    SSL3_RANDOM_SIZE := 32;
    SSL_MAX_SSL_SESSION_ID_LENGTH := 32;
    DTLS1_COOKIE_LENGTH := 255;
    SSL3_RANDOM_SIZE_32 := eq_refl;
    SSL_MAX_SSL_SESSION_ID_LENGTH_32 := eq_refl;
    DTLS1_COOKIE_LENGTH_255 := Z.le_refl 255
  |}.
