(* ===== verification/Stun.v ===== *)
(** * STUN messages

    The packet structure of [src/stream/ngx_stream_probe.h] and
    [ngx_stun_parse] of [src/stream/ngx_stream_probe.c]: parsing is memory safe
    and terminates on every datagram; the 16-bit position makes the bound of
    that theorem necessary. *)

From S2P Require Import Prelude Crc NetBytes.

(** ** Constants of [ngx_stream_probe.h] *)

Definition REQUEST : Z := 0.
Definition INDICATION : Z := 1.
Definition SUCCESS_RESPONSE : Z := 2.
Definition ERROR_RESPONSE : Z := 3.

Definition BINDING : Z := 1.

Definition USERNAME : Z := 0x0006.
Definition MESSAGE_INTEGRITY : Z := 0x0008.
Definition ERROR_CODE : Z := 0x0009.
Definition XOR_MAPPED_ADDRESS : Z := 0x0020.
Definition PRIORITY : Z := 0x0024.
Definition USE_CANDIDATE : Z := 0x0025.
Definition FINGERPRINT : Z := 0x8028.
Definition ICE_CONTROLLED : Z := 0x8029.
Definition ICE_CONTROLLING : Z := 0x802A.
Definition NOMINATION : Z := 0xC001.

Definition stun_magic_cookie : list Z := [0x21; 0x12; 0xA4; 0x42].

(** [sizeof(packet->username)] *)
Definition username_size : Z := 513.

(** ** Data

    The pointers of a packet lead into the received datagram or into the
    buffer that the reply is written to. *)

Inductive buffer_id := Received | Reply.

Record ptr := Ptr { p_buf : buffer_id; p_off : Z }.

(** [struct sockaddr]: the port and the address as the bytes in memory. *)
Inductive sockaddr :=
| Sa_inet (sin_port sin_addr : list Z)
| Sa_inet6 (sin6_port sin6_addr : list Z)
| Sa_other.

Record stun_packet := Packet {
  klass : Z  (* enum stun_class *);
  method : Z  (* enum stun_method *);
  transaction_id : option ptr  (* 12 bytes *);
  data : option ptr  (* the message *);
  size : Z  (* full message size *);
  username : list Z  (* char[513] *);
  username_len : Z;
  priority : Z;
  ice_controlling : Z;
  ice_controlled : Z;
  has_nomination : Z  (* uint8_t flag *);
  nomination : Z;
  has_use_candidate : Z  (* uint8_t flag *);
  message_integrity : option ptr  (* 20 bytes *);
  has_fingerprint : Z;
  xor_mapped_address : option sockaddr;
  error_code : Z;
  password : list Z  (* char[64] *);
  password_len : Z
}.

Definition set_klass (v : Z) (p : stun_packet) : stun_packet :=
  Packet v (method p) (transaction_id p) (data p) (size p) (username p)
    (username_len p) (priority p) (ice_controlling p) (ice_controlled p)
    (has_nomination p) (nomination p) (has_use_candidate p)
    (message_integrity p) (has_fingerprint p) (xor_mapped_address p)
    (error_code p) (password p) (password_len p).

Definition set_method (v : Z) (p : stun_packet) : stun_packet :=
  Packet (klass p) v (transaction_id p) (data p) (size p) (username p)
    (username_len p) (priority p) (ice_controlling p) (ice_controlled p)
    (has_nomination p) (nomination p) (has_use_candidate p)
    (message_integrity p) (has_fingerprint p) (xor_mapped_address p)
    (error_code p) (password p) (password_len p).

Definition set_transaction_id (v : option ptr) (p : stun_packet) : stun_packet :=
  Packet (klass p) (method p) v (data p) (size p) (username p)
    (username_len p) (priority p) (ice_controlling p) (ice_controlled p)
    (has_nomination p) (nomination p) (has_use_candidate p)
    (message_integrity p) (has_fingerprint p) (xor_mapped_address p)
    (error_code p) (password p) (password_len p).

Definition set_data (v : option ptr) (p : stun_packet) : stun_packet :=
  Packet (klass p) (method p) (transaction_id p) v (size p) (username p)
    (username_len p) (priority p) (ice_controlling p) (ice_controlled p)
    (has_nomination p) (nomination p) (has_use_candidate p)
    (message_integrity p) (has_fingerprint p) (xor_mapped_address p)
    (error_code p) (password p) (password_len p).

Definition set_size (v : Z) (p : stun_packet) : stun_packet :=
  Packet (klass p) (method p) (transaction_id p) (data p) v (username p)
    (username_len p) (priority p) (ice_controlling p) (ice_controlled p)
    (has_nomination p) (nomination p) (has_use_candidate p)
    (message_integrity p) (has_fingerprint p) (xor_mapped_address p)
    (error_code p) (password p) (password_len p).

Definition set_priority (v : Z) (p : stun_packet) : stun_packet :=
  Packet (klass p) (method p) (transaction_id p) (data p) (size p)
    (username p) (username_len p) v (ice_controlling p) (ice_controlled p)
    (has_nomination p) (nomination p) (has_use_candidate p)
    (message_integrity p) (has_fingerprint p) (xor_mapped_address p)
    (error_code p) (password p) (password_len p).

Definition set_ice_controlling (v : Z) (p : stun_packet) : stun_packet :=
  Packet (klass p) (method p) (transaction_id p) (data p) (size p)
    (username p) (username_len p) (priority p) v (ice_controlled p)
    (has_nomination p) (nomination p) (has_use_candidate p)
    (message_integrity p) (has_fingerprint p) (xor_mapped_address p)
    (error_code p) (password p) (password_len p).

Definition set_ice_controlled (v : Z) (p : stun_packet) : stun_packet :=
  Packet (klass p) (method p) (transaction_id p) (data p) (size p)
    (username p) (username_len p) (priority p) (ice_controlling p) v
    (has_nomination p) (nomination p) (has_use_candidate p)
    (message_integrity p) (has_fingerprint p) (xor_mapped_address p)
    (error_code p) (password p) (password_len p).

Definition set_has_use_candidate (v : Z) (p : stun_packet) : stun_packet :=
  Packet (klass p) (method p) (transaction_id p) (data p) (size p)
    (username p) (username_len p) (priority p) (ice_controlling p)
    (ice_controlled p) (has_nomination p) (nomination p) v
    (message_integrity p) (has_fingerprint p) (xor_mapped_address p)
    (error_code p) (password p) (password_len p).

Definition set_message_integrity (v : option ptr) (p : stun_packet) : stun_packet :=
  Packet (klass p) (method p) (transaction_id p) (data p) (size p)
    (username p) (username_len p) (priority p) (ice_controlling p)
    (ice_controlled p) (has_nomination p) (nomination p)
    (has_use_candidate p) v (has_fingerprint p) (xor_mapped_address p)
    (error_code p) (password p) (password_len p).

Definition set_has_fingerprint (v : Z) (p : stun_packet) : stun_packet :=
  Packet (klass p) (method p) (transaction_id p) (data p) (size p)
    (username p) (username_len p) (priority p) (ice_controlling p)
    (ice_controlled p) (has_nomination p) (nomination p)
    (has_use_candidate p) (message_integrity p) v (xor_mapped_address p)
    (error_code p) (password p) (password_len p).

Definition set_error_code (v : Z) (p : stun_packet) : stun_packet :=
  Packet (klass p) (method p) (transaction_id p) (data p) (size p)
    (username p) (username_len p) (priority p) (ice_controlling p)
    (ice_controlled p) (has_nomination p) (nomination p)
    (has_use_candidate p) (message_integrity p) (has_fingerprint p)
    (xor_mapped_address p) v (password p) (password_len p).

Definition set_username (v : list Z) (p : stun_packet) : stun_packet :=
  Packet (klass p) (method p) (transaction_id p) (data p) (size p) v
    (username_len p) (priority p) (ice_controlling p) (ice_controlled p)
    (has_nomination p) (nomination p) (has_use_candidate p)
    (message_integrity p) (has_fingerprint p) (xor_mapped_address p)
    (error_code p) (password p) (password_len p).

Definition set_username_len (v : Z) (p : stun_packet) : stun_packet :=
  Packet (klass p) (method p) (transaction_id p) (data p) (size p)
    (username p) v (priority p) (ice_controlling p) (ice_controlled p)
    (has_nomination p) (nomination p) (has_use_candidate p)
    (message_integrity p) (has_fingerprint p) (xor_mapped_address p)
    (error_code p) (password p) (password_len p).

Definition set_has_nomination (v : Z) (p : stun_packet) : stun_packet :=
  Packet (klass p) (method p) (transaction_id p) (data p) (size p)
    (username p) (username_len p) (priority p) (ice_controlling p)
    (ice_controlled p) v (nomination p) (has_use_candidate p)
    (message_integrity p) (has_fingerprint p) (xor_mapped_address p)
    (error_code p) (password p) (password_len p).

Definition set_nomination (v : Z) (p : stun_packet) : stun_packet :=
  Packet (klass p) (method p) (transaction_id p) (data p) (size p)
    (username p) (username_len p) (priority p) (ice_controlling p)
    (ice_controlled p) (has_nomination p) v (has_use_candidate p)
    (message_integrity p) (has_fingerprint p) (xor_mapped_address p)
    (error_code p) (password p) (password_len p).

(** ** Parsing *)

(** [ngx_pad_to_4_bytes_from_2_bytes]: argument and result are [uint16_t]. *)
Definition ngx_pad_to_4_bytes_from_2_bytes (size : Z) : Z :=
  if Z.land size 0x03 =? 0 then size else u16 (Z.land size 0xFFFC + 4).

(** The local variables of [ngx_stun_parse]. *)
Record parse_state := Parse {
  ps_pos : Z;
  ps_has_message_integrity : bool;
  ps_has_fingerprint : bool;
  ps_fingerprint_attr_pos : Z;
  ps_fingerprint : Z;
  ps_packet : stun_packet
}.

Definition with_packet (st : parse_state) (p : stun_packet) : parse_state :=
  Parse st.(ps_pos) st.(ps_has_message_integrity) st.(ps_has_fingerprint)
    st.(ps_fingerprint_attr_pos) st.(ps_fingerprint) p.

Definition with_pos (st : parse_state) (pos : Z) : parse_state :=
  Parse pos st.(ps_has_message_integrity) st.(ps_has_fingerprint)
    st.(ps_fingerprint_attr_pos) st.(ps_fingerprint) st.(ps_packet).

(** [packet->username] after [memcpy] and the terminating zero. *)
Definition copy_username (data : list Z) (val len : Z) (p : stun_packet)
    : res stun_packet :=
  src ← slice data val len;
  u ← blit p.(username) 0 src;
  u ← put u len 0;
  Ok (set_username_len len (set_username u p)).

(** The [switch] on the attribute type; [None] stands for
    [return NGX_ERROR], which every case takes before it changes the packet. *)
Definition stun_attr (data : list Z) (attr_type attr_length : Z)
    (st : parse_state) : res (option parse_state) :=
  let p := st.(ps_packet) in
  let val := st.(ps_pos) + 4 in
  if attr_type =? USERNAME then
    if username_size <=? attr_length then Ok None
    else p ← copy_username data val attr_length p; Ok (Some (with_packet st p))
  else if attr_type =? PRIORITY then
    if negb (attr_length =? 4) then Ok None
    else v ← ngx_get_4_bytes data val;
         Ok (Some (with_packet st (set_priority v p)))
  else if attr_type =? ICE_CONTROLLING then
    if negb (attr_length =? 8) then Ok None
    else v ← ngx_get_8_bytes data val;
         Ok (Some (with_packet st (set_ice_controlling v p)))
  else if attr_type =? ICE_CONTROLLED then
    if negb (attr_length =? 8) then Ok None
    else v ← ngx_get_8_bytes data val;
         Ok (Some (with_packet st (set_ice_controlled v p)))
  else if attr_type =? USE_CANDIDATE then
    if negb (attr_length =? 0) then Ok None
    else Ok (Some (with_packet st (set_has_use_candidate 1 p)))
  else if attr_type =? NOMINATION then
    if negb (attr_length =? 4) then Ok None
    else v ← ngx_get_4_bytes data val;
         Ok (Some (with_packet st (set_nomination v (set_has_nomination 1 p))))
  else if attr_type =? MESSAGE_INTEGRITY then
    if negb (attr_length =? 20) then Ok None
    else Ok (Some (Parse st.(ps_pos) true st.(ps_has_fingerprint)
                     st.(ps_fingerprint_attr_pos) st.(ps_fingerprint)
                     (set_message_integrity (Some (Ptr Received val)) p)))
  else if attr_type =? FINGERPRINT then
    if negb (attr_length =? 4) then Ok None
    else v ← ngx_get_4_bytes data val;
         Ok (Some (Parse st.(ps_pos) st.(ps_has_message_integrity) true
                     st.(ps_pos) v (set_has_fingerprint 1 p)))
  else if attr_type =? ERROR_CODE then
    if attr_length <? 4 then Ok None
    else error_class ← ngx_get_1_byte data (val + 2);
         error_number ← ngx_get_1_byte data (val + 3);
         Ok (Some (with_packet st
              (set_error_code (u16 (error_class * 100 + error_number)) p)))
  else Ok (Some st).

(** One iteration of the attribute loop. *)
Definition stun_parse_step (data : list Z) (len : Z) (st : parse_state)
    : res (option parse_state) :=
  attr_type ← ngx_get_2_bytes data st.(ps_pos);
  attr_length ← ngx_get_2_bytes data (st.(ps_pos) + 2);
  if len <? st.(ps_pos) + 4 + attr_length then Ok None
  else if st.(ps_has_fingerprint) then Ok None
  else if st.(ps_has_message_integrity) && negb (attr_type =? FINGERPRINT)
  then Ok None
  else
    r ← stun_attr data attr_type attr_length st;
    match r with
    | None => Ok None
    | Some st' =>
        Ok (Some (with_pos st' (ngx_pad_to_4_bytes_from_2_bytes
                                  (u16 (st.(ps_pos) + 4 + attr_length)))))
    end.

(** The loop: [inl p] is [return NGX_ERROR] with the packet as it is then. *)
Fixpoint stun_parse_loop (fuel : nat) (data : list Z) (len : Z)
    (st : parse_state) : res (stun_packet + parse_state) :=
  if st.(ps_pos) + 4 <=? len then
    match fuel with
    | O => NoFuel
    | S fuel =>
        r ← stun_parse_step data len st;
        match r with
        | None => Ok (inl st.(ps_packet))
        | Some st' => stun_parse_loop fuel data len st'
        end
    end
  else Ok (inr st).

(** [ngx_stun_parse] with the loop given [fuel] iterations: the return code
    and the packet. *)
Definition ngx_stun_parse_fuel (fuel : nat) (packet : stun_packet)
    (data : list Z) (len : Z) : res (Z * stun_packet) :=
  msg_type ← ngx_get_2_bytes data 0;
  msg_length ← ngx_get_2_bytes data 2;
  if negb (msg_length =? u64 (len - 20)) || negb (Z.land msg_length 0x03 =? 0)
  then Ok (NGX_ERROR, packet)
  else
    let msg_method := Z.lor (Z.lor (Z.land msg_type 0x000f)
                               (Z.shiftr (Z.land msg_type 0x00e0) 1))
                        (Z.shiftr (Z.land msg_type 0x3E00) 2) in
    d0 ← get data 0;
    d1 ← get data 1;
    let msg_class := Z.lor (Z.shiftl (Z.land d0 0x01) 1)
                       (Z.shiftr (Z.land d1 0x10) 4) in
    let packet := set_transaction_id (Some (Ptr Received 8))
                    (set_method msg_method (set_klass msg_class packet)) in
    r ← stun_parse_loop fuel data len (Parse 20 false false 0 0 packet);
    match r with
    | inl packet => Ok (NGX_ERROR, packet)
    | inr st =>
        if negb (st.(ps_pos) =? len) then Ok (NGX_ERROR, st.(ps_packet))
        else if st.(ps_has_fingerprint) then
          crc ← ngx_get_crc32 data st.(ps_fingerprint_attr_pos);
          if negb (st.(ps_fingerprint) =? Z.lxor crc 0x5354554e)
          then Ok (NGX_ERROR, st.(ps_packet))
          else Ok (NGX_OK, st.(ps_packet))
        else Ok (NGX_OK, st.(ps_packet))
    end.

(** Each iteration consumes at least four bytes ([stun_parse_total]), so one
    unit of fuel per byte is enough. *)
Definition ngx_stun_parse (packet : stun_packet) (data : list Z) (len : Z)
    : res (Z * stun_packet) :=
  ngx_stun_parse_fuel (Z.to_nat len) packet data len.

(** ** Padding *)

Lemma land_3 x : Z.land x 0x03 = x mod 4.
Proof. apply (Z.land_ones x 2). lia. Qed.

Lemma land_FFFC x : 0 <= x < 65536 -> Z.land x 0xFFFC = 4 * (x / 4).
Proof.
  intros Hx. change 0xFFFC with (Z.shiftl (Z.ones 14) 2).
  rewrite (lxor_split 2 x) at 1 by lia.
  rewrite Z.land_comm, Z.mul_comm. change 4 with (2 ^ 2).
  rewrite <- Z.shiftr_div_pow2, <- Z.shiftl_mul_pow2 by lia.
  rewrite <- (lxor_split 2 x) by lia.
  apply Z.bits_inj'. intros i Hi. rewrite Z.land_spec, !Z.shiftl_spec by lia.
  destruct (Z.ltb_spec i 2); [by rewrite !(Z.testbit_neg_r _ (i - 2)) by lia|].
  rewrite Z.shiftr_spec by lia. replace (i - 2 + 2) with i by lia.
  destruct (Z.ltb_spec i 16).
  - by rewrite Z.ones_spec_low by lia.
  - rewrite <- (Z.mod_small x (2 ^ 16)), Z.mod_pow2_bits_high by lia.
    apply andb_false_r.
Qed.

Lemma pad_spec x :
  0 <= x <= 65532 -> ngx_pad_to_4_bytes_from_2_bytes x = 4 * ((x + 3) / 4).
Proof.
  intros Hx. unfold ngx_pad_to_4_bytes_from_2_bytes.
  rewrite land_3, land_FFFC by lia.
  destruct (Z.eqb_spec (x mod 4) 0); width_lia.
Qed.

(** ** Parsing is safe and terminates *)

Section parse_total.
Context (data : list Z) (len : Z).
Context (Hdata : bytes data) (Hlen : zlen data = len).
Context (Hlen16 : 0 <= len <= 65532) (Hlen4 : len mod 4 = 0).

Definition packet_wf (p : stun_packet) : Prop := zlen p.(username) = username_size.

(** The invariant of the attribute loop. *)
Definition state_wf (st : parse_state) : Prop :=
  0 <= st.(ps_pos) /\ 0 <= st.(ps_fingerprint_attr_pos) <= len /\
  packet_wf st.(ps_packet).

Lemma copy_username_ok val n p :
  0 <= val -> 0 <= n < username_size -> val + n <= len -> packet_wf p ->
  exists p', copy_username data val n p = Ok p' /\ packet_wf p'.
Proof.
  intros. unfold copy_username, packet_wf in *.
  destruct (slice_ok data val n) as (src & -> & Hsrc); [lia..|]. rewrite Ok_bind.
  destruct (blit_ok p.(username) 0 src) as [u Hu]; [lia..|].
  rewrite Hu, Ok_bind. apply zlen_blit in Hu.
  destruct (blit_ok u n [0]) as [u' Hu']; [lia|rewrite zlen_cons, zlen_nil; lia|].
  unfold put. rewrite Hu', Ok_bind. apply zlen_blit in Hu'.
  eexists. split; [done|]. simpl. lia.
Qed.

(** Every case of the switch stays inside the attribute. *)
Lemma stun_attr_ok t n st :
  0 <= n -> st.(ps_pos) + 4 + n <= len -> state_wf st ->
  exists r, stun_attr data t n st = Ok r /\
    match r with Some st' => state_wf st' | None => True end.
Proof.
  intros Hn Hfit (Hpos & Hfp & Hwf). unfold stun_attr.
  repeat case_match;
    try (eexists; split; [done|]; simpl; done);
    repeat match goal with
    | H : negb (?a =? ?b) = false |- _ =>
        apply negb_false_iff, Z.eqb_eq in H; subst
    end.
  all: unfold ngx_get_1_byte;
    repeat match goal with
    | |- context [copy_username data ?v ?m ?p] =>
        destruct (copy_username_ok v m p) as (? & -> & ?); [lia || done..|]
    | |- context [ngx_get_4_bytes data ?i] =>
        destruct (get_4_ok data i) as (? & -> & _); [lia..|]
    | |- context [ngx_get_8_bytes data ?i] =>
        destruct (get_8_ok data i) as (? & -> & _); [lia..|]
    | |- context [get data ?i] => destruct (get_ok data i) as (? & ->); [lia|]
    end; rewrite ?Ok_bind;
    (eexists; split; [done|]); repeat split; simpl; lia || done.
Qed.

(** An iteration advances by at least four bytes and not past the end. *)
Lemma stun_parse_step_ok st :
  st.(ps_pos) + 4 <= len -> state_wf st ->
  exists r, stun_parse_step data len st = Ok r /\
    match r with
    | Some st' => st.(ps_pos) + 4 <= st'.(ps_pos) <= len /\ state_wf st'
    | None => True
    end.
Proof.
  intros Hfit Hwf. unfold stun_parse_step. pose proof Hwf as (Hpos & _ & _).
  destruct (get_2_ok data st.(ps_pos)) as (t & -> & Ht); [lia..|].
  destruct (get_2_ok data (st.(ps_pos) + 2)) as (n & -> & Hn); [lia..|].
  specialize (Hn Hdata). rewrite !Ok_bind.
  destruct (Z.ltb_spec len (st.(ps_pos) + 4 + n)); [by eexists|].
  destruct (ps_has_fingerprint st); [by eexists|].
  destruct (ps_has_message_integrity st && negb (t =? FINGERPRINT)); [by eexists|].
  destruct (stun_attr_ok t n st) as (r & -> & Hr); [lia..|done|].
  rewrite Ok_bind. destruct r as [st'|]; [|by eexists].
  eexists. split; [done|]. destruct Hr as (? & ? & ?). simpl.
  assert (u16 (st.(ps_pos) + 4 + n) = st.(ps_pos) + 4 + n) as ->
    by (apply Z.mod_small; lia).
  unfold state_wf. simpl. rewrite pad_spec by lia.
  Z.to_euclidean_division_equations. repeat split; lia || done.
Qed.

Lemma stun_parse_loop_ok fuel st :
  len - st.(ps_pos) <= Z.of_nat fuel -> state_wf st ->
  exists r, stun_parse_loop fuel data len st = Ok r /\
    match r with inl p => packet_wf p | inr st' => state_wf st' end.
Proof.
  revert st. induction fuel as [|fuel IH]; intros st Hfuel Hwf; simpl.
  all: destruct (Z.leb_spec (st.(ps_pos) + 4) len); [|by eexists].
  - lia.
  - destruct (stun_parse_step_ok st) as (r & -> & Hr); [lia|done|].
    rewrite Ok_bind. destruct r as [st'|].
    + destruct Hr as [? ?]. apply IH; lia || done.
    + eexists. split; [done|]. apply Hwf.
Qed.

(** More fuel than needed does not change the result. *)
Lemma stun_parse_loop_fuel f1 f2 st :
  len - st.(ps_pos) <= Z.of_nat f1 -> len - st.(ps_pos) <= Z.of_nat f2 ->
  state_wf st ->
  stun_parse_loop f1 data len st = stun_parse_loop f2 data len st.
Proof.
  revert f2 st. induction f1 as [|f1 IH]; intros f2 st H1 H2 Hwf;
    destruct f2 as [|f2]; simpl.
  all: destruct (Z.leb_spec (st.(ps_pos) + 4) len); try lia; try done.
  destruct (stun_parse_step_ok st) as (r & -> & Hr); [lia|done|].
  rewrite !Ok_bind. destruct r as [st'|]; [|done].
  destruct Hr as [? ?]. apply IH; lia || done.
Qed.
End parse_total.

(** The checksum of any prefix is computed. *)
Lemma ngx_get_crc32_ok data n :
  0 <= n <= zlen data -> exists crc, ngx_get_crc32 data n = Ok crc.
Proof.
  intros. unfold ngx_get_crc32.
  destruct (slice_ok data 0 n) as (l & -> & _); [lia..|]. by eexists.
Qed.

(** The type and the length are read whatever the size is. *)
Lemma stun_parse_short fuel p data len :
  zlen data = len -> len < 4 -> ngx_stun_parse_fuel fuel p data len = Fault.
Proof.
  intros Hlen H4. unfold ngx_stun_parse_fuel.
  destruct data as [|a [|b [|c [|d data]]]]; try done.
  rewrite !zlen_cons in Hlen. pose proof (zlen_nonneg data). lia.
Qed.

(** The parser returns, with as much fuel as wanted. *)
Lemma stun_parse_returns (fuel : nat) (data : list Z) (len : Z) (p : stun_packet) :
  bytes data -> zlen data = len -> 4 <= len <= 65535 -> packet_wf p ->
  len <= Z.of_nat fuel ->
  exists rc p', ngx_stun_parse_fuel fuel p data len = Ok (rc, p') /\
    (rc = NGX_OK \/ rc = NGX_ERROR) /\ packet_wf p' /\
    ngx_stun_parse p data len = Ok (rc, p').
Proof.
  intros Hb Hlen Hr Hp Hfuel. unfold ngx_stun_parse, ngx_stun_parse_fuel.
  destruct (get_2_ok data 0) as (t & -> & Ht); [lia..|].
  destruct (get_2_ok data 2) as (n & -> & Hn); [lia..|].
  specialize (Hn Hb). rewrite !Ok_bind, land_3.
  destruct (Z.eqb_spec n (u64 (len - 20))) as [Hn1|]; [|by do 2 eexists; auto].
  destruct (Z.eqb_spec (n mod 4) 0) as [Hn2|]; [|by do 2 eexists; auto].
  assert (20 <= len <= 65532 /\ len mod 4 = 0) as [Hlen20 Hlen4].
  { unfold u64 in Hn1. Z.to_euclidean_division_equations. lia. }
  destruct (get_ok data 0) as (d0 & ->); [lia|].
  destruct (get_ok data 1) as (d1 & ->); [lia|].
  rewrite !Ok_bind. cbn [negb orb].
  match goal with |- context [stun_parse_loop fuel data len ?s] => set (st := s) end.
  assert (state_wf len st) as Hst by (repeat split; simpl; lia || done).
  rewrite (stun_parse_loop_fuel data len Hb Hlen) with (f2 := Z.to_nat len) by
    (simpl; lia || done).
  destruct (stun_parse_loop_ok data len Hb Hlen) with (fuel := Z.to_nat len) (st := st)
    as (r & -> & Hwf); [simpl; lia || done..|].
  rewrite !Ok_bind. destruct r as [p'|st']; [by do 2 eexists; auto|].
  destruct Hwf as (? & ? & ?).
  case_match; [by do 2 eexists; auto|]. case_match; [|by do 2 eexists; auto].
  destruct (ngx_get_crc32_ok data st'.(ps_fingerprint_attr_pos)) as (crc & ->); [lia|].
  rewrite !Ok_bind. case_match; do 2 eexists; auto.
Qed.

(** C1: Parsing a datagram of 4 to 65535 bytes reads only the datagram, writes only the
    packet, terminates, and returns [NGX_OK] or [NGX_ERROR]; any amount of fuel from one
    unit per byte on gives the same result. On a shorter datagram the parser reads behind
    its end, because it looks at the type and the length before anything is known of the
    size; the probe calls it only with 40 bytes. *)
Theorem stun_parse_total (fuel : nat) (data : list Z) (len : Z) (p : stun_packet) :
  bytes data -> zlen data = len -> len <= 65535 -> packet_wf p -> len <= Z.of_nat fuel ->
  if 4 <=? len then
    exists rc p', ngx_stun_parse_fuel fuel p data len = Ok (rc, p') /\
      (rc = NGX_OK \/ rc = NGX_ERROR) /\ packet_wf p' /\
      ngx_stun_parse p data len = Ok (rc, p')
  else ngx_stun_parse_fuel fuel p data len = Fault /\ ngx_stun_parse p data len = Fault.
Proof.
  intros Hb Hlen Hmax Hp Hfuel. destruct (Z.leb_spec 4 len).
  - by apply stun_parse_returns; (done || lia).
  - split; by apply stun_parse_short.
Qed.

(** A packet cleared by [ngx_pcalloc]. *)
Definition packet_zero : stun_packet :=
  Packet 0 0 None None 0 (replicate 513 0) 0 0 0 0 0 0 0 None 0 None 0
    (replicate 64 0) 0.

Lemma stun_parse_total_witness :
  exists rc p', ngx_stun_parse_fuel 28 packet_zero
    ([0; 1; 0; 8] ++ stun_magic_cookie ++ str "0123probe:AB" ++ [0; 0x24; 0; 4; 1; 2; 3; 4])
    28 = Ok (rc, p').
Proof.
  destruct (stun_parse_total 28
    ([0; 1; 0; 8] ++ stun_magic_cookie ++ str "0123probe:AB" ++ [0; 0x24; 0; 4; 1; 2; 3; 4])
    28 packet_zero) as (rc & p' & H & _).
  - vm_compute. repeat constructor; intros [=].
  - reflexivity.
  - lia.
  - reflexivity.
  - lia.
  - exists rc, p'. exact H.
Defined.

(** *** The 16-bit position *)

(** A message of 65552 bytes: the header and the first attribute announce
    lengths that move the 16-bit position to 0. *)
Definition wrapping_message (body rest : list Z) : list Z :=
  [0x00; 0x01; 0xFF; 0xFC] ++ body ++ [0x00; 0x01; 0xFF; 0xE8] ++ rest.

(** C8: the position of the next attribute is truncated to 16 bits, so the
    bound of 65535 bytes of [stun_parse_total] is needed: on a message of 65552 bytes whose
    first attribute ends at offset 65536 the loop never ends. *)
Theorem stun_parse_diverges (p : stun_packet) (body rest : list Z) :
  zlen body = 16 -> zlen rest = 65528 -> bytes rest ->
  forall fuel, ngx_stun_parse_fuel fuel p (wrapping_message body rest) 65552 = NoFuel.
Proof.
  intros Hbody Hrest Hb fuel. set (data := wrapping_message body rest).
  set (hdr := [0x00; 0x01; 0xFF; 0xFC] ++ body).
  assert (zlen hdr = 20) as Hhdr by (unfold hdr; rewrite zlen_app, Hbody; done).
  assert (ngx_get_2_bytes data 20 = Ok 1) as H20.
  { change data with (hdr ++ 0x00 :: 0x01 :: 0xFF :: 0xE8 :: rest).
    rewrite get_2_raw by lia. done. }
  assert (ngx_get_2_bytes data 22 = Ok 0xFFE8) as H22.
  { change data with (hdr ++ [0x00; 0x01] ++ 0xFF :: 0xE8 :: rest). rewrite app_assoc.
    rewrite get_2_raw by (rewrite ?zlen_app, ?Hhdr; done). done. }
  assert (ngx_get_2_bytes data 0 = Ok 1 /\ ngx_get_2_bytes data 2 = Ok 0xFFFC)
    as [H0 H2] by done.
  assert (forall q, stun_parse_step data 65552 (Parse 0 false false 0 0 q)
    = Ok (Some (Parse 0 false false 0 0 q))) as Hstep0.
  { intros q. unfold stun_parse_step. cbn [ps_pos].
    change (0 + 2) with 2. by rewrite H0, H2. }
  assert (forall q, stun_parse_step data 65552 (Parse 20 false false 0 0 q)
    = Ok (Some (Parse 0 false false 0 0 q))) as Hstep20.
  { intros q. unfold stun_parse_step. cbn [ps_pos].
    change (20 + 2) with 22. by rewrite H20, H22. }
  assert (forall fuel q, stun_parse_loop fuel data 65552 (Parse 0 false false 0 0 q)
    = NoFuel) as Hloop.
  { intros f. induction f as [|f IH]; intros q; [done|].
    cbn -[data stun_parse_step]. rewrite Hstep0. apply IH. }
  assert (forall q, stun_parse_loop fuel data 65552 (Parse 20 false false 0 0 q)
    = NoFuel) as Hloop20.
  { destruct fuel as [|f]; intros q; [done|].
    cbn -[data stun_parse_step]. rewrite Hstep20. apply Hloop. }
  unfold ngx_stun_parse_fuel. rewrite H0, H2, !Ok_bind.
  change (negb _ || negb _) with false. cbv iota zeta.
  change (get data 0) with (Ok 0). change (get data 1) with (Ok 1).
  by rewrite !Ok_bind, Hloop20.
Qed.

Lemma stun_parse_diverges_witness :
  ngx_stun_parse packet_zero
    (wrapping_message (replicate 16 0) (replicate (Z.to_nat 65528) 0)) 65552 = NoFuel.
Proof.
  apply (stun_parse_diverges packet_zero (replicate 16 0) (replicate (Z.to_nat 65528) 0)).
  - reflexivity.
  - rewrite zlen_replicate. lia.
  - apply Forall_replicate. lia.
Defined.
