(* ===== verification/StunSerialize.v ===== *)
(** * Writing STUN messages

    [ngx_stun_serialize] of [src/stream/ngx_stream_probe.c], one definition per
    attribute; it is refined by a specification that only appends. Messages it
    writes parse back to the packet they were written from. *)

From S2P Require Import Prelude Crc NetBytes OpenSSL Stun.

(** ** Serialising *)

Section serialize.
Context `{OpenSSL}.

(** [ngx_get_hmac_sha1]: [None] is the null pointer. *)
Definition ngx_get_hmac_sha1 (key : list Z) (key_len : Z) (data : list Z)
    (len : Z) : res (option (list Z)) :=
  k ← slice key 0 key_len;
  d ← slice data 0 len;
  Ok (HMAC_SHA1 k d).

(** [buffer[i + j] ^= keys[j]] for each [j] in order. *)
Fixpoint xor_into (buffer : list Z) (i : Z) (keys : list Z) : res (list Z) :=
  match keys with
  | [] => Ok buffer
  | k :: keys =>
      c ← get buffer i;
      buffer ← put buffer i (Z.lxor c k);
      xor_into buffer (i + 1) keys
  end.

Definition add_xor_mapped_address (p : stun_packet) : bool :=
  match p.(xor_mapped_address) with
  | Some _ => (p.(method) =? BINDING) && (p.(klass) =? SUCCESS_RESPONSE)
  | None => false
  end.

Definition add_error_code (p : stun_packet) : bool :=
  negb (p.(error_code) =? 0) && (p.(klass) =? ERROR_RESPONSE).

Definition add_message_integrity (p : stun_packet) : bool :=
  negb (p.(klass) =? ERROR_RESPONSE) && negb (p.(password_len) =? 0).

(** The length of the XOR-MAPPED-ADDRESS value, 0 when it is not added: the
  [default] case clears [add_xor_mapped_address]. *)
Definition xor_mapped_address_padded_len (p : stun_packet) : Z :=
  if add_xor_mapped_address p then
    match p.(xor_mapped_address) with
    | Some (Sa_inet _ _) => 8
    | Some (Sa_inet6 _ _) => 20
    | _ => 0
    end
  else 0.

(** [packet->size] as computed before the size check. *)
Definition stun_size (add_fingerprint : bool) (p : stun_packet) : Z :=
  20
  + (if 0 <? p.(username_len) then 4 + p.(username_len) else 0)
  + (if p.(priority) =? 0 then 0 else 4 + 4)
  + (if p.(ice_controlling) =? 0 then 0 else 4 + 8)
  + (if p.(ice_controlled) =? 0 then 0 else 4 + 8)
  + (if p.(has_use_candidate) =? 0 then 0 else 4)
  + (if xor_mapped_address_padded_len p =? 0 then 0
     else 4 + xor_mapped_address_padded_len p)
  + (if add_error_code p then 4 + 4 else 0)
  + (if add_message_integrity p then 4 + 20 else 0)
  + (if add_fingerprint then 4 + 4 else 0).

(** Merge class and method fields into type. *)
Definition stun_type_field (p : stun_packet) : Z :=
  let m := u16 p.(method) in
  let k := u16 p.(klass) in
  u16 (Z.lor (Z.lor (Z.lor (Z.lor
    (Z.shiftl (Z.land m 0x0f80) 2)
    (Z.shiftl (Z.land m 0x0070) 1))
    (Z.land m 0x000f))
    (Z.shiftl (Z.land k 0x02) 7))
    (Z.shiftl (Z.land k 0x01) 4)).

(** The 12 bytes that [packet->transaction_id] points to; a null or invalid
  pointer faults. *)
Definition transaction_id_bytes (p : stun_packet) (received buffer : list Z)
    : res (list Z) :=
  match p.(transaction_id) with
  | Some (Ptr Received o) => slice received o 12
  | Some (Ptr Reply o) => slice buffer o 12
  | None => Fault
  end.

Definition ser_header (p : stun_packet) (received buffer : list Z)
    : res (list Z) :=
  buffer ← ngx_set_2_bytes buffer 0 (stun_type_field p);
  buffer ← ngx_set_2_bytes buffer 2 (u16 (u16 p.(size) - 20));
  buffer ← blit buffer 4 stun_magic_cookie;
  tid ← transaction_id_bytes p received buffer;
  blit buffer 8 tid.

(** Each of the following writes one attribute, if it is present, at [pos]
  and returns the buffer and the next position. *)

Definition ser_username (p : stun_packet) (buffer : list Z) (pos : Z)
    : res (list Z * Z) :=
  let username_padded_len :=
    if 0 <? p.(username_len)
    then ngx_pad_to_4_bytes_from_2_bytes (u16 p.(username_len)) else 0 in
  if username_padded_len =? 0 then Ok (buffer, pos)
  else
    buffer ← ngx_set_2_bytes buffer pos (u16 USERNAME);
    buffer ← ngx_set_2_bytes buffer (pos + 2) (u16 p.(username_len));
    src ← slice p.(username) 0 p.(username_len);
    buffer ← blit buffer (pos + 4) src;
    Ok (buffer, pos + (4 + username_padded_len)).

Definition ser_priority (p : stun_packet) (buffer : list Z) (pos : Z)
    : res (list Z * Z) :=
  if p.(priority) =? 0 then Ok (buffer, pos)
  else
    buffer ← ngx_set_2_bytes buffer pos (u16 PRIORITY);
    buffer ← ngx_set_2_bytes buffer (pos + 2) 4;
    buffer ← ngx_set_4_bytes buffer (pos + 4) p.(priority);
    Ok (buffer, pos + (4 + 4)).

Definition ser_ice_controlling (p : stun_packet) (buffer : list Z) (pos : Z)
    : res (list Z * Z) :=
  if p.(ice_controlling) =? 0 then Ok (buffer, pos)
  else
    buffer ← ngx_set_2_bytes buffer pos (u16 ICE_CONTROLLING);
    buffer ← ngx_set_2_bytes buffer (pos + 2) 8;
    buffer ← ngx_set_8_bytes buffer (pos + 4) p.(ice_controlling);
    Ok (buffer, pos + (4 + 8)).

Definition ser_ice_controlled (p : stun_packet) (buffer : list Z) (pos : Z)
    : res (list Z * Z) :=
  if p.(ice_controlled) =? 0 then Ok (buffer, pos)
  else
    buffer ← ngx_set_2_bytes buffer pos (u16 ICE_CONTROLLED);
    buffer ← ngx_set_2_bytes buffer (pos + 2) 8;
    buffer ← ngx_set_8_bytes buffer (pos + 4) p.(ice_controlled);
    Ok (buffer, pos + (4 + 8)).

Definition ser_use_candidate (p : stun_packet) (buffer : list Z) (pos : Z)
    : res (list Z * Z) :=
  if p.(has_use_candidate) =? 0 then Ok (buffer, pos)
  else
    buffer ← ngx_set_2_bytes buffer pos (u16 USE_CANDIDATE);
    buffer ← ngx_set_2_bytes buffer (pos + 2) 0;
    Ok (buffer, pos + 4).

Definition ser_xor_mapped_address (p : stun_packet) (buffer : list Z)
    (pos : Z) : res (list Z * Z) :=
  if xor_mapped_address_padded_len p =? 0 then Ok (buffer, pos)
  else
    buffer ← ngx_set_2_bytes buffer pos (u16 XOR_MAPPED_ADDRESS);
    buffer ← ngx_set_2_bytes buffer (pos + 2) (xor_mapped_address_padded_len p);
    let val := pos + 4 in
    match p.(xor_mapped_address) with
    | Some (Sa_inet sin_port sin_addr) =>
        buffer ← put buffer val 0;
        buffer ← put buffer (val + 1) 0x01;
        port ← slice sin_port 0 2;
        buffer ← blit buffer (val + 2) port;
        buffer ← xor_into buffer (val + 2) (take 2 stun_magic_cookie);
        addr ← slice sin_addr 0 4;
        buffer ← blit buffer (val + 4) addr;
        buffer ← xor_into buffer (val + 4) stun_magic_cookie;
        Ok (buffer, pos + (4 + 8))
    | Some (Sa_inet6 sin6_port sin6_addr) =>
        buffer ← put buffer val 0;
        buffer ← put buffer (val + 1) 0x02;
        port ← slice sin6_port 0 2;
        buffer ← blit buffer (val + 2) port;
        buffer ← xor_into buffer (val + 2) (take 2 stun_magic_cookie);
        addr ← slice sin6_addr 0 16;
        buffer ← blit buffer (val + 4) addr;
        tid ← slice buffer 8 12;
        buffer ← xor_into buffer (val + 4) (stun_magic_cookie ++ tid);
        Ok (buffer, pos + (4 + 20))
    | _ => Ok (buffer, pos)
    end.

Definition ser_error_code (p : stun_packet) (buffer : list Z) (pos : Z)
    : res (list Z * Z) :=
  if negb (add_error_code p) then Ok (buffer, pos)
  else
    buffer ← ngx_set_2_bytes buffer pos (u16 ERROR_CODE);
    buffer ← ngx_set_2_bytes buffer (pos + 2) 4;
    let code_class := u8 (p.(error_code) / 100) in
    let code_number := u8 (u8 p.(error_code) - code_class * 100) in
    buffer ← ngx_set_2_bytes buffer (pos + 4) 0;
    buffer ← ngx_set_1_byte buffer (pos + 6) code_class;
    buffer ← ngx_set_1_byte buffer (pos + 7) code_number;
    Ok (buffer, pos + (4 + 4)).

Definition ser_message_integrity (add_fingerprint : bool) (p : stun_packet)
    (buffer : list Z) (pos : Z) : res (stun_packet * list Z * Z) :=
  if negb (add_message_integrity p)
  then Ok (set_message_integrity None p, buffer, pos)
  else
    buffer ← (if add_fingerprint
              then ngx_set_2_bytes buffer 2 (u16 (p.(size) - 20 - 8))
              else Ok buffer);
    computed ← ngx_get_hmac_sha1 p.(password) p.(password_len) buffer pos;
    match computed with
    | None => Fault
    | Some tag =>
        buffer ← ngx_set_2_bytes buffer pos (u16 MESSAGE_INTEGRITY);
        buffer ← ngx_set_2_bytes buffer (pos + 2) 20;
        tag ← slice tag 0 20;
        buffer ← blit buffer (pos + 4) tag;
        let p := set_message_integrity (Some (Ptr Reply (pos + 4))) p in
        let pos := pos + (4 + 20) in
        buffer ← (if add_fingerprint
                  then ngx_set_2_bytes buffer 2 (u16 (p.(size) - 20))
                  else Ok buffer);
        Ok (p, buffer, pos)
    end.

Definition ser_fingerprint (add_fingerprint : bool) (p : stun_packet)
    (buffer : list Z) (pos : Z) : res (stun_packet * list Z) :=
  if negb add_fingerprint then Ok (set_has_fingerprint 0 p, buffer)
  else
    crc ← ngx_get_crc32 buffer pos;
    buffer ← ngx_set_2_bytes buffer pos (u16 FINGERPRINT);
    buffer ← ngx_set_2_bytes buffer (pos + 2) 4;
    buffer ← ngx_set_4_bytes buffer (pos + 4) (Z.lxor crc 0x5354554e);
    Ok (set_has_fingerprint 1 p, buffer).

(** The attributes in the order the code writes them. *)
Definition ser_attributes (p : stun_packet) (buffer : list Z)
    : res (list Z * Z) :=
  '(buffer, pos) ← ser_username p buffer 20;
  '(buffer, pos) ← ser_priority p buffer pos;
  '(buffer, pos) ← ser_ice_controlling p buffer pos;
  '(buffer, pos) ← ser_ice_controlled p buffer pos;
  '(buffer, pos) ← ser_use_candidate p buffer pos;
  '(buffer, pos) ← ser_xor_mapped_address p buffer pos;
  ser_error_code p buffer pos.

(** [ngx_stun_serialize]: the return code, the packet and the buffer.
  [add_fingerprint] is a local constant of the code. *)
Definition ngx_stun_serialize (packet : stun_packet) (received buffer : list Z)
    (len : Z) : res (Z * stun_packet * list Z) :=
  let add_fingerprint := false in
  let packet := set_size (stun_size add_fingerprint packet)
                  (set_data (Some (Ptr Reply 0)) packet) in
  if len <? packet.(size) then Ok (NGX_ABORT, packet, buffer)
  else
    buffer ← ser_header packet received buffer;
    let packet := set_transaction_id (Some (Ptr Reply 8)) packet in
    '(buffer, pos) ← ser_attributes packet buffer;
    '(packet, buffer, pos) ← ser_message_integrity add_fingerprint packet buffer pos;
    '(packet, buffer) ← ser_fingerprint add_fingerprint packet buffer pos;
    Ok (NGX_OK, packet, buffer).
End serialize.

(** ** Specification: what each attribute appends

    [rest] is the content of the reply buffer from the current position on:
    the padding of USERNAME is not written and keeps its old content. *)

Definition tlv (t : Z) (val : list Z) : list Z := be 2 t ++ be 2 (zlen val) ++ val.

(** The padding behind the user name. *)
Definition username_padding (p : stun_packet) : Z :=
  ngx_pad_to_4_bytes_from_2_bytes p.(username_len) - p.(username_len).

(** The room that USERNAME takes in the buffer; [stun_size] counts it without
    its padding. *)
Definition username_room (p : stun_packet) : Z :=
  if 0 <? p.(username_len)
  then 4 + ngx_pad_to_4_bytes_from_2_bytes p.(username_len) else 0.

Definition enc_username (p : stun_packet) (rest : list Z) : list Z :=
  if 0 <? p.(username_len) then
    tlv USERNAME (take (Z.to_nat p.(username_len)) p.(username))
    ++ take (Z.to_nat (username_padding p))
         (drop (Z.to_nat (4 + p.(username_len))) rest)
  else [].

Definition enc_priority (p : stun_packet) (rest : list Z) : list Z :=
  if p.(priority) =? 0 then [] else tlv PRIORITY (be 4 p.(priority)).

Definition enc_ice_controlling (p : stun_packet) (rest : list Z) : list Z :=
  if p.(ice_controlling) =? 0 then []
  else tlv ICE_CONTROLLING (be 8 p.(ice_controlling)).

Definition enc_ice_controlled (p : stun_packet) (rest : list Z) : list Z :=
  if p.(ice_controlled) =? 0 then []
  else tlv ICE_CONTROLLED (be 8 p.(ice_controlled)).

Definition enc_use_candidate (p : stun_packet) (rest : list Z) : list Z :=
  if p.(has_use_candidate) =? 0 then [] else tlv USE_CANDIDATE [].

Definition enc_xor_mapped_address (tid : list Z) (p : stun_packet) (rest : list Z)
    : list Z :=
  if xor_mapped_address_padded_len p =? 0 then []
  else match p.(xor_mapped_address) with
  | Some (Sa_inet port addr) =>
      tlv XOR_MAPPED_ADDRESS ([0; 1]
        ++ zip_with Z.lxor port (take 2 stun_magic_cookie)
        ++ zip_with Z.lxor addr stun_magic_cookie)
  | Some (Sa_inet6 port addr) =>
      tlv XOR_MAPPED_ADDRESS ([0; 2]
        ++ zip_with Z.lxor port (take 2 stun_magic_cookie)
        ++ zip_with Z.lxor addr (stun_magic_cookie ++ tid))
  | _ => []
  end.

Definition enc_error_code (p : stun_packet) (rest : list Z) : list Z :=
  if negb (add_error_code p) then []
  else tlv ERROR_CODE [0; 0; p.(error_code) / 100; p.(error_code) mod 100].

(** Appending in sequence: each encoder sees what the previous ones left. *)
Fixpoint enc_seq (es : list (list Z -> list Z)) (rest : list Z) : list Z :=
  match es with
  | [] => []
  | e :: es => e rest ++ enc_seq es (drop (length (e rest)) rest)
  end.

Definition enc_attributes (tid : list Z) (p : stun_packet) : list Z -> list Z :=
  enc_seq [enc_username p; enc_priority p; enc_ice_controlling p;
           enc_ice_controlled p; enc_use_candidate p;
           enc_xor_mapped_address tid p; enc_error_code p].

Definition enc_header (tid : list Z) (p : stun_packet) : list Z :=
  be 2 (stun_type_field p) ++ be 2 (stun_size false p - 20)
  ++ stun_magic_cookie ++ tid.

Definition enc_message_integrity `{OpenSSL} (p : stun_packet) (msg : list Z)
    : list Z :=
  if add_message_integrity p then
    match HMAC_SHA1 (take (Z.to_nat p.(password_len)) p.(password)) msg with
    | Some tag => tlv MESSAGE_INTEGRITY tag
    | None => []
    end
  else [].

(** The whole message, over a buffer whose old content behind the header is
    [rest]. *)
Definition stun_encode `{OpenSSL} (tid : list Z) (p : stun_packet) (rest : list Z)
    : list Z :=
  let msg := enc_header tid p ++ enc_attributes tid p rest in
  msg ++ enc_message_integrity p msg.

(** The room the attributes and the message take in the buffer. *)
Definition attributes_room (p : stun_packet) : Z :=
  username_room p
  + ((if p.(priority) =? 0 then 0 else 4 + 4)
  + ((if p.(ice_controlling) =? 0 then 0 else 4 + 8)
  + ((if p.(ice_controlled) =? 0 then 0 else 4 + 8)
  + ((if p.(has_use_candidate) =? 0 then 0 else 4)
  + ((if xor_mapped_address_padded_len p =? 0 then 0
      else 4 + xor_mapped_address_padded_len p)
  + (if add_error_code p then 4 + 4 else 0)))))).

Definition stun_room (p : stun_packet) : Z :=
  20 + attributes_room p + (if add_message_integrity p then 4 + 20 else 0).

(** The packets the code can hold: C types and array sizes. *)
Record packet_ok (p : stun_packet) : Prop := {
  ok_username : zlen p.(username) = username_size;
  ok_username_len : 0 <= p.(username_len) < username_size;
  ok_priority : 0 <= p.(priority) < 4294967296;
  ok_ice_controlling : 0 <= p.(ice_controlling) < 18446744073709551616;
  ok_ice_controlled : 0 <= p.(ice_controlled) < 18446744073709551616;
  ok_error_code : add_error_code p = true -> 0 <= p.(error_code) < 25600;
  ok_address : match p.(xor_mapped_address) with
    | Some (Sa_inet port addr) => zlen port = 2 /\ zlen addr = 4
    | Some (Sa_inet6 port addr) => zlen port = 2 /\ zlen addr = 16
    | _ => True
    end
}.

(** ** The writers refine the encoders *)

Lemma app_of_length n (l : list Z) :
  (n <= length l)%nat -> exists old, length old = n /\ l = old ++ drop n l.
Proof.
  intros. exists (take n l). rewrite take_drop, length_take. split; [lia|done].
Qed.

Lemma length_tlv t val : length (tlv t val) = (4 + length val)%nat.
Proof. reflexivity. Qed.

Lemma zlen_tlv t val : zlen (tlv t val) = 4 + zlen val.
Proof. unfold zlen. rewrite length_tlv. lia. Qed.

(** Type and length, then the rest of the code [k]. *)
Lemma header_writes {A} t n pre old post i (k : list Z -> res A) :
  length old = 4%nat -> i = zlen pre ->
  (b ← ngx_set_2_bytes (pre ++ old ++ post) i t;
   b ← ngx_set_2_bytes b (i + 2) n; k b)
  = k ((pre ++ be 2 t ++ be 2 n) ++ post).
Proof.
  intros Hold ->.
  destruct (app_of_length 2 old) as (o1 & H1 & E1); [lia|].
  rewrite E1, <- !app_assoc. rewrite (set_2_app pre o1) by done. rewrite Ok_bind.
  rewrite (app_assoc pre (be 2 t)).
  rewrite (set_2_app (pre ++ be 2 t) (drop 2 old)) by
    (rewrite ?length_drop, ?zlen_app; lia || done).
  rewrite Ok_bind. by rewrite <- !app_assoc.
Qed.

(** Type and length, then the value by [w], then the rest of the code [k]. *)
Lemma tlv_writes {A} t n w val pre old post i (k : list Z -> res A) :
  length old = (4 + length val)%nat -> i = zlen pre ->
  (forall vold, length vold = length val ->
    w ((pre ++ be 2 t ++ be 2 n) ++ vold ++ post)
    = Ok ((pre ++ be 2 t ++ be 2 n) ++ val ++ post)) ->
  (b ← ngx_set_2_bytes (pre ++ old ++ post) i t;
   b ← ngx_set_2_bytes b (i + 2) n;
   b ← w b; k b)
  = k (pre ++ (be 2 t ++ be 2 n ++ val) ++ post).
Proof.
  intros Hold Hi Hw.
  destruct (app_of_length 4 old) as (o1 & H1 & E1); [lia|].
  rewrite E1, <- !app_assoc.
  rewrite (header_writes t n pre o1 _ _ (fun b => b ← w b; k b)) by done.
  rewrite Hw by (rewrite length_drop; lia). rewrite Ok_bind.
  f_equal. by rewrite <- !app_assoc.
Qed.

Lemma xor_into_app pre old post i keys :
  length old = length keys -> i = zlen pre ->
  xor_into (pre ++ old ++ post) i keys = Ok (pre ++ zip_with Z.lxor old keys ++ post).
Proof.
  revert pre old i. induction keys as [|k keys IH]; intros pre [|c old] i Hl ->;
    simplify_eq/=; [done|].
  rewrite (get_behind _ _ _ 0 c) by first [lia | done]. rewrite Ok_bind.
  rewrite put_app by done. rewrite Ok_bind.
  change (Z.lxor c k :: old ++ post) with ([Z.lxor c k] ++ old ++ post).
  rewrite app_assoc. rewrite IH by (rewrite ?zlen_app; done).
  by rewrite <- app_assoc.
Qed.

Section writers.
Context (tid : list Z) (Htid : zlen tid = 12).

(** The transaction id is in its place. *)
Definition has_tid (pre : list Z) : Prop :=
  exists h t, pre = h ++ tid ++ t /\ zlen h = 8.

Lemma has_tid_app pre l : has_tid pre -> has_tid (pre ++ l).
Proof. intros (h & t & -> & Hh). exists h, (t ++ l). by rewrite <- !app_assoc. Qed.

(** [f] appends [enc rest], [n] bytes, where there is room for them. *)
Definition writes (f : list Z -> Z -> res (list Z * Z)) (enc : list Z -> list Z)
    (n : Z) : Prop :=
  forall pre rest, has_tid pre -> n <= zlen rest ->
  zlen (enc rest) = n /\
  f (pre ++ rest) (zlen pre)
  = Ok ((pre ++ enc rest) ++ drop (Z.to_nat n) rest, zlen (pre ++ enc rest)).

Lemma writes_seq f g e es n m :
  0 <= n -> 0 <= m -> writes f e n -> writes g (enc_seq es) m ->
  writes (fun b pos => '(b, pos) ← f b pos; g b pos) (enc_seq (e :: es)) (n + m).
Proof.
  intros Hn Hm Hf Hg pre rest Hpre Hlen.
  destruct (Hf pre rest) as [He Ef]; [done|lia|].
  destruct (Hg (pre ++ e rest) (drop (Z.to_nat n) rest)) as [Hes Eg].
  { by apply has_tid_app. }
  { rewrite zlen_drop; lia. }
  assert (length (e rest) = Z.to_nat n) as Hl by (unfold zlen in He; lia).
  simpl. rewrite Hl, zlen_app, He, Hes. split; [done|].
  rewrite Ef, Ok_bind, Eg. rewrite drop_drop, <- !app_assoc.
  by replace (Z.to_nat n + Z.to_nat m)%nat with (Z.to_nat (n + m)) by lia.
Qed.

Lemma writes_last f e n : writes f e n -> writes f (enc_seq [e]) n.
Proof. intros Hf pre rest. simpl. rewrite app_nil_r. apply Hf. Qed.

(** Start of a writer proof: the attribute is absent, or the buffer splits
    into the bytes it overwrites and the rest. *)
Lemma writes_nil (pre rest : list Z) :
  zlen (@nil Z) = 0 /\
  Ok (pre ++ rest, zlen pre)
  = Ok ((pre ++ []) ++ drop (Z.to_nat 0) rest, zlen (pre ++ [])).
Proof. by rewrite app_nil_r. Qed.

Lemma writes_present (f : list Z -> res (list Z * Z)) enc n pre rest :
  zlen enc = n -> n <= zlen rest ->
  (forall old post, length old = length enc ->
    f (pre ++ old ++ post) = Ok (pre ++ enc ++ post, zlen pre + n)) ->
  zlen enc = n /\
  f (pre ++ rest) = Ok ((pre ++ enc) ++ drop (Z.to_nat n) rest, zlen (pre ++ enc)).
Proof.
  intros <- Hlen Hf. split; [done|].
  destruct (app_of_length (length enc) rest) as (old & Hold & E);
    [unfold zlen in *; lia|].
  rewrite E at 1. rewrite Hf by done. rewrite zlen_app, <- app_assoc.
  by replace (Z.to_nat (zlen enc)) with (length enc) by (unfold zlen; lia).
Qed.

Ltac present :=
  match goal with
  | |- _ /\ ?L = Ok ((?pre ++ _) ++ drop _ ?rest, _) =>
      match eval pattern (pre ++ rest) in L with
      | ?F _ => apply (writes_present F)
      end
  end.

(** One attribute of a fixed size: [w] is the lemma that writes the value. *)
Ltac fixed_attribute w :=
  intros pre rest _; case_match; intros Hlen; [apply writes_nil|];
  present; [rewrite zlen_tlv, ?zlen_be; done|exact Hlen|];
  intros old post Hold; rewrite length_tlv in Hold; cbv beta;
  etrans;
  [ apply tlv_writes with (post := post); [exact Hold|done|];
    intros vold Hv; apply w; [done|rewrite !zlen_app, !zlen_be; lia]
  | unfold tlv; rewrite zlen_be; reflexivity ].

Lemma writes_priority p : writes (ser_priority p) (enc_priority p)
    (if p.(priority) =? 0 then 0 else 4 + 4).
Proof. unfold ser_priority, enc_priority. fixed_attribute set_4_app. Qed.

Lemma writes_ice_controlling p :
  writes (ser_ice_controlling p) (enc_ice_controlling p)
    (if p.(ice_controlling) =? 0 then 0 else 4 + 8).
Proof. unfold ser_ice_controlling, enc_ice_controlling. fixed_attribute set_8_app. Qed.

Lemma writes_ice_controlled p :
  writes (ser_ice_controlled p) (enc_ice_controlled p)
    (if p.(ice_controlled) =? 0 then 0 else 4 + 8).
Proof. unfold ser_ice_controlled, enc_ice_controlled. fixed_attribute set_8_app. Qed.

Lemma writes_use_candidate p : writes (ser_use_candidate p) (enc_use_candidate p)
    (if p.(has_use_candidate) =? 0 then 0 else 4).
Proof.
  unfold ser_use_candidate, enc_use_candidate.
  intros pre rest _. case_match; intros Hlen; [apply writes_nil|].
  present; [done|exact Hlen|]; intros old post Hold. cbv beta.
  rewrite (header_writes _ _ pre old post _ (fun b => Ok (b, zlen pre + 4))) by done.
  by rewrite <- app_assoc.
Qed.

Lemma writes_error_code p :
  packet_ok p -> writes (ser_error_code p) (enc_error_code p)
    (if add_error_code p then 4 + 4 else 0).
Proof.
  intros Hp. unfold ser_error_code, enc_error_code.
  intros pre rest _.
  destruct (add_error_code p) eqn:Eadd; cbn [negb]; intros Hlen; [|apply writes_nil].
  pose proof (ok_error_code p Hp Eadd) as He.
  assert (u8 (p.(error_code) / 100) = p.(error_code) / 100) as -> by width_lia.
  assert (u8 (u8 p.(error_code) - p.(error_code) / 100 * 100)
    = p.(error_code) mod 100) as -> by width_lia.
  present; [done|exact Hlen|]; intros old post Hold. cbv beta.
  assert (length old = 8%nat) as Hold8 by (rewrite Hold; done). clear Hold.
  destruct (app_of_length 4 old) as (o1 & H1 & E1); [lia|].
  destruct (drop 4 old) as [|a [|b [|c [|d [|]]]]] eqn:E4;
    try (apply (f_equal length) in E4; rewrite length_drop, Hold8 in E4; discriminate).
  rewrite E1, <- app_assoc.
  match goal with |- (_ ≫= fun b => _ ≫= ?K) = _ =>
    rewrite (header_writes _ _ pre o1 _ _ K) by done end.
  set (P := pre ++ be 2 _ ++ be 2 _).
  assert (zlen P = zlen pre + 4) as HP by (unfold P; rewrite zlen_app; done).
  rewrite (set_2_app P [a; b] ([c; d] ++ post)) by (lia || done). rewrite Ok_bind.
  unfold ngx_set_1_byte. rewrite (put_behind P _ _ _ 2) by (simpl; lia). rewrite Ok_bind.
  rewrite (put_behind P _ _ _ 3) by (simpl; lia). rewrite Ok_bind.
  rewrite (u8_id (_ / 100)), (u8_id (_ mod 100)) by
    (Z.to_euclidean_division_equations; lia).
  unfold P. by rewrite <- !app_assoc.
Qed.

Lemma writes_username p : packet_ok p -> writes (ser_username p) (enc_username p)
    (username_room p).
Proof.
  intros Hp. unfold ser_username, enc_username.
  pose proof (ok_username_len p Hp) as Hul. pose proof (ok_username p Hp) as Hu.
  unfold username_size in *. set (n := p.(username_len)) in *.
  assert (u16 n = n) as -> by (apply Z.mod_small; lia). unfold username_padding. fold n.
  assert (n <= ngx_pad_to_4_bytes_from_2_bytes n <= n + 3) as Hpad
    by (rewrite pad_spec by lia; Z.to_euclidean_division_equations; lia).
  set (m := ngx_pad_to_4_bytes_from_2_bytes n) in *.
  unfold username_room. fold n. fold m.
  intros pre rest _. destruct (Z.ltb_spec 0 n); intros Hlen; [|apply writes_nil].
  destruct (Z.eqb_spec m 0); [lia|].
  set (src := take (Z.to_nat n) p.(username)) in *.
  assert (zlen src = n) as Hsrc by (apply zlen_take; lia).
  assert (slice p.(username) 0 n = Ok src) as Hslice.
  { rewrite <- (take_drop (Z.to_nat n) p.(username)). by apply (slice_app []). }
  destruct (app_of_length (4 + length src) rest) as (old & Hold & E);
    [unfold zlen in *; lia|].
  replace (Z.to_nat (4 + n)) with (4 + length src)%nat by (unfold zlen in *; lia).
  set (tail := drop (4 + length src) rest) in *.
  assert (zlen (take (Z.to_nat (m - n)) tail) = m - n) as Htl.
  { apply zlen_take. apply (f_equal zlen) in E. rewrite zlen_app in E.
    unfold zlen in *. lia. }
  split; [rewrite zlen_app, zlen_tlv; lia|].
  rewrite E at 1. rewrite Hslice.
  etrans; [apply (tlv_writes USERNAME n (fun b => blit b (zlen pre + 4) src) src
    pre old tail _ (fun b => Ok (b, zlen pre + (4 + m))))|]; [done..| |].
  { intros vold Hv. apply blit_app; [rewrite !zlen_app, !zlen_be; lia|unfold zlen; lia]. }
  replace (Z.to_nat (4 + m)) with (4 + length src + Z.to_nat (m - n))%nat
    by (unfold zlen in *; lia).
  rewrite <- drop_drop. fold tail. rewrite !zlen_app, zlen_tlv, Htl, Hsrc.
  f_equal. f_equal; [|lia]. unfold tlv. rewrite Hsrc, <- !app_assoc.
  by rewrite take_drop.
Qed.

Lemma has_tid_slice P l : has_tid P -> slice (P ++ l) 8 12 = Ok tid.
Proof.
  intros (h & t & -> & Hh). rewrite <- !app_assoc. by apply slice_app.
Qed.

(** The family, the port and the address of XOR-MAPPED-ADDRESS, before the
    address is masked by the rest of the code [k]. *)
Lemma xor_value_writes {A} fam port addr P vold post i (k : list Z -> res A) n :
  zlen port = 2 -> zlen addr = n -> zlen vold = 4 + n -> i = zlen P ->
  (b ← put (P ++ vold ++ post) i 0;
   b ← put b (i + 1) fam;
   port' ← slice port 0 2;
   b ← blit b (i + 2) port';
   b ← xor_into b (i + 2) (take 2 stun_magic_cookie);
   addr' ← slice addr 0 n;
   b ← blit b (i + 4) addr'; k b)
  = k ((P ++ [0; fam] ++ zip_with Z.lxor port (take 2 stun_magic_cookie))
        ++ addr ++ post).
Proof.
  intros Hport <- Hv ->.
  destruct vold as [|a [|b [|c [|d vold]]]];
    rewrite ?zlen_cons, ?zlen_nil in Hv; pose proof (zlen_nonneg addr); try lia.
  rewrite (put_behind P _ _ _ 0) by (simpl; lia). rewrite Ok_bind.
  rewrite (put_behind P _ _ _ 1) by (simpl; lia). rewrite Ok_bind.
  rewrite <- (app_nil_r port) at 1. rewrite (slice_app [] port []) by done.
  rewrite Ok_bind. cbn [app].
  change (P ++ <[1%nat:=fam]> _) with (P ++ [0; fam] ++ [c; d] ++ vold ++ post).
  rewrite (app_assoc P). set (P2 := P ++ [0; fam]).
  assert (zlen P2 = zlen P + 2) as HP2 by (unfold P2; rewrite zlen_app; done).
  rewrite (blit_app P2 [c; d]) by (rewrite ?Hport; done). rewrite Ok_bind.
  rewrite (xor_into_app P2 port) by (unfold zlen in Hport; simpl; lia). rewrite Ok_bind.
  rewrite <- (app_nil_r addr) at 1. rewrite (slice_app [] addr []) by done.
  rewrite Ok_bind, (app_assoc P2).
  rewrite (blit_app _ vold) by
    (lia || (rewrite zlen_app; unfold zlen in *; rewrite length_zip_with; simpl; lia)).
  unfold P2. by rewrite <- !app_assoc.
Qed.

Lemma zlen_zip_lxor l1 l2 : zlen l1 = zlen l2 -> zlen (zip_with Z.lxor l1 l2) = zlen l2.
Proof. unfold zlen. rewrite length_zip_with. lia. Qed.

Lemma length_zlen {A} (l1 l2 : list A) : length l1 = length l2 -> zlen l1 = zlen l2.
Proof. unfold zlen. lia. Qed.

(** Both address families: [k] masks the address with [keys]. *)
Lemma xor_attribute fam port addr keys pre rest k :
  has_tid pre -> zlen port = 2 -> zlen addr = zlen keys -> 8 + zlen keys <= zlen rest ->
  (forall P l, has_tid P -> zlen P = zlen pre + 8 ->
    k (P ++ addr ++ l)
    = Ok (P ++ zip_with Z.lxor addr keys ++ l, zlen pre + (8 + zlen keys))) ->
  let enc := tlv XOR_MAPPED_ADDRESS ([0; fam]
    ++ zip_with Z.lxor port (take 2 stun_magic_cookie)
    ++ zip_with Z.lxor addr keys) in
  zlen enc = 8 + zlen keys /\
  (b ← ngx_set_2_bytes (pre ++ rest) (zlen pre) (u16 XOR_MAPPED_ADDRESS);
   b ← ngx_set_2_bytes b (zlen pre + 2) (4 + zlen keys);
   b ← put b (zlen pre + 4) 0;
   b ← put b (zlen pre + 4 + 1) fam;
   port' ← slice port 0 2;
   b ← blit b (zlen pre + 4 + 2) port';
   b ← xor_into b (zlen pre + 4 + 2) (take 2 stun_magic_cookie);
   addr' ← slice addr 0 (zlen keys);
   b ← blit b (zlen pre + 4 + 4) addr'; k b)
  = Ok ((pre ++ enc) ++ drop (Z.to_nat (8 + zlen keys)) rest, zlen (pre ++ enc)).
Proof.
  intros Hpre Hport Haddr Hlen Hk enc.
  assert (zlen (zip_with Z.lxor port (take 2 stun_magic_cookie)) = 2) as Hxp
    by (by rewrite zlen_zip_lxor).
  assert (zlen enc = 8 + zlen keys) as Henc.
  { unfold enc. rewrite zlen_tlv, !zlen_app, Hxp, zlen_zip_lxor by done.
    rewrite !zlen_cons, zlen_nil. lia. }
  apply (writes_present (fun b => b ← ngx_set_2_bytes b _ _; _)); [done..|].
  intros old post Hold. cbv beta. apply length_zlen in Hold. rewrite Henc in Hold.
  destruct (app_of_length 4 old) as (o1 & Ho1 & E1);
    [pose proof (zlen_nonneg keys); unfold zlen in *; lia|].
  apply (f_equal zlen) in E1 as E1'. rewrite zlen_app, Hold in E1'.
  rewrite E1, <- app_assoc.
  match goal with |- (_ ≫= fun b => _ ≫= ?K) = _ =>
    rewrite (header_writes _ _ pre o1 _ _ K) by done end.
  set (P := pre ++ be 2 _ ++ be 2 _).
  assert (zlen P = zlen pre + 4) as HP by (unfold P; by rewrite !zlen_app).
  rewrite (xor_value_writes fam port addr P (drop 4 old) post _ k (zlen keys))
    by (done || (unfold zlen in *; lia)).
  rewrite Hk.
  - unfold enc in Henc. rewrite zlen_tlv in Henc. unfold P, enc, tlv.
    match goal with |- context [be 2 (zlen ?v)] =>
      replace (zlen v) with (4 + zlen keys) by lia end.
    do 2 f_equal. by rewrite <- !app_assoc.
  - unfold P. rewrite <- app_assoc. by apply has_tid_app.
  - rewrite !zlen_app, Hxp, !zlen_cons, zlen_nil. lia.
Qed.

Lemma writes_xor_mapped_address p :
  packet_ok p ->
  writes (ser_xor_mapped_address p) (enc_xor_mapped_address tid p)
    (if xor_mapped_address_padded_len p =? 0 then 0
     else 4 + xor_mapped_address_padded_len p).
Proof.
  intros Hp. unfold ser_xor_mapped_address, enc_xor_mapped_address.
  pose proof (ok_address p Hp) as Ha.
  intros pre rest Hpre. unfold xor_mapped_address_padded_len.
  destruct (add_xor_mapped_address p); [|intros _; apply writes_nil].
  destruct (xor_mapped_address p) as [[port addr|port addr|]|];
    try (intros _; apply writes_nil); destruct Ha as [Hport Haddr];
    cbn [Z.eqb]; intros Hlen.
  - refine (xor_attribute 1 port addr stun_magic_cookie pre rest
      (fun b => b ← xor_into b (zlen pre + 4 + 4) stun_magic_cookie;
                Ok (b, zlen pre + (4 + 8))) _ _ _ _ _); [done..|].
    intros P l _ HP. cbv beta.
    rewrite xor_into_app by (unfold zlen in *; simpl; lia). done.
  - assert (zlen (stun_magic_cookie ++ tid) = 16) as E16 by (by rewrite zlen_app, Htid).
    pose proof (xor_attribute 2 port addr (stun_magic_cookie ++ tid) pre rest
      (fun b => tid' ← slice b 8 12;
                b ← xor_into b (zlen pre + 4 + 4) (stun_magic_cookie ++ tid');
                Ok (b, zlen pre + (4 + 20)))) as Hx.
    rewrite E16 in Hx. apply Hx; [done..|].
    intros P l Htp HP. rewrite has_tid_slice, Ok_bind by done.
    rewrite xor_into_app by (unfold zlen in *; lia). done.
Qed.

Lemma xor_padded_len_nonneg p : 0 <= xor_mapped_address_padded_len p <= 20.
Proof. unfold xor_mapped_address_padded_len. repeat case_match; lia. Qed.

Lemma ser_attributes_spec p pre rest :
  packet_ok p -> has_tid pre -> zlen pre = 20 -> attributes_room p <= zlen rest ->
  zlen (enc_attributes tid p rest) = attributes_room p /\
  ser_attributes p (pre ++ rest)
  = Ok ((pre ++ enc_attributes tid p rest) ++ drop (Z.to_nat (attributes_room p)) rest,
        zlen (pre ++ enc_attributes tid p rest)).
Proof.
  intros Hp Htp Hpre Hroom. pose proof (xor_padded_len_nonneg p).
  unfold ser_attributes. rewrite <- Hpre at 1.
  refine (writes_seq _ (fun b pos => _) _ _ _ _ _ _ (writes_username p Hp)
    _ pre rest Htp Hroom).
  { unfold username_room. case_match; [|lia].
    rewrite pad_spec by (pose proof (ok_username_len p Hp); unfold username_size in *; lia).
    Z.to_euclidean_division_equations; lia. }
  1: repeat case_match; lia.
  refine (writes_seq _ (fun b pos => _) _ _ _ _ _ _ (writes_priority p) _);
    [repeat case_match; lia..|].
  refine (writes_seq _ (fun b pos => _) _ _ _ _ _ _ (writes_ice_controlling p) _);
    [repeat case_match; lia..|].
  refine (writes_seq _ (fun b pos => _) _ _ _ _ _ _ (writes_ice_controlled p) _);
    [repeat case_match; lia..|].
  refine (writes_seq _ (fun b pos => _) _ _ _ _ _ _ (writes_use_candidate p) _);
    [repeat case_match; lia..|].
  refine (writes_seq _ (fun b pos => _) _ _ _ _ _ _ (writes_xor_mapped_address p Hp) _);
    [repeat case_match; lia..|].
  apply writes_last, writes_error_code, Hp.
Qed.
End writers.

Lemma stun_type_field_range p : 0 <= stun_type_field p < 65536.
Proof. apply Z.mod_pos_bound. lia. Qed.

Lemma room_nonneg p : packet_ok p -> 0 <= username_room p.
Proof.
  intros Hp. unfold username_room. case_match; [|lia].
  rewrite pad_spec by (pose proof (ok_username_len p Hp); unfold username_size in *; lia).
  Z.to_euclidean_division_equations; lia.
Qed.

(** The size the code computes never exceeds the room, and is short of it by
    the padding of the user name. *)
Lemma stun_size_room p :
  packet_ok p ->
  stun_size false p
  = stun_room p - (if 0 <? p.(username_len) then username_padding p else 0) /\
  20 <= stun_size false p <= stun_room p /\ stun_room p <= 640.
Proof.
  intros Hp. pose proof (xor_padded_len_nonneg p). pose proof (ok_username_len p Hp).
  unfold stun_size, stun_room, attributes_room, username_room, username_padding,
    username_size in *.
  destruct (Z.ltb_spec 0 p.(username_len)).
  - rewrite pad_spec by lia. Z.to_euclidean_division_equations.
    repeat split; repeat case_match; lia.
  - repeat split; repeat case_match; lia.
Qed.

Section refinement.
Context `{OpenSSL}.

Lemma ser_header_spec p received buffer o tid :
  p.(transaction_id) = Some (Ptr Received o) -> slice received o 12 = Ok tid ->
  zlen tid = 12 -> p.(size) = stun_size false p -> packet_ok p ->
  20 <= zlen buffer ->
  ser_header p received buffer = Ok (enc_header tid p ++ drop 20 buffer).
Proof.
  intros Hptr Htid Hlt Hsize Hp Hb.
  destruct (stun_size_room p Hp) as (_ & Hs1 & Hs2).
  unfold ser_header, enc_header, transaction_id_bytes. rewrite Hptr, Hsize.
  assert (u16 (u16 (stun_size false p) - 20) = stun_size false p - 20) as ->
    by width_lia.
  destruct (app_of_length 4 buffer) as (b0 & H0 & E0); [unfold zlen in *; lia|].
  destruct (app_of_length 4 (drop 4 buffer)) as (b1 & H1 & E1);
    [rewrite length_drop; unfold zlen in *; lia|].
  destruct (app_of_length 12 (drop 8 buffer)) as (b2 & H2 & E2);
    [rewrite length_drop; unfold zlen in *; lia|].
  rewrite drop_drop in E1, E2. cbn [Nat.add] in E1, E2.
  rewrite E0, E1, E2 at 1.
  pose proof (header_writes (stun_type_field p) (stun_size false p - 20) [] b0
    (b1 ++ b2 ++ drop 20 buffer) 0
    (fun b => b ← blit b 4 stun_magic_cookie; tid ← slice received o 12; blit b 8 tid)
    H0 eq_refl) as Hhw.
  cbn [app] in Hhw. change (0 + 2) with 2 in Hhw. rewrite Hhw, Htid.
  rewrite (blit_app _ b1) by (unfold zlen; simpl; lia). rewrite Ok_bind.
  rewrite Ok_bind, app_assoc. rewrite (blit_app _ b2) by (unfold zlen in *; simpl; lia).
  by rewrite <- !app_assoc.
Qed.

Lemma has_tid_header tid p : has_tid tid (enc_header tid p).
Proof.
  exists (be 2 (stun_type_field p) ++ be 2 (stun_size false p - 20)
          ++ stun_magic_cookie), [].
  split; [by rewrite <- !app_assoc, app_nil_r|done].
Qed.

Lemma ser_message_integrity_spec p pre rest :
  (add_message_integrity p = true ->
    0 <= p.(password_len) <= zlen p.(password) /\
    is_Some (HMAC_SHA1 (take (Z.to_nat p.(password_len)) p.(password)) pre)) ->
  (if add_message_integrity p then 4 + 20 else 0) <= zlen rest ->
  zlen (enc_message_integrity p pre) = (if add_message_integrity p then 4 + 20 else 0) /\
  exists m pos',
  ser_message_integrity false p (pre ++ rest) (zlen pre)
  = Ok (set_message_integrity m p,
        (pre ++ enc_message_integrity p pre)
          ++ drop (length (enc_message_integrity p pre)) rest, pos').
Proof.
  unfold ser_message_integrity, enc_message_integrity, ngx_get_hmac_sha1.
  destruct (add_message_integrity p); cbn [negb]; intros Hkey Hlen.
  2: { split; [done|]. do 2 eexists. by rewrite app_nil_r. }
  destruct Hkey as [Hpw [tag Htag]]; [done|].
  destruct (HMAC_SHA1_bytes _ _ _ Htag) as [Hl _]. rewrite Htag.
  assert (slice p.(password) 0 p.(password_len)
    = Ok (take (Z.to_nat p.(password_len)) p.(password))) as Hs1.
  { rewrite <- (take_drop (Z.to_nat p.(password_len)) p.(password)) at 1.
    apply (slice_app []); [done|]. by rewrite zlen_take. }
  assert (slice (pre ++ rest) 0 (zlen pre) = Ok pre) as Hs2 by (by apply (slice_app [])).
  assert (slice tag 0 20 = Ok tag) as Hs3.
  { rewrite <- (app_nil_r tag) at 1. by apply (slice_app [] tag []). }
  rewrite Ok_bind, Hs1, Ok_bind, Hs2, !Ok_bind, Htag, Hs3.
  split; [by rewrite zlen_tlv, Hl|].
  destruct (app_of_length (4 + length tag) rest) as (old & Hold & E);
    [unfold zlen in *; lia|].
  do 2 eexists. rewrite E at 1.
  etrans; [apply (tlv_writes MESSAGE_INTEGRITY 20 (fun b => blit b (zlen pre + 4) tag)
    tag pre old _ _ (fun b => Ok (set_message_integrity
      (Some (Ptr Reply (zlen pre + 4))) p, b, zlen pre + (4 + 20))))|]; [done..| |].
  { intros vold Hv. apply blit_app; [by rewrite !zlen_app, !zlen_be|unfold zlen; lia]. }
  rewrite length_tlv. unfold tlv. rewrite Hl, <- !app_assoc. done.
Qed.

(** The key is in the packet and the library computes the digest. *)
Definition integrity_ok (p : stun_packet) : Prop :=
  add_message_integrity p = true ->
  0 <= p.(password_len) <= zlen p.(password) /\
  forall msg, is_Some (HMAC_SHA1 (take (Z.to_nat p.(password_len)) p.(password)) msg).

(** The code refines the encoder where the padded message fits. *)
Lemma stun_serialize_encode p received buffer len o tid :
  packet_ok p -> p.(transaction_id) = Some (Ptr Received o) ->
  slice received o 12 = Ok tid ->
  integrity_ok p -> stun_size false p <= len -> stun_room p <= zlen buffer ->
  exists p',
    ngx_stun_serialize p received buffer len
    = Ok (NGX_OK, p',
        stun_encode tid p (drop 20 buffer) ++ drop (Z.to_nat (stun_room p)) buffer) /\
    p'.(size) = stun_size false p /\
    zlen (stun_encode tid p (drop 20 buffer)) = stun_room p.
Proof.
  intros Hp Hptr Hslice Hmi Hlen Hroom.
  destruct (slice_ok received o 12) as (tid' & Htid' & Hlt).
  { unfold slice in Hslice. case_match eqn:E; [lia|done]. }
  { lia. }
  { unfold slice in Hslice. case_match eqn:E; [lia|done]. }
  assert (tid' = tid) as -> by congruence. clear Htid'.
  destruct (stun_size_room p Hp) as (_ & Hs1 & _).
  unfold stun_room in *. pose proof (room_nonneg p Hp).
  unfold ngx_stun_serialize. cbv zeta. cbn [size set_size].
  change (stun_size false (set_data _ _)) with (stun_size false p).
  destruct (Z.ltb_spec len (stun_size false p)); [lia|].
  set (p1 := set_size _ _). assert (packet_ok p1) as Hp1 by (by destruct Hp).
  assert (0 <= (if add_message_integrity p then 4 + 20 else 0) <= 24) as Hmi24
    by (case_match; lia).
  assert (20 <= zlen buffer) as Hb20.
  { unfold attributes_room in Hroom. pose proof (xor_padded_len_nonneg p).
    repeat case_match; lia. }
  rewrite (ser_header_spec p1 received buffer o tid) by done. rewrite Ok_bind.
  set (p2 := set_transaction_id _ p1). assert (packet_ok p2) as Hp2 by (by destruct Hp).
  assert (zlen (drop 20 buffer) = zlen buffer - 20) as Hd20
    by (apply (zlen_drop 20); lia).
  destruct (ser_attributes_spec tid Hlt p2 (enc_header tid p1) (drop 20 buffer) Hp2)
    as [Ha Ea].
  { apply has_tid_header. }
  { unfold enc_header. by rewrite !zlen_app, Hlt. }
  { change (attributes_room p2) with (attributes_room p). lia. }
  rewrite Ea, Ok_bind.
  change (enc_header tid p1) with (enc_header tid p) in *.
  change (enc_attributes tid p2) with (enc_attributes tid p) in *.
  change (attributes_room p2) with (attributes_room p) in *.
  set (msg := enc_header tid p ++ enc_attributes tid p (drop 20 buffer)).
  assert (0 <= attributes_room p) as Hapos.
  { rewrite <- Ha. apply zlen_nonneg. }
  destruct (ser_message_integrity_spec p2 msg
    (drop (Z.to_nat (attributes_room p)) (drop 20 buffer))) as (Hm & m & pos' & ->).
  { intros Hadd. destruct (Hmi Hadd) as [? Hs]. split; [done|apply Hs]. }
  { change (add_message_integrity p2) with (add_message_integrity p).
    rewrite zlen_drop by lia. lia. }
  change (enc_message_integrity p2 msg) with (enc_message_integrity p msg) in *.
  change (add_message_integrity p2) with (add_message_integrity p) in *.
  rewrite Ok_bind. unfold ser_fingerprint. cbn [negb]. rewrite Ok_bind.
  eexists. split; [|split].
  - do 2 f_equal. unfold stun_encode. fold msg. f_equal.
    rewrite !drop_drop. f_equal. unfold zlen in *. lia.
  - done.
  - unfold stun_encode. fold msg. rewrite zlen_app, Hm. unfold msg.
    rewrite zlen_app, Ha. unfold enc_header. rewrite !zlen_app, Hlt. reflexivity.
Qed.

End refinement.

(** The reply to a binding request, with an integrity tag. *)
Definition sample_reply : stun_packet :=
  Packet SUCCESS_RESPONSE BINDING (Some (Ptr Received 8)) None 0 (replicate 513 0)
    0 77 0 0 0 0 0 None 0 (Some (Sa_inet [0x1F; 0x90] [10; 0; 0; 1])) 0
    (str "secret" ++ replicate 58 0) 6.

Lemma sample_reply_ok : packet_ok sample_reply.
Proof. split; vm_compute; repeat split; congruence. Qed.

