(* ===== verification/StunRoundTrip.v ===== *)
(** * Round trip of STUN messages

    What [ngx_stun_serialize] writes, [ngx_stun_parse] reads back: the parser
    of [src/stream/ngx_stream_probe.c] is related to a fold over a list of
    attributes, and the serialiser to the encoding of such a list. *)

From S2P Require Import Prelude Crc NetBytes OpenSSL Stun StunSerialize.

(** ** Specification: a message is a list of attributes *)

Definition attribute : Type := Z * list Z.

Definition enc_list (attrs : list attribute) : list Z :=
  concat (map (fun a => tlv a.1 a.2) attrs).

(** The number that big-endian digits stand for. *)
Definition be_val (v : list Z) : Z := fold_left (fun acc c => acc * 256 + c) v 0.

(** What an attribute means to the receiver. *)
Definition effect (p : stun_packet) (a : attribute) : stun_packet :=
  let '(t, v) := a in
  if t =? USERNAME then
    set_username_len (zlen v)
      (set_username (v ++ 0 :: drop (S (length v)) p.(username)) p)
  else if t =? PRIORITY then set_priority (be_val v) p
  else if t =? ICE_CONTROLLING then set_ice_controlling (be_val v) p
  else if t =? ICE_CONTROLLED then set_ice_controlled (be_val v) p
  else if t =? USE_CANDIDATE then set_has_use_candidate 1 p
  else if t =? ERROR_CODE then
    set_error_code (nth 2 v 0 * 100 + nth 3 v 0) p
  else p.

(** The attributes a serialiser may send before MESSAGE-INTEGRITY. *)
Inductive attr_valid : attribute -> Prop :=
| valid_username v : zlen v < username_size -> zlen v mod 4 = 0 -> attr_valid (USERNAME, v)
| valid_priority v : length v = 4%nat -> bytes v -> attr_valid (PRIORITY, v)
| valid_controlling v : length v = 8%nat -> bytes v -> attr_valid (ICE_CONTROLLING, v)
| valid_controlled v : length v = 8%nat -> bytes v -> attr_valid (ICE_CONTROLLED, v)
| valid_use_candidate : attr_valid (USE_CANDIDATE, [])
| valid_address v : zlen v < 32 -> zlen v mod 4 = 0 -> attr_valid (XOR_MAPPED_ADDRESS, v)
| valid_error_code v : length v = 4%nat -> bytes v -> attr_valid (ERROR_CODE, v).

Lemma enc_list_cons a attrs : enc_list (a :: attrs) = tlv a.1 a.2 ++ enc_list attrs.
Proof. reflexivity. Qed.

Lemma enc_list_app l1 l2 : enc_list (l1 ++ l2) = enc_list l1 ++ enc_list l2.
Proof. unfold enc_list. by rewrite map_app, concat_app. Qed.

Lemma attr_valid_bounds a :
  attr_valid a -> 0 <= a.1 < 65536 /\ 0 <= zlen a.2 < username_size /\ zlen a.2 mod 4 = 0.
Proof.
  pose proof (zlen_nonneg a.2).
  destruct 1 as [v|v Hl|v Hl|v Hl| |v|v Hl]; cbn [fst snd] in *;
    try (apply (f_equal Z.of_nat) in Hl; change (zlen v = Z.of_nat (length v)) in Hl);
    unfold username_size in *; repeat split; try done; try lia;
    unfold zlen; by rewrite ?Hl.
Qed.

(** ** The parser interprets each attribute *)

Lemma copy_username_effect pre v post p :
  packet_wf p -> zlen v < username_size ->
  copy_username (pre ++ v ++ post) (zlen pre) (zlen v) p
  = Ok (set_username_len (zlen v)
      (set_username (v ++ 0 :: drop (S (length v)) p.(username)) p)).
Proof.
  unfold packet_wf, copy_username. intros Hu Hv.
  rewrite slice_app, Ok_bind by done.
  destruct (app_of_length (length v) p.(username)) as (old & Hold & E);
    [unfold zlen in *; lia|].
  rewrite E at 1.
  pose proof (blit_app [] old (drop (length v) p.(username)) v 0 eq_refl
    (length_zlen _ _ Hold)) as Hblit.
  cbn [app] in Hblit. rewrite Hblit, Ok_bind.
  destruct (drop (length v) p.(username)) as [|c rest] eqn:Ed.
  { apply (f_equal length) in Ed. rewrite length_drop in Ed. simpl in Ed.
    unfold zlen in *. lia. }
  rewrite put_app by done. rewrite Ok_bind.
  replace (S (length v)) with (length v + 1)%nat by lia.
  by rewrite <- drop_drop, Ed.
Qed.

Lemma be_val_4 a b c d :
  be_val [a; b; c; d] = a * 16777216 + b * 65536 + c * 256 + d.
Proof. unfold be_val. simpl. lia. Qed.

Lemma be_val_8 a b c d e f g h :
  be_val [a; b; c; d; e; f; g; h]
  = (a * 16777216 + b * 65536 + c * 256 + d) * 4294967296
    + (e * 16777216 + f * 65536 + g * 256 + h).
Proof. unfold be_val. simpl. lia. Qed.

Lemma get_4_val P v post :
  length v = 4%nat -> bytes v -> ngx_get_4_bytes (P ++ v ++ post) (zlen P) = Ok (be_val v).
Proof.
  intros Hl Hb. destruct v as [|a [|b [|c [|d []]]]]; try discriminate Hl.
  repeat (apply Forall_cons in Hb as [? Hb]).
  cbn [app]. rewrite get_4_raw by done. by rewrite be_val_4.
Qed.

Lemma get_8_val P v post :
  length v = 8%nat -> bytes v -> ngx_get_8_bytes (P ++ v ++ post) (zlen P) = Ok (be_val v).
Proof.
  intros Hl Hb. destruct v as [|a [|b [|c [|d [|e [|f [|g [|h []]]]]]]]]; try discriminate Hl.
  cbn [app]. rewrite get_8_raw by done. by rewrite be_val_8.
Qed.

Lemma stun_attr_effect pre a post mi p :
  attr_valid a -> packet_wf p ->
  stun_attr ((pre ++ be 2 a.1 ++ be 2 (zlen a.2)) ++ a.2 ++ post) a.1 (zlen a.2)
    (Parse (zlen pre) mi false 0 0 p)
  = Ok (Some (Parse (zlen pre) mi false 0 0 (effect p a))).
Proof.
  intros Ha Hp. unfold stun_attr. cbn [ps_pos ps_packet].
  set (P := pre ++ _).
  replace (zlen pre + 4) with (zlen P) by (unfold P; by rewrite !zlen_app).
  destruct Ha as [v Hv ?|v Hl Hb|v Hl Hb|v Hl Hb| |v ? ?|v Hl Hb]; cbn [fst snd Z.eqb];
    try (assert (zlen v = Z.of_nat (length v)) as -> by done; rewrite Hl).
  - destruct (Z.leb_spec username_size (zlen v)); [lia|]. simpl.
    by rewrite copy_username_effect.
  - simpl. by rewrite get_4_val.
  - simpl. by rewrite get_8_val.
  - simpl. by rewrite get_8_val.
  - done.
  - done.
  - destruct v as [|c0 [|c1 [|c2 [|c3 []]]]]; try discriminate Hl.
    repeat (apply Forall_cons in Hb as [? Hb]).
    unfold ngx_get_1_byte. simpl.
    rewrite (get_behind P _ (zlen P + 2) 2 c2) by (lia || done).
    rewrite (get_behind P _ (zlen P + 3) 3 c3) by (lia || done). simpl.
    assert (u16 (c2 * 100 + c3) = c2 * 100 + c3) as -> by (apply Z.mod_small; lia).
    done.
Qed.

Lemma effect_wf a p : attr_valid a -> packet_wf p -> packet_wf (effect p a).
Proof.
  unfold packet_wf. destruct 1 as [v Hv ?|v Hl Hb|v Hl Hb|v Hl Hb| |v ? ?|v Hl Hb];
    intros Hp; simpl; try done.
  rewrite zlen_app, zlen_cons. unfold zlen, username_size in *.
  rewrite length_drop. lia.
Qed.

(** One iteration of the loop on one attribute. *)
Lemma stun_parse_step_tlv pre a post len mi p :
  attr_valid a -> packet_wf p -> zlen pre mod 4 = 0 ->
  zlen pre + 4 + zlen a.2 <= len <= 65532 -> mi = false ->
  stun_parse_step (pre ++ tlv a.1 a.2 ++ post) len (Parse (zlen pre) mi false 0 0 p)
  = Ok (Some (Parse (zlen (pre ++ tlv a.1 a.2)) mi false 0 0 (effect p a))).
Proof.
  intros Ha Hp Hpre Hlen ->. pose proof (attr_valid_bounds a Ha) as (? & ? & ?).
  unfold username_size in *. pose proof (zlen_nonneg pre).
  unfold stun_parse_step, tlv. cbn [ps_pos ps_has_fingerprint ps_has_message_integrity].
  rewrite <- !app_assoc. rewrite (get_2_be pre a.1 _ (zlen pre)), Ok_bind by lia.
  rewrite (app_assoc pre). rewrite (get_2_be (pre ++ _) (zlen a.2)), Ok_bind by
    (rewrite ?zlen_app, ?zlen_be; lia).
  destruct (Z.ltb_spec len (zlen pre + 4 + zlen a.2)); [lia|]. cbn [andb].
  rewrite (app_assoc (pre ++ _)), <- (app_assoc pre).
  rewrite stun_attr_effect, Ok_bind by done.
  rewrite u16_id, pad_spec by lia. unfold with_pos.
  cbn [ps_has_message_integrity ps_has_fingerprint ps_fingerprint_attr_pos
       ps_fingerprint ps_packet].
  do 3 f_equal. rewrite !zlen_app, !zlen_be. Z.to_euclidean_division_equations; lia.
Qed.

(** The loop over a list of attributes is a fold. *)
Lemma stun_parse_loop_attrs attrs pre post p fuel len :
  Forall attr_valid attrs -> packet_wf p -> zlen pre mod 4 = 0 ->
  zlen (pre ++ enc_list attrs) <= len <= 65532 ->
  packet_wf (fold_left effect attrs p) /\
  stun_parse_loop (length attrs + fuel) (pre ++ enc_list attrs ++ post) len
    (Parse (zlen pre) false false 0 0 p)
  = stun_parse_loop fuel (pre ++ enc_list attrs ++ post) len
    (Parse (zlen (pre ++ enc_list attrs)) false false 0 0 (fold_left effect attrs p)).
Proof.
  intros Hv. revert pre p. induction Hv as [|a attrs Ha Hv IH]; intros pre p Hp Hpre Hlen.
  { by rewrite app_nil_r. }
  pose proof (attr_valid_bounds a Ha) as (_ & _ & ?).
  rewrite enc_list_cons in *. rewrite !zlen_app, zlen_tlv in Hlen.
  pose proof (zlen_nonneg (enc_list attrs)).
  destruct (IH (pre ++ tlv a.1 a.2) (effect p a)) as [Hwf E].
  { by apply effect_wf. }
  { rewrite zlen_app, zlen_tlv. Z.to_euclidean_division_equations; lia. }
  { rewrite !zlen_app, zlen_tlv. lia. }
  split; [done|]. cbn [length Nat.add stun_parse_loop fold_left ps_pos].
  destruct (Z.leb_spec (zlen pre + 4) len); [|pose proof (zlen_nonneg a.2); lia].
  rewrite <- app_assoc. rewrite stun_parse_step_tlv, Ok_bind by (done || lia).
  rewrite <- !app_assoc in E. exact E.
Qed.

(** ** The serialiser writes such a list *)

Definition username_attr (p : stun_packet) : list attribute :=
  if 0 <? p.(username_len)
  then [(USERNAME, take (Z.to_nat p.(username_len)) p.(username))] else [].

Definition priority_attr (p : stun_packet) : list attribute :=
  if p.(priority) =? 0 then [] else [(PRIORITY, be 4 p.(priority))].

Definition ice_controlling_attr (p : stun_packet) : list attribute :=
  if p.(ice_controlling) =? 0 then []
  else [(ICE_CONTROLLING, be 8 p.(ice_controlling))].

Definition ice_controlled_attr (p : stun_packet) : list attribute :=
  if p.(ice_controlled) =? 0 then []
  else [(ICE_CONTROLLED, be 8 p.(ice_controlled))].

Definition use_candidate_attr (p : stun_packet) : list attribute :=
  if p.(has_use_candidate) =? 0 then [] else [(USE_CANDIDATE, [])].

Definition address_attr (tid : list Z) (p : stun_packet) : list attribute :=
  if xor_mapped_address_padded_len p =? 0 then []
  else match p.(xor_mapped_address) with
  | Some (Sa_inet port addr) =>
      [(XOR_MAPPED_ADDRESS, [0; 1]
        ++ zip_with Z.lxor port (take 2 stun_magic_cookie)
        ++ zip_with Z.lxor addr stun_magic_cookie)]
  | Some (Sa_inet6 port addr) =>
      [(XOR_MAPPED_ADDRESS, [0; 2]
        ++ zip_with Z.lxor port (take 2 stun_magic_cookie)
        ++ zip_with Z.lxor addr (stun_magic_cookie ++ tid))]
  | _ => []
  end.

Definition error_code_attr (p : stun_packet) : list attribute :=
  if add_error_code p
  then [(ERROR_CODE, [0; 0; p.(error_code) / 100; p.(error_code) mod 100])] else [].

Definition attributes_of (tid : list Z) (p : stun_packet) : list attribute :=
  username_attr p ++ priority_attr p ++ ice_controlling_attr p
  ++ ice_controlled_attr p ++ use_candidate_attr p ++ address_attr tid p
  ++ error_code_attr p.

Ltac unfold_attributes :=
  unfold attributes_of, username_attr, priority_attr, ice_controlling_attr,
    ice_controlled_attr, use_candidate_attr, address_attr, error_code_attr.

(** With a user name that needs no padding the old content does not matter. *)
Lemma enc_attributes_list tid p rest :
  packet_ok p -> p.(username_len) mod 4 = 0 ->
  enc_attributes tid p rest = enc_list (attributes_of tid p).
Proof.
  intros Hp H4. pose proof (ok_username_len p Hp). unfold username_size in *.
  unfold enc_attributes. unfold_attributes. rewrite !enc_list_app. cbn [enc_seq].
  rewrite app_nil_r.
  assert (username_padding p = 0) as Hpad.
  { unfold username_padding. rewrite pad_spec by lia.
    Z.to_euclidean_division_equations; lia. }
  unfold enc_username, enc_priority, enc_ice_controlling, enc_ice_controlled,
    enc_use_candidate, enc_xor_mapped_address, enc_error_code.
  rewrite Hpad. cbn [Z.to_nat take].
  repeat f_equal; repeat case_match; unfold enc_list; cbn;
    by rewrite ?app_nil_r.
Qed.

Lemma attributes_of_valid tid p :
  zlen tid = 12 -> packet_ok p -> p.(username_len) mod 4 = 0 ->
  Forall attr_valid (attributes_of tid p).
Proof.
  intros Ht Hp H4. unfold_attributes.
  pose proof (ok_username_len p Hp). pose proof (ok_username p Hp).
  unfold username_size in *.
  repeat (apply Forall_app; split); repeat case_match; try constructor 1;
    apply Forall_singleton.
  - constructor; rewrite zlen_take by lia; unfold username_size; lia.
  - constructor; [done|apply be_bytes].
  - constructor; [done|apply be_bytes].
  - constructor; [done|apply be_bytes].
  - constructor.
  - pose proof (ok_address p Hp) as Ha.
    match goal with E : xor_mapped_address p = _ |- _ => rewrite E in Ha end.
    destruct Ha as [Hport Haddr]. apply valid_address;
      rewrite !zlen_app, !zlen_zip_lxor by done; done.
  - pose proof (ok_address p Hp) as Ha.
    match goal with E : xor_mapped_address p = _ |- _ => rewrite E in Ha end.
    destruct Ha as [Hport Haddr].
    assert (zlen (stun_magic_cookie ++ tid) = 16) as E16 by (by rewrite zlen_app, Ht).
    set (keys := stun_magic_cookie ++ tid) in *. apply valid_address;
      rewrite !zlen_app, !zlen_zip_lxor by (congruence || done); rewrite E16; done.
  - match goal with E : add_error_code p = true |- _ =>
      pose proof (ok_error_code p Hp E) end.
    constructor; [done|].
    repeat constructor; Z.to_euclidean_division_equations; lia.
Qed.

Lemma be_val_be4 v : 0 <= v < 4294967296 -> be_val (be 4 v) = v.
Proof. intros. cbn [be]. rewrite be_val_4. be_value. Qed.

Lemma be_val_be8 v : 0 <= v < 18446744073709551616 -> be_val (be 8 v) = v.
Proof. intros. cbn [be]. rewrite be_val_8. be_value. Qed.

Lemma length_attributes_of tid p : (length (attributes_of tid p) <= 7)%nat.
Proof.
  unfold_attributes. rewrite !length_app. repeat case_match; simpl; lia.
Qed.

(** *** Class and method *)

(** What [ngx_stun_parse] extracts from the type field. *)
Definition parse_method (t : Z) : Z :=
  Z.lor (Z.lor (Z.land t 0x000f) (Z.shiftr (Z.land t 0x00e0) 1))
    (Z.shiftr (Z.land t 0x3E00) 2).

Definition parse_class (d0 d1 : Z) : Z :=
  Z.lor (Z.shiftl (Z.land d0 0x01) 1) (Z.shiftr (Z.land d1 0x10) 4).

Definition type_roundtrip (m k : Z) : bool :=
  let t := stun_type_field (set_klass k (set_method m packet_zero)) in
  (parse_method t =? m) && (parse_class (u8 (Z.shiftr t 8)) (u8 t) =? k).

Lemma type_roundtrip_all :
  forallb (fun m => forallb (type_roundtrip (Z.of_nat m)) [0; 1; 2; 3])
    (seq 0 (Z.to_nat 4096)) = true.
Proof. vm_compute. reflexivity. Qed.

(** The 12-bit method and the 2-bit class share the type field. *)
Lemma type_field_roundtrip p :
  0 <= p.(method) < 4096 -> 0 <= p.(klass) < 4 ->
  let t := stun_type_field p in
  parse_method t = p.(method) /\ parse_class (u8 (Z.shiftr t 8)) (u8 t) = p.(klass).
Proof.
  intros Hm Hk t. pose proof type_roundtrip_all as H.
  rewrite forallb_forall in H. specialize (H (Z.to_nat p.(method))).
  rewrite Z2Nat.id in H by lia.
  assert (In (Z.to_nat p.(method)) (seq 0 (Z.to_nat 4096))) as Hin by (apply in_seq; lia).
  specialize (H Hin). rewrite forallb_forall in H. specialize (H p.(klass)).
  assert (In p.(klass) [0; 1; 2; 3]) as Hin' by (simpl; lia).
  specialize (H Hin'). unfold type_roundtrip in H.
  change (stun_type_field (set_klass _ _)) with t in H. lia.
Qed.

(** *** The fields *)

(** [q] carries what [p] sent. *)
Definition same_fields (p q : stun_packet) : Prop :=
  q.(username_len) = p.(username_len) /\
  take (Z.to_nat p.(username_len)) q.(username)
  = take (Z.to_nat p.(username_len)) p.(username) /\
  q.(priority) = p.(priority) /\
  q.(ice_controlling) = p.(ice_controlling) /\
  q.(ice_controlled) = p.(ice_controlled) /\
  (q.(has_use_candidate) =? 0) = (p.(has_use_candidate) =? 0) /\
  q.(error_code) = (if add_error_code p then p.(error_code) else 0).

Lemma fold_username p q :
  packet_ok p -> q.(username_len) = 0 ->
  exists q', fold_left effect (username_attr p) q = q' /\
    q'.(username_len) = p.(username_len) /\
    take (Z.to_nat p.(username_len)) q'.(username)
    = take (Z.to_nat p.(username_len)) p.(username) /\
    q'.(klass) = q.(klass) /\ q'.(method) = q.(method) /\
    q'.(transaction_id) = q.(transaction_id) /\ q'.(priority) = q.(priority) /\
    q'.(ice_controlling) = q.(ice_controlling) /\
    q'.(ice_controlled) = q.(ice_controlled) /\
    q'.(has_use_candidate) = q.(has_use_candidate) /\
    q'.(error_code) = q.(error_code).
Proof.
  intros Hp Hq. eexists. split; [done|].
  pose proof (ok_username_len p Hp). pose proof (ok_username p Hp).
  unfold username_attr. destruct (Z.ltb_spec 0 p.(username_len)); simpl.
  - rewrite zlen_take by lia. repeat split.
    rewrite take_app_le by (rewrite length_take; unfold zlen in *; lia).
    by rewrite take_take, Nat.min_id.
  - by replace (username_len p) with 0 by lia.
Qed.

Lemma fold_effect_fields tid p q :
  packet_ok p ->
  q.(username_len) = 0 -> q.(priority) = 0 -> q.(ice_controlling) = 0 ->
  q.(ice_controlled) = 0 -> q.(has_use_candidate) = 0 -> q.(error_code) = 0 ->
  let r := fold_left effect (attributes_of tid p) q in
  same_fields p r /\ r.(klass) = q.(klass) /\ r.(method) = q.(method) /\
  r.(transaction_id) = q.(transaction_id).
Proof.
  intros Hp U P1 I1 I2 C1 E1. cbv zeta. unfold attributes_of, same_fields.
  pose proof (be_val_be4 _ (ok_priority p Hp)) as Hpri.
  pose proof (be_val_be8 _ (ok_ice_controlling p Hp)) as Hc1.
  pose proof (be_val_be8 _ (ok_ice_controlled p Hp)) as Hc2.
  destruct (fold_username p q Hp U) as 
    (q' & Eq & Hlen & Htake & Hk & Hm & Ht & P2 & I3 & I4 & C2 & E2).
  rewrite !fold_left_app, Eq. clear Eq.
  assert (forall q, fold_left effect (address_attr tid p) q = q) as Hx.
  { intros. unfold address_attr. by repeat case_match. }
  rewrite Hx. clear Hx.
  unfold priority_attr, ice_controlling_attr, ice_controlled_attr, use_candidate_attr,
    error_code_attr.
  destruct (add_error_code p), (Z.eqb_spec p.(priority) 0),
    (Z.eqb_spec p.(ice_controlling) 0), (Z.eqb_spec p.(ice_controlled) 0),
    (Z.eqb_spec p.(has_use_candidate) 0); cbn -[be be_val Z.div Z.modulo Z.mul];
    repeat split; try congruence; try done;
    Z.to_euclidean_division_equations; lia.
Qed.

(** ** Round trip *)

Lemma be_2_split v : 0 <= v < 65536 -> be 2 v = [u8 (Z.shiftr v 8); u8 v].
Proof. intros. cbn [be]. unfold u8. repeat f_equal; by rewrite ?Z.shiftr_0_r. Qed.

Lemma stun_type_field_bounds p : 0 <= stun_type_field p < 65536.
Proof. apply Z.mod_pos_bound. lia. Qed.

(** The iteration on MESSAGE-INTEGRITY. *)
Lemma stun_parse_step_integrity pre tag len p :
  zlen tag = 20 -> zlen pre mod 4 = 0 -> zlen pre + 24 = len -> len <= 65532 ->
  stun_parse_step (pre ++ tlv MESSAGE_INTEGRITY tag) len (Parse (zlen pre) false false 0 0 p)
  = Ok (Some (Parse len true false 0 0
      (set_message_integrity (Some (Ptr Received (zlen pre + 4))) p))).
Proof.
  intros Ht Hpre Hlen Hmax. pose proof (zlen_nonneg pre).
  unfold stun_parse_step, tlv. cbn [ps_pos ps_has_fingerprint ps_has_message_integrity].
  rewrite Ht. rewrite (get_2_be pre MESSAGE_INTEGRITY _ (zlen pre)), Ok_bind by done.
  rewrite (app_assoc pre). rewrite (get_2_be (pre ++ _) 20), Ok_bind by
    (rewrite ?zlen_app, ?zlen_be; lia).
  destruct (Z.ltb_spec len (zlen pre + 4 + 20)); [lia|]. cbn [andb].
  assert (forall d st, stun_attr d MESSAGE_INTEGRITY 20 st
    = Ok (Some (Parse st.(ps_pos) true st.(ps_has_fingerprint)
        st.(ps_fingerprint_attr_pos) st.(ps_fingerprint)
        (set_message_integrity (Some (Ptr Received (st.(ps_pos) + 4))) st.(ps_packet)))))
    as -> by done.
  rewrite Ok_bind. rewrite u16_id, pad_spec by lia. unfold with_pos.
  cbn [ps_has_message_integrity ps_has_fingerprint ps_fingerprint_attr_pos
       ps_fingerprint ps_packet].
  do 3 f_equal. Z.to_euclidean_division_equations; lia.
Qed.

Lemma stun_parse_loop_end fuel data len st :
  len < st.(ps_pos) + 4 -> stun_parse_loop fuel data len st = Ok (inr st).
Proof.
  intros. destruct fuel; cbn [stun_parse_loop];
    by destruct (Z.leb_spec (st.(ps_pos) + 4) len); [lia|].
Qed.

Lemma enc_list_mod_4 l : Forall attr_valid l -> zlen (enc_list l) mod 4 = 0.
Proof.
  induction 1 as [|a l Ha Hl IH]; [done|]. rewrite enc_list_cons, zlen_app, zlen_tlv.
  pose proof (attr_valid_bounds a Ha) as (_ & _ & ?).
  Z.to_euclidean_division_equations; lia.
Qed.

(** None of the attributes is MESSAGE-INTEGRITY. *)
Lemma effect_integrity l q :
  q.(message_integrity) = None ->
  fold_left effect l q = set_message_integrity None (fold_left effect l q).
Proof.
  revert q. induction l as [|[t v] l IH]; intros q Hq; [by destruct q; simplify_eq/=|].
  apply IH. unfold effect. by repeat case_match.
Qed.

Lemma add_mod_4 a b : a mod 4 = 0 -> b mod 4 = 0 -> (a + b) mod 4 = 0.
Proof. intros. Z.to_euclidean_division_equations; lia. Qed.

Lemma stun_room_mod_4 p :
  packet_ok p -> stun_room p mod 4 = 0.
Proof.
  intros Hp. pose proof (ok_username_len p Hp). unfold username_size in *.
  unfold stun_room, attributes_room, username_room, xor_mapped_address_padded_len.
  rewrite pad_spec by lia.
  repeat apply add_mod_4; repeat case_match; try done.
  Z.to_euclidean_division_equations; lia.
Qed.

(** Without padding the size the code computes is the room. *)
Lemma stun_size_unpadded p :
  packet_ok p -> p.(username_len) mod 4 = 0 -> stun_size false p = stun_room p.
Proof.
  intros Hp H4. pose proof (ok_username_len p Hp). unfold username_size in *.
  destruct (stun_size_room p Hp) as (-> & _ & _).
  unfold username_padding. rewrite pad_spec by lia.
  case_match; Z.to_euclidean_division_equations; lia.
Qed.

Section roundtrip.
Context `{OpenSSL} (tid : list Z) (p : stun_packet) (rest : list Z).
Context (Htid : zlen tid = 12) (Hp : packet_ok p) (Hmi : integrity_ok p).
Context (H4 : p.(username_len) mod 4 = 0).
Context (Hclass : 0 <= p.(klass) < 4) (Hmethod : 0 <= p.(method) < 4096).

Definition parsed_packet : stun_packet :=
  fold_left effect (attributes_of tid p)
    (set_transaction_id (Some (Ptr Received 8))
      (set_method p.(method) (set_klass p.(klass) packet_zero))).

(** The attribute loop on a whole message. *)
Lemma stun_parse_loop_message :
  let data := stun_encode tid p rest in
  zlen data <= 65532 ->
  exists st,
    stun_parse_loop (Z.to_nat (zlen data)) data (zlen data)
      (Parse 20 false false 0 0
        (set_transaction_id (Some (Ptr Received 8))
          (set_method p.(method) (set_klass p.(klass) packet_zero))))
    = Ok (inr st) /\ st.(ps_pos) = zlen data /\ st.(ps_has_fingerprint) = false /\
    exists m, st.(ps_packet)
      = set_message_integrity m parsed_packet.
Proof.
  intros data Hmax. unfold data, stun_encode in *.
  rewrite enc_attributes_list in * by done.
  set (hdr := enc_header tid p) in *. set (attrs := attributes_of tid p) in *.
  set (msg := hdr ++ enc_list attrs) in *.
  assert (zlen hdr = 20) as Hhdr.
  { unfold hdr, enc_header. by rewrite !zlen_app, Htid. }
  pose proof (length_attributes_of tid p) as Hl7. fold attrs in Hl7.
  pose proof (zlen_nonneg (enc_list attrs)).
  assert (zlen msg = 20 + zlen (enc_list attrs)) as Hmsg by (unfold msg; by rewrite zlen_app, Hhdr).
  pose proof (zlen_nonneg (enc_message_integrity p msg)).
  assert (zlen msg mod 4 = 0) as Hmsg4.
  { rewrite Hmsg. pose proof (enc_list_mod_4 attrs (attributes_of_valid tid p Htid Hp H4)).
    Z.to_euclidean_division_equations; lia. }
  rewrite zlen_app in Hmax.
  set (mi := enc_message_integrity p msg) in *.
  replace (Z.to_nat (zlen (msg ++ mi)))
    with (length attrs + S (Z.to_nat (zlen (msg ++ mi)) - length attrs - 1))%nat
    by (rewrite zlen_app; lia).
  destruct (stun_parse_loop_attrs attrs hdr mi
    (set_transaction_id (Some (Ptr Received 8))
      (set_method p.(method) (set_klass p.(klass) packet_zero)))
    (S (Z.to_nat (zlen (msg ++ mi)) - length attrs - 1)) (zlen (msg ++ mi)))
    as [Hwf E].
  { by apply attributes_of_valid. }
  { done. }
  { by rewrite Hhdr. }
  { fold msg. rewrite zlen_app. lia. }
  rewrite Hhdr in E. unfold msg at 2. rewrite <- app_assoc, E. fold msg.
  unfold msg in E. clear E. rewrite app_assoc. fold msg. fold attrs in Hwf.
  change (fold_left effect attrs _) with parsed_packet.
  cbn [stun_parse_loop ps_pos].
  unfold mi, enc_message_integrity. destruct (add_message_integrity p) eqn:Ea.
  2: { rewrite app_nil_r. destruct (Z.leb_spec (zlen msg + 4) (zlen msg)); [lia|].
       eexists. repeat split. exists None. by apply effect_integrity. }
  destruct (Hmi Ea) as [_ Hs]. destruct (Hs msg) as [tag Htag]. rewrite Htag.
  destruct (HMAC_SHA1_bytes _ _ _ Htag) as [Htl _].
  rewrite zlen_app, zlen_tlv, Htl.
  destruct (Z.leb_spec (zlen msg + 4) (zlen msg + (4 + 20))); [|lia].
  rewrite stun_parse_step_integrity by
    (try lia; unfold mi, enc_message_integrity in Hmax; rewrite Ea, Htag, zlen_tlv in Hmax;
     lia).
  rewrite Ok_bind, stun_parse_loop_end by (cbn [ps_pos]; lia).
  eexists. repeat split. by eexists.
Qed.

Lemma stun_parse_encode :
  zlen (stun_encode tid p rest) = stun_room p ->
  exists q, ngx_stun_parse packet_zero (stun_encode tid p rest) (stun_room p)
    = Ok (NGX_OK, q) /\
    same_fields p q /\ q.(klass) = p.(klass) /\ q.(method) = p.(method) /\
    q.(transaction_id) = Some (Ptr Received 8).
Proof.
  intros Hlen. destruct (stun_size_room p Hp) as (Hs1 & Hs2 & Hs3).
  destruct stun_parse_loop_message as (st & E & Hpos & Hfp & m & Hq); [lia|].
  rewrite Hlen in E, Hpos.
  destruct (fold_effect_fields tid p (set_transaction_id (Some (Ptr Received 8))
    (set_method p.(method) (set_klass p.(klass) packet_zero))) Hp) as (F & K & M & T);
    try reflexivity.
  pose proof (ok_username_len p Hp). unfold username_size in *.
  pose proof (stun_room_mod_4 p Hp) as Hr4. pose proof (stun_size_unpadded p Hp H4) as Hsz.
  pose proof (stun_type_field_bounds p) as Ht.
  destruct (type_field_roundtrip p Hmethod Hclass) as [Rm Rk].
  unfold ngx_stun_parse, ngx_stun_parse_fuel.
  set (data := stun_encode tid p rest) in *.
  assert (data = be 2 (stun_type_field p) ++ be 2 (stun_room p - 20)
    ++ stun_magic_cookie ++ tid ++ enc_attributes tid p rest
    ++ enc_message_integrity p (enc_header tid p ++ enc_attributes tid p rest)) as Ed.
  { unfold data, stun_encode. unfold enc_header at 1. rewrite Hsz.
    by rewrite <- !app_assoc. }
  assert (ngx_get_2_bytes data 0 = Ok (stun_type_field p)) as ->.
  { rewrite Ed. by apply (get_2_be []). }
  assert (ngx_get_2_bytes data 2 = Ok (stun_room p - 20)) as ->.
  { rewrite Ed. apply get_2_be; [done|lia]. }
  assert (get data 0 = Ok (u8 (Z.shiftr (stun_type_field p) 8))) as ->.
  { rewrite Ed, be_2_split by done. done. }
  assert (get data 1 = Ok (u8 (stun_type_field p))) as ->.
  { rewrite Ed, be_2_split by done. done. }
  rewrite !Ok_bind. cbv zeta.
  change (Z.lor (Z.lor (Z.land (stun_type_field p) 15) _) _)
    with (parse_method (stun_type_field p)).
  change (Z.lor (Z.shiftl (Z.land (u8 (Z.shiftr (stun_type_field p) 8)) 1) 1) _)
    with (parse_class (u8 (Z.shiftr (stun_type_field p) 8)) (u8 (stun_type_field p))).
  rewrite Rm, Rk, land_3, u64_id by lia. rewrite Z.eqb_refl.
  assert ((stun_room p - 20) mod 4 = 0) as ->.
  { Z.to_euclidean_division_equations; lia. }
  cbn [negb orb Z.eqb]. rewrite E, Ok_bind, Hpos, Z.eqb_refl, Hfp, Hq. cbn [negb].
  eexists. split; [done|]. done.
Qed.
End roundtrip.



(** C9: the condition on the user name is needed: for any other length the
    size field that [ngx_stun_serialize] writes is not a multiple of four, and
    [ngx_stun_parse] rejects the message that was sent. *)
Theorem stun_serialize_unaligned `{OpenSSL} p received buffer len o tid :
  packet_ok p -> p.(username_len) mod 4 <> 0 ->
  p.(transaction_id) = Some (Ptr Received o) -> slice received o 12 = Ok tid ->
  integrity_ok p -> stun_size false p <= len -> stun_room p <= zlen buffer ->
  exists p' buffer' msg,
    ngx_stun_serialize p received buffer len = Ok (NGX_OK, p', buffer') /\
    slice buffer' 0 p'.(size) = Ok msg /\
    forall q, ngx_stun_parse q msg p'.(size) = Ok (NGX_ERROR, q).
Proof.
  intros Hp H4 Hptr Htid Hmi Hlen Hbuf.
  destruct (stun_size_room p Hp) as (Hsz & Hs1 & Hs2).
  pose proof (ok_username_len p Hp). unfold username_size in *.
  assert (stun_size false p mod 4 <> 0) as Hsz4.
  { pose proof (stun_room_mod_4 p Hp). rewrite Hsz. unfold username_padding.
    destruct (Z.ltb_spec 0 p.(username_len)); [|by replace p.(username_len) with 0 in H4 by lia].
    rewrite pad_spec by lia. Z.to_euclidean_division_equations; lia. }
  destruct (stun_serialize_encode p received buffer len o tid) as (p' & E & Hs & Hl);
    [done..|].
  set (b' := _ ++ _) in E.
  assert (zlen b' = zlen buffer) as Hb'.
  { unfold b'. rewrite zlen_app, Hl, zlen_drop; lia. }
  destruct (slice_ok b' 0 (stun_size false p)) as (msg & Emsg & Hmsg); [lia..|].
  exists p', b', msg. split; [done|]. rewrite Hs. split; [done|]. intros q.
  unfold ngx_stun_parse, ngx_stun_parse_fuel.
  destruct (get_2_ok msg 0) as (t & -> & _); [lia..|].
  destruct (get_2_ok msg 2) as (n & -> & _); [lia..|].
  rewrite !Ok_bind, land_3, u64_id by lia.
  destruct (Z.eqb_spec n (stun_size false p - 20)) as [->|]; [|done].
  destruct (Z.eqb_spec ((stun_size false p - 20) mod 4) 0); [|done].
  Z.to_euclidean_division_equations; lia.
Qed.

(** The reply to the probe of an ICE agent whose user name has 9 bytes. *)
Definition sample_unaligned : stun_packet :=
  set_username (str "abcd:efgh" ++ replicate 504 0)
    (set_username_len 9 sample_reply).

Lemma stun_serialize_unaligned_witness :
  exists p' buffer' msg,
    ngx_stun_serialize (H := OpenSSL_toy) sample_unaligned (replicate 20 7)
      (replicate 100 0) 80 = Ok (NGX_OK, p', buffer') /\
    slice buffer' 0 p'.(size) = Ok msg /\
    forall q, ngx_stun_parse q msg p'.(size) = Ok (NGX_ERROR, q).
Proof.
  apply (stun_serialize_unaligned (H := OpenSSL_toy) sample_unaligned (replicate 20 7)
    (replicate 100 0) 80 8 (replicate 12 7)).
  - split; vm_compute; repeat split; congruence.
  - vm_compute. congruence.
  - reflexivity.
  - reflexivity.
  - intros _. split; [vm_compute; split; congruence|]. intros msg. by eexists.
  - vm_compute. congruence.
  - vm_compute. congruence.
Defined.
