(* ===== verification/Probe.v ===== *)
(** * The stream probe

    The rest of [src/stream/ngx_stream_probe.c] and
    [src/stream/ngx_stream_probe_module.c]: a datagram of 24, 36, 40 or 66
    bytes may be a UDP, RTP, STUN or DTLS probe, which the server answers
    itself; any other datagram goes on to the proxy unchanged. *)

From stdpp Require Import gmap.
From S2P Require Import Prelude Crc NetBytes OpenSSL Stun StunSerialize.

(** ** Recognising probes *)

Definition prefix_probe_1 : list Z := str "probe:".
Definition prefix_probe_2 : list Z := str "tools:".
(** [username_len] of the source; the name is a field of [stun_packet] here. *)
Definition probe_username_len : Z := 16.
Definition prefix_len : Z := 6.
Definition RTP_HEADER_SIZE : Z := 12.

Definition sizeof_stun_packet : Z := 680.


(** [ngx_memcmp(p + off, prefix, prefix_len) == 0] for one of the prefixes. *)
Definition has_prefix (p : list Z) (off : Z) : res bool :=
  l ← slice p off prefix_len;
  Ok (beq l prefix_probe_1 || beq l prefix_probe_2).

(** [NGX_OK] or [NGX_ERROR]; the RTP version is the top two bits of the first
    byte on a little-endian machine. *)
Definition ngx_is_rtp_probe (data : list Z) (len : Z) : res Z :=
  if negb (RTP_HEADER_SIZE <=? len) then Ok NGX_ERROR
  else
    d0 ← get data 0;
    Ok (if (127 <? d0) && (d0 <? 192) && (Z.shiftr d0 6 =? 2)
        then NGX_OK else NGX_ERROR).

Definition ngx_is_stun_probe (data : list Z) (len : Z) : res Z :=
  if negb (20 <=? len) then Ok NGX_ERROR
  else
    d0 ← get data 0;
    if negb (d0 <? 3) then Ok NGX_ERROR
    else
      cookie ← slice data 4 4;
      Ok (if beq cookie stun_magic_cookie then NGX_OK else NGX_ERROR).

Definition ngx_is_dtls_probe (data : list Z) (len : Z) : res Z :=
  if negb (13 <=? len) then Ok NGX_ERROR
  else
    d0 ← get data 0;
    Ok (if (19 <? d0) && (d0 <? 64) then NGX_OK else NGX_ERROR).

(** ** DTLS messages *)

Definition handshake : Z := 22.
Definition client_hello : Z := 1.
Definition server_hello : Z := 2.
Definition DTLS_RECORD_LAYER_SEQ_NUM_SIZE : Z := 6.

Record dtls_version := Version { major : Z; minor : Z }.

Record dtls_handshake_header := Handshake {
  msg_type : Z;
  hs_length : Z  (* 3 bytes *);
  message_seq : Z;
  fragment_offset : Z;
  fragment_length : Z
}.

Record dtls_record_layer_header := RecordLayer {
  rl_type : Z;
  rl_version : dtls_version;
  epoch : Z;
  sequence_number : list Z  (* 6 bytes *);
  rl_length : Z;
  rl_data : dtls_handshake_header
}.

Record dtls_client_hello := ClientHello {
  legacy_version : dtls_version;
  ch_random : list Z;
  ch_session_id_len : Z;
  ch_session_id : list Z;
  dtls_cookie_len : Z;
  dtls_cookie : list Z;
  ch_ciphersuite : Z;
  ch_compression_method : Z;
  ch_extension_len : Z
}.

Record dtls_server_hello := ServerHello {
  server_version : dtls_version;
  sh_random : list Z;
  sh_session_id_len : Z;
  sh_session_id : list Z;
  sh_ciphersuite : Z;
  sh_compression_method : Z;
  sh_extension_len : Z
}.

Definition zeros (n : Z) : list Z := replicate (Z.to_nat n) 0.

Section dtls.
Context `{OpenSSL}.

(** The writers take the offset [base] of the pointer [buffer] they are
  called with, and return the buffer and the number of bytes written. *)

Definition ngx_server_hello_serialize (sh : dtls_server_hello)
    (buffer : list Z) (base : Z) : res (list Z * Z) :=
  let pos := 0 in
  buffer ← ngx_set_1_byte buffer (base + pos) sh.(server_version).(major);
  let pos := pos + 1 in
  buffer ← ngx_set_1_byte buffer (base + pos) sh.(server_version).(minor);
  let pos := pos + 1 in
  random ← slice sh.(sh_random) 0 SSL3_RANDOM_SIZE;
  buffer ← blit buffer (base + pos) random;
  let pos := pos + SSL3_RANDOM_SIZE in
  buffer ← ngx_set_1_byte buffer (base + pos) (u8 sh.(sh_session_id_len));
  let pos := pos + 1 in
  '(buffer, pos) ← (if 0 <? sh.(sh_session_id_len) then
                      sid ← slice sh.(sh_session_id) 0 sh.(sh_session_id_len);
                      buffer ← blit buffer (base + pos) sid;
                      Ok (buffer, pos + sh.(sh_session_id_len))
                    else Ok (buffer, pos));
  buffer ← ngx_set_2_bytes buffer (base + pos) sh.(sh_ciphersuite);
  let pos := pos + 2 in
  buffer ← ngx_set_1_byte buffer (base + pos) sh.(sh_compression_method);
  let pos := pos + 1 in
  buffer ← ngx_set_2_bytes buffer (base + pos) sh.(sh_extension_len);
  let pos := pos + 2 in
  Ok (buffer, pos).

Definition ngx_handshake_serialize (hs : dtls_handshake_header)
    (sh : dtls_server_hello) (buffer : list Z) (base : Z) : res (list Z * Z) :=
  let pos := 0 in
  buffer ← ngx_set_1_byte buffer (base + pos) (u8 hs.(msg_type));
  let pos := pos + 1 in
  buffer ← ngx_set_3_bytes buffer (base + pos) hs.(hs_length);
  let pos := pos + 3 in
  buffer ← ngx_set_2_bytes buffer (base + pos) hs.(message_seq);
  let pos := pos + 2 in
  buffer ← ngx_set_3_bytes buffer (base + pos) hs.(fragment_offset);
  let pos := pos + 3 in
  if hs.(msg_type) =? server_hello then
    '(buffer, server_hello_len) ← ngx_server_hello_serialize sh buffer (base + pos + 3);
    buffer ← ngx_set_3_bytes buffer (base + pos) (u32 server_hello_len);
    buffer ← ngx_set_3_bytes buffer (base + 1) (u32 server_hello_len);
    Ok (buffer, pos + 3 + server_hello_len)
  else Ok (buffer, 0).

Definition ngx_record_layer_serialize (record : dtls_record_layer_header)
    (sh : dtls_server_hello) (buffer : list Z) (base : Z) : res (list Z * Z) :=
  let pos := 0 in
  buffer ← ngx_set_1_byte buffer (base + pos) (u8 record.(rl_type));
  let pos := pos + 1 in
  buffer ← ngx_set_1_byte buffer (base + pos) record.(rl_version).(major);
  let pos := pos + 1 in
  buffer ← ngx_set_1_byte buffer (base + pos) record.(rl_version).(minor);
  let pos := pos + 1 in
  buffer ← ngx_set_2_bytes buffer (base + pos) record.(epoch);
  let pos := pos + 2 in
  seq ← slice record.(sequence_number) 0 DTLS_RECORD_LAYER_SEQ_NUM_SIZE;
  buffer ← blit buffer (base + pos) seq;
  let pos := pos + DTLS_RECORD_LAYER_SEQ_NUM_SIZE in
  if record.(rl_type) =? handshake then
    '(buffer, handshake_len) ←
      ngx_handshake_serialize record.(rl_data) sh buffer (base + pos + 2);
    buffer ← ngx_set_2_bytes buffer (base + pos) (u16 handshake_len);
    Ok (buffer, pos + 2 + handshake_len)
  else Ok (buffer, 0).

(** The readers return [None] where the code gives up with [NGX_DONE]. *)

Definition dtls_read_record (p : list Z)
    : res (option (dtls_handshake_header -> dtls_record_layer_header)) :=
  type ← ngx_get_1_byte p 0;
  if negb (type =? handshake) then Ok None
  else
    maj ← ngx_get_1_byte p 1;
    min ← ngx_get_1_byte p 2;
    ep ← ngx_get_2_bytes p 3;
    seq ← slice p 5 DTLS_RECORD_LAYER_SEQ_NUM_SIZE;
    length ← ngx_get_2_bytes p 11;
    if negb (length =? 53) then Ok None
    else Ok (Some (RecordLayer type (Version maj min) ep seq length)).

Definition dtls_read_handshake (p : list Z) : res (option dtls_handshake_header) :=
  type ← ngx_get_1_byte p 13;
  length ← ngx_get_3_bytes p 14;
  seq ← ngx_get_2_bytes p 17;
  off ← ngx_get_3_bytes p 19;
  frag ← ngx_get_3_bytes p 22;
  if negb (frag =? 41) || negb (type =? client_hello) then Ok None
  else Ok (Some (Handshake type length seq off frag)).

(** A field of [n] bytes at [pos], copied to a zeroed array of [size]. *)
Definition read_opaque (p : list Z) (pos n size : Z) : res (list Z * Z) :=
  if 0 <? n then
    src ← slice p pos n;
    dst ← blit (zeros size) 0 src;
    Ok (dst, pos + n)
  else Ok (zeros size, pos).

Definition dtls_read_client_hello (p : list Z) : res (option dtls_client_hello) :=
  maj ← ngx_get_1_byte p 25;
  min ← ngx_get_1_byte p 26;
  random ← slice p 27 SSL3_RANDOM_SIZE;
  found ← has_prefix random 8;
  if negb found then Ok None
  else
    let pos := 27 + SSL3_RANDOM_SIZE in
    sid_len ← ngx_get_1_byte p pos;
    '(sid, pos) ← read_opaque p (pos + 1) sid_len SSL_MAX_SSL_SESSION_ID_LENGTH;
    cookie_len ← ngx_get_1_byte p pos;
    '(cookie, pos) ← read_opaque p (pos + 1) cookie_len DTLS1_COOKIE_LENGTH;
    suite ← ngx_get_2_bytes p pos;
    compression ← ngx_get_1_byte p (pos + 2);
    ext ← ngx_get_2_bytes p (pos + 3);
    Ok (Some (ClientHello (Version maj min) random sid_len sid cookie_len cookie
                suite compression ext)).

(** The reply to a client hello. *)
Definition dtls_make_server_hello (ch : dtls_client_hello) : res dtls_server_hello :=
  random ← slice ch.(ch_random) 0 SSL3_RANDOM_SIZE;
  random ← put random (8 + prefix_len) 0xFF;
  num ← get ch.(ch_random) (8 + prefix_len + 1);
  random ← put random (8 + prefix_len + 1) (u8 (num + 1));
  sid ← slice ch.(ch_session_id) 0 ch.(ch_session_id_len);
  session_id ← blit (zeros SSL_MAX_SSL_SESSION_ID_LENGTH) 0 sid;
  Ok (ServerHello (Version ch.(legacy_version).(major) 0xfd) random
        ch.(ch_session_id_len) session_id ch.(ch_ciphersuite)
        ch.(ch_compression_method) ch.(ch_extension_len)).
End dtls.

(** ** The handlers of one datagram

    [palloc k n] is the outcome of the [k]-th allocation of a handler, of [n]
    bytes: [None] for the null pointer, else the memory with its old content.
    A handler returns its code, the datagram as it leaves it (handlers write
    into it) and the datagrams sent. *)

Definition outcome : Type := Z * list Z * list (list Z).

(** [ngx_reply_probe]: the bytes given to [ngx_udp_send]. *)
Definition ngx_reply_probe (data : list Z) (data_len : Z) : res (list (list Z)) :=
  msg ← slice data 0 data_len;
  Ok [msg].

Section handlers.
Context `{OpenSSL} (palloc : nat -> Z -> option (list Z)).

Definition ngx_process_udp_probe (p : list Z) (len : Z) : res outcome :=
  found ← has_prefix p 0;
  if negb found then Ok (NGX_DONE, p, [])
  else
    match palloc 0 (probe_username_len + 1) with
    | None => Ok (NGX_DONE, p, [])
    | Some username =>
        ttl ← get p prefix_len;
        '(p, ret) ← (if ttl <=? 1
                     then p ← put p prefix_len 0; Ok (p, NGX_OK)
                     else p ← put p prefix_len (u8 (ttl - 1)); Ok (p, NGX_DONE));
        num ← get p (prefix_len + 1);
        p ← put p (prefix_len + 1) (u8 (num + 1));
        name ← slice p (prefix_len + 2) probe_username_len;
        username ← blit username 0 name;
        username ← put username probe_username_len 0;
        sent ← ngx_reply_probe p len;
        Ok (ret, p, sent)
    end.

Definition ngx_process_rtp_probe (p : list Z) (len : Z) : res outcome :=
  rc ← ngx_is_rtp_probe p len;
  if negb (rc =? NGX_OK) then Ok (NGX_DONE, p, [])
  else
    let payload := RTP_HEADER_SIZE in
    found ← has_prefix p payload;
    if negb found then Ok (NGX_DONE, p, [])
    else
      p ← put p (payload + prefix_len) 0xFF;
      num ← get p (payload + prefix_len + 1);
      p ← put p (payload + prefix_len + 1) (u8 (num + 1));
      sent ← ngx_reply_probe p len;
      match palloc 0 (probe_username_len + 1) with
      | None => Ok (NGX_DONE, p, sent)
      | Some username =>
          name ← slice p (payload + prefix_len + 2) probe_username_len;
          username ← blit username 0 name;
          username ← put username probe_username_len 0;
          Ok (NGX_OK, p, sent)
      end.

(** The second allocation is not checked: a null buffer has no room, and a
  write to it faults. *)
Definition ngx_process_stun_probe (p : list Z) (len : Z) : res outcome :=
  rc ← ngx_is_stun_probe p len;
  if negb (rc =? NGX_OK) then Ok (NGX_DONE, p, [])
  else
    match palloc 0 sizeof_stun_packet with
    | None => Ok (NGX_DONE, p, [])
    | Some _ =>
        '(rc, packet) ← ngx_stun_parse packet_zero p len;
        if negb (rc =? NGX_OK) then Ok (NGX_DONE, p, [])
        else if negb (packet.(klass) =? REQUEST) then Ok (NGX_DONE, p, [])
        else
          match packet.(transaction_id) with
          | Some (Ptr Received tid) =>
              found ← has_prefix p (tid + 4);
              if negb found then Ok (NGX_DONE, p, [])
              else
                p ← put p (tid + 10) 0xFF;
                num ← get p (tid + 11);
                p ← put p (tid + 11) (u8 (num + 1));
                let packet := set_klass SUCCESS_RESPONSE packet in
                let buffer := default [] (palloc 1 len) in
                '(_, packet, buffer) ← ngx_stun_serialize packet p buffer len;
                sent ← ngx_reply_probe buffer packet.(size);
                Ok (NGX_OK, p, sent)
          | _ => Fault
          end
    end.

(** The record as it is sent back: version DTLS 1.2 and a server hello. *)
Definition reply_record (record : dtls_record_layer_header) : dtls_record_layer_header :=
  let hs := record.(rl_data) in
  RecordLayer record.(rl_type) (Version record.(rl_version).(major) 0xfd)
    record.(epoch) record.(sequence_number) record.(rl_length)
    (Handshake server_hello hs.(hs_length) hs.(message_seq) hs.(fragment_offset)
      hs.(fragment_length)).

(** The second half of [ngx_process_dtls_probe]. *)
Definition dtls_reply (p : list Z) (record : dtls_record_layer_header)
    (ch : dtls_client_hello) : res outcome :=
  if bool_decide (palloc 3 80 = None) then Ok (NGX_DONE, p, [])
  else
    match palloc 4 (probe_username_len + 1) with
    | None => Ok (NGX_DONE, p, [])
    | Some username =>
        name ← slice ch.(ch_random) (8 + prefix_len + 1 + 1) probe_username_len;
        username ← blit username 0 name;
        username ← put username probe_username_len 0;
        sh ← dtls_make_server_hello ch;
        '(p, pos) ← ngx_record_layer_serialize (reply_record record) sh p 0;
        if 0 <? pos then
          sent ← ngx_reply_probe p pos;
          Ok (NGX_OK, p, sent)
        else Ok (NGX_DONE, p, [])
    end.

Definition ngx_process_dtls_probe (p : list Z) (len : Z) : res outcome :=
  rc ← ngx_is_dtls_probe p len;
  if negb (rc =? NGX_OK) then Ok (NGX_DONE, p, [])
  else if bool_decide (palloc 0 40 = None) then Ok (NGX_DONE, p, [])
  else
    record ← dtls_read_record p;
    match record with
    | None => Ok (NGX_DONE, p, [])
    | Some record =>
        if bool_decide (palloc 1 32 = None) then Ok (NGX_DONE, p, [])
        else
          header ← dtls_read_handshake p;
          match header with
          | None => Ok (NGX_DONE, p, [])
          | Some header =>
              if bool_decide (palloc 2 342 = None) then Ok (NGX_DONE, p, [])
              else
                ch ← dtls_read_client_hello p;
                match ch with
                | None => Ok (NGX_DONE, p, [])
                | Some ch => dtls_reply p (record header) ch
                end
          end
    end.

(** [switch (len)] of [ngx_process_probe]. *)
Definition process_datagram (p : list Z) (len : Z) : res outcome :=
  if len =? 24 then ngx_process_udp_probe p len
  else if len =? 36 then ngx_process_rtp_probe p len
  else if len =? 40 then ngx_process_stun_probe p len
  else if len =? 66 then ngx_process_dtls_probe p len
  else Ok (NGX_DONE, p, []).
End handlers.

(** ** The connection

    Buffers live in a store, because [c->buffer] and [c->udp->buffer] may be
    the same buffer. *)

Record connection := Connection {
  store : gmap nat (list Z)  (* from [buffer->pos] to [buffer->last] *);
  sock_dgram : bool  (* [c->type == SOCK_DGRAM] *);
  c_buffer : option nat  (* [c->buffer] *);
  c_udp : option (option nat)  (* [c->udp] and [c->udp->buffer] *);
  sent : list (list Z)  (* datagrams given to [ngx_udp_send] *)
}.

Definition probe_buffer (c : connection) : option nat :=
  match c.(c_buffer), c.(c_udp) with
  | None, Some buffer => buffer
  | buffer, _ => buffer
  end.

(** [ngx_process_probe]; clearing [c->udp->buffer] does not check [c->udp]. *)
Definition ngx_process_probe `{OpenSSL} (palloc : nat -> Z -> option (list Z))
    (c : connection) : res (Z * connection) :=
  if negb c.(sock_dgram) then Ok (NGX_DONE, c)
  else
    match probe_buffer c with
    | None => Ok (NGX_DONE, c)
    | Some buffer =>
        match c.(store) !! buffer with
        | None => Fault
        | Some p =>
            '(ret, p, out) ← process_datagram palloc p (zlen p);
            let st := <[buffer := p]> c.(store) in
            let out := c.(sent) ++ out in
            if ret =? NGX_OK then
              match c.(c_udp) with
              | None => Fault
              | Some _ => Ok (ret, Connection st c.(sock_dgram) None (Some None) out)
              end
            else Ok (ret, Connection st c.(sock_dgram) c.(c_buffer) c.(c_udp) out)
        end
    end.

(** ** The module *)

Definition NGX_CONF_UNSET : Z := -1.
Definition NGX_CONF_UNSET_MSEC : Z := 18446744073709551615.

Record ngx_stream_probe_srv_conf_t := Conf { probe_enable : Z; probe_timeout : Z }.

Definition ngx_stream_probe_create_srv_conf : ngx_stream_probe_srv_conf_t :=
  Conf NGX_CONF_UNSET NGX_CONF_UNSET_MSEC.

(** [ngx_conf_merge_value] and [ngx_conf_merge_msec_value]. *)
Definition conf_merge (unset conf prev dflt : Z) : Z :=
  if conf =? unset then (if prev =? unset then dflt else prev) else conf.

Definition ngx_stream_probe_merge_srv_conf (prev conf : ngx_stream_probe_srv_conf_t)
    : ngx_stream_probe_srv_conf_t :=
  Conf (conf_merge NGX_CONF_UNSET conf.(probe_enable) prev.(probe_enable) 0)
    (conf_merge NGX_CONF_UNSET_MSEC conf.(probe_timeout) prev.(probe_timeout) 30000).

Record session := Session {
  s_connection : connection;
  read_timedout : bool  (* [c->read->timedout] *);
  timedout : bool  (* [c->timedout] *);
  read_timer : option Z  (* milliseconds set by [ngx_add_timer] *);
  finalized : option Z  (* code of [ngx_stream_finalize_session] *)
}.

(** [ngx_stream_probe_handler] of the probe phase. *)
Definition ngx_stream_probe_handler `{OpenSSL} (palloc : nat -> Z -> option (list Z))
    (pscf : ngx_stream_probe_srv_conf_t) (s : session) : res (Z * session) :=
  if s.(read_timedout) then
    Ok (NGX_DONE, Session s.(s_connection) s.(read_timedout) true s.(read_timer)
                    (Some NGX_STREAM_OK))
  else if negb (pscf.(probe_enable) =? 0) then
    '(ret, c) ← ngx_process_probe palloc s.(s_connection);
    if ret =? NGX_OK then
      Ok (NGX_DONE, Session c s.(read_timedout) s.(timedout)
                      (Some pscf.(probe_timeout)) s.(finalized))
    else Ok (NGX_OK, Session c s.(read_timedout) s.(timedout) s.(read_timer) s.(finalized))
  else Ok (NGX_OK, s).

(** ** Allocation *)

(** Every successful allocation has the size asked for. *)
Definition palloc_sized (palloc : nat -> Z -> option (list Z)) : Prop :=
  forall k n b, palloc k n = Some b -> zlen b = n.

(** An allocator that never fails. *)
Definition palloc_zero (k : nat) (n : Z) : option (list Z) :=
  if 0 <=? n then Some (zeros n) else None.

Lemma palloc_zero_sized : palloc_sized palloc_zero.
Proof.
  intros k n b. unfold palloc_zero, zeros. destruct (Z.leb_spec 0 n); [|done].
  intros [= <-]. rewrite zlen_replicate. lia.
Qed.
