(* ===== verification/ProbeStun.v ===== *)
(** * The STUN probe is answered within its own size

    [ngx_process_stun_probe] of [src/stream/ngx_stream_probe.c] serialises the
    packet it parsed into a buffer as long as the datagram. The parser cannot
    collect attributes that need more room than they had in the datagram, so
    the reply fits. *)

From S2P Require Import Prelude Crc NetBytes OpenSSL Stun StunSerialize Probe.

(** ** What the parser collects *)

(** The room of an attribute that is sent when its field is not 0. *)
Definition field_cost (n v : Z) : Z := if v =? 0 then 0 else n.

(** Room that the attributes of a reply take, padding included. *)
Definition reply_cost (p : stun_packet) : Z :=
  20 + username_room p + field_cost 8 p.(priority) + field_cost 12 p.(ice_controlling)
  + field_cost 12 p.(ice_controlled) + field_cost 4 p.(has_use_candidate).

Lemma field_cost_bounds n v : 0 <= n -> 0 <= field_cost n v <= n.
Proof. unfold field_cost. intros. case_match; lia. Qed.

(** A packet the parser may have built from [pos] bytes. *)
Record collected (pos : Z) (p : stun_packet) : Prop := {
  col_username : zlen p.(username) = username_size;
  col_username_len : 0 <= p.(Stun.username_len) < username_size;
  col_priority : 0 <= p.(priority) < 4294967296;
  col_ice_controlling : 0 <= p.(ice_controlling) < 18446744073709551616;
  col_ice_controlled : 0 <= p.(ice_controlled) < 18446744073709551616;
  col_address : p.(xor_mapped_address) = None;
  col_password_len : p.(password_len) = 0;
  col_transaction_id : p.(transaction_id) = Some (Ptr Received 8);
  col_cost : reply_cost p <= pos
}.

(** Collected by the loop: the position stays aligned. *)
Definition collected_state (st : parse_state) : Prop :=
  20 <= st.(ps_pos) /\ st.(ps_pos) mod 4 = 0 /\ collected st.(ps_pos) st.(ps_packet).

Lemma username_room_bounds p :
  0 <= p.(Stun.username_len) < username_size ->
  0 <= username_room p <= 4 + 4 * ((p.(Stun.username_len) + 3) / 4).
Proof.
  unfold username_size, username_room. intros. rewrite pad_spec by lia.
  case_match; Z.to_euclidean_division_equations; lia.
Qed.

Section collect.
Context (data : list Z) (Hdata : bytes data) (Hlen : zlen data <= 65532).

Lemma copy_username_fields val n p p' :
  copy_username data val n p = Ok p' ->
  exists u, p' = set_username_len n (set_username u p) /\ zlen u = zlen p.(username).
Proof.
  unfold copy_username, put. intros H. inv_bind H. simplify_eq.
  eexists. split; [done|].
  match goal with H1 : blit p.(username) _ _ = _, H2 : blit _ n _ = _ |- _ =>
    apply zlen_blit in H1, H2; lia end.
Qed.

Lemma get_4_range i v : ngx_get_4_bytes data i = Ok v -> 0 <= v < 4294967296.
Proof.
  unfold ngx_get_4_bytes. intros H. inv_bind H. simplify_eq.
  rewrite lor_bytes_4; [|by eapply get_byte..].
  repeat match goal with H : get data _ = Ok ?c |- _ =>
    apply (get_byte data _ c Hdata) in H end. lia.
Qed.

Lemma get_8_range i v : ngx_get_8_bytes data i = Ok v -> 0 <= v < 18446744073709551616.
Proof.
  unfold ngx_get_8_bytes. intros H. inv_bind H. simplify_eq.
  repeat match goal with H : ngx_get_4_bytes data _ = Ok ?c |- _ =>
    apply get_4_range in H end.
  rewrite Z.lor_comm, lor_shiftl_add by lia. lia.
Qed.

(** Each case of the switch adds at most the bytes of its attribute. *)
Lemma stun_attr_collected t n st st' :
  0 <= n -> stun_attr data t n st = Ok (Some st') ->
  collected st.(ps_pos) st.(ps_packet) ->
  st'.(ps_pos) = st.(ps_pos) /\
  collected (st.(ps_pos) + 4 + 4 * ((n + 3) / 4)) st'.(ps_packet).
Proof.
  intros Hn Hst [U UL P C1 C2 A W T Hcost]. unfold stun_attr in Hst.
  assert (n <= 4 * ((n + 3) / 4)) as Hpad by (Z.to_euclidean_division_equations; lia).
  pose proof (username_room_bounds _ UL). unfold reply_cost in Hcost.
  pose proof (field_cost_bounds 8 (priority (ps_packet st)) ltac:(lia)).
  pose proof (field_cost_bounds 12 (ice_controlling (ps_packet st)) ltac:(lia)).
  pose proof (field_cost_bounds 12 (ice_controlled (ps_packet st)) ltac:(lia)).
  pose proof (field_cost_bounds 4 (has_use_candidate (ps_packet st)) ltac:(lia)).
  repeat match type of Hst with (if ?c then _ else _) = _ => destruct c eqn:? end;
    inv_bind Hst; simplify_eq/=; (split; [done|]);
    repeat match goal with
    | H : copy_username _ _ _ _ = Ok _ |- _ =>
        apply copy_username_fields in H as (? & -> & ?)
    | H : ngx_get_4_bytes data _ = Ok ?v |- _ => apply get_4_range in H;
        pose proof (field_cost_bounds 8 v ltac:(lia))
    | H : ngx_get_8_bytes data _ = Ok ?v |- _ => apply get_8_range in H;
        pose proof (field_cost_bounds 12 v ltac:(lia))
    | H : negb (n =? _) = false |- _ => apply negb_false_iff, Z.eqb_eq in H; subst n
    end.
  1: match goal with |- collected _ ?p =>
       pose proof (username_room_bounds p) as HN; cbn in HN end.
  5: assert (field_cost 4 1 = 4) by done.
  all: split; cbn; try (done || congruence || lia);
    unfold reply_cost, username_room in *; cbn in *; lia.
Qed.

Lemma stun_parse_step_collected len st st' :
  len <= zlen data -> st.(ps_pos) + 4 <= len ->
  stun_parse_step data len st = Ok (Some st') ->
  collected_state st -> collected_state st'.
Proof.
  unfold stun_parse_step. intros Hl Hfit Hst (Hpos & H4 & Hc).
  inv_bind Hst. rename a into t, a0 into n.
  assert (0 <= n < 65536) as Hn.
  { destruct (get_2_ok data (st.(ps_pos) + 2)) as (v & Ev & Hv); [lia| |].
    - unfold ngx_get_2_bytes in E0. inv_bind E0.
      match goal with H : get data (_ + 2 + 1) = Ok _ |- _ =>
        apply get_Ok_range in H; lia end.
    - assert (v = n) as <- by congruence. by apply Hv. }
  repeat match type of Hst with (if ?c then _ else _) = _ =>
    destruct c eqn:?; [discriminate|] end.
  inv_bind Hst. destruct a as [st1|]; [|discriminate]. simplify_eq/=.
  eapply stun_attr_collected in E1 as [Epos Hc']; [|lia|done].
  assert (ngx_pad_to_4_bytes_from_2_bytes (u16 (st.(ps_pos) + 4 + n))
    = st.(ps_pos) + 4 + 4 * ((n + 3) / 4)) as Hpad.
  { rewrite u16_id, pad_spec by lia. Z.to_euclidean_division_equations; lia. }
  unfold collected_state, with_pos. cbn. rewrite Hpad. split; [|split]; [| |done];
    Z.to_euclidean_division_equations; lia.
Qed.

Lemma stun_parse_loop_collected fuel len st st' :
  len <= zlen data -> stun_parse_loop fuel data len st = Ok (inr st') ->
  collected_state st -> collected_state st'.
Proof.
  intros Hl. revert st. induction fuel as [|fuel IH]; intros st; cbn.
  all: destruct (Z.leb_spec (st.(ps_pos) + 4) len); [|intros; by simplify_eq].
  - done.
  - intros Hst. inv_bind Hst. destruct a as [st1|]; [|discriminate].
    intros Hc. eapply IH; [done|]. by eapply stun_parse_step_collected.
Qed.

(** What an accepted datagram was parsed to. *)
Lemma ngx_stun_parse_collected len q :
  len <= zlen data -> ngx_stun_parse packet_zero data len = Ok (NGX_OK, q) ->
  collected len q /\ 20 <= len.
Proof.
  unfold ngx_stun_parse, ngx_stun_parse_fuel. intros Hl Hq. inv_bind Hq.
  case_match; [discriminate|]. inv_bind Hq.
  destruct a3 as [p|st]; [discriminate|].
  apply stun_parse_loop_collected in E3; [|done|].
  - destruct E3 as (? & ? & ?).
    case_match eqn:Epos; [discriminate|].
    apply negb_false_iff, Z.eqb_eq in Epos. subst len.
    case_match; inv_bind Hq; repeat case_match; by simplify_eq.
  - repeat split; cbn; try lia; done.
Qed.
End collect.

(** ** The reply *)

Lemma collected_reply_ok len q :
  collected len q -> packet_ok (set_klass SUCCESS_RESPONSE q) /\
  stun_room (set_klass SUCCESS_RESPONSE q) <= len.
Proof.
  intros [U UL P C1 C2 A W T Hcost]. split.
  - split; cbn; try done; [|by rewrite A].
    unfold add_error_code. cbn. rewrite andb_false_r. done.
  - unfold stun_room, attributes_room, add_message_integrity, add_error_code,
      xor_mapped_address_padded_len, add_xor_mapped_address. cbn -[Z.add].
    rewrite A, W, andb_false_r. cbn -[Z.add].
    unfold reply_cost, field_cost in Hcost.
    change (username_room (set_klass SUCCESS_RESPONSE q)) with (username_room q).
    change (4 + 4) with 8 in *. change (4 + 8) with 12 in *.
    lia.
Qed.

(** A buffer seen as the bytes before offset [n], two bytes, and the rest. *)
Lemma split_at_2 (p : list Z) n :
  0 <= n -> n + 2 <= zlen p ->
  exists pre a b post, p = pre ++ a :: b :: post /\ zlen pre = n.
Proof.
  intros. exists (take (Z.to_nat n) p).
  destruct (drop (Z.to_nat n) p) as [|a [|b post]] eqn:E.
  1-2: apply (f_equal length) in E; rewrite length_drop in E; simpl in E;
    unfold zlen in *; lia.
  exists a, b, post. rewrite <- E, take_drop, zlen_take by lia. done.
Qed.

Section reply.
Context `{OpenSSL} (palloc : nat -> Z -> option (list Z)).
Context (Hpalloc : palloc_sized palloc).

(** The transaction id that is sent back: time to live 255 and the node
    number incremented. *)
Definition marked (pre post : list Z) (num : Z) : list Z :=
  pre ++ 0xFF :: u8 (num + 1) :: post.

Lemma marked_writes pre t num post i :
  i = zlen pre ->
  (p ← put (pre ++ t :: num :: post) i 0xFF;
   num ← get p (i + 1); put p (i + 1) (u8 (num + 1)))
  = Ok (marked pre post num).
Proof.
  intros ->. rewrite put_app by done. rewrite Ok_bind.
  rewrite (get_behind pre _ _ 1 num) by first [lia | done]. rewrite Ok_bind.
  by rewrite (put_behind pre _ _ _ 1) by (simpl; lia).
Qed.

Lemma stun_probe_answer p len q garbage pre t num post :
  bytes p -> zlen p = len -> len <= 65532 ->
  ngx_is_stun_probe p len = Ok NGX_OK ->
  is_Some (palloc 0 sizeof_stun_packet) -> palloc 1 len = Some garbage ->
  ngx_stun_parse packet_zero p len = Ok (NGX_OK, q) -> q.(klass) = REQUEST ->
  has_prefix p 12 = Ok true -> p = pre ++ t :: num :: post -> zlen pre = 18 ->
  let p' := marked pre post num in
  let q' := set_klass SUCCESS_RESPONSE q in
  let tid := take 12 (drop 8 p') in
  ngx_process_stun_probe palloc p len
  = Ok (NGX_OK, p', [take (Z.to_nat (stun_size false q'))
                       (stun_encode tid q' (drop 20 garbage))]) /\
  20 <= stun_size false q' <= len /\
  zlen (stun_encode tid q' (drop 20 garbage)) = stun_room q'.
Proof.
  intros Hb Hlen Hmax Hstun [b0 Hb0] Hgarb Hparse Hk Hpre Hp Hpl p' q' tid.
  unfold ngx_process_stun_probe. rewrite Hstun, Ok_bind. cbn [Z.eqb negb].
  change (NGX_OK =? NGX_OK) with true. cbn [negb]. rewrite Hb0, Hparse, Ok_bind.
  change (NGX_OK =? NGX_OK) with true. rewrite Hk. cbn [negb Z.eqb].
  change (REQUEST =? REQUEST) with true. cbn [negb].
  destruct (ngx_stun_parse_collected p Hb) with (len := len) (q := q) as [Hcol H20];
    [lia..|done|].
  rewrite (col_transaction_id _ _ Hcol). change (8 + 4) with 12. rewrite Hpre, Ok_bind.
  cbn [negb]. rewrite Hgarb. change (default [] (Some garbage)) with garbage.
  pose proof (marked_writes pre t num post (8 + 10) ltac:(lia)) as Hm.
  rewrite <- Hp in Hm. inv_bind Hm. rewrite E, Ok_bind.
  change (8 + 11) with (8 + 10 + 1). rewrite E0, Ok_bind, Hm, Ok_bind. fold q'.
  destruct (collected_reply_ok _ _ Hcol) as [Hq' Hroom]. fold q' in Hq', Hroom.
  destruct (stun_size_room q' Hq') as (_ & Hs & _).
  pose proof (Hpalloc _ _ _ Hgarb) as Hgl.
  assert (zlen p' = len) as Hp'len.
  { subst p'. unfold marked. rewrite Hp, !zlen_app, !zlen_cons in Hlen.
    rewrite !zlen_app, !zlen_cons. lia. }
  assert (slice p' 8 12 = Ok tid) as Htid.
  { unfold slice. destruct (Z.leb_spec (8 + 12) (zlen p')); [done|lia]. }
  destruct (stun_serialize_encode q' p' garbage len 8 tid Hq') as (p1 & Es & Hsz & Hl).
  { exact (col_transaction_id _ _ Hcol). }
  { exact Htid. }
  { intros Hadd. unfold add_message_integrity in Hadd. cbn in Hadd.
    by rewrite (col_password_len _ _ Hcol) in Hadd. }
  { lia. }
  { lia. }
  fold p'. rewrite Es, Ok_bind, Hsz.
  set (msg := stun_encode tid q' (drop 20 garbage)) in *.
  unfold ngx_reply_probe, slice. rewrite zlen_app, Hl.
  pose proof (zlen_nonneg (drop (Z.to_nat (stun_room q')) garbage)).
  destruct (Z.leb_spec 0 0), (Z.leb_spec 0 (stun_size false q')),
    (Z.leb_spec (0 + stun_size false q')
      (stun_room q' + zlen (drop (Z.to_nat (stun_room q')) garbage))); try lia.
  cbn [andb]. rewrite !Ok_bind. split; [|split; [lia|done]].
  do 3 f_equal. rewrite drop_0, take_app_le; [done|]. unfold zlen in *. lia.
Qed.
End reply.

Section safety.
Context `{OpenSSL} (palloc : nat -> Z -> option (list Z)).
Context (Hpalloc : palloc_sized palloc).

(** [ngx_is_stun_probe] reads only the datagram. *)
Lemma is_stun_probe_ok p len :
  zlen p = len -> exists rc, ngx_is_stun_probe p len = Ok rc.
Proof.
  intros. unfold ngx_is_stun_probe. destruct (Z.leb_spec 20 len); cbn [negb]; [|eauto].
  destruct (get_ok p 0) as [d ->]; [lia|]. rewrite Ok_bind.
  destruct (slice_ok p 4 4) as (l & -> & _); [lia..|]. repeat case_match; eauto.
Qed.

Lemma has_prefix_ok p off :
  0 <= off -> off + 6 <= zlen p -> exists b, has_prefix p off = Ok b.
Proof.
  intros. unfold has_prefix, prefix_len.
  destruct (slice_ok p off 6) as (l & -> & _); [lia..|]. eauto.
Qed.

(** Either the datagram is left alone, or it is answered. *)
Lemma stun_probe_cases p len :
  bytes p -> zlen p = len -> len <= 65532 -> is_Some (palloc 1%nat len) ->
  ngx_process_stun_probe palloc p len = Ok (NGX_DONE, p, []) \/
  exists p' msg, ngx_process_stun_probe palloc p len = Ok (NGX_OK, p', [msg]) /\
    zlen p' = len /\ 20 <= zlen msg <= len.
Proof.
  intros Hb Hlen Hmax [garbage Hg].
  destruct (is_stun_probe_ok p len Hlen) as [rc Hrc].
  destruct (decide (rc = NGX_OK)) as [->|Hne].
  2: { left. unfold ngx_process_stun_probe. rewrite Hrc, Ok_bind.
       destruct (Z.eqb_spec rc NGX_OK); done. }
  assert (20 <= len) as H20.
  { unfold ngx_is_stun_probe in Hrc. destruct (Z.leb_spec 20 len); done. }
  destruct (palloc 0%nat sizeof_stun_packet) as [m|] eqn:Hm.
  2: { left. unfold ngx_process_stun_probe. by rewrite Hrc, Ok_bind, Hm. }
  destruct (stun_parse_returns (Z.to_nat len) p len packet_zero)
    as (rc & q & _ & _ & _ & Hparse); [done|lia|lia|done|lia|].
  destruct (decide (rc = NGX_OK)) as [->|Hne].
  2: { left. unfold ngx_process_stun_probe. rewrite Hrc, Ok_bind, Hm, Hparse, Ok_bind.
       destruct (Z.eqb_spec rc NGX_OK); done. }
  pose proof (ngx_stun_parse_collected p Hb) as Hcol.
  specialize (Hcol ltac:(lia) len q ltac:(lia) Hparse) as [Hcol _].
  destruct (has_prefix_ok p 12) as [b Hpre]; [lia..|].
  destruct (decide (q.(klass) = REQUEST /\ b = true)) as [[Hk ->]|Hne].
  - right. destruct (split_at_2 p 18) as (pre & t & num & post & Hp & Hpl); [lia..|].
    destruct (stun_probe_answer palloc Hpalloc p len q garbage pre t num post)
      as (E & Hs & Hl); [done..|].
    do 2 eexists. split; [exact E|].
    pose proof (collected_reply_ok _ _ Hcol) as [Hq' Hr].
    destruct (stun_size_room _ Hq') as (_ & Hs' & _).
    split; [|rewrite zlen_take; lia].
    unfold marked. rewrite Hp, !zlen_app, !zlen_cons in Hlen.
    rewrite !zlen_app, !zlen_cons. lia.
  - left. unfold ngx_process_stun_probe. rewrite Hrc, Ok_bind, Hm, Hparse, Ok_bind.
    change (NGX_OK =? NGX_OK) with true. cbn [negb].
    destruct (Z.eqb_spec q.(klass) REQUEST); [|done]. cbn [negb].
    rewrite (col_transaction_id _ _ Hcol). change (8 + 4) with 12.
    rewrite Hpre, Ok_bind. destruct b; [naive_solver|done].
Qed.
End safety.

(** C5: a STUN probe (a binding request with a prefix in its transaction id
    that [ngx_stun_parse] accepts) is answered with a success response to the
    same transaction, its id marked with 255 and the incremented node number;
    the reply is never longer than the request, so it fits in the buffer
    allocated for it, whatever attributes the request carries. *)
Theorem stun_probe_reply `{OpenSSL} palloc p len q garbage pre t num post :
  palloc_sized palloc -> bytes p -> zlen p = len -> len <= 65532 ->
  ngx_is_stun_probe p len = Ok NGX_OK ->
  is_Some (palloc 0%nat sizeof_stun_packet) -> palloc 1%nat len = Some garbage ->
  ngx_stun_parse packet_zero p len = Ok (NGX_OK, q) -> q.(klass) = REQUEST ->
  has_prefix p 12 = Ok true -> p = pre ++ t :: num :: post -> zlen pre = 18 ->
  exists attrs,
    let tid := drop 8 pre ++ [0xFF; u8 (num + 1)] in
    let type := stun_type_field (set_klass SUCCESS_RESPONSE q) in
    let reply := be 2 type ++ be 2 (zlen attrs) ++ stun_magic_cookie ++ tid ++ attrs in
    ngx_process_stun_probe palloc p len
    = Ok (NGX_OK, pre ++ 0xFF :: u8 (num + 1) :: post, [reply]) /\ zlen reply <= len.
Proof.
  intros Hpa Hb Hlen Hmax Hstun Hm Hg Hparse Hk Hpre Hp Hpl.
  destruct (stun_probe_answer palloc Hpa p len q garbage pre t num post)
    as (E & Hs & Hl); [done..|].
  destruct (ngx_stun_parse_collected p Hb ltac:(lia) len q ltac:(lia) Hparse) as [Hcol _].
  destruct (collected_reply_ok _ _ Hcol) as [Hq' _].
  destruct (stun_size_room _ Hq') as (_ & Hs' & _).
  set (q' := set_klass SUCCESS_RESPONSE q) in *.
  assert (take 12 (drop 8 (marked pre post num)) = drop 8 pre ++ [0xFF; u8 (num + 1)])
    as Htid.
  { unfold marked. assert (length pre = 18%nat) as Hl18 by (unfold zlen in Hpl; lia).
    rewrite drop_app_le by lia.
    change (255 :: u8 (num + 1) :: post) with ([255; u8 (num + 1)] ++ post).
    rewrite app_assoc. apply take_app_length'. rewrite length_app, length_drop, Hl18. done. }
  rewrite Htid in *. set (tid := drop 8 pre ++ _) in *.
  unfold stun_encode, enc_header in E. rewrite <- !app_assoc in E.
  set (h := be 2 (stun_type_field q') ++ be 2 (stun_size false q' - 20)
            ++ stun_magic_cookie ++ tid).
  assert (zlen h = 20) as Hh.
  { unfold h. rewrite !zlen_app. unfold tid. rewrite !zlen_app.
    unfold zlen in *. rewrite length_drop. simpl. lia. }
  match type of E with _ = Ok (_, _, [take _ (be 2 _ ++ be 2 _ ++ _ ++ _ ++ ?r)]) =>
    set (rest := r) in E end.
  assert (take (Z.to_nat (stun_size false q')) (h ++ rest)
    = h ++ take (Z.to_nat (stun_size false q' - 20)) rest) as Ht.
  { rewrite take_app_ge by (unfold zlen in Hh; lia). do 2 f_equal. unfold zlen in Hh. lia. }
  exists (take (Z.to_nat (stun_size false q' - 20)) rest). cbv zeta.
  assert (zlen (take (Z.to_nat (stun_size false q' - 20)) rest) = stun_size false q' - 20)
    as Hr.
  { apply zlen_take. assert (zlen (h ++ rest) = stun_room q') as Hhr.
    { rewrite <- Hl. unfold stun_encode, enc_header, h, rest. by rewrite <- !app_assoc. }
    rewrite zlen_app in Hhr. lia. }
  rewrite Hr. unfold h in Ht. rewrite <- !app_assoc in Ht. rewrite Ht in E.
  split; [exact E|]. rewrite <- Ht.
  rewrite zlen_take; [lia|]. split; [lia|].
  pose proof Hl as Hl'. unfold stun_encode, enc_header in Hl'. rewrite <- !app_assoc in Hl'.
  fold rest in Hl'. lia.
Qed.

(** A binding request with a priority and an ICE-CONTROLLING attribute. *)
Definition sample_probe_pre : list Z :=
  [0; 1; 0; 20] ++ stun_magic_cookie ++ str "0123probe:".
Definition sample_probe_post : list Z :=
  [0; 0x24; 0; 4; 1; 2; 3; 4; 0x80; 0x2A; 0; 8; 1; 2; 3; 4; 5; 6; 7; 8].
Definition sample_probe : list Z := sample_probe_pre ++ 64 :: 3 :: sample_probe_post.

Definition parsed_sample : stun_packet :=
  match ngx_stun_parse packet_zero sample_probe 40 with
  | Ok (_, q) => q
  | _ => packet_zero
  end.

Lemma stun_probe_reply_witness :
  exists attrs reply,
    ngx_process_stun_probe (H := OpenSSL_toy) palloc_zero sample_probe 40
    = Ok (NGX_OK, sample_probe_pre ++ 0xFF :: 4 :: sample_probe_post, [reply]) /\
    reply = [1; 1] ++ be 2 (zlen attrs) ++ stun_magic_cookie
              ++ str "0123probe:" ++ [0xFF; 4] ++ attrs.
Proof.
  destruct (stun_probe_reply (H := OpenSSL_toy) palloc_zero sample_probe 40 parsed_sample
    (zeros 40) sample_probe_pre 64 3 sample_probe_post) as (attrs & E & _).
  - exact palloc_zero_sized.
  - vm_compute. repeat constructor; intros [=].
  - reflexivity.
  - lia.
  - reflexivity.
  - by eexists.
  - reflexivity.
  - vm_compute. reflexivity.
  - reflexivity.
  - reflexivity.
  - reflexivity.
  - reflexivity.
  - exists attrs. eexists. split; [exact E|reflexivity].
Defined.
