(* ===== verification/ProbeDtls.v ===== *)
(** * The DTLS probe

    [ngx_process_dtls_probe] of [src/stream/ngx_stream_probe.c]: a client hello
    without session id and cookie is answered with a server hello, written over
    the datagram; any other length of those fields takes the handler out of
    the datagram. *)

From S2P Require Import Prelude Crc NetBytes OpenSSL Stun StunSerialize Probe ProbeStun.

(** ** The client hello that is a probe, and its answer *)

(** The fields of the 66 bytes that the handler carries over. *)
Record hello := Hello {
  h_major : Z;
  h_minor : Z;
  h_epoch : Z * Z;
  h_sequence : Z * Z * Z * Z * Z * Z;
  h_length : Z * Z * Z;
  h_message_seq : Z * Z;
  h_fragment_offset : Z * Z * Z;
  h_version : Z * Z;
  h_time : Z * Z * Z * Z * Z * Z * Z * Z  (* before the prefix *);
  h_prefix : list Z;
  h_ttl : Z;
  h_num : Z;
  h_name : list Z;
  h_suite : Z * Z;
  h_compression : Z;
  h_extension : Z * Z
}.

Definition pair2 (x : Z * Z) : list Z := [x.1; x.2].
Definition pair3 (x : Z * Z * Z) : list Z := let '(a, b, c) := x in [a; b; c].
Definition pair6 (x : Z * Z * Z * Z * Z * Z) : list Z :=
  let '(a, b, c, d, e, f) := x in [a; b; c; d; e; f].
Definition pair8 (x : Z * Z * Z * Z * Z * Z * Z * Z) : list Z :=
  let '(a, b, c, d, e, f, g, h) := x in [a; b; c; d; e; f; g; h].

Definition client_hello_probe (h : hello) : list Z :=
  [handshake; h.(h_major); h.(h_minor)] ++ pair2 h.(h_epoch) ++ pair6 h.(h_sequence)
  ++ [0; 53]
  ++ [client_hello] ++ pair3 h.(h_length) ++ pair2 h.(h_message_seq)
  ++ pair3 h.(h_fragment_offset) ++ [0; 0; 41]
  ++ pair2 h.(h_version)
  ++ pair8 h.(h_time) ++ h.(h_prefix) ++ [h.(h_ttl); h.(h_num)] ++ h.(h_name)
  ++ [0] ++ [0] ++ pair2 h.(h_suite) ++ [h.(h_compression)] ++ pair2 h.(h_extension).

Definition server_hello_reply (h : hello) : list Z :=
  [handshake; h.(h_major); 0xfd] ++ pair2 h.(h_epoch) ++ pair6 h.(h_sequence)
  ++ [0; 52]
  ++ [server_hello] ++ [0; 0; 40] ++ pair2 h.(h_message_seq)
  ++ pair3 h.(h_fragment_offset) ++ [0; 0; 40]
  ++ [h.(h_version).1; 0xfd]
  ++ pair8 h.(h_time) ++ h.(h_prefix) ++ [0xFF; u8 (h.(h_num) + 1)] ++ h.(h_name)
  ++ [0] ++ pair2 h.(h_suite) ++ [h.(h_compression)] ++ pair2 h.(h_extension).

Lemma set_get_2 a b : is_byte a -> is_byte b ->
  u8 (Z.lor b (Z.shiftl a 8)) = b /\
  u8 (Z.shiftr (Z.lor b (Z.shiftl a 8)) 8) = a.
Proof.
  intros. rewrite lor_bytes_2 by done. rewrite Z.shiftr_div_pow2 by lia.
  change (2 ^ 8) with 256. split; width_lia.
Qed.

Lemma set_get_3 a b c : is_byte a -> is_byte b -> is_byte c ->
  u8 (Z.lor (Z.lor c (Z.shiftl b 8)) (Z.shiftl a 16)) = c /\
  u8 (Z.shiftr (Z.lor (Z.lor c (Z.shiftl b 8)) (Z.shiftl a 16)) 8) = b /\
  u8 (Z.shiftr (Z.lor (Z.lor c (Z.shiftl b 8)) (Z.shiftl a 16)) 16) = a.
Proof.
  intros. rewrite lor_bytes_3 by done. rewrite !Z.shiftr_div_pow2 by lia.
  change (2 ^ 8) with 256. change (2 ^ 16) with 65536. split; [|split]; width_lia.
Qed.

(** The bytes of a hello, one variable each. *)
Ltac open_hello h Hname Hpre :=
  destruct h as [? ? [? ?] [[[[[? ?] ?] ?] ?] ?] [[? ?] ?] [? ?] [[? ?] ?] [? ?]
    [[[[[[[? ?] ?] ?] ?] ?] ?] ?] pre ? ? name [? ?] ? [? ?]];
  cbn [h_name h_prefix] in *;
  do 16 (destruct name as [|? name]; [discriminate Hname|]);
  destruct name; [|discriminate Hname]; clear Hname;
  destruct Hpre as [-> | ->].

(** Evaluation that keeps the bit operations on the unknown bytes. *)
Ltac eval_hello :=
  lazy -[Z.lor Z.shiftl Z.shiftr u8 u16 u32];
  change (Z.lor 53 (Z.shiftl 0 8)) with 53;
  change (Z.lor (Z.lor 41 (Z.shiftl 0 8)) (Z.shiftl 0 16)) with 41;
  lazy -[Z.lor Z.shiftl Z.shiftr u8 u16 u32].

(** What is read big-endian is written back as it was. *)
Ltac finish_bytes :=
  unfold pair2, pair3 in *; cbn -[Z.lor Z.shiftl Z.shiftr u8 u16 u32] in *;
  repeat match goal with
  | H : bytes (_ :: _) |- _ => apply Forall_cons in H as [? H]
  end;
  repeat match goal with
  | |- context [Z.lor (Z.lor ?c (Z.shiftl ?b 8)) (Z.shiftl ?a 16)] =>
      let E1 := fresh in let E2 := fresh in let E3 := fresh in
      destruct (set_get_3 a b c) as (E1 & E2 & E3); [lia..|]; rewrite E1, E2, E3
  | |- context [Z.lor ?b (Z.shiftl ?a 8)] =>
      let E1 := fresh in let E2 := fresh in
      destruct (set_get_2 a b) as (E1 & E2); [lia..|]; rewrite E1, E2
  end;
  repeat match goal with
  | H : is_byte ?a |- context [u8 ?a] => rewrite (u8_id a H)
  end.

Definition get_pair2 (x : Z * Z) : Z := Z.lor x.2 (Z.shiftl x.1 8).
Definition get_pair3 (x : Z * Z * Z) : Z :=
  Z.lor (Z.lor x.2 (Z.shiftl x.1.2 8)) (Z.shiftl x.1.1 16).

(** Copying the user name for the log line stays in its 17 bytes. *)
Lemma copy_name username name :
  zlen username = 17 -> zlen name = 16 ->
  exists u1 u2, blit username 0 name = Ok u1 /\ put u1 16 0 = Ok u2.
Proof.
  intros Hu Hn. destruct (blit_ok username 0 name) as [u E]; [lia..|].
  pose proof (zlen_blit _ _ _ _ E). destruct (put_ok u 16 0) as (u' & E' & _); [lia|].
  eauto.
Qed.

Section dtls.
Context `{OpenSSL} (palloc : nat -> Z -> option (list Z)).
Context (Hpalloc : palloc_sized palloc) (h : hello).
Context (Hname : length h.(h_name) = 16%nat)
  (Hpre : h.(h_prefix) = prefix_probe_1 \/ h.(h_prefix) = prefix_probe_2).

Definition hello_random : list Z :=
  pair8 h.(h_time) ++ h.(h_prefix) ++ [h.(h_ttl); h.(h_num)] ++ h.(h_name).

Lemma read_record_hello :
  dtls_read_record (client_hello_probe h)
  = Ok (Some (RecordLayer handshake (Version h.(h_major) h.(h_minor))
      (get_pair2 h.(h_epoch)) (pair6 h.(h_sequence)) 53)).
Proof. clear palloc Hpalloc. open_hello h Hname Hpre; eval_hello; reflexivity. Qed.

Lemma read_handshake_hello :
  dtls_read_handshake (client_hello_probe h)
  = Ok (Some (Handshake client_hello (get_pair3 h.(h_length))
      (get_pair2 h.(h_message_seq)) (get_pair3 h.(h_fragment_offset)) 41)).
Proof. clear palloc Hpalloc. open_hello h Hname Hpre; eval_hello; reflexivity. Qed.

Lemma read_client_hello_hello :
  dtls_read_client_hello (client_hello_probe h)
  = Ok (Some (ClientHello (Version h.(h_version).1 h.(h_version).2)
      hello_random 0 (zeros 32) 0 (zeros DTLS1_COOKIE_LENGTH)
      (get_pair2 h.(h_suite)) h.(h_compression) (get_pair2 h.(h_extension)))).
Proof.
  clear palloc Hpalloc. unfold dtls_read_client_hello.
  rewrite SSL3_RANDOM_SIZE_32, SSL_MAX_SSL_SESSION_ID_LENGTH_32.
  generalize DTLS1_COOKIE_LENGTH. intros n.
  unfold hello_random. open_hello h Hname Hpre; eval_hello; reflexivity.
Qed.

Definition hello_reply : dtls_server_hello :=
  ServerHello (Version h.(h_version).1 0xfd)
    (pair8 h.(h_time) ++ h.(h_prefix) ++ [0xFF; u8 (h.(h_num) + 1)] ++ h.(h_name))
    0 (zeros 32) (get_pair2 h.(h_suite)) h.(h_compression) (get_pair2 h.(h_extension)).

Lemma make_server_hello_hello maj cookie_len cookie :
  dtls_make_server_hello (ClientHello (Version h.(h_version).1 maj)
    hello_random 0 (zeros 32) cookie_len cookie
    (get_pair2 h.(h_suite)) h.(h_compression) (get_pair2 h.(h_extension)))
  = Ok hello_reply.
Proof.
  clear palloc Hpalloc. unfold dtls_make_server_hello.
  rewrite SSL3_RANDOM_SIZE_32, SSL_MAX_SSL_SESSION_ID_LENGTH_32.
  unfold hello_random, hello_reply. open_hello h Hname Hpre; eval_hello; reflexivity.
Qed.

Lemma serialize_hello :
  bytes (client_hello_probe h) ->
  ngx_record_layer_serialize (reply_record
    (RecordLayer handshake (Version h.(h_major) h.(h_minor))
      (get_pair2 h.(h_epoch)) (pair6 h.(h_sequence)) 53
      (Handshake client_hello (get_pair3 h.(h_length))
        (get_pair2 h.(h_message_seq)) (get_pair3 h.(h_fragment_offset)) 41)))
    hello_reply (client_hello_probe h) 0
  = Ok (server_hello_reply h ++ [h.(h_extension).2], 65).
Proof.
  clear palloc Hpalloc. intros Hb.
  unfold ngx_record_layer_serialize, ngx_handshake_serialize, ngx_server_hello_serialize.
  rewrite SSL3_RANDOM_SIZE_32. unfold hello_reply, server_hello_reply.
  generalize (u8 (h.(h_num) + 1)). intros num.
  assert (bytes (pair2 h.(h_epoch)) /\ bytes (pair2 h.(h_message_seq)) /\
    bytes (pair3 h.(h_fragment_offset)) /\ bytes (pair2 h.(h_suite)) /\
    bytes (pair2 h.(h_extension)) /\
    bytes [h.(h_major); h.(h_version).1; h.(h_compression)])
    as (B1 & B2 & B3 & B4 & B5 & B6).
  { unfold client_hello_probe in Hb. rewrite !Forall_app in Hb.
    destruct h as [? ? ? ? ? ? ? [? ?] ? ? ? ? ? ? ? ?]. cbn in Hb |- *.
  unfold pair2 in *. rewrite !Forall_cons in Hb |- *. cbn [fst snd] in *.
    destruct_and!.
    repeat match goal with H : bytes (_ :: _) |- _ => apply Forall_cons in H as [? H] end.
    repeat split; auto; lia. }
  clear Hb. open_hello h Hname Hpre; eval_hello; finish_bytes; reflexivity.
Qed.

Lemma zlen_client_hello_probe : zlen (client_hello_probe h) = 66.
Proof. clear palloc Hpalloc. by open_hello h Hname Hpre. Qed.

Lemma zlen_server_hello_reply : zlen (server_hello_reply h) = 65.
Proof. clear palloc Hpalloc. by open_hello h Hname Hpre. Qed.

(** The reply, if the allocations succeed. *)
Lemma dtls_reply_hello record ch :
  bytes (client_hello_probe h) ->
  dtls_read_client_hello (client_hello_probe h) = Ok (Some ch) ->
  record = RecordLayer handshake (Version h.(h_major) h.(h_minor))
      (get_pair2 h.(h_epoch)) (pair6 h.(h_sequence)) 53
      (Handshake client_hello (get_pair3 h.(h_length))
        (get_pair2 h.(h_message_seq)) (get_pair3 h.(h_fragment_offset)) 41) ->
  dtls_reply palloc (client_hello_probe h) record ch
  = Ok (if bool_decide (palloc 3%nat 80 = None \/ palloc 4%nat 17 = None)
        then (NGX_DONE, client_hello_probe h, [])
        else (NGX_OK, server_hello_reply h ++ [h.(h_extension).2],
              [server_hello_reply h])).
Proof.
  rewrite read_client_hello_hello. intros Hb [= <-] ->. unfold dtls_reply.
  change (probe_username_len + 1) with 17. change probe_username_len with 16.
  destruct (palloc 3%nat 80) as [m3|]; [|done].
  destruct (palloc 4%nat 17) as [username|] eqn:Hu; [|done].
  rewrite !bool_decide_eq_false_2 by first [done | by intros [|]].
  apply Hpalloc in Hu.
  change (ch_random (ClientHello _ ?r _ _ _ _ _ _ _)) with r.
  assert (slice hello_random (8 + prefix_len + 1 + 1) 16 = Ok h.(h_name)) as ->.
  { clear palloc Hpalloc Hb Hu. unfold hello_random.
    open_hello h Hname Hpre; reflexivity. }
  rewrite Ok_bind.
  destruct (copy_name username h.(h_name)) as (u1 & u2 & -> & Hu2).
  { exact Hu. }
  { unfold zlen. by rewrite Hname. }
  rewrite Ok_bind, Hu2, Ok_bind, make_server_hello_hello, Ok_bind.
  rewrite serialize_hello, Ok_bind by done. change (0 <? 65) with true. cbv iota.
  unfold ngx_reply_probe.
  pose proof (slice_app [] (server_hello_reply h) [h.(h_extension).2] 0 65 eq_refl
    (eq_sym zlen_server_hello_reply)) as Hs.
  cbn [app] in Hs. by rewrite Hs, !Ok_bind.
Qed.

(** C6: a DTLS client hello with a prefix in its random bytes, without
    session id and cookie, is answered with the server hello of 65 bytes that
    carries its fields over, and consumed. *)
Theorem dtls_probe_reply :
  bytes (client_hello_probe h) -> (forall k n, 0 <= n -> is_Some (palloc k n)) ->
  process_datagram palloc (client_hello_probe h) (zlen (client_hello_probe h))
  = Ok (NGX_OK, server_hello_reply h ++ [h.(h_extension).2], [server_hello_reply h]).
Proof.
  intros Hb Hall. rewrite zlen_client_hello_probe.
  unfold process_datagram. cbn [Z.eqb Pos.eqb]. unfold ngx_process_dtls_probe.
  assert (forall k n, 0 <= n -> bool_decide (palloc k n = None) = false) as Hd.
  { intros k n Hn. destruct (Hall k n Hn) as [m ->]. done. }
  rewrite !Hd by lia.
  assert (ngx_is_dtls_probe (client_hello_probe h) 66 = Ok NGX_OK) as -> by done.
  rewrite read_record_hello, read_handshake_hello, !Ok_bind.
  change (negb (NGX_OK =? NGX_OK)) with false. cbv iota.
  rewrite read_client_hello_hello, Ok_bind.
  erewrite dtls_reply_hello by (done || apply read_client_hello_hello).
  rewrite bool_decide_eq_false_2; [done|].
  destruct (Hall 3%nat 80 ltac:(lia)) as [m3 ->], (Hall 4%nat 17 ltac:(lia)) as [m4 ->].
  by intros [|].
Qed.
End dtls.

Definition sample_hello : hello :=
  Hello 0xfe 0xff (0, 0) (0, 0, 0, 0, 0, 1) (0, 0, 41) (0, 0) (0, 0, 0) (0xfe, 0xfd)
    (1, 2, 3, 4, 5, 6, 7, 8) prefix_probe_1 64 3 (str "0123456789abcdef") (0xc0, 0x2b) 0
    (0, 0).

Lemma dtls_probe_reply_witness :
  process_datagram (H := OpenSSL_toy) palloc_zero (client_hello_probe sample_hello)
    (zlen (client_hello_probe sample_hello))
  = Ok (NGX_OK, server_hello_reply sample_hello ++ [0], [server_hello_reply sample_hello]).
Proof.
  refine (dtls_probe_reply (H := OpenSSL_toy) palloc_zero palloc_zero_sized sample_hello
    _ _ _ _).
  - reflexivity.
  - left. reflexivity.
  - vm_compute. repeat constructor; intros [=].
  - intros k n Hn. unfold palloc_zero. destruct (Z.leb_spec 0 n); [by eexists|lia].
Defined.

(** ** Every accepted client hello has this form *)

Lemma lor_2_inv a b n :
  is_byte a -> is_byte b -> 0 <= n < 256 -> Z.lor b (Z.shiftl a 8) = n -> a = 0 /\ b = n.
Proof. intros. rewrite lor_bytes_2 in * by done. lia. Qed.

Lemma lor_3_inv a b c n :
  is_byte a -> is_byte b -> is_byte c -> 0 <= n < 256 ->
  Z.lor (Z.lor c (Z.shiftl b 8)) (Z.shiftl a 16) = n -> a = 0 /\ b = 0 /\ c = n.
Proof. intros. rewrite lor_bytes_3 in * by done. lia. Qed.

(** The elements of a list of known length, one variable each. *)
Ltac open_list p Hp :=
  repeat (destruct p as [|? p]; [discriminate Hp || clear Hp|try discriminate Hp]).

Lemma client_hello_probe_inv p record header :
  length p = 66%nat -> bytes p ->
  dtls_read_record p = Ok (Some record) -> dtls_read_handshake p = Ok (Some header) ->
  has_prefix p 35 = Ok true -> get p 59 = Ok 0 -> get p 60 = Ok 0 ->
  exists h, p = client_hello_probe h /\ length h.(h_name) = 16%nat /\
    (h.(h_prefix) = prefix_probe_1 \/ h.(h_prefix) = prefix_probe_2).
Proof.
  intros Hp Hb Hr Hh Hpre H59 H60.
  open_list p Hp.
  lazy -[Z.lor Z.shiftl Z.eqb handshake] in Hr.
  lazy -[Z.lor Z.shiftl Z.eqb client_hello] in Hh.
  lazy -[beq orb prefix_probe_1 prefix_probe_2] in Hpre.
  injection H59 as ->. injection H60 as ->. injection Hpre as Hpre.
  repeat match goal with
  | H : bytes (_ :: _) |- _ => apply Forall_cons in H as [? H]
  | H : context [?a =? ?b] |- _ => destruct (Z.eqb_spec a b); [|discriminate H]
  end. subst.
  repeat match goal with
  | H : Z.lor (Z.lor _ _) _ = _ |- _ => apply lor_3_inv in H as (-> & -> & ->); [|lia..]
  | H : Z.lor _ _ = _ |- _ => apply lor_2_inv in H as (-> & ->); [|lia..]
  end.
  eexists (Hello _ _ (_, _) (_, _, _, _, _, _) (_, _, _) (_, _) (_, _, _) (_, _)
    (_, _, _, _, _, _, _, _) [_; _; _; _; _; _] _ _
    [_; _; _; _; _; _; _; _; _; _; _; _; _; _; _; _] (_, _) _ (_, _)).
  split; [reflexivity|]. split; [reflexivity|]. cbn [h_prefix].
  apply orb_true_iff in Hpre as [Hpre|Hpre]; apply bool_decide_eq_true in Hpre; auto.
Qed.

(** ** Memory safety *)

Ltac inv_binds H :=
  inv_bind H;
  repeat (match type of H with
          | context [let '(_, _) := ?x in _] => destruct x
          end; inv_bind H).

Section safety.
Context `{OpenSSL} (palloc : nat -> Z -> option (list Z)).
Context (Hpalloc : palloc_sized palloc) (p : list Z) (Hp : zlen p = 66).

Lemma fuelless_get_2 i : fuelless (ngx_get_2_bytes p i).
Proof. unfold ngx_get_2_bytes. repeat (apply fuelless_bind; intros); auto with nginx. Qed.

Lemma fuelless_read_opaque pos n size : fuelless (read_opaque p pos n size).
Proof.
  unfold read_opaque. case_match; [|done].
  repeat (apply fuelless_bind; intros); auto with nginx.
Qed.

Lemma fuelless_client_hello : fuelless (dtls_read_client_hello p).
Proof.
  unfold dtls_read_client_hello, has_prefix, ngx_get_1_byte.
  repeat first
    [ apply fuelless_bind; intros
    | apply fuelless_get_2 | apply fuelless_read_opaque
    | progress case_match | progress auto with nginx ].
Qed.

Lemma read_opaque_pos pos n size dst pos' :
  0 <= n -> read_opaque p pos n size = Ok (dst, pos') -> pos' = pos + n.
Proof.
  unfold read_opaque. intros Hn Hr. destruct (Z.ltb_spec 0 n).
  - inv_bind Hr. by simplify_eq.
  - simplify_eq. lia.
Qed.

(** The fixed fields of the hello end 5 bytes after its two opaque ones. *)
Lemma client_hello_Ok ch :
  bytes p -> dtls_read_client_hello p = Ok (Some ch) ->
  get p 59 = Ok 0 /\ get p 60 = Ok 0.
Proof.
  unfold dtls_read_client_hello, ngx_get_1_byte. intros Hb Hch. inv_bind Hch.
  destruct a2; cbn [negb] in Hch; [|discriminate]. inv_binds Hch.
  rewrite SSL3_RANDOM_SIZE_32 in *. change (27 + 32) with 59 in *.
  rename a2 into s, a3 into c.
  assert (is_byte s) by (by eapply get_byte). assert (is_byte c) by (by eapply get_byte).
  match goal with H1 : read_opaque p (59 + 1) s _ = _, H2 : read_opaque p _ c _ = _ |- _ =>
    apply read_opaque_pos in H1, H2; [|lia..] end.
  match goal with H : ngx_get_2_bytes p (_ + 3) = Ok _ |- _ =>
    unfold ngx_get_2_bytes in H; inv_bind H end.
  match goal with H : get p (_ + 3 + 1) = Ok _ |- _ => apply get_Ok_range in H end.
  assert (s = 0) as -> by lia. assert (c = 0) as -> by lia. subst.
  split; [done|]. replace 60 with (59 + 1 + 0) by lia. done.
Qed.

(** The lengths of the session id and the cookie are not checked: a
    client hello of 66 bytes with a prefix in its random bytes and either of
    them not empty makes the handler access memory outside the datagram. *)
Theorem dtls_probe_out_of_bounds record header sid_len :
  bytes p -> (forall k n, 0 <= n -> is_Some (palloc k n)) ->
  ngx_is_dtls_probe p 66 = Ok NGX_OK ->
  dtls_read_record p = Ok (Some record) -> dtls_read_handshake p = Ok (Some header) ->
  has_prefix p 35 = Ok true ->
  get p 59 = Ok sid_len -> (sid_len = 0 -> get p 60 <> Ok 0) ->
  process_datagram palloc p 66 = Fault.
Proof.
  intros Hb Hall Hdtls Hrec Hhdr Hpre Hsid Hcookie.
  unfold process_datagram. cbn [Z.eqb Pos.eqb]. unfold ngx_process_dtls_probe.
  destruct (Hall 0%nat 40 ltac:(lia)) as [m0 ->], (Hall 1%nat 32 ltac:(lia)) as [m1 ->],
    (Hall 2%nat 342 ltac:(lia)) as [m2 ->].
  rewrite !bool_decide_eq_false_2 by done.
  rewrite Hdtls, Hrec, Hhdr, !Ok_bind. change (negb (NGX_OK =? NGX_OK)) with false.
  cbv iota. rewrite (fuelless_Fault (dtls_read_client_hello p)); [done|..].
  { apply fuelless_client_hello. }
  intros [ch|] Hch.
  { apply client_hello_Ok in Hch as [E1 E2]; [|done].
    assert (sid_len = 0) as -> by congruence. by apply Hcookie. }
  unfold dtls_read_client_hello in Hch. inv_bind Hch.
  destruct a2; cbn [negb] in Hch.
  { inv_binds Hch. discriminate. }
  unfold has_prefix, prefix_len in *. rewrite SSL3_RANDOM_SIZE_32 in *.
  rewrite (slice_slice _ _ _ _ 8 6 E1) in E2 by lia.
  change (27 + 8) with 35 in E2. congruence.
Qed.
End safety.

(** The hello above, with a session id of 32 bytes announced. *)
Definition long_session_id : list Z :=
  [handshake; 0xfe; 0xff; 0; 0; 0; 0; 0; 0; 0; 1; 0; 53]
  ++ [client_hello; 0; 0; 41; 0; 0; 0; 0; 0; 0; 0; 41] ++ [0xfe; 0xfd]
  ++ [1; 2; 3; 4; 5; 6; 7; 8] ++ prefix_probe_1 ++ [64; 3] ++ str "0123456789abcdef"
  ++ [32; 0; 0xc0; 0x2b; 0; 0; 0].

Lemma dtls_probe_out_of_bounds_witness :
  process_datagram (H := OpenSSL_toy) palloc_zero long_session_id 66 = Fault.
Proof.
  eapply (dtls_probe_out_of_bounds (H := OpenSSL_toy) palloc_zero long_session_id
    eq_refl) with (sid_len := 32).
  - vm_compute. repeat constructor; intros [=].
  - intros k n Hn. unfold palloc_zero. destruct (Z.leb_spec 0 n); [by eexists|lia].
  - reflexivity.
  - reflexivity.
  - reflexivity.
  - reflexivity.
  - reflexivity.
  - intros [=].
Defined.
