(* ===== verification/ProbeDispatch.v ===== *)
(** * Dispatching probes

    The UDP, RTP and DTLS handlers of [src/stream/ngx_stream_probe.c], the
    dispatch on the length of the datagram, and the phase handler of
    [src/stream/ngx_stream_probe_module.c]. *)

From stdpp Require Import gmap.
From S2P Require Import Prelude Crc NetBytes OpenSSL Stun StunSerialize Probe ProbeStun ProbeDtls.

(** Nothing was sent and the datagram is as it was, or one datagram was sent,
    which is no longer than the one received. *)
Definition conforming (p : list Z) (o : outcome) : Prop :=
  let '(rc, p', out) := o in
  o = (NGX_DONE, p, []) \/
  (rc = NGX_OK \/ rc = NGX_DONE) /\ zlen p' = zlen p /\
  exists msg, out = [msg] /\ zlen msg <= zlen p.

Lemma conforming_done p : conforming p (NGX_DONE, p, []).
Proof. by left. Qed.

#[export] Hint Resolve conforming_done : nginx.

Lemma slice_all p n : zlen p = n -> slice p 0 n = Ok p.
Proof.
  intros <-. unfold slice. pose proof (zlen_nonneg p).
  destruct (Z.leb_spec 0 0), (Z.leb_spec 0 (zlen p)), (Z.leb_spec (0 + zlen p) (zlen p)); try lia.
  cbn [andb]. unfold zlen. by rewrite Nat2Z.id, drop_0, firstn_all.
Qed.

Lemma has_prefix_at pre prefix post off :
  off = zlen pre -> prefix = prefix_probe_1 \/ prefix = prefix_probe_2 ->
  has_prefix (pre ++ prefix ++ post) off = Ok true.
Proof.
  intros -> Hp. unfold has_prefix.
  rewrite slice_app, Ok_bind by (try done; by destruct Hp as [-> | ->]).
  by destruct Hp as [-> | ->].
Qed.

Section handlers.
Context `{OpenSSL} (palloc : nat -> Z -> option (list Z)).
Context (Hpalloc : palloc_sized palloc).

(** A UDP probe is always answered, with its time to live decremented
    (not below 0) and its node number incremented; it is consumed when its
    time to live was at most 1, and otherwise goes on to the upstream as it
    was answered. *)
Theorem udp_probe_ttl prefix ttl num name p :
  prefix = prefix_probe_1 \/ prefix = prefix_probe_2 ->
  is_byte ttl -> zlen name = 16 -> p = prefix ++ ttl :: num :: name ->
  is_Some (palloc 0%nat 17) ->
  let p' := prefix ++ (if ttl <=? 1 then 0 else ttl - 1) :: u8 (num + 1) :: name in
  process_datagram palloc p (zlen p)
  = Ok (if ttl <=? 1 then NGX_OK else NGX_DONE, p', [p']).
Proof.
  intros Hprefix Httl Hname -> [username Hu] p'.
  assert (zlen prefix = 6) as Hpl by (by destruct Hprefix as [-> | ->]).
  assert (zlen (prefix ++ ttl :: num :: name) = 24) as -> by
    (rewrite zlen_app, !zlen_cons; lia).
  unfold process_datagram. cbn [Z.eqb Pos.eqb]. unfold ngx_process_udp_probe.
  pose proof (has_prefix_at [] prefix (ttl :: num :: name) 0 eq_refl Hprefix) as Hpre.
  cbn [app] in Hpre. rewrite Hpre, Ok_bind. cbn [negb].
  unfold probe_username_len, prefix_len. change (16 + 1) with 17. rewrite Hu. pose proof (Hpalloc _ _ _ Hu).
  rewrite (get_behind prefix _ 6 0 ttl) by (lia || done). rewrite Ok_bind.
  assert (forall t, put (prefix ++ ttl :: num :: name) 6 t
    = Ok (prefix ++ t :: num :: name)) as Hput by (intros; by apply put_app).
  rewrite !Hput, !Ok_bind.
  assert ((if ttl <=? 1 then Ok (prefix ++ 0 :: num :: name, NGX_OK)
           else Ok (prefix ++ u8 (ttl - 1) :: num :: name, NGX_DONE))
    = Ok (prefix ++ (if ttl <=? 1 then 0 else ttl - 1) :: num :: name,
          if ttl <=? 1 then NGX_OK else NGX_DONE)) as ->.
  { destruct (Z.leb_spec ttl 1); [done|]. by rewrite u8_id by lia. }
  rewrite Ok_bind. set (t := if ttl <=? 1 then 0 else ttl - 1) in *.
  rewrite (get_behind prefix _ (6 + 1) 1 num) by (lia || done). rewrite Ok_bind.
  rewrite (put_behind prefix _ _ (6 + 1) 1) by (simpl; lia). rewrite Ok_bind.
  change (<[1%nat:=u8 (num + 1)]> (t :: num :: name)) with (t :: u8 (num + 1) :: name).
  fold p'. assert (slice p' (6 + 2) 16 = Ok name) as ->.
  { unfold p'. change (t :: u8 (num + 1) :: name) with ([t; u8 (num + 1)] ++ name).
    rewrite app_assoc, <- (app_nil_r name) at 1. rewrite app_assoc.
    rewrite <- app_assoc. apply slice_app; [|done]. rewrite zlen_app, Hpl. done. }
  rewrite Ok_bind.
  destruct (copy_name username name) as (u1 & u2 & -> & Hu2); [done..|].
  rewrite Ok_bind, Hu2, Ok_bind.
  unfold ngx_reply_probe. rewrite slice_all, !Ok_bind; [done|].
  unfold p'. rewrite zlen_app, !zlen_cons. lia.
Qed.

(** An RTP packet whose payload is a probe is answered with the time to
    live 255 and the node number incremented, and consumed. *)
Theorem rtp_probe_reply hdr h0 prefix ttl num name p :
  prefix = prefix_probe_1 \/ prefix = prefix_probe_2 ->
  zlen (h0 :: hdr) = 12 -> 128 <= h0 < 192 -> zlen name = 16 ->
  p = (h0 :: hdr) ++ prefix ++ ttl :: num :: name -> is_Some (palloc 0%nat 17) ->
  let p' := (h0 :: hdr) ++ prefix ++ 0xFF :: u8 (num + 1) :: name in
  process_datagram palloc p (zlen p) = Ok (NGX_OK, p', [p']).
Proof.
  intros Hprefix Hhdr Hh0 Hname -> [username Hu] p'.
  assert (zlen prefix = 6) as Hpl by (by destruct Hprefix as [-> | ->]).
  set (h := h0 :: hdr) in *.
  assert (zlen (h ++ prefix ++ ttl :: num :: name) = 36) as -> by
    (rewrite !zlen_app, !zlen_cons; lia).
  unfold process_datagram. cbn [Z.eqb Pos.eqb]. unfold ngx_process_rtp_probe.
  assert (ngx_is_rtp_probe (h ++ prefix ++ ttl :: num :: name) 36 = Ok NGX_OK) as ->.
  { unfold ngx_is_rtp_probe, h. cbn [app]. rewrite get_cons_0.
    change (negb (RTP_HEADER_SIZE <=? 36)) with false. cbn [negb]. rewrite Ok_bind.
    rewrite Z.shiftr_div_pow2 by lia. change (2 ^ 6) with 64.
    destruct (Z.ltb_spec 127 h0), (Z.ltb_spec h0 192), (Z.eqb_spec (h0 / 64) 2); try done;
      Z.to_euclidean_division_equations; lia. }
  rewrite Ok_bind. change (negb (NGX_OK =? NGX_OK)) with false. cbv iota zeta.
  unfold RTP_HEADER_SIZE, probe_username_len, prefix_len.
  rewrite (has_prefix_at h prefix) by done. rewrite Ok_bind. cbn [negb].
  change (12 + 6 + 2) with 20. change (12 + 6 + 1) with (18 + 1). change (12 + 6) with 18.
  change (16 + 1) with 17. rewrite Hu. pose proof (Hpalloc _ _ _ Hu).
  set (pre := h ++ prefix). assert (zlen pre = 18) as Hpre.
  { unfold pre. rewrite zlen_app. lia. }
  assert (p' = marked pre name num) as Ep' by (unfold p', marked, pre; by rewrite <- app_assoc).
  rewrite app_assoc. fold pre.
  pose proof (marked_writes pre ttl num name 18 ltac:(lia)) as Hm. inv_bind Hm.
  rewrite E, Ok_bind, E0, Ok_bind, Hm, Ok_bind, <- Ep'.
  assert (zlen p' = 36) as Hp'.
  { rewrite Ep'. unfold marked. rewrite zlen_app, !zlen_cons. lia. }
  unfold ngx_reply_probe. rewrite slice_all by done. rewrite !Ok_bind.
  assert (slice p' 20 16 = Ok name) as ->.
  { rewrite Ep'. unfold marked.
    change (255 :: u8 (num + 1) :: name) with ([255; u8 (num + 1)] ++ name).
    rewrite app_assoc, <- (app_nil_r name). rewrite <- app_assoc, app_nil_r.
    rewrite <- (app_nil_r name) at 1. rewrite app_assoc. apply slice_app; [|done].
    rewrite zlen_app, Hpre. done. }
  rewrite Ok_bind. destruct (copy_name username name) as (u1 & u2 & -> & Hu2); [done..|].
  by rewrite Ok_bind, Hu2, Ok_bind.
Qed.

(** ** Every datagram *)

Lemma dtls_read_record_ok p :
  zlen p = 66 -> exists r, dtls_read_record p = Ok r.
Proof.
  intros Hp. unfold dtls_read_record, ngx_get_1_byte, DTLS_RECORD_LAYER_SEQ_NUM_SIZE.
  destruct (get_ok p 0) as [? ->]; [lia|]. rewrite Ok_bind. case_match; [eauto|].
  destruct (get_ok p 1) as [? ->]; [lia|]. destruct (get_ok p 2) as [? ->]; [lia|].
  destruct (get_2_ok p 3) as (? & -> & _); [lia..|].
  destruct (get_2_ok p 11) as (? & -> & _); [lia..|].
  destruct (slice_ok p 5 6) as (? & -> & _); [lia..|]. rewrite !Ok_bind.
  case_match; eauto.
Qed.

Lemma dtls_read_handshake_ok p :
  zlen p = 66 -> exists r, dtls_read_handshake p = Ok r.
Proof.
  intros Hp. unfold dtls_read_handshake, ngx_get_1_byte.
  destruct (get_ok p 13) as [? ->]; [lia|].
  destruct (get_3_ok p 14) as [? ->]; [lia..|].
  destruct (get_2_ok p 17) as (? & -> & _); [lia..|].
  destruct (get_3_ok p 19) as [? ->]; [lia..|].
  destruct (get_3_ok p 22) as [? ->]; [lia..|]. rewrite !Ok_bind. case_match; eauto.
Qed.

Lemma client_hello_no_prefix p :
  zlen p = 66 -> has_prefix p 35 = Ok false -> dtls_read_client_hello p = Ok None.
Proof.
  intros Hp Hpre. unfold dtls_read_client_hello, ngx_get_1_byte, has_prefix, prefix_len.
  destruct (get_ok p 25) as [? ->]; [lia|]. destruct (get_ok p 26) as [? ->]; [lia|].
  rewrite SSL3_RANDOM_SIZE_32.
  destruct (slice_ok p 27 32) as (l & El & _); [lia..|]. rewrite El, !Ok_bind.
  rewrite (slice_slice _ _ _ _ 8 6 El) by lia. change (27 + 8) with 35.
  unfold has_prefix, prefix_len in Hpre. by rewrite Hpre.
Qed.

Lemma udp_probe_cases p :
  zlen p = 24 -> exists o, ngx_process_udp_probe palloc p 24 = Ok o /\ conforming p o.
Proof.
  intros Hp. unfold ngx_process_udp_probe, probe_username_len, prefix_len.
  change (16 + 1) with 17. change (6 + 1) with 7. change (6 + 2) with 8.
  destruct (has_prefix_ok p 0) as [b ->]; [lia..|]. rewrite Ok_bind.
  destruct b; cbn [negb]; [|eauto with nginx].
  destruct (palloc 0%nat 17) as [username|] eqn:Hu; [|eauto with nginx].
  apply Hpalloc in Hu. destruct (get_ok p 6) as [ttl ->]; [lia|]. rewrite Ok_bind.
  assert (exists p1 rc, (if ttl <=? 1 then p ← put p 6 0; Ok (p, NGX_OK)
                         else p ← put p 6 (u8 (ttl - 1)); Ok (p, NGX_DONE))
    = Ok (p1, rc) /\ zlen p1 = 24 /\ (rc = NGX_OK \/ rc = NGX_DONE))
    as (p1 & rc & -> & Hp1 & Hrc).
  { destruct (put_ok p 6 0) as (q1 & -> & ?); [lia|].
    destruct (put_ok p 6 (u8 (ttl - 1))) as (q2 & -> & ?); [lia|]. rewrite !Ok_bind.
    case_match; do 2 eexists; (split; [done|]); split; try lia; auto. }
  rewrite Ok_bind. destruct (get_ok p1 7) as [num ->]; [lia|]. rewrite Ok_bind.
  destruct (put_ok p1 7 (u8 (num + 1))) as (p2 & -> & Hp2); [lia|]. rewrite Ok_bind.
  destruct (slice_ok p2 8 16) as (name & -> & Hname); [lia..|]. rewrite Ok_bind.
  destruct (copy_name username name) as (u1 & u2 & -> & Hu2); [done..|].
  rewrite Ok_bind, Hu2, Ok_bind. unfold ngx_reply_probe.
  rewrite slice_all, !Ok_bind by lia. eexists. split; [done|]. right.
  split; [done|]. split; [lia|]. eexists. split; [done|]. lia.
Qed.

Lemma rtp_probe_cases p :
  zlen p = 36 -> exists o, ngx_process_rtp_probe palloc p 36 = Ok o /\ conforming p o.
Proof.
  intros Hp. unfold ngx_process_rtp_probe, ngx_is_rtp_probe.
  destruct (Z.leb_spec RTP_HEADER_SIZE 36); [|eauto with nginx]. cbn [negb].
  destruct (get_ok p 0) as [d ->]; [lia|]. rewrite !Ok_bind.
  case_match; [eauto with nginx|].
  unfold RTP_HEADER_SIZE, probe_username_len, prefix_len. cbv zeta.
  change (12 + 6 + 2) with 20. change (12 + 6 + 1) with 19. change (12 + 6) with 18.
  change (16 + 1) with 17.
  destruct (has_prefix_ok p 12) as [b ->]; [lia..|]. rewrite Ok_bind.
  destruct b; cbn [negb]; [|eauto with nginx].
  destruct (put_ok p 18 0xFF) as (p1 & -> & Hp1); [lia|]. rewrite Ok_bind.
  destruct (get_ok p1 19) as [num ->]; [lia|]. rewrite Ok_bind.
  destruct (put_ok p1 19 (u8 (num + 1))) as (p2 & -> & Hp2); [lia|]. rewrite Ok_bind.
  unfold ngx_reply_probe. rewrite slice_all, !Ok_bind by lia.
  assert (forall rc, rc = NGX_OK \/ rc = NGX_DONE -> conforming p (rc, p2, [p2])) as Hc.
  { intros rc Hrc. right. split; [done|]. split; [lia|]. eexists. split; [done|]. lia. }
  destruct (palloc 0%nat 17) as [username|] eqn:Hu; [|eauto 10].
  apply Hpalloc in Hu. destruct (slice_ok p2 20 16) as (name & -> & Hname); [lia..|].
  rewrite Ok_bind. destruct (copy_name username name) as (u1 & u2 & -> & Hu2); [done..|].
  rewrite Ok_bind, Hu2, Ok_bind. eauto.
Qed.

Lemma dtls_probe_cases p :
  zlen p = 66 -> bytes p -> get p 59 = Ok 0 -> get p 60 = Ok 0 ->
  exists o, ngx_process_dtls_probe palloc p 66 = Ok o /\ conforming p o.
Proof.
  intros Hp Hb H59 H60. unfold ngx_process_dtls_probe, ngx_is_dtls_probe.
  destruct (Z.leb_spec 13 66); [|lia]. cbn [negb].
  destruct (get_ok p 0) as [d ->]; [lia|]. rewrite !Ok_bind.
  case_match; [eauto with nginx|]. case_bool_decide; [eauto with nginx|].
  destruct (dtls_read_record_ok p Hp) as [[record|] Hr];
    rewrite Hr, Ok_bind; [|eauto with nginx].
  case_bool_decide; [eauto with nginx|].
  destruct (dtls_read_handshake_ok p Hp) as [[header|] Hh];
    rewrite Hh, Ok_bind; [|eauto with nginx].
  case_bool_decide; [eauto with nginx|].
  destruct (has_prefix_ok p 35) as [b Hpre]; [lia..|]. destruct b.
  - destruct (client_hello_probe_inv p record header) as (h & -> & Hname & Hprefix);
      [unfold zlen in Hp; lia|done..|].
    rewrite read_record_hello in Hr by done. rewrite read_handshake_hello in Hh by done.
    simplify_eq. rewrite read_client_hello_hello, Ok_bind by done.
    erewrite dtls_reply_hello; [|done..|by apply read_client_hello_hello|done].
    eexists. split; [done|]. case_bool_decide; [apply conforming_done|]. right.
    split; [by left|]. assert (zlen (server_hello_reply h) = 65) as Hl
      by (by apply zlen_server_hello_reply).
    split; [rewrite zlen_app, Hp, Hl; done|]. eexists. split; [done|]. lia.
  - rewrite (client_hello_no_prefix p Hp Hpre), Ok_bind. eauto with nginx.
Qed.

Lemma probe_datagram_ok p :
  bytes p -> is_Some (palloc 1%nat 40) ->
  (zlen p = 66 -> get p 59 = Ok 0 /\ get p 60 = Ok 0) ->
  exists o, process_datagram palloc p (zlen p) = Ok o /\ conforming p o.
Proof.
  intros Hb Hstun Hdtls. unfold process_datagram.
  destruct (Z.eqb_spec (zlen p) 24) as [E|]; [rewrite E; by apply udp_probe_cases|].
  destruct (Z.eqb_spec (zlen p) 36) as [E|]; [rewrite E; by apply rtp_probe_cases|].
  destruct (Z.eqb_spec (zlen p) 40) as [E40|].
  { rewrite E40. destruct (stun_probe_cases palloc Hpalloc p 40)
      as [E|(p' & msg & E & Hp' & Hmsg)]; [done|done|lia|done|..].
    - rewrite E. eauto with nginx.
    - rewrite E. eexists. split; [done|]. right. split; [by left|].
      split; [lia|]. eexists. split; [done|]. lia. }
  destruct (Z.eqb_spec (zlen p) 66) as [E66|]; [|eauto with nginx].
  rewrite E66. destruct (Hdtls E66). by apply dtls_probe_cases.
Qed.

(** C4: no datagram makes the probe code leave its buffers, if its announced
    DTLS session id and cookie are empty and the STUN reply buffer was
    allocated; a datagram that is not answered is left as it was for the
    next phase, and no answer is longer than the datagram it answers. *)
Theorem probe_datagram_safe p :
  bytes p -> is_Some (palloc 1%nat 40) ->
  (zlen p = 66 -> get p 59 = Ok 0 /\ get p 60 = Ok 0) ->
  exists o, process_datagram palloc p (zlen p) = Ok o /\ conforming p o.
Proof. apply probe_datagram_ok. Qed.
End handlers.

(** ** The connection and the phase handler *)

(** A connection of the listening UDP socket with a datagram to look at. *)
Record has_datagram (c : connection) (p : list Z) : Prop := {
  hd_dgram : c.(sock_dgram) = true;
  hd_udp : is_Some c.(c_udp);
  hd_buffer : exists b, probe_buffer c = Some b /\ c.(store) !! b = Some p
}.

(** [c] after its datagram became [p'] and [out] was sent. *)
Definition answered (c : connection) (b : nat) (p' : list Z) (out : list (list Z))
    (consumed : bool) : connection :=
  Connection (<[b := p']> c.(store)) c.(sock_dgram)
    (if consumed then None else c.(c_buffer))
    (if consumed then Some None else c.(c_udp)) (c.(sent) ++ out).

Lemma ngx_process_probe_spec `{OpenSSL} palloc c p rc p' out b :
  has_datagram c p -> probe_buffer c = Some b ->
  process_datagram palloc p (zlen p) = Ok (rc, p', out) ->
  ngx_process_probe palloc c = Ok (rc, answered c b p' out (rc =? NGX_OK)).
Proof.
  intros [Hd [u Hu] (b' & Hb' & Hst)] Hb Hp. unfold ngx_process_probe.
  assert (b' = b) as -> by congruence. rewrite Hd, Hb, Hst, Hp, Ok_bind, Hu.
  unfold answered. cbn [negb]. rewrite Hd. case_match; rewrite ?Hu; done.
Qed.

Lemma answered_nothing c b p :
  c.(store) !! b = Some p -> answered c b p [] false = c.
Proof.
  intros Hb. unfold answered. rewrite insert_id, app_nil_r by done. by destruct c.
Qed.

(** C7: The probe phase. An expired session is finalised and marked; with the probe
    disabled the session goes on unchanged; both hold of any session. Otherwise, for a
    datagram of a connection whose [c->udp] is set, if the reply buffer of a STUN probe can
    be allocated (the code does not check it) and a datagram of 66 bytes has zeros at 59
    and 60, where a client hello has the lengths of its session id and cookie: what
    [process_datagram] sends is sent; a datagram that it does not answer reaches the next
    phase in an unchanged session; when it is consumed, both buffer pointers are cleared,
    the session stops here and its read timer is set to the configured timeout; and else
    the buffers and the timer stay as they are. *)
Theorem probe_handler_phase `{OpenSSL} palloc pscf s :
  palloc_sized palloc ->
  (s.(read_timedout) = true -> ngx_stream_probe_handler palloc pscf s =
     Ok (NGX_DONE, Session s.(s_connection) true true s.(read_timer) (Some NGX_STREAM_OK))) /\
  (s.(read_timedout) = false -> pscf.(probe_enable) = 0 ->
     ngx_stream_probe_handler palloc pscf s = Ok (NGX_OK, s)) /\
  (forall p, s.(read_timedout) = false -> pscf.(probe_enable) <> 0 ->
     has_datagram s.(s_connection) p -> bytes p -> is_Some (palloc 1%nat 40) ->
     (zlen p = 66 -> get p 59 = Ok 0 /\ get p 60 = Ok 0) ->
     exists rc s' drc p' out, ngx_stream_probe_handler palloc pscf s = Ok (rc, s') /\
       process_datagram palloc p (zlen p) = Ok (drc, p', out) /\
       s'.(s_connection).(sent) = s.(s_connection).(sent) ++ out /\
       s'.(finalized) = s.(finalized) /\
       (out = [] -> rc = NGX_OK /\ s' = s) /\
       (drc = NGX_OK -> rc = NGX_DONE /\ s'.(read_timer) = Some pscf.(probe_timeout) /\
         s'.(s_connection).(c_buffer) = None /\ s'.(s_connection).(c_udp) = Some None) /\
       (drc <> NGX_OK -> rc = NGX_OK /\ s'.(read_timer) = s.(read_timer) /\
         s'.(s_connection).(c_buffer) = s.(s_connection).(c_buffer) /\
         s'.(s_connection).(c_udp) = s.(s_connection).(c_udp))).
Proof.
  intros Hpa. unfold ngx_stream_probe_handler. split_and!.
  - intros Ht. by rewrite Ht.
  - intros Ht He. by rewrite Ht, He.
  - intros p Ht He Hc Hb Hstun Hdtls. rewrite Ht. destruct (Z.eqb_spec pscf.(probe_enable) 0); [done|].
    pose proof Hc as [_ _ (b & Hbuf & Hst)].
    destruct (probe_datagram_ok palloc Hpa p Hb Hstun Hdtls) as ([[drc p'] out] & E & Hconf).
    rewrite (ngx_process_probe_spec palloc _ p drc p' out b) by done. rewrite Ok_bind. cbn [negb].
    destruct (Z.eqb_spec drc NGX_OK) as [->|Hd]; do 5 eexists; (split; [done|]); (split; [done|]);
      cbn; (split; [done|]); (split; [done|]).
    + split; [|done]. intros ->. destruct Hconf as [[=]|(_ & _ & msg & [=] & _)].
    + split; [|done]. intros ->. destruct Hconf as [[=-> ->]|(_ & _ & msg & [=] & _)].
      split; [done|]. rewrite answered_nothing by done. by destruct s; simplify_eq/=.
Qed.

(** ** Examples *)

Definition sample_name : list Z := str "0123456789abcdef".
Definition sample_udp : list Z := prefix_probe_1 ++ 64 :: 3 :: sample_name.

Lemma udp_probe_ttl_witness :
  process_datagram (H := OpenSSL_toy) palloc_zero sample_udp 24
  = Ok (NGX_DONE, prefix_probe_1 ++ 63 :: 4 :: sample_name,
        [prefix_probe_1 ++ 63 :: 4 :: sample_name]).
Proof.
  refine (udp_probe_ttl (H := OpenSSL_toy) palloc_zero palloc_zero_sized prefix_probe_1
    64 3 sample_name sample_udp _ _ _ _ _).
  - left. reflexivity.
  - lia.
  - reflexivity.
  - reflexivity.
  - by eexists.
Defined.

Lemma rtp_probe_reply_witness :
  process_datagram (H := OpenSSL_toy) palloc_zero
    (128 :: replicate 11 0 ++ prefix_probe_2 ++ 64 :: 255 :: sample_name) 36
  = Ok (NGX_OK, 128 :: replicate 11 0 ++ prefix_probe_2 ++ 255 :: 0 :: sample_name,
        [128 :: replicate 11 0 ++ prefix_probe_2 ++ 255 :: 0 :: sample_name]).
Proof.
  refine (rtp_probe_reply (H := OpenSSL_toy) palloc_zero palloc_zero_sized
    (replicate 11 0) 128 prefix_probe_2 64 255 sample_name _ _ _ _ _ eq_refl _).
  - right. reflexivity.
  - reflexivity.
  - lia.
  - reflexivity.
  - by eexists.
Defined.

Lemma probe_datagram_safe_witness :
  exists o, process_datagram (H := OpenSSL_toy) palloc_zero (replicate 40 1) 40 = Ok o /\
    conforming (replicate 40 1) o.
Proof.
  apply (probe_datagram_safe (H := OpenSSL_toy) palloc_zero palloc_zero_sized
    (replicate 40 1)).
  - apply Forall_replicate. lia.
  - by eexists.
  - intros [=].
Defined.

Definition sample_session : session :=
  Session (Connection {[ 5%nat := sample_udp ]} true (Some 5%nat) (Some (Some 5%nat)) [])
    false false None None.

Lemma probe_handler_phase_witness :
  exists rc s', ngx_stream_probe_handler (H := OpenSSL_toy) palloc_zero (Conf 1 30000)
      sample_session = Ok (rc, s') /\ rc = NGX_OK /\ length s'.(s_connection).(sent) = 1%nat.
Proof.
  destruct (probe_handler_phase (H := OpenSSL_toy) palloc_zero (Conf 1 30000)
    sample_session palloc_zero_sized) as (_ & _ & Hp).
  destruct (Hp sample_udp) as (rc & s' & drc & p' & out & E & Ed & Hs & _ & _ & _ & Hd).
  - reflexivity.
  - done.
  - split; [reflexivity|by eexists|]. exists 5%nat. split; reflexivity.
  - vm_compute. repeat constructor; intros [=].
  - by eexists.
  - intros [=].
  - vm_compute in Ed. injection Ed as <- <- <-. exists rc, s'. split; [exact E|].
    split; [by apply Hd|]. by rewrite Hs.
Defined.
