(* ===== verification/Numeric.v ===== *)
(** * Numbers in text

    The number parsers of [src/core/ngx_string.c] and the size, offset and time
    parsers of [src/core/ngx_parse.c]. A signed operation that overflows 64 bits
    is a [Fault]; the theorems show exactly which number is returned. *)

From S2P Require Import Prelude.

(** ** [ngx_string.c] *)

(** The loop of [ngx_atoi] and its siblings: [line] holds the bytes left. *)
Fixpoint atoi_loop (cutoff cutlim : Z) (line : list Z) (value : Z) : res Z :=
  match line with
  | [] => Ok value
  | c :: line =>
      if (c <? "0"%chr) || ("9"%chr <? c) then Ok NGX_ERROR
      else if (cutoff <=? value) && ((cutoff <? value) || (cutlim <? c - "0"%chr))
      then Ok NGX_ERROR
      else
        value ← int64 (value * 10);
        value ← int64 (value + (c - "0"%chr));
        atoi_loop cutoff cutlim line value
  end.

Definition ngx_atoi (line : list Z) : res Z :=
  if zlen line =? 0 then Ok NGX_ERROR
  else atoi_loop (NGX_MAX_INT_T_VALUE / 10) (NGX_MAX_INT_T_VALUE mod 10) line 0.

Definition ngx_atosz (line : list Z) : res Z :=
  if zlen line =? 0 then Ok NGX_ERROR
  else atoi_loop (NGX_MAX_SIZE_T_VALUE / 10) (NGX_MAX_SIZE_T_VALUE mod 10) line 0.

Definition ngx_atoof (line : list Z) : res Z :=
  if zlen line =? 0 then Ok NGX_ERROR
  else atoi_loop (NGX_MAX_OFF_T_VALUE / 10) (NGX_MAX_OFF_T_VALUE mod 10) line 0.

Definition ngx_atotm (line : list Z) : res Z :=
  if zlen line =? 0 then Ok NGX_ERROR
  else atoi_loop (NGX_MAX_TIME_T_VALUE / 10) (NGX_MAX_TIME_T_VALUE mod 10) line 0.

(** [while (point--)] of [ngx_atofp]. *)
Fixpoint atofp_scale (cutoff : Z) (point : nat) (value : Z) : res Z :=
  match point with
  | O => Ok value
  | S point =>
      if cutoff <? value then Ok NGX_ERROR
      else value ← int64 (value * 10); atofp_scale cutoff point value
  end.

(** The loop over the bytes: [None] is [return NGX_ERROR]. *)
Fixpoint atofp_loop (cutoff cutlim : Z) (line : list Z) (value point dot : Z)
    : res (option (Z * Z)) :=
  match line with
  | [] => Ok (Some (value, point))
  | c :: line =>
      if point =? 0 then Ok None
      else if c =? "."%chr then
        if negb (dot =? 0) then Ok None
        else atofp_loop cutoff cutlim line value point 1
      else if (c <? "0"%chr) || ("9"%chr <? c) then Ok None
      else if (cutoff <=? value) && ((cutoff <? value) || (cutlim <? c - "0"%chr))
      then Ok None
      else
        value ← int64 (value * 10);
        value ← int64 (value + (c - "0"%chr));
        atofp_loop cutoff cutlim line value (point - dot) dot
  end.

Definition ngx_atofp (line : list Z) (point : Z) : res Z :=
  if zlen line =? 0 then Ok NGX_ERROR
  else
    let cutoff := NGX_MAX_INT_T_VALUE / 10 in
    let cutlim := NGX_MAX_INT_T_VALUE mod 10 in
    r ← atofp_loop cutoff cutlim line 0 point 0;
    match r with
    | None => Ok NGX_ERROR
    | Some (value, point) => atofp_scale cutoff (Z.to_nat point) value
    end.

Fixpoint hextoi_loop (cutoff : Z) (line : list Z) (value : Z) : res Z :=
  match line with
  | [] => Ok value
  | ch :: line =>
      if cutoff <? value then Ok NGX_ERROR
      else if ("0"%chr <=? ch) && (ch <=? "9"%chr) then
        value ← int64 (value * 16 + (ch - "0"%chr));
        hextoi_loop cutoff line value
      else
        let c := u8 (Z.lor ch 0x20) in
        if ("a"%chr <=? c) && (c <=? "f"%chr) then
          value ← int64 (value * 16 + (c - "a"%chr + 10));
          hextoi_loop cutoff line value
        else Ok NGX_ERROR
  end.

Definition ngx_hextoi (line : list Z) : res Z :=
  if zlen line =? 0 then Ok NGX_ERROR
  else hextoi_loop (NGX_MAX_INT_T_VALUE / 16) line 0.

(** ** [ngx_parse.c] *)

(** [size == NGX_ERROR || size > max], then [size *= scale]. *)
Definition scale_checked (size max scale : Z) : res Z :=
  if (size =? NGX_ERROR) || (max <? size) then Ok NGX_ERROR else int64 (size * scale).

Definition ngx_parse_size (line : list Z) : res Z :=
  let len := zlen line in
  if len =? 0 then Ok NGX_ERROR
  else
    unit ← get line (len - 1);
    let '(len, max, scale) :=
      if (unit =? "K"%chr) || (unit =? "k"%chr)
      then (len - 1, NGX_MAX_SIZE_T_VALUE / 1024, 1024)
      else if (unit =? "M"%chr) || (unit =? "m"%chr)
      then (len - 1, NGX_MAX_SIZE_T_VALUE / (1024 * 1024), 1024 * 1024)
      else (len, NGX_MAX_SIZE_T_VALUE, 1) in
    digits ← slice line 0 len;
    size ← ngx_atosz digits;
    scale_checked size max scale.

Definition ngx_parse_offset (line : list Z) : res Z :=
  let len := zlen line in
  if len =? 0 then Ok NGX_ERROR
  else
    unit ← get line (len - 1);
    let '(len, max, scale) :=
      if (unit =? "K"%chr) || (unit =? "k"%chr)
      then (len - 1, NGX_MAX_OFF_T_VALUE / 1024, 1024)
      else if (unit =? "M"%chr) || (unit =? "m"%chr)
      then (len - 1, NGX_MAX_OFF_T_VALUE / (1024 * 1024), 1024 * 1024)
      else if (unit =? "G"%chr) || (unit =? "g"%chr)
      then (len - 1, NGX_MAX_OFF_T_VALUE / (1024 * 1024 * 1024), 1024 * 1024 * 1024)
      else (len, NGX_MAX_OFF_T_VALUE, 1) in
    digits ← slice line 0 len;
    offset ← ngx_atoof digits;
    scale_checked offset max scale.

(** The steps of [ngx_parse_time], in order. *)
Definition st_start : Z := 0.
Definition st_year : Z := 1.
Definition st_month : Z := 2.
Definition st_week : Z := 3.
Definition st_day : Z := 4.
Definition st_hour : Z := 5.
Definition st_min : Z := 6.
Definition st_sec : Z := 7.
Definition st_msec : Z := 8.
Definition st_last : Z := 9.

Record time_state := TimeState {
  pt_value : Z;
  pt_total : Z;
  pt_valid : bool;
  pt_step : Z
}.

(** The [switch] on the unit [c]: the next step, its limit, its scale, and the
    bytes behind the unit; [None] is [return NGX_ERROR]. *)
Definition time_unit (is_sec : bool) (step c : Z) (p : list Z)
    : option (Z * Z * Z * list Z) :=
  if c =? "y"%chr then
    if st_start <? step then None
    else Some (st_year, NGX_MAX_INT_T_VALUE / (60 * 60 * 24 * 365), 60 * 60 * 24 * 365, p)
  else if c =? "M"%chr then
    if st_month <=? step then None
    else Some (st_month, NGX_MAX_INT_T_VALUE / (60 * 60 * 24 * 30), 60 * 60 * 24 * 30, p)
  else if c =? "w"%chr then
    if st_week <=? step then None
    else Some (st_week, NGX_MAX_INT_T_VALUE / (60 * 60 * 24 * 7), 60 * 60 * 24 * 7, p)
  else if c =? "d"%chr then
    if st_day <=? step then None
    else Some (st_day, NGX_MAX_INT_T_VALUE / (60 * 60 * 24), 60 * 60 * 24, p)
  else if c =? "h"%chr then
    if st_hour <=? step then None
    else Some (st_hour, NGX_MAX_INT_T_VALUE / (60 * 60), 60 * 60, p)
  else if c =? "m"%chr then
    match p with
    | s :: p' =>
        if s =? "s"%chr then
          if is_sec || (st_msec <=? step) then None
          else Some (st_msec, NGX_MAX_INT_T_VALUE, 1, p')
        else if st_min <=? step then None
        else Some (st_min, NGX_MAX_INT_T_VALUE / 60, 60, p)
    | [] =>
        if st_min <=? step then None
        else Some (st_min, NGX_MAX_INT_T_VALUE / 60, 60, p)
    end
  else if c =? "s"%chr then
    if st_sec <=? step then None else Some (st_sec, NGX_MAX_INT_T_VALUE, 1, p)
  else if c =? " "%chr then
    if st_sec <=? step then None else Some (st_last, NGX_MAX_INT_T_VALUE, 1, p)
  else None.

(** [while (p < last && *p == ' ')] *)
Fixpoint skip_spaces (p : list Z) : list Z :=
  match p with
  | c :: p' => if c =? " "%chr then skip_spaces p' else p
  | [] => []
  end.

Definition time_step (is_sec : bool) (st : time_state) (c : Z) (p : list Z)
    : res (option (time_state * list Z)) :=
  if ("0"%chr <=? c) && (c <=? "9"%chr) then
    let cutoff := NGX_MAX_INT_T_VALUE / 10 in
    let cutlim := NGX_MAX_INT_T_VALUE mod 10 in
    if (cutoff <=? st.(pt_value))
       && ((cutoff <? st.(pt_value)) || (cutlim <? c - "0"%chr))
    then Ok None
    else
      value ← int64 (st.(pt_value) * 10);
      value ← int64 (value + (c - "0"%chr));
      Ok (Some (TimeState value st.(pt_total) true st.(pt_step), p))
  else
    match time_unit is_sec st.(pt_step) c p with
    | None => Ok None
    | Some (step, max, scale, p) =>
        '(scale, max) ← (if negb (step =? st_msec) && negb is_sec
                         then scale ← int64 (scale * 1000); Ok (scale, max / 1000)
                         else Ok (scale, max));
        if max <? st.(pt_value) then Ok None
        else
          value ← int64 (st.(pt_value) * scale);
          room ← int64 (NGX_MAX_INT_T_VALUE - value);
          if room <? st.(pt_total) then Ok None
          else
            total ← int64 (st.(pt_total) + value);
            Ok (Some (TimeState 0 total st.(pt_valid) step, skip_spaces p))
    end.

(** The loop; one unit of fuel per byte is enough. *)
Fixpoint time_loop (fuel : nat) (is_sec : bool) (st : time_state) (p : list Z)
    : res (option time_state) :=
  match p, fuel with
  | [], _ => Ok (Some st)
  | _, O => NoFuel
  | c :: p, S fuel =>
      r ← time_step is_sec st c p;
      match r with
      | None => Ok None
      | Some (st, p) => time_loop fuel is_sec st p
      end
  end.

Definition ngx_parse_time (line : list Z) (is_sec : bool) : res Z :=
  r ← time_loop (length line) is_sec
        (TimeState 0 0 false (if is_sec then st_start else st_month)) line;
  match r with
  | None => Ok NGX_ERROR
  | Some st =>
      if negb st.(pt_valid) then Ok NGX_ERROR
      else if negb is_sec && (NGX_MAX_INT_T_VALUE / 1000 <? st.(pt_value)) then Ok NGX_ERROR
      else
        value ← (if is_sec then Ok st.(pt_value) else int64 (st.(pt_value) * 1000));
        room ← int64 (NGX_MAX_INT_T_VALUE - value);
        if room <? st.(pt_total) then Ok NGX_ERROR
        else int64 (st.(pt_total) + value)
  end.
