(* ===== verification/NumericSpec.v ===== *)
(** * The numbers the parsers return

    Exact results of the parsers of Numeric.v: the number that the digits stand
    for when it is representable, [NGX_ERROR] in every other case. *)

From S2P Require Import Prelude Numeric.

(** ** Specification *)

(** The number that decimal digits stand for, behind the digits of [v]. *)
Definition dec_from (v : Z) (l : list Z) : Z :=
  fold_left (fun v c => v * 10 + (c - "0"%chr)) l v.
Definition dec (l : list Z) : Z := dec_from 0 l.

Definition representable (v : Z) : option Z :=
  if v <=? NGX_MAX_INT_T_VALUE then Some v else None.

Definition decimal (l : list Z) : option Z :=
  if negb (zlen l =? 0) && forallb is_digit l then representable (dec l) else None.

(** [None] is returned as [NGX_ERROR]. *)
Definition or_error (o : option Z) : Z := default NGX_ERROR o.

(** A decimal number, with a unit behind it or not. *)
Definition scaled (units : Z -> option Z) (l : list Z) : option Z :=
  match rev l with
  | [] => None
  | u :: digits =>
      match units u with
      | Some scale => d ← decimal (rev digits); representable (d * scale)
      | None => decimal l
      end
  end.

Definition size_units (u : Z) : option Z :=
  if (u =? "K"%chr) || (u =? "k"%chr) then Some 1024
  else if (u =? "M"%chr) || (u =? "m"%chr) then Some 1048576
  else None.

Definition offset_units (u : Z) : option Z :=
  if (u =? "G"%chr) || (u =? "g"%chr) then Some 1073741824 else size_units u.

Definition hex_digit (c : Z) : option Z :=
  if between "0"%chr "9"%chr c then Some (c - "0"%chr)
  else if between "a"%chr "f"%chr c then Some (c - "a"%chr + 10)
  else if between "A"%chr "F"%chr c then Some (c - "A"%chr + 10)
  else None.

Fixpoint hex_from (v : Z) (l : list Z) : option Z :=
  match l with
  | [] => Some v
  | c :: l => d ← hex_digit c; hex_from (v * 16 + d) l
  end.

Definition hexadecimal (l : list Z) : option Z :=
  if zlen l =? 0 then None else v ← hex_from 0 l; representable v.

(** ** Decimal numbers *)

Lemma is_digit_spec c : is_digit c = true <-> 48 <= c <= 57.
Proof. unfold is_digit, between. lia. Qed.

Lemma not_digit c : (c <? "0"%chr) || ("9"%chr <? c) = negb (is_digit c).
Proof. unfold is_digit, between. lia. Qed.

Lemma dec_from_le v l : 0 <= v -> forallb is_digit l = true -> v <= dec_from v l.
Proof.
  revert v. induction l as [|c l IH]; intros v Hv Hl; [simpl; lia|].
  simpl in Hl. apply andb_true_iff in Hl as [Hc Hl]. apply is_digit_spec in Hc.
  change (dec_from v (c :: l)) with (dec_from (v * 10 + (c - 48)) l).
  specialize (IH (v * 10 + (c - 48)) ltac:(lia) Hl). lia.
Qed.

Lemma dec_from_app v l1 l2 : dec_from v (l1 ++ l2) = dec_from (dec_from v l1) l2.
Proof. apply fold_left_app. Qed.

Lemma atoi_loop_spec line v :
  0 <= v <= NGX_MAX_INT_T_VALUE ->
  atoi_loop (NGX_MAX_INT_T_VALUE / 10) (NGX_MAX_INT_T_VALUE mod 10) line v
  = Ok (if forallb is_digit line && (dec_from v line <=? NGX_MAX_INT_T_VALUE)
        then dec_from v line else NGX_ERROR).
Proof.
  change (NGX_MAX_INT_T_VALUE / 10) with 922337203685477580.
  change (NGX_MAX_INT_T_VALUE mod 10) with 7. unfold NGX_MAX_INT_T_VALUE.
  revert v. induction line as [|c line IH]; intros v Hv; cbn [atoi_loop forallb].
  { cbn. destruct (Z.leb_spec v 9223372036854775807); [done|lia]. }
  rewrite not_digit. destruct (is_digit c) eqn:Hc; cbn [negb andb]; [|done].
  apply is_digit_spec in Hc.
  change (dec_from v (c :: line)) with (dec_from (v * 10 + (c - 48)) line).
  destruct ((922337203685477580 <=? v) && ((922337203685477580 <? v) || (7 <? c - 48)))
    eqn:Hcut.
  - destruct (forallb is_digit line) eqn:Hl; [|done].
    pose proof (dec_from_le (v * 10 + (c - 48)) line ltac:(lia) Hl).
    destruct (Z.leb_spec (dec_from (v * 10 + (c - 48)) line) 9223372036854775807);
      [lia|done].
  - rewrite int64_ok, Ok_bind, int64_ok, Ok_bind by lia. apply IH. lia.
Qed.

(** ** Sizes and offsets *)

Lemma decimal_nonneg l d : decimal l = Some d -> 0 <= d <= NGX_MAX_INT_T_VALUE.
Proof.
  unfold decimal, representable. case_match eqn:E; [|done]. case_match; [|done].
  intros [= <-]. apply andb_true_iff in E as [_ E].
  pose proof (dec_from_le 0 l ltac:(lia) E). unfold dec in *. lia.
Qed.

Lemma ngx_atosz_decimal l : ngx_atosz l = Ok (or_error (decimal l)).
Proof.
  unfold ngx_atosz, decimal, representable. destruct (zlen l =? 0); [done|].
  change (NGX_MAX_SIZE_T_VALUE) with NGX_MAX_INT_T_VALUE.
  rewrite atoi_loop_spec by (unfold NGX_MAX_INT_T_VALUE; lia). cbn [negb andb].
  fold (dec l). destruct (forallb is_digit l); [|done].
  cbn [andb]. by destruct (dec l <=? NGX_MAX_INT_T_VALUE).
Qed.

Lemma ngx_atoi_decimal l : ngx_atoi l = Ok (or_error (decimal l)).
Proof. exact (ngx_atosz_decimal l). Qed.

(** The check against [max] is exact. *)
Lemma scale_checked_spec o scale :
  0 < scale -> (forall d, o = Some d -> 0 <= d) ->
  scale_checked (or_error o) (NGX_MAX_INT_T_VALUE / scale) scale
  = Ok (or_error (d ← o; representable (d * scale))).
Proof.
  unfold scale_checked, representable. intros Hs Hd.
  destruct o as [d|]; cbn [or_error default from_option mbind option_bind]; [|done].
  specialize (Hd d eq_refl). unfold id.
  destruct (Z.eqb_spec d NGX_ERROR); [unfold NGX_ERROR in *; lia|]. cbn [orb].
  unfold NGX_MAX_INT_T_VALUE in *.
  destruct (Z.ltb_spec (9223372036854775807 / scale) d),
    (Z.leb_spec (d * scale) 9223372036854775807); cbn; try done.
  - Z.to_euclidean_division_equations; nia.
  - apply int64_ok. nia.
  - Z.to_euclidean_division_equations; nia.
Qed.

(** A line is its digits and its last byte. *)
Lemma get_last l u : get (l ++ [u]) (zlen (l ++ [u]) - 1) = Ok u.
Proof.
  rewrite zlen_app, zlen_cons, zlen_nil. replace (zlen l + (1 + 0) - 1) with (zlen l + 0) by lia.
  by rewrite get_app_r.
Qed.

Lemma slice_digits l u : slice (l ++ [u]) 0 (zlen (l ++ [u]) - 1) = Ok l.
Proof.
  apply (slice_app [] l [u]); [done|]. rewrite zlen_app, zlen_cons, zlen_nil. lia.
Qed.

Lemma slice_whole (l : list Z) : slice l 0 (zlen l) = Ok l.
Proof. rewrite <- (app_nil_r l) at 1. by apply (slice_app [] l []). Qed.

Lemma scaled_snoc units l u :
  scaled units (l ++ [u])
  = match units u with
    | Some scale => d ← decimal l; representable (d * scale)
    | None => decimal (l ++ [u])
    end.
Proof. unfold scaled. rewrite rev_app_distr. cbn. by rewrite rev_involutive. Qed.

(** The common end of the two parsers. *)
Lemma parse_scaled l scale :
  0 < scale ->
  (size ← ngx_atosz l; scale_checked size (NGX_MAX_INT_T_VALUE / scale) scale)
  = Ok (or_error (d ← decimal l; representable (d * scale))).
Proof.
  intros. rewrite ngx_atosz_decimal, Ok_bind. apply scale_checked_spec; [done|].
  intros d Hd. apply decimal_nonneg in Hd. lia.
Qed.

Lemma scaled_by_1 l :
  (size ← ngx_atosz l; scale_checked size NGX_MAX_INT_T_VALUE 1)
  = Ok (or_error (decimal l)).
Proof.
  pose proof (parse_scaled l 1 ltac:(lia)) as H. rewrite Z.div_1_r in H. rewrite H. clear H.
  destruct (decimal l) as [d|] eqn:E; [|done]. apply decimal_nonneg in E.
  cbn. rewrite Z.mul_1_r. unfold representable.
  destruct (Z.leb_spec d NGX_MAX_INT_T_VALUE); [done|lia].
Qed.

(** [ngx_parse_size] and [ngx_parse_offset] return exactly the number of
    bytes a decimal number with a unit (k, m, and g for an offset, in either
    case) stands for, and [NGX_ERROR] when that is not a number or exceeds
    2^63 - 1; the product never overflows. *)
Theorem parse_size_offset_exact line :
  ngx_parse_size line = Ok (or_error (scaled size_units line)) /\
  ngx_parse_offset line = Ok (or_error (scaled offset_units line)).
Proof.
  destruct line as [|u l _] using rev_ind; [done|].
  rewrite !scaled_snoc. unfold ngx_parse_size, ngx_parse_offset.
  assert ((zlen (l ++ [u]) =? 0) = false) as ->.
  { rewrite zlen_app, zlen_cons, zlen_nil. pose proof (zlen_nonneg l). lia. }
  rewrite !get_last, !Ok_bind. unfold offset_units, size_units.
  change (ngx_atoof) with ngx_atosz.
  change NGX_MAX_SIZE_T_VALUE with NGX_MAX_INT_T_VALUE.
  change NGX_MAX_OFF_T_VALUE with NGX_MAX_INT_T_VALUE.
  change (1024 * 1024 * 1024) with 1073741824. change (1024 * 1024) with 1048576.
  destruct ((u =? "K"%chr) || (u =? "k"%chr)) eqn:EK.
  { assert ((u =? "G"%chr) || (u =? "g"%chr) = false) as -> by lia.
    rewrite slice_digits, Ok_bind. split; by apply parse_scaled. }
  destruct ((u =? "M"%chr) || (u =? "m"%chr)) eqn:EM.
  { assert ((u =? "G"%chr) || (u =? "g"%chr) = false) as -> by lia.
    rewrite slice_digits, Ok_bind. split; by apply parse_scaled. }
  rewrite slice_whole, Ok_bind. split; [by apply scaled_by_1|].
  destruct ((u =? "G"%chr) || (u =? "g"%chr)).
  - rewrite slice_digits, Ok_bind. by apply parse_scaled.
  - rewrite slice_whole, Ok_bind. by apply scaled_by_1.
Qed.

(** ** Hexadecimal numbers *)

Lemma hex_from_le v l w : 0 <= v -> hex_from v l = Some w -> v <= w.
Proof.
  revert v. induction l as [|c l IH]; intros v Hv; cbn; [intros; simplify_eq; lia|].
  unfold hex_digit, between. intros H.
  repeat case_match; simplify_eq/=; try done; apply IH in H; lia.
Qed.

(** [c | 0x20] folds the case of a letter, and of nothing that matters. *)
Lemma hex_digit_fold c :
  is_byte c -> is_digit c = false ->
  hex_digit c
  = if ("a"%chr <=? u8 (Z.lor c 0x20)) && (u8 (Z.lor c 0x20) <=? "f"%chr)
    then Some (u8 (Z.lor c 0x20) - "a"%chr + 10) else None.
Proof.
  intros Hc Hd.
  assert (forallb (fun c => is_digit c || bool_decide (hex_digit c
    = if ("a"%chr <=? u8 (Z.lor c 0x20)) && (u8 (Z.lor c 0x20) <=? "f"%chr)
      then Some (u8 (Z.lor c 0x20) - "a"%chr + 10) else None))
    (map Z.of_nat (seq 0 256)) = true) as H by (vm_compute; reflexivity).
  rewrite forallb_forall in H. specialize (H c).
  rewrite Hd in H. cbn [orb] in H. apply bool_decide_eq_true in H; [done|].
  apply in_map_iff. exists (Z.to_nat c). split; [lia|]. apply in_seq. lia.
Qed.

Lemma hextoi_loop_spec line v :
  bytes line -> 0 <= v <= NGX_MAX_INT_T_VALUE ->
  hextoi_loop (NGX_MAX_INT_T_VALUE / 16) line v
  = Ok (or_error (w ← hex_from v line; representable w)).
Proof.
  change (NGX_MAX_INT_T_VALUE / 16) with 576460752303423487.
  intros Hb. revert v. induction Hb as [|c line Hc Hb IH]; intros v Hv; cbn [hextoi_loop].
  { cbn. unfold representable. destruct (Z.leb_spec v NGX_MAX_INT_T_VALUE); [done|lia]. }
  unfold NGX_MAX_INT_T_VALUE in *.
  destruct (Z.ltb_spec 576460752303423487 v).
  { destruct (hex_from v (c :: line)) as [w|] eqn:E; [|done].
    cbn in E. destruct (hex_digit c) as [d|] eqn:Ed; [|done]. cbn in E.
    assert (0 <= d) by (unfold hex_digit, between in Ed; repeat case_match; simplify_eq; lia).
    apply hex_from_le in E; [|lia]. cbn. unfold representable, NGX_MAX_INT_T_VALUE.
    destruct (Z.leb_spec w 9223372036854775807); [lia|done]. }
  cbn [hex_from]. destruct (is_digit c) eqn:Hd.
  - unfold is_digit, between in Hd. rewrite Hd. unfold hex_digit, between.
    rewrite Hd. rewrite int64_ok, Ok_bind by lia. apply IH. lia.
  - rewrite (hex_digit_fold c Hc Hd). unfold is_digit, between in Hd. rewrite Hd.
    case_match eqn:Ef; [|done]. rewrite int64_ok, Ok_bind by lia. apply IH. lia.
Qed.

(** C11: [ngx_atoi], [ngx_atosz], [ngx_atoof] and [ngx_atotm] return the number
    a non-empty string of digits stands for if it is at most 2^63 - 1, and
    [NGX_ERROR] in every other case, and so does [ngx_hextoi] for hexadecimal
    digits; their arithmetic never overflows. *)
Theorem atoi_exact line :
  bytes line ->
  ngx_atoi line = Ok (or_error (decimal line)) /\
  ngx_atosz line = Ok (or_error (decimal line)) /\
  ngx_atoof line = Ok (or_error (decimal line)) /\
  ngx_atotm line = Ok (or_error (decimal line)) /\
  ngx_hextoi line = Ok (or_error (hexadecimal line)).
Proof.
  intros Hb. pose proof (ngx_atoi_decimal line) as H. do 4 (split; [exact H|]).
  unfold ngx_hextoi, hexadecimal. destruct (zlen line =? 0); [done|]. by apply hextoi_loop_spec.
Qed.

Lemma atoi_exact_witness :
  ngx_atoi (str "9223372036854775808") = Ok NGX_ERROR /\ ngx_hextoi (str "7fFF") = Ok 32767.
Proof.
  split.
  - rewrite (proj1 (atoi_exact (str "9223372036854775808") ltac:(vm_compute; repeat constructor; intros [=]))).
    reflexivity.
  - destruct (atoi_exact (str "7fFF")) as (_ & _ & _ & _ & ->); [|reflexivity].
    vm_compute. repeat constructor; intros [=].
Defined.
