(* ===== verification/TimeSpec.v ===== *)
(** * Fixed point numbers and time intervals

    Exact results of [ngx_atofp] of [src/core/ngx_string.c], and what
    [ngx_parse_time] of [src/core/ngx_parse.c] returns on every line and on
    every well-formed interval. *)

From S2P Require Import Prelude Numeric NumericSpec.

(** ** Fixed point numbers *)

(** The bytes before the first dot, and those behind it if there is one. *)
Fixpoint split_dot (l : list Z) : list Z * option (list Z) :=
  match l with
  | [] => ([], None)
  | c :: l' =>
      if c =? "."%chr then ([], Some l')
      else let '(int, frac) := split_dot l' in (c :: int, frac)
  end.

Definition fixed_point (l : list Z) (point : Z) : option Z :=
  if (zlen l =? 0) || (point =? 0) then None
  else
    let '(int, frac) := split_dot l in
    let f := default [] frac in
    if forallb is_digit (int ++ f) && (zlen f <=? point)
    then representable (dec (int ++ f) * 10 ^ (point - zlen f)) else None.

Definition MAX_CUTOFF : Z := 922337203685477580.

Lemma cut_spec v c :
  is_digit c = true -> 0 <= v ->
  (MAX_CUTOFF <=? v) && ((MAX_CUTOFF <? v) || (7 <? c - "0"%chr))
  = negb (v * 10 + (c - "0"%chr) <=? NGX_MAX_INT_T_VALUE).
Proof.
  intros Hc Hv. apply is_digit_spec in Hc. unfold MAX_CUTOFF, NGX_MAX_INT_T_VALUE. lia.
Qed.

Lemma dec_from_cons v c l : dec_from v (c :: l) = dec_from (v * 10 + (c - 48)) l.
Proof. reflexivity. Qed.

(** Digits behind the dot. *)
Lemma atofp_loop_frac l v point :
  0 <= v <= NGX_MAX_INT_T_VALUE -> 0 <= point ->
  atofp_loop MAX_CUTOFF 7 l v point 1
  = Ok (if forallb is_digit l && (zlen l <=? point) && (dec_from v l <=? NGX_MAX_INT_T_VALUE)
        then Some (dec_from v l, point - zlen l) else None).
Proof.
  revert v point. induction l as [|c l IH]; intros v point Hv Hp; cbn [atofp_loop].
  { cbn. destruct (Z.leb_spec (zlen (@nil Z)) point); [|unfold zlen in *; simpl in *; lia].
    destruct (Z.leb_spec v NGX_MAX_INT_T_VALUE); [|lia]. unfold zlen. simpl.
    by rewrite Z.sub_0_r. }
  rewrite zlen_cons, dec_from_cons. pose proof (zlen_nonneg l).
  destruct (Z.eqb_spec point 0).
  { destruct (Z.leb_spec (1 + zlen l) point); [lia|]. by rewrite andb_false_r. }
  cbn [forallb]. destruct (Z.eqb_spec c "."%chr) as [->|]; [done|].
  rewrite not_digit. destruct (is_digit c) eqn:Hc; cbn [negb andb]; [|done].
  rewrite cut_spec by (done || lia).
  destruct (Z.leb_spec (v * 10 + (c - 48)) NGX_MAX_INT_T_VALUE); cbn [negb].
  - apply is_digit_spec in Hc. unfold NGX_MAX_INT_T_VALUE in *.
    rewrite int64_ok, Ok_bind, int64_ok, Ok_bind, IH by (unfold NGX_MAX_INT_T_VALUE; lia).
    unfold NGX_MAX_INT_T_VALUE. replace (zlen l <=? point - 1) with (1 + zlen l <=? point) by lia.
    by replace (point - 1 - zlen l) with (point - (1 + zlen l)) by lia.
  - destruct (forallb is_digit l) eqn:Hl; [|done].
    apply is_digit_spec in Hc.
    pose proof (dec_from_le (v * 10 + (c - 48)) l ltac:(lia) Hl).
    destruct (Z.leb_spec (dec_from (v * 10 + (c - 48)) l) NGX_MAX_INT_T_VALUE); [lia|].
    by rewrite andb_false_r.
Qed.

(** Digits before the dot. *)
Lemma atofp_loop_int l v point :
  0 <= v <= NGX_MAX_INT_T_VALUE -> 0 < point ->
  atofp_loop MAX_CUTOFF 7 l v point 0
  = Ok (let '(int, frac) := split_dot l in
        let f := default [] frac in
        if forallb is_digit (int ++ f) && (zlen f <=? point)
           && (dec_from v (int ++ f) <=? NGX_MAX_INT_T_VALUE)
        then Some (dec_from v (int ++ f), point - zlen f) else None).
Proof.
  intros Hv Hp. revert v Hv. induction l as [|c l IH]; intros v Hv; cbn [atofp_loop split_dot].
  { cbn. destruct (Z.leb_spec (zlen (@nil Z)) point); [|unfold zlen in *; simpl in *; lia].
    destruct (Z.leb_spec v NGX_MAX_INT_T_VALUE); [|lia]. unfold zlen. simpl.
    by rewrite Z.sub_0_r. }
  destruct (Z.eqb_spec point 0); [lia|].
  destruct (Z.eqb_spec c "."%chr) as [->|]; cbn [negb Z.eqb].
  { rewrite atofp_loop_frac by lia. done. }
  rewrite not_digit. destruct (split_dot l) as [int frac].
  cbn [app forallb]. destruct (is_digit c) eqn:Hc; cbn [negb andb]; [|done].
  rewrite cut_spec, dec_from_cons by (done || lia).
  destruct (Z.leb_spec (v * 10 + (c - 48)) NGX_MAX_INT_T_VALUE); cbn [negb].
  - apply is_digit_spec in Hc. unfold NGX_MAX_INT_T_VALUE in *.
    rewrite int64_ok, Ok_bind, int64_ok, Ok_bind, Z.sub_0_r by lia. apply IH. lia.
  - destruct (forallb is_digit (int ++ default [] frac)) eqn:Hl; [|done].
    apply is_digit_spec in Hc.
    pose proof (dec_from_le (v * 10 + (c - 48)) _ ltac:(lia) Hl).
    destruct (Z.leb_spec (dec_from (v * 10 + (c - 48)) (int ++ default [] frac))
      NGX_MAX_INT_T_VALUE); [lia|]. by rewrite andb_false_r.
Qed.

Lemma atofp_scale_spec n v :
  0 <= v <= NGX_MAX_INT_T_VALUE ->
  atofp_scale MAX_CUTOFF n v = Ok (or_error (representable (v * 10 ^ Z.of_nat n))).
Proof.
  unfold representable. revert v. induction n as [|n IH]; intros v Hv; cbn [atofp_scale].
  { rewrite Z.mul_1_r. destruct (Z.leb_spec v NGX_MAX_INT_T_VALUE); [done|lia]. }
  rewrite Nat2Z.inj_succ, Z.pow_succ_r, Z.mul_assoc by lia.
  pose proof (Z.pow_pos_nonneg 10 (Z.of_nat n) ltac:(lia) ltac:(lia)).
  unfold MAX_CUTOFF, NGX_MAX_INT_T_VALUE in *.
  destruct (Z.ltb_spec 922337203685477580 v).
  - destruct (Z.leb_spec (v * 10 * 10 ^ Z.of_nat n) 9223372036854775807); [nia|done].
  - rewrite int64_ok, Ok_bind by lia. apply IH. lia.
Qed.

(** [ngx_atofp] returns exactly the decimal number with at most one dot
    and at most [point] digits behind it, times 10^point, and [NGX_ERROR] when
    the text is not such a number or exceeds 2^63 - 1; the arithmetic never
    overflows. *)
Theorem atofp_exact line point :
  0 <= point -> ngx_atofp line point = Ok (or_error (fixed_point line point)).
Proof.
  intros Hp. unfold ngx_atofp, fixed_point. cbv zeta.
  change (NGX_MAX_INT_T_VALUE / 10) with MAX_CUTOFF.
  change (NGX_MAX_INT_T_VALUE mod 10) with 7.
  destruct (Z.eqb_spec (zlen line) 0) as [|Hl]; cbn [orb]; [done|].
  destruct (Z.eqb_spec point 0) as [->|].
  { destruct line; [done|]. done. }
  rewrite atofp_loop_int by (unfold NGX_MAX_INT_T_VALUE; lia). rewrite Ok_bind.
  destruct (split_dot line) as [int frac]. cbv zeta. set (f := default [] frac).
  fold (dec (int ++ f)).
  destruct (forallb is_digit (int ++ f)) eqn:Hd; cbn [andb]; [|done].
  destruct (Z.leb_spec (zlen f) point); cbn [andb]; [|done].
  pose proof (dec_from_le 0 _ ltac:(lia) Hd) as Hnn. fold (dec (int ++ f)) in Hnn.
  destruct (Z.leb_spec (dec (int ++ f)) NGX_MAX_INT_T_VALUE).
  - rewrite atofp_scale_spec by lia. by rewrite Z2Nat.id by lia.
  - unfold representable.
    pose proof (Z.pow_pos_nonneg 10 (point - zlen f) ltac:(lia) ltac:(lia)).
    destruct (Z.leb_spec (dec (int ++ f) * 10 ^ (point - zlen f)) NGX_MAX_INT_T_VALUE);
      [nia|done].
Qed.

Lemma atofp_exact_witness : ngx_atofp (str "10.5") 2 = Ok 1050.
Proof. rewrite (atofp_exact (str "10.5") 2); [reflexivity|lia]. Defined.

(** ** Time intervals *)

Inductive tunit := Uyear | Umonth | Uweek | Uday | Uhour | Umin | Usec | Umsec.

Definition unit_step (u : tunit) : Z :=
  match u with
  | Uyear => 1 | Umonth => 2 | Uweek => 3 | Uday => 4
  | Uhour => 5 | Umin => 6 | Usec => 7 | Umsec => 8
  end.

Definition unit_text (u : tunit) : list Z :=
  match u with
  | Uyear => str "y" | Umonth => str "M" | Uweek => str "w" | Uday => str "d"
  | Uhour => str "h" | Umin => str "m" | Usec => str "s" | Umsec => str "ms"
  end.

Definition unit_seconds (u : tunit) : Z :=
  match u with
  | Uyear => 31536000 | Umonth => 2592000 | Uweek => 604800 | Uday => 86400
  | Uhour => 3600 | Umin => 60 | Usec | Umsec => 1
  end.

(** In seconds, or in milliseconds. *)
Definition unit_scale (is_sec : bool) (u : tunit) : Z :=
  match u with
  | Umsec => 1
  | _ => if is_sec then unit_seconds u else unit_seconds u * 1000
  end.

(** A part of an interval: digits, a unit, spaces. *)
Record part := Part { p_digits : list Z; p_unit : tunit; p_spaces : nat }.

Definition part_text (x : part) : list Z :=
  x.(p_digits) ++ unit_text x.(p_unit) ++ replicate x.(p_spaces) 32.

Definition interval_text (xs : list part) (tail : list Z) : list Z :=
  concat (map part_text xs) ++ tail.

Definition interval_value (is_sec : bool) (xs : list part) (tail : list Z) : Z :=
  foldr (fun x v => dec x.(p_digits) * unit_scale is_sec x.(p_unit) + v)
    (dec tail * (if is_sec then 1 else 1000)) xs.

(** Units in decreasing order from [step] on, each behind digits; milliseconds
    only with millisecond precision. *)
Fixpoint interval_ok (is_sec : bool) (step : Z) (xs : list part) : Prop :=
  match xs with
  | [] => True
  | x :: xs =>
      x.(p_digits) <> [] /\ forallb is_digit x.(p_digits) = true /\
      step < unit_step x.(p_unit) /\ (is_sec = true -> x.(p_unit) <> Umsec) /\
      interval_ok is_sec (unit_step x.(p_unit)) xs
  end.

Section time.
Context (is_sec : bool).

(** Digits are accumulated one by one. *)
Lemma time_loop_digits l p v t valid step fuel :
  forallb is_digit l = true -> 0 <= v <= NGX_MAX_INT_T_VALUE ->
  time_loop (length l + fuel) is_sec (TimeState v t valid step) (l ++ p)
  = if dec_from v l <=? NGX_MAX_INT_T_VALUE
    then time_loop fuel is_sec
           (TimeState (dec_from v l) t (valid || negb (zlen l =? 0)) step) p
    else Ok None.
Proof.
  revert v valid. induction l as [|c l IH]; intros v valid Hl Hv.
  { cbn. rewrite orb_false_r. destruct (Z.leb_spec v NGX_MAX_INT_T_VALUE); [done|lia]. }
  cbn in Hl. apply andb_true_iff in Hl as [Hc Hl].
  cbn [app length Nat.add time_loop]. unfold time_step. cbn [pt_value pt_total pt_step].
  assert (("0"%chr <=? c) && (c <=? "9"%chr) = true) as -> by done.
  change (NGX_MAX_INT_T_VALUE / 10) with MAX_CUTOFF.
  change (NGX_MAX_INT_T_VALUE mod 10) with 7. cbv zeta.
  rewrite cut_spec, dec_from_cons by (done || lia).
  apply is_digit_spec in Hc. pose proof (zlen_nonneg l).
  destruct (Z.leb_spec (v * 10 + (c - 48)) NGX_MAX_INT_T_VALUE); cbn [negb].
  - rewrite int64_ok, Ok_bind by (unfold NGX_MAX_INT_T_VALUE in *; lia).
    rewrite int64_ok, !Ok_bind by (unfold NGX_MAX_INT_T_VALUE in *; lia).
    rewrite IH by (done || lia). cbn [orb].
    rewrite zlen_cons. destruct (Z.eqb_spec (1 + zlen l) 0); [lia|].
    cbn [negb]. by rewrite orb_true_r.
  - pose proof (dec_from_le (v * 10 + (c - 48)) l ltac:(lia) Hl).
    destruct (Z.leb_spec (dec_from (v * 10 + (c - 48)) l) NGX_MAX_INT_T_VALUE); [lia|done].
Qed.

Lemma skip_spaces_app n p :
  (forall c p', p = c :: p' -> c <> 32) -> skip_spaces (replicate n 32 ++ p) = p.
Proof.
  intros Hp. induction n as [|n IH]; [|done]. destruct p as [|c p]; [done|].
  cbn. destruct (Z.eqb_spec c 32); [|done]. by destruct (Hp c p).
Qed.

Definition limit (u : tunit) : Z := NGX_MAX_INT_T_VALUE / unit_seconds u.

(** The unit is recognised when its step is allowed. *)
Lemma time_unit_spec u step p :
  step < unit_step u -> (is_sec = true -> u <> Umsec) ->
  (forall p', p <> "s"%chr :: p') ->
  exists c q, unit_text u ++ p = c :: q /\ is_digit c = false /\
    time_unit is_sec step c q = Some (unit_step u, limit u, unit_seconds u, p).
Proof.
  intros Hs Hms Hp. destruct u; cbn [unit_text unit_step] in *;
    unfold str; cbn; (do 2 eexists; split; [reflexivity|split; [reflexivity|]]);
    unfold time_unit, st_start, st_month, st_week, st_day, st_hour, st_min, st_sec, st_msec;
    cbn [Z.eqb Pos.eqb].
  - destruct (Z.ltb_spec 0 step); [lia|done].
  - destruct (Z.leb_spec 2 step); [lia|done].
  - destruct (Z.leb_spec 3 step); [lia|done].
  - destruct (Z.leb_spec 4 step); [lia|done].
  - destruct (Z.leb_spec 5 step); [lia|done].
  - destruct (Z.leb_spec 6 step); [lia|]. destruct p as [|s p]; [done|].
    destruct (Z.eqb_spec s 115) as [->|]; [by destruct (Hp p)|done].
  - destruct (Z.leb_spec 7 step); [lia|done].
  - destruct (Z.leb_spec 8 step); [lia|]. destruct is_sec; [by destruct Hms|done].
Qed.

(** The limit against which the code checks is exact. *)
Lemma unit_limit u v :
  (is_sec = true -> u <> Umsec) -> 0 <= v ->
  exists scale max,
    (if negb (unit_step u =? st_msec) && negb is_sec
     then scale ← int64 (unit_seconds u * 1000); Ok (scale, limit u / 1000)
     else Ok (unit_seconds u, limit u)) = Ok (scale, max) /\
    scale = unit_scale is_sec u /\ 1 <= scale /\
    (max <? v) = negb (v * unit_scale is_sec u <=? NGX_MAX_INT_T_VALUE).
Proof.
  intros Hms Hv.
  assert (forall s, 1 <= s ->
    (NGX_MAX_INT_T_VALUE / s <? v) = negb (v * s <=? NGX_MAX_INT_T_VALUE)) as Hlim.
  { intros s Hs. unfold NGX_MAX_INT_T_VALUE.
    destruct (Z.ltb_spec (9223372036854775807 / s) v),
      (Z.leb_spec (v * s) 9223372036854775807); try done;
      Z.to_euclidean_division_equations; nia. }
  unfold limit. destruct u, is_sec; cbn -[Z.div NGX_MAX_INT_T_VALUE];
    try (by destruct Hms); (do 2 eexists; split; [reflexivity|]);
    (split; [reflexivity|]); (split; [lia|]);
    rewrite ?Z.div_div by lia; apply Hlim; lia.
Qed.

Lemma time_loop_part x p t valid step fuel :
  x.(p_digits) <> [] -> forallb is_digit x.(p_digits) = true ->
  step < unit_step x.(p_unit) -> (is_sec = true -> x.(p_unit) <> Umsec) ->
  (forall c p', p = c :: p' -> is_digit c = true) ->
  0 <= t <= NGX_MAX_INT_T_VALUE -> (length (part_text x ++ p) <= fuel)%nat ->
  exists fuel', (length p <= fuel')%nat /\
  time_loop fuel is_sec (TimeState 0 t valid step) (part_text x ++ p)
  = let v := dec x.(p_digits) * unit_scale is_sec x.(p_unit) in
    if t + v <=? NGX_MAX_INT_T_VALUE
    then time_loop fuel' is_sec (TimeState 0 (t + v) true (unit_step x.(p_unit))) p
    else Ok None.
Proof.
  intros Hne Hd Hs Hms Hp Ht Hfuel.
  destruct x as [d u n]. cbn [p_digits p_unit p_spaces] in *. unfold part_text in *.
  cbn [p_digits p_unit p_spaces] in *. rewrite <- !app_assoc in *.
  assert (forall p', replicate n 32 ++ p <> "s"%chr :: p') as Hns.
  { intros p' E. destruct n; [|discriminate E]. cbn in E.
    specialize (Hp _ _ E). discriminate Hp. }
  destruct (time_unit_spec u step _ Hs Hms Hns) as (c & q & Eq & Hc & Hu).
  rewrite Eq in *. rewrite !length_app in Hfuel. cbn [length] in Hfuel.
  assert (length p <= length q)%nat as Hpq.
  { apply (f_equal length) in Eq. rewrite !length_app in Eq. cbn [length] in Eq.
    assert (1 <= length (unit_text u))%nat by (destruct u; cbn; lia). lia. }
  replace fuel with (length d + (1 + (fuel - length d - 1)))%nat by lia.
  rewrite time_loop_digits by (done || unfold NGX_MAX_INT_T_VALUE; lia).
  pose proof (dec_from_le 0 d ltac:(lia) Hd) as Hnn. fold (dec d) in *.
  destruct (unit_limit u (dec d) Hms Hnn) as (scale & max & Elim & -> & Hscale & Hmax).
  exists (fuel - length d - 1)%nat. split; [lia|]. cbv zeta.
  destruct (Z.leb_spec (dec d) NGX_MAX_INT_T_VALUE) as [Hle|Hgt].
  2: { destruct (Z.leb_spec (t + dec d * unit_scale is_sec u) NGX_MAX_INT_T_VALUE);
         [nia|done]. }
  cbn [Nat.add time_loop]. unfold time_step. cbn [pt_value pt_total pt_step pt_valid].
  assert (("0"%chr <=? c) && (c <=? "9"%chr) = false) as -> by done.
  rewrite Hu, Elim, !Ok_bind, Hmax.
  destruct (Z.leb_spec (dec d * unit_scale is_sec u) NGX_MAX_INT_T_VALUE) as [Hv|Hv];
    cbn [negb].
  2: { destruct (Z.leb_spec (t + dec d * unit_scale is_sec u) NGX_MAX_INT_T_VALUE);
         [lia|done]. }
  assert (0 <= dec d * unit_scale is_sec u) by nia.
  unfold NGX_MAX_INT_T_VALUE in *.
  rewrite (int64_ok (dec d * _)), Ok_bind by lia.
  rewrite (int64_ok (_ - _)), Ok_bind by lia.
  destruct (Z.ltb_spec (9223372036854775807 - dec d * unit_scale is_sec u) t),
    (Z.leb_spec (t + dec d * unit_scale is_sec u) 9223372036854775807); try lia; [done|].
  rewrite int64_ok, !Ok_bind by lia.
  rewrite skip_spaces_app.
  - assert (negb (zlen d =? 0) = true) as ->; [|by rewrite orb_true_r].
    destruct d; [done|]. rewrite zlen_cons. pose proof (zlen_nonneg d).
    destruct (Z.eqb_spec (1 + zlen d) 0); [lia|done].
  - intros c' p' -> ->. by specialize (Hp _ _ eq_refl).
Qed.

Lemma interval_text_head xs tail step :
  interval_ok is_sec step xs -> forallb is_digit tail = true ->
  forall c p', interval_text xs tail = c :: p' -> is_digit c = true.
Proof.
  intros Hxs Htail c p' E. destruct xs as [|x xs].
  - change (interval_text [] tail) with tail in E. rewrite E in Htail.
    cbn in Htail. by apply andb_true_iff in Htail as [? _].
  - destruct Hxs as (Hne & Hd & _). unfold interval_text, part_text in E. cbn in E.
    destruct (p_digits x) as [|d ds]; [done|]. cbn in E, Hd.
    apply andb_true_iff in Hd as [Hd _]. congruence.
Qed.

Lemma interval_value_ge xs tail step :
  interval_ok is_sec step xs -> forallb is_digit tail = true ->
  0 <= interval_value is_sec xs tail.
Proof.
  intros Hxs Htail. revert step Hxs. induction xs as [|x xs IH]; intros step; cbn.
  - intros _. pose proof (dec_from_le 0 tail ltac:(lia) Htail). unfold dec.
    destruct is_sec; lia.
  - intros (_ & Hd & _ & _ & Hxs). specialize (IH _ Hxs).
    pose proof (dec_from_le 0 _ ltac:(lia) Hd). fold (dec (p_digits x)) in *.
    assert (1 <= unit_scale is_sec (p_unit x)) by
      (destruct (p_unit x), is_sec; cbn; lia).
    fold (interval_value is_sec xs tail). nia.
Qed.

(** All parts, then the digits behind them. *)
Lemma time_loop_interval xs tail t valid step fuel :
  interval_ok is_sec step xs -> forallb is_digit tail = true ->
  0 <= t <= NGX_MAX_INT_T_VALUE -> (length (interval_text xs tail) <= fuel)%nat ->
  let total := t + interval_value is_sec xs [] in
  time_loop fuel is_sec (TimeState 0 t valid step) (interval_text xs tail)
  = Ok (if (total <=? NGX_MAX_INT_T_VALUE) && (dec tail <=? NGX_MAX_INT_T_VALUE)
        then Some (TimeState (dec tail) total
               (valid || negb (zlen xs =? 0) || negb (zlen tail =? 0))
               (foldl (fun _ x => unit_step x.(p_unit)) step xs))
        else None).
Proof.
  revert t valid step fuel.
  induction xs as [|x xs IH]; intros t valid step fuel Hxs Htail Ht Hfuel total.
  - change (interval_text [] tail) with tail in *. subst total.
    change (interval_value is_sec [] []) with 0. rewrite Z.add_0_r.
    replace fuel with (length tail + (fuel - length tail))%nat by lia.
    pose proof (time_loop_digits tail [] 0 t valid step (fuel - length tail) Htail)
      as Hdigits.
    rewrite app_nil_r in Hdigits. rewrite Hdigits by (unfold NGX_MAX_INT_T_VALUE; lia).
    fold (dec tail). destruct (Z.leb_spec t NGX_MAX_INT_T_VALUE); [|lia]. cbn [andb].
    destruct (dec tail <=? NGX_MAX_INT_T_VALUE); [|done].
    change (zlen (@nil part) =? 0) with true. cbn [negb]. rewrite orb_false_r.
    by destruct (fuel - length tail)%nat.
  - destruct Hxs as (Hne & Hd & Hs & Hms & Hxs).
    change (interval_text (x :: xs) tail)
      with ((part_text x ++ concat (map part_text xs)) ++ tail) in *.
    rewrite <- app_assoc in *. change (concat (map part_text xs) ++ tail)
      with (interval_text xs tail) in *.
    destruct (time_loop_part x (interval_text xs tail) t valid step fuel)
      as (fuel' & Hf & ->); try done.
    { by apply (interval_text_head _ _ (unit_step (p_unit x))). }
    subst total. cbv zeta.
    change (interval_value is_sec (x :: xs) [])
      with (dec (p_digits x) * unit_scale is_sec (p_unit x) + interval_value is_sec xs []).
    pose proof (interval_value_ge xs [] _ Hxs eq_refl).
    pose proof (dec_from_le 0 _ ltac:(lia) Hd) as Hnn. fold (dec (p_digits x)) in Hnn.
    assert (1 <= unit_scale is_sec (p_unit x)) by
      (destruct (p_unit x), is_sec; cbn; lia).
    set (v := dec (p_digits x) * unit_scale is_sec (p_unit x)) in *.
    assert (0 <= v) by (unfold v; nia).
    rewrite Z.add_assoc. destruct (Z.leb_spec (t + v) NGX_MAX_INT_T_VALUE).
    + rewrite IH by (done || lia). rewrite zlen_cons. pose proof (zlen_nonneg xs).
      destruct (Z.eqb_spec (1 + zlen xs) 0); [lia|]. cbn [negb orb].
      rewrite orb_true_r. done.
    + destruct (Z.leb_spec (t + v + interval_value is_sec xs []) NGX_MAX_INT_T_VALUE);
        [lia|done].
Qed.
End time.

Lemma interval_value_tail is_sec xs tail :
  interval_value is_sec xs tail
  = interval_value is_sec xs [] + dec tail * (if is_sec then 1 else 1000).
Proof.
  induction xs as [|x xs IH]; [done|].
  change (interval_value is_sec (x :: xs) ?y)
    with (dec (p_digits x) * unit_scale is_sec (p_unit x) + interval_value is_sec xs y).
  rewrite IH. lia.
Qed.

(** An interval whose units decrease, such as [1d 12h 30m], with an
    optional number of seconds without unit at its end, is parsed to its value
    in seconds, or in milliseconds when these are allowed, if that is at most
    2^63 - 1, and else to [NGX_ERROR]; nothing overflows on the way. *)
Theorem parse_time_interval is_sec xs tail :
  interval_ok is_sec (if is_sec then st_start else st_month) xs ->
  forallb is_digit tail = true -> (xs = [] -> tail <> []) ->
  ngx_parse_time (interval_text xs tail) is_sec
  = Ok (or_error (representable (interval_value is_sec xs tail))).
Proof.
  intros Hxs Htail Hne. unfold ngx_parse_time.
  rewrite time_loop_interval by (done || lia). rewrite Ok_bind, (interval_value_tail is_sec xs tail).
  set (total := interval_value is_sec xs []).
  pose proof (interval_value_ge is_sec xs [] _ Hxs eq_refl) as Ht. fold total in Ht.
  pose proof (dec_from_le 0 tail ltac:(lia) Htail) as Hd. fold (dec tail) in Hd.
  rewrite Z.add_0_l. unfold representable, NGX_MAX_INT_T_VALUE in *.
  set (k := if is_sec then 1 else 1000).
  assert (1 <= k) by (unfold k; destruct is_sec; lia).
  destruct (Z.leb_spec total 9223372036854775807); cbn [andb].
  2: { destruct (Z.leb_spec (total + dec tail * k) 9223372036854775807); [nia|done]. }
  destruct (Z.leb_spec (dec tail) 9223372036854775807).
  2: { destruct (Z.leb_spec (total + dec tail * k) 9223372036854775807); [nia|done]. }
  cbn [pt_valid pt_value pt_total orb].
  assert (negb (zlen xs =? 0) || negb (zlen tail =? 0) = true) as ->.
  { destruct xs; [destruct tail; [by destruct Hne|]|]; reflexivity. }
  cbn [negb].
  assert (forall value, value = dec tail * k -> value <= 9223372036854775807 ->
    (room ← int64 (9223372036854775807 - value);
     if room <? total then Ok NGX_ERROR else int64 (total + value))
    = Ok (or_error (if total + dec tail * k <=? 9223372036854775807
                    then Some (total + dec tail * k) else None))) as Hend.
  { intros value -> Hv. assert (0 <= dec tail * k) by nia. rewrite (int64_ok (_ - _)), Ok_bind by lia.
    destruct (Z.ltb_spec (9223372036854775807 - dec tail * k) total),
      (Z.leb_spec (total + dec tail * k) 9223372036854775807); try lia; [done|].
    by rewrite int64_ok by lia. }
  subst k. destruct is_sec; cbn [negb andb].
  - rewrite Ok_bind. apply Hend; lia.
  - change (9223372036854775807 / 1000) with 9223372036854775.
    destruct (Z.ltb_spec 9223372036854775 (dec tail)).
    + destruct (Z.leb_spec (total + dec tail * 1000) 9223372036854775807); [lia|done].
    + rewrite (int64_ok (dec tail * 1000)), Ok_bind by lia. apply Hend; lia.
Qed.

Lemma parse_time_interval_witness :
  ngx_parse_time (str "1d 12h  30m5") false = Ok 131405000.
Proof.
  refine (eq_trans (parse_time_interval false
    [Part (str "1") Uday 1; Part (str "12") Uhour 2; Part (str "30") Umin 0] (str "5")
    _ _ _) _).
  - cbn. repeat split; discriminate || reflexivity.
  - reflexivity.
  - discriminate.
  - reflexivity.
Defined.

(** ** Every line *)

Definition time_wf (st : time_state) : Prop :=
  0 <= st.(pt_value) <= NGX_MAX_INT_T_VALUE /\ 0 <= st.(pt_total) <= NGX_MAX_INT_T_VALUE.

Lemma skip_spaces_length p : (length (skip_spaces p) <= length p)%nat.
Proof. induction p as [|c p IH]; cbn; [lia|]. case_match; cbn; lia. Qed.

(** The limit of a unit keeps the product in range. *)
Lemma time_unit_bounds is_sec step c p step' max scale p' :
  time_unit is_sec step c p = Some (step', max, scale, p') ->
  1 <= scale <= 31536000 /\ max = NGX_MAX_INT_T_VALUE / scale /\
  (length p' <= length p)%nat.
Proof.
  unfold time_unit. intros H. repeat case_match; simplify_eq; cbn [length];
    split_and!; try lia; reflexivity.
Qed.

Lemma time_step_ok is_sec st c p :
  time_wf st -> exists r, time_step is_sec st c p = Ok r /\
    match r with
    | Some (st', p') => time_wf st' /\ (length p' <= length p)%nat
    | None => True
    end.
Proof.
  intros [Hv Ht]. unfold time_step. destruct ((48 <=? c) && (c <=? 57)) eqn:Hc.
  - change (NGX_MAX_INT_T_VALUE / 10) with MAX_CUTOFF.
    change (NGX_MAX_INT_T_VALUE mod 10) with 7. cbv zeta.
    rewrite cut_spec by (done || lia). apply is_digit_spec in Hc.
    destruct (Z.leb_spec (pt_value st * 10 + (c - 48)) NGX_MAX_INT_T_VALUE); cbn [negb];
      [|by eexists].
    unfold time_wf, NGX_MAX_INT_T_VALUE in *.
    rewrite int64_ok, Ok_bind, int64_ok, Ok_bind by lia.
    eexists. split; [done|]. cbn. lia.
  - destruct (time_unit is_sec (pt_step st) c p) as [[[[step max] scale] p']|] eqn:Hu;
      [|by eexists].
    apply time_unit_bounds in Hu as (Hs & -> & Hp).
    assert (forall scale', 1 <= scale' -> pt_value st <= NGX_MAX_INT_T_VALUE / scale' ->
      0 <= pt_value st * scale' <= NGX_MAX_INT_T_VALUE) as Hprod.
    { unfold NGX_MAX_INT_T_VALUE in *. intros. Z.to_euclidean_division_equations; nia. }
    assert (exists scale' , 1 <= scale' /\ (if negb (step =? st_msec) && negb is_sec
        then scale' ← int64 (scale * 1000);
             Ok (scale', NGX_MAX_INT_T_VALUE / scale / 1000)
        else Ok (scale, NGX_MAX_INT_T_VALUE / scale))
        = Ok (scale', NGX_MAX_INT_T_VALUE / scale')) as (scale' & Hs' & ->).
    { rewrite int64_ok, Ok_bind, Z.div_div by lia. case_match; eexists; (split; [|done]); lia. }
    rewrite Ok_bind.
    destruct (Z.ltb_spec (NGX_MAX_INT_T_VALUE / scale') (pt_value st)); [by eexists|].
    specialize (Hprod scale' Hs' ltac:(lia)). unfold time_wf, NGX_MAX_INT_T_VALUE in *.
    rewrite (int64_ok (_ * _)), Ok_bind by lia. rewrite (int64_ok (_ - _)), Ok_bind by lia.
    case_match; [by eexists|]. rewrite int64_ok, Ok_bind by lia.
    eexists. split; [done|]. cbn. pose proof (skip_spaces_length p'). lia.
Qed.

Lemma time_loop_ok is_sec fuel st p :
  (length p <= fuel)%nat -> time_wf st ->
  exists r, time_loop fuel is_sec st p = Ok r /\
    match r with Some st' => time_wf st' | None => True end.
Proof.
  revert st p. induction fuel as [|fuel IH]; intros st p Hf Hst.
  - destruct p; [|cbn in Hf; lia]. by eexists.
  - destruct p as [|c p]; [by eexists|]. cbn in Hf |- *.
    destruct (time_step_ok is_sec st c p Hst) as ([[st' p']|] & -> & Hr);
      rewrite Ok_bind; [|by eexists].
    destruct Hr. apply IH; [lia|done].
Qed.

(** On every line [ngx_parse_time] terminates and returns [NGX_ERROR] or a
    number from 0 to 2^63 - 1, and no signed operation overflows. *)
Theorem parse_time_total line is_sec :
  exists v, ngx_parse_time line is_sec = Ok v /\
    (v = NGX_ERROR \/ 0 <= v <= NGX_MAX_INT_T_VALUE).
Proof.
  unfold ngx_parse_time.
  destruct (time_loop_ok is_sec (length line)
    (TimeState 0 0 false (if is_sec then st_start else st_month)) line) as (r & -> & Hr).
  { lia. }
  { unfold time_wf, NGX_MAX_INT_T_VALUE. cbn. lia. }
  rewrite Ok_bind. destruct r as [st|]; [|eauto]. destruct Hr as [Hv Ht].
  case_match; [eauto|]. case_match eqn:Hmax; [eauto|].
  unfold NGX_MAX_INT_T_VALUE in *.
  assert (exists v, (if is_sec then Ok (pt_value st) else int64 (pt_value st * 1000)) = Ok v
    /\ 0 <= v <= 9223372036854775807) as (v & -> & Hv').
  { destruct is_sec; [eauto|]. cbn [negb andb] in Hmax.
    change (9223372036854775807 / 1000) with 9223372036854775 in Hmax.
    rewrite int64_ok by lia. eexists. split; [done|]. lia. }
  rewrite Ok_bind. rewrite (int64_ok (_ - _)), Ok_bind by lia.
  case_match; [eauto|]. rewrite int64_ok by lia. eexists. split; [done|]. right. lia.
Qed.
