(* ===== verification/Base64.v ===== *)
(** * Base64

    [ngx_encode_base64], [ngx_decode_base64] and their URL variants of
    [src/core/ngx_string.c]: what is encoded decodes to itself, and neither
    direction writes more than its callers allocate. *)

From S2P Require Import Prelude.

(** ** Encoding *)

Definition basis64 : list Z :=
  str "ABCDEFGHIJKLMNOPQRSTUVWXYZabcdefghijklmnopqrstuvwxyz0123456789+/".

Definition basis64url : list Z :=
  str "ABCDEFGHIJKLMNOPQRSTUVWXYZabcdefghijklmnopqrstuvwxyz0123456789-_".

(** [ngx_encode_base64_internal]: the bytes written to [dst]. *)
Fixpoint ngx_encode_base64_internal (src basis : list Z) (padding : bool) : list Z :=
  match src with
  | s0 :: s1 :: s2 :: s =>
      table_at basis (Z.land (Z.shiftr s0 2) 0x3f)
      :: table_at basis (Z.lor (Z.shiftl (Z.land s0 3) 4) (Z.shiftr s1 4))
      :: table_at basis (Z.lor (Z.shiftl (Z.land s1 0x0f) 2) (Z.shiftr s2 6))
      :: table_at basis (Z.land s2 0x3f)
      :: ngx_encode_base64_internal s basis padding
  | [s0] =>
      [table_at basis (Z.land (Z.shiftr s0 2) 0x3f);
       table_at basis (Z.shiftl (Z.land s0 3) 4)]
      ++ (if padding then ["="%chr] else []) ++ (if padding then ["="%chr] else [])
  | [s0; s1] =>
      [table_at basis (Z.land (Z.shiftr s0 2) 0x3f);
       table_at basis (Z.lor (Z.shiftl (Z.land s0 3) 4) (Z.shiftr s1 4));
       table_at basis (Z.shiftl (Z.land s1 0x0f) 2)]
      ++ (if padding then ["="%chr] else [])
  | [] => []
  end.

Definition ngx_encode_base64 (src : list Z) : list Z :=
  ngx_encode_base64_internal src basis64 true.

Definition ngx_encode_base64url (src : list Z) : list Z :=
  ngx_encode_base64_internal src basis64url false.

(** [ngx_string.h] *)
Definition ngx_base64_encoded_length (len : Z) : Z := (len + 2) / 3 * 4.
Definition ngx_base64_decoded_length (len : Z) : Z := (len + 3) / 4 * 3.

(** ** Decoding *)

Definition decode64 : list Z :=
  [77; 77; 77; 77; 77; 77; 77; 77; 77; 77; 77; 77; 77; 77; 77; 77;
   77; 77; 77; 77; 77; 77; 77; 77; 77; 77; 77; 77; 77; 77; 77; 77;
   77; 77; 77; 77; 77; 77; 77; 77; 77; 77; 77; 62; 77; 77; 77; 63;
   52; 53; 54; 55; 56; 57; 58; 59; 60; 61; 77; 77; 77; 77; 77; 77;
   77; 0; 1; 2; 3; 4; 5; 6; 7; 8; 9; 10; 11; 12; 13; 14;
   15; 16; 17; 18; 19; 20; 21; 22; 23; 24; 25; 77; 77; 77; 77; 77;
   77; 26; 27; 28; 29; 30; 31; 32; 33; 34; 35; 36; 37; 38; 39; 40;
   41; 42; 43; 44; 45; 46; 47; 48; 49; 50; 51; 77; 77; 77; 77; 77;
   77; 77; 77; 77; 77; 77; 77; 77; 77; 77; 77; 77; 77; 77; 77; 77;
   77; 77; 77; 77; 77; 77; 77; 77; 77; 77; 77; 77; 77; 77; 77; 77;
   77; 77; 77; 77; 77; 77; 77; 77; 77; 77; 77; 77; 77; 77; 77; 77;
   77; 77; 77; 77; 77; 77; 77; 77; 77; 77; 77; 77; 77; 77; 77; 77;
   77; 77; 77; 77; 77; 77; 77; 77; 77; 77; 77; 77; 77; 77; 77; 77;
   77; 77; 77; 77; 77; 77; 77; 77; 77; 77; 77; 77; 77; 77; 77; 77;
   77; 77; 77; 77; 77; 77; 77; 77; 77; 77; 77; 77; 77; 77; 77; 77;
   77; 77; 77; 77; 77; 77; 77; 77; 77; 77; 77; 77; 77; 77; 77; 77].

Definition decode64url : list Z :=
  [77; 77; 77; 77; 77; 77; 77; 77; 77; 77; 77; 77; 77; 77; 77; 77;
   77; 77; 77; 77; 77; 77; 77; 77; 77; 77; 77; 77; 77; 77; 77; 77;
   77; 77; 77; 77; 77; 77; 77; 77; 77; 77; 77; 77; 77; 62; 77; 77;
   52; 53; 54; 55; 56; 57; 58; 59; 60; 61; 77; 77; 77; 77; 77; 77;
   77; 0; 1; 2; 3; 4; 5; 6; 7; 8; 9; 10; 11; 12; 13; 14;
   15; 16; 17; 18; 19; 20; 21; 22; 23; 24; 25; 77; 77; 77; 77; 63;
   77; 26; 27; 28; 29; 30; 31; 32; 33; 34; 35; 36; 37; 38; 39; 40;
   41; 42; 43; 44; 45; 46; 47; 48; 49; 50; 51; 77; 77; 77; 77; 77;
   77; 77; 77; 77; 77; 77; 77; 77; 77; 77; 77; 77; 77; 77; 77; 77;
   77; 77; 77; 77; 77; 77; 77; 77; 77; 77; 77; 77; 77; 77; 77; 77;
   77; 77; 77; 77; 77; 77; 77; 77; 77; 77; 77; 77; 77; 77; 77; 77;
   77; 77; 77; 77; 77; 77; 77; 77; 77; 77; 77; 77; 77; 77; 77; 77;
   77; 77; 77; 77; 77; 77; 77; 77; 77; 77; 77; 77; 77; 77; 77; 77;
   77; 77; 77; 77; 77; 77; 77; 77; 77; 77; 77; 77; 77; 77; 77; 77;
   77; 77; 77; 77; 77; 77; 77; 77; 77; 77; 77; 77; 77; 77; 77; 77;
   77; 77; 77; 77; 77; 77; 77; 77; 77; 77; 77; 77; 77; 77; 77; 77].

(** The first loop: the bytes before [=], or [None] for a byte that is not in
    the alphabet. *)
Fixpoint base64_len (src basis : list Z) : option (list Z) :=
  match src with
  | [] => Some []
  | c :: src =>
      if c =? "="%chr then Some []
      else if table_at basis c =? 77 then None
      else s ← base64_len src basis; Some (c :: s)
  end.

(** The second loop, on those bytes. *)
Fixpoint base64_bytes (s basis : list Z) : list Z :=
  let t c := table_at basis c in
  match s with
  | s0 :: s1 :: s2 :: s3 :: s =>
      u8 (Z.lor (Z.shiftl (t s0) 2) (Z.shiftr (t s1) 4))
      :: u8 (Z.lor (Z.shiftl (t s1) 4) (Z.shiftr (t s2) 2))
      :: u8 (Z.lor (Z.shiftl (t s2) 6) (t s3))
      :: base64_bytes s basis
  | [s0; s1; s2] =>
      [u8 (Z.lor (Z.shiftl (t s0) 2) (Z.shiftr (t s1) 4));
       u8 (Z.lor (Z.shiftl (t s1) 4) (Z.shiftr (t s2) 2))]
  | [s0; s1] => [u8 (Z.lor (Z.shiftl (t s0) 2) (Z.shiftr (t s1) 4))]
  | _ => []
  end.

(** The return code and the bytes written to [dst]. *)
Definition ngx_decode_base64_internal (src basis : list Z) : Z * list Z :=
  match base64_len src basis with
  | None => (NGX_ERROR, [])
  | Some s =>
      if zlen s mod 4 =? 1 then (NGX_ERROR, []) else (NGX_OK, base64_bytes s basis)
  end.

Definition ngx_decode_base64 (src : list Z) : Z * list Z :=
  ngx_decode_base64_internal src decode64.

Definition ngx_decode_base64url (src : list Z) : Z * list Z :=
  ngx_decode_base64_internal src decode64url.

(** ** The six bits of each character *)

(** A decoding table inverts an alphabet of 64 characters without [=]. *)
Definition tables_ok (enc dec : list Z) : bool :=
  forallb (fun n => let c := table_at enc (Z.of_nat n) in
    (table_at dec c =? Z.of_nat n) && negb (c =? "="%chr)) (seq 0 64).

Lemma tables_ok_at enc dec i :
  tables_ok enc dec = true -> 0 <= i < 64 ->
  table_at dec (table_at enc i) = i /\ table_at enc i <> "="%chr.
Proof.
  unfold tables_ok. rewrite forallb_forall. intros H Hi.
  specialize (H (Z.to_nat i)). cbv zeta in H. rewrite Z2Nat.id in H by lia.
  assert (In (Z.to_nat i) (seq 0 64)) as Hin by (apply in_seq; lia).
  specialize (H Hin). lia.
Qed.

(** The sextets of three bytes, in arithmetic. *)
Definition sextet_1 (a : Z) : Z := a / 4.
Definition sextet_2 (a b : Z) : Z := a mod 4 * 16 + b / 16.
Definition sextet_3 (b c : Z) : Z := b mod 16 * 4 + c / 64.
Definition sextet_4 (c : Z) : Z := c mod 64.

Lemma sextets_bits a b c :
  is_byte a -> is_byte b -> is_byte c ->
  Z.land (Z.shiftr a 2) 0x3f = sextet_1 a /\
  Z.lor (Z.shiftl (Z.land a 3) 4) (Z.shiftr b 4) = sextet_2 a b /\
  Z.lor (Z.shiftl (Z.land b 0x0f) 2) (Z.shiftr c 6) = sextet_3 b c /\
  Z.land c 0x3f = sextet_4 c.
Proof.
  intros. rewrite (land_low _ 0x3f 6), (land_low _ 3 2), (land_low _ 0x0f 4),
    (land_low _ 0x3f 6), !Z.shiftr_div_pow2 by (lia || done).
  rewrite !shiftl_lor_add by (Z.to_euclidean_division_equations; lia).
  unfold sextet_1, sextet_2, sextet_3, sextet_4. cbn -[Z.div Z.modulo].
  split_and!; try done; Z.to_euclidean_division_equations; lia.
Qed.

Lemma sextets_range a b c :
  is_byte a -> is_byte b -> is_byte c ->
  0 <= sextet_1 a < 64 /\ 0 <= sextet_2 a b < 64 /\
  0 <= sextet_3 b c < 64 /\ 0 <= sextet_4 c < 64.
Proof.
  intros. unfold sextet_1, sextet_2, sextet_3, sextet_4.
  Z.to_euclidean_division_equations; lia.
Qed.

(** The bytes are put together again. *)
Lemma sextets_join a b c :
  is_byte a -> is_byte b -> is_byte c ->
  u8 (Z.lor (Z.shiftl (sextet_1 a) 2) (Z.shiftr (sextet_2 a b) 4)) = a /\
  u8 (Z.lor (Z.shiftl (sextet_2 a b) 4) (Z.shiftr (sextet_3 b c) 2)) = b /\
  u8 (Z.lor (Z.shiftl (sextet_3 b c) 6) (sextet_4 c)) = c.
Proof.
  intros. pose proof (sextets_range a b c) as Hr.
  rewrite !Z.shiftr_div_pow2 by lia.
  rewrite !shiftl_lor_add by (Z.to_euclidean_division_equations; lia).
  unfold sextet_1, sextet_2, sextet_3, sextet_4 in *. cbn -[Z.div Z.modulo].
  split_and!; width_lia.
Qed.

Lemma list_ind3 {A} (P : list A -> Prop) :
  P [] -> (forall a, P [a]) -> (forall a b, P [a; b]) ->
  (forall a b c l, P l -> P (a :: b :: c :: l)) -> forall l, P l.
Proof.
  intros H0 H1 H2 H3.
  fix IH 1. intros [|a [|b [|c l]]]; [apply H0|apply H1|apply H2|apply H3, IH].
Qed.

(** ** Round trip *)

Fixpoint sextets (src : list Z) : list Z :=
  match src with
  | a :: b :: c :: s => sextet_1 a :: sextet_2 a b :: sextet_3 b c :: sextet_4 c :: sextets s
  | [a; b] => [sextet_1 a; sextet_2 a b; sextet_3 b 0]
  | [a] => [sextet_1 a; sextet_2 a 0]
  | [] => []
  end.

Fixpoint pad_of (padding : bool) (src : list Z) : list Z :=
  match src with
  | _ :: _ :: _ :: s => pad_of padding s
  | [_; _] => if padding then str "=" else []
  | [_] => if padding then str "==" else []
  | [] => []
  end.

Lemma encode_sextets src basis padding :
  bytes src ->
  ngx_encode_base64_internal src basis padding
  = map (table_at basis) (sextets src) ++ pad_of padding src.
Proof.
  induction src as [|a|a b|a b c s IH] using list_ind3; intros Hb; try done.
  - apply Forall_cons in Hb as [Ha _].
    destruct (sextets_bits a 0 0) as (E1 & E2 & _); [lia..|].
    rewrite Z.lor_0_r in E2. cbn [ngx_encode_base64_internal sextets map pad_of].
    rewrite E1, E2. by destruct padding.
  - apply Forall_cons in Hb as [Ha Hb]. apply Forall_cons in Hb as [Hb _].
    destruct (sextets_bits a b 0) as (E1 & E2 & E3 & _); [lia..|].
    rewrite Z.lor_0_r in E3. cbn [ngx_encode_base64_internal sextets map pad_of].
    rewrite E1, E2, E3. by destruct padding.
  - apply Forall_cons in Hb as [Ha Hb]. apply Forall_cons in Hb as [Hb' Hb].
    apply Forall_cons in Hb as [Hc Hb].
    destruct (sextets_bits a b c) as (E1 & E2 & E3 & E4); [lia..|].
    cbn [ngx_encode_base64_internal sextets map pad_of].
    rewrite E1, E2, E3, E4, IH by done. done.
Qed.

Lemma sextets_bounds src : bytes src -> Forall (fun i => 0 <= i < 64) (sextets src).
Proof.
  induction src as [|a|a b|a b c s IH] using list_ind3; intros Hb; cbn [sextets].
  - done.
  - apply Forall_cons in Hb as [Ha _].
    destruct (sextets_range a 0 0) as (? & ? & _); [lia..|]. repeat constructor; lia.
  - apply Forall_cons in Hb as [Ha Hb]. apply Forall_cons in Hb as [Hb _].
    destruct (sextets_range a b 0) as (? & ? & ? & _); [lia..|]. repeat constructor; lia.
  - apply Forall_cons in Hb as [Ha Hb]. apply Forall_cons in Hb as [Hb' Hb].
    apply Forall_cons in Hb as [Hc Hb].
    destruct (sextets_range a b c) as (? & ? & ? & ?); [lia..|].
    repeat (apply Forall_cons; split; [lia|]). by apply IH.
Qed.

Lemma pad_of_spec padding src : exists n, pad_of padding src = replicate n "="%chr.
Proof.
  induction src as [|a|a b|a b c s IH] using list_ind3; cbn; [by exists 0%nat|..|done];
    destruct padding; first [by exists 0%nat | by exists 1%nat | by exists 2%nat].
Qed.

Lemma base64_len_encoded enc dec l n :
  tables_ok enc dec = true -> Forall (fun i => 0 <= i < 64) l ->
  base64_len (map (table_at enc) l ++ replicate n "="%chr) dec = Some (map (table_at enc) l).
Proof.
  intros Ht. induction 1 as [|i l Hi Hl IH]; [by destruct n|].
  destruct (tables_ok_at enc dec i Ht Hi) as [E Hne]. cbn [map app base64_len].
  destruct (Z.eqb_spec (table_at enc i) "="%chr); [done|]. rewrite E.
  destruct (Z.eqb_spec i 77); [lia|]. by rewrite IH.
Qed.

Lemma base64_bytes_encoded enc dec src :
  tables_ok enc dec = true -> bytes src ->
  base64_bytes (map (table_at enc) (sextets src)) dec = src.
Proof.
  intros Ht. induction src as [|a|a b|a b c s IH] using list_ind3; intros Hb;
    repeat match goal with H : bytes (_ :: _) |- _ => apply Forall_cons in H as [? H] end;
    cbn [sextets map base64_bytes].
  - done.
  - destruct (sextets_range a 0 0) as (? & ? & _); [lia..|].
    destruct (sextets_join a 0 0) as (E1 & _); [lia..|].
    rewrite !(fun i H => proj1 (tables_ok_at enc dec i Ht H)) by lia. by rewrite E1.
  - destruct (sextets_range a b 0) as (? & ? & ? & _); [lia..|].
    destruct (sextets_join a b 0) as (E1 & E2 & _); [lia..|].
    rewrite !(fun i H => proj1 (tables_ok_at enc dec i Ht H)) by lia. by rewrite E1, E2.
  - destruct (sextets_range a b c) as (? & ? & ? & ?); [lia..|].
    destruct (sextets_join a b c) as (E1 & E2 & E3); [lia..|].
    rewrite !(fun i H => proj1 (tables_ok_at enc dec i Ht H)) by lia.
    by rewrite E1, E2, E3, IH.
Qed.

Lemma sextets_length_mod src : zlen (sextets src) mod 4 <> 1.
Proof.
  induction src as [|a|a b|a b c s IH] using list_ind3; cbn [sextets]; try done.
  rewrite !zlen_cons. Z.to_euclidean_division_equations; lia.
Qed.

Lemma zlen_map {A B} (f : A -> B) l : zlen (map f l) = zlen l.
Proof. unfold zlen. by rewrite length_map. Qed.

Lemma decode_encode enc dec padding src :
  tables_ok enc dec = true -> bytes src ->
  ngx_decode_base64_internal (ngx_encode_base64_internal src enc padding) dec
  = (NGX_OK, src).
Proof.
  intros Ht Hb. unfold ngx_decode_base64_internal. rewrite encode_sextets by done.
  destruct (pad_of_spec padding src) as [n ->].
  rewrite base64_len_encoded by (done || by apply sextets_bounds).
  rewrite zlen_map, base64_bytes_encoded by done.
  destruct (Z.eqb_spec (zlen (sextets src) mod 4) 1) as [E|]; [|done].
  by apply sextets_length_mod in E.
Qed.

(** ** Lengths *)

Lemma encode_length src basis padding :
  zlen (ngx_encode_base64_internal src basis padding)
    <= ngx_base64_encoded_length (zlen src) /\
  (padding = true -> zlen (ngx_encode_base64_internal src basis padding)
    = ngx_base64_encoded_length (zlen src)).
Proof.
  unfold ngx_base64_encoded_length.
  induction src as [|a|a b|a b c s IH] using list_ind3; cbn [ngx_encode_base64_internal].
  - split; [vm_compute; congruence|done].
  - destruct padding; (split; [vm_compute; congruence|done]).
  - destruct padding; (split; [vm_compute; congruence|done]).
  - rewrite !zlen_cons. split; intros; [destruct IH as [IH _]|destruct IH as [_ IH];
      specialize (IH ltac:(done))]; Z.to_euclidean_division_equations; lia.
Qed.

Lemma list_ind4 {A} (P : list A -> Prop) :
  P [] -> (forall a, P [a]) -> (forall a b, P [a; b]) -> (forall a b c, P [a; b; c]) ->
  (forall a b c d l, P l -> P (a :: b :: c :: d :: l)) -> forall l, P l.
Proof.
  intros H0 H1 H2 H3 H4. fix IH 1. intros [|a [|b [|c [|d l]]]];
    [apply H0|apply H1|apply H2|apply H3|apply H4, IH].
Qed.

Lemma base64_len_le src basis s : base64_len src basis = Some s -> zlen s <= zlen src.
Proof.
  revert s. induction src as [|c src IH]; intros s; cbn [base64_len]; [by intros [= <-]|].
  rewrite zlen_cons. pose proof (zlen_nonneg src).
  case_match; [intros [= <-]; unfold zlen; simpl; lia|]. case_match; [done|].
  destruct (base64_len src basis) as [s'|]; [|done]. intros [= <-].
  rewrite zlen_cons. specialize (IH s' eq_refl). lia.
Qed.

Lemma base64_bytes_length s basis :
  zlen (base64_bytes s basis) <= ngx_base64_decoded_length (zlen s).
Proof.
  unfold ngx_base64_decoded_length.
  induction s as [|a|a b|a b c|a b c d s IH] using list_ind4; cbn [base64_bytes];
    try (vm_compute; congruence).
  rewrite !zlen_cons. Z.to_euclidean_division_equations; lia.
Qed.

(** For any input, neither encoder writes more than
    [ngx_base64_encoded_length] bytes (the padded one exactly as many) and
    neither decoder more than [ngx_base64_decoded_length], the sizes that
    callers allocate. *)
Lemma base64_fits src :
  zlen (ngx_encode_base64 src) = ngx_base64_encoded_length (zlen src) /\
  zlen (ngx_encode_base64url src) <= ngx_base64_encoded_length (zlen src) /\
  zlen (ngx_decode_base64 src).2 <= ngx_base64_decoded_length (zlen src) /\
  zlen (ngx_decode_base64url src).2 <= ngx_base64_decoded_length (zlen src).
Proof.
  assert (forall basis, zlen (ngx_decode_base64_internal src basis).2
    <= ngx_base64_decoded_length (zlen src)) as Hd.
  { intros basis. unfold ngx_decode_base64_internal. pose proof (zlen_nonneg src).
    assert (0 <= ngx_base64_decoded_length (zlen src)) by
      (unfold ngx_base64_decoded_length; Z.to_euclidean_division_equations; lia).
    destruct (base64_len src basis) as [s|] eqn:E; [|done].
    case_match; [done|]. apply base64_len_le in E. cbn [snd].
    pose proof (base64_bytes_length s basis). unfold ngx_base64_decoded_length in *.
    Z.to_euclidean_division_equations; lia. }
  split_and!; [by apply encode_length|by apply encode_length|apply Hd|apply Hd].
Qed.

(** Decoding what [ngx_encode_base64] or [ngx_encode_base64url] produced succeeds
    and gives the original bytes. For any input, neither encoder writes more than
    [ngx_base64_encoded_length] bytes (the padded one exactly as many) and neither
    decoder more than [ngx_base64_decoded_length], the sizes that callers allocate. *)
Theorem base64_roundtrip src :
  (bytes src ->
   ngx_decode_base64 (ngx_encode_base64 src) = (NGX_OK, src) /\
   ngx_decode_base64url (ngx_encode_base64url src) = (NGX_OK, src)) /\
  zlen (ngx_encode_base64 src) = ngx_base64_encoded_length (zlen src) /\
  zlen (ngx_encode_base64url src) <= ngx_base64_encoded_length (zlen src) /\
  zlen (ngx_decode_base64 src).2 <= ngx_base64_decoded_length (zlen src) /\
  zlen (ngx_decode_base64url src).2 <= ngx_base64_decoded_length (zlen src).
Proof. split; [intros Hb; split; by apply decode_encode|apply base64_fits]. Qed.

Lemma base64_roundtrip_witness :
  ngx_decode_base64 (str "bmdpbng=") = (NGX_OK, str "nginx").
Proof.
  apply (base64_roundtrip (str "nginx")). vm_compute. repeat constructor; intros [=].
Defined.
