(* ===== verification/Escape.v ===== *)
(** * Escaping

    [ngx_escape_uri], [ngx_unescape_uri], [ngx_escape_html] and
    [ngx_escape_json] of [src/core/ngx_string.c]. Each escaping routine also
    has a mode that counts: callers allocate what it announces. *)

From S2P Require Import Prelude.

(** ** URIs *)

Definition hex_upper : list Z := str "0123456789ABCDEF".

Definition escape_uri : list Z :=
  [0xffffffff; 0xd000002d; 0x50000000; 0xb8000001;
   0xffffffff; 0xffffffff; 0xffffffff; 0xffffffff].
Definition escape_args : list Z :=
  [0xffffffff; 0xd800086d; 0x50000000; 0xb8000001;
   0xffffffff; 0xffffffff; 0xffffffff; 0xffffffff].
Definition escape_uri_component : list Z :=
  [0xffffffff; 0xfc009fff; 0x78000001; 0xb8000001;
   0xffffffff; 0xffffffff; 0xffffffff; 0xffffffff].
Definition escape_html_attr : list Z :=
  [0xffffffff; 0x500000ad; 0x50000000; 0xb8000001;
   0xffffffff; 0xffffffff; 0xffffffff; 0xffffffff].
Definition escape_refresh : list Z :=
  [0xffffffff; 0x50000085; 0x50000000; 0xd8000001;
   0xffffffff; 0xffffffff; 0xffffffff; 0xffffffff].
Definition escape_memcached : list Z :=
  [0xffffffff; 0x00000021; 0x00000000; 0x00000000;
   0x00000000; 0x00000000; 0x00000000; 0x00000000].

Definition NGX_ESCAPE_URI : Z := 0.
Definition NGX_ESCAPE_ARGS : Z := 1.
Definition NGX_ESCAPE_URI_COMPONENT : Z := 2.
Definition NGX_ESCAPE_HTML : Z := 3.
Definition NGX_ESCAPE_REFRESH : Z := 4.
Definition NGX_ESCAPE_MEMCACHED : Z := 5.
Definition NGX_ESCAPE_MAIL_AUTH : Z := 6.

(** [map[type]] *)
Definition escape_map (type : Z) : list Z :=
  nth (Z.to_nat type)
    [escape_uri; escape_args; escape_uri_component; escape_html_attr; escape_refresh;
     escape_memcached; escape_memcached] [].

(** The bit of [c] in the table of 256 bits. *)
Definition is_escaped (escape : list Z) (c : Z) : bool :=
  negb (Z.land (table_at escape (Z.shiftr c 5)) (Z.shiftl 1 (Z.land c 0x1f)) =? 0).

(** [ngx_escape_uri(NULL, src, size, type)] *)
Fixpoint escape_uri_count (escape src : list Z) : Z :=
  match src with
  | [] => 0
  | c :: src => (if is_escaped escape c then 1 else 0) + escape_uri_count escape src
  end.

Fixpoint escape_uri_write (escape src : list Z) : list Z :=
  match src with
  | [] => []
  | c :: src =>
      (if is_escaped escape c
       then ["%"%chr; table_at hex_upper (Z.shiftr c 4); table_at hex_upper (Z.land c 0xf)]
       else [c])
      ++ escape_uri_write escape src
  end.

Definition ngx_escape_uri_count (src : list Z) (type : Z) : Z :=
  escape_uri_count (escape_map type) src.

Definition ngx_escape_uri (src : list Z) (type : Z) : list Z :=
  escape_uri_write (escape_map type) src.

Definition NGX_UNESCAPE_URI : Z := 1.
Definition NGX_UNESCAPE_REDIRECT : Z := 2.

Definition has_flag (type flag : Z) : bool := negb (Z.land type flag =? 0).

(** The states, with the bytes that [s - 2] and [s - 1] still give access to. *)
Inductive unescape_state :=
| sw_usual
| sw_quoted
| sw_quoted_second (decoded first : Z).

(** [c = ch | 0x20; c >= 'a' && c <= 'f'] *)
Definition hex_letter (ch : Z) : option Z :=
  let c := u8 (Z.lor ch 0x20) in
  if ("a"%chr <=? c) && (c <=? "f"%chr) then Some (u8 (c - "a"%chr + 10)) else None.

(** [case sw_usual]: what is written, the next state, and [goto done]. *)
Definition unescape_usual (type ch : Z) : list Z * unescape_state * bool :=
  if (ch =? "?"%chr)
     && has_flag type (Z.lor NGX_UNESCAPE_URI NGX_UNESCAPE_REDIRECT)
  then ([ch], sw_usual, true)
  else if ch =? "%"%chr then ([], sw_quoted, false)
  else ([ch], sw_usual, false).

(** [case sw_quoted] *)
Definition unescape_quoted (ch : Z) : list Z * unescape_state * bool :=
  if ("0"%chr <=? ch) && (ch <=? "9"%chr)
  then ([], sw_quoted_second (u8 (ch - "0"%chr)) ch, false)
  else match hex_letter ch with
  | Some decoded => ([], sw_quoted_second decoded ch, false)
  | None => ([ch], sw_usual, false)
  end.

(** [case sw_quoted_second]; [first] is [*(s - 2)]. *)
Definition unescape_second (type decoded first ch : Z) : list Z * unescape_state * bool :=
  if ("0"%chr <=? ch) && (ch <=? "9"%chr) then
    let c := u8 (Z.shiftl decoded 4 + (ch - "0"%chr)) in
    if has_flag type NGX_UNESCAPE_REDIRECT then
      if ("%"%chr <? c) && (c <? 0x7f) then ([c], sw_usual, false)
      else (["%"%chr; first; ch], sw_usual, false)
    else ([c], sw_usual, false)
  else
    let l := u8 (Z.lor ch 0x20) in
    if ("a"%chr <=? l) && (l <=? "f"%chr) then
      let c := u8 (Z.shiftl decoded 4 + (l - "a"%chr) + 10) in
      if has_flag type NGX_UNESCAPE_URI then
        if c =? "?"%chr then ([c], sw_usual, true) else ([c], sw_usual, false)
      else if has_flag type NGX_UNESCAPE_REDIRECT then
        if c =? "?"%chr then ([c], sw_usual, true)
        else if ("%"%chr <? c) && (c <? 0x7f) then ([c], sw_usual, false)
        else (["%"%chr; first; ch], sw_usual, false)
      else ([c], sw_usual, false)
    else ([], sw_usual, false).

Definition unescape_char (type : Z) (state : unescape_state) (ch : Z)
    : list Z * unescape_state * bool :=
  match state with
  | sw_usual => unescape_usual type ch
  | sw_quoted => unescape_quoted ch
  | sw_quoted_second decoded first => unescape_second type decoded first ch
  end.

(** The bytes written and the bytes not read. *)
Fixpoint unescape_loop (type : Z) (state : unescape_state) (src : list Z)
    : list Z * list Z :=
  match src with
  | [] => ([], [])
  | ch :: src =>
      let '(out, state, done) := unescape_char type state ch in
      if done then (out, src)
      else let '(dst, rest) := unescape_loop type state src in (out ++ dst, rest)
  end.

Definition ngx_unescape_uri (src : list Z) (type : Z) : list Z * list Z :=
  unescape_loop type sw_usual src.

(** ** HTML *)

Definition html_entity (c : Z) : list Z :=
  if c =? "<"%chr then str "&lt;"
  else if c =? ">"%chr then str "&gt;"
  else if c =? "&"%chr then str "&amp;"
  else if c =? 34 then str "&quot;"
  else [c].

Definition html_growth (c : Z) : Z :=
  if c =? "<"%chr then 3
  else if c =? ">"%chr then 3
  else if c =? "&"%chr then 4
  else if c =? 34 then 5
  else 0.

Fixpoint ngx_escape_html_count (src : list Z) : Z :=
  match src with
  | [] => 0
  | c :: src => html_growth c + ngx_escape_html_count src
  end.

Fixpoint ngx_escape_html (src : list Z) : list Z :=
  match src with
  | [] => []
  | c :: src => html_entity c ++ ngx_escape_html src
  end.

(** ** JSON *)

(** A control character that has an escape of two bytes. *)
Definition json_short (ch : Z) : option Z :=
  if ch =? 10 then Some "n"%chr
  else if ch =? 13 then Some "r"%chr
  else if ch =? 9 then Some "t"%chr
  else if ch =? 8 then Some "b"%chr
  else if ch =? 12 then Some "f"%chr
  else None.

Definition json_growth (ch : Z) : Z :=
  if (ch =? 92) || (ch =? 34) then 1
  else if ch <=? 0x1f then
    match json_short ch with Some _ => 1 | None => 5 end
  else 0.

Definition json_char (ch : Z) : list Z :=
  if 0x1f <? ch then (if (ch =? 92) || (ch =? 34) then [92] else []) ++ [ch]
  else
    92 :: match json_short ch with
          | Some c => [c]
          | None =>
              let lo := Z.land ch 0xf in
              ["u"%chr; "0"%chr; "0"%chr; u8 ("0"%chr + Z.shiftr ch 4);
               u8 (if lo <? 10 then "0"%chr + lo else "A"%chr + lo - 10)]
          end.

Fixpoint ngx_escape_json_count (src : list Z) : Z :=
  match src with
  | [] => 0
  | c :: src => json_growth c + ngx_escape_json_count src
  end.

Fixpoint ngx_escape_json (src : list Z) : list Z :=
  match src with
  | [] => []
  | c :: src => json_char c ++ ngx_escape_json src
  end.

(** ** Round trip of URIs *)

(** The tables that escape the percent sign. *)
Definition escapes_percent (type : Z) : bool := is_escaped (escape_map type) "%"%chr.

Lemma types_that_escape_percent :
  forallb escapes_percent
    [NGX_ESCAPE_URI; NGX_ESCAPE_ARGS; NGX_ESCAPE_URI_COMPONENT; NGX_ESCAPE_HTML;
     NGX_ESCAPE_MEMCACHED; NGX_ESCAPE_MAIL_AUTH] = true.
Proof. reflexivity. Qed.

(** Decoding the two digits of any byte. *)
Definition pair_ok (c : Z) : bool :=
  let h := table_at hex_upper (Z.shiftr c 4) in
  let l := table_at hex_upper (Z.land c 0xf) in
  match unescape_quoted h with
  | ([], sw_quoted_second decoded first, false) =>
      match unescape_second 0 decoded first l with
      | ([d], sw_usual, false) => d =? c
      | _ => false
      end
  | _ => false
  end.

Lemma pair_ok_all : forallb (fun n => pair_ok (Z.of_nat n)) (seq 0 256) = true.
Proof. vm_compute. reflexivity. Qed.

Lemma pair_ok_byte c : is_byte c -> pair_ok c = true.
Proof.
  intros Hc. pose proof pair_ok_all as H. rewrite forallb_forall in H.
  specialize (H (Z.to_nat c)). rewrite Z2Nat.id in H by lia.
  apply H, in_seq. lia.
Qed.

Lemma unescape_pair c src :
  is_byte c ->
  unescape_loop 0 sw_usual
    ("%"%chr :: table_at hex_upper (Z.shiftr c 4) :: table_at hex_upper (Z.land c 0xf) :: src)
  = (c :: (unescape_loop 0 sw_usual src).1, (unescape_loop 0 sw_usual src).2).
Proof.
  intros Hc. pose proof (pair_ok_byte c Hc) as H. unfold pair_ok in H.
  cbn [unescape_loop unescape_char].
  change (unescape_usual 0 37) with (@nil Z, sw_quoted, false). cbv iota beta.
  cbn [unescape_loop unescape_char].
  destruct (unescape_quoted (table_at hex_upper (Z.shiftr c 4))) as [[[|] [| |d f]] []];
    try done.
  cbn [unescape_loop unescape_char].
  destruct (unescape_second 0 d f (table_at hex_upper (Z.land c 0xf)))
    as [[[|d' [|]] [| |]] []]; try done.
  apply Z.eqb_eq in H as ->.
  by destruct (unescape_loop 0 sw_usual src).
Qed.

Lemma unescape_escape escape src :
  is_escaped escape "%"%chr = true -> bytes src ->
  unescape_loop 0 sw_usual (escape_uri_write escape src) = (src, []).
Proof.
  intros Hp. induction 1 as [|c src Hc Hb IH]; [done|]. cbn [escape_uri_write].
  destruct (is_escaped escape c) eqn:Ec; cbn [app].
  - by rewrite unescape_pair, IH.
  - cbn [unescape_loop unescape_char]. unfold unescape_usual, has_flag.
    change (Z.land 0 _ =? 0) with true. rewrite andb_false_r.
    destruct (Z.eqb_spec c "%"%chr) as [->|]; [congruence|]. by rewrite IH.
Qed.

Lemma escape_length escape src :
  zlen (escape_uri_write escape src) = zlen src + 2 * escape_uri_count escape src.
Proof.
  induction src as [|c src IH]; [done|].
  cbn [escape_uri_write escape_uri_count]. rewrite zlen_app, zlen_cons, IH.
  case_match; unfold zlen at 1; simpl length; lia.
Qed.

(** ** Unescaping in place *)

(** Bytes read that may still be written. *)
Definition pending (state : unescape_state) : Z :=
  match state with
  | sw_usual => 0
  | sw_quoted => 1
  | sw_quoted_second _ _ => 2
  end.

Lemma unescape_char_room type state ch :
  let '(out, state', done) := unescape_char type state ch in
  zlen out + (if done then 0 else pending state') <= pending state + 1.
Proof.
  unfold unescape_char, unescape_usual, unescape_quoted, unescape_second.
  destruct state; cbv zeta; repeat case_match; simplify_eq;
    unfold zlen; cbn [length pending Z.of_nat]; lia.
Qed.

(** [ngx_unescape_uri] never writes more bytes than it has read, whatever
    the bytes and the flags (so on every prefix of its input too): the write
    position never passes the read position and callers may decode in place. *)
Lemma unescape_in_place src type :
  let '(dst, rest) := ngx_unescape_uri src type in
  zlen dst + zlen rest <= zlen src /\ exists read, src = read ++ rest.
Proof.
  assert (forall state,
    let '(dst, rest) := unescape_loop type state src in
    zlen dst + zlen rest <= pending state + zlen src /\ exists read, src = read ++ rest)
    as H; [|apply (H sw_usual)].
  induction src as [|ch src IH]; intros state; cbn [unescape_loop].
  { split; [unfold zlen; destruct state; simpl; lia|by exists []]. }
  pose proof (unescape_char_room type state ch) as Hr.
  destruct (unescape_char type state ch) as [[out state'] done]. rewrite zlen_cons.
  destruct done.
  - split; [lia|by exists [ch]].
  - specialize (IH state'). destruct (unescape_loop type state' src) as [dst rest].
    destruct IH as [Hl [read ->]]. rewrite zlen_app. split; [lia|by exists (ch :: read)].
Qed.

(** Unescaping an escaped string gives the string back, for every table that
    escapes the percent sign (all but the one for the Refresh header); an escaped
    string is longer by exactly two bytes per escape announced by the counting mode,
    which is how callers size their buffers. [ngx_unescape_uri] never writes more bytes
    than it has read, whatever the bytes and the flags (so on every prefix of its input
    too): the write position never passes the read position and callers may decode in
    place. *)
Theorem escape_uri_roundtrip src type :
  (bytes src ->
   zlen (ngx_escape_uri src type) = zlen src + 2 * ngx_escape_uri_count src type /\
   (In type [NGX_ESCAPE_URI; NGX_ESCAPE_ARGS; NGX_ESCAPE_URI_COMPONENT; NGX_ESCAPE_HTML;
             NGX_ESCAPE_MEMCACHED; NGX_ESCAPE_MAIL_AUTH] ->
    ngx_unescape_uri (ngx_escape_uri src type) 0 = (src, []))) /\
  (forall flags, let '(dst, rest) := ngx_unescape_uri src flags in
   zlen dst + zlen rest <= zlen src /\ exists read, src = read ++ rest).
Proof.
  split; [|intros flags; apply unescape_in_place].
  intros Hb. split; [apply escape_length|]. intros Ht.
  pose proof types_that_escape_percent as H. rewrite forallb_forall in H.
  apply unescape_escape; [by apply H|done].
Qed.

Lemma escape_uri_roundtrip_witness :
  ngx_unescape_uri (str "a%20b%3Fc%25") 0 = (str "a b?c%", []).
Proof.
  apply (proj1 (escape_uri_roundtrip (str "a b?c%") NGX_ESCAPE_URI)).
  - vm_compute. repeat constructor; intros [=].
  - left. reflexivity.
Defined.

(** ** HTML and JSON *)

(** Specification: what a browser reads back. *)
Fixpoint html_decode (l : list Z) : list Z :=
  match l with
  | 38 :: 108 :: 116 :: 59 :: l => "<"%chr :: html_decode l
  | 38 :: 103 :: 116 :: 59 :: l => ">"%chr :: html_decode l
  | 38 :: 97 :: 109 :: 112 :: 59 :: l => "&"%chr :: html_decode l
  | 38 :: 113 :: 117 :: 111 :: 116 :: 59 :: l => 34 :: html_decode l
  | c :: l => c :: html_decode l
  | [] => []
  end.

Lemma html_decode_other c l : c <> 38 -> html_decode (c :: l) = c :: html_decode l.
Proof. intros. destruct c as [|p|p]; try done. do 6 (destruct p; try done). Qed.

Lemma html_entity_decode c l : html_decode (html_entity c ++ l) = c :: html_decode l.
Proof.
  unfold html_entity.
  destruct (Z.eqb_spec c "<"%chr) as [->|]; [done|].
  destruct (Z.eqb_spec c ">"%chr) as [->|]; [done|].
  destruct (Z.eqb_spec c "&"%chr) as [->|]; [done|].
  destruct (Z.eqb_spec c 34) as [->|]; [done|]. by apply html_decode_other.
Qed.

(** Text escaped for HTML contains no angle bracket and no quotation mark,
    is read back as the original text, and is longer by exactly what the
    counting mode announces. *)
Theorem escape_html_correct src :
  Forall (fun c => c <> "<"%chr /\ c <> ">"%chr /\ c <> 34) (ngx_escape_html src) /\
  html_decode (ngx_escape_html src) = src /\
  zlen (ngx_escape_html src) = zlen src + ngx_escape_html_count src.
Proof.
  induction src as [|c src (IH1 & IH2 & IH3)]; [done|].
  cbn [ngx_escape_html ngx_escape_html_count]. split_and!.
  - apply Forall_app. split; [|done]. unfold html_entity.
    repeat case_match; repeat constructor; vm_compute; try done; lia.
  - by rewrite html_entity_decode, IH2.
  - rewrite zlen_app, zlen_cons, IH3. unfold html_entity, html_growth.
    repeat case_match; unfold zlen at 1; cbn [length str]; simpl; lia.
Qed.

(** Specification: what a JSON reader makes of a string. *)
Definition json_hex (c : Z) : Z := if c <=? "9"%chr then c - "0"%chr else c - "A"%chr + 10.

Definition json_unshort (c : Z) : Z :=
  if c =? "n"%chr then 10 else if c =? "r"%chr then 13 else if c =? "t"%chr then 9
  else if c =? "b"%chr then 8 else if c =? "f"%chr then 12 else c.

Fixpoint json_decode (l : list Z) : list Z :=
  match l with
  | 92 :: 117 :: 48 :: 48 :: h :: o :: l => json_hex h * 16 + json_hex o :: json_decode l
  | 92 :: c :: l => json_unshort c :: json_decode l
  | c :: l => c :: json_decode l
  | [] => []
  end.

Definition all_bytes : list Z := map Z.of_nat (seq 0 256).

Lemma all_bytes_in c : is_byte c -> In c all_bytes.
Proof.
  intros. apply in_map_iff. exists (Z.to_nat c). split; [lia|]. apply in_seq. lia.
Qed.

(** Every byte is read back, whatever follows. *)
Lemma json_char_all :
  Forall (fun c => forall l, json_decode (json_char c ++ l) = c :: json_decode l) all_bytes.
Proof. repeat (constructor; [intros; reflexivity|]). constructor. Qed.

Definition json_char_ok (c : Z) : bool :=
  (zlen (json_char c) =? 1 + json_growth c) && forallb (fun d => 32 <=? d) (json_char c).

Lemma json_char_ok_all : forallb json_char_ok all_bytes = true.
Proof. vm_compute. reflexivity. Qed.

(** Text escaped for JSON contains no control character, is read back as
    the original bytes, and is longer by exactly what the counting mode
    announces. *)
Theorem escape_json_correct src :
  bytes src ->
  Forall (fun c => 32 <= c) (ngx_escape_json src) /\
  json_decode (ngx_escape_json src) = src /\
  zlen (ngx_escape_json src) = zlen src + ngx_escape_json_count src.
Proof.
  induction 1 as [|c src Hc Hb (IH1 & IH2 & IH3)]; [done|].
  cbn [ngx_escape_json ngx_escape_json_count].
  pose proof (all_bytes_in c Hc) as Hin.
  pose proof json_char_ok_all as H. rewrite forallb_forall in H. specialize (H c Hin).
  unfold json_char_ok in H. apply andb_true_iff in H as [Hlen Hall].
  pose proof json_char_all as Hd. rewrite List.Forall_forall in Hd. split_and!.
  - apply Forall_app. split; [|done]. rewrite forallb_forall in Hall.
    apply List.Forall_forall. intros d Hd'. specialize (Hall d Hd'). lia.
  - by rewrite (Hd c Hin), IH2.
  - rewrite zlen_app, zlen_cons, IH3. lia.
Qed.

Lemma escape_json_correct_witness :
  json_decode (ngx_escape_json [34; 10; 1; 65]) = [34; 10; 1; 65].
Proof.
  apply (escape_json_correct [34; 10; 1; 65]). repeat constructor; lia.
Defined.
