(* ===== verification/Utf8.v ===== *)
(** * UTF-8

    [ngx_utf8_decode], [ngx_utf8_length] and [ngx_utf8_cpystrn] of
    [src/core/ngx_string.c]. *)

From S2P Require Import Prelude.

(** ** Decoding *)

Definition UTF8_ERROR : Z := 0xffffffff.
Definition UTF8_INCOMPLETE : Z := 0xfffffffe.

(** The [while (len)] loop over [p], the bytes that may be read: the value and
    the bytes left; [None] is [return 0xffffffff]. *)
Fixpoint utf8_tail (len : nat) (u : Z) (p : list Z) : res (option Z * list Z) :=
  match len with
  | O => Ok (Some u, p)
  | S len =>
      match p with
      | [] => Fault
      | i :: p =>
          if i <? 0x80 then Ok (None, p)
          else utf8_tail len (u32 (Z.lor (Z.shiftl u 6) (Z.land i 0x3f))) p
      end
  end.

(** [ngx_utf8_decode(&p, n)]: the result and the new [p]; [n] may differ from
    the number of bytes that can be read. *)
Definition ngx_utf8_decode (p : list Z) (n : Z) : res (Z * list Z) :=
  match p with
  | [] => Fault
  | c :: p' =>
      let go u valid len :=
        if u64 (n - 1) <? Z.of_nat len then Ok (UTF8_INCOMPLETE, p)
        else
          '(r, p) ← utf8_tail len u p';
          match r with
          | None => Ok (UTF8_ERROR, p)
          | Some u => Ok (if valid <? u then u else UTF8_ERROR, p)
          end in
      if 0xf0 <=? c then go (Z.land c 0x07) 0xffff 3%nat
      else if 0xe0 <=? c then go (Z.land c 0x0f) 0x7ff 2%nat
      else if 0xc2 <=? c then go (Z.land c 0x1f) 0x7f 1%nat
      else Ok (UTF8_ERROR, p')
  end.

(** [ngx_utf8_length]: [None] is [return n]. One unit of fuel per byte. *)
Fixpoint utf8_length_loop (fuel : nat) (p : list Z) (len : Z) : res (option Z) :=
  match p, fuel with
  | [], _ => Ok (Some len)
  | _, O => NoFuel
  | c :: p', S fuel =>
      if c <? 0x80 then utf8_length_loop fuel p' (len + 1)
      else
        '(r, p) ← ngx_utf8_decode p (zlen p);
        if 0x10ffff <? r then Ok None
        else utf8_length_loop fuel p (len + 1)
  end.

Definition ngx_utf8_length (p : list Z) : res Z :=
  r ← utf8_length_loop (length p) p 0;
  Ok (match r with Some len => len | None => zlen p end).

(** [ngx_utf8_cpystrn]: the bytes written to [dst], the last one being the
    terminating zero, which the returned pointer points to. [src] holds the bytes that may be read, [len] is the length argument. *)
Fixpoint utf8_cpystrn_loop (n : nat) (src : list Z) (len : Z) : res (list Z) :=
  match n with
  | O => Ok [0]
  | S n =>
      match src with
      | [] => Fault
      | c :: src' =>
          if c <? 0x80 then
            if c =? 0 then Ok [c]
            else out ← utf8_cpystrn_loop n src' (u64 (len - 1)); Ok (c :: out)
          else
            '(r, next) ← ngx_utf8_decode src len;
            if 0x10ffff <? r then Ok [0]
            else
              let k := (length src - length next)%nat in
              out ← utf8_cpystrn_loop n next (u64 (len - Z.of_nat k));
              Ok (take k src ++ out)
      end
  end.

Definition ngx_utf8_cpystrn (src : list Z) (n len : Z) : res (list Z) :=
  if n =? 0 then Ok [] else utf8_cpystrn_loop (Z.to_nat (n - 1)) src len.

(** ** Specification *)

(** The encoding of a code point. *)
Definition utf8_encode (u : Z) : list Z :=
  if u <? 0x80 then [u]
  else if u <? 0x800 then [0xc0 + u / 64; 0x80 + u mod 64]
  else if u <? 0x10000 then [0xe0 + u / 4096; 0x80 + u / 64 mod 64; 0x80 + u mod 64]
  else [0xf0 + u / 262144; 0x80 + u / 4096 mod 64; 0x80 + u / 64 mod 64; 0x80 + u mod 64].

Definition is_code_point (u : Z) : Prop := 0 <= u <= 0x10ffff.

(** ** Decoding what was encoded *)

Lemma utf8_tail_step n u i p :
  0x80 <= i < 0xc0 -> 0 <= u < 67108864 ->
  utf8_tail (S n) u (i :: p) = utf8_tail n (u * 64 + (i - 0x80)) p.
Proof.
  intros Hi Hu. cbn [utf8_tail]. destruct (Z.ltb_spec i 0x80); [lia|].
  rewrite (land_low i 0x3f 6) by (lia || done).
  rewrite shiftl_lor_add by (Z.to_euclidean_division_equations; lia).
  change (2 ^ 6) with 64. rewrite u32_id by (Z.to_euclidean_division_equations; lia).
  f_equal. Z.to_euclidean_division_equations; lia.
Qed.

Lemma utf8_decode_encoded u rest n :
  is_code_point u -> 0x80 <= u ->
  zlen (utf8_encode u) <= n < 9223372036854775811 ->
  ngx_utf8_decode (utf8_encode u ++ rest) n = Ok (u, rest).
Proof.
  unfold is_code_point. intros Hu Hlow. unfold utf8_encode.
  destruct (Z.ltb_spec u 0x80); [lia|].
  destruct (Z.ltb_spec u 0x800); [|destruct (Z.ltb_spec u 0x10000)];
    unfold ngx_utf8_decode; cbn [app]; rewrite !zlen_cons, zlen_nil; intros Hn.
  - destruct (Z.leb_spec 0xf0 (0xc0 + u / 64));
      [Z.to_euclidean_division_equations; lia|].
    destruct (Z.leb_spec 0xe0 (0xc0 + u / 64));
      [Z.to_euclidean_division_equations; lia|].
    destruct (Z.leb_spec 0xc2 (0xc0 + u / 64));
      [|Z.to_euclidean_division_equations; lia].
    rewrite u64_id by lia. destruct (Z.ltb_spec (n - 1) (Z.of_nat 1)); [lia|].
    rewrite (land_low _ 0x1f 5) by (lia || done). change (2 ^ 5) with 32.
    rewrite utf8_tail_step by (Z.to_euclidean_division_equations; lia).
    cbn [utf8_tail]. rewrite Ok_bind.
    replace ((0xc0 + u / 64) mod 32 * 64 + (0x80 + u mod 64 - 0x80)) with u by
      (Z.to_euclidean_division_equations; lia).
    destruct (Z.ltb_spec 0x7f u); [done|lia].
  - destruct (Z.leb_spec 0xf0 (0xe0 + u / 4096));
      [Z.to_euclidean_division_equations; lia|].
    destruct (Z.leb_spec 0xe0 (0xe0 + u / 4096));
      [|Z.to_euclidean_division_equations; lia].
    rewrite u64_id by lia.
    destruct (Z.ltb_spec (n - 1) (Z.of_nat 2)); [lia|].
    rewrite (land_low _ 0x0f 4) by (lia || done). change (2 ^ 4) with 16.
    rewrite !utf8_tail_step by (Z.to_euclidean_division_equations; lia).
    cbn [utf8_tail]. rewrite Ok_bind.
    replace (((0xe0 + u / 4096) mod 16 * 64 + (0x80 + u / 64 mod 64 - 0x80)) * 64
      + (0x80 + u mod 64 - 0x80)) with u by (Z.to_euclidean_division_equations; lia).
    destruct (Z.ltb_spec 0x7ff u); [done|lia].
  - destruct (Z.leb_spec 0xf0 (0xf0 + u / 262144));
      [|Z.to_euclidean_division_equations; lia].
    rewrite u64_id by lia.
    destruct (Z.ltb_spec (n - 1) (Z.of_nat 3)); [lia|].
    rewrite (land_low _ 0x07 3) by (lia || done). change (2 ^ 3) with 8.
    rewrite !utf8_tail_step by (Z.to_euclidean_division_equations; lia).
    cbn [utf8_tail]. rewrite Ok_bind.
    replace ((((0xf0 + u / 262144) mod 8 * 64 + (0x80 + u / 4096 mod 64 - 0x80)) * 64
      + (0x80 + u / 64 mod 64 - 0x80)) * 64 + (0x80 + u mod 64 - 0x80)) with u by
      (Z.to_euclidean_division_equations; lia).
    destruct (Z.ltb_spec 0xffff u); [done|lia].
Qed.

Definition utf8_text (us : list Z) : list Z := concat (map utf8_encode us).

Lemma utf8_encode_length u : (1 <= length (utf8_encode u))%nat.
Proof. unfold utf8_encode. repeat case_match; simpl; lia. Qed.

Lemma utf8_encode_zlen u : is_code_point u -> 1 <= zlen (utf8_encode u) <= 4.
Proof. intros _. unfold utf8_encode, zlen. repeat case_match; simpl; lia. Qed.

Lemma utf8_length_loop_text us fuel len :
  Forall is_code_point us -> zlen (utf8_text us) < 9223372036854775807 ->
  (length (utf8_text us) <= fuel)%nat ->
  utf8_length_loop fuel (utf8_text us) len = Ok (Some (len + zlen us)).
Proof.
  intros Hus. revert fuel len. induction Hus as [|u us Hu Hus IH]; intros fuel len Hmax Hf.
  { cbn. destruct fuel; by rewrite Z.add_0_r. }
  change (utf8_text (u :: us)) with (utf8_encode u ++ utf8_text us) in *.
  rewrite length_app in Hf. pose proof (utf8_encode_length u).
  rewrite zlen_app in Hmax. pose proof (zlen_nonneg (utf8_encode u)).
  destruct fuel as [|fuel]; [lia|]. rewrite zlen_cons.
  destruct (Z.ltb_spec u 0x80) as [Hs|Hs].
  - unfold utf8_encode. destruct (Z.ltb_spec u 0x80); [|lia]. cbn [app utf8_length_loop].
    destruct (Z.ltb_spec u 0x80); [|lia]. rewrite IH by lia. do 2 f_equal. lia.
  - destruct (utf8_encode u ++ utf8_text us) as [|c p'] eqn:Ep.
    { apply (f_equal length) in Ep. rewrite length_app in Ep. simpl in Ep. lia. }
    cbn [utf8_length_loop].
    assert (0x80 <= c) as Hc.
    { unfold utf8_encode, is_code_point in *. destruct (Z.ltb_spec u 0x80); [lia|].
      repeat case_match; simpl in Ep; simplify_eq; Z.to_euclidean_division_equations; lia. }
    destruct (Z.ltb_spec c 0x80); [lia|]. rewrite <- Ep.
    pose proof (utf8_encode_zlen u Hu) as Hz. pose proof (zlen_nonneg (utf8_text us)).
    rewrite utf8_decode_encoded, Ok_bind by (done || rewrite zlen_app; lia).
    unfold is_code_point in Hu. destruct (Z.ltb_spec 0x10ffff u); [lia|].
    rewrite IH by lia. do 2 f_equal. lia.
Qed.

(** The head of an encoded text. *)
Lemma utf8_encode_head u :
  is_code_point u ->
  exists c l, utf8_encode u = c :: l /\ (c <? 0x80) = (u <? 0x80) /\
    (u < 0x80 -> c = u /\ l = []).
Proof.
  unfold is_code_point, utf8_encode. intros Hu. destruct (Z.ltb_spec u 0x80).
  { do 2 eexists. split; [done|]. split; [by apply Z.ltb_lt|done]. }
  repeat case_match; do 2 eexists; (split; [done|]); (split; [|lia]);
    apply Z.ltb_ge; Z.to_euclidean_division_equations; lia.
Qed.

Lemma utf8_cpystrn_text us rest n len :
  Forall (fun u => is_code_point u /\ u <> 0) us ->
  zlen (utf8_text us) <= len < 9223372036854775811 ->
  utf8_cpystrn_loop n (utf8_text us ++ 0 :: rest) len = Ok (utf8_text (take n us) ++ [0]).
Proof.
  intros Hus. revert us Hus len.
  induction n as [|n IH]; intros us Hus len Hlen; [by destruct us|].
  destruct Hus as [|u us [Hu Hne] Hus]; [done|].
  change (take (S n) (u :: us)) with (u :: take n us).
  change (utf8_text (u :: ?l)) with (utf8_encode u ++ utf8_text l) in *.
  rewrite zlen_app in Hlen. pose proof (zlen_nonneg (utf8_text us)).
  pose proof (utf8_encode_zlen u Hu).
  destruct (utf8_encode_head u Hu) as (c & l & Ec & Hc & Hsmall).
  rewrite <- !app_assoc, Ec. cbn [utf8_cpystrn_loop app]. rewrite Hc.
  destruct (Z.ltb_spec u 0x80) as [Hs|Hs].
  - destruct (Hsmall Hs) as [-> ->]. destruct (Z.eqb_spec u 0); [done|].
    rewrite Ec in Hlen. rewrite zlen_cons, zlen_nil in Hlen.
    cbn [app]. rewrite IH, Ok_bind; [done|done|]. rewrite u64_id; lia.
  - change (c :: l ++ utf8_text us ++ 0 :: rest)
      with ((c :: l) ++ utf8_text us ++ 0 :: rest). rewrite <- Ec.
    rewrite utf8_decode_encoded, Ok_bind by (done || lia).
    unfold is_code_point in Hu. destruct (Z.ltb_spec 0x10ffff u); [lia|].
    rewrite length_app, Nat.add_sub.
    change (Z.of_nat (length (utf8_encode u))) with (zlen (utf8_encode u)).
    rewrite IH, Ok_bind; [|done|rewrite u64_id; lia].
    rewrite take_app_length. change (c :: l ++ ?x) with ((c :: l) ++ x).
    by rewrite <- Ec.
Qed.

(** The encoding of any code point from 0x80 to 0x10ffff is decoded to
    that code point and skipped, whatever follows; [ngx_utf8_length] of encoded
    text is its number of code points, and [ngx_utf8_cpystrn] with [n] copies
    the first [n - 1] characters of a zero-terminated text, never a part of
    one, and terminates the copy. *)
Theorem utf8_decode_correct u us rest n :
  is_code_point u -> 0x80 <= u -> zlen rest < 9223372036854775807 ->
  Forall (fun u => is_code_point u /\ u <> 0) us ->
  zlen (utf8_text us) < 9223372036854775807 -> 0 < n ->
  ngx_utf8_decode (utf8_encode u ++ rest) (zlen (utf8_encode u ++ rest)) = Ok (u, rest) /\
  ngx_utf8_length (utf8_text us) = Ok (zlen us) /\
  ngx_utf8_cpystrn (utf8_text us ++ 0 :: rest) n (zlen (utf8_text us))
  = Ok (utf8_text (take (Z.to_nat (n - 1)) us) ++ [0]).
Proof.
  intros Hu Hlow Hrest Hus Hmax Hn. pose proof (utf8_encode_zlen u Hu).
  pose proof (zlen_nonneg rest). split_and!.
  - apply utf8_decode_encoded; [done|done|]. rewrite zlen_app. lia.
  - unfold ngx_utf8_length. rewrite utf8_length_loop_text; [done| |done|done].
    eapply Forall_impl; [exact Hus|by intros ? [? _]].
  - unfold ngx_utf8_cpystrn. destruct (Z.eqb_spec n 0); [lia|].
    apply utf8_cpystrn_text; [done|lia].
Qed.

Lemma utf8_decode_correct_witness :
  ngx_utf8_length [0x41; 0xc3; 0xa9; 0xe2; 0x82; 0xac] = Ok 3 /\
  ngx_utf8_cpystrn [0x41; 0xc3; 0xa9; 0xe2; 0x82; 0xac; 0] 3 6 = Ok [0x41; 0xc3; 0xa9; 0].
Proof.
  destruct (utf8_decode_correct 0x20ac [0x41; 0xe9; 0x20ac] [] 3) as (_ & E1 & E2).
  - split; lia.
  - lia.
  - reflexivity.
  - repeat constructor; unfold is_code_point; lia.
  - reflexivity.
  - lia.
  - split; [exact E1|exact E2].
Defined.

(** ** Any bytes *)

Lemma utf8_tail_ok len u p :
  (len <= length p)%nat ->
  exists r q, utf8_tail len u p = Ok (r, q) /\ (length q <= length p)%nat.
Proof.
  revert u p. induction len as [|len IH]; intros u p Hp; [by do 2 eexists|].
  destruct p as [|i p]; [simpl in Hp; lia|]. cbn [utf8_tail].
  case_match; [do 2 eexists; split; [done|]; simpl; lia|].
  destruct (IH (u32 (Z.lor (Z.shiftl u 6) (Z.land i 0x3f))) p) as (r & q & -> & Hq);
    [simpl in Hp; lia|]. do 2 eexists. split; [done|]. simpl. lia.
Qed.

(** A decoder call that gives a character moves on. *)
Lemma utf8_decode_ok c p :
  zlen (c :: p) < 9223372036854775807 ->
  exists r q, ngx_utf8_decode (c :: p) (zlen (c :: p)) = Ok (r, q) /\
    (0x10ffff < r \/ (length q <= length p)%nat).
Proof.
  intros Hp. rewrite zlen_cons in *. pose proof (zlen_nonneg p).
  assert (forall u valid len, (1 <= len)%nat -> exists r q,
    (if u64 (1 + zlen p - 1) <? Z.of_nat len then Ok (UTF8_INCOMPLETE, c :: p)
     else '(r, q) ← utf8_tail len u p;
          match r with
          | None => Ok (UTF8_ERROR, q)
          | Some u => Ok (if valid <? u then u else UTF8_ERROR, q)
          end) = Ok (r, q) /\ (0x10ffff < r \/ (length q <= length p)%nat)) as Hgo.
  { intros u valid len Hlen. rewrite u64_id by lia.
    destruct (Z.ltb_spec (1 + zlen p - 1) (Z.of_nat len)).
    { do 2 eexists. split; [done|]. left. done. }
    destruct (utf8_tail_ok len u p) as (r & q & -> & Hq); [unfold zlen in *; lia|].
    rewrite Ok_bind. destruct r; do 2 eexists; (split; [done|]); by right. }
  unfold ngx_utf8_decode. destruct (0xf0 <=? c); [apply Hgo; lia|].
  destruct (0xe0 <=? c); [apply Hgo; lia|]. destruct (0xc2 <=? c); [apply Hgo; lia|].
  do 2 eexists. split; [done|]. by right.
Qed.

(** On any bytes [ngx_utf8_length] reads only these, terminates, and
    returns at most their number. *)
Theorem utf8_length_total p :
  zlen p < 9223372036854775807 ->
  exists n, ngx_utf8_length p = Ok n /\ 0 <= n <= zlen p.
Proof.
  intros Hp. assert (forall fuel q len, (length q <= fuel)%nat -> zlen q <= zlen p ->
    0 <= len ->
    exists r, utf8_length_loop fuel q len = Ok r /\
      match r with Some n => len <= n <= len + zlen q | None => True end) as Hloop.
  { induction fuel as [|fuel IH]; intros q len Hf Hq Hlen.
    - destruct q; [|simpl in Hf; lia]. eexists. split; [done|]. unfold zlen. simpl. lia.
    - destruct q as [|c q]; [eexists; split; [done|]; unfold zlen; simpl; lia|].
      cbn [utf8_length_loop]. simpl in Hf. rewrite zlen_cons in *.
      case_match.
      + destruct (IH q (len + 1)) as (r & -> & Hr); [lia..|]. eexists. split; [done|].
        destruct r; [lia|done].
      + destruct (utf8_decode_ok c q) as (r & q' & E & Hr); [rewrite zlen_cons; lia|].
        rewrite zlen_cons in E. rewrite E, Ok_bind.
        destruct (Z.ltb_spec 0x10ffff r); [by eexists|].
        destruct Hr as [Hr|Hr]; [lia|].
        destruct (IH q' (len + 1)) as (r' & -> & Hr'); [lia|unfold zlen in *; lia|lia|].
        eexists. split; [done|]. destruct r'; [unfold zlen in *; lia|done]. }
  unfold ngx_utf8_length.
  destruct (Hloop (length p) p 0) as (r & -> & Hr); [lia..|].
  rewrite Ok_bind. eexists. split; [done|]. pose proof (zlen_nonneg p).
  destruct r; lia.
Qed.

Lemma utf8_length_total_witness :
  exists n, ngx_utf8_length [0xff; 0xc3] = Ok n /\ 0 <= n <= 2.
Proof. apply (utf8_length_total [0xff; 0xc3]). reflexivity. Defined.
