(* ===== verification/Machine.v ===== *)
(** * Byte-driven state machines

    The incremental parsers of [src/http] share one shape: a loop over the bytes
    from [b->pos] to [b->last] around a [switch] on a state, which is stored
    when the bytes run out ([NGX_AGAIN]) and loaded by the next call. [scan] is
    that loop, [run] the call; [run_resume] is the theorem that makes the shape
    useful: splitting the input between calls does not change the result. *)

From S2P Require Import Prelude.

(** What the body of the loop does with one byte: [break] out of the [switch],
    [goto done], or [return]. [L] holds the variables that survive between two
    calls, [R] the structure that is filled in. *)
Inductive verdict (L R : Type) :=
| Continue (l : L) (r : R)
| Done (l : L) (r : R)
| Return (rc : Z) (r : R).
Arguments Continue {L R} l r.
Arguments Done {L R} l r.
Arguments Return {L R} rc r.

(** The result of a call: [NGX_AGAIN] with the state stored and [b->pos] at the
    end; a return code from behind the label [done]; or an error, where neither
    the state nor [b->pos] is stored. *)
Inductive parsed (L R : Type) :=
| Again (pos : Z) (l : L) (r : R)
| Parsed (rc pos : Z) (l : L) (r : R)
| Rejected (rc : Z) (r : R).
Arguments Again {L R} pos l r.
Arguments Parsed {L R} rc pos l r.
Arguments Rejected {L R} rc r.

Section machine.
Context {L R : Type}.
Context (step : list Z -> Z -> Z -> L -> R -> res (verdict L R)).
Context (done : Z -> L -> R -> parsed L R).

(** [for (p = pos; p < last; p++) { ch = *p; switch (state) ... }] with [n]
    bytes left. *)
Fixpoint scan (b : list Z) (n : nat) (p : Z) (l : L) (r : R) : res (Z * verdict L R) :=
  match n with
  | O => Ok (p, Continue l r)
  | S n =>
      ch ← get b p;
      v ← step b p ch l r;
      match v with
      | Continue l r => scan b n (p + 1) l r
      | _ => Ok (p, v)
      end
  end.

(** A call on the memory [b], from [pos] to [last]. *)
Definition run (b : list Z) (last pos : Z) (l : L) (r : R) : res (parsed L R) :=
  '(p, v) ← scan b (Z.to_nat (last - pos)) pos l r;
  Ok (match v with
      | Continue l r => Again p l r
      | Done l r => done p l r
      | Return rc r => Rejected rc r
      end).

Lemma scan_add b n m p l r :
  scan b (n + m) p l r =
    '(p, v) ← scan b n p l r;
    match v with
    | Continue l r => scan b m p l r
    | _ => Ok (p, v)
    end.
Proof.
  revert p l r. induction n as [|n IH]; intros p l r; [done|].
  cbn. destruct (get b p) as [ch| |]; [|done|done]. cbn.
  destruct (step b p ch l r) as [[l' r'|l' r'|rc r']| |]; try done. apply IH.
Qed.

Lemma scan_continue_pos b n p l r p' l' r' :
  scan b n p l r = Ok (p', Continue l' r') -> p' = p + Z.of_nat n.
Proof.
  revert p l r. induction n as [|n IH]; intros p l r; cbn.
  - intros [= <- _ _]. lia.
  - destruct (get b p) as [ch| |]; [|done|done]. cbn.
    destruct (step b p ch l r) as [[l1 r1|l1 r1|rc r1]| |]; try done.
    cbn. intros H. apply IH in H. lia.
Qed.

(** Invariants: [I] holds in front of each byte. *)
Lemma scan_invariant (I : Z -> L -> R -> Prop) (Q : Z -> verdict L R -> Prop) b last n p l r :
  I p l r -> p + Z.of_nat n = last -> 0 <= p -> last <= zlen b ->
  (forall l r, I last l r -> Q last (Continue l r)) ->
  (forall p ch l r, 0 <= p < last -> get b p = Ok ch -> I p l r ->
     exists v, step b p ch l r = Ok v /\
       match v with Continue l' r' => I (p + 1) l' r' | _ => Q p v end) ->
  exists p' v, scan b n p l r = Ok (p', v) /\ p <= p' <= last /\ Q p' v.
Proof.
  intros HI Hn Hp Hlast Hend Hstep. revert p l r HI Hn Hp.
  induction n as [|n IH]; intros p l r HI Hn Hp.
  - exists p, (Continue l r). split; [done|]. split; [lia|].
    replace p with last in * by lia. by apply Hend.
  - destruct (get_ok b p) as [ch Hch]; [lia|].
    destruct (Hstep p ch l r) as (v & Hv & HQ); [lia|done|done|].
    cbn [scan]. rewrite Hch, Ok_bind, Hv, Ok_bind.
    destruct v as [l' r'|l' r'|rc r'].
    + destruct (IH (p + 1) l' r') as (p' & v & H1 & H2 & H3); [done|lia|lia|].
      exists p', v. split; [done|]. split; [lia|done].
    + eexists _, _. split; [done|]. split; [lia|done].
    + eexists _, _. split; [done|]. split; [lia|done].
Qed.

(** What the body decides does not depend on the bytes behind the current one,
    as long as there is one. *)
Definition stable : Prop := forall x y y' p ch l r v,
  y' <> [] -> 0 <= p < zlen x ->
  step (x ++ y) p ch l r = Ok v -> step (x ++ y') p ch l r = Ok v.

Lemma scan_app x y y' n p l r v :
  stable -> y' <> [] -> 0 <= p -> p + Z.of_nat n <= zlen x ->
  scan (x ++ y) n p l r = Ok v -> scan (x ++ y') n p l r = Ok v.
Proof.
  intros Hs Hy. revert p l r. induction n as [|n IH]; intros p l r Hp Hn; cbn; [done|].
  rewrite !get_app_l by lia. destruct (get x p) as [ch| |]; [|done|done]. cbn.
  destruct (step (x ++ y) p ch l r) as [w| |] eqn:E; [|done|done].
  rewrite (Hs x y y' p ch l r w) by (done || lia).
  cbn. destruct w; [|done|done]. apply IH; lia.
Qed.

(** [done] ends the parsing. *)
Definition final : Prop := forall p l r, match done p l r with Again _ _ _ => False | _ => True end.

(** Splitting the input does not matter. The first call sees the bytes [x]; the
    bytes behind, [y] at that time, are [y'] for the next call. A final result
    does not depend on them, and after [NGX_AGAIN] the next call goes on as a
    single call would. *)
Lemma run_resume x y y' last pos l r v :
  stable -> y' <> [] -> 0 <= pos <= zlen x -> zlen x <= last ->
  final ->
  run (x ++ y) (zlen x) pos l r = Ok v ->
  run (x ++ y') last pos l r =
    match v with
    | Again p l r => run (x ++ y') last p l r
    | _ => Ok v
    end
  /\ match v with Again p _ _ => p = zlen x | _ => True end.
Proof.
  intros Hs Hy Hpos Hlast Hdone. unfold run at 1.
  intros H. apply bind_Ok in H as ([p w] & Hw & [= <-]). unfold run at 1.
  replace (Z.to_nat (last - pos))
    with (Z.to_nat (zlen x - pos) + Z.to_nat (last - zlen x))%nat by lia.
  rewrite scan_add, (scan_app x y y' _ _ _ _ (p, w) Hs) by (lia || done).
  rewrite Ok_bind. destruct w as [l' r'|l' r'|rc r']; cbn [mbind res_bind].
  - apply scan_continue_pos in Hw. split; [|lia]. unfold run.
    by replace (Z.to_nat (last - p)) with (Z.to_nat (last - zlen x)) by lia.
  - specialize (Hdone p l' r'). by destruct (done p l' r').
  - done.
Qed.

(** The state stored after calls that received the bytes [x] in pieces and
    returned [NGX_AGAIN]; [x0] are the bytes in front of the element parsed. *)
Inductive reached (x0 : list Z) (l0 : L) (r0 : R) : list Z -> L -> R -> Prop :=
| reached_start : reached x0 l0 r0 x0 l0 r0
| reached_again x piece y l r l' r' :
    reached x0 l0 r0 x l r -> y <> [] ->
    run (x ++ piece ++ y) (zlen x + zlen piece) (zlen x) l r
      = Ok (Again (zlen x + zlen piece) l' r') ->
    reached x0 l0 r0 (x ++ piece) l' r'.

(** The next call goes on as a single call on all the bytes would. *)
Lemma run_reached x0 l0 r0 x l r :
  stable -> final -> reached x0 l0 r0 x l r ->
  zlen x0 <= zlen x /\
  forall y last, y <> [] -> zlen x <= last ->
    run (x ++ y) last (zlen x) l r = run (x ++ y) last (zlen x0) l0 r0.
Proof.
  intros Hs Hf. induction 1 as [|x piece y l r l' r' Hr [IH1 IH2] Hy Hrun]; [done|].
  pose proof (zlen_nonneg piece). pose proof (zlen_nonneg x0).
  rewrite zlen_app. split; [lia|]. intros y' last Hy' Hlast.
  rewrite IH2 in Hrun by (lia || by destruct piece).
  rewrite app_assoc, <- zlen_app in Hrun.
  apply (run_resume _ y y' last) in Hrun as [Hrun _]; rewrite ?zlen_app in *; auto; lia.
Qed.

(** One byte. *)
Lemma run_cons b last pos ch l r :
  0 <= pos < last -> get b pos = Ok ch ->
  run b last pos l r =
    v ← step b pos ch l r;
    match v with
    | Continue l r => run b last (pos + 1) l r
    | Done l r => Ok (done pos l r)
    | Return rc r => Ok (Rejected rc r)
    end.
Proof.
  intros Hp Hch. unfold run.
  replace (Z.to_nat (last - pos)) with (S (Z.to_nat (last - (pos + 1)))) by lia.
  cbn [scan]. rewrite Hch, Ok_bind.
  destruct (step b pos ch l r) as [[l' r'|l' r'|rc r']| |]; done.
Qed.

(** No byte left. *)
Lemma run_end b last l r : run b last last l r = Ok (Again last l r).
Proof. unfold run. by rewrite Z.sub_diag. Qed.

(** The call as a whole, by an invariant. *)
Lemma run_invariant (I : Z -> L -> R -> Prop) (Q : parsed L R -> Prop) b last pos l r :
  I pos l r -> 0 <= pos <= last -> last <= zlen b ->
  (forall l r, I last l r -> Q (Again last l r)) ->
  (forall p ch l r, pos <= p < last -> get b p = Ok ch -> I p l r ->
     exists v, step b p ch l r = Ok v /\
       match v with
       | Continue l' r' => I (p + 1) l' r'
       | Done l' r' => Q (done p l' r')
       | Return rc r' => Q (Rejected rc r')
       end) ->
  exists v, run b last pos l r = Ok v /\ Q v.
Proof.
  intros HI Hpos Hlast Hend Hstep.
  destruct (scan_invariant (fun p l r => I p l r /\ pos <= p)
    (fun p v => Q (match v with
                   | Continue l r => Again p l r
                   | Done l r => done p l r
                   | Return rc r => Rejected rc r
                   end)) b last (Z.to_nat (last - pos)) pos l r)
    as (p & v & Hv & _ & HQ); [by split|lia|lia|done|intros ? ? [? ?]; auto| |].
  - intros p ch l0 r0 Hp Hch [H1 H2].
    destruct (Hstep p ch l0 r0) as (v & Hv & H3); [lia|done|done|].
    exists v. split; [done|]. destruct v; [|done|done]. split; [done|lia].
  - eexists. unfold run. rewrite Hv. split; [done|]. by destruct v.
Qed.
End machine.
