(* ===== verification/HttpRequest.v ===== *)
(** * The HTTP request structure and the tables of the parsers

    The fields of [ngx_http_request_t] ([src/http/ngx_http_request.h]) that the
    parser of the request line fills in, the constants, and the table [usual] of
    [src/http/ngx_http_parse.c]. A pointer into the input is an offset;
    [NULL] is [None]. *)

From S2P Require Import Prelude.

Definition NGX_HTTP_UNKNOWN : Z := 0x1.
Definition NGX_HTTP_GET : Z := 0x2.
Definition NGX_HTTP_HEAD : Z := 0x4.
Definition NGX_HTTP_POST : Z := 0x8.
Definition NGX_HTTP_PUT : Z := 0x10.
Definition NGX_HTTP_DELETE : Z := 0x20.
Definition NGX_HTTP_MKCOL : Z := 0x40.
Definition NGX_HTTP_COPY : Z := 0x80.
Definition NGX_HTTP_MOVE : Z := 0x100.
Definition NGX_HTTP_OPTIONS : Z := 0x200.
Definition NGX_HTTP_PROPFIND : Z := 0x400.
Definition NGX_HTTP_PROPPATCH : Z := 0x800.
Definition NGX_HTTP_LOCK : Z := 0x1000.
Definition NGX_HTTP_UNLOCK : Z := 0x2000.
Definition NGX_HTTP_PATCH : Z := 0x4000.
Definition NGX_HTTP_TRACE : Z := 0x8000.
Definition NGX_HTTP_CONNECT : Z := 0x10000.

Definition NGX_HTTP_PARSE_HEADER_DONE : Z := 1.
Definition NGX_HTTP_PARSE_INVALID_METHOD : Z := 10.
Definition NGX_HTTP_PARSE_INVALID_REQUEST : Z := 11.
Definition NGX_HTTP_PARSE_INVALID_VERSION : Z := 12.
Definition NGX_HTTP_PARSE_INVALID_09_METHOD : Z := 13.
Definition NGX_HTTP_PARSE_INVALID_HEADER : Z := 14.

Definition NGX_HTTP_BAD_REQUEST : Z := 400.
Definition NGX_HTTP_REQUEST_ENTITY_TOO_LARGE : Z := 413.
Definition NGX_HTTP_INTERNAL_SERVER_ERROR : Z := 500.

(** The characters that need no attention inside a URI. *)
Definition usual : list Z :=
  [0x00000000; 0x7fff37d6; 0xffffffff; 0x7fffffff;
   0xffffffff; 0xffffffff; 0xffffffff; 0xffffffff].

(** [usual[ch >> 5] & (1U << (ch & 0x1f))] *)
Definition is_usual (ch : Z) : bool :=
  negb (Z.land (table_at usual (Z.shiftr ch 5)) (Z.shiftl 1 (Z.land ch 0x1f)) =? 0).

(** [c = ch | 0x20; c >= 'a' && c <= 'z'] *)
Definition is_letter (ch : Z) : bool := between "a"%chr "z"%chr (u8 (Z.lor ch 0x20)).

(** [ch < 0x20 || ch == 0x7f] *)
Definition is_control (ch : Z) : bool := (ch <? 0x20) || (ch =? 0x7f).

Record request := Request {
  request_start : option Z;
  request_end : option Z;
  method_end : option Z;
  uri_start : option Z;
  uri_end : option Z;
  uri_ext : option Z;
  args_start : option Z;
  schema_start : option Z;
  schema_end : option Z;
  host_start : option Z;
  host_end : option Z;
  port_end : option Z;
  http_protocol : option Z;
  method : Z;
  http_major : Z;
  http_minor : Z;
  http_version : Z;
  complex_uri : bool;
  quoted_uri : bool;
  plus_in_uri : bool;
  empty_path_in_uri : bool
}.

#[export] Instance request_rebuild : Rebuild request := fun r =>
  Request r.(request_start) r.(request_end) r.(method_end) r.(uri_start) r.(uri_end)
    r.(uri_ext) r.(args_start) r.(schema_start) r.(schema_end) r.(host_start) r.(host_end)
    r.(port_end) r.(http_protocol) r.(method) r.(http_major) r.(http_minor)
    r.(http_version) r.(complex_uri) r.(quoted_uri) r.(plus_in_uri) r.(empty_path_in_uri).

(** The request as it is created: zeroed memory, the method unknown. *)
Definition new_request : request :=
  Request None None None None None None None None None None None None None
    NGX_HTTP_UNKNOWN 0 0 0 false false false false.

(** [NULL + n] is undefined. *)
Definition ptr (p : option Z) : res Z :=
  match p with Some p => Ok p | None => Fault end.

(** ** The table *)

(** No control character, space, percent sign, hash, plus, dot, slash or question
    mark is usual; every other character is. *)
Definition unusual (ch : Z) : bool :=
  (ch <=? 0x20) || (ch =? 0x7f) || (ch =? "#"%chr) || (ch =? "%"%chr)
  || (ch =? "+"%chr) || (ch =? "."%chr) || (ch =? "/"%chr) || (ch =? "?"%chr).

Lemma is_usual_all :
  forallb (fun n => eqb (is_usual (Z.of_nat n)) (negb (unusual (Z.of_nat n)))) (seq 0 256)
  = true.
Proof. vm_compute. reflexivity. Qed.

Lemma is_usual_spec ch : is_byte ch -> is_usual ch = negb (unusual ch).
Proof.
  intros Hc. pose proof is_usual_all as H. rewrite forallb_forall in H.
  specialize (H (Z.to_nat ch)). rewrite Z2Nat.id in H by lia.
  apply eqb_prop, H, in_seq. lia.
Qed.
