(* ===== verification/HttpParseUri.v ===== *)
(** * The URI on its own

    [ngx_http_parse_uri] of [src/http/ngx_http_parse.c]: the URI of an HTTP/2
    request, which does not come inside a request line. *)

From S2P Require Import Prelude HttpRequest Machine.

Inductive parse_uri_state :=
| sw_start
| sw_after_slash_in_uri
| sw_check_uri
| sw_uri.

Abbreviation outcome := (verdict parse_uri_state request).

(** [ch <= 0x20 || ch == 0x7f] *)
Definition is_blank (ch : Z) : bool := (ch <=? 0x20) || (ch =? 0x7f).

Definition uri_after_slash (p ch : Z) (r : request) : outcome :=
  if is_usual ch then Continue sw_check_uri r
  else if ch =? "."%chr then Continue sw_uri (r <| complex_uri := true |>)
  else if ch =? "%"%chr then Continue sw_uri (r <| quoted_uri := true |>)
  else if ch =? "/"%chr then Continue sw_uri (r <| complex_uri := true |>)
  else if ch =? "?"%chr then Continue sw_uri (r <| args_start := Some (p + 1) |>)
  else if ch =? "#"%chr then Continue sw_uri (r <| complex_uri := true |>)
  else if ch =? "+"%chr then Continue sw_after_slash_in_uri (r <| plus_in_uri := true |>)
  else if is_blank ch then Return NGX_ERROR r
  else Continue sw_check_uri r.

Definition uri_check (p ch : Z) (r : request) : outcome :=
  if is_usual ch then Continue sw_check_uri r
  else if ch =? "/"%chr then Continue sw_after_slash_in_uri (r <| uri_ext := None |>)
  else if ch =? "."%chr then Continue sw_check_uri (r <| uri_ext := Some (p + 1) |>)
  else if ch =? "%"%chr then Continue sw_uri (r <| quoted_uri := true |>)
  else if ch =? "?"%chr then Continue sw_uri (r <| args_start := Some (p + 1) |>)
  else if ch =? "#"%chr then Continue sw_uri (r <| complex_uri := true |>)
  else if ch =? "+"%chr then Continue sw_check_uri (r <| plus_in_uri := true |>)
  else if is_blank ch then Return NGX_ERROR r
  else Continue sw_check_uri r.

Definition uri_rest (ch : Z) (r : request) : outcome :=
  if is_usual ch then Continue sw_uri r
  else if ch =? "#"%chr then Continue sw_uri (r <| complex_uri := true |>)
  else if is_blank ch then Return NGX_ERROR r
  else Continue sw_uri r.

(** The [switch] on the state. *)
Definition uri_step (p ch : Z) (state : parse_uri_state) (r : request) : outcome :=
  match state with
  | sw_start =>
      if negb (ch =? "/"%chr) then Return NGX_ERROR r
      else Continue sw_after_slash_in_uri r
  | sw_after_slash_in_uri => uri_after_slash p ch r
  | sw_check_uri => uri_check p ch r
  | sw_uri => uri_rest ch r
  end.

Definition parse_uri_step (b : list Z) (p ch : Z) (state : parse_uri_state) (r : request)
    : res outcome :=
  Ok (uri_step p ch state r).

(** The call: the return code and the request. [for (p = r->uri_start;
    p != r->uri_end; p++)] runs over the bytes in between. *)
Definition ngx_http_parse_uri (b : list Z) (r : request) : res (Z * request) :=
  start ← ptr r.(uri_start);
  finish ← ptr r.(uri_end);
  '(_, v) ← scan parse_uri_step b (Z.to_nat (finish - start)) start sw_start r;
  Ok (match v with
      | Continue _ r => (NGX_OK, r)
      | Done _ r => (NGX_OK, r)
      | Return rc r => (rc, r)
      end).

(** ** The loop on a list of bytes *)

Fixpoint uri_run (p : Z) (state : parse_uri_state) (l : list Z) (r : request)
    : option (parse_uri_state * request) :=
  match l with
  | [] => Some (state, r)
  | c :: l =>
      match uri_step p c state r with
      | Continue state r => uri_run (p + 1) state l r
      | _ => None
      end
  end.

Lemma uri_run_snoc p st l r c :
  uri_run p st (l ++ [c]) r =
    '(st, r) ← uri_run p st l r;
    match uri_step (p + zlen l) c st r with
    | Continue st r => Some (st, r)
    | _ => None
    end.
Proof.
  revert p st r. induction l as [|d l IH]; intros p st r.
  - cbn. rewrite zlen_nil, Z.add_0_r. by destruct (uri_step p c st r).
  - cbn. destruct (uri_step p d st r) as [st' r'|? ?|? ?]; [|done|done].
    rewrite IH. by replace (p + zlen (d :: l)) with (p + 1 + zlen l) by (rewrite zlen_cons; lia).
Qed.

Lemma scan_uri_run b p st l r st' r' :
  holds b p l -> uri_run p st l r = Some (st', r') ->
  scan parse_uri_step b (length l) p st r = Ok (p + zlen l, Continue st' r').
Proof.
  revert p st r. induction l as [|c l IH]; intros p st r Hl H.
  - injection H as <- <-. by rewrite zlen_nil, Z.add_0_r.
  - apply holds_cons in Hl as [Hc Hl]. cbn [scan uri_run length] in *. rewrite Hc, Ok_bind.
    change (parse_uri_step b p c st r) with (Ok (uri_step p c st r)). rewrite Ok_bind.
    destruct (uri_step p c st r) as [st1 r1|? ?|? ?]; [|done|done].
    rewrite (IH _ _ _ Hl H). by replace (p + zlen (c :: l)) with (p + 1 + zlen l)
      by (rewrite zlen_cons; lia).
Qed.
