(* ===== verification/HttpRequestLine.v ===== *)
(** * The request line

    [ngx_http_parse_request_line] of [src/http/ngx_http_parse.c], a definition
    per group of states, on the machine of [Machine]. *)

From S2P Require Import Prelude HttpRequest Machine.

(** ** The comparisons of the method *)

(** [*(uint32_t * ) m] on a little-endian machine *)
Definition load32 (b : list Z) (m : Z) : res Z :=
  c0 ← get b m; c1 ← get b (m + 1); c2 ← get b (m + 2); c3 ← get b (m + 3);
  Ok (Z.lor (Z.lor (Z.lor (Z.shiftl c3 24) (Z.shiftl c2 16)) (Z.shiftl c1 8)) c0).

Definition word (c0 c1 c2 c3 : Z) : Z :=
  Z.lor (Z.lor (Z.lor (Z.shiftl c3 24) (Z.shiftl c2 16)) (Z.shiftl c1 8)) c0.

(** [x && y] where [x] reads memory *)
Definition and_then (x : res bool) (y : res bool) : res bool :=
  t ← x; match t with true => y | false => Ok false end.

Definition ngx_str3_cmp (b : list Z) (m c0 c1 c2 c3 : Z) : res bool :=
  w ← load32 b m; Ok (w =? word c0 c1 c2 c3).

Definition ngx_str3Ocmp (b : list Z) (m c0 c1 c2 c3 : Z) : res bool :=
  w ← load32 b m; Ok (w =? word c0 c1 c2 c3).

Definition ngx_str4cmp (b : list Z) (m c0 c1 c2 c3 : Z) : res bool :=
  w ← load32 b m; Ok (w =? word c0 c1 c2 c3).

Definition ngx_str5cmp (b : list Z) (m c0 c1 c2 c3 c4 : Z) : res bool :=
  and_then (ngx_str4cmp b m c0 c1 c2 c3) (c ← get b (m + 4); Ok (c =? c4)).

Definition ngx_str6cmp (b : list Z) (m c0 c1 c2 c3 c4 c5 : Z) : res bool :=
  and_then (ngx_str4cmp b m c0 c1 c2 c3)
    (w ← load32 b (m + 4); Ok (Z.land w 0xffff =? Z.lor (Z.shiftl c5 8) c4)).

Definition ngx_str7_cmp (b : list Z) (m c0 c1 c2 c3 c4 c5 c6 c7 : Z) : res bool :=
  and_then (ngx_str4cmp b m c0 c1 c2 c3)
    (w ← load32 b (m + 4); Ok (w =? word c4 c5 c6 c7)).

Definition ngx_str8cmp (b : list Z) (m c0 c1 c2 c3 c4 c5 c6 c7 : Z) : res bool :=
  and_then (ngx_str4cmp b m c0 c1 c2 c3)
    (w ← load32 b (m + 4); Ok (w =? word c4 c5 c6 c7)).

Definition ngx_str9cmp (b : list Z) (m c0 c1 c2 c3 c4 c5 c6 c7 c8 : Z) : res bool :=
  and_then (ngx_str8cmp b m c0 c1 c2 c3 c4 c5 c6 c7)
    (c ← get b (m + 8); Ok (c =? c8)).

(** A sequence of [if (test) { r->method = code; break; }]. *)
Fixpoint first_method (tests : list (res bool * Z)) (method : Z) : res Z :=
  match tests with
  | [] => Ok method
  | (test, code) :: tests =>
      t ← test;
      match t with true => Ok code | false => first_method tests method end
  end.

(** [switch (p - m)]: the new value of [r->method]. *)
Definition parse_method (b : list Z) (m n method : Z) : res Z :=
  if n =? 3 then
    first_method
      [(ngx_str3_cmp b m "G"%chr "E"%chr "T"%chr " "%chr, NGX_HTTP_GET);
       (ngx_str3_cmp b m "P"%chr "U"%chr "T"%chr " "%chr, NGX_HTTP_PUT)] method
  else if n =? 4 then
    c ← get b (m + 1);
    if c =? "O"%chr then
      first_method
        [(ngx_str3Ocmp b m "P"%chr "O"%chr "S"%chr "T"%chr, NGX_HTTP_POST);
         (ngx_str3Ocmp b m "C"%chr "O"%chr "P"%chr "Y"%chr, NGX_HTTP_COPY);
         (ngx_str3Ocmp b m "M"%chr "O"%chr "V"%chr "E"%chr, NGX_HTTP_MOVE);
         (ngx_str3Ocmp b m "L"%chr "O"%chr "C"%chr "K"%chr, NGX_HTTP_LOCK)] method
    else
      first_method
        [(ngx_str4cmp b m "H"%chr "E"%chr "A"%chr "D"%chr, NGX_HTTP_HEAD)] method
  else if n =? 5 then
    first_method
      [(ngx_str5cmp b m "M"%chr "K"%chr "C"%chr "O"%chr "L"%chr, NGX_HTTP_MKCOL);
       (ngx_str5cmp b m "P"%chr "A"%chr "T"%chr "C"%chr "H"%chr, NGX_HTTP_PATCH);
       (ngx_str5cmp b m "T"%chr "R"%chr "A"%chr "C"%chr "E"%chr, NGX_HTTP_TRACE)] method
  else if n =? 6 then
    first_method
      [(ngx_str6cmp b m "D"%chr "E"%chr "L"%chr "E"%chr "T"%chr "E"%chr, NGX_HTTP_DELETE);
       (ngx_str6cmp b m "U"%chr "N"%chr "L"%chr "O"%chr "C"%chr "K"%chr, NGX_HTTP_UNLOCK)]
      method
  else if n =? 7 then
    method ← first_method
      [(ngx_str7_cmp b m "O"%chr "P"%chr "T"%chr "I"%chr "O"%chr "N"%chr "S"%chr " "%chr,
        NGX_HTTP_OPTIONS)] method;
    first_method
      [(ngx_str7_cmp b m "C"%chr "O"%chr "N"%chr "N"%chr "E"%chr "C"%chr "T"%chr " "%chr,
        NGX_HTTP_CONNECT)] method
  else if n =? 8 then
    first_method
      [(ngx_str8cmp b m "P"%chr "R"%chr "O"%chr "P"%chr "F"%chr "I"%chr "N"%chr "D"%chr,
        NGX_HTTP_PROPFIND)] method
  else if n =? 9 then
    first_method
      [(ngx_str9cmp b m "P"%chr "R"%chr "O"%chr "P"%chr "P"%chr "A"%chr "T"%chr "C"%chr
          "H"%chr, NGX_HTTP_PROPPATCH)] method
  else Ok method.

(** ** The states *)

Inductive request_line_state :=
| sw_start
| sw_method
| sw_spaces_before_uri
| sw_schema
| sw_schema_slash
| sw_schema_slash_slash
| sw_host_start
| sw_host
| sw_host_end
| sw_host_ip_literal
| sw_port
| sw_after_slash_in_uri
| sw_check_uri
| sw_uri
| sw_http_09
| sw_http_H
| sw_http_HT
| sw_http_HTT
| sw_http_HTTP
| sw_first_major_digit
| sw_major_digit
| sw_first_minor_digit
| sw_minor_digit
| sw_spaces_after_digit
| sw_almost_done.

#[export] Instance request_line_state_eq : EqDecision request_line_state.
Proof. solve_decision. Defined.

Abbreviation outcome := (verdict request_line_state request).

Definition is_method_char (ch : Z) : bool :=
  between "A"%chr "Z"%chr ch || (ch =? "_"%chr) || (ch =? "-"%chr).

Definition invalid_request (r : request) : res outcome :=
  Ok (Return NGX_HTTP_PARSE_INVALID_REQUEST r).

(** [if (ch == c) state = next; else return NGX_HTTP_PARSE_INVALID_REQUEST] *)
Definition expect (c ch : Z) (next : request_line_state) (r : request) : res outcome :=
  if ch =? c then Ok (Continue next r) else invalid_request r.

Definition st_start (p ch : Z) (r : request) : res outcome :=
  let r := r <| request_start := Some p |> in
  if (ch =? CR) || (ch =? LF) then Ok (Continue sw_start r)
  else if negb (is_method_char ch) then Ok (Return NGX_HTTP_PARSE_INVALID_METHOD r)
  else Ok (Continue sw_method r).

Definition st_method (b : list Z) (p ch : Z) (r : request) : res outcome :=
  if ch =? " "%chr then
    let r := r <| method_end := Some (p - 1) |> in
    m ← ptr r.(request_start);
    method' ← parse_method b m (p - m) r.(method);
    Ok (Continue sw_spaces_before_uri (r <| method := method' |>))
  else if negb (is_method_char ch) then Ok (Return NGX_HTTP_PARSE_INVALID_METHOD r)
  else Ok (Continue sw_method r).

Definition st_spaces_before_uri (p ch : Z) (r : request) : res outcome :=
  if ch =? "/"%chr then Ok (Continue sw_after_slash_in_uri (r <| uri_start := Some p |>))
  else if is_letter ch then Ok (Continue sw_schema (r <| schema_start := Some p |>))
  else expect " "%chr ch sw_spaces_before_uri r.

Definition st_schema (p ch : Z) (r : request) : res outcome :=
  if is_letter ch then Ok (Continue sw_schema r)
  else if is_digit ch || (ch =? "+"%chr) || (ch =? "-"%chr) || (ch =? "."%chr)
  then Ok (Continue sw_schema r)
  else if ch =? ":"%chr then Ok (Continue sw_schema_slash (r <| schema_end := Some p |>))
  else invalid_request r.

(** The URI of a request without a path: the second slash behind the scheme. *)
Definition single_slash (r : request) : res outcome :=
  e ← ptr r.(schema_end);
  Ok (Continue sw_http_09 (r <| uri_start := Some (e + 1) |> <| uri_end := Some (e + 2) |>)).

Definition st_host_end (p ch : Z) (r : request) : res outcome :=
  let r := r <| host_end := Some p |> in
  if ch =? ":"%chr then Ok (Continue sw_port r)
  else if ch =? "/"%chr then
    Ok (Continue sw_after_slash_in_uri (r <| uri_start := Some p |>))
  else if ch =? "?"%chr then
    Ok (Continue sw_uri (r <| uri_start := Some p |> <| args_start := Some (p + 1) |>
                           <| empty_path_in_uri := true |>))
  else if ch =? " "%chr then single_slash r
  else invalid_request r.

Definition st_host (p ch : Z) (r : request) : res outcome :=
  if is_letter ch then Ok (Continue sw_host r)
  else if is_digit ch || (ch =? "."%chr) || (ch =? "-"%chr) then Ok (Continue sw_host r)
  else st_host_end p ch r.

Definition st_host_start (p ch : Z) (r : request) : res outcome :=
  let r := r <| host_start := Some p |> in
  if ch =? "["%chr then Ok (Continue sw_host_ip_literal r) else st_host p ch r.

(** The characters allowed between the brackets. *)
Definition is_ip_literal_char (ch : Z) : bool :=
  is_digit ch || is_letter ch || (ch =? ":"%chr)
  || bool_decide (ch ∈ str "-._~") || bool_decide (ch ∈ str "!$&'()*+,;=").

Definition st_host_ip_literal (ch : Z) (r : request) : res outcome :=
  if ch =? "]"%chr then Ok (Continue sw_host_end r)
  else if is_ip_literal_char ch then Ok (Continue sw_host_ip_literal r)
  else invalid_request r.

Definition st_port (p ch : Z) (r : request) : res outcome :=
  if is_digit ch then Ok (Continue sw_port r)
  else if ch =? "/"%chr then
    Ok (Continue sw_after_slash_in_uri (r <| port_end := Some p |> <| uri_start := Some p |>))
  else if ch =? "?"%chr then
    Ok (Continue sw_uri (r <| port_end := Some p |> <| uri_start := Some p |>
                           <| args_start := Some (p + 1) |> <| empty_path_in_uri := true |>))
  else if ch =? " "%chr then single_slash (r <| port_end := Some p |>)
  else invalid_request r.

(** The end of the URI: a space, or a line end (HTTP/0.9). *)
Definition uri_finished (p ch : Z) (r : request) : option (res outcome) :=
  let r := r <| uri_end := Some p |> in
  if ch =? " "%chr then Some (Ok (Continue sw_http_09 r))
  else if ch =? CR then Some (Ok (Continue sw_almost_done (r <| http_minor := 9 |>)))
  else if ch =? LF then Some (Ok (Done sw_uri (r <| http_minor := 9 |>)))
  else None.

Definition st_after_slash_in_uri (p ch : Z) (r : request) : res outcome :=
  if is_usual ch then Ok (Continue sw_check_uri r)
  else match uri_finished p ch r with
  | Some o => o
  | None =>
      if (ch =? "."%chr) || (ch =? "/"%chr) || (ch =? "#"%chr)
      then Ok (Continue sw_uri (r <| complex_uri := true |>))
      else if ch =? "%"%chr then Ok (Continue sw_uri (r <| quoted_uri := true |>))
      else if ch =? "?"%chr then Ok (Continue sw_uri (r <| args_start := Some (p + 1) |>))
      else if ch =? "+"%chr
      then Ok (Continue sw_after_slash_in_uri (r <| plus_in_uri := true |>))
      else if is_control ch then invalid_request r
      else Ok (Continue sw_check_uri r)
  end.

Definition st_check_uri (p ch : Z) (r : request) : res outcome :=
  if is_usual ch then Ok (Continue sw_check_uri r)
  else match uri_finished p ch r with
  | Some o => o
  | None =>
      if ch =? "/"%chr then Ok (Continue sw_after_slash_in_uri (r <| uri_ext := None |>))
      else if ch =? "."%chr then Ok (Continue sw_check_uri (r <| uri_ext := Some (p + 1) |>))
      else if ch =? "%"%chr then Ok (Continue sw_uri (r <| quoted_uri := true |>))
      else if ch =? "?"%chr then Ok (Continue sw_uri (r <| args_start := Some (p + 1) |>))
      else if ch =? "#"%chr then Ok (Continue sw_uri (r <| complex_uri := true |>))
      else if ch =? "+"%chr then Ok (Continue sw_check_uri (r <| plus_in_uri := true |>))
      else if is_control ch then invalid_request r
      else Ok (Continue sw_check_uri r)
  end.

Definition st_uri (p ch : Z) (r : request) : res outcome :=
  if is_usual ch then Ok (Continue sw_uri r)
  else match uri_finished p ch r with
  | Some o => o
  | None =>
      if ch =? "#"%chr then Ok (Continue sw_uri (r <| complex_uri := true |>))
      else if is_control ch then invalid_request r
      else Ok (Continue sw_uri r)
  end.

Definition st_http_09 (p ch : Z) (r : request) : res outcome :=
  if ch =? " "%chr then Ok (Continue sw_http_09 r)
  else if ch =? CR then Ok (Continue sw_almost_done (r <| http_minor := 9 |>))
  else if ch =? LF then Ok (Done sw_http_09 (r <| http_minor := 9 |>))
  else if ch =? "H"%chr then Ok (Continue sw_http_H (r <| http_protocol := Some p |>))
  else invalid_request r.

Definition st_first_major_digit (ch : Z) (r : request) : res outcome :=
  if negb (between "1"%chr "9"%chr ch) then invalid_request r
  else
    let r := r <| http_major := u16 (ch - "0"%chr) |> in
    if 1 <? r.(http_major) then Ok (Return NGX_HTTP_PARSE_INVALID_VERSION r)
    else Ok (Continue sw_major_digit r).

Definition st_major_digit (ch : Z) (r : request) : res outcome :=
  if ch =? "."%chr then Ok (Continue sw_first_minor_digit r)
  else if negb (is_digit ch) then invalid_request r
  else
    let r := r <| http_major := u16 (r.(http_major) * 10 + (ch - "0"%chr)) |> in
    if 1 <? r.(http_major) then Ok (Return NGX_HTTP_PARSE_INVALID_VERSION r)
    else Ok (Continue sw_major_digit r).

Definition st_first_minor_digit (ch : Z) (r : request) : res outcome :=
  if negb (is_digit ch) then invalid_request r
  else Ok (Continue sw_minor_digit (r <| http_minor := u16 (ch - "0"%chr) |>)).

Definition st_minor_digit (ch : Z) (r : request) : res outcome :=
  if ch =? CR then Ok (Continue sw_almost_done r)
  else if ch =? LF then Ok (Done sw_minor_digit r)
  else if ch =? " "%chr then Ok (Continue sw_spaces_after_digit r)
  else if negb (is_digit ch) then invalid_request r
  else if 99 <? r.(http_minor) then invalid_request r
  else Ok (Continue sw_minor_digit
             (r <| http_minor := u16 (r.(http_minor) * 10 + (ch - "0"%chr)) |>)).

Definition st_spaces_after_digit (ch : Z) (r : request) : res outcome :=
  if ch =? " "%chr then Ok (Continue sw_spaces_after_digit r)
  else if ch =? CR then Ok (Continue sw_almost_done r)
  else if ch =? LF then Ok (Done sw_spaces_after_digit r)
  else invalid_request r.

Definition st_almost_done (p ch : Z) (r : request) : res outcome :=
  let r := r <| request_end := Some (p - 1) |> in
  if ch =? LF then Ok (Done sw_almost_done r) else invalid_request r.

Definition request_line_step (b : list Z) (p ch : Z) (state : request_line_state)
    (r : request) : res outcome :=
  match state with
  | sw_start => st_start p ch r
  | sw_method => st_method b p ch r
  | sw_spaces_before_uri => st_spaces_before_uri p ch r
  | sw_schema => st_schema p ch r
  | sw_schema_slash => expect "/"%chr ch sw_schema_slash_slash r
  | sw_schema_slash_slash => expect "/"%chr ch sw_host_start r
  | sw_host_start => st_host_start p ch r
  | sw_host => st_host p ch r
  | sw_host_end => st_host_end p ch r
  | sw_host_ip_literal => st_host_ip_literal ch r
  | sw_port => st_port p ch r
  | sw_after_slash_in_uri => st_after_slash_in_uri p ch r
  | sw_check_uri => st_check_uri p ch r
  | sw_uri => st_uri p ch r
  | sw_http_09 => st_http_09 p ch r
  | sw_http_H => expect "T"%chr ch sw_http_HT r
  | sw_http_HT => expect "T"%chr ch sw_http_HTT r
  | sw_http_HTT => expect "P"%chr ch sw_http_HTTP r
  | sw_http_HTTP => expect "/"%chr ch sw_first_major_digit r
  | sw_first_major_digit => st_first_major_digit ch r
  | sw_major_digit => st_major_digit ch r
  | sw_first_minor_digit => st_first_minor_digit ch r
  | sw_minor_digit => st_minor_digit ch r
  | sw_spaces_after_digit => st_spaces_after_digit ch r
  | sw_almost_done => st_almost_done p ch r
  end.

(** Behind the label [done]. *)
Definition request_line_done (p : Z) (state : request_line_state) (r : request)
    : parsed request_line_state request :=
  let r := match r.(request_end) with
           | None => r <| request_end := Some p |>
           | Some _ => r
           end in
  let r := r <| http_version := r.(http_major) * 1000 + r.(http_minor) |> in
  if (r.(http_version) =? 9) && negb (r.(method) =? NGX_HTTP_GET)
  then Parsed NGX_HTTP_PARSE_INVALID_09_METHOD (p + 1) sw_start r
  else Parsed NGX_OK (p + 1) sw_start r.

(** The call, on the memory [b] with [b->pos], [b->last] and the stored state. *)
Definition ngx_http_parse_request_line (b : list Z) (last pos : Z)
    (state : request_line_state) (r : request) : res (parsed request_line_state request) :=
  run request_line_step request_line_done b last pos state r.

Definition request_line_of (s : list Z) : res (parsed request_line_state request) :=
  ngx_http_parse_request_line (s ++ [0]) (zlen s) 0 sw_start new_request.

Example get_line :
  request_line_of (str "GET /a/b.html?x=1 HTTP/1.1" ++ [13; 10]) =
    Ok (Parsed NGX_OK 28 sw_start
      (Request (Some 0) (Some 26) (Some 2) (Some 4) (Some 17) (Some 9) (Some 14) None None
         None None None (Some 18) NGX_HTTP_GET 1 1 1001 false false false false)).
Proof. vm_compute. reflexivity. Qed.
