(* ===== verification/HttpRequestLineSpec.v ===== *)
(** * The request line: what an accepted line looks like

    An invariant of the states of [HttpRequestLine] and its consequences: no
    read outside the input but for one byte, offsets in order, a URI without
    control characters, and the method code of the name. *)

From S2P Require Import Prelude NetBytes HttpRequest Machine HttpParseUri HttpRequestLine.

(** ** The method *)

(** The codes of the known methods. *)
Definition method_names : list (list Z * Z) := Eval cbv in
  [(str "GET", NGX_HTTP_GET); (str "PUT", NGX_HTTP_PUT);
   (str "POST", NGX_HTTP_POST); (str "COPY", NGX_HTTP_COPY);
   (str "MOVE", NGX_HTTP_MOVE); (str "LOCK", NGX_HTTP_LOCK);
   (str "HEAD", NGX_HTTP_HEAD);
   (str "MKCOL", NGX_HTTP_MKCOL); (str "PATCH", NGX_HTTP_PATCH);
   (str "TRACE", NGX_HTTP_TRACE);
   (str "DELETE", NGX_HTTP_DELETE); (str "UNLOCK", NGX_HTTP_UNLOCK);
   (str "OPTIONS", NGX_HTTP_OPTIONS); (str "CONNECT", NGX_HTTP_CONNECT);
   (str "PROPFIND", NGX_HTTP_PROPFIND); (str "PROPPATCH", NGX_HTTP_PROPPATCH)].

Fixpoint look_up (names : list (list Z * Z)) (name : list Z) : Z :=
  match names with
  | [] => NGX_HTTP_UNKNOWN
  | (n, code) :: names => if beq name n then code else look_up names name
  end.

Definition method_code (name : list Z) : Z := look_up method_names name.

Lemma word_add c0 c1 c2 c3 :
  is_byte c0 -> is_byte c1 -> is_byte c2 -> is_byte c3 ->
  word c0 c1 c2 c3 = c0 + c1 * 256 + c2 * 65536 + c3 * 16777216.
Proof.
  intros. unfold word.
  rewrite (Z.lor_comm (Z.shiftl c3 24)), (Z.lor_comm (Z.lor _ _) (Z.shiftl c1 8)),
    (Z.lor_comm _ c0), !Z.lor_assoc.
  by apply lor_bytes_4.
Qed.

Lemma word_eqb c0 c1 c2 c3 k0 k1 k2 k3 :
  is_byte c0 -> is_byte c1 -> is_byte c2 -> is_byte c3 ->
  is_byte k0 -> is_byte k1 -> is_byte k2 -> is_byte k3 ->
  (word c0 c1 c2 c3 =? word k0 k1 k2 k3)
  = (c0 =? k0) && ((c1 =? k1) && ((c2 =? k2) && (c3 =? k3))).
Proof.
  intros. rewrite !word_add by done. apply eq_iff_eq_true.
  rewrite !andb_true_iff, !Z.eqb_eq. lia.
Qed.

Lemma word_low_eqb c0 c1 c2 c3 k0 k1 :
  is_byte c0 -> is_byte c1 -> is_byte c2 -> is_byte c3 -> is_byte k0 -> is_byte k1 ->
  (Z.land (word c0 c1 c2 c3) 0xffff =? Z.lor (Z.shiftl k1 8) k0)
  = (c0 =? k0) && (c1 =? k1).
Proof.
  intros. rewrite word_add, (land_low _ 0xffff 16), Z.lor_comm, lor_shiftl_add
    by (lia || done).
  apply eq_iff_eq_true. rewrite andb_true_iff, !Z.eqb_eq.
  change (2 ^ 16) with 65536. change (2 ^ 8) with 256.
  Z.to_euclidean_division_equations; lia.
Qed.

Lemma beq_cons a b (l m : list Z) : beq (a :: l) (b :: m) = (a =? b) && beq l m.
Proof.
  unfold beq. apply eq_iff_eq_true. rewrite andb_true_iff, !bool_decide_eq_true, Z.eqb_eq.
  split; [by intros [= -> ->]|by intros [-> ->]].
Qed.

Lemma load32_ok b m c0 c1 c2 c3 :
  get b m = Ok c0 -> get b (m + 1) = Ok c1 -> get b (m + 2) = Ok c2 ->
  get b (m + 3) = Ok c3 -> load32 b m = Ok (word c0 c1 c2 c3).
Proof. intros H0 H1 H2 H3. unfold load32. by rewrite H0, H1, H2, H3. Qed.

(** Only the names of the same length matter. *)
Lemma look_up_length names name :
  look_up names name
  = look_up (List.filter (fun e => Nat.eqb (length e.1) (length name)) names) name.
Proof.
  induction names as [|[n code] names IH]; [done|]. cbn.
  destruct (Nat.eqb_spec (length n) (length name)) as [E|E]; cbn; [by rewrite IH|].
  unfold beq. by rewrite bool_decide_false by (intros ->; done).
Qed.

Lemma and_then_Ok a b : and_then (Ok a) (Ok b) = Ok (a && b).
Proof. by destruct a. Qed.

Lemma first_method_Ok t code tests method :
  first_method ((Ok t, code) :: tests) method
  = if t then Ok code else first_method tests method.
Proof. by destruct t. Qed.

(** The comparisons of whole words find the method of that name. *)
Ltac method_tests :=
  unfold parse_method, method_code; rewrite look_up_length; simpl (_ =? _); cbv iota;
  simpl (List.filter _ _);
  unfold ngx_str9cmp, ngx_str8cmp, ngx_str7_cmp, ngx_str6cmp, ngx_str5cmp, ngx_str4cmp,
    ngx_str3_cmp, ngx_str3Ocmp;
  repeat match goal with H : load32 _ _ = Ok _ |- _ => rewrite !H; clear H end;
  repeat match goal with H : get _ _ = Ok _ |- _ => rewrite !H; clear H end;
  rewrite ?Ok_bind, ?word_eqb, ?word_low_eqb by (done || lia);
  rewrite ?and_then_Ok; rewrite ?first_method_Ok; cbn [look_up];
  rewrite ?beq_cons; cbn [beq bool_decide decide]; rewrite ?andb_true_r, ?Z.eqb_refl, <- ?andb_assoc.

Ltac solve_tests :=
  repeat match goal with |- context [if ?t then _ else _] => destruct t end;
  reflexivity.

Ltac solve_method := method_tests; solve_tests.

Lemma load32_at b m c0 c1 c2 c3 name :
  holds b m (c0 :: c1 :: c2 :: c3 :: name) -> load32 b m = Ok (word c0 c1 c2 c3).
Proof.
  intros H. apply load32_ok.
  - rewrite <- (Z.add_0_r m). exact (H O _ eq_refl).
  - exact (H 1%nat _ eq_refl).
  - exact (H 2%nat _ eq_refl).
  - exact (H 3%nat _ eq_refl).
Qed.

Lemma holds_drop4 b m c0 c1 c2 c3 name :
  holds b m (c0 :: c1 :: c2 :: c3 :: name) -> holds b (m + 4) name.
Proof.
  intros H. apply (holds_drop _ _ _ 4) in H; [exact H|].
  rewrite !zlen_cons. pose proof (zlen_nonneg name). lia.
Qed.

(** The words and bytes that the comparisons read. *)
Ltac name_bytes Hb H :=
  pose proof (load32_at _ _ _ _ _ _ _ H);
  let H4 := fresh in
  pose proof (holds_drop4 _ _ _ _ _ _ _ H) as H4;
  try (pose proof (holds_get _ _ _ 4 _ H eq_refl ltac:(lia)));
  try (pose proof (load32_at _ _ _ _ _ _ _ H4));
  try (pose proof (holds_get _ _ _ 1 _ H eq_refl ltac:(lia)));
  try (pose proof (holds_get _ _ _ 8 _ H eq_refl ltac:(lia)));
  repeat match goal with H1 : Forall _ (_ :: _) |- _ => apply Forall_cons_1 in H1 as [? ?] end.

(** [name], the space behind it and one more byte. *)
Lemma parse_method_correct b m name c :
  bytes (name ++ [" "%chr; c]) -> holds b m (name ++ [" "%chr; c]) ->
  parse_method b m (zlen name) NGX_HTTP_UNKNOWN = Ok (method_code name).
Proof.
  intros Hb H.
  destruct name as [|c0 [|c1 [|c2 [|c3 [|c4 [|c5 [|c6 [|c7 [|c8 [|c9 name]]]]]]]]]];
    cbn [app] in *.
  all: try (unfold method_code; by rewrite look_up_length).
  - name_bytes Hb H. change (zlen [c0; c1; c2]) with 3. solve_method.
  - name_bytes Hb H. change (zlen [c0; c1; c2; c3]) with 4. method_tests.
    destruct (Z.eqb_spec c1 "O"%chr); subst; cbn [andb]; rewrite ?andb_false_r; solve_tests.
  - name_bytes Hb H. change (zlen [c0; c1; c2; c3; c4]) with 5. solve_method.
  - name_bytes Hb H. change (zlen [c0; c1; c2; c3; c4; c5]) with 6. solve_method.
  - name_bytes Hb H. change (zlen [c0; c1; c2; c3; c4; c5; c6]) with 7. method_tests.
    destruct (Z.eqb_spec c0 "O"%chr); subst; cbn; solve_tests.
  - name_bytes Hb H. change (zlen [c0; c1; c2; c3; c4; c5; c6; c7]) with 8. solve_method.
  - name_bytes Hb H. change (zlen [c0; c1; c2; c3; c4; c5; c6; c7; c8]) with 9. solve_method.
  - rewrite !zlen_cons. pose proof (zlen_nonneg name). unfold parse_method.
    repeat match goal with |- context [?a =? ?b] => destruct (Z.eqb_spec a b); [lia|] end.
    unfold method_code. by rewrite look_up_length.
Qed.

(** ** The invariant

    One predicate per part of the line that has been read. *)

(** A character that may stand in the URI of a request line. *)
Definition uri_char (c : Z) : Prop := 0x20 < c /\ c <> 0x7f.

(** What the parser of the URI records about its text. *)
Definition uri_flags (r : request) : bool * bool * bool * option Z * option Z :=
  (r.(complex_uri), r.(quoted_uri), r.(plus_in_uri), r.(args_start), r.(uri_ext)).

(** The state of [HttpParseUri] that a state of the request line goes through. *)
Definition line_state (st : parse_uri_state) : request_line_state :=
  match st with
  | HttpParseUri.sw_start => sw_start
  | HttpParseUri.sw_after_slash_in_uri => sw_after_slash_in_uri
  | HttpParseUri.sw_check_uri => sw_check_uri
  | HttpParseUri.sw_uri => sw_uri
  end.

(** The flags are those that [ngx_http_parse_uri] would set for the text from [u]
    to [v], and it would end in a state that satisfies [P]; or the URI has no
    path, and begins with its question mark. *)
Definition uri_parsed (b : list Z) (P : parse_uri_state -> Prop) (r : request) (u v : Z)
    : Prop :=
  if r.(empty_path_in_uri)
  then get b u = Ok "?"%chr /\ r.(args_start) = Some (u + 1) /\ r.(uri_ext) = None /\
    u + 1 <= v /\ P HttpParseUri.sw_uri
  else exists text st r1, holds b u text /\ zlen text = v - u /\
    uri_run u HttpParseUri.sw_start text new_request = Some (st, r1) /\
    uri_flags r = uri_flags r1 /\ st <> HttpParseUri.sw_start /\ P st.

(** The method and the space behind it have been read. *)
Record has_method (b : list Z) (r : request) (name : list Z) (m e : Z) : Prop := {
  hm_start : r.(request_start) = Some m;
  hm_end : r.(method_end) = Some e;
  hm_range : 0 <= m /\ m + zlen name = e + 1 /\ name <> [];
  hm_name : holds b m name;
  hm_chars : Forall (fun c => is_method_char c = true) name;
  hm_code : r.(method) = method_code name
}.

(** The URI has been read up to [v]. *)
Record has_uri (b : list Z) (P : parse_uri_state -> Prop) (r : request) (e u v : Z)
    : Prop := {
  hu_start : r.(uri_start) = Some u;
  hu_range : e + 2 <= u < v;
  hu_chars : span uri_char b u v;
  hu_parsed : uri_parsed b P r u v
}.

Definition any_state (st : parse_uri_state) : Prop := True.

Definition untouched (r : request) : Prop :=
  uri_flags r = uri_flags new_request /\ r.(empty_path_in_uri) = false /\
  r.(http_major) = 0.

Definition with_scheme (b : list Z) (p : Z) (r : request) (n : Z) (P : Z -> Prop) : Prop :=
  untouched r /\ exists name m e s z,
    has_method b r name m e /\ r.(schema_start) = Some s /\ r.(schema_end) = Some z /\
    e + 2 <= s < z /\ z + n <= p /\ P z.

Definition slashed (b : list Z) (z : Z) : Prop := get b (z + 1) = Ok "/"%chr.

Definition in_uri (b : list Z) (p : Z) (st : request_line_state) (r : request) : Prop :=
  r.(http_major) = 0 /\ exists name m e u, has_method b r name m e /\
    has_uri b (fun st1 => line_state st1 = st) r e u p.

Definition behind_uri (b : list Z) (p : Z) (r : request) : Prop :=
  exists name m e u v,
    has_method b r name m e /\ has_uri b any_state r e u v /\ r.(uri_end) = Some v /\ v < p.

Definition version_ok (r : request) : Prop :=
  (r.(http_major) = 0 /\ r.(http_minor) = 9) \/
  (r.(http_major) = 1 /\ 0 <= r.(http_minor) <= 999).

(** What holds in front of the byte at [p]. *)
Definition request_line_inv (b : list Z) (p : Z) (st : request_line_state) (r : request)
    : Prop :=
  r.(request_end) = None /\
  match st with
  | sw_start => untouched r /\ r.(method) = NGX_HTTP_UNKNOWN
  | sw_method =>
      untouched r /\ r.(method) = NGX_HTTP_UNKNOWN /\
      exists m name, r.(request_start) = Some m /\ 0 <= m /\ m + zlen name = p /\
        name <> [] /\ holds b m name /\ Forall (fun c => is_method_char c = true) name
  | sw_spaces_before_uri =>
      untouched r /\ exists name m e, has_method b r name m e /\ e + 2 <= p
  | sw_schema =>
      untouched r /\ exists name m e s, has_method b r name m e /\
        r.(schema_start) = Some s /\ e + 2 <= s < p
  | sw_schema_slash => with_scheme b p r 1 (fun z => p = z + 1)
  | sw_schema_slash_slash => with_scheme b p r 2 (slashed b)
  | sw_host_start | sw_host | sw_host_end | sw_host_ip_literal | sw_port =>
      with_scheme b p r 3 (slashed b)
  | sw_after_slash_in_uri | sw_check_uri | sw_uri => in_uri b p st r
  | sw_http_09 | sw_http_H | sw_http_HT | sw_http_HTT | sw_http_HTTP
  | sw_first_major_digit => r.(http_major) = 0 /\ behind_uri b p r
  | sw_major_digit | sw_first_minor_digit => r.(http_major) = 1 /\ behind_uri b p r
  | sw_minor_digit | sw_spaces_after_digit =>
      r.(http_major) = 1 /\ 0 <= r.(http_minor) <= 999 /\ behind_uri b p r
  | sw_almost_done => version_ok r /\ behind_uri b p r
  end.

(** What holds at the label [done]. *)
Definition line_read (b : list Z) (p : Z) (r : request) : Prop :=
  get b p = Ok LF /\ version_ok r /\
  exists name m e u v,
    has_method b r name m e /\ has_uri b any_state r e u v /\ r.(uri_end) = Some v /\ v <= p /\
    match r.(request_end) with Some q => v <= q < p | None => True end.

Definition error_code (rc : Z) : Prop :=
  rc = NGX_HTTP_PARSE_INVALID_METHOD \/ rc = NGX_HTTP_PARSE_INVALID_REQUEST \/
  rc = NGX_HTTP_PARSE_INVALID_VERSION.

Definition step_ok (b : list Z) (p : Z) (o : res outcome) : Prop :=
  exists v, o = Ok v /\
    match v with
    | Continue st r => request_line_inv b (p + 1) st r
    | Done _ r => line_read b p r
    | Return rc _ => error_code rc
    end.

Lemma step_continue b p st r :
  request_line_inv b (p + 1) st r -> step_ok b p (Ok (Continue st r)).
Proof. intros H. eexists. split; [done|]. exact H. Qed.

Lemma step_done b p st r : line_read b p r -> step_ok b p (Ok (Done st r)).
Proof. intros H. eexists. split; [done|]. exact H. Qed.

Lemma step_return b p rc r : error_code rc -> step_ok b p (Ok (Return rc r)).
Proof. intros H. eexists. split; [done|]. exact H. Qed.

Lemma step_invalid b p r : step_ok b p (invalid_request r).
Proof. apply step_return. unfold error_code. auto. Qed.

Lemma step_expect b p c ch st r :
  (ch = c -> request_line_inv b (p + 1) st r) -> step_ok b p (expect c ch st r).
Proof.
  intros H. unfold expect. destruct (Z.eqb_spec ch c); [|apply step_invalid].
  by apply step_continue, H.
Qed.

#[export] Hint Resolve step_continue step_done step_return step_invalid step_expect : nginx.

(** A record with other fields changed. *)
Lemma has_method_eq b r r' name m e :
  r'.(request_start) = r.(request_start) -> r'.(method_end) = r.(method_end) ->
  r'.(method) = r.(method) -> has_method b r name m e -> has_method b r' name m e.
Proof. intros H1 H2 H3 []. split; rewrite ?H1, ?H2, ?H3; done. Qed.

(** The next byte belongs to the URI. *)
Lemma has_uri_next b P P' r r' e u p ch :
  has_uri b P r e u p -> get b p = Ok ch -> uri_char ch ->
  r'.(uri_start) = r.(uri_start) -> uri_parsed b P' r' u (p + 1) ->
  has_uri b P' r' e u (p + 1).
Proof.
  intros [H1 H2 H3 H4] Hch Hc E1 E2. split; [congruence|lia| |done].
  intros k Hk. destruct (decide (k = p)) as [->|]; [eauto|]. apply H3. lia.
Qed.

Lemma uri_parsed_eq b (P P' : _ -> Prop) r r' u v :
  uri_flags r' = uri_flags r -> r'.(empty_path_in_uri) = r.(empty_path_in_uri) ->
  (forall st, P st -> P' st) -> uri_parsed b P r u v -> uri_parsed b P' r' u v.
Proof.
  intros H1 H2 HP. unfold uri_parsed. rewrite H2. destruct r.(empty_path_in_uri).
  - unfold uri_flags in H1. injection H1 as _ _ _ -> ->. intros (? & ? & ? & ? & ?). auto 10.
  - intros (text & st & r1 & G1 & G2 & G3 & G4 & G5 & G6). exists text, st, r1.
    rewrite H1. auto 10.
Qed.

Lemma has_uri_eq b (P P' : _ -> Prop) r r' e u v :
  r'.(uri_start) = r.(uri_start) -> uri_flags r' = uri_flags r ->
  r'.(empty_path_in_uri) = r.(empty_path_in_uri) -> (forall st, P st -> P' st) ->
  has_uri b P r e u v -> has_uri b P' r' e u v.
Proof.
  intros H1 H2 H3 HP [G1 G2 G3 G4]. split; [by rewrite H1|done|done|].
  by eapply uri_parsed_eq.
Qed.

Ltac keep_method := eapply has_method_eq; [..|eassumption]; reflexivity.

(** ** Every state keeps the invariant *)

Section step.
Context (b : list Z) (p ch : Z).
Context (Hb : bytes b) (Hch : get b p = Ok ch) (Hp : 0 <= p < zlen b - 1).
Implicit Types r : request.

Lemma ch_byte : is_byte ch.
Proof. by eapply get_byte. Qed.

Lemma st_start_ok r :
  request_line_inv b p sw_start r -> step_ok b p (st_start p ch r).
Proof.
  intros (H1 & (H2 & H3 & H4) & H5). unfold st_start.
  destruct ((ch =? CR) || (ch =? LF)).
  - apply step_continue. repeat split; done.
  - destruct (is_method_char ch) eqn:E; cbn [negb];
      [|apply step_return; unfold error_code; auto].
    apply step_continue. split; [done|]. split; [repeat split; done|]. split; [done|].
    exists p, [ch]. split; [done|]. split; [lia|]. split; [rewrite zlen_cons, zlen_nil; lia|].
    split; [done|]. split; [|by constructor].
    intros [|i] c; [intros [= <-]; by rewrite Z.add_0_r|done].
Qed.

Lemma st_method_ok r :
  request_line_inv b p sw_method r -> step_ok b p (st_method b p ch r).
Proof.
  intros (H1 & H2 & H3 & m & name & H4 & H5 & H6 & H7 & H8 & H9). unfold st_method.
  destruct (Z.eqb_spec ch " "%chr) as [E|Hn].
  - destruct (get_ok b (p + 1)) as [c Hc]; [lia|]. pose proof Hch as Hsp. rewrite E in Hsp.
    change (ptr (r <| method_end := Some (p - 1) |>).(request_start))
      with (ptr r.(request_start)).
    rewrite H4. cbn [ptr]. rewrite Ok_bind.
    change ((r <| method_end := Some (p - 1) |>).(method)) with r.(method). rewrite H3.
    replace (p - m) with (zlen name) by lia.
    rewrite (parse_method_correct b m name c), Ok_bind.
    + apply step_continue. split; [done|]. split; [done|].
      exists name, m, (p - 1). split; [|lia]. split; try done.
      split; [done|]. split; [lia|done].
    + apply Forall_app. split; [by eapply holds_bytes|].
      repeat constructor; try done; eapply get_byte; eauto.
    + intros i c' Hi. apply lookup_app_Some in Hi as [Hi|[Hl Hi]]; [by apply H8|].
      destruct (i - length name)%nat as [|[|?]] eqn:Ei; [| |done];
        injection Hi as <-; unfold zlen in *.
      * by replace (m + Z.of_nat i) with p by lia.
      * by replace (m + Z.of_nat i) with (p + 1) by lia.
  - destruct (is_method_char ch) eqn:E; cbn [negb];
      [|apply step_return; unfold error_code; auto].
    apply step_continue. split; [done|]. split; [done|]. split; [done|].
    exists m, (name ++ [ch]). split; [done|]. split; [lia|].
    split; [rewrite zlen_app, zlen_cons, zlen_nil; lia|].
    split; [by destruct name|]. split; [by apply holds_app; [|rewrite H6; apply holds_one]|]. apply Forall_app. by repeat constructor.
Qed.

(** The URI begins here, with a slash or without a path. *)
Lemma begin_slash r name m e :
  has_method b r name m e -> e + 2 <= p -> r.(uri_start) = Some p -> ch = "/"%chr ->
  untouched r -> in_uri b (p + 1) sw_after_slash_in_uri r.
Proof.
  intros Hm He Hu Hc (H1 & H2 & H3). split; [done|]. exists name, m, e, p. split; [done|].
  split; [done|lia| |].
  - intros k Hk. replace k with p by lia. exists ch. split; [done|by rewrite Hc].
  - unfold uri_parsed. rewrite H2.
    exists ["/"%chr], HttpParseUri.sw_after_slash_in_uri, new_request.
    split; [apply holds_one; by rewrite <- Hc|]. split; [rewrite zlen_cons, zlen_nil; lia|].
    split; [done|]. split; [done|]. split; done.
Qed.

Lemma begin_query r name m e :
  has_method b r name m e -> e + 2 <= p -> r.(uri_start) = Some p -> ch = "?"%chr ->
  r.(http_major) = 0 -> r.(uri_ext) = None -> r.(empty_path_in_uri) = true ->
  r.(args_start) = Some (p + 1) -> in_uri b (p + 1) sw_uri r.
Proof.
  intros Hm He Hu Hc H0 Hx Hq Ha. split; [done|]. exists name, m, e, p. split; [done|].
  split; [done|lia| |].
  - intros k Hk. replace k with p by lia. exists ch. split; [done|by rewrite Hc].
  - unfold uri_parsed. rewrite Hq. rewrite <- Hc. by split_and!.
Qed.

Lemma st_spaces_before_uri_ok r :
  request_line_inv b p sw_spaces_before_uri r -> step_ok b p (st_spaces_before_uri p ch r).
Proof.
  intros (H1 & H2 & name & m & e & Hm & He). unfold st_spaces_before_uri.
  destruct (Z.eqb_spec ch "/"%chr) as [E|_].
  - apply step_continue. split; [done|].
    apply (begin_slash _ name m e); try done. keep_method.
  - destruct (is_letter ch).
    + apply step_continue. split; [done|]. split; [done|].
      exists name, m, e, p. split; [keep_method|]. split; [done|lia].
    + apply step_expect. intros _. split; [done|]. split; [done|].
      exists name, m, e. split; [keep_method|lia].
Qed.
(** ** The scheme and the host *)

Lemma with_scheme_next r r' n n' p' (P Q : Z -> Prop) :
  with_scheme b p r n P ->
  uri_flags r' = uri_flags r -> r'.(empty_path_in_uri) = r.(empty_path_in_uri) ->
  r'.(http_major) = r.(http_major) -> r'.(request_start) = r.(request_start) ->
  r'.(method_end) = r.(method_end) -> r'.(method) = r.(method) ->
  r'.(schema_start) = r.(schema_start) -> r'.(schema_end) = r.(schema_end) ->
  n' + p <= n + p' -> (forall z, z + n <= p -> P z -> Q z) -> with_scheme b p' r' n' Q.
Proof.
  intros ((U1 & U2 & U3) & name & m & e & s & z & H1 & H2 & H3 & H4 & H5 & H6).
  intros E1 E2 E3 E4 E5 E6 E7 E8 Hn HPQ.
  split; [split_and!; congruence|]. exists name, m, e, s, z.
  split; [by eapply has_method_eq|]. split; [congruence|]. split; [congruence|].
  split; [done|]. split; [lia|auto].
Qed.

Ltac next_scheme :=
  apply step_continue; split; [done|];
  eapply with_scheme_next; [eassumption|try reflexivity..|auto]; lia.

Lemma st_schema_ok r :
  request_line_inv b p sw_schema r -> step_ok b p (st_schema p ch r).
Proof.
  intros (H1 & H2 & name & m & e & s & H3 & H4 & H5). unfold st_schema.
  assert (request_line_inv b (p + 1) sw_schema r) as Hnext.
  { split; [done|]. split; [done|]. exists name, m, e, s. split; [done|]. split; [done|lia]. }
  destruct (is_letter ch); [by apply step_continue|].
  destruct (is_digit ch || (ch =? "+"%chr) || (ch =? "-"%chr) || (ch =? "."%chr));
    [by apply step_continue|].
  destruct (ch =? ":"%chr); [|apply step_invalid].
  apply step_continue. split; [done|]. split; [done|].
  exists name, m, e, s, p. split; [keep_method|]. split; [done|]. split; [done|]. lia.
Qed.

Lemma st_schema_slash_ok r :
  request_line_inv b p sw_schema_slash r ->
  step_ok b p (expect "/"%chr ch sw_schema_slash_slash r).
Proof.
  intros [H1 H2]. apply step_expect. intros E. split; [done|].
  eapply with_scheme_next; [eassumption|reflexivity..|lia|].
  cbn. intros z _ ->. unfold slashed. by rewrite <- E.
Qed.

Lemma st_schema_slash_slash_ok r :
  request_line_inv b p sw_schema_slash_slash r ->
  step_ok b p (expect "/"%chr ch sw_host_start r).
Proof.
  intros [H1 H2]. apply step_expect. intros E. split; [done|].
  eapply with_scheme_next; [eassumption|reflexivity..|lia|auto].
Qed.

(** The request has no path. *)
Lemma single_slash_ok r :
  r.(request_end) = None -> with_scheme b p r 3 (slashed b) -> step_ok b p (single_slash r).
Proof.
  intros H0 ((U1 & U2 & U3) & name & m & e & s & z & H1 & H2 & H3 & H4 & H5 & H6).
  unfold single_slash. rewrite H3. cbn [ptr]. rewrite Ok_bind.
  apply step_continue. split; [done|]. split; [done|].
  exists name, m, e, (z + 1), (z + 2). split; [keep_method|]. split; [|split; [done|lia]].
  split; [done|lia| |].
  - intros k Hk. replace k with (z + 1) by lia. by exists "/"%chr.
  - unfold uri_parsed. cbn [empty_path_in_uri set_field]. rewrite U2.
    exists ["/"%chr], HttpParseUri.sw_after_slash_in_uri, new_request.
    split; [by apply holds_one|]. split; [rewrite zlen_cons, zlen_nil; lia|].
    by split_and!.
Qed.

Lemma scheme_slash r r' :
  with_scheme b p r 3 (slashed b) -> ch = "/"%chr ->
  r'.(request_start) = r.(request_start) -> r'.(method_end) = r.(method_end) ->
  r'.(method) = r.(method) -> r'.(http_major) = r.(http_major) ->
  uri_flags r' = uri_flags r -> r'.(empty_path_in_uri) = r.(empty_path_in_uri) ->
  r'.(uri_start) = Some p -> in_uri b (p + 1) sw_after_slash_in_uri r'.
Proof.
  intros ((U1 & U2 & U3) & name & m & e & s & z & H1 & H2 & H3 & H4 & H5 & H6).
  intros Hc E1 E2 E3 E4 E5 E6 E7.
  apply (begin_slash r' name m e); try done; [by eapply has_method_eq|lia|].
  split_and!; congruence.
Qed.

Lemma scheme_query r r' :
  with_scheme b p r 3 (slashed b) -> ch = "?"%chr ->
  r'.(request_start) = r.(request_start) -> r'.(method_end) = r.(method_end) ->
  r'.(method) = r.(method) -> r'.(http_major) = r.(http_major) ->
  r'.(uri_ext) = r.(uri_ext) -> r'.(empty_path_in_uri) = true ->
  r'.(uri_start) = Some p -> r'.(args_start) = Some (p + 1) -> in_uri b (p + 1) sw_uri r'.
Proof.
  intros ((U1 & U2 & U3) & name & m & e & s & z & H1 & H2 & H3 & H4 & H5 & H6).
  intros Hc E1 E2 E3 E4 E5 E6 E7 E8. unfold uri_flags in U1. injection U1 as _ _ _ _ U1.
  apply (begin_query r' name m e); try done; try congruence; [|lia].
  by eapply has_method_eq.
Qed.

Lemma st_host_end_ok r :
  r.(request_end) = None -> with_scheme b p r 3 (slashed b) ->
  step_ok b p (st_host_end p ch r).
Proof.
  intros H1 H2. unfold st_host_end.
  destruct (ch =? ":"%chr); [next_scheme|].
  destruct (Z.eqb_spec ch "/"%chr) as [E|_].
  { apply step_continue. split; [done|].
    eapply scheme_slash; [eassumption|done|reflexivity..]. }
  destruct (Z.eqb_spec ch "?"%chr) as [E|_].
  { apply step_continue. split; [done|].
    eapply scheme_query; [eassumption|done|reflexivity..]. }
  destruct (ch =? " "%chr); [|apply step_invalid].
  apply single_slash_ok; [done|].
  eapply with_scheme_next; [eassumption|reflexivity..|lia|auto].
Qed.

Lemma st_host_ok r :
  r.(request_end) = None -> with_scheme b p r 3 (slashed b) -> step_ok b p (st_host p ch r).
Proof.
  intros H1 H2. unfold st_host. destruct (is_letter ch); [next_scheme|].
  destruct (is_digit ch || (ch =? "."%chr) || (ch =? "-"%chr)); [next_scheme|].
  by apply st_host_end_ok.
Qed.

Lemma st_host_start_ok r :
  request_line_inv b p sw_host_start r -> step_ok b p (st_host_start p ch r).
Proof.
  intros [H1 H2]. unfold st_host_start. destruct (ch =? "["%chr); [next_scheme|].
  apply st_host_ok; [done|].
  eapply with_scheme_next; [eassumption|reflexivity..|lia|auto].
Qed.

Lemma st_host_ip_literal_ok r :
  request_line_inv b p sw_host_ip_literal r -> step_ok b p (st_host_ip_literal ch r).
Proof.
  intros [H1 H2]. unfold st_host_ip_literal. destruct (ch =? "]"%chr); [next_scheme|].
  destruct (is_ip_literal_char ch); [next_scheme|apply step_invalid].
Qed.

Lemma st_port_ok r :
  request_line_inv b p sw_port r -> step_ok b p (st_port p ch r).
Proof.
  intros [H1 H2]. unfold st_port. destruct (is_digit ch); [next_scheme|].
  destruct (Z.eqb_spec ch "/"%chr) as [E|_].
  { apply step_continue. split; [done|].
    eapply scheme_slash; [eassumption|done|reflexivity..]. }
  destruct (Z.eqb_spec ch "?"%chr) as [E|_].
  { apply step_continue. split; [done|].
    eapply scheme_query; [eassumption|done|reflexivity..]. }
  destruct (ch =? " "%chr); [|apply step_invalid].
  apply single_slash_ok; [done|].
  eapply with_scheme_next; [eassumption|reflexivity..|lia|auto].
Qed.

(** ** The URI *)

(** The fields that the URI leaves alone. *)
Definition kept (r r' : request) : Prop :=
  r'.(request_start) = r.(request_start) /\ r'.(method_end) = r.(method_end) /\
  r'.(method) = r.(method) /\ r'.(http_major) = r.(http_major) /\
  r'.(uri_start) = r.(uri_start) /\ r'.(request_end) = r.(request_end) /\
  r'.(empty_path_in_uri) = r.(empty_path_in_uri).

(** On a character of a URI the request line does what [ngx_http_parse_uri] does. *)
Definition agrees (o : res outcome) (o1 : HttpParseUri.outcome) (r : request) : Prop :=
  exists st r' r1, o = Ok (Continue (line_state st) r') /\ o1 = Continue st r1 /\
    uri_flags r' = uri_flags r1 /\ kept r r' /\ st <> HttpParseUri.sw_start.

Lemma agrees_intro st r r' r1 :
  uri_flags r' = uri_flags r1 -> kept r r' -> st <> HttpParseUri.sw_start ->
  agrees (Ok (Continue (line_state st) r')) (Continue st r1) r.
Proof. unfold agrees. eauto 10. Qed.

Ltac agree st :=
  apply (agrees_intro st);
  [unfold uri_flags in *; cbn in *; congruence|by split_and!|done].

Ltac agree_any :=
  first [agree HttpParseUri.sw_uri | agree HttpParseUri.sw_check_uri
        | agree HttpParseUri.sw_after_slash_in_uri].

(** Every test of the two functions on [ch]. *)
Ltac char_tests :=
  repeat match goal with
  | |- context [ch =? ?k] => destruct (Z.eqb_spec ch k); cbn [orb]; try lia
  end.

Lemma uri_step_agrees st r r1 :
  uri_char ch -> uri_flags r = uri_flags r1 -> st <> HttpParseUri.sw_start ->
  agrees (request_line_step b p ch (line_state st) r) (uri_step p ch st r1) r.
Proof.
  intros [Hc Hc'] Hf Hst.
  assert (is_control ch = false) as Ek by (unfold is_control; lia).
  assert (is_blank ch = false) as Eb by (unfold is_blank; lia).
  assert ((ch =? " "%chr) = false) as Es by lia.
  assert ((ch =? CR) = false) as Er by (unfold CR; lia).
  assert ((ch =? LF) = false) as El by (unfold LF; lia).
  destruct st; [done|..]; cbn [line_state request_line_step uri_step];
    unfold st_after_slash_in_uri, st_check_uri, st_uri,
    uri_after_slash, uri_check, uri_rest, uri_finished; rewrite Es, Er, El, Ek, Eb;
    destruct (is_usual ch); try agree_any; char_tests; agree_any.
Qed.

Lemma in_uri_next st r :
  in_uri b p st r -> r.(request_end) = None -> uri_char ch ->
  step_ok b p (request_line_step b p ch st r).
Proof.
  intros (H0 & name & m & e & u & H1 & H2) He Hc. pose proof H2 as [G1 G2 G3 G4].
  unfold uri_parsed in G4. destruct r.(empty_path_in_uri) eqn:Eq.
  - destruct G4 as (A1 & A2 & A3 & A4 & <-).
    destruct (uri_step_agrees HttpParseUri.sw_uri r r Hc eq_refl ltac:(done))
      as (st' & r' & r1' & -> & Hs & Hf & (K1 & K2 & K3 & K4 & K5 & K6 & K7) & Hst').
    assert (st' = HttpParseUri.sw_uri /\ r1'.(args_start) = r.(args_start) /\
      r1'.(uri_ext) = r.(uri_ext)) as (-> & Ha & Hx).
    { unfold uri_step, uri_rest in Hs.
      destruct (is_usual ch); [|destruct (ch =? "#"%chr); [|destruct (is_blank ch)]];
        simplify_eq; done. }
    unfold uri_flags in Hf. injection Hf as _ _ _ Fa Fx.
    apply step_continue. split; [congruence|]. split; [congruence|]. exists name, m, e, u.
    split; [by eapply has_method_eq|]. eapply has_uri_next; try done.
    unfold uri_parsed. rewrite K7, Eq. split_and!; congruence || lia || done.
  - destruct G4 as (text & st1 & r1 & A1 & A2 & A3 & A4 & A5 & <-).
    destruct (uri_step_agrees st1 r r1 Hc A4 A5)
      as (st' & r' & r1' & -> & Hs & Hf & (K1 & K2 & K3 & K4 & K5 & K6 & K7) & Hst').
    apply step_continue.
    assert (in_uri b (p + 1) (line_state st') r') as Hnext.
    { split; [congruence|]. exists name, m, e, u. split; [by eapply has_method_eq|].
      eapply has_uri_next; try done. unfold uri_parsed. rewrite K7, Eq.
      exists (text ++ [ch]), st', r1'.
      split; [apply holds_app; [done|]; rewrite A2; apply holds_one;
        by replace (u + (p - u)) with p by lia|].
      split; [rewrite zlen_app, zlen_cons, zlen_nil; lia|].
      split; [|by split_and!]. rewrite uri_run_snoc, A3. cbn. rewrite A2.
      replace (u + (p - u)) with p by lia. by rewrite Hs. }
    split; [congruence|]. by destruct st'.
Qed.

Lemma in_uri_end st r r' :
  in_uri b p st r -> r'.(uri_end) = Some p ->
  r'.(request_start) = r.(request_start) -> r'.(method_end) = r.(method_end) ->
  r'.(method) = r.(method) -> r'.(uri_start) = r.(uri_start) ->
  uri_flags r' = uri_flags r -> r'.(empty_path_in_uri) = r.(empty_path_in_uri) ->
  exists name m e u,
    has_method b r' name m e /\ has_uri b any_state r' e u p /\ r'.(uri_end) = Some p.
Proof.
  intros (H0 & name & m & e & u & H1 & H2) E1 E2 E3 E4 E5 E6 E7.
  exists name, m, e, u. split; [by eapply has_method_eq|]. split; [by eapply has_uri_eq|done].
Qed.

Lemma uri_finished_ok st r o :
  in_uri b p st r -> r.(request_end) = None -> uri_finished p ch r = Some o ->
  step_ok b p o.
Proof.
  intros H2 H1. unfold uri_finished. pose proof (proj1 H2) as H0.
  destruct (ch =? " "%chr); [|destruct (ch =? CR); [|destruct (Z.eqb_spec ch LF) as [E|_]]];
    intros [= <-].
  - apply step_continue. split; [done|]. split; [done|].
    edestruct (in_uri_end st r (r <| uri_end := Some p |>))
      as (name & m & e & u & H3 & H4 & H5); try done.
    exists name, m, e, u, p. split_and!; try done. lia.
  - apply step_continue. split; [done|]. split; [by left|].
    edestruct (in_uri_end st r (r <| uri_end := Some p |> <| http_minor := 9 |>))
      as (name & m & e & u & H3 & H4 & H5); try done.
    exists name, m, e, u, p. split_and!; try done. lia.
  - apply step_done. split; [by rewrite <- E|]. split; [by left|].
    edestruct (in_uri_end st r (r <| uri_end := Some p |> <| http_minor := 9 |>))
      as (name & m & e & u & H3 & H4 & H5); try done.
    exists name, m, e, u, p. split_and!; try done. cbn. by rewrite H1.
Qed.

(** A character that does not belong to a URI ends it or is an error. *)
Lemma uri_states_ok st r :
  request_line_inv b p st r ->
  st = sw_after_slash_in_uri \/ st = sw_check_uri \/ st = sw_uri ->
  step_ok b p (request_line_step b p ch st r).
Proof.
  intros [H1 H2] Hst.
  assert (in_uri b p st r) as H by (destruct Hst as [->|[->| ->]]; done).
  destruct (decide (0x20 < ch /\ ch <> 0x7f)) as [Hc|Hc]; [by apply in_uri_next|].
  assert (is_usual ch = false) as Hu.
  { rewrite (is_usual_spec ch ch_byte). unfold unusual. lia. }
  destruct (uri_finished p ch r) as [o|] eqn:Ef.
  - destruct Hst as [->|[->| ->]]; cbn [request_line_step];
      unfold st_after_slash_in_uri, st_check_uri, st_uri; rewrite Hu, Ef;
      by eapply uri_finished_ok.
  - assert (ch <> " "%chr) by (unfold uri_finished in Ef; by destruct (Z.eqb_spec ch " "%chr)).
    assert (is_control ch = true) as Hk by (unfold is_control; lia).
    destruct Hst as [->|[->| ->]]; cbn [request_line_step];
      unfold st_after_slash_in_uri, st_check_uri, st_uri; rewrite Hu, Ef, Hk;
      char_tests; apply step_invalid.
Qed.

(** ** The version *)

Lemma behind_uri_next r r' p' :
  behind_uri b p r -> p <= p' ->
  r'.(request_start) = r.(request_start) -> r'.(method_end) = r.(method_end) ->
  r'.(method) = r.(method) -> r'.(uri_start) = r.(uri_start) ->
  r'.(uri_end) = r.(uri_end) -> uri_flags r' = uri_flags r ->
  r'.(empty_path_in_uri) = r.(empty_path_in_uri) -> behind_uri b p' r'.
Proof.
  intros (name & m & e & u & v & H1 & H2 & H3 & H4) Hp'. intros.
  exists name, m, e, u, v. split; [by eapply has_method_eq|].
  split; [by eapply has_uri_eq|]. split; [congruence|lia].
Qed.

Ltac behind H :=
  eapply behind_uri_next; [exact H|lia|reflexivity..].

(** A line feed that ends the line. *)
Lemma line_read_ok r :
  r.(request_end) = None -> ch = LF -> version_ok r -> behind_uri b p r -> line_read b p r.
Proof.
  intros H1 E H2 (name & m & e & u & v & H3 & H4 & H5 & H6).
  split; [by rewrite <- E|]. split; [done|]. exists name, m, e, u, v.
  split_and!; try done; [lia|]. by rewrite H1.
Qed.

Lemma st_http_09_ok r :
  request_line_inv b p sw_http_09 r -> step_ok b p (st_http_09 p ch r).
Proof.
  intros (H1 & H2 & H3). unfold st_http_09.
  destruct (ch =? " "%chr); [apply step_continue; split_and!; [done|done|behind H3]|].
  destruct (ch =? CR).
  { apply step_continue. split; [done|]. split; [by left|behind H3]. }
  destruct (Z.eqb_spec ch LF).
  { apply step_done, line_read_ok; try done; [by left|behind H3]. }
  destruct (ch =? "H"%chr); [|apply step_invalid].
  apply step_continue. split_and!; [done|done|behind H3].
Qed.

Lemma st_literal_ok r c (st : request_line_state) :
  request_line_inv b p sw_http_09 r ->
  (request_line_inv b (p + 1) sw_http_09 r -> request_line_inv b (p + 1) st r) ->
  step_ok b p (expect c ch st r).
Proof.
  intros (H1 & H2 & H3) H. apply step_expect. intros _. apply H.
  split_and!; [done|done|behind H3].
Qed.

Lemma st_first_major_digit_ok r :
  request_line_inv b p sw_first_major_digit r -> step_ok b p (st_first_major_digit ch r).
Proof.
  intros (H1 & H2 & H3). unfold st_first_major_digit, between.
  destruct (negb _) eqn:E; [apply step_invalid|]. cbn [http_major set_field].
  destruct (1 <? u16 (ch - "0"%chr)) eqn:E1; [apply step_return; unfold error_code; auto|].
  apply step_continue. split; [done|]. split; [|behind H3]. cbn. rewrite u16_id in *; lia.
Qed.

Lemma st_major_digit_ok r :
  request_line_inv b p sw_major_digit r -> step_ok b p (st_major_digit ch r).
Proof.
  intros (H1 & H2 & H3). unfold st_major_digit, is_digit, between.
  destruct (ch =? "."%chr); [apply step_continue; split_and!; [done|done|behind H3]|].
  destruct (negb _) eqn:E; [apply step_invalid|]. cbn [http_major set_field]. rewrite H2.
  destruct (Z.ltb_spec 1 (u16 (1 * 10 + (ch - "0"%chr)))) as [_|E1];
    [apply step_return; unfold error_code; auto|]. rewrite u16_id in E1; lia.
Qed.

Lemma st_first_minor_digit_ok r :
  request_line_inv b p sw_first_minor_digit r -> step_ok b p (st_first_minor_digit ch r).
Proof.
  intros (H1 & H2 & H3). unfold st_first_minor_digit, is_digit, between.
  destruct (negb _) eqn:E; [apply step_invalid|].
  apply step_continue. split; [done|]. split; [done|]. split; [|behind H3].
  cbn. rewrite u16_id; lia.
Qed.

Lemma st_minor_digit_ok r :
  request_line_inv b p sw_minor_digit r -> step_ok b p (st_minor_digit ch r).
Proof.
  intros (H1 & H2 & H3 & H4). unfold st_minor_digit, is_digit, between.
  destruct (ch =? CR).
  { apply step_continue. split; [done|]. split; [by right|behind H4]. }
  destruct (Z.eqb_spec ch LF).
  { apply step_done, line_read_ok; try done. by right. }
  destruct (ch =? " "%chr); 
    [apply step_continue; split; [done|]; split; [done|]; split; [done|behind H4]|].
  destruct (negb _) eqn:E; [apply step_invalid|].
  destruct (Z.ltb_spec 99 r.(http_minor)); [apply step_invalid|].
  apply step_continue. split; [done|]. split; [done|]. split; [|behind H4].
  cbn. rewrite u16_id; lia.
Qed.

Lemma st_spaces_after_digit_ok r :
  request_line_inv b p sw_spaces_after_digit r -> step_ok b p (st_spaces_after_digit ch r).
Proof.
  intros (H1 & H2 & H3 & H4). unfold st_spaces_after_digit.
  destruct (ch =? " "%chr); 
    [apply step_continue; split; [done|]; split; [done|]; split; [done|behind H4]|].
  destruct (ch =? CR).
  { apply step_continue. split; [done|]. split; [by right|behind H4]. }
  destruct (Z.eqb_spec ch LF); [|apply step_invalid].
  apply step_done, line_read_ok; try done. by right.
Qed.

Lemma st_almost_done_ok r :
  request_line_inv b p sw_almost_done r -> step_ok b p (st_almost_done p ch r).
Proof.
  intros (H1 & H2 & name & m & e & u & v & H3 & H4 & H5 & H6). unfold st_almost_done.
  destruct (Z.eqb_spec ch LF) as [E|_]; [|apply step_invalid].
  apply step_done. split; [by rewrite <- E|]. split; [done|]. exists name, m, e, u, v.
  split; [keep_method|].
  split; [eapply has_uri_eq; [..|exact H4]; done|].
  split; [done|]. split; [lia|cbn; lia].
Qed.

Lemma request_line_step_ok st r :
  request_line_inv b p st r -> step_ok b p (request_line_step b p ch st r).
Proof.
  intros H. destruct st; cbn [request_line_step].
  - by apply st_start_ok.
  - by apply st_method_ok.
  - by apply st_spaces_before_uri_ok.
  - by apply st_schema_ok.
  - by apply st_schema_slash_ok.
  - by apply st_schema_slash_slash_ok.
  - by apply st_host_start_ok.
  - destruct H. by apply st_host_ok.
  - destruct H. by apply st_host_end_ok.
  - by apply st_host_ip_literal_ok.
  - by apply st_port_ok.
  - apply (uri_states_ok sw_after_slash_in_uri); auto.
  - apply (uri_states_ok sw_check_uri); auto.
  - apply (uri_states_ok sw_uri); auto.
  - by apply st_http_09_ok.
  - by apply st_literal_ok.
  - by apply st_literal_ok.
  - by apply st_literal_ok.
  - by apply st_literal_ok.
  - by apply st_first_major_digit_ok.
  - by apply st_major_digit_ok.
  - by apply st_first_minor_digit_ok.
  - by apply st_minor_digit_ok.
  - by apply st_spaces_after_digit_ok.
  - by apply st_almost_done_ok.
Qed.
End step.

(** ** The theorems *)

(** An offset into the text from [u] to [v], not at its start. *)
Definition within (o : option Z) (u v : Z) : Prop :=
  match o with Some k => u < k <= v | None => True end.

Lemma within_le o u v v' : v <= v' -> within o u v -> within o u v'.
Proof. destruct o; cbn; lia. Qed.

Lemma uri_run_within u p st text r st' r' :
  u <= p -> uri_run p st text r = Some (st', r') ->
  within r.(args_start) u p -> within r.(uri_ext) u p ->
  within r'.(args_start) u (p + zlen text) /\ within r'.(uri_ext) u (p + zlen text).
Proof.
  revert p st r. induction text as [|c text IH]; intros p st r Hp H Ha Hx.
  - injection H as _ <-. by rewrite zlen_nil, Z.add_0_r.
  - rewrite zlen_cons. replace (p + (1 + zlen text)) with (p + 1 + zlen text) by lia.
    cbn in H. destruct (uri_step p c st r) as [st1 r1|? ?|? ?] eqn:E; [|done|done].
    destruct (IH (p + 1) st1 r1 ltac:(lia) H) as [G1 G2]; [| |by split]; clear IH H;
      destruct st; cbn in E; unfold uri_after_slash, uri_check, uri_rest in E;
      repeat (case_match; simplify_eq); cbn; try lia; by apply (within_le _ _ p); [lia|].
Qed.

Lemma uri_parsed_within b P r u v :
  uri_parsed b P r u v -> within r.(args_start) u v /\ within r.(uri_ext) u v.
Proof.
  unfold uri_parsed. destruct r.(empty_path_in_uri).
  - intros (_ & -> & -> & H & _). cbn. lia.
  - intros (text & st & r1 & _ & Hl & Hr & Hf & _). unfold uri_flags in Hf.
    injection Hf as _ _ _ -> ->. replace v with (u + zlen text) by lia.
    by apply (uri_run_within u u HttpParseUri.sw_start text new_request st); [lia|..].
Qed.

(** What an accepted line looks like, the offsets counted from the start of the
    buffer: the request begins at [m], the URI takes [u] to [v], the line ends
    in front of [pos]. *)
Definition accepted_line (b : list Z) (pos rc : Z) (r : request) : Prop :=
  exists name m u v q,
    r.(request_start) = Some m /\ r.(method_end) = Some (m + zlen name - 1) /\
    r.(uri_start) = Some u /\ r.(uri_end) = Some v /\ r.(request_end) = Some q /\
    0 <= m /\ m + zlen name < u /\ u < v /\ v <= q /\ q < pos /\
    holds b m name /\ name <> [] /\ Forall (fun c => is_method_char c = true) name /\
    r.(method) = method_code name /\
    span uri_char b u v /\ uri_parsed b any_state r u v /\
    within r.(args_start) u v /\ within r.(uri_ext) u v /\
    get b (pos - 1) = Ok LF /\
    (r.(http_version) = 9 \/ 1000 <= r.(http_version) <= 1999) /\
    rc = (if (r.(http_version) =? 9) && negb (r.(method) =? NGX_HTTP_GET)
          then NGX_HTTP_PARSE_INVALID_09_METHOD else NGX_OK).

Lemma request_line_done_ok b p st r :
  line_read b p r ->
  exists rc r', request_line_done p st r = Parsed rc (p + 1) sw_start r' /\
    accepted_line b (p + 1) rc r'.
Proof.
  intros (H1 & H2 & name & m & e & u & v & [M1 M2 (M3 & M4 & M5) M6 M7 M8]
    & [U1 U2 U3 U4] & H3 & H4 & H5).
  unfold request_line_done. destruct (uri_parsed_within _ _ _ _ _ U4) as [U5 U6].
  set (r1 := match r.(request_end) with
             | Some _ => r | None => r <| request_end := Some p |> end).
  assert (exists q, r1 = r <| request_end := Some q |> /\ v <= q /\ q <= p) as (q & -> & Hq).
  { unfold r1. destruct r.(request_end) as [q|] eqn:E; [|by exists p].
    exists q. split; [destruct r; cbn in *; by subst|]. cbn in *. lia. }
  cbv zeta. set (r' := set_field (f := http_version) _ _).
  exists (if (r'.(http_version) =? 9) && negb (r'.(method) =? NGX_HTTP_GET)
          then NGX_HTTP_PARSE_INVALID_09_METHOD else NGX_OK), r'.
  split; [by destruct (_ && _)|]. subst r'.
  exists name, m, u, v, q. cbn. replace (p + 1 - 1) with p by lia.
  replace (m + zlen name - 1) with e by lia.
  do 5 (split; [done|]). do 5 (split; [lia|]). do 9 (split; [done|]).
  split; [|done]. unfold version_ok in H2. lia.
Qed.

(** ** Reads behind the current byte *)

Lemma load32_app x y i : i + 3 < zlen x -> load32 (x ++ y) i = load32 x i.
Proof. intros. unfold load32. by rewrite !get_app_l by lia. Qed.

Lemma str6cmp_stable x y y' m c0 c1 c2 c3 c4 c5 t :
  y' <> [] -> m + 6 < zlen x ->
  ngx_str6cmp (x ++ y) m c0 c1 c2 c3 c4 c5 = Ok t ->
  ngx_str6cmp (x ++ y') m c0 c1 c2 c3 c4 c5 = Ok t.
Proof.
  intros Hy Hm. unfold ngx_str6cmp, ngx_str4cmp.
  rewrite (load32_app x y m), (load32_app x y' m) by lia.
  destruct (load32 x m) as [w| |]; [|done|done]. rewrite !Ok_bind.
  unfold and_then. rewrite !Ok_bind. destruct (w =? word c0 c1 c2 c3) eqn:E; [|done].
  unfold load32.
  rewrite (get_app_l x y (m + 4)), (get_app_l x y (m + 4 + 1)), (get_app_l x y (m + 4 + 2)),
    (get_app_l x y' (m + 4)), (get_app_l x y' (m + 4 + 1)), (get_app_l x y' (m + 4 + 2))
    by lia.
  destruct (get x (m + 4)) as [d0| |]; [|done|done].
  destruct (get x (m + 4 + 1)) as [d1| |]; [|done|done].
  destruct (get x (m + 4 + 2)) as [d2| |] eqn:E2; [|done|done]. rewrite !Ok_bind.
  apply get_Ok_range in E2. destruct (get_ok (x ++ y') (m + 4 + 3)) as [d3' Hd3'].
  { rewrite zlen_app. destruct y'; [done|]. rewrite zlen_cons. pose proof (zlen_nonneg y'). lia. }
  rewrite Hd3', Ok_bind. destruct (get (x ++ y) (m + 4 + 3)) as [d3| |]; [|done|done].
  rewrite !Ok_bind. intros <-.
  assert (forall d, Z.land (Z.shiftl d 24) 0xffff = 0) as Hd.
  { intros d. rewrite Z.land_comm. by apply (land_shiftl_small 0xffff d 24). }
  by rewrite !Z.land_lor_distr_l, !Hd.
Qed.

Lemma parse_method_stable x y y' m n method v :
  y' <> [] -> m + n < zlen x ->
  parse_method (x ++ y) m n method = Ok v -> parse_method (x ++ y') m n method = Ok v.
Proof.
  intros Hy Hmn. unfold parse_method.
  assert (forall i, i <= m + n -> get (x ++ y) i = get (x ++ y') i) as Hg.
  { intros i Hi. by rewrite !get_app_l by lia. }
  assert (forall i, i + 3 <= m + n -> load32 (x ++ y) i = load32 (x ++ y') i) as Hl.
  { intros i Hi. by rewrite !load32_app by lia. }
  unfold ngx_str9cmp, ngx_str8cmp, ngx_str7_cmp, ngx_str5cmp, ngx_str4cmp, ngx_str3_cmp,
    ngx_str3Ocmp.
  destruct (Z.eqb_spec n 3); [by rewrite !Hl by lia|].
  destruct (Z.eqb_spec n 4); [by rewrite Hg, !Hl by lia|].
  destruct (Z.eqb_spec n 5); [by rewrite !Hl, !Hg by lia|].
  destruct (Z.eqb_spec n 6).
  { intros H. cbn [first_method] in *. apply bind_Ok in H as (t & Ht & H).
    rewrite (str6cmp_stable x y y' m _ _ _ _ _ _ t Hy ltac:(lia) Ht), Ok_bind.
    destruct t; [done|]. apply bind_Ok in H as (t & Ht' & H).
    by rewrite (str6cmp_stable x y y' m _ _ _ _ _ _ t Hy ltac:(lia) Ht'). }
  destruct (Z.eqb_spec n 7); [by rewrite (Hl m), (Hl (m + 4)) by lia|].
  destruct (Z.eqb_spec n 8); [by rewrite (Hl m), (Hl (m + 4)) by lia|].
  destruct (Z.eqb_spec n 9); [by rewrite (Hl m), (Hl (m + 4)), !Hg by lia|]. done.
Qed.

Lemma request_line_stable : stable request_line_step.
Proof.
  intros x y y' p ch st r v Hy Hp. destruct st; try done.
  cbn [request_line_step]. unfold st_method.
  destruct (ch =? " "%chr); [|done]. intros H. inv_bind H. rewrite E, Ok_bind.
  rewrite (parse_method_stable x y y') with (v := a0); [done|done|lia|done].
Qed.

Lemma request_line_final : final request_line_done.
Proof. intros p st r. unfold request_line_done. by destruct (_ && _). Qed.

Lemma new_request_inv b p : request_line_inv b p sw_start new_request.
Proof. by repeat split. Qed.

(** What a call returns. *)
Definition line_result (b : list Z) (last : Z) (v : parsed request_line_state request) : Prop :=
  match v with
  | Again pos _ _ => pos = last
  | Parsed rc pos st r => st = sw_start /\ pos <= last /\ accepted_line b pos rc r
  | Rejected rc _ => error_code rc
  end.

Lemma request_line_call b last pos :
  bytes b -> 0 <= pos <= last -> last < zlen b ->
  exists v, ngx_http_parse_request_line b last pos sw_start new_request = Ok v /\
    line_result b last v.
Proof.
  intros Hb Hpos Hlast. unfold ngx_http_parse_request_line.
  apply (run_invariant _ _ (request_line_inv b) (line_result b last));
    [apply new_request_inv|lia|lia|done|].
  intros p ch st' r' Hp Hch HI.
  destruct (request_line_step_ok b p ch Hb Hch ltac:(lia) st' r' HI) as (w & Hw & HQ).
  exists w. split; [done|]. destruct w as [st1 r1|st1 r1|rc r1]; [done| |done].
  apply (request_line_done_ok _ _ st1) in HQ as (rc & r2 & -> & HQ).
  split; [done|]. split; [lia|done].
Qed.

(** C36: Parsing a request line, in one piece or in any pieces, never reads
    outside the input but for one byte behind it, and ends with one of: every
    byte consumed and the state stored; a line that has the announced shape (the
    offsets in order, a method name with its code, a URI without spaces or
    control characters, a version of 0.9 or 1.x); or one of the error codes. A
    call that goes on after earlier pieces gives what a single call gives. *)
Theorem request_line_sound x0 x y last st r :
  bytes (x ++ y) -> y <> [] -> zlen x <= last < zlen (x ++ y) ->
  reached request_line_step request_line_done x0 sw_start new_request x st r ->
  exists v,
    ngx_http_parse_request_line (x ++ y) last (zlen x) st r = Ok v /\
    ngx_http_parse_request_line (x ++ y) last (zlen x0) sw_start new_request = Ok v /\
    line_result (x ++ y) last v.
Proof.
  intros Hb Hy Hlast Hr.
  destruct (run_reached _ _ _ _ _ _ _ _ request_line_stable request_line_final Hr)
    as [Hx Hrun]. pose proof (zlen_nonneg x0).
  destruct (request_line_call (x ++ y) last (zlen x0)) as (v & Hv & Hok); [done|lia|lia|].
  exists v. split; [|done]. unfold ngx_http_parse_request_line in *.
  by rewrite Hrun by (done || lia).
Qed.

Lemma request_line_sound_witness :
  exists v,
    ngx_http_parse_request_line (str "GET /a HT" ++ str "TP/1.0" ++ [10; 0]) 16 9 sw_http_HT
      (new_request <| request_start := Some 0 |> <| method_end := Some 2 |>
         <| method := NGX_HTTP_GET |> <| uri_start := Some 4 |> <| uri_end := Some 6 |>
         <| http_protocol := Some 7 |>) = Ok v /\
    match v with Parsed rc _ _ _ => rc = NGX_OK | _ => False end.
Proof.
  edestruct (request_line_sound [] (str "GET /a HT") (str "TP/1.0" ++ [10; 0]) 16 sw_http_HT)
    as (v & Hv & _ & _).
  - by apply bytes_check.
  - done.
  - by vm_compute.
  - apply (reached_again _ _ [] sw_start new_request [] (str "GET /a HT") [0]
      sw_start new_request); [constructor|done|]. vm_compute. reflexivity.
  - exists v. split; [exact Hv|]. vm_compute in Hv. injection Hv as <-. reflexivity.
Defined.
