(* ===== verification/HttpComplexUri.v ===== *)
(** * Normalising a URI

    [ngx_http_parse_complex_uri] of [src/http/ngx_http_parse.c], a definition
    per state. The source [src] is the memory of the request; the result is
    written to [dst], which is [r->uri.data]; [u] is an offset in it. *)

From S2P Require Import Prelude HttpRequest.

Inductive complex_state :=
| sw_usual
| sw_slash
| sw_dot
| sw_dot_dot
| sw_quoted
| sw_quoted_second.

#[export] Instance complex_state_eq : EqDecision complex_state.
Proof. solve_decision. Defined.

(** The local variables and the fields of the request that change. *)
Record complex := Complex {
  state : complex_state;
  quoted_state : complex_state;
  decoded : Z;
  ch : Z;
  p : Z;
  u : Z;
  dst : list Z;
  c_ext : option Z;
  c_args : option Z;
  c_plus : bool;
  c_quoted : bool
}.

#[export] Instance complex_rebuild : Rebuild complex := fun s =>
  Complex s.(state) s.(quoted_state) s.(decoded) s.(ch) s.(p) s.(u) s.(dst) s.(c_ext)
    s.(c_args) s.(c_plus) s.(c_quoted).

(** How one turn of the loop ends: [break], [goto args], [goto done] or
    [return NGX_HTTP_PARSE_INVALID_REQUEST]. *)
Inductive turn :=
| Next (s : complex)
| Args (s : complex)
| Finish (s : complex)
| Invalid.

(** [*u++ = c] *)
Definition emit (c : Z) (s : complex) : res complex :=
  d ← put s.(dst) s.(u) c; Ok (s <| dst := d |> <| u := s.(u) + 1 |>).

(** [ch = *p++] *)
Definition advance (src : list Z) (s : complex) : res complex :=
  c ← get src s.(p); Ok (s <| ch := c |> <| p := s.(p) + 1 |>).

Definition next (src : list Z) (s : complex) : res turn :=
  s ← advance src s; Ok (Next s).

Definition emit_next (src : list Z) (s : complex) : res turn :=
  s ← emit s.(ch) s; next src s.

(** The slash in front of the previous segment, from [u] backwards; [None] is
    [return NGX_HTTP_PARSE_INVALID_REQUEST]. *)
Fixpoint find_slash (fuel : nat) (dst : list Z) (u : Z) : res (option Z) :=
  if u <? 0 then Ok None
  else match fuel with
  | O => NoFuel
  | S fuel =>
      c ← get dst u;
      if c =? "/"%chr then Ok (Some (u + 1)) else find_slash fuel dst (u - 1)
  end.

(** [u -= 4], and the loop. *)
Definition pop_segment (s : complex) : res (option complex) :=
  r ← find_slash (Z.to_nat s.(u)) s.(dst) (s.(u) - 4);
  Ok (match r with
      | Some u' => Some (s <| u := u' |>)
      | None => None
      end).

Definition start_quoted (src : list Z) (s : complex) : res turn :=
  next src (s <| quoted_state := s.(state) |> <| state := sw_quoted |>).

Definition cx_usual (src : list Z) (s : complex) : res turn :=
  let c := s.(ch) in
  if is_usual c then emit_next src s
  else if c =? "/"%chr then emit_next src (s <| c_ext := None |> <| state := sw_slash |>)
  else if c =? "%"%chr then start_quoted src s
  else if c =? "?"%chr then Ok (Args (s <| c_args := Some s.(p) |>))
  else if c =? "#"%chr then Ok (Finish s)
  else if c =? "."%chr then emit_next src (s <| c_ext := Some (s.(u) + 1) |>)
  else if c =? "+"%chr then emit_next src (s <| c_plus := true |>)
  else emit_next src s.

Definition cx_slash (merge_slashes : bool) (src : list Z) (s : complex) : res turn :=
  let c := s.(ch) in
  if is_usual c then emit_next src (s <| state := sw_usual |>)
  else if c =? "/"%chr then if merge_slashes then next src s else emit_next src s
  else if c =? "."%chr then emit_next src (s <| state := sw_dot |>)
  else if c =? "%"%chr then start_quoted src s
  else if c =? "?"%chr then Ok (Args (s <| c_args := Some s.(p) |>))
  else if c =? "#"%chr then Ok (Finish s)
  else if c =? "+"%chr then emit_next src (s <| c_plus := true |> <| state := sw_usual |>)
  else emit_next src (s <| state := sw_usual |>).

Definition cx_dot (src : list Z) (s : complex) : res turn :=
  let c := s.(ch) in
  if is_usual c then emit_next src (s <| state := sw_usual |>)
  else if c =? "/"%chr then next src (s <| state := sw_slash |> <| u := s.(u) - 1 |>)
  else if c =? "."%chr then emit_next src (s <| state := sw_dot_dot |>)
  else if c =? "%"%chr then start_quoted src s
  else if c =? "?"%chr then Ok (Args (s <| u := s.(u) - 1 |> <| c_args := Some s.(p) |>))
  else if c =? "#"%chr then Ok (Finish (s <| u := s.(u) - 1 |>))
  else if c =? "+"%chr then emit_next src (s <| c_plus := true |> <| state := sw_usual |>)
  else emit_next src (s <| state := sw_usual |>).

Definition cx_dot_dot (src : list Z) (s : complex) : res turn :=
  let c := s.(ch) in
  if is_usual c then emit_next src (s <| state := sw_usual |>)
  else if (c =? "/"%chr) || (c =? "?"%chr) || (c =? "#"%chr) then
    r ← pop_segment s;
    match r with
    | None => Ok Invalid
    | Some s =>
        if c =? "?"%chr then Ok (Args (s <| c_args := Some s.(p) |>))
        else if c =? "#"%chr then Ok (Finish s)
        else next src (s <| state := sw_slash |>)
    end
  else if c =? "%"%chr then start_quoted src s
  else if c =? "+"%chr then emit_next src (s <| c_plus := true |> <| state := sw_usual |>)
  else emit_next src (s <| state := sw_usual |>).

Definition cx_quoted (src : list Z) (s : complex) : res turn :=
  let s := s <| c_quoted := true |> in
  if is_digit s.(ch) then
    next src (s <| decoded := u8 (s.(ch) - "0"%chr) |> <| state := sw_quoted_second |>)
  else
    let c := u8 (Z.lor s.(ch) 0x20) in
    if between "a"%chr "f"%chr c then
      next src (s <| decoded := u8 (c - "a"%chr + 10) |> <| state := sw_quoted_second |>)
    else Ok Invalid.

Definition cx_quoted_second (src : list Z) (s : complex) : res turn :=
  if is_digit s.(ch) then
    let c := u8 (Z.shiftl s.(decoded) 4 + (s.(ch) - "0"%chr)) in
    let s := s <| ch := c |> in
    if (c =? "%"%chr) || (c =? "#"%chr) then emit_next src (s <| state := sw_usual |>)
    else if c =? 0 then Ok Invalid
    else Ok (Next (s <| state := s.(quoted_state) |>))
  else
    let c := u8 (Z.lor s.(ch) 0x20) in
    if between "a"%chr "f"%chr c then
      let c := u8 (Z.shiftl s.(decoded) 4 + (c - "a"%chr) + 10) in
      let s := s <| ch := c |> in
      if c =? "?"%chr then emit_next src (s <| state := sw_usual |>)
      else
        let s := if c =? "+"%chr then s <| c_plus := true |> else s in
        Ok (Next (s <| state := s.(quoted_state) |>))
    else Ok Invalid.

Definition cx_step (merge_slashes : bool) (src : list Z) (s : complex) : res turn :=
  match s.(state) with
  | sw_usual => cx_usual src s
  | sw_slash => cx_slash merge_slashes src s
  | sw_dot => cx_dot src s
  | sw_dot_dot => cx_dot_dot src s
  | sw_quoted => cx_quoted src s
  | sw_quoted_second => cx_quoted_second src s
  end.

(** [while (p <= r->uri_end)], and the treatment of the state behind it. *)
Fixpoint cx_loop (fuel : nat) (merge_slashes : bool) (src : list Z) (uri_end : Z)
    (s : complex) : res turn :=
  if uri_end <? s.(p) then
    match s.(state) with
    | sw_quoted | sw_quoted_second => Ok Invalid
    | sw_dot => Ok (Finish (s <| u := s.(u) - 1 |>))
    | sw_dot_dot =>
        r ← pop_segment s;
        match r with None => Ok Invalid | Some s => Ok (Finish s) end
    | _ => Ok (Finish s)
    end
  else match fuel with
  | O => NoFuel
  | S fuel =>
      t ← cx_step merge_slashes src s;
      match t with
      | Next s => cx_loop fuel merge_slashes src uri_end s
      | t => Ok t
      end
  end.

(** The label [args]: the end of the arguments is a hash. The result is
    [r->args] as offset and length, if it is set. *)
Fixpoint find_hash (n : nat) (src : list Z) (p : Z) : res (option Z) :=
  match n with
  | O => Ok None
  | S n => c ← get src p; if c =? "#"%chr then Ok (Some p) else find_hash n src (p + 1)
  end.

Record complex_result := ComplexResult {
  r_uri : list Z;
  r_exten : option (Z * Z);
  r_args : option (Z * Z);
  r_args_start : option Z;
  r_plus : bool;
  r_quoted : bool
}.

Definition complex_finish (args : option (Z * Z)) (args_start : option Z) (s : complex)
    : res (option complex_result) :=
  uri ← slice s.(dst) 0 s.(u);
  Ok (Some (ComplexResult uri
    (match s.(c_ext) with Some x => Some (x, s.(u) - x) | None => None end)
    args args_start s.(c_plus) s.(c_quoted))).

(** The call; [None] is [NGX_HTTP_PARSE_INVALID_REQUEST]. [room] is the memory
    behind [r->uri.data]. Two units of fuel per byte are enough: a quoted
    character is looked at a second time without reading a byte. *)
Definition ngx_http_parse_complex_uri (src : list Z) (uri_start uri_end : Z)
    (empty_path_in_uri plus_in_uri quoted_uri merge_slashes : bool) (room : list Z)
    : res (option complex_result) :=
  let s := Complex sw_usual sw_usual 0 0 uri_start 0 room None None plus_in_uri quoted_uri in
  s ← (if empty_path_in_uri then emit "/"%chr s else Ok s);
  s ← advance src s;
  t ← cx_loop (2 * Z.to_nat (uri_end - uri_start) + 2) merge_slashes src uri_end s;
  match t with
  | Next s => Fault
  | Invalid => Ok None
  | Finish s => complex_finish None None s
  | Args s =>
      start ← ptr s.(c_args);
      h ← find_hash (Z.to_nat (uri_end - s.(p))) src s.(p);
      match h with
      | Some h => complex_finish (Some (start, h - start)) None s
      | None => complex_finish None (Some start) s
      end
  end.

Definition normalised (path : list Z) : res (option complex_result) :=
  ngx_http_parse_complex_uri (path ++ [LF]) 0 (zlen path) false false false true
    (replicate (length path + 1) 0).

Example normalise_1 :
  normalised (str "/a/./b/../c//%2e%2E/d%3fe.x?q=1")
  = Ok (Some (ComplexResult (str "/a/d?e.x") (Some (7, 1)) None (Some 28) false true)).
Proof. vm_compute. reflexivity. Qed.

Example normalise_2 : normalised (str "/a/../../b") = Ok None.
Proof. vm_compute. reflexivity. Qed.
