(* ===== verification/HttpComplexUriSpec.v ===== *)
(** * Normalising a URI: the abstract path

    A path is decoded and then cut into segments; the segments are collected on
    a stack, which "." leaves alone and ".." pops. [complex_uri_normalises]
    shows that [ngx_http_parse_complex_uri] computes that path in place. *)

From S2P Require Import Prelude HttpRequest HttpComplexUri.

(** ** Specification *)

Definition hex_value (c : Z) : option Z :=
  if is_digit c then Some (c - "0"%chr)
  else if between "a"%chr "f"%chr c then Some (c - "a"%chr + 10)
  else if between "A"%chr "F"%chr c then Some (c - "A"%chr + 10)
  else None.

(** The characters of the path, decoded; a bare question mark or hash ends it.
    [None]: a percent sign without two digits, or an encoded zero. *)
Fixpoint decode (l : list Z) : option (list Z) :=
  match l with
  | [] => Some []
  | c :: l =>
      if (c =? "?"%chr) || (c =? "#"%chr) then Some []
      else if c =? "%"%chr then
        match l with
        | a :: b :: l =>
            x ← hex_value a; y ← hex_value b;
            if x * 16 + y =? 0 then None
            else d ← decode l; Some (x * 16 + y :: d)
        | _ => None
        end
      else d ← decode l; Some (c :: d)
  end.

(** The stack of the segments that are closed, the last one first, and the open
    segment. *)
Definition path : Type := list (list Z) * list Z.

(** A slash closes the open segment. *)
Definition close_segment (merge_slashes : bool) (s : path) : option path :=
  let '(stack, seg) := s in
  if beq seg (str ".") then Some (stack, [])
  else if beq seg (str "..") then
    match stack with [] => None | _ :: stack => Some (stack, []) end
  else if merge_slashes && beq seg [] then Some (stack, [])
  else Some (seg :: stack, []).

Definition add_char (merge_slashes : bool) (s : path) (c : Z) : option path :=
  if c =? "/"%chr then close_segment merge_slashes s else Some (s.1, s.2 ++ [c]).

Fixpoint add_chars (merge_slashes : bool) (s : path) (l : list Z) : option path :=
  match l with
  | [] => Some s
  | c :: l => s ← add_char merge_slashes s c; add_chars merge_slashes s l
  end.

(** The text of the closed segments. *)
Fixpoint render (stack : list (list Z)) : list Z :=
  match stack with
  | [] => str "/"
  | seg :: stack => render stack ++ seg ++ str "/"
  end.

(** The end of the path closes a dot segment. *)
Definition path_text (s : path) : option (list Z) :=
  let '(stack, seg) := s in
  if beq seg (str ".") then Some (render stack)
  else if beq seg (str "..") then
    match stack with [] => None | _ :: stack => Some (render stack) end
  else Some (render stack ++ seg).

(** The normal form of the path behind its first slash. *)
Definition normal_form (merge_slashes : bool) (l : list Z) : option (list Z) :=
  d ← decode l; s ← add_chars merge_slashes ([], []) d; path_text s.

(** ** The same, character by character *)

(** Decoding and collecting in one pass. *)
Fixpoint walk (merge_slashes : bool) (s : path) (l : list Z) : option (list Z) :=
  match l with
  | [] => path_text s
  | c :: l =>
      if (c =? "?"%chr) || (c =? "#"%chr) then path_text s
      else if c =? "%"%chr then
        match l with
        | a :: b :: l =>
            x ← hex_value a; y ← hex_value b;
            if x * 16 + y =? 0 then None
            else s ← add_char merge_slashes s (x * 16 + y); walk merge_slashes s l
        | _ => None
        end
      else s ← add_char merge_slashes s c; walk merge_slashes s l
  end.

Lemma list_ind_2 {A} (P : list A -> Prop) :
  P [] -> (forall x l, P l -> (forall y l', l = y :: l' -> P l') ->
    (forall y z l', l = y :: z :: l' -> P l') -> P (x :: l)) -> forall l, P l.
Proof.
  intros H0 H1 l. remember (length l) as n eqn:En. revert l En.
  induction n as [n IH] using lt_wf_ind. intros [|x l] ->; [done|].
  apply H1; [|intros y l' ->|intros y z l' ->]; eapply IH; cbn; try reflexivity; lia.
Qed.

Lemma walk_decode merge s l :
  walk merge s l = d ← decode l; s ← add_chars merge s d; path_text s.
Proof.
  revert s. induction l as [|c l IH1 IH2 IH3] using list_ind_2; intros s; [done|].
  cbn [walk decode]. destruct ((c =? "?"%chr) || (c =? "#"%chr)); [done|].
  destruct (c =? "%"%chr).
  - destruct l as [|a [|b l]]; [done|done|].
    destruct (hex_value a) as [x|]; [|done]. destruct (hex_value b) as [y|]; [|done]. cbn.
    destruct (x * 16 + y =? 0); [done|].
    destruct (add_char merge s (x * 16 + y)) as [s'|] eqn:E; cbn.
    + rewrite (IH3 a b l eq_refl). destruct (decode l) as [d|]; [|done]. cbn. by rewrite E.
    + destruct (decode l) as [d|]; [|done]. cbn. by rewrite E.
  - destruct (add_char merge s c) as [s'|] eqn:E; cbn.
    + rewrite IH1. destruct (decode l) as [d|]; [|done]. cbn. by rewrite E.
    + destruct (decode l) as [d|]; [|done]. cbn. by rewrite E.
Qed.

Lemma walk_normal_form merge l : walk merge ([], []) l = normal_form merge l.
Proof. apply walk_decode. Qed.

(** ** The concrete state of a path *)

Definition classify (seg : list Z) : complex_state :=
  if beq seg [] then sw_slash
  else if beq seg (str ".") then sw_dot
  else if beq seg (str "..") then sw_dot_dot
  else sw_usual.

Abbreviation no_slash := (Forall (fun c : Z => c <> "/"%chr)).

(** The buffer holds the text of the path. *)
Record agrees (room : Z) (s : complex) (t : path) : Prop := {
  ag_u : s.(u) = zlen (render t.1 ++ t.2);
  ag_text : take (Z.to_nat s.(u)) s.(dst) = render t.1 ++ t.2;
  ag_room : zlen s.(dst) = room;
  ag_seg : no_slash t.2;
  ag_stack : Forall no_slash t.1
}.

Lemma agrees_eq room s s' t :
  s'.(u) = s.(u) -> s'.(dst) = s.(dst) -> agrees room s t -> agrees room s' t.
Proof. intros H1 H2 []. split; rewrite ?H1, ?H2; done. Qed.

Lemma take_put d i c d' :
  0 <= i -> put d i c = Ok d' -> take (Z.to_nat (i + 1)) d' = take (Z.to_nat i) d ++ [c].
Proof.
  intros Hi. unfold put, blit. destruct (_ && _) eqn:E; [|done]. intros [= <-].
  apply andb_true_iff in E as [_ E]. apply Z.leb_le in E. unfold zlen in E. cbn in E.
  rewrite take_app_ge by (rewrite length_take; lia). f_equal.
  rewrite length_take, Nat.min_l by lia.
  by replace (Z.to_nat (i + 1) - Z.to_nat i)%nat with 1%nat by lia.
Qed.

(** Writing the next character of the open segment. *)
Lemma emit_ok room s t c :
  agrees room s t -> s.(u) < room -> c <> "/"%chr ->
  exists d, emit c s = Ok (s <| dst := d |> <| u := s.(u) + 1 |>) /\
    agrees room (s <| dst := d |> <| u := s.(u) + 1 |>) (t.1, t.2 ++ [c]).
Proof.
  intros [H1 H2 H3 H4 H5] Hr Hc. pose proof (zlen_nonneg (render t.1 ++ t.2)).
  destruct (put_ok s.(dst) s.(u) c) as (d & Hd & Hlen); [lia|].
  exists d. unfold emit. rewrite Hd. split; [done|]. split; cbn.
  - rewrite H1, app_assoc, (zlen_app _ [c]). done.
  - rewrite (take_put s.(dst) s.(u) _ d ltac:(lia) Hd), H2. by rewrite app_assoc.
  - congruence.
  - apply Forall_app. by repeat constructor.
  - done.
Qed.

(** Writing the slash that closes it. *)
Lemma emit_slash_ok room s t :
  agrees room s t -> s.(u) < room ->
  exists d, emit "/"%chr s = Ok (s <| dst := d |> <| u := s.(u) + 1 |>) /\
    agrees room (s <| dst := d |> <| u := s.(u) + 1 |>) (t.2 :: t.1, []).
Proof.
  intros [H1 H2 H3 H4 H5] Hr. pose proof (zlen_nonneg (render t.1 ++ t.2)).
  destruct (put_ok s.(dst) s.(u) "/"%chr) as (d & Hd & Hlen); [lia|].
  exists d. unfold emit. rewrite Hd. split; [done|]. split; cbn.
  - rewrite app_nil_r, H1, app_assoc, (zlen_app _ [47]). done.
  - rewrite (take_put s.(dst) s.(u) _ d ltac:(lia) Hd), H2, app_nil_r. by rewrite app_assoc.
  - congruence.
  - done.
  - by constructor.
Qed.

(** Dropping the open segment. *)
Lemma agrees_drop room s t n :
  agrees room s t -> n = zlen t.2 -> agrees room (s <| u := s.(u) - n |>) (t.1, []).
Proof.
  intros [H1 H2 H3 H4 H5] ->. pose proof (zlen_nonneg t.2). pose proof (zlen_nonneg (render t.1)).
  split; cbn; rewrite ?app_nil_r; try done.
  - rewrite H1, zlen_app. lia.
  - replace (Z.to_nat (s.(u) - zlen t.2))
      with (Z.to_nat (s.(u) - zlen t.2) `min` Z.to_nat s.(u))%nat by lia.
    rewrite <- take_take, H2, take_app_le; rewrite H1, zlen_app; unfold zlen; [|lia].
    rewrite take_ge; [done|lia].
Qed.

(** ** Going back to the previous slash *)

Lemma render_slash stack : exists pre, render stack = pre ++ str "/".
Proof.
  destruct stack as [|seg stack]; [by exists []|].
  exists (render stack ++ seg). cbn. by rewrite app_assoc.
Qed.

Lemma get_take d n i c :
  take (Z.to_nat n) d !! Z.to_nat i = Some c -> 0 <= i -> get d i = Ok c.
Proof.
  intros H Hi. apply lookup_take_Some in H as [H _]. unfold get.
  destruct (Z.ltb_spec i 0); [lia|]. by rewrite H.
Qed.

(** The loop that looks for the slash, from the last character of a segment. *)
Lemma find_slash_ok d n pre seg post fuel :
  take (Z.to_nat n) d = (pre ++ ["/"%chr]) ++ seg ++ post -> no_slash seg ->
  zlen seg < Z.of_nat fuel ->
  find_slash fuel d (zlen pre + zlen seg) = Ok (Some (zlen pre + 1)).
Proof.
  revert seg post. induction fuel as [|fuel IH]; intros seg post Ht Hs Hf;
    [pose proof (zlen_nonneg seg); lia|].
  pose proof (zlen_nonneg pre). pose proof (zlen_nonneg seg). cbn [find_slash].
  destruct (Z.ltb_spec (zlen pre + zlen seg) 0); [lia|].
  destruct seg as [|c seg _] using rev_ind.
  - rewrite zlen_nil, Z.add_0_r in *. rewrite (get_take d n _ "/"%chr); [done| |lia].
    rewrite Ht. unfold zlen. rewrite Nat2Z.id, <- app_assoc. by apply list_lookup_middle.
  - rewrite zlen_app, zlen_cons, zlen_nil in *. apply Forall_app in Hs as [Hs Hc].
    apply Forall_cons in Hc as [Hc _].
    rewrite (get_take d n _ c).
    + rewrite Ok_bind. destruct (Z.eqb_spec c "/"%chr); [done|].
      replace (zlen pre + (zlen seg + (1 + 0)) - 1) with (zlen pre + zlen seg) by lia.
      apply (IH seg (c :: post)); [|done|lia]. rewrite Ht. by rewrite <- !app_assoc.
    + rewrite Ht. unfold zlen.
      replace (Z.to_nat _) with (length (pre ++ ["/"%chr] ++ seg))
        by (rewrite !length_app; cbn; lia).
      replace ((pre ++ _) ++ _) with ((pre ++ ["/"%chr] ++ seg) ++ c :: post)
        by (by rewrite <- !app_assoc).
      by apply list_lookup_middle.
    + lia.
Qed.

(** What ".." does. *)
Lemma pop_segment_ok room s t :
  agrees room s t -> t.2 = str ".." ->
  match t.1 with
  | [] => pop_segment s = Ok None
  | _ :: stack =>
      exists v, pop_segment s = Ok (Some (s <| u := v |>)) /\ 0 <= v <= s.(u) /\
        agrees room (s <| u := v |>) (stack, [])
  end.
Proof.
  intros [H1 H2 H3 H4 H5] Ht. destruct t as [stack seg]; cbn [fst snd] in *; subst seg.
  unfold pop_segment. destruct stack as [|seg stack].
  - cbn in H1. rewrite H1. done.
  - cbn [render] in H1, H2. destruct (render_slash stack) as [pre Hpre].
    apply Forall_cons in H5 as [Hs H5].
    rewrite Hpre in H1, H2. rewrite !zlen_app in H1.
    change (zlen (str "/")) with 1 in H1. change (zlen (str "..")) with 2 in H1.
    pose proof (zlen_nonneg pre). pose proof (zlen_nonneg seg).
    replace (s.(u) - 4) with (zlen pre + zlen seg) by lia.
    rewrite (find_slash_ok s.(dst) s.(u) pre seg (str "/" ++ str ".."));
      [|by rewrite H2, <- !app_assoc|done|lia].
    exists (zlen pre + 1). split; [done|]. split; [lia|].
    split; cbn; rewrite ?app_nil_r, ?Hpre; try done.
    + by rewrite zlen_app.
    + replace (Z.to_nat (zlen pre + 1))
        with (Z.to_nat (zlen pre + 1) `min` Z.to_nat s.(u))%nat by lia.
      rewrite <- take_take, H2, <- app_assoc, take_app_le by
        (rewrite length_app; unfold zlen; cbn; lia).
      apply take_ge. rewrite length_app. unfold zlen. cbn. lia.
Qed.

(** ** One character *)

Lemma beq_spec (l m : list Z) : reflect (l = m) (beq l m).
Proof. apply bool_decide_reflect. Qed.

Lemma classify_spec seg :
  (seg = [] /\ classify seg = sw_slash) \/
  (seg = str "." /\ classify seg = sw_dot) \/
  (seg = str ".." /\ classify seg = sw_dot_dot) \/
  (seg <> [] /\ seg <> str "." /\ seg <> str ".." /\ classify seg = sw_usual).
Proof.
  unfold classify. destruct (beq_spec seg []); [auto|].
  destruct (beq_spec seg (str ".")); [auto|].
  destruct (beq_spec seg (str "..")); [auto|]. auto 10.
Qed.

Lemma classify_usual seg :
  seg <> [] -> seg <> str "." -> seg <> str ".." -> classify seg = sw_usual.
Proof. intros. by destruct (classify_spec seg) as [[]|[[]|[[]|(_ & _ & _ & ?)]]]. Qed.

Lemma classify_snoc seg c : c <> "."%chr -> classify (seg ++ [c]) = sw_usual.
Proof.
  intros Hc. apply classify_usual; [by destruct seg|..]; intros H.
  - change (str ".") with ([] ++ ["."%chr]) in H. apply app_inj_tail in H as [_ ?]. done.
  - change (str "..") with (["."%chr] ++ ["."%chr]) in H.
    apply app_inj_tail in H as [_ ?]. done.
Qed.

Lemma classify_snoc_dot seg :
  seg <> [] -> seg <> str "." -> classify (seg ++ ["."%chr]) = sw_usual.
Proof.
  intros H0 H1. apply classify_usual; [by destruct seg|..]; intros H.
  - change (str ".") with ([] ++ ["."%chr]) in H. by apply app_inj_tail in H as [? _].
  - change (str "..") with (["."%chr] ++ ["."%chr]) in H. by apply app_inj_tail in H as [? _].
Qed.

(** A character that is not special in any state. *)
Definition plain (c : Z) : Prop :=
  is_byte c /\ c <> "%"%chr /\ c <> "?"%chr /\ c <> "#"%chr.

Section one_character.
Context (merge_slashes : bool) (src : list Z) (room : Z).

(** [s'] is [s] behind one more character of the source. *)
Record moved (s s' : complex) (t : path) : Prop := {
  mv_state : s'.(state) = classify t.2;
  mv_ch : get src s.(p) = Ok s'.(ch);
  mv_p : s'.(p) = s.(p) + 1;
  mv_u : s'.(u) <= s.(u) + 1;
  mv_agrees : agrees room s' t
}.

Definition moves (o : res turn) (s : complex) (t : path) : Prop :=
  exists s', o = Ok (Next s') /\ moved s s' t.

Lemma next_moves s s' t c' :
  get src s.(p) = Ok c' -> s'.(p) = s.(p) -> s'.(u) <= s.(u) + 1 ->
  s'.(state) = classify t.2 -> agrees room s' t -> moves (next src s') s t.
Proof.
  intros Hc Hp Hu Hs Ha. unfold moves, next, advance. rewrite Hp, Hc.
  eexists. split; [done|]. split; try done. eapply agrees_eq; [..|exact Ha]; done.
Qed.

Lemma emit_moves s s' t c c' :
  agrees room s t -> s.(u) < room -> c <> "/"%chr -> get src s.(p) = Ok c' ->
  s'.(ch) = c -> s'.(p) = s.(p) -> s'.(u) = s.(u) -> s'.(dst) = s.(dst) ->
  s'.(state) = classify (t.2 ++ [c]) ->
  moves (emit_next src s') s (t.1, t.2 ++ [c]).
Proof.
  intros Ha Hu Hc Hc' E1 E2 E3 E4 E5.
  apply (agrees_eq room s s' t E3 E4) in Ha.
  destruct (emit_ok room s' t c) as (d & Hd & Ha'); [done|lia|done|].
  unfold emit_next. rewrite E1, Hd, Ok_bind. eapply next_moves; try done. cbn. lia.
Qed.

Lemma emit_slash_moves s s' t c' :
  agrees room s t -> s.(u) < room -> get src s.(p) = Ok c' ->
  s'.(ch) = "/"%chr -> s'.(p) = s.(p) -> s'.(u) = s.(u) -> s'.(dst) = s.(dst) ->
  s'.(state) = sw_slash ->
  moves (emit_next src s') s (t.2 :: t.1, []).
Proof.
  intros Ha Hu Hc' E1 E2 E3 E4 E5.
  apply (agrees_eq room s s' t E3 E4) in Ha.
  destruct (emit_slash_ok room s' t) as (d & Hd & Ha'); [done|lia|].
  unfold emit_next. rewrite E1, Hd, Ok_bind. eapply next_moves; try done. cbn. lia.
Qed.

(** What a step does with a character [c], against the abstract path. *)
Definition simulates (f : complex -> res turn) (c : Z) (t : path) : Prop := forall s c',
  agrees room s t -> s.(u) < room -> s.(ch) = c -> s.(state) = classify t.2 ->
  get src s.(p) = Ok c' ->
  match add_char merge_slashes t c with
  | None => f s = Ok Invalid
  | Some t' => moves (f s) s t'
  end.

Ltac usual_char c Hc :=
  rewrite (is_usual_spec c Hc); unfold unusual; cbn [negb].

Lemma cx_usual_simulates c t :
  plain c -> t.2 <> [] -> t.2 <> str "." -> t.2 <> str ".." ->
  simulates (cx_usual src) c t.
Proof.
  intros (Hb & H1 & H2 & H3) N0 N1 N2 s c' Ha Hu Hch Hst Hp.
  pose proof (classify_usual _ N0 N1 N2) as Hcl. rewrite Hcl in Hst.
  unfold add_char, cx_usual. rewrite Hch. destruct (is_usual c) eqn:Eu.
  - rewrite (is_usual_spec c Hb) in Eu. unfold unusual in Eu.
    destruct (Z.eqb_spec c "/"%chr); [lia|].
    eapply emit_moves; try done. rewrite Hst. rewrite classify_snoc; [done|lia].
  - destruct (Z.eqb_spec c "/"%chr) as [->|Hs].
    + destruct t as [stack seg]. cbn [fst snd close_segment] in *.
      destruct (beq_spec seg (str ".")); [done|]. destruct (beq_spec seg (str "..")); [done|].
      destruct (beq_spec seg []); [done|]. rewrite andb_false_r.
      by apply (emit_slash_moves s _ (stack, seg) c').
    + destruct (Z.eqb_spec c "%"%chr), (Z.eqb_spec c "?"%chr), (Z.eqb_spec c "#"%chr); try done.
      destruct (Z.eqb_spec c "."%chr) as [->|Hd].
      * eapply emit_moves; try done. rewrite classify_snoc_dot; done.
      * destruct (c =? "+"%chr); (eapply emit_moves; try done);
          rewrite classify_snoc; done.
Qed.

Lemma cx_slash_simulates c t :
  plain c -> t.2 = [] -> simulates (cx_slash merge_slashes src) c t.
Proof.
  intros (Hb & H1 & H2 & H3) Ht s c' Ha Hu Hch Hst Hp.
  unfold add_char, cx_slash. rewrite Hch. destruct (is_usual c) eqn:Eu.
  - rewrite (is_usual_spec c Hb) in Eu. unfold unusual in Eu.
    destruct (Z.eqb_spec c "/"%chr); [lia|].
    eapply emit_moves; try done. rewrite classify_snoc; [done|lia].
  - destruct (Z.eqb_spec c "/"%chr) as [->|Hs].
    + destruct t as [stack seg]. cbn [fst snd] in *. subst seg. cbn.
      destruct merge_slashes; cbn.
      * eapply next_moves; try done. lia.
      * by apply (emit_slash_moves s _ (stack, []) c').
    + destruct (Z.eqb_spec c "."%chr) as [->|Hd]; [|destruct (Z.eqb_spec c "%"%chr),
        (Z.eqb_spec c "?"%chr), (Z.eqb_spec c "#"%chr); try done].
      * eapply emit_moves; try done. by rewrite Ht.
      * destruct (c =? "+"%chr); (eapply emit_moves; try done); by rewrite classify_snoc.
Qed.

Lemma cx_dot_simulates c t :
  plain c -> t.2 = str "." -> simulates (cx_dot src) c t.
Proof.
  intros (Hb & H1 & H2 & H3) Ht s c' Ha Hu Hch Hst Hp.
  unfold add_char, cx_dot. rewrite Hch. destruct (is_usual c) eqn:Eu.
  - rewrite (is_usual_spec c Hb) in Eu. unfold unusual in Eu.
    destruct (Z.eqb_spec c "/"%chr); [lia|].
    eapply emit_moves; try done. rewrite classify_snoc; [done|lia].
  - destruct (Z.eqb_spec c "/"%chr) as [->|Hs].
    + destruct t as [stack seg]. cbn [fst snd] in *. subst seg. cbn.
      eapply next_moves; try done; [cbn; lia|].
      apply (agrees_eq room (s <| u := s.(u) - 1 |>)); [done|done|].
      by apply (agrees_drop room s (stack, str ".")).
    + destruct (Z.eqb_spec c "."%chr) as [->|Hd]; [|destruct (Z.eqb_spec c "%"%chr),
        (Z.eqb_spec c "?"%chr), (Z.eqb_spec c "#"%chr); try done].
      * eapply emit_moves; try done. by rewrite Ht.
      * destruct (c =? "+"%chr); (eapply emit_moves; try done); by rewrite classify_snoc.
Qed.

Lemma cx_dot_dot_simulates c t :
  plain c -> t.2 = str ".." -> simulates (cx_dot_dot src) c t.
Proof.
  intros (Hb & H1 & H2 & H3) Ht s c' Ha Hu Hch Hst Hp.
  unfold add_char, cx_dot_dot. rewrite Hch. destruct (is_usual c) eqn:Eu.
  - rewrite (is_usual_spec c Hb) in Eu. unfold unusual in Eu.
    destruct (Z.eqb_spec c "/"%chr); [lia|].
    eapply emit_moves; try done. rewrite classify_snoc; [done|lia].
  - destruct (Z.eqb_spec c "/"%chr) as [->|Hs]; cbn [orb].
    + pose proof (pop_segment_ok room s t Ha Ht) as Hpop.
      destruct t as [stack seg]. cbn [fst snd] in *. subst seg. cbn.
      destruct stack as [|seg stack]; [by rewrite Hpop|].
      destruct Hpop as (v & -> & Hv & Ha'). cbn.
      eapply next_moves; try done; cbn; [lia|]. eapply agrees_eq; [..|exact Ha']; done.
    + destruct (Z.eqb_spec c "?"%chr), (Z.eqb_spec c "#"%chr), (Z.eqb_spec c "%"%chr); try done.
      cbn [orb].
      assert (classify (t.2 ++ [c]) = sw_usual) as Hcl.
      { destruct (Z.eqb_spec c "."%chr) as [->|]; [by rewrite Ht|by apply classify_snoc]. }
      destruct (c =? "+"%chr); (eapply emit_moves; try done).
Qed.

Lemma cx_step_simulates c t : plain c -> simulates (cx_step merge_slashes src) c t.
Proof.
  intros Hc s c' Ha Hu Hch Hst Hp. unfold cx_step. rewrite Hst.
  destruct (classify_spec t.2) as [[E ->]|[[E ->]|[[E ->]|(E1 & E2 & E3 & ->)]]].
  - by apply (cx_slash_simulates c t Hc E s c').
  - by apply (cx_dot_simulates c t Hc E s c').
  - by apply (cx_dot_dot_simulates c t Hc E s c').
  - by apply (cx_usual_simulates c t Hc E1 E2 E3 s c').
Qed.
End one_character.

(** ** The end of the path *)

(** The buffer holds [out]. *)
Definition written (room : Z) (s : complex) (out : list Z) : Prop :=
  s.(u) = zlen out /\ take (Z.to_nat s.(u)) s.(dst) = out /\ zlen s.(dst) = room.

Lemma agrees_written room s s' t :
  agrees room s t -> s'.(u) = s.(u) -> s'.(dst) = s.(dst) ->
  written room s' (render t.1 ++ t.2).
Proof. intros [H1 H2 H3 _ _] E1 E2. unfold written. by rewrite E1, E2. Qed.

(** How each state ends the path. *)
Lemma path_end room s t :
  agrees room s t ->
  match classify t.2 with
  | sw_dot =>
      exists out, path_text t = Some out /\ written room (s <| u := s.(u) - 1 |>) out
  | sw_dot_dot =>
      match path_text t with
      | None => pop_segment s = Ok None
      | Some out => exists v, pop_segment s = Ok (Some (s <| u := v |>)) /\
          written room (s <| u := v |>) out
      end
  | sw_slash | sw_usual => exists out, path_text t = Some out /\ written room s out
  | _ => False
  end.
Proof.
  intros Ha. destruct t as [stack seg].
  pose proof (classify_spec seg) as Hcl. cbn [fst snd path_text] in *.
  destruct Hcl as [[E ->]|[[E ->]|[[E ->]|(E1 & E2 & E3 & ->)]]]; try subst seg.
  - cbn. eexists. split; [done|]. by apply (agrees_written room s s (stack, [])).
  - cbn. eexists. split; [done|].
    apply (agrees_drop room s _ 1) in Ha; [|done].
    apply (agrees_written _ _ (s <| u := s.(u) - 1 |>)) in Ha; [|done|done].
    cbn in Ha. by rewrite app_nil_r in Ha.
  - pose proof (pop_segment_ok room s _ Ha eq_refl) as Hpop. cbn [fst] in Hpop.
    destruct stack as [|seg stack]; [done|].
    destruct Hpop as (v & Hv & _ & Ha'). exists v. split; [done|].
    apply (agrees_written _ _ (s <| u := v |>)) in Ha'; [|done|done].
    cbn in Ha'. by rewrite app_nil_r in Ha'.
  - destruct (beq_spec seg (str ".")); [done|]. destruct (beq_spec seg (str "..")); [done|].
    eexists. split; [done|]. by apply (agrees_written room s s (stack, seg)).
Qed.

Lemma written_eq room s s' out :
  written room s out -> s'.(u) = s.(u) -> s'.(dst) = s.(dst) -> written room s' out.
Proof. unfold written. intros H -> ->. done. Qed.

(** A bare question mark. *)
Lemma cx_step_args merge src room s t :
  agrees room s t -> s.(ch) = "?"%chr -> s.(state) = classify t.2 ->
  match path_text t with
  | None => cx_step merge src s = Ok Invalid
  | Some out => exists s', cx_step merge src s = Ok (Args s') /\ written room s' out /\
      s'.(c_args) = Some s.(p) /\ s'.(p) = s.(p)
  end.
Proof.
  intros Ha Hch Hst. pose proof (path_end room s t Ha) as Hend.
  unfold cx_step. rewrite Hst.
  destruct (classify_spec t.2) as [[E Hc]|[[E Hc]|[[E Hc]|(_ & _ & _ & Hc)]]];
    rewrite Hc in *; unfold cx_usual, cx_slash, cx_dot, cx_dot_dot; rewrite Hch; cbn.
  - destruct Hend as (out & -> & Hw). eexists. split; [done|].
    split; [by eapply written_eq|done].
  - destruct Hend as (out & -> & Hw). eexists. split; [done|].
    split; [by eapply written_eq|done].
  - destruct (path_text t) as [out|].
    + destruct Hend as (v & -> & Hw). cbn. eexists. split; [done|].
      split; [by eapply written_eq|done].
    + by rewrite Hend.
  - destruct Hend as (out & -> & Hw). eexists. split; [done|].
    split; [by eapply written_eq|done].
Qed.

(** A bare hash. *)
Lemma cx_step_hash merge src room s t :
  agrees room s t -> s.(ch) = "#"%chr -> s.(state) = classify t.2 ->
  match path_text t with
  | None => cx_step merge src s = Ok Invalid
  | Some out => exists s', cx_step merge src s = Ok (Finish s') /\ written room s' out
  end.
Proof.
  intros Ha Hch Hst. pose proof (path_end room s t Ha) as Hend.
  unfold cx_step. rewrite Hst.
  destruct (classify_spec t.2) as [[E Hc]|[[E Hc]|[[E Hc]|(_ & _ & _ & Hc)]]];
    rewrite Hc in *; unfold cx_usual, cx_slash, cx_dot, cx_dot_dot; rewrite Hch; cbn.
  - destruct Hend as (out & -> & Hw). eauto.
  - destruct Hend as (out & -> & Hw). eauto.
  - destruct (path_text t) as [out|]; [|by rewrite Hend].
    destruct Hend as (v & -> & Hw). cbn. eauto.
  - destruct Hend as (out & -> & Hw). eauto.
Qed.

(** No character left. *)
Lemma cx_loop_end fuel merge src uri_end room s t :
  agrees room s t -> uri_end < s.(p) -> s.(state) = classify t.2 ->
  match path_text t with
  | None => cx_loop fuel merge src uri_end s = Ok Invalid
  | Some out => exists s', cx_loop fuel merge src uri_end s = Ok (Finish s') /\
      written room s' out
  end.
Proof.
  intros Ha Hp Hst. pose proof (path_end room s t Ha) as Hend.
  assert (forall o, cx_loop fuel merge src uri_end s = o <-> match s.(state) with
    | sw_quoted | sw_quoted_second => Ok Invalid
    | sw_dot => Ok (Finish (s <| u := s.(u) - 1 |>))
    | sw_dot_dot =>
        r ← pop_segment s;
        match r with None => Ok Invalid | Some s => Ok (Finish s) end
    | _ => Ok (Finish s)
    end = o) as Hloop.
  { intros o. destruct fuel; cbn [cx_loop]; destruct (Z.ltb_spec uri_end s.(p)); done || lia. }
  rewrite Hst in Hloop.
  destruct (classify t.2) eqn:Hc; try done.
  - destruct Hend as (out & -> & Hw). exists s. split; [by apply Hloop|done].
  - destruct Hend as (out & -> & Hw). exists s. split; [by apply Hloop|done].
  - destruct Hend as (out & -> & Hw). eexists. split; [by apply Hloop|done].
  - destruct (path_text t) as [out|]; [|apply Hloop; by rewrite Hend].
    destruct Hend as (v & Hv & Hw). eexists. split; [apply Hloop; by rewrite Hv|done].
Qed.

(** ** Encoded characters *)

(** The code's test for a digit in either case. *)
Definition hex_code (a : Z) : option Z :=
  if is_digit a then Some (u8 (a - "0"%chr))
  else
    let c := u8 (Z.lor a 0x20) in
    if between "a"%chr "f"%chr c then Some (u8 (c - "a"%chr + 10)) else None.

Lemma hex_code_all :
  forallb (fun n => bool_decide (hex_code (Z.of_nat n) = hex_value (Z.of_nat n))) (seq 0 256)
  = true.
Proof. vm_compute. reflexivity. Qed.

Lemma hex_code_value a : is_byte a -> hex_code a = hex_value a.
Proof.
  intros Ha. pose proof hex_code_all as H. rewrite forallb_forall in H.
  specialize (H (Z.to_nat a)). rewrite Z2Nat.id in H by lia.
  eapply bool_decide_eq_true, H, in_seq. lia.
Qed.

Lemma hex_value_range a x : hex_value a = Some x -> 0 <= x < 16.
Proof.
  unfold hex_value, is_digit, between. intros H.
  destruct (("0"%chr <=? a) && (a <=? "9"%chr)) eqn:E1; [injection H as <-; lia|].
  destruct (("a"%chr <=? a) && (a <=? "f"%chr)) eqn:E2; [injection H as <-; lia|].
  destruct (("A"%chr <=? a) && (a <=? "F"%chr)) eqn:E3; [injection H as <-; lia|done].
Qed.

Lemma nibbles x y : 0 <= x < 16 -> 0 <= y < 16 -> u8 (Z.shiftl x 4 + y) = x * 16 + y.
Proof. intros. rewrite Z.shiftl_mul_pow2 by lia. apply u8_id. lia. Qed.

Section quoted.
Context (merge_slashes : bool) (src : list Z).

(** The first digit. *)
Lemma cx_quoted_ok s b :
  is_byte s.(ch) -> get src s.(p) = Ok b ->
  cx_quoted src s =
    Ok (match hex_value s.(ch) with
        | Some x => Next (s <| c_quoted := true |> <| decoded := x |>
            <| state := sw_quoted_second |> <| ch := b |> <| p := s.(p) + 1 |>)
        | None => Invalid
        end).
Proof.
  intros Ha Hb. unfold cx_quoted. rewrite <- (hex_code_value _ Ha). unfold hex_code.
  change ((s <| c_quoted := true |>).(ch)) with s.(ch).
  unfold next, advance.
  destruct (is_digit s.(ch)); [cbn; by rewrite Hb|].
  destruct (between _ _ _); [cbn; by rewrite Hb|done].
Qed.

(** The second digit: three characters are written without another look. *)
Definition literal (d : Z) : bool := (d =? "%"%chr) || (d =? "#"%chr) || (d =? "?"%chr).

Lemma cx_quoted_second_ok s x y :
  is_byte s.(ch) -> s.(decoded) = x -> 0 <= x < 16 -> hex_value s.(ch) = Some y ->
  let d := x * 16 + y in
  exists s', s'.(ch) = d /\ s'.(p) = s.(p) /\ s'.(u) = s.(u) /\ s'.(dst) = s.(dst) /\
    cx_quoted_second src s =
      if d =? 0 then Ok Invalid
      else if literal d then emit_next src (s' <| state := sw_usual |>)
      else Ok (Next (s' <| state := s.(quoted_state) |>)).
Proof.
  intros Hb Hx Hxr Hy d. pose proof (hex_value_range _ _ Hy) as Hyr.
  unfold cx_quoted_second. rewrite Hx. unfold hex_value in Hy.
  pose proof (hex_code_value _ Hb) as Hh. unfold hex_code, hex_value in Hh.
  destruct (is_digit s.(ch)) eqn:Ed.
  - injection Hy as Hy. rewrite Hy, nibbles by lia. fold d.
    exists (s <| ch := d |>). do 4 (split; [done|]). unfold literal.
    cbn [set_field ch quoted_state].
    unfold is_digit, between in Ed.
    destruct (Z.eqb_spec d 0) as [E0|]; [by rewrite E0|].
    assert ((d =? "?"%chr) = false) as -> by (apply Z.eqb_neq; subst d; lia).
    by rewrite orb_false_r.
  - destruct (between "a"%chr "f"%chr (u8 (Z.lor s.(ch) 0x20))) eqn:El.
    + rewrite Hy in Hh. injection Hh as Hh.
      assert (u8 (Z.lor s.(ch) 0x20) - "a"%chr + 10 = y /\ 10 <= y) as [Hh' Hy10].
      { unfold between in El. rewrite u8_id in Hh by lia. lia. }
      replace (Z.shiftl x 4 + (u8 (Z.lor s.(ch) 0x20) - "a"%chr) + 10)
        with (Z.shiftl x 4 + y) by lia.
      rewrite nibbles by lia. fold d. unfold literal.
      assert ((d =? 0) = false) as -> by (apply Z.eqb_neq; subst d; lia).
      assert ((d =? "%"%chr) = false) as -> by (apply Z.eqb_neq; subst d; lia).
      assert ((d =? "#"%chr) = false) as -> by (apply Z.eqb_neq; subst d; lia).
      cbn [orb].
      exists (if d =? "+"%chr then s <| ch := d |> <| c_plus := true |> else s <| ch := d |>).
      destruct (Z.eqb_spec d "+"%chr) as [E|]; [rewrite E|];
        do 4 (split; [done|]); [done|]. by destruct (d =? "?"%chr).
    + rewrite Hy in Hh. done.
Qed.

Lemma cx_quoted_second_bad s :
  is_byte s.(ch) -> hex_value s.(ch) = None -> cx_quoted_second src s = Ok Invalid.
Proof.
  intros Hb Hy. rewrite <- hex_code_value in Hy by done. unfold hex_code in Hy.
  unfold cx_quoted_second. destruct (is_digit s.(ch)); [done|].
  by destruct (between _ _ _).
Qed.
End quoted.

(** ** The loop *)

(** Where the arguments begin, if a bare question mark ends the path. *)
Fixpoint args_at (l : list Z) : option Z :=
  match l with
  | [] => None
  | c :: l =>
      if c =? "?"%chr then Some 1
      else if c =? "#"%chr then None
      else if c =? "%"%chr then
        match l with
        | a :: b :: l => k ← args_at l; Some (k + 3)
        | _ => None
        end
      else k ← args_at l; Some (k + 1)
  end.

(** The length of the path: where a bare question mark or hash ends it. *)
Fixpoint path_len (l : list Z) : Z :=
  match l with
  | [] => 0
  | c :: l =>
      if (c =? "?"%chr) || (c =? "#"%chr) then 0
      else if c =? "%"%chr then
        match l with a :: b :: l => 3 + path_len l | _ => 1 end
      else 1 + path_len l
  end.

Lemma path_len_nonneg l : 0 <= path_len l.
Proof.
  induction l as [|c l IH1 _ IH3] using list_ind_2; cbn [path_len]; [lia|].
  destruct ((c =? "?"%chr) || (c =? "#"%chr)); [lia|].
  destruct (c =? "%"%chr); [|lia]. destruct l as [|a [|b l]]; [lia..|].
  specialize (IH3 a b l eq_refl). lia.
Qed.

Section loop.
Context (merge_slashes : bool) (src : list Z) (base uri_end room : Z).
Context (Hbytes : bytes src) (Hend : uri_end < zlen src).

Definition result_of (i : Z) (t : path) (l : list Z) (r : turn) : Prop :=
  match walk merge_slashes t l with
  | None => r = Invalid
  | Some out =>
      match args_at l with
      | Some k => exists s, r = Args s /\ written room s out /\
          s.(c_args) = Some (i + k) /\ s.(p) = i + k
      | None => exists s, r = Finish s /\ written room s out
      end
  end.

(** In front of the character at [i], outside an encoded one; the character in
    [ch] may be one that was decoded. *)
Record in_front (i : Z) (s : complex) (t : path) : Prop := {
  if_p : s.(p) = i + 1;
  if_state : s.(state) = classify t.2;
  if_u : s.(u) + base <= i;
  if_agrees : agrees room s t
}.

Lemma cx_loop_S fuel s :
  s.(p) <= uri_end ->
  cx_loop (S fuel) merge_slashes src uri_end s =
    r ← cx_step merge_slashes src s;
    match r with Next s => cx_loop fuel merge_slashes src uri_end s | r => Ok r end.
Proof. intros H. cbn [cx_loop]. by destruct (Z.ltb_spec uri_end s.(p)); [lia|]. Qed.

Lemma in_front_moved i s s' t t' :
  in_front i s t -> moved src room s s' t' ->
  in_front (i + 1) s' t' /\ get src (i + 1) = Ok s'.(ch).
Proof.
  intros [F1 F3 F4 F5] [M1 M2 M3 M4 M5]. rewrite F1 in M2. split; [|done].
  split; [lia|done|lia|done].
Qed.

(** A plain character, also one that was just decoded. *)
Lemma plain_step i s t fuel :
  in_front i s t -> i < uri_end -> 0 <= i -> i - base < room -> plain s.(ch) ->
  match add_char merge_slashes t s.(ch) with
  | None => cx_loop (S fuel) merge_slashes src uri_end s = Ok Invalid
  | Some t' => exists s', in_front (i + 1) s' t' /\ get src (i + 1) = Ok s'.(ch) /\
      cx_loop (S fuel) merge_slashes src uri_end s
      = cx_loop fuel merge_slashes src uri_end s'
  end.
Proof.
  intros F Hi H0 Hroom Hpl. pose proof F as [F1 F3 F4 F5].
  rewrite cx_loop_S by lia.
  destruct (get_ok src s.(p)) as [c' Hc']; [lia|].
  pose proof (cx_step_simulates merge_slashes src room s.(ch) t Hpl s c' F5 ltac:(lia)
    eq_refl F3 Hc') as Hs.
  destruct (add_char merge_slashes t s.(ch)) as [t'|].
  - destruct Hs as (s' & -> & Hm). destruct (in_front_moved _ _ _ _ _ F Hm). eauto.
  - by rewrite Hs.
Qed.

(** A character that is written without another look. *)
Lemma literal_step i s t c c' fuel :
  in_front i s t -> i < uri_end -> 0 <= i -> i - base < room -> literal c = true ->
  s.(ch) = c -> get src (i + 1) = Ok c' ->
  exists s', in_front (i + 1) s' (t.1, t.2 ++ [c]) /\ get src (i + 1) = Ok s'.(ch) /\
    (r ← emit_next src (s <| state := sw_usual |>);
     match r with Next s => cx_loop fuel merge_slashes src uri_end s | r => Ok r end)
    = cx_loop fuel merge_slashes src uri_end s'.
Proof.
  intros F Hi H0 Hroom Hl Hch Hc'. pose proof F as [F1 F3 F4 F5]. unfold literal in Hl.
  destruct (emit_moves src room s (s <| state := sw_usual |>) t c c') as (s' & -> & Hm);
    try done; [lia|lia|by rewrite F1|cbn; rewrite classify_snoc; [done|lia]|].
  destruct (in_front_moved _ _ _ _ _ F Hm). eauto.
Qed.

(** The two digits of an encoded character: the state in front of the second. *)
Lemma percent_step i s t a fuel :
  in_front i s t -> i < uri_end -> 0 <= i -> s.(ch) = "%"%chr -> get src (i + 1) = Ok a ->
  exists s', s'.(state) = sw_quoted /\ s'.(quoted_state) = classify t.2 /\
    s'.(ch) = a /\ s'.(p) = i + 2 /\ s'.(u) = s.(u) /\ s'.(dst) = s.(dst) /\
    cx_loop (S fuel) merge_slashes src uri_end s
    = cx_loop fuel merge_slashes src uri_end s'.
Proof.
  intros [F1 F3 F4 F5] Hi H0 Hch Ha. rewrite cx_loop_S by lia.
  assert (cx_step merge_slashes src s = start_quoted src s) as ->.
  { unfold cx_step. rewrite F3. unfold cx_usual, cx_slash, cx_dot, cx_dot_dot.
    rewrite Hch. destruct (classify_spec t.2) as [[E ->]|[[E ->]|[[E ->]|(_ & _ & _ & ->)]]];
      done. }
  unfold start_quoted, next, advance.
  change ((s <| quoted_state := s.(state) |> <| state := sw_quoted |>).(p)) with s.(p).
  rewrite F1, Ha, Ok_bind.
  exists (s <| quoted_state := s.(state) |> <| state := sw_quoted |> <| ch := a |>
            <| p := i + 1 + 1 |>).
  cbn. do 3 (split; [done|]). split; [lia|done].
Qed.

Lemma first_digit_step i s fuel a b :
  s.(state) = sw_quoted -> s.(ch) = a -> is_byte a -> s.(p) = i + 2 -> i + 2 <= uri_end ->
  get src (i + 2) = Ok b ->
  match hex_value a with
  | None => cx_loop (S fuel) merge_slashes src uri_end s = Ok Invalid
  | Some x => exists s', s'.(state) = sw_quoted_second /\
      s'.(quoted_state) = s.(quoted_state) /\ s'.(decoded) = x /\ s'.(ch) = b /\
      s'.(p) = i + 3 /\ s'.(u) = s.(u) /\ s'.(dst) = s.(dst) /\
      cx_loop (S fuel) merge_slashes src uri_end s
      = cx_loop fuel merge_slashes src uri_end s'
  end.
Proof.
  intros Hst Hch Ha Hp Hi Hb. rewrite cx_loop_S by lia. unfold cx_step. rewrite Hst.
  rewrite (cx_quoted_ok src s b) by (rewrite ?Hch, ?Hp; done). rewrite Hch.
  destruct (hex_value a) as [x|]; [|done].
  exists (s <| c_quoted := true |> <| decoded := x |> <| state := sw_quoted_second |>
            <| ch := b |> <| p := s.(p) + 1 |>).
  cbn. do 4 (split; [done|]). split; [lia|done].
Qed.

Lemma plain_of_byte c :
  is_byte c -> c <> "%"%chr -> c <> "?"%chr -> c <> "#"%chr -> plain c.
Proof. unfold plain. auto. Qed.

(** An encoded character, all three bytes of it. *)
Lemma encoded_step i s t a b x y fuel :
  in_front i s t -> 0 <= i -> i + 3 <= uri_end -> i + 2 - base < room ->
  s.(ch) = "%"%chr ->
  get src (i + 1) = Ok a -> get src (i + 2) = Ok b ->
  hex_value a = Some x -> hex_value b = Some y ->
  match (if x * 16 + y =? 0 then None else add_char merge_slashes t (x * 16 + y)) with
  | None => cx_loop (S (S (S (S fuel)))) merge_slashes src uri_end s = Ok Invalid
  | Some t' => exists s' k, in_front (i + 3) s' t' /\ get src (i + 3) = Ok s'.(ch) /\
      (k <= 1)%nat /\
      cx_loop (S (S (S (S fuel)))) merge_slashes src uri_end s
      = cx_loop (k + fuel) merge_slashes src uri_end s'
  end.
Proof.
  intros F H0 Hi Hroom Hch Ha Hb Hx Hy. pose proof (hex_value_range _ _ Hx) as Rx.
  pose proof (hex_value_range _ _ Hy) as Ry.
  destruct (percent_step i s t a (S (S (S fuel))) F ltac:(lia) H0 Hch Ha)
    as (s1 & S1 & Q1 & C1 & P1 & U1 & D1 & L1).
  rewrite L1. pose proof F as [F1 F3 F4 F5].
  assert (is_byte a) as Hba by (by eapply get_byte).
  assert (is_byte b) as Hbb by (by eapply get_byte).
  pose proof (first_digit_step i s1 (S (S fuel)) a b S1 C1 Hba P1 ltac:(lia) Hb) as L2.
  rewrite Hx in L2. destruct L2 as (s2 & S2 & Q2 & X2 & C2 & P2 & U2 & D2 & L2).
  rewrite L2. rewrite cx_loop_S by lia. unfold cx_step. rewrite S2.
  destruct (cx_quoted_second_ok src s2 x y) as (s3 & C3 & P3 & U3 & D3 & L3);
    [by rewrite C2|done|done|by rewrite C2|]. rewrite L3.
  destruct (Z.eqb_spec (x * 16 + y) 0) as [|Hd0]; [done|].
  destruct (get_ok src (i + 3)) as [c' Hc']; [lia|].
  assert (forall st, in_front (i + 2) (s3 <| state := st |>) t <-> st = classify t.2) as F'.
  { intros st. split; [by intros []|]. intros ->. split; cbn; [lia|done|lia|].
    eapply agrees_eq; [..|exact F5]; cbn; congruence. }
  destruct (literal (x * 16 + y)) eqn:El.
  - assert (add_char merge_slashes t (x * 16 + y) = Some (t.1, t.2 ++ [x * 16 + y])) as ->.
    { unfold add_char, literal in *. by destruct (Z.eqb_spec (x * 16 + y) "/"%chr); [lia|]. }
    destruct (literal_step (i + 2) (s3 <| state := classify t.2 |>) t (x * 16 + y) c' (S fuel))
      as (s' & Hs' & Hcs & L4); try done; [by apply F'|lia|lia|
        by replace (i + 2 + 1) with (i + 3) by lia|].
    exists s', 1%nat. replace (i + 2 + 1) with (i + 3) in * by lia.
    split; [done|]. split; [done|]. split; [lia|].
    cbn [Nat.add]. rewrite <- L4. reflexivity.
  - rewrite Ok_bind. unfold literal in El.
    assert (plain (x * 16 + y)) as Hpl by (apply plain_of_byte; lia).
    pose proof (plain_step (i + 2) (s3 <| state := s2.(quoted_state) |>) t fuel) as L4.
    change ((s3 <| state := s2.(quoted_state) |>).(ch)) with s3.(ch) in L4.
    rewrite C3 in L4. specialize (L4 ltac:(apply F'; congruence) ltac:(lia) ltac:(lia) ltac:(lia)
      Hpl).
    destruct (add_char merge_slashes t (x * 16 + y)) as [t'|]; [|done].
    destruct L4 as (s' & Hs' & Hcs & L4). exists s', 0%nat.
    replace (i + 2 + 1) with (i + 3) in * by lia. split; [done|]. split; [done|].
    split; [lia|done].
Qed.

(** A percent sign with fewer than two characters behind it, or with a character
    that is not a digit. *)
Lemma broken_step i s t l fuel :
  in_front i s t -> 0 <= i -> holds src (i + 1) l -> i + 1 + zlen l = uri_end ->
  s.(ch) = "%"%chr ->
  match l with
  | a :: b :: _ => hex_value a = None \/ hex_value b = None
  | _ => True
  end -> cx_loop (S (S (S fuel))) merge_slashes src uri_end s = Ok Invalid.
Proof.
  intros F H0 Hl Hi Hch Hbad. pose proof (zlen_nonneg l).
  destruct (get_ok src (i + 1)) as [a Ha]; [lia|].
  destruct (percent_step i s t a (S (S fuel)) F ltac:(lia) H0 Hch Ha)
    as (s1 & S1 & Q1 & C1 & P1 & U1 & D1 & ->).
  destruct l as [|a' l].
  { rewrite zlen_nil in Hi. cbn [cx_loop Nat.add].
    destruct (Z.ltb_spec uri_end s1.(p)); [by rewrite S1|lia]. }
  apply holds_cons in Hl as [Ha' Hl]. rewrite Ha in Ha'. injection Ha' as <-.
  rewrite zlen_cons in Hi. pose proof (zlen_nonneg l).
  destruct (get_ok src (i + 2)) as [b Hb]; [lia|].
  assert (is_byte a) as Hba by (by eapply get_byte).
  assert (is_byte b) as Hbb by (by eapply get_byte).
  pose proof (first_digit_step i s1 (S fuel) a b S1 C1 Hba P1 ltac:(lia) Hb) as L2.
  destruct (hex_value a) as [x|] eqn:Ex; [|done].
  destruct L2 as (s2 & S2 & Q2 & X2 & C2 & P2 & U2 & D2 & ->).
  destruct l as [|b' l].
  { rewrite zlen_nil in Hi. cbn [cx_loop Nat.add].
    destruct (Z.ltb_spec uri_end s2.(p)); [by rewrite S2|lia]. }
  apply holds_cons in Hl as [Hb' Hl]. rewrite zlen_cons in Hi. pose proof (zlen_nonneg l).
  replace (i + 1 + 1) with (i + 2) in Hb' by lia. rewrite Hb in Hb'. injection Hb' as <-.
  destruct Hbad as [|Hy]; [done|]. cbn [Nat.add]. rewrite cx_loop_S by lia.
  unfold cx_step. rewrite S2, cx_quoted_second_bad; [done|by rewrite C2|by rewrite C2].
Qed.

Lemma args_at_cons i t c l r :
  c <> "?"%chr -> c <> "#"%chr -> c <> "%"%chr ->
  match add_char merge_slashes t c with
  | None => r = Invalid
  | Some t' => result_of (i + 1) t' l r
  end -> result_of i t (c :: l) r.
Proof.
  intros H1 H2 H3 H. unfold result_of. cbn [walk args_at].
  destruct (Z.eqb_spec c "?"%chr), (Z.eqb_spec c "#"%chr), (Z.eqb_spec c "%"%chr); try done.
  cbn [orb]. destruct (add_char merge_slashes t c) as [t'|]; [|done]. cbn.
  unfold result_of in H. destruct (walk merge_slashes t' l) as [out|]; [|done].
  destruct (args_at l) as [k|]; [|done]. cbn.
  by replace (i + (k + 1)) with (i + 1 + k) by lia.
Qed.

Lemma args_at_encoded i t a b x y l r :
  hex_value a = Some x -> hex_value b = Some y ->
  match (if x * 16 + y =? 0 then None else add_char merge_slashes t (x * 16 + y)) with
  | None => r = Invalid
  | Some t' => result_of (i + 3) t' l r
  end -> result_of i t ("%"%chr :: a :: b :: l) r.
Proof.
  intros Hx Hy H. unfold result_of. cbn [walk args_at]. cbn [Z.eqb Pos.eqb orb].
  rewrite Hx, Hy. cbn. destruct (x * 16 + y =? 0); [done|].
  destruct (add_char merge_slashes t (x * 16 + y)) as [t'|]; [|done]. cbn.
  unfold result_of in H. destruct (walk merge_slashes t' l) as [out|]; [|done].
  destruct (args_at l) as [k|]; [|done]. cbn.
  by replace (i + (k + 3)) with (i + 3 + k) by lia.
Qed.

Lemma result_of_broken i t l r :
  match l with
  | a :: b :: _ => hex_value a = None \/ hex_value b = None
  | _ => True
  end -> r = Invalid -> result_of i t ("%"%chr :: l) r.
Proof.
  intros H ->. unfold result_of. cbn [walk]. cbn [Z.eqb Pos.eqb orb].
  destruct l as [|a [|b l]]; [done|done|].
  destruct (hex_value a) as [x|]; [|done]. cbn.
  destruct H as [|Hb]; [done|]. by rewrite Hb.
Qed.

Lemma cx_loop_walk l : forall i s t fuel,
  in_front i s t -> get src i = Ok s.(ch) -> 0 <= i -> holds src i l ->
  i + zlen l = uri_end -> (2 * length l + 2 <= fuel)%nat -> i + path_len l - base <= room ->
  exists r, cx_loop fuel merge_slashes src uri_end s = Ok r /\ result_of i t l r.
Proof.
  induction l as [|c l IH1 _ IH3] using list_ind_2; intros i s t fuel F Hch H0 Hl Hi Hf Hroom.
  - rewrite zlen_nil in Hi. pose proof F as [F1 F3 F4 F5].
    pose proof (cx_loop_end fuel merge_slashes src uri_end room s t F5 ltac:(lia) F3) as H.
    unfold result_of. cbn. destruct (path_text t) as [out|]; [|by exists Invalid].
    destruct H as (s' & -> & Hw). eauto.
  - apply holds_cons in Hl as [Hc Hl]. rewrite Hch in Hc. injection Hc as Hc.
    rewrite zlen_cons in Hi. pose proof (zlen_nonneg l). cbn [length] in Hf.
    pose proof F as [F1 F3 F4 F5].
    destruct fuel as [|[|[|[|fuel]]]]; [lia..|].
    destruct (Z.eq_dec c "?"%chr) as [E|N1].
    { rewrite cx_loop_S by lia.
      pose proof (cx_step_args merge_slashes src room s t F5 ltac:(congruence) F3) as H1.
      unfold result_of. rewrite E. cbn [walk args_at Z.eqb Pos.eqb orb].
      destruct (path_text t) as [out|];
        [|rewrite H1; by exists Invalid].
      destruct H1 as (s' & -> & Hw & Ha & Hp). eexists. split; [done|].
      exists s'. rewrite Ha, Hp, F1. done. }
    destruct (Z.eq_dec c "#"%chr) as [E|N2].
    { rewrite cx_loop_S by lia.
      pose proof (cx_step_hash merge_slashes src room s t F5 ltac:(congruence) F3) as H1.
      unfold result_of. rewrite E. cbn [walk args_at Z.eqb Pos.eqb orb].
      destruct (path_text t) as [out|];
        [|rewrite H1; by exists Invalid].
      destruct H1 as (s' & -> & Hw). eauto. }
    destruct (Z.eq_dec c "%"%chr) as [E|N3].
    + rewrite E in *. clear c E. cbn [path_len] in Hroom. cbn [Z.eqb Pos.eqb orb] in Hroom.
      assert (match l with
        | a :: b :: _ => hex_value a = None \/ hex_value b = None
        | _ => True
        end \/ exists a b l' x y, l = a :: b :: l' /\ hex_value a = Some x /\
          hex_value b = Some y) as [Hbad|(a & b & l' & x & y & -> & Hx & Hy)].
      { destruct l as [|a [|b l']]; [auto|auto|].
        destruct (hex_value a) as [x|] eqn:Ex; [|auto].
        destruct (hex_value b) as [y|] eqn:Ey; [|auto]. right. eauto 10. }
      { eexists. split; [|by apply result_of_broken].
        apply (broken_step i s t l (S fuel)); try done; lia. }
      apply holds_cons in Hl as [Ha Hl]. apply holds_cons in Hl as [Hb Hl].
      pose proof (path_len_nonneg l'). rewrite !zlen_cons in Hi. cbn [length] in Hf. pose proof (zlen_nonneg l').
      replace (i + 1 + 1) with (i + 2) in * by lia.
      replace (i + 2 + 1) with (i + 3) in Hl by lia.
      pose proof (encoded_step i s t a b x y fuel F H0 ltac:(lia) ltac:(lia) ltac:(done) Ha Hb Hx Hy)
        as Hstep.
      destruct (if x * 16 + y =? 0 then None else _) as [t'|] eqn:Et.
      * destruct Hstep as (s' & k & F' & Hch' & Hk & ->).
        destruct (IH3 a b l' eq_refl (i + 3) s' t' (k + fuel)%nat F' Hch') as (r & Hr & Hres);
          [lia|done|lia|lia|lia|].
        exists r. split; [done|]. eapply args_at_encoded; [done|done|]. by rewrite Et.
      * eexists. split; [done|]. eapply args_at_encoded; [done|done|]. by rewrite Et.
    + cbn [path_len] in Hroom. pose proof (path_len_nonneg l).
      replace ((c =? "?"%chr) || (c =? "#"%chr)) with false in Hroom by lia.
      replace (c =? "%"%chr) with false in Hroom by lia.
      pose proof (plain_step i s t (S (S (S fuel))) F ltac:(lia) H0 ltac:(lia)) as Hstep.
      rewrite Hc in Hstep. assert (is_byte c) as Hbc by (rewrite <- Hc; by eapply get_byte).
      specialize (Hstep (plain_of_byte c Hbc N3 N1 N2)).
      destruct (add_char merge_slashes t c) as [t'|] eqn:Et.
      * destruct Hstep as (s' & F' & Hch' & ->).
        destruct (IH1 (i + 1) s' t' (S (S (S fuel))) F' Hch') as (r & Hr & Hres);
          [lia|done|lia|lia|lia|].
        exists r. split; [done|]. apply args_at_cons; try done. by rewrite Et.
      * eexists. split; [done|]. apply args_at_cons; try done. by rewrite Et.
Qed.
End loop.

(** ** The arguments *)

Fixpoint index_of (c : Z) (l : list Z) : option Z :=
  match l with
  | [] => None
  | d :: l => if d =? c then Some 0 else k ← index_of c l; Some (k + 1)
  end.

Lemma find_hash_ok src q i :
  holds src i q ->
  find_hash (length q) src i =
    Ok (match index_of "#"%chr q with Some k => Some (i + k) | None => None end).
Proof.
  revert i. induction q as [|c q IH]; intros i H; [done|].
  apply holds_cons in H as [Hc H]. cbn [find_hash length index_of]. rewrite Hc, Ok_bind.
  destruct (c =? "#"%chr); [by rewrite Z.add_0_r|]. rewrite (IH _ H).
  destruct (index_of "#"%chr q) as [k|]; [|done]. cbn.
  by replace (i + (k + 1)) with (i + 1 + k) by lia.
Qed.

Lemma args_at_range l k : args_at l = Some k -> 1 <= k <= zlen l.
Proof.
  revert k. induction l as [|c l IH1 _ IH3] using list_ind_2; intros k; [done|].
  cbn [args_at]. rewrite zlen_cons. pose proof (zlen_nonneg l).
  destruct (c =? "?"%chr); [intros [= <-]; lia|]. destruct (c =? "#"%chr); [done|].
  destruct (c =? "%"%chr).
  - destruct l as [|a [|b l]]; [done|done|].
    specialize (IH3 a b l eq_refl).
    destruct (args_at l) as [k'|]; [|done]. intros [= <-].
    specialize (IH3 _ eq_refl). rewrite !zlen_cons. lia.
  - destruct (args_at l) as [k'|]; [|done]. intros [= <-].
    specialize (IH1 _ eq_refl). lia.
Qed.

(** [r->args] and [r->args_start] for a path whose first character is at [i]:
    arguments that a hash ends get their length here. *)
Definition args_result (i : Z) (l : list Z) : option (Z * Z) * option Z :=
  match args_at l with
  | None => (None, None)
  | Some k =>
      match index_of "#"%chr (drop (Z.to_nat k) l) with
      | Some h => (Some (i + k, h), None)
      | None => (None, Some (i + k))
      end
  end.

(** ** The result *)

(** No segment of [out] is a dot segment; none but the last is empty if slashes
    are merged. *)
Definition no_dot_segments (merge_slashes : bool) (out : list Z) : Prop :=
  exists stack seg, out = render stack ++ seg /\ no_slash seg /\
    seg <> str "." /\ seg <> str ".." /\
    Forall (fun s => no_slash s /\ s <> str "." /\ s <> str ".." /\
                     (merge_slashes = true -> s <> [])) stack.

Definition good_stack (merge_slashes : bool) (t : path) : Prop :=
  no_slash t.2 /\
  Forall (fun s => no_slash s /\ s <> str "." /\ s <> str ".." /\
                   (merge_slashes = true -> s <> [])) t.1.

Lemma add_char_good merge t c t' :
  good_stack merge t -> add_char merge t c = Some t' -> good_stack merge t'.
Proof.
  intros [H1 H2]. destruct t as [stack seg]. unfold add_char. cbn [fst snd] in *.
  destruct (Z.eqb_spec c "/"%chr).
  - unfold close_segment.
    destruct (beq_spec seg (str ".")); [by intros [= <-]|].
    destruct (beq_spec seg (str "..")).
    { destruct stack; [done|]. intros [= <-]. by apply Forall_cons in H2 as [_ H2]. }
    destruct (beq_spec seg []), merge; intros [= <-]; split; try done;
      cbn; constructor; try done; by auto.
  - intros [= <-]. split; [|done]. apply Forall_app. by repeat constructor.
Qed.

Lemma walk_good merge t l out :
  good_stack merge t -> walk merge t l = Some out -> no_dot_segments merge out.
Proof.
  rewrite walk_decode. intros Ht. destruct (decode l) as [d|]; [|done]. cbn.
  revert t Ht. induction d as [|c d IH]; intros t [H1 H2]; cbn.
  - destruct t as [stack seg]. cbn [fst snd path_text] in *.
    destruct (beq_spec seg (str ".")).
    { intros [= <-]. exists stack, []. by rewrite app_nil_r. }
    destruct (beq_spec seg (str "..")).
    { destruct stack as [|x stack]; [done|]. intros [= <-]. exists stack, [].
      apply Forall_cons in H2 as [_ H2]. by rewrite app_nil_r. }
    intros [= <-]. by exists stack, seg.
  - destruct (add_char merge t c) as [t'|] eqn:E; [|done]. cbn. apply IH.
    by eapply add_char_good.
Qed.

Lemma slice_written room s out :
  written room s out -> 0 <= s.(u) -> slice s.(dst) 0 s.(u) = Ok out.
Proof.
  intros (H1 & H2 & H3) H0. unfold slice.
  assert (s.(u) <= zlen s.(dst)) as Hle.
  { rewrite H1, <- H2. unfold zlen. rewrite length_take. lia. }
  destruct (Z.leb_spec 0 0), (Z.leb_spec 0 s.(u)), (Z.leb_spec (0 + s.(u)) (zlen s.(dst)));
    try lia. cbn [andb]. change (Z.to_nat 0) with O. by rewrite drop_0, H2.
Qed.

Section call.
Context (pre path rest : list Z) (merge_slashes plus quoted : bool) (room : list Z).
Context (Hbytes : bytes (pre ++ "/"%chr :: path ++ rest)) (Hrest : rest <> []).
Context (Hroom : path_len path + 1 <= zlen room).

Abbreviation src := (pre ++ "/"%chr :: path ++ rest).
Abbreviation start := (zlen pre).
Abbreviation finish := (zlen pre + 1 + zlen path).

Lemma src_holds : holds src (start + 1) path.
Proof.
  pose proof (holds_middle (pre ++ ["/"%chr]) path rest) as H.
  rewrite zlen_app, <- app_assoc in H. exact H.
Qed.

Lemma finish_lt : finish < zlen src.
Proof.
  rewrite zlen_app, zlen_cons, zlen_app. destruct rest as [|c r]; [done|].
  rewrite zlen_cons. pose proof (zlen_nonneg r). lia.
Qed.

(** The first slash. *)
Lemma first_slash fuel :
  exists s', in_front start (zlen room) (start + 1) s' ([], []) /\
    get src (start + 1) = Ok s'.(ch) /\
    cx_loop (S fuel) merge_slashes src finish
      (Complex sw_usual sw_usual 0 "/"%chr (start + 1) 0 room None None plus quoted)
    = cx_loop fuel merge_slashes src finish s'.
Proof.
  pose proof (zlen_nonneg path). pose proof (zlen_nonneg pre). pose proof finish_lt.
  pose proof (path_len_nonneg path). destruct (get_ok src (start + 1)) as [c' Hc']; [lia|].
  destruct (put_ok room 0 "/"%chr) as (d & Hd & Hlen); [lia|].
  exists (Complex sw_slash sw_usual 0 c' (start + 2) 1 d None None plus quoted).
  split; [|split; [done|]].
  - split; cbn; [lia|done|lia|]. split; try done.
    change (take (Z.to_nat (0 + 1)) d = str "/").
    rewrite (take_put room 0 _ d ltac:(lia) Hd). done.
  - rewrite cx_loop_S by (cbn; lia). unfold cx_step, cx_usual. cbn [state ch].
    cbn [is_usual]. change (is_usual "/"%chr) with false. cbv iota. cbn [Z.eqb Pos.eqb].
    unfold emit_next, emit. cbn. rewrite Hd. unfold next, advance. cbn.
    rewrite Hc'. cbn. by replace (start + 1 + 1) with (start + 2) by lia.
Qed.

Lemma complex_uri_result :
  exists r,
    ngx_http_parse_complex_uri src start finish false plus quoted merge_slashes room = Ok r /\
    match normal_form merge_slashes path with
    | None => r = None
    | Some out => exists c, r = Some c /\ c.(r_uri) = out /\
        (c.(r_args), c.(r_args_start)) = args_result (start + 1) path
    end.
Proof.
  pose proof (zlen_nonneg path). pose proof (zlen_nonneg pre).
  unfold ngx_http_parse_complex_uri.
  assert (get src start = Ok "/"%chr) as Hstart.
  { rewrite <- (Z.add_0_r start), get_app_r by lia. done. }
  unfold advance. rewrite Ok_bind. cbn [p]. rewrite Hstart, Ok_bind. cbn [set_field p].
  replace (2 * Z.to_nat (finish - start) + 2)%nat with (S (2 * length path + 3))
    by (unfold zlen; lia).
  destruct (first_slash (2 * length path + 3)) as (s' & F & Hch & Hloop).
  rewrite Ok_bind.
  match goal with |- context [cx_loop ?f ?m ?s ?e ?c] =>
    change (cx_loop f m s e c) with (cx_loop f m s e
      (Complex sw_usual sw_usual 0 "/"%chr (start + 1) 0 room None None plus quoted)) end.
  rewrite Hloop. clear Hloop.
  destruct (cx_loop_walk merge_slashes src start finish (zlen room) Hbytes finish_lt
    path (start + 1) s' ([], []) (2 * length path + 3) F Hch ltac:(lia) src_holds ltac:(lia)
    ltac:(lia) ltac:(lia)) as (r & -> & Hr).
  rewrite Ok_bind. unfold result_of in Hr. rewrite walk_normal_form in Hr.
  destruct (normal_form merge_slashes path) as [out|]; [|subst r; by exists None].
  unfold args_result. destruct (args_at path) as [k|] eqn:Ek.
  - destruct Hr as (s & -> & Hw & Ha & Hp). apply args_at_range in Ek. rewrite Ha. cbn [ptr].
    rewrite Ok_bind, Hp.
    replace (Z.to_nat (finish - (start + 1 + k))) with (length (drop (Z.to_nat k) path))
      by (rewrite length_drop; unfold zlen in *; lia).
    rewrite (find_hash_ok src) by (apply holds_drop; [apply src_holds|lia]). rewrite Ok_bind.
    pose proof (zlen_nonneg out). destruct Hw as [Hu Hw].
    unfold complex_finish.
    destruct (index_of "#"%chr (drop (Z.to_nat k) path)) as [h|];
      rewrite (slice_written (zlen room) s out) by (done || lia); rewrite Ok_bind;
      eexists; (split; [done|]); eexists; (split; [done|]); cbn; [|done].
    split; [done|]. do 3 f_equal. lia.
  - destruct Hr as (s & -> & Hw). pose proof (zlen_nonneg out). pose proof (proj1 Hw).
    unfold complex_finish. rewrite (slice_written (zlen room) s out) by (done || lia).
    rewrite Ok_bind. eexists. split; [done|]. by eexists.
Qed.
End call.

(** C38: For a URI that begins with a slash and has at least one more byte behind
    it, in a request of any content, ngx_http_parse_complex_uri stays inside the
    request and inside a result buffer of the length of the path, terminates, and
    computes the normal form: the path decoded, dot segments resolved, slashes
    merged if asked for, the arguments found. It rejects the URI exactly when
    the normal form does not exist (a bad escape, an encoded zero, or ".." above
    the root). The normal form has no dot segment. *)
Theorem complex_uri_normalises pre path rest merge_slashes plus quoted room :
  bytes (pre ++ "/"%chr :: path ++ rest) -> rest <> [] -> path_len path + 1 <= zlen room ->
  exists r,
    ngx_http_parse_complex_uri (pre ++ "/"%chr :: path ++ rest) (zlen pre)
      (zlen pre + 1 + zlen path) false plus quoted merge_slashes room = Ok r /\
    match normal_form merge_slashes path with
    | None => r = None
    | Some out => exists c, r = Some c /\ c.(r_uri) = out /\
        no_dot_segments merge_slashes out /\
        (c.(r_args), c.(r_args_start)) = args_result (zlen pre + 1) path
    end.
Proof.
  intros Hb Hr Hroom.
  destruct (complex_uri_result pre path rest merge_slashes plus quoted room Hb Hr Hroom)
    as (r & Hcall & Hres).
  exists r. split; [done|]. destruct (normal_form merge_slashes path) as [out|] eqn:E; [|done].
  destruct Hres as (c & H1 & H2 & H3). exists c. split; [done|]. split; [done|]. split; [|done].
  rewrite <- walk_normal_form in E. by eapply walk_good in E.
Qed.

Lemma complex_uri_normalises_witness :
  exists r,
    ngx_http_parse_complex_uri (str "GET /a/./b/../%63?x HTTP/1.1") 4 19 false false false true
      (replicate 15 0) = Ok (Some r) /\ r.(r_uri) = str "/a/c" /\ r.(r_args_start) = Some 18.
Proof.
  destruct (complex_uri_normalises (str "GET ") (str "a/./b/../%63?x") (str " HTTP/1.1")
    true false false (replicate 15 0)) as (r & H1 & H2).
  - by apply bytes_check.
  - done.
  - by vm_compute.
  - assert (normal_form true (str "a/./b/../%63?x") = Some (str "/a/c")) as E
      by (vm_compute; reflexivity).
    rewrite E in H2. destruct H2 as (c & -> & H2 & _ & H3). clear E. exists c.
    split; [|split; [done|by injection H3]].
    vm_compute in H1. vm_compute. exact H1.
Defined.
