(* ===== verification/HttpChunked.v ===== *)
(** * Chunked transfer coding

    [ngx_http_parse_chunked] of [src/http/ngx_http_parse.c], on the machine of
    [Machine]. The parser stops in front of the data of a chunk; [c_size] is then
    the number of data bytes, and the caller counts it down. *)

From S2P Require Import Prelude Machine.

Inductive chunked_state :=
| sw_chunk_start
| sw_chunk_size
| sw_chunk_extension
| sw_chunk_extension_almost_done
| sw_chunk_data
| sw_after_data
| sw_after_data_almost_done
| sw_last_chunk_extension
| sw_last_chunk_extension_almost_done
| sw_trailer
| sw_trailer_almost_done
| sw_trailer_header
| sw_trailer_header_almost_done.

#[export] Instance chunked_state_eq : EqDecision chunked_state.
Proof. solve_decision. Defined.

(** [ngx_http_chunked_t] *)
Record ngx_http_chunked_t := Chunked {
  c_state : chunked_state;
  c_size : Z;
  c_length : Z
}.

#[export] Instance chunked_rebuild : Rebuild ngx_http_chunked_t := fun c =>
  Chunked c.(c_state) c.(c_size) c.(c_length).

(** The structure as it is allocated: zeroed. *)
Definition new_chunked : ngx_http_chunked_t := Chunked sw_chunk_start 0 0.

Abbreviation outcome := (verdict chunked_state ngx_http_chunked_t).

(** [goto invalid] *)
Definition chunk_invalid (ctx : ngx_http_chunked_t) : res outcome :=
  Ok (Return NGX_ERROR ctx).

(** The value of a hexadecimal digit, or [None]. *)
Definition chunk_digit (ch : Z) : option Z :=
  if is_digit ch then Some (ch - "0"%chr)
  else
    let c := u8 (Z.lor ch 0x20) in
    if between "a"%chr "f"%chr c then Some (c - "a"%chr + 10) else None.

Definition st_chunk_start (ch : Z) (ctx : ngx_http_chunked_t) : res outcome :=
  match chunk_digit ch with
  | Some d => Ok (Continue sw_chunk_size (ctx <| c_size := d |>))
  | None => chunk_invalid ctx
  end.

(** The end of a line, an extension, or an error, in this order. *)
Definition chunk_line_end (ch : Z) (almost_done read extension : chunked_state)
    (ctx : ngx_http_chunked_t) : res outcome :=
  if ch =? CR then Ok (Continue almost_done ctx)
  else if ch =? LF then Ok (Continue read ctx)
  else if (ch =? ";"%chr) || (ch =? " "%chr) || (ch =? 9) then Ok (Continue extension ctx)
  else chunk_invalid ctx.

Definition st_chunk_size (ch : Z) (ctx : ngx_http_chunked_t) : res outcome :=
  if NGX_MAX_OFF_T_VALUE / 16 <? ctx.(c_size) then chunk_invalid ctx
  else match chunk_digit ch with
  | Some d =>
      size ← int64 (ctx.(c_size) * 16);
      size ← int64 (size + d);
      Ok (Continue sw_chunk_size (ctx <| c_size := size |>))
  | None =>
      if ctx.(c_size) =? 0
      then chunk_line_end ch sw_last_chunk_extension_almost_done sw_trailer
             sw_last_chunk_extension ctx
      else chunk_line_end ch sw_chunk_extension_almost_done sw_chunk_data
             sw_chunk_extension ctx
  end.

(** Anything up to the end of the line. *)
Definition chunk_skip (ch : Z) (here almost_done read : chunked_state)
    (ctx : ngx_http_chunked_t) : res outcome :=
  if ch =? CR then Ok (Continue almost_done ctx)
  else if ch =? LF then Ok (Continue read ctx)
  else Ok (Continue here ctx).

(** A line feed. *)
Definition chunk_almost_done (ch : Z) (next : chunked_state) (ctx : ngx_http_chunked_t)
    : res outcome :=
  if ch =? LF then Ok (Continue next ctx) else chunk_invalid ctx.

Definition chunked_step (b : list Z) (pos ch : Z) (state : chunked_state)
    (ctx : ngx_http_chunked_t) : res outcome :=
  match state with
  | sw_chunk_start => st_chunk_start ch ctx
  | sw_chunk_size => st_chunk_size ch ctx
  | sw_chunk_extension =>
      chunk_skip ch sw_chunk_extension sw_chunk_extension_almost_done sw_chunk_data ctx
  | sw_chunk_extension_almost_done => chunk_almost_done ch sw_chunk_data ctx
  | sw_chunk_data => Ok (Return NGX_OK ctx)
  | sw_after_data =>
      if ch =? CR then Ok (Continue sw_after_data_almost_done ctx)
      else chunk_almost_done ch sw_chunk_start ctx
  | sw_after_data_almost_done => chunk_almost_done ch sw_chunk_start ctx
  | sw_last_chunk_extension =>
      chunk_skip ch sw_last_chunk_extension sw_last_chunk_extension_almost_done
        sw_trailer ctx
  | sw_last_chunk_extension_almost_done => chunk_almost_done ch sw_trailer ctx
  | sw_trailer =>
      if ch =? CR then Ok (Continue sw_trailer_almost_done ctx)
      else if ch =? LF then Ok (Done sw_trailer ctx)
      else Ok (Continue sw_trailer_header ctx)
  | sw_trailer_almost_done =>
      if ch =? LF then Ok (Done sw_trailer_almost_done ctx) else chunk_invalid ctx
  | sw_trailer_header =>
      chunk_skip ch sw_trailer_header sw_trailer_header_almost_done sw_trailer ctx
  | sw_trailer_header_almost_done => chunk_almost_done ch sw_trailer ctx
  end.

(** [ctx->length]: the least number of bytes up to the end of the body. *)
Definition chunk_length (state : chunked_state) (size : Z) : res Z :=
  match state with
  | sw_chunk_start => Ok 3
  | sw_chunk_size =>
      rest ← (if size =? 0 then Ok 1 else int64 (size + 4)); int64 (1 + rest)
  | sw_chunk_extension | sw_chunk_extension_almost_done =>
      l ← int64 (1 + size); int64 (l + 4)
  | sw_chunk_data => int64 (size + 4)
  | sw_after_data | sw_after_data_almost_done => Ok 4
  | sw_last_chunk_extension | sw_last_chunk_extension_almost_done => Ok 2
  | sw_trailer | sw_trailer_almost_done => Ok 1
  | sw_trailer_header | sw_trailer_header_almost_done => Ok 2
  end.

(** What a call returns and leaves behind: the code, [b->pos] and the context. *)
Definition chunked_result : Type := Z * Z * ngx_http_chunked_t.

(** The label [data]. *)
Definition chunked_data (rc pos : Z) (state : chunked_state) (ctx : ngx_http_chunked_t)
    : res chunked_result :=
  let ctx := ctx <| c_state := state |> in
  if NGX_MAX_OFF_T_VALUE - 5 <? ctx.(c_size) then Ok (NGX_ERROR, pos, ctx)
  else
    length ← chunk_length state ctx.(c_size);
    Ok (rc, pos, ctx <| c_length := length |>).

(** The call on the memory [b]. An error leaves [b->pos] and [ctx->state] as they
    were, unless the size turns out to be too large. *)
Definition ngx_http_parse_chunked (b : list Z) (last pos : Z) (ctx : ngx_http_chunked_t)
    : res chunked_result :=
  let state :=
    if bool_decide (ctx.(c_state) = sw_chunk_data) && (ctx.(c_size) =? 0)
    then sw_after_data else ctx.(c_state) in
  '(p, v) ← scan chunked_step b (Z.to_nat (last - pos)) pos state ctx;
  match v with
  | Continue state ctx => chunked_data NGX_AGAIN p state ctx
  | Done _ ctx => Ok (NGX_DONE, p + 1, ctx <| c_state := sw_chunk_start |>)
  | Return rc ctx =>
      if rc =? NGX_OK then chunked_data NGX_OK p sw_chunk_data ctx
      else Ok (NGX_ERROR, pos, ctx)
  end.

Example chunked_1 :
  ngx_http_parse_chunked (str "1a;x" ++ [13; 10] ++ str "rest") 10 0 new_chunked
  = Ok (NGX_OK, 6, Chunked sw_chunk_data 26 30).
Proof. vm_compute. reflexivity. Qed.

Example chunked_2 :
  ngx_http_parse_chunked ([13; 10] ++ str "0" ++ [10; 10]) 5 0 (Chunked sw_chunk_data 0 0)
  = Ok (NGX_DONE, 5, Chunked sw_chunk_start 0 0).
Proof. vm_compute. reflexivity. Qed.
