(* ===== verification/HttpChunkedBody.v ===== *)
(** * The readers of a chunked body

    [ngx_http_discard_request_body_filter] and [ngx_http_request_body_chunked_filter]
    of [src/http/ngx_http_request_body.c]. The buffer that is read is a list of
    bytes with its [pos] and [last]; the output buffers of the second filter are
    ranges of the same memory, because the filter does not copy the data of a
    chunk, and moves small chunks together in place. *)

From S2P Require Import Prelude HttpRequest HttpChunked.

(** A temporary buffer. *)
Record buf := Buf { mem : list Z; pos : Z; last : Z }.

#[export] Instance buf_rebuild : Rebuild buf := fun b => Buf b.(mem) b.(pos) b.(last).

(** ** Discarding *)

(** The fields of the request that are read and written. *)
Record discard := Discard {
  d_buf : buf;
  d_chunked : ngx_http_chunked_t;
  d_content_length_n : Z
}.

(** [for ( ;; )], with [large] for [cscf->large_client_header_buffers.size]. *)
Fixpoint discard_chunked (fuel : nat) (large : Z) (b : buf) (ctx : ngx_http_chunked_t)
    (content_length_n : Z) : res (Z * discard) :=
  match fuel with
  | O => NoFuel
  | S fuel =>
      '(rc, p, ctx) ← ngx_http_parse_chunked b.(mem) b.(last) b.(pos) ctx;
      let b := b <| pos := p |> in
      if rc =? NGX_OK then
        let size := b.(last) - b.(pos) in
        if ctx.(c_size) <? size
        then discard_chunked fuel large (b <| pos := b.(pos) + ctx.(c_size) |>)
               (ctx <| c_size := 0 |>) content_length_n
        else discard_chunked fuel large (b <| pos := b.(last) |>)
               (ctx <| c_size := ctx.(c_size) - size |>) content_length_n
      else if rc =? NGX_DONE then Ok (NGX_OK, Discard b ctx 0)
      else if rc =? NGX_AGAIN then Ok (NGX_OK, Discard b ctx (Z.max ctx.(c_length) large))
      else Ok (NGX_HTTP_BAD_REQUEST, Discard b ctx content_length_n)
  end.

(** A turn of the loop reads at least one byte of the buffer or is the last but
    one, so one unit of fuel more than the bytes left, and one, are enough. *)
Definition ngx_http_discard_request_body_filter (chunked : bool) (large : Z) (d : discard)
    : res (Z * discard) :=
  let b := d.(d_buf) in
  if chunked then
    discard_chunked (Z.to_nat (b.(last) - b.(pos)) + 2) large b d.(d_chunked)
      d.(d_content_length_n)
  else
    let size := b.(last) - b.(pos) in
    if d.(d_content_length_n) <? size
    then Ok (NGX_OK, Discard (b <| pos := b.(pos) + d.(d_content_length_n) |>)
                       d.(d_chunked) 0)
    else Ok (NGX_OK, Discard (b <| pos := b.(last) |>) d.(d_chunked)
                       (d.(d_content_length_n) - size)).

(** ** Reading *)

(** An output buffer: [pos] and [last] in the memory of the input buffer. *)
Definition range : Type := Z * Z.

(** The state of the loop: the input buffer, the context, the bytes of the body
    so far, the output buffers, the latest first ([b] of the code is the
    head of the list), and how many times [ngx_chain_get_free_buf] has been called. *)
Record filter := Filter {
  f_buf : buf;
  f_chunked : ngx_http_chunked_t;
  f_content_length_n : Z;
  f_out : list range;
  f_asked : nat
}.

#[export] Instance filter_rebuild : Rebuild filter := fun f =>
  Filter f.(f_buf) f.(f_chunked) f.(f_content_length_n) f.(f_out) f.(f_asked).

(** [while (size) { *to++ = *from++; size--; }] *)
Fixpoint copy_forward (n : nat) (m : list Z) (to from : Z) : res (list Z) :=
  match n with
  | O => Ok m
  | S n => c ← get m from; m ← put m to c; copy_forward n m (to + 1) (from + 1)
  end.

(** [ngx_memmove(m + to, m + from, n)] *)
Definition move (m : list Z) (to from n : Z) : res (list Z) :=
  l ← slice m from n; blit m to l.

(** The data of a small chunk is moved behind that of the chunk before. *)
Definition append_chunk (f : filter) (first last : Z) (out : list range) : res filter :=
  let b := f.(f_buf) in
  let size := f.(f_chunked).(c_size) in
  m ← (if size <? 8 then copy_forward (Z.to_nat size) b.(mem) last b.(pos)
       else move b.(mem) last b.(pos) size);
  length ← int64 (f.(f_content_length_n) + size);
  Ok (Filter (b <| mem := m |> <| pos := b.(pos) + size |>)
       (f.(f_chunked) <| c_size := 0 |>) length ((first, last + size) :: out) f.(f_asked)).

Section filter.

(** Whether the call number [k] of [ngx_chain_get_free_buf] returns a buffer, whether
    [ngx_pcalloc] succeeds, and what the next filter, [ngx_http_top_request_body_filter],
    returns when it is given the output buffers. *)
Context (get_free : nat -> bool) (pcalloc : bool) (next : list (list Z * list range * bool) -> Z).

(** An output buffer for the data of the chunk that is there; [None] without one. *)
Definition new_chunk (f : filter) : res (option filter) :=
  let b := f.(f_buf) in
  let size := b.(last) - b.(pos) in
  let c := f.(f_chunked).(c_size) in
  if negb (get_free f.(f_asked)) then Ok None
  else if c <? size then
    length ← int64 (f.(f_content_length_n) + c);
    Ok (Some (Filter (b <| pos := b.(pos) + c |>) (f.(f_chunked) <| c_size := 0 |>)
         length ((b.(pos), b.(pos) + c) :: f.(f_out)) (S f.(f_asked))))
  else
    length ← int64 (f.(f_content_length_n) + size);
    Ok (Some (Filter (b <| pos := b.(last) |>) (f.(f_chunked) <| c_size := c - size |>)
         length ((b.(pos), b.(last)) :: f.(f_out)) (S f.(f_asked)))).

(** A chunk has been parsed. *)
Definition take_chunk (f : filter) : res (option filter) :=
  let b := f.(f_buf) in
  let size := f.(f_chunked).(c_size) in
  match f.(f_out) with
  | (first, finish) :: out =>
      if (size <=? 128) && (size <=? b.(last) - b.(pos))
      then f ← append_chunk f first finish out; Ok (Some f)
      else new_chunk f
  | [] => new_chunk f
  end.

(** How the loop over one buffer ends: the code of [ngx_http_parse_chunked], or
    an error of the filter. *)
Inductive filtered :=
| Filtered (rc : Z) (f : filter)
| TooLarge (f : filter)
| NoBuffer (f : filter)
| BadRequest (f : filter).

(** [for ( ;; )] on one buffer; [max] is [clcf->client_max_body_size]. *)
Fixpoint chunked_loop (fuel : nat) (max : Z) (f : filter) : res filtered :=
  match fuel with
  | O => NoFuel
  | S fuel =>
      let b := f.(f_buf) in
      '(rc, p, ctx) ← ngx_http_parse_chunked b.(mem) b.(last) b.(pos) f.(f_chunked);
      let f := f <| f_buf := b <| pos := p |> |> <| f_chunked := ctx |> in
      if rc =? NGX_OK then
        too_large ← (if max =? 0 then Ok false
                     else left ← int64 (max - f.(f_content_length_n));
                          Ok (left <? ctx.(c_size)));
        match too_large with
        | true => Ok (TooLarge f)
        | false =>
            t ← take_chunk f;
            match t with
            | Some f => chunked_loop fuel max f
            | None => Ok (NoBuffer (f <| f_asked := S f.(f_asked) |>))
            end
        end
      else if (rc =? NGX_DONE) || (rc =? NGX_AGAIN) then Ok (Filtered rc f)
      else Ok (BadRequest f)
  end.

(** The body of [for (cl = in; cl; cl = cl->next)]: one buffer of the chain. *)
Definition chunked_buffer (max : Z) (b : buf) (ctx : ngx_http_chunked_t)
    (content_length_n : Z) (asked : nat) : res filtered :=
  chunked_loop (Z.to_nat (b.(last) - b.(pos)) + 2) max (Filter b ctx content_length_n [] asked).

(** What the filter leaves in the request, and the output buffers: the memory
    and the range of each, [true] for the empty last buffer behind them. *)
Record body := Body {
  rb_chunked : ngx_http_chunked_t;
  rb_content_length_n : Z;
  rb_rest : Z;
  rb_out : list (list Z * list range * bool);
  rb_asked : nat
}.

(** The code returned for a request that is given up, [f] being where the loop was left. *)
Definition leave_with (code : Z) (f : filter) (r : body) : Z * body :=
  (code, Body f.(f_chunked) f.(f_content_length_n) r.(rb_rest) r.(rb_out) f.(f_asked)).

(** The loop over the chain, and the next filter behind it. *)
Fixpoint chunked_chain (max large : Z) (chain : list buf) (r : body) : res (Z * body) :=
  match chain with
  | [] => Ok (next r.(rb_out), r)
  | b :: chain =>
      t ← chunked_buffer max b r.(rb_chunked) r.(rb_content_length_n) r.(rb_asked);
      match t with
      | Filtered rc f =>
          let out := (f.(f_buf).(mem), rev f.(f_out), rc =? NGX_DONE) in
          if rc =? NGX_DONE then
            if negb (get_free f.(f_asked)) then
              Ok (NGX_HTTP_INTERNAL_SERVER_ERROR,
                  Body f.(f_chunked) f.(f_content_length_n) 0 r.(rb_out) (S f.(f_asked)))
            else
              chunked_chain max large chain
                (Body f.(f_chunked) f.(f_content_length_n) 0 (r.(rb_out) ++ [out]) (S f.(f_asked)))
          else
            chunked_chain max large chain
              (Body f.(f_chunked) f.(f_content_length_n) (Z.max f.(f_chunked).(c_length) large)
                 (r.(rb_out) ++ [out]) f.(f_asked))
      | TooLarge f => Ok (leave_with NGX_HTTP_REQUEST_ENTITY_TOO_LARGE f r)
      | NoBuffer f => Ok (leave_with NGX_HTTP_INTERNAL_SERVER_ERROR f r)
      | BadRequest f => Ok (leave_with NGX_HTTP_BAD_REQUEST f r)
      end
  end.

(** The filter; [rest = -1] is the first call. *)
Definition ngx_http_request_body_chunked_filter (max large : Z) (chain : list buf)
    (r : body) : res (Z * body) :=
  let r := Body r.(rb_chunked) r.(rb_content_length_n) r.(rb_rest) [] r.(rb_asked) in
  if r.(rb_rest) =? -1 then
    if negb pcalloc then Ok (NGX_HTTP_INTERNAL_SERVER_ERROR, r)
    else chunked_chain max large chain (Body new_chunked 0 large r.(rb_out) r.(rb_asked))
  else chunked_chain max large chain r.

End filter.

Definition whole (m : list Z) : buf := Buf m 0 (zlen m).

Example read_body :
  let m := str "3" ++ [13; 10] ++ str "abc" ++ [13; 10] ++ str "a" ++ [13; 10] ++
    str "0123456789" ++ [13; 10] ++ str "1" ++ [10] ++ str "x" ++ [10] ++
    str "0" ++ [13; 10; 13; 10] in
  chunked_buffer (fun _ => true) 100 (whole m) new_chunked 0 0
  = Ok (Filtered NGX_DONE
      (Filter (Buf (take 3 m ++ str "abc0123456789x" ++ drop 17 m) 32 32)
         (Chunked sw_chunk_start 0 5) 14 [(3, 17)] 1)).
Proof. vm_compute. reflexivity. Qed.
