(* ===== verification/HttpChunkedSpec.v ===== *)
(** * The chunked coding, byte by byte

    [feed] is one byte of the coding on an abstract state, [digest] a list of
    bytes with the data found in it. The parser and the filter are shown to follow
    them on any buffer, and since [digest] composes, how the input is cut into
    buffers does not matter. *)

From S2P Require Import Prelude Machine HttpChunked HttpChunkedBody.

(** ** The reference *)

(** The state of the parser, and the data bytes left. *)
Abbreviation position := (chunked_state * Z)%type.

(** Behind the data of a chunk. *)
Definition norm (s : position) : position :=
  if bool_decide (s.1 = sw_chunk_data) && (s.2 =? 0) then (sw_after_data, s.2) else s.

Inductive fed :=
| Bad
| End
| Next (s : position)
| Data (s : position).

(** What a step of the parser does to the position. *)
Definition fed_of (o : res outcome) : fed :=
  match o with
  | Ok (Continue st c) =>
      if NGX_MAX_OFF_T_VALUE - 5 <? c.(c_size) then Bad else Next (st, c.(c_size))
  | Ok (Done _ _) => End
  | _ => Bad
  end.

Definition feed (s : position) (ch : Z) : fed :=
  let '(st, size) := norm s in
  match st with
  | sw_chunk_data => Data (sw_chunk_data, size - 1)
  | _ => fed_of (chunked_step [] 0 ch st (Chunked st size 0))
  end.

(** The states the parser stores. *)
Definition valid (s : position) : Prop :=
  match s.1 with
  | sw_chunk_size => 0 <= s.2 <= NGX_MAX_OFF_T_VALUE - 5
  | sw_chunk_extension | sw_chunk_extension_almost_done =>
      0 < s.2 <= NGX_MAX_OFF_T_VALUE / 16
  | sw_chunk_data => 0 <= s.2 <= NGX_MAX_OFF_T_VALUE / 16
  | _ => s.2 = 0
  end.

Lemma max_div_16 : NGX_MAX_OFF_T_VALUE / 16 = 576460752303423487.
Proof. reflexivity. Qed.

Lemma norm_idem s : norm (norm s) = norm s.
Proof.
  unfold norm. destruct (bool_decide (s.1 = sw_chunk_data) && (s.2 =? 0)) eqn:E; [done|].
  by rewrite E.
Qed.

Lemma norm_valid s : valid s -> valid (norm s).
Proof.
  unfold norm. destruct (_ && _) eqn:E; [|done]. cbn. lia.
Qed.

Lemma norm_data s : s.1 = sw_chunk_data -> s.2 <> 0 -> norm s = s.
Proof. intros H1 H2. unfold norm. destruct (Z.eqb_spec s.2 0); [done|]. by rewrite andb_false_r. Qed.

Lemma norm_other s : s.1 <> sw_chunk_data -> norm s = s.
Proof. intros H. unfold norm. by rewrite bool_decide_eq_false_2. Qed.

Lemma chunk_digit_range ch d : chunk_digit ch = Some d -> 0 <= d < 16.
Proof.
  unfold chunk_digit, is_digit, between. intros H. repeat (case_match; simplify_eq); lia.
Qed.

(** The parser looks at no other byte and only at the size. *)
Definition rebase (ctx : ngx_http_chunked_t) (o : res outcome) : res outcome :=
  match o with
  | Ok (Continue st c) => Ok (Continue st (ctx <| c_size := c.(c_size) |>))
  | Ok (Done st c) => Ok (Done st (ctx <| c_size := c.(c_size) |>))
  | Ok (Return rc c) => Ok (Return rc (ctx <| c_size := c.(c_size) |>))
  | o => o
  end.

Lemma rebase_if (c : bool) ctx o1 o2 :
  rebase ctx (if c then o1 else o2) = if c then rebase ctx o1 else rebase ctx o2.
Proof. by destruct c. Qed.

Lemma same_size (c : ngx_http_chunked_t) : c <| c_size := c.(c_size) |> = c.
Proof. by destruct c. Qed.

Lemma chunked_step_rebase b p ch st ctx :
  chunked_step b p ch st ctx =
    rebase ctx (chunked_step [] 0 ch st (Chunked st ctx.(c_size) 0)).
Proof.
  destruct ctx as [st0 size len]. cbn [c_size].
  destruct st; cbn [chunked_step];
    unfold chunk_skip, chunk_almost_done, chunk_invalid; rewrite ?rebase_if;
    try reflexivity.
  - unfold st_chunk_start. by destruct (chunk_digit ch).
  - unfold st_chunk_size, chunk_line_end, chunk_invalid. rewrite ?rebase_if. cbn [c_size].
    destruct (_ <? _); [done|]. destruct (chunk_digit ch) as [d|]; [|by rewrite ?rebase_if].
    destruct (int64 (size * 16)) as [z| |]; [|done|done]. rewrite !Ok_bind.
    by destruct (int64 (z + d)).
Qed.

Definition stepped (o : res outcome) : Prop :=
  match fed_of o with
  | Next s => valid s /\ norm s = s
  | End => exists st c, o = Ok (Done st c) /\ c.(c_size) = 0
  | Bad => (exists c, o = Ok (Return NGX_ERROR c)) \/
      exists c, o = Ok (Continue sw_chunk_size c) /\ NGX_MAX_OFF_T_VALUE - 5 < c.(c_size)
  | Data _ => False
  end.

Lemma stepped_continue st c :
  valid (st, c.(c_size)) -> (st = sw_chunk_data -> c.(c_size) <> 0) ->
  stepped (Ok (Continue st c)).
Proof.
  intros Hv Hn. unfold stepped, fed_of. pose proof max_div_16.
  assert (c.(c_size) <= NGX_MAX_OFF_T_VALUE - 5).
  { unfold valid, NGX_MAX_OFF_T_VALUE in *. destruct st; cbn [fst snd] in Hv; lia. }
  destruct (Z.ltb_spec (NGX_MAX_OFF_T_VALUE - 5) c.(c_size)); [lia|]. split; [done|].
  destruct (decide (st = sw_chunk_data)); [by apply norm_data; auto|by apply norm_other].
Qed.

Lemma stepped_invalid c : stepped (chunk_invalid c).
Proof. left. by exists c. Qed.

Lemma stepped_line_end ch st1 st2 st3 c :
  (forall st, st = st1 \/ st = st2 \/ st = st3 ->
     valid (st, c.(c_size)) /\ (st = sw_chunk_data -> c.(c_size) <> 0)) ->
  stepped (chunk_line_end ch st1 st2 st3 c).
Proof.
  intros H. unfold chunk_line_end.
  repeat case_match; try apply stepped_invalid; apply stepped_continue; apply H; auto.
Qed.

Lemma stepped_big c :
  NGX_MAX_OFF_T_VALUE - 5 < c.(c_size) -> stepped (Ok (Continue sw_chunk_size c)).
Proof.
  intros H. unfold stepped, fed_of.
  destruct (Z.ltb_spec (NGX_MAX_OFF_T_VALUE - 5) c.(c_size)); [|lia]. right. by exists c.
Qed.

Lemma stepped_size ch c :
  0 <= c.(c_size) <= NGX_MAX_OFF_T_VALUE - 5 -> stepped (st_chunk_size ch c).
Proof.
  intros Hc. unfold st_chunk_size. pose proof max_div_16 as HM.
  destruct (Z.ltb_spec (NGX_MAX_OFF_T_VALUE / 16) c.(c_size)); [apply stepped_invalid|].
  destruct (chunk_digit ch) as [d|] eqn:Ed.
  - apply chunk_digit_range in Ed. unfold NGX_MAX_OFF_T_VALUE in *.
    rewrite int64_ok, Ok_bind, int64_ok, Ok_bind by lia.
    destruct (decide (c.(c_size) * 16 + d <= 9223372036854775802)).
    + apply stepped_continue; [|done]. unfold valid, NGX_MAX_OFF_T_VALUE. cbn. lia.
    + apply stepped_big. unfold NGX_MAX_OFF_T_VALUE. cbn. lia.
  - destruct (Z.eqb_spec c.(c_size) 0) as [E|E]; apply stepped_line_end;
      intros st [->|[->| ->]]; unfold valid; cbn; (split; [lia|done]).
Qed.

Lemma step_stepped ch s :
  valid s -> norm s = s -> s.1 <> sw_chunk_data ->
  stepped (chunked_step [] 0 ch s.1 (Chunked s.1 s.2 0)).
Proof.
  intros Hv Hn Hd. destruct s as [st size]. unfold valid in Hv. cbn in *.
  assert (forall st', st' <> sw_chunk_data -> valid (st', size) ->
    stepped (Ok (Continue st' (Chunked st size 0)))) as Hgo.
  { intros st' H1 H2. by apply stepped_continue. }
  assert (forall st', size = 0 -> stepped (Ok (Done st' (Chunked st size 0)))) as Hdone.
  { intros st' H. by exists st', (Chunked st size 0). }
  pose proof max_div_16 as HM.
  destruct st; try done; cbn [chunked_step];
    unfold chunk_skip, chunk_almost_done;
    repeat match goal with |- context [if ch =? ?k then _ else _] => destruct (ch =? k) end;
    try apply stepped_invalid; try (by apply Hgo); try (by apply Hdone);
    try (by apply stepped_continue; [unfold valid; cbn; lia|cbn; lia]).
  - unfold st_chunk_start. destruct (chunk_digit ch) as [d|] eqn:Ed; [|apply stepped_invalid].
    apply chunk_digit_range in Ed. apply stepped_continue; [|done].
    unfold valid, NGX_MAX_OFF_T_VALUE. cbn. lia.
  - apply stepped_size. cbn. lia.
Qed.

(** A step of the parser is a byte of the reference. The one difference: a size
    that is too large is found out one byte later. *)
Lemma step_feed b p ch s ctx :
  valid s -> norm s = s -> s.1 <> sw_chunk_data -> s.2 = ctx.(c_size) ->
  match feed s ch with
  | Next s' => valid s' /\ norm s' = s' /\
      chunked_step b p ch s.1 ctx = Ok (Continue s'.1 (ctx <| c_size := s'.2 |>))
  | End => exists st, chunked_step b p ch s.1 ctx = Ok (Done st (ctx <| c_size := 0 |>))
  | Bad => (exists c, chunked_step b p ch s.1 ctx = Ok (Return NGX_ERROR c)) \/
      exists c, chunked_step b p ch s.1 ctx = Ok (Continue sw_chunk_size c) /\
        NGX_MAX_OFF_T_VALUE - 5 < c.(c_size)
  | Data _ => False
  end.
Proof.
  intros Hv Hn Hd Hs. pose proof (step_stepped ch s Hv Hn Hd) as H.
  rewrite chunked_step_rebase, <- Hs.
  assert (feed s ch = fed_of (chunked_step [] 0 ch s.1 (Chunked s.1 s.2 0))) as Hf.
  { unfold feed. rewrite Hn. destruct s as [[] size]; done. }
  rewrite Hf. unfold stepped in H.
  destruct (fed_of (chunked_step [] 0 ch s.1 (Chunked s.1 s.2 0))) as [| |s'|s'] eqn:E.
  - destruct H as [[c ->]|(c & -> & H)]; [left|right]; eexists; [done|]. split; [done|]. done.
  - destruct H as (st & c & -> & Hc). exists st. cbn. by rewrite Hc.
  - destruct H as [H1 H2]. split; [done|]. split; [done|].
    unfold fed_of in E. repeat (case_match; simplify_eq). done.
  - done.
Qed.

(** ** A call of the parser *)

(** The bytes of a buffer up to the data of a chunk. *)
Inductive headed :=
| HBad
| HEnd (rest : list Z)
| HMore (s : position)
| HData (s : position) (rest : list Z).

Fixpoint heads (s : position) (l : list Z) : headed :=
  match l with
  | [] => HMore (norm s)
  | ch :: l' =>
      match feed s ch with
      | Bad => HBad
      | End => HEnd l'
      | Next s' => heads s' l'
      | Data _ => HData s l
      end
  end.

Definition at_data (s : position) : Prop :=
  s.1 = sw_chunk_data /\ 0 < s.2 <= NGX_MAX_OFF_T_VALUE / 16.

Lemma feed_data s ch :
  valid s -> norm s = s -> s.1 = sw_chunk_data ->
  at_data s /\ feed s ch = Data (sw_chunk_data, s.2 - 1).
Proof.
  intros Hv Hn Hd. unfold feed, at_data. rewrite Hn. destruct s as [st size]. cbn in *. subst st.
  split; [split; [done|]|done]. unfold valid in Hv. cbn [fst snd] in Hv.
  destruct (Z.eqb_spec size 0) as [->|]; [done|]. lia.
Qed.

(** What the loop of the parser returns on the bytes [l]. *)
Definition scanned (r : res (Z * outcome)) (ctx : ngx_http_chunked_t) (finish : Z)
    (h : headed) : Prop :=
  match h with
  | HBad => exists p v, r = Ok (p, v) /\
      ((exists c, v = Return NGX_ERROR c) \/
       exists c, v = Continue sw_chunk_size c /\ NGX_MAX_OFF_T_VALUE - 5 < c.(c_size))
  | HEnd rest => exists st,
      r = Ok (finish - zlen rest - 1, Done st (ctx <| c_size := 0 |>))
  | HMore s => r = Ok (finish, Continue s.1 (ctx <| c_size := s.2 |>)) /\ valid s
  | HData s rest =>
      r = Ok (finish - zlen rest, Return NGX_OK (ctx <| c_size := s.2 |>)) /\ at_data s
  end.

(** A size that is too large is refused by the next byte. *)
Lemma scan_big b l p c :
  holds b p l -> NGX_MAX_OFF_T_VALUE - 5 < c.(c_size) ->
  exists p' v, scan chunked_step b (length l) p sw_chunk_size c = Ok (p', v) /\
    ((exists c', v = Return NGX_ERROR c') \/
     exists c', v = Continue sw_chunk_size c' /\ NGX_MAX_OFF_T_VALUE - 5 < c'.(c_size)).
Proof.
  intros Hl Hc. destruct l as [|ch l]; cbn [length scan]; [by eauto 10|].
  apply holds_cons in Hl as [-> _]. rewrite Ok_bind. cbn [chunked_step].
  unfold st_chunk_size. destruct (Z.ltb_spec (NGX_MAX_OFF_T_VALUE / 16) c.(c_size)).
  - unfold chunk_invalid. rewrite Ok_bind. eexists _, _. split; [done|]. left. by exists c.
  - pose proof max_div_16. unfold NGX_MAX_OFF_T_VALUE in *. lia.
Qed.

Lemma scan_heads b l p s ctx :
  holds b p l -> valid s -> norm s = s -> s.2 = ctx.(c_size) ->
  scanned (scan chunked_step b (length l) p s.1 ctx) ctx (p + zlen l) (heads s l).
Proof.
  revert p s ctx. induction l as [|ch l IH]; intros p s ctx Hl Hv Hn Hs.
  - cbn. rewrite zlen_nil, Z.add_0_r, Hn, Hs, same_size. by split.
  - apply holds_cons in Hl as [Hch Hl]. cbn [length scan heads]. rewrite Hch, Ok_bind.
    rewrite zlen_cons. replace (p + (1 + zlen l)) with (p + 1 + zlen l) by lia.
    destruct (decide (s.1 = sw_chunk_data)) as [Hd|Hd].
    { destruct (feed_data s ch Hv Hn Hd) as [Ha ->]. rewrite Hd. cbn [chunked_step].
      rewrite Ok_bind. split; [|done]. rewrite Hs, same_size, zlen_cons. repeat f_equal. lia. }
    pose proof (step_feed b p ch s ctx Hv Hn Hd Hs) as H.
    destruct (feed s ch) as [| |s'|s'].
    + destruct H as [[c ->]|(c & -> & Hc)]; rewrite Ok_bind.
      * eexists _, _. split; [done|]. left. by exists c.
      * by apply scan_big.
    + destruct H as [st ->]. rewrite Ok_bind. exists st. repeat f_equal. lia.
    + destruct H as (Hv' & Hn' & ->). rewrite Ok_bind.
      specialize (IH (p + 1) s' (ctx <| c_size := s'.2 |>) Hl Hv' Hn' eq_refl).
      destruct (heads s' l); exact IH.
    + done.
Qed.

(** [ctx->length] is computed without overflow. *)
Definition length_of (s : position) : Z :=
  match s.1 with
  | sw_chunk_start => 3
  | sw_chunk_size => 1 + (if s.2 =? 0 then 1 else s.2 + 4)
  | sw_chunk_extension | sw_chunk_extension_almost_done => 1 + s.2 + 4
  | sw_chunk_data => s.2 + 4
  | sw_after_data | sw_after_data_almost_done => 4
  | sw_last_chunk_extension | sw_last_chunk_extension_almost_done => 2
  | sw_trailer | sw_trailer_almost_done => 1
  | sw_trailer_header | sw_trailer_header_almost_done => 2
  end.

Lemma chunked_data_ok rc p s ctx :
  valid s -> s.2 = ctx.(c_size) ->
  chunked_data rc p s.1 ctx = Ok (rc, p, Chunked s.1 s.2 (length_of s)).
Proof.
  intros Hv Hs. unfold chunked_data. cbn [c_size set_field].
  change (c_size (ctx <| c_state := s.1 |>)) with ctx.(c_size). rewrite <- Hs.
  assert (0 <= s.2 <= NGX_MAX_OFF_T_VALUE - 5) as Hr.
  { pose proof max_div_16. unfold valid, NGX_MAX_OFF_T_VALUE in *. destruct s.1; lia. }
  destruct (Z.ltb_spec (NGX_MAX_OFF_T_VALUE - 5) s.2); [lia|].
  unfold NGX_MAX_OFF_T_VALUE in Hr.
  assert (chunk_length s.1 s.2 = Ok (length_of s)) as ->.
  { unfold chunk_length, length_of. destruct s.1; try done.
    - destruct (s.2 =? 0); [done|]. by rewrite int64_ok, Ok_bind, int64_ok by lia.
    - by rewrite int64_ok, Ok_bind, int64_ok by lia.
    - by rewrite int64_ok, Ok_bind, int64_ok by lia.
    - by rewrite int64_ok by lia. }
  rewrite Ok_bind. destruct ctx. cbn in *. by subst.
Qed.

Definition position_of (ctx : ngx_http_chunked_t) : position := (ctx.(c_state), ctx.(c_size)).

Lemma norm_size s : (norm s).2 = s.2.
Proof. unfold norm. by destruct (_ && _). Qed.

(** The call follows the reference on the bytes between [pos] and [last]. *)
Lemma parse_heads b l p ctx :
  holds b p l -> valid (position_of ctx) ->
  let finish := p + zlen l in
  match heads (norm (position_of ctx)) l with
  | HBad => exists p' c, ngx_http_parse_chunked b finish p ctx = Ok (NGX_ERROR, p', c)
  | HEnd rest =>
      ngx_http_parse_chunked b finish p ctx
      = Ok (NGX_DONE, finish - zlen rest, Chunked sw_chunk_start 0 ctx.(c_length))
  | HMore s =>
      ngx_http_parse_chunked b finish p ctx
      = Ok (NGX_AGAIN, finish, Chunked s.1 s.2 (length_of s)) /\ valid s
  | HData s rest =>
      ngx_http_parse_chunked b finish p ctx
      = Ok (NGX_OK, finish - zlen rest, Chunked sw_chunk_data s.2 (length_of s)) /\ at_data s
  end.
Proof.
  intros Hl Hv finish. set (s := norm (position_of ctx)).
  pose proof (scan_heads b l p s ctx Hl (norm_valid _ Hv) (norm_idem _) (norm_size _)) as H.
  assert (forall v, v = scan chunked_step b (length l) p s.1 ctx ->
    ngx_http_parse_chunked b finish p ctx =
      '(p', v) ← v;
      match v with
      | Continue state ctx => chunked_data NGX_AGAIN p' state ctx
      | Done _ ctx => Ok (NGX_DONE, p' + 1, ctx <| c_state := sw_chunk_start |>)
      | Return rc ctx =>
          if rc =? NGX_OK then chunked_data NGX_OK p' sw_chunk_data ctx
          else Ok (NGX_ERROR, p, ctx)
      end) as Hcall.
  { intros v ->. unfold ngx_http_parse_chunked, finish.
    replace (Z.to_nat (p + zlen l - p)) with (length l) by (unfold zlen; lia).
    unfold s, norm, position_of. cbn [fst snd]. by destruct (_ && _). }
  destruct (heads s l) as [|rest|s'|s' rest].
  - destruct H as (p' & v & Hs & Hr). rewrite (Hcall _ (eq_sym Hs)), Ok_bind.
    destruct Hr as [[c ->]|(c & -> & Hc)]; [by eexists _, _|].
    unfold chunked_data. cbn [c_size set_field].
    change (c_size (c <| c_state := sw_chunk_size |>)) with c.(c_size).
    destruct (Z.ltb_spec (NGX_MAX_OFF_T_VALUE - 5) c.(c_size)); [by eexists _, _|lia].
  - destruct H as [st Hs]. rewrite (Hcall _ (eq_sym Hs)), Ok_bind.
    by replace (p + zlen l - zlen rest - 1 + 1) with (finish - zlen rest) by (unfold finish; lia).
  - destruct H as [Hs Hv']. rewrite (Hcall _ (eq_sym Hs)), Ok_bind. split; [|done].
    by apply (chunked_data_ok _ _ s').
  - destruct H as [Hs Ha]. rewrite (Hcall _ (eq_sym Hs)), Ok_bind. split; [|done].
    destruct s' as [st' size']. destruct Ha as [Hd Ha]. cbn [fst snd] in Hd, Ha. subst st'.
    apply (chunked_data_ok NGX_OK _ (sw_chunk_data, size')); [|done].
    unfold valid. cbn [fst snd]. lia.
Qed.
