(* ===== verification/HttpChunkedBodySpec.v ===== *)
(** * Reading a chunked body

    [digest] collects the data of a chunked body with the reference of
    [HttpChunkedSpec], under the limit for the size of a body. The filter delivers
    the same data, although it moves chunks in the memory it reads from. *)

From S2P Require Import Prelude Machine HttpRequest HttpChunked HttpChunkedSpec HttpChunkedBody.

(** ** The reference *)

Inductive digested :=
| DBad
| DOver (data : list Z)
| DEnd (rest data : list Z)
| DMore (s : position) (data : list Z).

(** [n] bytes are read; [size] more are announced. *)
Definition over (max n size : Z) : bool := negb (max =? 0) && (max - n <? size).

Definition prepend (l : list Z) (d : digested) : digested :=
  match d with
  | DBad => DBad
  | DOver data => DOver (l ++ data)
  | DEnd rest data => DEnd rest (l ++ data)
  | DMore s data => DMore s (l ++ data)
  end.

Fixpoint digest (max n : Z) (s : position) (l : list Z) : digested :=
  match l with
  | [] => DMore (norm s) []
  | ch :: l =>
      match feed s ch with
      | Bad => DBad
      | End => DEnd l []
      | Next s => digest max n s l
      | Data s' =>
          if over max n (s'.2 + 1) then DOver []
          else prepend [ch] (digest max (n + 1) s' l)
      end
  end.

Lemma prepend_nil d : prepend [] d = d.
Proof. by destruct d. Qed.

Lemma prepend_app l1 l2 d : prepend (l1 ++ l2) d = prepend l1 (prepend l2 d).
Proof. destruct d; cbn; by rewrite ?app_assoc. Qed.

Lemma feed_norm s ch : feed (norm s) ch = feed s ch.
Proof. unfold feed. by rewrite norm_idem. Qed.

Lemma digest_norm max n s l : digest max n (norm s) l = digest max n s l.
Proof. destruct l as [|ch l]; cbn; [by rewrite norm_idem|by rewrite feed_norm]. Qed.

(** The input can be cut anywhere. *)
Lemma digest_app max n s l1 l2 :
  digest max n s (l1 ++ l2) =
    match digest max n s l1 with
    | DMore s' data => prepend data (digest max (n + zlen data) s' l2)
    | DEnd rest data => DEnd (rest ++ l2) data
    | d => d
    end.
Proof.
  revert n s. induction l1 as [|ch l1 IH]; intros n s; cbn.
  - by rewrite zlen_nil, Z.add_0_r, prepend_nil, digest_norm.
  - destruct (feed s ch) as [| |s'|s']; [done|done|by rewrite IH|].
    destruct (over max n (s'.2 + 1)); [done|]. rewrite IH.
    destruct (digest max (n + 1) s' l1) as [|data|rest data|s2 data]; [done|done|done|].
    cbn [prepend]. rewrite prepend_app, zlen_app, zlen_cons, zlen_nil.
    by replace (n + 1 + zlen data) with (n + (1 + 0 + zlen data)) by lia.
Qed.

Lemma digest_length max n s l :
  match digest max n s l with
  | DMore _ data => zlen data <= zlen l
  | DEnd rest data => zlen rest + zlen data <= zlen l
  | _ => True
  end.
Proof.
  revert n s. induction l as [|ch l IH]; intros n s; cbn; [done|]. rewrite zlen_cons.
  destruct (feed s ch) as [| |s1|s1]; [done|rewrite zlen_nil; lia| |].
  - specialize (IH n s1). destruct (digest max n s1 l); (done || lia).
  - destruct (over max n (s1.2 + 1)); [done|]. specialize (IH (n + 1) s1).
    destruct (digest max (n + 1) s1 l); cbn; rewrite ?zlen_cons; (done || lia).
Qed.

Lemma digest_more_norm max n s l s' data : digest max n s l = DMore s' data -> norm s' = s'.
Proof.
  revert n s s' data. induction l as [|ch l IH]; intros n s s' data; cbn.
  { intros [= <- _]. apply norm_idem. }
  destruct (feed s ch) as [| |s1|s1]; [done|done|apply IH|].
  destruct (over max n (s1.2 + 1)); [done|].
  destruct (digest max (n + 1) s1 l) as [| | |s2 d2] eqn:E; [done|done|done|].
  intros [= <- _]. by apply IH in E.
Qed.

Lemma digest_heads max n s l :
  digest max n s l =
    match heads s l with
    | HBad => DBad
    | HEnd rest => DEnd rest []
    | HMore s => DMore s []
    | HData s l => digest max n s l
    end.
Proof.
  revert s. induction l as [|ch l IH]; intros s; [done|].
  cbn. destruct (feed s ch) eqn:E; try done. cbn. by rewrite E.
Qed.

Lemma heads_data s l s' l' : heads s l = HData s' l' -> exists pre ch l1, l = pre ++ l' /\ l' = ch :: l1.
Proof.
  revert s. induction l as [|ch l IH]; intros s; cbn; [done|].
  destruct (feed s ch) as [| |s1|s1]; [done|done| |].
  - intros H. apply IH in H as (pre & c & l1 & -> & ->). by exists (ch :: pre), c, l1.
  - intros [= <- <-]. by exists [], ch, l.
Qed.

Lemma heads_end s l rest : heads s l = HEnd rest -> exists pre, l = pre ++ rest.
Proof.
  revert s. induction l as [|ch l IH]; intros s; cbn; [done|].
  destruct (feed s ch) as [| |s1|s1]; [done| | |done].
  - intros [= <-]. by exists [ch].
  - intros H. apply IH in H as [pre ->]. by exists (ch :: pre).
Qed.

Lemma at_data_feed s ch : at_data s -> feed s ch = Data (sw_chunk_data, s.2 - 1).
Proof.
  intros [H1 H2]. unfold feed. rewrite norm_data by (done || lia).
  destruct s as [st size]. cbn in *. by subst.
Qed.

(** The data of a chunk, as much as there is. *)
Lemma digest_data max n s l :
  at_data s -> l <> [] ->
  digest max n s l =
    if over max n s.2 then DOver []
    else
      let k := Z.min s.2 (zlen l) in
      prepend (take (Z.to_nat k) l)
        (digest max (n + k) (sw_chunk_data, s.2 - k) (drop (Z.to_nat k) l)).
Proof.
  revert n s. induction l as [|ch l IH]; intros n s Hs Hl; [done|].
  cbn [digest]. rewrite at_data_feed by done. cbn [snd].
  replace (s.2 - 1 + 1) with s.2 by lia.
  destruct (over max n s.2) eqn:Eo; [done|]. cbv zeta.
  destruct Hs as [Hd Hs]. pose proof (zlen_nonneg l). rewrite zlen_cons.
  destruct (decide (s.2 = 1)) as [E1|E1].
  { rewrite E1. replace (Z.min 1 (1 + zlen l)) with 1 by lia. done. }
  destruct l as [|ch' l].
  { replace (Z.min s.2 (1 + zlen [])) with 1 by (rewrite zlen_nil; lia). done. }
  rewrite IH; [|split; [done|cbn; lia]|done]. cbn [snd].
  assert (over max (n + 1) (s.2 - 1) = false) as ->.
  { unfold over in *. destruct (max =? 0); [done|]. cbn in *. lia. }
  cbv zeta. rewrite <- prepend_app. rewrite zlen_cons in *. set (m := zlen l) in *.
  replace (Z.min s.2 (1 + (1 + m))) with (1 + Z.min (s.2 - 1) (1 + m)) by lia.
  replace (Z.to_nat (1 + Z.min (s.2 - 1) (1 + m)))
    with (S (Z.to_nat (Z.min (s.2 - 1) (1 + m)))) by lia.
  by rewrite Z.add_assoc, Z.sub_add_distr.
Qed.

(** ** The memory *)

(** The output buffers, the latest first, hold [data] and lie one behind the
    other in front of [hi]. *)
Fixpoint out_holds (m : list Z) (hi : Z) (out : list range) (data : list Z) : Prop :=
  match out with
  | [] => data = []
  | (a, b) :: out => exists d1 d2, data = d1 ++ d2 /\ b = a + zlen d2 /\ 0 <= a /\
      b <= hi /\ holds m a d2 /\ out_holds m a out d1
  end.

Lemma out_holds_weaken m hi hi' out data :
  hi <= hi' -> out_holds m hi out data -> out_holds m hi' out data.
Proof.
  destruct out as [|[a b] out]; [done|]. intros H (d1 & d2 & -> & -> & H1 & H2 & H3).
  exists d1, d2. destruct H3. split_and!; try done; lia.
Qed.

Lemma out_holds_change m m' hi out data :
  (forall i, i < hi -> get m' i = get m i) ->
  out_holds m hi out data -> out_holds m' hi out data.
Proof.
  revert hi data. induction out as [|[a b] out IH]; intros hi data Hm; [done|].
  intros (d1 & d2 & -> & -> & H1 & H2 & H3 & H4). exists d1, d2. split_and!; try done.
  - intros k c Hk. apply lookup_lt_Some in Hk as Hlt. rewrite Hm by (unfold zlen in *; lia).
    by apply H3.
  - apply IH; [|done]. intros i Hi. pose proof (zlen_nonneg d2). apply Hm. lia.
Qed.

(** [l] has been copied to [to], and the rest is as before. *)
Record copied (m m' : list Z) (to : Z) (l : list Z) : Prop := {
  cp_len : zlen m' = zlen m;
  cp_new : holds m' to l;
  cp_low : forall i, i < to -> get m' i = get m i;
  cp_high : forall i, to + zlen l <= i -> get m' i = get m i
}.

Lemma copied_blit m m' to l : blit m to l = Ok m' -> copied m m' to l.
Proof.
  intros H. split; [by eapply zlen_blit|by eapply holds_blit| |];
    intros i Hi; rewrite (get_blit _ _ _ _ _ H), decide_False by lia; done.
Qed.

Lemma copy_forward_ok m to from l :
  holds m from l -> 0 <= to <= from -> from + zlen l <= zlen m ->
  exists m', copy_forward (length l) m to from = Ok m' /\ copied m m' to l.
Proof.
  revert m to from. induction l as [|c l IH]; intros m to from Hl Ht Hf.
  - exists m. split; [done|]. split; [done| |done|done]. intros k c Hk. done.
  - rewrite zlen_cons in *. pose proof (zlen_nonneg l).
    apply holds_cons in Hl as [Hc Hl]. cbn [copy_forward length]. rewrite Hc, Ok_bind.
    destruct (put_ok m to c) as (m1 & Hm1 & Hz); [lia|]. rewrite Hm1, Ok_bind.
    destruct (IH m1 (to + 1) (from + 1)) as (m' & -> & [P1 P2 P3 P4]); [|lia|lia|].
    { eapply holds_blit_other; [exact Hm1| |exact Hl].
      right. rewrite zlen_cons, zlen_nil. lia. }
    exists m'. split; [done|]. apply copied_blit in Hm1 as [Q1 Q2 Q3 Q4].
    rewrite zlen_cons, zlen_nil in Q4. split.
    + congruence.
    + change (c :: l) with ([c] ++ l). apply holds_app.
      * apply holds_one. rewrite P3 by lia. by apply holds_cons in Q2 as [Q2 _].
      * by rewrite zlen_cons, zlen_nil, Z.add_0_r.
    + intros i Hi. rewrite P3, Q3 by lia. done.
    + intros i Hi. rewrite zlen_cons in Hi. rewrite P4, Q4 by lia. done.
Qed.

Lemma move_ok m to from l :
  holds m from l -> 0 <= to <= from -> from + zlen l <= zlen m ->
  exists m', move m to from (zlen l) = Ok m' /\ copied m m' to l.
Proof.
  intros Hl Ht Hf. unfold move. rewrite holds_slice by (done || lia). rewrite Ok_bind.
  destruct (blit_ok m to l) as [m' Hm]; [lia|lia|]. exists m'. split; [done|].
  by apply copied_blit.
Qed.

Lemma copy_any_ok m to from l :
  holds m from l -> 0 <= to <= from -> from + zlen l <= zlen m ->
  exists m', (if zlen l <? 8 then copy_forward (Z.to_nat (zlen l)) m to from
              else move m to from (zlen l)) = Ok m' /\ copied m m' to l.
Proof.
  intros H1 H2 H3. destruct (zlen l <? 8); [|by apply move_ok].
  replace (Z.to_nat (zlen l)) with (length l) by (unfold zlen; lia). by apply copy_forward_ok.
Qed.

(** ** The loop over a buffer *)

(** [l] is left in the buffer, [data] has been delivered; [n0] bytes of the body
    were read from earlier buffers. *)
Record running (n0 : Z) (f : filter) (s : position) (l data : list Z) : Prop := {
  ru_state : position_of f.(f_chunked) = s;
  ru_holds : holds f.(f_buf).(mem) f.(f_buf).(pos) l;
  ru_pos : 0 <= f.(f_buf).(pos);
  ru_last : f.(f_buf).(last) = f.(f_buf).(pos) + zlen l;
  ru_mem : f.(f_buf).(last) <= zlen f.(f_buf).(mem);
  ru_out : out_holds f.(f_buf).(mem) f.(f_buf).(pos) f.(f_out) data;
  ru_n : f.(f_content_length_n) = n0 + zlen data;
  ru_max : 0 <= n0 /\ n0 + zlen data + zlen l <= NGX_MAX_OFF_T_VALUE
}.

Lemma running_advance n0 f s pre rest data p ctx :
  running n0 f s (pre ++ rest) data -> p = f.(f_buf).(last) - zlen rest ->
  running n0 (f <| f_buf := f.(f_buf) <| pos := p |> |> <| f_chunked := ctx |>)
    (position_of ctx) rest data.
Proof.
  intros [R1 R2 R3 R4 R5 R6 R7 [R8 R9]] ->. rewrite zlen_app in *.
  pose proof (zlen_nonneg pre).
  assert (f.(f_buf).(last) - zlen rest = f.(f_buf).(pos) + zlen pre) as E by lia.
  split; cbn; rewrite ?E; try done; try lia.
  - by apply holds_app_suffix.
  - eapply out_holds_weaken; [|exact R6]. lia.
Qed.

Lemma take_drop_z {A} k (l : list A) : take (Z.to_nat k) l ++ drop (Z.to_nat k) l = l.
Proof. apply take_drop. Qed.

(** *** Buffers asked for *)

Section buffers.

Context (get_free : nat -> bool).

(** All calls from number [i] up to [j] return a buffer. *)
Definition granted (i j : nat) : Prop :=
  (i <= j)%nat /\ forall k, (i <= k < j)%nat -> get_free k = true.

(** Of the calls from number [i] up to [j], the last one fails, and it is the first that does. *)
Definition refused (i j : nat) : Prop := exists k, granted i k /\ get_free k = false /\ j = S k.

Lemma granted_refl i : granted i i.
Proof. split; [done|]. lia. Qed.

Lemma granted_trans i j k : granted i j -> granted j k -> granted i k.
Proof.
  intros [H1 H2] [H3 H4]. split; [lia|]. intros n Hn. destruct (decide (n < j)%nat); [apply H2|apply H4]; lia.
Qed.

Lemma granted_one i : get_free i = true -> granted i (S i).
Proof. intros H. split; [lia|]. intros k Hk. by replace k with i by lia. Qed.

Lemma granted_refused i j k : granted i j -> refused j k -> refused i k.
Proof. intros H (l & H1 & H2). exists l. split; [by eapply granted_trans|done]. Qed.

Lemma refused_one i : get_free i = false -> refused i (S i).
Proof. intros H. exists i. split; [apply granted_refl|done]. Qed.

Lemma new_chunk_ok n0 f s l data :
  running n0 f s l data -> at_data s ->
  let k := Z.min s.2 (zlen l) in
  if get_free f.(f_asked) then
  exists f', new_chunk get_free f = Ok (Some f') /\
    running n0 f' (sw_chunk_data, s.2 - k) (drop (Z.to_nat k) l)
      (data ++ take (Z.to_nat k) l) /\
    f'.(f_buf).(last) = f.(f_buf).(last) /\ zlen f'.(f_buf).(mem) = zlen f.(f_buf).(mem) /\
    f'.(f_asked) = S f.(f_asked)
  else new_chunk get_free f = Ok None.
Proof.
  destruct (get_free f.(f_asked)) eqn:Efree; [|intros; unfold new_chunk; by rewrite Efree].
  intros [R1 R2 R3 R4 R5 R6 R7 [R8 R9]] [Hd Hs] k.
  assert (f.(f_chunked).(c_size) = s.2 /\ f.(f_chunked).(c_state) = sw_chunk_data)
    as [Ec Est] by (rewrite <- R1 in *; done).
  pose proof (zlen_nonneg l). pose proof (zlen_nonneg data).
  assert (0 <= k <= zlen l) as Hk by lia.
  pose proof (zlen_take k l Hk) as Ht. pose proof (zlen_drop k l Hk) as Hdr.
  rewrite <- (take_drop_z k l) in R2.
  assert (holds f.(f_buf).(mem) (f.(f_buf).(pos) + k) (drop (Z.to_nat k) l)) as Hrest.
  { apply holds_app_suffix in R2. by rewrite Ht in R2. }
  assert (new_chunk get_free f = Ok (Some (Filter (f.(f_buf) <| pos := f.(f_buf).(pos) + k |>)
    (f.(f_chunked) <| c_size := s.2 - k |>) (f.(f_content_length_n) + k)
    ((f.(f_buf).(pos), f.(f_buf).(pos) + k) :: f.(f_out)) (S f.(f_asked))))) as ->.
  { unfold new_chunk. rewrite Efree, Ec, R4. cbn [negb]. unfold NGX_MAX_OFF_T_VALUE in *.
    replace (f.(f_buf).(pos) + zlen l - f.(f_buf).(pos)) with (zlen l) by lia.
    destruct (Z.ltb_spec s.2 (zlen l)) as [Hlt|Hge].
    - replace k with s.2 by lia. rewrite int64_ok, Ok_bind by lia. by rewrite Z.sub_diag.
    - replace k with (zlen l) by lia. by rewrite int64_ok, Ok_bind by lia. }
  eexists. split; [done|]. split; [|done].
  split; cbn; rewrite ?zlen_app, ?Ht, ?Hdr; try done; try lia.
  - unfold position_of. cbn. by rewrite Est.
  - exists data, (take (Z.to_nat k) l). rewrite Ht. split_and!; try done; try lia.
    by eapply holds_app_prefix.
Qed.

Lemma append_chunk_ok n0 f s l data a b out :
  running n0 f s l data -> at_data s -> f.(f_out) = (a, b) :: out ->
  s.2 <= zlen l ->
  exists f', append_chunk f a b out = Ok f' /\
    running n0 f' (sw_chunk_data, 0) (drop (Z.to_nat s.2) l)
      (data ++ take (Z.to_nat s.2) l) /\
    f'.(f_buf).(last) = f.(f_buf).(last) /\ zlen f'.(f_buf).(mem) = zlen f.(f_buf).(mem) /\
    f'.(f_asked) = f.(f_asked).
Proof.
  intros [R1 R2 R3 R4 R5 R6 R7 [R8 R9]] [Hd Hs] Hout Hl.
  assert (f.(f_chunked).(c_size) = s.2 /\ f.(f_chunked).(c_state) = sw_chunk_data)
    as [Ec Est] by (rewrite <- R1 in *; done).
  rewrite Hout in R6. destruct R6 as (d1 & d2 & -> & -> & Ha & Hb & Hd2 & Hout').
  pose proof (zlen_nonneg d2). pose proof (zlen_nonneg d1). rewrite zlen_app in *.
  pose proof (zlen_take s.2 l ltac:(lia)) as Ht. pose proof (zlen_drop s.2 l ltac:(lia)) as Hdr.
  rewrite <- (take_drop_z s.2 l) in R2.
  pose proof (holds_app_prefix _ _ _ _ R2) as Hnew. apply holds_app_suffix in R2. rewrite Ht in R2.
  set (x := take (Z.to_nat s.2) l) in *. set (rest := drop (Z.to_nat s.2) l) in *.
  destruct (copy_any_ok f.(f_buf).(mem) (a + zlen d2) f.(f_buf).(pos) x)
    as (m' & Hm & [C1 C2 C3 C4]); [done|lia|lia|]. rewrite Ht in Hm, C4.
  unfold append_chunk. rewrite Ec, Hm, Ok_bind. unfold NGX_MAX_OFF_T_VALUE in *.
  rewrite int64_ok, Ok_bind by lia.
  eexists. split; [done|]. split; [|done].
  split; cbn; rewrite ?zlen_app, ?Ht, ?Hdr, ?C1; try done; try lia.
  - unfold position_of. cbn. by rewrite Est.
  - intros k c Hk. rewrite C4 by lia. by apply R2.
  - exists d1, (d2 ++ x). rewrite zlen_app, Ht, app_assoc. split_and!; try done; try lia.
    + apply holds_app; [|done]. intros k c Hk. apply lookup_lt_Some in Hk as Hlt.
      rewrite C3 by (unfold zlen in *; lia). by apply Hd2.
    + eapply out_holds_change; [|exact Hout']. intros i Hi. apply C3. lia.
  - unfold NGX_MAX_OFF_T_VALUE. lia.
Qed.

Lemma take_chunk_ok n0 f s l data :
  running n0 f s l data -> at_data s ->
  let k := Z.min s.2 (zlen l) in
  (take_chunk get_free f = Ok None /\ refused f.(f_asked) (S f.(f_asked))) \/
  exists f', take_chunk get_free f = Ok (Some f') /\
    running n0 f' (sw_chunk_data, s.2 - k) (drop (Z.to_nat k) l)
      (data ++ take (Z.to_nat k) l) /\
    f'.(f_buf).(last) = f.(f_buf).(last) /\ zlen f'.(f_buf).(mem) = zlen f.(f_buf).(mem) /\
    granted f.(f_asked) f'.(f_asked).
Proof.
  intros Hr Ha k.
  assert (forall r, r = new_chunk get_free f ->
    (r = Ok None /\ refused f.(f_asked) (S f.(f_asked))) \/
    exists f', r = Ok (Some f') /\
      running n0 f' (sw_chunk_data, s.2 - k) (drop (Z.to_nat k) l) (data ++ take (Z.to_nat k) l) /\
      f'.(f_buf).(last) = f.(f_buf).(last) /\ zlen f'.(f_buf).(mem) = zlen f.(f_buf).(mem) /\
      granted f.(f_asked) f'.(f_asked)) as Hnew.
  { intros r ->. pose proof (new_chunk_ok n0 f s l data Hr Ha) as H. cbv zeta in H.
    destruct (get_free (f_asked f)) eqn:E; [right|left; split; [done|by apply refused_one]].
    destruct H as (f' & H1 & H2 & H3 & H4 & H5). exists f'. rewrite H5.
    split_and!; try done. by apply granted_one. }
  unfold take_chunk.
  assert (f.(f_chunked).(c_size) = s.2) as -> by (by rewrite <- (ru_state _ _ _ _ _ Hr)).
  destruct f.(f_out) as [|[a b] out] eqn:Eo; [by apply Hnew|].
  destruct ((s.2 <=? 128) && _) eqn:E; [|by apply Hnew].
  rewrite (ru_last _ _ _ _ _ Hr) in E. right.
  destruct (append_chunk_ok n0 f s l data a b out) as (f' & -> & H2 & H3 & H4 & H5); try done; [lia|].
  rewrite Ok_bind. exists f'. split; [done|]. replace k with s.2 by lia. rewrite Z.sub_diag, H5.
  split_and!; try done. apply granted_refl.
Qed.

(** What the loop over a buffer returns: the result of the reference, or that there
    was no buffer to be had. *)
Definition loop_ok (n0 : Z) (f : filter) (data : list Z) (r : res filtered) (d : digested)
    : Prop :=
  (exists f', r = Ok (NoBuffer f') /\ refused f.(f_asked) f'.(f_asked)) \/
  match d with
  | DBad => exists f', r = Ok (BadRequest f') /\ granted f.(f_asked) f'.(f_asked)
  | DOver _ => exists f', r = Ok (TooLarge f') /\ granted f.(f_asked) f'.(f_asked)
  | DEnd rest d => exists f', r = Ok (Filtered NGX_DONE f') /\
      running n0 f' (sw_chunk_start, 0) rest (data ++ d) /\
      f'.(f_buf).(last) = f.(f_buf).(last) /\ zlen f'.(f_buf).(mem) = zlen f.(f_buf).(mem) /\
      granted f.(f_asked) f'.(f_asked)
  | DMore s d => exists f', r = Ok (Filtered NGX_AGAIN f') /\
      running n0 f' s [] (data ++ d) /\ valid s /\ f'.(f_chunked).(c_length) = length_of s /\
      f'.(f_buf).(last) = f.(f_buf).(last) /\ zlen f'.(f_buf).(mem) = zlen f.(f_buf).(mem) /\
      granted f.(f_asked) f'.(f_asked)
  end.

Lemma loop_ok_prepend n0 f f1 data l r d :
  f1.(f_buf).(last) = f.(f_buf).(last) -> zlen f1.(f_buf).(mem) = zlen f.(f_buf).(mem) ->
  granted f.(f_asked) f1.(f_asked) ->
  loop_ok n0 f1 (data ++ l) r d -> loop_ok n0 f data r (prepend l d).
Proof.
  intros H1 H2 Hg [(f' & H3 & H4)|H]; [left; exists f'; split; [done|by eapply granted_refused]|right].
  destruct d as [|d|rest d|s d]; cbn [prepend]; rewrite <- ?app_assoc in H.
  - destruct H as (f' & H3 & H4). exists f'. split; [done|by eapply granted_trans].
  - destruct H as (f' & H3 & H4). exists f'. split; [done|by eapply granted_trans].
  - destruct H as (f' & H3 & H4 & H5 & H6 & H7). exists f'. split_and!; (done || congruence || by eapply granted_trans).
  - destruct H as (f' & H3 & H4 & H5 & H6 & H7 & H8 & H9). exists f'.
    split_and!; (done || congruence || by eapply granted_trans).
Qed.

Lemma chunked_loop_ok fuel max n0 f s l data :
  running n0 f s l data -> valid s -> 0 <= max <= NGX_MAX_OFF_T_VALUE ->
  (length l < fuel)%nat ->
  loop_ok n0 f data (chunked_loop get_free fuel max f) (digest max (n0 + zlen data) s l).
Proof.
  revert f s l data. induction fuel as [|fuel IH]; intros f s l data Hr Hv Hmax Hfuel; [lia|].
  pose proof Hr as [R1 R2 R3 R4 R5 R6 R7 [R8 R9]].
  cbn [chunked_loop]. rewrite R4. subst s.
  pose proof (parse_heads f.(f_buf).(mem) l f.(f_buf).(pos) f.(f_chunked) R2 Hv) as Hp.
  cbv zeta in Hp. rewrite <- digest_norm, digest_heads.
  destruct (heads (norm (position_of f.(f_chunked))) l) as [|rest|s'|s' rest] eqn:Eh.
  - destruct Hp as (p & c & ->). rewrite Ok_bind. right. eexists. split; [done|apply granted_refl].
  - rewrite Hp, Ok_bind. apply heads_end in Eh as [pre ->]. cbn [Z.eqb orb]. right.
    eexists. split; [done|]. rewrite app_nil_r. split; [|split; [done|split; [done|apply granted_refl]]].
    apply (running_advance _ _ _ _ _ _ _ (Chunked sw_chunk_start 0 _) Hr). by rewrite R4.
  - destruct Hp as [Hp Hv']. rewrite Hp, Ok_bind. cbn [Z.eqb orb]. right.
    eexists. split; [done|]. rewrite app_nil_r. split; [|split_and!; try done; apply granted_refl].
    replace s' with (position_of (Chunked s'.1 s'.2 (length_of s'))) by (by destruct s').
    rewrite <- (app_nil_r l) in Hr. apply (running_advance _ _ _ _ _ _ _ _ Hr).
    rewrite R4, zlen_nil. lia.
  - destruct Hp as [Hp Ha]. rewrite Hp, Ok_bind. apply heads_data in Eh as (pre & ch & l1 & -> & E).
    cbn [Z.eqb]. set (ctx := Chunked sw_chunk_data s'.2 (length_of s')).
    set (p := f.(f_buf).(pos) + zlen (pre ++ rest) - zlen rest) in *.
    set (f1 := f <| f_buf := f.(f_buf) <| pos := p |> |> <| f_chunked := ctx |>).
    assert (running n0 f1 s' rest data) as Hr1.
    { replace s' with (position_of ctx) by (destruct Ha, s'; cbn in *; by subst).
      apply (running_advance _ _ _ _ _ _ _ _ Hr). unfold p. lia. }
    rewrite digest_data by (done || by subst).
    change (f_content_length_n f1) with f.(f_content_length_n). rewrite R7.
    assert (forall A (k : bool -> res A),
      (too_large ← (if max =? 0 then Ok false
                    else left ← int64 (max - (n0 + zlen data));
                         Ok (left <? ctx.(c_size))); k too_large)
      = k (over max (n0 + zlen data) s'.2)) as ->.
    { intros A k. unfold over. destruct (max =? 0); [done|].
      pose proof (zlen_nonneg data). pose proof (zlen_nonneg (pre ++ rest)).
      unfold NGX_MAX_OFF_T_VALUE in *. by rewrite int64_ok, !Ok_bind by lia. }
    destruct (over max (n0 + zlen data) s'.2); [right; eexists; split; [done|apply granted_refl]|]. cbv zeta.
    destruct (take_chunk_ok n0 f1 s' rest data Hr1 Ha) as [[-> Hno]|(f2 & -> & Hr2 & H1 & H2 & H3)];
      rewrite Ok_bind; [left; by eexists|]. apply (loop_ok_prepend n0 f f2); [done|done|done|].
    destruct Ha as [Hd Hs].
    assert (1 <= zlen rest) as Hrest by (rewrite E, zlen_cons; pose proof (zlen_nonneg l1); lia).
    assert (1 <= Z.min s'.2 (zlen rest) <= zlen rest /\ Z.min s'.2 (zlen rest) <= s'.2)
      as [Hk Hk'] by lia.
    cbv zeta in Hr2. set (k := Z.min s'.2 (zlen rest)) in *. clearbody k.
    replace (n0 + zlen data + k) with (n0 + zlen (data ++ take (Z.to_nat k) rest))
      by (rewrite zlen_app, zlen_take; lia).
    apply IH; [done| |done|].
    + unfold valid. cbn [fst snd]. lia.
    + rewrite length_app in Hfuel. rewrite length_drop. unfold zlen in *. lia.
Qed.

(** ** The chain of buffers *)

(** The bytes of an output buffer. *)
Definition range_bytes (m : list Z) (r : range) : list Z :=
  take (Z.to_nat (r.2 - r.1)) (drop (Z.to_nat r.1) m).

(** The bytes of all output buffers, in order. *)
Definition delivered (out : list (list Z * list range * bool)) : list Z :=
  concat (map (fun '(m, rs, _) => concat (map (range_bytes m) rs)) out).

Arguments delivered : simpl never.

Lemma out_holds_bytes m hi out data :
  out_holds m hi out data -> hi <= zlen m -> concat (map (range_bytes m) (rev out)) = data.
Proof.
  revert hi data. induction out as [|[a b] out IH]; intros hi data; [by intros ->|].
  intros (d1 & d2 & -> & -> & H1 & H2 & H3 & H4) Hm. pose proof (zlen_nonneg d2).
  cbn [rev]. rewrite map_app, concat_app, (IH a d1) by (done || lia). f_equal.
  cbn. rewrite app_nil_r. unfold range_bytes. cbn [fst snd].
  replace (a + zlen d2 - a) with (zlen d2) by lia.
  assert (slice m a (zlen d2) = Ok d2) as Hs by (apply holds_slice; done || lia).
  unfold slice in Hs. case_match; by simplify_eq.
Qed.

Lemma delivered_snoc out m rs last :
  delivered (out ++ [(m, rs, last)]) = delivered out ++ concat (map (range_bytes m) rs).
Proof. unfold delivered. rewrite map_app, concat_app. cbn. by rewrite app_nil_r. Qed.

(** A buffer that holds just the bytes [m] is read as the reference does. *)
Lemma chunked_buffer_ok max n s ctx m asked :
  position_of ctx = s -> valid s -> 0 <= max <= NGX_MAX_OFF_T_VALUE ->
  0 <= n -> n + zlen m <= NGX_MAX_OFF_T_VALUE ->
  loop_ok n (Filter (whole m) ctx n [] asked) [] (chunked_buffer get_free max (whole m) ctx n asked)
    (digest max n s m).
Proof.
  intros Hs Hv Hmax Hn Hm. set (f := Filter (whole m) ctx n [] asked).
  assert (running n f s m []) as Hr.
  { pose proof (zlen_nil (A := Z)). split; cbn; try done; try lia. apply holds_self. }
  unfold chunked_buffer. set (fuel := (Z.to_nat _ + 2)%nat).
  pose proof (chunked_loop_ok fuel max n f s m [] Hr Hv Hmax) as H.
  rewrite zlen_nil, Z.add_0_r in H. apply H. unfold fuel, whole, zlen. cbn [last pos]. lia.
Qed.

Context (next : list (list Z * list range * bool) -> Z).

(** What the chain is read as, unless a buffer was refused. *)
Definition chain_read (large : Z) (pieces : list (list Z)) (r : body) (d : digested)
    (rc : Z) (r' : body) : Prop :=
  match d with
  | DBad => rc = NGX_HTTP_BAD_REQUEST
  | DOver _ => rc = NGX_HTTP_REQUEST_ENTITY_TOO_LARGE
  | DEnd rest data =>
      (exists front finish, pieces = front ++ [finish] /\ zlen rest < zlen finish) ->
      rc = next r'.(rb_out) /\ r'.(rb_rest) = 0 /\
      r'.(rb_content_length_n) = r.(rb_content_length_n) + zlen data /\
      delivered r'.(rb_out) = delivered r.(rb_out) ++ data
  | DMore s data =>
      pieces <> [] ->
      rc = next r'.(rb_out) /\ r'.(rb_rest) = Z.max (length_of s) large /\
      r'.(rb_content_length_n) = r.(rb_content_length_n) + zlen data /\
      delivered r'.(rb_out) = delivered r.(rb_out) ++ data /\
      position_of r'.(rb_chunked) = s
  end.

Definition chain_ok (max large : Z) (pieces : list (list Z)) (r : body) (d : digested)
    : Prop :=
  exists rc r', chunked_chain get_free next max large (map whole pieces) r = Ok (rc, r') /\
    (rc = NGX_HTTP_INTERNAL_SERVER_ERROR /\ refused r.(rb_asked) r'.(rb_asked) \/
     granted r.(rb_asked) r'.(rb_asked) /\ chain_read large pieces r d rc r').

(** One buffer has been read, and the rest of the chain follows. *)
Lemma chain_continue max large m pieces r r1 d d1 :
  chunked_chain get_free next max large (map whole (m :: pieces)) r
  = chunked_chain get_free next max large (map whole pieces) r1 ->
  granted r.(rb_asked) r1.(rb_asked) ->
  chain_ok max large pieces r1 d1 ->
  (forall rc r', chunked_chain get_free next max large (map whole pieces) r1 = Ok (rc, r') ->
    chain_read large pieces r1 d1 rc r' -> chain_read large (m :: pieces) r d rc r') ->
  chain_ok max large (m :: pieces) r d.
Proof.
  intros E Hg (rc & r' & Hr & H) Hread. exists rc, r'. rewrite E. split; [done|].
  destruct H as [[H1 H2]|[H1 H2]]; [left; split; [done|by eapply granted_refused]|right].
  split; [by eapply granted_trans|by apply Hread].
Qed.

Lemma chunked_chain_ok max large pieces r :
  valid (position_of r.(rb_chunked)) -> 0 <= max <= NGX_MAX_OFF_T_VALUE ->
  0 <= r.(rb_content_length_n) ->
  r.(rb_content_length_n) + zlen (concat pieces) <= NGX_MAX_OFF_T_VALUE ->
  chain_ok max large pieces r
    (digest max r.(rb_content_length_n) (position_of r.(rb_chunked)) (concat pieces)).
Proof.
  revert r. induction pieces as [|m pieces IH]; intros r Hv Hmax Hn Hlen.
  { eexists _, r. split; [done|]. right. split; [apply granted_refl|]. by intros []. }
  cbn [concat] in *. rewrite zlen_app in Hlen. pose proof (zlen_nonneg (concat pieces)) as Hpieces.
  pose proof (chunked_buffer_ok max r.(rb_content_length_n) _ _ m r.(rb_asked) eq_refl Hv Hmax Hn
    ltac:(lia)) as H.
  pose proof (digest_length max r.(rb_content_length_n) (position_of r.(rb_chunked)) m) as Hl.
  rewrite digest_app. destruct H as [(f' & H & Hno)|H].
  { unfold chain_ok. cbn [map chunked_chain]. rewrite H, Ok_bind. do 2 eexists. split; [done|]. by left. }
  destruct (digest max r.(rb_content_length_n) (position_of r.(rb_chunked)) m)
    as [|d|rest d|s d] eqn:E.
  - destruct H as (f' & H & Hg). unfold chain_ok. cbn [map chunked_chain]. rewrite H, Ok_bind.
    do 2 eexists. split; [done|]. by right.
  - destruct H as (f' & H & Hg). unfold chain_ok. cbn [map chunked_chain]. rewrite H, Ok_bind.
    do 2 eexists. split; [done|]. by right.
  - destruct H as (f' & H & [R1 R2 R3 R4 R5 R6 R7 [R8 R9]] & H1 & H2 & Hg). cbn [app f_asked] in *.
    destruct (get_free f'.(f_asked)) eqn:Efree.
    2: { unfold chain_ok. cbn [map chunked_chain]. rewrite H, Ok_bind.
      change (NGX_DONE =? NGX_DONE) with true. cbv zeta iota. rewrite Efree. do 2 eexists. split; [done|].
      left. split; [done|]. eapply granted_refused; [exact Hg|by apply refused_one]. }
    set (r1 := Body f'.(f_chunked) f'.(f_content_length_n) 0
      (r.(rb_out) ++ [(f'.(f_buf).(mem), rev f'.(f_out), true)]) (S f'.(f_asked))).
    eapply (chain_continue max large m pieces r r1).
    + cbn [map chunked_chain]. rewrite H, Ok_bind. change (NGX_DONE =? NGX_DONE) with true. cbv zeta iota.
      by rewrite Efree.
    + eapply granted_trans; [exact Hg|by apply granted_one].
    + apply IH; unfold r1; cbn; rewrite ?R1, ?R7; try done;
        [pose proof (zlen_nonneg d); lia|pose proof (zlen_nonneg rest); lia].
    + intros rc r' Hr _ (front & finish & Hf & Hlt). destruct pieces as [|m2 pieces].
      * injection Hr as <- <-. cbn [rb_rest rb_content_length_n rb_out r1]. split_and!; try done.
        rewrite delivered_snoc. f_equal. eapply out_holds_bytes; [exact R6|].
        pose proof (zlen_nonneg rest). lia.
      * exfalso. destruct front as [|m' front]; [done|]. injection Hf as _ Hf. rewrite Hf in Hlt.
        rewrite zlen_app, concat_app, zlen_app in Hlt. cbn in Hlt. rewrite app_nil_r in Hlt.
        pose proof (zlen_nonneg rest). pose proof (zlen_nonneg (concat front)). lia.
  - destruct H as (f' & H & [R1 R2 R3 R4 R5 R6 R7 [R8 R9]] & Hv' & Hc & H1 & H2 & Hg). cbn [app f_asked] in *.
    set (r1 := Body f'.(f_chunked) f'.(f_content_length_n)
      (Z.max f'.(f_chunked).(c_length) large)
      (r.(rb_out) ++ [(f'.(f_buf).(mem), rev f'.(f_out), false)]) f'.(f_asked)).
    assert (delivered r1.(rb_out) = delivered r.(rb_out) ++ d) as Hd.
    { unfold r1. cbn. rewrite delivered_snoc. f_equal.
      eapply out_holds_bytes; [exact R6|]. rewrite R4 in R5. rewrite zlen_nil in R5. lia. }
    pose proof (zlen_nonneg d).
    assert (rb_content_length_n r1 = rb_content_length_n r + zlen d) as Hn1 by done.
    assert (position_of (rb_chunked r1) = s) as Hs1 by done.
    rewrite <- Hn1, <- Hs1.
    eapply (chain_continue max large m pieces r r1); [|exact Hg|apply IH; rewrite ?Hs1, ?Hn1; (done || lia)|].
    { cbn [map chunked_chain]. rewrite H, Ok_bind. done. }
    intros rc r' Hr Hres.
    destruct (digest max (rb_content_length_n r1) (position_of (rb_chunked r1)) (concat pieces))
      as [|d2|rest d2|s2 d2] eqn:E2; cbn [prepend]; [done|done| |].
    + intros (front & finish & Hf & Hlt). destruct Hres as (G1 & G2 & G3 & G4).
      { destruct front as [|m' front]; [injection Hf as _ ->; done|].
        injection Hf as _ ->. by exists front, finish. }
      rewrite zlen_app, G3, G4, Hd, app_assoc, Hn1. split_and!; try done. lia.
    + intros _. destruct (decide (pieces = [])) as [->|Hne].
      * injection E2 as <- <-. injection Hr as <- <-. rewrite R1.
        rewrite (digest_more_norm _ _ _ _ _ _ E), Hd, app_nil_r, Hn1. unfold r1. cbn [rb_rest rb_out rb_chunked]. rewrite Hc.
        by split_and!.
      * destruct (Hres Hne) as (G1 & G2 & G3 & G4 & G5).
        rewrite zlen_app, G3, G4, Hd, app_assoc, Hn1. split_and!; try done. lia.
Qed.

End buffers.
