(* ===== verification/HttpChunkedText.v ===== *)
(** * The text of a chunked body

    The grammar of a chunked body, what the readers of [HttpChunkedBody] do with
    it however it is cut into buffers, and the meaning of [ctx->length]. *)

From S2P Require Import Prelude Machine HttpRequest HttpChunked HttpChunkedSpec HttpChunkedBody HttpChunkedBodySpec.

(** ** The grammar *)

(** The end of a line, with or without a carriage return. *)
Definition eol (crlf : bool) : list Z := if crlf then [CR; LF] else [LF].

(** The value of hexadecimal digits behind the value [v]. *)
Fixpoint hex_from (v : Z) (digits : list Z) : option Z :=
  match digits with
  | [] => Some v
  | c :: digits => d ← chunk_digit c; hex_from (v * 16 + d) digits
  end.

Definition no_eol (l : list Z) : Prop := Forall (fun c => c <> CR /\ c <> LF) l.

(** An extension begins with a semicolon, a space or a tab. *)
Definition good_ext (ext : list Z) : Prop :=
  match ext with
  | [] => True
  | c :: ext => (c = ";"%chr \/ c = " "%chr \/ c = 9) /\ no_eol ext
  end.

Record chunk_text := ChunkText {
  ct_digits : list Z;
  ct_ext : list Z;
  ct_crlf : bool;
  ct_data : list Z;
  ct_crlf2 : bool
}.

Record last_text := LastText {
  lt_digits : list Z;
  lt_ext : list Z;
  lt_crlf : bool;
  lt_trailers : list (list Z * bool);
  lt_crlf2 : bool
}.

Definition encode_chunk (c : chunk_text) : list Z :=
  c.(ct_digits) ++ c.(ct_ext) ++ eol c.(ct_crlf) ++ c.(ct_data) ++ eol c.(ct_crlf2).

Definition encode_trailers (l : list (list Z * bool)) : list Z :=
  concat (map (fun t => t.1 ++ eol t.2) l).

Definition encode_last (t : last_text) : list Z :=
  t.(lt_digits) ++ t.(lt_ext) ++ eol t.(lt_crlf) ++ encode_trailers t.(lt_trailers) ++
  eol t.(lt_crlf2).

Definition encode_body (chunks : list chunk_text) (t : last_text) : list Z :=
  concat (map encode_chunk chunks) ++ encode_last t.

Definition body_data (chunks : list chunk_text) : list Z := concat (map ct_data chunks).

Record good_chunk (c : chunk_text) : Prop := {
  gc_digits : c.(ct_digits) <> [];
  gc_value : hex_from 0 c.(ct_digits) = Some (zlen c.(ct_data));
  gc_size : 0 < zlen c.(ct_data) <= NGX_MAX_OFF_T_VALUE / 16;
  gc_ext : good_ext c.(ct_ext)
}.

Record good_last (t : last_text) : Prop := {
  gl_digits : t.(lt_digits) <> [];
  gl_value : hex_from 0 t.(lt_digits) = Some 0;
  gl_ext : good_ext t.(lt_ext);
  gl_trailers : Forall (fun x => x.1 <> [] /\ no_eol x.1) t.(lt_trailers)
}.

(** ** The reference on a text of the grammar *)

Lemma hex_from_grows v ds w : 0 <= v -> hex_from v ds = Some w -> v <= w.
Proof.
  revert v. induction ds as [|c ds IH]; intros v Hv; cbn; [by intros [= ->]; lia|].
  destruct (chunk_digit c) as [d|] eqn:E; [|done]. cbn. apply chunk_digit_range in E.
  intros H. apply IH in H; lia.
Qed.

Lemma fed_continue st c :
  c.(c_size) <= NGX_MAX_OFF_T_VALUE / 16 -> fed_of (Ok (Continue st c)) = Next (st, c.(c_size)).
Proof.
  intros H. unfold fed_of. rewrite max_div_16 in H.
  destruct (Z.ltb_spec (NGX_MAX_OFF_T_VALUE - 5) c.(c_size)); [|done].
  unfold NGX_MAX_OFF_T_VALUE in *. lia.
Qed.

Lemma feed_digit v c d :
  0 <= v -> v * 16 + d <= NGX_MAX_OFF_T_VALUE / 16 -> chunk_digit c = Some d ->
  feed (sw_chunk_size, v) c = Next (sw_chunk_size, v * 16 + d).
Proof.
  intros Hv Hd Hc. pose proof (chunk_digit_range c d Hc) as Hr. pose proof max_div_16 as HM.
  change (feed (sw_chunk_size, v) c) with (fed_of (st_chunk_size c (Chunked sw_chunk_size v 0))).
  unfold st_chunk_size. cbn [c_size]. rewrite Hc.
  destruct (Z.ltb_spec (NGX_MAX_OFF_T_VALUE / 16) v); [lia|].
  rewrite int64_ok, Ok_bind, int64_ok, Ok_bind by lia. by apply fed_continue.
Qed.

Lemma feed_first c d : chunk_digit c = Some d -> feed (sw_chunk_start, 0) c = Next (sw_chunk_size, d).
Proof.
  intros Hc. pose proof (chunk_digit_range c d Hc) as Hr. pose proof max_div_16 as HM.
  change (feed (sw_chunk_start, 0) c) with (fed_of (st_chunk_start c (Chunked sw_chunk_start 0 0))).
  unfold st_chunk_start. rewrite Hc. apply fed_continue. cbn. lia.
Qed.

Lemma digest_next max n s s' ch l : feed s ch = Next s' -> digest max n s (ch :: l) = digest max n s' l.
Proof. intros H. cbn. by rewrite H. Qed.

Lemma digest_more_digits max n v ds w rest :
  0 <= v -> hex_from v ds = Some w -> w <= NGX_MAX_OFF_T_VALUE / 16 ->
  digest max n (sw_chunk_size, v) (ds ++ rest) = digest max n (sw_chunk_size, w) rest.
Proof.
  revert v. induction ds as [|c ds IH]; intros v Hv; cbn [hex_from app]; [by intros [= ->]|].
  destruct (chunk_digit c) as [d|] eqn:E; [|done]. cbn [mbind option_bind]. intros H Hw.
  pose proof (chunk_digit_range c d E). apply hex_from_grows in H as Hle; [|lia].
  rewrite (digest_next _ _ _ (sw_chunk_size, v * 16 + d)) by (apply feed_digit; done || lia).
  apply IH; done || lia.
Qed.

Lemma digest_digits max n ds w rest :
  ds <> [] -> hex_from 0 ds = Some w -> w <= NGX_MAX_OFF_T_VALUE / 16 ->
  digest max n (sw_chunk_start, 0) (ds ++ rest) = digest max n (sw_chunk_size, w) rest.
Proof.
  intros Hne H Hw. destruct ds as [|c ds]; [done|]. cbn [hex_from app] in *.
  destruct (chunk_digit c) as [d|] eqn:E; [|done]. cbn [mbind option_bind] in H.
  pose proof (chunk_digit_range c d E).
  rewrite (digest_next _ _ _ (sw_chunk_size, d)) by (by apply feed_first).
  apply digest_more_digits; done || lia.
Qed.

(** Text up to the end of a line. *)
Lemma digest_eol max n s s1 s2 crlf rest :
  feed s CR = Next s1 -> feed s1 LF = Next s2 -> feed s LF = Next s2 ->
  digest max n s (eol crlf ++ rest) = digest max n s2 rest.
Proof.
  intros H1 H2 H3. destruct crlf; cbn [eol app].
  - by rewrite (digest_next _ _ _ _ _ _ H1), (digest_next _ _ _ _ _ _ H2).
  - by rewrite (digest_next _ _ _ _ _ _ H3).
Qed.

Lemma digest_line max n s s1 s2 text crlf rest :
  (forall ch, ch <> CR -> ch <> LF -> feed s ch = Next s) ->
  feed s CR = Next s1 -> feed s1 LF = Next s2 -> feed s LF = Next s2 -> no_eol text ->
  digest max n s (text ++ eol crlf ++ rest) = digest max n s2 rest.
Proof.
  intros H H1 H2 H3. induction text as [|c text IH]; intros Ht; cbn [app].
  - by eapply digest_eol.
  - apply Forall_cons in Ht as [[Hc1 Hc2] Ht].
    rewrite (digest_next _ _ s s) by auto. auto.
Qed.

Section size.
Context (v : Z) (Hv : 0 <= v <= NGX_MAX_OFF_T_VALUE / 16).

Lemma feed_skip st here almost read ch :
  chunked_step [] 0 ch st (Chunked st v 0) = chunk_skip ch here almost read (Chunked st v 0) ->
  st <> sw_chunk_data -> here = st ->
  feed (st, v) ch =
    if ch =? CR then Next (almost, v) else if ch =? LF then Next (read, v) else Next (st, v).
Proof.
  intros H Hst ->. unfold feed. rewrite norm_other by done.
  assert (forall st', fed_of (Ok (Continue st' (Chunked st v 0))) = Next (st', v)) as Hc.
  { intros st'. exact (fed_continue st' (Chunked st v 0) (proj2 Hv)). }
  destruct st; try done; rewrite H; unfold chunk_skip;
    (destruct (ch =? CR); [apply Hc|]; destruct (ch =? LF); apply Hc).
Qed.

Lemma feed_almost st next :
  chunked_step [] 0 LF st (Chunked st v 0) = chunk_almost_done LF next (Chunked st v 0) ->
  st <> sw_chunk_data -> feed (st, v) LF = Next (next, v).
Proof.
  intros H Hst. unfold feed. rewrite norm_other by done.
  destruct st; try done; rewrite H; exact (fed_continue next (Chunked _ v 0) (proj2 Hv)).
Qed.

(** The end of the line of a chunk, and of the last one. *)
Lemma feed_size_end ch st1 st2 st3 :
  chunk_digit ch = None ->
  (st1, st2, st3) =
    (if v =? 0
     then (sw_last_chunk_extension_almost_done, sw_trailer, sw_last_chunk_extension)
     else (sw_chunk_extension_almost_done, sw_chunk_data, sw_chunk_extension)) ->
  feed (sw_chunk_size, v) ch =
    if ch =? CR then Next (st1, v)
    else if ch =? LF then Next (st2, v)
    else if (ch =? ";"%chr) || (ch =? " "%chr) || (ch =? 9) then Next (st3, v)
    else Bad.
Proof.
  intros Hc H.
  assert (forall st', fed_of (Ok (Continue st' (Chunked sw_chunk_size v 0))) = Next (st', v))
    as Hn.
  { intros st'. exact (fed_continue st' (Chunked sw_chunk_size v 0) (proj2 Hv)). }
  change (feed (sw_chunk_size, v) ch)
    with (fed_of (st_chunk_size ch (Chunked sw_chunk_size v 0))).
  unfold st_chunk_size. cbn [c_size]. rewrite Hc.
  destruct (Z.ltb_spec (NGX_MAX_OFF_T_VALUE / 16) v); [lia|].
  destruct (v =? 0); injection H as -> -> ->; unfold chunk_line_end;
    (destruct (ch =? CR); [apply Hn|]; destruct (ch =? LF); [apply Hn|];
     destruct (_ || _); [apply Hn|done]).
Qed.

Lemma digest_size_line max n st1 st2 st3 ext crlf rest :
  (st1, st2, st3) =
    (if v =? 0
     then (sw_last_chunk_extension_almost_done, sw_trailer, sw_last_chunk_extension)
     else (sw_chunk_extension_almost_done, sw_chunk_data, sw_chunk_extension)) ->
  good_ext ext ->
  digest max n (sw_chunk_size, v) (ext ++ eol crlf ++ rest) = digest max n (st2, v) rest.
Proof.
  intros H Hext. pose proof (fun ch Hc => feed_size_end ch st1 st2 st3 Hc H) as Hf.
  assert (feed (st1, v) LF = Next (st2, v)) as Ha.
  { destruct (v =? 0); injection H as -> -> ->; by apply feed_almost. }
  destruct ext as [|c ext]; cbn [app].
  - apply (digest_eol _ _ _ (st1, v)); [by rewrite Hf|done|by rewrite Hf].
  - destruct Hext as [Hc Hext].
    rewrite (digest_next _ _ _ (st3, v)).
    2: { destruct Hc as [->|[->| ->]]; by rewrite Hf. }
    assert (forall ch, feed (st3, v) ch =
      if ch =? CR then Next (st1, v) else if ch =? LF then Next (st2, v) else Next (st3, v))
      as Hs.
    { intros ch. destruct (v =? 0); injection H as -> -> ->; by eapply feed_skip. }
    apply (digest_line _ _ _ (st1, v)); [|by rewrite Hs|done|by rewrite Hs|done].
    intros ch H1 H2. rewrite Hs.
    by destruct (Z.eqb_spec ch CR), (Z.eqb_spec ch LF).
Qed.
End size.

Lemma over_split max n a b : 0 <= a -> 0 <= b ->
  over max n (a + b) = over max n a || over max (n + a) b.
Proof. intros Ha Hb. unfold over. destruct (max =? 0); [done|]. cbn [negb andb]. lia. Qed.

Lemma digest_chunk max n c rest :
  good_chunk c ->
  digest max n (sw_chunk_start, 0) (encode_chunk c ++ rest) =
    if over max n (zlen c.(ct_data)) then DOver []
    else prepend c.(ct_data)
           (digest max (n + zlen c.(ct_data)) (sw_chunk_start, 0) rest).
Proof.
  intros [H1 H2 H3 H4]. unfold encode_chunk. rewrite <- !app_assoc.
  rewrite (digest_digits _ _ _ (zlen c.(ct_data))) by (done || lia).
  set (w := zlen c.(ct_data)) in *.
  rewrite (digest_size_line w ltac:(lia) max n sw_chunk_extension_almost_done sw_chunk_data
    sw_chunk_extension); [|by rewrite (proj2 (Z.eqb_neq w 0)) by lia|done].
  rewrite digest_data; [|split; [done|cbn; lia]|].
  2: { intros E. apply (f_equal zlen) in E. rewrite zlen_app, zlen_nil in E.
       pose proof (zlen_nonneg (eol c.(ct_crlf2) ++ rest)). unfold w in *. lia. }
  cbn [snd]. destruct (over max n w); [done|]. cbv zeta.
  rewrite zlen_app. pose proof (zlen_nonneg (eol c.(ct_crlf2) ++ rest)).
  replace (Z.min w (zlen c.(ct_data) + zlen (eol c.(ct_crlf2) ++ rest))) with w
    by (unfold w in *; lia).
  assert (Z.to_nat w = length c.(ct_data)) as -> by (unfold w, zlen; lia).
  rewrite take_app_length, drop_app_length, Z.sub_diag. f_equal.
  by apply (digest_eol _ _ _ (sw_after_data_almost_done, 0)).
Qed.

Lemma digest_chunks max n chunks rest :
  Forall good_chunk chunks -> max = 0 \/ n <= max ->
  if over max n (zlen (body_data chunks))
  then exists data,
    digest max n (sw_chunk_start, 0) (concat (map encode_chunk chunks) ++ rest) = DOver data
  else
    digest max n (sw_chunk_start, 0) (concat (map encode_chunk chunks) ++ rest)
    = prepend (body_data chunks)
        (digest max (n + zlen (body_data chunks)) (sw_chunk_start, 0) rest).
Proof.
  intros H. revert n. induction H as [|c chunks Hc _ IH]; intros n Hn.
  - assert (over max n (zlen (body_data [])) = false) as ->.
    { unfold over. change (zlen (body_data [])) with 0.
      destruct (Z.eqb_spec max 0); [done|]. cbn [negb andb]. lia. }
    change (zlen (body_data [])) with 0. by rewrite Z.add_0_r, prepend_nil.
  - cbn [map concat]. change (body_data (c :: chunks)) with (c.(ct_data) ++ body_data chunks).
    rewrite <- app_assoc, digest_chunk by done. pose proof (zlen_nonneg c.(ct_data)).
    pose proof (zlen_nonneg (body_data chunks)). rewrite zlen_app, over_split by done.
    destruct (over max n (zlen c.(ct_data))) eqn:Eo; cbn [orb]; [by eexists|].
    assert (max = 0 \/ n + zlen c.(ct_data) <= max) as Hn'.
    { unfold over in Eo. destruct (Z.eqb_spec max 0); [by left|]. cbn [negb andb] in Eo. lia. }
    specialize (IH _ Hn'). destruct (over max (n + zlen c.(ct_data)) _).
    + destruct IH as [data ->]. by eexists.
    + rewrite IH, <- prepend_app, Z.add_assoc. done.
Qed.

Lemma digest_trailers max n l rest :
  Forall (fun x => x.1 <> [] /\ no_eol x.1) l ->
  digest max n (sw_trailer, 0) (encode_trailers l ++ rest) = digest max n (sw_trailer, 0) rest.
Proof.
  induction 1 as [|[t crlf] l [Ht Hn] _ IH]; [done|]. unfold encode_trailers in *.
  cbn [map concat fst snd] in *. rewrite <- !app_assoc, <- IH. destruct t as [|c t]; [done|].
  apply Forall_cons in Hn as [[H1 H2] Hn]. cbn [app].
  rewrite (digest_next _ _ _ (sw_trailer_header, 0)).
  2: { unfold feed. cbn [norm]. change (norm (sw_trailer, 0)) with (sw_trailer, 0).
       cbn [chunked_step]. destruct (Z.eqb_spec c CR), (Z.eqb_spec c LF); done. }
  assert (forall ch, feed (sw_trailer_header, 0) ch =
    if ch =? CR then Next (sw_trailer_header_almost_done, 0)
    else if ch =? LF then Next (sw_trailer, 0) else Next (sw_trailer_header, 0)) as Hs.
  { intros ch. by eapply feed_skip. }
  apply (digest_line _ _ _ (sw_trailer_header_almost_done, 0)); [|by rewrite Hs|done| |done].
  - intros ch H3 H4. rewrite Hs. by destruct (Z.eqb_spec ch CR), (Z.eqb_spec ch LF).
  - by rewrite Hs.
Qed.

Lemma digest_last max n t rest :
  good_last t -> digest max n (sw_chunk_start, 0) (encode_last t ++ rest) = DEnd rest [].
Proof.
  intros [H1 H2 H3 H4]. unfold encode_last. rewrite <- !app_assoc.
  rewrite (digest_digits _ _ _ 0) by done.
  rewrite (digest_size_line 0 ltac:(done) max n sw_last_chunk_extension_almost_done
    sw_trailer sw_last_chunk_extension) by done.
  rewrite digest_trailers by done. by destruct t.(lt_crlf2).
Qed.

(** A text of the grammar, with anything behind it. *)
Lemma digest_body max chunks t rest :
  Forall good_chunk chunks -> good_last t -> 0 <= max ->
  if over max 0 (zlen (body_data chunks))
  then exists data, digest max 0 (sw_chunk_start, 0) (encode_body chunks t ++ rest) = DOver data
  else digest max 0 (sw_chunk_start, 0) (encode_body chunks t ++ rest)
       = DEnd rest (body_data chunks).
Proof.
  intros Hc Ht Hmax. pose proof (digest_chunks max 0 chunks (encode_last t ++ rest) Hc
    (or_intror Hmax)) as H. unfold encode_body. rewrite <- app_assoc.
  destruct (over _ _ _); [done|]. rewrite H, digest_last by done. cbn. by rewrite app_nil_r.
Qed.

(** ** The theorems *)

(** C40: A chunked body, cut into buffers in any way, with anything behind it in
    the last buffer, 2^63 - 1 bytes at most in all, and handed to the request body filter in its first call, is read
    exactly, unless memory cannot be had: the filter ends with 500, without the next
    filter, if and only if [ngx_pcalloc] fails for its state or one of the calls of
    [ngx_chain_get_free_buf] that it makes fails. Otherwise, if the body is within the limit, the output buffers
    hold the data of its chunks in order, although small chunks are moved inside the
    memory of the input, the length is counted, no more is asked for, and what the next
    filter makes of the output buffers is returned. A body larger than the limit is
    refused with 413. *)
Theorem chunked_body_read get_free pcalloc next max large chunks t front finish rest r :
  Forall good_chunk chunks -> good_last t -> 0 <= max <= NGX_MAX_OFF_T_VALUE ->
  concat front ++ finish = encode_body chunks t ++ rest -> zlen rest < zlen finish ->
  zlen (encode_body chunks t ++ rest) <= NGX_MAX_OFF_T_VALUE ->
  r.(rb_rest) = -1 ->
  exists rc r',
    ngx_http_request_body_chunked_filter get_free pcalloc next max large (map whole (front ++ [finish])) r
    = Ok (rc, r') /\
    ((pcalloc = false \/ refused get_free r.(rb_asked) r'.(rb_asked)) /\
       rc = NGX_HTTP_INTERNAL_SERVER_ERROR \/
     pcalloc = true /\ granted get_free r.(rb_asked) r'.(rb_asked) /\
     if over max 0 (zlen (body_data chunks))
     then rc = NGX_HTTP_REQUEST_ENTITY_TOO_LARGE
     else rc = next r'.(rb_out) /\ delivered r'.(rb_out) = body_data chunks /\
       r'.(rb_content_length_n) = zlen (body_data chunks) /\ r'.(rb_rest) = 0).
Proof.
  intros Hc Ht Hmax Hcut Hrest Hlen Hr. unfold ngx_http_request_body_chunked_filter.
  cbv zeta. cbn [rb_rest]. rewrite Hr. cbn [Z.eqb Pos.eqb].
  destruct pcalloc; cbn [negb]; [|do 2 eexists; split; [done|]; left; split; [by left|done]].
  assert (concat (front ++ [finish]) = encode_body chunks t ++ rest) as E.
  { rewrite concat_app. cbn. by rewrite app_nil_r. }
  destruct (chunked_chain_ok get_free next max large (front ++ [finish]) (Body new_chunked 0 large [] r.(rb_asked)))
    as (rc & r' & Hcall & H); try done; [by cbn; rewrite E|].
  exists rc, r'. split; [exact Hcall|]. cbn [rb_content_length_n rb_chunked rb_asked] in H.
  destruct H as [[H1 H2]|[Hg H]]; [left; split; [by right|done]|right]. split; [done|]. split; [done|].
  rewrite E in H. pose proof (digest_body max chunks t rest Hc Ht (proj1 Hmax)) as Hd.
  change (position_of new_chunked) with (sw_chunk_start, 0) in H.
  destruct (over max 0 (zlen (body_data chunks))).
  - destruct Hd as [data Hd]. by rewrite Hd in H.
  - rewrite Hd in H. destruct H as (H1 & H2 & H3 & H4); [by exists front, finish|]. by split_and!.
Qed.

Definition example_chunks : list chunk_text :=
  [ChunkText (str "003") (str ";x=y") true (str "abc") true;
   ChunkText (str "A") [] false (str "0123456789") true].

Definition example_last : last_text :=
  LastText (str "0") [] true [(str "t: v", true)] true.

Lemma example_good : Forall good_chunk example_chunks /\ good_last example_last.
Proof.
  assert (forall l, forallb (fun c => negb (c =? CR) && negb (c =? LF)) l = true -> no_eol l)
    as Hno.
  { intros l Hl. apply Forall_forall. intros c Hc. rewrite forallb_forall in Hl.
    apply list_elem_of_In, Hl in Hc. unfold CR, LF in *. lia. }
  split; [|split; try done].
  - constructor; [|constructor; [|by constructor]]; split; try done; [split; [by left|by apply Hno]].
  - constructor; [|by constructor]. split; [done|by apply Hno].
Qed.

Lemma chunked_body_read_witness :
  exists rc r',
    ngx_http_request_body_chunked_filter (fun k => Nat.ltb k 3) true (fun _ => NGX_OK) 100 8192
      (map whole ([take 16 (encode_body example_chunks example_last)] ++
                  [drop 16 (encode_body example_chunks example_last) ++ str "GET"]))
      (Body new_chunked 0 (-1) [] 0) = Ok (rc, r') /\
    rc = NGX_OK /\ delivered r'.(rb_out) = str "abc0123456789".
Proof.
  destruct example_good as [Hc Ht].
  edestruct (chunked_body_read (fun k => Nat.ltb k 3) true (fun _ => NGX_OK) 100 8192 example_chunks example_last
    [take 16 (encode_body example_chunks example_last)]
    (drop 16 (encode_body example_chunks example_last) ++ str "GET") (str "GET")
    (Body new_chunked 0 (-1) [] 0)) as (rc & r' & H1 & H2).
  - exact Hc.
  - exact Ht.
  - split; by vm_compute.
  - by vm_compute.
  - by vm_compute.
  - by vm_compute.
  - done.
  - exists rc, r'. split; [exact H1|].
    destruct H2 as [[[H2|H2] H3]|(_ & _ & H2 & H3 & _)]; [discriminate H2| |split; [exact H2|rewrite H3; reflexivity]].
    exfalso. revert H1. rewrite H3. vm_compute. discriminate.
Defined.

(** ** Discarding *)

Lemma digest_unlimited n s l :
  match digest 0 n s l with DOver _ => False | _ => True end.
Proof.
  revert n s. induction l as [|ch l IH]; intros n s; cbn; [done|].
  destruct (feed s ch) as [| |s1|s1]; [done|done|apply IH|].
  specialize (IH (n + 1) s1). by destruct (digest 0 (n + 1) s1 l).
Qed.

Lemma discard_chunked_ok fuel large b ctx n m l :
  holds b.(mem) b.(pos) l -> b.(last) = b.(pos) + zlen l -> valid (position_of ctx) ->
  (length l < fuel)%nat ->
  match digest 0 m (position_of ctx) l with
  | DBad => exists d, discard_chunked fuel large b ctx n = Ok (NGX_HTTP_BAD_REQUEST, d)
  | DOver _ => False
  | DEnd rest _ => exists c, discard_chunked fuel large b ctx n
      = Ok (NGX_OK, Discard (b <| pos := b.(last) - zlen rest |>) c 0) /\
        position_of c = (sw_chunk_start, 0)
  | DMore s _ => discard_chunked fuel large b ctx n
      = Ok (NGX_OK, Discard (b <| pos := b.(last) |>) (Chunked s.1 s.2 (length_of s))
                      (Z.max (length_of s) large)) /\ valid s
  end.
Proof.
  revert b ctx m l. induction fuel as [|fuel IH]; intros b ctx m l Hl Hlast Hv Hfuel; [lia|].
  cbn [discard_chunked]. pose proof (parse_heads b.(mem) l b.(pos) ctx Hl Hv) as Hp.
  cbv zeta in Hp. rewrite <- Hlast in Hp. rewrite <- digest_norm, digest_heads.
  destruct (heads (norm (position_of ctx)) l) as [|rest|s|s rest] eqn:Eh.
  - destruct Hp as (p & c & ->). rewrite Ok_bind. by eexists.
  - rewrite Hp, Ok_bind. by eexists.
  - destruct Hp as [-> Hv']. by rewrite Ok_bind.
  - destruct Hp as [-> Ha]. rewrite Ok_bind. cbn [Z.eqb].
    apply heads_data in Eh as (pre & ch & l1 & -> & E).
    rewrite digest_data by (done || by subst). change (over 0 m s.2) with false. cbv iota zeta.
    cbn [pos last set_field c_size]. rewrite zlen_app in Hlast. destruct Ha as [Hd Hs].
    assert (1 <= zlen rest) as Hr by (rewrite E, zlen_cons; pose proof (zlen_nonneg l1); lia).
    apply holds_app_suffix in Hl.
    assert (b.(last) - zlen rest = b.(pos) + zlen pre) as Hpos by lia. rewrite Hpos.
    assert (1 <= Z.min s.2 (zlen rest) <= zlen rest /\ Z.min s.2 (zlen rest) <= s.2)
      as [Hk Hk'] by lia.
    set (k := Z.min s.2 (zlen rest)) in *.
    set (b1 := b <| pos := b.(pos) + zlen pre + k |>).
    set (c1 := Chunked sw_chunk_data (s.2 - k) (length_of s)).
    match goal with |- context [if s.2 <? ?x then ?y else ?z] =>
      assert ((if s.2 <? x then y else z) = discard_chunked fuel large b1 c1 n) as ->
    end.
    { unfold b1, c1. replace (b.(last) - (b.(pos) + zlen pre)) with (zlen rest) by lia.
      destruct (Z.ltb_spec s.2 (zlen rest)).
      - replace k with s.2 by lia. by rewrite Z.sub_diag.
      - replace k with (zlen rest) by lia.
        by replace (b.(pos) + zlen pre + zlen rest) with b.(last) by lia. }
    clearbody k.
    specialize (IH b1 c1 (m + k) (drop (Z.to_nat k) rest)).
    change (position_of c1) with (sw_chunk_data, s.2 - k) in IH.
    assert (zlen (drop (Z.to_nat k) rest) = zlen rest - k) as Hdrop by (rewrite zlen_drop; lia).
    destruct (digest 0 (m + k) (sw_chunk_data, s.2 - k) (drop (Z.to_nat k) rest));
      cbn [prepend]; apply IH; cbn [b1 mem last pos set_field];
      try (rewrite Hdrop; cbn; lia);
      try (by apply holds_drop; [|lia]);
      try (unfold valid; cbn [fst snd]; lia);
      rewrite length_app in Hfuel; rewrite length_drop; unfold zlen in *; lia.
Qed.

(** What the caller does with the buffers as they arrive. *)
Fixpoint discard_pieces (large : Z) (pieces : list (list Z)) (d : discard)
    : res (Z * discard) :=
  match pieces with
  | [] => Ok (NGX_OK, d)
  | m :: pieces =>
      '(rc, d) ← ngx_http_discard_request_body_filter true large
                   (Discard (whole m) d.(d_chunked) d.(d_content_length_n));
      if rc =? NGX_OK then discard_pieces large pieces d else Ok (rc, d)
  end.

Lemma discard_filter_ok large ctx n k l :
  valid (position_of ctx) ->
  match digest 0 k (position_of ctx) l with
  | DBad => exists d,
      ngx_http_discard_request_body_filter true large (Discard (whole l) ctx n)
      = Ok (NGX_HTTP_BAD_REQUEST, d)
  | DOver _ => False
  | DEnd rest _ => exists c,
      ngx_http_discard_request_body_filter true large (Discard (whole l) ctx n)
      = Ok (NGX_OK, Discard (Buf l (zlen l - zlen rest) (zlen l)) c 0) /\
        position_of c = (sw_chunk_start, 0)
  | DMore s _ =>
      ngx_http_discard_request_body_filter true large (Discard (whole l) ctx n)
      = Ok (NGX_OK, Discard (Buf l (zlen l) (zlen l)) (Chunked s.1 s.2 (length_of s))
                      (Z.max (length_of s) large)) /\ valid s
  end.
Proof.
  intros Hv. unfold ngx_http_discard_request_body_filter. cbn [d_buf d_chunked d_content_length_n].
  set (fuel := (_ + 2)%nat).
  apply (discard_chunked_ok fuel large (whole l) ctx n k l); [apply holds_self|done|done|].
  unfold fuel, whole, zlen. cbn [last pos]. lia.
Qed.

Lemma discard_pieces_ok large front finish rest data d k :
  valid (position_of d.(d_chunked)) ->
  digest 0 k (position_of d.(d_chunked)) (concat front ++ finish) = DEnd rest data ->
  zlen rest < zlen finish ->
  exists c, discard_pieces large (front ++ [finish]) d
    = Ok (NGX_OK, Discard (Buf finish (zlen finish - zlen rest) (zlen finish)) c 0) /\
      position_of c = (sw_chunk_start, 0).
Proof.
  revert d k data. induction front as [|m front IH]; intros d k data Hv Hd Hrest;
    cbn [app concat] in *; cbn [discard_pieces].
  - pose proof (discard_filter_ok large d.(d_chunked) d.(d_content_length_n) k finish Hv) as H.
    rewrite Hd in H. destruct H as (c & -> & Hc). rewrite Ok_bind. by exists c.
  - rewrite <- app_assoc, digest_app in Hd.
    pose proof (discard_filter_ok large d.(d_chunked) d.(d_content_length_n) k m Hv) as H.
    destruct (digest 0 k (position_of d.(d_chunked)) m) as [|d1|rest1 d1|s d1]; [done|done| |].
    + exfalso. injection Hd as <- _. rewrite !zlen_app in Hrest.
      pose proof (zlen_nonneg rest1). pose proof (zlen_nonneg (concat front)). lia.
    + destruct H as [-> Hv']. rewrite Ok_bind. cbn [Z.eqb].
      destruct (digest 0 (k + zlen d1) s (concat front ++ finish)) as [| |rest2 d2|] eqn:E;
        [done|done| |done]. injection Hd as <- _.
      eapply IH; [|cbn [d_chunked]|done]; cbn [d_chunked].
      * by destruct s.
      * change (position_of (Chunked s.1 s.2 (length_of s))) with (s.1, s.2).
        by rewrite <- surjective_pairing.
Qed.

(** Discarding a chunked body, cut into buffers in any way, with anything
    behind it in the last buffer, ends exactly behind the body: nothing more is
    asked for and the bytes of the next request are left in the buffer. *)
Theorem chunked_body_discarded large chunks t front finish rest n :
  Forall good_chunk chunks -> good_last t ->
  concat front ++ finish = encode_body chunks t ++ rest -> zlen rest < zlen finish ->
  exists ctx,
    discard_pieces large (front ++ [finish]) (Discard (whole []) new_chunked n)
    = Ok (NGX_OK, Discard (Buf finish (zlen finish - zlen rest) (zlen finish)) ctx 0) /\
      ctx.(c_state) = sw_chunk_start.
Proof.
  intros Hc Ht Hcut Hrest. pose proof (digest_body 0 chunks t rest Hc Ht ltac:(done)) as H.
  change (over 0 0 _) with false in H. cbv iota in H. rewrite <- Hcut in H.
  destruct (discard_pieces_ok large front finish rest (body_data chunks)
    (Discard (whole []) new_chunked n) 0) as (c & H1 & H2); try done.
  exists c. split; [done|]. by injection H2.
Qed.

Lemma chunked_body_discarded_witness :
  exists ctx,
    discard_pieces 8192 ([take 16 (encode_body example_chunks example_last)] ++
        [drop 16 (encode_body example_chunks example_last) ++ str "GET"])
      (Discard (whole []) new_chunked 0)
    = Ok (NGX_OK, Discard (Buf (drop 16 (encode_body example_chunks example_last) ++ str "GET")
                             23 26) ctx 0).
Proof.
  destruct example_good as [Hc Ht].
  edestruct (chunked_body_discarded 8192 example_chunks example_last
    [take 16 (encode_body example_chunks example_last)]
    (drop 16 (encode_body example_chunks example_last) ++ str "GET") (str "GET") 0)
    as (ctx & H & _); [exact Hc|exact Ht|by vm_compute|by vm_compute|].
  exists ctx. exact H.
Defined.

(** ** The length *)

Lemma feed_length s ch :
  valid s ->
  match feed s ch with
  | Bad => True
  | End => length_of s <= 1
  | Next s' | Data s' => length_of s <= 1 + length_of s'
  end.
Proof.
  intros Hv. assert (length_of s = length_of (norm s)) as ->.
  { unfold norm. destruct (Z.eqb_spec s.2 0) as [E|E]; [|by rewrite andb_false_r].
    rewrite andb_true_r. case_bool_decide as Hd; [|done]. unfold length_of. cbn.
    by rewrite Hd, E. }
  rewrite <- feed_norm. apply norm_valid in Hv. pose proof (norm_idem s) as Hn.
  destruct (norm s) as [st v]. clear s. 
  destruct (decide (st = sw_chunk_data)) as [->|Hd].
  { destruct (feed_data (sw_chunk_data, v) ch Hv Hn eq_refl) as [_ ->]. cbn. lia. }
  assert (feed (st, v) ch = fed_of (chunked_step [] 0 ch st (Chunked st v 0))) as ->.
  { unfold feed. rewrite Hn. by destruct st. }
  unfold valid in Hv. cbn [fst snd] in Hv.
  assert (forall st', length_of (st, v) <= 1 + length_of (st', v) ->
    match fed_of (Ok (Continue st' (Chunked st v 0))) with
    | Bad => True
    | End => length_of (st, v) <= 1
    | Next s' | Data s' => length_of (st, v) <= 1 + length_of s'
    end) as Hgo.
  { intros st' H. unfold fed_of. by destruct (_ <? _). }
  destruct st; try done; cbn [chunked_step]; 
    unfold chunk_skip, chunk_almost_done, chunk_invalid;
    repeat match goal with |- context [if ch =? ?k then _ else _] => destruct (ch =? k) end;
    try done; try (apply Hgo; unfold length_of; cbn [fst snd]; lia).
  - unfold st_chunk_start. destruct (chunk_digit ch) as [d|] eqn:E; [|done].
    apply chunk_digit_range in E. unfold fed_of. change (c_size _) with d.
    destruct (NGX_MAX_OFF_T_VALUE - 5 <? d); [done|].
    unfold length_of. cbn [fst snd]. destruct (Z.eqb_spec d 0); lia.
  - unfold st_chunk_size. cbn [c_size]. destruct (_ <? v) eqn:Eb; [done|].
    rewrite max_div_16 in Eb.
    destruct (chunk_digit ch) as [d|] eqn:E.
    + apply chunk_digit_range in E. rewrite int64_ok, Ok_bind, int64_ok, Ok_bind by lia.
      unfold fed_of. change (c_size _) with (v * 16 + d).
      destruct (NGX_MAX_OFF_T_VALUE - 5 <? v * 16 + d); [done|].
      unfold length_of. cbn [fst snd].
      destruct (Z.eqb_spec v 0), (Z.eqb_spec (v * 16 + d) 0); lia.
    + unfold chunk_line_end, chunk_invalid.
      destruct (Z.eqb_spec v 0) as [->|]; 
        repeat match goal with |- context [if ?c then Ok _ else _] => destruct c end;
        try done; apply Hgo; unfold length_of; cbn [fst snd]; 
        try (rewrite (proj2 (Z.eqb_neq v 0)) by done); cbn; lia.
Qed.

Lemma feed_valid s ch :
  valid s -> match feed s ch with Next s' | Data s' => valid s' | _ => True end.
Proof.
  intros Hv. rewrite <- feed_norm. apply norm_valid in Hv. pose proof (norm_idem s) as Hn.
  set (s1 := norm s) in *. destruct (decide (s1.1 = sw_chunk_data)) as [Hd|Hd].
  - destruct (feed_data s1 ch Hv Hn Hd) as [[_ Ha] ->]. unfold valid. cbn [fst snd]. lia.
  - pose proof (step_feed [] 0 ch s1 (Chunked s1.1 s1.2 0) Hv Hn Hd eq_refl) as H.
    destruct (feed s1 ch); try done. by destruct H.
Qed.

Lemma digest_needs max n s l rest data :
  valid s -> digest max n s l = DEnd rest data -> length_of s <= zlen l - zlen rest.
Proof.
  revert n s data. induction l as [|ch l IH]; intros n s data Hv; cbn [digest]; [done|].
  pose proof (feed_length s ch Hv) as Hl. pose proof (feed_valid s ch Hv) as Hv'.
  rewrite zlen_cons. destruct (feed s ch) as [| |s1|s1]; [done| | |].
  - intros [= <- _]. lia.
  - intros H. apply IH in H; [lia|done].
  - destruct (over max n (s1.2 + 1)); [done|].
    destruct (digest max (n + 1) s1 l) as [| |rest' d'|] eqn:E; [done|done| |done].
    intros [= <- _]. apply IH in E; [lia|done].
Qed.

(** The shortest way to the end of the body. *)
Definition completion (s : position) : list Z :=
  let finish := [LF] ++ str "0" ++ [LF; LF] in
  match s.1 with
  | sw_chunk_start => str "0" ++ [LF; LF]
  | sw_chunk_size =>
      if s.2 =? 0 then [LF; LF] else [LF] ++ replicate (Z.to_nat s.2) 0 ++ finish
  | sw_chunk_extension | sw_chunk_extension_almost_done =>
      [LF] ++ replicate (Z.to_nat s.2) 0 ++ finish
  | sw_chunk_data => replicate (Z.to_nat s.2) 0 ++ finish
  | sw_after_data | sw_after_data_almost_done => finish
  | sw_last_chunk_extension | sw_last_chunk_extension_almost_done
  | sw_trailer_header | sw_trailer_header_almost_done => [LF; LF]
  | sw_trailer | sw_trailer_almost_done => [LF]
  end.

Lemma zlen_completion s : valid s -> zlen (completion s) = length_of s.
Proof.
  intros Hv. unfold valid in Hv. unfold completion, length_of.
  destruct s.1; try done; try destruct (Z.eqb_spec s.2 0); try done;
    cbv zeta; rewrite !zlen_app, zlen_replicate;
    change (zlen [LF]) with 1; change (zlen (str "0")) with 1; change (zlen [LF; LF]) with 2; lia.
Qed.

Lemma digest_completion_data n v :
  0 <= v <= NGX_MAX_OFF_T_VALUE / 16 ->
  exists data, digest 0 n (sw_chunk_data, v)
    (replicate (Z.to_nat v) 0 ++ [LF] ++ str "0" ++ [LF; LF]) = DEnd [] data.
Proof.
  intros Hv. destruct (decide (v = 0)) as [->|Hne]; [by exists []|].
  rewrite digest_data; [|split; [done|cbn; lia]|by destruct (Z.to_nat v)].
  change (over 0 n _) with false. cbv iota zeta. cbn [snd].
  rewrite zlen_app, zlen_replicate. change (zlen ([LF] ++ str "0" ++ [LF; LF])) with 4.
  replace (Z.min v (Z.of_nat (Z.to_nat v) + 4)) with v by lia.
  rewrite drop_app_length' by (by rewrite length_replicate). rewrite Z.sub_diag. by eexists.
Qed.

Lemma digest_completion_next n st v :
  0 <= v <= NGX_MAX_OFF_T_VALUE / 16 -> feed (st, v) LF = Next (sw_chunk_data, v) ->
  exists data, digest 0 n (st, v)
    ([LF] ++ replicate (Z.to_nat v) 0 ++ [LF] ++ str "0" ++ [LF; LF]) = DEnd [] data.
Proof.
  intros Hv H. change ([LF] ++ ?l) with (LF :: l). rewrite (digest_next _ _ _ _ _ _ H).
  by apply digest_completion_data.
Qed.

Lemma digest_completion n s :
  valid s -> s.2 <= NGX_MAX_OFF_T_VALUE / 16 ->
  exists data, digest 0 n s (completion s) = DEnd [] data.
Proof.
  intros Hv Hs. destruct s as [st v]. unfold valid in Hv. cbn [fst snd] in *.
  assert (0 <= v) as H0 by (destruct st; lia).
  destruct st; unfold completion; cbn [fst snd]; cbv zeta;
    try (subst v; by eexists); try (by apply digest_completion_data).
  - destruct (Z.eqb_spec v 0) as [->|Hne]; [by eexists|]. apply digest_completion_next; [done|].
    rewrite (feed_size_end v (conj H0 Hs) _ sw_chunk_extension_almost_done sw_chunk_data
      sw_chunk_extension); [done|done|]. by rewrite (proj2 (Z.eqb_neq v 0)).
  - apply digest_completion_next; [done|].
    by rewrite (feed_skip v (conj H0 Hs) _ sw_chunk_extension sw_chunk_extension_almost_done
      sw_chunk_data).
  - apply digest_completion_next; [done|]. by apply (feed_almost v (conj H0 Hs)).
Qed.

Lemma length_of_pos s : valid s -> 1 <= length_of s.
Proof.
  intros Hv. unfold valid in Hv. unfold length_of.
  destruct s.1; try lia. destruct (s.2 =? 0); lia.
Qed.

(** Between two buffers, ctx->length is exactly the number of bytes the end of
    the body is still away: whatever follows, discarding it ends after at least
    that many bytes, and there is a continuation of that length. The one
    exception is a size above NGX_MAX_OFF_T_VALUE / 16, which the next byte
    refuses. The stored context stays valid and no size overflows. *)
Theorem chunked_length_exact b last pos ctx rc p ctx' large n :
  valid (position_of ctx) -> 0 <= pos <= last -> last <= zlen b ->
  ngx_http_parse_chunked b last pos ctx = Ok (rc, p, ctx') ->
  rc = NGX_OK \/ rc = NGX_AGAIN ->
  valid (position_of ctx') /\
  (forall l d, ngx_http_discard_request_body_filter true large (Discard (whole l) ctx' n)
     = Ok (NGX_OK, d) -> d.(d_content_length_n) = 0 ->
     ctx'.(c_length) <= d.(d_buf).(HttpChunkedBody.pos)) /\
  (ctx'.(c_size) <= NGX_MAX_OFF_T_VALUE / 16 -> exists l d,
     ngx_http_discard_request_body_filter true large (Discard (whole l) ctx' n)
     = Ok (NGX_OK, d) /\ d.(d_content_length_n) = 0 /\
     d.(d_buf).(HttpChunkedBody.pos) = zlen l /\ zlen l = ctx'.(c_length)).
Proof.
  intros Hv Hpos Hlast Hcall Hrc.
  assert (valid (position_of ctx') /\ ctx'.(c_length) = length_of (position_of ctx'))
    as [Hv' ->].
  { destruct (slice_ok b pos (last - pos)) as (l & Hs & Hl); [lia|lia|lia|].
    apply slice_holds in Hs as [Hs _].
    pose proof (parse_heads b l pos ctx Hs Hv) as H. cbv zeta in H.
    replace (pos + zlen l) with last in H by lia. rewrite Hcall in H.
    destruct (heads (norm (position_of ctx)) l) as [|rest|s|s rest].
    - destruct H as (p' & c & [= -> -> ->]). by destruct Hrc.
    - injection H as -> -> ->. by destruct Hrc.
    - destruct H as [[= -> -> ->] Hv']. by destruct s.
    - destruct H as [[= -> -> ->] [Hd Ha]]. destruct s as [st v]. cbn [fst snd] in *. subst st.
      split; [unfold valid; cbn [fst snd position_of c_state c_size]; lia|done]. }
  split; [done|]. split.
  - intros l d Hd H0. pose proof (discard_filter_ok large ctx' n 0 l Hv') as H.
    destruct (digest 0 0 (position_of ctx') l) as [|data|rest data|s data] eqn:E.
    + destruct H as [d' H]. rewrite H in Hd. by injection Hd.
    + done.
    + destruct H as (c & H & _). rewrite H in Hd. injection Hd as <-. cbn [d_buf HttpChunkedBody.pos].
      by apply (digest_needs 0 0 _ _ _ data).
    + destruct H as [H Hs]. rewrite H in Hd. injection Hd as <-. cbn in H0.
      apply length_of_pos in Hs. lia.
  - intros Hsize. destruct (digest_completion 0 (position_of ctx') Hv' Hsize) as [data E].
    pose proof (discard_filter_ok large ctx' n 0 (completion (position_of ctx')) Hv') as H.
    rewrite E in H. destruct H as (c & H & _). eexists _, _. split; [exact H|].
    split; [done|]. cbn [d_buf HttpChunkedBody.pos].
    rewrite zlen_nil, Z.sub_0_r. split; [done|]. by apply zlen_completion.
Qed.

Lemma chunked_length_exact_witness :
  exists l d, ngx_http_discard_request_body_filter true 0
      (Discard (whole l) (Chunked sw_chunk_data 26 30) 0) = Ok (NGX_OK, d) /\
    d.(d_content_length_n) = 0 /\ d.(d_buf).(pos) = zlen l /\ zlen l = 30.
Proof.
  edestruct (chunked_length_exact (str "1a;x" ++ [13; 10] ++ str "rest") 10 0 new_chunked
    NGX_OK 6 (Chunked sw_chunk_data 26 30) 0 0) as (_ & _ & H).
  - done.
  - done.
  - by vm_compute.
  - vm_compute. reflexivity.
  - by left.
  - by apply H.
Defined.
