(* ===== verification/HttpHeaderLine.v ===== *)
(** * The header lines

    [ngx_http_parse_header_line] of [src/http/ngx_http_parse.c], a definition per
    state, on the machine of [Machine]. *)

From S2P Require Import Prelude HttpRequest Machine.

(** The lower case of a character of a header name; zero for the others. *)
Definition lowcase : list Z := Eval cbv in
  replicate 45 0 ++ ["-"%chr] ++ replicate 2 0 ++ str "0123456789" ++ replicate 6 0 ++
  [0] ++ str "abcdefghijklmnopqrstuvwxyz" ++ replicate 5 0 ++
  [0] ++ str "abcdefghijklmnopqrstuvwxyz" ++ replicate 5 0 ++ replicate 128 0.

Definition NGX_HTTP_LC_HEADER_LEN : Z := 32.

(** [ngx_hash(key, c)] *)
Definition ngx_hash (key c : Z) : Z := u64 (key * 31 + c).

Inductive header_state :=
| sw_start
| sw_name
| sw_space_before_value
| sw_value
| sw_space_after_value
| sw_ignore_line
| sw_almost_done
| sw_header_almost_done.

(** The local variables. *)
Record header_locals := Locals {
  state : header_state;
  hash : Z;
  lc_index : Z
}.

#[export] Instance locals_rebuild : Rebuild header_locals := fun l =>
  Locals l.(state) l.(hash) l.(lc_index).

(** The fields of the request; [upstream] is whether [r->upstream] is set. *)
Record header_request := HeaderRequest {
  upstream : bool;
  invalid_header : bool;
  lowcase_header : list Z;
  header_name_start : option Z;
  header_name_end : option Z;
  header_start : option Z;
  header_end : option Z
}.

#[export] Instance header_request_rebuild : Rebuild header_request := fun r =>
  HeaderRequest r.(upstream) r.(invalid_header) r.(lowcase_header) r.(header_name_start)
    r.(header_name_end) r.(header_start) r.(header_end).

Abbreviation outcome := (verdict header_locals header_request).

(** [return NGX_HTTP_PARSE_INVALID_HEADER] *)
Definition invalid_line (r : header_request) : res outcome :=
  Ok (Return NGX_HTTP_PARSE_INVALID_HEADER r).

(** [hash = ngx_hash(hash, c); r->lowcase_header[i++] = c;
    i &= (NGX_HTTP_LC_HEADER_LEN - 1);] *)
Definition hash_char (c : Z) (l : header_locals) (r : header_request)
    : res (header_locals * header_request) :=
  h ← put r.(lowcase_header) l.(lc_index) c;
  Ok (l <| hash := ngx_hash l.(hash) c |>
        <| lc_index := Z.land (l.(lc_index) + 1) (NGX_HTTP_LC_HEADER_LEN - 1) |>,
      r <| lowcase_header := h |>).

Definition st_start (allow_underscores : bool) (p ch : Z) (l : header_locals)
    (r : header_request) : res outcome :=
  let r := r <| header_name_start := Some p |> <| invalid_header := false |> in
  if ch =? CR then
    Ok (Continue (l <| state := sw_header_almost_done |>) (r <| header_end := Some p |>))
  else if ch =? LF then Ok (Done l (r <| header_end := Some p |>))
  else
    let l := l <| state := sw_name |> in
    let c := table_at lowcase ch in
    if negb (c =? 0) then
      h ← put r.(lowcase_header) 0 c;
      Ok (Continue (l <| hash := ngx_hash 0 c |> <| lc_index := 1 |>)
            (r <| lowcase_header := h |>))
    else if ch =? "_"%chr then
      if allow_underscores then
        h ← put r.(lowcase_header) 0 ch;
        Ok (Continue (l <| hash := ngx_hash 0 ch |> <| lc_index := 1 |>)
              (r <| lowcase_header := h |>))
      else
        Ok (Continue (l <| hash := 0 |> <| lc_index := 0 |>) (r <| invalid_header := true |>))
    else if (ch <=? 0x20) || (ch =? 0x7f) || (ch =? ":"%chr) then
      invalid_line (r <| header_end := Some p |>)
    else
      Ok (Continue (l <| hash := 0 |> <| lc_index := 0 |>) (r <| invalid_header := true |>)).

(** [ngx_strncmp(b + p, l, zlen l) == 0] for an [l] without zeros *)
Fixpoint strncmp_eq (b : list Z) (p : Z) (l : list Z) : res bool :=
  match l with
  | [] => Ok true
  | x :: l => c ← get b p; if c =? x then strncmp_eq b (p + 1) l else Ok false
  end.

(** "HTTP/" at the start of a line of an upstream server. *)
Definition duplicate_status (b : list Z) (p ch : Z) (r : header_request) : res bool :=
  if (ch =? "/"%chr) && r.(upstream) then
    start ← ptr r.(header_name_start);
    if p - start =? 4 then strncmp_eq b start (str "HTTP") else Ok false
  else Ok false.

Definition st_name (allow_underscores : bool) (b : list Z) (p ch : Z) (l : header_locals)
    (r : header_request) : res outcome :=
  let c := table_at lowcase ch in
  if negb (c =? 0) then '(l, r) ← hash_char c l r; Ok (Continue l r)
  else if ch =? "_"%chr then
    if allow_underscores then '(l, r) ← hash_char ch l r; Ok (Continue l r)
    else Ok (Continue l (r <| invalid_header := true |>))
  else if ch =? ":"%chr then
    Ok (Continue (l <| state := sw_space_before_value |>) (r <| header_name_end := Some p |>))
  else if (ch =? CR) || (ch =? LF) then
    let r := r <| header_name_end := Some p |> <| header_start := Some p |>
               <| header_end := Some p |> in
    if ch =? CR then Ok (Continue (l <| state := sw_almost_done |>) r) else Ok (Done l r)
  else
    duplicate ← duplicate_status b p ch r;
    match duplicate with
    | true => Ok (Continue (l <| state := sw_ignore_line |>) r)
    | false =>
        if (ch <=? 0x20) || (ch =? 0x7f) then invalid_line (r <| header_end := Some p |>)
        else Ok (Continue l (r <| invalid_header := true |>))
    end.

Definition st_space_before_value (p ch : Z) (l : header_locals) (r : header_request)
    : res outcome :=
  if ch =? " "%chr then Ok (Continue l r)
  else if ch =? CR then
    Ok (Continue (l <| state := sw_almost_done |>)
          (r <| header_start := Some p |> <| header_end := Some p |>))
  else if ch =? LF then
    Ok (Done l (r <| header_start := Some p |> <| header_end := Some p |>))
  else if ch =? 0 then invalid_line (r <| header_end := Some p |>)
  else Ok (Continue (l <| state := sw_value |>) (r <| header_start := Some p |>)).

Definition st_value (p ch : Z) (l : header_locals) (r : header_request) : res outcome :=
  if ch =? " "%chr then
    Ok (Continue (l <| state := sw_space_after_value |>) (r <| header_end := Some p |>))
  else if ch =? CR then
    Ok (Continue (l <| state := sw_almost_done |>) (r <| header_end := Some p |>))
  else if ch =? LF then Ok (Done l (r <| header_end := Some p |>))
  else if ch =? 0 then invalid_line (r <| header_end := Some p |>)
  else Ok (Continue l r).

Definition st_space_after_value (p ch : Z) (l : header_locals) (r : header_request)
    : res outcome :=
  if ch =? " "%chr then Ok (Continue l r)
  else if ch =? CR then Ok (Continue (l <| state := sw_almost_done |>) r)
  else if ch =? LF then Ok (Done l r)
  else if ch =? 0 then invalid_line (r <| header_end := Some p |>)
  else Ok (Continue (l <| state := sw_value |>) r).

Definition header_line_step (allow_underscores : bool) (b : list Z) (p ch : Z)
    (l : header_locals) (r : header_request) : res outcome :=
  match l.(state) with
  | sw_start => st_start allow_underscores p ch l r
  | sw_name => st_name allow_underscores b p ch l r
  | sw_space_before_value => st_space_before_value p ch l r
  | sw_value => st_value p ch l r
  | sw_space_after_value => st_space_after_value p ch l r
  | sw_ignore_line =>
      if ch =? LF then Ok (Continue (l <| state := sw_start |>) r) else Ok (Continue l r)
  | sw_almost_done =>
      if ch =? LF then Ok (Done l r)
      else if ch =? CR then Ok (Continue l r)
      else invalid_line r
  | sw_header_almost_done => if ch =? LF then Ok (Done l r) else invalid_line r
  end.

(** The labels [done] and [header_done]; the states that go to the latter are
    those of an empty line. *)
Definition header_line_done (p : Z) (l : header_locals) (r : header_request)
    : parsed header_locals header_request :=
  let rc :=
    match l.(state) with
    | sw_start | sw_header_almost_done => NGX_HTTP_PARSE_HEADER_DONE
    | _ => NGX_OK
    end in
  Parsed rc (p + 1) (l <| state := sw_start |>) r.

(** The call. The label [header_done] does not store the hash and the index. *)
Definition ngx_http_parse_header_line (allow_underscores : bool) (b : list Z) (last pos : Z)
    (l : header_locals) (r : header_request) : res (parsed header_locals header_request) :=
  v ← run (header_line_step allow_underscores) header_line_done b last pos l r;
  Ok (match v with
      | Parsed rc pos l' r' =>
          if rc =? NGX_HTTP_PARSE_HEADER_DONE
          then Parsed rc pos (l' <| hash := l.(hash) |> <| lc_index := l.(lc_index) |>) r'
          else v
      | _ => v
      end).

Definition new_locals : header_locals := Locals sw_start 0 0.

Definition new_header (upstream : bool) : header_request :=
  HeaderRequest upstream false (replicate 32 0) None None None None.

Example header_1 :
  let line := str "Host:  a b " ++ [13; 10] in
  ngx_http_parse_header_line false line (zlen line) 0 new_locals (new_header false)
  = Ok (Parsed NGX_OK 13
      (Locals sw_start (ngx_hash (ngx_hash (ngx_hash (ngx_hash 0 104) 111) 115) 116) 4)
      (HeaderRequest false false (str "host" ++ replicate 28 0)
         (Some 0) (Some 4) (Some 7) (Some 10))).
Proof. vm_compute. reflexivity. Qed.
