(* ===== verification/HttpHeaderLineSpec.v ===== *)
(** * The header lines: what an accepted line looks like

    An invariant of the states of [HttpHeaderLine]: where the name and the value
    are, and what the hash and the copy in lower case are worth. *)

From S2P Require Import Prelude HttpRequest Machine HttpHeaderLine.

(** ** The name *)

(** The lower case of a character that a header name may have. *)
Definition name_char (allow_underscores : bool) (c : Z) : option Z :=
  if ("A"%chr <=? c) && (c <=? "Z"%chr) then Some (c + 32)
  else if ("a"%chr <=? c) && (c <=? "z"%chr) || is_digit c || (c =? "-"%chr) then Some c
  else if (c =? "_"%chr) && allow_underscores then Some c
  else None.

(** The characters that count, in lower case. *)
Definition kept (allow_underscores : bool) (name : list Z) : list Z :=
  omap (name_char allow_underscores) name.

Definition hash_key (l : list Z) : Z := fold_left ngx_hash l 0.

(** A character that does not end the name and is not an error. *)
Definition in_name (c : Z) : Prop := 0x20 < c /\ c <> 0x7f /\ c <> ":"%chr.

Lemma lowcase_all :
  forallb (fun n => let c := Z.of_nat n in
    table_at lowcase c =? match name_char false c with Some x => x | None => 0 end)
    (seq 0 256) = true.
Proof. vm_compute. reflexivity. Qed.

Lemma lowcase_spec c :
  is_byte c ->
  table_at lowcase c = match name_char false c with Some x => x | None => 0 end.
Proof.
  intros Hc. pose proof lowcase_all as H. rewrite forallb_forall in H.
  specialize (H (Z.to_nat c)). cbv zeta in H. rewrite Z2Nat.id in H by lia.
  apply Z.eqb_eq, H, in_seq. lia.
Qed.

Lemma name_char_pos allow c x : is_byte c -> name_char allow c = Some x -> 0 < x < 256.
Proof.
  unfold name_char, is_digit, between. intros Hc H. repeat (case_match; simplify_eq); lia.
Qed.

(** The two tests of the code: the table, and the underscore. *)
Lemma name_char_cases allow c :
  is_byte c ->
  if table_at lowcase c =? 0
  then (if (c =? "_"%chr) && allow then name_char allow c = Some c else name_char allow c = None)
  else name_char allow c = Some (table_at lowcase c).
Proof.
  intros Hc. rewrite lowcase_spec by done. pose proof (name_char_pos false c) as Hp.
  unfold name_char in *. 
  destruct ((_ <=? c) && _); [specialize (Hp _ Hc eq_refl); by destruct (Z.eqb_spec (c + 32) 0); [lia|]|].
  destruct (_ || _); [specialize (Hp _ Hc eq_refl); by destruct (Z.eqb_spec c 0); [lia|]|].
  destruct (c =? "_"%chr); cbn; by destruct allow.
Qed.

(** What the hash, the index and the copy are worth behind [name]. *)
Record named (allow : bool) (name : list Z) (l : header_locals) (r : header_request) : Prop := {
  nm_hash : l.(hash) = hash_key (kept allow name);
  nm_index : l.(lc_index) = zlen (kept allow name) mod 32;
  nm_copy : zlen (kept allow name) <= 32 -> holds r.(lowcase_header) 0 (kept allow name);
  nm_invalid : r.(invalid_header) =
    existsb (fun c => match name_char allow c with Some _ => false | None => true end) name
}.

Lemma kept_snoc allow name c :
  kept allow (name ++ [c]) =
    kept allow name ++ match name_char allow c with Some x => [x] | None => [] end.
Proof. unfold kept. rewrite omap_app. cbn. by destruct (name_char allow c). Qed.

Lemma hash_key_snoc l c : hash_key (l ++ [c]) = ngx_hash (hash_key l) c.
Proof. unfold hash_key. by rewrite fold_left_app. Qed.

Lemma land_31 z : 0 <= z -> Z.land z (NGX_HTTP_LC_HEADER_LEN - 1) = z mod 32.
Proof. intros H. change (NGX_HTTP_LC_HEADER_LEN - 1) with (Z.ones 5). by apply Z.land_ones. Qed.

(** A character of the name that does not count. *)
Lemma named_skip allow name l r r' c :
  named allow name l r -> name_char allow c = None ->
  r'.(lowcase_header) = r.(lowcase_header) -> r'.(invalid_header) = true ->
  named allow (name ++ [c]) l r'.
Proof.
  intros [H1 H2 H3 H4] Hc Hl Hi.
  split; rewrite ?kept_snoc, ?Hc, ?app_nil_r, ?Hl; try done.
  rewrite existsb_app, Hi. cbn. rewrite Hc. by rewrite orb_true_r.
Qed.

(** One that counts. *)
Lemma named_hash allow name l r c x :
  named allow name l r -> name_char allow c = Some x -> zlen r.(lowcase_header) = 32 ->
  exists h, hash_char x l r
    = Ok (Locals l.(state) (ngx_hash l.(hash) x) ((l.(lc_index) + 1) mod 32),
          r <| lowcase_header := h |>) /\ zlen h = 32 /\
    named allow (name ++ [c])
      (Locals l.(state) (ngx_hash l.(hash) x) ((l.(lc_index) + 1) mod 32))
      (r <| lowcase_header := h |>).
Proof.
  intros [H1 H2 H3 H4] Hc Hlen. unfold hash_char.
  assert (0 <= l.(lc_index) < 32) as Hi by (rewrite H2; apply Z.mod_pos_bound; lia).
  destruct (put_ok r.(lowcase_header) l.(lc_index) x) as (h & Hh & Hz); [lia|].
  exists h. rewrite Hh, Ok_bind. split; [|split; [lia|]].
  { repeat f_equal. cbn. rewrite land_31 by lia. by destruct l. }
  split; cbn; rewrite ?kept_snoc, ?Hc.
  - by rewrite hash_key_snoc, H1.
  - rewrite H2, zlen_app, zlen_cons, zlen_nil. by rewrite Zplus_mod_idemp_l.
  - rewrite zlen_app, zlen_cons, zlen_nil. intros Hle. rewrite Z.mod_small in H2.
    2: { pose proof (zlen_nonneg (kept allow name)). lia. }
    apply holds_app.
    + eapply holds_blit_other; [exact Hh|left; lia|apply H3; lia].
    + rewrite Z.add_0_l, <- H2. by eapply holds_blit.
  - rewrite existsb_app, H4. cbn. rewrite Hc. by rewrite !orb_false_r.
Qed.

(** ** The invariant *)

(** A character of a value. *)
Definition in_value (c : Z) : Prop := c <> CR /\ c <> LF /\ c <> 0.

Definition blank (c : Z) : Prop := c = " "%chr.

(** The name has been read: it is [name], and ends at [e]. *)
Record has_name (allow : bool) (b : list Z) (name : list Z) (n e : Z) (l : header_locals)
    (r : header_request) : Prop := {
  hn_start : r.(header_name_start) = Some n;
  hn_end : r.(header_name_end) = Some e;
  hn_range : 0 <= n /\ n + zlen name = e /\ name <> [];
  hn_text : holds b n name;
  hn_chars : Forall in_name name;
  hn_named : named allow name l r
}.

(** The value begins at [v], behind a colon and spaces, or there is no colon. *)
Definition value_begins (b : list Z) (e v : Z) : Prop :=
  v = e \/ (e < v /\ get b e = Ok ":"%chr /\ span blank b (e + 1) v).

(** The byte at [k] is not a space. *)
Definition solid (b : list Z) (k : Z) : Prop := exists c, get b k = Ok c /\ c <> " "%chr.

(** The value from [v] to [w]: no line end, and no space at an end. *)
Definition trimmed (b : list Z) (v w : Z) : Prop :=
  v <= w /\ span in_value b v w /\ (v < w -> solid b v /\ solid b (w - 1)).

Lemma trimmed_nil b v : trimmed b v v.
Proof. split; [lia|]. split; [apply span_nil|lia]. Qed.

Definition header_line_inv (allow : bool) (b : list Z) (p : Z) (l : header_locals)
    (r : header_request) : Prop :=
  zlen r.(lowcase_header) = 32 /\
  match l.(state) with
  | sw_start | sw_ignore_line => True
  | sw_header_almost_done =>
      r.(header_name_start) = Some (p - 1) /\ r.(header_end) = Some (p - 1)
  | sw_name => exists n name,
      r.(header_name_start) = Some n /\ 0 <= n /\ n + zlen name = p /\ name <> [] /\
      holds b n name /\ Forall in_name name /\ named allow name l r
  | sw_space_before_value => exists n name e,
      has_name allow b name n e l r /\ e < p /\ get b e = Ok ":"%chr /\ span blank b (e + 1) p
  | sw_value => exists n name e v,
      has_name allow b name n e l r /\ r.(header_start) = Some v /\ e < v < p /\
      value_begins b e v /\ span in_value b v p /\ solid b v /\ solid b (p - 1)
  | sw_space_after_value => exists n name e v w,
      has_name allow b name n e l r /\ r.(header_start) = Some v /\
      r.(header_end) = Some w /\ e < v < w /\ value_begins b e v /\ trimmed b v w /\
      w < p /\ span blank b w p
  | sw_almost_done => exists n name e v w,
      has_name allow b name n e l r /\ r.(header_start) = Some v /\
      r.(header_end) = Some w /\ e <= v /\ value_begins b e v /\ trimmed b v w /\
      w < p /\ span (fun c => c = " "%chr \/ c = CR) b w p
  end.

(** A header line that ends in front of [pos]. *)
Definition accepted_header (allow : bool) (b : list Z) (pos : Z) (l : header_locals)
    (r : header_request) : Prop :=
  exists n name e v w,
    has_name allow b name n e l r /\ r.(header_start) = Some v /\
    r.(header_end) = Some w /\ e <= v /\ value_begins b e v /\ trimmed b v w /\
    w < pos /\ span (fun c => c = " "%chr \/ c = CR) b w (pos - 1) /\
    get b (pos - 1) = Ok LF.

(** The empty line that ends in front of [pos]. *)
Definition empty_line (b : list Z) (pos : Z) (r : header_request) : Prop :=
  exists n, r.(header_name_start) = Some n /\ r.(header_end) = Some n /\ n < pos <= n + 2 /\
    get b (pos - 1) = Ok LF.

Definition line_done (allow : bool) (b : list Z) (p : Z) (l : header_locals)
    (r : header_request) : Prop :=
  match l.(state) with
  | sw_start | sw_header_almost_done => empty_line b (p + 1) r
  | _ => accepted_header allow b (p + 1) l r
  end.

Definition step_ok (allow : bool) (b : list Z) (p : Z) (o : res outcome) : Prop :=
  exists v, o = Ok v /\
    match v with
    | Continue l r => header_line_inv allow b (p + 1) l r
    | Done l r => line_done allow b p l r
    | Return rc _ => rc = NGX_HTTP_PARSE_INVALID_HEADER
    end.

Lemma header_continue allow b p l r :
  header_line_inv allow b (p + 1) l r -> step_ok allow b p (Ok (Continue l r)).
Proof. intros H. by eexists. Qed.

Lemma header_finished allow b p l r : line_done allow b p l r -> step_ok allow b p (Ok (Done l r)).
Proof. intros H. by eexists. Qed.

Lemma header_refused allow b p r : step_ok allow b p (invalid_line r).
Proof. by eexists. Qed.

Lemma named_eq allow name l r l' r' :
  l'.(hash) = l.(hash) -> l'.(lc_index) = l.(lc_index) ->
  r'.(lowcase_header) = r.(lowcase_header) -> r'.(invalid_header) = r.(invalid_header) ->
  named allow name l r -> named allow name l' r'.
Proof. intros H1 H2 H3 H4 []. split; rewrite ?H1, ?H2, ?H3, ?H4; done. Qed.

Lemma has_name_eq allow b name n e l r l' r' :
  r'.(header_name_start) = r.(header_name_start) ->
  r'.(header_name_end) = r.(header_name_end) ->
  l'.(hash) = l.(hash) -> l'.(lc_index) = l.(lc_index) ->
  r'.(lowcase_header) = r.(lowcase_header) -> r'.(invalid_header) = r.(invalid_header) ->
  has_name allow b name n e l r -> has_name allow b name n e l' r'.
Proof.
  intros H1 H2 H3 H4 H5 H6 []. split; rewrite ?H1, ?H2; try done. by eapply named_eq.
Qed.

Ltac keep_name := eapply has_name_eq; [..|eassumption]; reflexivity.

(** ** Every state keeps the invariant *)

Section step.
Context (allow : bool) (b : list Z) (p ch : Z).
Context (Hb : bytes b) (Hch : get b p = Ok ch) (Hp : 0 <= p).
Implicit Types (l : header_locals) (r : header_request).

Lemma header_byte : is_byte ch.
Proof. by eapply get_byte. Qed.

Lemma holds_snoc n name : holds b n name -> n + zlen name = p -> holds b n (name ++ [ch]).
Proof. intros H <-. apply holds_app; [done|]. by apply holds_one. Qed.

Lemma name_next n name : n + zlen name = p -> n + zlen (name ++ [ch]) = p + 1.
Proof. rewrite zlen_app, zlen_cons, zlen_nil. lia. Qed.

(** The first character of a name. *)
Lemma name_starts l r :
  l.(state) = sw_name -> r.(header_name_start) = Some p -> in_name ch ->
  zlen r.(lowcase_header) = 32 -> named allow [ch] l r ->
  header_line_inv allow b (p + 1) l r.
Proof.
  intros H1 H2 H3 H4 H5. split; [done|]. rewrite H1. exists p, [ch].
  split_and!; try done; [by apply holds_one|by constructor].
Qed.

Lemma named_nil r h c x :
  name_char allow c = Some x -> r.(invalid_header) = false ->
  put r.(lowcase_header) 0 x = Ok h ->
  named allow [c] (Locals sw_name (ngx_hash 0 x) 1) (r <| lowcase_header := h |>).
Proof.
  intros Hc Hi Hh. split; unfold kept, hash_key; cbn; rewrite Hc; cbn; try done.
  - intros _. by eapply holds_blit.
Qed.

Lemma header_start_ok l r :
  l.(state) = sw_start -> header_line_inv allow b p l r ->
  step_ok allow b p (st_start allow p ch l r).
Proof.
  intros Hs [Hlen _]. unfold st_start. cbv zeta.
  set (r0 := r <| header_name_start := Some p |> <| invalid_header := false |>).
  assert (zlen r0.(lowcase_header) = 32) as Hlen0 by done.
  pose proof (name_char_cases allow ch header_byte) as Hc.
  destruct (Z.eqb_spec ch CR) as [E|E1].
  { apply header_continue. split; [done|]. cbn. by rewrite Z.add_simpl_r. }
  destruct (Z.eqb_spec ch LF) as [E|E2].
  { apply header_finished. unfold line_done. rewrite Hs. exists p. rewrite Z.add_simpl_r.
    split_and!; try done; try lia. by rewrite <- E. }
  assert (forall x, name_char allow ch = Some x -> in_name ch -> step_ok allow b p
    (h ← put r0.(lowcase_header) 0 x;
     Ok (Continue (l <| state := sw_name |> <| hash := ngx_hash 0 x |> <| lc_index := 1 |>)
           (r0 <| lowcase_header := h |>)))) as Hkeep.
  { intros x Hx Hin. destruct (put_ok r0.(lowcase_header) 0 x) as (h & Hh & Hz); [lia|].
    rewrite Hh, Ok_bind. apply header_continue, name_starts; try done; [by rewrite <- Hz in Hlen0|].
    by apply named_nil. }
  assert (name_char allow ch = None -> in_name ch -> step_ok allow b p
    (Ok (Continue (l <| state := sw_name |> <| hash := 0 |> <| lc_index := 0 |>)
       (r0 <| invalid_header := true |>)))) as Hskip.
  { intros Hx Hin. apply header_continue, name_starts; try done.
    split; unfold kept, hash_key; cbn; rewrite Hx; try done. }
  destruct (table_at lowcase ch =? 0) eqn:Et; cbn [negb].
  - destruct (Z.eqb_spec ch "_"%chr) as [E|E3].
    + assert (in_name ch) by (rewrite E; done). destruct allow; cbn [andb] in Hc; auto.
    + destruct ((ch <=? 0x20) || _ || _) eqn:Eb; [apply header_refused|].
      apply Hskip; [done|]. unfold in_name. lia.
  - apply Hkeep; [done|]. unfold name_char, is_digit, between in Hc. unfold in_name.
    repeat (case_match; simplify_eq); lia.
Qed.

Lemma name_continues l r r0 n name :
  r0.(header_name_start) = Some n -> 0 <= n -> n + zlen name = p -> holds b n name ->
  Forall in_name name -> in_name ch -> l.(state) = sw_name ->
  r.(header_name_start) = r0.(header_name_start) -> zlen r.(lowcase_header) = 32 ->
  named allow (name ++ [ch]) l r -> header_line_inv allow b (p + 1) l r.
Proof.
  intros H1 H2 H3 H4 H5 H6 H7 H8 H9 H10. split; [done|]. rewrite H7. exists n, (name ++ [ch]).
  split; [congruence|]. split; [done|]. split; [by apply name_next|].
  split; [by destruct name|]. split; [by apply holds_snoc|].
  split; [|done]. apply Forall_app. split; [done|by constructor].
Qed.

Lemma strncmp_eq_ok x (s : list Z) :
  0 <= x -> x + zlen s <= zlen b -> exists t, strncmp_eq b x s = Ok t.
Proof.
  revert x. induction s as [|c s IH]; intros x Hx Hl; cbn; [by eexists|].
  rewrite zlen_cons in Hl. pose proof (zlen_nonneg s).
  destruct (get_ok b x) as [d ->]; [lia|]. rewrite Ok_bind.
  destruct (d =? c); [apply IH; lia|by eexists].
Qed.

Lemma st_name_ok l r :
  l.(state) = sw_name -> header_line_inv allow b p l r ->
  step_ok allow b p (st_name allow b p ch l r).
Proof.
  intros Hs [Hlen H]. rewrite Hs in H. destruct H as (n & name & H1 & H2 & H3 & H4 & H5 & H6 & H7).
  unfold st_name. cbv zeta. pose proof (name_char_cases allow ch header_byte) as Hc.
  assert (forall x, name_char allow ch = Some x -> in_name ch -> step_ok allow b p
    ('(l, r) ← hash_char x l r; Ok (Continue l r))) as Hkeep.
  { intros x Hx Hin. destruct (named_hash allow name l r ch x H7 Hx Hlen) as (h & -> & Hh & Hn).
    rewrite Ok_bind. apply header_continue. by eapply name_continues. }
  assert (name_char allow ch = None -> in_name ch -> step_ok allow b p
    (Ok (Continue l (r <| invalid_header := true |>)))) as Hskip.
  { intros Hx Hin. apply header_continue. eapply name_continues; try done.
    by eapply named_skip. }
  assert (has_name allow b name n p l (r <| header_name_end := Some p |>)) as Hname.
  { split; try done. by eapply named_eq; [..|exact H7]. }
  destruct (table_at lowcase ch =? 0) eqn:Et; cbn [negb].
  - destruct (Z.eqb_spec ch "_"%chr) as [E|E3].
    { assert (in_name ch) by (rewrite E; done). destruct allow; cbn [andb] in Hc; auto. }
    cbn [andb] in Hc. destruct (Z.eqb_spec ch ":"%chr) as [E|E4].
    { apply header_continue. split; [done|]. cbn. exists n, name, p. split; [keep_name|].
      split; [lia|]. split; [by rewrite <- E|apply span_nil]. }
    destruct (Z.eqb_spec ch CR) as [E|E5]; cbn [orb].
    { apply header_continue. split; [done|]. cbn. exists n, name, p, p, p.
      split; [keep_name|]. split_and!; try done; try lia; [by left|apply trimmed_nil|].
      eapply span_snoc; [apply span_nil|done|by right]. }
    destruct (Z.eqb_spec ch LF) as [E|E6].
    { apply header_finished. unfold line_done. rewrite Hs. exists n, name, p, p, p.
      rewrite Z.add_simpl_r. split; [keep_name|].
      split_and!; try done; try lia; [by left|apply trimmed_nil|apply span_nil|by rewrite <- E]. }
    assert (exists t, duplicate_status b p ch r = Ok t) as [t ->].
    { unfold duplicate_status. destruct (_ && _); [|by eexists]. rewrite H1. cbn [ptr].
      rewrite Ok_bind. destruct (Z.eqb_spec (p - n) 4); [|by eexists].
      apply strncmp_eq_ok; [done|]. apply get_Ok_range in Hch.
      change (zlen (str "HTTP")) with 4. lia. }
    rewrite Ok_bind. destruct t; [by apply header_continue|].
    destruct ((ch <=? 0x20) || _) eqn:Eb; [apply header_refused|].
    apply Hskip; [done|]. unfold in_name. lia.
  - apply Hkeep; [done|]. unfold name_char, is_digit, between in Hc. unfold in_name.
    repeat (case_match; simplify_eq); lia.
Qed.

Lemma blank_not_end c : blank c -> in_value c.
Proof. intros ->. done. Qed.

Lemma st_space_before_value_ok l r :
  l.(state) = sw_space_before_value -> header_line_inv allow b p l r ->
  step_ok allow b p (st_space_before_value p ch l r).
Proof.
  intros Hs [Hlen H]. rewrite Hs in H. destruct H as (n & name & e & H1 & H2 & H3 & H4).
  unfold st_space_before_value.
  assert (value_begins b e p) as Hv by (right; split_and!; [lia|done|done]).
  destruct (Z.eqb_spec ch " "%chr) as [E|E1].
  { apply header_continue. split; [done|]. rewrite Hs. exists n, name, e.
    split_and!; try done; [lia|]. by eapply span_snoc. }
  destruct (Z.eqb_spec ch CR) as [E|E2].
  { apply header_continue. split; [done|]. cbn. exists n, name, e, p, p. split; [keep_name|].
    split_and!; try done; try lia; [apply trimmed_nil|].
    eapply span_snoc; [apply span_nil|done|by right]. }
  destruct (Z.eqb_spec ch LF) as [E|E3].
  { apply header_finished. unfold line_done. rewrite Hs. exists n, name, e, p, p.
    rewrite Z.add_simpl_r. split; [keep_name|].
    split_and!; try done; try lia; [apply trimmed_nil|apply span_nil|by rewrite <- E]. }
  destruct (Z.eqb_spec ch 0) as [E|E4]; [apply header_refused|].
  apply header_continue. split; [done|]. cbn. exists n, name, e, p. split; [keep_name|].
  rewrite Z.add_simpl_r. assert (solid b p) by (by exists ch).
  split_and!; try done; try lia. by eapply span_snoc; [apply span_nil| |].
Qed.

Lemma st_value_ok l r :
  l.(state) = sw_value -> header_line_inv allow b p l r ->
  step_ok allow b p (st_value p ch l r).
Proof.
  intros Hs [Hlen H]. rewrite Hs in H.
  destruct H as (n & name & e & v & H1 & H2 & H3 & H4 & H5 & H6 & H7). unfold st_value.
  assert (trimmed b v p) as Ht by (split_and!; [lia|done|done]).
  destruct (Z.eqb_spec ch " "%chr) as [E|E1].
  { apply header_continue. split; [done|]. cbn. exists n, name, e, v, p. split; [keep_name|].
    split_and!; try done; try lia. by eapply span_snoc; [apply span_nil| |]. }
  destruct (Z.eqb_spec ch CR) as [E|E2].
  { apply header_continue. split; [done|]. cbn. exists n, name, e, v, p. split; [keep_name|].
    split_and!; try done; try lia. eapply span_snoc; [apply span_nil|done|by right]. }
  destruct (Z.eqb_spec ch LF) as [E|E3].
  { apply header_finished. unfold line_done. rewrite Hs. exists n, name, e, v, p.
    rewrite Z.add_simpl_r. split; [keep_name|].
    split_and!; try done; try lia; [apply span_nil|by rewrite <- E]. }
  destruct (Z.eqb_spec ch 0) as [E|E4]; [apply header_refused|].
  apply header_continue. split; [done|]. rewrite Hs. exists n, name, e, v.
  rewrite Z.add_simpl_r. split_and!; try done; try lia; [by eapply span_snoc|by exists ch].
Qed.

Lemma st_space_after_value_ok l r :
  l.(state) = sw_space_after_value -> header_line_inv allow b p l r ->
  step_ok allow b p (st_space_after_value p ch l r).
Proof.
  intros Hs [Hlen H]. rewrite Hs in H.
  destruct H as (n & name & e & v & w & H1 & H2 & H3 & H4 & H5 & H6 & H7 & H8).
  assert (span (fun c => c = " "%chr \/ c = CR) b w p) as H9.
  { eapply span_weaken; [|exact H8]. by left. }
  unfold st_space_after_value. destruct (Z.eqb_spec ch " "%chr) as [E|E1].
  { apply header_continue. split; [done|]. rewrite Hs. exists n, name, e, v, w.
    split_and!; try done; try lia. by eapply span_snoc. }
  destruct (Z.eqb_spec ch CR) as [E|E2].
  { apply header_continue. split; [done|]. cbn. exists n, name, e, v, w. split; [keep_name|].
    split_and!; try done; try lia. eapply span_snoc; [done|done|by right]. }
  destruct (Z.eqb_spec ch LF) as [E|E3].
  { apply header_finished. unfold line_done. rewrite Hs. exists n, name, e, v, w.
    rewrite Z.add_simpl_r. split_and!; try done; try lia. by rewrite <- E. }
  destruct (Z.eqb_spec ch 0) as [E|E4]; [apply header_refused|].
  apply header_continue. split; [done|]. cbn. exists n, name, e, v. split; [keep_name|].
  destruct H6 as (_ & H6 & H10). destruct H10 as [H10 _]; [lia|].
  rewrite Z.add_simpl_r. split_and!; try done; try lia; [|by exists ch].
  eapply span_snoc; [|done|done]. eapply span_app; [exact H6|].
  eapply span_weaken; [apply blank_not_end|done].
Qed.

Lemma header_line_step_ok l r :
  header_line_inv allow b p l r -> step_ok allow b p (header_line_step allow b p ch l r).
Proof.
  intros H. unfold header_line_step. pose proof H as [Hlen Hs].
  destruct l.(state) eqn:E.
  - by apply header_start_ok.
  - by apply st_name_ok.
  - by apply st_space_before_value_ok.
  - by apply st_value_ok.
  - by apply st_space_after_value_ok.
  - destruct (ch =? LF); apply header_continue; (split; [done|]); [done|by rewrite E].
  - destruct Hs as (n & name & e & v & w & H1 & H2 & H3 & H4 & H5 & H6 & H7 & H8).
    destruct (Z.eqb_spec ch LF) as [El|_].
    { apply header_finished. unfold line_done. rewrite E. exists n, name, e, v, w.
      rewrite Z.add_simpl_r. split_and!; try done; try lia. by rewrite <- El. }
    destruct (Z.eqb_spec ch CR) as [Ec|_]; [|apply header_refused].
    apply header_continue. split; [done|]. rewrite E. exists n, name, e, v, w.
    split_and!; try done; try lia. eapply span_snoc; [done|done|by right].
  - destruct Hs as [H1 H2]. destruct (Z.eqb_spec ch LF) as [El|_]; [|apply header_refused].
    apply header_finished. unfold line_done. rewrite E. exists (p - 1). rewrite Z.add_simpl_r.
    split_and!; try done; try lia. by rewrite <- El.
Qed.
End step.

(** ** The theorem *)

Lemma kept_le allow name : zlen (kept allow name) <= zlen name.
Proof.
  induction name as [|c name IH]; [done|]. unfold kept in *. cbn.
  destruct (name_char allow c); rewrite ?zlen_cons; lia.
Qed.

Lemma kept_all allow name :
  zlen (kept allow name) = zlen name ->
  existsb (fun c => match name_char allow c with Some _ => false | None => true end) name = false.
Proof.
  induction name as [|c name IH]; [done|]. pose proof (kept_le allow name) as Hle.
  unfold kept in *. cbn. destruct (name_char allow c); rewrite ?zlen_cons; intros H; [|lia].
  apply IH. lia.
Qed.

(** The test of [ngx_http_process_request_headers]: if the index is the length of
    the name, the copy is the name in lower case. *)
Lemma named_copy allow name l r :
  named allow name l r -> l.(lc_index) = zlen name ->
  r.(invalid_header) = false /\ zlen (kept allow name) = zlen name /\
  holds r.(lowcase_header) 0 (kept allow name).
Proof.
  intros [H1 H2 H3 H4] H. pose proof (kept_le allow name) as Hle.
  pose proof (zlen_nonneg (kept allow name)).
  assert (0 <= l.(lc_index) < 32) as Hi by (rewrite H2; apply Z.mod_pos_bound; lia).
  rewrite Z.mod_small in H2 by lia. split_and!; [|lia|apply H3; lia].
  rewrite H4. apply kept_all. lia.
Qed.

Lemma strncmp_eq_stable x y y' p s t :
  p + zlen s <= zlen x -> strncmp_eq (x ++ y) p s = Ok t -> strncmp_eq (x ++ y') p s = Ok t.
Proof.
  revert p. induction s as [|c s IH]; intros p Hp; cbn; [done|]. rewrite zlen_cons in Hp.
  pose proof (zlen_nonneg s). rewrite !get_app_l by lia. destruct (get x p); [|done|done].
  rewrite !Ok_bind. destruct (_ =? _); [apply IH; lia|done].
Qed.

Lemma header_line_stable allow : stable (header_line_step allow).
Proof.
  intros x y y' p ch l r v Hy Hp. unfold header_line_step. destruct l.(state); try done.
  unfold st_name. cbv zeta. destruct (negb _); [done|]. destruct (ch =? "_"%chr); [done|].
  destruct (ch =? ":"%chr); [done|]. destruct (_ || _); [done|]. intros H.
  apply bind_Ok in H as (t & Ht & H).
  assert (duplicate_status (x ++ y') p ch r = Ok t) as ->; [|by rewrite Ok_bind].
  revert Ht. unfold duplicate_status. destruct (_ && _); [|done].
  destruct (ptr r.(header_name_start)) as [n| |]; [|done|done]. rewrite !Ok_bind.
  destruct (Z.eqb_spec (p - n) 4); [|done]. apply strncmp_eq_stable.
  change (zlen (str "HTTP")) with 4. lia.
Qed.

Lemma header_line_final : final header_line_done.
Proof. intros p l r. by unfold header_line_done. Qed.

(** The hash and the index are not stored behind the empty line. *)
Definition forget_hash (v : parsed header_locals header_request) :=
  match v with
  | Parsed rc pos l r =>
      if rc =? NGX_HTTP_PARSE_HEADER_DONE
      then Parsed rc pos (l <| hash := 0 |> <| lc_index := 0 |>) r else v
  | _ => v
  end.

Definition header_result (allow : bool) (b : list Z) (last : Z)
    (v : parsed header_locals header_request) : Prop :=
  match v with
  | Again pos _ _ => pos = last
  | Parsed rc pos l r =>
      pos <= last /\ l.(state) = sw_start /\
      ((rc = NGX_HTTP_PARSE_HEADER_DONE /\ empty_line b pos r) \/
       (rc = NGX_OK /\ accepted_header allow b pos l r))
  | Rejected rc _ => rc = NGX_HTTP_PARSE_INVALID_HEADER
  end.

Lemma header_line_call allow b last pos l r :
  bytes b -> 0 <= pos <= last -> last <= zlen b -> header_line_inv allow b pos l r ->
  exists v, run (header_line_step allow) header_line_done b last pos l r = Ok v /\
    header_result allow b last v.
Proof.
  intros Hb Hpos Hlast HI.
  apply (run_invariant _ _ (header_line_inv allow b) (header_result allow b last));
    [done|lia|lia|done|].
  intros p ch l1 r1 Hp Hch H1.
  destruct (header_line_step_ok allow b p ch Hb Hch ltac:(lia) l1 r1 H1) as (v & Hv & Hok).
  exists v. split; [done|]. destruct v as [l2 r2|l2 r2|rc r2]; [done| |done].
  unfold line_done in Hok. unfold header_line_done, header_result.
  split; [lia|]. split; [done|].
  assert (accepted_header allow b (p + 1) l2 r2 ->
    accepted_header allow b (p + 1) (l2 <| state := sw_start |>) r2) as Hkeep.
  { intros (n & name & e & v & w & H & Hrest). exists n, name, e, v, w.
    split; [keep_name|done]. }
  destruct l2.(state); auto.
Qed.

(** C39: Parsing a header line, in one piece or in any pieces, never reads or writes
    outside its memory and ends with one of: every byte consumed; an empty line,
    which ends the header; a line with its name, and its value without the spaces
    around it; or an error. The hash is that of the characters of the name that
    count (letters, digits, dashes, and underscores if they are allowed), in lower case; the line
    is marked invalid exactly if the name has a character that does not count,
    and if the index equals the length of the name then the 32-byte buffer holds
    the name in lower case. A call that goes on after earlier pieces gives what a
    single call gives. *)
Theorem header_line_sound allow x0 x y last l0 r0 l r :
  bytes (x ++ y) -> y <> [] -> zlen x <= last <= zlen (x ++ y) ->
  l0.(state) = sw_start -> zlen r0.(lowcase_header) = 32 ->
  reached (header_line_step allow) header_line_done x0 l0 r0 x l r ->
  exists v v0,
    ngx_http_parse_header_line allow (x ++ y) last (zlen x) l r = Ok v /\
    ngx_http_parse_header_line allow (x ++ y) last (zlen x0) l0 r0 = Ok v0 /\
    forget_hash v = forget_hash v0 /\ header_result allow (x ++ y) last v /\
    (forall rc pos l r name n e, v = Parsed rc pos l r -> rc = NGX_OK ->
       has_name allow (x ++ y) name n e l r -> l.(lc_index) = zlen name ->
       r.(invalid_header) = false /\ zlen (kept allow name) = zlen name /\
       holds r.(lowcase_header) 0 (kept allow name)).
Proof.
  intros Hb Hy Hlast Hs Hlen Hr.
  destruct (run_reached _ _ _ _ _ _ _ _ (header_line_stable allow) header_line_final Hr)
    as [Hx Hrun].
  pose proof (zlen_nonneg x0).
  destruct (header_line_call allow (x ++ y) last (zlen x0) l0 r0 Hb ltac:(lia) ltac:(lia))
    as (v & Hv & Hok); [split; [done|by rewrite Hs]|].
  unfold ngx_http_parse_header_line. rewrite Hrun, Hv, !Ok_bind by (done || lia).
  eexists _, _. split; [done|]. split; [done|].
  destruct v as [pos l1 r1|rc pos l1 r1|rc r1]; [done| |done].
  destruct (Z.eqb_spec rc NGX_HTTP_PARSE_HEADER_DONE) as [->|Hne].
  - split; [done|]. split; [|by intros ? ? ? ? ? ? ? [= <- _ _ _]].
    destruct Hok as (H1 & H2 & [[_ H3]|[H3 _]]); [|done]. split_and!; auto.
  - split; [done|]. split; [done|]. intros ? ? ? ? name n e [= <- <- <- <-] _ Hn Hi.
    eapply named_copy; [exact (hn_named _ _ _ _ _ _ _ Hn)|done].
Qed.

Lemma header_line_sound_witness :
  exists v, ngx_http_parse_header_line false (str "Host: exam" ++ str "ple" ++ [13; 10]) 15 10
    (Locals sw_value (hash_key (str "host")) 4)
    (HeaderRequest false false (str "host" ++ replicate 28 0)
       (Some 0) (Some 4) (Some 6) None) = Ok v /\
    match v with Parsed rc pos _ _ => rc = NGX_OK /\ pos = 15 | _ => False end.
Proof.
  edestruct (header_line_sound false [] (str "Host: exam") (str "ple" ++ [13; 10]) 15
    new_locals (new_header false) (Locals sw_value (hash_key (str "host")) 4))
    as (v & v0 & H & _).
  - by apply bytes_check.
  - done.
  - by vm_compute.
  - done.
  - done.
  - apply (reached_again _ _ [] new_locals (new_header false) [] (str "Host: exam") [0]
      new_locals (new_header false)); [constructor|done|]. vm_compute. reflexivity.
  - exists v. split; [exact H|]. vm_compute in H. injection H as <-. by split.
Defined.
