(* ===== verification/HttpUri.v ===== *)
(** * The URI of a request

    [ngx_http_process_request_uri] of [src/http/ngx_http_request.c] for a Unix
    build: behind the request line, the URI is normalised if the parser of the
    request line found anything that calls for it, and the strings of the request
    are set. *)

From S2P Require Import Prelude HttpRequest HttpComplexUri.

(** Where a string lies: in the request, or in [r->uri]. *)
Inductive place :=
| InRequest (offset len : Z)
| InUri (offset len : Z).

(** The fields of the request that are set; a string that is not set is [None]. *)
Record request_uri := RequestUri {
  q_uri : list Z;
  q_unparsed_uri : place;
  q_valid_unparsed_uri : bool;
  q_exten : option place;
  q_args : option place
}.

(** [NGX_OK], or the status the request is closed or finalised with. *)
Inductive uri_outcome :=
| UriOk (q : request_uri)
| UriError (status : Z).

(** [r->uri.len] *)
Definition raw_uri_len (r : request) (uri_start uri_end : Z) : Z :=
  match r.(args_start) with
  | Some a => a - 1 - uri_start
  | None => uri_end - uri_start
  end.

(** [if (r->args_start && r->uri_end > r->args_start)]; the arguments may be set
    before. *)
Definition set_args (args : option place) (args_start : option Z) (uri_end : Z)
    : option place :=
  match args_start with
  | Some a => if a <? uri_end then Some (InRequest a (uri_end - a)) else args
  | None => args
  end.

(** [if (r->uri_ext)], behind the request line. *)
Definition raw_exten (r : request) (uri_end : Z) : option place :=
  match r.(uri_ext) with
  | Some x =>
      Some (InRequest x (match r.(args_start) with
                         | Some a => a - 1 - x
                         | None => uri_end - x
                         end))
  | None => None
  end.

Definition finish_uri (r : request) (uri_start uri_end : Z) (uri : list Z)
    (exten args : option place) (args_start : option Z) : uri_outcome :=
  UriOk (RequestUri uri (InRequest uri_start (uri_end - uri_start))
    (negb r.(empty_path_in_uri)) exten (set_args args args_start uri_end)).

(** [alloc] is [ngx_pnalloc(r->pool, .)]: the memory, or [None]. *)
Definition ngx_http_process_request_uri (alloc : Z -> option (list Z)) (src : list Z)
    (r : request) (merge_slashes : bool) : res uri_outcome :=
  uri_start ← ptr r.(uri_start);
  uri_end ← ptr r.(uri_end);
  let len := raw_uri_len r uri_start uri_end in
  if r.(complex_uri) || r.(quoted_uri) || r.(empty_path_in_uri) then
    match alloc (if r.(empty_path_in_uri) then len + 1 else len) with
    | None => Ok (UriError NGX_HTTP_INTERNAL_SERVER_ERROR)
    | Some room =>
        c ← ngx_http_parse_complex_uri src uri_start uri_end r.(empty_path_in_uri)
              r.(plus_in_uri) r.(quoted_uri) merge_slashes room;
        match c with
        | None => Ok (UriError NGX_HTTP_BAD_REQUEST)
        | Some c =>
            Ok (finish_uri r uri_start uri_end c.(r_uri)
                  (match c.(r_exten) with Some (x, n) => Some (InUri x n) | None => None end)
                  (match c.(r_args) with Some (a, n) => Some (InRequest a n) | None => None end)
                  c.(r_args_start))
        end
    end
  else
    uri ← slice src uri_start len;
    Ok (finish_uri r uri_start uri_end uri (raw_exten r uri_end) None r.(args_start)).
