(* ===== verification/HttpUriSpec.v ===== *)
(** * The URI of a request: the normal form, whichever way it is computed

    The parser of the request line sets flags, and without a flag the URI is used
    as it stands. [process_uri_normal_form] shows that the flags are right: in
    either case [r->uri] is the normal form of the path. *)

From S2P Require Import Prelude Machine HttpRequest HttpRequestLine HttpRequestLineSpec HttpUri HttpComplexUriSpec HttpParseUri.

(** ** What the flags say about the text *)

(** The arguments in the text of a URI behind its slash. *)
Definition query (path : list Z) : list Z :=
  match args_at path with
  | Some k =>
      let q := drop (Z.to_nat k) path in
      match index_of "#"%chr q with
      | Some h => take (Z.to_nat h) q
      | None => q
      end
  | None => []
  end.

(** Behind the path nothing but a hash matters. *)
Lemma run_rest p l r st' r' :
  uri_run p sw_uri l r = Some (st', r') ->
  r'.(args_start) = r.(args_start) /\ r'.(uri_ext) = r.(uri_ext) /\
  r'.(quoted_uri) = r.(quoted_uri) /\
  (r'.(complex_uri) = false -> r.(complex_uri) = false /\ index_of "#"%chr l = None).
Proof.
  revert p r. induction l as [|c l IH]; intros p r; cbn.
  - intros [= _ <-]. auto.
  - unfold uri_rest. destruct (is_usual c) eqn:Eu.
    + intros H. apply IH in H as (-> & -> & -> & H). split_and!; try done. intros Hf.
      apply H in Hf as [-> ->]. split; [done|]. destruct (Z.eqb_spec c "#"%chr); [|done].
      by subst c.
    + destruct (Z.eqb_spec c "#"%chr) as [E|E].
      * intros H. apply IH in H as (-> & -> & -> & H). split_and!; try done.
        intros Hf. apply H in Hf as [Hf _]. done.
      * destruct (is_blank c); [done|]. intros H. apply IH in H as (-> & -> & -> & H).
        split_and!; try done. intros Hf. by apply H in Hf as [-> ->].
Qed.

Definition in_path (st : parse_uri_state) : Prop := st = sw_after_slash_in_uri \/ st = sw_check_uri.

(** One character of a path. *)
Lemma path_step p st c r :
  in_path st -> is_byte c -> r.(args_start) = None ->
  match uri_step p c st r with
  | Continue st' r' =>
      (c = "?"%chr /\ st' = sw_uri /\ r' = r <| args_start := Some (p + 1) |>) \/
      (st' = sw_uri /\ r'.(args_start) = None /\
       (r'.(complex_uri) = true \/ r'.(quoted_uri) = true)) \/
      (in_path st' /\ r'.(args_start) = None /\ c <> "?"%chr /\ c <> "#"%chr /\ c <> "%"%chr /\
       r'.(complex_uri) = r.(complex_uri) /\ r'.(quoted_uri) = r.(quoted_uri) /\
       (c = "/"%chr -> st = sw_check_uri /\ st' = sw_after_slash_in_uri) /\
       (c <> "/"%chr -> st = sw_after_slash_in_uri -> c <> "."%chr) /\
       (c <> "/"%chr -> st = sw_check_uri -> st' = sw_check_uri))
  | _ => True
  end.
Proof.
  intros Hst Hc Hr. pose proof (is_usual_spec c Hc) as Hu.
  destruct Hst as [->| ->]; cbn [uri_step]; unfold uri_after_slash, uri_check;
    destruct (is_usual c);
    [symmetry in Hu; apply negb_true_iff in Hu; unfold unusual in Hu| |
     symmetry in Hu; apply negb_true_iff in Hu; unfold unusual in Hu|];
    repeat match goal with |- context [c =? ?k] => destruct (Z.eqb_spec c k) as [->|]; [|] end;
    try destruct (is_blank c); try done;
    first [by (left; split_and!)
          |by (right; left; split_and!; (done || auto))
          |right; right; unfold in_path; split_and!; (done || lia || auto)].
Qed.

(** The arguments that the flags record. *)
Definition args_found (p : Z) (l : list Z) (r : request) : Prop :=
  match r.(args_start) with
  | Some a => exists k, args_at l = Some k /\ a = p + k /\ path_len l = k - 1 /\
      (r.(complex_uri) = false -> index_of "#"%chr (drop (Z.to_nat k) l) = None)
  | None => r.(complex_uri) = false -> r.(quoted_uri) = false ->
      args_at l = None /\ path_len l = zlen l
  end.

Lemma path_len_next c l :
  c <> "?"%chr -> c <> "#"%chr -> c <> "%"%chr ->
  path_len (c :: l) = 1 + path_len l /\
  args_at (c :: l) = match args_at l with Some k => Some (k + 1) | None => None end.
Proof.
  intros H1 H2 H3. cbn [path_len args_at].
  destruct (Z.eqb_spec c "?"%chr), (Z.eqb_spec c "#"%chr), (Z.eqb_spec c "%"%chr); try done.
Qed.

Lemma run_args p st l r st' r' :
  in_path st -> bytes l -> r.(args_start) = None ->
  uri_run p st l r = Some (st', r') -> args_found p l r'.
Proof.
  revert p st r. induction l as [|c l IH]; intros p st r Hst Hb Hr; cbn [uri_run].
  - intros [= _ <-]. unfold args_found. by rewrite Hr.
  - apply Forall_cons in Hb as [Hc Hb]. pose proof (path_step p st c r Hst Hc Hr) as Hs.
    destruct (uri_step p c st r) as [st1 r1|? ?|? ?]; [|done|done].
    destruct Hs as [(-> & -> & ->)|[(-> & Ha & Hf)|(H1 & H2 & H3 & H4 & H5 & _)]].
    + intros H. apply run_rest in H as (Ha & _ & _ & H). cbn in Ha. unfold args_found.
      rewrite Ha. exists 1. split_and!; [done|done|done|]. intros Hf. by apply H in Hf as [_ ?].
    + intros H. apply run_rest in H as (Ha' & _ & Hq & H). unfold args_found.
      rewrite Ha', Ha. intros Hx Hq'. apply H in Hx as [Hx _]. destruct Hf; congruence.
    + intros H. apply (IH _ _ _ H1 Hb H2) in H. unfold args_found in *.
      destruct (path_len_next c l H3 H4 H5) as [-> ->].
      destruct r'.(args_start) as [a|].
      * destruct H as (k & Hk & -> & Hl & Hx). rewrite Hk. exists (k + 1).
        split_and!; [done|lia|lia|]. intros Hf.
        pose proof (args_at_range l k Hk). 
        replace (Z.to_nat (k + 1)) with (S (Z.to_nat k)) by lia. by apply Hx.
      * intros Hf Hf'. destruct (H Hf Hf') as [-> ->]. by rewrite zlen_cons.
Qed.

(** Without a flag no segment needs attention. *)
Definition seg_ok (st : parse_uri_state) (seg : list Z) : Prop :=
  match seg with
  | [] => st = sw_after_slash_in_uri
  | c :: _ => c <> "."%chr
  end.

Lemma seg_ok_text merge stack st seg :
  seg_ok st seg ->
  path_text (stack, seg) = Some (render stack ++ seg) /\
  (st = sw_check_uri -> close_segment merge (stack, seg) = Some (seg :: stack, [])).
Proof.
  intros H. assert (seg <> str "." /\ seg <> str "..") as [H1 H2].
  { destruct seg as [|c seg]; [done|]. cbn in H. split; intros [= E _]; done. }
  unfold path_text, close_segment, beq.
  rewrite !bool_decide_eq_false_2 by done. split; [done|]. intros ->.
  destruct seg as [|c seg]; [done|]. rewrite bool_decide_eq_false_2 by done.
  by rewrite andb_false_r.
Qed.

Lemma run_clean merge p st l r st' r' stack seg :
  in_path st -> bytes l -> r.(args_start) = None ->
  uri_run p st l r = Some (st', r') ->
  r'.(complex_uri) = false -> r'.(quoted_uri) = false -> seg_ok st seg ->
  walk merge (stack, seg) l = Some (render stack ++ seg ++ take (Z.to_nat (path_len l)) l).
Proof.
  revert p st r stack seg.
  induction l as [|c l IH]; intros p st r stack seg Hst Hb Hr; cbn [uri_run].
  - intros [= _ <-] _ _ Hseg. cbn [walk]. rewrite app_nil_r.
    by apply (seg_ok_text merge stack st).
  - apply Forall_cons in Hb as [Hc Hb]. pose proof (path_step p st c r Hst Hc Hr) as Hs.
    destruct (uri_step p c st r) as [st1 r1|? ?|? ?]; [|done|done].
    intros H Hx Hq Hseg.
    destruct Hs as [(-> & -> & ->)|[(-> & Ha & Hf)|(H1 & H2 & H3 & H4 & H5 & _ & _ & H6 & H7 & H8)]].
    + cbn [walk]. change (Z.to_nat (path_len ("?"%chr :: l))) with O. cbn. rewrite app_nil_r.
      by apply (seg_ok_text merge stack st).
    + exfalso. apply run_rest in H as (_ & _ & Hq' & H). apply H in Hx as [Hx _].
      destruct Hf; congruence.
    + destruct (path_len_next c l H3 H4 H5) as [-> _]. pose proof (path_len_nonneg l).
      replace (Z.to_nat (1 + path_len l)) with (S (Z.to_nat (path_len l))) by lia.
      cbn [walk take]. rewrite (proj2 (Z.eqb_neq _ _) H3), (proj2 (Z.eqb_neq _ _) H4),
        (proj2 (Z.eqb_neq _ _) H5). cbn [orb]. unfold add_char. cbn [fst snd].
      destruct (Z.eqb_spec c "/"%chr) as [->|Hn].
      * destruct (H6 eq_refl) as [-> ->].
        destruct (seg_ok_text merge stack sw_check_uri seg Hseg) as [_ ->]; [|done].
        cbn [mbind option_bind]. rewrite (IH _ _ _ (seg :: stack) [] H1 Hb H2 H Hx Hq eq_refl).
        cbn [render app]. by rewrite <- !app_assoc.
      * cbn [mbind option_bind]. rewrite (IH _ _ _ stack (seg ++ [c]) H1 Hb H2 H Hx Hq).
        -- by rewrite <- app_assoc.
        -- destruct seg as [|d seg]; cbn; [|exact Hseg]. cbn in Hseg. by apply H7.
Qed.

(** ** The branches *)

Lemma path_len_le l : path_len l <= zlen l.
Proof.
  induction l as [|c l IH1 _ IH3] using list_ind_2; cbn [path_len]; [done|].
  rewrite zlen_cons. pose proof (zlen_nonneg l).
  destruct ((c =? "?"%chr) || (c =? "#"%chr)); [lia|].
  destruct (c =? "%"%chr); [|lia]. destruct l as [|a [|b l]]; rewrite ?zlen_cons in *; [lia..|].
  specialize (IH3 a b l eq_refl). lia.
Qed.

(** The bytes of a string that lies in the request. *)
Definition place_text (src : list Z) (o : option place) : list Z :=
  match o with
  | Some (InRequest a n) => take (Z.to_nat n) (drop (Z.to_nat a) src)
  | _ => []
  end.

Lemma index_of_range c l h : index_of c l = Some h -> 0 <= h < zlen l.
Proof.
  revert h. induction l as [|d l IH]; intros h; cbn [index_of]; [done|]. rewrite zlen_cons.
  pose proof (zlen_nonneg l). destruct (d =? c); [intros [= <-]; lia|].
  destruct (index_of c l) as [k|]; [|done]. intros [= <-]. specialize (IH k eq_refl). lia.
Qed.

Lemma place_holds src a l :
  holds src a l -> 0 <= a -> a + zlen l <= zlen src ->
  place_text src (Some (InRequest a (zlen l))) = l.
Proof. intros. by apply holds_take_drop. Qed.

(** The arguments are found where the path ends. *)
Lemma args_text src i path v args args_start :
  holds src i path -> 0 <= i -> v = i + zlen path -> v <= zlen src ->
  (args, args_start) = args_result i path ->
  place_text src
    (set_args (match args with Some (a, n) => Some (InRequest a n) | None => None end)
       args_start v) = query path.
Proof.
  intros Hp Hi -> Hv. unfold args_result, query.
  destruct (args_at path) as [k|] eqn:Ek; [|by intros [= -> ->]].
  apply args_at_range in Ek. 
  assert (holds src (i + k) (drop (Z.to_nat k) path)) as Hd by (apply holds_drop; [done|lia]).
  pose proof (zlen_drop k path ltac:(lia)) as Hl.
  destruct (index_of "#"%chr (drop (Z.to_nat k) path)) as [h|] eqn:Eh; intros [= -> ->]; cbn [set_args].
  - apply index_of_range in Eh.
    replace h with (zlen (take (Z.to_nat h) (drop (Z.to_nat k) path))) at 1
      by (apply zlen_take; lia).
    apply place_holds; [|lia|rewrite zlen_take; lia].
    apply (holds_app_prefix _ _ _ (drop (Z.to_nat h) (drop (Z.to_nat k) path))).
    by rewrite take_drop.
  - destruct (Z.ltb_spec (i + k) (i + zlen path)).
    + replace (i + zlen path - (i + k)) with (zlen (drop (Z.to_nat k) path)) by lia.
      apply place_holds; [done|lia|lia].
    + rewrite drop_ge; [done|]. unfold zlen in *. lia.
Qed.

Section uri.
Context (alloc : Z -> option (list Z)) (src : list Z) (r : request) (merge_slashes : bool).
Context (Halloc : forall n, 0 <= n -> exists m, alloc n = Some m /\ zlen m = n).
Context (Hbytes : bytes src).
Context (u v : Z) (Hu : r.(uri_start) = Some u) (Hv : r.(uri_end) = Some v).
Context (Hu0 : 0 <= u) (Hlast : v < zlen src).

(** The result for the path [path]. *)
Definition normal_uri (path : list Z) (o : uri_outcome) : Prop :=
  match normal_form merge_slashes path with
  | None => o = UriError NGX_HTTP_BAD_REQUEST
  | Some out => exists q, o = UriOk q /\ q.(q_uri) = out /\ place_text src q.(q_args) = query path
  end.

(** A URI that begins with a slash. *)
Lemma slash_uri path st r1 :
  holds src u ("/"%chr :: path) -> v = u + 1 + zlen path ->
  uri_run (u + 1) sw_after_slash_in_uri path new_request = Some (st, r1) ->
  uri_flags r = uri_flags r1 -> r.(empty_path_in_uri) = false ->
  exists o, ngx_http_process_request_uri alloc src r merge_slashes = Ok o /\ normal_uri path o.
Proof.
  intros Hh Ev Hrun Hf He. pose proof (zlen_nonneg path).
  pose proof (holds_cons _ _ _ _ Hh) as [_ Hp]. pose proof (holds_bytes _ _ _ Hbytes Hp) as Hpb.
  pose proof (run_args (u + 1) sw_after_slash_in_uri path new_request st r1
    ltac:(by left) Hpb eq_refl Hrun) as Hargs.
  unfold uri_flags in Hf. injection Hf as F1 F2 F3 F4 F5.
  unfold ngx_http_process_request_uri. rewrite Hu, Hv, He, F1, F2, orb_false_r. cbn [ptr].
  rewrite !Ok_bind. pose proof (path_len_le path) as Hle. pose proof (path_len_nonneg path) as Hl0.
  assert (path_len path + 1 <= raw_uri_len r u v) as Hlen.
  { unfold raw_uri_len. rewrite F4. unfold args_found in Hargs.
    destruct r1.(args_start); [|lia]. destruct Hargs as (k & _ & -> & -> & _). lia. }
  destruct (r1.(complex_uri) || r1.(quoted_uri)) eqn:Eflag.
  - destruct (Halloc (raw_uri_len r u v)) as (room & -> & Hroom); [lia|].
    pose proof (holds_split src u ("/"%chr :: path) Hh Hu0) as Hsplit.
    rewrite zlen_cons in Hsplit. specialize (Hsplit ltac:(lia)).
    set (pre := take (Z.to_nat u) src) in *.
    set (rest := drop (Z.to_nat (u + (1 + zlen path))) src) in *.
    assert (zlen pre = u) as Hpre by (apply zlen_take; lia).
    assert (rest <> []) as Hrest.
    { intros E. apply (f_equal zlen) in Hsplit. rewrite E, zlen_app, Hpre in Hsplit.
      cbn [app] in Hsplit. rewrite zlen_cons, zlen_app, zlen_nil in Hsplit. lia. }
    cbn [app] in Hsplit.
    destruct (complex_uri_result pre path rest merge_slashes r.(plus_in_uri) r1.(quoted_uri)
      room) as (c & Hcall & Hres); [by rewrite <- Hsplit|done|lia|].
    rewrite <- Hsplit, Hpre in Hcall. rewrite Ev, Hcall, Ok_bind. unfold normal_uri.
    destruct (normal_form merge_slashes path) as [out|]; [|subst c; by eexists].
    destruct Hres as (c' & -> & Hout & Ha). eexists. split; [done|]. eexists. split; [done|].
    split; [done|]. cbn [q_args]. rewrite Hpre in Ha.
    apply (args_text src (u + 1)); (done || lia).
  - apply orb_false_iff in Eflag as [Ex Eq].
    pose proof (run_clean merge_slashes (u + 1) sw_after_slash_in_uri path new_request st r1
      [] [] ltac:(by left) Hpb eq_refl Hrun Ex Eq eq_refl) as Hw.
    rewrite walk_normal_form in Hw. cbn [render app] in Hw. 
    assert (raw_uri_len r u v = zlen ("/"%chr :: take (Z.to_nat (path_len path)) path)
      /\ (None, r1.(args_start)) = args_result (u + 1) path) as [Hraw Ha].
    { rewrite zlen_cons, zlen_take by lia. unfold raw_uri_len, args_result. rewrite F4.
      unfold args_found in Hargs. destruct r1.(args_start) as [a|].
      - destruct Hargs as (k & -> & -> & -> & Hk). rewrite Hk by done. split; [lia|done].
      - destruct (Hargs Ex Eq) as [-> ->]. split; [lia|done]. }
    rewrite Hraw, holds_slice, Ok_bind.
    + eexists. split; [done|]. unfold normal_uri. rewrite Hw. eexists. split; [done|].
      split; [done|]. cbn [q_args]. rewrite F4.
      apply (args_text src (u + 1) path v None); (done || lia).
    + apply (holds_app_prefix _ _ _ (drop (Z.to_nat (path_len path)) path)). cbn [app].
      by rewrite take_drop.
    + done.
    + rewrite zlen_cons, zlen_take by lia. lia.
Qed.

(** A URI without a path: the question mark comes first. *)
Lemma empty_uri text :
  holds src u ("?"%chr :: text) -> v = u + 1 + zlen text ->
  r.(empty_path_in_uri) = true -> r.(args_start) = Some (u + 1) ->
  exists o, ngx_http_process_request_uri alloc src r merge_slashes = Ok o /\
    normal_uri ("?"%chr :: text) o.
Proof.
  intros Hh Ev He Ha. pose proof (zlen_nonneg text).
  pose proof (holds_cons _ _ _ _ Hh) as [Hc Ht].
  unfold ngx_http_process_request_uri. rewrite Hu, Hv, He. cbn [ptr].
  rewrite !Ok_bind, orb_true_r. unfold raw_uri_len. rewrite Ha.
  replace (u + 1 - 1 - u + 1) with 1 by lia.
  destruct (Halloc 1) as (room & -> & Hroom); [lia|].
  destruct (put_ok room 0 "/"%chr) as (d & Hd & Hlen); [lia|].
  assert (slice d 0 1 = Ok (str "/")) as Hslice.
  { apply holds_blit in Hd. apply (holds_slice d 0 (str "/") Hd); [done|]. change (zlen (str "/")) with 1. lia. }
  unfold HttpComplexUri.ngx_http_parse_complex_uri, HttpComplexUri.emit. cbn [HttpComplexUri.dst HttpComplexUri.u].
  rewrite Hd, Ok_bind, Ok_bind. unfold HttpComplexUri.advance.
  cbn [HttpComplexUri.p set_field].
  match goal with |- context [get src ?x] => change x with u end. rewrite Hc, !Ok_bind.
  replace (2 * Z.to_nat (v - u) + 2)%nat with (S (2 * Z.to_nat (v - u) + 1)) by lia.
  rewrite cx_loop_S by (cbn; lia).
  match goal with |- context [HttpComplexUri.cx_step ?m ?s ?x] =>
    change (HttpComplexUri.cx_step m s x) with (Ok (HttpComplexUri.Args
      (HttpComplexUri.Complex HttpComplexUri.sw_usual HttpComplexUri.sw_usual 0 "?"%chr (u + 1) 1 d
         None (Some (u + 1)) r.(plus_in_uri) r.(quoted_uri)))) end.
  rewrite !Ok_bind. cbn [HttpComplexUri.c_args HttpComplexUri.p ptr]. rewrite !Ok_bind.
  replace (Z.to_nat (v - (u + 1))) with (length text) by (unfold zlen in *; lia).
  rewrite (find_hash_ok src text (u + 1) Ht), Ok_bind. unfold HttpComplexUri.complex_finish.
  cbn [HttpComplexUri.dst HttpComplexUri.u]. rewrite Hslice.
  assert (args_at ("?"%chr :: text) = Some 1) as Hat by done.
  assert (forall args args_start, (args, args_start) = args_result u ("?"%chr :: text) ->
    place_text src
      (set_args (match args with Some (a, n) => Some (InRequest a n) | None => None end)
         args_start v) = query ("?"%chr :: text)) as Hargs.
  { intros. apply (args_text src u); (done || rewrite ?zlen_cons; lia). }
  unfold args_result in Hargs. rewrite Hat in Hargs.
  change (drop (Z.to_nat 1) ("?"%chr :: text)) with text in Hargs.
  destruct (index_of "#"%chr text) as [h|]; rewrite Ok_bind, Ok_bind;
    (eexists; split; [done|]); eexists; (split; [done|]); (split; [done|]); cbn [q_args].
  - replace (u + 1 + h - (u + 1)) with h by lia. by apply Hargs.
  - by apply (Hargs None (Some (u + 1))).
Qed.
End uri.

(** C37: The URI that the server goes on with is the normal form of the path the
    client sent: for every request line that ngx_http_parse_request_line accepts,
    in any buffer, ngx_http_process_request_uri sets r->uri to the path with its
    escapes decoded, its dot segments resolved and its slashes merged, and r->args
    to the text between the question mark and a hash; it refuses the request
    exactly if the path has no normal form. In particular a URI that the parser did
    not flag needs no normalisation, and the memory allocated for one that it did
    flag is large enough. *)
Theorem process_uri_normal_form alloc b last pos0 pos rc st r merge_slashes :
  (forall n, 0 <= n -> exists m, alloc n = Some m /\ zlen m = n) ->
  bytes b -> 0 <= pos0 <= last -> last < zlen b ->
  ngx_http_parse_request_line b last pos0 HttpRequestLine.sw_start new_request
  = Ok (Parsed rc pos st r) ->
  exists u path o,
    r.(uri_start) = Some u /\
    holds b u ((if r.(empty_path_in_uri) then [] else str "/") ++ path) /\
    r.(uri_end) = Some (u + zlen ((if r.(empty_path_in_uri) then [] else str "/") ++ path)) /\
    ngx_http_process_request_uri alloc b r merge_slashes = Ok o /\
    match normal_form merge_slashes path with
    | None => o = UriError NGX_HTTP_BAD_REQUEST
    | Some out => exists q, o = UriOk q /\ q.(q_uri) = out /\
        no_dot_segments merge_slashes out /\ place_text b q.(q_args) = query path
    end.
Proof.
  intros Halloc Hb Hpos Hlast Hcall.
  destruct (request_line_call b last pos0 Hb Hpos Hlast) as (w & Hw & Hok).
  rewrite Hcall in Hw. injection Hw as <-. destruct Hok as (_ & Hle & Hok).
  destruct Hok as (name & m & u & v & q & _ & _ & Hu & Hv & _ & H1 & H2 & H3 & H4 & H5 & _ & _ & _ & _
    & _ & Hp & _). pose proof (zlen_nonneg name).
  assert (forall path o, normal_uri b merge_slashes path o ->
    match normal_form merge_slashes path with
    | None => o = UriError NGX_HTTP_BAD_REQUEST
    | Some out => exists q, o = UriOk q /\ q.(q_uri) = out /\
        no_dot_segments merge_slashes out /\ place_text b q.(q_args) = query path
    end) as Hdots.
  { intros path o Ho. unfold normal_uri in Ho. destruct (normal_form _ path) as [out|] eqn:E; [|done].
    destruct Ho as (q' & -> & Ho & Hq). exists q'. split_and!; try done.
    rewrite <- walk_normal_form in E. by eapply walk_good in E. }
  unfold uri_parsed in Hp. destruct r.(empty_path_in_uri) eqn:He.
  - destruct Hp as (Hc & Ha & _ & Hv' & _).
    destruct (slice_ok b (u + 1) (v - (u + 1))) as (text & Hs & Hl); [lia|lia|lia|].
    apply slice_holds in Hs as [Hs _].
    assert (holds b u ("?"%chr :: text)) as Hh.
    { apply (holds_app b u [_]); [by apply holds_one|done]. }
    destruct (empty_uri alloc b r merge_slashes Halloc u v Hu Hv ltac:(lia) ltac:(lia) text Hh
      ltac:(lia) He Ha) as (o & Ho & Hn).
    exists u, ("?"%chr :: text), o. cbn [app]. rewrite zlen_cons. split_and!; try done; [|by apply Hdots].
    rewrite Hv. f_equal. lia.
  - destruct Hp as (text & st1 & r1 & Hh & Hl & Hrun & Hf & Hst & _).
    destruct text as [|c path]; [by injection Hrun as <- <-|]. cbn [uri_run uri_step] in Hrun.
    destruct (Z.eqb_spec c "/"%chr) as [->|]; [|done]. cbn [negb] in Hrun. rewrite zlen_cons in Hl.
    destruct (slash_uri alloc b r merge_slashes Halloc Hb u v Hu Hv ltac:(lia) ltac:(lia)
      path st1 r1 Hh ltac:(lia) Hrun Hf He) as (o & Ho & Hn).
    exists u, path, o. change (str "/" ++ path) with ("/"%chr :: path). rewrite zlen_cons.
    split_and!; try done; [|by apply Hdots]. rewrite Hv. f_equal. lia.
Qed.

Lemma process_uri_normal_form_witness :
  exists q,
    ngx_http_process_request_uri (fun n => Some (replicate (Z.to_nat n) 0))
      (str "GET /a/../%62?x=1#y HTTP/1.1" ++ [10; 0])
      (new_request <| request_start := Some 0 |> <| request_end := Some 28 |>
         <| method_end := Some 2 |> <| uri_start := Some 4 |> <| uri_end := Some 19 |>
         <| http_protocol := Some 20 |> <| method := NGX_HTTP_GET |> <| http_major := 1 |>
         <| http_minor := 1 |> <| http_version := 1001 |> <| complex_uri := true |>) true
    = Ok (UriOk q) /\ q.(q_uri) = str "/b" /\ q.(q_args) = Some (InRequest 14 3).
Proof.
  edestruct (process_uri_normal_form (fun n => Some (replicate (Z.to_nat n) 0))
    (str "GET /a/../%62?x=1#y HTTP/1.1" ++ [10; 0]) 29 0 29 NGX_OK HttpRequestLine.sw_start
    (new_request <| request_start := Some 0 |> <| request_end := Some 28 |>
       <| method_end := Some 2 |> <| uri_start := Some 4 |> <| uri_end := Some 19 |>
       <| http_protocol := Some 20 |> <| method := NGX_HTTP_GET |> <| http_major := 1 |>
       <| http_minor := 1 |> <| http_version := 1001 |> <| complex_uri := true |>) true)
    as (u & path & o & Hu & _ & _ & Ho & _).
  - intros n Hn. eexists. split; [done|]. rewrite zlen_replicate. lia.
  - by apply bytes_check.
  - done.
  - by vm_compute.
  - vm_compute. reflexivity.
  - vm_compute in Ho. injection Ho as <-. eexists. split; [vm_compute; reflexivity|]. done.
Defined.
