(* ===== verification/HttpUnsafeUri.v ===== *)
(** * URIs from other sources

    [ngx_http_parse_unsafe_uri] and [ngx_http_split_args] of
    [src/http/ngx_http_parse.c]: a URI that an upstream server, a subrequest or a
    header names is checked for segments "..", plain or encoded, and decoded. *)

From S2P Require Import Prelude HttpRequest Escape.

(** ** The code *)

(** [p[0] == '.' && p[1] == '.'], and the end or a separator behind; each read is
    behind a test of [len] in the code. *)
Definition dotdot_at (p : list Z) : bool :=
  match p with
  | a :: b :: p =>
      (a =? "."%chr) && (b =? "."%chr) &&
      match p with [] => true | c :: _ => c =? "/"%chr end
  | _ => false
  end.

(** The first loop: whether there was a percent sign, and the arguments. *)
Fixpoint unsafe_scan (l : list Z) (quoted : bool) : option (bool * option (list Z)) :=
  match l with
  | [] => Some (quoted, None)
  | ch :: l =>
      if ch =? "%"%chr then unsafe_scan l true
      else if is_usual ch then unsafe_scan l quoted
      else if ch =? "?"%chr then Some (quoted, Some l)
      else if ch =? 0 then None
      else if (ch =? "/"%chr) && dotdot_at l then None
      else unsafe_scan l quoted
  end.

(** The second loop, on the decoded URI. *)
Fixpoint unsafe_decoded (l : list Z) : bool :=
  match l with
  | [] => false
  | ch :: l =>
      if ch =? 0 then true
      else if (ch =? "/"%chr) && dotdot_at l then true
      else unsafe_decoded l
  end.

(** The call: the new [uri] and [args], or [None] for [NGX_ERROR]. *)
Definition ngx_http_parse_unsafe_uri (uri : list Z) : option (list Z * option (list Z)) :=
  match uri with
  | [] => None
  | c :: _ =>
      if c =? "?"%chr then None
      else if dotdot_at uri then None
      else
        '(quoted, args) ← unsafe_scan uri false;
        let path :=
          match args with
          | Some a => take (Z.to_nat (zlen uri - (zlen a + 1))) uri
          | None => uri
          end in
        if quoted : bool then
          let dst := (ngx_unescape_uri path 0).1 in
          if dotdot_at dst || unsafe_decoded dst then None else Some (dst, args)
        else Some (path, args)
  end.

(** [ngx_http_split_args]: the first question mark ends the URI. *)
Fixpoint ngx_http_split_args (uri : list Z) : list Z * list Z :=
  match uri with
  | [] => ([], [])
  | c :: l =>
      if c =? "?"%chr then ([], l)
      else let '(u, args) := ngx_http_split_args l in (c :: u, args)
  end.

(** ** Segments *)

Fixpoint segments (l : list Z) : list (list Z) :=
  match l with
  | [] => [[]]
  | c :: l =>
      if c =? "/"%chr then [] :: segments l
      else match segments l with
           | s :: ss => (c :: s) :: ss
           | [] => [[c]]
           end
  end.

(** A segment "..", or a zero. *)
Definition safe_text (l : list Z) : bool :=
  negb (existsb (fun s => beq s (str "..")) (segments l)) && forallb (fun c => negb (c =? 0)) l.

Lemma segments_cons l : exists s ss, segments l = s :: ss.
Proof.
  destruct l as [|c l]; cbn; [by eexists _, _|]. destruct (c =? "/"%chr); [by eexists _, _|].
  destruct (segments l); by eexists _, _.
Qed.

Lemma dotdot_at_segment l :
  dotdot_at l = beq (hd [] (segments l)) (str "..").
Proof.
  unfold beq. destruct l as [|a [|b l]].
  - done.
  - cbn [dotdot_at segments]. destruct (a =? "/"%chr); symmetry; by apply bool_decide_eq_false_2.
  - destruct (segments_cons l) as (s & ss & Hs). cbn [dotdot_at segments]. rewrite Hs.
    destruct (Z.eqb_spec a "."%chr) as [->|Ha].
    + cbn [Z.eqb Pos.eqb andb]. destruct (Z.eqb_spec b "."%chr) as [->|Hb].
      * cbn [Z.eqb Pos.eqb hd andb]. destruct l as [|c l]; [by injection Hs as <- <-|].
        cbn [segments] in Hs. revert Hs.
        destruct (c =? "/"%chr); [by intros [= <- <-]|].
        destruct (segments l); intros [= <- <-]; by rewrite bool_decide_eq_false_2.
      * destruct (b =? "/"%chr); cbn [hd]; symmetry; apply bool_decide_eq_false_2; [done|].
        by intros [= E _].
    + cbn [andb]. symmetry. apply bool_decide_eq_false_2.
      destruct (a =? "/"%chr); cbn [hd]; [done|].
      destruct (b =? "/"%chr); cbn [hd]; by intros [= E].
Qed.

(** The check at the start and behind every slash finds every segment "..". *)
Lemma unsafe_decoded_spec l : dotdot_at l || unsafe_decoded l = negb (safe_text l).
Proof.
  unfold safe_text. rewrite negb_andb, negb_involutive.
  assert (forall l, (existsb (fun s => beq s (str "..")) (segments l)) =
    dotdot_at l || existsb (fun s => beq s (str "..")) (tl (segments l))) as Hhd.
  { intros l0. rewrite dotdot_at_segment. by destruct (segments_cons l0) as (s & ss & ->). }
  rewrite Hhd, <- orb_assoc. f_equal.
  induction l as [|c l IH]; [done|]. cbn [unsafe_decoded forallb segments tl].
  destruct (Z.eqb_spec c 0) as [->|Hc]; [by rewrite orb_true_r|].
  cbn [negb andb]. destruct (Z.eqb_spec c "/"%chr) as [->|Hn]; cbn [andb tl].
  - rewrite Hhd, <- orb_assoc, <- IH. by destruct (dotdot_at l).
  - rewrite IH. destruct (segments_cons l) as (s & ss & ->). done.
Qed.

(** ** With arguments

    The first loop looks at the whole URI: a question mark does not end a segment
    for it, so the last segment of a path with arguments is not compared. *)

Definition with_args (path : list Z) (args : option (list Z)) : list Z :=
  path ++ match args with Some a => "?"%chr :: a | None => [] end.

(** The segments that the first loop compares. *)
Definition compared (args : option (list Z)) (path : list Z) : list (list Z) :=
  match args with
  | Some _ => removelast (segments path)
  | None => segments path
  end.

Definition accepted_text (args : option (list Z)) (path : list Z) : bool :=
  negb (existsb (fun s => beq s (str "..")) (compared args path)) &&
  forallb (fun c => negb (c =? 0)) path.

Definition has_percent (l : list Z) : bool := existsb (fun c => c =? "%"%chr) l.

Definition no_question (l : list Z) : Prop := Forall (fun c => c <> "?"%chr) l.

Lemma removelast_head (x : list Z) l :
  match removelast (x :: l) with s :: _ => beq s (str "..") | [] => false end =
    match l with [] => false | _ => beq x (str "..") end.
Proof. by destruct l. Qed.

Lemma beq_false (s t : list Z) : s <> t -> beq s t = false.
Proof. apply bool_decide_eq_false_2. Qed.

(** The first segment of a path with something behind it. *)
Lemma dotdot_question path a :
  no_question path ->
  dotdot_at (path ++ "?"%chr :: a) =
    match segments path with
    | s :: _ :: _ => beq s (str "..")
    | _ => false
    end.
Proof.
  intros Hq. destruct path as [|c [|d path]].
  - by destruct a.
  - cbn [app dotdot_at segments]. by destruct (c =? "."%chr), (c =? "/"%chr).
  - cbn [app dotdot_at segments]. destruct (segments_cons path) as (s & ss & Hs). rewrite Hs.
    destruct (Z.eqb_spec c "."%chr) as [->|Hc]; cbn [andb Z.eqb Pos.eqb].
    2: { destruct (c =? "/"%chr); [by destruct (d =? "/"%chr)|].
         assert (forall l, beq (c :: l) (str "..") = false) as Hf
           by (intros l; apply beq_false; by intros [= E]).
         destruct (d =? "/"%chr); [by rewrite Hf|]. destruct ss; [done|by rewrite Hf]. }
    destruct (Z.eqb_spec d "."%chr) as [->|Hd]; cbn [andb Z.eqb Pos.eqb].
    2: { destruct (d =? "/"%chr); [by rewrite beq_false|]. destruct ss; [done|].
         symmetry. apply beq_false. by intros [= E]. }
    destruct path as [|e path]; cbn [app segments] in *; [by injection Hs as <- <-|].
    revert Hs. destruct (segments_cons path) as (s' & ss' & ->).
    destruct (Z.eqb_spec e "/"%chr) as [->|He]; intros [= <- <-]; [done|].
    destruct ss'; [done|]. symmetry. by apply beq_false.
Qed.

Lemma dotdot_with_args args path :
  no_question path ->
  dotdot_at (with_args path args) =
    match compared args path with s :: _ => beq s (str "..") | [] => false end.
Proof.
  intros Hq. unfold with_args, compared. destruct (segments_cons path) as (s & ss & Hs).
  destruct args as [a|].
  - rewrite dotdot_question, Hs by done. by destruct ss.
  - by rewrite app_nil_r, dotdot_at_segment, Hs.
Qed.

(** All but the first segment, and no zero. *)
Definition accepted_tail (args : option (list Z)) (path : list Z) : bool :=
  negb (existsb (fun s => beq s (str "..")) (tl (compared args path))) &&
  forallb (fun c => negb (c =? 0)) path.

Lemma compared_slash args path : compared args ("/"%chr :: path) = [] :: compared args path.
Proof.
  unfold compared. cbn [segments Z.eqb Pos.eqb].
  destruct (segments_cons path) as (s & ss & ->). by destruct args.
Qed.

Lemma compared_char args c path :
  c <> "/"%chr -> tl (compared args (c :: path)) = tl (compared args path).
Proof.
  intros Hc. unfold compared. cbn [segments]. destruct (Z.eqb_spec c "/"%chr); [done|].
  destruct (segments_cons path) as (s & ss & ->). destruct args; [by destruct ss|done].
Qed.

Lemma accepted_head_tail args path :
  no_question path ->
  accepted_text args path = negb (dotdot_at (with_args path args)) && accepted_tail args path.
Proof.
  intros Hq. rewrite dotdot_with_args by done. unfold accepted_text, accepted_tail.
  destruct (compared args path) as [|s ss]; [done|]. cbn [existsb tl].
  by rewrite negb_orb, andb_assoc.
Qed.

Lemma unsafe_scan_spec args path quoted :
  bytes path -> no_question path ->
  unsafe_scan (with_args path args) quoted =
    if accepted_tail args path then Some (quoted || has_percent path, args) else None.
Proof.
  revert quoted. induction path as [|c path IH]; intros quoted Hb Hq.
  - destruct args; cbn; by rewrite orb_false_r.
  - apply Forall_cons in Hb as [Hc Hb]. apply Forall_cons in Hq as [Hc' Hq].
    change (with_args (c :: path) args) with (c :: with_args path args).
    assert (forall q, c <> 0 -> c <> "/"%chr -> q = quoted || (c =? "%"%chr) ->
      unsafe_scan (with_args path args) q =
      if accepted_tail args (c :: path)
      then Some (quoted || has_percent (c :: path), args) else None) as Hgo.
    { intros q H0 Hs ->. rewrite IH by done. unfold accepted_tail, has_percent.
      rewrite compared_char by done. cbn [forallb existsb].
      rewrite (proj2 (Z.eqb_neq c 0) H0), orb_assoc. done. }
    cbn [unsafe_scan]. pose proof (is_usual_spec c Hc) as Hu. unfold unusual in Hu.
    destruct (Z.eqb_spec c "%"%chr) as [->|Hp]; [apply Hgo; (done || by rewrite orb_true_r)|].
    destruct (is_usual c).
    { apply Hgo; [| |by rewrite orb_false_r]; intros ->; by vm_compute in Hu. }
    destruct (Z.eqb_spec c "?"%chr); [done|].
    destruct (Z.eqb_spec c 0) as [->|H0].
    { unfold accepted_tail. cbn [forallb Z.eqb negb]. by rewrite andb_false_r. }
    destruct (Z.eqb_spec c "/"%chr) as [->|Hs]; cbn [andb]; [|apply Hgo; (done || by rewrite orb_false_r)].
    rewrite IH by done. unfold accepted_tail. rewrite compared_slash. cbn [tl forallb Z.eqb negb].
    rewrite dotdot_with_args by done. destruct (compared args path) as [|s ss]; [done|].
    cbn [existsb tl]. by destruct (beq s (str "..")).
Qed.

(** What ngx_http_parse_unsafe_uri accepts, for any path and any arguments: the
    path must be there and hold no zero, and no segment ".." may be among those
    compared; if the path has a percent sign the decoded path is checked too, and
    there every segment counts. Without a percent sign the segment in front of
    the question mark is not compared, so a path that ends in ".." passes if it
    has arguments. The URI is decoded and cut at the question mark. *)
Theorem unsafe_uri_exact path args :
  bytes path -> no_question path ->
  ngx_http_parse_unsafe_uri (with_args path args) =
    if beq path [] || negb (accepted_text args path) then None
    else if has_percent path then
      let dst := (ngx_unescape_uri path 0).1 in
      if safe_text dst then Some (dst, args) else None
    else Some (path, args).
Proof.
  intros Hb Hq. unfold ngx_http_parse_unsafe_uri. destruct path as [|c path].
  { by destruct args. }
  rewrite (beq_false (c :: path) []) by done. cbn [orb].
  rewrite accepted_head_tail by done.
  change (with_args (c :: path) args) with (c :: with_args path args) at 1.
  pose proof (unsafe_scan_spec args (c :: path) false Hb Hq) as Hscan.
  pose proof Hq as Hc. apply Forall_cons in Hc as [Hc _]. cbv iota beta.
  rewrite (proj2 (Z.eqb_neq c "?"%chr) Hc).
  destruct (dotdot_at (with_args (c :: path) args)); [done|]. cbn [negb andb].
  rewrite Hscan. destruct (accepted_tail args (c :: path)); [|done]. cbn [negb orb mbind option_bind].
  assert (match args with
    | Some a => take (Z.to_nat (zlen (with_args (c :: path) args) - (zlen a + 1)))
                  (with_args (c :: path) args)
    | None => with_args (c :: path) args
    end = c :: path) as ->.
  { unfold with_args. destruct args as [a|]; [|by rewrite app_nil_r].
    rewrite zlen_app, (zlen_cons "?"%chr a).
    replace (Z.to_nat (zlen (c :: path) + (1 + zlen a) - (zlen a + 1))) with (length (c :: path))
      by (unfold zlen; lia). by rewrite take_app_length. }
  destruct (has_percent (c :: path)); [|done]. cbv zeta. rewrite unsafe_decoded_spec.
  by destruct (safe_text _).
Qed.

Lemma unsafe_uri_exact_witness :
  ngx_http_parse_unsafe_uri (with_args (str "/docs/..") (Some (str "x"))) =
    Some (str "/docs/..", Some (str "x")) /\
  ngx_http_parse_unsafe_uri (with_args (str "/docs/..") None) = None.
Proof.
  split.
  - rewrite (unsafe_uri_exact (str "/docs/..") (Some (str "x"))
      ltac:(by apply bytes_check) ltac:(by repeat constructor)). reflexivity.
  - rewrite (unsafe_uri_exact (str "/docs/..") None
      ltac:(by apply bytes_check) ltac:(by repeat constructor)). reflexivity.
Defined.
