(* ===== verification/UpstreamWeights.v ===== *)
(** * The arithmetic of smooth weighted round robin

    Sums over the peers, and the potential that bounds the current weights: a
    step adds a weight to each member of some set and takes the sum of these
    weights from a largest member. Whatever sets are chosen, the sum over any
    [k] of [n] weights stays at most [k * (n - k)] times the total weight. *)

From S2P Require Import Prelude.

(** ** Sums *)

Fixpoint sigma (n : nat) (f : nat -> Z) : Z :=
  match n with
  | O => 0
  | S n => sigma n f + f n
  end.

Lemma sigma_ext n f g : (forall i, (i < n)%nat -> f i = g i) -> sigma n f = sigma n g.
Proof.
  induction n as [|n IH]; intros H; [done|]. cbn. rewrite IH, H by (intros; apply H || lia; lia).
  done.
Qed.

Lemma sigma_le n f g : (forall i, (i < n)%nat -> f i <= g i) -> sigma n f <= sigma n g.
Proof.
  induction n as [|n IH]; intros H; [done|]. cbn. pose proof (H n ltac:(lia)).
  pose proof (IH ltac:(intros; apply H; lia)). lia.
Qed.

Lemma sigma_add n f g : sigma n (fun i => f i + g i) = sigma n f + sigma n g.
Proof. induction n as [|n IH]; [done|]. cbn. rewrite IH. lia. Qed.

Lemma sigma_sub n f g : sigma n (fun i => f i - g i) = sigma n f - sigma n g.
Proof. induction n as [|n IH]; [done|]. cbn. rewrite IH. lia. Qed.

Lemma sigma_scale n c f : sigma n (fun i => c * f i) = c * sigma n f.
Proof. induction n as [|n IH]; cbn; [lia|]. rewrite IH. lia. Qed.

Lemma sigma_const n c : sigma n (fun _ => c) = Z.of_nat n * c.
Proof. induction n as [|n IH]; [done|]. cbn [sigma]. rewrite IH. lia. Qed.

Lemma sigma_nonneg n f : (forall i, (i < n)%nat -> 0 <= f i) -> 0 <= sigma n f.
Proof. intros H. apply (sigma_le n (fun _ => 0)) in H. rewrite sigma_const in H. lia. Qed.

Lemma sigma_single n j x :
  (j < n)%nat -> sigma n (fun i => if (i =? j)%nat then x else 0) = x.
Proof.
  induction n as [|n IH]; intros H; [lia|]. cbn. destruct (Nat.eqb_spec n j) as [->|].
  - rewrite (sigma_ext _ _ (fun _ => 0)), sigma_const; [lia|].
    intros i Hi. destruct (Nat.eqb_spec i j); [lia|done].
  - rewrite IH; lia.
Qed.

(** One term of a sum of numbers that are not negative. *)
Lemma sigma_term n f j :
  (forall i, (i < n)%nat -> 0 <= f i) -> (j < n)%nat -> f j <= sigma n f.
Proof.
  intros H Hj. rewrite <- (sigma_single n j (f j)) by done. apply sigma_le.
  intros i Hi. destruct (Nat.eqb_spec i j) as [->|]; [done|by apply H].
Qed.

(** The sum over a set, and its size. *)
Definition over (B : nat -> bool) (f : nat -> Z) (i : nat) : Z := if B i then f i else 0.
Definition size_of (n : nat) (B : nat -> bool) : Z := sigma n (over B (fun _ => 1)).

Definition with_one (j : nat) (B : nat -> bool) (i : nat) : bool := (i =? j)%nat || B i.
Definition without (j : nat) (B : nat -> bool) (i : nat) : bool := negb (i =? j)%nat && B i.

Lemma sigma_with n B f j :
  (j < n)%nat -> B j = false ->
  sigma n (over (with_one j B) f) = sigma n (over B f) + f j.
Proof.
  intros Hj HB. rewrite <- (sigma_single n j (f j)) by done. rewrite <- sigma_add.
  apply sigma_ext. intros i _. unfold over, with_one.
  destruct (Nat.eqb_spec i j) as [->|]; cbn; [by rewrite HB; lia|lia].
Qed.

Lemma sigma_without n B f j :
  (j < n)%nat -> B j = true ->
  sigma n (over (without j B) f) = sigma n (over B f) - f j.
Proof.
  intros Hj HB. rewrite <- (sigma_single n j (f j)) by done. rewrite <- sigma_sub.
  apply sigma_ext. intros i _. unfold over, without.
  destruct (Nat.eqb_spec i j) as [->|]; cbn; [by rewrite HB; lia|lia].
Qed.

Lemma member_or_none n (P : nat -> bool) :
  (exists i, (i < n)%nat /\ P i = true) \/ (forall i, (i < n)%nat -> P i = false).
Proof.
  induction n as [|n [(i & Hi & HP)|H]]; [right; lia|left; exists i; auto with lia|].
  destruct (P n) eqn:E; [left; eauto|]. right. intros i Hi.
  destruct (decide (i = n)) as [->|]; [done|]. apply H. lia.
Qed.

(** ** The potential *)

Section potential.
Context (n : nat) (W : Z).

Definition balanced (cw : nat -> Z) : Prop :=
  sigma n cw = 0 /\
  forall B, sigma n (over B cw) <= W * (size_of n B * (Z.of_nat n - size_of n B)).

(** What a step leaves: every member of [A] has gained its weight [e], and [j]
    has paid their sum. *)
Definition stepped (A : nat -> bool) (e cw : nat -> Z) (j i : nat) : Z :=
  cw i + over A e i - (if (i =? j)%nat then sigma n (over A e) else 0).

Lemma balanced_start : 0 <= W -> balanced (fun _ => 0).
Proof.
  intros HW. split; [by rewrite sigma_const; lia|]. intros B.
  rewrite (sigma_ext _ _ (fun _ => 0)) by (intros i _; unfold over; by destruct (B i)).
  rewrite sigma_const, Z.mul_0_r. assert (0 <= size_of n B <= Z.of_nat n);
    [|apply Z.mul_nonneg_nonneg; [done|apply Z.mul_nonneg_nonneg; lia]].
  unfold size_of. split.
  - apply sigma_nonneg. intros i _. unfold over. destruct (B i); lia.
  - rewrite <- (Z.mul_1_r (Z.of_nat n)), <- sigma_const. apply sigma_le.
    intros i _. unfold over. destruct (B i); lia.
Qed.

(** Every single weight is bounded. *)
Lemma balanced_bound cw i :
  balanced cw -> (i < n)%nat -> - W * (Z.of_nat n - 1) <= cw i <= W * (Z.of_nat n - 1).
Proof.
  intros [H0 H] Hi. pose proof (H (with_one i (fun _ => false))) as H1.
  pose proof (H (without i (fun _ => true))) as H2. unfold size_of in *.
  rewrite !sigma_with in H1 by done. rewrite !sigma_without in H2 by done.
  assert (forall f, sigma n (over (fun _ => false) f) = 0) as E0.
  { intros f. unfold over. rewrite sigma_const. lia. }
  assert (sigma n (over (fun _ => true) cw) = 0) as E1 by done.
  assert (sigma n (over (fun _ => true) (fun _ => 1)) = Z.of_nat n) as E2
    by (unfold over; rewrite sigma_const; lia).
  rewrite !E0 in H1. rewrite E1, E2 in H2. lia.
Qed.
Context (A : nat -> bool) (e cw : nat -> Z) (j : nat).
Hypothesis e_pos : forall i, (i < n)%nat -> 0 <= e i.
Hypothesis e_total : sigma n (over A e) <= W.
Hypothesis j_member : (j < n)%nat /\ A j = true.
Hypothesis j_largest : forall i, (i < n)%nat -> A i = true -> cw i + e i <= cw j + e j.

Let E := sigma n (over A e).

Lemma over_pos B i : (i < n)%nat -> 0 <= over B (over A e) i.
Proof. intros Hi. unfold over. pose proof (e_pos i Hi). destruct (B i), (A i); lia. Qed.

(** What a set gains. *)
Lemma stepped_over B :
  sigma n (over B (stepped A e cw j)) =
    sigma n (over B cw) + sigma n (over B (over A e)) - (if B j then E else 0).
Proof.
  destruct j_member as [Hj _].
  assert ((if B j then E else 0)
    = sigma n (fun i => if (i =? j)%nat then (if B j then E else 0) else 0)) as ->
    by (by rewrite sigma_single).
  rewrite <- sigma_add, <- sigma_sub. apply sigma_ext. intros i _. unfold stepped. fold E. unfold over.
  destruct (Nat.eqb_spec i j) as [->|]; destruct (B _); lia.
Qed.

Lemma gain_le B : sigma n (over B (over A e)) <= E.
Proof.
  apply sigma_le. intros i Hi. unfold over. pose proof (e_pos i Hi). destruct (B i), (A i); lia.
Qed.

Lemma stepped_sum : sigma n cw = 0 -> sigma n (stepped A e cw j) = 0.
Proof.
  intros H. destruct j_member as [Hj _]. unfold stepped.
  rewrite sigma_sub, sigma_add, sigma_single, H by done. lia.
Qed.

(** A set without [j] that gains something holds a member [i] of [A]; the bounds
    of the set with [j] and of the set without [i] give its bound. *)
Lemma balanced_stepped : balanced cw -> balanced (stepped A e cw j).
Proof.
  intros [H0 H]. destruct j_member as [Hj HAj]. split; [by apply stepped_sum|]. intros B.
  rewrite stepped_over. pose proof (H B) as HB. pose proof (gain_le B) as Hgain.
  destruct (B j) eqn:Bj; [lia|]. rewrite Z.sub_0_r.
  destruct (member_or_none n (fun i => A i && B i)) as [(i & Hi & HAB)|Hno].
  - apply andb_true_iff in HAB as [HAi HBi]. pose proof (H (with_one j B)) as Hw. pose proof (H (without i B)) as Hwo.
    unfold size_of in *. rewrite !sigma_with in Hw by done. rewrite !sigma_without in Hwo by done.
    pose proof (j_largest i Hi HAi). pose proof (e_pos i Hi).
    pose proof (sigma_with n B (over A e) j Hj Bj) as Hsum.
    pose proof (gain_le (with_one j B)). 
    assert (over A e j = e j) as Hj' by (unfold over; by rewrite HAj).
    fold E in e_total. set (s := sigma n (over B (fun _ => 1))) in *.
    assert (W * ((s + 1) * (Z.of_nat n - (s + 1))) + W * ((s - 1) * (Z.of_nat n - (s - 1)))
      = 2 * (W * (s * (Z.of_nat n - s))) - 2 * W) by ring.
    lia.
  - rewrite (sigma_ext _ (over B (over A e)) (fun _ => 0)), sigma_const; [lia|].
    intros i Hi. pose proof (Hno i Hi). unfold over. by destruct (B i), (A i).
Qed.

End potential.

Lemma balanced_ext n W f g :
  (forall i, (i < n)%nat -> f i = g i) -> balanced n W f -> balanced n W g.
Proof.
  intros H [H0 HB]. split; [by rewrite <- (sigma_ext n f g)|]. intros B.
  rewrite <- (sigma_ext n (over B f)); [done|]. intros i Hi. unfold over. by rewrite H.
Qed.
