(* ===== verification/Upstream.v ===== *)
(** * Load balancing of stream sessions

    [src/stream/ngx_stream_upstream_round_robin.c]: the peers of an upstream,
    their weights and failure counts, and the handlers that choose a peer for a
    session and take it back; the parameters of the [server] directive from
    [src/stream/ngx_stream_upstream.c]. Sessions share the peers, so the state is
    a world of one upstream and all sessions, changed by one handler at a time
    (with a shared zone the handlers run under its lock). *)

From S2P Require Import Prelude Numeric.

(** ** The [server] directive *)

Record ngx_stream_upstream_server_t := Server {
  s_addrs : list (list Z)  (* [addrs], each an address *);
  s_weight : Z;
  s_max_conns : Z;
  s_max_fails : Z;
  s_fail_timeout : Z;
  s_down : bool;
  s_backup : bool
}.

#[export] Instance server_rebuild : Rebuild ngx_stream_upstream_server_t := fun r =>
  Server (s_addrs r) (s_weight r) (s_max_conns r) (s_max_fails r) (s_fail_timeout r)
    (s_down r) (s_backup r).

Definition NGX_STREAM_UPSTREAM_WEIGHT : Z := 0x0002.
Definition NGX_STREAM_UPSTREAM_MAX_FAILS : Z := 0x0004.
Definition NGX_STREAM_UPSTREAM_FAIL_TIMEOUT : Z := 0x0008.
Definition NGX_STREAM_UPSTREAM_DOWN : Z := 0x0010.
Definition NGX_STREAM_UPSTREAM_BACKUP : Z := 0x0020.
Definition NGX_STREAM_UPSTREAM_MAX_CONNS : Z := 0x0100.

(** [ngx_strncmp(value, name, n) == 0] with [n] the length of [name]: what is
    behind it. *)
Fixpoint after_prefix (name value : list Z) : option (list Z) :=
  match name, value with
  | [], _ => Some value
  | a :: name, b :: value => if a =? b then after_prefix name value else None
  | _ :: _, [] => None
  end.

(** [ngx_strcmp(value, name) == 0]: a zero ends the value. *)
Definition is_word (name value : list Z) : bool :=
  match after_prefix name value with
  | Some [] => true
  | Some (c :: _) => c =? 0
  | None => false
  end.

(** One parameter; [None] is the label [invalid] or [not_supported]. *)
Definition server_parameter (flags : Z) (value : list Z) (us : ngx_stream_upstream_server_t)
    : res (option ngx_stream_upstream_server_t) :=
  let supported f := negb (Z.land flags f =? 0) in
  match after_prefix (str "weight=") value with
  | Some s =>
      if negb (supported NGX_STREAM_UPSTREAM_WEIGHT) then Ok None
      else
        weight ← ngx_atoi s;
        Ok (if (weight =? NGX_ERROR) || (weight =? 0) then None
            else Some (us <| s_weight := weight |>))
  | None =>
  match after_prefix (str "max_conns=") value with
  | Some s =>
      if negb (supported NGX_STREAM_UPSTREAM_MAX_CONNS) then Ok None
      else
        max_conns ← ngx_atoi s;
        Ok (if max_conns =? NGX_ERROR then None else Some (us <| s_max_conns := max_conns |>))
  | None =>
  match after_prefix (str "max_fails=") value with
  | Some s =>
      if negb (supported NGX_STREAM_UPSTREAM_MAX_FAILS) then Ok None
      else
        max_fails ← ngx_atoi s;
        Ok (if max_fails =? NGX_ERROR then None else Some (us <| s_max_fails := max_fails |>))
  | None =>
  match after_prefix (str "fail_timeout=") value with
  | Some s =>
      if negb (supported NGX_STREAM_UPSTREAM_FAIL_TIMEOUT) then Ok None
      else
        fail_timeout ← ngx_parse_time s true;
        Ok (if fail_timeout =? NGX_ERROR then None
            else Some (us <| s_fail_timeout := fail_timeout |>))
  | None =>
  if is_word (str "backup") value then
    Ok (if supported NGX_STREAM_UPSTREAM_BACKUP then Some (us <| s_backup := true |>) else None)
  else if is_word (str "down") value then
    Ok (if supported NGX_STREAM_UPSTREAM_DOWN then Some (us <| s_down := true |>) else None)
  else Ok None
  end end end end.

Fixpoint server_parameters (flags : Z) (values : list (list Z))
    (us : ngx_stream_upstream_server_t) : res (option ngx_stream_upstream_server_t) :=
  match values with
  | [] => Ok (Some us)
  | value :: values =>
      r ← server_parameter flags value us;
      match r with
      | Some us => server_parameters flags values us
      | None => Ok None
      end
  end.

(** [ngx_stream_upstream_server] with the parameters [values]; [addrs] are the
    addresses of the URL in front of them. *)
Definition ngx_stream_upstream_server (flags : Z) (addrs : list (list Z))
    (values : list (list Z)) : res (option ngx_stream_upstream_server_t) :=
  server_parameters flags values (Server addrs 1 0 1 10 false false).

(** ** Peers *)

Record ngx_stream_upstream_rr_peer_t := Peer {
  sockaddr : list Z;
  current_weight : Z;
  effective_weight : Z;
  weight : Z;
  conns : Z;
  max_conns : Z;
  fails : Z;
  accessed : Z;
  checked : Z;
  max_fails : Z;
  fail_timeout : Z;
  down : bool
}.

#[export] Instance peer_rebuild : Rebuild ngx_stream_upstream_rr_peer_t := fun r =>
  Peer (sockaddr r) (current_weight r) (effective_weight r) (weight r) (conns r)
    (max_conns r) (fails r) (accessed r) (checked r) (max_fails r) (fail_timeout r) (down r).

Record ngx_stream_upstream_rr_peers_t := Peers {
  number : Z;
  total_weight : Z;
  ps_tries : Z;
  single : bool;
  weighted : bool;
  peer : list ngx_stream_upstream_rr_peer_t
}.

#[export] Instance peers_rebuild : Rebuild ngx_stream_upstream_rr_peers_t := fun r =>
  Peers (number r) (total_weight r) (ps_tries r) (single r) (weighted r) (peer r).

(** The list of peers and [peers->next], whose own [next] is always null. *)
Record upstream := Upstream {
  primary : ngx_stream_upstream_rr_peers_t;
  backup : option ngx_stream_upstream_rr_peers_t
}.

(** [n], [w] and [t] for the servers with this [backup] flag. *)
Fixpoint count_servers (b : bool) (servers : list ngx_stream_upstream_server_t) (n w t : Z)
    : Z * Z * Z :=
  match servers with
  | [] => (n, w, t)
  | s :: servers =>
      if negb (eqb s.(s_backup) b) then count_servers b servers n w t
      else
        count_servers b servers (u64 (n + zlen s.(s_addrs)))
          (u64 (w + zlen s.(s_addrs) * s.(s_weight)))
          (if s.(s_down) then t else u64 (t + zlen s.(s_addrs)))
  end.

Definition server_peers (s : ngx_stream_upstream_server_t) : list ngx_stream_upstream_rr_peer_t :=
  map (fun addr => Peer addr 0 s.(s_weight) s.(s_weight) 0 s.(s_max_conns) 0 0 0
                     s.(s_max_fails) s.(s_fail_timeout) s.(s_down)) s.(s_addrs).

Fixpoint make_peers (b : bool) (servers : list ngx_stream_upstream_server_t)
    : list ngx_stream_upstream_rr_peer_t :=
  match servers with
  | [] => []
  | s :: servers =>
      if negb (eqb s.(s_backup) b) then make_peers b servers
      else server_peers s ++ make_peers b servers
  end.

(** [ngx_stream_upstream_init_round_robin] for an [upstream] block; [None] is
    [NGX_ERROR]. The allocations are taken to succeed. *)
Definition ngx_stream_upstream_init_round_robin (servers : list ngx_stream_upstream_server_t)
    : option upstream :=
  let '(n, w, t) := count_servers false servers 0 0 0 in
  if n =? 0 then None
  else
    let peers := Peers n w t (n =? 1) (negb (w =? n)) (make_peers false servers) in
    let '(n, w, t) := count_servers true servers 0 0 0 in
    if n =? 0 then Some (Upstream peers None)
    else Some (Upstream (peers <| single := false |>)
                 (Some (Peers n w t false (negb (w =? n)) (make_peers true servers)))).

(** ** Sessions *)

(** [ngx_stream_upstream_rr_peer_data_t] and the fields of the peer connection
    that the handlers use. A peer is named by its list and its position there;
    [s_on_backup] tells which list [rrp->peers] is. *)
Record session := Session {
  s_on_backup : bool;
  s_current : option (bool * nat);
  s_tried : list Z  (* words of 64 bits *);
  pc_tries : Z;
  pc_sockaddr : option (list Z)
}.

#[export] Instance session_rebuild : Rebuild session := fun r =>
  Session (s_on_backup r) (s_current r) (s_tried r) (pc_tries r) (pc_sockaddr r).

(** The words for [n] bits. *)
Definition words (n : Z) : Z := u64 (n + 63) / 64.

Definition ngx_stream_upstream_tries (u : upstream) : Z :=
  u64 (u.(primary).(ps_tries) +
       match u.(backup) with Some b => b.(ps_tries) | None => 0 end).

(** [ngx_stream_upstream_init_round_robin_peer] of a new session. *)
Definition ngx_stream_upstream_init_round_robin_peer (u : upstream) : session :=
  let n := u.(primary).(number) in
  let n := match u.(backup) with
           | Some b => if n <? b.(number) then b.(number) else n
           | None => n
           end in
  let tried := if n <=? 64 then [0] else replicate (Z.to_nat (words n)) 0 in
  Session false None tried (ngx_stream_upstream_tries u) None.

(** [rrp->tried[n] & m] and [rrp->tried[n] |= m] *)
Definition is_tried (tried : list Z) (i : nat) : res bool :=
  w ← get tried (Z.of_nat i / 64);
  Ok (negb (Z.land w (Z.shiftl 1 (Z.of_nat i mod 64)) =? 0)).

Definition set_tried (tried : list Z) (i : nat) : res (list Z) :=
  w ← get tried (Z.of_nat i / 64);
  put tried (Z.of_nat i / 64) (Z.lor w (Z.shiftl 1 (Z.of_nat i mod 64))).

Definition conns_full (p : ngx_stream_upstream_rr_peer_t) : bool :=
  negb (p.(max_conns) =? 0) && (p.(max_conns) <=? p.(conns)).

(** The tests that make the loop [continue]. *)
Definition is_skipped (now : Z) (tried : list Z) (i : nat) (p : ngx_stream_upstream_rr_peer_t)
    : res bool :=
  t ← is_tried tried i;
  if t : bool then Ok true
  else if p.(down) then Ok true
  else if negb (p.(max_fails) =? 0) && (p.(max_fails) <=? p.(fails)) then
    since ← int64 (now - p.(checked));
    Ok ((since <=? p.(fail_timeout)) || conns_full p)
  else Ok (conns_full p).

(** The loop of [ngx_stream_upstream_get_peer] from the peer at [i] on: the peers
    as it leaves them, the best one and the total. *)
Fixpoint pick_peer (now : Z) (tried : list Z) (i : nat)
    (l : list ngx_stream_upstream_rr_peer_t)
    (best : option (nat * ngx_stream_upstream_rr_peer_t)) (total : Z)
    : res (list ngx_stream_upstream_rr_peer_t
           * option (nat * ngx_stream_upstream_rr_peer_t) * Z) :=
  match l with
  | [] => Ok ([], best, total)
  | p :: l =>
      skipped ← is_skipped now tried i p;
      if skipped : bool then
        '(l, best, total) ← pick_peer now tried (S i) l best total;
        Ok (p :: l, best, total)
      else
        cw ← int64 (p.(current_weight) + p.(effective_weight));
        total ← int64 (total + p.(effective_weight));
        let p := p <| current_weight := cw |>
                   <| effective_weight := if p.(effective_weight) <? p.(weight)
                                          then p.(effective_weight) + 1
                                          else p.(effective_weight) |> in
        let best := match best with
                    | None => Some (i, p)
                    | Some (_, b) =>
                        if b.(current_weight) <? p.(current_weight) then Some (i, p) else best
                    end in
        '(l, best, total) ← pick_peer now tried (S i) l best total;
        Ok (p :: l, best, total)
  end.

(** [ngx_stream_upstream_get_peer]: the peers, the tried bits and the peer. *)
Definition ngx_stream_upstream_get_peer (now : Z) (tried : list Z)
    (peers : ngx_stream_upstream_rr_peers_t)
    : res (ngx_stream_upstream_rr_peers_t * list Z * option nat) :=
  '(l, best, total) ← pick_peer now tried 0 peers.(peer) None 0;
  match best with
  | None => Ok (peers <| peer := l |>, tried, None)
  | Some (i, b) =>
      tried ← set_tried tried i;
      cw ← int64 (b.(current_weight) - total);
      since ← int64 (now - b.(checked));
      let b := b <| current_weight := cw |> in
      let b := if b.(fail_timeout) <? since then b <| checked := now |> else b in
      Ok (peers <| peer := <[i := b]> l |>, tried, Some i)
  end.

Definition group (u : upstream) (on_backup : bool) : res ngx_stream_upstream_rr_peers_t :=
  if on_backup then match u.(backup) with Some b => Ok b | None => Fault end
  else Ok u.(primary).

Definition set_group (u : upstream) (on_backup : bool) (g : ngx_stream_upstream_rr_peers_t)
    : upstream :=
  if on_backup then Upstream u.(primary) (Some g) else Upstream g u.(backup).

Definition peer_at (g : ngx_stream_upstream_rr_peers_t) (i : nat)
    : res ngx_stream_upstream_rr_peer_t :=
  match g.(peer) !! i with Some p => Ok p | None => Fault end.

(** The list that [rrp->peers] points to is asked for a peer; with one, the
    session is connected to it. *)
Definition try_group (now : Z) (u : upstream) (s : session) : res (upstream * session * bool) :=
  g ← group u s.(s_on_backup);
  '(g, tried, chosen) ←
    (if g.(single) then
       p ← peer_at g 0;
       Ok (g, s.(s_tried), if p.(down) || conns_full p then None else Some 0%nat)
     else ngx_stream_upstream_get_peer now s.(s_tried) g);
  let s := s <| s_tried := tried |> in
  match chosen with
  | None => Ok (set_group u s.(s_on_backup) g, s, false)
  | Some i =>
      p ← peer_at g i;
      let g := g <| peer := <[i := p <| conns := u64 (p.(conns) + 1) |>]> g.(peer) |> in
      Ok (set_group u s.(s_on_backup) g,
          s <| s_current := Some (s.(s_on_backup), i) |> <| pc_sockaddr := Some p.(sockaddr) |>,
          true)
  end.

(** [ngx_stream_upstream_get_round_robin_peer]; the call for the backup list has
    no further list. *)
Definition ngx_stream_upstream_get_round_robin_peer (now : Z) (u : upstream) (s : session)
    : res (Z * upstream * session) :=
  '(u, s, found) ← try_group now u s;
  if found : bool then Ok (NGX_OK, u, s)
  else
    match (if s.(s_on_backup) then None else u.(backup)) with
    | None => Ok (NGX_BUSY, u, s)
    | Some next =>
        tried ← blit s.(s_tried) 0 (replicate (Z.to_nat (words next.(number))) 0);
        '(u, s, found) ← try_group now u (s <| s_on_backup := true |> <| s_tried := tried |>);
        Ok (if found : bool then NGX_OK else NGX_BUSY, u, s)
    end.

Definition NGX_PEER_FAILED : Z := 4.

(** A failure of the peer. The quotient and the difference are unsigned, the
    result is assigned to a signed variable. *)
Definition peer_failed (now : Z) (p : ngx_stream_upstream_rr_peer_t)
    : ngx_stream_upstream_rr_peer_t :=
  let p := p <| fails := u64 (p.(fails) + 1) |> <| accessed := now |> <| checked := now |> in
  let ew := if p.(max_fails) =? 0 then p.(effective_weight)
            else signed64 (p.(effective_weight) - p.(weight) / p.(max_fails)) in
  p <| effective_weight := if ew <? 0 then 0 else ew |>.

(** Mark the peer live if the check passed. *)
Definition peer_passed (p : ngx_stream_upstream_rr_peer_t) : ngx_stream_upstream_rr_peer_t :=
  if p.(accessed) <? p.(checked) then p <| fails := 0 |> else p.

(** The peer that [rrp->current] points to. *)
Definition update_current (u : upstream) (s : session)
    (f : ngx_stream_upstream_rr_peer_t -> ngx_stream_upstream_rr_peer_t) : res upstream :=
  match s.(s_current) with
  | None => Fault
  | Some (on_backup, i) =>
      g ← group u on_backup;
      p ← peer_at g i;
      Ok (set_group u on_backup (g <| peer := <[i := f p]> g.(peer) |>))
  end.

Definition ngx_stream_upstream_free_round_robin_peer (now state : Z) (u : upstream) (s : session)
    : res (upstream * session) :=
  g ← group u s.(s_on_backup);
  let leave p := p <| conns := u64 (p.(conns) - 1) |> in
  if g.(single) then
    u ← update_current u s leave;
    Ok (u, s <| pc_tries := 0 |>)
  else
    u ← update_current u s (fun p =>
          leave (if negb (Z.land state NGX_PEER_FAILED =? 0) then peer_failed now p
                 else peer_passed p));
    Ok (u, if s.(pc_tries) =? 0 then s else s <| pc_tries := s.(pc_tries) - 1 |>).

Definition NGX_STREAM_UPSTREAM_NOTIFY_CONNECT : Z := 1.

(** [sock_stream]: [pc->connection->type == SOCK_STREAM] *)
Definition ngx_stream_upstream_notify_round_robin_peer (type : Z) (sock_stream : bool)
    (u : upstream) (s : session) : res upstream :=
  if (type =? NGX_STREAM_UPSTREAM_NOTIFY_CONNECT) && sock_stream
  then update_current u s peer_passed
  else Ok u.

(** ** The world

    The proxy asks for a peer when the session has none, gives it back once, and
    then clears [peer.sockaddr] ([ngx_stream_proxy_next_upstream] and
    [ngx_stream_proxy_finalize] of [src/stream/ngx_stream_proxy_module.c]). *)

Record world := World { up : upstream; sessions : list session }.

Inductive event :=
| Start  (* a new session *)
| Get (k : nat) (now : Z)
| Free (k : nat) (now state : Z)
| Notify (k : nat) (type : Z) (sock_stream : bool).

(** Times are between 1970 and a remote future. *)
Definition is_time (t : Z) : bool := (0 <=? t) && (t <=? 4611686018427387904).

Definition enabled (w : world) (e : event) : bool :=
  match e with
  | Start => true
  | Get k now =>
      is_time now &&
      match w.(sessions) !! k with Some s => bool_decide (s.(pc_sockaddr) = None) | None => false end
  | Free k now _ =>
      is_time now &&
      match w.(sessions) !! k with Some s => bool_decide (s.(pc_sockaddr) <> None) | None => false end
  | Notify k _ _ =>
      match w.(sessions) !! k with Some s => bool_decide (s.(pc_sockaddr) <> None) | None => false end
  end.

Definition session_at (w : world) (k : nat) : res session :=
  match w.(sessions) !! k with Some s => Ok s | None => Fault end.

Definition exec (w : world) (e : event) : res world :=
  match e with
  | Start =>
      Ok (World w.(up)
            (w.(sessions) ++ [ngx_stream_upstream_init_round_robin_peer w.(up)]))
  | Get k now =>
      s ← session_at w k;
      '(_, u, s) ← ngx_stream_upstream_get_round_robin_peer now w.(up) s;
      Ok (World u (<[k := s]> w.(sessions)))
  | Free k now state =>
      s ← session_at w k;
      '(u, s) ← ngx_stream_upstream_free_round_robin_peer now state w.(up) s;
      Ok (World u (<[k := s <| pc_sockaddr := None |>]> w.(sessions)))
  | Notify k type sock_stream =>
      s ← session_at w k;
      u ← ngx_stream_upstream_notify_round_robin_peer type sock_stream w.(up) s;
      Ok (World u w.(sessions))
  end.
