(* ===== verification/UpstreamSpec.v ===== *)
(** * Choosing a peer

    What [ngx_stream_upstream_get_peer] does to a list of peers, stated without
    its loop, and the invariant of the weights that every choice preserves. *)

From S2P Require Import Prelude UpstreamWeights Upstream.

(** ** The bits of the peers tried *)

Definition tried_at (tried : list Z) (i : nat) : bool :=
  match tried !! (i / 64)%nat with
  | Some w => Z.testbit w (Z.of_nat i mod 64)
  | None => false
  end.

Lemma get_word tried i :
  Z.of_nat i < 64 * zlen tried ->
  exists w, tried !! (i / 64)%nat = Some w /\ get tried (Z.of_nat i / 64) = Ok w.
Proof.
  intros Hi. assert (Z.of_nat (i / 64) = Z.of_nat i / 64) as Hd by apply Nat2Z.inj_div.
  assert (i / 64 < length tried)%nat as Hlt.
  { apply Nat.Div0.div_lt_upper_bound. unfold zlen in Hi. lia. }
  destruct (lookup_lt_is_Some_2 tried _ Hlt) as [w Hw]. exists w. split; [done|].
  unfold get. rewrite <- Hd, Nat2Z.id, Hw. by destruct (Z.ltb_spec (Z.of_nat (i / 64)) 0); [lia|].
Qed.

Lemma land_bit w k : 0 <= k -> negb (Z.land w (Z.shiftl 1 k) =? 0) = Z.testbit w k.
Proof.
  intros Hk. rewrite Z.shiftl_1_l. destruct (Z.testbit w k) eqn:E.
  - destruct (Z.eqb_spec (Z.land w (2 ^ k)) 0) as [H|]; [|done].
    apply (f_equal (fun z => Z.testbit z k)) in H.
    by rewrite Z.land_spec, E, Z.pow2_bits_true, Z.bits_0 in H by done.
  - destruct (Z.eqb_spec (Z.land w (2 ^ k)) 0) as [|H]; [done|]. destruct H.
    apply Z.bits_inj'. intros m Hm. rewrite Z.land_spec, Z.bits_0, Z.pow2_bits_eqb by done.
    destruct (Z.eqb_spec k m) as [<-|]; [by rewrite E|by rewrite andb_false_r].
Qed.

Lemma is_tried_ok tried i :
  Z.of_nat i < 64 * zlen tried -> is_tried tried i = Ok (tried_at tried i).
Proof.
  intros Hi. destruct (get_word tried i Hi) as (w & Hw & Hg). unfold is_tried, tried_at.
  rewrite Hg, Hw. cbn. f_equal. apply land_bit. by apply Z.mod_pos_bound.
Qed.

Lemma set_tried_ok tried i :
  Z.of_nat i < 64 * zlen tried ->
  exists tried', set_tried tried i = Ok tried' /\ zlen tried' = zlen tried /\
    forall k, tried_at tried' k = (k =? i)%nat || tried_at tried k.
Proof.
  intros Hi. destruct (get_word tried i Hi) as (w & Hw & Hg). unfold set_tried.
  rewrite Hg, Ok_bind. pose proof (get_Ok_range _ _ _ Hg) as Hr.
  destruct (put_ok tried (Z.of_nat i / 64) (Z.lor w (Z.shiftl 1 (Z.of_nat i mod 64))) Hr)
    as (tried' & Hp & Hl).
  exists tried'. split; [done|]. split; [done|]. intros k.
  assert (forall m, tried' !! m = if decide (m = i / 64)%nat
    then Some (Z.lor w (Z.shiftl 1 (Z.of_nat i mod 64))) else tried !! m) as Hlook.
  { intros m. pose proof (get_blit _ _ _ _ (Z.of_nat m) Hp) as Hb.
    assert (Z.of_nat (i / 64) = Z.of_nat i / 64) as Hd by apply Nat2Z.inj_div.
    rewrite zlen_cons, zlen_nil in Hb. unfold get in Hb.
    destruct (Z.ltb_spec (Z.of_nat m) 0) as [|_]; [lia|].
    rewrite Nat2Z.id in Hb. destruct (decide (m = i / 64)%nat) as [->|Hne].
    - rewrite decide_True in Hb by lia.
      rewrite (proj2 (Z.ltb_ge _ _)) in Hb by lia.
      replace (Z.to_nat (Z.of_nat (i / 64) - Z.of_nat i / 64)) with O in Hb by lia.
      cbn [lookup list_lookup] in Hb.
      destruct (tried' !! (i / 64)%nat); congruence.
    - rewrite decide_False in Hb by lia. destruct (tried' !! m), (tried !! m); congruence. }
  unfold tried_at. rewrite Hlook. destruct (decide (k / 64 = i / 64)%nat) as [E|E].
  - rewrite E, Hw. rewrite Z.lor_spec, Z.shiftl_1_l, Z.pow2_bits_eqb by (by apply Z.mod_pos_bound).
    rewrite orb_comm. f_equal.
    assert (Z.of_nat k / 64 = Z.of_nat i / 64) as E'.
    { change 64 with (Z.of_nat 64). rewrite <- !Nat2Z.inj_div. by rewrite E. }
    pose proof (Z.div_mod (Z.of_nat k) 64). pose proof (Z.div_mod (Z.of_nat i) 64).
    destruct (Z.eqb_spec (Z.of_nat i mod 64) (Z.of_nat k mod 64)), (Nat.eqb_spec k i); subst; lia || done.
  - destruct (Nat.eqb_spec k i) as [->|]; done.
Qed.

(** ** The loop *)

(** A field of the peer at a place. *)
Definition field (f : ngx_stream_upstream_rr_peer_t -> Z)
    (l : list ngx_stream_upstream_rr_peer_t) (i : nat) : Z :=
  match l !! i with Some p => f p | None => 0 end.

Definition weights (l : list ngx_stream_upstream_rr_peer_t) : Z :=
  sigma (length l) (field weight l).

Lemma sigma_front n f : sigma (S n) f = f O + sigma n (fun i => f (S i)).
Proof. induction n as [|n IH]; [cbn; lia|]. cbn in *. rewrite IH. lia. Qed.

Lemma weights_cons p l : weights (p :: l) = p.(weight) + weights l.
Proof. unfold weights. cbn [length]. by rewrite sigma_front. Qed.

(** What is true of every peer at all times. *)
Definition time_ok (t : Z) : Prop := 0 <= t <= 4611686018427387904.

Definition peer_ok (p : ngx_stream_upstream_rr_peer_t) : Prop :=
  1 <= p.(weight) /\ 0 <= p.(effective_weight) <= p.(weight) /\ time_ok p.(checked) /\
  0 <= p.(max_fails).

Lemma weights_nonneg l : Forall peer_ok l -> 0 <= weights l.
Proof.
  induction 1 as [|p l (Hp & _) _ IH]; [done|]. rewrite weights_cons. lia.
Qed.

Section choice.
Context (now : Z) (tried : list Z).
Implicit Types (l : list ngx_stream_upstream_rr_peer_t).

Definition usable (i : nat) (p : ngx_stream_upstream_rr_peer_t) : bool :=
  negb (tried_at tried i) && negb p.(down) &&
  negb (negb (p.(max_fails) =? 0) && (p.(max_fails) <=? p.(fails)) &&
        (now - p.(checked) <=? p.(fail_timeout))) &&
  negb (conns_full p).

Definition grown (p : ngx_stream_upstream_rr_peer_t) : ngx_stream_upstream_rr_peer_t :=
  p <| current_weight := p.(current_weight) + p.(effective_weight) |>
    <| effective_weight := if p.(effective_weight) <? p.(weight)
                           then p.(effective_weight) + 1 else p.(effective_weight) |>.

Definition visited (i : nat) (p : ngx_stream_upstream_rr_peer_t) : ngx_stream_upstream_rr_peer_t :=
  if usable i p then grown p else p.

Definition gain (i : nat) (p : ngx_stream_upstream_rr_peer_t) : Z :=
  if usable i p then p.(effective_weight) else 0.

Definition better (best : option (nat * ngx_stream_upstream_rr_peer_t)) (i : nat)
    (p : ngx_stream_upstream_rr_peer_t) : option (nat * ngx_stream_upstream_rr_peer_t) :=
  if usable i p then
    match best with
    | None => Some (i, grown p)
    | Some (_, b) =>
        if b.(current_weight) <? (grown p).(current_weight) then Some (i, grown p) else best
    end
  else best.

Fixpoint best_of (i : nat) l (best : option (nat * ngx_stream_upstream_rr_peer_t))
    : option (nat * ngx_stream_upstream_rr_peer_t) :=
  match l with
  | [] => best
  | p :: l => best_of (S i) l (better best i p)
  end.

Fixpoint gains (i : nat) l : Z :=
  match l with
  | [] => 0
  | p :: l => gain i p + gains (S i) l
  end.

Lemma is_skipped_ok i p :
  time_ok now -> peer_ok p -> Z.of_nat i < 64 * zlen tried ->
  is_skipped now tried i p = Ok (negb (usable i p)).
Proof.
  intros Ht (_ & _ & Hc & _) Hi. unfold is_skipped, usable. rewrite is_tried_ok by done.
  rewrite Ok_bind. destruct (tried_at tried i); [done|]. destruct (down p); [done|].
  unfold time_ok in *. cbn [negb andb].
  destruct (negb (max_fails p =? 0) && (max_fails p <=? fails p)); cbn [andb].
  - rewrite int64_ok by lia. rewrite Ok_bind. f_equal.
    by destruct (now - checked p <=? fail_timeout p), (conns_full p).
  - by destruct (conns_full p).
Qed.

(** The total of the weights does not overflow, nor does any weight. *)
Definition room (total : Z) l : Prop :=
  0 <= total /\ total + weights l <= NGX_MAX_INT_T_VALUE /\
  Forall (fun p => - NGX_MAX_INT_T_VALUE <= p.(current_weight) /\
                   p.(current_weight) + p.(effective_weight) <= NGX_MAX_INT_T_VALUE) l.

Lemma pick_peer_ok i l best total :
  time_ok now -> Forall peer_ok l -> Z.of_nat i + zlen l <= 64 * zlen tried -> room total l ->
  pick_peer now tried i l best total =
    Ok (imap (fun k => visited (i + k)) l, best_of i l best, total + gains i l).
Proof.
  intros Ht. revert i best total. induction l as [|p l IH]; intros i best total Hok Hlen Hroom.
  { cbn. do 2 f_equal. lia. }
  apply Forall_cons in Hok as [Hp Hok]. rewrite zlen_cons in Hlen.
  pose proof (zlen_nonneg l). pose proof (weights_nonneg l Hok) as Hw.
  destruct Hroom as (H0 & Hsum & Hcw). apply Forall_cons in Hcw as [Hcw Hcws].
  rewrite weights_cons in Hsum.
  pose proof Hp as (Hw1 & Hew & _). unfold NGX_MAX_INT_T_VALUE in *.
  assert (forall total', 0 <= total' <= total + weight p -> room total' l) as Hr.
  { intros total' Ht'. split; [lia|]. split; [unfold NGX_MAX_INT_T_VALUE in *; lia|done]. }
  assert (imap (fun k => visited (i + k)) (p :: l)
    = visited i p :: imap (fun k => visited (S i + k)) l) as ->.
  { cbn [imap]. rewrite Nat.add_0_r. f_equal. apply imap_ext. intros k q _. cbn.
    by rewrite Nat.add_succ_r. }
  cbn [pick_peer gains best_of]. rewrite is_skipped_ok by (done || lia). rewrite Ok_bind.
  unfold visited at 1, gain, better. destruct (usable i p); cbn [negb].
  - rewrite (int64_ok (current_weight p + effective_weight p)) by lia.
    rewrite Ok_bind, int64_ok by lia. rewrite Ok_bind.
    rewrite IH; [|done|lia|apply Hr; lia]. rewrite Ok_bind, Z.add_assoc. by destruct best as [[k b]|].
  - rewrite IH; [|done|lia|apply Hr; lia]. by rewrite Ok_bind.
Qed.

Lemma best_of_app i l1 l2 best :
  best_of i (l1 ++ l2) best = best_of (i + length l1) l2 (best_of i l1 best).
Proof.
  revert i best. induction l1 as [|p l1 IH]; intros i best; cbn; [by rewrite Nat.add_0_r|].
  rewrite IH. by rewrite Nat.add_succ_r.
Qed.

(** What a peer weighs in the comparison. *)
Definition weighs (p : ngx_stream_upstream_rr_peer_t) : Z := p.(current_weight) + p.(effective_weight).

(** The first of the largest usable peers. *)
Definition largest l (j : nat) (p : ngx_stream_upstream_rr_peer_t) : Prop :=
  l !! j = Some p /\ usable j p = true /\
  forall i q, l !! i = Some q -> usable i q = true ->
    weighs q <= weighs p /\ ((i < j)%nat -> weighs q < weighs p).

Lemma best_of_spec l :
  match best_of 0 l None with
  | Some (j, b) => exists p, largest l j p /\ b = grown p
  | None => forall i p, l !! i = Some p -> usable i p = false
  end.
Proof.
  induction l as [|p l IH] using rev_ind; [done|].
  rewrite best_of_app. cbn [best_of Nat.add]. unfold better.
  assert (forall i q, (l ++ [p]) !! i = Some q ->
    l !! i = Some q \/ (i = length l /\ q = p)) as Hcases.
  { intros i q Hq. apply lookup_app_Some in Hq as [|[Hi Hq]]; [by left|right].
    apply list_lookup_singleton_Some in Hq as [? <-]. split; [lia|done]. }
  assert ((l ++ [p]) !! length l = Some p) as Hlast by (by apply list_lookup_middle).
  destruct (best_of 0 l None) as [[j b]|].
  - destruct IH as (q & (Hj & Huj & Hmax) & ->). pose proof (lookup_lt_Some _ _ _ Hj).
    destruct (usable (length l) p) eqn:Hu; [destruct (Z.ltb_spec (current_weight (grown q))
      (current_weight (grown p))) as [Hlt|Hge]; unfold grown in *; cbn in *|].
    + exists p. split; [|done]. split; [done|]. split; [done|]. intros i q' Hq' Hu'.
      apply Hcases in Hq' as [Hq'|[-> ->]]; [|split; lia].
      destruct (Hmax i q' Hq' Hu') as [H1 _]. unfold weighs in *. split; lia.
    + exists q. split; [|done]. split; [by apply lookup_app_l_Some|]. split; [done|].
      intros i q' Hq' Hu'. apply Hcases in Hq' as [Hq'|[-> ->]]; [by apply Hmax|].
      unfold weighs. split; lia.
    + exists q. split; [|done]. split; [by apply lookup_app_l_Some|]. split; [done|].
      intros i q' Hq' Hu'. apply Hcases in Hq' as [Hq'|[-> ->]]; [by apply Hmax|congruence].
  - destruct (usable (length l) p) eqn:Hu.
    + exists p. split; [|done]. split; [done|]. split; [done|]. intros i q Hq Hq'.
      apply Hcases in Hq as [Hq|[-> ->]]; [apply IH in Hq; congruence|split; lia].
    + intros i q Hq. apply Hcases in Hq as [Hq|[-> ->]]; [by eapply IH|done].
Qed.
End choice.

(** ** A group of peers *)

Record group_ok (g : ngx_stream_upstream_rr_peers_t) : Prop := {
  ok_number : g.(number) = zlen g.(peer);
  ok_some : g.(peer) <> [];
  ok_peers : Forall peer_ok g.(peer);
  ok_balanced : balanced (length g.(peer)) (weights g.(peer)) (field current_weight g.(peer));
  ok_room : zlen g.(peer) * weights g.(peer) <= NGX_MAX_INT_T_VALUE
}.

Lemma field_Some f l i p : l !! i = Some p -> field f l i = f p.
Proof. unfold field. by intros ->. Qed.

(** The weights add up to the sum of two lists whose weights agree. *)
Lemma weights_eq l l' :
  length l = length l' -> (forall i, field weight l i = field weight l' i) ->
  weights l = weights l'.
Proof. intros Hl H. unfold weights. rewrite Hl. apply sigma_ext. auto. Qed.

Section get_peer.
Context (now : Z) (tried : list Z) (g : ngx_stream_upstream_rr_peers_t).
Hypothesis now_ok : time_ok now.
Hypothesis g_ok : group_ok g.
Hypothesis tried_room : zlen g.(peer) <= 64 * zlen tried.

Let l := g.(peer).
Let n := length l.
Definition members (i : nat) : bool :=
  match l !! i with Some p => usable now tried i p | None => false end.

Lemma gains_sigma : gains now tried 0 l = sigma n (over members (field effective_weight l)).
Proof.
  assert (forall i l', gains now tried i l'
    = sigma (length l') (fun k => match l' !! k with
        | Some p => gain now tried (i + k) p | None => 0 end)) as H.
  { intros i l'. revert i. induction l' as [|p l' IH]; intros i; [done|].
    cbn [gains length]. rewrite sigma_front, IH. cbn [lookup list_lookup].
    rewrite Nat.add_0_r. f_equal. apply sigma_ext. intros k _.
    change ((p :: l') !! S k) with (l' !! k). destruct (l' !! k); [|done].
    by rewrite Nat.add_succ_r. }
  rewrite H. apply sigma_ext. intros k _. unfold over, members, field, gain. cbn [Nat.add].
  by destruct (l !! k).
Qed.

Lemma gains_le : gains now tried 0 l <= weights l.
Proof.
  rewrite gains_sigma. apply sigma_le. intros i Hi. unfold over, members, field.
  destruct (lookup_lt_is_Some_2 l i Hi) as [p Hp]. rewrite Hp.
  pose proof (ok_peers _ g_ok) as Hok. eapply Forall_lookup_1 in Hok as (? & ? & _); [|done].
  destruct (usable now tried i p); lia.
Qed.

Lemma cw_bound i p :
  l !! i = Some p ->
  - weights l * (Z.of_nat n - 1) <= p.(current_weight) <= weights l * (Z.of_nat n - 1).
Proof.
  intros Hp. rewrite <- (field_Some current_weight l i p Hp).
  apply balanced_bound; [apply (ok_balanced _ g_ok)|by eapply lookup_lt_Some].
Qed.

Lemma ew_bound i p : l !! i = Some p -> 0 <= p.(effective_weight) <= weights l.
Proof.
  intros Hp. pose proof (ok_peers _ g_ok) as Hok.
  assert (p.(weight) <= weights l).
  { rewrite <- (field_Some weight l i p Hp). apply sigma_term.
    - intros k _. unfold field. destruct (l !! k) eqn:E; [|done].
      eapply Forall_lookup_1 in Hok as (? & _); [|done]. lia.
    - by eapply lookup_lt_Some. }
  eapply Forall_lookup_1 in Hok as (? & ? & _); [|done]. lia.
Qed.

Lemma list_room : room 0 l.
Proof.
  pose proof (weights_nonneg _ (ok_peers _ g_ok)) as Hw. pose proof (ok_room _ g_ok) as Hr.
  pose proof (ok_some _ g_ok). assert (1 <= zlen l).
  { unfold zlen, l. destruct (peer g); [done|]. cbn. lia. }
  fold l in Hw, Hr. split; [done|]. split; [nia|]. apply Forall_lookup. intros i p Hp.
  pose proof (cw_bound i p Hp). pose proof (ew_bound i p Hp).
  unfold n, zlen in *. split; nia.
Qed.

(** The peer that is chosen, as it is left. *)
Definition charged (p : ngx_stream_upstream_rr_peer_t) : ngx_stream_upstream_rr_peer_t :=
  let p := grown p in
  let p := p <| current_weight := p.(current_weight) - gains now tried 0 l |> in
  if p.(fail_timeout) <? now - p.(checked) then p <| checked := now |> else p.

Definition picked (j : nat) (p : ngx_stream_upstream_rr_peer_t) : list ngx_stream_upstream_rr_peer_t :=
  <[j := charged p]> (imap (visited now tried) l).

Lemma picked_length j p : length (picked j p) = n.
Proof. unfold picked. by rewrite length_insert, length_imap. Qed.

Lemma picked_lookup j p i q :
  l !! j = Some p -> l !! i = Some q ->
  picked j p !! i = Some (if (i =? j)%nat then charged p else visited now tried i q).
Proof.
  intros Hj Hi. unfold picked. destruct (Nat.eqb_spec i j) as [->|].
  - apply list_lookup_insert_eq. rewrite length_imap. by eapply lookup_lt_Some.
  - by rewrite list_lookup_insert_ne, list_lookup_imap, Hi by done.
Qed.

Lemma grown_ok p : peer_ok p -> peer_ok (grown p).
Proof.
  intros (? & ? & ? & ?). unfold grown. split; [done|]. split; [|done]. cbn [weight effective_weight].
  cbn. destruct (Z.ltb_spec (effective_weight p) (weight p)); lia.
Qed.

Lemma charged_ok p : peer_ok p -> peer_ok (charged p).
Proof.
  intros H. apply grown_ok in H as (? & ? & ? & ?). unfold charged.
  by destruct (_ <? _).
Qed.

Lemma picked_field f j p i :
  (forall q, f (grown q) = f q) -> f (charged p) = f p -> l !! j = Some p ->
  field f (picked j p) i = field f l i.
Proof.
  intros Hg Hc Hj. destruct (l !! i) as [q|] eqn:Hi.
  - rewrite (field_Some _ _ _ _ (picked_lookup j p i q Hj Hi)), (field_Some _ _ _ _ Hi).
    destruct (Nat.eqb_spec i j) as [->|]; [congruence|]. unfold visited. by case_match.
  - unfold field. rewrite Hi, (proj2 (lookup_ge_None _ _)); [done|].
    rewrite picked_length. by apply lookup_ge_None.
Qed.

Lemma picked_weights j p : l !! j = Some p -> weights (picked j p) = weights l.
Proof.
  intros Hj. apply weights_eq; [apply picked_length|]. intros i. apply picked_field; [done| |done].
  unfold charged. by case_match.
Qed.

Lemma picked_balanced j p :
  largest now tried l j p ->
  balanced n (weights l) (field current_weight (picked j p)).
Proof.
  intros (Hj & Hu & Hmax). eapply balanced_ext;
    [|apply (balanced_stepped n (weights l) members (field effective_weight l)
        (field current_weight l) j)].
  - intros i Hi. destruct (lookup_lt_is_Some_2 l i Hi) as [q Hq].
    rewrite (field_Some _ _ _ _ (picked_lookup j p i q Hj Hq)).
    unfold stepped. rewrite <- gains_sigma. unfold over, members.
    rewrite !(field_Some _ _ _ _ Hq), Hq. destruct (Nat.eqb_spec i j) as [->|].
    + assert (p = q) as <- by congruence. rewrite Hu. unfold charged. by case_match.
    + unfold visited. destruct (usable now tried i q); [|lia]. unfold grown. cbn. lia.
  - intros i Hi. destruct (lookup_lt_is_Some_2 l i Hi) as [q Hq]. rewrite (field_Some _ _ _ _ Hq).
    by apply (ew_bound i q).
  - rewrite <- gains_sigma. apply gains_le.
  - split; [by eapply lookup_lt_Some|]. unfold members. by rewrite Hj.
  - intros i Hi. unfold members. destruct (l !! i) as [q|] eqn:Hq; [|done]. intros Hu'.
    rewrite !(field_Some _ _ _ _ Hq), !(field_Some _ _ _ _ Hj). by apply (Hmax i q).
  - apply (ok_balanced _ g_ok).
Qed.

Lemma picked_ok j p :
  largest now tried l j p -> group_ok (g <| peer := picked j p |>).
Proof.
  intros H. pose proof H as (Hj & _). destruct g_ok as [H1 H2 H3 H4 H5].
  split; simpl (peer _); simpl (number _).
  - rewrite H1. unfold zlen. by rewrite picked_length.
  - intros E. apply H2. apply length_zero_iff_nil. fold l. fold n. by rewrite <- (picked_length j p), E.
  - apply Forall_lookup. intros i q Hq.
    assert (i < n)%nat as Hi by (rewrite <- (picked_length j p); by eapply lookup_lt_Some).
    destruct (lookup_lt_is_Some_2 l i Hi) as [q' Hq']. fold l in H3.
    rewrite (picked_lookup j p i q' Hj Hq') in Hq. injection Hq as <-.
    pose proof (Forall_lookup_1 _ _ _ _ H3 Hq'). pose proof (Forall_lookup_1 _ _ _ _ H3 Hj).
    destruct (i =? j)%nat; [by apply charged_ok|]. unfold visited. case_match; [by apply grown_ok|done].
  - rewrite picked_length, picked_weights by done. by apply picked_balanced.
  - rewrite picked_weights by done. unfold zlen. by rewrite picked_length.
Qed.

(** The choice. *)
Lemma get_peer_some j p :
  largest now tried l j p -> 
  exists tried',
    ngx_stream_upstream_get_peer now tried g = Ok (g <| peer := picked j p |>, tried', Some j) /\
    zlen tried' = zlen tried /\
    forall k, tried_at tried' k = (k =? j)%nat || tried_at tried k.
Proof.
  intros Hlarge. unfold ngx_stream_upstream_get_peer. fold l.
  rewrite pick_peer_ok by (done || apply (ok_peers _ g_ok) || apply list_room || (fold l in tried_room; cbn; lia)).
  rewrite Ok_bind. pose proof (best_of_spec now tried l) as Hb.
  destruct (best_of now tried 0 l None) as [[j' b]|];
    [|destruct Hlarge as (Hj & Hu & _); apply Hb in Hj; congruence].
  destruct Hb as (p' & Hlarge' & ->).
  assert (j' = j /\ p' = p) as [-> ->].
  { destruct Hlarge as (Hj & Hu & Hmax), Hlarge' as (Hj' & Hu' & Hmax').
    pose proof (Hmax _ _ Hj' Hu'). pose proof (Hmax' _ _ Hj Hu).
    assert (j' = j) as -> by (destruct (decide (j' < j)%nat), (decide (j < j')%nat); lia).
    split; [done|congruence]. }
  pose proof Hlarge as (Hj & Hu & _). pose proof (lookup_lt_Some _ _ _ Hj) as Hlt.
  destruct (set_tried_ok tried j) as (tried' & -> & Hl & Ht); [fold l in tried_room; unfold zlen in *; lia|].
  exists tried'. split; [|done]. rewrite Ok_bind.
  pose proof (cw_bound _ _ Hj). pose proof (ew_bound _ _ Hj). pose proof (ok_room _ g_ok) as Hr.
  pose proof gains_le. pose proof (Forall_lookup_1 _ _ _ _ (ok_peers _ g_ok) Hj) as (_ & _ & Hc & _).
  assert (0 <= gains now tried 0 l).
  { rewrite gains_sigma. apply sigma_nonneg. intros i Hi. unfold over, members, field.
    destruct (l !! i) eqn:E; [|done]. pose proof (ew_bound _ _ E). case_match; lia. }
  fold l in Hr. unfold NGX_MAX_INT_T_VALUE, zlen, n, time_ok in *.
  change (current_weight (grown p)) with (current_weight p + effective_weight p).
  change (checked (grown p)) with (checked p).
  rewrite (int64_ok (_ - (0 + _))) by nia. rewrite Ok_bind, int64_ok by lia. rewrite Ok_bind.
  reflexivity.
Qed.

Lemma get_peer_none :
  (forall i p, l !! i = Some p -> usable now tried i p = false) ->
  ngx_stream_upstream_get_peer now tried g = Ok (g, tried, None).
Proof.
  intros Hno. unfold ngx_stream_upstream_get_peer. fold l.
  rewrite pick_peer_ok by (done || apply (ok_peers _ g_ok) || apply list_room || (fold l in tried_room; cbn; lia)).
  rewrite Ok_bind. pose proof (best_of_spec now tried l) as Hb.
  destruct (best_of now tried 0 l None) as [[j b]|].
  - destruct Hb as (p & (Hj & Hu & _) & _). apply Hno in Hj. congruence.
  - assert (imap (fun k => visited now tried (0 + k)) l = l) as ->.
    { apply list_eq. intros i. rewrite list_lookup_imap. destruct (l !! i) eqn:E; [|done].
      cbn. unfold visited. by rewrite (Hno _ _ E). }
    unfold l. by destruct g.
Qed.

Lemma largest_or_none :
  (exists j p, largest now tried l j p) \/
  (forall i p, l !! i = Some p -> usable now tried i p = false).
Proof.
  pose proof (best_of_spec now tried l) as H.
  destruct (best_of now tried 0 l None) as [[j b]|]; [left|by right].
  destruct H as (p & H & _). eauto.
Qed.
End get_peer.
