(* ===== verification/UpstreamInv.v ===== *)
(** * All sessions of an upstream

    The invariant of the world: in whatever order sessions start, get peers, give
    them back with or without failure and report connections, the weights stay
    balanced and bounded, the connection counts are exact, and every pointer and
    bit that a handler uses exists. *)

From S2P Require Import Prelude UpstreamWeights Upstream UpstreamSpec.

(** ** Changes of one peer *)

(** What no handler changes, and how a handler changes the number of
    connections. *)
Definition evolves (d : nat -> Z -> Z) (g g' : ngx_stream_upstream_rr_peers_t) : Prop :=
  length g'.(peer) = length g.(peer) /\
  forall i p, g.(peer) !! i = Some p ->
    exists p', g'.(peer) !! i = Some p' /\ p'.(sockaddr) = p.(sockaddr) /\
      p'.(max_conns) = p.(max_conns) /\ p'.(conns) = d i p.(conns).

Definition same (_ : nat) (c : Z) : Z := c.
Definition at_one (j : nat) (f : Z -> Z) (i : nat) (c : Z) : Z := if (i =? j)%nat then f c else c.

Lemma evolves_refl g : evolves same g g.
Proof. split; [done|]. intros i p Hp. by exists p. Qed.

(** One peer is replaced. *)
Lemma group_ok_insert g j p q :
  group_ok g -> g.(peer) !! j = Some p -> q.(weight) = p.(weight) ->
  q.(current_weight) = p.(current_weight) -> peer_ok q ->
  group_ok (g <| peer := <[j := q]> g.(peer) |>).
Proof.
  intros [H1 H2 H3 H4 H5] Hj Hw Hcw Hq.
  assert (forall f, f q = f p -> forall i, field f (<[j:=q]> (peer g)) i = field f (peer g) i) as Hf.
  { intros f Hf i. unfold field. destruct (decide (i = j)) as [->|].
    - rewrite list_lookup_insert_eq, Hj by (by eapply lookup_lt_Some). done.
    - by rewrite list_lookup_insert_ne. }
  assert (weights (<[j:=q]> (peer g)) = weights (peer g)) as Hws.
  { apply weights_eq; [apply length_insert|by apply Hf]. }
  split; simpl (peer _); simpl (number _).
  - rewrite H1. unfold zlen. by rewrite length_insert.
  - intros E. apply H2. apply length_zero_iff_nil. by rewrite <- (length_insert _ j q), E.
  - by apply Forall_insert.
  - rewrite length_insert, Hws. eapply balanced_ext; [|exact H4]. intros i _. symmetry. by apply Hf.
  - unfold zlen. by rewrite length_insert, Hws.
Qed.

Lemma evolves_insert g j p q f :
  g.(peer) !! j = Some p -> q.(sockaddr) = p.(sockaddr) -> q.(max_conns) = p.(max_conns) ->
  q.(conns) = f p.(conns) ->
  evolves (at_one j f) g (g <| peer := <[j := q]> g.(peer) |>).
Proof.
  intros Hj Ha Hm Hc. split; [by simpl (peer _); rewrite length_insert|]. simpl (peer _).
  intros i r Hr. unfold at_one. destruct (Nat.eqb_spec i j) as [->|].
  - exists q. rewrite list_lookup_insert_eq by (by eapply lookup_lt_Some).
    assert (r = p) as -> by congruence. done.
  - exists r. by rewrite list_lookup_insert_ne.
Qed.

Lemma evolves_picked now tried g j p :
  g.(peer) !! j = Some p ->
  evolves same g (g <| peer := picked now tried g j p |>).
Proof.
  intros Hj. split; [apply picked_length|]. simpl (peer (_ <| _ := _ |>)).
  intros i q Hq. rewrite (picked_lookup now tried g j p i q Hj Hq). eexists. split; [done|].
  destruct (Nat.eqb_spec i j) as [->|].
  - assert (q = p) as -> by congruence. unfold charged. by case_match.
  - unfold visited. by case_match.
Qed.

Lemma evolves_trans d1 d2 g1 g2 g3 :
  evolves d1 g1 g2 -> evolves d2 g2 g3 -> evolves (fun i c => d2 i (d1 i c)) g1 g3.
Proof.
  intros [Hl1 H1] [Hl2 H2]. split; [congruence|]. intros i p Hp.
  destruct (H1 i p Hp) as (p' & Hp' & Ha & Hm & Hc).
  destruct (H2 i p' Hp') as (p'' & Hp'' & Ha' & Hm' & Hc').
  exists p''. split; [done|]. split; [congruence|]. split; [congruence|]. by rewrite Hc', Hc.
Qed.

(** ** One attempt to get a peer *)

Definition session_room (u : upstream) (s : session) : Prop :=
  forall b g, group u b = Ok g -> zlen g.(peer) <= 64 * zlen s.(s_tried).

Lemma peer_at_ok g i p : g.(peer) !! i = Some p -> peer_at g i = Ok p.
Proof. unfold peer_at. by intros ->. Qed.

(** The peer at [j] gets a connection. *)
Lemma connect_ok g j p :
  group_ok g -> g.(peer) !! j = Some p ->
  group_ok (g <| peer := <[j := p <| conns := u64 (p.(conns) + 1) |>]> g.(peer) |>).
Proof.
  intros Hg Hj. eapply group_ok_insert; [done|done|done|done|].
  exact (Forall_lookup_1 _ _ _ _ (ok_peers _ Hg) Hj).
Qed.

Lemma usable_free now tried i p : usable now tried i p = true -> conns_full p = false.
Proof. unfold usable. destruct (conns_full p); [|done]. by rewrite andb_false_r. Qed.

Lemma try_group_ok now u s g :
  time_ok now -> group u s.(s_on_backup) = Ok g -> group_ok g ->
  zlen g.(peer) <= 64 * zlen s.(s_tried) ->
  exists g' s' found,
    try_group now u s = Ok (set_group u s.(s_on_backup) g', s', found) /\
    group_ok g' /\ s'.(s_on_backup) = s.(s_on_backup) /\
    zlen s'.(s_tried) = zlen s.(s_tried) /\
    (if found : bool then
       exists j p, g.(peer) !! j = Some p /\ conns_full p = false /\
         s'.(s_current) = Some (s.(s_on_backup), j) /\ s'.(pc_sockaddr) = Some p.(sockaddr) /\
         evolves (at_one j (fun c => u64 (c + 1))) g g'
     else evolves same g g' /\ s'.(pc_sockaddr) = s.(pc_sockaddr)).
Proof.
  intros Ht Hgrp Hg Hroom. unfold try_group. rewrite Hgrp, Ok_bind.
  destruct (single g).
  - destruct (peer g !! 0%nat) as [p|] eqn:Hp; [|by apply lookup_ge_None, Nat.le_0_r,
      length_zero_iff_nil, ok_some in Hp].
    rewrite (peer_at_ok _ _ _ Hp), Ok_bind. destruct (down p || conns_full p) eqn:E; rewrite Ok_bind.
    + exists g, (s <| s_tried := s_tried s |>), false. split; [done|]. split; [done|].
      do 2 (split; [done|]). split; [apply evolves_refl|done].
    + rewrite (peer_at_ok _ _ _ Hp), Ok_bind. eexists _, _, true. split; [reflexivity|].
      split; [by apply connect_ok|]. split; [done|]. split; [done|].
      apply orb_false_iff in E as [_ E]. exists 0%nat, p. do 4 (split; [done|]).
      by eapply evolves_insert.
  - destruct (largest_or_none now (s_tried s) g) as [(j & p & Hl)|Hno].
    + destruct (get_peer_some now (s_tried s) g Ht Hg Hroom j p Hl) as (tried' & -> & Hlen & _).
      rewrite Ok_bind. pose proof Hl as (Hj & Hu & _).
      pose proof (picked_lookup now (s_tried s) g j p j p Hj Hj) as Hq.
      rewrite Nat.eqb_refl in Hq.
      assert (peer_at (g <| peer := picked now (s_tried s) g j p |>) j
        = Ok (charged now (s_tried s) g p)) as -> by (by apply peer_at_ok).
      rewrite Ok_bind.
      eexists _, _, true. split; [reflexivity|].
      pose proof (picked_ok now (s_tried s) g Ht Hg j p Hl) as Hg'.
      split; [by apply connect_ok|]. split; [done|]. split; [done|].
      exists j, p. split; [done|]. split; [by eapply usable_free|]. split; [done|].
      pose proof (evolves_picked now (s_tried s) g j p Hj) as Hev.
      split; [simpl; unfold charged; by case_match|].
      refine (evolves_trans _ (at_one j (fun c => u64 (c + 1))) _ _ _ Hev _).
      by eapply (evolves_insert _ j (charged now (s_tried s) g p)).
    + rewrite (get_peer_none now (s_tried s) g Ht Hg Hroom Hno), Ok_bind.
      exists g, (s <| s_tried := s_tried s |>), false. split; [done|]. split; [done|].
      do 2 (split; [done|]). split; [apply evolves_refl|done].
Qed.

(** ** The invariant *)

Definition holds_peer (b : bool) (i : nat) (s : session) : Z :=
  match s.(pc_sockaddr) with
  | Some _ => if bool_decide (s.(s_current) = Some (b, i)) then 1 else 0
  | None => 0
  end.

(** The sessions that are connected to a peer. *)
Fixpoint holders (b : bool) (i : nat) (ss : list session) : Z :=
  match ss with
  | [] => 0
  | s :: ss => holds_peer b i s + holders b i ss
  end.

Lemma holders_app b i s1 s2 : holders b i (s1 ++ s2) = holders b i s1 + holders b i s2.
Proof. induction s1 as [|s s1 IH]; cbn; [done|]. rewrite IH. lia. Qed.

Lemma holders_insert b i ss k s s' :
  ss !! k = Some s ->
  holders b i (<[k := s']> ss) = holders b i ss - holds_peer b i s + holds_peer b i s'.
Proof.
  revert k. induction ss as [|s0 ss IH]; intros [|k] Hk; try done.
  - injection Hk as ->. cbn. lia.
  - change (<[S k := s']> (s0 :: ss)) with (s0 :: <[k := s']> ss). cbn [holders].
    rewrite (IH k Hk). lia.
Qed.

Definition session_ok (u : upstream) (s : session) : Prop :=
  session_room u s /\ (exists g, group u s.(s_on_backup) = Ok g) /\
  (s.(pc_sockaddr) <> None ->
     exists i g p, s.(s_current) = Some (s.(s_on_backup), i) /\
       group u s.(s_on_backup) = Ok g /\ g.(peer) !! i = Some p /\
       s.(pc_sockaddr) = Some p.(sockaddr)).

Definition limited (h : Z) (p : ngx_stream_upstream_rr_peer_t) : Prop :=
  0 <= p.(max_conns) <= NGX_MAX_INT_T_VALUE /\ (p.(max_conns) <> 0 -> h <= p.(max_conns)).

Record inv (w : world) : Prop := {
  inv_groups : forall b g, group w.(up) b = Ok g -> group_ok g;
  inv_conns : forall b g i p, group w.(up) b = Ok g -> g.(peer) !! i = Some p ->
    p.(conns) = u64 (holders b i w.(sessions)) /\ limited (holders b i w.(sessions)) p;
  inv_sessions : forall k s, w.(sessions) !! k = Some s -> session_ok w.(up) s
}.

Lemma group_set u b b' g :
  group (set_group u b g) b' = if eqb b b' then Ok g else group u b'.
Proof. by destruct b, b'. Qed.

Lemma session_ok_set u b d g g' s :
  group u b = Ok g -> evolves d g g' -> session_ok u s -> session_ok (set_group u b g') s.
Proof.
  intros Hb [Hlen Hev] (Hroom & [g1 Hg1] & Hconn). split; [|split].
  - intros b' g2. rewrite group_set. destruct (eqb_spec b b') as [<-|]; [|apply Hroom].
    intros [= <-]. unfold zlen. rewrite Hlen. by apply (Hroom b g).
  - rewrite group_set. destruct (eqb b (s_on_backup s)); eauto.
  - intros Hs. destruct (Hconn Hs) as (i & g2 & p & Hc & Hg2 & Hp & Ha).
    rewrite group_set. destruct (eqb_spec b (s_on_backup s)) as [->|]; [|eauto 10].
    assert (g2 = g) as -> by congruence.
    destruct (Hev i p Hp) as (p' & Hp' & Ha' & _). exists i, g', p'.
    do 3 (split; [done|]). by rewrite Ha, Ha'.
Qed.

(** A change of one list of peers and of one session. *)
Lemma inv_change w k s s' b d g g' :
  inv w -> w.(sessions) !! k = Some s -> group w.(up) b = Ok g -> group_ok g' ->
  evolves d g g' -> session_ok (set_group w.(up) b g') s' ->
  (forall b' i, b' <> b -> holds_peer b' i s' = holds_peer b' i s) ->
  (forall i p, g.(peer) !! i = Some p -> limited (holders b i w.(sessions)) p ->
     let h := holders b i w.(sessions) in
     let h' := h - holds_peer b i s + holds_peer b i s' in
     d i (u64 h) = u64 h' /\ limited h' p) ->
  inv (World (set_group w.(up) b g') (<[k := s']> w.(sessions))).
Proof.
  intros [Hgs Hcs Hss] Hk Hb Hg' Hev Hs' Hother Hcount. split; cbn [up sessions].
  - intros b' g1. rewrite group_set. destruct (eqb b b'); [by intros [= <-]|apply Hgs].
  - intros b' g1 i p'. rewrite group_set, (holders_insert _ _ _ _ _ _ Hk).
    destruct (eqb_spec b b') as [<-|Hne].
    + intros [= <-] Hp'. destruct Hev as [Hlen Hev].
      destruct (lookup_lt_is_Some_2 (peer g) i) as [p Hp];
        [rewrite <- Hlen; by eapply lookup_lt_Some|].
      destruct (Hev i p Hp) as (p1 & Hp1 & _ & Hm & Hc).
      assert (p1 = p') as -> by congruence.
      destruct (Hcs b g i p Hb Hp) as [Hc0 Hl]. destruct (Hcount i p Hp Hl) as [Hc' Hl'].
      rewrite Hc, Hc0. split; [done|]. unfold limited in *. by rewrite Hm.
    + intros Hg1 Hp'. rewrite (Hother b' i) by done.
      replace (holders b' i (sessions w) - holds_peer b' i s + holds_peer b' i s)
        with (holders b' i (sessions w)) by lia. by eapply Hcs.
  - intros k' s1 Hk'. destruct (decide (k' = k)) as [->|].
    + rewrite list_lookup_insert_eq in Hk' by (by eapply lookup_lt_Some). by injection Hk' as <-.
    + rewrite list_lookup_insert_ne in Hk' by done. eapply session_ok_set; [done|done|].
      by eapply Hss.
Qed.

Lemma idle_holds b i s : s.(pc_sockaddr) = None -> holds_peer b i s = 0.
Proof. unfold holds_peer. by intros ->. Qed.

Lemma set_group_same u b g : group u b = Ok g -> set_group u b g = u.
Proof.
  destruct u as [p bk], b; cbn; [|by intros [= ->]]. destruct bk; [by intros [= ->]|done].
Qed.

(** A session that is not connected may change anything else. *)
Lemma inv_idle w k s s' :
  inv w -> w.(sessions) !! k = Some s -> s.(pc_sockaddr) = None -> s'.(pc_sockaddr) = None ->
  session_ok w.(up) s' -> inv (World w.(up) (<[k := s']> w.(sessions))).
Proof.
  intros Hw Hk Hs Hs' Hok. destruct Hok as (Hr & [g Hg] & Hc).
  rewrite <- (set_group_same (up w) (s_on_backup s') g) by done.
  eapply (inv_change w k s s' _ same g g); [done|done|done|by eapply inv_groups|
    apply evolves_refl| | |].
  - rewrite set_group_same by done. by repeat split; eauto.
  - intros b' i _. by rewrite !idle_holds.
  - intros i p Hp Hl. rewrite !idle_holds by done. unfold same.
    by rewrite Z.sub_0_r, Z.add_0_r.
Qed.

Lemma limited_free h p :
  limited h p -> conns_full p = false -> p.(conns) = u64 h -> 0 <= h ->
  limited (h + 1) p.
Proof.
  unfold limited, conns_full, NGX_MAX_INT_T_VALUE. intros [Hm Hl] Hf Hc Hh. split; [done|].
  intros H0. specialize (Hl H0). rewrite Hc, u64_id in Hf by lia. lia.
Qed.

Lemma holders_nonneg b i ss : 0 <= holders b i ss.
Proof.
  induction ss as [|s ss IH]; cbn; [done|]. unfold holds_peer. repeat case_match; lia.
Qed.

(** An attempt to get a peer. *)
Lemma inv_try_group w k s now :
  inv w -> w.(sessions) !! k = Some s -> s.(pc_sockaddr) = None -> time_ok now ->
  exists u' s' found, try_group now w.(up) s = Ok (u', s', found) /\
    inv (World u' (<[k := s']> w.(sessions))) /\
    s'.(s_on_backup) = s.(s_on_backup) /\
    (found = false -> s'.(pc_sockaddr) = None).
Proof.
  intros Hw Hk Hidle Ht. pose proof (inv_sessions _ Hw _ _ Hk) as Hok.
  pose proof Hok as (Hroom & [g Hg] & _).
  pose proof (inv_groups _ Hw _ _ Hg) as Hgok.
  destruct (try_group_ok now (up w) s g Ht Hg Hgok (Hroom _ _ Hg))
    as (g' & s' & found & -> & Hg' & Hb & Htr & Hf).
  eexists _, s', found. split; [reflexivity|].
  assert (forall d, evolves d g g' -> session_room (set_group (up w) (s_on_backup s) g') s') as Hroom'.
  { intros d Hev b' g1 Hg1. rewrite Htr.
    destruct (session_ok_set _ _ _ _ _ _ Hg Hev Hok) as [Hr _]. by apply (Hr b' g1). }
  destruct found.
  - destruct Hf as (j & p & Hj & Hfree & Hc & Ha & Hev). split; [|split; [done|done]].
    eapply (inv_change w k s s' _ _ g g'); [done|done|done|done|done| | |].
    + split; [by eapply Hroom'|]. rewrite Hb. split.
      { exists g'. by rewrite group_set, eqb_reflx. }
      intros _. destruct Hev as [_ Hev]. destruct (Hev j p Hj) as (p' & Hp' & Ha' & _).
      exists j, g', p'. split; [done|]. rewrite group_set, eqb_reflx.
      do 2 (split; [done|]). by rewrite Ha, Ha'.
    + intros b' i Hne. rewrite (idle_holds _ _ s) by done. unfold holds_peer. rewrite Ha, Hc.
      rewrite bool_decide_eq_false_2; [done|]. by intros [= <-].
    + intros i q Hq Hl. rewrite (idle_holds _ _ s) by done. unfold holds_peer. rewrite Ha, Hc.
      unfold at_one. destruct (Nat.eqb_spec i j) as [->|Hne].
      * rewrite bool_decide_eq_true_2 by done. rewrite u64_add, Z.sub_0_r. split; [done|].
        assert (q = p) as -> by congruence.
        eapply limited_free; [done|done| |apply holders_nonneg].
        by apply (inv_conns _ Hw _ _ _ _ Hg Hq).
      * rewrite bool_decide_eq_false_2 by (intros [= ->]; done). by rewrite Z.sub_0_r, Z.add_0_r.
  - destruct Hf as [Hev Hp]. split; [|split; [done|by rewrite Hp, Hidle]].
    eapply (inv_change w k s s' _ _ g g'); [done|done|done|done|done| | |].
    + split; [by eapply Hroom'|]. rewrite Hb. split.
      { exists g'. by rewrite group_set, eqb_reflx. }
      rewrite Hp, Hidle. done.
    + intros b' i _. rewrite !idle_holds by (rewrite ?Hp; done). done.
    + intros i q Hq Hl. rewrite !idle_holds by (rewrite ?Hp; done).
      unfold same. by rewrite Z.sub_0_r, Z.add_0_r.
Qed.

(** ** The handlers *)

Lemma group_small g : group_ok g -> 1 <= zlen g.(peer) <= NGX_MAX_INT_T_VALUE.
Proof.
  intros [_ H2 H3 _ H5]. assert (1 <= zlen (peer g)).
  { unfold zlen. destruct (peer g); [done|]. cbn. lia. }
  assert (1 <= weights (peer g)); [|nia].
  destruct (peer g) as [|p l]; [done|]. apply Forall_cons in H3 as [(? & _) H3].
  apply weights_nonneg in H3. rewrite weights_cons. lia.
Qed.

Lemma words_ok n : 0 <= n <= NGX_MAX_INT_T_VALUE -> words n = (n + 63) / 64.
Proof. unfold words, NGX_MAX_INT_T_VALUE. intros. by rewrite u64_id by lia. Qed.

Lemma start_ok w : inv w -> session_ok w.(up) (ngx_stream_upstream_init_round_robin_peer w.(up)).
Proof.
  intros Hw. split; [|split; [by exists (primary (up w))|done]].
  intros b g Hg. pose proof (inv_groups _ Hw b g Hg) as Hok.
  pose proof (inv_groups _ Hw false _ eq_refl) as Hp.
  pose proof (group_small _ Hok). pose proof (group_small _ Hp).
  unfold ngx_stream_upstream_init_round_robin_peer. cbn [s_tried].
  set (n := match backup (up w) with Some _ => _ | None => _ end).
  assert (zlen (peer g) <= n <= NGX_MAX_INT_T_VALUE) as Hn.
  { unfold n. rewrite (ok_number _ Hp). destruct b; cbn in Hg.
    - destruct (backup (up w)); [|done]. injection Hg as ->. rewrite (ok_number _ Hok).
      destruct (Z.ltb_spec (zlen (peer (primary (up w)))) (zlen (peer g))); lia.
    - injection Hg as <-. destruct (backup (up w)) as [g1|] eqn:E; [|lia].
      pose proof (inv_groups _ Hw true g1) as Hb. cbn in Hb. rewrite E in Hb.
      specialize (Hb eq_refl). rewrite (ok_number _ Hb). pose proof (group_small _ Hb).
      destruct (Z.ltb_spec (zlen (peer (primary (up w)))) (zlen (peer g1))); lia. }
  destruct (Z.leb_spec n 64); [by rewrite zlen_cons, zlen_nil; lia|].
  rewrite zlen_replicate, words_ok by lia. pose proof (Z.div_mod (n + 63) 64).
  pose proof (Z.mod_pos_bound (n + 63) 64). lia.
Qed.

Lemma inv_start w : inv w -> exists w', exec w Start = Ok w' /\ inv w'.
Proof.
  intros Hw. eexists. split; [reflexivity|]. pose proof (start_ok w Hw) as Hs.
  destruct Hw as [Hg Hc Hss]. split; cbn [up sessions]; [done| |].
  - intros b g i p Hb Hp. rewrite holders_app. cbn [holders]. rewrite (idle_holds b i) by done.
    rewrite !Z.add_0_r. by eapply Hc.
  - intros k s Hk. apply lookup_app_Some in Hk as [Hk|[_ Hk]]; [by eapply Hss|].
    by apply list_lookup_singleton_Some in Hk as [_ <-].
Qed.

Lemma is_time_ok now : is_time now = true -> time_ok now.
Proof. unfold is_time, time_ok. lia. Qed.

Lemma inv_get w k now :
  inv w -> enabled w (Get k now) = true -> exists w', exec w (Get k now) = Ok w' /\ inv w'.
Proof.
  intros Hw He. apply andb_true_iff in He as [Ht He]. apply is_time_ok in Ht.
  unfold exec, session_at. destruct (sessions w !! k) as [s|] eqn:Hk; [|done].
  apply bool_decide_eq_true in He. rewrite Ok_bind.
  unfold ngx_stream_upstream_get_round_robin_peer.
  destruct (inv_try_group w k s now Hw Hk He Ht) as (u1 & s1 & found & -> & Hw1 & Hb & Hi).
  rewrite Ok_bind. destruct found; [by eexists|].
  destruct (if s_on_backup s1 then None else backup u1) as [nxt|] eqn:Hn; [|by eexists].
  destruct (s_on_backup s1) eqn:Hb1; [done|].
  pose proof (lookup_lt_Some _ _ _ Hk) as Hlt.
  assert (<[k:=s1]> (sessions w) !! k = Some s1) as Hk1 by (by apply list_lookup_insert_eq).
  pose proof (inv_sessions _ Hw1 _ _ Hk1) as (Hroom & _ & _). cbn [up] in Hroom.
  assert (group u1 true = Ok nxt) as Hgn by (cbn; by rewrite Hn).
  pose proof (inv_groups _ Hw1 _ _ Hgn) as Hnok. pose proof (group_small _ Hnok) as Hsmall.
  pose proof (Hroom _ _ Hgn) as Hrn.
  assert (0 <= words (number nxt) <= zlen (s_tried s1)) as Hwords.
  { rewrite (ok_number _ Hnok), words_ok by lia. split; [apply Z.div_pos; lia|].
    assert ((zlen (peer nxt) + 63) / 64 < zlen (s_tried s1) + 1); [|lia].
    apply Z.div_lt_upper_bound; lia. }
  destruct (blit_ok (s_tried s1) 0 (replicate (Z.to_nat (words (number nxt))) 0)) as [tried Hblit];
    [done|rewrite zlen_replicate; lia|].
  rewrite Hblit, Ok_bind. apply zlen_blit in Hblit.
  set (s2 := s1 <| s_on_backup := true |> <| s_tried := tried |>).
  specialize (Hi eq_refl).
  assert (inv (World u1 (<[k:=s2]> (sessions w)))) as Hw2.
  { rewrite <- (list_insert_insert_eq (sessions w) k s2 s1).
    eapply (inv_idle (World u1 (<[k:=s1]> (sessions w))) k s1 s2); [done|done|done|done|].
    split; [|split; [by exists nxt|intros H; by destruct H]].
    intros b g Hg. cbn. rewrite Hblit. by apply (Hroom b g). }
  destruct (inv_try_group _ k s2 now Hw2) as (u3 & s3 & found & E & Hw3 & _);
    [by apply list_lookup_insert_eq|done|done|].
  cbn [up sessions] in E, Hw3. rewrite E, !Ok_bind. eexists. split; [reflexivity|].
  by rewrite list_insert_insert_eq in Hw3.
Qed.

Lemma peer_failed_ok now p :
  time_ok now -> peer_ok p -> p.(weight) <= NGX_MAX_INT_T_VALUE -> peer_ok (peer_failed now p).
Proof.
  intros Ht (Hw & He & Hc & Hm) Hmax. unfold peer_failed, NGX_MAX_INT_T_VALUE in *.
  split; [done|]. split; [|done]. cbn [weight].
  set (ew := if max_fails _ =? 0 then _ else _).
  assert (ew <= weight p).
  { unfold ew. cbn. destruct (Z.eqb_spec (max_fails p) 0); [lia|].
    pose proof (Z.div_pos (weight p) (max_fails p)).
    assert (weight p / max_fails p <= weight p) by (apply Z.div_le_upper_bound; nia).
    rewrite signed64_id; lia. }
  cbn in *. destruct (Z.ltb_spec ew 0); lia.
Qed.

Lemma peer_passed_ok p : peer_ok p -> peer_ok (peer_passed p).
Proof. unfold peer_passed. by case_match. Qed.

(** A handler that changes the peer of a connected session. *)
Lemma inv_update w k s s' (f : ngx_stream_upstream_rr_peer_t -> ngx_stream_upstream_rr_peer_t) c :
  inv w -> w.(sessions) !! k = Some s -> s.(pc_sockaddr) <> None ->
  s'.(s_current) = s.(s_current) -> s'.(s_tried) = s.(s_tried) ->
  s'.(s_on_backup) = s.(s_on_backup) ->
  (c = 1 /\ s'.(pc_sockaddr) = None \/ c = 0 /\ s'.(pc_sockaddr) = s.(pc_sockaddr)) ->
  (forall p, (f p).(weight) = p.(weight) /\ (f p).(current_weight) = p.(current_weight) /\
     (f p).(sockaddr) = p.(sockaddr) /\ (f p).(max_conns) = p.(max_conns) /\
     (p.(conns) = u64 p.(conns) -> (f p).(conns) = u64 (p.(conns) - c)) /\
     (peer_ok p -> p.(weight) <= NGX_MAX_INT_T_VALUE -> peer_ok (f p))) ->
  exists u, update_current w.(up) s f = Ok u /\ inv (World u (<[k := s']> w.(sessions))).
Proof.
  intros Hw Hk Hconn Hcur Htr Hon Hc Hf. pose proof (inv_sessions _ Hw _ _ Hk) as Hok.
  pose proof Hok as (Hroom & _ & Hp). destruct (Hp Hconn) as (i & g & p & Hsc & Hg & Hi & Ha).
  pose proof (inv_groups _ Hw _ _ Hg) as Hgok.
  destruct (Hf p) as (Hfw & Hfcw & Hfa & Hfm & Hfc & Hfok).
  unfold update_current. rewrite Hsc, Hg, Ok_bind, (peer_at_ok _ _ _ Hi), Ok_bind.
  eexists. split; [reflexivity|].
  pose proof (inv_conns _ Hw _ _ _ _ Hg Hi) as [Hcp _].
  assert (u64 (conns p) = conns p) as Hu by (rewrite Hcp; unfold u64; by rewrite Z.mod_mod).
  assert (evolves (at_one i (fun x => u64 (x - c))) g (g <| peer := <[i := f p]> (peer g) |>)) as Hev.
  { eapply evolves_insert; [done|done|done|]. by apply Hfc. }
  eapply (inv_change w k s s' _ _ g); [done|done|done| |exact Hev| | |].
  - eapply group_ok_insert; [done|done|done|done|]. pose proof (ok_peers _ Hgok) as Hps.
    apply Hfok; [by eapply Forall_lookup_1|]. pose proof (group_small _ Hgok).
    pose proof (ok_room _ Hgok). assert (weight p <= weights (peer g)); [|nia].
    rewrite <- (field_Some weight (peer g) i p Hi). apply sigma_term; [|by eapply lookup_lt_Some].
    intros m _. unfold field. destruct (peer g !! m) eqn:E; [|done].
    eapply Forall_lookup_1 in Hps as (? & _); [|done]. lia.
  - destruct (session_ok_set _ _ _ _ _ _ Hg Hev Hok) as (Hr & Hgr & Hpp).
    split; [|split].
    + intros b g1 Hg1. rewrite Htr. by apply (Hr b g1).
    + by rewrite Hon.
    + intros H'. destruct Hc as [[_ Hc]|[_ Hc]]; [by destruct H'|].
      rewrite Hc, Hcur, Hon. by apply Hpp.
  - intros b' m Hne. destruct Hc as [[_ Hc]|[_ Hc]]; unfold holds_peer; rewrite Hc, ?Hcur, Hsc.
    + destruct (pc_sockaddr s); [|done]. rewrite bool_decide_eq_false_2; [done|]. by intros [= <-].
    + done.
  - intros m q Hq Hl.
    assert (holds_peer (s_on_backup s) m s' = holds_peer (s_on_backup s) m s
      - (if (m =? i)%nat then c else 0)) as E.
    { unfold holds_peer. rewrite Hcur, Hsc.
      destruct Hc as [[-> ->]|[-> ->]]; [|by destruct (m =? i)%nat; lia].
      destruct (pc_sockaddr s); [|done]. destruct (Nat.eqb_spec m i) as [->|Hne].
      - by rewrite bool_decide_eq_true_2.
      - rewrite bool_decide_eq_false_2; [done|]. by intros [= ->]. }
    cbv zeta. rewrite E. unfold at_one. destruct (m =? i)%nat.
    + unfold limited in *. split; [rewrite u64_sub; f_equal; lia|]. lia.
    + unfold limited in *. split; [f_equal; lia|]. lia.
Qed.

Lemma leave_eq p f :
  (f p).(weight) = p.(weight) -> (f p).(current_weight) = p.(current_weight) ->
  (f p).(sockaddr) = p.(sockaddr) -> (f p).(max_conns) = p.(max_conns) ->
  (f p).(conns) = p.(conns) ->
  (peer_ok p -> p.(weight) <= NGX_MAX_INT_T_VALUE -> peer_ok (f p)) ->
  let q := (f p) <| conns := u64 ((f p).(conns) - 1) |> in
  q.(weight) = p.(weight) /\ q.(current_weight) = p.(current_weight) /\
  q.(sockaddr) = p.(sockaddr) /\ q.(max_conns) = p.(max_conns) /\
  (p.(conns) = u64 p.(conns) -> q.(conns) = u64 (p.(conns) - 1)) /\
  (peer_ok p -> p.(weight) <= NGX_MAX_INT_T_VALUE -> peer_ok q).
Proof.
  intros H1 H2 H3 H4 H5 H6. cbv zeta. rewrite H5.
  exact (conj H1 (conj H2 (conj H3 (conj H4 (conj (fun _ => eq_refl) H6))))).
Qed.

Lemma inv_free w k now state :
  inv w -> enabled w (Free k now state) = true ->
  exists w', exec w (Free k now state) = Ok w' /\ inv w'.
Proof.
  intros Hw He. apply andb_true_iff in He as [Ht He]. apply is_time_ok in Ht.
  unfold exec, session_at. destruct (sessions w !! k) as [s|] eqn:Hk; [|done].
  apply bool_decide_eq_true in He. rewrite Ok_bind.
  pose proof (inv_sessions _ Hw _ _ Hk) as (_ & [g Hg] & _).
  unfold ngx_stream_upstream_free_round_robin_peer. rewrite Hg, Ok_bind.
  destruct (single g).
  - destruct (inv_update w k s (s <| pc_tries := 0 |> <| pc_sockaddr := None |>)
      (fun p => p <| conns := u64 (p.(conns) - 1) |>) 1 Hw Hk He) as (u & -> & Hu);
      [done|done|done|by left|by intros p; apply (leave_eq p id)|].
    rewrite !Ok_bind. by eexists.
  - set (s' := if pc_tries s =? 0 then s else s <| pc_tries := pc_tries s - 1 |>).
    match goal with |- context [update_current _ _ ?f] =>
      destruct (inv_update w k s (s' <| pc_sockaddr := None |>) f 1 Hw Hk He) as (u & -> & Hu)
    end; [by unfold s'; case_match..|by left| |].
    + intros p. apply (leave_eq p (fun p => if negb (Z.land state NGX_PEER_FAILED =? 0)
        then peer_failed now p else peer_passed p));
        destruct (negb (Z.land state NGX_PEER_FAILED =? 0)); try done;
        try (unfold peer_passed; by case_match); intros; by (apply peer_failed_ok || apply peer_passed_ok).
    + rewrite !Ok_bind. by eexists.
Qed.

Lemma inv_notify w k type sock_stream :
  inv w -> enabled w (Notify k type sock_stream) = true ->
  exists w', exec w (Notify k type sock_stream) = Ok w' /\ inv w'.
Proof.
  intros Hw He. unfold enabled in He. unfold exec, session_at.
  destruct (sessions w !! k) as [s|] eqn:Hk; [|done].
  apply bool_decide_eq_true in He. rewrite Ok_bind.
  unfold ngx_stream_upstream_notify_round_robin_peer.
  destruct ((type =? NGX_STREAM_UPSTREAM_NOTIFY_CONNECT) && sock_stream).
  - destruct (inv_update w k s s peer_passed 0 Hw Hk He) as (u & -> & Hu);
      [done|done|done|by right| |].
    + intros p. rewrite Z.sub_0_r. unfold peer_passed. by case_match.
    + rewrite Ok_bind. eexists. split; [reflexivity|]. by rewrite list_insert_id in Hu.
  - rewrite Ok_bind. eexists. split; [reflexivity|]. by destruct w.
Qed.

Lemma inv_exec w e :
  inv w -> enabled w e = true -> exists w', exec w e = Ok w' /\ inv w'.
Proof.
  destruct e; intros Hw He;
    [by apply inv_start|by apply inv_get|by apply inv_free|by apply inv_notify].
Qed.
