(* ===== verification/UpstreamMain.v ===== *)
(** * Properties of the load balancing

    The world that a configuration starts from satisfies the invariant; what
    follows for every history, and that a healthy upstream serves its peers in
    the proportion of their weights. *)

From S2P Require Import Prelude Numeric NumericSpec UpstreamWeights Upstream UpstreamSpec UpstreamInv.

(** ** From the configuration *)

Definition server_ok (s : ngx_stream_upstream_server_t) : Prop :=
  1 <= s.(s_weight) /\ 0 <= s.(s_max_conns) <= NGX_MAX_INT_T_VALUE /\ 0 <= s.(s_max_fails).

(** A server that a directive defined. *)
Definition configured (s : ngx_stream_upstream_server_t) : Prop :=
  exists flags addrs values, ngx_stream_upstream_server flags addrs values = Ok (Some s).

Lemma atoi_range l n :
  ngx_atoi l = Ok n -> n <> NGX_ERROR -> 0 <= n <= NGX_MAX_INT_T_VALUE.
Proof.
  rewrite ngx_atoi_decimal. intros [= <-] H. destruct (decimal l) as [d|] eqn:E; [|done].
  by apply decimal_nonneg in E.
Qed.

Lemma server_parameter_ok flags value s s' :
  server_parameter flags value s = Ok (Some s') -> server_ok s -> server_ok s'.
Proof.
  unfold server_parameter. intros H (Hw & Hc & Hf).
  destruct (after_prefix (str "weight=") value) as [l|].
  { destruct (negb (negb _)); [done|]. apply bind_Ok in H as (n & Hn & H).
    destruct (Z.eqb_spec n NGX_ERROR); [done|]. destruct (Z.eqb_spec n 0); [done|].
    injection H as <-. apply atoi_range in Hn; [|done]. split; [cbn; lia|done]. }
  destruct (after_prefix (str "max_conns=") value) as [l|].
  { destruct (negb (negb _)); [done|]. apply bind_Ok in H as (n & Hn & H).
    destruct (Z.eqb_spec n NGX_ERROR); [done|].
    injection H as <-. apply atoi_range in Hn; [|done]. split; [done|]. by split. }
  destruct (after_prefix (str "max_fails=") value) as [l|].
  { destruct (negb (negb _)); [done|]. apply bind_Ok in H as (n & Hn & H).
    destruct (Z.eqb_spec n NGX_ERROR); [done|].
    injection H as <-. apply atoi_range in Hn; [|done]. split; [done|]. split; [done|]. cbn; lia. }
  destruct (after_prefix (str "fail_timeout=") value) as [l|].
  { destruct (negb (negb _)); [done|]. apply bind_Ok in H as (n & Hn & H).
    destruct (Z.eqb_spec n NGX_ERROR); [done|]. by injection H as <-. }
  destruct (is_word (str "backup") value).
  { destruct (negb _); [|done]. by injection H as <-. }
  destruct (is_word (str "down") value); [|done].
  destruct (negb _); [|done]. by injection H as <-.
Qed.

Lemma configured_ok s : configured s -> server_ok s.
Proof.
  intros (flags & addrs & values & H). unfold ngx_stream_upstream_server in H.
  assert (server_ok (Server addrs 1 0 1 10 false false)) as Hs.
  { unfold server_ok, NGX_MAX_INT_T_VALUE. cbn. lia. }
  revert H Hs. generalize (Server addrs 1 0 1 10 false false). induction values as [|v values IH].
  - by intros s0 [= <-].
  - intros s0 H Hs. cbn in H. apply bind_Ok in H as ([s1|] & H1 & H); [|done].
    apply (IH s1); [done|]. by eapply server_parameter_ok.
Qed.

Lemma count_servers_number b servers n w t :
  u64 n = n ->
  (count_servers b servers n w t).1.1 = u64 (n + zlen (make_peers b servers)).
Proof.
  revert n w t. induction servers as [|s servers IH]; intros n w t Hn; cbn.
  - by rewrite zlen_nil, Z.add_0_r.
  - destruct (eqb (s_backup s) b); cbn [negb]; [|by apply IH]. rewrite IH.
    + rewrite u64_add, zlen_app.
      replace (zlen (server_peers s)) with (zlen (s_addrs s)); [f_equal; lia|].
      unfold zlen, server_peers. by rewrite length_map.
    + unfold u64. by rewrite Z.mod_mod.
Qed.

Lemma make_peers_fresh b servers p :
  p ∈ make_peers b servers -> exists s addr, s ∈ servers /\ addr ∈ s.(s_addrs) /\
    p = Peer addr 0 s.(s_weight) s.(s_weight) 0 s.(s_max_conns) 0 0 0
          s.(s_max_fails) s.(s_fail_timeout) s.(s_down).
Proof.
  induction servers as [|s servers IH]; cbn; [by intros ?%elem_of_nil|].
  destruct (eqb (s_backup s) b); cbn [negb].
  - intros [Hp|Hp]%elem_of_app.
    + apply list_elem_of_fmap in Hp as (addr & -> & Ha). exists s, addr.
      split; [by left|done].
    + destruct (IH Hp) as (s' & addr & H & ?). exists s', addr. split; [by right|done].
  - intros Hp. destruct (IH Hp) as (s' & addr & H & ?). exists s', addr. split; [by right|done].
Qed.

(** The sums of the configuration fit in the integers that hold them. *)
Definition servers_room (servers : list ngx_stream_upstream_server_t) : Prop :=
  forall b, zlen (make_peers b servers) * weights (make_peers b servers) <= NGX_MAX_INT_T_VALUE.

Lemma make_peers_ok b servers : Forall server_ok servers -> Forall peer_ok (make_peers b servers).
Proof.
  intros Hs. apply Forall_forall. intros p Hp.
  destruct (make_peers_fresh b servers p Hp) as (s & addr & Hin & _ & ->).
  rewrite Forall_forall in Hs. destruct (Hs s Hin) as (? & ? & ?).
  unfold peer_ok, time_ok. cbn. lia.
Qed.

Lemma fresh_group_ok b servers n w t sg wd :
  Forall server_ok servers -> servers_room servers ->
  n = (count_servers b servers 0 0 0).1.1 -> n <> 0 ->
  group_ok (Peers n w t sg wd (make_peers b servers)) /\ n = zlen (make_peers b servers).
Proof.
  intros Hs Hr Hn H0. pose proof (make_peers_ok b servers Hs) as Hok. specialize (Hr b).
  rewrite count_servers_number in Hn by done. cbn in Hn.
  assert (zlen (make_peers b servers) <= NGX_MAX_INT_T_VALUE) as Hlen.
  { destruct (make_peers b servers) as [|p l] eqn:E; [done|].
    pose proof Hok as Hok'. apply Forall_cons in Hok' as [(? & _) Hl].
    pose proof (weights_nonneg l Hl). rewrite weights_cons in Hr.
    pose proof (zlen_nonneg (p :: l)). nia. }
  pose proof (zlen_nonneg (make_peers b servers)). unfold NGX_MAX_INT_T_VALUE in *.
  rewrite u64_id in Hn by lia. split; [|done]. split; cbn [number peer]; [done| |done| |done].
  - intros E. by rewrite E in Hn.
  - eapply balanced_ext; [|apply balanced_start; by apply weights_nonneg].
    intros i Hi. unfold field. destruct (make_peers b servers !! i) as [p|] eqn:E; [|done].
    apply list_elem_of_lookup_2, make_peers_fresh in E as (s & addr & _ & _ & ->). done.
Qed.

Lemma inv_init servers u :
  Forall server_ok servers -> servers_room servers ->
  ngx_stream_upstream_init_round_robin servers = Some u -> inv (World u []).
Proof.
  intros Hs Hr Hu.
  assert (forall b g, group u b = Ok g -> group_ok g /\ g.(peer) = make_peers b servers) as Hg.
  { unfold ngx_stream_upstream_init_round_robin in Hu.
    destruct (count_servers false servers 0 0 0) as [[n w] t] eqn:E.
    destruct (count_servers true servers 0 0 0) as [[n' w'] t'] eqn:E'.
    destruct (Z.eqb_spec n 0); [done|].
    destruct (Z.eqb_spec n' 0); injection Hu as <-; intros [] g; cbn; intros [= <-];
      (split; [|reflexivity]); (eapply fresh_group_ok; [done|done| |done]);
      by rewrite ?E, ?E'. }
  split; cbn [up sessions holders].
  - intros b g H. by apply Hg in H as [? _].
  - intros b g i p H Hp. apply Hg in H as [_ E]. rewrite E in Hp.
    apply list_elem_of_lookup_2, make_peers_fresh in Hp as (s & addr & Hin & _ & ->).
    rewrite Forall_forall in Hs. destruct (Hs s Hin) as (? & ? & ?).
    split; [done|]. unfold limited. cbn. split; [done|lia].
  - intros k s Hk. done.
Qed.

(** The worlds that events lead to. *)
Inductive reachable (u : upstream) : world -> Prop :=
| reachable_start : reachable u (World u [])
| reachable_event w e w' :
    reachable u w -> enabled w e = true -> exec w e = Ok w' -> reachable u w'.

Lemma reachable_inv servers u w :
  Forall configured servers -> servers_room servers ->
  ngx_stream_upstream_init_round_robin servers = Some u -> reachable u w -> inv w.
Proof.
  intros Hs Hr Hu. induction 1 as [|w e w' Hw IH He Hx].
  - eapply inv_init; [|done|done]. eapply Forall_impl; [exact Hs|]. apply configured_ok.
  - destruct (inv_exec w e IH He) as (w1 & Hx' & Hw1). congruence.
Qed.

(** C33: For servers that [server] directives define, if in each of the two lists the number
    of peers times the sum of their weights fits in a signed integer of 64 bits (the
    directive does not check that: [weights_overflow]): whatever the sessions do (start, get
    peers at any time, give them back as failed or not, in any interleaving), no handler
    overflows an integer or uses a pointer or a bit that does not exist. In each list of
    peers the current weights add up to zero and stay within the total weight times the
    number of the other peers; the effective weights stay between zero and the weights; the
    number of connections of a peer is that of the sessions that hold it, and never exceeds
    a configured limit. *)
Theorem upstream_invariant servers u w :
  Forall configured servers -> servers_room servers ->
  ngx_stream_upstream_init_round_robin servers = Some u -> reachable u w ->
  (forall e, enabled w e = true -> exists w', exec w e = Ok w') /\
  (forall b g, group w.(up) b = Ok g ->
     let n := length g.(peer) in
     let W := weights g.(peer) in
     sigma n (field current_weight g.(peer)) = 0 /\
     forall i p, g.(peer) !! i = Some p ->
       - W * (Z.of_nat n - 1) <= p.(current_weight) <= W * (Z.of_nat n - 1) /\
       0 <= p.(effective_weight) <= p.(weight) /\
       p.(conns) = u64 (holders b i w.(sessions)) /\
       (p.(max_conns) <> 0 -> holders b i w.(sessions) <= p.(max_conns))).
Proof.
  intros Hs Hr Hu Hw. apply (reachable_inv servers) in Hw; [|done..].
  split; [intros e He; destruct (inv_exec w e Hw He) as (w' & ? & _); eauto|].
  intros b g Hg. pose proof (inv_groups _ Hw _ _ Hg) as Hok. cbv zeta.
  split; [apply (ok_balanced _ Hok)|]. intros i p Hp.
  destruct (inv_conns _ Hw _ _ _ _ Hg Hp) as [Hc [_ Hl]].
  pose proof (ok_peers _ Hok) as Hps. eapply Forall_lookup_1 in Hps as (_ & ? & _); [|done].
  split; [|done]. rewrite <- (field_Some current_weight _ _ _ Hp).
  apply balanced_bound; [apply (ok_balanced _ Hok)|by eapply lookup_lt_Some].
Qed.

(** ** An example *)

Definition servers_example : list ngx_stream_upstream_server_t :=
  [Server [[1]] 5 0 1 10 false false; Server [[2]; [3]] 1 2 1 10 false false;
   Server [[4]] 1 0 1 10 false true].

Definition upstream_example : upstream :=
  default (Upstream (Peers 0 0 0 false false []) None)
    (ngx_stream_upstream_init_round_robin servers_example).

Definition all_flags : Z := 0x013e.

Lemma servers_example_configured : Forall configured servers_example.
Proof.
  apply Forall_cons_2; [|apply Forall_cons_2; [|apply Forall_cons_2; [|apply Forall_nil_2]]].
  - by exists all_flags, [[1]], [str "weight=5"].
  - by exists all_flags, [[2]; [3]], [str "max_conns=2"].
  - by exists all_flags, [[4]], [str "backup"].
Qed.

Lemma servers_example_room : servers_room servers_example.
Proof. by intros []. Qed.

(** Runs events that are enabled. *)
Fixpoint exec_all (w : world) (es : list event) : res world :=
  match es with
  | [] => Ok w
  | e :: es => if enabled w e then w ← exec w e; exec_all w es else Fault
  end.

Lemma exec_all_reachable u w es w' :
  reachable u w -> exec_all w es = Ok w' -> reachable u w'.
Proof.
  revert w. induction es as [|e es IH]; intros w Hw; cbn; [by intros [= <-]|].
  destruct (enabled w e) eqn:He; [|done]. intros H. apply bind_Ok in H as (w1 & H1 & H).
  eapply IH; [|done]. by eapply reachable_event.
Qed.

(** Two sessions; the first peer fails. *)
Definition events_example : list event :=
  [Start; Start; Get 0 100; Get 1 100; Free 0 101 4; Get 0 102].

Definition world_example : world :=
  match exec_all (World upstream_example []) events_example with
  | Ok w => w
  | _ => World upstream_example []
  end.

Lemma upstream_invariant_witness :
  map current_weight world_example.(up).(primary).(peer) = [-4; 1; 3] /\
  sigma 3 (field current_weight world_example.(up).(primary).(peer)) = 0 /\
  holders false 1 world_example.(sessions) <= 2.
Proof.
  destruct (upstream_invariant servers_example upstream_example world_example) as [_ H].
  - apply servers_example_configured.
  - apply servers_example_room.
  - reflexivity.
  - apply (exec_all_reachable _ _ events_example _ (reachable_start _)). by vm_compute.
  - destruct (H false _ eq_refl) as [H0 H1]. split; [reflexivity|]. split; [exact H0|].
    destruct (H1 1%nat _ eq_refl) as (_ & _ & _ & Hl). by apply Hl.
Defined.

(** Without room for the sum of the weights a handler overflows: two servers with the
    largest weight that the directive accepts, and the first session. *)
Definition heavy_servers : list ngx_stream_upstream_server_t :=
  [Server [[1]] 9223372036854775807 0 1 10 false false; Server [[2]] 9223372036854775807 0 1 10 false false].

Lemma weights_overflow :
  Forall configured heavy_servers /\
  exists u, ngx_stream_upstream_init_round_robin heavy_servers = Some u /\
    exec_all (World u []) [Start; Get 0 100] = Fault.
Proof.
  split.
  - apply Forall_cons_2; [|apply Forall_cons_2; [|apply Forall_nil_2]].
    + by exists all_flags, [[1]], [str "weight=9223372036854775807"].
    + by exists all_flags, [[2]], [str "weight=9223372036854775807"].
  - eexists. split; [reflexivity|]. by vm_compute.
Qed.

(** ** Choosing *)

(** C34: The choice of a peer. If the list has a peer that the session has not
    tried, that is not down, not switched off by failures and not full, the first
    of those with the largest sum of current and effective weight is chosen and
    marked as tried; every usable peer has gained its effective weight, and the
    chosen one has paid the sum of these. Otherwise there is no peer and nothing
    has changed. The list keeps its invariant. *)
Theorem get_peer_choice now tried g :
  time_ok now -> group_ok g -> zlen g.(peer) <= 64 * zlen tried ->
  exists g' tried' r,
    ngx_stream_upstream_get_peer now tried g = Ok (g', tried', r) /\ group_ok g' /\
    match r with
    | Some j => exists p, largest now tried g.(peer) j p /\
        (forall k, tried_at tried' k = (k =? j)%nat || tried_at tried k) /\
        forall i q, g.(peer) !! i = Some q ->
          exists q', g'.(peer) !! i = Some q' /\
            q'.(current_weight) = q.(current_weight) + gain now tried i q
              - (if (i =? j)%nat then gains now tried 0 g.(peer) else 0) /\
            q'.(effective_weight) = (if usable now tried i q
              then Z.min q.(weight) (q.(effective_weight) + 1) else q.(effective_weight))
    | None => g' = g /\ tried' = tried /\
        forall i p, g.(peer) !! i = Some p -> usable now tried i p = false
    end.
Proof.
  intros Ht Hg Hroom. destruct (largest_or_none now tried g) as [(j & p & Hl)|Hno].
  - destruct (get_peer_some now tried g Ht Hg Hroom j p Hl) as (tried' & -> & _ & Hbits).
    eexists _, tried', (Some j). split; [done|].
    split; [by apply (picked_ok now tried g Ht Hg)|]. exists p. split; [done|]. split; [done|].
    intros i q Hq. pose proof Hl as (Hj & Hu & _).
    eexists. split; [exact (picked_lookup now tried g j p i q Hj Hq)|].
    pose proof (ok_peers _ Hg) as Hps. eapply Forall_lookup_1 in Hps as (_ & He & _); [|exact Hq].
    assert ((if effective_weight q <? weight q then effective_weight q + 1 else effective_weight q)
      = Z.min (weight q) (effective_weight q + 1)) as Hmin.
    { destruct (Z.ltb_spec (effective_weight q) (weight q)); lia. }
    unfold gain. destruct (Nat.eqb_spec i j) as [->|].
    + assert (q = p) as -> by congruence. rewrite Hu. rewrite <- Hmin. unfold charged.
      by destruct (fail_timeout _ <? _).
    + unfold visited. destruct (usable now tried i q); [|by rewrite Z.add_0_r, Z.sub_0_r].
      split; [cbn; lia|exact Hmin].
  - rewrite (get_peer_none now tried g Ht Hg Hroom Hno).
    by exists g, tried, None.
Qed.

Lemma get_peer_choice_witness :
  exists g' tried',
    ngx_stream_upstream_get_peer 200 [1] upstream_example.(primary) = Ok (g', tried', Some 1%nat) /\
    tried_at tried' 1 = true.
Proof.
  pose proof (inv_init servers_example upstream_example) as Hi.
  destruct (get_peer_choice 200 [1] upstream_example.(primary)) as (g' & tried' & r & H & _ & Hr).
  - by unfold time_ok.
  - apply (inv_groups _ (Hi ltac:(eapply Forall_impl; [apply servers_example_configured|
      apply configured_ok]) servers_example_room eq_refl) false). reflexivity.
  - by vm_compute.
  - assert (r = Some 1%nat) as -> by (vm_compute in H; congruence).
    exists g', tried'. split; [done|]. destruct Hr as (p & _ & Hb & _). by rewrite Hb.
Defined.
