(* ===== verification/UpstreamFair.v ===== *)
(** * Fairness

    While no peer fails and none is limited, every peer of a list is chosen in the proportion of its
    weight: never a whole session ahead of its share, and exactly its share
    whenever the number of sessions is a multiple of the total weight. *)

From S2P Require Import Prelude UpstreamWeights Upstream UpstreamSpec UpstreamInv UpstreamMain.

(** A peer that is in use without a limit and has not failed. *)
Definition healthy (p : ngx_stream_upstream_rr_peer_t) : Prop :=
  p.(down) = false /\ p.(max_conns) = 0 /\ p.(fails) = 0 /\ p.(effective_weight) = p.(weight).

Definition served (i : nat) (s : session) : Z :=
  if bool_decide (s.(s_current) = Some (false, i)) then 1 else 0.

(** How many sessions have been given the peer at [i]. *)
Fixpoint picks (i : nat) (ss : list session) : Z :=
  match ss with
  | [] => 0
  | s :: ss => served i s + picks i ss
  end.

Lemma picks_app i s1 s2 : picks i (s1 ++ s2) = picks i s1 + picks i s2.
Proof. induction s1 as [|s s1 IH]; cbn; [done|]. rewrite IH. lia. Qed.

Lemma picks_insert i ss k s s' :
  ss !! k = Some s -> s'.(s_current) = s.(s_current) ->
  picks i (<[k := s']> ss) = picks i ss.
Proof.
  revert k. induction ss as [|s0 ss IH]; intros [|k] Hk Hc; try done.
  - injection Hk as ->. cbn. unfold served. by rewrite Hc.
  - change (<[S k := s']> (s0 :: ss)) with (s0 :: <[k := s']> ss). cbn [picks].
    by rewrite (IH k Hk Hc).
Qed.

(** The histories without a failure: a session arrives and is given a peer, a
    session reports its connection, or it leaves its peer. *)
Inductive healthy_history (u : upstream) : world -> Prop :=
| history_start : healthy_history u (World u [])
| history_arrive w now w1 w2 :
    healthy_history u w -> is_time now = true -> exec w Start = Ok w1 ->
    exec w1 (Get (length w.(sessions)) now) = Ok w2 -> healthy_history u w2
| history_notify w k type sock_stream w' :
    healthy_history u w -> enabled w (Notify k type sock_stream) = true ->
    exec w (Notify k type sock_stream) = Ok w' -> healthy_history u w'
| history_leave w k now state w' :
    healthy_history u w -> Z.land state NGX_PEER_FAILED = 0 ->
    enabled w (Free k now state) = true -> exec w (Free k now state) = Ok w' ->
    healthy_history u w'.

(** After [N] sessions, the current weight of a peer is its share minus what it
    has been charged. *)
Record fair (w : world) : Prop := {
  fair_inv : inv w;
  fair_alone : w.(up).(backup) = None;
  fair_single : w.(up).(primary).(single) = true -> length w.(up).(primary).(peer) = 1%nat;
  fair_healthy : Forall healthy w.(up).(primary).(peer);
  fair_weights : forall i p, w.(up).(primary).(peer) !! i = Some p ->
    let W := weights w.(up).(primary).(peer) in
    p.(current_weight) = zlen w.(sessions) * p.(weight) - W * picks i w.(sessions) /\
    - W < p.(current_weight)
}.

(** ** Serving a new session *)

Section serve.
Context (now : Z) (tried : list Z) (g : ngx_stream_upstream_rr_peers_t).
Hypothesis now_ok : time_ok now.
Hypothesis g_ok : group_ok g.
Hypothesis g_healthy : Forall healthy g.(peer).
Hypothesis fresh : forall i, tried_at tried i = false.

Lemma healthy_usable i p : g.(peer) !! i = Some p -> usable now tried i p = true.
Proof.
  intros Hp. pose proof (Forall_lookup_1 _ _ _ _ g_healthy Hp) as (Hd & Hm & Hf & _).
  pose proof (Forall_lookup_1 _ _ _ _ (ok_peers _ g_ok) Hp) as (_ & _ & _ & Hmf).
  unfold usable, conns_full. rewrite fresh, Hd, Hm, Hf. cbn [negb andb Z.eqb].
  destruct (Z.eqb_spec (max_fails p) 0), (Z.leb_spec (max_fails p) 0); done || lia.
Qed.

Lemma healthy_gains : gains now tried 0 g.(peer) = weights g.(peer).
Proof.
  rewrite gains_sigma. apply sigma_ext. intros i Hi. unfold over, members, field.
  destruct (lookup_lt_is_Some_2 _ _ Hi) as [p Hp]. rewrite Hp, (healthy_usable i p Hp).
  by pose proof (Forall_lookup_1 _ _ _ _ g_healthy Hp) as (_ & _ & _ & ->).
Qed.

(** The largest sum is positive, since the current weights add up to zero. *)
Lemma largest_positive j p : largest now tried g.(peer) j p -> 0 < weighs p.
Proof.
  intros (Hj & _ & Hmax). destruct (Z.lt_ge_cases 0 (weighs p)) as [|Hle]; [done|].
  pose proof (ok_balanced _ g_ok) as [H0 _].
  assert (weights (peer g) <= 0); [|].
  - pose proof (sigma_le (length (peer g)) (fun i => field current_weight (peer g) i
      + field weight (peer g) i) (fun _ => 0)) as Hle'.
    rewrite sigma_add, H0, sigma_const in Hle'. unfold weights.
    enough (0 + sigma (length (peer g)) (field weight (peer g)) <= Z.of_nat (length (peer g)) * 0)
      by lia.
    apply Hle'.
    intros i Hi. destruct (lookup_lt_is_Some_2 _ _ Hi) as [q Hq].
    rewrite !(field_Some _ _ _ _ Hq). destruct (Hmax i q Hq (healthy_usable i q Hq)) as [Hw _].
    pose proof (Forall_lookup_1 _ _ _ _ g_healthy Hq) as (_ & _ & _ & He).
    unfold weighs in *. lia.
  - pose proof (ok_peers _ g_ok) as Hps. pose proof (lookup_lt_Some _ _ _ Hj).
    assert (weight p <= weights (peer g)).
    { rewrite <- (field_Some weight _ j p Hj). apply sigma_term; [|done].
      intros m _. unfold field. destruct (peer g !! m) eqn:E; [|done].
      eapply Forall_lookup_1 in Hps as (? & _); [|done]. lia. }
    eapply Forall_lookup_1 in Hps as (? & _); [|done]. lia.
Qed.

Lemma healthy_grown p : healthy p -> healthy (grown p).
Proof.
  intros (? & ? & ? & He). unfold grown. do 3 (split; [done|]). cbn.
  rewrite He, Z.ltb_irrefl. done.
Qed.

(** What a choice does to a peer. *)
Lemma healthy_picked j p i q :
  largest now tried g.(peer) j p -> g.(peer) !! i = Some q ->
  exists q', picked now tried g j p !! i = Some q' /\ healthy q' /\ q'.(weight) = q.(weight) /\
    q'.(current_weight) = q.(current_weight) + q.(weight)
      - (if (i =? j)%nat then weights g.(peer) else 0) /\
    (- weights g.(peer) < q.(current_weight) -> - weights g.(peer) < q'.(current_weight)).
Proof.
  intros Hl Hq. pose proof Hl as (Hj & _). eexists.
  split; [exact (picked_lookup now tried g j p i q Hj Hq)|].
  pose proof (Forall_lookup_1 _ _ _ _ g_healthy Hq) as Hh.
  pose proof (Forall_lookup_1 _ _ _ _ (ok_peers _ g_ok) Hq) as (Hw & _).
  pose proof (healthy_grown _ Hh) as Hgr. pose proof Hh as (_ & _ & _ & He).
  destruct (Nat.eqb_spec i j) as [->|].
  - assert (q = p) as -> by congruence. apply largest_positive in Hl. unfold weighs in Hl.
    unfold charged. rewrite healthy_gains.
    destruct (fail_timeout _ <? _); (split; [exact Hgr|]); (split; [done|]); cbn;
      (split; [lia|lia]).
  - unfold visited. rewrite (healthy_usable i q Hq). split; [done|]. split; [done|].
    cbn. rewrite He. split; lia.
Qed.
End serve.

(** ** One step *)

(** [g'] has the peers of [g] after the peer at [j] was chosen. *)
Definition charged_to (j : nat) (g g' : ngx_stream_upstream_rr_peers_t) : Prop :=
  length g'.(peer) = length g.(peer) /\ g'.(single) = g.(single) /\
  forall i q, g.(peer) !! i = Some q ->
    exists q', g'.(peer) !! i = Some q' /\ healthy q' /\ q'.(weight) = q.(weight) /\
      q'.(current_weight) = q.(current_weight) + q.(weight)
        - (if (i =? j)%nat then weights g.(peer) else 0) /\
      (- weights g.(peer) < q.(current_weight) -> - weights g.(peer) < q'.(current_weight)).

(** A change of the number of connections changes nothing of that. *)
Lemma charged_to_connect j g g' p c :
  charged_to j g g' -> g'.(peer) !! j = Some p ->
  charged_to j g (g' <| peer := <[j := p <| conns := c |>]> g'.(peer) |>).
Proof.
  intros (Hl & Hs & H) Hp. split; [by simpl (peer _); rewrite length_insert|]. split; [done|].
  intros i q Hq. destruct (H i q Hq) as (q' & Hq' & Hrest). simpl (peer _).
  destruct (decide (i = j)) as [->|].
  - eexists. rewrite list_lookup_insert_eq by (by eapply lookup_lt_Some). split; [done|].
    assert (q' = p) as -> by congruence. exact Hrest.
  - exists q'. by rewrite list_lookup_insert_ne.
Qed.

Lemma charged_to_single g p :
  group_ok g -> g.(peer) = [p] -> healthy p -> charged_to 0 g g.
Proof.
  intros Hg Hp Hh. split; [done|]. split; [done|]. intros i q Hq. exists q. split; [done|].
  rewrite Hp in Hq. apply list_lookup_singleton_Some in Hq as [<- <-].
  do 2 (split; [done|]). split; [|done]. rewrite Hp, weights_cons.
  change (weights []) with 0. rewrite Nat.eqb_refl. lia.
Qed.

Lemma charged_to_picked now tried g j p :
  time_ok now -> group_ok g -> Forall healthy g.(peer) -> (forall i, tried_at tried i = false) ->
  largest now tried g.(peer) j p -> charged_to j g (g <| peer := picked now tried g j p |>).
Proof.
  intros Ht Hg Hh Hf Hl. split; [apply picked_length|]. split; [done|].
  intros i q Hq. by apply healthy_picked.
Qed.

Lemma replicate_tried n i : tried_at (replicate n 0) i = false.
Proof.
  unfold tried_at. destruct (replicate n 0 !! (i / 64)%nat) eqn:E; [|done].
  apply lookup_replicate in E as [-> _]. apply Z.bits_0.
Qed.

Lemma fresh_tried u i :
  tried_at (s_tried (ngx_stream_upstream_init_round_robin_peer u)) i = false.
Proof.
  unfold ngx_stream_upstream_init_round_robin_peer. cbn [s_tried].
  destruct (_ <=? 64); [apply (replicate_tried 1)|apply replicate_tried].
Qed.

Lemma serve_ok now u :
  let g := u.(primary) in
  let s := ngx_stream_upstream_init_round_robin_peer u in
  time_ok now -> group_ok g -> Forall healthy g.(peer) ->
  (g.(single) = true -> length g.(peer) = 1%nat) -> zlen g.(peer) <= 64 * zlen s.(s_tried) ->
  exists g' s' j,
    try_group now u s = Ok (set_group u false g', s', true) /\ charged_to j g g' /\
    (j < length g.(peer))%nat /\ s'.(s_current) = Some (false, j).
Proof.
  intros g s Ht Hg Hh Hsg Hroom. unfold try_group.
  change (group u (s_on_backup s)) with (Ok g). rewrite Ok_bind. destruct (single g) eqn:Hs.
  - destruct (peer g) as [|p [|]] eqn:Hp; [by specialize (Hsg eq_refl)| |by specialize (Hsg eq_refl)].
    apply Forall_cons in Hh as [Hhp _]. pose proof Hhp as (Hd & Hm & _).
    unfold peer_at. rewrite Hp. cbn [lookup list_lookup]. rewrite Ok_bind, Hd. unfold conns_full.
    rewrite Hm. cbn [Z.eqb negb andb orb]. rewrite Ok_bind, Hp. cbn [lookup list_lookup].
    rewrite Ok_bind. eexists _, _, 0%nat. split; [reflexivity|]. split; [|split; [cbn; lia|done]].
    rewrite <- Hp. apply charged_to_connect; [by eapply charged_to_single|]. by rewrite Hp.
  - destruct (largest_or_none now (s_tried s) g) as [(j & p & Hl)|Hno].
    + destruct (get_peer_some now (s_tried s) g Ht Hg Hroom j p Hl) as (tried' & -> & _).
      rewrite Ok_bind. pose proof Hl as (Hj & _).
      pose proof (picked_lookup now (s_tried s) g j p j p Hj Hj) as Hq. rewrite Nat.eqb_refl in Hq.
      assert (peer_at (g <| peer := picked now (s_tried s) g j p |>) j
        = Ok (charged now (s_tried s) g p)) as -> by (by apply peer_at_ok).
      rewrite Ok_bind. eexists _, _, j. split; [reflexivity|].
      split; [|split; [by eapply lookup_lt_Some|done]].
      apply charged_to_connect; [|exact Hq]. apply charged_to_picked; try done. apply fresh_tried.
    + destruct (peer g !! 0%nat) as [p|] eqn:Hp; [|by apply lookup_ge_None, Nat.le_0_r,
        length_zero_iff_nil, ok_some in Hp].
      pose proof (healthy_usable now (s_tried s) g Hg Hh (fresh_tried u) 0%nat p Hp) as Hu.
      by rewrite (Hno _ _ Hp) in Hu.
Qed.

Lemma set_group_primary u g : u.(backup) = None -> set_group u false g = Upstream g None.
Proof. cbn. by intros ->. Qed.

Lemma charged_weights j g g' : charged_to j g g' -> weights g'.(peer) = weights g.(peer).
Proof.
  intros (Hl & _ & H). apply weights_eq; [done|]. intros i. unfold field.
  destruct (peer g !! i) as [q|] eqn:Hq.
  - by destruct (H i q Hq) as (q' & -> & _ & -> & _).
  - rewrite (proj2 (lookup_ge_None _ _)); [done|]. rewrite Hl. by apply lookup_ge_None.
Qed.

Lemma fair_arrive w now w1 w2 :
  fair w -> is_time now = true -> exec w Start = Ok w1 ->
  exec w1 (Get (length w.(sessions)) now) = Ok w2 -> fair w2.
Proof.
  intros [Hinv Halone Hsingle Hh Hw] Ht H1 H2. pose proof (is_time_ok _ Ht) as Htime.
  destruct (inv_start w Hinv) as (w1' & H1' & Hinv1).
  assert (w1' = w1) as -> by congruence. cbn in H1. injection H1 as <-.
  set (s0 := ngx_stream_upstream_init_round_robin_peer (up w)) in *.
  assert ((sessions w ++ [s0]) !! length (sessions w) = Some s0) as Hlast by (by apply list_lookup_middle).
  assert (enabled (World (up w) (sessions w ++ [s0])) (Get (length (sessions w)) now) = true) as He.
  { unfold enabled. cbn [sessions]. by rewrite Ht, Hlast. }
  destruct (inv_get _ _ _ Hinv1 He) as (w2' & H2' & Hinv2).
  assert (w2' = w2) as -> by congruence.
  pose proof (start_ok w Hinv) as (Hroom & _ & _). specialize (Hroom false _ eq_refl).
  destruct (serve_ok now (up w) Htime (inv_groups _ Hinv false _ eq_refl) Hh Hsingle Hroom)
    as (g' & s' & j & Htry & Hch & Hj & Hcur). fold s0 in Htry.
  unfold exec, session_at in H2. cbn [sessions up] in H2. rewrite Hlast, Ok_bind in H2.
  unfold ngx_stream_upstream_get_round_robin_peer in H2. rewrite Htry, !Ok_bind in H2.
  injection H2 as <-. pose proof (charged_weights _ _ _ Hch) as HW.
  destruct Hch as (Hlen & Hsg & Hpeers).
  assert (<[length (sessions w) := s']> (sessions w ++ [s0]) = sessions w ++ [s']) as Hss.
  { by rewrite insert_app_r_alt, Nat.sub_diag by lia. }
  rewrite Hss in *. rewrite set_group_primary in * by done.
  assert (forall i q', peer g' !! i = Some q' ->
    exists q, peer (primary (up w)) !! i = Some q) as Hback.
  { intros i q' Hq'. apply lookup_lt_is_Some_2. rewrite <- Hlen. by eapply lookup_lt_Some. }
  split; cbn [up primary backup sessions]; [done|done|by rewrite Hsg, Hlen| |].
  - apply Forall_lookup. intros i q' Hq'. destruct (Hback i q' Hq') as [q Hq].
    destruct (Hpeers i q Hq) as (q1 & Hq1 & ? & _). congruence.
  - intros i q' Hq'. destruct (Hback i q' Hq') as [q Hq].
    destruct (Hpeers i q Hq) as (q1 & Hq1 & _ & Hqw & Hcw & Hlow).
    assert (q1 = q') as -> by congruence. destruct (Hw i q Hq) as [Hcw0 Hlow0].
    rewrite HW, zlen_app, zlen_cons, zlen_nil, picks_app. cbn [picks].
    unfold served. rewrite Hcur, Hqw, Hcw, Hcw0. split; [|rewrite <- Hcw0, <- Hcw; auto].
    destruct (Nat.eqb_spec i j) as [->|Hne].
    + rewrite bool_decide_eq_true_2 by done. lia.
    + rewrite bool_decide_eq_false_2 by (intros [= ->]; done). lia.
Qed.

(** The other events do not touch the weights. *)
Lemma fair_update w k s s' f u :
  fair w -> w.(sessions) !! k = Some s -> s'.(s_current) = s.(s_current) ->
  inv (World u (<[k := s']> w.(sessions))) -> update_current w.(up) s f = Ok u ->
  (forall p, healthy p -> healthy (f p) /\ (f p).(weight) = p.(weight) /\
     (f p).(current_weight) = p.(current_weight)) ->
  fair (World u (<[k := s']> w.(sessions))).
Proof.
  intros [Hinv Halone Hsingle Hh Hw] Hk Hc Hinv' Hu Hf. unfold update_current in Hu.
  destruct (s_current s) as [[b j]|] eqn:Hcur; [|done].
  destruct b; [cbn in Hu; by rewrite Halone in Hu|]. cbn in Hu. unfold peer_at in Hu.
  destruct (peer (primary (up w)) !! j) as [p|] eqn:Hp; [|done]. cbn in Hu. injection Hu as <-.
  pose proof (Forall_lookup_1 _ _ _ _ Hh Hp) as Hhp. destruct (Hf p Hhp) as (Hfh & Hfw & Hfc).
  set (l := peer (primary (up w))) in *.
  assert (weights (<[j:=f p]> l) = weights l) as HW.
  { apply weights_eq; [apply length_insert|]. intros i. unfold field.
    destruct (decide (i = j)) as [->|].
    - rewrite list_lookup_insert_eq, Hp by (by eapply lookup_lt_Some). done.
    - by rewrite list_lookup_insert_ne. }
  split; cbn [up primary backup sessions]; [done|done| | |]; simpl (peer _); fold l.
  - intros H. rewrite length_insert. by apply Hsingle.
  - by apply Forall_insert.
  - intros i q Hq. rewrite HW. unfold zlen. rewrite length_insert. fold (zlen (sessions w)).
    rewrite (picks_insert _ _ _ _ _ Hk) by congruence.
    destruct (decide (i = j)) as [->|].
    + rewrite list_lookup_insert_eq in Hq by (by eapply lookup_lt_Some). injection Hq as <-.
      rewrite Hfw, Hfc. by apply Hw.
    + rewrite list_lookup_insert_ne in Hq by done. by apply Hw.
Qed.

Lemma fair_notify w k type sock_stream w' :
  fair w -> enabled w (Notify k type sock_stream) = true ->
  exec w (Notify k type sock_stream) = Ok w' -> fair w'.
Proof.
  intros Hfair He Hx. pose proof (fair_inv _ Hfair) as Hinv.
  destruct (inv_notify _ _ _ _ Hinv He) as (w1 & Hx1 & Hinv1).
  assert (w1 = w') as -> by congruence. clear Hx1.
  unfold exec, session_at in Hx. destruct (sessions w !! k) as [s|] eqn:Hk; [|done].
  rewrite Ok_bind in Hx. apply bind_Ok in Hx as (u & Hu & [= <-]).
  unfold ngx_stream_upstream_notify_round_robin_peer in Hu.
  destruct (_ && _); [|injection Hu as <-; by destruct w].
  rewrite <- (list_insert_id (sessions w) k s) in Hinv1 |- * by done.
  eapply fair_update; [done|done|done|done|exact Hu|].
  intros p Hp. pose proof Hp as (_ & _ & Hf & _). unfold peer_passed.
  destruct (_ <? _); [|done]. split; [|done]. destruct Hp as (? & ? & ? & ?). by repeat split.
Qed.

Lemma fair_leave w k now state w' :
  fair w -> Z.land state NGX_PEER_FAILED = 0 -> enabled w (Free k now state) = true ->
  exec w (Free k now state) = Ok w' -> fair w'.
Proof.
  intros Hfair Hst He Hx. pose proof (fair_inv _ Hfair) as Hinv.
  destruct (inv_free _ _ _ _ Hinv He) as (w1 & Hx1 & Hinv1).
  assert (w1 = w') as -> by congruence. clear Hx1.
  unfold exec, session_at in Hx. destruct (sessions w !! k) as [s|] eqn:Hk; [|done].
  rewrite Ok_bind in Hx. unfold ngx_stream_upstream_free_round_robin_peer in Hx.
  apply bind_Ok in Hx as ([u s'] & Hu & [= <-]). apply bind_Ok in Hu as (g & Hg & Hu).
  rewrite Hst in Hu. cbn [Z.eqb negb] in Hu.
  destruct (single g); apply bind_Ok in Hu as (u' & Hu & [= -> <-]).
  - eapply fair_update; [done|done|done|done|exact Hu|]. intros p (? & ? & ? & ?).
    by repeat split.
  - eapply fair_update; [done|done|by case_match|done|exact Hu|].
    intros p (? & ? & ? & ?). unfold peer_passed. destruct (_ <? _); by repeat split.
Qed.

(** Servers without a limit that are neither down nor backup servers. *)
Definition plain (s : ngx_stream_upstream_server_t) : Prop :=
  s.(s_down) = false /\ s.(s_max_conns) = 0 /\ s.(s_backup) = false.

Lemma fair_init servers u :
  Forall configured servers -> servers_room servers -> Forall plain servers ->
  ngx_stream_upstream_init_round_robin servers = Some u -> fair (World u []).
Proof.
  intros Hs Hr Hpl Hu.
  assert (Forall server_ok servers) as Hok by (eapply Forall_impl; [exact Hs|apply configured_ok]).
  pose proof (inv_init servers u Hok Hr Hu) as Hinv.
  assert (forall n w t, count_servers true servers n w t = (n, w, t)) as Hno.
  { clear -Hpl. induction Hpl as [|s l (_ & _ & Hb) _ IH]; intros; cbn; [done|].
    rewrite Hb. cbn. apply IH. }
  unfold ngx_stream_upstream_init_round_robin in Hu. rewrite Hno in Hu.
  destruct (count_servers false servers 0 0 0) as [[n w] t] eqn:E.
  destruct (Z.eqb_spec n 0) as [|Hn]; [done|]. cbn [Z.eqb] in Hu. injection Hu as <-.
  destruct (fresh_group_ok false servers n w t false false Hok Hr) as [_ Hlen];
    [by rewrite E|done|].
  assert (forall i p, make_peers false servers !! i = Some p -> healthy p /\ current_weight p = 0) as Hh.
  { intros i p Hp. apply list_elem_of_lookup_2, make_peers_fresh in Hp as (s & addr & Hin & _ & ->).
    rewrite Forall_forall in Hpl. destruct (Hpl s Hin) as (? & ? & _). by repeat split. }
  split; cbn [up primary backup sessions picks single peer]; [done|done| | |].
  - intros H. apply Z.eqb_eq in H. unfold zlen in Hlen. lia.
  - apply Forall_lookup. intros i p Hp. by apply (Hh i p).
  - intros i p Hp. destruct (Hh i p Hp) as [_ Hc]. cbv zeta.
    rewrite Hc. change (zlen (@nil session)) with 0.
    pose proof (make_peers_ok false servers Hok) as Hps.
    eapply Forall_lookup_1 in Hps as H1; [|done]. destruct H1 as (? & _).
    assert (weight p <= weights (make_peers false servers)); [|lia].
    rewrite <- (field_Some weight _ i p Hp). apply sigma_term; [|by eapply lookup_lt_Some].
    intros m _. unfold field. destruct (_ !! m) eqn:Em; [|done].
    eapply Forall_lookup_1 in Hps as (? & _); [|done]. lia.
Qed.

Lemma history_fair u w : fair (World u []) -> healthy_history u w -> fair w.
Proof.
  intros Hu. induction 1 as [|w now w1 w2 Hw IH Ht H1 H2|w k type sock w' Hw IH He Hx|
    w k now state w' Hw IH Hst He Hx]; [done| | |].
  - by eapply fair_arrive.
  - by eapply fair_notify.
  - by eapply fair_leave.
Qed.

(** ** The theorem *)

(** C32: For an upstream of servers that are not down, have no limit of connections and no
    backup servers, and whose number of peers times the sum of their weights fits in a
    signed integer of 64 bits: while no peer fails, with any interleaving of arriving and
    leaving sessions, every session is given a peer; no peer is ever a whole session ahead
    of its share, and whenever the number of sessions is a multiple of the total weight,
    every peer has served exactly its share. *)
Theorem round_robin_fair servers u w :
  Forall configured servers -> servers_room servers -> Forall plain servers ->
  ngx_stream_upstream_init_round_robin servers = Some u -> healthy_history u w ->
  let l := w.(up).(primary).(peer) in
  let W := weights l in
  let N := zlen w.(sessions) in
  sigma (length l) (fun i => picks i w.(sessions)) = N /\
  forall i p, l !! i = Some p ->
    W * picks i w.(sessions) < N * p.(weight) + W /\
    (N mod W = 0 -> W * picks i w.(sessions) = N * p.(weight)).
Proof.
  intros Hs Hr Hpl Hu Hw. pose proof (history_fair u w (fair_init _ _ Hs Hr Hpl Hu) Hw) as Hf.
  cbv zeta. destruct Hf as [Hinv _ _ _ Hweights].
  pose proof (inv_groups _ Hinv false _ eq_refl) as Hok.
  set (l := peer (primary (up w))) in *. set (N := zlen (sessions w)) in *.
  assert (1 <= weights l) as HW.
  { pose proof (ok_some _ Hok) as H0. pose proof (ok_peers _ Hok) as Hps. fold l in H0, Hps.
    destruct l as [|p l']; [done|]. apply Forall_cons in Hps as [(? & _) Hps].
    apply weights_nonneg in Hps. rewrite weights_cons. lia. }
  assert (forall i, (i < length l)%nat ->
    field current_weight l i = N * field weight l i - weights l * picks i (sessions w)) as Hcw.
  { intros i Hi. destruct (lookup_lt_is_Some_2 l i Hi) as [p Hp].
    rewrite !(field_Some _ _ _ _ Hp). by apply Hweights. }
  assert (sigma (length l) (fun i => picks i (sessions w)) = N) as Hsum.
  { destruct (ok_balanced _ Hok) as [H0 _]. fold l in H0. rewrite (sigma_ext _ _ _ Hcw) in H0.
    rewrite sigma_sub, !sigma_scale in H0. fold (weights l) in H0. nia. }
  split; [done|]. intros i p Hp. destruct (Hweights i p Hp) as [Hc Hlow].
  split; [lia|]. intros Hmod. apply Z.mod_divide in Hmod as [m Hm]; [|lia].
  (** Nobody is ahead of the share, and together they have served everybody. *)
  assert (forall k, (k < length l)%nat -> 0 <= m * field weight l k - picks k (sessions w)) as Hle.
  { intros k Hk. destruct (lookup_lt_is_Some_2 l k Hk) as [q Hq].
    destruct (Hweights k q Hq) as [Hcq Hlq]. rewrite (field_Some _ _ _ _ Hq). nia. }
  pose proof (sigma_term _ _ i Hle (lookup_lt_Some _ _ _ Hp)) as Hi.
  rewrite sigma_sub, sigma_scale, Hsum in Hi. fold (weights l) in Hi.
  pose proof (Hle i (lookup_lt_Some _ _ _ Hp)) as Hi0. cbv beta in Hi.
  rewrite (field_Some _ _ _ _ Hp) in Hi, Hi0. nia.
Qed.

(** ** An example *)

Definition plain_servers : list ngx_stream_upstream_server_t :=
  [Server [[1]] 2 0 1 10 false false; Server [[2]] 1 0 1 10 false false].

Definition plain_upstream : upstream :=
  default upstream_example (ngx_stream_upstream_init_round_robin plain_servers).

(** [n] sessions. *)
Fixpoint arrivals (n : nat) (w : world) : res world :=
  match n with
  | O => Ok w
  | S n =>
      w1 ← exec w Start;
      w2 ← exec w1 (Get (length w.(sessions)) 100);
      arrivals n w2
  end.

Lemma arrivals_history u n w w' :
  healthy_history u w -> arrivals n w = Ok w' -> healthy_history u w'.
Proof.
  revert w. induction n as [|n IH]; intros w Hw; cbn [arrivals]; [by intros [= <-]|].
  intros H. apply bind_Ok in H as (w1 & H1 & H). apply bind_Ok in H as (w2 & H2 & H).
  eapply IH; [|exact H]. by apply (history_arrive u w 100 w1 w2).
Qed.

Definition plain_world : world :=
  match arrivals 6 (World plain_upstream []) with
  | Ok w => w
  | _ => World plain_upstream []
  end.

Lemma round_robin_fair_witness :
  map s_current plain_world.(sessions) = map (fun i => Some (false, i)) [0; 1; 0; 0; 1; 0]%nat /\
  3 * picks 0 plain_world.(sessions) = 6 * 2.
Proof.
  split; [by vm_compute|].
  destruct (round_robin_fair plain_servers plain_upstream plain_world) as [_ H].
  - apply Forall_cons_2; [|apply Forall_cons_2; [|apply Forall_nil_2]].
    + by exists all_flags, [[1]], [str "weight=2"].
    + by exists all_flags, [[2]], [].
  - by intros [].
  - by apply Forall_cons_2; [|apply Forall_cons_2; [|apply Forall_nil_2]].
  - reflexivity.
  - apply (arrivals_history plain_upstream 6 _ _ (history_start _)). by vm_compute.
  - destruct (peer (primary (up plain_world)) !! 0%nat) as [p|] eqn:Hp; [|by vm_compute in Hp].
    destruct (H 0%nat p Hp) as [_ He]. vm_compute in Hp. injection Hp as <-.
    cbn [weight] in He. vm_compute in He. vm_compute. by apply He.
Defined.
