(* ===== verification/LimitReq.v ===== *)
(** * Request rate limiting

    [src/http/modules/ngx_http_limit_req_module.c]: the leaky bucket of a key in a
    shared memory zone. Every node of a zone is in its queue, the most recently
    used first, and in a search tree by hash and key; the model keeps the queue and
    finds a node by its key. *)

From S2P Require Import Prelude HttpRequest.

(** ** Data *)

Record ngx_http_limit_req_node_t := Node {
  n_data : list Z  (* the key *);
  n_last : Z;
  n_excess : Z  (* 1 corresponds to 0.001 r/s *);
  n_count : Z
}.

#[export] Instance node_rebuild : Rebuild ngx_http_limit_req_node_t := fun r =>
  Node (n_data r) (n_last r) (n_excess r) (n_count r).

(** [ngx_http_limit_req_ctx_t] with the shared memory it points to; [node] names
    the node by its key. *)
Record ngx_http_limit_req_ctx_t := Ctx {
  queue : list ngx_http_limit_req_node_t  (* from its head *);
  rate : Z;
  node : option (list Z)
}.

#[export] Instance ctx_rebuild : Rebuild ngx_http_limit_req_ctx_t := fun r =>
  Ctx (queue r) (rate r) (node r).

Record ngx_http_limit_req_limit_t := Limit { burst : Z; delay : Z }.

(** ** The bucket *)

(** [ms] since [last], with the jumps of the clock taken away. *)
Definition elapsed (now last : Z) : Z :=
  let ms := signed64 (now - last) in
  if ms <? -60000 then 1 else if ms <? 0 then 0 else ms.

(** [lr->excess - ctx->rate * ms / 1000 + 1000] in unsigned arithmetic, assigned
    to a signed variable and not below zero. *)
Definition charge (rate ms excess : Z) : Z :=
  let e := signed64 (excess - u64 (rate * ms) / 1000 + 1000) in
  if e <? 0 then 0 else e.

(** ** Expiry *)

(** The loop of [ngx_http_limit_req_expire] on the queue from its tail, [n] as in
    the code: [n == 0] removes the oldest entry by force. *)
Fixpoint expire_tail (rate now n : Z) (q : list ngx_http_limit_req_node_t)
    : list ngx_http_limit_req_node_t :=
  match q with
  | [] => []
  | lr :: rest =>
      if 3 <=? n then q
      else if negb (lr.(n_count) =? 0) then q
      else if n =? 0 then expire_tail rate now (n + 1) rest
      else
        let ms := Z.abs (signed64 (now - lr.(n_last))) in
        if ms <? 60000 then q
        else if 0 <? signed64 (lr.(n_excess) - u64 (rate * ms) / 1000) then q
        else expire_tail rate now (n + 1) rest
  end.

Definition ngx_http_limit_req_expire (ctx : ngx_http_limit_req_ctx_t) (now n : Z)
    : ngx_http_limit_req_ctx_t :=
  ctx <| queue := rev (expire_tail ctx.(rate) now n (rev ctx.(queue))) |>.

(** ** Lookup *)

(** The node of a key, and the queue without it. *)
Fixpoint take_node (key : list Z) (q : list ngx_http_limit_req_node_t)
    : option (ngx_http_limit_req_node_t * list ngx_http_limit_req_node_t) :=
  match q with
  | [] => None
  | lr :: q =>
      if beq lr.(n_data) key then Some (lr, q)
      else match take_node key q with
           | Some (found, q) => Some (found, lr :: q)
           | None => None
           end
  end.

(** A node that is there: it goes to the head of the queue. *)
Definition use_node (limit : ngx_http_limit_req_limit_t) (now : Z) (account : bool)
    (lr : ngx_http_limit_req_node_t) (q : list ngx_http_limit_req_node_t)
    (ctx : ngx_http_limit_req_ctx_t) : Z * Z * ngx_http_limit_req_ctx_t :=
  let ms := elapsed now lr.(n_last) in
  let excess := charge ctx.(rate) ms lr.(n_excess) in
  if limit.(burst) <? u64 excess then (NGX_BUSY, excess, ctx <| queue := lr :: q |>)
  else if account then
    let lr := lr <| n_excess := excess |>
                 <| n_last := if ms =? 0 then lr.(n_last) else now |> in
    (NGX_OK, excess, ctx <| queue := lr :: q |>)
  else
    let lr := lr <| n_count := lr.(n_count) + 1 |> in
    (NGX_AGAIN, excess, ctx <| queue := lr :: q |> <| node := Some lr.(n_data) |>).

(** A new node. *)
Definition add_node (now : Z) (account : bool) (key : list Z) (ctx : ngx_http_limit_req_ctx_t)
    : Z * Z * ngx_http_limit_req_ctx_t :=
  if account then (NGX_OK, 0, ctx <| queue := Node key now 0 0 :: ctx.(queue) |>)
  else (NGX_AGAIN, 0, ctx <| queue := Node key 0 0 1 :: ctx.(queue) |> <| node := Some key |>).

(** [ngx_http_limit_req_lookup]: the code, [*ep] and the zone. [alloc k] tells
    whether the [k]-th attempt to allocate a node succeeds. *)
Definition ngx_http_limit_req_lookup (alloc : nat -> bool) (limit : ngx_http_limit_req_limit_t)
    (key : list Z) (now : Z) (account : bool) (ctx : ngx_http_limit_req_ctx_t)
    : Z * Z * ngx_http_limit_req_ctx_t :=
  match take_node key ctx.(queue) with
  | Some (lr, q) => use_node limit now account lr q ctx
  | None =>
      let ctx := ngx_http_limit_req_expire ctx now 1 in
      if alloc 0%nat then add_node now account key ctx
      else
        let ctx := ngx_http_limit_req_expire ctx now 0 in
        if alloc 1%nat then add_node now account key ctx else (NGX_ERROR, 0, ctx)
  end.

(** ** The handler

    A location has a list of limits, each with a zone of its own. *)

Definition limit_zone : Type := ngx_http_limit_req_limit_t * ngx_http_limit_req_ctx_t.

(** Changes the node that [ctx->node] points to, in its place. *)
Definition update_node (f : ngx_http_limit_req_node_t -> ngx_http_limit_req_node_t)
    (ctx : ngx_http_limit_req_ctx_t) : ngx_http_limit_req_ctx_t :=
  match ctx.(node) with
  | None => ctx
  | Some key =>
      ctx <| queue := map (fun lr => if beq lr.(n_data) key then f lr else lr) ctx.(queue) |>
          <| node := None |>
  end.

Definition account_node (rate now : Z) (lr : ngx_http_limit_req_node_t)
    : ngx_http_limit_req_node_t :=
  let ms := elapsed now lr.(n_last) in
  lr <| n_last := if ms =? 0 then lr.(n_last) else now |>
     <| n_excess := charge rate ms lr.(n_excess) |>
     <| n_count := lr.(n_count) - 1 |>.

(** The delay that an excess costs under a limit. *)
Definition delay_of (l : ngx_http_limit_req_limit_t) (rate excess : Z) : Z :=
  if u64 excess <=? l.(delay) then 0 else u64 ((excess - l.(delay)) * 1000) / rate.

(** [ngx_http_limit_req_account] on the zones in front of the one the lookup ended
    with, from the last of them; [max_delay] is the delay so far. *)
Fixpoint account_zones (now max_delay : Z) (zones : list limit_zone) : Z * list limit_zone :=
  match zones with
  | [] => (max_delay, [])
  | (l, ctx) :: zones =>
      let excess :=
        match ctx.(node) with
        | Some key =>
            match take_node key ctx.(queue) with
            | Some (lr, _) => charge ctx.(rate) (elapsed now lr.(n_last)) lr.(n_excess)
            | None => 0
            end
        | None => 0
        end in
      let d := match ctx.(node) with Some _ => delay_of l ctx.(rate) excess | None => 0 end in
      let '(max_delay, zones) := account_zones now (Z.max max_delay d) zones in
      (max_delay, (l, update_node (account_node ctx.(rate) now) ctx) :: zones)
  end.

(** [ngx_http_limit_req_unlock] *)
Definition ngx_http_limit_req_unlock (zones : list limit_zone) : list limit_zone :=
  map (fun '(l, ctx) => (l, update_node (fun lr => lr <| n_count := lr.(n_count) - 1 |>) ctx)) zones.

Definition NGX_HTTP_LIMIT_REQ_PASSED : Z := 1.
Definition NGX_HTTP_LIMIT_REQ_DELAYED : Z := 2.
Definition NGX_HTTP_LIMIT_REQ_REJECTED : Z := 3.
Definition NGX_HTTP_LIMIT_REQ_DELAYED_DRY_RUN : Z := 4.
Definition NGX_HTTP_LIMIT_REQ_REJECTED_DRY_RUN : Z := 5.

Record ngx_http_limit_req_conf_t := Conf { dry_run : bool; status_code : Z }.

(** How the loop over the limits ends: in front of some zone, behind all of them,
    or with a key that could not be computed. The zones passed are in the order
    from the last. *)
Inductive looped :=
| Stopped (rc excess : Z) (passed : list limit_zone) (l : ngx_http_limit_req_limit_t)
    (ctx : ngx_http_limit_req_ctx_t) (rest : list limit_zone)
| Finished (rc : Z) (passed : list limit_zone)
| NoKey (passed rest : list limit_zone).

(** [keys] holds, for each limit, the value of its key or [None] for an error. *)
Fixpoint limit_loop (alloc : nat -> bool) (now rc : Z) (passed : list limit_zone)
    (keys : list (option (list Z))) (zones : list limit_zone) : looped :=
  match zones, keys with
  | (l, ctx) :: rest, Some key :: keys =>
      if (zlen key =? 0) || (65535 <? zlen key)
      then limit_loop alloc now rc ((l, ctx) :: passed) keys rest
      else
        let '(rc, excess, ctx) := ngx_http_limit_req_lookup alloc l key now
                                    (bool_decide (rest = [])) ctx in
        if negb (rc =? NGX_AGAIN) then Stopped rc excess passed l ctx rest
        else limit_loop alloc now rc ((l, ctx) :: passed) keys rest
  | _ :: _, _ => NoKey passed zones
  | [], _ => Finished rc passed
  end.

(** What the handler leaves behind: the code, [limit_req_status] and the timer it
    set, and the zones. *)
Record handled := Handled {
  h_code : Z;
  h_status : Z;
  h_delay : option Z;
  h_zones : list limit_zone
}.

(** The request passes, at once or with a delay. *)
Definition limit_pass (conf : ngx_http_limit_req_conf_t) (d : Z) (zones : list limit_zone)
    : handled :=
  if d =? 0 then Handled NGX_DECLINED NGX_HTTP_LIMIT_REQ_PASSED None zones
  else if conf.(dry_run)
  then Handled NGX_DECLINED NGX_HTTP_LIMIT_REQ_DELAYED_DRY_RUN None zones
  else Handled NGX_AGAIN NGX_HTTP_LIMIT_REQ_DELAYED (Some d) zones.

(** [ngx_http_limit_req_handler] of a request with this [status]; the read event
    of a delayed request is taken to be set up. *)
Definition ngx_http_limit_req_handler (alloc : nat -> bool) (conf : ngx_http_limit_req_conf_t)
    (now status : Z) (keys : list (option (list Z))) (zones : list limit_zone) : handled :=
  if negb (status =? 0) then Handled NGX_DECLINED status None zones
  else
    match limit_loop alloc now NGX_DECLINED [] keys zones with
    | NoKey passed rest =>
        Handled NGX_HTTP_INTERNAL_SERVER_ERROR status None
          (rev (ngx_http_limit_req_unlock passed) ++ rest)
    | Finished rc passed =>
        if rc =? NGX_DECLINED then Handled NGX_DECLINED status None (rev passed)
        else
          let '(d, passed) := account_zones now 0 passed in
          limit_pass conf d (rev passed)
    | Stopped rc excess passed l ctx rest =>
        if (rc =? NGX_BUSY) || (rc =? NGX_ERROR) then
          let zones := rev (ngx_http_limit_req_unlock passed) ++ (l, ctx) :: rest in
          if conf.(dry_run)
          then Handled NGX_DECLINED NGX_HTTP_LIMIT_REQ_REJECTED_DRY_RUN None zones
          else Handled conf.(status_code) NGX_HTTP_LIMIT_REQ_REJECTED None zones
        else
          let '(d, passed) := account_zones now (delay_of l ctx.(rate) excess) passed in
          limit_pass conf d (rev passed ++ (l, ctx) :: rest)
    end.
