(* ===== verification/LimitReqSpec.v ===== *)
(** * The rate that a limit lets through

    A history of requests to a location with one limit: after a request of some
    key has passed, the number of further requests of that key that pass is bounded
    by the burst and the configured rate, also if the zone is full at times. *)

From S2P Require Import Prelude LimitReq.

(** ** Histories *)

Definition is_known (key : list Z) (q : list ngx_http_limit_req_node_t) : bool :=
  match take_node key q with Some _ => true | None => false end.

Section history.
Context (conf : ngx_http_limit_req_conf_t) (l : ngx_http_limit_req_limit_t).

(** [alloc] tells which attempts of this request to allocate a node succeed. *)
Definition serve (alloc : nat -> bool) (now : Z) (key : list Z) (ctx : ngx_http_limit_req_ctx_t) : handled :=
  ngx_http_limit_req_handler alloc conf now 0 [Some key] [(l, ctx)].

Definition zone_after (h : handled) (ctx : ngx_http_limit_req_ctx_t) : ngx_http_limit_req_ctx_t :=
  match h.(h_zones) with
  | [(_, ctx)] => ctx
  | _ => ctx
  end.

Definition passes (h : handled) : bool :=
  negb ((h.(h_status) =? NGX_HTTP_LIMIT_REQ_REJECTED) ||
        (h.(h_status) =? NGX_HTTP_LIMIT_REQ_REJECTED_DRY_RUN)).

(** What the requests of the key [K] met: the time, whether the request passed, and whether
    the zone had no entry for the key. A request of another key has an entry in the log if
    there was no room for its node in the zone and the node of [K] was taken out. *)
Record entry := Entry { e_time : Z; e_passed : bool; e_new : bool; e_evicted : bool }.

(** A request: its time, its key and its allocations. *)
Definition arrival : Type := Z * list Z * (nat -> bool).

Definition evicts (alloc : nat -> bool) (K : list Z) (q q' : list ngx_http_limit_req_node_t) : bool :=
  negb (alloc 0%nat) && is_known K q && negb (is_known K q').

Fixpoint log (K : list Z) (reqs : list arrival) (ctx : ngx_http_limit_req_ctx_t)
    : list entry :=
  match reqs with
  | [] => []
  | (now, key, alloc) :: reqs =>
      let h := serve alloc now key ctx in
      let rest := log K reqs (zone_after h ctx) in
      if beq key K then Entry now (passes h) (negb (is_known key ctx.(queue))) false :: rest
      else if evicts alloc K ctx.(queue) (zone_after h ctx).(queue)
      then Entry now false false true :: rest
      else rest
  end.

Fixpoint count (f : entry -> bool) (w : list entry) : Z :=
  match w with
  | [] => 0
  | e :: w => (if f e then 1 else 0) + count f w
  end.
End history.

(** The times do not decrease and no product overflows. *)
Fixpoint in_order (limit t : Z) (reqs : list arrival) : Prop :=
  match reqs with
  | [] => True
  | (now, key, _) :: reqs =>
      t <= now <= limit /\ 1 <= zlen key <= 65535 /\ in_order limit now reqs
  end.

(** ** One request *)

Section zone.
Context (l : ngx_http_limit_req_limit_t) (rt limit : Z).
Hypothesis rt_pos : 0 < rt.
Hypothesis burst_ok : 0 <= l.(burst) <= 4611686018427387903.
Hypothesis limit_ok : rt * limit <= 4611686018427387904.

Implicit Types (q : list ngx_http_limit_req_node_t).

Definition node_ok (now : Z) (lr : ngx_http_limit_req_node_t) : Prop :=
  0 <= lr.(n_excess) <= l.(burst) /\ 0 <= lr.(n_last) <= now /\ lr.(n_count) = 0.

Definition queue_ok (now : Z) q : Prop := Forall (node_ok now) q /\ NoDup (map n_data q).

(** The drain since the last request. *)
Definition drain (now : Z) (lr : ngx_http_limit_req_node_t) : Z := rt * (now - lr.(n_last)) / 1000.

Definition drained (now : Z) (lr : ngx_http_limit_req_node_t) : Prop :=
  lr.(n_last) + 60000 <= now /\ lr.(n_excess) <= drain now lr.

Lemma now_small now t : 0 <= t <= now -> now <= limit -> 0 <= now - t <= 4611686018427387904.
Proof. nia. Qed.

Lemma product_small now t : 0 <= t <= now -> now <= limit ->
  u64 (rt * (now - t)) = rt * (now - t) /\ 0 <= rt * (now - t) / 1000 <= 4611686018427387904.
Proof.
  intros Ht Hn. assert (0 <= rt * (now - t) <= 4611686018427387904) by nia.
  rewrite u64_id by lia. split; [done|]. split; [apply Z.div_pos; lia|].
  apply Z.div_le_upper_bound; lia.
Qed.

Lemma elapsed_eq now t : 0 <= t <= now -> now <= limit -> elapsed now t = now - t.
Proof.
  intros Ht Hn. pose proof (now_small now t Ht Hn). unfold elapsed.
  rewrite signed64_id by lia. destruct (Z.ltb_spec (now - t) (-60000)); [lia|].
  destruct (Z.ltb_spec (now - t) 0); lia.
Qed.

Lemma charge_eq now lr :
  node_ok now lr -> now <= limit ->
  charge rt (now - lr.(n_last)) lr.(n_excess)
    = Z.max 0 (lr.(n_excess) - drain now lr + 1000).
Proof.
  intros (He & Hl & _) Hn. destruct (product_small _ _ Hl Hn) as [Hu Hd].
  unfold charge, drain. rewrite Hu, signed64_id by lia.
  destruct (Z.ltb_spec (n_excess lr - rt * (now - n_last lr) / 1000 + 1000) 0); lia.
Qed.

Lemma expire_tail_spec now n q :
  1 <= n -> Forall (node_ok now) q -> now <= limit ->
  exists removed, q = removed ++ expire_tail rt now n q /\ Forall (drained now) removed.
Proof.
  intros Hn Hq Hnow. revert n Hn. induction Hq as [|lr q Hlr Hq IH]; intros n Hn; cbn [expire_tail].
  - by exists [].
  - destruct (3 <=? n); [by exists []|]. pose proof Hlr as (He & Hl & Hc).
    rewrite Hc. cbn [Z.eqb negb]. destruct (Z.eqb_spec n 0); [lia|].
    pose proof (now_small now _ Hl Hnow). destruct (product_small now _ Hl Hnow) as [Hu Hd].
    rewrite signed64_id, Z.abs_eq by lia. destruct (Z.ltb_spec (now - n_last lr) 60000); [by exists []|].
    rewrite Hu, signed64_id by lia.
    destruct (Z.ltb_spec 0 (n_excess lr - rt * (now - n_last lr) / 1000)); [by exists []|].
    destruct (IH (n + 1) ltac:(lia)) as (removed & Hrm & Hdr).
    exists (lr :: removed). split; [by cbn; f_equal|]. apply Forall_cons_2; [|done].
    unfold drained, drain. lia.
Qed.

(** An expiry drops nodes from the end of the queue that are drained. *)
Lemma expire_spec now ctx :
  rate ctx = rt -> Forall (node_ok now) (queue ctx) -> now <= limit ->
  exists kept removed, queue ctx = kept ++ removed /\ Forall (drained now) removed /\
    ngx_http_limit_req_expire ctx now 1 = ctx <| queue := kept |>.
Proof.
  intros Hr Hq Hnow. destruct (expire_tail_spec now 1 (rev (queue ctx))) as (removed & Hrm & Hd);
    [lia|by apply Forall_rev|done|].
  exists (rev (expire_tail rt now 1 (rev (queue ctx)))), (rev removed).
  split; [by rewrite <- rev_app_distr, <- Hrm, rev_involutive|].
  split; [by apply Forall_rev|]. unfold ngx_http_limit_req_expire. by rewrite Hr.
Qed.

(** Any expiry drops nodes from the end of the queue. *)
Lemma expire_tail_suffix r now n q : exists removed, q = removed ++ expire_tail r now n q.
Proof using.
  revert n. induction q as [|lr q IH]; intros n; cbn [expire_tail]; [by exists []|].
  destruct (IH (n + 1)) as [removed Hrm].
  repeat case_match; try (by exists []); exists (lr :: removed); cbn; by f_equal.
Qed.

Lemma expire_prefix now n ctx :
  exists kept removed, queue ctx = kept ++ removed /\
    ngx_http_limit_req_expire ctx now n = ctx <| queue := kept |>.
Proof using.
  destruct (expire_tail_suffix (rate ctx) now n (rev (queue ctx))) as [removed Hrm].
  exists (rev (expire_tail (rate ctx) now n (rev (queue ctx)))), (rev removed).
  split; [|done]. by rewrite <- rev_app_distr, <- Hrm, rev_involutive.
Qed.

(** Where a key stands. *)
Definition at_key (K : list Z) q (lr : ngx_http_limit_req_node_t) : Prop :=
  lr ∈ q /\ lr.(n_data) = K.

Definition no_key (K : list Z) q : Prop := forall lr, lr ∈ q -> lr.(n_data) <> K.

Lemma take_node_spec K q :
  match take_node K q with
  | Some (lr, q') => q ≡ₚ lr :: q' /\ lr.(n_data) = K
  | None => no_key K q
  end.
Proof.
  induction q as [|lr q IH]; cbn [take_node]; [by intros lr ?%elem_of_nil|].
  unfold beq. case_bool_decide as H; [done|].
  destruct (take_node K q) as [[found q']|].
  - destruct IH as [IH Hf]. split; [|done]. rewrite IH. apply Permutation_swap.
  - intros lr' [->|Hin]%elem_of_cons; [done|by apply IH].
Qed.

Lemma at_key_unique K q a b :
  NoDup (map n_data q) -> at_key K q a -> at_key K q b -> a = b.
Proof.
  intros Hnd [Ha Hka] [Hb Hkb]. apply list_elem_of_lookup in Ha as [i Hi].
  apply list_elem_of_lookup in Hb as [j Hj].
  assert (i = j) as ->; [|congruence].
  eapply (NoDup_lookup (map n_data q)); [done| |]; rewrite list_lookup_fmap.
  - by rewrite Hi.
  - rewrite Hj. cbn. by rewrite Hka, Hkb.
Qed.

Lemma queue_ok_perm now q q' : q ≡ₚ q' -> queue_ok now q -> queue_ok now q'.
Proof. intros Hp [H1 H2]. split; [by rewrite <- Hp|]. by rewrite <- (Permutation_map n_data Hp). Qed.

Lemma node_ok_mono t now lr : t <= now -> node_ok t lr -> node_ok now lr.
Proof. unfold node_ok. lia. Qed.

(** How a request changes the queue. [full] is whether there was no room for a new node. *)
Inductive served (full : bool) (now : Z) (key : list Z) q : Z -> list ngx_http_limit_req_node_t -> Prop :=
| served_passed lr rest lr' q' :
    q ≡ₚ lr :: rest -> lr.(n_data) = key -> q' ≡ₚ lr' :: rest -> lr'.(n_data) = key ->
    lr'.(n_last) = now -> lr'.(n_excess) = Z.max 0 (lr.(n_excess) - drain now lr + 1000) ->
    served full now key q NGX_OK q'
| served_refused lr rest :
    q ≡ₚ lr :: rest -> lr.(n_data) = key ->
    l.(burst) < lr.(n_excess) - drain now lr + 1000 ->
    served full now key q NGX_BUSY (lr :: rest)
| served_new kept forced removed :
    no_key key q -> q = kept ++ forced ++ removed -> Forall (drained now) removed ->
    (full = false -> forced = []) ->
    served full now key q NGX_OK (Node key now 0 0 :: kept)
| served_error kept forced removed :
    no_key key q -> q = kept ++ forced ++ removed -> Forall (drained now) removed ->
    full = true -> served full now key q NGX_ERROR kept.

Lemma lookup_served alloc t now key ctx :
  rate ctx = rt -> node ctx = None -> queue_ok t (queue ctx) -> 0 <= t <= now -> now <= limit ->
  exists rc excess q',
    ngx_http_limit_req_lookup alloc l key now true ctx = (rc, excess, ctx <| queue := q' |>) /\
    served (negb (alloc 0%nat)) now key (queue ctx) rc q' /\ queue_ok now q'.
Proof.
  intros Hr Hn [Hq Hnd] Ht Hnow.
  assert (Forall (node_ok now) (queue ctx)) as Hq'.
  { eapply Forall_impl; [exact Hq|]. intros lr. apply node_ok_mono. lia. }
  unfold ngx_http_limit_req_lookup. pose proof (take_node_spec key (queue ctx)) as Htake.
  destruct (take_node key (queue ctx)) as [[lr rest]|].
  - destruct Htake as [Hp Hk]. unfold use_node.
    assert (node_ok now lr) as Hlr.
    { rewrite Hp in Hq'. by apply Forall_cons in Hq' as [? _]. }
    pose proof Hlr as (He & Hl & Hc).
    rewrite (elapsed_eq now _ Hl), Hr, (charge_eq now lr Hlr) by lia.
    destruct (product_small now _ Hl) as [_ Hd]; [lia|]. fold (drain now lr) in Hd.
    rewrite u64_id by lia.
    assert (queue_ok now (lr :: rest)) as Hok by (eapply queue_ok_perm; [exact Hp|done]).
    destruct (Z.ltb_spec (burst l) (Z.max 0 (n_excess lr - drain now lr + 1000))) as [Hb|Hb].
    + eexists _, _, _. split; [reflexivity|]. split; [|done]. eapply served_refused; [done|done|lia].
    + eexists _, _, _. split; [reflexivity|].
      set (last := if now - n_last lr =? 0 then n_last lr else now).
      assert (last = now) as Hlast by (unfold last; destruct (Z.eqb_spec (now - n_last lr) 0); lia).
      split.
      * eapply served_passed; [exact Hp|done|reflexivity|done|done|done].
      * destruct Hok as [Hok1 Hok2]. split; [|done]. apply Forall_cons in Hok1 as [_ Hok1].
        apply Forall_cons_2; [|done]. unfold node_ok. cbn. rewrite Hlast. lia.
  - destruct (expire_spec now ctx Hr Hq') as (kept & removed & Hkr & Hd & ->); [lia|].
    assert (forall q1 q2, queue ctx = q1 ++ q2 -> queue_ok now q1 /\ queue_ok now (Node key now 0 0 :: q1)) as Hnew.
    { intros q1 q2 E. rewrite E in Hq', Hnd. apply Forall_app in Hq' as [Hkept _].
      rewrite map_app in Hnd. apply NoDup_app in Hnd as (Hnd & _). split; [by split|]. split.
      - apply Forall_cons_2; [|done]. unfold node_ok. cbn. lia.
      - cbn [map]. apply NoDup_cons. split; [|done]. intros (lr & Hk & Hin)%list_elem_of_fmap.
        apply (Htake lr); [|done]. rewrite E. apply elem_of_app. by left. }
    destruct (alloc 0%nat) eqn:E0.
    { eexists _, _, _. split; [reflexivity|]. split; [|by eapply Hnew].
      by apply (served_new false now key (queue ctx) kept [] removed). }
    destruct (expire_prefix now 0 (ctx <| queue := kept |>)) as (kept2 & forced & Hkf & ->).
    change (queue (ctx <| queue := kept |>)) with kept in Hkf.
    assert (queue ctx = kept2 ++ forced ++ removed) as Hsplit by (rewrite Hkr, Hkf; by rewrite <- app_assoc).
    destruct (Hnew kept2 (forced ++ removed) Hsplit) as [Hn1 Hn2].
    destruct (alloc 1%nat); eexists _, _, _; (split; [reflexivity|]).
    + split; [|exact Hn2]. by eapply (served_new true now key (queue ctx) kept2 forced removed).
    + split; [|exact Hn1]. by eapply (served_error true now key (queue ctx) kept2 forced removed).
Qed.

(** The balance of a key since the time [t0], after [A] further requests have
    passed, [C] of them with a new entry, and the entry was taken out [E] times for want
    of room. *)
Definition balance (K : list Z) (t0 A C E now : Z) q : Prop :=
  (exists lr, at_key K q lr /\ t0 <= lr.(n_last) /\
     1000000 * (A - C) <= 1000 * lr.(n_excess) + 1000 * l.(burst) * E + rt * (lr.(n_last) - t0) /\
     60000 * (C - E) <= lr.(n_last) - t0) \/
  (no_key K q /\ 1000000 * (A - C) <= 1000 * l.(burst) * E + rt * (now - t0) /\
     60000 * (C + 1 - E) <= now - t0).

Lemma at_key_perm K q q' lr : q ≡ₚ q' -> at_key K q lr -> at_key K q' lr.
Proof. intros Hp [H1 H2]. split; [|done]. by rewrite <- Hp. Qed.

Lemma at_key_no K q lr : at_key K q lr -> no_key K q -> False.
Proof. intros [H1 H2] H. by apply (H lr). Qed.

Lemma at_key_known K q lr : at_key K q lr -> is_known K q = true.
Proof.
  intros H. unfold is_known. pose proof (take_node_spec K q) as Ht.
  destruct (take_node K q) as [[? ?]|]; [done|]. by apply (at_key_no K q lr) in Ht.
Qed.

Lemma no_key_unknown K q : no_key K q -> is_known K q = false.
Proof.
  intros H. unfold is_known. pose proof (take_node_spec K q) as Ht.
  destruct (take_node K q) as [[lr q']|]; [|done]. destruct Ht as [Hp Hk]. destruct (H lr); [|done]. rewrite Hp. by left.
Qed.

(** A node of the key leaves the queue: it is drained, or it was taken out. *)
Lemma gone_balance K now t0 A C E (b : bool) lr q :
  node_ok now lr -> drained now lr \/ b = true -> no_key K q ->
  1000000 * (A - C) <= 1000 * lr.(n_excess) + 1000 * l.(burst) * E + rt * (lr.(n_last) - t0) ->
  60000 * (C - E) <= lr.(n_last) - t0 ->
  balance K t0 A C (E + (if b then 1 else 0)) now q.
Proof.
  intros (He & Hl & _) Hd Hno H1 H2. right. split; [done|]. destruct b; [split; nia|].
  destruct Hd as [[H3 H4]|]; [|done]. unfold drain in H4. rewrite Z.add_0_r.
  pose proof (Z.mul_div_le (rt * (now - n_last lr)) 1000). split; nia.
Qed.

Lemma balance_more K t0 A C E now q b : balance K t0 A C E now q -> 0 <= b -> balance K t0 A C (E + b) now q.
Proof.
  intros [(lr & H1 & H2 & H3 & H4)|(H1 & H2 & H3)] Hb; [left; exists lr|right]; split_and!; try done; nia.
Qed.

(** A node that is in the queue before a request of another key with a new node. *)
Lemma balance_lost K key alloc now t0 A C E q kept forced removed lr q' :
  queue_ok now q -> q = kept ++ forced ++ removed -> Forall (drained now) removed ->
  (negb (alloc 0%nat) = false -> forced = []) ->
  (forall x, x ∈ q' -> x ∈ kept \/ x.(n_data) = key) -> (forall x, x ∈ kept -> x ∈ q') -> key <> K ->
  at_key K q lr -> t0 <= lr.(n_last) ->
  1000000 * (A - C) <= 1000 * lr.(n_excess) + 1000 * l.(burst) * E + rt * (lr.(n_last) - t0) ->
  60000 * (C - E) <= lr.(n_last) - t0 ->
  balance K t0 A C (E + (if evicts alloc K q q' then 1 else 0)) now q'.
Proof.
  intros [Hq Hnd] Hs Hd Hfull Hback Hkept Hne Hat H1 H2 H3. pose proof Hat as [Hin Hk]. unfold evicts.
  rewrite (at_key_known K q lr Hat), andb_true_r.
  rewrite Hs in Hin, Hnd. apply elem_of_app in Hin as [Hin|Hin].
  - rewrite (at_key_known K q' lr) by (by split; [apply Hkept|]). rewrite andb_false_r, Z.add_0_r.
    left. exists lr. split; [|done]. split; [by apply Hkept|done].
  - assert (no_key K q') as Hno.
    { intros x Hx Hkx. apply Hback in Hx as [Hx|Hx]; [|congruence].
      rewrite map_app in Hnd. apply NoDup_app in Hnd as (_ & Hdisj & _). apply (Hdisj K).
      - rewrite <- Hkx. by apply list_elem_of_fmap_2.
      - rewrite <- Hk. by apply list_elem_of_fmap_2. }
    rewrite (no_key_unknown K q' Hno), andb_true_r. rewrite Forall_forall in Hq, Hd.
    apply (gone_balance K now t0 A C E _ lr); [apply Hq; apply Hat| |done|done|done].
    apply elem_of_app in Hin as [Hin|Hin]; [right|left; by apply Hd].
    destruct (alloc 0%nat) eqn:Ea; [|done]. rewrite Hfull in Hin by done. by apply elem_of_nil in Hin.
Qed.

(** A request of another key. *)
Lemma balance_other K key alloc t now t0 A C E q rc q' :
  key <> K -> served (negb (alloc 0%nat)) now key q rc q' -> queue_ok now q -> t <= now ->
  balance K t0 A C E t q -> balance K t0 A C (E + (if evicts alloc K q q' then 1 else 0)) now q'.
Proof.
  intros Hne Hs Hok Ht [(lr & Hk & H1 & H2 & H3)|(Hno & H1 & H2)].
  - assert (forall x, at_key K q' x -> E + (if evicts alloc K q q' then 1 else 0) = E) as Hstay.
    { intros x Hx. unfold evicts. rewrite (at_key_known K q' x Hx), andb_false_r. lia. }
    destruct Hs as [lr0 rest lr' q' Hp Hk0 Hp' Hk' _ _|lr0 rest Hp Hk0 _|kept forced removed Hno Hkr Hd Hf|
      kept forced removed Hno Hkr Hd Hf].
    + assert (at_key K q' lr) as Hat.
      { eapply at_key_perm; [symmetry; exact Hp'|]. eapply at_key_perm in Hk; [|exact Hp].
        destruct Hk as [[->|Hin]%elem_of_cons Hk]; [by subst|]. split; [by right|done]. }
      rewrite (Hstay lr Hat). left. by exists lr.
    + assert (at_key K (lr0 :: rest) lr) as Hat by (by eapply at_key_perm).
      rewrite (Hstay lr Hat). left. by exists lr.
    + apply (balance_lost K key alloc now t0 A C E q kept forced removed lr); try done.
      * intros x [->|Hx]%elem_of_cons; [by right|by left].
      * intros x Hx. by right.
    + apply (balance_lost K key alloc now t0 A C E q kept forced removed lr); try done; [by rewrite Hf|].
      intros x Hx. by left.
  - unfold evicts. rewrite (no_key_unknown K q Hno), andb_false_r, Z.add_0_r.
    right. split; [|split; [nia|lia]]. intros lr Hin Hk.
    destruct Hs as [lr0 rest lr' q' Hp Hk0 Hp' Hk' _ _|lr0 rest Hp Hk0 _|kept forced removed Hno' Hkr Hd _|
      kept forced removed Hno' Hkr Hd _].
    + rewrite Hp' in Hin. apply elem_of_cons in Hin as [->|Hin]; [congruence|].
      apply (Hno lr); [|done]. rewrite Hp. by right.
    + apply (Hno lr); [|done]. by rewrite Hp.
    + apply elem_of_cons in Hin as [->|Hin]; [done|]. apply (Hno lr); [|done].
      rewrite Hkr. apply elem_of_app. by left.
    + apply (Hno lr); [|done]. rewrite Hkr. apply elem_of_app. by left.
Qed.

(** A request of the key itself. *)
Lemma balance_own K full t now t0 A C E q rc q' :
  served full now K q rc q' -> queue_ok now q -> t <= now -> t0 <= t ->
  balance K t0 A C E t q ->
  balance K t0 (A + (if rc =? NGX_OK then 1 else 0))
    (C + (if (rc =? NGX_OK) && negb (is_known K q) then 1 else 0)) E now q'.
Proof.
  intros Hs [Hq Hnd] Ht Ht0 Hb.
  destruct Hs as [lr0 rest lr' q' Hp Hk0 Hp' Hk' Hl' He'|lr0 rest Hp Hk0 _|kept forced removed Hno Hkr Hd _|
    kept forced removed Hno Hkr Hd _].
  - assert (at_key K q lr0) as Hat by (split; [rewrite Hp; by left|done]).
    rewrite (at_key_known K q lr0 Hat).
    change ((NGX_OK =? NGX_OK)) with true. cbn [andb negb]. rewrite Z.add_0_r.
    destruct Hb as [(lr & Hk & H1 & H2 & H3)|(Hno & _)]; [|by apply (at_key_no K q lr0) in Hno].
    assert (lr0 = lr) as -> by (by eapply at_key_unique).
    left. exists lr'. split; [split; [rewrite Hp'; by left|done]|].
    pose proof (Forall_forall (node_ok now) q) as [Hf _]. destruct (Hf Hq lr (proj1 Hk)) as (? & ? & _).
    pose proof (Z.mul_div_le (rt * (now - n_last lr)) 1000). unfold drain in He'.
    rewrite Hl', He'. split; [lia|]. split; nia.
  - change (NGX_BUSY =? NGX_OK) with false. cbn [andb]. rewrite !Z.add_0_r.
    destruct Hb as [(lr & Hk & H)|(Hno & H1 & H2)].
    + left. exists lr. split; [by eapply at_key_perm|done].
    + right. split; [|split; [nia|lia]]. intros lr Hin. apply Hno. by rewrite Hp.
  - rewrite (no_key_unknown K q Hno).
    change ((NGX_OK =? NGX_OK)) with true. cbn [andb negb].
    destruct Hb as [(lr & Hk & _)|(_ & H1 & H2)]; [by apply (at_key_no K q lr) in Hno|].
    left. exists (Node K now 0 0). split; [split; [by left|done]|]. cbn. split; [lia|].
    split; [nia|lia].
  - change (NGX_ERROR =? NGX_OK) with false. cbn [andb]. rewrite !Z.add_0_r.
    destruct Hb as [(lr & Hk & _)|(_ & H1 & H2)]; [by apply (at_key_no K q lr) in Hno|].
    right. split; [|split; [nia|lia]]. intros lr Hin. apply Hno. rewrite Hkr. apply elem_of_app. by left.
Qed.

(** ** The log *)

Context (conf : ngx_http_limit_req_conf_t).

Lemma serve_lookup alloc now key ctx rc excess ctx' :
  1 <= zlen key <= 65535 -> rc = NGX_OK \/ rc = NGX_BUSY \/ rc = NGX_ERROR ->
  ngx_http_limit_req_lookup alloc l key now true ctx = (rc, excess, ctx') ->
  passes (serve conf l alloc now key ctx) = (rc =? NGX_OK) /\
  zone_after (serve conf l alloc now key ctx) ctx = ctx'.
Proof.
  intros Hk Hrc Hl. unfold serve, ngx_http_limit_req_handler. cbn [Z.eqb negb limit_loop].
  destruct (Z.eqb_spec (zlen key) 0); [lia|]. destruct (Z.ltb_spec 65535 (zlen key)); [lia|].
  cbn [orb]. rewrite bool_decide_eq_true_2, Hl by done. destruct Hrc as [-> |Hrc].
  - cbn [Z.eqb negb orb account_zones rev app NGX_OK NGX_AGAIN]. unfold limit_pass.
    change (NGX_OK =? NGX_AGAIN) with false. change (NGX_OK =? NGX_BUSY) with false.
    change (NGX_OK =? NGX_ERROR) with false. cbn [negb orb account_zones rev app].
    by destruct (_ =? 0), (dry_run conf).
  - assert (negb (rc =? NGX_AGAIN) = true /\ (rc =? NGX_BUSY) || (rc =? NGX_ERROR) = true /\ (rc =? NGX_OK) = false)
      as (E1 & E2 & E3) by (by destruct Hrc as [-> | ->]).
    rewrite E1, E2, E3. by destruct (dry_run conf).
Qed.

Definition zone_ok (t : Z) (ctx : ngx_http_limit_req_ctx_t) : Prop :=
  rate ctx = rt /\ node ctx = None /\ queue_ok t (queue ctx).

Lemma serve_served alloc t now key ctx :
  zone_ok t ctx -> 0 <= t <= now -> now <= limit -> 1 <= zlen key <= 65535 ->
  let h := serve conf l alloc now key ctx in
  exists rc, served (negb (alloc 0%nat)) now key (queue ctx) rc (queue (zone_after h ctx)) /\
    passes h = (rc =? NGX_OK) /\ zone_ok now (zone_after h ctx).
Proof.
  intros (Hr & Hn & Hq) Ht Hnow Hk h.
  destruct (lookup_served alloc t now key ctx Hr Hn Hq Ht Hnow) as (rc & e & q' & Hl & Hs & Hq').
  assert (rc = NGX_OK \/ rc = NGX_BUSY \/ rc = NGX_ERROR) as Hrc by (destruct Hs; auto).
  destruct (serve_lookup alloc now key ctx rc e _ Hk Hrc Hl) as [Hp Hz].
  exists rc. unfold h. rewrite Hz. split; [done|]. split; [done|]. by split.
Qed.

Definition renewed (e : entry) : bool := e.(e_passed) && e.(e_new).

Fixpoint last_time (t : Z) (w : list entry) : Z :=
  match w with
  | [] => t
  | e :: w => last_time e.(e_time) w
  end.

(** What a balance allows. *)
Definition within (t0 A C E T : Z) : Prop :=
  1000000 * (A - C) <= 1000 * l.(burst) * (1 + E) + rt * (T - t0) /\ 60000 * (C - E) <= T - t0.

Lemma balance_within K t0 A C E now q :
  queue_ok now q -> 0 <= E -> balance K t0 A C E now q -> within t0 A C E now.
Proof.
  intros [Hq _] HE [(lr & [Hin _] & H1 & H2 & H3)|(_ & H1 & H2)]; [|split; nia].
  rewrite Forall_forall in Hq. destruct (Hq lr Hin) as (? & ? & _). split; nia.
Qed.

Lemma log_within K reqs t ctx t0 A C E w rest :
  in_order limit t reqs -> 0 <= t0 <= t -> zone_ok t ctx -> 0 <= E -> balance K t0 A C E t (queue ctx) ->
  log conf l K reqs ctx = w ++ rest ->
  within t0 (A + count e_passed w) (C + count renewed w) (E + count e_evicted w) (last_time t w).
Proof.
  revert t ctx A C E w. induction reqs as [|[[now key] alloc] reqs IH]; intros t ctx A C E w Ho Ht0 Hz HE Hb Hw.
  - destruct w; [|done]. cbn. rewrite !Z.add_0_r. eapply balance_within; [apply Hz|done..].
  - destruct w as [|e w].
    { cbn. rewrite !Z.add_0_r. eapply balance_within; [apply Hz|done..]. }
    destruct Ho as (Hnow & Hk & Ho). cbn [log] in Hw.
    destruct (serve_served alloc t now key ctx Hz) as (rc & Hs & Hp & Hz'); [lia|lia|done|].
    pose proof Hz as (_ & _ & Hq).
    assert (queue_ok now (queue ctx)) as Hq'.
    { destruct Hq as [Hq Hnd]. split; [|done]. eapply Forall_impl; [exact Hq|].
      intros lr. apply node_ok_mono. lia. }
    unfold beq in Hw. case_bool_decide as Hkey.
    + subst key. injection Hw as <- Hw. cbn [count last_time e_time e_passed e_evicted].
      pose proof (balance_own K _ t now t0 A C E _ _ _ Hs Hq' ltac:(lia) ltac:(lia) Hb) as Hb'.
      pose proof (IH now _ _ _ E w Ho ltac:(lia) Hz' HE Hb' Hw) as Hres.
      unfold renewed at 1. cbn [e_passed e_new]. rewrite Hp, !Z.add_assoc, Z.add_0_r. exact Hres.
    + eapply (balance_other K key alloc t now) in Hb; [|done|exact Hs|done|lia].
      destruct (evicts alloc K (queue ctx) (queue (zone_after (serve conf l alloc now key ctx) ctx))).
      * injection Hw as <- Hw. cbn [count last_time e_time e_passed e_evicted].
        unfold renewed at 1. cbn [e_passed andb]. rewrite !Z.add_assoc, !Z.add_0_r.
        exact (IH now _ A C (E + 1) w Ho ltac:(lia) Hz' ltac:(lia) Hb Hw).
      * rewrite Z.add_0_r in Hb.
        exact (IH now (zone_after (serve conf l alloc now key ctx) ctx) A C E (e :: w) Ho ltac:(lia) Hz' HE Hb Hw).
Qed.

(** A request that passed starts a balance. *)
Lemma passed_balance K full now q q' :
  served full now K q NGX_OK q' -> 0 <= now -> balance K now 0 0 0 now q'.
Proof.
  intros Hs Hnow. left.
  inversion Hs as [lr rest lr' q1 Hp Hk Hp' Hk' Hl He|lr rest Hp Hk Hb|kept forced removed Hno Hkr Hd|
    kept forced removed Hno Hkr Hd]; subst.
  - exists lr'. split; [split; [rewrite Hp'; by left|done]|]. lia.
  - exists (Node K now 0 0). split; [split; [by left|done]|]. cbn. lia.
Qed.

Lemma log_from K reqs t ctx before e w rest :
  in_order limit t reqs -> 0 <= t -> zone_ok t ctx ->
  log conf l K reqs ctx = before ++ e :: w ++ rest -> e.(e_passed) = true ->
  within e.(e_time) (count e_passed w) (count renewed w) (count e_evicted w) (last_time e.(e_time) w).
Proof.
  revert t ctx before. induction reqs as [|[[now key] alloc] reqs IH]; intros t ctx before Ho Ht Hz Hw He.
  - by destruct before.
  - destruct Ho as (Hnow & Hk & Ho). cbn [log] in Hw.
    destruct (serve_served alloc t now key ctx Hz) as (rc & Hs & Hp & Hz'); [lia|lia|done|].
    unfold beq in Hw. case_bool_decide as Hkey.
    + subst key. destruct before as [|b before]; injection Hw as <- Hw.
      * cbn [e_passed e_time] in *. rewrite Hp in He. apply Z.eqb_eq in He as ->.
        apply (log_within K reqs now (zone_after (serve conf l alloc now K ctx) ctx) now 0 0 0 w rest Ho);
          [lia|done|done| |done].
        eapply passed_balance; [exact Hs|lia].
      * by apply (IH now (zone_after (serve conf l alloc now K ctx) ctx) before Ho); [lia|done| |].
    + destruct (evicts alloc K _ _).
      * destruct before as [|b before]; injection Hw as <- Hw; [by cbn in He|].
        by apply (IH now (zone_after (serve conf l alloc now key ctx) ctx) before Ho); [lia|done| |].
      * by apply (IH now (zone_after (serve conf l alloc now key ctx) ctx) before Ho); [lia|done| |].
Qed.
End zone.

(** ** The bound *)

(** C35: A location with one limit, whose requests come in the order of their times, with
    keys that are neither empty nor longer than 65535 bytes, and with a burst and a product
    of the rate and the latest time that are not above 2^62. After a request of a key has
    passed, the number of further requests of that key that pass until some later time is
    at most the burst plus what the rate allows in that time (burst and rate are in
    thousandths of a request), plus the number of times that the entry of the key was made
    anew, plus another burst for each time that it was taken out for want of room: a full
    zone gives up its oldest entries however full their buckets are. Apart from these, an
    entry is gone at most once per minute. Requests of other keys, in any number and
    order, matter in no other way, and allocations may fail at any time. *)
Theorem limit_req_bound conf l rt limit K reqs before e w rest :
  0 < rt -> 0 <= l.(burst) <= 4611686018427387903 -> rt * limit <= 4611686018427387904 ->
  in_order limit 0 reqs ->
  log conf l K reqs (Ctx [] rt None) = before ++ e :: w ++ rest -> e.(e_passed) = true ->
  let T := last_time e.(e_time) w - e.(e_time) in
  1000000 * count e_passed w
    <= 1000 * l.(burst) * (1 + count e_evicted w) + rt * T + 1000000 * count renewed w /\
  60000 * (count renewed w - count e_evicted w) <= T.
Proof.
  intros Hrt Hb Hlim Ho Hlog He. cbv zeta.
  destruct (log_from l rt limit Hrt Hb Hlim conf K reqs 0 (Ctx [] rt None) before e w rest)
    as [H1 H2]; [done|done| |done|done|].
  - split; [done|]. split; [done|]. split; [by apply Forall_nil_2|by apply NoDup_nil_2].
  - lia.
Qed.

(** One request per second with a burst of one; there is no room for another key, whose
    requests take the entry out. *)
Definition requests_example : list arrival :=
  [(1000, [1], fun _ => true); (1000, [1], fun _ => true); (1000, [1], fun _ => true);
   (1001, [2], Nat.ltb 0); (1002, [1], fun _ => true); (1003, [1], fun _ => true)].

Lemma limit_req_bound_witness :
  map e_passed (log (Conf false 503) (Limit 1000 0) [1] requests_example (Ctx [] 1000 None))
    = [true; true; false; false; true; true] /\
  1000000 * 3 <= 1000 * 1000 * (1 + 1) + 1000 * 3 + 1000000 * 1.
Proof.
  split; [reflexivity|].
  apply (limit_req_bound (Conf false 503) (Limit 1000 0) 1000 10000 [1] requests_example
    [] (Entry 1000 true true false)
    [Entry 1000 true false false; Entry 1000 false false false; Entry 1001 false false true;
     Entry 1002 true true false; Entry 1003 true false false] []).
  - done.
  - done.
  - done.
  - by vm_compute.
  - by vm_compute.
  - done.
Defined.
