(* ===== verification/Sprintf.v ===== *)
(** * Formatted output

    [ngx_vslprintf] of [src/core/ngx_string.c] with [ngx_sprintf_num] and
    [ngx_sprintf_str]. The code only appends at [buf], so the model keeps the bytes
    written so far and the room [cap] up to [last]; a write behind the room is a
    fault. [%f] is not modelled (it needs floating-point arithmetic). *)

From S2P Require Import Prelude.

(** ** Arguments

    What [va_arg] yields: a machine word of 32 or 64 bits, a pointer to the bytes
    from there on, or a pointer to an [ngx_str_t] (or a variable value) with these
    bytes. To read a value as another type is undefined. *)
Inductive arg :=
| A32 (v : Z)
| A64 (v : Z)
| APtr (l : list Z)
| AStr (l : list Z).

Definition signed32 (z : Z) : Z :=
  let z := u32 z in if z <? 2147483648 then z else z - 4294967296.

Definition arg32 (args : list arg) : res (Z * list arg) :=
  match args with A32 v :: args => Ok (u32 v, args) | _ => Fault end.

Definition arg64 (args : list arg) : res (Z * list arg) :=
  match args with A64 v :: args => Ok (u64 v, args) | _ => Fault end.

(** ** Writing *)

Section write.
Context (cap : Z).

(** [*buf++ = c] *)
Definition push (out : list Z) (c : Z) : res (list Z) :=
  if zlen out <? cap then Ok (out ++ [c]) else Fault.

(** [ngx_cpymem(buf, src, n)] *)
Definition cpymem (out src : list Z) (n : Z) : res (list Z) :=
  if zlen out + n <=? cap then l ← slice src 0 n; Ok (out ++ l) else Fault.

(** ** Numbers *)

Definition NGX_INT64_LEN : Z := 20.
Definition NGX_INT_T_LEN : Z := 20.
Definition NGX_ATOMIC_T_LEN : Z := 20.
Definition NGX_MAX_UINT32_VALUE : Z := 4294967295.

Definition hex : list Z := str "0123456789abcdef".
Definition HEX : list Z := str "0123456789ABCDEF".

(** [do { *--p = ... } while (ui64 /= 10)] in front of the digits [l]; 20 rounds are
    enough for a number of 64 bits. *)
Fixpoint decimal_digits (fuel : nat) (ui64 : Z) (l : list Z) : res (list Z) :=
  match fuel with
  | O => NoFuel
  | S fuel =>
      let l := u8 (ui64 mod 10 + "0"%chr) :: l in
      let ui64 := ui64 / 10 in
      if ui64 =? 0 then Ok l else decimal_digits fuel ui64 l
  end.

Fixpoint hex_digits (table : list Z) (fuel : nat) (ui64 : Z) (l : list Z) : res (list Z) :=
  match fuel with
  | O => NoFuel
  | S fuel =>
      let l := table_at table (Z.land ui64 0xf) :: l in
      let ui64 := Z.shiftr ui64 4 in
      if ui64 =? 0 then Ok l else hex_digits table fuel ui64 l
  end.

(** The digits in [temp], which has room for 20 of them. *)
Definition number_digits (ui64 hexadecimal : Z) : res (list Z) :=
  l ← (if hexadecimal =? 0 then
         if ui64 <=? NGX_MAX_UINT32_VALUE then decimal_digits 64 (u32 ui64) []
         else decimal_digits 64 ui64 []
       else if hexadecimal =? 1 then hex_digits hex 64 ui64 []
       else hex_digits HEX 64 ui64 []);
  if zlen l <=? NGX_INT64_LEN then Ok l else Fault.

(** [while (len++ < width && buf < last) *buf++ = zero], [n] is [width - len]. *)
Fixpoint pad (n : nat) (zero : Z) (out : list Z) : res (list Z) :=
  match n with
  | O => Ok out
  | S n => if zlen out <? cap then out ← push out zero; pad n zero out else Ok out
  end.

Definition ngx_sprintf_num (out : list Z) (ui64 zero hexadecimal width : Z) : res (list Z) :=
  l ← number_digits ui64 hexadecimal;
  out ← pad (Z.to_nat (width - zlen l)) zero out;
  let len := zlen l in
  let len := if cap <? zlen out + len then cap - zlen out else len in
  cpymem out l len.

(** ** Strings *)

(** Up to the terminating zero. *)
Fixpoint copy_terminated (out src : list Z) : res (list Z) :=
  match src with
  | [] => Fault
  | c :: src =>
      if c =? 0 then Ok out
      else if zlen out <? cap then out ← push out c; copy_terminated out src
      else Ok out
  end.

Definition push_hex (table out : list Z) (c : Z) : res (list Z) :=
  out ← push out (table_at table (Z.shiftr c 4));
  push out (table_at table (Z.land c 0xf)).

Fixpoint hex_terminated (table out src : list Z) : res (list Z) :=
  match src with
  | [] => Fault
  | c :: src =>
      if c =? 0 then Ok out
      else if zlen out <? cap - 1 then out ← push_hex table out c; hex_terminated table out src
      else Ok out
  end.

(** [n] bytes. *)
Fixpoint hex_bytes (table : list Z) (n : nat) (out src : list Z) : res (list Z) :=
  match n with
  | O => Ok out
  | S n =>
      if zlen out <? cap - 1 then
        match src with
        | [] => Fault
        | c :: src => out ← push_hex table out c; hex_bytes table n out src
        end
      else Ok out
  end.

(** [len] is [None] for [(size_t) -1]. *)
Definition ngx_sprintf_str (out src : list Z) (len : option Z) (hexadecimal : Z) : res (list Z) :=
  if hexadecimal =? 0 then
    match len with
    | None => copy_terminated out src
    | Some len => cpymem out src (Z.min (cap - zlen out) len)
    end
  else
    let table := if hexadecimal =? 1 then hex else HEX in
    match len with
    | None => hex_terminated table out src
    | Some len => hex_bytes table (Z.to_nat len) out src
    end.
End write.

(** ** Directives *)

(** What stands between the percent sign and the conversion character. *)
Record spec := Spec {
  sp_zero : Z;
  sp_width : Z;
  sp_sign : bool;
  sp_hex : Z;
  sp_max_width : bool;
  sp_stars : nat
}.

#[export] Instance spec_rebuild : Rebuild spec := fun r =>
  Spec (sp_zero r) (sp_width r) (sp_sign r) (sp_hex r) (sp_max_width r) (sp_stars r).

Fixpoint parse_width (width : Z) (fmt : list Z) : Z * list Z :=
  match fmt with
  | c :: rest => if is_digit c then parse_width (u64 (width * 10 + (c - "0"%chr))) rest
                 else (width, fmt)
  | [] => (width, fmt)
  end.

Fixpoint skip_digits (fmt : list Z) : list Z :=
  match fmt with
  | c :: rest => if is_digit c then skip_digits rest else fmt
  | [] => fmt
  end.

Fixpoint parse_flags (sp : spec) (fmt : list Z) : spec * list Z :=
  match fmt with
  | c :: rest =>
      if c =? "u"%chr then parse_flags (sp <| sp_sign := false |>) rest
      else if c =? "m"%chr then parse_flags (sp <| sp_max_width := true |>) rest
      else if c =? "X"%chr then parse_flags (sp <| sp_hex := 2 |> <| sp_sign := false |>) rest
      else if c =? "x"%chr then parse_flags (sp <| sp_hex := 1 |> <| sp_sign := false |>) rest
      else if c =? "."%chr then (sp, skip_digits rest)
      else if c =? "*"%chr then parse_flags (sp <| sp_stars := S sp.(sp_stars) |>) rest
      else (sp, fmt)
  | [] => (sp, fmt)
  end.

Definition parse_spec (fmt : list Z) : spec * list Z :=
  let zero := match fmt with c :: _ => if c =? "0"%chr then "0"%chr else " "%chr | [] => " "%chr end in
  let '(width, fmt) := parse_width 0 fmt in
  parse_flags (Spec zero width true 0 false 0) fmt.

(** [slen = va_arg(args, size_t)] for each star. *)
Fixpoint take_stars (n : nat) (slen : option Z) (args : list arg) : res (option Z * list arg) :=
  match n with
  | O => Ok (slen, args)
  | S n =>
      '(v, args) ← arg64 args;
      take_stars n (if v =? 18446744073709551615 then None else Some v) args
  end.

(** A numeric conversion: the specification as it changes it, [i64] if [sign] is
    set and else [ui64], and the arguments left; [None] for other characters. *)
Definition take_number (c : Z) (sp : spec) (args : list arg) : res (option (spec * Z * list arg)) :=
  let word32 sp :=
    '(v, args) ← arg32 args;
    Ok (Some (sp, if sp.(sp_sign) then signed32 v else v, args)) in
  let word64 sp :=
    '(v, args) ← arg64 args;
    Ok (Some (sp, if sp.(sp_sign) then signed64 v else v, args)) in
  if (c =? "O"%chr) || (c =? "T"%chr) || (c =? "r"%chr) then word64 (sp <| sp_sign := true |>)
  else if c =? "P"%chr then word32 (sp <| sp_sign := true |>)
  else if c =? "M"%chr then
    '(ms, args) ← arg64 args;
    Ok (Some (if signed64 ms =? -1 then (sp <| sp_sign := true |>, -1, args)
              else (sp <| sp_sign := false |>, ms, args)))
  else if (c =? "z"%chr) || (c =? "l"%chr) || (c =? "L"%chr) then word64 sp
  else if c =? "i"%chr then
    word64 (if sp.(sp_max_width) then sp <| sp_width := NGX_INT_T_LEN |> else sp)
  else if c =? "A"%chr then
    word64 (if sp.(sp_max_width) then sp <| sp_width := NGX_ATOMIC_T_LEN |> else sp)
  else if (c =? "d"%chr) || (c =? "D"%chr) then word32 sp
  else if c =? "p"%chr then
    word64 (sp <| sp_hex := 2 |> <| sp_sign := false |> <| sp_zero := "0"%chr |> <| sp_width := 16 |>)
  else Ok None.

(** The number is written, a negative one behind a minus sign. *)
Definition put_number (cap : Z) (out : list Z) (sp : spec) (v : Z) : res (list Z) :=
  if sp.(sp_sign) && (v <? 0) then
    out ← push cap out "-"%chr;
    v ← int64 (- v);
    ngx_sprintf_num cap out v sp.(sp_zero) sp.(sp_hex) sp.(sp_width)
  else ngx_sprintf_num cap out v sp.(sp_zero) sp.(sp_hex) sp.(sp_width).

(** One conversion: the bytes written and the arguments left. *)
Definition convert (cap : Z) (c : Z) (sp : spec) (slen : option Z) (args : list arg) (out : list Z)
    : res (list Z * list arg) :=
  if (c =? "V"%chr) || (c =? "v"%chr) then
    match args with
    | AStr l :: args =>
        out ← ngx_sprintf_str cap out l (Some (zlen l)) sp.(sp_hex);
        Ok (out, args)
    | _ => Fault
    end
  else if c =? "s"%chr then
    match args with
    | APtr l :: args =>
        out ← ngx_sprintf_str cap out l slen sp.(sp_hex);
        Ok (out, args)
    | _ => Fault
    end
  else
    n ← take_number c sp args;
    match n with
    | Some (sp, v, args) => out ← put_number cap out sp v; Ok (out, args)
    | None =>
        if c =? "f"%chr then Fault
        else if c =? "c"%chr then
          '(d, args) ← arg32 args;
          out ← push cap out (Z.land d 0xff);
          Ok (out, args)
        else if c =? "Z"%chr then out ← push cap out 0; Ok (out, args)
        else if c =? "N"%chr then out ← push cap out LF; Ok (out, args)
        else out ← push cap out c; Ok (out, args)
    end.

(** The loop over the format. Every round consumes a byte of it, so its length is
    enough fuel. *)
Fixpoint vslprintf_loop (cap : Z) (fuel : nat) (fmt : list Z) (args : list arg) (out : list Z)
    : res (list Z) :=
  match fmt with
  | [] => Ok out
  | c :: fmt =>
      if cap <=? zlen out then Ok out
      else
        match fuel with
        | O => NoFuel
        | S fuel =>
            if c =? "%"%chr then
              let '(sp, fmt) := parse_spec fmt in
              '(slen, args) ← take_stars sp.(sp_stars) None args;
              match fmt with
              | [] => Fault
              | c :: fmt =>
                  '(out, args) ← convert cap c sp slen args out;
                  vslprintf_loop cap fuel fmt args out
              end
            else
              out ← push cap out c;
              vslprintf_loop cap fuel fmt args out
        end
  end.

Definition ngx_vslprintf (cap : Z) (fmt : list Z) (args : list arg) : res (list Z) :=
  vslprintf_loop cap (length fmt) fmt args [].

(** [ngx_snprintf]; [ngx_sprintf] has no bound. *)
Definition ngx_snprintf (max : Z) (fmt : list Z) (args : list arg) : res (list Z) :=
  ngx_vslprintf max fmt args.

Definition ngx_sprintf (fmt : list Z) (args : list arg) : res (list Z) :=
  ngx_vslprintf 18446744073709551615 fmt args.

Example snprintf_example :
  ngx_snprintf 20 (str "%V=%03ui,%*xs%%") [AStr (str "ab"); A64 7; A64 2; APtr [171; 1; 2]]
    = Ok (str "ab=007,ab01%").
Proof. reflexivity. Qed.

Example snprintf_cut :
  ngx_snprintf 6 (str "%s:%D%d") [APtr (str "abc" ++ [0]); A32 4294967254; A32 5] = Ok (str "abc:-4").
Proof. reflexivity. Qed.
