(* ===== verification/SprintfSpec.v ===== *)
(** * Bounds and round trips of formatted output

    For arguments of the types that the format asks for, [ngx_vslprintf] reads no
    other memory and never writes behind [last]; the numbers it writes are read
    back by the parsers of Numeric.v. The last part has what each directive appends. *)

From S2P Require Import Prelude Numeric NumericSpec Sprintf.

(** ** Digits *)

Lemma dec_from_snoc v l c : dec_from v (l ++ [c]) = dec_from v l * 10 + (c - "0"%chr).
Proof. unfold dec_from. by rewrite fold_left_app. Qed.

Lemma pow_le_length b k n : 2 <= b -> 0 <= k -> b ^ k <= n -> 0 < n.
Proof. intros Hb Hk H. pose proof (Z.pow_pos_nonneg b k). lia. Qed.

(** The digits of [n], with the number of digits bounded by any power above [n]. *)
Lemma decimal_digits_spec fuel n l :
  0 <= n < 10 ^ Z.of_nat fuel -> (0 < fuel)%nat ->
  exists ds, decimal_digits fuel n l = Ok (ds ++ l) /\ forallb is_digit ds = true /\
    dec_from 0 ds = n /\ 1 <= zlen ds /\
    (forall k, 1 <= k -> n < 10 ^ k -> zlen ds <= k).
Proof.
  revert n l. induction fuel as [|fuel IH]; intros n l Hn Hf; [lia|]. cbn [decimal_digits].
  pose proof (Z.div_mod n 10 ltac:(lia)) as Hdm. pose proof (Z.mod_pos_bound n 10 ltac:(lia)) as Hm.
  rewrite Nat2Z.inj_succ, Z.pow_succ_r in Hn by lia.
  assert (u8 (n mod 10 + "0"%chr) = n mod 10 + 48) as -> by (apply u8_id; lia).
  assert (is_digit (n mod 10 + 48) = true) as Hd by (apply is_digit_spec; lia).
  destruct (Z.eqb_spec (n / 10) 0) as [H0|H0].
  - exists [n mod 10 + 48]. split; [done|]. split; [cbn; by rewrite Hd|].
    split; [cbn; lia|]. rewrite zlen_cons, zlen_nil. split; [lia|]. intros; lia.
  - assert (0 <= n / 10) by (apply Z.div_pos; lia).
    assert (0 < fuel)%nat.
    { destruct fuel; [|lia]. cbn in Hn. lia. }
    destruct (IH (n / 10) (n mod 10 + 48 :: l)) as (ds & -> & Hds & Hv & Hlen & Hk);
      [split; [done|]; apply Z.div_lt_upper_bound; lia|done|].
    exists (ds ++ [n mod 10 + 48]). split; [by rewrite <- app_assoc|].
    split; [by rewrite forallb_app, Hds; cbn; rewrite Hd|].
    rewrite dec_from_snoc, Hv, zlen_app, zlen_cons, zlen_nil. split; [lia|]. split; [lia|].
    intros k Hk1 Hnk. destruct (decide (k = 1)) as [->|]; [lia|].
    assert (zlen ds <= k - 1); [|lia]. apply Hk; [lia|]. apply Z.div_lt_upper_bound; [lia|].
    rewrite <- Z.pow_succ_r by lia. by replace (Z.succ (k - 1)) with k by lia.
Qed.

Lemma hex_from_snoc l c v w :
  hex_from v l = Some w -> hex_from v (l ++ [c]) = (d ← hex_digit c; Some (w * 16 + d)).
Proof.
  revert v. induction l as [|x l IH]; intros v; cbn.
  - by intros [= ->].
  - destruct (hex_digit x) as [d|]; [cbn; apply IH|done].
Qed.

(** Both tables hold the digits of the numbers below 16. *)
Lemma hex_table table d :
  table = hex \/ table = HEX -> 0 <= d < 16 ->
  hex_digit (table_at table d) = Some d /\ is_byte (table_at table d).
Proof.
  intros Ht Hd. unfold table_at. assert (Z.to_nat d < 16)%nat as Hn by lia.
  rewrite <- (Z2Nat.id d) at 2 by lia.
  assert (forall t, t = hex \/ t = HEX -> forallb (fun i => bool_decide
    (hex_digit (nth i t 0) = Some (Z.of_nat i)) && between 0 255 (nth i t 0)) (seq 0 16) = true) as H.
  { by intros t [->| ->]. }
  specialize (H table Ht). rewrite forallb_forall in H. specialize (H (Z.to_nat d)).
  rewrite in_seq in H. specialize (H ltac:(lia)). apply andb_true_iff in H as [H1 H2].
  apply bool_decide_eq_true in H1. split; [done|]. unfold between in H2. lia.
Qed.

Lemma hex_digits_spec table fuel n l :
  table = hex \/ table = HEX -> 0 <= n < 16 ^ Z.of_nat fuel -> (0 < fuel)%nat ->
  exists ds, hex_digits table fuel n l = Ok (ds ++ l) /\ bytes ds /\
    hex_from 0 ds = Some n /\ 1 <= zlen ds /\
    (forall k, 1 <= k -> n < 16 ^ k -> zlen ds <= k).
Proof.
  intros Ht. revert n l. induction fuel as [|fuel IH]; intros n l Hn Hf; [lia|]. cbn [hex_digits].
  change 0xf with (Z.ones 4). rewrite Z.land_ones, Z.shiftr_div_pow2 by lia. change (2 ^ 4) with 16.
  pose proof (Z.div_mod n 16 ltac:(lia)) as Hdm. pose proof (Z.mod_pos_bound n 16 ltac:(lia)) as Hm.
  rewrite Nat2Z.inj_succ, Z.pow_succ_r in Hn by lia.
  destruct (hex_table table (n mod 16) Ht Hm) as [Hd Hb].
  destruct (Z.eqb_spec (n / 16) 0) as [H0|H0].
  - exists [table_at table (n mod 16)]. split; [done|]. split; [by apply Forall_cons_2|].
    split; [cbn; rewrite Hd; cbn; f_equal; lia|]. rewrite zlen_cons, zlen_nil. split; [lia|]. intros; lia.
  - assert (0 <= n / 16) by (apply Z.div_pos; lia).
    assert (0 < fuel)%nat.
    { destruct fuel; [|lia]. cbn in Hn. lia. }
    destruct (IH (n / 16) (table_at table (n mod 16) :: l)) as (ds & -> & Hds & Hv & Hlen & Hk);
      [split; [done|]; apply Z.div_lt_upper_bound; lia|done|].
    exists (ds ++ [table_at table (n mod 16)]). split; [by rewrite <- app_assoc|].
    split; [apply Forall_app_2; [done|by apply Forall_cons_2]|].
    rewrite (hex_from_snoc _ _ _ _ Hv), Hd, zlen_app, zlen_cons, zlen_nil. cbn [mbind option_bind].
    split; [f_equal; lia|]. split; [lia|].
    intros k Hk1 Hnk. destruct (decide (k = 1)) as [->|]; [lia|].
    assert (zlen ds <= k - 1); [|lia]. apply Hk; [lia|]. apply Z.div_lt_upper_bound; [lia|].
    rewrite <- Z.pow_succ_r by lia. by replace (Z.succ (k - 1)) with k by lia.
Qed.

(** What [ds] has to be for the number [n]. *)
Definition digits_of (n h : Z) (ds : list Z) : Prop :=
  if h =? 0 then forallb is_digit ds = true /\ dec_from 0 ds = n
  else bytes ds /\ hex_from 0 ds = Some n.

(** The base that is printed in. *)
Definition base (h : Z) : Z := if h =? 0 then 10 else 16.

Lemma number_digits_full n h :
  0 <= n < 18446744073709551616 ->
  exists ds, number_digits n h = Ok ds /\ digits_of n h ds /\ 1 <= zlen ds <= 20 /\
    (forall k, 1 <= k -> n < base h ^ k -> zlen ds <= k).
Proof.
  intros Hn. unfold number_digits, digits_of, base.
  assert (10 ^ 20 <= 10 ^ Z.of_nat 64) as H10 by (apply Z.pow_le_mono_r; lia).
  assert (16 ^ 16 <= 16 ^ Z.of_nat 64) as H16 by (apply Z.pow_le_mono_r; lia).
  destruct (Z.eqb_spec h 0) as [->|Hh].
  - destruct (decimal_digits_spec 64 n []) as (ds & H & Hd & Hv & Hl & Hk); [lia|lia|].
    rewrite app_nil_r in H. exists ds.
    assert ((if n <=? NGX_MAX_UINT32_VALUE then decimal_digits 64 (u32 n) []
             else decimal_digits 64 n []) = Ok ds) as ->.
    { unfold NGX_MAX_UINT32_VALUE. destruct (Z.leb_spec n 4294967295); [|done].
      by rewrite u32_id by lia. }
    assert (zlen ds <= 20) by (apply Hk; lia).
    rewrite Ok_bind. unfold NGX_INT64_LEN. by destruct (Z.leb_spec (zlen ds) 20); [|lia].
  - assert (forall t, t = hex \/ t = HEX -> exists ds, hex_digits t 64 n [] = Ok ds /\
      (bytes ds /\ hex_from 0 ds = Some n) /\ 1 <= zlen ds <= 20 /\
      (forall k, 1 <= k -> n < 16 ^ k -> zlen ds <= k)) as Hhex.
    { intros t Ht. destruct (hex_digits_spec t 64 n [] Ht) as (ds & H & Hd & Hv & Hl & Hk); [lia|lia|].
      rewrite app_nil_r in H. exists ds. split; [done|]. split; [done|]. split; [|done]. split; [done|].
      assert (zlen ds <= 16); [|lia]. apply Hk; lia. }
    destruct (h =? 1);
      [destruct (Hhex hex ltac:(auto)) as (ds & -> & Hd & Hl & Hk)
      |destruct (Hhex HEX ltac:(auto)) as (ds & -> & Hd & Hl & Hk)];
      rewrite Ok_bind; unfold NGX_INT64_LEN; destruct (Z.leb_spec (zlen ds) 20); (lia || eauto 6).
Qed.

Lemma number_digits_ok n h :
  0 <= n < 18446744073709551616 ->
  exists ds, number_digits n h = Ok ds /\ digits_of n h ds /\ 1 <= zlen ds <= 20.
Proof. intros Hn. destruct (number_digits_full n h Hn) as (ds & ? & ? & ? & _). eauto. Qed.

(** ** The room *)

Section room.
Context (cap : Z).

(** The code wrote something, and stayed in the room. *)
Definition wrote (r : res (list Z)) : Prop := exists out, r = Ok out /\ zlen out <= cap.

Lemma push_ok out c : zlen out < cap -> push cap out c = Ok (out ++ [c]).
Proof. intros H. unfold push. by destruct (Z.ltb_spec (zlen out) cap); [|lia]. Qed.

Lemma wrote_push out c : zlen out < cap -> wrote (push cap out c).
Proof.
  intros H. exists (out ++ [c]). rewrite push_ok by done. split; [done|].
  rewrite zlen_app, zlen_cons, zlen_nil. lia.
Qed.

Lemma wrote_cpymem out src n :
  zlen out <= cap -> 0 <= n <= zlen src -> zlen out + n <= cap -> wrote (cpymem cap out src n).
Proof.
  intros H Hn Hr. unfold cpymem. destruct (Z.leb_spec (zlen out + n) cap); [|lia].
  destruct (slice_ok src 0 n) as (l & -> & Hl); [lia..|]. rewrite Ok_bind.
  exists (out ++ l). split; [done|]. rewrite zlen_app. lia.
Qed.

Lemma wrote_bind r f : wrote r -> (forall out, zlen out <= cap -> wrote (f out)) -> wrote (r ≫= f).
Proof. intros (out & -> & H) Hf. rewrite Ok_bind. by apply Hf. Qed.

Lemma pad_ok n zero out :
  zlen out <= cap ->
  pad cap n zero out = Ok (out ++ replicate (Z.to_nat (Z.min (Z.of_nat n) (cap - zlen out))) zero).
Proof.
  revert out. induction n as [|n IH]; intros out H; cbn [pad].
  - replace (Z.to_nat (Z.min (Z.of_nat 0) (cap - zlen out))) with O by lia. by rewrite app_nil_r.
  - destruct (Z.ltb_spec (zlen out) cap).
    + rewrite push_ok, Ok_bind, IH by (rewrite ?zlen_app, ?zlen_cons, ?zlen_nil; lia).
      rewrite zlen_app, zlen_cons, zlen_nil, <- app_assoc.
      replace (Z.to_nat (Z.min (Z.of_nat (S n)) (cap - zlen out)))
        with (S (Z.to_nat (Z.min (Z.of_nat n) (cap - (zlen out + (1 + 0)))))) by lia. done.
    + replace (Z.to_nat (Z.min (Z.of_nat (S n)) (cap - zlen out))) with O by lia. by rewrite app_nil_r.
Qed.

Lemma wrote_num out v zero h width :
  zlen out <= cap -> 0 <= v < 18446744073709551616 ->
  wrote (ngx_sprintf_num cap out v zero h width).
Proof.
  intros H Hv. unfold ngx_sprintf_num. destruct (number_digits_ok v h Hv) as (ds & -> & _ & Hl).
  rewrite Ok_bind. apply wrote_bind.
  - rewrite pad_ok by done. eexists. split; [done|]. rewrite zlen_app, zlen_replicate. lia.
  - intros out' H'. cbv zeta. apply wrote_cpymem; [done|..];
      destruct (Z.ltb_spec cap (zlen out' + zlen ds)); lia.
Qed.

(** With enough room the number is written with its padding. *)
Lemma num_exact out v zero h width ds :
  number_digits v h = Ok ds -> zlen out + Z.max width (zlen ds) <= cap ->
  ngx_sprintf_num cap out v zero h width
    = Ok (out ++ replicate (Z.to_nat (width - zlen ds)) zero ++ ds).
Proof.
  intros Hds Hr. unfold ngx_sprintf_num. rewrite Hds, Ok_bind.
  pose proof (zlen_nonneg ds). pose proof (zlen_nonneg out).
  rewrite pad_ok, Ok_bind by lia.
  replace (Z.min (Z.of_nat (Z.to_nat (width - zlen ds))) (cap - zlen out))
    with (Z.of_nat (Z.to_nat (width - zlen ds))) by lia. rewrite Nat2Z.id.
  set (out' := out ++ replicate _ _).
  assert (zlen out' = zlen out + Z.of_nat (Z.to_nat (width - zlen ds))) as Hl
    by (unfold out'; by rewrite zlen_app, zlen_replicate).
  cbv zeta. destruct (Z.ltb_spec cap (zlen out' + zlen ds)); [lia|].
  unfold cpymem. destruct (Z.leb_spec (zlen out' + zlen ds) cap); [|lia].
  rewrite slice_whole, Ok_bind. unfold out'. by rewrite app_assoc.
Qed.

Lemma wrote_terminated out src :
  zlen out <= cap -> existsb (fun c => c =? 0) src = true -> wrote (copy_terminated cap out src).
Proof.
  revert out. induction src as [|c src IH]; intros out H Hz; [done|]. cbn in *.
  destruct (c =? 0); [by exists out|]. cbn in Hz.
  destruct (Z.ltb_spec (zlen out) cap); [|by exists out].
  apply wrote_bind; [by apply wrote_push|]. intros out' H'. by apply IH.
Qed.

Lemma wrote_push_hex table out c : zlen out < cap - 1 -> wrote (push_hex cap table out c).
Proof.
  intros H. unfold push_hex. rewrite push_ok, Ok_bind by lia. apply wrote_push.
  rewrite zlen_app, zlen_cons, zlen_nil. lia.
Qed.

Lemma wrote_hex_terminated table out src :
  zlen out <= cap -> existsb (fun c => c =? 0) src = true ->
  wrote (hex_terminated cap table out src).
Proof.
  revert out. induction src as [|c src IH]; intros out H Hz; [done|]. cbn in *.
  destruct (c =? 0); [by exists out|]. cbn in Hz.
  destruct (Z.ltb_spec (zlen out) (cap - 1)); [|by exists out].
  apply wrote_bind; [by apply wrote_push_hex|]. intros out' H'. by apply IH.
Qed.

Lemma wrote_hex_bytes table n out src :
  zlen out <= cap -> (n <= length src)%nat -> wrote (hex_bytes cap table n out src).
Proof.
  revert out src. induction n as [|n IH]; intros out src H Hn; cbn [hex_bytes]; [by exists out|].
  destruct (Z.ltb_spec (zlen out) (cap - 1)); [|by exists out].
  destruct src as [|c src]; [cbn in Hn; lia|].
  apply wrote_bind; [by apply wrote_push_hex|]. intros out' H'. apply IH; [done|]. cbn in Hn. lia.
Qed.

Definition string_ok (len : option Z) (src : list Z) : bool :=
  match len with
  | None => existsb (fun c => c =? 0) src
  | Some n => (0 <=? n) && (n <=? zlen src)
  end.

Lemma wrote_str out src len h :
  zlen out <= cap -> string_ok len src = true -> wrote (ngx_sprintf_str cap out src len h).
Proof.
  intros H Hs. unfold ngx_sprintf_str. destruct len as [n|]; cbn in Hs.
  - destruct (h =? 0); [apply wrote_cpymem; lia|].
    apply wrote_hex_bytes; [done|]. unfold zlen in Hs. lia.
  - destruct (h =? 0); [by apply wrote_terminated|by apply wrote_hex_terminated].
Qed.
End room.

(** ** Formats and arguments that fit *)

(** A word, which must not be the smallest number when it is taken as signed: its
    negation overflows. *)
Definition number_ok (c : Z) (sp : spec) (args : list arg) : option (list arg) :=
  match take_number c sp args with
  | Ok (Some (sp, v, rest)) =>
      if sp.(sp_sign) && (v =? -9223372036854775808) then None else Some rest
  | _ => None
  end.

Definition is_number (c : Z) : bool :=
  (c =? "O"%chr) || (c =? "T"%chr) || (c =? "r"%chr) || (c =? "P"%chr) || (c =? "M"%chr) ||
  (c =? "z"%chr) || (c =? "l"%chr) || (c =? "L"%chr) || (c =? "i"%chr) || (c =? "A"%chr) ||
  (c =? "d"%chr) || (c =? "D"%chr) || (c =? "p"%chr).

(** The arguments left behind a conversion, if these are of its types. *)
Definition fits (c : Z) (sp : spec) (slen : option Z) (args : list arg) : option (list arg) :=
  if (c =? "V"%chr) || (c =? "v"%chr) then
    match args with AStr _ :: rest => Some rest | _ => None end
  else if c =? "s"%chr then
    match args with
    | APtr l :: rest => if string_ok slen l then Some rest else None
    | _ => None
    end
  else if is_number c then number_ok c sp args
  else if c =? "f"%chr then None
  else if c =? "c"%chr then match args with A32 _ :: rest => Some rest | _ => None end
  else Some args.

Fixpoint format_fits (fuel : nat) (fmt : list Z) (args : list arg) : bool :=
  match fmt, fuel with
  | [], _ => true
  | _, O => false
  | c :: fmt, S fuel =>
      if c =? "%"%chr then
        let '(sp, fmt) := parse_spec fmt in
        match take_stars sp.(sp_stars) None args, fmt with
        | Ok (slen, args), c :: fmt =>
            match fits c sp slen args with
            | Some args => format_fits fuel fmt args
            | None => false
            end
        | _, _ => false
        end
      else format_fits fuel fmt args
  end.

Lemma parse_width_length w fmt : (length (parse_width w fmt).2 <= length fmt)%nat.
Proof.
  revert w. induction fmt as [|c fmt IH]; intros w; cbn; [lia|].
  destruct (is_digit c); [|done]. pose proof (IH (u64 (w * 10 + (c - 48)))). cbn in *. lia.
Qed.

Lemma skip_digits_length fmt : (length (skip_digits fmt) <= length fmt)%nat.
Proof. induction fmt as [|c fmt IH]; cbn; [lia|]. destruct (is_digit c); cbn; lia. Qed.

Lemma parse_flags_length sp fmt : (length (parse_flags sp fmt).2 <= length fmt)%nat.
Proof.
  revert sp. induction fmt as [|c fmt IH]; intros sp; cbn; [lia|].
  pose proof (skip_digits_length fmt).
  repeat (case_match; try (cbn; lia)); (etransitivity; [apply IH|lia]).
Qed.

Lemma parse_spec_length fmt : (length (parse_spec fmt).2 <= length fmt)%nat.
Proof.
  unfold parse_spec. pose proof (parse_width_length 0 fmt). destruct (parse_width 0 fmt) as [w f].
  cbn in *. etransitivity; [apply parse_flags_length|done].
Qed.

(** What a numeric conversion yields fits in 64 bits. *)
Definition value_ok (sp : spec) (v : Z) : Prop :=
  if sp.(sp_sign) then -9223372036854775808 <= v < 9223372036854775808
  else 0 <= v < 18446744073709551616.

Lemma signed64_range z : -9223372036854775808 <= signed64 z < 9223372036854775808.
Proof.
  unfold signed64. assert (0 <= u64 z < 18446744073709551616) by (apply Z.mod_pos_bound; lia).
  destruct (Z.ltb_spec (u64 z) 9223372036854775808); lia.
Qed.

Lemma signed32_range z : -9223372036854775808 <= signed32 z < 9223372036854775808.
Proof.
  unfold signed32. assert (0 <= u32 z < 4294967296) by (apply Z.mod_pos_bound; lia).
  destruct (Z.ltb_spec (u32 z) 2147483648); lia.
Qed.

Lemma arg64_range args v rest : arg64 args = Ok (v, rest) -> 0 <= v < 18446744073709551616.
Proof. destruct args as [|[]]; try done. intros [= <- _]. apply Z.mod_pos_bound. lia. Qed.

Lemma arg32_range args v rest : arg32 args = Ok (v, rest) -> 0 <= v < 18446744073709551616.
Proof.
  destruct args as [|[]]; try done. intros [= <- _].
  assert (0 <= u32 v0 < 4294967296) by (apply Z.mod_pos_bound; lia). lia.
Qed.

Lemma take_number_ok c sp args sp' v rest :
  take_number c sp args = Ok (Some (sp', v, rest)) -> value_ok sp' v.
Proof.
  unfold take_number. intros H.
  assert (forall s, ('(v, args) ← arg64 args;
    Ok (Some (s, if s.(sp_sign) then signed64 v else v, args))) = Ok (Some (sp', v, rest)) ->
    value_ok sp' v) as H64.
  { intros s Hs. apply bind_Ok in Hs as ([x r] & Ha & [= <- <- _]). unfold value_ok.
    apply arg64_range in Ha. destruct (sp_sign s); [apply signed64_range|done]. }
  assert (forall s, ('(v, args) ← arg32 args;
    Ok (Some (s, if s.(sp_sign) then signed32 v else v, args))) = Ok (Some (sp', v, rest)) ->
    value_ok sp' v) as H32.
  { intros s Hs. apply bind_Ok in Hs as ([x r] & Ha & [= <- <- _]). unfold value_ok.
    apply arg32_range in Ha. destruct (sp_sign s); [apply signed32_range|done]. }
  destruct (_ || _); [by eapply H64|]. destruct (c =? _); [by eapply H32|].
  destruct (c =? _).
  { apply bind_Ok in H as ([x r] & Ha & H). apply arg64_range in Ha.
    destruct (signed64 x =? -1); injection H as <- <- _; unfold value_ok; cbn; lia. }
  destruct (_ || _); [by eapply H64|]. destruct (c =? _); [by eapply H64|].
  destruct (c =? _); [by eapply H64|]. destruct (_ || _); [by eapply H32|].
  destruct (c =? _); [by eapply H64|done].
Qed.

Lemma take_number_none c sp args : is_number c = false -> take_number c sp args = Ok None.
Proof.
  unfold is_number. rewrite !orb_false_iff. intros H. destruct_and! H. unfold take_number.
  repeat match goal with H : (c =? _) = false |- _ => rewrite H; clear H end. done.
Qed.

Section room_loop.
Context (cap : Z).

Lemma wrote_put_number out sp v :
  zlen out < cap -> value_ok sp v ->
  sp.(sp_sign) && (v =? -9223372036854775808) = false -> wrote cap (put_number cap out sp v).
Proof.
  intros H Hv Hmin. unfold put_number, value_ok in *. destruct (sp_sign sp); cbn [andb] in *.
  - destruct (Z.ltb_spec v 0); [|apply wrote_num; lia].
    apply wrote_bind; [by apply wrote_push|]. intros out' H'.
    rewrite (int64_ok (- v)), Ok_bind by lia. apply wrote_num; lia.
  - apply wrote_num; lia.
Qed.

(** A conversion whose arguments fit succeeds, and leaves the arguments that [fits]
    says. *)
Lemma convert_ok c sp slen args rest out :
  fits c sp slen args = Some rest -> zlen out < cap ->
  exists out', convert cap c sp slen args out = Ok (out', rest) /\ zlen out' <= cap.
Proof.
  intros Hf H. unfold fits, convert in *.
  assert (forall r, wrote cap r ->
    exists out', (out ← r; Ok (out, rest)) = Ok (out', rest) /\ zlen out' <= cap) as Hw.
  { intros r (out' & -> & H'). by exists out'. }
  destruct (_ || _).
  { destruct args as [|[]]; try done. injection Hf as <-. apply Hw, wrote_str; [lia|].
    cbn. pose proof (zlen_nonneg l). lia. }
  destruct (c =? "s"%chr).
  { destruct args as [|[]]; try done. destruct (string_ok slen l) eqn:Hs; [|done].
    injection Hf as <-. apply Hw, wrote_str; [lia|done]. }
  destruct (is_number c) eqn:Hn.
  { unfold number_ok in Hf. destruct (take_number c sp args) as [[[[sp' v] r]|]| |] eqn:Ht; try done.
    rewrite Ok_bind. destruct (_ && _) eqn:Hmin; [done|]. injection Hf as ->.
    apply Hw, wrote_put_number; [done| |done]. by eapply take_number_ok. }
  rewrite take_number_none, Ok_bind by done.
  destruct (c =? "f"%chr); [done|]. destruct (c =? "c"%chr).
  { destruct args as [|[]]; try done. injection Hf as <-. cbn [arg32]. rewrite Ok_bind.
    by apply Hw, wrote_push. }
  injection Hf as <-. destruct (c =? "Z"%chr); [by apply Hw, wrote_push|].
  destruct (c =? "N"%chr); by apply Hw, wrote_push.
Qed.

Lemma vslprintf_loop_ok fuel fmt args out :
  (length fmt <= fuel)%nat -> format_fits fuel fmt args = true -> zlen out <= cap ->
  wrote cap (vslprintf_loop cap fuel fmt args out).
Proof.
  revert fmt args out. induction fuel as [|fuel IH]; intros [|c fmt] args out Hl Hf H;
    cbn [vslprintf_loop]; try (by exists out).
  destruct (Z.leb_spec cap (zlen out)); [by exists out|]. cbn [format_fits length] in *.
  destruct (c =? "%"%chr).
  - pose proof (parse_spec_length fmt) as Hp. destruct (parse_spec fmt) as [sp fmt']. cbn in Hp.
    destruct (take_stars _ None args) as [[slen args']| |]; try done. rewrite Ok_bind.
    destruct fmt' as [|c' fmt']; [done|]. cbn in Hp.
    destruct (fits c' sp slen args') as [rest|] eqn:Hfit; [|done].
    destruct (convert_ok c' sp slen args' rest out Hfit ltac:(lia)) as (out' & -> & H').
    rewrite Ok_bind. apply IH; [lia|done|done].
  - apply wrote_bind; [by apply wrote_push|]. intros out' H'. apply IH; [lia|done|done].
Qed.
End room_loop.

(** C19: [ngx_vslprintf] is memory safe. When the arguments are of the types the
    format asks for (a string with an explicit length has that many bytes, one
    without ends in a zero, no signed number is the smallest 64-bit one, no [%f]
    and no percent sign at the very end), it reads only them, and it returns
    having written at most the [cap] bytes it was given, whatever the widths,
    the precision and the lengths ask for. *)
Theorem sprintf_bounded cap fmt args :
  0 <= cap -> format_fits (length fmt) fmt args = true ->
  exists out, ngx_vslprintf cap fmt args = Ok out /\ zlen out <= cap.
Proof. intros Hc Hf. by apply (vslprintf_loop_ok cap). Qed.

Definition bounded_fmt : list Z := str "%V: %*s%030i%Xd".
Definition bounded_args : list arg :=
  [AStr (str "host"); A64 2; APtr (str "abc"); A64 18446744073709551615; A32 48879].

Lemma sprintf_bounded_witness :
  exists out, ngx_vslprintf 20 bounded_fmt bounded_args = Ok out /\ zlen out <= 20.
Proof.
  apply (sprintf_bounded 20 bounded_fmt bounded_args); [lia|reflexivity].
Defined.

(** ** Numbers that are read back *)

Definition ui_fmt : list Z := str "%ui".
Definition xi_fmt : list Z := str "%xi".

Lemma print_number cap h fmt v ds :
  (fmt, h) = (ui_fmt, 0) \/ (fmt, h) = (xi_fmt, 1) ->
  0 <= v < 18446744073709551616 -> number_digits v h = Ok ds -> 1 <= zlen ds <= cap ->
  ngx_snprintf cap fmt [A64 v] = Ok ds.
Proof.
  intros Hfmt Hv Hds Hl. unfold ngx_snprintf, ngx_vslprintf.
  assert (vslprintf_loop cap (length fmt) fmt [A64 v] []
          = out ← ngx_sprintf_num cap [] (u64 v) " "%chr h 0; Ok out) as ->.
  { destruct Hfmt as [[= -> ->]|[= -> ->]];
      [change ui_fmt with [37; 117; 105]|change xi_fmt with [37; 120; 105]];
      cbn [vslprintf_loop length]; (destruct (Z.leb_spec cap (zlen (@nil Z))) as [Hc|Hc];
        [change (zlen (@nil Z)) with 0 in Hc; lia|]);
      cbn -[ngx_sprintf_num u64]; by destruct (ngx_sprintf_num _ _ _ _ _ _). }
  rewrite u64_id, (num_exact cap [] v " "%chr h 0 ds), Ok_bind by
    (done || change (zlen (@nil Z)) with 0; lia).
  by replace (Z.to_nat (0 - zlen ds)) with O by lia.
Qed.

(** Printed numbers are read back. Every number that [ngx_int_t] holds is
    printed by [%ui] as a string that [ngx_atoi] reads as this number, and by
    [%xi] as one that [ngx_hextoi] reads as it. *)
Theorem sprintf_roundtrip v :
  0 <= v <= NGX_MAX_INT_T_VALUE ->
  (line ← ngx_snprintf NGX_INT_T_LEN ui_fmt [A64 v]; ngx_atoi line) = Ok v /\
  (line ← ngx_snprintf NGX_INT_T_LEN xi_fmt [A64 v]; ngx_hextoi line) = Ok v.
Proof.
  intros Hv. unfold NGX_MAX_INT_T_VALUE in Hv. split.
  - destruct (number_digits_ok v 0 ltac:(lia)) as (ds & Hds & [Hd Hn] & Hl).
    rewrite (print_number _ 0 _ v ds), Ok_bind by (auto || lia || done).
    rewrite ngx_atoi_decimal. unfold decimal, dec. rewrite Hd, Hn.
    destruct (Z.eqb_spec (zlen ds) 0); [lia|]. cbn. unfold representable.
    by destruct (Z.leb_spec v NGX_MAX_INT_T_VALUE); [|unfold NGX_MAX_INT_T_VALUE in *; lia].
  - destruct (number_digits_ok v 1 ltac:(lia)) as (ds & Hds & [Hd Hn] & Hl).
    rewrite (print_number _ 1 _ v ds), Ok_bind by (auto || lia || done).
    unfold ngx_hextoi. destruct (Z.eqb_spec (zlen ds) 0); [lia|].
    rewrite hextoi_loop_spec by (done || unfold NGX_MAX_INT_T_VALUE; lia). rewrite Hn. cbn.
    unfold representable.
    by destruct (Z.leb_spec v NGX_MAX_INT_T_VALUE); [|unfold NGX_MAX_INT_T_VALUE in *; lia].
Qed.

Lemma sprintf_roundtrip_witness :
  (line ← ngx_snprintf NGX_INT_T_LEN ui_fmt [A64 8080]; ngx_atoi line) = Ok 8080 /\
  (line ← ngx_snprintf NGX_INT_T_LEN xi_fmt [A64 8080]; ngx_hextoi line) = Ok 8080.
Proof. apply (sprintf_roundtrip 8080). unfold NGX_MAX_INT_T_VALUE. lia. Defined.

(** ** Printing by directives

    What the directives for numbers and strings append, one lemma per directive, and the
    tactics that run a format by these lemmas. *)

(** ** Printed numbers *)

(** The digits of [v], in base 10 for [h = 0] and in base 16 for [h = 1]. *)
Definition num (h v : Z) : list Z :=
  match number_digits v h with Ok l => l | _ => [] end.

Lemma num_spec h v :
  0 <= v < 18446744073709551616 ->
  number_digits v h = Ok (num h v) /\ digits_of v h (num h v) /\ 1 <= zlen (num h v) /\
  (forall k, 1 <= k -> v < base h ^ k -> zlen (num h v) <= k).
Proof.
  intros Hv. unfold num. destruct (number_digits_full v h Hv) as (ds & -> & Hd & Hl & Hk).
  split; [done|]. split; [done|]. split; [lia|done].
Qed.

(** One numeric directive without a width. *)
Lemma print_num cap fuel fmt fmt' sign h v args out :
  parse_spec fmt' = (Spec " "%chr 0 sign h false 0, "d"%chr :: fmt) ->
  0 <= v < 2147483648 -> zlen out + zlen (num h v) <= cap ->
  vslprintf_loop cap (S fuel) ("%"%chr :: fmt') (A32 v :: args) out
  = vslprintf_loop cap fuel fmt args (out ++ num h v).
Proof.
  intros Hspec Hv Hl. destruct (num_spec h v) as (Hn & _ & H1 & _); [lia|].
  cbn [vslprintf_loop]. destruct (Z.leb_spec cap (zlen out)); [lia|].
  rewrite Z.eqb_refl, Hspec. cbn [sp_stars take_stars]. rewrite Ok_bind.
  unfold convert. cbn [Z.eqb Pos.eqb orb]. unfold take_number. cbn [Z.eqb Pos.eqb orb arg32].
  rewrite !Ok_bind. cbn [sp_sign]. rewrite u32_id by lia.
  assert (signed32 v = v) as -> by (unfold signed32; rewrite u32_id by lia;
    destruct (Z.ltb_spec v 2147483648); lia).
  assert ((if sign then v else v) = v) as -> by (by destruct sign).
  unfold put_number. cbn [sp_sign sp_zero sp_hex sp_width].
  assert (sign && (v <? 0) = false) as -> by (destruct sign, (Z.ltb_spec v 0); (done || lia)).
  rewrite (num_exact cap out v 32 h 0 (num h v)), Ok_bind by (done || lia).
  by replace (Z.to_nat (0 - zlen (num h v))) with O by lia.
Qed.

(** [%O] *)
Lemma print_off cap fuel fmt v args out :
  0 <= v < 9223372036854775808 -> zlen out + zlen (num 0 v) <= cap ->
  vslprintf_loop cap (S fuel) ("%"%chr :: "O"%chr :: fmt) (A64 v :: args) out
  = vslprintf_loop cap fuel fmt args (out ++ num 0 v).
Proof.
  intros Hv Hl. destruct (num_spec 0 v) as (Hn & _ & H1 & _); [lia|].
  cbn [vslprintf_loop]. destruct (Z.leb_spec cap (zlen out)); [lia|].
  rewrite Z.eqb_refl. change (parse_spec ("O"%chr :: fmt)) with (Spec " "%chr 0 true 0 false 0, "O"%chr :: fmt).
  cbn [sp_stars take_stars]. rewrite Ok_bind.
  unfold convert. cbn [Z.eqb Pos.eqb orb]. unfold take_number. cbn [Z.eqb Pos.eqb orb arg64].
  rewrite !Ok_bind. cbn [sp_sign]. rewrite u64_id, signed64_id by lia.
  change ((Spec 32 0 true 0 false 0) <| sp_sign := true |>) with (Spec 32 0 true 0 false 0).
  unfold put_number. cbn [sp_sign andb sp_zero sp_hex sp_width]. destruct (Z.ltb_spec v 0); [lia|].
  rewrite (num_exact cap out v 32 0 0 (num 0 v)), Ok_bind by (done || lia).
  by replace (Z.to_nat (0 - zlen (num 0 v))) with O by lia.
Qed.

(** [%ui] *)
Lemma print_ui cap fuel fmt v args out :
  0 <= v < 9223372036854775808 -> zlen out + zlen (num 0 v) <= cap ->
  vslprintf_loop cap (S fuel) ("%"%chr :: "u"%chr :: "i"%chr :: fmt) (A64 v :: args) out
  = vslprintf_loop cap fuel fmt args (out ++ num 0 v).
Proof.
  intros Hv Hl. destruct (num_spec 0 v) as (Hn & _ & H1 & _); [lia|].
  cbn [vslprintf_loop]. destruct (Z.leb_spec cap (zlen out)); [lia|].
  rewrite Z.eqb_refl. change (parse_spec ("u"%chr :: "i"%chr :: fmt)) with (Spec " "%chr 0 false 0 false 0, "i"%chr :: fmt).
  cbn [sp_stars take_stars]. rewrite Ok_bind.
  unfold convert. cbn [Z.eqb Pos.eqb orb]. unfold take_number. cbn [Z.eqb Pos.eqb orb arg64 sp_max_width].
  rewrite !Ok_bind. cbn [sp_sign]. rewrite u64_id by lia.
  unfold put_number. cbn [sp_sign andb sp_zero sp_hex sp_width].
  rewrite (num_exact cap out v 32 0 0 (num 0 v)), Ok_bind by (done || lia).
  by replace (Z.to_nat (0 - zlen (num 0 v))) with O by lia.
Qed.

(** [%0muA]: a number of twenty digits. *)
Definition atomic_text (v : Z) : list Z := replicate (Z.to_nat (20 - zlen (num 0 v))) "0"%chr ++ num 0 v.

Lemma zlen_atomic v : 0 <= v < 18446744073709551616 -> zlen (atomic_text v) = 20.
Proof.
  intros Hv. destruct (num_spec 0 v Hv) as (_ & _ & H1 & Hk). unfold atomic_text.
  rewrite zlen_app, zlen_replicate. enough (zlen (num 0 v) <= 20) by lia. apply Hk; [lia|].
  change (base 0 ^ 20) with 100000000000000000000. lia.
Qed.

Lemma print_atomic cap fuel fmt v args out :
  0 <= v < 18446744073709551616 -> zlen out + 20 <= cap ->
  vslprintf_loop cap (S fuel) ("%"%chr :: "0"%chr :: "m"%chr :: "u"%chr :: "A"%chr :: fmt) (A64 v :: args) out
  = vslprintf_loop cap fuel fmt args (out ++ atomic_text v).
Proof.
  intros Hv Hl. destruct (num_spec 0 v Hv) as (Hn & _ & H1 & _). pose proof (zlen_atomic v Hv) as Ha.
  unfold atomic_text in Ha. rewrite zlen_app, zlen_replicate in Ha.
  cbn [vslprintf_loop]. destruct (Z.leb_spec cap (zlen out)); [lia|].
  rewrite Z.eqb_refl. change (parse_spec _) with (Spec "0"%chr 0 false 0 true 0, "A"%chr :: fmt).
  cbn [sp_stars take_stars]. rewrite Ok_bind.
  unfold convert. cbn [Z.eqb Pos.eqb orb]. unfold take_number. cbn [Z.eqb Pos.eqb orb arg64 sp_max_width].
  change ((Spec 48 0 false 0 true 0) <| sp_width := NGX_ATOMIC_T_LEN |>) with (Spec 48 20 false 0 true 0).
  rewrite !Ok_bind, u64_id by lia. unfold put_number. cbn [sp_sign andb sp_zero sp_hex sp_width].
  by rewrite (num_exact cap out v 48 0 20 (num 0 v)), Ok_bind by (done || lia).
Qed.

(** [%V] *)
Lemma print_str cap fuel fmt l args out :
  zlen out < cap -> zlen out + zlen l <= cap ->
  vslprintf_loop cap (S fuel) ("%"%chr :: "V"%chr :: fmt) (AStr l :: args) out
  = vslprintf_loop cap fuel fmt args (out ++ l).
Proof.
  intros H1 Hl. pose proof (zlen_nonneg l). cbn [vslprintf_loop]. destruct (Z.leb_spec cap (zlen out)); [lia|].
  rewrite Z.eqb_refl. change (parse_spec _) with (Spec " "%chr 0 true 0 false 0, "V"%chr :: fmt).
  cbn [sp_stars take_stars]. rewrite Ok_bind. unfold convert. cbn [Z.eqb Pos.eqb orb].
  unfold ngx_sprintf_str. change (sp_hex _) with 0. cbn [Z.eqb]. unfold cpymem.
  rewrite Z.min_r by lia. destruct (Z.leb_spec (zlen out + zlen l) cap); [|lia].
  pose proof (slice_app [] l [] 0 (zlen l) eq_refl eq_refl) as Hs. rewrite app_nil_r in Hs. cbn [app] in Hs.
  by rewrite Hs, !Ok_bind.
Qed.

Lemma print_chr cap fuel fmt c args out :
  c <> "%"%chr -> zlen out < cap ->
  vslprintf_loop cap (S fuel) (c :: fmt) args out = vslprintf_loop cap fuel fmt args (out ++ [c]).
Proof.
  intros Hc Hl. cbn [vslprintf_loop]. destruct (Z.leb_spec cap (zlen out)); [lia|].
  destruct (Z.eqb_spec c 37); [done|]. by rewrite push_ok by lia.
Qed.

Ltac num_room := repeat rewrite zlen_app;
  repeat match goal with
  | |- context [zlen [?c]] => change (zlen [c]) with 1
  | |- context [zlen (@nil Z)] => change (zlen (@nil Z)) with 0
  end; lia.

(** One directive or character of a format that is given as a list of bytes. *)
Ltac num_step :=
  match goal with
  | |- context [vslprintf_loop ?cap (S ?fu) (37 :: ?f) (A32 ?v :: ?args) ?out] =>
      let r := eval vm_compute in (parse_spec f) in
      match r with
      | (Spec 32 0 ?sign ?h false 0, 100 :: ?rest) =>
          rewrite (print_num cap fu rest f sign h v args out eq_refl) by (first [lia | num_room])
      end
  | |- context [vslprintf_loop ?cap (S ?fu) (37 :: 79 :: ?f) (A64 ?v :: ?args) ?out] =>
      rewrite (print_off cap fu f v args out) by (first [lia | num_room])
  | |- context [vslprintf_loop ?cap (S ?fu) (37 :: 117 :: 105 :: ?f) (A64 ?v :: ?args) ?out] =>
      rewrite (print_ui cap fu f v args out) by (first [lia | num_room])
  | |- context [vslprintf_loop ?cap (S ?fu) (37 :: 48 :: 109 :: 117 :: 65 :: ?f) (A64 ?v :: ?args) ?out] =>
      rewrite (print_atomic cap fu f v args out) by (first [lia | num_room])
  | |- context [vslprintf_loop ?cap (S ?fu) (37 :: 86 :: ?f) (AStr ?l :: ?args) ?out] =>
      rewrite (print_str cap fu f l args out) by num_room
  | |- context [vslprintf_loop ?cap (S ?fu) (?c :: ?f) ?args ?out] =>
      rewrite (print_chr cap fu f c args out) by (first [done | num_room])
  end.

Ltac num_start :=
  match goal with
  | |- context [ngx_sprintf ?f _] => let g := eval vm_compute in f in change f with g; unfold ngx_sprintf
  | |- context [ngx_snprintf _ ?f _] => let g := eval vm_compute in f in change f with g; unfold ngx_snprintf
  end;
  unfold ngx_vslprintf; cbn [length].
