(* ===== verification/Times.v ===== *)
(** * Dates

    [ngx_gmtime], [ngx_http_time] and [ngx_http_cookie_time] of
    [core/ngx_times.c], and [ngx_parse_http_time] of [core/ngx_parse_time.c]. In the
    parser a pointer is the list of the bytes from there up to [end]. *)

From S2P Require Import Prelude Sprintf.

(** ** From a number of seconds to a date *)

Record ngx_tm_t := Tm {
  tm_sec : Z;
  tm_min : Z;
  tm_hour : Z;
  tm_mday : Z;
  tm_mon : Z;
  tm_year : Z;
  tm_wday : Z
}.

Definition week : list (list Z) :=
  [str "Sun"; str "Mon"; str "Tue"; str "Wed"; str "Thu"; str "Fri"; str "Sat"].

Definition months : list (list Z) :=
  [str "Jan"; str "Feb"; str "Mar"; str "Apr"; str "May"; str "Jun";
   str "Jul"; str "Aug"; str "Sep"; str "Oct"; str "Nov"; str "Dec"].

(** A boolean as a number. *)
Definition b2z (b : bool) : Z := if b then 1 else 0.

(** The year and the day of the year, both counted from March 1. *)
Definition gm_year (days : Z) : Z * Z :=
  let year := u64 (u64 (days + 2) * 400) / (365 * 400 + 100 - 4 + 1) in
  let yday := signed64 (days - (365 * year + year / 4 - year / 100 + year / 400)) in
  if yday <? 0 then
    let leap := b2z ((year mod 4 =? 0) && (negb (year mod 100 =? 0) || (year mod 400 =? 0))) in
    (u64 (year - 1), signed64 (365 + leap + yday))
  else (year, yday).

(** The year, the month and the day. *)
Definition gm_date (year yday : Z) : Z * Z * Z :=
  let mon := (yday + 31) * 10 / 306 in
  let mday := u64 (yday - (367 * mon / 12 - 30) + 1) in
  if 306 <=? yday then (u64 (year + 1), u64 (mon - 10), mday) else (year, u64 (mon + 2), mday).

Definition ngx_gmtime (t : Z) : ngx_tm_t :=
  let t := if t <? 0 then 0 else t in
  let days := t / 86400 in
  let sec := t mod 86400 in
  let '(days, sec) := if 2932896 <? days then (2932896, 86399) else (days, sec) in
  let wday := (4 + days) mod 7 in
  let hour := sec / 3600 in
  let sec := sec mod 3600 in
  let min := sec / 60 in
  let sec := sec mod 60 in
  let days := u64 (days - (31 + 28) + 719527) in
  let '(year, yday) := gm_year days in
  let '(year, mon, mday) := gm_date year yday in
  Tm (signed32 sec) (signed32 min) (signed32 hour) (signed32 mday) (signed32 mon)
     (signed32 year) (signed32 wday).

(** [a[i]] for a table of strings. *)
Definition name_at (a : list (list Z)) (i : Z) : res (list Z) :=
  if i <? 0 then Fault
  else match a !! Z.to_nat i with Some l => Ok l | None => Fault end.

(** A C string as an argument. *)
Definition cstr (l : list Z) : arg := APtr (l ++ [0]).

(** [ngx_http_time] behind [ngx_gmtime]. *)
Definition print_http_time (tm : ngx_tm_t) : res (list Z) :=
  w ← name_at week tm.(tm_wday);
  m ← name_at months (tm.(tm_mon) - 1);
  ngx_sprintf (str "%s, %02d %s %4d %02d:%02d:%02d GMT")
    [cstr w; A32 tm.(tm_mday); cstr m; A32 tm.(tm_year);
     A32 tm.(tm_hour); A32 tm.(tm_min); A32 tm.(tm_sec)].

Definition ngx_http_time (t : Z) : res (list Z) := print_http_time (ngx_gmtime t).

Definition ngx_http_cookie_time (t : Z) : res (list Z) :=
  let tm := ngx_gmtime t in
  w ← name_at week tm.(tm_wday);
  m ← name_at months (tm.(tm_mon) - 1);
  ngx_sprintf (if 2037 <? tm.(tm_year)
               then str "%s, %02d-%s-%d %02d:%02d:%02d GMT"
               else str "%s, %02d-%s-%02d %02d:%02d:%02d GMT")
    [cstr w; A32 tm.(tm_mday); cstr m;
     A32 (if 2037 <? tm.(tm_year) then tm.(tm_year) else Z.rem tm.(tm_year) 100);
     A32 tm.(tm_hour); A32 tm.(tm_min); A32 tm.(tm_sec)].

(** ** From a date to a number of seconds *)

Inductive http_fmt := no | rfc822 | rfc850 | isoc.

#[export] Instance http_fmt_eq : EqDecision http_fmt.
Proof. solve_decision. Defined.

Definition mday : list Z := [31; 28; 31; 30; 31; 30; 31; 31; 30; 31; 30; 31].

(** [x ←? r; k]: [k] unless the code returned [NGX_ERROR] already. *)
Definition unless_error {A B} (r : res (option A)) (k : A -> res (option B)) : res (option B) :=
  o ← r; match o with Some a => k a | None => Ok None end.
Notation "x ←? r ; k" := (unless_error r (fun x => k))
  (at level 20, r at level 100, k at level 200, right associativity).
Notation "' x ←? r ; k" := (unless_error r (fun x => k))
  (at level 20, x pattern, r at level 100, k at level 200, right associativity).

(** The first loop: the format, if known, and the rest from the character found. *)
Fixpoint find_comma (l : list Z) : http_fmt * list Z :=
  match l with
  | [] => (no, [])
  | c :: rest =>
      if c =? ","%chr then (no, l)
      else if c =? " "%chr then (isoc, l)
      else find_comma rest
  end.

Fixpoint skip_blanks (l : list Z) : list Z :=
  match l with
  | c :: rest => if negb (c =? " "%chr) then l else skip_blanks rest
  | [] => []
  end.

(** [n] digits and the rest behind them; nothing is read behind a character that is
    no digit. *)
Fixpoint digits (n : nat) (v : Z) (p : list Z) : res (option (Z * list Z)) :=
  match n with
  | O => Ok (Some (v, p))
  | S n =>
      c ← get p 0;
      if is_digit c then digits n (v * 10 + (c - "0"%chr)) (drop 1 p) else Ok None
  end.

(** [*p++ != c] *)
Definition expect_char (c : Z) (p : list Z) : res (option (list Z)) :=
  x ← get p 0; Ok (if x =? c then Some (drop 1 p) else None).

(** The day in front of the month. *)
Definition parse_day (p : list Z) : res (option (http_fmt * Z * list Z)) :=
  '(day, p) ←? digits 2 0 p;
  c ← get p 0;
  if c =? " "%chr then
    if zlen p <? 18 then Ok None else Ok (Some (rfc822, day, drop 1 p))
  else if c =? "-"%chr then Ok (Some (rfc850, day, drop 1 p))
  else Ok None.

Definition parse_month (p : list Z) : res (option Z) :=
  c ← get p 0;
  if c =? "J"%chr then
    c1 ← get p 1;
    if c1 =? "a"%chr then Ok (Some 0)
    else c2 ← get p 2; Ok (Some (if c2 =? "n"%chr then 5 else 6))
  else if c =? "F"%chr then Ok (Some 1)
  else if c =? "M"%chr then c2 ← get p 2; Ok (Some (if c2 =? "r"%chr then 2 else 4))
  else if c =? "A"%chr then c1 ← get p 1; Ok (Some (if c1 =? "p"%chr then 3 else 7))
  else if c =? "S"%chr then Ok (Some 8)
  else if c =? "O"%chr then Ok (Some 9)
  else if c =? "N"%chr then Ok (Some 10)
  else if c =? "D"%chr then Ok (Some 11)
  else Ok None.

(** The character behind the month; [isoc] takes any. *)
Definition parse_separator (fmt : http_fmt) (p : list Z) : res (option (list Z)) :=
  match fmt with
  | rfc822 => expect_char " "%chr p
  | rfc850 => expect_char "-"%chr p
  | _ => Ok (Some (drop 1 p))
  end.

(** The day behind the month. *)
Definition parse_isoc_day (p : list Z) : res (option (Z * list Z)) :=
  c ← get p 0;
  let p := if c =? " "%chr then drop 1 p else p in
  '(day, p) ←? digits 1 0 p;
  c ← get p 0;
  '(day, p) ←? (if negb (c =? " "%chr) then digits 1 day p else Ok (Some (day, p)));
  if zlen p <? 14 then Ok None else Ok (Some (day, p)).

(** The day and the year in front of the time of the day; [None] is a variable not
    set yet. *)
Definition parse_year (fmt : http_fmt) (day : option Z) (p : list Z)
    : res (option (option Z * option Z * list Z)) :=
  match fmt with
  | rfc822 =>
      '(year, p) ←? digits 4 0 p;
      Ok (Some (day, Some year, p))
  | rfc850 =>
      '(year, p) ←? digits 2 0 p;
      let year := year + (if year <? 70 then 2000 else 1900) in
      Ok (Some (day, Some year, p))
  | _ =>
      '(day, p) ←? parse_isoc_day p;
      Ok (Some (Some day, None, p))
  end.

(** The hour, the minute and the second, and the rest behind them. *)
Definition parse_clock (p : list Z) : res (option (Z * Z * Z * list Z)) :=
  p ←? expect_char " "%chr p;
  '(hour, p) ←? digits 2 0 p;
  p ←? expect_char ":"%chr p;
  '(min, p) ←? digits 2 0 p;
  p ←? expect_char ":"%chr p;
  '(sec, p) ←? digits 2 0 p;
  Ok (Some (hour, min, sec, p)).

Definition parse_isoc_year (fmt : http_fmt) (year : option Z) (p : list Z) : res (option (option Z)) :=
  match fmt with
  | isoc =>
      p ←? expect_char " "%chr p;
      '(year, _) ←? digits 4 0 p;
      Ok (Some (Some year))
  | _ => Ok (Some year)
  end.

(** A variable that is read has to be set. *)
Definition initialised (v : option Z) : res Z :=
  match v with Some v => Ok v | None => Fault end.

(** The checks behind the parsing, and Gauss' formula. *)
Definition date_ok (day month year hour min sec : Z) : res bool :=
  if (23 <? hour) || (59 <? min) || (59 <? sec) then Ok false
  else if (day =? 29) && (month =? 1) then
    Ok (negb (negb (Z.land year 3 =? 0) || ((year mod 100 =? 0) && negb (year mod 400 =? 0))))
  else n ← get mday month; Ok (day <=? n).

Definition gauss_seconds (day month year hour min sec : Z) : Z :=
  let month := month - 1 in
  let '(month, year) := if month <=? 0 then (month + 12, u64 (year - 1)) else (month, year) in
  signed64 ((365 * year + year / 4 - year / 100 + year / 400
             + 367 * month / 12 - 30
             + day - 1
             - 719527 + 31 + 28) * 86400 + hour * 3600 + min * 60 + sec).

(** From the clock on. *)
Definition parse_http_clock (fmt : http_fmt) (month : Z) (day year : option Z) (p : list Z)
    : res (option Z) :=
  '(hour, min, sec, p) ←? parse_clock p;
  year ←? parse_isoc_year fmt year p;
  day ← initialised day;
  year ← initialised year;
  ok ← date_ok day month year hour min sec;
  Ok (if ok : bool then Some (gauss_seconds day month year hour min sec) else None).

(** From the month on. *)
Definition parse_http_month (fmt : http_fmt) (day : option Z) (p : list Z) : res (option Z) :=
  month ←? parse_month p;
  p ←? parse_separator fmt (drop 3 p);
  '(day, year, p) ←? parse_year fmt day p;
  parse_http_clock fmt month day year p.

Definition parse_http_date (fmt : http_fmt) (p : list Z) : res (option Z) :=
  match fmt with
  | isoc => parse_http_month isoc None p
  | _ => '(fmt, day, p) ←? parse_day p; parse_http_month fmt (Some day) p
  end.

Definition ngx_parse_http_time (value : list Z) : res Z :=
  let '(fmt, p) := find_comma value in
  let p := skip_blanks (drop 1 p) in
  if zlen p <? 18 then Ok NGX_ERROR
  else
    time ← parse_http_date fmt p;
    Ok (match time with Some time => time | None => NGX_ERROR end).

Example http_time_example : ngx_http_time 1700000000 = Ok (str "Tue, 14 Nov 2023 22:13:20 GMT").
Proof. reflexivity. Qed.

Example cookie_time_example :
  ngx_http_cookie_time 951782400 = Ok (str "Tue, 29-Feb-00 00:00:00 GMT").
Proof. reflexivity. Qed.

Example parse_example_850 : ngx_parse_http_time (str "Tuesday, 29-Feb-00 00:00:00 GMT") = Ok 951782400.
Proof. reflexivity. Qed.

Example parse_example_isoc : ngx_parse_http_time (str "Tue Feb 29 00:00:00 2000") = Ok 951782400.
Proof. reflexivity. Qed.

(** The fourth year before is no leap year. *)
Example parse_example_error : ngx_parse_http_time (str "Thu, 29 Feb 1900 00:00:00 GMT") = Ok NGX_ERROR.
Proof. reflexivity. Qed.
