(* ===== verification/TimesSpec.v ===== *)
(** * Dates: the calendar and the texts

    The days of the Gregorian calendar, counted from its definition, are what
    [ngx_gmtime] and [ngx_parse_http_time] compute with Gauss' formula; and the texts that
    [ngx_http_time] and [ngx_http_cookie_time] print. *)

From S2P Require Import Prelude Numeric NumericSpec Sprintf SprintfSpec Times.

(** ** The calendar *)

Definition leap (y : Z) : bool :=
  (y mod 4 =? 0) && (negb (y mod 100 =? 0) || (y mod 400 =? 0)).

Definition month_len (y m : Z) : Z :=
  if m =? 2 then 28 + b2z (leap y)
  else if (m =? 4) || (m =? 6) || (m =? 9) || (m =? 11) then 30 else 31.

Definition year_len (y : Z) : Z := 365 + b2z (leap y).

Fixpoint sum_below (f : Z -> Z) (n : nat) : Z :=
  match n with
  | O => 0
  | S n => sum_below f n + f (Z.of_nat n + 1)
  end.

(** The days from January 1 of the year 1 to a date: those of the years before, of
    the months before, and of the month. *)
Definition day_number (y m d : Z) : Z :=
  sum_below year_len (Z.to_nat (y - 1)) + sum_below (month_len y) (Z.to_nat (m - 1)) + (d - 1).

Definition valid_date (y m d : Z) : bool :=
  (1 <=? m) && (m <=? 12) && (1 <=? d) && (d <=? month_len y m).

(** January 1, 1970. *)
Definition epoch : Z := 719162.

Example epoch_day : day_number 1970 1 1 = epoch.
Proof. vm_compute. reflexivity. Qed.

(** ** Gauss' formula *)

(** The days between March 1 of the year 0 and March 1 of the year [y]. *)
Definition march (y : Z) : Z := 365 * y + y / 4 - y / 100 + y / 400.

Lemma leap_march y : march (y + 1) - march y = year_len (y + 1).
Proof.
  unfold march, year_len, leap, b2z.
  destruct (Z.eqb_spec ((y + 1) mod 4) 0), (Z.eqb_spec ((y + 1) mod 100) 0),
    (Z.eqb_spec ((y + 1) mod 400) 0); cbn [andb orb negb]; Z.to_euclidean_division_equations; lia.
Qed.

Lemma sum_years n : sum_below year_len n = march (Z.of_nat n).
Proof.
  induction n as [|n IH]; [done|]. cbn [sum_below]. rewrite IH, <- leap_march.
  rewrite Nat2Z.inj_succ. unfold Z.succ. lia.
Qed.

(** The day in the year that begins on March 1; months from 1, for March. *)
Definition march_day (mon d : Z) : Z := 367 * mon / 12 - 30 + (d - 1).

Lemma sum_months y m :
  1 <= m <= 12 ->
  sum_below (month_len y) (Z.to_nat (m - 1))
  = if m <=? 2 then 31 * (m - 1) else 367 * (m - 2) / 12 + 29 + b2z (leap y).
Proof.
  intros Hm. assert (exists k, m = Z.of_nat k + 1 /\ (k < 12)%nat) as (k & -> & Hk)
    by (exists (Z.to_nat (m - 1)); lia).
  replace (Z.to_nat (Z.of_nat k + 1 - 1)) with k by lia.
  do 12 (destruct k as [|k]; [destruct (leap y) eqn:E; unfold month_len; cbn; by rewrite ?E|]). lia.
Qed.

Lemma day_number_gauss y m d :
  1 <= y -> 1 <= m <= 12 ->
  day_number y m d + 306 = (if m <=? 2 then march (y - 1) + march_day (m + 10) d
                            else march y + march_day (m - 2) d).
Proof.
  intros Hy Hm. unfold day_number. rewrite sum_years, sum_months, Z2Nat.id by lia.
  pose proof (leap_march (y - 1)) as Hl. replace (y - 1 + 1) with y in Hl by lia.
  unfold year_len in Hl. unfold march_day.
  destruct (Z.leb_spec m 2); Z.to_euclidean_division_equations; lia.
Qed.

(** ** [ngx_gmtime] *)

Lemma signed32_id z : 0 <= z < 2147483648 -> signed32 z = z.
Proof. intros H. unfold signed32. rewrite u32_id by lia. destruct (Z.ltb_spec z 2147483648); lia. Qed.

Lemma signed64_u64 z :
  -9223372036854775808 <= z < 9223372036854775808 -> signed64 z = z.
Proof.
  intros H. unfold signed64, u64.
  destruct (Z.ltb_spec (z mod 18446744073709551616) 9223372036854775808);
    Z.to_euclidean_division_equations; lia.
Qed.

(** How far [march] is from the mean length of a year. *)
Lemma march_bounds y : 146097 * y - 699 <= 400 * march y <= 146097 * y + 396.
Proof. unfold march. Z.to_euclidean_division_equations. lia. Qed.

(** The year that begins on March 1 and the day in it, for a day that is counted from
    March 1 of the year 0. *)
Lemma gm_year_spec days :
  306 <= days < 4611686018427387 ->
  exists y d, gm_year days = (y, d) /\ march y + d = days /\ 0 <= d < year_len (y + 1) /\ 0 <= y.
Proof.
  intros Hd. unfold gm_year. change (365 * 400 + 100 - 4 + 1) with 146097.
  rewrite (u64_id (days + 2)), (u64_id ((days + 2) * 400)) by lia.
  set (y0 := (days + 2) * 400 / 146097).
  assert (146097 * y0 <= (days + 2) * 400 < 146097 * y0 + 146097) as Hy0
    by (unfold y0; Z.to_euclidean_division_equations; lia).
  change (365 * y0 + y0 / 4 - y0 / 100 + y0 / 400) with (march y0).
  change ((y0 mod 4 =? 0) && (negb (y0 mod 100 =? 0) || (y0 mod 400 =? 0))) with (leap y0).
  pose proof (march_bounds y0). pose proof (march_bounds (y0 + 1)). pose proof (march_bounds (y0 - 1)).
  pose proof (leap_march y0). pose proof (leap_march (y0 - 1)) as Hl.
  replace (y0 - 1 + 1) with y0 in Hl by lia.
  rewrite (signed64_u64 (days - march y0)) by lia. cbv zeta.
  destruct (Z.ltb_spec (days - march y0) 0).
  - exists (y0 - 1), (days - march (y0 - 1)).
    assert (1 <= y0) by (destruct (decide (y0 = 0)) as [->|]; [cbn in *|]; lia).
    replace (y0 - 1 + 1) with y0 by lia. unfold year_len in *.
    rewrite u64_id, signed64_u64 by lia. split; [f_equal; lia|]. lia.
  - exists y0, (days - march y0). split; [done|]. lia.
Qed.

Lemma month_cases m : 1 <= m <= 12 ->
  m = 1 \/ m = 2 \/ m = 3 \/ m = 4 \/ m = 5 \/ m = 6 \/ m = 7 \/ m = 8 \/ m = 9 \/ m = 10 \/
  m = 11 \/ m = 12.
Proof. lia. Qed.

(** The goal for each month, with the formula for the days before it evaluated. *)
Ltac each_month m H :=
  let Hk := fresh in
  pose proof (month_cases m H) as Hk; destruct_or! Hk; subst m; try lia;
  repeat match goal with
  | _ : context [367 * ?k / 12] |- _ =>
      let v := eval compute in (367 * k / 12) in change (367 * k / 12) with v in *
  | |- context [367 * ?k / 12] =>
      let v := eval compute in (367 * k / 12) in change (367 * k / 12) with v in *
  end;
  repeat match goal with
  | H : context [?a =? ?b] |- _ => first [change (a =? b) with true in H | change (a =? b) with false in H]
  | |- context [?a =? ?b] => first [change (a =? b) with true | change (a =? b) with false]
  | |- context [?a <=? ?b] => first [change (a <=? b) with true | change (a <=? b) with false]
  end; cbn [orb andb] in *; lia.

Lemma gm_date_spec y d :
  1 <= y < 100000 -> 0 <= d < year_len (y + 1) ->
  exists Y m md, gm_date y d = (Y, m, md) /\ y <= Y <= y + 1 /\ 1 <= m <= 12 /\
    valid_date Y m md = true /\ 1 <= md <= 31 /\ day_number Y m md + 306 = march y + d.
Proof.
  intros Hy Hd. unfold gm_date. set (mon := (d + 31) * 10 / 306).
  assert (0 <= d <= 365) by (unfold year_len, b2z in Hd; destruct (leap (y + 1)); lia).
  assert (306 * mon <= (d + 31) * 10 < 306 * mon + 306) as Hmon
    by (unfold mon; Z.to_euclidean_division_equations; lia).
  clearbody mon.
  assert (1 <= mon <= 12) as Hm by lia.
  assert (1 <= d - (367 * mon / 12 - 30) + 1 <= 31) as Hmd by (Z.to_euclidean_division_equations; lia).
  cbv zeta. rewrite (u64_id (d - (367 * mon / 12 - 30) + 1)) by lia.
  destruct (Z.leb_spec 306 d).
  - assert (11 <= mon) by lia. rewrite !u64_id by lia.
    do 3 eexists. split; [done|]. split; [lia|]. split; [lia|]. split; [|split; [lia|]].
    + unfold valid_date, month_len. unfold year_len in Hd. each_month mon Hm.
    + rewrite day_number_gauss by lia. destruct (Z.leb_spec (mon - 10) 2); [|lia].
      unfold march_day. replace (mon - 10 + 10) with mon by lia.
      replace (y + 1 - 1) with y by lia. lia.
  - assert (mon <= 10) by lia. rewrite !u64_id by lia.
    do 3 eexists. split; [done|]. split; [lia|]. split; [lia|]. split; [|split; [lia|]].
    + unfold valid_date, month_len. each_month mon Hm.
    + rewrite day_number_gauss by lia. destruct (Z.leb_spec (mon + 2) 2); [lia|].
      unfold march_day. replace (mon + 2 - 2) with mon by lia. lia.
Qed.

(** The seconds that [ngx_gmtime] breaks down: no more than 9999 years. *)
Definition clamp_time (t : Z) : Z := Z.max 0 (Z.min t 253402300799).

(** What [ngx_gmtime] returns for a time in its range. *)
Record tm_spec (t : Z) (tm : ngx_tm_t) : Prop := {
  spec_date : valid_date tm.(tm_year) tm.(tm_mon) tm.(tm_mday) = true;
  spec_day : day_number tm.(tm_year) tm.(tm_mon) tm.(tm_mday) = epoch + t / 86400;
  spec_clock : tm.(tm_hour) * 3600 + tm.(tm_min) * 60 + tm.(tm_sec) = t mod 86400;
  spec_hour : 0 <= tm.(tm_hour) < 24;
  spec_min : 0 <= tm.(tm_min) < 60;
  spec_sec : 0 <= tm.(tm_sec) < 60;
  spec_wday : tm.(tm_wday) = (t / 86400 + 4) mod 7;
  spec_year : 1970 <= tm.(tm_year) <= 9999
}.

Lemma gm_clamp t :
  let t' := if t <? 0 then 0 else t in
  (if 2932896 <? t' / 86400 then (2932896, 86399) else (t' / 86400, t' mod 86400))
  = (clamp_time t / 86400, clamp_time t mod 86400).
Proof.
  cbv zeta. unfold clamp_time. destruct (Z.ltb_spec t 0).
  - by replace (Z.max 0 (Z.min t 253402300799)) with 0 by lia.
  - destruct (Z.ltb_spec 2932896 (t / 86400)) as [H2|H2].
    + replace (Z.max 0 (Z.min t 253402300799)) with 253402300799; [done|].
      Z.to_euclidean_division_equations; lia.
    + replace (Z.max 0 (Z.min t 253402300799)) with t; [done|].
      Z.to_euclidean_division_equations; lia.
Qed.

(** A valid date on day [n] is in the year that the count of the days before the year
    says. *)
Lemma day_number_year y m d :
  1 <= y -> valid_date y m d = true -> march (y - 1) <= day_number y m d < march y.
Proof.
  intros Hy Hv. unfold valid_date, month_len in Hv. unfold day_number.
  rewrite sum_years, sum_months, Z2Nat.id by lia.
  pose proof (leap_march (y - 1)) as Hl. replace (y - 1 + 1) with y in Hl by lia.
  unfold year_len in Hl. assert (1 <= m <= 12) as Hm by lia. unfold b2z in *.
  destruct (leap y); each_month m Hm.
Qed.

Lemma gmtime_spec t : tm_spec (clamp_time t) (ngx_gmtime t).
Proof.
  unfold ngx_gmtime. pose proof (gm_clamp t) as Hc. cbv zeta in *. rewrite Hc.
  assert (0 <= clamp_time t <= 253402300799) as Ht by (unfold clamp_time; lia).
  clear Hc. revert Ht. generalize (clamp_time t). clear t. intros t Ht.
  assert (0 <= t / 86400 <= 2932896) as Hd by (Z.to_euclidean_division_equations; lia).
  rewrite (u64_id (t / 86400 - (31 + 28) + 719527)) by lia.
  destruct (gm_year_spec (t / 86400 - (31 + 28) + 719527)) as (y & d & -> & Hday & Hdr & Hy0); [lia|].
  pose proof (march_bounds y) as Hb.
  assert (0 <= d <= 365) by (unfold year_len, b2z in Hdr; destruct (leap (y + 1)); lia).
  destruct (gm_date_spec y d) as (Y & m & md & -> & HY & Hm & Hv & Hmd & Hn); [lia|done|].
  assert (1 <= Y) as HY1 by lia. pose proof (day_number_year Y m md HY1 Hv) as Hyr.
  pose proof (march_bounds (Y - 1)). pose proof (march_bounds Y).
  assert (1970 <= Y <= 9999) as HYr.
  { destruct (decide (Y <= 1969)); [|destruct (decide (10000 <= Y))]; [exfalso|exfalso|lia].
    - assert (march Y <= march 1969); [unfold march; Z.to_euclidean_division_equations; lia|].
      change (march 1969) with 719162 in *. lia.
    - assert (march 9999 <= march (Y - 1)); [unfold march; Z.to_euclidean_division_equations; lia|].
      change (march 9999) with 3652059 in *. lia. }
  split; cbn [tm_year tm_mon tm_mday tm_hour tm_min tm_sec tm_wday]; rewrite ?signed32_id by
    (Z.to_euclidean_division_equations; lia); try done; unfold epoch;
    first [lia | Z.to_euclidean_division_equations; lia].
Qed.

(** ** The date of a day is unique *)

Lemma sum_below_le f n k : (forall i, 0 <= f i) -> sum_below f n <= sum_below f (n + k).
Proof.
  intros Hf. induction k as [|k IH]; [by rewrite Nat.add_0_r|].
  rewrite Nat.add_succ_r. cbn [sum_below]. specialize (Hf (Z.of_nat (n + k) + 1)). lia.
Qed.

(** An index and an offset below its step are determined by the sum. *)
Lemma sum_below_inj f n1 r1 n2 r2 :
  (forall i, 0 <= f i) ->
  0 <= r1 < f (Z.of_nat n1 + 1) -> 0 <= r2 < f (Z.of_nat n2 + 1) ->
  sum_below f n1 + r1 = sum_below f n2 + r2 -> n1 = n2 /\ r1 = r2.
Proof.
  intros Hf. revert n1 r1 n2 r2.
  assert (forall n1 r1 n2 r2, (n1 < n2)%nat -> 0 <= r1 < f (Z.of_nat n1 + 1) ->
    0 <= r2 -> sum_below f n1 + r1 < sum_below f n2 + r2) as Hlt.
  { intros n1 r1 n2 r2 Hn H1 H2. pose proof (sum_below_le f (S n1) (n2 - S n1) Hf) as H.
    replace (S n1 + (n2 - S n1))%nat with n2 in H by lia. cbn [sum_below] in H. lia. }
  intros n1 r1 n2 r2 H1 H2 E. destruct (Nat.lt_trichotomy n1 n2) as [H|[->|H]]; [|lia|].
  - pose proof (Hlt n1 r1 n2 r2 H H1). lia.
  - pose proof (Hlt n2 r2 n1 r1 H H2). lia.
Qed.

Lemma month_len_nonneg y m : 0 <= month_len y m.
Proof. unfold month_len, b2z. repeat case_match; lia. Qed.

Lemma day_number_inj y m d y' m' d' :
  1 <= y -> 1 <= y' -> valid_date y m d = true -> valid_date y' m' d' = true ->
  day_number y m d = day_number y' m' d' -> y = y' /\ m = m' /\ d = d'.
Proof.
  intros Hy Hy' Hv Hv' E.
  pose proof (day_number_year y m d Hy Hv) as H1. pose proof (day_number_year y' m' d' Hy' Hv') as H2.
  assert (y = y') as <-.
  { destruct (decide (y < y')); [|destruct (decide (y' < y))]; [exfalso|exfalso|lia].
    - assert (march y <= march (y' - 1)); [unfold march; Z.to_euclidean_division_equations|]; lia.
    - assert (march y' <= march (y - 1)); [unfold march; Z.to_euclidean_division_equations|]; lia. }
  split; [done|]. unfold day_number in E. unfold valid_date in Hv, Hv'.
  destruct (sum_below_inj (month_len y) (Z.to_nat (m - 1)) (d - 1) (Z.to_nat (m' - 1)) (d' - 1));
    [apply month_len_nonneg|rewrite Z2Nat.id by lia; replace (m - 1 + 1) with m by lia; lia
    |rewrite Z2Nat.id by lia; replace (m' - 1 + 1) with m' by lia; lia|lia|lia].
Qed.

(** [ngx_gmtime] is the Gregorian calendar. For any time, limited to the years 1970
    to 9999, the date it returns is the one and only date whose number of days, counted
    from January 1 of the year 1 by the lengths of the years and months before it, is
    that of the time; the clock is the rest of the day, and the weekday goes round from
    Thursday, January 1, 1970. *)
Theorem gmtime_calendar t :
  let tm := ngx_gmtime t in
  tm_spec (clamp_time t) tm /\
  forall y m d, 1 <= y -> valid_date y m d = true ->
    day_number y m d = epoch + clamp_time t / 86400 ->
    (y, m, d) = (tm.(tm_year), tm.(tm_mon), tm.(tm_mday)).
Proof.
  cbv zeta. pose proof (gmtime_spec t) as H. split; [done|]. intros y m d Hy Hv Hd.
  destruct H as [Hv' Hd' _ _ _ _ _ Hy'].
  destruct (ngx_gmtime t) as [sec mi h md' m' y' w]. cbn [tm_year tm_mon tm_mday] in *.
  assert (1 <= y') as Hy1 by lia. assert (day_number y m d = day_number y' m' md') as E by lia.
  by destruct (day_number_inj y m d y' m' md' Hy Hy1 Hv Hv' E) as (-> & -> & ->).
Qed.

Lemma gmtime_calendar_witness :
  (1996, 2, 29) = ((ngx_gmtime 825589859).(tm_year), (ngx_gmtime 825589859).(tm_mon),
                   (ngx_gmtime 825589859).(tm_mday)).
Proof.
  apply (proj2 (gmtime_calendar 825589859)); [lia|reflexivity|vm_compute; reflexivity].
Defined.

(** ** Dates as text

    What [ngx_http_time] and [ngx_http_cookie_time] print. *)

(** ** Numbers of a fixed width *)

Fixpoint dec (n : nat) (v : Z) : list Z :=
  match n with
  | O => []
  | S n => dec n (v / 10) ++ ["0"%chr + v mod 10]
  end.

Lemma zlen_dec n v : zlen (dec n v) = Z.of_nat n.
Proof.
  revert v. induction n as [|n IH]; intros v; [done|]. cbn [dec].
  rewrite zlen_app, IH, zlen_cons, zlen_nil. lia.
Qed.

Lemma dec_digits n v : forallb is_digit (dec n v) = true.
Proof.
  revert v. induction n as [|n IH]; intros v; [done|]. cbn [dec].
  rewrite forallb_app, IH. cbn [forallb andb]. rewrite andb_true_r. apply is_digit_spec.
  pose proof (Z.mod_pos_bound v 10). lia.
Qed.

Lemma dec_value n v : 0 <= v < 10 ^ Z.of_nat n -> dec_from 0 (dec n v) = v.
Proof.
  revert v. induction n as [|n IH]; intros v Hv; [cbn in *; lia|]. cbn [dec].
  rewrite Nat2Z.inj_succ, Z.pow_succ_r in Hv by lia.
  rewrite dec_from_snoc, IH by (Z.to_euclidean_division_equations; lia).
  pose proof (Z.div_mod v 10). lia.
Qed.

(** A text of [n] digits is the number it stands for in this form. *)
Lemma dec_unique n l : forallb is_digit l = true -> length l = n -> dec n (dec_from 0 l) = l.
Proof.
  revert l. induction n as [|n IH]; intros l Hd Hl; [by destruct l|]. cbn [dec].
  destruct (exists_last (l := l)) as (l' & c & ->); [by intros ->|].
  rewrite length_app in Hl. cbn in Hl. rewrite forallb_app in Hd.
  apply andb_true_iff in Hd as [Hd Hc]. cbn in Hc. rewrite andb_true_r in Hc.
  apply is_digit_spec in Hc. rewrite dec_from_snoc.
  rewrite (Z.add_comm (dec_from 0 l' * 10)), Z.div_add, Z.mod_add, (Z.div_small (c - 48)),
    (Z.mod_small (c - 48)), Z.add_0_l by lia.
  rewrite IH by (done || lia). do 2 f_equal. lia.
Qed.

Lemma dec_from_bound l : forallb is_digit l = true -> 0 <= dec_from 0 l < 10 ^ zlen l.
Proof.
  induction l as [|c l IH] using rev_ind; intros Hd; [change (0 <= 0 < 1); lia|].
  rewrite forallb_app in Hd. apply andb_true_iff in Hd as [Hd Hc]. cbn [forallb] in Hc.
  rewrite andb_true_r in Hc. apply is_digit_spec in Hc. specialize (IH Hd).
  rewrite dec_from_snoc, zlen_app. change (zlen [c]) with 1.
  replace (zlen l + 1) with (Z.succ (zlen l)) by lia.
  rewrite Z.pow_succ_r by apply zlen_nonneg. lia.
Qed.

(** ** Printing *)

Definition no_bound : Z := 18446744073709551615.

Section print.
Context (fuel : nat) (fmt : list Z) (args : list arg) (out : list Z).

Lemma print_char c :
  c <> "%"%chr -> zlen out < 1000 ->
  vslprintf_loop no_bound (S fuel) (c :: fmt) args out
  = vslprintf_loop no_bound fuel fmt args (out ++ [c]).
Proof.
  intros Hc Hl. cbn [vslprintf_loop]. unfold no_bound at 1.
  destruct (Z.leb_spec 18446744073709551615 (zlen out)); [lia|].
  destruct (Z.eqb_spec c 37); [done|]. by rewrite push_ok by (unfold no_bound; lia).
Qed.

Lemma copy_cstr l :
  forallb (fun c => negb (c =? 0)) l = true -> zlen out + zlen l < 1000 ->
  copy_terminated no_bound out (l ++ [0]) = Ok (out ++ l).
Proof.
  revert out. clear. induction l as [|c l IH]; intros out Hz Hl; cbn [copy_terminated app].
  - by rewrite app_nil_r.
  - cbn in Hz. apply andb_true_iff in Hz as [Hc Hz]. rewrite zlen_cons in Hl.
    pose proof (zlen_nonneg l). destruct (c =? 0); [done|].
    destruct (Z.ltb_spec (zlen out) no_bound); [|unfold no_bound in *; lia].
    rewrite push_ok, Ok_bind, IH by (done || rewrite ?zlen_app, ?zlen_cons, ?zlen_nil; lia).
    by rewrite <- app_assoc.
Qed.

Lemma print_cstr l :
  forallb (fun c => negb (c =? 0)) l = true -> zlen out + zlen l < 1000 ->
  vslprintf_loop no_bound (S fuel) ("%"%chr :: "s"%chr :: fmt) (cstr l :: args) out
  = vslprintf_loop no_bound fuel fmt args (out ++ l).
Proof.
  intros Hz Hl. pose proof (zlen_nonneg l). cbn [vslprintf_loop].
  destruct (Z.leb_spec no_bound (zlen out)); [unfold no_bound in *; lia|].
  change (parse_spec (115 :: fmt)) with (Spec 32 0 true 0 false 0, 115 :: fmt).
  cbn -[vslprintf_loop ngx_sprintf_str]. unfold ngx_sprintf_str. cbn -[vslprintf_loop copy_terminated].
  by rewrite copy_cstr by done.
Qed.

Lemma number_digits_dec n v :
  (1 <= n <= 9)%nat -> 0 <= v < 10 ^ Z.of_nat n ->
  exists ds, number_digits v 0 = Ok ds /\ 1 <= zlen ds <= Z.of_nat n /\
    dec n v = replicate (Z.to_nat (Z.of_nat n - zlen ds)) "0"%chr ++ ds.
Proof.
  intros Hn Hv. assert (10 ^ Z.of_nat n <= 10 ^ 9) by (apply Z.pow_le_mono_r; lia).
  destruct (decimal_digits_spec 64 v []) as (ds & Hds & Hd & Hval & Hl & Hk); [|lia|].
  { assert (10 ^ 9 < 10 ^ Z.of_nat 64) by (vm_compute; done). lia. }
  rewrite app_nil_r in Hds. exists ds. split; [|split].
  - unfold number_digits, NGX_MAX_UINT32_VALUE. cbn [Z.eqb].
    destruct (Z.leb_spec v 4294967295); [|lia]. rewrite u32_id, Hds, Ok_bind by lia.
    assert (zlen ds <= Z.of_nat n) by (apply Hk; lia). unfold NGX_INT64_LEN.
    destruct (Z.leb_spec (zlen ds) 20); [done|lia].
  - split; [done|]. apply Hk; lia.
  - assert (zlen ds <= Z.of_nat n) as Hle by (apply Hk; lia).
    rewrite <- Hval at 1. symmetry.
    assert (dec_from 0 (replicate (Z.to_nat (Z.of_nat n - zlen ds)) "0"%chr ++ ds) = dec_from 0 ds) as <-.
    { rewrite dec_from_app. f_equal. generalize (Z.to_nat (Z.of_nat n - zlen ds)).
      intros k. induction k as [|k IH]; [done|]. cbn [replicate]. done. }
    rewrite dec_unique; [done| |].
    + rewrite forallb_app, Hd, andb_true_r. generalize (Z.to_nat (Z.of_nat n - zlen ds)).
      intros k. induction k as [|k IH]; [done|]. cbn [replicate forallb]. by rewrite IH.
    + rewrite length_app, length_replicate. unfold zlen in *. lia.
Qed.

(** [%02d] and the like: a number of [n] digits, either by padding with zeros or
    because it has as many. *)
Lemma print_d fmt' zero width n v :
  parse_spec fmt' = (Spec zero width true 0 false 0, "d"%chr :: fmt) ->
  (1 <= n <= 9)%nat -> 0 <= v < 10 ^ Z.of_nat n ->
  zero = "0"%chr /\ width = Z.of_nat n \/ 10 ^ (Z.of_nat n - 1) <= v /\ width <= Z.of_nat n ->
  v < 2147483648 -> zlen out + 20 < 1000 ->
  vslprintf_loop no_bound (S fuel) ("%"%chr :: fmt') (A32 v :: args) out
  = vslprintf_loop no_bound fuel fmt args (out ++ dec n v).
Proof.
  intros Hspec Hn Hv Hw Hv32 Hl. cbn [vslprintf_loop].
  destruct (Z.leb_spec no_bound (zlen out)); [unfold no_bound in *; lia|].
  rewrite Z.eqb_refl, Hspec. cbn [sp_stars take_stars]. rewrite Ok_bind.
  unfold convert. cbn [Z.eqb Pos.eqb orb]. unfold take_number. cbn [Z.eqb Pos.eqb orb arg32].
  rewrite !Ok_bind. cbn [sp_sign]. rewrite u32_id, signed32_id by lia.
  unfold put_number. cbn [sp_sign andb]. destruct (Z.ltb_spec v 0); [lia|].
  cbn [sp_zero sp_hex sp_width].
  destruct (number_digits_dec n v Hn Hv) as (ds & Hds & Hlen & ->).
  rewrite (num_exact no_bound out v zero 0 width ds), Ok_bind by (done || unfold no_bound; lia).
  assert (replicate (Z.to_nat (width - zlen ds)) zero
          = replicate (Z.to_nat (Z.of_nat n - zlen ds)) "0"%chr) as ->; [|done].
  destruct Hw as [[-> ->]|[Hmin Hw]]; [done|].
  assert (zlen ds = Z.of_nat n) as E.
  { destruct (decide (zlen ds = Z.of_nat n)) as [|Hne]; [done|].
    pose proof (dec_from_bound ds) as Hb. pose proof (number_digits_ok v 0) as Ho.
    destruct Ho as (ds' & Hds' & [Hd Hval] & _); [lia|]. rewrite Hds in Hds'. injection Hds' as <-.
    specialize (Hb Hd). rewrite Hval in Hb.
    assert (10 ^ zlen ds <= 10 ^ (Z.of_nat n - 1)) by (apply Z.pow_le_mono_r; lia). lia. }
  rewrite E. by replace (Z.to_nat (width - Z.of_nat n)) with O by lia;
    replace (Z.to_nat (Z.of_nat n - Z.of_nat n)) with O by lia.
Qed.
End print.

(** ** The printed dates *)

Definition name_of (a : list (list Z)) (i : Z) : list Z := nth (Z.to_nat i) a [].

Definition clock (h mi s : Z) : list Z := dec 2 h ++ str ":" ++ dec 2 mi ++ str ":" ++ dec 2 s.

Definition rfc822_text (w : list Z) (d m y : Z) (clk : list Z) : list Z :=
  w ++ str ", " ++ dec 2 d ++ str " " ++ name_of months (m - 1) ++ str " " ++ dec 4 y ++ str " " ++ clk.

Definition rfc850_text (w : list Z) (d m yy : Z) (clk : list Z) : list Z :=
  w ++ str ", " ++ dec 2 d ++ str "-" ++ name_of months (m - 1) ++ str "-" ++ dec 2 yy ++ str " " ++ clk.

(** [%2d] *)
Definition asctime_day (d : Z) : list Z := if d <? 10 then " "%chr :: dec 1 d else dec 2 d.

Definition isoc_text (w : list Z) (d m y : Z) (clk : list Z) : list Z :=
  w ++ str " " ++ name_of months (m - 1) ++ str " " ++ asctime_day d ++ str " " ++ clk ++ str " " ++ dec 4 y.

Definition is_name (l : list Z) : Prop :=
  zlen l = 3 /\ forallb (fun c => negb (c =? 0) && negb (c =? 32) && negb (c =? ","%chr)) l = true.

Lemma name_at_months m :
  1 <= m <= 12 -> name_at months (m - 1) = Ok (name_of months (m - 1)) /\ is_name (name_of months (m - 1)).
Proof. intros Hm. pose proof (month_cases m Hm) as H. destruct_or! H; subst m; done. Qed.

Lemma name_at_week w : 0 <= w < 7 -> name_at week w = Ok (name_of week w) /\ is_name (name_of week w).
Proof.
  intros Hw. assert (w = 0 \/ w = 1 \/ w = 2 \/ w = 3 \/ w = 4 \/ w = 5 \/ w = 6) as H by lia.
  destruct_or! H; subst w; done.
Qed.

Lemma is_name_cstr l : is_name l -> forallb (fun c => negb (c =? 0)) l = true.
Proof.
  intros [_ H]. rewrite forallb_forall in *. intros c Hc. specialize (H c Hc).
  by destruct (c =? 0).
Qed.

Ltac room := rewrite ?zlen_app, ?zlen_dec;
  repeat match goal with
  | H : is_name ?l |- context [zlen ?l] => rewrite (proj1 H)
  | |- context [zlen [?c]] => change (zlen [c]) with 1
  | |- context [zlen (@nil Z)] => change (zlen (@nil Z)) with 0
  end; lia.

(** One directive or character of a format that is given as a list of bytes. *)
Ltac print_step n :=
  match goal with
  | |- context [vslprintf_loop _ (S ?fu) (37 :: 115 :: ?f) (cstr ?l :: ?args) ?out] =>
      rewrite (print_cstr fu f args out l) by (first [by apply is_name_cstr | room])
  | |- context [vslprintf_loop _ (S ?fu) (37 :: ?f) (A32 ?v :: ?args) ?out] =>
      let r := eval vm_compute in (parse_spec f) in
      match r with
      | (Spec ?z ?w true 0 false 0, 100 :: ?rest) =>
          rewrite (print_d fu rest args out f z w n v eq_refl) by (first [lia | room])
      end
  | |- context [vslprintf_loop _ (S ?fu) (?c :: ?f) ?args ?out] =>
      rewrite (print_char fu f args out c) by (first [done | room])
  end.

Ltac print_start :=
  match goal with
  | |- context [ngx_sprintf ?f _] => let g := eval vm_compute in f in change f with g
  end;
  unfold ngx_sprintf, ngx_vslprintf; cbn [length]; fold no_bound.

Ltac print_end :=
  cbn [vslprintf_loop]; unfold rfc822_text, rfc850_text, clock; rewrite <- !app_assoc; reflexivity.

Lemma http_time_text t :
  let tm := ngx_gmtime t in
  ngx_http_time t = Ok (rfc822_text (name_of week tm.(tm_wday)) tm.(tm_mday) tm.(tm_mon) tm.(tm_year)
                          (clock tm.(tm_hour) tm.(tm_min) tm.(tm_sec) ++ str " GMT")).
Proof.
  unfold ngx_http_time. destruct (gmtime_spec t) as [Hd _ _ Hh Hmi Hs Hw Hy].
  generalize dependent (ngx_gmtime t). intros tm Hd Hh Hmi Hs Hw Hy. cbv zeta.
  unfold print_http_time. unfold valid_date in Hd.
  assert (1 <= tm_mday tm <= 31) as Hmd by (unfold month_len, b2z in Hd; repeat case_match; lia).
  destruct (name_at_week (tm_wday tm)) as [-> Hwn]; [rewrite Hw; apply Z.mod_pos_bound; lia|].
  destruct (name_at_months (tm_mon tm)) as [-> Hmn]; [lia|]. rewrite !Ok_bind. print_start.
  do 7 print_step 2%nat. print_step 4%nat. do 10 print_step 2%nat.
  print_end.
Qed.

(** A year behind 2037 is printed with four digits behind the dash. *)
Lemma cookie_time_text t :
  let tm := ngx_gmtime t in
  let clk := clock tm.(tm_hour) tm.(tm_min) tm.(tm_sec) ++ str " GMT" in
  ngx_http_cookie_time t = Ok (
    if 2037 <? tm.(tm_year)
    then name_of week tm.(tm_wday) ++ str ", " ++ dec 2 tm.(tm_mday) ++ str "-"
           ++ name_of months (tm.(tm_mon) - 1) ++ str "-" ++ dec 4 tm.(tm_year) ++ str " " ++ clk
    else rfc850_text (name_of week tm.(tm_wday)) tm.(tm_mday) tm.(tm_mon) (tm.(tm_year) mod 100) clk).
Proof.
  unfold ngx_http_cookie_time. destruct (gmtime_spec t) as [Hd _ _ Hh Hmi Hs Hw Hy].
  generalize dependent (ngx_gmtime t). intros tm Hd Hh Hmi Hs Hw Hy. cbv zeta.
  unfold valid_date in Hd.
  assert (1 <= tm_mday tm <= 31) as Hmd by (unfold month_len, b2z in Hd; repeat case_match; lia).
  destruct (name_at_week (tm_wday tm)) as [-> Hwn]; [rewrite Hw; apply Z.mod_pos_bound; lia|].
  destruct (name_at_months (tm_mon tm)) as [-> Hmn]; [lia|]. rewrite !Ok_bind.
  pose proof (Z.mod_pos_bound (tm_year tm) 100). rewrite Z.rem_mod_nonneg by lia.
  destruct (Z.ltb_spec 2037 (tm_year tm)); print_start; do 7 print_step 2%nat.
  - print_step 4%nat. do 10 print_step 2%nat. print_end.
  - do 11 print_step 2%nat. print_end.
Qed.
