(* ===== verification/TimesParse.v ===== *)
(** * Reading dates

    What [ngx_parse_http_time] returns, on any text and on dates in its three formats;
    it reads what [ngx_http_time] and [ngx_http_cookie_time] print. *)

From S2P Require Import Prelude Numeric NumericSpec Sprintf SprintfSpec Times TimesSpec.

(** ** Reading *)

Lemma get_head c l : get (c :: l) 0 = Ok c.
Proof. reflexivity. Qed.

Lemma digits_app n v l p :
  forallb is_digit l = true -> length l = n -> digits n v (l ++ p) = Ok (Some (dec_from v l, p)).
Proof.
  revert v l. induction n as [|n IH]; intros v [|c l] Hd Hl; try done. cbn [digits app].
  cbn [forallb] in Hd. apply andb_true_iff in Hd as [Hc Hd]. rewrite get_head, Ok_bind, Hc.
  change (drop 1 (c :: l ++ p)) with (l ++ p). rewrite IH by (done || (cbn in Hl; lia)). done.
Qed.

Lemma digits_dec n v p :
  0 <= v < 10 ^ Z.of_nat n -> digits n 0 (dec n v ++ p) = Ok (Some (v, p)).
Proof.
  intros Hv. rewrite digits_app, dec_value by (done || apply dec_digits || (pose proof (zlen_dec n v) as H;
    unfold zlen in H; lia)). done.
Qed.

Lemma skip_blanks_dec n v p : skip_blanks (dec (S n) v ++ p) = dec (S n) v ++ p.
Proof.
  pose proof (dec_digits (S n) v) as Hd. pose proof (zlen_dec (S n) v) as Hl.
  destruct (dec (S n) v) as [|c l]; [unfold zlen in Hl; cbn [length] in Hl; lia|]. cbn [app skip_blanks forallb] in *.
  apply andb_true_iff in Hd as [Hc _]. apply is_digit_spec in Hc.
  destruct (Z.eqb_spec c 32); [lia|done].
Qed.

Definition plain_word (w : list Z) : bool := forallb (fun c => negb (c =? ","%chr) && negb (c =? " "%chr)) w.

Lemma find_comma_word w c l :
  plain_word w = true ->
  find_comma (w ++ c :: l) = find_comma (c :: l).
Proof.
  induction w as [|x w IH]; intros Hw; [done|]. cbn [app] in *. cbn [plain_word forallb] in Hw.
  apply andb_true_iff in Hw as [Hx Hw]. cbn [find_comma].
  destruct (x =? 44); [done|]. destruct (x =? 32); [done|]. by apply IH.
Qed.

Lemma parse_month_name m p : 1 <= m <= 12 -> parse_month (name_of months (m - 1) ++ p) = Ok (Some (m - 1)).
Proof. intros Hm. pose proof (month_cases m Hm) as H. destruct_or! H; subst m; done. Qed.

Lemma drop_name m p : 1 <= m <= 12 -> drop 3 (name_of months (m - 1) ++ p) = p.
Proof. intros Hm. pose proof (month_cases m Hm) as H. destruct_or! H; subst m; done. Qed.

Lemma bind_error {A B} (a : A) (k : A -> res (option B)) : unless_error (Ok (Some a)) k = k a.
Proof. reflexivity. Qed.

Lemma expect_head c l : expect_char c (c :: l) = Ok (Some l).
Proof. unfold expect_char. by rewrite get_head, Ok_bind, Z.eqb_refl. Qed.

Lemma clock_read h mi s p :
  0 <= h < 100 -> 0 <= mi < 100 -> 0 <= s < 100 ->
  parse_clock (" "%chr :: clock h mi s ++ p) = Ok (Some (h, mi, s, p)).
Proof.
  intros Hh Hm Hs. unfold parse_clock, clock. rewrite <- !app_assoc.
  do 2 (rewrite expect_head, bind_error, digits_dec, bind_error by lia; change (str ":" ++ ?l) with (58 :: l)).
  by rewrite expect_head, bind_error, digits_dec by lia.
Qed.

(** The value of a date that is accepted. *)
Definition read_date (d m y h mi s : Z) : Z :=
  if (d <=? month_len y m) && (h <? 24) && (mi <? 60) && (s <? 60)
  then (day_number y m d - epoch) * 86400 + h * 3600 + mi * 60 + s
  else NGX_ERROR.

Lemma leap_bits y :
  negb (negb (Z.land y 3 =? 0) || ((y mod 100 =? 0) && negb (y mod 400 =? 0))) = leap y.
Proof.
  change 3 with (Z.ones 2). rewrite Z.land_ones by lia. change (2 ^ 2) with 4. unfold leap.
  destruct (y mod 4 =? 0), (y mod 100 =? 0), (y mod 400 =? 0); done.
Qed.

Lemma date_ok_spec d m y h mi s :
  0 <= d -> 1 <= m <= 12 ->
  date_ok d (m - 1) y h mi s = Ok ((d <=? month_len y m) && (h <? 24) && (mi <? 60) && (s <? 60)).
Proof.
  intros Hd Hm. unfold date_ok.
  destruct ((23 <? h) || (59 <? mi) || (59 <? s)) eqn:Hc.
  - f_equal. symmetry. rewrite <- !andb_assoc. apply andb_false_iff. right. lia.
  - assert ((h <? 24) && (mi <? 60) && (s <? 60) = true) as Hok by lia.
    rewrite <- !andb_assoc in *. rewrite Hok, andb_true_r.
    pose proof (leap_bits y) as Hlb. unfold month_len, b2z.
    pose proof (month_cases m Hm) as H. destruct_or! H; subst m; cbn -[leap Z.leb Z.land Z.modulo];
      rewrite ?andb_false_r, ?andb_true_r; try done.
    destruct (Z.eqb_spec d 29) as [->|]; [rewrite Hlb; by destruct (leap y)|].
    change (get mday (2 - 1)) with (Ok 28) || change (get mday 1) with (Ok 28). rewrite Ok_bind. apply f_equal. destruct (leap y); lia.
Qed.

Lemma gauss_value d m y h mi s :
  0 <= d < 100 -> 1 <= m <= 12 -> 1 <= y < 10000 -> 0 <= h < 100 -> 0 <= mi < 100 -> 0 <= s < 100 ->
  gauss_seconds d (m - 1) y h mi s = (day_number y m d - epoch) * 86400 + h * 3600 + mi * 60 + s.
Proof.
  intros Hd Hm Hy Hh Hmi Hs. unfold gauss_seconds.
  assert ((let (month, year) := if m - 1 - 1 <=? 0 then (m - 1 - 1 + 12, u64 (y - 1)) else (m - 1 - 1, y) in
    march year + march_day month d) = day_number y m d + 306) as Hg.
  { rewrite day_number_gauss by lia. destruct (Z.leb_spec (m - 1 - 1) 0), (Z.leb_spec m 2); try lia.
    - rewrite u64_id by lia. do 2 f_equal. lia.
    - do 2 f_equal. lia. }
  assert (0 <= march (y - 1) /\ march y <= 4000000) as Hb.
  { pose proof (march_bounds (y - 1)). pose proof (march_bounds y).
    assert (0 <= march (y - 1)); [unfold march; Z.to_euclidean_division_equations; lia|lia]. }
  assert (0 <= march y) by (unfold march; Z.to_euclidean_division_equations; lia).
  assert (-100 <= march_day (if m <=? 2 then m + 10 else m - 2) d <= 500).
  { unfold march_day. destruct (Z.leb_spec m 2); Z.to_euclidean_division_equations; lia. }
  assert (-1000 <= day_number y m d <= 4001000) as Hdn.
  { pose proof (march_bounds (y - 1)). pose proof (march_bounds y).
    pose proof (day_number_gauss y m d). destruct (Z.leb_spec m 2); lia. }
  destruct (if m - 1 - 1 <=? 0 then _ else _) as [month year]. unfold march, march_day in Hg.
  rewrite signed64_u64; unfold epoch; lia.
Qed.

Section reading.
Context (w : list Z) (d m y h mi s : Z) (rest : list Z).
Context (Hw : plain_word w = true) (Hd : 0 <= d < 100) (Hm : 1 <= m <= 12) (Hy : 0 <= y < 10000)
  (Hh : 0 <= h < 100) (Hmi : 0 <= mi < 100) (Hs : 0 <= s < 100).

Lemma zlen_clock : zlen (clock h mi s) = 8.
Proof. unfold clock. rewrite !zlen_app, !zlen_dec. done. Qed.

Lemma zlen_month : zlen (name_of months (m - 1)) = 3.
Proof. by destruct (name_at_months m Hm) as [_ [? _]]. Qed.

Lemma finish_read yy :
  1 <= yy < 10000 ->
  (ok ← date_ok d (m - 1) yy h mi s;
   Ok (if ok : bool then Some (gauss_seconds d (m - 1) yy h mi s) else None))
  = Ok (if (d <=? month_len yy m) && (h <? 24) && (mi <? 60) && (s <? 60)
        then Some (read_date d m yy h mi s) else None).
Proof.
  intros Hyy. rewrite date_ok_spec, Ok_bind by lia. unfold read_date.
  destruct (_ && _); [by rewrite gauss_value by lia|done].
Qed.

Lemma read_date_error yy :
  match (if (d <=? month_len yy m) && (h <? 24) && (mi <? 60) && (s <? 60)
         then Some (read_date d m yy h mi s) else None) with
  | Some time => time
  | None => NGX_ERROR
  end = read_date d m yy h mi s.
Proof. unfold read_date. by destruct (_ && _). Qed.

Ltac long_enough :=
  match goal with |- context [zlen ?p <? ?n] =>
    destruct (Z.ltb_spec (zlen p) n); [exfalso; pose proof (zlen_nonneg rest);
      repeat rewrite ?zlen_app, ?zlen_cons, ?zlen_dec, ?zlen_clock, ?zlen_month in *; lia|]
  end.

Lemma parse_day_ok sep p :
  sep = " "%chr /\ 17 <= zlen p \/ sep = "-"%chr ->
  parse_day (dec 2 d ++ sep :: p)
  = Ok (Some (if sep =? " "%chr then rfc822 else rfc850, d, p)).
Proof.
  intros Hsep. unfold parse_day. rewrite digits_dec, bind_error, get_head, Ok_bind by lia.
  destruct Hsep as [[-> Hl]| ->]; cbn [Z.eqb Pos.eqb]; [|done].
  destruct (Z.ltb_spec (zlen (32 :: p)) 18); [rewrite zlen_cons in *; lia|done].
Qed.

Lemma read_rfc822 :
  1 <= y -> ngx_parse_http_time (rfc822_text w d m y (clock h mi s) ++ rest) = Ok (read_date d m y h mi s).
Proof.
  intros Hy1. unfold ngx_parse_http_time, rfc822_text. rewrite <- !app_assoc.
  change (str ", ") with [44; 32]. change (str " ") with [32]. change (str "-") with [45].
  cbn [app]. rewrite find_comma_word by done.
  cbn [find_comma Z.eqb Pos.eqb]. change (skip_blanks (drop 1 (44 :: 32 :: ?l))) with (skip_blanks l).
  rewrite skip_blanks_dec. long_enough.
  unfold parse_http_date. rewrite parse_day_ok.
  2:{ left. split; [done|]. pose proof (zlen_nonneg rest).
      repeat rewrite ?zlen_app, ?zlen_cons, ?zlen_dec, ?zlen_clock, ?zlen_month. lia. }
  cbn [Z.eqb Pos.eqb]. unfold parse_http_month.
  rewrite bind_error, parse_month_name, bind_error, drop_name by done.
  cbn [parse_separator parse_year]. rewrite expect_head, bind_error, digits_dec, !bind_error by lia.
  unfold parse_http_clock. rewrite clock_read, bind_error by done. cbn [parse_isoc_year initialised].
  rewrite bind_error, Ok_bind. cbn [initialised]. rewrite Ok_bind, finish_read, Ok_bind by lia. by rewrite read_date_error.
Qed.

Lemma read_rfc850 yy :
  0 <= yy < 100 ->
  ngx_parse_http_time (rfc850_text w d m yy (clock h mi s) ++ rest)
  = Ok (read_date d m (yy + (if yy <? 70 then 2000 else 1900)) h mi s).
Proof.
  intros Hyy. unfold ngx_parse_http_time, rfc850_text. rewrite <- !app_assoc.
  change (str ", ") with [44; 32]. change (str " ") with [32]. change (str "-") with [45].
  cbn [app]. rewrite find_comma_word by done.
  cbn [find_comma Z.eqb Pos.eqb]. change (skip_blanks (drop 1 (44 :: 32 :: ?l))) with (skip_blanks l).
  rewrite skip_blanks_dec. long_enough.
  unfold parse_http_date. rewrite parse_day_ok by (by right).
  cbn [Z.eqb Pos.eqb]. unfold parse_http_month.
  rewrite bind_error, parse_month_name, bind_error, drop_name by done.
  cbn [parse_separator parse_year]. rewrite expect_head, bind_error, digits_dec, !bind_error by lia.
  unfold parse_http_clock. rewrite clock_read, bind_error by done. cbn [parse_isoc_year initialised].
  rewrite bind_error, Ok_bind. cbn [initialised]. rewrite Ok_bind, finish_read, Ok_bind by (destruct (yy <? 70); lia).
  by rewrite read_date_error.
Qed.

(** The date of a cookie with a year of four digits. *)
Lemma read_long_year :
  ngx_parse_http_time (w ++ str ", " ++ dec 2 d ++ str "-" ++ name_of months (m - 1) ++ str "-"
    ++ dec 4 y ++ str " " ++ clock h mi s ++ rest) = Ok NGX_ERROR.
Proof.
  unfold ngx_parse_http_time.
  change (str ", ") with [44; 32]. change (str " ") with [32]. change (str "-") with [45].
  cbn [app]. rewrite find_comma_word by done.
  cbn [find_comma Z.eqb Pos.eqb]. change (skip_blanks (drop 1 (44 :: 32 :: ?l))) with (skip_blanks l).
  rewrite skip_blanks_dec. long_enough.
  unfold parse_http_date. rewrite parse_day_ok by (by right).
  cbn [Z.eqb Pos.eqb]. unfold parse_http_month.
  rewrite bind_error, parse_month_name, bind_error, drop_name by done.
  cbn [parse_separator parse_year].
  change (dec 4 y) with ((dec 2 (y / 10 / 10) ++ [48 + (y / 10) mod 10]) ++ [48 + y mod 10]).
  rewrite <- !app_assoc. rewrite expect_head, bind_error, digits_dec, !bind_error.
  2:{ Z.to_euclidean_division_equations; lia. }
  unfold parse_http_clock, parse_clock. unfold expect_char at 1. cbn [app]. rewrite get_head, Ok_bind.
  pose proof (Z.mod_pos_bound (y / 10) 10). destruct (Z.eqb_spec (48 + (y / 10) mod 10) 32); [lia|done].
Qed.

Lemma parse_isoc_day_ok p :
  14 <= zlen (" "%chr :: p) ->
  parse_isoc_day (asctime_day d ++ " "%chr :: p) = Ok (Some (d, " "%chr :: p)).
Proof.
  intros Hl. assert ((zlen (32 :: p) <? 14) = false) as Hle by lia.
  unfold parse_isoc_day, asctime_day. destruct (Z.ltb_spec d 10).
  - change ((32 :: dec 1 d) ++ 32 :: p) with (32 :: (dec 1 d ++ 32 :: p)).
    rewrite get_head, Ok_bind. cbn [Z.eqb Pos.eqb]. change (drop 1 (32 :: ?l)) with l.
    rewrite digits_dec, bind_error, get_head, Ok_bind by lia. cbn [Z.eqb Pos.eqb negb].
    by rewrite bind_error, Hle.
  - pose proof (dec_digits 2 d) as Hdd. pose proof (dec_value 2 d ltac:(lia)) as Hv.
    pose proof (zlen_dec 2 d) as Hlen.
    destruct (dec 2 d) as [|a [|b [|]]]; try (unfold zlen in Hlen; cbn [length] in Hlen; lia).
    cbn [forallb] in Hdd. rewrite andb_true_r in Hdd. apply andb_true_iff in Hdd as [Ha Hb].
    pose proof (proj1 (is_digit_spec a) Ha). pose proof (proj1 (is_digit_spec b) Hb).
    cbn [app]. rewrite get_head, Ok_bind. destruct (Z.eqb_spec a 32); [lia|].
    change (a :: b :: 32 :: p) with ([a] ++ b :: 32 :: p).
    rewrite digits_app, bind_error, get_head, Ok_bind by (done || by cbn; rewrite Ha).
    destruct (Z.eqb_spec b 32); [lia|]. cbn [negb].
    change (b :: 32 :: p) with ([b] ++ 32 :: p).
    rewrite digits_app, bind_error, Hle by (done || by cbn; rewrite Hb).
    do 3 f_equal. exact Hv.
Qed.

Lemma read_isoc :
  1 <= y -> ngx_parse_http_time (isoc_text w d m y (clock h mi s) ++ rest) = Ok (read_date d m y h mi s).
Proof.
  intros Hy1. unfold ngx_parse_http_time, isoc_text. rewrite <- !app_assoc.
  change (str " ") with [32]. cbn [app]. rewrite find_comma_word by done.
  cbn [find_comma Z.eqb Pos.eqb]. change (drop 1 (32 :: ?l)) with l.
  assert (forall l, skip_blanks (name_of months (m - 1) ++ l) = name_of months (m - 1) ++ l) as ->.
  { intros l. pose proof (month_cases m Hm) as H. destruct_or! H; subst m; done. }
  assert (1 <= zlen (asctime_day d) <= 2) as Ha.
  { unfold asctime_day. destruct (d <? 10); [rewrite zlen_cons, zlen_dec|rewrite zlen_dec]; lia. }
  long_enough. unfold parse_http_date.
  unfold parse_http_month.
  rewrite parse_month_name, bind_error, drop_name by done. cbn [parse_separator].
  rewrite bind_error. change (drop 1 (32 :: ?l)) with l. cbn [parse_year].
  rewrite parse_isoc_day_ok.
  2:{ pose proof (zlen_nonneg rest). repeat rewrite ?zlen_app, ?zlen_cons, ?zlen_dec, ?zlen_clock. lia. }
  rewrite !bind_error. unfold parse_http_clock. rewrite clock_read, bind_error by done.
  cbn [parse_isoc_year].
  rewrite expect_head, bind_error, digits_dec, !bind_error by lia. cbn [initialised].
  rewrite Ok_bind. cbn [initialised]. rewrite Ok_bind, finish_read, Ok_bind by lia. by rewrite read_date_error.
Qed.
End reading.

(** ** On any text *)

(** The code returns, with an error or with at least [n] bytes left. *)
Definition returns {A} (n : Z) (rest : A -> list Z) (r : res (option A)) : Prop :=
  exists o, r = Ok o /\ match o with Some a => n <= zlen (rest a) | None => True end.

Lemma zlen_drop1 (p : list Z) : zlen p - 1 <= zlen (drop 1 p).
Proof. unfold zlen. rewrite length_drop. lia. Qed.

Lemma returns_none {A} n (rest : A -> list Z) : returns n rest (Ok None).
Proof. by exists None. Qed.

Lemma returns_some {A} n (rest : A -> list Z) a : n <= zlen (rest a) -> returns n rest (Ok (Some a)).
Proof. intros H. by exists (Some a). Qed.

Lemma returns_bind {A B} n (restA : A -> list Z) m (restB : B -> list Z) r k :
  returns n restA r -> (forall a, n <= zlen (restA a) -> returns m restB (k a)) ->
  returns m restB (unless_error r k).
Proof. intros (o & -> & Ho) Hk. destruct o as [a|]; [by apply Hk|]. by exists None. Qed.

Lemma returns_get {B} p i m (restB : B -> list Z) k :
  0 <= i < zlen p -> (forall c, returns m restB (k c)) -> returns m restB (c ← get p i; k c).
Proof. intros Hi Hk. destruct (get_ok p i Hi) as (c & ->). rewrite Ok_bind. apply Hk. Qed.

Lemma returns_digits n v p : Z.of_nat n <= zlen p -> returns (zlen p - Z.of_nat n) snd (digits n v p).
Proof.
  revert v p. induction n as [|n IH]; intros v p Hn; cbn [digits]; [apply returns_some; cbn; lia|].
  apply returns_get; [lia|]. intros c. destruct (is_digit c); [|by exists None].
  pose proof (zlen_drop1 p). destruct (IH (v * 10 + (c - 48)) (drop 1 p)) as (o & -> & Ho); [lia|].
  exists o. split; [done|]. destruct o; [|done]. lia.
Qed.

Lemma returns_expect c p : 1 <= zlen p -> returns (zlen p - 1) id (expect_char c p).
Proof.
  intros Hp. unfold expect_char. apply returns_get; [lia|]. intros x.
  destruct (x =? c); [apply returns_some, zlen_drop1|by exists None].
Qed.

(** The next step of a parser that reads what the hypotheses leave. *)
Ltac reads :=
  eapply returns_bind;
  [first [apply returns_expect; lia | apply (returns_digits 2); lia | apply (returns_digits 4); lia
         |apply (returns_digits 1); lia]|];
  let a := fresh "a" in let H := fresh in intros a H;
  try (let x := fresh "v" in let q := fresh "q" in destruct a as [x q]; cbn [snd] in H);
  unfold id in H.

Lemma returns_clock p : 9 <= zlen p -> returns (zlen p - 9) (fun '(_, p') => p') (parse_clock p).
Proof. intros Hp. unfold parse_clock. do 6 reads. apply returns_some. lia. Qed.

(** The code returns. *)
Definition total {A} (r : res (option A)) : Prop := exists o, r = Ok o.

Lemma total_bind {A B} n (rest : A -> list Z) (r : res (option A)) (k : A -> res (option B)) :
  returns n rest r -> (forall a, n <= zlen (rest a) -> total (k a)) -> total (unless_error r k).
Proof. intros (o & -> & Ho) Hk. destruct o as [a|]; [by apply Hk|]. by exists None. Qed.

Lemma total_month {B} p (k : Z -> res (option B)) :
  3 <= zlen p -> (forall m, 0 <= m < 12 -> total (k m)) -> total (unless_error (parse_month p) k).
Proof.
  intros Hp Hk. unfold parse_month.
  destruct (get_ok p 0) as (c & ->); [lia|]. destruct (get_ok p 1) as (c1 & ->); [lia|].
  destruct (get_ok p 2) as (c2 & ->); [lia|]. rewrite !Ok_bind.
  repeat match goal with
  | |- total (unless_error (if ?b then _ else _) _) => destruct b; rewrite ?Ok_bind
  end; try (apply Hk; repeat case_match; lia); by exists None.
Qed.

Lemma total_day {B} p (k : http_fmt * Z * list Z -> res (option B)) :
  18 <= zlen p ->
  (forall d q, 17 <= zlen q -> total (k (rfc822, d, q))) ->
  (forall d q, 15 <= zlen q -> total (k (rfc850, d, q))) ->
  total (unless_error (parse_day p) k).
Proof.
  intros Hp H822 H850. unfold parse_day.
  destruct (returns_digits 2 0 p) as (o & -> & Ho); [lia|].
  destruct o as [[d q]|]; [|by exists None]. cbn [snd] in Ho. rewrite bind_error.
  destruct (get_ok q 0) as (c & ->); [lia|]. rewrite Ok_bind. pose proof (zlen_drop1 q).
  destruct (c =? 32).
  - destruct (Z.ltb_spec (zlen q) 18); [by exists None|]. apply H822. lia.
  - destruct (c =? 45); [apply H850; lia|by exists None].
Qed.

Lemma returns_isoc_day p : 14 <= zlen p -> returns 14 snd (parse_isoc_day p).
Proof.
  intros Hp. unfold parse_isoc_day. apply returns_get; [lia|]. intros c.
  pose proof (zlen_drop1 p).
  assert (13 <= zlen (if c =? 32 then drop 1 p else p)) by (destruct (c =? 32); lia).
  cbv zeta. reads. apply returns_get; [lia|]. intros c1.
  apply (returns_bind 0 snd).
  - destruct (negb (c1 =? 32)); [|apply returns_some; cbn; lia].
    destruct (returns_digits 1 v q) as (o & -> & Ho); [lia|]. exists o. split; [done|].
    destruct o; [|done]. lia.
  - intros [d q']. destruct (Z.ltb_spec (zlen q') 14); intros _; [apply returns_none|by apply returns_some].
Qed.

(** The second half of the parser, once the day and the year are where they are. *)
Lemma total_finish fmt d year p :
  9 <= zlen p ->
  (fmt = isoc -> 14 <= zlen p) -> (fmt <> isoc -> exists y, year = Some y) ->
  forall m, 0 <= m < 12 ->
  total (parse_http_clock fmt m (Some d) year p).
Proof.
  intros Hp Hisoc Hyear m Hm. unfold parse_http_clock.
  assert (forall y h mi s, exists o, date_ok d m y h mi s = Ok o) as Hok.
  { intros y h mi s. unfold date_ok. destruct (_ || _); [eauto|]. destruct (_ && _); [eauto|].
    destruct (get_ok mday m) as (n & ->); [change (zlen mday) with 12; lia|]. eauto. }
  eapply total_bind; [by apply returns_clock|]. intros [[[h mi] s] q] Hq.
  assert (forall y, total (day ← initialised (Some d); year ← initialised (Some y);
         ok ← date_ok day m year h mi s;
         Ok (if ok : bool then Some (gauss_seconds day m year h mi s) else None))) as Hend.
  { intros y. cbn [initialised]. rewrite Ok_bind. cbn [initialised]. rewrite Ok_bind.
    destruct (Hok y h mi s) as (o & ->). rewrite Ok_bind. by eexists. }
  unfold parse_isoc_year. destruct fmt.
  1-3: destruct Hyear as (y & ->); [done|]; rewrite bind_error; apply Hend.
  specialize (Hisoc eq_refl).
  destruct (returns_expect 32 q) as (o & -> & Ho); [lia|].
  destruct o as [q'|]; [|by exists None]. rewrite bind_error. unfold id in Ho.
  destruct (returns_digits 4 0 q') as (o & -> & _); [lia|].
  destruct o as [[y q'']|]; [|by exists None]. rewrite !bind_error. apply Hend.
Qed.

Lemma total_rfc822 d p : 17 <= zlen p -> total (parse_http_month rfc822 (Some d) p).
Proof.
  intros Hp. apply total_month; [lia|]. intros m Hm. unfold parse_separator, parse_year.
  assert (14 <= zlen (drop 3 p)) by (unfold zlen in *; rewrite length_drop; lia).
  eapply total_bind; [apply returns_expect; lia|]. intros q Hq. unfold id in Hq.
  destruct (returns_digits 4 0 q) as (o & -> & Ho); [lia|].
  destruct o as [[y q']|]; [|by exists None]. rewrite !bind_error. cbn [snd] in Ho.
  apply total_finish; (done || lia || eauto).
Qed.

Lemma total_rfc850 d p : 15 <= zlen p -> total (parse_http_month rfc850 (Some d) p).
Proof.
  intros Hp. apply total_month; [lia|]. intros m Hm. unfold parse_separator, parse_year.
  assert (12 <= zlen (drop 3 p)) by (unfold zlen in *; rewrite length_drop; lia).
  eapply total_bind; [apply returns_expect; lia|]. intros q Hq. unfold id in Hq.
  destruct (returns_digits 2 0 q) as (o & -> & Ho); [lia|].
  destruct o as [[y q']|]; [|by exists None]. rewrite !bind_error. cbn [snd] in Ho.
  apply total_finish; (done || lia || eauto).
Qed.

Lemma total_isoc p : 18 <= zlen p -> total (parse_http_month isoc None p).
Proof.
  intros Hp. apply total_month; [lia|]. intros m Hm. unfold parse_separator, parse_year.
  rewrite bind_error. pose proof (zlen_drop1 (drop 3 p)).
  assert (15 <= zlen (drop 3 p)) by (unfold zlen in *; rewrite length_drop; lia).
  destruct (returns_isoc_day (drop 1 (drop 3 p))) as (o & -> & Ho); [lia|].
  destruct o as [[d q]|]; [|by exists None]. rewrite !bind_error. cbn [snd] in Ho.
  apply total_finish; (done || lia).
Qed.

Lemma parse_http_date_total fmt p : 18 <= zlen p -> total (parse_http_date fmt p).
Proof.
  intros Hp. unfold parse_http_date.
  destruct fmt; try by apply total_isoc.
  all: apply total_day; [done|intros; by apply total_rfc822|intros; by apply total_rfc850].
Qed.

(** ** The properties *)

(** C18: [ngx_parse_http_time] reads all three formats of HTTP dates exactly. On any
    bytes it terminates and reads no other memory. For any weekday, any two-digit
    day, hour, minute and second, any month and any year (from 1 to 9999, or from
    1970 to 2069 with two digits), it returns the seconds between the epoch and that
    date of the Gregorian calendar, or [NGX_ERROR] if the day is behind the end of
    the month or the clock out of range. It takes the day 00 as the day before the
    first. *)
Theorem parse_http_time_exact value w d m y h mi s rest :
  (exists t, ngx_parse_http_time value = Ok t) /\
  (plain_word w = true -> 0 <= d < 100 -> 1 <= m <= 12 -> 1 <= y < 10000 ->
   0 <= h < 100 -> 0 <= mi < 100 -> 0 <= s < 100 ->
   ngx_parse_http_time (rfc822_text w d m y (clock h mi s) ++ rest) = Ok (read_date d m y h mi s) /\
   ngx_parse_http_time (isoc_text w d m y (clock h mi s) ++ rest) = Ok (read_date d m y h mi s) /\
   (1970 <= y < 2070 ->
    ngx_parse_http_time (rfc850_text w d m (y mod 100) (clock h mi s) ++ rest)
    = Ok (read_date d m y h mi s))).
Proof.
  split.
  - unfold ngx_parse_http_time. destruct (find_comma value) as [fmt p].
    destruct (Z.ltb_spec (zlen (skip_blanks (drop 1 p))) 18); [by eexists|].
    destruct (parse_http_date_total fmt (skip_blanks (drop 1 p))) as (o & ->); [done|].
    rewrite Ok_bind. by eexists.
  - intros Hw Hd Hm Hy Hh Hmi Hs. split; [apply read_rfc822; (done || lia)|].
    split; [apply read_isoc; (done || lia)|]. intros Hy2.
    assert (y mod 100 + (if y mod 100 <? 70 then 2000 else 1900) = y) as Hyy.
    { pose proof (Z.div_mod y 100 ltac:(lia)). pose proof (Z.mod_pos_bound y 100 ltac:(lia)).
      destruct (Z.ltb_spec (y mod 100) 70); lia. }
    rewrite (read_rfc850 w d m h mi s rest) by (done || lia || (apply Z.mod_pos_bound; lia)).
    by rewrite Hyy.
Qed.

Lemma parse_http_time_exact_witness :
  ngx_parse_http_time (rfc822_text (str "Thu") 29 2 1996 (clock 10 30 59) ++ str " GMT")
  = Ok (read_date 29 2 1996 10 30 59).
Proof.
  apply (parse_http_time_exact [] (str "Thu") 29 2 1996 10 30 59 (str " GMT")); (reflexivity || lia).
Defined.

Lemma gmtime_fields t :
  let tm := ngx_gmtime t in
  1 <= tm.(tm_mday) <= 31 /\ 1 <= tm.(tm_mon) <= 12 /\ 1970 <= tm.(tm_year) <= 9999 /\
  plain_word (name_of week tm.(tm_wday)) = true /\ zlen (name_of week tm.(tm_wday)) = 3 /\
  read_date tm.(tm_mday) tm.(tm_mon) tm.(tm_year) tm.(tm_hour) tm.(tm_min) tm.(tm_sec) = clamp_time t.
Proof.
  destruct (gmtime_spec t) as [Hv Hday Hc Hh Hmi Hs Hw Hy]. cbv zeta.
  generalize dependent (ngx_gmtime t). intros tm Hv Hday Hc Hh Hmi Hs Hw Hy. unfold valid_date in Hv.
  assert (tm_mday tm <= 31) by (unfold month_len, b2z in Hv; repeat case_match; lia).
  destruct (name_at_week (tm_wday tm)) as [_ [Hl Hn]]; [rewrite Hw; apply Z.mod_pos_bound; lia|].
  repeat (split; [lia|]). split; [|split; [done|]].
  - unfold plain_word. rewrite forallb_forall in *. intros c Hin. specialize (Hn c Hin). lia.
  - unfold read_date. rewrite Hday.
    assert ((tm_mday tm <=? month_len (tm_year tm) (tm_mon tm)) && (tm_hour tm <? 24)
            && (tm_min tm <? 60) && (tm_sec tm <? 60) = true) as -> by lia.
    pose proof (Z.div_mod (clamp_time t) 86400). lia.
Qed.

(** Dates are read back. For any time, [ngx_http_time] prints 29 bytes, which
    [ngx_parse_http_time] reads as this time, limited to the years 1970 to 9999; and so
    for what [ngx_http_cookie_time] prints up to the year 2037. From 2038 on a cookie
    has a year of four digits behind a dash, which the parser rejects. *)
Theorem http_time_roundtrip t :
  (exists text, ngx_http_time t = Ok text /\ zlen text = 29 /\
    ngx_parse_http_time text = Ok (clamp_time t)) /\
  (exists text, ngx_http_cookie_time t = Ok text /\
    ngx_parse_http_time text
    = Ok (if (ngx_gmtime t).(tm_year) <=? 2037 then clamp_time t else NGX_ERROR)).
Proof.
  destruct (gmtime_fields t) as (Hd & Hm & Hy & Hw & Hwl & Hread).
  destruct (gmtime_spec t) as [_ _ _ Hh Hmi Hs _ _].
  pose proof (http_time_text t) as Htext. pose proof (cookie_time_text t) as Hcookie. cbv zeta in *.
  generalize dependent (ngx_gmtime t). intros tm Hd Hm Hy Hw Hwl Hread Hh Hmi Hs Htext Hcookie. split.
  - eexists. split; [exact Htext|]. split.
    + unfold rfc822_text. repeat rewrite zlen_app. rewrite !zlen_dec, zlen_clock, zlen_month, Hwl by done. done.
    + rewrite <- Hread. unfold rfc822_text.
      pose proof (read_rfc822 (name_of week (tm_wday tm)) (tm_mday tm) (tm_mon tm) (tm_year tm)
        (tm_hour tm) (tm_min tm) (tm_sec tm) (str " GMT")) as H.
      unfold rfc822_text in H. rewrite <- ?app_assoc in H. apply H; (done || lia).
  - eexists. split; [exact Hcookie|]. destruct (Z.ltb_spec 2037 (tm_year tm)), (Z.leb_spec (tm_year tm) 2037); try lia.
    + rewrite <- ?app_assoc. apply read_long_year; (done || lia).
    + rewrite <- Hread.
      assert (tm_year tm mod 100 + (if tm_year tm mod 100 <? 70 then 2000 else 1900) = tm_year tm) as Hyy.
      { pose proof (Z.div_mod (tm_year tm) 100 ltac:(lia)).
        pose proof (Z.mod_pos_bound (tm_year tm) 100 ltac:(lia)).
        destruct (Z.ltb_spec (tm_year tm mod 100) 70); lia. }
      pose proof (read_rfc850 (name_of week (tm_wday tm)) (tm_mday tm) (tm_mon tm)
        (tm_hour tm) (tm_min tm) (tm_sec tm) (str " GMT")) as Hr.
      specialize (Hr Hw ltac:(lia) ltac:(lia) ltac:(lia) ltac:(lia) ltac:(lia)).
      specialize (Hr (tm_year tm mod 100) ltac:(apply Z.mod_pos_bound; lia)).
      unfold rfc850_text in *. rewrite <- ?app_assoc in Hr. by rewrite Hr, Hyy.
Qed.
