(* ===== verification/Inet.v ===== *)
(** * Addresses

    The parsers and printers of IPv4 and IPv6 addresses, address ranges and socket
    addresses of [core/ngx_inet.c]. In the parsers a pointer into the text is the list
    of the bytes from there on. *)

From S2P Require Import Prelude Numeric Sprintf.

(** ** Byte order

    [htonl] and its like of the C library, on a little-endian machine. *)

Definition htonl (z : Z) : Z :=
  Z.lor (Z.shiftl (Z.land z 0xff) 24)
    (Z.lor (Z.shiftl (Z.land (Z.shiftr z 8) 0xff) 16)
       (Z.lor (Z.shiftl (Z.land (Z.shiftr z 16) 0xff) 8) (Z.land (Z.shiftr z 24) 0xff))).
Definition ntohl : Z -> Z := htonl.

Definition htons (z : Z) : Z := Z.lor (Z.shiftl (Z.land z 0xff) 8) (Z.land (Z.shiftr z 8) 0xff).
Definition ntohs : Z -> Z := htons.

(** The bytes of a 32-bit number in memory. *)
Definition bytes_of_u32 (z : Z) : list Z :=
  [Z.land z 0xff; Z.land (Z.shiftr z 8) 0xff; Z.land (Z.shiftr z 16) 0xff; Z.land (Z.shiftr z 24) 0xff].

Definition INADDR_NONE : Z := 0xffffffff.
Definition INADDR_ANY : Z := 0.
Definition NGX_INET6_ADDRSTRLEN : Z := 45.

(** ** IPv4 *)

Fixpoint inet_addr_loop (addr octet n : Z) (p : list Z) : Z :=
  match p with
  | [] => if n =? 3 then htonl (u32 (Z.shiftl addr 8 + octet)) else INADDR_NONE
  | c :: p =>
      if is_digit c then
        let octet := octet * 10 + (c - "0"%chr) in
        if 255 <? octet then INADDR_NONE else inet_addr_loop addr octet n p
      else if c =? "."%chr then inet_addr_loop (u32 (Z.shiftl addr 8 + octet)) 0 (n + 1) p
      else INADDR_NONE
  end.

Definition ngx_inet_addr (text : list Z) : Z := inet_addr_loop 0 0 0 text.

(** ** IPv6 *)

(** The variables of [ngx_inet6_addr]: the 16 bytes that [addr] points into, with the
    offsets of [addr] and [zero], and [digit], which [len4] belongs to. *)
Record inet6 := Inet6 {
  i6_buf : list Z;
  i6_addr : Z;
  i6_zero : option Z;
  i6_digit : option (list Z);
  i6_nibbles : Z;
  i6_word : Z;
  i6_n : Z
}.

#[export] Instance inet6_rebuild : Rebuild inet6 := fun r =>
  Inet6 (i6_buf r) (i6_addr r) (i6_zero r) (i6_digit r) (i6_nibbles r) (i6_word r) (i6_n r).

(** [*addr++ = hi; *addr++ = lo] *)
Definition push_word (st : inet6) (hi lo : Z) : res inet6 :=
  buf ← put st.(i6_buf) st.(i6_addr) hi;
  buf ← put buf (st.(i6_addr) + 1) lo;
  Ok (st <| i6_buf := buf |> <| i6_addr := st.(i6_addr) + 2 |>).

Inductive i6_step := I6_continue (st : inet6) | I6_break (st : inet6) | I6_error (st : inet6).

(** A colon, with [p] behind it. *)
Definition i6_colon (p : list Z) (st : inet6) : res i6_step :=
  if negb (st.(i6_nibbles) =? 0) then
    let st := st <| i6_digit := Some p |> in
    st ← push_word st (u8 (Z.shiftr st.(i6_word) 8)) (Z.land st.(i6_word) 0xff);
    let st := st <| i6_n := st.(i6_n) - 1 |> in
    Ok (if negb (st.(i6_n) =? 0) then I6_continue (st <| i6_nibbles := 0 |> <| i6_word := 0 |>)
        else I6_error st)
  else
    Ok (match st.(i6_zero) with
        | None => I6_continue (st <| i6_digit := Some p |> <| i6_zero := Some st.(i6_addr) |>)
        | Some _ => I6_error st
        end).

(** A dot behind a digit: the rest of the text, from the last colon on, has to be an IPv4
    address; its first half is written and the second left in [word]. *)
Definition i6_dot (st : inet6) : res i6_step :=
  match st.(i6_digit) with
  | Some digit =>
      if st.(i6_n) <? 2 then Ok (I6_error st)
      else
        let word := ngx_inet_addr digit in
        if word =? INADDR_NONE then Ok (I6_error st)
        else
          let word := ntohl word in
          st ← push_word st (u8 (Z.land (Z.shiftr word 24) 0xff)) (u8 (Z.land (Z.shiftr word 16) 0xff));
          Ok (I6_break (st <| i6_word := word |> <| i6_n := st.(i6_n) - 1 |>))
  | None => Ok (I6_error st)
  end.

Definition i6_char (c : Z) (p : list Z) (st : inet6) : res i6_step :=
  if c =? ":"%chr then i6_colon p st
  else if (c =? "."%chr) && negb (st.(i6_nibbles) =? 0) then i6_dot st
  else
    let st := st <| i6_nibbles := st.(i6_nibbles) + 1 |> in
    Ok (if 4 <? st.(i6_nibbles) then I6_error st
        else if is_digit c then
          I6_continue (st <| i6_word := st.(i6_word) * 16 + (c - "0"%chr) |>)
        else
          let c := u8 (Z.lor c 0x20) in
          if between "a"%chr "f"%chr c then
            I6_continue (st <| i6_word := st.(i6_word) * 16 + (c - "a"%chr) + 10 |>)
          else I6_error st).

(** The state behind the loop, and whether there was an error. *)
Fixpoint i6_loop (p : list Z) (st : inet6) : res (bool * inet6) :=
  match p with
  | [] => Ok (false, st)
  | c :: p =>
      s ← i6_char c p st;
      match s with
      | I6_continue st => i6_loop p st
      | I6_break st => Ok (false, st)
      | I6_error st => Ok (true, st)
      end
  end.

(** [while (s >= zero) *d-- = *s--], [k] bytes. *)
Fixpoint move_up (k : nat) (buf : list Z) (s d : Z) : res (list Z) :=
  match k with
  | O => Ok buf
  | S k =>
      c ← get buf s;
      buf ← put buf d c;
      move_up k buf (s - 1) (d - 1)
  end.

Definition i6_finish (st : inet6) : res (Z * list Z) :=
  if (st.(i6_nibbles) =? 0) && (if st.(i6_zero) is Some _ then false else true) then Ok (NGX_ERROR, st.(i6_buf))
  else
    st ← push_word st (u8 (Z.shiftr st.(i6_word) 8)) (Z.land st.(i6_word) 0xff);
    let n := st.(i6_n) - 1 in
    if negb (n =? 0) then
      match st.(i6_zero) with
      | Some zero =>
          let n := n * 2 in
          let s := st.(i6_addr) - 1 in
          buf ← move_up (Z.to_nat (s + 1 - zero)) st.(i6_buf) s (s + n);
          buf ← blit buf zero (replicate (Z.to_nat n) 0);
          Ok (NGX_OK, buf)
      | None => Ok (NGX_ERROR, st.(i6_buf))
      end
    else
      Ok (if st.(i6_zero) is Some _ then NGX_ERROR else NGX_OK, st.(i6_buf)).

(** The code returned and the 16 bytes at [addr]. *)
Definition ngx_inet6_addr (p addr : list Z) : res (Z * list Z) :=
  match p with
  | [] => Ok (NGX_ERROR, addr)
  | c :: rest =>
      let p := if c =? ":"%chr then rest else p in
      '(error, st) ← i6_loop p (Inet6 addr 0 None None 0 0 8);
      if error : bool then Ok (NGX_ERROR, st.(i6_buf)) else i6_finish st
  end.

(** ** Printing

    [out] are the bytes written at [text], which has room for [room]. *)

Definition write_at (room : Z) (out l : list Z) : res (list Z) :=
  if zlen out + zlen l <=? room then Ok (out ++ l) else Fault.

Definition UNSET : Z := 18446744073709551615.

(** The longest run of zero words: [zero], [last], [max] and [n]. *)
Definition zero_run_step (p : list Z) (i : Z) (v : Z * Z * Z * Z) : res (Z * Z * Z * Z) :=
  let '(zero, last, max, n) := v in
  b0 ← get p i;
  b1 ← get p (i + 1);
  if negb (b0 =? 0) || negb (b1 =? 0) then
    Ok (if max <? n then (last, last, n, 0) else (zero, last, max, 0))
  else Ok (zero, if n =? 0 then i else last, max, n + 1).

Fixpoint zero_run (rounds : nat) (p : list Z) (i : Z) (v : Z * Z * Z * Z) : res (Z * Z * Z * Z) :=
  match rounds with
  | O => Ok v
  | S rounds => v ← zero_run_step p i v; zero_run rounds p (i + 2) v
  end.

(** [for (i = 0; i < n; i += 2)]; the 8 rounds of the caller are enough. *)
Fixpoint print_words (rounds : nat) (room : Z) (p : list Z) (n zero max i : Z) (out : list Z)
    : res (list Z) :=
  if n <=? i then Ok out
  else
    match rounds with
    | O => NoFuel
    | S rounds =>
        if i =? zero then
          out ← write_at room out (str ":");
          print_words rounds room p n zero max (i + (max - 1) * 2 + 2) out
        else
          b0 ← get p i;
          b1 ← get p (i + 1);
          l ← ngx_sprintf (str "%xd") [A32 (b0 * 256 + b1)];
          out ← write_at room out l;
          out ← (if i <? 14 then write_at room out (str ":") else Ok out);
          print_words rounds room p n zero max (i + 2) out
    end.

Definition print_in (p : list Z) : res (list arg) :=
  b0 ← get p 0; b1 ← get p 1; b2 ← get p 2; b3 ← get p 3;
  Ok [A32 b0; A32 b1; A32 b2; A32 b3].

(** Whether the last two words are printed as an IPv4 address. *)
Definition v4_tail (p : list Z) (max : Z) : res bool :=
  if max =? 5 then
    b10 ← get p 10; b11 ← get p 11; Ok ((b10 =? 0xff) && (b11 =? 0xff))
  else if max =? 6 then Ok true
  else if max =? 7 then
    b14 ← get p 14; b15 ← get p 15; Ok (negb (b14 =? 0) && negb (b15 =? 1))
  else Ok false.

(** [room] is what the caller's buffer has; [len] is the parameter. *)
Definition ngx_inet6_ntop (room : Z) (p : list Z) (len : Z) (text : list Z) : res (list Z) :=
  if len <? NGX_INET6_ADDRSTRLEN then Ok text
  else
    '(zero, last, max, n) ← zero_run 8 p 0 (UNSET, UNSET, 1, 0);
    let '(zero, max) := if max <? n then (last, n) else (zero, max) in
    tail ← (if zero =? 0 then v4_tail p max else Ok false);
    let n := if tail : bool then 12 else 16 in
    out ← (if zero =? 0 then write_at room text (str ":") else Ok text);
    out ← print_words 8 room p n zero max 0 out;
    if n =? 12 then
      args ← print_in (drop 12 p);
      l ← ngx_sprintf (str "%ud.%ud.%ud.%ud") args;
      write_at room out l
    else Ok out.

(** ** Socket addresses

    [s_addr] and the ports are as in memory: in network byte order. Of the address of a
    Unix domain socket, [path] is what [socklen] includes of [sun_path], or [None] if it
    does not reach that far. *)
Inductive ngx_sockaddr_t :=
| AF_INET (s_addr sin_port : Z)
| AF_INET6 (s6_addr : list Z) (sin6_port : Z)
| AF_UNIX (path : option (list Z)).

Definition ngx_inet_ntop (family_inet : bool) (addr : list Z) (len : Z) : res (list Z) :=
  if family_inet then
    args ← print_in addr;
    ngx_snprintf len (str "%ud.%ud.%ud.%ud") args
  else ngx_inet6_ntop len addr len [].

Fixpoint strnlen (p : list Z) : Z :=
  match p with
  | [] => 0
  | c :: p => if c =? 0 then 0 else 1 + strnlen p
  end.

(** The bytes written, and the length returned. *)
Definition ngx_sock_ntop (sa : ngx_sockaddr_t) (room len : Z) (port : bool) : res (list Z * Z) :=
  match sa with
  | AF_INET s_addr sin_port =>
      args ← print_in (bytes_of_u32 s_addr);
      out ← (if port then ngx_snprintf len (str "%ud.%ud.%ud.%ud:%d") (args ++ [A32 (ntohs sin_port)])
             else ngx_snprintf len (str "%ud.%ud.%ud.%ud") args);
      Ok (out, zlen out)
  | AF_INET6 s6_addr sin6_port =>
      out ← (if port then write_at room [] (str "[") else Ok []);
      out ← ngx_inet6_ntop room s6_addr len out;
      out ← (if port then
               l ← ngx_sprintf (str "]:%d") [A32 (ntohs sin6_port)];
               write_at room out l
             else Ok out);
      Ok (out, zlen out)
  | AF_UNIX path =>
      out ← match path with
            | None => ngx_snprintf len (str "unix:%Z") []
            | Some path => ngx_snprintf len (str "unix:%*s%Z") [A64 (strnlen path); APtr path]
            end;
      Ok (out, u64 (zlen out - 1))
  end.

(** ** Address ranges *)

Inductive ngx_cidr_t :=
| Cidr_in (addr mask : Z)
| Cidr_in6 (addr mask : list Z)
| Cidr_unix.

(** What stands in front of the first [c], and behind it. *)
Fixpoint ngx_strlchr (p : list Z) (c : Z) : option (list Z * list Z) :=
  match p with
  | [] => None
  | x :: p =>
      if x =? c then Some ([], p)
      else match ngx_strlchr p c with Some (l, r) => Some (x :: l, r) | None => None end
  end.

(** The masks of the bytes and the address cut down to them; [rc] is [NGX_DONE] if it
    had bits behind the mask. *)
Fixpoint mask_bytes (shift : Z) (addr : list Z) (rc : Z) : list Z * list Z * Z :=
  match addr with
  | [] => ([], [], rc)
  | a :: addr =>
      let s := if 8 <? shift then 8 else shift in
      let m := u8 (u32 (Z.shiftl 0xff (8 - s))) in
      let rc := if a =? Z.land a m then rc else NGX_DONE in
      let '(addr, mask, rc) := mask_bytes (shift - s) addr rc in
      (Z.land a m :: addr, m :: mask, rc)
  end.

(** The code returned, and the range; with [NGX_ERROR] what [cidr] holds is not used. *)
Definition ngx_ptocidr (text : list Z) : res (Z * option ngx_cidr_t) :=
  let '(addr, mask) := match ngx_strlchr text "/"%chr with
                       | Some (l, r) => (l, Some r)
                       | None => (text, None)
                       end in
  let inaddr := ngx_inet_addr addr in
  if negb (inaddr =? INADDR_NONE) then
    match mask with
    | None => Ok (NGX_OK, Some (Cidr_in inaddr 0xffffffff))
    | Some mask =>
        shift ← ngx_atoi mask;
        if shift =? NGX_ERROR then Ok (NGX_ERROR, None)
        else if 32 <? shift then Ok (NGX_ERROR, None)
        else
          let m := if negb (shift =? 0) then htonl (u32 (Z.shiftl 0xffffffff (32 - shift))) else 0 in
          Ok (if inaddr =? Z.land inaddr m then NGX_OK else NGX_DONE,
              Some (Cidr_in (Z.land inaddr m) m))
    end
  else
    '(rc, in6) ← ngx_inet6_addr addr (replicate 16 0);
    if rc =? NGX_OK then
      match mask with
      | None => Ok (NGX_OK, Some (Cidr_in6 in6 (replicate 16 0xff)))
      | Some mask =>
          shift ← ngx_atoi mask;
          if shift =? NGX_ERROR then Ok (NGX_ERROR, None)
          else if 128 <? shift then Ok (NGX_ERROR, None)
          else
            let '(addr, mask, rc) := mask_bytes shift in6 NGX_OK in
            Ok (rc, Some (Cidr_in6 addr mask))
      end
    else Ok (NGX_ERROR, None).

(** [IN6_IS_ADDR_V4MAPPED] *)
Definition v4_mapped (p : list Z) : bool :=
  bool_decide (take 12 p = replicate 10 0 ++ [0xff; 0xff]).

(** One range of the list. *)
Definition cidr_matches (sa : ngx_sockaddr_t) (c : ngx_cidr_t) : bool :=
  match sa, c with
  | AF_INET inaddr _, Cidr_in addr mask => Z.land inaddr mask =? addr
  | AF_INET6 p _, Cidr_in6 addr mask => bool_decide (zip_with Z.land p mask = addr)
  | AF_UNIX _, Cidr_unix => true
  | _, _ => false
  end.

(** A mapped IPv4 address is taken as IPv4. *)
Definition unmap (sa : ngx_sockaddr_t) : res ngx_sockaddr_t :=
  match sa with
  | AF_INET6 p port =>
      if v4_mapped p then
        b0 ← get p 12; b1 ← get p 13; b2 ← get p 14; b3 ← get p 15;
        Ok (AF_INET (htonl (u32 (Z.shiftl b0 24 + Z.shiftl b1 16 + Z.shiftl b2 8 + b3))) port)
      else Ok sa
  | _ => Ok sa
  end.

Definition ngx_cidr_match (sa : ngx_sockaddr_t) (cidrs : list ngx_cidr_t) : res Z :=
  sa ← unmap sa;
  Ok (if existsb (cidr_matches sa) cidrs then NGX_OK else NGX_DECLINED).

(** ** Addresses with ports *)

Section pool.

(** Whether [ngx_pcalloc] succeeds. *)
Context (pcalloc : bool).

(** The code returned and the address set. *)
Definition ngx_parse_addr (text : list Z) : res (Z * option ngx_sockaddr_t) :=
  let inaddr := ngx_inet_addr text in
  if negb (inaddr =? INADDR_NONE) then
    Ok (if pcalloc then (NGX_OK, Some (AF_INET inaddr 0)) else (NGX_ERROR, None))
  else
    '(rc, in6) ← ngx_inet6_addr text (replicate 16 0);
    Ok (if rc =? NGX_OK then
          if pcalloc then (NGX_OK, Some (AF_INET6 in6 0)) else (NGX_ERROR, None)
        else (NGX_DECLINED, None)).

Definition ngx_inet_set_port (sa : ngx_sockaddr_t) (port : Z) : ngx_sockaddr_t :=
  match sa with
  | AF_INET a _ => AF_INET a (htons port)
  | AF_INET6 a _ => AF_INET6 a (htons port)
  | AF_UNIX p => AF_UNIX p
  end.

(** The text of the address and of the port: [[address]:port] or [address:port]. *)
Definition split_port (text : list Z) : res (option (list Z * list Z)) :=
  match text with
  | c :: rest =>
      if c =? "["%chr then
        match ngx_strlchr text "]"%chr with
        | Some (l, x :: r) => Ok (if x =? ":"%chr then Some (drop 1 l, r) else None)
        | _ => Ok None
        end
      else Ok (ngx_strlchr text ":"%chr)
  | [] => Ok None
  end.

Definition ngx_parse_addr_port (text : list Z) : res (Z * option ngx_sockaddr_t) :=
  '(rc, sa) ← ngx_parse_addr text;
  if negb (rc =? NGX_DECLINED) then Ok (rc, sa)
  else
    s ← split_port text;
    match s with
    | None => Ok (NGX_DECLINED, None)
    | Some (addr, p) =>
        port ← ngx_atoi p;
        if (port <? 1) || (65535 <? port) then Ok (NGX_DECLINED, None)
        else
          '(rc, sa) ← ngx_parse_addr addr;
          Ok (rc, if rc =? NGX_OK then
                    match sa with Some sa => Some (ngx_inet_set_port sa port) | None => None end
                  else sa)
    end.
End pool.

Definition ngx_inet_get_port (sa : ngx_sockaddr_t) : Z :=
  match sa with
  | AF_INET _ port | AF_INET6 _ port => ntohs port
  | AF_UNIX _ => 0
  end.

Definition ngx_inet_wildcard (sa : ngx_sockaddr_t) : bool :=
  match sa with
  | AF_INET a _ => a =? INADDR_ANY
  | AF_INET6 p _ => bool_decide (p = replicate 16 0)
  | AF_UNIX _ => false
  end.

(** [ngx_memcmp] of the paths looks at what both lengths include, 108 bytes at most. *)
Definition ngx_cmp_sockaddr (sa1 sa2 : ngx_sockaddr_t) (cmp_port : bool) : Z :=
  match sa1, sa2 with
  | AF_INET a1 p1, AF_INET a2 p2 =>
      if cmp_port && negb (p1 =? p2) then NGX_DECLINED else if a1 =? a2 then NGX_OK else NGX_DECLINED
  | AF_INET6 a1 p1, AF_INET6 a2 p2 =>
      if cmp_port && negb (p1 =? p2) then NGX_DECLINED
      else if bool_decide (take 16 a1 = take 16 a2) then NGX_OK else NGX_DECLINED
  | AF_UNIX p1, AF_UNIX p2 =>
      let p1 := default [] p1 in
      let p2 := default [] p2 in
      let len := Nat.min 108 (Nat.min (length p1) (length p2)) in
      if bool_decide (take len p1 = take len p2) then NGX_OK else NGX_DECLINED
  | _, _ => NGX_DECLINED
  end.

Example ntop_example :
  ngx_inet6_ntop 45 [32; 1; 13; 184; 0; 0; 0; 0; 0; 1; 0; 0; 0; 0; 0; 1] 45 []
    = Ok (str "2001:db8::1:0:0:1").
Proof. reflexivity. Qed.

Example pton_example :
  ngx_inet6_addr (str "2001:db8::1:0:0:1") (replicate 16 7)
    = Ok (NGX_OK, [32; 1; 13; 184; 0; 0; 0; 0; 0; 1; 0; 0; 0; 0; 0; 1]).
Proof. reflexivity. Qed.

Example mapped_example :
  ngx_inet6_addr (str "::ffff:192.0.2.33") (replicate 16 7)
    = Ok (NGX_OK, replicate 10 0 ++ [255; 255; 192; 0; 2; 33]).
Proof. reflexivity. Qed.

Example parse_addr_port_example :
  ngx_parse_addr_port true (str "[::1]:8080")
    = Ok (NGX_OK, Some (AF_INET6 (replicate 15 0 ++ [1]) 0x901f)).
Proof. reflexivity. Qed.

Example ptocidr_example :
  ngx_ptocidr (str "10.1.2.3/12") = Ok (NGX_DONE, Some (Cidr_in (htonl 0x0a000000) (htonl 0xfff00000))).
Proof. reflexivity. Qed.
