(* ===== verification/InetSpec.v ===== *)
(** * IPv4 addresses

    What [ngx_inet_addr] accepts, and that it reads back what [ngx_inet_ntop] prints. *)

From S2P Require Import Prelude Numeric NumericSpec Sprintf SprintfSpec Inet.

(** ** IPv4 addresses *)

(** The text of an address of four bytes. *)
Definition inet_text (p : list Z) : list Z :=
  match p with
  | [a; b; c; d] => num 0 a ++ str "." ++ num 0 b ++ str "." ++ num 0 c ++ str "." ++ num 0 d
  | _ => []
  end.

Lemma num_byte v : is_byte v -> 1 <= zlen (num 0 v) <= 3.
Proof.
  intros Hv. destruct (num_spec 0 v) as (_ & _ & H1 & Hk); [lia|]. split; [done|].
  apply Hk; [lia|]. change (base 0 ^ 3) with 1000. lia.
Qed.

Lemma bytes_4 a b c d : bytes [a; b; c; d] -> is_byte a /\ is_byte b /\ is_byte c /\ is_byte d.
Proof.
  intros H. apply Forall_cons_1 in H as [? H]. apply Forall_cons_1 in H as [? H].
  apply Forall_cons_1 in H as [? H]. apply Forall_cons_1 in H as [? H]. done.
Qed.

Lemma print_inet cap a b c d :
  bytes [a; b; c; d] -> 15 <= cap ->
  ngx_snprintf cap (str "%ud.%ud.%ud.%ud") [A32 a; A32 b; A32 c; A32 d] = Ok (inet_text [a; b; c; d]).
Proof.
  intros Hb Hcap. apply bytes_4 in Hb as (Ha' & Hb' & Hc' & Hd').
  pose proof (num_byte a). pose proof (num_byte b). pose proof (num_byte c). pose proof (num_byte d).
  num_start. do 7 num_step. cbn [vslprintf_loop]. unfold inet_text. by rewrite <- !app_assoc.
Qed.

Lemma inet_text_length p : bytes p -> zlen (inet_text p) <= 15.
Proof.
  intros Hb. destruct p as [|a [|b [|c [|d [|]]]]]; try (apply Z.leb_le; reflexivity).
  apply bytes_4 in Hb as (Ha' & Hb' & Hc' & Hd').
  pose proof (num_byte a). pose proof (num_byte b). pose proof (num_byte c). pose proof (num_byte d).
  unfold inet_text. repeat rewrite zlen_app. change (zlen (str ".")) with 1. lia.
Qed.

(** What [ngx_inet_addr] accepts: four texts of digits, maybe empty, between dots. *)
Fixpoint split_on (x : Z) (l : list Z) : list (list Z) :=
  match l with
  | [] => [[]]
  | c :: l =>
      if c =? x then [] :: split_on x l
      else match split_on x l with p :: ps => (c :: p) :: ps | [] => [[c]] end
  end.

Definition octet (l : list Z) : option Z :=
  if forallb is_digit l && (dec_from 0 l <=? 255) then Some (dec_from 0 l) else None.

Definition dotted (text : list Z) : option (list Z) :=
  l ← mapM octet (split_on "."%chr text);
  if zlen l =? 4 then Some l else None.

(** The number with these bytes in memory. *)
Definition u32_of_bytes (l : list Z) : Z :=
  match l with
  | [a; b; c; d] => a + 256 * (b + 256 * (c + 256 * d))
  | _ => 0
  end.

(** The rest of a loop that is in the middle of an octet. *)
Definition octet_from (o : Z) (l : list Z) : option Z :=
  if forallb is_digit l && (dec_from o l <=? 255) then Some (dec_from o l) else None.

Definition shift_in (addr : Z) (l : list Z) : Z :=
  fold_left (fun a o => u32 (Z.shiftl a 8 + o)) l addr.

Lemma split_on_cons x l : exists p ps, split_on x l = p :: ps.
Proof.
  induction l as [|c l (p & ps & IH)]; cbn; [eauto|]. destruct (c =? x); [eauto|]. rewrite IH. eauto.
Qed.

Lemma inet_addr_loop_spec addr o n text :
  0 <= o <= 255 ->
  inet_addr_loop addr o n text
  = match split_on "."%chr text with
    | p :: ps =>
        match octet_from o p, mapM octet ps with
        | Some v, Some vs =>
            if n + zlen vs =? 3 then htonl (shift_in addr (v :: vs)) else INADDR_NONE
        | _, _ => INADDR_NONE
        end
    | [] => INADDR_NONE
    end.
Proof.
  revert addr o n. induction text as [|c text IH]; intros addr o n Ho; cbn [inet_addr_loop split_on].
  - unfold octet_from. cbn. destruct (Z.leb_spec o 255); [|lia]. by rewrite Z.add_0_r.
  - destruct (split_on_cons 46 text) as (p & ps & E). rewrite E in IH.
    destruct (is_digit c) eqn:Hc.
    + apply is_digit_spec in Hc as Hc'. destruct (Z.eqb_spec c 46); [lia|]. rewrite E.
      destruct (Z.ltb_spec 255 (o * 10 + (c - 48))).
      * unfold octet_from. cbn [forallb]. rewrite Hc. cbn [andb].
        destruct (forallb is_digit p) eqn:Hp; [|done].
        pose proof (dec_from_le (o * 10 + (c - 48)) p ltac:(lia) Hp).
        change (dec_from o (c :: p)) with (dec_from (o * 10 + (c - 48)) p).
        destruct (Z.leb_spec (dec_from (o * 10 + (c - 48)) p) 255); [lia|done].
      * rewrite IH by lia. unfold octet_from. cbn [forallb]. by rewrite Hc.
    + destruct (Z.eqb_spec c 46) as [->|].
      * rewrite E, IH by lia. unfold octet_from at 2. cbn [forallb andb dec_from fold_left].
        destruct (Z.leb_spec o 255); [|lia]. cbn [mapM option_bind mbind].
        change (octet p) with (octet_from 0 p).
        destruct (octet_from 0 p) as [v|]; [|done]. cbn. destruct (mapM octet ps) as [vs|]; [|done].
        cbn. rewrite zlen_cons. replace (n + 1 + zlen vs) with (n + (1 + zlen vs)) by lia. done.
      * rewrite E. unfold octet_from. cbn [forallb]. by rewrite Hc.
Qed.

(** ** Byte order *)

Lemma htonl_arith z :
  htonl z = z mod 256 * 16777216 + (z / 256 mod 256 * 65536 + (z / 65536 mod 256 * 256 + z / 16777216 mod 256)).
Proof.
  unfold htonl. change 0xff with (Z.ones 8). rewrite !Z.land_ones, !Z.shiftr_div_pow2 by lia.
  change (2 ^ 8) with 256. change (2 ^ 16) with 65536. change (2 ^ 24) with 16777216.
  pose proof (Z.mod_pos_bound z 256). pose proof (Z.mod_pos_bound (z / 256) 256).
  pose proof (Z.mod_pos_bound (z / 65536) 256). pose proof (Z.mod_pos_bound (z / 16777216) 256).
  rewrite (shiftl_lor_add (z / 65536 mod 256)), (shiftl_lor_add (z / 256 mod 256)), shiftl_lor_add;
    change (2 ^ 8) with 256; change (2 ^ 16) with 65536; change (2 ^ 24) with 16777216; lia.
Qed.

(** The bytes of a number that is given by them, from the lowest on. *)
Lemma byte_digits a b c d :
  bytes [a; b; c; d] ->
  let z := a + 256 * (b + 256 * (c + 256 * d)) in
  z mod 256 = a /\ z / 256 mod 256 = b /\ z / 65536 mod 256 = c /\ z / 16777216 mod 256 = d.
Proof.
  intros H. apply bytes_4 in H as (Ha & Hb & Hc & Hd). cbv zeta.
  Z.to_euclidean_division_equations; lia.
Qed.

Lemma htonl_spec a b c d :
  bytes [a; b; c; d] -> htonl (d + 256 * (c + 256 * (b + 256 * a))) = u32_of_bytes [a; b; c; d].
Proof.
  intros H. apply bytes_4 in H as (Ha & Hb & Hc & Hd).
  destruct (byte_digits d c b a) as (E1 & E2 & E3 & E4); [by repeat apply Forall_cons_2|].
  rewrite htonl_arith, E1, E2, E3, E4. cbn [u32_of_bytes]. lia.
Qed.

Lemma bytes_of_u32_of_bytes l : bytes l -> length l = 4%nat -> bytes_of_u32 (u32_of_bytes l) = l.
Proof.
  intros Hb Hl. destruct l as [|a [|b [|c [|d [|]]]]]; try done. cbn [u32_of_bytes].
  destruct (byte_digits a b c d Hb) as (E1 & E2 & E3 & E4).
  unfold bytes_of_u32. change 0xff with (Z.ones 8). rewrite !Z.land_ones, !Z.shiftr_div_pow2 by lia.
  change (2 ^ 8) with 256. change (2 ^ 16) with 65536. change (2 ^ 24) with 16777216.
  by rewrite E1, E2, E3, E4.
Qed.

Lemma octet_byte l v : octet l = Some v -> is_byte v.
Proof.
  unfold octet. destruct (forallb is_digit l) eqn:Hd; [|done]. cbn [andb].
  pose proof (dec_from_le 0 l ltac:(lia) Hd). destruct (Z.leb_spec (dec_from 0 l) 255); [|done].
  intros [= <-]. lia.
Qed.

Lemma octets_bytes ls l : mapM octet ls = Some l -> bytes l.
Proof.
  intros H. apply mapM_Some in H. induction H as [|x v ls l Hv H IH]; [done|].
  apply Forall_cons_2; [by eapply octet_byte|done].
Qed.

Lemma inet_addr_value text :
  ngx_inet_addr text = match dotted text with Some l => u32_of_bytes l | None => INADDR_NONE end.
Proof.
  unfold ngx_inet_addr, dotted. rewrite inet_addr_loop_spec by lia.
  destruct (split_on_cons 46 text) as (p & ps & ->). cbn [mapM].
  change (octet_from 0 p) with (octet p). destruct (octet p) as [v|] eqn:Hv; [|done].
  cbn [option_bind mbind]. destruct (mapM octet ps) as [vs|] eqn:Hvs; [|done].
  cbn [option_bind mbind mret option_ret]. rewrite zlen_cons, Z.add_0_l.
  destruct (Z.eqb_spec (zlen vs) 3) as [E|E], (Z.eqb_spec (1 + zlen vs) 4); try lia.
  pose proof (octet_byte _ _ Hv) as Hb. pose proof (octets_bytes _ _ Hvs) as Hbs.
  destruct vs as [|b [|c [|d [|]]]]; try (unfold zlen in E; cbn [length] in E; lia).
  rewrite <- htonl_spec by (by apply Forall_cons_2). f_equal.
  apply Forall_cons_1 in Hbs as [H1 Hbs]. apply Forall_cons_1 in Hbs as [H2 Hbs].
  apply Forall_cons_1 in Hbs as [H3 _]. unfold shift_in. cbn [fold_left].
  rewrite !Z.shiftl_mul_pow2 by lia. change (2 ^ 8) with 256.
  rewrite (u32_id (0 * 256 + v)), (u32_id ((0 * 256 + v) * 256 + b)) by lia.
  rewrite (u32_id (((0 * 256 + v) * 256 + b) * 256 + c)), u32_id by lia. lia.
Qed.

Lemma split_on_app x l r :
  forallb (fun c => negb (c =? x)) l = true -> split_on x (l ++ x :: r) = l :: split_on x r.
Proof.
  induction l as [|c l IH]; intros Hl; cbn [app split_on].
  - by rewrite Z.eqb_refl.
  - cbn [forallb] in Hl. apply andb_true_iff in Hl as [Hc Hl]. rewrite IH by done.
    by destruct (c =? x).
Qed.

Lemma split_on_none x l : forallb (fun c => negb (c =? x)) l = true -> split_on x l = [l].
Proof.
  induction l as [|c l IH]; intros Hl; cbn [split_on]; [done|].
  cbn [forallb] in Hl. apply andb_true_iff in Hl as [Hc Hl]. rewrite IH by done.
  by destruct (c =? x).
Qed.

Lemma num_digits v : 0 <= v < 18446744073709551616 -> forallb is_digit (num 0 v) = true /\ dec_from 0 (num 0 v) = v.
Proof. intros Hv. by destruct (num_spec 0 v Hv) as (_ & Hd & _). Qed.

Lemma digits_no_dot l x : is_digit x = false -> forallb is_digit l = true -> forallb (fun c => negb (c =? x)) l = true.
Proof.
  intros Hx. rewrite !forallb_forall. intros H c Hc. specialize (H c Hc).
  destruct (Z.eqb_spec c x) as [->|]; [congruence|done].
Qed.

Lemma octet_num v : is_byte v -> octet (num 0 v) = Some v.
Proof.
  intros Hv. destruct (num_digits v) as [Hd Hval]; [lia|]. unfold octet. rewrite Hd, Hval. cbn [andb].
  by destruct (Z.leb_spec v 255); [|lia].
Qed.

Lemma dotted_inet_text p : bytes p -> length p = 4%nat -> dotted (inet_text p) = Some p.
Proof.
  intros Hb Hl. destruct p as [|a [|b [|c [|d [|]]]]]; try done.
  apply bytes_4 in Hb as (Ha & Hb & Hc & Hd). unfold dotted, inet_text. cbn [str map].
  change (str ".") with [46]. cbn [app].
  assert (forall v, is_byte v -> forallb (fun c => negb (c =? 46)) (num 0 v) = true) as Hnd.
  { intros v Hv. apply digits_no_dot; [done|]. apply num_digits. lia. }
  rewrite !split_on_app, split_on_none by auto. cbn [mapM]. rewrite !octet_num by done. done.
Qed.

Lemma u32_of_bytes_inj p q :
  bytes p -> bytes q -> length p = 4%nat -> length q = 4%nat -> u32_of_bytes p = u32_of_bytes q -> p = q.
Proof.
  intros Hp Hq Hlp Hlq E. rewrite <- (bytes_of_u32_of_bytes p Hp Hlp), E.
  by apply bytes_of_u32_of_bytes.
Qed.

(** The text in front of the first [x], and what is behind it. *)
Lemma split_on_inv x l f fs :
  split_on x l = f :: fs ->
  x ∉ f /\ (fs = [] /\ l = f \/ exists l', l = f ++ x :: l' /\ split_on x l' = fs).
Proof.
  revert f. induction l as [|c l IH]; intros f; cbn [split_on].
  - intros [= <- <-]. split; [apply not_elem_of_nil|by left].
  - destruct (split_on_cons x l) as (p & ps & E). rewrite E in *.
    destruct (Z.eqb_spec c x) as [->|Hne]; intros [= <- <-].
    + split; [apply not_elem_of_nil|]. right. by exists l.
    + destruct (IH p eq_refl) as [Hx [[-> ->]|(l' & -> & El)]].
      * split; [by apply not_elem_of_cons|by left].
      * split; [by apply not_elem_of_cons|]. right. by exists l'.
Qed.

Lemma split_on_chars x l :
  forallb (forallb is_digit) (split_on x l) = true -> Forall (fun c => is_digit c = true \/ c = x) l.
Proof.
  induction l as [|c l IH]; cbn [split_on]; [by intros _; apply Forall_nil_2|].
  destruct (Z.eqb_spec c x) as [->|].
  - cbn [forallb andb]. intros H. apply Forall_cons_2; [by right|by apply IH].
  - destruct (split_on_cons x l) as (p & ps & E). rewrite E in *. cbn [forallb].
    rewrite !andb_true_iff. intros [[Hc Hp] Hps]. apply Forall_cons_2; [by left|].
    apply IH. cbn [forallb]. by rewrite Hp, Hps.
Qed.

Lemma dotted_chars text l : dotted text = Some l -> Forall (fun c => is_digit c = true \/ c = "."%chr) text.
Proof.
  unfold dotted. destruct (mapM octet _) as [l'|] eqn:Hm; [|done]. intros _. apply split_on_chars.
  apply mapM_Some in Hm. induction Hm as [|p v ps vs Hp _ IH]; [done|]. cbn [forallb]. rewrite IH.
  unfold octet in Hp. by destruct (forallb is_digit p).
Qed.

Lemma not_dotted c l : c ∈ l -> is_digit c = false -> c <> "."%chr -> dotted l = None.
Proof.
  intros Hin Hd Hdot. destruct (dotted l) eqn:E; [|done]. apply dotted_chars in E.
  rewrite Forall_forall in E. destruct (E c Hin); congruence.
Qed.

Definition all_ones : list Z := [255; 255; 255; 255].

Lemma inet_addr_ok addr a :
  dotted addr = Some a -> a <> all_ones ->
  bytes a /\ length a = 4%nat /\ ngx_inet_addr addr = u32_of_bytes a /\ (u32_of_bytes a =? INADDR_NONE) = false.
Proof.
  intros Hd Hne. rewrite inet_addr_value, Hd. unfold dotted in Hd.
  destruct (mapM octet _) as [l|] eqn:Hm; [|done]. cbn in Hd.
  destruct (Z.eqb_spec (zlen l) 4) as [E|]; [|done]. injection Hd as <-.
  assert (bytes l) as Hb by (by eapply octets_bytes). assert (length l = 4%nat) as Hl by (unfold zlen in E; lia).
  split; [done|]. split; [done|]. split; [done|]. apply Z.eqb_neq. intros H. apply Hne.
  apply u32_of_bytes_inj; [done| |done|done|exact H]. repeat (apply Forall_cons_2; [lia|]). done.
Qed.

(** [ngx_inet_addr] accepts exactly four texts of digits, which may be empty, with
    dots between them and none of them above 255, and returns their numbers as they lie in
    memory; of any other text it returns [INADDR_NONE], which is also the value of
    255.255.255.255. What [ngx_inet_ntop] prints is at most 15 bytes long and is read back. *)
Theorem inet_addr_exact text p len :
  bytes p -> length p = 4%nat -> 15 <= len ->
  ngx_inet_addr text = match dotted text with Some l => u32_of_bytes l | None => INADDR_NONE end /\
  exists printed, ngx_inet_ntop true p len = Ok printed /\ zlen printed <= 15 /\
    dotted printed = Some p /\ bytes_of_u32 (ngx_inet_addr printed) = p.
Proof.
  intros Hp Hl Hlen. split; [apply inet_addr_value|]. exists (inet_text p).
  split; [|split; [by apply inet_text_length|split; [by apply dotted_inet_text|]]].
  - destruct p as [|a [|b [|c [|d [|]]]]]; try done. unfold ngx_inet_ntop, print_in.
    change (get [a; b; c; d] 0) with (Ok a). change (get [a; b; c; d] 1) with (Ok b).
    change (get [a; b; c; d] 2) with (Ok c). change (get [a; b; c; d] 3) with (Ok d). rewrite !Ok_bind.
    by apply print_inet.
  - by rewrite inet_addr_value, dotted_inet_text, bytes_of_u32_of_bytes.
Qed.

Lemma inet_addr_exact_witness :
  ngx_inet_addr (str "10..1.2") = u32_of_bytes [10; 0; 1; 2] /\
  exists printed, ngx_inet_ntop true [192; 0; 2; 33] 15 = Ok printed /\
    bytes_of_u32 (ngx_inet_addr printed) = [192; 0; 2; 33].
Proof.
  destruct (inet_addr_exact (str "10..1.2") [192; 0; 2; 33] 15) as (H1 & printed & H2 & _ & _ & H3).
  - repeat (apply Forall_cons_2; [lia|]). by apply Forall_nil_2.
  - reflexivity.
  - lia.
  - split; [exact H1|]. exists printed. split; [exact H2|exact H3].
Defined.
