(* ===== verification/Inet6Spec.v ===== *)
(** * IPv6 addresses

    [ngx_inet6_addr] stays in the 16 bytes of its caller on any text, accepts every
    address of eight words or with a double colon, with an IPv4 address as its end or
    without, and reads back what [ngx_inet6_ntop] prints. At the end it is compared with a
    reading of the text by its fields: it accepts exactly the texts that this one accepts. *)

From S2P Require Import Prelude Numeric NumericSpec Sprintf SprintfSpec Inet InetSpec.

(** ** Any text *)

(** Between two characters. [n] words are missing behind [addr]. *)
Record i6_inv (st : inet6) : Prop := {
  inv_len : length st.(i6_buf) = 16%nat;
  inv_bytes : bytes st.(i6_buf);
  inv_n : 1 <= st.(i6_n) <= 8;
  inv_addr : st.(i6_addr) = 2 * (8 - st.(i6_n));
  inv_zero : match st.(i6_zero) with Some z => 0 <= z <= st.(i6_addr) | None => True end
}.

Lemma put_byte b i v b' : put b i v = Ok b' -> bytes b -> is_byte v -> bytes b'.
Proof.
  unfold put, blit. destruct (_ && _); [|done]. intros [= <-] Hb Hv.
  apply Forall_app_2; [by apply Forall_take|]. apply Forall_cons_2; [done|by apply Forall_drop].
Qed.

Lemma put_in b i v : 0 <= i < zlen b -> exists b', put b i v = Ok b' /\ zlen b' = zlen b.
Proof. intros H. by apply put_ok. Qed.

Lemma push_word_ok st hi lo :
  i6_inv st -> is_byte hi -> is_byte lo ->
  exists buf, push_word st hi lo = Ok (st <| i6_buf := buf |> <| i6_addr := st.(i6_addr) + 2 |>) /\
    length buf = 16%nat /\ bytes buf.
Proof.
  intros [Hl Hb Hn Ha _] Hhi Hlo. unfold push_word.
  assert (zlen (i6_buf st) = 16) as Hz by (unfold zlen; lia).
  destruct (put_in (i6_buf st) (i6_addr st) hi) as (b1 & E1 & Hz1); [lia|]. rewrite E1, Ok_bind.
  destruct (put_in b1 (i6_addr st + 1) lo) as (b2 & E2 & Hz2); [lia|]. rewrite E2, Ok_bind.
  exists b2. split; [done|]. split; [unfold zlen in *; lia|].
  eapply put_byte; [exact E2| |done]. by eapply put_byte.
Qed.

Lemma byte_shiftr w i : is_byte (u8 (Z.shiftr w i)).
Proof. apply Z.mod_pos_bound. lia. Qed.

Lemma byte_land w : is_byte (Z.land w 0xff).
Proof. change 0xff with (Z.ones 8). rewrite Z.land_ones by lia. by apply Z.mod_pos_bound. Qed.

(** Where a step leads to. *)
Definition i6_safe (r : res i6_step) : Prop :=
  exists s, r = Ok s /\
  match s with
  | I6_continue st | I6_break st => i6_inv st
  | I6_error st => length st.(i6_buf) = 16%nat /\ bytes st.(i6_buf)
  end.

Lemma i6_colon_safe p st : i6_inv st -> i6_safe (i6_colon p st).
Proof.
  intros Hi. unfold i6_colon. destruct (negb (i6_nibbles st =? 0)).
  - cbv zeta. set (st1 := st <| i6_digit := Some p |>).
    destruct (push_word_ok st1 (u8 (Z.shiftr (i6_word st1) 8)) (Z.land (i6_word st1) 0xff))
      as (buf & -> & Hl & Hb); [by destruct Hi; split|apply byte_shiftr|apply byte_land|].
    rewrite Ok_bind. destruct Hi as [_ _ Hn Ha Hz].
    eexists. split; [done|]. cbn. destruct (Z.eqb_spec (i6_n st - 1) 0); cbn; [done|].
    split; cbn; try done; try lia. destruct (i6_zero st); [lia|done].
  - eexists. split; [done|]. destruct Hi as [Hl Hb Hn Ha Hz].
    destruct (i6_zero st) eqn:E; [done|]. split; cbn; try done; lia.
Qed.

Lemma i6_dot_safe st : i6_inv st -> i6_safe (i6_dot st).
Proof.
  intros Hi. unfold i6_dot. destruct (i6_digit st) as [digit|]; [|eexists; split; [done|]; by destruct Hi].
  destruct (Z.ltb_spec (i6_n st) 2); [eexists; split; [done|]; by destruct Hi|].
  destruct (_ =? _); [eexists; split; [done|]; by destruct Hi|]. cbv zeta.
  destruct (push_word_ok st (u8 (Z.land (Z.shiftr (ntohl (ngx_inet_addr digit)) 24) 0xff))
    (u8 (Z.land (Z.shiftr (ntohl (ngx_inet_addr digit)) 16) 0xff)))
    as (buf & -> & Hl & Hb); [done|apply Z.mod_pos_bound; lia|apply Z.mod_pos_bound; lia|].
  rewrite Ok_bind. eexists. split; [done|]. destruct Hi as [_ _ Hn Ha Hz].
  split; cbn; try done; try lia. destruct (i6_zero st); [lia|done].
Qed.

Lemma i6_char_safe c p st : i6_inv st -> i6_safe (i6_char c p st).
Proof.
  intros Hi. unfold i6_char. destruct (c =? 58); [by apply i6_colon_safe|].
  destruct (_ && _); [by apply i6_dot_safe|]. eexists. split; [done|].
  cbv zeta. destruct Hi as [Hl Hb Hn Ha Hz].
  destruct (4 <? _); [done|]. destruct (is_digit c); [by split|]. destruct (between _ _ _); [by split|done].
Qed.

Lemma i6_loop_safe p st :
  i6_inv st -> exists e st', i6_loop p st = Ok (e, st') /\
    length st'.(i6_buf) = 16%nat /\ bytes st'.(i6_buf) /\ (e = false -> i6_inv st').
Proof.
  revert st. induction p as [|c p IH]; intros st Hi; cbn [i6_loop].
  - do 2 eexists. split; [done|]. split; [apply Hi|]. split; [apply Hi|done].
  - destruct (i6_char_safe c p st Hi) as (s & -> & Hs). rewrite Ok_bind. destruct s as [st'|st'|st'].
    + by apply IH.
    + do 2 eexists. split; [done|]. split; [apply Hs|]. split; [apply Hs|done].
    + do 2 eexists. split; [done|]. destruct Hs. by split.
Qed.

(** The loop that moves the words behind the double colon to the end: [m] bytes up. *)
Lemma move_up_spec pre mid1 junk mid2 :
  (0 < length junk)%nat ->
  exists junk', length junk' = length junk /\
    move_up (length mid1) (pre ++ mid1 ++ junk ++ mid2) (zlen pre + zlen mid1 - 1)
      (zlen pre + zlen mid1 - 1 + zlen junk)
    = Ok (pre ++ junk' ++ mid1 ++ mid2).
Proof.
  revert junk mid2. induction mid1 as [|c mid1 IH] using rev_ind; intros junk mid2 Hm.
  - exists junk. split; [done|]. done.
  - rewrite length_app. cbn [length]. rewrite Nat.add_1_r. cbn [move_up].
    rewrite zlen_app. change (zlen [c]) with 1.
    assert (get (pre ++ (mid1 ++ [c]) ++ junk ++ mid2) (zlen pre + (zlen mid1 + 1) - 1) = Ok c) as ->.
    { rewrite <- (app_assoc mid1), (app_assoc pre).
      replace (zlen pre + (zlen mid1 + 1) - 1) with (zlen (pre ++ mid1) + 0) by (rewrite zlen_app; lia).
      by rewrite get_app_r by lia. }
    rewrite Ok_bind. destruct (exists_last (l := junk)) as (junk1 & x & E); [intros ->; cbn in Hm; lia|]. subst junk.
    rewrite zlen_app. change (zlen [x]) with 1. rewrite length_app in Hm. cbn in Hm.
    assert (put (pre ++ (mid1 ++ [c]) ++ (junk1 ++ [x]) ++ mid2) (zlen pre + (zlen mid1 + 1) - 1 + (zlen junk1 + 1)) c
            = Ok (pre ++ mid1 ++ (c :: junk1) ++ c :: mid2)) as ->.
    { unfold put.
      replace (pre ++ (mid1 ++ [c]) ++ (junk1 ++ [x]) ++ mid2)
        with ((pre ++ mid1 ++ [c] ++ junk1) ++ [x] ++ mid2) by (by rewrite <- !app_assoc).
      rewrite (blit_app (pre ++ mid1 ++ [c] ++ junk1) [x] mid2 [c]).
      - f_equal. by rewrite <- !app_assoc.
      - rewrite !zlen_app. change (zlen [c]) with 1. lia.
      - done. }
    rewrite Ok_bind.
    destruct (IH (c :: junk1) (c :: mid2)) as (junk' & Hl & Hmove); [cbn; lia|].
    exists junk'. split; [rewrite Hl, length_app; cbn; lia|].
    rewrite zlen_cons in Hmove.
    replace (zlen pre + (zlen mid1 + 1) - 1 - 1) with (zlen pre + zlen mid1 - 1) by lia.
    replace (zlen pre + (zlen mid1 + 1) - 1 + (zlen junk1 + 1) - 1)
      with (zlen pre + zlen mid1 - 1 + (1 + zlen junk1)) by lia.
    rewrite Hmove. f_equal. by rewrite <- !app_assoc.
Qed.

(** The two bytes that [word] is written as. *)
Definition low_bytes (w : Z) : list Z := [u8 (Z.shiftr w 8); Z.land w 0xff].

Lemma push_word_app out x y post zero digit nibbles word n hi lo :
  push_word (Inet6 (out ++ x :: y :: post) (zlen out) zero digit nibbles word n) hi lo
  = Ok (Inet6 (out ++ hi :: lo :: post) (zlen out + 2) zero digit nibbles word n).
Proof.
  unfold push_word. cbn [i6_buf i6_addr]. unfold put.
  rewrite (blit_app out [x] (y :: post) [hi]), Ok_bind by done. cbn [app].
  replace (out ++ hi :: y :: post) with ((out ++ [hi]) ++ [y] ++ post) by (by rewrite <- app_assoc).
  rewrite (blit_app (out ++ [hi]) [y] post [lo]), Ok_bind
    by (done || by rewrite zlen_app, zlen_cons, zlen_nil).
  by rewrite <- app_assoc.
Qed.

(** The end of an address with a double colon behind the bytes [pre]. *)
Lemma i6_finish_zero pre mid post digit nibbles word n :
  length (pre ++ mid ++ post) = 16%nat -> zlen (pre ++ mid) = 2 * (8 - n) -> 2 <= n ->
  i6_finish (Inet6 (pre ++ mid ++ post) (zlen (pre ++ mid)) (Some (zlen pre)) digit nibbles word n)
  = Ok (NGX_OK, pre ++ replicate (Z.to_nat (2 * (n - 1))) 0 ++ mid ++ low_bytes word).
Proof.
  intros Hl Ha Hn. unfold i6_finish. cbn [i6_nibbles i6_zero i6_buf i6_word]. rewrite andb_false_r.
  destruct post as [|x [|y post]];
    try (unfold zlen in Ha; rewrite !length_app in *; cbn [length] in *; lia).
  rewrite (app_assoc pre mid), push_word_app, Ok_bind. cbn [i6_n i6_zero i6_addr i6_buf].
  destruct (Z.eqb_spec (n - 1) 0); [lia|]. cbn [negb].
  fold (low_bytes word). set (mid' := mid ++ low_bytes word).
  assert (zlen mid' = zlen mid + 2) as Hm by (unfold mid'; by rewrite zlen_app).
  replace ((pre ++ mid) ++ u8 (Z.shiftr word 8) :: Z.land word 255 :: post) with (pre ++ mid' ++ post ++ [])
    by (unfold mid', low_bytes; by rewrite app_nil_r, <- !app_assoc).
  assert (zlen post = (n - 1) * 2) as Hp.
  { unfold zlen in *. rewrite !length_app in *. cbn [length] in *. lia. }
  destruct (move_up_spec pre mid' post []) as (junk & Hj & Hmove); [unfold zlen in Hp; lia|].
  replace (Z.to_nat (zlen (pre ++ mid) + 2 - 1 + 1 - zlen pre)) with (length mid')
    by (rewrite zlen_app; unfold zlen in *; lia).
  replace (zlen (pre ++ mid) + 2 - 1) with (zlen pre + zlen mid' - 1) by (rewrite zlen_app; lia).
  rewrite <- Hp, Hmove, Ok_bind, app_nil_r.
  rewrite (blit_app pre junk mid'), Ok_bind.
  - by replace (zlen post) with (2 * (n - 1)) by lia.
  - done.
  - rewrite zlen_replicate. unfold zlen in *. lia.
Qed.

Lemma i6_finish_safe st :
  i6_inv st -> exists rc buf, i6_finish st = Ok (rc, buf) /\ length buf = 16%nat /\ bytes buf /\
    (rc = NGX_OK \/ rc = NGX_ERROR).
Proof.
  intros Hi. destruct (i6_zero st) as [z|] eqn:Ez; [destruct (decide (2 <= i6_n st)) as [Hn2|]|].
  - destruct Hi as [Hl Hb Hn Ha Hz]. rewrite Ez in Hz. destruct st as [buf addr zero digit nibbles word n].
    cbn in *. subst zero.
    set (pre := take (Z.to_nat z) buf). set (mid := take (Z.to_nat (addr - z)) (drop (Z.to_nat z) buf)).
    set (post := drop (Z.to_nat addr) buf).
    assert (buf = pre ++ mid ++ post) as E.
    { unfold pre, mid, post. replace (Z.to_nat addr) with (Z.to_nat z + Z.to_nat (addr - z))%nat by lia.
      by rewrite <- drop_drop, !take_drop. }
    assert (zlen pre = z) as Hpre by (unfold pre, zlen; rewrite length_take; lia).
    assert (zlen (pre ++ mid) = addr) as Hmid.
    { rewrite zlen_app, Hpre. unfold mid, zlen. rewrite length_take, length_drop. lia. }
    rewrite E in Hl, Hb. rewrite E, <- Hmid, <- Hpre.
    apply Forall_app in Hb as [Hb1 Hb2]. apply Forall_app in Hb2 as [Hb2 _].
    do 2 eexists. split; [apply i6_finish_zero; (done || lia)|]. split; [|split; [|by left]].
    + rewrite !length_app, length_replicate. unfold zlen in *. rewrite length_app in Hmid. cbn. lia.
    + repeat apply Forall_app_2; try done.
      * apply Forall_replicate. lia.
      * repeat apply Forall_cons_2; [apply byte_shiftr|apply byte_land|done].
  - unfold i6_finish. rewrite Ez, andb_false_r.
    destruct (push_word_ok st (u8 (Z.shiftr (i6_word st) 8)) (Z.land (i6_word st) 0xff))
      as (buf & -> & Hl & Hb); [done|apply byte_shiftr|apply byte_land|]. rewrite Ok_bind. cbn.
    destruct Hi as [_ _ Hn _ _]. destruct (Z.eqb_spec (i6_n st - 1) 0); [|lia]. cbn. rewrite Ez.
    do 2 eexists. split; [done|]. auto.
  - unfold i6_finish. rewrite Ez, andb_true_r.
    destruct (i6_nibbles st =? 0); [destruct Hi; do 2 eexists; split; [done|]; auto|].
    destruct (push_word_ok st (u8 (Z.shiftr (i6_word st) 8)) (Z.land (i6_word st) 0xff))
      as (buf & -> & Hl & Hb); [done|apply byte_shiftr|apply byte_land|]. rewrite Ok_bind. cbn. rewrite Ez.
    destruct (negb _); do 2 eexists; (split; [done|]); auto.
Qed.

Lemma inet6_addr_safe p addr :
  bytes addr -> length addr = 16%nat ->
  exists rc buf, ngx_inet6_addr p addr = Ok (rc, buf) /\ length buf = 16%nat /\ bytes buf /\
    (rc = NGX_OK \/ rc = NGX_ERROR).
Proof.
  intros Hb Hl. unfold ngx_inet6_addr. destruct p as [|c rest]; [do 2 eexists; split; [done|]; auto|].
  destruct (i6_loop_safe (if c =? 58 then rest else c :: rest) (Inet6 addr 0 None None 0 0 8))
    as (e & st & -> & Hl' & Hb' & Hi); [split; cbn; (done || lia)|].
  rewrite Ok_bind. destruct e; [do 2 eexists; split; [done|]; auto|]. by apply i6_finish_safe, Hi.
Qed.

(** ** Well-formed addresses *)

Lemma i6_hex ds rest buf addr zero digit nibbles word n w :
  bytes ds -> hex_from word ds = Some w -> 0 <= nibbles -> nibbles + zlen ds <= 4 ->
  i6_loop (ds ++ rest) (Inet6 buf addr zero digit nibbles word n)
  = i6_loop rest (Inet6 buf addr zero digit (nibbles + zlen ds) w n).
Proof.
  intros Hb. revert nibbles word. induction Hb as [|c ds Hc Hb IH]; intros nibbles word Hw Hn0 Hn.
  - injection Hw as <-. by rewrite zlen_nil, Z.add_0_r.
  - cbn [hex_from] in Hw. destruct (hex_digit c) as [d|] eqn:Hd; [|done]. cbn in Hw.
    rewrite zlen_cons in *. pose proof (zlen_nonneg ds). cbn [app i6_loop].
    assert (i6_char c (ds ++ rest) (Inet6 buf addr zero digit nibbles word n)
      = Ok (I6_continue (Inet6 buf addr zero digit (nibbles + 1) (word * 16 + d) n))) as ->.
    { unfold i6_char.
      assert (c <> 58 /\ c <> 46) as [H58 H46]
        by (unfold hex_digit, between in Hd; repeat case_match; simplify_eq; lia).
      destruct (Z.eqb_spec c 58), (Z.eqb_spec c 46); try done. cbn [andb]. cbn.
      destruct (Z.ltb_spec 4 (nibbles + 1)); [lia|]. destruct (is_digit c) eqn:Hdig.
      - unfold hex_digit in Hd. unfold is_digit in Hdig. rewrite Hdig in Hd. by injection Hd as <-.
      - rewrite (hex_digit_fold c Hc Hdig) in Hd. unfold between. destruct (_ && _); [|done].
        injection Hd as <-. cbn. by rewrite <- Z.add_assoc. }
    rewrite Ok_bind, IH by (done || lia). f_equal. f_equal. lia.
Qed.

Definition is_word (w : Z) : Prop := 0 <= w < 65536.

Lemma num_word w :
  is_word w -> bytes (num 1 w) /\ hex_from 0 (num 1 w) = Some w /\ 1 <= zlen (num 1 w) <= 4.
Proof.
  intros Hw. unfold is_word in Hw. destruct (num_spec 1 w) as (_ & [Hb Hh] & H1 & Hk); [lia|].
  split; [done|]. split; [done|]. split; [done|]. apply Hk; [lia|]. change (base 1 ^ 4) with 65536. lia.
Qed.

(** Words in front of a colon each. *)
Definition colon_words (ws : list Z) : list Z := concat (map (fun w => num 1 w ++ [":"%chr]) ws).

Definition words_bytes (ws : list Z) : list Z := concat (map low_bytes ws).

Lemma zlen_words_bytes ws : zlen (words_bytes ws) = 2 * zlen ws.
Proof.
  induction ws as [|w ws IH]; [done|]. change (words_bytes (w :: ws)) with (low_bytes w ++ words_bytes ws).
  rewrite zlen_app, IH, zlen_cons. change (zlen (low_bytes w)) with 2. lia.
Qed.

Lemma i6_colon_word p out x y post zero digit nibbles word n :
  nibbles <> 0 -> 2 <= n ->
  i6_colon p (Inet6 (out ++ x :: y :: post) (zlen out) zero digit nibbles word n)
  = Ok (I6_continue (Inet6 (out ++ low_bytes word ++ post) (zlen out + 2) zero (Some p) 0 0 (n - 1))).
Proof.
  intros Hnib Hn. unfold i6_colon. cbn -[push_word u8 Z.shiftr Z.land Z.eqb Z.sub].
  destruct (Z.eqb_spec nibbles 0); [done|]. cbn -[push_word u8 Z.shiftr Z.land Z.eqb Z.sub].
  change ((Inet6 (out ++ x :: y :: post) (zlen out) zero digit nibbles word n) <| i6_digit := Some p |>)
    with (Inet6 (out ++ x :: y :: post) (zlen out) zero (Some p) nibbles word n).
  rewrite push_word_app, Ok_bind. cbn -[push_word u8 Z.shiftr Z.land Z.eqb Z.sub].
  by destruct (Z.eqb_spec (n - 1) 0); [lia|].
Qed.

Lemma i6_loop_colon p buf addr zero digit nibbles word n :
  i6_loop (":"%chr :: p) (Inet6 buf addr zero digit nibbles word n)
  = (s ← i6_colon p (Inet6 buf addr zero digit nibbles word n);
     match s with
     | I6_continue st => i6_loop p st
     | I6_break st => Ok (false, st)
     | I6_error st => Ok (true, st)
     end).
Proof. reflexivity. Qed.

Lemma i6_words ws rest out post zero digit n :
  Forall is_word ws -> zlen ws < n -> 2 * zlen ws <= zlen post ->
  i6_loop (colon_words ws ++ rest) (Inet6 (out ++ post) (zlen out) zero digit 0 0 n)
  = i6_loop rest (Inet6 (out ++ words_bytes ws ++ drop (Z.to_nat (2 * zlen ws)) post)
      (zlen (out ++ words_bytes ws)) zero (if ws is [] then digit else Some rest) 0 0 (n - zlen ws)).
Proof.
  intros Hws. revert out post digit n. induction Hws as [|w ws Hw Hws IH]; intros out post digit n Hn Hp.
  - change (colon_words []) with (@nil Z). change (words_bytes []) with (@nil Z).
    change (zlen (@nil Z)) with 0. cbn [app]. by rewrite app_nil_r, Z.sub_0_r.
  - rewrite zlen_cons in *. pose proof (zlen_nonneg ws).
    destruct post as [|x [|y post]]; try (unfold zlen in Hp; cbn [length] in Hp; lia).
    destruct (num_word w Hw) as (Hb & Hh & Hl). rewrite !zlen_cons in Hp.
    change (colon_words (w :: ws)) with ((num 1 w ++ [58]) ++ colon_words ws).
    change (words_bytes (w :: ws)) with (low_bytes w ++ words_bytes ws).
    rewrite <- !app_assoc. rewrite (i6_hex _ _ _ _ _ _ _ _ _ w) by (done || lia).
    cbn [app]. rewrite i6_loop_colon, i6_colon_word, Ok_bind by lia.
    replace (zlen out + 2) with (zlen (out ++ low_bytes w)) by (rewrite zlen_app; done).
    rewrite (app_assoc out), IH by lia. rewrite <- !app_assoc.
    replace (Z.to_nat (2 * (1 + zlen ws))) with (S (S (Z.to_nat (2 * zlen ws)))) by lia.
    cbn [drop]. replace (n - 1 - zlen ws) with (n - (1 + zlen ws)) by lia.
    by destruct ws.
Qed.

(** The end of an address: a word or an IPv4 address. *)
Inductive i6_tail := Tail_word (w : Z) | Tail_v4 (q : list Z).

Definition tail_text (t : i6_tail) : list Z :=
  match t with Tail_word w => num 1 w | Tail_v4 q => inet_text q end.

Definition tail_bytes (t : i6_tail) : list Z :=
  match t with Tail_word w => low_bytes w | Tail_v4 q => q end.

Definition tail_ok (t : i6_tail) : Prop :=
  match t with
  | Tail_word w => is_word w
  | Tail_v4 q => bytes q /\ length q = 4%nat /\ q <> [255; 255; 255; 255]
  end.

(** The bytes of the tail that the loop writes, and the word it leaves. *)
Definition tail_first (t : i6_tail) : list Z :=
  match t with Tail_word w => [] | Tail_v4 q => take 2 q end.

Lemma digits_hex l : forallb is_digit l = true -> bytes l /\ forall v, exists w, hex_from v l = Some w.
Proof.
  induction l as [|c l IH]; intros Hl; [split; [done|eauto]|].
  cbn [forallb] in Hl. apply andb_true_iff in Hl as [Hc Hl]. destruct (IH Hl) as [Hb Hw].
  apply is_digit_spec in Hc as Hc'. split; [apply Forall_cons_2; [lia|done]|].
  intros v. cbn [hex_from]. unfold hex_digit. unfold is_digit in Hc. rewrite Hc. cbn. apply Hw.
Qed.

Lemma byte_shift a k : 0 <= k -> Z.land (Z.shiftr a k) 0xff = a / 2 ^ k mod 256.
Proof. intros Hk. change 0xff with (Z.ones 8). by rewrite Z.land_ones, Z.shiftr_div_pow2 by lia. Qed.

Lemma low_bytes_digits a b c d :
  bytes [a; b; c; d] ->
  low_bytes (d + 256 * (c + 256 * (b + 256 * a))) = [c; d].
Proof.
  intros H. apply bytes_4 in H as (Ha & Hb & Hc & Hd).
  destruct (byte_digits d c b a) as (E1 & E2 & _ & _); [by repeat apply Forall_cons_2|].
  unfold low_bytes, u8. rewrite <- (Z.shiftr_0_r (d + _)) at 2.
  rewrite byte_shift, Z.shiftr_div_pow2 by lia. change (2 ^ 8) with 256. change (2 ^ 0) with 1.
  by rewrite Z.div_1_r, E1, E2.
Qed.

Lemma i6_dot_v4 text a b c d out x y post zero nibbles word n :
  dotted text = Some [a; b; c; d] -> [a; b; c; d] <> all_ones -> 2 <= n ->
  i6_dot (Inet6 (out ++ x :: y :: post) (zlen out) zero (Some text) nibbles word n)
  = Ok (I6_break (Inet6 (out ++ [a; b] ++ post) (zlen out + 2) zero (Some text) nibbles
      (d + 256 * (c + 256 * (b + 256 * a))) (n - 1))).
Proof.
  intros Hdot Hne Hn. destruct (inet_addr_ok _ _ Hdot Hne) as (Hb & _ & Haddr & Hnone).
  unfold i6_dot. cbn [i6_digit i6_n]. destruct (Z.ltb_spec n 2); [lia|].
  rewrite Haddr, Hnone. unfold ntohl.
  pose proof Hb as Hb'. apply bytes_4 in Hb' as (Ha & Hb1 & Hc & Hd).
  change (u32_of_bytes [a; b; c; d]) with (a + 256 * (b + 256 * (c + 256 * d))).
  rewrite (htonl_spec d c b a) by (by repeat apply Forall_cons_2). cbn [u32_of_bytes].
  destruct (byte_digits d c b a) as (_ & _ & E3 & E4); [by repeat apply Forall_cons_2|].
  cbv zeta. rewrite !byte_shift by lia. change (2 ^ 24) with 16777216. change (2 ^ 16) with 65536.
  rewrite E3, E4, !u8_id by done. rewrite push_word_app, Ok_bind. reflexivity.
Qed.

Lemma i6_tail_read t out post zero digit n :
  tail_ok t -> zlen (tail_bytes t) <= zlen post -> zlen (tail_bytes t) <= 2 * n ->
  (forall q, t = Tail_v4 q -> digit = Some (tail_text t)) ->
  exists nibbles word digit',
    i6_loop (tail_text t) (Inet6 (out ++ post) (zlen out) zero digit 0 0 n)
    = Ok (false, Inet6 (out ++ tail_first t ++ drop (length (tail_first t)) post)
        (zlen (out ++ tail_first t)) zero digit' nibbles word (n - zlen (tail_first t) / 2)) /\
    nibbles <> 0 /\ tail_first t ++ low_bytes word = tail_bytes t.
Proof.
  intros Ht Hp Hn Hdigit. destruct t as [w|q]; cbn [tail_text tail_bytes tail_first tail_ok] in *.
  - destruct (num_word w Ht) as (Hb & Hh & Hl). exists (zlen (num 1 w)), w, digit.
    rewrite <- (app_nil_r (num 1 w)) at 1. rewrite (i6_hex _ _ _ _ _ _ _ _ _ w) by (done || lia).
    cbn [app i6_loop length drop]. rewrite app_nil_r. change (zlen [] / 2) with 0. rewrite Z.sub_0_r.
    split; [done|]. split; [lia|done].
  - destruct Ht as (Hb & Hlen & Hne). rewrite (Hdigit q eq_refl).
    destruct q as [|a [|b [|c [|d [|]]]]]; try done.
    destruct post as [|x [|y post]]; try (unfold zlen in Hp; cbn [length] in Hp; lia).
    change (zlen [a; b; c; d]) with 4 in *.
    assert (is_byte a) as Ha by (by apply Forall_cons_1 in Hb as [? _]).
    destruct (num_digits a) as [Hda _]; [lia|]. destruct (digits_hex _ Hda) as [Hba Hwa].
    destruct (Hwa 0) as (w & Hw). pose proof (num_byte a Ha) as Hla.
    exists (zlen (num 0 a)), (d + 256 * (c + 256 * (b + 256 * a))), (Some (inet_text [a; b; c; d])).
    split; [|split; [lia|by rewrite low_bytes_digits]].
    unfold inet_text at 1. change (str ".") with [46].
    rewrite (i6_hex _ _ _ _ _ _ _ _ _ w) by (done || lia). cbn [app i6_loop].
    unfold i6_char. cbn [Z.eqb Pos.eqb]. cbn [i6_nibbles].
    destruct (Z.eqb_spec (0 + zlen (num 0 a)) 0); [lia|]. cbn [negb andb].
    rewrite (i6_dot_v4 _ a b c d), Ok_bind by (done || lia || by apply dotted_inet_text). rewrite zlen_app. reflexivity.
Qed.

Lemma tail_size t : tail_ok t -> zlen (tail_bytes t) = zlen (tail_first t) + 2 /\ 2 * (zlen (tail_first t) / 2) = zlen (tail_first t).
Proof.
  destruct t as [w|q]; cbn; [done|]. intros (_ & Hl & _).
  destruct q as [|a [|b [|c [|d [|]]]]]; try done.
Qed.

Lemma head_not_colon w l : is_word w -> exists c r, num 1 w ++ l = c :: r /\ (c =? ":"%chr) = false.
Proof.
  intros Hw. destruct (num_word w Hw) as (_ & Hh & Hl).
  destruct (num 1 w) as [|c r]; [unfold zlen in Hl; cbn [length] in Hl; lia|].
  exists c, (r ++ l). split; [done|]. cbn [hex_from] in Hh. apply Z.eqb_neq. intros ->. done.
Qed.

(** An address of eight words. *)
Lemma inet6_read_full ws t addr :
  Forall is_word ws -> tail_ok t -> 2 * zlen ws + zlen (tail_bytes t) = 16 -> length addr = 16%nat ->
  ngx_inet6_addr (colon_words ws ++ tail_text t) addr = Ok (NGX_OK, words_bytes ws ++ tail_bytes t).
Proof.
  intros Hws Ht Hsize Hl. pose proof (tail_size t Ht) as [Hts Hth].
  assert (zlen addr = 16) as Hz by (unfold zlen; lia).
  assert (zlen (tail_bytes t) <= 4) as Hmax.
  { destruct t as [w|q]; cbn; [done|]. destruct Ht as (_ & Hq & _). unfold zlen. cbn. lia. }
  pose proof (zlen_nonneg (tail_first t)).
  unfold ngx_inet6_addr.
  assert (exists c r, colon_words ws ++ tail_text t = c :: r /\ (c =? 58) = false) as (c & r & E & Hc).
  { destruct Hws as [|w ws Hw Hws]; [change (zlen (@nil Z)) with 0 in Hsize; lia|].
    change (colon_words (w :: ws)) with ((num 1 w ++ [58]) ++ colon_words ws).
    rewrite <- !app_assoc. by apply head_not_colon. }
  rewrite E, Hc, <- E.
  change (Inet6 addr 0 None None 0 0 8) with (Inet6 ([] ++ addr) (zlen (@nil Z)) None None 0 0 8).
  rewrite i6_words by (done || lia). cbn [app].
  assert (2 * zlen ws + zlen (drop (Z.to_nat (2 * zlen ws)) addr) = 16) as Hd
    by (unfold zlen in *; rewrite length_drop; lia).
  destruct (i6_tail_read t (words_bytes ws) (drop (Z.to_nat (2 * zlen ws)) addr) None
    (if ws is [] then None else Some (tail_text t)) (8 - zlen ws)) as (nib & word & dig & -> & Hnib & Hb);
    [done|lia|lia|by destruct ws; [change (zlen (@nil Z)) with 0 in Hsize; lia|]|].
  rewrite Ok_bind. unfold i6_finish. cbn [i6_nibbles i6_zero].
  destruct (Z.eqb_spec nib 0); [done|]. cbn [andb i6_word].
  set (out := words_bytes ws ++ tail_first t).
  set (post := drop (length (tail_first t)) (drop (Z.to_nat (2 * zlen ws)) addr)).
  replace (words_bytes ws ++ tail_first t ++ post) with (out ++ post) by (unfold out; by rewrite <- app_assoc).
  assert (zlen post = 2) as Hpost.
  { unfold post. unfold zlen in *. rewrite length_drop. lia. }
  destruct post as [|x [|y [|]]]; try (unfold zlen in Hpost; cbn [length] in Hpost; lia).
  rewrite push_word_app, Ok_bind. cbn [i6_n i6_zero i6_buf].
  destruct (Z.eqb_spec (8 - zlen ws - zlen (tail_first t) / 2 - 1) 0); [|lia]. cbn [negb].
  fold (low_bytes word). rewrite <- Hb. unfold out. by rewrite <- app_assoc.
Qed.

Lemma i6_colon_zero p buf addr digit word n :
  i6_colon p (Inet6 buf addr None digit 0 word n)
  = Ok (I6_continue (Inet6 buf addr (Some addr) (Some p) 0 word n)).
Proof. reflexivity. Qed.

(** An address with a double colon; its end may be missing. *)
Definition end_text (ws : list Z) (t : option i6_tail) : list Z :=
  match t with Some t => colon_words ws ++ tail_text t | None => [] end.

Definition end_bytes (ws : list Z) (t : option i6_tail) : list Z :=
  match t with Some t => words_bytes ws ++ tail_bytes t | None => [] end.

Definition zero_text (ws1 ws2 : list Z) (t : option i6_tail) : list Z :=
  (if ws1 is [] then str ":" else colon_words ws1) ++ str ":" ++ end_text ws2 t.

Lemma inet6_read_zero ws1 ws2 t addr :
  Forall is_word ws1 -> Forall is_word ws2 ->
  match t with Some t => tail_ok t | None => True end ->
  let size := 2 * zlen ws1 + zlen (end_bytes ws2 t) in
  size <= (if t is Some _ then 14 else 12) -> length addr = 16%nat ->
  ngx_inet6_addr (zero_text ws1 ws2 t) addr
  = Ok (NGX_OK, words_bytes ws1 ++ replicate (Z.to_nat (16 - size)) 0 ++ end_bytes ws2 t).
Proof.
  intros Hws1 Hws2 Ht. cbv zeta. intros Hsize Hl.
  assert (zlen addr = 16) as Hz by (unfold zlen; lia).
  unfold ngx_inet6_addr, zero_text.
  assert (forall X c r, (if ws1 is [] then str ":" else colon_words ws1) ++ str ":" ++ X = c :: r ->
    (if c =? 58 then r else c :: r) = colon_words ws1 ++ 58 :: X) as Hstart.
  { intros X c r E. destruct Hws1 as [|w ws Hw Hws]; [by injection E as <- <-|].
    rewrite <- E. change (colon_words (w :: ws)) with ((num 1 w ++ [58]) ++ colon_words ws) in *.
    rewrite <- !app_assoc in E. destruct (head_not_colon w ([58] ++ colon_words ws ++ str ":" ++ X) Hw) as (c' & r' & E' & Hc).
    rewrite E' in E. injection E as -> ->. by rewrite Hc. }
  destruct ((if ws1 is [] then str ":" else colon_words ws1) ++ str ":" ++ end_text ws2 t) as [|c r] eqn:E.
  { destruct ws1; [done|]. by destruct (colon_words (z :: ws1)). }
  rewrite (Hstart _ _ _ E). clear Hstart E c r.
  change (Inet6 addr 0 None None 0 0 8) with (Inet6 ([] ++ addr) (zlen (@nil Z)) None None 0 0 8).
  assert (0 <= zlen (end_bytes ws2 t)) by apply zlen_nonneg.
  assert (zlen ws1 <= 7) as H7 by (destruct t; lia).
  rewrite i6_words by (done || lia). cbn [app].
  rewrite i6_loop_colon, i6_colon_zero, Ok_bind.
  set (out := words_bytes ws1). set (post := drop _ addr).
  assert (zlen out = 2 * zlen ws1) as Hout by apply zlen_words_bytes.
  assert (zlen out + zlen post = 16) as Hsum by (unfold post, zlen in *; rewrite length_drop; lia).
  destruct t as [t|]; cbn [end_text end_bytes] in *.
  - pose proof (tail_size t Ht) as [Hts Hth]. rewrite zlen_app, zlen_words_bytes in *.
    pose proof (zlen_nonneg (tail_first t)). pose proof (zlen_nonneg ws1). pose proof (zlen_nonneg ws2).
    rewrite i6_words by (done || lia).
    set (post2 := drop (Z.to_nat (2 * zlen ws2)) post).
    assert (2 * zlen ws2 + zlen post2 = zlen post) as Hp2 by (unfold post2, zlen in *; rewrite length_drop; lia).
    rewrite (app_assoc out).
    destruct (i6_tail_read t (out ++ words_bytes ws2) post2 (Some (zlen out))
      (if ws2 is [] then Some (colon_words ws2 ++ tail_text t) else Some (tail_text t))
      (8 - zlen ws1 - zlen ws2)) as (nib & word & dig & -> & Hnib & Hb); [done|lia|lia|by destruct ws2|].
    rewrite Ok_bind. set (post3 := drop (length (tail_first t)) post2).
    assert (zlen (tail_first t) + zlen post3 = zlen post2) as Hp3
      by (unfold post3, zlen in *; rewrite length_drop; lia).
    replace ((out ++ words_bytes ws2) ++ tail_first t ++ post3) with (out ++ (words_bytes ws2 ++ tail_first t) ++ post3)
      by (by rewrite <- !app_assoc).
    rewrite <- (app_assoc out). rewrite i6_finish_zero.
    + rewrite <- app_assoc, Hb.
      by replace (2 * (8 - zlen ws1 - zlen ws2 - zlen (tail_first t) / 2 - 1))
        with (16 - (2 * zlen ws1 + (2 * zlen ws2 + zlen (tail_bytes t)))) by lia.
    + enough (zlen (out ++ (words_bytes ws2 ++ tail_first t) ++ post3) = 16) by (unfold zlen in *; lia).
      rewrite !zlen_app, zlen_words_bytes. lia.
    + rewrite !zlen_app, zlen_words_bytes. lia.
    + lia.
  - change (zlen (@nil Z)) with 0 in *. cbn [i6_loop]. rewrite Ok_bind.
    rewrite <- (app_nil_r out) at 2. change (out ++ post) with (out ++ [] ++ post).
    rewrite i6_finish_zero.
    + cbn [app]. change (low_bytes 0) with (replicate 2 0). rewrite app_nil_r, <- replicate_add.
      by replace (Z.to_nat (2 * (8 - zlen ws1 - 1)) + 2)%nat with (Z.to_nat (16 - (2 * zlen ws1 + 0))) by lia.
    + enough (zlen (out ++ [] ++ post) = 16) by (unfold zlen in *; lia). cbn [app]. rewrite zlen_app. lia.
    + rewrite app_nil_r. lia.
    + lia.
Qed.

(** ** Exactly which texts are addresses

    A reading of the text without a loop: the fields between its colons. *)

(** A word: one to four hexadecimal digits. *)
Definition hextet (f : list Z) : option Z :=
  if (1 <=? zlen f) && (zlen f <=? 4) then hex_from 0 f else None.

(** An IPv4 address, 255.255.255.255 excepted. *)
Definition ipv4 (text : list Z) : option (list Z) :=
  q ← dotted text; if decide (q = all_ones) then None else Some q.

(** What may stand in the last field: a word, or an IPv4 address whose first number has
    one to four digits. *)
Definition last_part (f : list Z) : option (list Z) :=
  match hextet f with
  | Some w => Some (low_bytes w)
  | None =>
      match split_on "."%chr f with
      | g :: _ => if (1 <=? zlen g) && (zlen g <=? 4) then ipv4 f else None
      | [] => None
      end
  end.

(** The bytes of the fields behind a double colon. The last one may be empty and is 0 then. *)
Fixpoint fields_bytes (fs : list (list Z)) : option (list Z) :=
  match fs with
  | [] => None
  | [f] => if f is [] then Some [0; 0] else last_part f
  | f :: fs => w ← hextet f; r ← fields_bytes fs; Some (low_bytes w ++ r)
  end.

(** The bytes of all fields: those in front of the double colon, which is an empty field
    here, and those behind it, if there is one. *)
Fixpoint ipv6_fields (fs : list (list Z)) : option (list Z * option (list Z)) :=
  match fs with
  | [] => None
  | [f] => if f is [] then None else b ← last_part f; Some (b, None)
  | [] :: fs => r ← fields_bytes fs; Some ([], Some r)
  | f :: fs => w ← hextet f; '(l, r) ← ipv6_fields fs; Some (low_bytes w ++ l, r)
  end.

(** Without a double colon 16 bytes are needed, with one there have to be fewer, and
    zeros take the place of those that are missing. *)
Definition assemble (o : option (list Z * option (list Z))) : option (list Z) :=
  match o with
  | None => None
  | Some (l, None) => if zlen l =? 16 then Some l else None
  | Some (l, Some r) =>
      if zlen l + zlen r <? 16 then Some (l ++ replicate (Z.to_nat (16 - zlen l - zlen r)) 0 ++ r)
      else None
  end.

(** The address of a text, which may have a colon in front of it. *)
Definition ipv6 (text : list Z) : option (list Z) :=
  assemble (ipv6_fields (split_on ":"%chr
    (match text with c :: rest => if c =? ":"%chr then rest else text | [] => [] end))).

Example ipv6_example :
  map (fun t => ipv6 (str t)) ["2001:db8::1"; "::ffff:192.0.2.33"; "1:2:3"; "1::2::3"; "1::2:"; "::12345"; "::"]%string
  = [Some ([32; 1; 13; 184] ++ replicate 11 0 ++ [1]); Some (replicate 10 0 ++ [255; 255; 192; 0; 2; 33]);
     None; None; Some ([0; 1] ++ replicate 10 0 ++ [0; 2; 0; 0]); None; Some (replicate 16 0)].
Proof. reflexivity. Qed.

(** *** One field *)

Lemma i6_char_hex c p buf addr zero digit k v n :
  is_byte c -> c <> ":"%chr -> c <> "."%chr ->
  exists st, i6_char c p (Inet6 buf addr zero digit k v n)
  = Ok (match (if 4 <? k + 1 then None else hex_digit c) with
        | Some d => I6_continue (Inet6 buf addr zero digit (k + 1) (v * 16 + d) n)
        | None => I6_error st
        end).
Proof.
  intros Hc H58 H46. unfold i6_char. destruct (Z.eqb_spec c 58), (Z.eqb_spec c 46); try done.
  cbn [andb]. cbv zeta. cbn.
  destruct (4 <? k + 1); [by eexists|]. destruct (is_digit c) eqn:Hdig.
  - unfold hex_digit. unfold is_digit in Hdig. rewrite Hdig. by exists (Inet6 buf addr zero digit k v n).
  - rewrite (hex_digit_fold c Hc Hdig). unfold between. destruct (_ && _); [|by eexists].
    exists (Inet6 buf addr zero digit k v n). cbn. by rewrite <- (Z.add_assoc (v * 16)).
Qed.

(** A field that makes the loop stop with an error. *)
Definition rejected (f rest : list Z) (st : inet6) : Prop :=
  exists st', i6_loop (f ++ rest) st = Ok (true, st').

Lemma hex_rejected g rest buf addr zero digit k v n :
  bytes g -> ":"%chr ∉ g -> "."%chr ∉ g -> 0 <= k <= 4 -> hex_from v g = None \/ 4 < k + zlen g ->
  rejected g rest (Inet6 buf addr zero digit k v n).
Proof.
  intros Hg. revert k v. induction Hg as [|c g Hc Hg IH]; intros k v H58 H46 Hk Hbad.
  { destruct Hbad as [H|H]; [done|]. change (zlen (@nil Z)) with 0 in H. lia. }
  apply not_elem_of_cons in H58 as [H58 H58g]. apply not_elem_of_cons in H46 as [H46 H46g].
  unfold rejected. cbn [app i6_loop].
  destruct (i6_char_hex c (g ++ rest) buf addr zero digit k v n) as [st E]; [done..|].
  rewrite E, Ok_bind. destruct (Z.ltb_spec 4 (k + 1)); [by eexists|].
  destruct (hex_digit c) as [d|] eqn:Hd; [|by eexists].
  apply IH; [done|done|lia|]. rewrite zlen_cons in Hbad. cbn [hex_from] in Hbad. rewrite Hd in Hbad.
  destruct Hbad as [Hbad|Hbad]; [by left|right; lia].
Qed.

Lemma hextet_some g w : hextet g = Some w -> hex_from 0 g = Some w /\ 1 <= zlen g <= 4.
Proof.
  unfold hextet. destruct (Z.leb_spec 1 (zlen g)), (Z.leb_spec (zlen g) 4); try done.
Qed.

Lemma hextet_none g : g <> [] -> hextet g = None -> hex_from 0 g = None \/ 4 < zlen g.
Proof.
  unfold hextet. destruct g as [|c g]; [done|]. rewrite zlen_cons. pose proof (zlen_nonneg g).
  destruct (Z.leb_spec 1 (1 + zlen g)), (Z.leb_spec (1 + zlen g) 4); (lia || (intros _ H'; (by left) || (right; lia))).
Qed.

(** A field up to its dot: what the code takes for an IPv4 address begins at [digit]. *)
Lemma dot_run g w h rest buf addr zero digit n :
  bytes g -> hextet g = Some w ->
  i6_loop ((g ++ "."%chr :: h) ++ rest) (Inet6 buf addr zero digit 0 0 n)
  = (s ← i6_dot (Inet6 buf addr zero digit (zlen g) w n);
     match s with
     | I6_continue st => i6_loop (h ++ rest) st
     | I6_break st => Ok (false, st)
     | I6_error st => Ok (true, st)
     end).
Proof.
  intros Hg Hw. apply hextet_some in Hw as [Hw Hl]. rewrite <- app_assoc.
  rewrite (i6_hex _ _ _ _ _ _ _ _ _ w) by (done || lia). cbn [app i6_loop].
  unfold i6_char. change (46 =? 58) with false. change (46 =? 46) with true. cbn iota. cbn [andb i6_nibbles].
  destruct (Z.eqb_spec (0 + zlen g) 0); [lia|]. reflexivity.
Qed.

Lemma hex_no_dot v l w : hex_from v l = Some w -> "."%chr ∉ l.
Proof.
  revert v. induction l as [|c l IH]; intros v H; [apply not_elem_of_nil|]. cbn [hex_from] in H.
  destruct (hex_digit c) eqn:Hd; [|done]. apply not_elem_of_cons. split; [by intros <-|by eapply IH].
Qed.

Lemma ipv4_dotted f q : ipv4 f = Some q -> dotted f = Some q /\ q <> all_ones.
Proof. unfold ipv4. destruct (dotted f); [|done]. cbn. case_decide; [done|]. by intros [= <-]. Qed.

(** The four kinds of fields. *)
Lemma field_cases f :
  bytes f -> ":"%chr ∉ f ->
  f = [] \/ (exists w, hextet f = Some w) \/
  hextet f = None /\
  ((exists g w h, f = g ++ "."%chr :: h /\ bytes g /\ hextet g = Some w /\ last_part f = ipv4 f) \/
   last_part f = None /\ forall rest buf addr zero digit n, rejected f rest (Inet6 buf addr zero digit 0 0 n)).
Proof.
  intros Hb Hc. destruct f as [|c0 f0]; [by left|]. right. remember (c0 :: f0) as f eqn:Ef.
  assert (f <> []) as Hf by (by subst). clear Ef c0 f0.
  destruct (hextet f) as [w|] eqn:Hh; [left; by eexists|]. right. split; [done|].
  unfold last_part. rewrite Hh.
  destruct (split_on_cons 46 f) as (g & gs & E). rewrite E.
  destruct (split_on_inv _ _ _ _ E) as [Hg [[-> ->]|(h & -> & Eh)]].
  - right. split.
    + assert (ipv4 g = None) as ->; [|by destruct (_ && _)].
      unfold ipv4, dotted. rewrite E. cbn [mapM]. by destruct (octet g).
    + intros. apply hex_rejected; [done|done|done|lia|]. rewrite Z.add_0_l. by apply hextet_none.
  - apply Forall_app in Hb as [Hbg _]. apply not_elem_of_app in Hc as [Hcg _].
    destruct (hextet g) as [w|] eqn:Hw.
    + left. exists g, w, h. apply hextet_some in Hw as Hw'. destruct Hw' as [_ Hl].
      destruct (Z.leb_spec 1 (zlen g)), (Z.leb_spec (zlen g) 4); try lia. done.
    + right. destruct (decide (g = [])) as [->|Hne].
      { split; [done|]. intros. by eexists. }
      apply hextet_none in Hw; [|done]. split.
      * destruct (Z.leb_spec 1 (zlen g)), (Z.leb_spec (zlen g) 4); try done. cbn [andb].
        destruct Hw as [Hw|Hw]; [|lia].
        assert (octet g = None) as Ho.
        { unfold octet. destruct (forallb is_digit g) eqn:Hd; [|done].
          destruct (digits_hex g Hd) as [_ Hx]. destruct (Hx 0). congruence. }
        unfold ipv4, dotted. rewrite E. cbn [mapM]. by rewrite Ho.
      * intros. unfold rejected. rewrite <- app_assoc. apply hex_rejected; [done|done|done|lia|].
        by rewrite Z.add_0_l.
Qed.

(** *** The whole text *)

(** What the code makes of the state behind its loop. *)
Definition i6_end (r : res (bool * inet6)) : res (Z * list Z) :=
  '(error, st) ← r; if error : bool then Ok (NGX_ERROR, st.(i6_buf)) else i6_finish st.

Definition reads (r : res (Z * list Z)) (o : option (list Z)) : Prop :=
  match o with
  | Some b => r = Ok (NGX_OK, b)
  | None => exists buf, r = Ok (NGX_ERROR, buf)
  end.

(** The address with the bytes [l] in it, and the double colon at [zero]. *)
Definition whole (zero : option Z) (l : list Z) : option (list Z) :=
  assemble (Some (match zero with
                  | None => (l, None)
                  | Some z => (take (Z.to_nat z) l, Some (drop (Z.to_nat z) l))
                  end)).

(** Between two fields: [out] has been written and [n] words are missing. *)
Record between_fields (zero : option Z) (out post : list Z) (n : Z) : Prop := {
  bf_n : 1 <= n <= 8;
  bf_out : zlen out = 2 * (8 - n);
  bf_post : zlen post = 2 * n;
  bf_zero : match zero with Some z => 0 <= z <= zlen out | None => True end
}.

Lemma whole_long zero out l :
  16 < zlen out + zlen l ->
  whole zero (out ++ l) = None.
Proof.
  intros Hl. unfold whole, assemble. rewrite <- zlen_app in Hl. destruct zero as [z|].
  - rewrite <- zlen_app, take_drop. by destruct (Z.ltb_spec (zlen (out ++ l)) 16); [lia|].
  - by destruct (Z.eqb_spec (zlen (out ++ l)) 16); [lia|].
Qed.

Lemma last_part_length f b : last_part f = Some b -> 2 <= zlen b.
Proof.
  unfold last_part. destruct (hextet f); [by intros [= <-]|].
  destruct (split_on 46 f) as [|g gs]; [done|]. destruct (_ && _); [|done]. intros H.
  apply ipv4_dotted in H as [H _]. unfold dotted in H. destruct (mapM octet _) as [l|]; [|done]. cbn in H.
  destruct (Z.eqb_spec (zlen l) 4); [|done]. injection H as <-. lia.
Qed.

Lemma fields_bytes_length fs r : fields_bytes fs = Some r -> 2 <= zlen r.
Proof.
  revert r. induction fs as [|f fs IH]; intros r; [done|]. destruct fs as [|f' fs].
  - cbn [fields_bytes]. destruct f; [by intros [= <-]|]. apply last_part_length.
  - change (fields_bytes (f :: f' :: fs)) with (w ← hextet f; r ← fields_bytes (f' :: fs); Some (low_bytes w ++ r)).
    destruct (hextet f); [|done]. cbn [option_bind mbind].
    destruct (fields_bytes (f' :: fs)) as [r'|]; [|done]. intros [= <-].
    rewrite !zlen_cons. specialize (IH r' eq_refl). lia.
Qed.

Lemma ipv6_fields_length fs l r : ipv6_fields fs = Some (l, r) -> 2 <= zlen l + match r with Some r => zlen r | None => 0 end.
Proof.
  revert l r. induction fs as [|f fs IH]; intros l r; [done|]. destruct fs as [|f' fs].
  - cbn [ipv6_fields]. destruct f; [done|]. destruct (last_part _) as [b|] eqn:Hb; [|done].
    intros [= <- <-]. apply last_part_length in Hb. lia.
  - destruct f as [|c f].
    + change (ipv6_fields ([] :: f' :: fs)) with (r ← fields_bytes (f' :: fs); Some (@nil Z, Some r)).
      destruct (fields_bytes _) as [b|] eqn:Hb; [|done]. intros [= <- <-]. by apply fields_bytes_length in Hb.
    + change (ipv6_fields ((c :: f) :: f' :: fs))
        with (w ← hextet (c :: f); '(l, r) ← ipv6_fields (f' :: fs); Some (low_bytes w ++ l, r)).
      destruct (hextet _); [|done]. cbn [option_bind mbind].
      destruct (ipv6_fields (f' :: fs)) as [[l' r']|]; [|done]. intros H.
      assert (l = low_bytes z ++ l' /\ r = r') as [-> ->] by (by injection H).
      rewrite zlen_app. specialize (IH l' r' eq_refl). change (zlen (low_bytes z)) with 2. lia.
Qed.

(** The end of the text, with a word in hand. *)
Lemma finish_whole zero out post digit k w n :
  between_fields zero out post n -> (zero = None -> k <> 0) ->
  reads (i6_finish (Inet6 (out ++ post) (zlen out) zero digit k w n)) (whole zero (out ++ low_bytes w)).
Proof.
  intros [Hn Hout Hpost Hzero] Hk.
  destruct zero as [z|]; [destruct (decide (2 <= n)) as [Hn2|]|].
  - set (pre := take (Z.to_nat z) out). set (mid := drop (Z.to_nat z) out).
    assert (out = pre ++ mid) as E by (unfold pre, mid; by rewrite take_drop).
    assert (zlen pre = z) as Hpre by (unfold pre, zlen in *; rewrite length_take; lia).
    assert (zlen pre + zlen mid = zlen out) as Hsum by (by rewrite E, zlen_app).
    unfold whole, assemble. rewrite <- zlen_app, take_drop, zlen_app. change (zlen (low_bytes w)) with 2.
    destruct (Z.ltb_spec (zlen out + 2) 16); [|lia]. cbn [reads].
    assert (take (Z.to_nat z) (out ++ low_bytes w) = pre) as ->.
    { rewrite take_app_le; [done|]. unfold zlen in *. lia. }
    assert (drop (Z.to_nat z) (out ++ low_bytes w) = mid ++ low_bytes w) as ->.
    { rewrite drop_app_le; [done|]. unfold zlen in *. lia. }
    rewrite E, <- Hpre, <- (app_assoc pre).
    rewrite i6_finish_zero; [|unfold zlen in *; rewrite !length_app; lia|by rewrite <- E|done].
    rewrite (zlen_app mid). change (zlen (low_bytes w)) with 2.
    by replace (16 - zlen pre - (zlen mid + 2)) with (2 * (n - 1)) by lia.
  - assert (n = 1) as -> by lia. destruct post as [|x [|y post]];
      try (unfold zlen in Hpost; cbn [length] in Hpost; lia).
    unfold whole, assemble. rewrite <- zlen_app, take_drop, zlen_app. change (zlen (low_bytes w)) with 2.
    destruct (Z.ltb_spec (zlen out + 2) 16); [lia|].
    unfold i6_finish. cbn [i6_nibbles i6_zero i6_word]. rewrite andb_false_r.
    rewrite push_word_app, Ok_bind. by eexists.
  - destruct post as [|x [|y post]]; try (unfold zlen in Hpost; cbn [length] in Hpost; lia).
    unfold i6_finish. cbn [i6_nibbles i6_zero i6_word]. destruct (Z.eqb_spec k 0); [by destruct Hk|]. cbn [andb].
    rewrite push_word_app, Ok_bind. cbn [i6_n i6_zero i6_buf]. fold (low_bytes w).
    unfold whole, assemble. rewrite zlen_app. change (zlen (low_bytes w)) with 2.
    destruct (Z.eqb_spec (n - 1) 0), (Z.eqb_spec (zlen out + 2) 16); try lia; cbn [negb reads]; [|by eexists].
    assert (post = []) as -> by (destruct post; [done|unfold zlen in Hpost; cbn [length] in Hpost; lia]). done.
Qed.

Lemma ipv4_none t : ipv4 t = None -> ngx_inet_addr t = INADDR_NONE.
Proof.
  rewrite inet_addr_value. unfold ipv4. destruct (dotted t) as [q|]; [|done]. cbn.
  case_decide; [by subst|done].
Qed.

Lemma i6_dot_none buf addr zero digit k w n :
  match digit with Some t => ipv4 t = None \/ n < 2 | None => True end ->
  exists st, i6_dot (Inet6 buf addr zero digit k w n) = Ok (I6_error st).
Proof.
  intros H. unfold i6_dot. cbn [i6_digit i6_n]. destruct digit as [t|]; [|by eexists].
  destruct (Z.ltb_spec n 2); [by eexists|]. destruct H as [H|H]; [|lia].
  apply ipv4_none in H as ->. change (INADDR_NONE =? INADDR_NONE) with true. by eexists.
Qed.

Lemma reads_error st : reads (i6_end (Ok (true, st))) None.
Proof. by eexists. Qed.

(** The last field. *)
Lemma run_last f zero out post digit n :
  between_fields zero out post n -> bytes f -> ":"%chr ∉ f -> f <> [] ->
  digit = Some f \/ (digit = None /\ zero = None /\ out = []) ->
  reads (i6_end (i6_loop f (Inet6 (out ++ post) (zlen out) zero digit 0 0 n)))
    (b ← last_part f; whole zero (out ++ b)).
Proof.
  intros Hb Hf Hc Hne Hdigit.
  destruct (field_cases f Hf Hc) as [->|[[w Hw]|[Hh [(g & w & h & Ef & Hg & Hw & Hl)|[Hl Hr]]]]]; [done|..].
  - unfold last_part. rewrite Hw. cbn [option_bind mbind].
    apply hextet_some in Hw as [Hw Hlen]. rewrite <- (app_nil_r f).
    rewrite (i6_hex _ _ _ _ _ _ _ _ _ w) by (done || lia). cbn [i6_loop]. unfold i6_end. rewrite Ok_bind.
    apply finish_whole; [done|lia].
  - pose proof (dot_run g w h [] (out ++ post) (zlen out) zero digit n Hg Hw) as Hrun.
    rewrite <- Ef, !app_nil_r in Hrun. rewrite Hl, Hrun. clear Hrun.
    apply hextet_some in Hw as Hlen. destruct Hlen as [_ Hlen].
    destruct (decide (2 <= n)) as [Hn|Hn]; [destruct (ipv4 f) as [q|] eqn:Hq|].
    + apply ipv4_dotted in Hq as [Hd Ho].
      destruct (inet_addr_ok _ _ Hd Ho) as (Hbq & Hql & _).
      destruct q as [|a [|b [|c [|d [|]]]]]; try done. cbn [option_bind mbind].
      destruct Hdigit as [->|(-> & -> & ->)].
      * destruct Hb as [Hbn Hout Hpost Hzero]. destruct post as [|x [|y post]];
          try (unfold zlen in Hpost; cbn [length] in Hpost; lia).
        rewrite (i6_dot_v4 f a b c d), Ok_bind by done. unfold i6_end. rewrite Ok_bind.
        replace (out ++ [a; b; c; d]) with ((out ++ [a; b]) ++ low_bytes (d + 256 * (c + 256 * (b + 256 * a))))
          by (rewrite low_bytes_digits by done; by rewrite <- app_assoc).
        rewrite (app_assoc out [a; b] post).
        assert (zlen (out ++ [a; b]) = zlen out + 2) as E by (by rewrite zlen_app). rewrite <- E.
        apply finish_whole; [|lia]. split; [lia|lia|rewrite !zlen_cons in Hpost; lia|].
        destruct zero; [lia|done].
      * destruct (i6_dot_none ([] ++ post) (zlen (@nil Z)) None None (zlen g) w n) as [st ->]; [done|]. apply reads_error.
    + destruct (i6_dot_none (out ++ post) (zlen out) zero digit (zlen g) w n) as [st ->]; [|apply reads_error].
      destruct Hdigit as [->|(-> & _)]; [by left|done].
    + destruct (i6_dot_none (out ++ post) (zlen out) zero digit (zlen g) w n) as [st ->].
      { destruct digit; [right; lia|done]. }
      rewrite Ok_bind. destruct (ipv4 f) as [q|] eqn:Hq; [|apply reads_error]. cbn [option_bind mbind].
      apply ipv4_dotted in Hq as [Hd Ho]. destruct (inet_addr_ok _ _ Hd Ho) as (_ & Hql & _).
      destruct Hb as [Hbn Hout Hpost Hzero].
      rewrite whole_long; [apply reads_error|]. unfold zlen at 2. lia.
  - rewrite Hl. cbn [option_bind mbind]. rewrite <- (app_nil_r f).
    destruct (Hr [] (out ++ post) (zlen out) zero digit n) as [st ->]. apply reads_error.
Qed.

(** A field with a colon behind it. *)
Lemma run_field f p zero out post digit n :
  between_fields zero out post n -> bytes f -> ":"%chr ∉ f -> f <> [] ->
  digit = Some (f ++ ":"%chr :: p) \/ (digit = None /\ zero = None /\ out = []) ->
  match hextet f with
  | Some w =>
      if 2 <=? n then
        i6_loop (f ++ ":"%chr :: p) (Inet6 (out ++ post) (zlen out) zero digit 0 0 n)
        = i6_loop p (Inet6 ((out ++ low_bytes w) ++ drop 2 post) (zlen (out ++ low_bytes w)) zero (Some p) 0 0 (n - 1)) /\
        between_fields zero (out ++ low_bytes w) (drop 2 post) (n - 1)
      else rejected f (":"%chr :: p) (Inet6 (out ++ post) (zlen out) zero digit 0 0 n)
  | None => rejected f (":"%chr :: p) (Inet6 (out ++ post) (zlen out) zero digit 0 0 n)
  end.
Proof.
  intros [Hbn Hout Hpost Hzero] Hf Hc Hne Hdigit. destruct (hextet f) as [w|] eqn:Hw.
  - apply hextet_some in Hw as [Hw Hlen].
    destruct post as [|x [|y post]]; try (unfold zlen in Hpost; cbn [length] in Hpost; lia).
    destruct (Z.leb_spec 2 n) as [Hn|Hn].
    + rewrite (i6_hex _ _ _ _ _ _ _ _ _ w) by (done || lia). rewrite i6_loop_colon, i6_colon_word, Ok_bind by lia.
      cbn [drop]. rewrite zlen_app, <- app_assoc. change (zlen (low_bytes w)) with 2. split; [done|].
      rewrite !zlen_cons in Hpost. rewrite drop_0. split; [lia|rewrite zlen_app; change (zlen (low_bytes w)) with 2; lia|lia|].
      destruct zero; [|done]. rewrite zlen_app. change (zlen (low_bytes w)) with 2. lia.
    + unfold rejected. rewrite (i6_hex _ _ _ _ _ _ _ _ _ w) by (done || lia). rewrite i6_loop_colon.
      assert (n = 1) as -> by lia. unfold i6_colon. cbn [i6_nibbles].
      destruct (Z.eqb_spec (0 + zlen f) 0); [lia|]. cbn [negb].
      change ((Inet6 (out ++ x :: y :: post) (zlen out) zero digit (0 + zlen f) w 1) <| i6_digit := Some p |>)
        with (Inet6 (out ++ x :: y :: post) (zlen out) zero (Some p) (0 + zlen f) w 1).
      cbn [i6_word]. rewrite push_word_app, Ok_bind. by eexists.
  - destruct (field_cases f Hf Hc) as [->|[[w Hw']|[_ [(g & w & h & -> & Hg & Hw' & _)|[_ Hr]]]]]; [done|congruence| |apply Hr].
    unfold rejected. rewrite (dot_run g w h _ _ _ _ _ _ Hg Hw').
    destruct (i6_dot_none (out ++ post) (zlen out) zero digit (zlen g) w n) as [st ->]; [|by eexists].
    destruct Hdigit as [->|(-> & _)]; [left|done]. unfold ipv4.
    rewrite (not_dotted ":"%chr); [done| |done|done]. apply elem_of_app. right. apply list_elem_of_here.
Qed.

Lemma bytes_field x l f l' : bytes l -> l = f ++ x :: l' -> bytes f /\ bytes l'.
Proof. intros H ->. apply Forall_app in H as [? H]. by apply Forall_cons_1 in H as [_ ?]. Qed.

(** Behind the double colon. *)
Lemma run_behind fs p z out post n :
  split_on ":"%chr p = fs -> bytes p -> between_fields (Some z) out post n ->
  reads (i6_end (i6_loop p (Inet6 (out ++ post) (zlen out) (Some z) (Some p) 0 0 n)))
    (r ← fields_bytes fs; whole (Some z) (out ++ r)).
Proof.
  revert p out post n. induction fs as [|f fs IH]; intros p out post n Hs Hp Hb.
  { by destruct (split_on_cons 58 p) as (? & ? & E); rewrite E in Hs. }
  destruct (split_on_inv _ _ _ _ Hs) as [Hf [[-> ->]|(p' & E & Hs')]].
  - destruct (decide (f = [])) as [->|Hne].
    + cbn [fields_bytes i6_loop option_bind mbind]. unfold i6_end. rewrite Ok_bind. by apply (finish_whole (Some z)).
    + assert (fields_bytes [f] = last_part f) as -> by (by destruct f). by apply run_last; [| | | |left].
  - destruct (split_on_cons 58 p') as (f' & fs' & E'). rewrite E' in Hs'. subst fs.
    change (fields_bytes (f :: f' :: fs')) with (w ← hextet f; r ← fields_bytes (f' :: fs'); Some (low_bytes w ++ r)).
    destruct (bytes_field _ _ _ _ Hp E) as [Hbf Hbp].
    destruct (decide (f = [])) as [->|Hne]; [by subst p; eexists|].
    pose proof (run_field f p' (Some z) out post (Some p) n Hb Hbf Hf Hne) as Hrun.
    rewrite <- E in Hrun. specialize (Hrun (or_introl eq_refl)). unfold rejected in Hrun. rewrite <- E in Hrun.
    destruct (hextet f) as [w|]; cbn [option_bind mbind]; [|destruct Hrun as [st ->]; apply reads_error].
    destruct (Z.leb_spec 2 n) as [Hn|Hn].
    + destruct Hrun as [-> Hb']. specialize (IH p' _ _ _ E' Hbp Hb').
      destruct (fields_bytes (f' :: fs')) as [r|]; [|exact IH]. cbn [option_bind mbind] in *. by rewrite app_assoc.
    + destruct Hrun as [st ->]. destruct (fields_bytes (f' :: fs')) as [r|] eqn:Hr; [|apply reads_error].
      cbn [option_bind mbind]. apply fields_bytes_length in Hr. destruct Hb as [Hbn Hout _ _].
      rewrite whole_long; [apply reads_error|]. rewrite zlen_app. change (zlen (low_bytes w)) with 2. lia.
Qed.

(** All fields, [out] being what is written already. *)
Definition all_fields (out : list Z) (o : option (list Z * option (list Z))) : option (list Z) :=
  '(l, r) ← o;
  match r with
  | None => whole None (out ++ l)
  | Some r => whole (Some (zlen (out ++ l))) ((out ++ l) ++ r)
  end.

Lemma run_fields fs p out post digit n :
  split_on ":"%chr p = fs -> bytes p -> between_fields None out post n ->
  digit = Some p \/ (digit = None /\ out = []) ->
  reads (i6_end (i6_loop p (Inet6 (out ++ post) (zlen out) None digit 0 0 n)))
    (all_fields out (ipv6_fields fs)).
Proof.
  revert p out post digit n. induction fs as [|f fs IH]; intros p out post digit n Hs Hp Hb Hdigit.
  { by destruct (split_on_cons 58 p) as (? & ? & E); rewrite E in Hs. }
  destruct (split_on_inv _ _ _ _ Hs) as [Hf [[-> ->]|(p' & E & Hs')]].
  - destruct (decide (f = [])) as [->|Hne]; [by eexists|].
    pose proof (run_last f None out post digit n Hb Hp Hf Hne) as Hrun.
    assert (all_fields out (ipv6_fields [f]) = (b ← last_part f; whole None (out ++ b))) as ->.
    { destruct f; [done|]. cbn [ipv6_fields]. by destruct (last_part _). }
    apply Hrun. destruct Hdigit as [->|[-> ->]]; auto.
  - destruct (split_on_cons 58 p') as (f' & fs' & E'). rewrite E' in Hs'. subst fs.
    destruct (bytes_field _ _ _ _ Hp E) as [Hbf Hbp].
    destruct (decide (f = [])) as [->|Hne].
    + change (ipv6_fields ([] :: f' :: fs')) with (r ← fields_bytes (f' :: fs'); Some (@nil Z, Some r)).
      subst p. cbn [app]. rewrite i6_loop_colon, i6_colon_zero, Ok_bind.
      pose proof (run_behind _ p' (zlen out) out post n E' Hbp) as Hrun.
      destruct (fields_bytes (f' :: fs')); cbn [option_bind mbind all_fields] in *; [rewrite app_nil_r|];
        apply Hrun; (destruct Hb; split; [lia..|]; pose proof (zlen_nonneg out); lia).
    + assert (ipv6_fields (f :: f' :: fs')
        = (w ← hextet f; '(l, r) ← ipv6_fields (f' :: fs'); Some (low_bytes w ++ l, r))) as -> by (by destruct f).
      pose proof (run_field f p' None out post digit n Hb Hbf Hf Hne) as Hrun.
      rewrite <- E in Hrun. unfold rejected in Hrun. rewrite <- E in Hrun.
      assert (digit = Some p \/ digit = None /\ (None : option Z) = None /\ out = []) as Hd
        by (destruct Hdigit as [?|[? ?]]; auto).
      specialize (Hrun Hd).
      destruct (hextet f) as [w|]; cbn [option_bind mbind]; [|destruct Hrun as [st ->]; apply reads_error].
      destruct (Z.leb_spec 2 n) as [Hn|Hn].
      * destruct Hrun as [-> Hb']. specialize (IH p' _ _ _ _ E' Hbp Hb' (or_introl eq_refl)).
        destruct (ipv6_fields (f' :: fs')) as [[l r]|]; [|exact IH].
        unfold all_fields in *. cbn [option_bind mbind] in *. by rewrite app_assoc.
      * destruct Hrun as [st ->]. destruct (ipv6_fields (f' :: fs')) as [[l r]|] eqn:Hr; [|apply reads_error].
        unfold all_fields. cbn [option_bind mbind]. apply ipv6_fields_length in Hr. destruct Hb as [Hbn Hout _ _].
        rewrite app_assoc. destruct r as [r|].
        -- rewrite whole_long; [apply reads_error|]. rewrite !zlen_app. change (zlen (low_bytes w)) with 2. lia.
        -- rewrite <- app_assoc. rewrite whole_long; [apply reads_error|]. rewrite zlen_app. change (zlen (low_bytes w)) with 2. lia.
Qed.

(** [ngx_inet6_addr] accepts exactly these texts, and stores these bytes. *)
Theorem inet6_addr_exact text addr :
  bytes text -> length addr = 16%nat -> reads (ngx_inet6_addr text addr) (ipv6 text).
Proof.
  intros Ht Hl. destruct text as [|c rest]; [by eexists|]. unfold ngx_inet6_addr, ipv6.
  set (p := if c =? 58 then rest else c :: rest).
  assert (bytes p) as Hp by (unfold p; destruct (c =? 58); [by apply Forall_cons_1 in Ht as [_ ?]|done]).
  pose proof (run_fields _ p [] addr None 8 eq_refl Hp) as Hrun. cbn [app] in Hrun.
  change (zlen (@nil Z)) with 0 in Hrun.
  assert (all_fields [] (ipv6_fields (split_on 58 p)) = assemble (ipv6_fields (split_on 58 p))) as E.
  { destruct (ipv6_fields _) as [[l [r|]]|]; [|done|done]. cbn [all_fields option_bind mbind app]. unfold whole.
    rewrite take_app_length', drop_app_length' by (unfold zlen; lia). done. }
  rewrite <- E. apply Hrun; [|by right]. split; [lia|done|unfold zlen; lia|done].
Qed.

(** Two texts that are no addresses, and are accepted: a single colon in front, and one
    behind the last word. *)
Lemma inet6_addr_loose :
  ngx_inet6_addr (str ":1:2:3:4:5:6:7:8") (replicate 16 0) = Ok (NGX_OK, words_bytes [1; 2; 3; 4; 5; 6; 7; 8]) /\
  ngx_inet6_addr (str "1::2:") (replicate 16 0) = Ok (NGX_OK, words_bytes [1; 0; 0; 0; 0; 0; 2; 0]).
Proof. split; reflexivity. Qed.
