(* ===== verification/Inet6Print.v ===== *)
(** * Printing IPv6 addresses

    The text that [ngx_inet6_ntop] writes: the words of the address, with the longest
    run of zero words as a double colon, and an IPv4 address at the end of those that
    carry one. *)

From S2P Require Import Prelude Numeric NumericSpec Sprintf SprintfSpec Inet InetSpec Inet6Spec.

Fixpoint words_of (p : list Z) : list Z :=
  match p with a :: b :: p => a * 256 + b :: words_of p | _ => [] end.

Lemma low_bytes_word a b : is_byte a -> is_byte b -> low_bytes (a * 256 + b) = [a; b].
Proof.
  intros Ha Hb. unfold low_bytes, u8. change 0xff with (Z.ones 8).
  rewrite Z.land_ones, Z.shiftr_div_pow2 by lia. change (2 ^ 8) with 256.
  rewrite Z.div_add_l, (Z.div_small b), Z.add_0_r, (Z.mod_small a) by lia.
  by rewrite Z.add_comm, Z.mod_add, Z.mod_small by lia.
Qed.

Lemma words_of_spec n p :
  length p = (2 * n)%nat -> bytes p ->
  length (words_of p) = n /\ Forall is_word (words_of p) /\ words_bytes (words_of p) = p.
Proof.
  revert p. induction n as [|n IH]; intros p Hl Hb; [by destruct p|].
  destruct p as [|a [|b p]]; try (cbn in Hl; lia).
  apply Forall_cons_1 in Hb as [Ha Hb]. apply Forall_cons_1 in Hb as [Hb Hp].
  destruct (IH p) as (H1 & H2 & H3); [cbn in Hl; lia|done|]. cbn [words_of length].
  split; [by rewrite H1|]. split; [apply Forall_cons_2; [unfold is_word; lia|done]|].
  change (words_bytes (a * 256 + b :: words_of p)) with (low_bytes (a * 256 + b) ++ words_bytes (words_of p)).
  by rewrite low_bytes_word, H3 by done.
Qed.

(** The two bytes of a word. *)
Lemma word_at p t w :
  words_of p !! t = Some w ->
  exists a b, get p (2 * Z.of_nat t) = Ok a /\ get p (2 * Z.of_nat t + 1) = Ok b /\ w = a * 256 + b.
Proof.
  revert p. induction t as [|t IH]; intros p Hw; destruct p as [|a [|b p]]; try done.
  - injection Hw as <-. by exists a, b.
  - cbn [words_of] in Hw. destruct (IH p Hw) as (a' & b' & Ha & Hb & E). exists a', b'.
    replace (2 * Z.of_nat (S t)) with (zlen [a; b] + 2 * Z.of_nat t) by (change (zlen [a; b]) with 2; lia).
    rewrite <- Z.add_assoc. change (a :: b :: p) with ([a; b] ++ p). by rewrite !get_app_r by lia.
Qed.

Lemma write_at_ok room out l : zlen out + zlen l <= room -> write_at room out l = Ok (out ++ l).
Proof. intros H. unfold write_at. by destruct (Z.leb_spec (zlen out + zlen l) room); [|lia]. Qed.

(** ** The longest run of zeros *)

Section address.
Context (p : list Z) (Hp : bytes p) (Hlen : length p = 16%nat).

#[local] Abbreviation W := (words_of p).

Definition zeros_at (z m : Z) : Prop := forall t, z <= t < z + m -> W !! Z.to_nat t = Some 0.

(** The run found so far. *)
Definition run_ok (zero max i : Z) : Prop :=
  zero = UNSET /\ max = 1 \/ exists z, zero = 2 * z /\ 0 <= z /\ 2 <= max /\ z + max <= i /\ zeros_at z max.

(** The run that is going on, [n] words long. *)
Definition open_run (last n i : Z) : Prop :=
  n = 0 \/ 1 <= n <= i /\ last = 2 * (i - n) /\ zeros_at (i - n) n.

Lemma W_length : length W = 8%nat.
Proof. by apply (words_of_spec 8). Qed.

Lemma run_weaken zero max i : run_ok zero max i -> run_ok zero max (i + 1).
Proof. intros [H|(z & ? & ? & ? & ? & ?)]; [by left|right]. exists z. split_and!; (done || lia). Qed.

Lemma run_close zero last max n i :
  run_ok zero max i -> open_run last n i -> max < n -> run_ok last n i.
Proof.
  intros Hr [->|(Hn & -> & Hz)] Hm.
  - destruct Hr as [[_ ->]|(z & _ & _ & ? & _)]; lia.
  - right. exists (i - n). assert (1 <= max) by (destruct Hr as [[_ ->]|(z & _ & _ & ? & _)]; lia).
    split_and!; (done || lia).
Qed.

Lemma zero_run_step_ok i zero last max n :
  0 <= i < 8 -> run_ok zero max i -> open_run last n i ->
  exists zero' last' max' n',
    zero_run_step p (2 * i) (zero, last, max, n) = Ok (zero', last', max', n') /\
    run_ok zero' max' (i + 1) /\ open_run last' n' (i + 1).
Proof.
  intros Hi Hr Ho. destruct (lookup_lt_is_Some_2 W (Z.to_nat i)) as [w Hw]; [rewrite W_length; lia|].
  destruct (word_at p (Z.to_nat i) w Hw) as (a & b & Ha & Hb & E). rewrite Z2Nat.id in Ha, Hb by lia.
  unfold zero_run_step. rewrite Ha, Hb, !Ok_bind.
  pose proof (get_byte p (2 * i) a Hp Ha). pose proof (get_byte p (2 * i + 1) b Hp Hb).
  destruct (negb (a =? 0) || negb (b =? 0)) eqn:Hnz.
  - destruct (Z.ltb_spec max n).
    + exists last, last, n, 0. split; [done|]. split; [|by left].
      apply run_weaken. by eapply run_close.
    + exists zero, last, max, 0. split; [done|]. split; [by apply run_weaken|by left].
  - assert (a = 0 /\ b = 0) as [-> ->] by lia. cbn in E. subst w.
    do 4 eexists. split; [done|]. split; [by apply run_weaken|]. right.
    destruct Ho as [->|(Hn & -> & Hz)].
    + cbn [Z.eqb]. split; [lia|]. split; [lia|]. intros t Ht. by replace t with i by lia.
    + destruct (Z.eqb_spec n 0); [lia|]. split; [lia|]. split; [lia|]. intros t Ht.
      destruct (decide (t = i)) as [->|]; [done|]. apply Hz. lia.
Qed.

Lemma zero_run_ok k i zero last max n :
  0 <= i -> i + Z.of_nat k = 8 -> run_ok zero max i -> open_run last n i ->
  exists zero' last' max' n',
    zero_run k p (2 * i) (zero, last, max, n) = Ok (zero', last', max', n') /\
    run_ok zero' max' 8 /\ open_run last' n' 8.
Proof.
  revert i zero last max n. induction k as [|k IH]; intros i zero last max n Hi0 Hi Hr Ho; cbn [zero_run].
  - replace i with 8 in * by lia. by do 4 eexists.
  - destruct (zero_run_step_ok i zero last max n) as (z' & l' & m' & n' & -> & Hr' & Ho'); [lia|done|done|].
    rewrite Ok_bind. replace (2 * i + 2) with (2 * (i + 1)) by lia. apply IH; (done || lia).
Qed.

(** The run that is printed as a double colon. *)
Lemma longest_run :
  exists zero max z l m n,
    zero_run 8 p 0 (UNSET, UNSET, 1, 0) = Ok (z, l, m, n) /\
    (if m <? n then (l, n) else (z, m)) = (zero, max) /\ run_ok zero max 8.
Proof.
  destruct (zero_run_ok 8 0 UNSET UNSET 1 0) as (z & l & m & n & E & Hr & Ho); [lia|done|by left|by left|].
  destruct (Z.ltb_spec m n) as [H|H].
  - exists l, n, z, l, m, n. split; [exact E|]. destruct (Z.ltb_spec m n); [|lia]. split; [done|]. by eapply run_close.
  - exists z, m, z, l, m, n. split; [exact E|]. destruct (Z.ltb_spec m n); [lia|]. done.
Qed.

(** ** The words *)

Lemma print_xd v : 0 <= v < 65536 -> ngx_sprintf (str "%xd") [A32 v] = Ok (num 1 v).
Proof.
  intros Hv. destruct (num_word v Hv) as (_ & _ & Hl). num_start. num_step. reflexivity.
Qed.

Section print.
Context (room n zero max : Z).

Lemma print_word r t w out :
  W !! t = Some w -> 2 * Z.of_nat t < n -> 2 * Z.of_nat t <> zero -> zlen out + 5 <= room ->
  print_words (S r) room p n zero max (2 * Z.of_nat t) out
  = print_words r room p n zero max (2 * Z.of_nat (S t))
      (out ++ num 1 w ++ (if 2 * Z.of_nat t <? 14 then str ":" else [])).
Proof.
  intros Hw Hn Hz Hr. cbn [print_words]. destruct (Z.leb_spec n (2 * Z.of_nat t)); [lia|].
  destruct (Z.eqb_spec (2 * Z.of_nat t) zero); [done|].
  destruct (word_at p t w Hw) as (a & b & Ha & Hb & E). rewrite Ha, Hb, !Ok_bind.
  pose proof (get_byte p _ a Hp Ha). pose proof (get_byte p _ b Hp Hb).
  destruct (num_word w) as (_ & _ & Hl); [unfold is_word; lia|].
  rewrite <- E, print_xd, Ok_bind, write_at_ok, Ok_bind by lia.
  replace (2 * Z.of_nat (S t)) with (2 * Z.of_nat t + 2) by lia.
  destruct (2 * Z.of_nat t <? 14).
  - rewrite write_at_ok, Ok_bind by (rewrite zlen_app; change (zlen (str ":")) with 1; lia).
    by rewrite <- app_assoc.
  - rewrite Ok_bind. by rewrite app_nil_r.
Qed.

Lemma zlen_colon_words ws : Forall is_word ws -> zlen (colon_words ws) <= 5 * zlen ws.
Proof.
  induction 1 as [|w ws Hw Hws IH]; [done|].
  change (colon_words (w :: ws)) with ((num 1 w ++ [58]) ++ colon_words ws).
  destruct (num_word w Hw) as (_ & _ & Hl). rewrite !zlen_app, (zlen_cons w ws). change (zlen [58]) with 1. lia.
Qed.

Lemma print_segment ws r t out rest :
  drop t W = ws ++ rest -> Z.of_nat t + zlen ws <= 7 -> 2 * (Z.of_nat t + zlen ws) <= n ->
  (forall j, Z.of_nat t <= j < Z.of_nat t + zlen ws -> 2 * j <> zero) ->
  zlen out + 5 * zlen ws <= room ->
  print_words (length ws + r) room p n zero max (2 * Z.of_nat t) out
  = print_words r room p n zero max (2 * Z.of_nat (t + length ws)) (out ++ colon_words ws).
Proof.
  revert t out. induction ws as [|w ws IH]; intros t out Hd H7 Hn Hz Hr.
  - change (colon_words []) with (@nil Z). by rewrite app_nil_r, Nat.add_0_r.
  - rewrite zlen_cons in *. pose proof (zlen_nonneg ws).
    assert (W !! t = Some w) as Hw.
    { rewrite <- (Nat.add_0_r t), <- lookup_drop, Hd. done. }
    assert (drop (S t) W = ws ++ rest) as Hd'.
    { rewrite <- (Nat.add_1_r t), <- drop_drop, Hd. done. }
    assert (is_word w) as Hww.
    { destruct (words_of_spec 8 p Hlen Hp) as (_ & HF & _). rewrite Forall_lookup in HF. by eapply HF. }
    destruct (num_word w Hww) as (_ & _ & Hl).
    cbn [length]. rewrite Nat.add_succ_l, (print_word _ t w) by (done || lia || (apply Hz; lia)).
    destruct (Z.ltb_spec (2 * Z.of_nat t) 14); [|lia].
    rewrite IH; [|done|lia|lia|intros; apply Hz; lia|].
    + change (colon_words (w :: ws)) with ((num 1 w ++ [58]) ++ colon_words ws).
      change (str ":") with [58]. by rewrite <- !app_assoc, Nat.add_succ_r.
    + rewrite !zlen_app. change (zlen (str ":")) with 1. lia.
Qed.

Lemma print_colon r t out :
  2 * Z.of_nat t = zero -> zero < n -> zlen out + 1 <= room -> 1 <= max ->
  print_words (S r) room p n zero max zero out
  = print_words r room p n zero max (2 * Z.of_nat (t + Z.to_nat max)) (out ++ str ":").
Proof.
  intros Ht Hn Hr Hm. cbn [print_words]. destruct (Z.leb_spec n zero); [lia|].
  rewrite Z.eqb_refl, write_at_ok, Ok_bind by done.
  by replace (zero + (max - 1) * 2 + 2) with (2 * Z.of_nat (t + Z.to_nat max)) by lia.
Qed.

Lemma print_stop r i out : n <= i -> print_words r room p n zero max i out = Ok out.
Proof. intros H. destruct r; cbn [print_words]; destruct (Z.leb_spec n i); (done || lia). Qed.
End print.

Lemma W_words : Forall is_word W.
Proof. by destruct (words_of_spec 8 p Hlen Hp) as (_ & HF & _). Qed.

Lemma words_bytes_app l1 l2 : words_bytes (l1 ++ l2) = words_bytes l1 ++ words_bytes l2.
Proof. unfold words_bytes. by rewrite map_app, concat_app. Qed.

Lemma words_bytes_zeros m : words_bytes (replicate m 0) = replicate (2 * m) 0.
Proof.
  induction m as [|m IH]; [done|]. replace (2 * S m)%nat with (S (S (2 * m))) by lia. cbn [replicate].
  change (words_bytes (0 :: replicate m 0)) with (low_bytes 0 ++ words_bytes (replicate m 0)). by rewrite IH.
Qed.

(** The words around a run. *)
Lemma run_split z m :
  0 <= z -> 0 <= m -> z + m <= 8 -> zeros_at z m ->
  W = take (Z.to_nat z) W ++ replicate (Z.to_nat m) 0 ++ drop (Z.to_nat (z + m)) W.
Proof.
  intros Hz Hm Hzm Hrun. apply list_eq. intros i. pose proof W_length as HW.
  assert (length (take (Z.to_nat z) W) = Z.to_nat z) as Hl by (rewrite length_take; lia).
  destruct (decide (i < Z.to_nat z)%nat).
  { by rewrite lookup_app_l, lookup_take_lt by lia. }
  rewrite lookup_app_r, Hl by lia.
  destruct (decide (i < Z.to_nat (z + m))%nat).
  - rewrite lookup_app_l by (rewrite length_replicate; lia). rewrite lookup_replicate_2 by lia.
    replace i with (Z.to_nat (Z.of_nat i)) by lia. apply Hrun. lia.
  - rewrite lookup_app_r, length_replicate, lookup_drop by (rewrite length_replicate; lia). f_equal. lia.
Qed.

(** ** The text *)

Definition v4_end (q : list Z) : Prop := bytes q /\ length q = 4%nat.

(** The forms that are printed; [m] words are behind the double colon. *)
Inductive form (text : list Z) : Prop :=
| Form_full ws w :
    text = colon_words ws ++ tail_text (Tail_word w) -> W = ws ++ [w] -> form text
| Form_zero ws1 m ws2 w :
    text = zero_text ws1 ws2 (Some (Tail_word w)) -> W = ws1 ++ replicate m 0 ++ ws2 ++ [w] ->
    (2 <= m)%nat -> form text
| Form_open ws1 m :
    text = zero_text ws1 [] None -> W = ws1 ++ replicate m 0 -> (2 <= m)%nat -> form text
| Form_v4 ws2 q :
    text = zero_text [] ws2 (Some (Tail_v4 q)) -> v4_end q ->
    ws2 = [] /\ p = replicate 12 0 ++ q \/ ws2 = [65535] /\ p = replicate 10 0 ++ [255; 255] ++ q ->
    form text.

(** The words from [t] on, the last one without a colon. *)
Lemma print_rest room zero max r t ws w out :
  drop t W = ws ++ [w] -> (8 - t <= r)%nat ->
  (forall j, Z.of_nat t <= j < 8 -> 2 * j <> zero) -> zlen out + 5 * (8 - Z.of_nat t) <= room ->
  print_words r room p 16 zero max (2 * Z.of_nat t) out = Ok (out ++ colon_words ws ++ num 1 w).
Proof.
  intros Hd Hr Hz Hroom. pose proof W_length as HW. pose proof W_words as HF.
  assert (length (drop t W) = length (ws ++ [w])) as Hl by (by rewrite Hd).
  rewrite length_drop, length_app, HW in Hl. cbn [length] in Hl.
  assert (Forall is_word (ws ++ [w])) as HFd by (rewrite <- Hd; by apply Forall_drop).
  apply Forall_app in HFd as [HFs HFw]. apply Forall_cons_1 in HFw as [HFw _].
  pose proof (zlen_colon_words ws HFs) as Hc.
  replace r with (length ws + S (r - length ws - 1))%nat by lia.
  assert (zlen ws = Z.of_nat (length ws)) as Hzl by done.
  rewrite (print_segment room 16 zero max ws _ t out [w]) by (done || lia || (intros; apply Hz; lia)).
  assert (W !! (t + length ws)%nat = Some w) as Hw.
  { rewrite <- lookup_drop, Hd, lookup_app_r, Nat.sub_diag by lia. done. }
  rewrite (print_word room 16 zero max _ _ w) by (done || lia || (apply Hz; lia) || (rewrite zlen_app; lia)).
  destruct (Z.ltb_spec (2 * Z.of_nat (t + length ws)) 14); [lia|].
  rewrite print_stop by lia. by rewrite app_nil_r, <- app_assoc.
Qed.

Lemma ntop_full room len out0 max z l m n :
  45 <= len -> zlen out0 + 45 <= room ->
  zero_run 8 p 0 (UNSET, UNSET, 1, 0) = Ok (z, l, m, n) ->
  (if m <? n then (l, n) else (z, m)) = (UNSET, max) ->
  exists text, ngx_inet6_ntop room p len out0 = Ok (out0 ++ text) /\ zlen text <= 39 /\ form text.
Proof.
  intros Hlen45 Hroom Hz Hsel. unfold ngx_inet6_ntop, NGX_INET6_ADDRSTRLEN.
  destruct (Z.ltb_spec len 45); [lia|]. rewrite Hz, Ok_bind, Hsel. cbn [Z.eqb UNSET]. 
  pose proof W_length as HW. pose proof W_words as HF.
  destruct (exists_last (l := W)) as (ws & w & E); [intros E; rewrite E in HW; done|].
  assert (Forall is_word (ws ++ [w])) as HFd by (by rewrite <- E).
  apply Forall_app in HFd as [HFs HFw]. apply Forall_cons_1 in HFw as [HFw _].
  change (UNSET =? 0) with false. cbn iota. rewrite !Ok_bind. change (16 =? 12) with false. cbn iota.
  change 0 with (2 * Z.of_nat 0) at 1.
  rewrite (print_rest room UNSET max 8 0 ws w out0); [|done|lia|unfold UNSET; lia|lia].
  exists (colon_words ws ++ num 1 w). rewrite Ok_bind. split; [done|]. split; [|by eapply (Form_full _ ws w)].
  pose proof (zlen_colon_words ws HFs). destruct (num_word w HFw) as (_ & _ & Hlw). rewrite zlen_app.
  rewrite E, length_app in HW. cbn in HW. unfold zlen in *. lia.
Qed.

(** What is written in front of the words: a colon if the run is at the start. *)
Lemma head_colon room z out0 :
  0 <= z -> zlen out0 + 1 <= room ->
  (if 2 * z =? 0 then write_at room out0 (str ":") else Ok out0)
  = Ok (out0 ++ if 2 * z =? 0 then str ":" else []).
Proof.
  intros Hz Hr. destruct (2 * z =? 0); [by rewrite write_at_ok|by rewrite app_nil_r].
Qed.

(** The text up to the double colon. *)
Lemma print_head room n z max out0 :
  0 <= z -> 1 <= max -> z + max <= 8 -> 2 * z < n -> zlen out0 + 5 * z + 2 <= room ->
  print_words 8 room p n (2 * z) max 0 (out0 ++ if 2 * z =? 0 then str ":" else [])
  = print_words (7 - Z.to_nat z) room p n (2 * z) max (2 * Z.of_nat (Z.to_nat (z + max)))
      (out0 ++ (if take (Z.to_nat z) W is [] then str ":" else colon_words (take (Z.to_nat z) W)) ++ str ":").
Proof.
  intros Hz Hm Hzm Hn Hr. pose proof W_length as HW. pose proof W_words as HF.
  assert (length (take (Z.to_nat z) W) = Z.to_nat z) as Hl by (rewrite length_take; lia).
  set (ws1 := take (Z.to_nat z) W) in *.
  assert (zlen ws1 = z) as Hzl by (unfold zlen; lia).
  assert (Forall is_word ws1) as HFs by (by apply Forall_take).
  pose proof (zlen_colon_words ws1 HFs) as Hc.
  replace 8%nat with (length ws1 + S (7 - Z.to_nat z))%nat at 1 by lia.
  change 0 with (2 * Z.of_nat 0) at 1.
  assert (zlen (if 2 * z =? 0 then str ":" else []) <= 1) as H1 by (by destruct (2 * z =? 0)).
  assert (drop 0 W = ws1 ++ drop (Z.to_nat z) W) as Hd by (unfold ws1; by rewrite take_drop).
  rewrite (print_segment room n (2 * z) max ws1 _ 0 _ (drop (Z.to_nat z) W));
    [|done|lia|lia|intros; lia|rewrite zlen_app; lia].
  replace (2 * Z.of_nat (0 + length ws1)) with (2 * z) by lia.
  rewrite (print_colon room n (2 * z) max _ (Z.to_nat z)); [|lia|lia| |lia].
  - replace (Z.to_nat z + Z.to_nat max)%nat with (Z.to_nat (z + max)) by lia. f_equal.
    destruct ws1 as [|w ws1].
    + change (zlen (@nil Z)) with 0 in Hzl. subst z. cbn [Z.mul Z.eqb]. change (colon_words []) with (@nil Z).
      by rewrite app_nil_r, <- app_assoc.
    + destruct (Z.eqb_spec (2 * z) 0); [rewrite zlen_cons in Hzl; pose proof (zlen_nonneg ws1); lia|].
      by rewrite app_nil_r, <- app_assoc.
  - rewrite !zlen_app. lia.
Qed.

Lemma ntop_plain room len out0 z max z0 l0 m0 n0 :
  45 <= len -> zlen out0 + 45 <= room ->
  zero_run 8 p 0 (UNSET, UNSET, 1, 0) = Ok (z0, l0, m0, n0) ->
  (if m0 <? n0 then (l0, n0) else (z0, m0)) = (2 * z, max) ->
  0 <= z -> 2 <= max -> z + max <= 8 -> zeros_at z max ->
  (if 2 * z =? 0 then v4_tail p max else Ok false) = Ok false ->
  exists text, ngx_inet6_ntop room p len out0 = Ok (out0 ++ text) /\ zlen text <= 39 /\ form text.
Proof.
  intros Hl45 Hroom Hrun Hsel Hz Hm Hzm Hzeros Htail. unfold ngx_inet6_ntop, NGX_INET6_ADDRSTRLEN.
  destruct (Z.ltb_spec len 45); [lia|]. rewrite Hrun, Ok_bind, Hsel, Htail, Ok_bind. cbn iota.
  rewrite head_colon, Ok_bind, print_head by lia.
  pose proof W_length as HW. pose proof W_words as HF.
  pose proof (run_split z max Hz ltac:(lia) Hzm Hzeros) as Hsplit.
  set (ws1 := take (Z.to_nat z) W) in *.
  assert (zlen ws1 = z) as Hzl by (unfold ws1, zlen; rewrite length_take; lia).
  assert (Forall is_word ws1) as HFs by (by apply Forall_take).
  pose proof (zlen_colon_words ws1 HFs) as Hc.
  set (head := if ws1 is [] then str ":" else colon_words ws1).
  assert (zlen head <= 5 * z + 1) as Hh by (unfold head; destruct ws1; [change (zlen (str ":")) with 1; lia|lia]).
  destruct (decide (z + max = 8)) as [E8|].
  - rewrite print_stop, Ok_bind by lia. exists (head ++ str ":"). split; [done|]. split.
    + rewrite zlen_app. change (zlen (str ":")) with 1. lia.
    + apply (Form_open _ ws1 (Z.to_nat max)); [|..|lia].
      * unfold zero_text. by rewrite app_nil_r.
      * rewrite Hsplit at 1. rewrite E8, drop_ge, app_nil_r by lia. done.
  - destruct (exists_last (l := drop (Z.to_nat (z + max)) W)) as (ws2 & w & E).
    { intros E. apply (f_equal length) in E. rewrite length_drop in E. cbn in E. lia. }
    rewrite (print_rest room (2 * z) max _ _ ws2 w), Ok_bind; [|done|lia|intros; lia|].
    + change (16 =? 12) with false. cbn iota. exists (zero_text ws1 ws2 (Some (Tail_word w))).
      split; [unfold zero_text, head; cbn [end_text tail_text]; by rewrite <- !app_assoc|]. split.
      * assert (Forall is_word (ws2 ++ [w])) as HFd by (rewrite <- E; by apply Forall_drop).
        apply Forall_app in HFd as [HF2 HFw]. apply Forall_cons_1 in HFw as [HFw _].
        pose proof (zlen_colon_words ws2 HF2). destruct (num_word w HFw) as (_ & _ & Hlw).
        assert (length (ws2 ++ [w]) = (8 - Z.to_nat (z + max))%nat) as Hl2 by (rewrite <- E, length_drop; lia).
        rewrite length_app in Hl2. cbn in Hl2.
        unfold zero_text. fold head. cbn [end_text tail_text]. rewrite !zlen_app.
        change (zlen (str ":")) with 1. unfold zlen in *. lia.
      * apply (Form_zero _ ws1 (Z.to_nat max) ws2 w); [done| |lia]. rewrite <- E. exact Hsplit.
    + rewrite zlen_app, zlen_app. change (zlen (str ":")) with 1.
      lia.
Qed.

Lemma zeros_shorter z m k : zeros_at z m -> k <= m -> zeros_at z k.
Proof. intros H Hk t Ht. apply H. lia. Qed.

(** An address that begins with a run of zeros. *)
Lemma zeros_prefix m : 0 <= m <= 8 -> zeros_at 0 m -> p = replicate (2 * Z.to_nat m) 0 ++ drop (2 * Z.to_nat m) p.
Proof.
  intros Hm Hz. destruct (words_of_spec 8 p Hlen Hp) as (_ & _ & E).
  assert (W = replicate (Z.to_nat m) 0 ++ drop (Z.to_nat (0 + m)) W) as Hs
    by exact (run_split 0 m ltac:(lia) ltac:(lia) ltac:(lia) Hz).
  assert (p = replicate (2 * Z.to_nat m) 0 ++ words_bytes (drop (Z.to_nat (0 + m)) W)) as Ep.
  { rewrite <- words_bytes_zeros, <- words_bytes_app. etrans; [symmetry; exact E|]. f_equal. exact Hs. }
  revert Ep. generalize (words_bytes (drop (Z.to_nat (0 + m)) W)). intros r Er.
  assert (drop (2 * Z.to_nat m) p = r) as ->; [|done].
  by rewrite Er, drop_app_ge, length_replicate, Nat.sub_diag by (rewrite length_replicate; lia).
Qed.

Lemma drop12 : v4_end (drop 12 p).
Proof. split; [by apply Forall_drop|]. rewrite length_drop. lia. Qed.

Lemma v4_tail_true max :
  5 <= max <= 8 -> zeros_at 0 max -> v4_tail p max = Ok true ->
  (max = 6 \/ max = 7) /\ p = replicate 12 0 ++ drop 12 p \/
  max = 5 /\ W !! 5%nat = Some 65535 /\ p = replicate 10 0 ++ [255; 255] ++ drop 12 p.
Proof.
  intros Hm Hz Ht. unfold v4_tail in Ht. destruct (Z.eqb_spec max 5) as [->|].
  - right. split; [done|]. pose proof W_length as HW.
    destruct (lookup_lt_is_Some_2 W 5) as [w Hw]; [lia|].
    destruct (word_at p 5 w Hw) as (a & b & Ha & Hb & E).
    change (2 * Z.of_nat 5) with 10 in *. change (10 + 1) with 11 in *. rewrite Ha, Hb, !Ok_bind in Ht.
    injection Ht as Ht. apply andb_true_iff in Ht as [Ea Eb]. apply Z.eqb_eq in Ea, Eb. subst a b.
    split; [by rewrite Hw, E|]. pose proof (zeros_prefix 5 ltac:(lia) Hz) as Hpre.
    change (2 * Z.to_nat 5)%nat with 10%nat in Hpre.
    rewrite Hpre at 1. f_equal. rewrite Hpre in Ha, Hb.
    assert (length (drop 10 p) = 6%nat) as Hl by (rewrite length_drop; lia).
    change 10 with (zlen (replicate 10 0) + 0) in Ha. change 11 with (zlen (replicate 10 0) + 1) in Hb.
    rewrite get_app_r in Ha, Hb by lia. change 12%nat with (10 + 2)%nat. rewrite <- drop_drop.
    destruct (drop 10 p) as [|x [|y l]]; try done.
    change (Ok x = Ok 255) in Ha. change (Ok y = Ok 255) in Hb.
    injection Ha as ->. injection Hb as ->. done.
  - left. destruct (Z.eqb_spec max 6) as [->|].
    + split; [by left|]. exact (zeros_prefix 6 ltac:(lia) Hz).
    + destruct (Z.eqb_spec max 7) as [->|]; [|done]. split; [by right|].
      exact (zeros_prefix 6 ltac:(lia) (zeros_shorter 0 7 6 Hz ltac:(lia))).
Qed.

Lemma ntop_v4 room len out0 max z0 l0 m0 n0 :
  45 <= len -> zlen out0 + 45 <= room ->
  zero_run 8 p 0 (UNSET, UNSET, 1, 0) = Ok (z0, l0, m0, n0) ->
  (if m0 <? n0 then (l0, n0) else (z0, m0)) = (0, max) ->
  2 <= max <= 8 -> zeros_at 0 max -> v4_tail p max = Ok true ->
  exists ws2,
    (ws2 = [] /\ p = replicate 12 0 ++ drop 12 p \/ ws2 = [65535] /\ p = replicate 10 0 ++ [255; 255] ++ drop 12 p) /\
    let text := zero_text [] ws2 (Some (Tail_v4 (drop 12 p))) in
    ngx_inet6_ntop room p len out0 = Ok (out0 ++ text) /\ zlen text <= 39.
Proof.
  intros Hl45 Hroom Hrun Hsel Hm Hzeros Htail. unfold ngx_inet6_ntop, NGX_INET6_ADDRSTRLEN.
  destruct (Z.ltb_spec len 45); [lia|]. rewrite Hrun, Ok_bind, Hsel. change (0 =? 0) with true. cbn iota.
  rewrite Htail, Ok_bind, write_at_ok, Ok_bind by (change (zlen (str ":")) with 1; lia). cbn iota.
  assert (5 <= max) as H5.
  { unfold v4_tail in Htail. destruct (Z.eqb_spec max 5), (Z.eqb_spec max 6), (Z.eqb_spec max 7); (lia || done). }
  pose proof (print_head room 12 0 max out0 ltac:(lia) ltac:(lia) ltac:(lia) ltac:(lia) ltac:(lia)) as Hhead.
  change (2 * 0) with 0 in Hhead. change (if 0 =? 0 then str ":" else []) with (str ":") in Hhead.
  change (7 - Z.to_nat 0)%nat with 7%nat in Hhead. change (take (Z.to_nat 0) W) with (@nil Z) in Hhead.
  cbn match in Hhead. rewrite Hhead. clear Hhead.
  change (12 =? 12) with true. cbn iota.
  destruct drop12 as [Hqb Hql].
  assert (exists ws2, (ws2 = [] /\ p = replicate 12 0 ++ drop 12 p \/
    ws2 = [65535] /\ p = replicate 10 0 ++ [255; 255] ++ drop 12 p) /\
    print_words 7 room p 12 0 max (2 * Z.of_nat (Z.to_nat (0 + max))) (out0 ++ str ":" ++ str ":")
    = Ok (out0 ++ str ":" ++ str ":" ++ colon_words ws2)) as (ws2 & Hws2 & ->).
  { destruct (v4_tail_true max ltac:(lia) Hzeros Htail) as [[Hm6 Hpre]|(-> & Hw & Hpre)].
    - exists []. split; [by left|]. change (colon_words []) with (@nil Z). rewrite app_nil_r.
      apply print_stop. lia.
    - exists [65535]. split; [by right|]. change (2 * Z.of_nat (Z.to_nat (0 + 5))) with (2 * Z.of_nat 5).
      change 7%nat with (S 6). rewrite (print_word room 12 0 5 6 5 65535); [|done|lia|lia|].
      + rewrite print_stop by lia. change (2 * Z.of_nat 5 <? 14) with true. cbn iota.
        by rewrite <- !app_assoc.
      + rewrite !zlen_app. change (zlen (str ":")) with 1. lia. }
  rewrite Ok_bind. unfold print_in.
  destruct (drop 12 p) as [|a [|b [|c [|d [|]]]]] eqn:Eq; try done.
  change (get [a; b; c; d] 0) with (Ok a). change (get [a; b; c; d] 1) with (Ok b).
  change (get [a; b; c; d] 2) with (Ok c). change (get [a; b; c; d] 3) with (Ok d). rewrite !Ok_bind.
  change (ngx_sprintf ?f ?args) with (ngx_snprintf 18446744073709551615 f args).
  rewrite print_inet, Ok_bind by (done || lia).
  pose proof (inet_text_length [a; b; c; d] Hqb) as Htl.
  assert (zlen (colon_words ws2) <= 5) as Hc2.
  { destruct Hws2 as [[-> _]|[-> _]]; [done|]. apply (zlen_colon_words [65535]). by apply Forall_cons_2. }
  rewrite write_at_ok by (rewrite !zlen_app; change (zlen (str ":")) with 1; lia).
  exists ws2. split; [done|]. cbv zeta. unfold zero_text. cbn [end_text tail_text].
  split; [by rewrite <- !app_assoc|]. rewrite !zlen_app. change (zlen (str ":")) with 1. lia.
Qed.

(** What [ngx_inet6_ntop] writes, behind whatever is there already. *)
Lemma ntop_form room len out0 :
  45 <= len -> zlen out0 + 45 <= room ->
  exists text, ngx_inet6_ntop room p len out0 = Ok (out0 ++ text) /\ zlen text <= 39 /\ form text.
Proof.
  intros Hl Hr. destruct longest_run as (zero & max & z & l & m & n & Hrun & Hsel & Hok).
  destruct Hok as [[-> _]|(k & -> & Hk & Hm & Hkm & Hz)]; [by eapply ntop_full|].
  destruct (Z.eqb_spec (2 * k) 0) as [E|E].
  - assert (k = 0) as -> by lia.
    assert (exists b, v4_tail p max = Ok b) as (b & Hb).
    { unfold v4_tail. destruct (get_ok p 10) as (? & ->); [unfold zlen; lia|].
      destruct (get_ok p 11) as (? & ->); [unfold zlen; lia|]. destruct (get_ok p 14) as (? & ->); [unfold zlen; lia|].
      destruct (get_ok p 15) as (? & ->); [unfold zlen; lia|]. rewrite !Ok_bind. repeat case_match; eauto. }
    destruct b.
    + destruct (ntop_v4 room len out0 max z l m n) as (ws2 & Hws2 & Hntop & Htext); try (done || lia).
      eexists. split; [exact Hntop|]. split; [done|]. apply (Form_v4 _ ws2 (drop 12 p)); [done|apply drop12|done].
    + eapply ntop_plain; (done || lia).
  - eapply ntop_plain; try done. by destruct (Z.eqb_spec (2 * k) 0).
Qed.
(** The printed text is read back, unless it ends in the IPv4 address of all ones. *)
Definition v4_ones : Prop := p = replicate 12 0 ++ all_ones \/ p = replicate 10 0 ++ [255; 255] ++ all_ones.

Lemma form_read text addr :
  form text -> ~ v4_ones -> length addr = 16%nat -> ngx_inet6_addr text addr = Ok (NGX_OK, p).
Proof.
  intros Hf Hn Hl. destruct (words_of_spec 8 p Hlen Hp) as (HW & HF & E).
  assert (zlen p = 16) as H16 by (unfold zlen; lia).
  destruct Hf as [ws w -> HWs|ws1 m ws2 w -> HWs Hm|ws1 m -> HWs Hm|ws2 q -> [Hqb Hql] Hws2].
  - rewrite HWs in HF, E. apply Forall_app in HF as [HFs HFw]. apply Forall_cons_1 in HFw as [HFw _].
    rewrite words_bytes_app in E. change (words_bytes [w]) with (low_bytes w ++ []) in E. rewrite app_nil_r in E.
    rewrite inet6_read_full; [cbn [tail_bytes]; by rewrite E|done|done| |done].
    rewrite <- E, zlen_app, zlen_words_bytes in H16. exact H16.
  - rewrite HWs in HF, E. apply Forall_app in HF as [HF1 HF]. apply Forall_app in HF as [_ HF].
    apply Forall_app in HF as [HF2 HFw]. apply Forall_cons_1 in HFw as [HFw _].
    rewrite !words_bytes_app, words_bytes_zeros in E.
    change (words_bytes [w]) with (low_bytes w ++ []) in E. rewrite app_nil_r in E.
    assert (2 * zlen ws1 + zlen (end_bytes ws2 (Some (Tail_word w))) = 16 - 2 * Z.of_nat m) as Hsize.
    { rewrite <- E in H16. rewrite !zlen_app, zlen_words_bytes, zlen_replicate in H16.
      cbn [end_bytes tail_bytes]. rewrite zlen_app. lia. }
    rewrite inet6_read_zero; [|done|done|done|lia|done]. rewrite Hsize.
    replace (Z.to_nat (16 - (16 - 2 * Z.of_nat m))) with (2 * m)%nat by lia. cbn [end_bytes tail_bytes]. by rewrite E.
  - rewrite HWs in HF, E. apply Forall_app in HF as [HF1 _]. rewrite words_bytes_app, words_bytes_zeros in E.
    assert (2 * zlen ws1 = 16 - 2 * Z.of_nat m) as Hsize.
    { rewrite <- E in H16. rewrite !zlen_app, zlen_words_bytes, zlen_replicate in H16. lia. }
    rewrite inet6_read_zero; [|done|done|done|cbn [end_bytes]; change (zlen (@nil Z)) with 0; lia|done].
    cbn [end_bytes]. change (zlen (@nil Z)) with 0. rewrite Hsize, app_nil_r.
    by replace (Z.to_nat (16 - (16 - 2 * Z.of_nat m + 0))) with (2 * m)%nat by lia; rewrite E.
  - assert (q <> all_ones) as Hq.
    { intros ->. apply Hn. unfold v4_ones. tauto. }
    assert (zlen q = 4) as Hzq by (unfold zlen; lia).
    destruct Hws2 as [[-> Ep]|[-> Ep]];
      (rewrite inet6_read_zero; [|done|..|cbn [end_bytes tail_bytes]; rewrite zlen_app, zlen_words_bytes, Hzq; done|done]);
      try done; try (by apply Forall_cons_2);
      cbn [end_bytes tail_bytes]; rewrite zlen_app, zlen_words_bytes, Hzq, Ep; reflexivity.
Qed.

End address.

Lemma zeros_at_closed p (m : nat) :
  forallb (fun t => bool_decide (words_of p !! t = Some 0)) (seq 0 m) = true -> zeros_at p 0 (Z.of_nat m).
Proof.
  rewrite forallb_forall. intros H t Ht. specialize (H (Z.to_nat t)). rewrite in_seq in H.
  specialize (H ltac:(lia)). by apply bool_decide_eq_true in H.
Qed.

(** Those two addresses are not. *)
Lemma ones_text_rejected ws2 addr :
  ws2 = [] \/ ws2 = [65535] -> length addr = 16%nat ->
  exists buf, ngx_inet6_addr (zero_text [] ws2 (Some (Tail_v4 all_ones))) addr = Ok (NGX_ERROR, buf).
Proof.
  intros Hws Hl. do 16 (destruct addr as [|? addr]; [done|]). destruct addr; [|done].
  destruct Hws as [-> | ->]; eexists; vm_compute; reflexivity.
Qed.

Lemma ones_rejected p room len :
  45 <= len -> 45 <= room -> bytes p -> v4_ones p ->
  exists text, ngx_inet6_ntop room p len [] = Ok text /\ zlen text <= 39 /\
    forall addr, length addr = 16%nat -> exists buf, ngx_inet6_addr text addr = Ok (NGX_ERROR, buf).
Proof.
  intros Hl Hr Hb Hv.
  assert (exists m, length p = 16%nat /\ zero_run 8 p 0 (UNSET, UNSET, 1, 0) = Ok (0, 0, Z.of_nat m, 0) /\
    (2 <= m <= 8)%nat /\ zeros_at p 0 (Z.of_nat m) /\ v4_tail p (Z.of_nat m) = Ok true /\ drop 12 p = all_ones)
    as (m & Hlen & Hrun & Hm & Hz & Ht & Hq).
  { destruct Hv as [-> | ->]; [exists 6%nat|exists 5%nat];
      (split_and!; [done|reflexivity|lia|lia|by apply zeros_at_closed|reflexivity|reflexivity]). }
  destruct (ntop_v4 p Hb Hlen room len [] (Z.of_nat m) 0 0 (Z.of_nat m) 0) as (ws2 & Hws2 & Hntop & Htext);
    try (done || lia).
  { destruct (Z.ltb_spec (Z.of_nat m) 0); [lia|done]. }
  rewrite Hq in *. eexists. split; [exact Hntop|]. split; [done|]. intros addr Ha.
  apply ones_text_rejected; [tauto|done].
Qed.

(** [ngx_inet6_addr] reads back every address that [ngx_inet_ntop] prints, except
    the two that end in the IPv4 address 255.255.255.255, whose text it rejects; the text
    fits into 39 bytes. Of any other text it leaves 16 bytes, and returns [NGX_OK] or
    [NGX_ERROR]. *)
Theorem inet6_roundtrip p len addr any :
  bytes p -> length p = 16%nat -> bytes addr -> length addr = 16%nat -> 45 <= len ->
  (exists text, ngx_inet_ntop false p len = Ok text /\ zlen text <= 39 /\
    (~ v4_ones p -> ngx_inet6_addr text addr = Ok (NGX_OK, p)) /\
    (v4_ones p -> exists buf, ngx_inet6_addr text addr = Ok (NGX_ERROR, buf))) /\
  (exists rc buf, ngx_inet6_addr any addr = Ok (rc, buf) /\ length buf = 16%nat /\ bytes buf /\
    (rc = NGX_OK \/ rc = NGX_ERROR)).
Proof.
  intros Hp Hlen Ha Hal Hl. split; [|by apply inet6_addr_safe]. unfold ngx_inet_ntop.
  assert (v4_ones p \/ ~ v4_ones p) as [Hv|Hv].
  { unfold v4_ones. destruct (decide (p = replicate 12 0 ++ all_ones)); [by left; left|].
    destruct (decide (p = replicate 10 0 ++ [255; 255] ++ all_ones)); [by left; right|]. right. tauto. }
  - destruct (ones_rejected p len len) as (text & Ht & Hs & Hr); try done. exists text. split_and!; try done. intros _. by apply Hr.
  - destruct (ntop_form p Hp Hlen len len []) as (text & Ht & Hs & Hf); [done|done|].
    exists text. split; [done|]. split; [done|]. split; [|done]. intros _. by apply form_read.
Qed.

Lemma inet6_roundtrip_witness :
  let p := [32; 1; 13; 184; 0; 0; 0; 0; 0; 1; 0; 0; 0; 0; 0; 1] in
  exists text, ngx_inet_ntop false p 45 = Ok text /\ ngx_inet6_addr text (replicate 16 0) = Ok (NGX_OK, p).
Proof.
  cbv zeta. destruct (inet6_roundtrip [32; 1; 13; 184; 0; 0; 0; 0; 0; 1; 0; 0; 0; 0; 0; 1] 45 (replicate 16 0) [])
    as [(text & H1 & _ & H2 & _) _].
  - repeat (apply Forall_cons_2; [lia|]). by apply Forall_nil_2.
  - reflexivity.
  - repeat (apply Forall_cons_2; [lia|]). by apply Forall_nil_2.
  - reflexivity.
  - lia.
  - exists text. split; [exact H1|]. apply H2. intros [H|H]; discriminate H.
Defined.
