(* ===== verification/InetCidr.v ===== *)
(** * Address ranges

    [ngx_ptocidr] turns a text into a range, [ngx_cidr_match] decides whether an
    address is in it: exactly when their first bits agree. *)

From S2P Require Import Prelude SprintfSpec Numeric NumericSpec Inet InetSpec Inet6Spec.

(** ** Bits *)

Definition byte_bits (a : Z) : list bool := map (Z.testbit a) [7; 6; 5; 4; 3; 2; 1; 0].

Definition bits (l : list Z) : list bool := concat (map byte_bits l).

Definition bits_value (l : list bool) : Z := fold_left (fun v b => v * 2 + (if b : bool then 1 else 0)) l 0.

(** The mask of one byte, [s] bits long. *)
Definition byte_mask (s : Z) : Z := u8 (u32 (Z.shiftl 0xff (8 - s))).

(** The masks of [n] bytes, [k] bits in all. *)
Fixpoint masks (n : nat) (k : Z) : list Z :=
  match n with
  | O => []
  | S n => byte_mask (Z.min k 8) :: masks n (k - Z.min k 8)
  end.

Definition cut (p : list Z) (k : Z) : list Z := zip_with Z.land p (masks (length p) k).

(** For all bytes and lengths of masks. *)
Lemma byte_facts s a :
  0 <= s <= 8 -> is_byte a ->
  take (Z.to_nat s) (byte_bits (Z.land a (byte_mask s))) = take (Z.to_nat s) (byte_bits a) /\
  bits_value (take (Z.to_nat s) (byte_bits a) ++ replicate (8 - Z.to_nat s) false) = Z.land a (byte_mask s).
Proof.
  intros Hs Ha.
  assert (forallb (fun s => forallb (fun a =>
    bool_decide (take s (byte_bits (Z.land (Z.of_nat a) (byte_mask (Z.of_nat s)))) = take s (byte_bits (Z.of_nat a))) &&
    (bits_value (take s (byte_bits (Z.of_nat a)) ++ replicate (8 - s) false)
       =? Z.land (Z.of_nat a) (byte_mask (Z.of_nat s))))
    (seq 0 256)) (seq 0 9) = true) as H by (vm_compute; reflexivity).
  rewrite forallb_forall in H. specialize (H (Z.to_nat s)). rewrite in_seq in H. specialize (H ltac:(lia)).
  rewrite forallb_forall in H. specialize (H (Z.to_nat a)). rewrite in_seq in H. specialize (H ltac:(lia)).
  rewrite !Z2Nat.id in H by lia. apply andb_true_iff in H as [H1 H2].
  apply bool_decide_eq_true in H1. apply Z.eqb_eq in H2. done.
Qed.

(** Masking keeps exactly the first bits of a byte. *)
Lemma byte_mask_bits s a b :
  0 <= s <= 8 -> is_byte a -> is_byte b ->
  Z.land a (byte_mask s) = Z.land b (byte_mask s) <->
  take (Z.to_nat s) (byte_bits a) = take (Z.to_nat s) (byte_bits b).
Proof.
  intros Hs Ha Hb. destruct (byte_facts s a Hs Ha) as [A1 A2]. destruct (byte_facts s b Hs Hb) as [B1 B2].
  split; intros E.
  - by rewrite <- A1, <- B1, E.
  - by rewrite <- A2, <- B2, E.
Qed.

Lemma cut_bits p q k :
  0 <= k -> bytes p -> bytes q -> length p = length q ->
  cut p k = cut q k <-> take (Z.to_nat k) (bits p) = take (Z.to_nat k) (bits q).
Proof.
  unfold cut. intros Hk Hp. revert q k Hk. induction Hp as [|a p Ha Hp IH]; intros [|b q] k Hk Hq Hl; try done.
  apply Forall_cons_1 in Hq as [Hb Hq]. injection Hl as Hl. cbn [length masks zip_with].
  change (bits (a :: p)) with (byte_bits a ++ bits p). change (bits (b :: q)) with (byte_bits b ++ bits q).
  specialize (IH q (k - Z.min k 8) ltac:(lia) Hq Hl). rewrite <- Hl in *.
  rewrite !take_app. change (length (byte_bits a)) with 8%nat. change (length (byte_bits b)) with 8%nat.
  replace (Z.to_nat k - 8)%nat with (Z.to_nat (k - Z.min k 8)) by lia.
  assert (forall x, take (Z.to_nat k) (byte_bits x) = take (Z.to_nat (Z.min k 8)) (byte_bits x)) as Ht.
  { intros x. destruct (decide (k <= 8)); [by rewrite Z.min_l by lia|].
    rewrite Z.min_r by lia. by rewrite !take_ge by (cbn; lia). }
  rewrite !Ht. pose proof (byte_mask_bits (Z.min k 8) a b ltac:(lia) Ha Hb) as Hab.
  split.
  - intros E. injection E as E1 E2. f_equal; tauto.
  - intros E. apply app_inj_1 in E as [E1 E2]; [|by rewrite !length_take].
    f_equal; tauto.
Qed.

(** ** The masks of the code *)

Lemma mask_bytes_spec k p rc :
  0 <= k ->
  mask_bytes k p rc = (cut p k, masks (length p) k, if bool_decide (cut p k = p) then rc else NGX_DONE).
Proof.
  unfold cut. revert k rc. induction p as [|a p IH]; intros k rc Hk; cbn [mask_bytes length masks zip_with]; [done|].
  assert ((if 8 <? k then 8 else k) = Z.min k 8) as -> by (destruct (Z.ltb_spec 8 k); lia).
  fold (byte_mask (Z.min k 8)). rewrite IH by lia.
  destruct (Z.eqb_spec a (Z.land a (byte_mask (Z.min k 8)))) as [E|E].
  - rewrite <- E. do 2 f_equal. apply bool_decide_ext || (repeat case_bool_decide; congruence).
  - repeat case_bool_decide; try done; congruence.
Qed.

Lemma mask_in k :
  0 <= k <= 32 ->
  (if negb (k =? 0) then htonl (u32 (Z.shiftl 0xffffffff (32 - k))) else 0) = u32_of_bytes (masks 4 k).
Proof.
  intros Hk.
  assert (forallb (fun k => let k := Z.of_nat k in
    (if negb (k =? 0) then htonl (u32 (Z.shiftl 0xffffffff (32 - k))) else 0) =? u32_of_bytes (masks 4 k))
    (seq 0 33) = true) as H by (vm_compute; reflexivity).
  rewrite forallb_forall in H. specialize (H (Z.to_nat k)). rewrite in_seq in H. specialize (H ltac:(lia)).
  cbv zeta in H. rewrite Z2Nat.id in H by lia. by apply Z.eqb_eq in H.
Qed.

Lemma u32_split a b c d :
  bytes [a; b; c; d] ->
  u32_of_bytes [a; b; c; d] = Z.lor a (Z.shiftl (Z.lor b (Z.shiftl (Z.lor c (Z.shiftl d 8)) 8)) 8).
Proof.
  intros H. apply bytes_4 in H as (Ha & Hb & Hc & Hd).
  rewrite !lor_shiftl_add by (change (2 ^ 8) with 256; lia). change (2 ^ 8) with 256.
  cbn [u32_of_bytes]. lia.
Qed.

Lemma land_byte a b : is_byte a -> 0 <= b -> is_byte (Z.land a b).
Proof.
  intros Ha Hb. assert (Z.land a b = Z.land (Z.land a b) (Z.ones 8)) as ->.
  { rewrite <- Z.land_assoc, (Z.land_comm b), Z.land_assoc. f_equal.
    rewrite Z.land_ones by lia. by rewrite Z.mod_small by (change (2 ^ 8) with 256; lia). }
  rewrite Z.land_ones by lia. by apply Z.mod_pos_bound.
Qed.

Lemma land_split a b x y :
  is_byte a -> is_byte b ->
  Z.land (Z.lor a (Z.shiftl x 8)) (Z.lor b (Z.shiftl y 8)) = Z.lor (Z.land a b) (Z.shiftl (Z.land x y) 8).
Proof.
  intros Ha Hb. apply Z.bits_inj'. intros i Hi.
  assert (forall v, is_byte v -> 8 <= i -> Z.testbit v i = false) as Hhigh.
  { intros v Hv H8. rewrite <- (Z.mod_small v (2 ^ 8)) by (change (2 ^ 8) with 256; lia).
    by apply Z.mod_pow2_bits_high. }
  rewrite !Z.land_spec, !Z.lor_spec, !Z.land_spec, !Z.shiftl_spec, !Z.land_spec by lia.
  destruct (decide (8 <= i)).
  - rewrite (Hhigh a), (Hhigh b) by done. by destruct (Z.testbit x (i - 8)), (Z.testbit y (i - 8)).
  - rewrite !(Z.testbit_neg_r _ (i - 8)) by lia. by destruct (Z.testbit a i), (Z.testbit b i).
Qed.

Lemma masks_length n k : length (masks n k) = n.
Proof. revert k. induction n as [|n IH]; intros k; cbn; [done|]. by rewrite IH. Qed.

Lemma masks_bytes n k : bytes (masks n k).
Proof.
  revert k. induction n as [|n IH]; intros k; cbn; [done|]. apply Forall_cons_2; [|apply IH].
  unfold byte_mask. apply Z.mod_pos_bound. lia.
Qed.

Lemma cut_byte p k : bytes p -> bytes (cut p k).
Proof.
  unfold cut. intros Hp. revert k. induction Hp as [|a p Ha Hp IH]; intros k; cbn; [done|].
  apply Forall_cons_2; [|apply IH]. apply land_byte; [done|]. apply Z.mod_pos_bound. lia.
Qed.

Lemma cut_length p k : length (cut p k) = length p.
Proof. unfold cut. rewrite length_zip_with, masks_length. lia. Qed.

Lemma cut_cut p k : 0 <= k -> bytes p -> cut (cut p k) k = cut p k.
Proof.
  unfold cut. intros Hk Hp. revert k Hk. induction Hp as [|a p Ha Hp IH]; intros k Hk; cbn; [done|].
  rewrite <- Z.land_assoc, Z.land_diag. f_equal.
  specialize (IH (k - Z.min k 8) ltac:(lia)). rewrite length_zip_with, masks_length in IH.
  rewrite length_zip_with, masks_length. by rewrite Nat.min_id in *.
Qed.

Lemma land_u32 p k :
  bytes p -> length p = 4%nat -> Z.land (u32_of_bytes p) (u32_of_bytes (masks 4 k)) = u32_of_bytes (cut p k).
Proof.
  intros Hp Hl. pose proof (masks_bytes 4 k) as Hm. pose proof (cut_byte p k Hp) as Hc.
  unfold cut in *. rewrite Hl in *. destruct p as [|a [|b [|c [|d [|]]]]]; try done.
  destruct (masks 4 k) as [|m0 [|m1 [|m2 [|m3 [|]]]]] eqn:E; try (pose proof (masks_length 4 k); rewrite E in *; done).
  cbn [zip_with] in *. rewrite !u32_split by done.
  apply bytes_4 in Hp as (? & ? & ? & ?). apply bytes_4 in Hm as (? & ? & ? & ?).
  by rewrite !land_split by done.
Qed.

(** ** The range of a text *)

(** What an address range promises: its first [k] bits decide. *)
Definition in_range (base : list Z) (k : Z) (p : list Z) : bool :=
  bool_decide (take (Z.to_nat k) (bits p) = take (Z.to_nat k) (bits base)).

Lemma strlchr_first l c r :
  forallb (fun x => negb (x =? c)) l = true -> ngx_strlchr (l ++ c :: r) c = Some (l, r).
Proof.
  induction l as [|x l IH]; intros Hl; cbn [app ngx_strlchr].
  - by rewrite Z.eqb_refl.
  - cbn [forallb] in Hl. apply andb_true_iff in Hl as [Hx Hl]. rewrite IH by done. by destruct (x =? c).
Qed.

Lemma strlchr_none l c : forallb (fun x => negb (x =? c)) l = true -> ngx_strlchr l c = None.
Proof.
  induction l as [|x l IH]; intros Hl; cbn [ngx_strlchr]; [done|].
  cbn [forallb] in Hl. apply andb_true_iff in Hl as [Hx Hl]. rewrite IH by done. by destruct (x =? c).
Qed.

Lemma cidr_in_matches base k p port :
  0 <= k <= 32 -> bytes base -> length base = 4%nat -> bytes p -> length p = 4%nat ->
  cidr_matches (AF_INET (u32_of_bytes p) port) (Cidr_in (u32_of_bytes (cut base k)) (u32_of_bytes (masks 4 k)))
  = in_range base k p.
Proof.
  intros Hk Hb Hbl Hp Hpl. cbn [cidr_matches]. rewrite land_u32 by done. unfold in_range.
  assert (forall b, b = bool_decide (cut p k = cut base k) -> b = bool_decide
    (take (Z.to_nat k) (bits p) = take (Z.to_nat k) (bits base))) as Hbits.
  { intros b ->. apply bool_decide_ext. apply cut_bits; (done || lia || congruence). }
  apply Hbits. destruct (Z.eqb_spec (u32_of_bytes (cut p k)) (u32_of_bytes (cut base k))) as [E|E].
  - symmetry. apply bool_decide_eq_true.
    apply u32_of_bytes_inj; (done || by apply cut_byte || by rewrite cut_length).
  - symmetry. apply bool_decide_eq_false. congruence.
Qed.

Lemma cidr_in6_matches base k p port :
  0 <= k -> bytes base -> length base = 16%nat -> bytes p -> length p = 16%nat ->
  cidr_matches (AF_INET6 p port) (Cidr_in6 (cut base k) (masks 16 k)) = in_range base k p.
Proof.
  intros Hk Hb Hbl Hp Hpl. cbn [cidr_matches]. unfold in_range.
  assert (zip_with Z.land p (masks 16 k) = cut p k) as -> by (unfold cut; by rewrite Hpl).
  apply bool_decide_ext. apply cut_bits; (done || lia || congruence).
Qed.

(** ** What the two functions promise together *)

(** The bytes of an address text: four numbers with dots between them, or else the fields
    of an IPv6 address. *)
Definition address_of (text : list Z) : option (list Z) :=
  match ipv4 text with Some p => Some p | None => ipv6 text end.

Definition width (p : list Z) : Z := 8 * zlen p.

(** The range of a text: an address, and how many of its bits count. *)
Definition range_of (text : list Z) : option (list Z * Z) :=
  match split_on "/"%chr text with
  | [addr] => base ← address_of addr; Some (base, width base)
  | [addr; mask] =>
      base ← address_of addr;
      k ← decimal mask;
      if k <=? width base then Some (base, k) else None
  | _ => None
  end.

(** The bytes of a socket address; an IPv4 address mapped into IPv6 counts as IPv4. *)
Definition address_bytes (sa : ngx_sockaddr_t) : option (list Z) :=
  match sa with
  | AF_INET a _ => Some (bytes_of_u32 a)
  | AF_INET6 p _ => Some (if v4_mapped p then drop 12 p else p)
  | AF_UNIX _ => None
  end.

Definition in_text (sa : ngx_sockaddr_t) (text : list Z) : bool :=
  match address_bytes sa, range_of text with
  | Some p, Some (base, k) => bool_decide (length p = length base) && in_range base k p
  | _, _ => false
  end.

(** Whether no bit of the base is set behind the first [k]. *)
Definition aligned (base : list Z) (k : Z) : bool := forallb negb (drop (Z.to_nat k) (bits base)).

Lemma byte_aligned s a :
  0 <= s <= 8 -> is_byte a ->
  Z.land a (byte_mask s) = a <-> forallb negb (drop (Z.to_nat s) (byte_bits a)) = true.
Proof.
  intros Hs Ha.
  assert (forallb (fun s => forallb (fun a =>
    Bool.eqb (Z.land (Z.of_nat a) (byte_mask (Z.of_nat s)) =? Z.of_nat a) 
      (forallb negb (drop s (byte_bits (Z.of_nat a))))) (seq 0 256)) (seq 0 9) = true) as H by (vm_compute; reflexivity).
  rewrite forallb_forall in H. specialize (H (Z.to_nat s)). rewrite in_seq in H. specialize (H ltac:(lia)).
  rewrite forallb_forall in H. specialize (H (Z.to_nat a)). rewrite in_seq in H. specialize (H ltac:(lia)).
  rewrite !Z2Nat.id in H by lia. apply Bool.eqb_prop in H. by rewrite <- H, Z.eqb_eq.
Qed.

Lemma cut_aligned p k : 0 <= k -> bytes p -> cut p k = p <-> aligned p k = true.
Proof.
  unfold cut, aligned. intros Hk Hp. revert k Hk. induction Hp as [|a p Ha Hp IH]; intros k Hk.
  { cbn. rewrite drop_nil. done. }
  cbn [length masks zip_with]. change (bits (a :: p)) with (byte_bits a ++ bits p).
  rewrite drop_app, forallb_app, andb_true_iff. change (length (byte_bits a)) with 8%nat.
  replace (Z.to_nat k - 8)%nat with (Z.to_nat (k - Z.min k 8)) by lia.
  rewrite <- (IH (k - Z.min k 8)) by lia.
  assert (drop (Z.to_nat k) (byte_bits a) = drop (Z.to_nat (Z.min k 8)) (byte_bits a)) as ->.
  { destruct (decide (k <= 8)); [by rewrite Z.min_l by lia|].
    rewrite Z.min_r by lia. by rewrite !drop_ge by (cbn; lia). }
  rewrite <- (byte_aligned (Z.min k 8) a) by (done || lia).
  split; [intros E; injection E as E1 E2; split; congruence|intros [-> ->]; done].
Qed.

Lemma aligned_whole p : aligned p (width p) = true.
Proof.
  unfold aligned, width. rewrite drop_ge; [done|]. unfold zlen.
  assert (length (bits p) = (8 * length p)%nat) as ->; [|lia].
  induction p as [|a p IH]; [done|]. change (bits (a :: p)) with (byte_bits a ++ bits p).
  rewrite length_app, IH. cbn. lia.
Qed.

Lemma cut_whole p : bytes p -> cut p (width p) = p.
Proof. intros Hp. apply cut_aligned; [unfold width; pose proof (zlen_nonneg p); lia|done|apply aligned_whole]. Qed.

Lemma u32_bytes a : 0 <= a < 4294967296 -> bytes (bytes_of_u32 a) /\ u32_of_bytes (bytes_of_u32 a) = a.
Proof.
  intros Ha. unfold bytes_of_u32. change 0xff with (Z.ones 8). rewrite !Z.land_ones, !Z.shiftr_div_pow2 by lia.
  change (2 ^ 8) with 256. change (2 ^ 16) with 65536. change (2 ^ 24) with 16777216.
  split.
  - repeat (apply Forall_cons_2; [by apply Z.mod_pos_bound|]). by apply Forall_nil_2.
  - cbn [u32_of_bytes]. Z.to_euclidean_division_equations. lia.
Qed.

Lemma inet_addr_range text : 0 <= ngx_inet_addr text < 4294967296.
Proof.
  rewrite inet_addr_value. destruct (dotted text) as [l|] eqn:Hd; [|done].
  unfold dotted in Hd. destruct (mapM octet _) as [l'|] eqn:Hm; [|done]. cbn in Hd.
  destruct (Z.eqb_spec (zlen l') 4) as [E|]; [|done]. injection Hd as <-.
  assert (bytes l') as Hb by (by eapply octets_bytes).
  destruct l' as [|a [|b [|c [|d [|]]]]]; try done. apply bytes_4 in Hb as (? & ? & ? & ?).
  cbn [u32_of_bytes]. lia.
Qed.

(** The two kinds of address texts. *)
Lemma address_of_spec text base :
  bytes text -> address_of text = Some base ->
  bytes base /\
  (length base = 4%nat /\ ngx_inet_addr text = u32_of_bytes base /\ (ngx_inet_addr text =? INADDR_NONE) = false \/
   length base = 16%nat /\ (ngx_inet_addr text =? INADDR_NONE) = true /\
   ngx_inet6_addr text (replicate 16 0) = Ok (NGX_OK, base)).
Proof.
  unfold address_of. intros Ht. destruct (ipv4 text) as [q|] eqn:E.
  - intros [= <-]. apply ipv4_dotted in E as [Hd Hne].
    destruct (inet_addr_ok _ _ Hd Hne) as (Hb & Hl & Ha & Hn). rewrite <- Ha in Hn. auto.
  - intros H. apply ipv4_none in E. rewrite E.
    pose proof (inet6_addr_exact text (replicate 16 0) Ht eq_refl) as Hx. rewrite H in Hx. cbn [reads] in Hx.
    destruct (inet6_addr_safe text (replicate 16 0)) as (rc & buf & E' & Hl & Hb & _); [by apply Forall_replicate|done|].
    rewrite E' in Hx. injection Hx as -> ->. rewrite E'. auto.
Qed.

Lemma address_of_none text :
  bytes text -> address_of text = None ->
  (ngx_inet_addr text =? INADDR_NONE) = true /\
  exists rc buf, ngx_inet6_addr text (replicate 16 0) = Ok (rc, buf) /\ (rc =? NGX_OK) = false.
Proof.
  unfold address_of. intros Ht. destruct (ipv4 text) as [q|] eqn:E; [done|]. intros H.
  apply ipv4_none in E. rewrite E. split; [done|].
  pose proof (inet6_addr_exact text (replicate 16 0) Ht eq_refl) as Hx. rewrite H in Hx.
  destruct Hx as [buf ->]. by do 2 eexists.
Qed.

(** The mask is what stands behind the first slash, and no number if there is another. *)
Lemma strlchr_split text x :
  match ngx_strlchr text x with
  | None => split_on x text = [text]
  | Some (l, r) => split_on x text = l :: split_on x r
  end.
Proof.
  induction text as [|c text IH]; [done|]. cbn [ngx_strlchr split_on].
  destruct (c =? x); [done|]. destruct (ngx_strlchr text x) as [[l r]|]; by rewrite IH.
Qed.

Lemma decimal_no_slash mask k : decimal mask = Some k -> split_on "/"%chr mask = [mask].
Proof.
  unfold decimal. intros H. apply split_on_none, digits_no_dot; [done|].
  destruct (forallb is_digit mask); [done|]. by rewrite andb_false_r in H.
Qed.

Lemma range_slash text addr mask :
  bytes text -> ngx_strlchr text "/"%chr = Some (addr, mask) ->
  bytes addr /\
  range_of text = (base ← address_of addr; k ← decimal mask; if k <=? width base then Some (base, k) else None).
Proof.
  intros Ht E. pose proof (strlchr_split text 47) as Hs. rewrite E in Hs. split.
  - destruct (split_on_inv _ _ _ _ Hs) as [_ [[_ ->]|(l & -> & _)]]; [done|]. by apply Forall_app in Ht as [? _].
  - unfold range_of. rewrite Hs. destruct (decimal mask) as [k|] eqn:Hd; [by rewrite (decimal_no_slash _ _ Hd), Hd|].
    assert ((base ← address_of addr; k ← None; if k <=? width base then Some (base, k) else None) = None) as ->
      by (by destruct (address_of addr)).
    destruct (split_on_cons 47 mask) as (m & ms & Em). rewrite Em. destruct ms; [|done].
    destruct (split_on_inv _ _ _ _ Em) as [_ [[_ ->]|(l & _ & El)]]; [rewrite Hd; by destruct (address_of addr)|].
    by destruct (split_on_cons 47 l) as (? & ? & El'); rewrite El' in El.
Qed.

Lemma range_plain text :
  ngx_strlchr text "/"%chr = None -> range_of text = (base ← address_of text; Some (base, width base)).
Proof. intros E. pose proof (strlchr_split text 47) as Hs. rewrite E in Hs. unfold range_of. by rewrite Hs. Qed.

(** The range that is stored. *)
Definition cidr_of (base : list Z) (k : Z) : ngx_cidr_t :=
  if Nat.eqb (length base) 4 then Cidr_in (u32_of_bytes (cut base k)) (u32_of_bytes (masks 4 k))
  else Cidr_in6 (cut base k) (masks 16 k).

Lemma u32_cut_eqb base k :
  0 <= k -> bytes base -> length base = 4%nat ->
  (u32_of_bytes base =? u32_of_bytes (cut base k)) = aligned base k.
Proof.
  intros Hk Hb Hl. pose proof (cut_aligned base k Hk Hb) as Ha.
  destruct (Z.eqb_spec (u32_of_bytes base) (u32_of_bytes (cut base k))) as [E|E].
  - apply u32_of_bytes_inj in E; [|done|by apply cut_byte|done|by rewrite cut_length]. symmetry. by apply Ha.
  - destruct (aligned base k); [|done]. destruct E. f_equal. symmetry. by apply Ha.
Qed.

Lemma ptocidr_range text :
  bytes text ->
  ngx_ptocidr text
  = match range_of text with
    | None => Ok (NGX_ERROR, None)
    | Some (base, k) => Ok (if aligned base k then NGX_OK else NGX_DONE, Some (cidr_of base k))
    end.
Proof.
  intros Ht. unfold ngx_ptocidr.
  destruct (ngx_strlchr text 47) as [[addr mask]|] eqn:Es.
  - destruct (range_slash _ _ _ Ht Es) as [Hbytes ->].
    destruct (address_of addr) as [base|] eqn:Ha; cbn [option_bind mbind].
    + apply address_of_spec in Ha as [Hb [(Hl & Ev & E)|(Hl & E & E6)]]; [| |done]; rewrite E; cbn [negb].
      * rewrite ngx_atoi_decimal, Ok_bind, Ev. assert (width base = 32) as -> by (unfold width, zlen; lia).
        destruct (decimal mask) as [k|] eqn:Hd; cbn [or_error default option_bind mbind from_option id]; [|done].
        apply decimal_nonneg in Hd as [Hk _]. destruct (Z.eqb_spec k NGX_ERROR); [unfold NGX_ERROR in *; lia|].
        destruct (Z.ltb_spec 32 k), (Z.leb_spec k 32); try lia; [done|].
        rewrite mask_in, land_u32, u32_cut_eqb by (done || lia). unfold cidr_of. by rewrite Hl.
      * rewrite E6, Ok_bind. change (NGX_OK =? NGX_OK) with true. cbn iota.
        rewrite ngx_atoi_decimal, Ok_bind. assert (width base = 128) as -> by (unfold width, zlen; lia).
        destruct (decimal mask) as [k|] eqn:Hd; cbn [or_error default option_bind mbind from_option id]; [|done].
        apply decimal_nonneg in Hd as [Hk _]. destruct (Z.eqb_spec k NGX_ERROR); [unfold NGX_ERROR in *; lia|].
        destruct (Z.ltb_spec 128 k), (Z.leb_spec k 128); try lia; [done|].
        rewrite mask_bytes_spec by done. unfold cidr_of. rewrite Hl. cbn [Nat.eqb].
        pose proof (cut_aligned base k Hk Hb) as Hca. case_bool_decide as Hc.
        -- by rewrite (proj1 Hca Hc).
        -- destruct (aligned base k); [destruct Hc; by apply Hca|done].
    + apply address_of_none in Ha as (-> & rc & buf & -> & Hrc); [|done]. cbn [negb]. rewrite Ok_bind, Hrc. done.
  - rewrite (range_plain _ Es). destruct (address_of text) as [base|] eqn:Ha; cbn [option_bind mbind].
    + rewrite aligned_whole. unfold cidr_of.
      apply address_of_spec in Ha as [Hb [(Hl & Ev & E)|(Hl & E & E6)]]; [| |done];
        rewrite E, Hl, cut_whole by done; cbn [negb Nat.eqb].
      * rewrite Ev. unfold width, zlen. rewrite Hl. reflexivity.
      * rewrite E6, Ok_bind. unfold width, zlen. rewrite Hl. reflexivity.
    + apply address_of_none in Ha as (-> & rc & buf & -> & Hrc); [|done]. cbn [negb]. rewrite Ok_bind, Hrc. done.
Qed.

(** Addresses as they are in memory. *)
Definition sock_ok (sa : ngx_sockaddr_t) : Prop :=
  match sa with
  | AF_INET a _ => 0 <= a < 4294967296
  | AF_INET6 p _ => bytes p /\ length p = 16%nat
  | AF_UNIX _ => True
  end.

Lemma unmap_spec sa :
  sock_ok sa ->
  exists sa', unmap sa = Ok sa' /\
    match sa' with
    | AF_INET a _ => exists p, address_bytes sa = Some p /\ bytes p /\ length p = 4%nat /\ a = u32_of_bytes p
    | AF_INET6 p _ => address_bytes sa = Some p /\ bytes p /\ length p = 16%nat
    | AF_UNIX _ => address_bytes sa = None
    end.
Proof.
  destruct sa as [a port|p port|path]; cbn [sock_ok unmap address_bytes].
  - intros Ha. eexists. split; [done|]. destruct (u32_bytes a Ha). exists (bytes_of_u32 a). auto.
  - intros [Hb Hl]. destruct (v4_mapped p) eqn:Hm; [|by eexists].
    clear Hm. do 16 (destruct p as [|? p]; [discriminate Hl|]). destruct p; [|discriminate Hl].
    eexists. split; [reflexivity|]. eexists. split; [reflexivity|]. cbn [drop].
    apply (Forall_drop _ 12) in Hb. cbn [drop] in Hb. split; [done|]. split; [done|].
    rewrite <- htonl_spec by done. f_equal. apply bytes_4 in Hb as (? & ? & ? & ?).
    rewrite !Z.shiftl_mul_pow2 by lia. change (2 ^ 24) with 16777216. change (2 ^ 16) with 65536. change (2 ^ 8) with 256.
    rewrite u32_id by lia. lia.
  - intros _. by eexists.
Qed.

Lemma range_of_spec text base k :
  bytes text -> range_of text = Some (base, k) ->
  bytes base /\ 0 <= k <= width base /\ (length base = 4%nat \/ length base = 16%nat).
Proof.
  intros Ht H.
  assert (exists addr, bytes addr /\ address_of addr = Some base /\ 0 <= k <= width base) as (addr & Hbytes & Ha & Hk).
  { assert (0 <= width base) by (unfold width; pose proof (zlen_nonneg base); lia).
    destruct (ngx_strlchr text 47) as [[addr mask]|] eqn:Es.
    - destruct (range_slash _ _ _ Ht Es) as [Hbytes E]. rewrite E in H.
      destruct (address_of addr) eqn:Ha; [|done]. cbn in H. destruct (decimal mask) eqn:Hd; [|done]. cbn in H.
      apply decimal_nonneg in Hd as [Hd _]. destruct (Z.leb_spec z (width l)); [|done]. injection H as -> ->. eauto.
    - rewrite (range_plain _ Es) in H. destruct (address_of text) eqn:Ha; [|done]. cbn in H.
      injection H as -> <-. exists text. split; [done|]. split; [done|lia]. }
  apply address_of_spec in Ha as [Hb [(Hl & _)|(Hl & _)]]; auto.
Qed.

Lemma cidr_of_matches sa sa' text base k :
  sock_ok sa -> unmap sa = Ok sa' -> bytes text -> range_of text = Some (base, k) ->
  cidr_matches sa' (cidr_of base k) = in_text sa text.
Proof.
  intros Hs Hu Ht Hr. destruct (unmap_spec sa Hs) as (sa'' & Hu' & Hsa). rewrite Hu in Hu'. injection Hu' as <-.
  apply range_of_spec in Hr as Hbase; [|done]. destruct Hbase as (Hb & Hk & Hl). unfold in_text. rewrite Hr. unfold width, zlen in Hk.
  unfold cidr_of. destruct sa' as [a port|p port|path].
  - destruct Hsa as (p & -> & Hpb & Hpl & ->). rewrite Hpl.
    destruct Hl as [Hl|Hl]; rewrite Hl; cbn [Nat.eqb]; [|done]. by rewrite cidr_in_matches by (done || lia).
  - destruct Hsa as (-> & Hpb & Hpl). rewrite Hpl.
    destruct Hl as [Hl|Hl]; rewrite Hl; cbn [Nat.eqb]; [done|]. by rewrite cidr_in6_matches by (done || lia).
  - rewrite Hsa. by destruct (Nat.eqb (length base) 4).
Qed.

(** C17: The text of a range is an address, or an address, a slash and a decimal number of
    bits that is not above the width of the address. An IPv4 address is four texts of
    digits, which may be empty, with dots between them and no number above 255; an IPv6
    address is eight words of one to four hexadecimal digits with colons between them, of
    which an IPv4 address may stand for the last two and a double colon for one or more
    zeros ([ipv6], which reads the fields between the colons, gives the exact form: a
    colon may stand in front of it all, and the word behind the last colon may be missing
    if there is a double colon); the addresses that are, or end in, the IPv4 text
    255.255.255.255 are not accepted.
    [ngx_ptocidr] fails on any text of bytes that is not of this form, and on any that is
    it returns [NGX_DONE] if the address has bits set behind the number of bits given, all
    bits if none is, and [NGX_OK] if it has not. [ngx_cidr_match] finds an address in
    the ranges made of a list of texts exactly if for one of them these first bits agree,
    an IPv4 address that is mapped into IPv6 taken as IPv4. *)
Theorem cidr_ranges text sa texts cidrs :
  bytes text -> sock_ok sa -> Forall bytes texts ->
  Forall2 (fun t c => exists rc, ngx_ptocidr t = Ok (rc, Some c)) texts cidrs ->
  match range_of text with
  | None => ngx_ptocidr text = Ok (NGX_ERROR, None)
  | Some (base, k) =>
      exists c, ngx_ptocidr text = Ok (if aligned base k then NGX_OK else NGX_DONE, Some c)
  end /\
  ngx_cidr_match sa cidrs = Ok (if existsb (in_text sa) texts then NGX_OK else NGX_DECLINED).
Proof.
  intros Ht Hs Hbs Hts. split.
  { rewrite ptocidr_range by done. destruct (range_of text) as [[base k]|]; eauto. }
  unfold ngx_cidr_match. destruct (unmap_spec sa Hs) as (sa' & Hu & _). rewrite Hu, Ok_bind.
  assert (existsb (cidr_matches sa') cidrs = existsb (in_text sa) texts) as ->; [|done].
  induction Hts as [|t c texts cidrs (rc & Hc) _ IH]; [done|].
  apply Forall_cons_1 in Hbs as [Hb Hbs]. cbn [existsb]. rewrite (IH Hbs). f_equal.
  rewrite ptocidr_range in Hc by done. destruct (range_of t) as [[base k]|] eqn:Hr; [|done].
  injection Hc as _ <-. by apply cidr_of_matches.
Qed.

Lemma cidr_ranges_witness :
  (exists c, ngx_ptocidr (str "2001:db8::1/32") = Ok (NGX_DONE, Some c)) /\
  ngx_cidr_match (AF_INET (u32_of_bytes [10; 1; 255; 3]) 0) [cidr_of [192; 168; 0; 0] 16; cidr_of [10; 1; 0; 0] 9]
  = Ok NGX_OK.
Proof.
  apply (cidr_ranges (str "2001:db8::1/32") (AF_INET (u32_of_bytes [10; 1; 255; 3]) 0)
    [str "192.168.0.0/16"; str "10.1.0.0/9"]).
  - vm_compute. repeat constructor; intros [=].
  - vm_compute. split; done.
  - vm_compute. repeat constructor; intros [=].
  - repeat constructor; (eexists; vm_compute; reflexivity).
Defined.
