(* ===== verification/InetSock.v ===== *)
(** * Socket addresses

    The text of an address with its port, and that it is read back. *)

From S2P Require Import Prelude Numeric NumericSpec Sprintf SprintfSpec Inet InetSpec Inet6Spec Inet6Print InetCidr.

(** ** The characters of addresses *)

(** The characters of the texts of addresses. *)
Definition addr_char (c : Z) : Prop := c = ":"%chr \/ c = "."%chr \/ is_Some (hex_digit c).

Lemma addr_char_bracket c : addr_char c -> c <> "]"%chr.
Proof. intros [->|[->|[w H]]]; [done|done|]. intros ->. done. Qed.

Ltac punctuation := repeat (apply Forall_cons_2; [first [by left | by right; left]|]); by apply Forall_nil_2.

Lemma hex_chars v l w : hex_from v l = Some w -> Forall addr_char l.
Proof.
  revert v. induction l as [|c l IH]; intros v H; [by apply Forall_nil_2|]. cbn [hex_from] in H.
  destruct (hex_digit c) eqn:Hd; [|done]. apply Forall_cons_2; [by right; right|by eapply IH].
Qed.

Lemma num_chars h v : 0 <= v < 18446744073709551616 -> h = 0 \/ h = 1 -> Forall addr_char (num h v).
Proof.
  intros Hv [-> | ->].
  - destruct (num_spec 0 v Hv) as (_ & Hd & _). destruct Hd as [Hd _]. apply Forall_forall. intros c Hc. rewrite forallb_forall in Hd.
    apply list_elem_of_In, Hd in Hc. right. right. unfold hex_digit. fold (is_digit c). rewrite Hc. by eexists.
  - destruct (num_spec 1 v Hv) as (_ & [_ Hd] & _). by eapply hex_chars.
Qed.

Lemma colon_words_chars ws : Forall is_word ws -> Forall addr_char (colon_words ws).
Proof.
  induction 1 as [|w ws Hw _ IH]; [by apply Forall_nil_2|].
  change (colon_words (w :: ws)) with ((num 1 w ++ [58]) ++ colon_words ws). unfold is_word in Hw.
  rewrite !Forall_app. split_and!; [apply num_chars; [lia|by right]|punctuation|done].
Qed.

Lemma inet_text_chars q : bytes q -> Forall addr_char (inet_text q).
Proof.
  intros Hq. destruct q as [|a [|b [|c [|d [|]]]]]; try by apply Forall_nil_2.
  apply bytes_4 in Hq as (Ha & Hb & Hc & Hd). unfold inet_text. rewrite !Forall_app.
  split_and!; first [apply num_chars; [lia|by left] | punctuation].
Qed.

Lemma zero_text_chars ws1 ws2 t :
  Forall is_word ws1 -> Forall is_word ws2 ->
  match t with Some (Tail_word w) => is_word w | Some (Tail_v4 q) => bytes q | None => True end ->
  ":"%chr ∈ zero_text ws1 ws2 t /\ Forall addr_char (zero_text ws1 ws2 t).
Proof.
  intros H1 H2 Ht. unfold zero_text. split.
  - apply elem_of_app. right. apply elem_of_app. left. apply list_elem_of_here.
  - rewrite !Forall_app. split_and!.
    + destruct ws1; [punctuation|by apply colon_words_chars].
    + punctuation.
    + destruct t as [t|]; [|by apply Forall_nil_2]. cbn [end_text]. apply Forall_app.
      split; [by apply colon_words_chars|]. destruct t as [w|q]; cbn [tail_text].
      * unfold is_word in Ht. apply num_chars; [lia|by right].
      * by apply inet_text_chars.
Qed.

Lemma form_chars p text :
  bytes p -> length p = 16%nat -> form p text ->
  ":"%chr ∈ text /\ Forall addr_char text.
Proof.
  intros Hp Hlen Hf. destruct (words_of_spec 8 p Hlen Hp) as (HW & HF & _).
  destruct Hf as [ws w -> HWs|ws1 m ws2 w -> HWs _|ws1 m -> HWs _|ws2 q -> [Hq _] Hws2].
  - rewrite HWs in HF, HW. apply Forall_app in HF as [HFs HFw]. apply Forall_cons_1 in HFw as [HFw _].
    split.
    + destruct ws as [|w0 ws]; [done|]. change (colon_words (w0 :: ws)) with ((num 1 w0 ++ [58]) ++ colon_words ws).
      rewrite !elem_of_app. left. left. right. apply list_elem_of_here.
    + apply Forall_app. split; [by apply colon_words_chars|]. cbn [tail_text]. unfold is_word in HFw.
      apply num_chars; [lia|by right].
  - rewrite HWs in HF. apply Forall_app in HF as [HF1 HF]. apply Forall_app in HF as [_ HF].
    apply Forall_app in HF as [HF2 HFw]. apply Forall_cons_1 in HFw as [HFw _]. by apply zero_text_chars.
  - rewrite HWs in HF. apply Forall_app in HF as [HF1 _]. apply zero_text_chars; (done || by apply Forall_nil_2).
  - apply zero_text_chars; [by apply Forall_nil_2| |done].
    destruct Hws2 as [[-> _]|[-> _]]; [by apply Forall_nil_2|by apply Forall_cons_2].
Qed.

(** ** Texts that are no addresses *)

Lemma inet_addr_none text : dotted text = None -> (ngx_inet_addr text =? INADDR_NONE) = true.
Proof. intros H. rewrite inet_addr_value, H. apply Z.eqb_refl. Qed.

Lemma inet6_bracket rest addr : ngx_inet6_addr ("["%chr :: rest) addr = Ok (NGX_ERROR, addr).
Proof. reflexivity. Qed.

Lemma inet6_dotted a rest addr :
  is_byte a -> ngx_inet6_addr (num 0 a ++ "."%chr :: rest) addr = Ok (NGX_ERROR, addr).
Proof.
  intros Ha. destruct (num_digits a) as [Hd Hv]; [lia|]. pose proof (num_byte a Ha) as Hl.
  destruct (digits_hex (num 0 a) Hd) as [Hb Hh]. destruct (Hh 0) as [w Hw].
  unfold ngx_inet6_addr. destruct (num 0 a) as [|c l] eqn:E; [done|]. cbn [app].
  assert ((c =? 58) = false) as ->.
  { cbn [forallb] in Hd. apply andb_true_iff in Hd as [Hc _]. apply Z.eqb_neq. intros ->. done. }
  change (c :: l ++ 46 :: rest) with ((c :: l) ++ 46 :: rest).
  rewrite (i6_hex _ _ _ _ _ _ _ _ _ w) by (done || lia). cbn [i6_loop]. unfold i6_char.
  change (46 =? 58) with false. change (46 =? 46) with true. cbn [andb i6_nibbles].
  destruct (Z.eqb_spec (0 + zlen (c :: l)) 0); [lia|]. reflexivity.
Qed.

(** ** Ports *)

Lemma htons_arith z : htons z = z mod 256 * 256 + z / 256 mod 256.
Proof.
  unfold htons. change 0xff with (Z.ones 8). rewrite !Z.land_ones, !Z.shiftr_div_pow2 by lia.
  change (2 ^ 8) with 256. pose proof (Z.mod_pos_bound z 256). pose proof (Z.mod_pos_bound (z / 256) 256).
  by rewrite shiftl_lor_add by (change (2 ^ 8) with 256; lia).
Qed.

Lemma htons_range z : 0 <= htons z < 65536.
Proof. rewrite htons_arith. Z.to_euclidean_division_equations. lia. Qed.

Lemma htons_htons z : 0 <= z < 65536 -> htons (htons z) = z.
Proof. intros Hz. rewrite !htons_arith. Z.to_euclidean_division_equations. lia. Qed.

Lemma num_port v : 0 <= v < 65536 -> 1 <= zlen (num 0 v) <= 5.
Proof.
  intros Hv. destruct (num_spec 0 v) as (_ & _ & H1 & Hk); [lia|]. split; [done|].
  apply Hk; [lia|]. change (base 0 ^ 5) with 100000. lia.
Qed.

Lemma port_read v : 0 <= v < 65536 -> ngx_atoi (num 0 v) = Ok v.
Proof.
  intros Hv. rewrite ngx_atoi_decimal. destruct (num_digits v) as [Hd Hval]; [lia|].
  pose proof (num_port v Hv) as Hl. unfold decimal, dec, representable. rewrite Hd, Hval.
  destruct (Z.eqb_spec (zlen (num 0 v)) 0); [lia|]. cbn [negb andb].
  destruct (Z.leb_spec v NGX_MAX_INT_T_VALUE); [done|unfold NGX_MAX_INT_T_VALUE in *; lia].
Qed.

Lemma print_inet_port cap a b c d port :
  bytes [a; b; c; d] -> 0 <= port < 65536 -> 21 <= cap ->
  ngx_snprintf cap (str "%ud.%ud.%ud.%ud:%d") [A32 a; A32 b; A32 c; A32 d; A32 port]
  = Ok (inet_text [a; b; c; d] ++ str ":" ++ num 0 port).
Proof.
  intros Hb Hport Hcap. apply bytes_4 in Hb as (Ha' & Hb' & Hc' & Hd').
  pose proof (num_byte a). pose proof (num_byte b). pose proof (num_byte c). pose proof (num_byte d).
  pose proof (num_port port Hport).
  num_start. do 9 num_step. cbn [vslprintf_loop]. unfold inet_text. by rewrite <- !app_assoc.
Qed.

Lemma print_port port :
  0 <= port < 65536 -> ngx_sprintf (str "]:%d") [A32 port] = Ok (str "]:" ++ num 0 port).
Proof.
  intros Hport. pose proof (num_port port Hport). num_start. do 3 num_step. reflexivity.
Qed.

(** ** Reading back *)

(** The addresses that have a text. *)
Definition sock_printable (sa : ngx_sockaddr_t) : Prop :=
  sock_ok sa /\
  match sa with
  | AF_INET a port => bytes_of_u32 a <> all_ones /\ 0 <= port < 65536
  | AF_INET6 p port => ~ v4_ones p /\ 0 <= port < 65536
  | AF_UNIX _ => False
  end.

Lemma parse_inet p port :
  bytes p -> length p = 4%nat -> p <> all_ones ->
  ngx_parse_addr true (inet_text p) = Ok (NGX_OK, Some (AF_INET (u32_of_bytes p) 0)) /\
  ngx_parse_addr true (inet_text p ++ ":"%chr :: port) = Ok (NGX_DECLINED, None).
Proof.
  intros Hp Hl Hne. unfold ngx_parse_addr. pose proof (dotted_inet_text p Hp Hl) as Hd. split.
  - destruct (inet_addr_ok _ _ Hd Hne) as (_ & _ & -> & ->). done.
  - rewrite inet_addr_none; [cbn [negb]|].
    + destruct p as [|a [|b [|c [|d [|]]]]]; try done. apply bytes_4 in Hp as (Ha & _).
      unfold inet_text. rewrite <- !app_assoc. change (str "." ++ ?l) with (46 :: l). by rewrite inet6_dotted.
    + apply (not_dotted ":"%chr); [|done|done]. apply elem_of_app. right. apply list_elem_of_here.
Qed.

Lemma parse_inet6 p text :
  bytes p -> length p = 16%nat -> ~ v4_ones p -> form p text ->
  ngx_parse_addr true text = Ok (NGX_OK, Some (AF_INET6 p 0)).
Proof.
  intros Hp Hl Hv Hf. destruct (form_chars p text Hp Hl Hf) as [Hc _]. unfold ngx_parse_addr.
  rewrite inet_addr_none by (by apply (not_dotted ":"%chr)). cbn [negb].
  by rewrite (form_read p Hp Hl text) by done.
Qed.

Lemma parse_bracket rest : ngx_parse_addr true ("["%chr :: rest) = Ok (NGX_DECLINED, None).
Proof.
  unfold ngx_parse_addr. rewrite inet_addr_none by (apply (not_dotted "["%chr); [apply list_elem_of_here|done|done]).
  cbn [negb]. by rewrite inet6_bracket.
Qed.

Lemma forall_not_eqb l x : Forall (fun c => c <> x) l -> forallb (fun c => negb (c =? x)) l = true.
Proof. induction 1 as [|c l Hc _ IH]; [done|]. cbn [forallb]. rewrite IH. by destruct (Z.eqb_spec c x). Qed.

Lemma inet_no_colon p : bytes p -> Forall (fun c => c <> ":"%chr) (inet_text p).
Proof.
  intros Hp. destruct (decide (length p = 4%nat)) as [Hl|Hl].
  - pose proof (dotted_inet_text p Hp Hl) as Hd. apply dotted_chars in Hd. eapply Forall_impl; [exact Hd|].
    intros c [Hc|Hc] ->; done.
  - destruct p as [|a [|b [|c [|d [|]]]]]; try done; by apply Forall_nil_2.
Qed.

Lemma parse_port text addr port sa :
  ngx_parse_addr true text = Ok (NGX_DECLINED, None) -> split_port text = Ok (Some (addr, num 0 port)) ->
  1 <= port < 65536 -> ngx_parse_addr true addr = Ok (NGX_OK, Some sa) ->
  ngx_parse_addr_port true text = Ok (NGX_OK, Some (ngx_inet_set_port sa port)).
Proof.
  intros Hd Hs Hp Ha. unfold ngx_parse_addr_port. rewrite Hd, Ok_bind. cbn [negb]. change (NGX_DECLINED =? NGX_DECLINED) with true.
  cbn [negb]. rewrite Hs, Ok_bind, port_read, Ok_bind by lia.
  destruct (Z.ltb_spec port 1), (Z.ltb_spec 65535 port); try lia. cbn [orb]. by rewrite Ha.
Qed.

(** The text that [ngx_sock_ntop] writes of an IPv4 or IPv6 address with a port other
    than 0 is at most 47 bytes long, and [ngx_parse_addr_port] reads the same address from
    it; without the port, [ngx_parse_addr] reads the address from it. The two addresses
    whose text is no address are excepted. *)
Theorem sock_ntop_roundtrip sa room len :
  sock_printable sa -> 53 <= len <= room ->
  (exists text, ngx_sock_ntop sa room len false = Ok (text, zlen text) /\
    ngx_parse_addr true text = Ok (NGX_OK, Some (ngx_inet_set_port sa 0))) /\
  (ngx_inet_get_port sa <> 0 ->
    exists text sa', ngx_sock_ntop sa room len true = Ok (text, zlen text) /\ zlen text <= 47 /\
      ngx_parse_addr_port true text = Ok (NGX_OK, Some sa') /\ ngx_cmp_sockaddr sa sa' true = NGX_OK /\ sa' = sa).
Proof.
  intros [Hok Hsa] Hlen. destruct sa as [a port|p port|path]; [| |done].
  - destruct Hsa as [Hne Hport]. cbn [sock_ok] in Hok. destruct (u32_bytes a Hok) as [Hb Ha].
    set (q := bytes_of_u32 a) in *. assert (length q = 4%nat) as Hl by done.
    assert (print_in q = Ok (map A32 q)) as Hprint by reflexivity.
    cbn [ngx_sock_ntop]. fold q. rewrite Hprint, !Ok_bind.
    pose proof (htons_range port) as Hr. fold (ntohs port) in Hr.
    assert (exists x y z w, q = [x; y; z; w]) as (x & y & z & w & E) by (by do 4 eexists).
    clearbody q. clear Hprint. subst q. cbn [map app].
    destruct (parse_inet [x; y; z; w] (num 0 (ntohs port)) Hb Hl Hne) as [Hread Hno]. rewrite Ha in Hread.
    split.
    + rewrite print_inet, Ok_bind by (done || lia). by eexists.
    + intros Hz. cbn [ngx_inet_get_port] in Hz. rewrite print_inet_port, Ok_bind by (done || lia).
      eexists. exists (ngx_inet_set_port (AF_INET a 0) (ntohs port)). split; [done|].
      pose proof (inet_text_length _ Hb). pose proof (num_port _ Hr). split.
      { rewrite !zlen_app. change (zlen (str ":")) with 1. lia. }
      assert (ngx_inet_set_port (AF_INET a 0) (ntohs port) = AF_INET a port) as Hset.
      { cbn [ngx_inet_set_port]. f_equal. by apply htons_htons. }
      split; [|rewrite Hset; split; [cbn; by rewrite !Z.eqb_refl|done]].
      eapply parse_port; [exact Hno| |lia|exact Hread].
      unfold split_port. change (str ":" ++ num 0 (ntohs port)) with (58 :: num 0 (ntohs port)).
      destruct (num_digits x) as [Hd _]; [apply Forall_cons_1 in Hb as [? _]; lia|].
      rewrite strlchr_first by (apply forall_not_eqb; by apply inet_no_colon).
      pose proof (num_byte x ltac:(apply Forall_cons_1 in Hb as [? _]; lia)) as Hx.
      unfold inet_text. destruct (num 0 x) as [|c l]; [change (zlen (@nil Z)) with 0 in Hx; lia|].
      cbn [app]. destruct (Z.eqb_spec c 91) as [->|]; [done|done].
  - destruct Hsa as [Hne Hport]. destruct Hok as [Hp Hl]. cbn [ngx_sock_ntop].
    pose proof (htons_range port) as Hr. fold (ntohs port) in Hr. split.
    + rewrite Ok_bind. destruct (ntop_form p Hp Hl room len []) as (text & -> & _ & Hf); [lia|change (zlen (@nil Z)) with 0; lia|].
      rewrite !Ok_bind. exists text. split; [done|]. by apply parse_inet6.
    + intros Hz. cbn [ngx_inet_get_port] in Hz. rewrite write_at_ok, Ok_bind by (change (zlen (@nil Z)) with 0; change (zlen (str "[")) with 1; lia). cbn [app].
      destruct (ntop_form p Hp Hl room len (str "[")) as (text & -> & Htl & Hf); [lia|change (zlen (str "[")) with 1; lia|].
      rewrite Ok_bind, print_port, Ok_bind by done. pose proof (num_port _ Hr).
      rewrite write_at_ok, Ok_bind by (rewrite !zlen_app; change (zlen (str "[")) with 1; change (zlen (str "]:")) with 2; lia).
      eexists. exists (ngx_inet_set_port (AF_INET6 p 0) (ntohs port)). split; [done|]. split.
      { rewrite !zlen_app. change (zlen (str "[")) with 1. change (zlen (str "]:")) with 2. lia. }
      assert (ngx_inet_set_port (AF_INET6 p 0) (ntohs port) = AF_INET6 p port) as Hset.
      { cbn [ngx_inet_set_port]. f_equal. by apply htons_htons. }
      split; [|rewrite Hset; split; [cbn; rewrite Z.eqb_refl; by rewrite bool_decide_true|done]].
      change ((str "[" ++ text) ++ str "]:" ++ num 0 (ntohs port))
        with (91 :: text ++ 93 :: 58 :: num 0 (ntohs port)).
      eapply parse_port; [apply parse_bracket| |lia|by apply parse_inet6].
      destruct (form_chars p text Hp Hl Hf) as [_ Hc]. unfold split_port. change (91 =? 91) with true. cbn iota.
      change (91 :: text ++ 93 :: 58 :: num 0 (ntohs port)) with ((91 :: text) ++ 93 :: 58 :: num 0 (ntohs port)).
      rewrite strlchr_first; [done|]. apply forall_not_eqb, Forall_cons_2; [done|]. eapply Forall_impl; [exact Hc|]. apply addr_char_bracket.
Qed.

Lemma sock_ntop_roundtrip_witness :
  exists text sa', ngx_sock_ntop (AF_INET6 (replicate 15 0 ++ [1]) 0x901f) 53 53 true = Ok (text, zlen text) /\
    ngx_parse_addr_port true text = Ok (NGX_OK, Some sa') /\ sa' = AF_INET6 (replicate 15 0 ++ [1]) 0x901f.
Proof.
  destruct (sock_ntop_roundtrip (AF_INET6 (replicate 15 0 ++ [1]) 0x901f) 53 53) as [_ H].
  - split; [split; [|reflexivity]|split; [|lia]].
    + cbn. repeat (apply Forall_cons_2; [lia|]). by apply Forall_nil_2.
    + intros [H|H]; discriminate H.
  - lia.
  - destruct H as (text & sa' & H1 & _ & H2 & _ & H3); [vm_compute; discriminate|].
    exists text, sa'. split; [exact H1|]. split; [exact H2|exact H3].
Defined.
