(* ===== verification/HuffTables.v ===== *)
(** * Huffman tables

    The tables of [http/ngx_http_huff_encode.c] and [http/ngx_http_huff_decode.c], as they
    stand there. *)

From S2P Require Import Prelude.

(** ** Encoding *)

Record ngx_http_huff_encode_code_t := Code { he_code : Z; he_len : Z }.

Definition codes (l : list (Z * Z)) : list ngx_http_huff_encode_code_t := map (fun '(c, n) => Code c n) l.

Definition ngx_http_huff_encode_table : list ngx_http_huff_encode_code_t := codes [
  (0x00001ff8, 13); (0x007fffd8, 23); (0x0fffffe2, 28); (0x0fffffe3, 28);
  (0x0fffffe4, 28); (0x0fffffe5, 28); (0x0fffffe6, 28); (0x0fffffe7, 28);
  (0x0fffffe8, 28); (0x00ffffea, 24); (0x3ffffffc, 30); (0x0fffffe9, 28);
  (0x0fffffea, 28); (0x3ffffffd, 30); (0x0fffffeb, 28); (0x0fffffec, 28);
  (0x0fffffed, 28); (0x0fffffee, 28); (0x0fffffef, 28); (0x0ffffff0, 28);
  (0x0ffffff1, 28); (0x0ffffff2, 28); (0x3ffffffe, 30); (0x0ffffff3, 28);
  (0x0ffffff4, 28); (0x0ffffff5, 28); (0x0ffffff6, 28); (0x0ffffff7, 28);
  (0x0ffffff8, 28); (0x0ffffff9, 28); (0x0ffffffa, 28); (0x0ffffffb, 28);
  (0x00000014, 6); (0x000003f8, 10); (0x000003f9, 10); (0x00000ffa, 12);
  (0x00001ff9, 13); (0x00000015, 6); (0x000000f8, 8); (0x000007fa, 11);
  (0x000003fa, 10); (0x000003fb, 10); (0x000000f9, 8); (0x000007fb, 11);
  (0x000000fa, 8); (0x00000016, 6); (0x00000017, 6); (0x00000018, 6);
  (0x00000000, 5); (0x00000001, 5); (0x00000002, 5); (0x00000019, 6);
  (0x0000001a, 6); (0x0000001b, 6); (0x0000001c, 6); (0x0000001d, 6);
  (0x0000001e, 6); (0x0000001f, 6); (0x0000005c, 7); (0x000000fb, 8);
  (0x00007ffc, 15); (0x00000020, 6); (0x00000ffb, 12); (0x000003fc, 10);
  (0x00001ffa, 13); (0x00000021, 6); (0x0000005d, 7); (0x0000005e, 7);
  (0x0000005f, 7); (0x00000060, 7); (0x00000061, 7); (0x00000062, 7);
  (0x00000063, 7); (0x00000064, 7); (0x00000065, 7); (0x00000066, 7);
  (0x00000067, 7); (0x00000068, 7); (0x00000069, 7); (0x0000006a, 7);
  (0x0000006b, 7); (0x0000006c, 7); (0x0000006d, 7); (0x0000006e, 7);
  (0x0000006f, 7); (0x00000070, 7); (0x00000071, 7); (0x00000072, 7);
  (0x000000fc, 8); (0x00000073, 7); (0x000000fd, 8); (0x00001ffb, 13);
  (0x0007fff0, 19); (0x00001ffc, 13); (0x00003ffc, 14); (0x00000022, 6);
  (0x00007ffd, 15); (0x00000003, 5); (0x00000023, 6); (0x00000004, 5);
  (0x00000024, 6); (0x00000005, 5); (0x00000025, 6); (0x00000026, 6);
  (0x00000027, 6); (0x00000006, 5); (0x00000074, 7); (0x00000075, 7);
  (0x00000028, 6); (0x00000029, 6); (0x0000002a, 6); (0x00000007, 5);
  (0x0000002b, 6); (0x00000076, 7); (0x0000002c, 6); (0x00000008, 5);
  (0x00000009, 5); (0x0000002d, 6); (0x00000077, 7); (0x00000078, 7);
  (0x00000079, 7); (0x0000007a, 7); (0x0000007b, 7); (0x00007ffe, 15);
  (0x000007fc, 11); (0x00003ffd, 14); (0x00001ffd, 13); (0x0ffffffc, 28);
  (0x000fffe6, 20); (0x003fffd2, 22); (0x000fffe7, 20); (0x000fffe8, 20);
  (0x003fffd3, 22); (0x003fffd4, 22); (0x003fffd5, 22); (0x007fffd9, 23);
  (0x003fffd6, 22); (0x007fffda, 23); (0x007fffdb, 23); (0x007fffdc, 23);
  (0x007fffdd, 23); (0x007fffde, 23); (0x00ffffeb, 24); (0x007fffdf, 23);
  (0x00ffffec, 24); (0x00ffffed, 24); (0x003fffd7, 22); (0x007fffe0, 23);
  (0x00ffffee, 24); (0x007fffe1, 23); (0x007fffe2, 23); (0x007fffe3, 23);
  (0x007fffe4, 23); (0x001fffdc, 21); (0x003fffd8, 22); (0x007fffe5, 23);
  (0x003fffd9, 22); (0x007fffe6, 23); (0x007fffe7, 23); (0x00ffffef, 24);
  (0x003fffda, 22); (0x001fffdd, 21); (0x000fffe9, 20); (0x003fffdb, 22);
  (0x003fffdc, 22); (0x007fffe8, 23); (0x007fffe9, 23); (0x001fffde, 21);
  (0x007fffea, 23); (0x003fffdd, 22); (0x003fffde, 22); (0x00fffff0, 24);
  (0x001fffdf, 21); (0x003fffdf, 22); (0x007fffeb, 23); (0x007fffec, 23);
  (0x001fffe0, 21); (0x001fffe1, 21); (0x003fffe0, 22); (0x001fffe2, 21);
  (0x007fffed, 23); (0x003fffe1, 22); (0x007fffee, 23); (0x007fffef, 23);
  (0x000fffea, 20); (0x003fffe2, 22); (0x003fffe3, 22); (0x003fffe4, 22);
  (0x007ffff0, 23); (0x003fffe5, 22); (0x003fffe6, 22); (0x007ffff1, 23);
  (0x03ffffe0, 26); (0x03ffffe1, 26); (0x000fffeb, 20); (0x0007fff1, 19);
  (0x003fffe7, 22); (0x007ffff2, 23); (0x003fffe8, 22); (0x01ffffec, 25);
  (0x03ffffe2, 26); (0x03ffffe3, 26); (0x03ffffe4, 26); (0x07ffffde, 27);
  (0x07ffffdf, 27); (0x03ffffe5, 26); (0x00fffff1, 24); (0x01ffffed, 25);
  (0x0007fff2, 19); (0x001fffe3, 21); (0x03ffffe6, 26); (0x07ffffe0, 27);
  (0x07ffffe1, 27); (0x03ffffe7, 26); (0x07ffffe2, 27); (0x00fffff2, 24);
  (0x001fffe4, 21); (0x001fffe5, 21); (0x03ffffe8, 26); (0x03ffffe9, 26);
  (0x0ffffffd, 28); (0x07ffffe3, 27); (0x07ffffe4, 27); (0x07ffffe5, 27);
  (0x000fffec, 20); (0x00fffff3, 24); (0x000fffed, 20); (0x001fffe6, 21);
  (0x003fffe9, 22); (0x001fffe7, 21); (0x001fffe8, 21); (0x007ffff3, 23);
  (0x003fffea, 22); (0x003fffeb, 22); (0x01ffffee, 25); (0x01ffffef, 25);
  (0x00fffff4, 24); (0x00fffff5, 24); (0x03ffffea, 26); (0x007ffff4, 23);
  (0x03ffffeb, 26); (0x07ffffe6, 27); (0x03ffffec, 26); (0x03ffffed, 26);
  (0x07ffffe7, 27); (0x07ffffe8, 27); (0x07ffffe9, 27); (0x07ffffea, 27);
  (0x07ffffeb, 27); (0x0ffffffe, 28); (0x07ffffec, 27); (0x07ffffed, 27);
  (0x07ffffee, 27); (0x07ffffef, 27); (0x07fffff0, 27); (0x03ffffee, 26)
].

Definition ngx_http_huff_encode_table_lc : list ngx_http_huff_encode_code_t := codes [
  (0x00001ff8, 13); (0x007fffd8, 23); (0x0fffffe2, 28); (0x0fffffe3, 28);
  (0x0fffffe4, 28); (0x0fffffe5, 28); (0x0fffffe6, 28); (0x0fffffe7, 28);
  (0x0fffffe8, 28); (0x00ffffea, 24); (0x3ffffffc, 30); (0x0fffffe9, 28);
  (0x0fffffea, 28); (0x3ffffffd, 30); (0x0fffffeb, 28); (0x0fffffec, 28);
  (0x0fffffed, 28); (0x0fffffee, 28); (0x0fffffef, 28); (0x0ffffff0, 28);
  (0x0ffffff1, 28); (0x0ffffff2, 28); (0x3ffffffe, 30); (0x0ffffff3, 28);
  (0x0ffffff4, 28); (0x0ffffff5, 28); (0x0ffffff6, 28); (0x0ffffff7, 28);
  (0x0ffffff8, 28); (0x0ffffff9, 28); (0x0ffffffa, 28); (0x0ffffffb, 28);
  (0x00000014, 6); (0x000003f8, 10); (0x000003f9, 10); (0x00000ffa, 12);
  (0x00001ff9, 13); (0x00000015, 6); (0x000000f8, 8); (0x000007fa, 11);
  (0x000003fa, 10); (0x000003fb, 10); (0x000000f9, 8); (0x000007fb, 11);
  (0x000000fa, 8); (0x00000016, 6); (0x00000017, 6); (0x00000018, 6);
  (0x00000000, 5); (0x00000001, 5); (0x00000002, 5); (0x00000019, 6);
  (0x0000001a, 6); (0x0000001b, 6); (0x0000001c, 6); (0x0000001d, 6);
  (0x0000001e, 6); (0x0000001f, 6); (0x0000005c, 7); (0x000000fb, 8);
  (0x00007ffc, 15); (0x00000020, 6); (0x00000ffb, 12); (0x000003fc, 10);
  (0x00001ffa, 13); (0x00000003, 5); (0x00000023, 6); (0x00000004, 5);
  (0x00000024, 6); (0x00000005, 5); (0x00000025, 6); (0x00000026, 6);
  (0x00000027, 6); (0x00000006, 5); (0x00000074, 7); (0x00000075, 7);
  (0x00000028, 6); (0x00000029, 6); (0x0000002a, 6); (0x00000007, 5);
  (0x0000002b, 6); (0x00000076, 7); (0x0000002c, 6); (0x00000008, 5);
  (0x00000009, 5); (0x0000002d, 6); (0x00000077, 7); (0x00000078, 7);
  (0x00000079, 7); (0x0000007a, 7); (0x0000007b, 7); (0x00001ffb, 13);
  (0x0007fff0, 19); (0x00001ffc, 13); (0x00003ffc, 14); (0x00000022, 6);
  (0x00007ffd, 15); (0x00000003, 5); (0x00000023, 6); (0x00000004, 5);
  (0x00000024, 6); (0x00000005, 5); (0x00000025, 6); (0x00000026, 6);
  (0x00000027, 6); (0x00000006, 5); (0x00000074, 7); (0x00000075, 7);
  (0x00000028, 6); (0x00000029, 6); (0x0000002a, 6); (0x00000007, 5);
  (0x0000002b, 6); (0x00000076, 7); (0x0000002c, 6); (0x00000008, 5);
  (0x00000009, 5); (0x0000002d, 6); (0x00000077, 7); (0x00000078, 7);
  (0x00000079, 7); (0x0000007a, 7); (0x0000007b, 7); (0x00007ffe, 15);
  (0x000007fc, 11); (0x00003ffd, 14); (0x00001ffd, 13); (0x0ffffffc, 28);
  (0x000fffe6, 20); (0x003fffd2, 22); (0x000fffe7, 20); (0x000fffe8, 20);
  (0x003fffd3, 22); (0x003fffd4, 22); (0x003fffd5, 22); (0x007fffd9, 23);
  (0x003fffd6, 22); (0x007fffda, 23); (0x007fffdb, 23); (0x007fffdc, 23);
  (0x007fffdd, 23); (0x007fffde, 23); (0x00ffffeb, 24); (0x007fffdf, 23);
  (0x00ffffec, 24); (0x00ffffed, 24); (0x003fffd7, 22); (0x007fffe0, 23);
  (0x00ffffee, 24); (0x007fffe1, 23); (0x007fffe2, 23); (0x007fffe3, 23);
  (0x007fffe4, 23); (0x001fffdc, 21); (0x003fffd8, 22); (0x007fffe5, 23);
  (0x003fffd9, 22); (0x007fffe6, 23); (0x007fffe7, 23); (0x00ffffef, 24);
  (0x003fffda, 22); (0x001fffdd, 21); (0x000fffe9, 20); (0x003fffdb, 22);
  (0x003fffdc, 22); (0x007fffe8, 23); (0x007fffe9, 23); (0x001fffde, 21);
  (0x007fffea, 23); (0x003fffdd, 22); (0x003fffde, 22); (0x00fffff0, 24);
  (0x001fffdf, 21); (0x003fffdf, 22); (0x007fffeb, 23); (0x007fffec, 23);
  (0x001fffe0, 21); (0x001fffe1, 21); (0x003fffe0, 22); (0x001fffe2, 21);
  (0x007fffed, 23); (0x003fffe1, 22); (0x007fffee, 23); (0x007fffef, 23);
  (0x000fffea, 20); (0x003fffe2, 22); (0x003fffe3, 22); (0x003fffe4, 22);
  (0x007ffff0, 23); (0x003fffe5, 22); (0x003fffe6, 22); (0x007ffff1, 23);
  (0x03ffffe0, 26); (0x03ffffe1, 26); (0x000fffeb, 20); (0x0007fff1, 19);
  (0x003fffe7, 22); (0x007ffff2, 23); (0x003fffe8, 22); (0x01ffffec, 25);
  (0x03ffffe2, 26); (0x03ffffe3, 26); (0x03ffffe4, 26); (0x07ffffde, 27);
  (0x07ffffdf, 27); (0x03ffffe5, 26); (0x00fffff1, 24); (0x01ffffed, 25);
  (0x0007fff2, 19); (0x001fffe3, 21); (0x03ffffe6, 26); (0x07ffffe0, 27);
  (0x07ffffe1, 27); (0x03ffffe7, 26); (0x07ffffe2, 27); (0x00fffff2, 24);
  (0x001fffe4, 21); (0x001fffe5, 21); (0x03ffffe8, 26); (0x03ffffe9, 26);
  (0x0ffffffd, 28); (0x07ffffe3, 27); (0x07ffffe4, 27); (0x07ffffe5, 27);
  (0x000fffec, 20); (0x00fffff3, 24); (0x000fffed, 20); (0x001fffe6, 21);
  (0x003fffe9, 22); (0x001fffe7, 21); (0x001fffe8, 21); (0x007ffff3, 23);
  (0x003fffea, 22); (0x003fffeb, 22); (0x01ffffee, 25); (0x01ffffef, 25);
  (0x00fffff4, 24); (0x00fffff5, 24); (0x03ffffea, 26); (0x007ffff4, 23);
  (0x03ffffeb, 26); (0x07ffffe6, 27); (0x03ffffec, 26); (0x03ffffed, 26);
  (0x07ffffe7, 27); (0x07ffffe8, 27); (0x07ffffe9, 27); (0x07ffffea, 27);
  (0x07ffffeb, 27); (0x0ffffffe, 28); (0x07ffffec, 27); (0x07ffffed, 27);
  (0x07ffffee, 27); (0x07ffffef, 27); (0x07fffff0, 27); (0x03ffffee, 26)
].

(** ** Decoding

    For each of the 256 states and each four bits: the next state, whether a character is
    decided, which one, and whether the text may end here. *)

Record ngx_http_huff_decode_code_t := Decode { hd_next : Z; hd_emit : Z; hd_sym : Z; hd_ending : Z }.

Definition row (l : list (Z * Z * Z * Z)) : list ngx_http_huff_decode_code_t :=
  map (fun '(a, b, c, d) => Decode a b c d) l.

Definition huff_decode_codes_0 : list (list ngx_http_huff_decode_code_t) := map row [
  [(0x04, 0, 0x00, 0); (0x05, 0, 0x00, 0); (0x07, 0, 0x00, 0); (0x08, 0, 0x00, 0);
   (0x0b, 0, 0x00, 0); (0x0c, 0, 0x00, 0); (0x10, 0, 0x00, 0); (0x13, 0, 0x00, 0);
   (0x19, 0, 0x00, 0); (0x1c, 0, 0x00, 0); (0x20, 0, 0x00, 0); (0x23, 0, 0x00, 0);
   (0x2a, 0, 0x00, 0); (0x31, 0, 0x00, 0); (0x39, 0, 0x00, 0); (0x40, 0, 0x00, 1)];
  [(0x00, 1, 0x30, 1); (0x00, 1, 0x31, 1); (0x00, 1, 0x32, 1); (0x00, 1, 0x61, 1);
   (0x00, 1, 0x63, 1); (0x00, 1, 0x65, 1); (0x00, 1, 0x69, 1); (0x00, 1, 0x6f, 1);
   (0x00, 1, 0x73, 1); (0x00, 1, 0x74, 1); (0x0d, 0, 0x00, 0); (0x0e, 0, 0x00, 0);
   (0x11, 0, 0x00, 0); (0x12, 0, 0x00, 0); (0x14, 0, 0x00, 0); (0x15, 0, 0x00, 0)];
  [(0x01, 1, 0x30, 0); (0x16, 1, 0x30, 1); (0x01, 1, 0x31, 0); (0x16, 1, 0x31, 1);
   (0x01, 1, 0x32, 0); (0x16, 1, 0x32, 1); (0x01, 1, 0x61, 0); (0x16, 1, 0x61, 1);
   (0x01, 1, 0x63, 0); (0x16, 1, 0x63, 1); (0x01, 1, 0x65, 0); (0x16, 1, 0x65, 1);
   (0x01, 1, 0x69, 0); (0x16, 1, 0x69, 1); (0x01, 1, 0x6f, 0); (0x16, 1, 0x6f, 1)];
  [(0x02, 1, 0x30, 0); (0x09, 1, 0x30, 0); (0x17, 1, 0x30, 0); (0x28, 1, 0x30, 1);
   (0x02, 1, 0x31, 0); (0x09, 1, 0x31, 0); (0x17, 1, 0x31, 0); (0x28, 1, 0x31, 1);
   (0x02, 1, 0x32, 0); (0x09, 1, 0x32, 0); (0x17, 1, 0x32, 0); (0x28, 1, 0x32, 1);
   (0x02, 1, 0x61, 0); (0x09, 1, 0x61, 0); (0x17, 1, 0x61, 0); (0x28, 1, 0x61, 1)];
  [(0x03, 1, 0x30, 0); (0x06, 1, 0x30, 0); (0x0a, 1, 0x30, 0); (0x0f, 1, 0x30, 0);
   (0x18, 1, 0x30, 0); (0x1f, 1, 0x30, 0); (0x29, 1, 0x30, 0); (0x38, 1, 0x30, 1);
   (0x03, 1, 0x31, 0); (0x06, 1, 0x31, 0); (0x0a, 1, 0x31, 0); (0x0f, 1, 0x31, 0);
   (0x18, 1, 0x31, 0); (0x1f, 1, 0x31, 0); (0x29, 1, 0x31, 0); (0x38, 1, 0x31, 1)];
  [(0x03, 1, 0x32, 0); (0x06, 1, 0x32, 0); (0x0a, 1, 0x32, 0); (0x0f, 1, 0x32, 0);
   (0x18, 1, 0x32, 0); (0x1f, 1, 0x32, 0); (0x29, 1, 0x32, 0); (0x38, 1, 0x32, 1);
   (0x03, 1, 0x61, 0); (0x06, 1, 0x61, 0); (0x0a, 1, 0x61, 0); (0x0f, 1, 0x61, 0);
   (0x18, 1, 0x61, 0); (0x1f, 1, 0x61, 0); (0x29, 1, 0x61, 0); (0x38, 1, 0x61, 1)];
  [(0x02, 1, 0x63, 0); (0x09, 1, 0x63, 0); (0x17, 1, 0x63, 0); (0x28, 1, 0x63, 1);
   (0x02, 1, 0x65, 0); (0x09, 1, 0x65, 0); (0x17, 1, 0x65, 0); (0x28, 1, 0x65, 1);
   (0x02, 1, 0x69, 0); (0x09, 1, 0x69, 0); (0x17, 1, 0x69, 0); (0x28, 1, 0x69, 1);
   (0x02, 1, 0x6f, 0); (0x09, 1, 0x6f, 0); (0x17, 1, 0x6f, 0); (0x28, 1, 0x6f, 1)];
  [(0x03, 1, 0x63, 0); (0x06, 1, 0x63, 0); (0x0a, 1, 0x63, 0); (0x0f, 1, 0x63, 0);
   (0x18, 1, 0x63, 0); (0x1f, 1, 0x63, 0); (0x29, 1, 0x63, 0); (0x38, 1, 0x63, 1);
   (0x03, 1, 0x65, 0); (0x06, 1, 0x65, 0); (0x0a, 1, 0x65, 0); (0x0f, 1, 0x65, 0);
   (0x18, 1, 0x65, 0); (0x1f, 1, 0x65, 0); (0x29, 1, 0x65, 0); (0x38, 1, 0x65, 1)];
  [(0x03, 1, 0x69, 0); (0x06, 1, 0x69, 0); (0x0a, 1, 0x69, 0); (0x0f, 1, 0x69, 0);
   (0x18, 1, 0x69, 0); (0x1f, 1, 0x69, 0); (0x29, 1, 0x69, 0); (0x38, 1, 0x69, 1);
   (0x03, 1, 0x6f, 0); (0x06, 1, 0x6f, 0); (0x0a, 1, 0x6f, 0); (0x0f, 1, 0x6f, 0);
   (0x18, 1, 0x6f, 0); (0x1f, 1, 0x6f, 0); (0x29, 1, 0x6f, 0); (0x38, 1, 0x6f, 1)];
  [(0x01, 1, 0x73, 0); (0x16, 1, 0x73, 1); (0x01, 1, 0x74, 0); (0x16, 1, 0x74, 1);
   (0x00, 1, 0x20, 1); (0x00, 1, 0x25, 1); (0x00, 1, 0x2d, 1); (0x00, 1, 0x2e, 1);
   (0x00, 1, 0x2f, 1); (0x00, 1, 0x33, 1); (0x00, 1, 0x34, 1); (0x00, 1, 0x35, 1);
   (0x00, 1, 0x36, 1); (0x00, 1, 0x37, 1); (0x00, 1, 0x38, 1); (0x00, 1, 0x39, 1)];
  [(0x02, 1, 0x73, 0); (0x09, 1, 0x73, 0); (0x17, 1, 0x73, 0); (0x28, 1, 0x73, 1);
   (0x02, 1, 0x74, 0); (0x09, 1, 0x74, 0); (0x17, 1, 0x74, 0); (0x28, 1, 0x74, 1);
   (0x01, 1, 0x20, 0); (0x16, 1, 0x20, 1); (0x01, 1, 0x25, 0); (0x16, 1, 0x25, 1);
   (0x01, 1, 0x2d, 0); (0x16, 1, 0x2d, 1); (0x01, 1, 0x2e, 0); (0x16, 1, 0x2e, 1)];
  [(0x03, 1, 0x73, 0); (0x06, 1, 0x73, 0); (0x0a, 1, 0x73, 0); (0x0f, 1, 0x73, 0);
   (0x18, 1, 0x73, 0); (0x1f, 1, 0x73, 0); (0x29, 1, 0x73, 0); (0x38, 1, 0x73, 1);
   (0x03, 1, 0x74, 0); (0x06, 1, 0x74, 0); (0x0a, 1, 0x74, 0); (0x0f, 1, 0x74, 0);
   (0x18, 1, 0x74, 0); (0x1f, 1, 0x74, 0); (0x29, 1, 0x74, 0); (0x38, 1, 0x74, 1)];
  [(0x02, 1, 0x20, 0); (0x09, 1, 0x20, 0); (0x17, 1, 0x20, 0); (0x28, 1, 0x20, 1);
   (0x02, 1, 0x25, 0); (0x09, 1, 0x25, 0); (0x17, 1, 0x25, 0); (0x28, 1, 0x25, 1);
   (0x02, 1, 0x2d, 0); (0x09, 1, 0x2d, 0); (0x17, 1, 0x2d, 0); (0x28, 1, 0x2d, 1);
   (0x02, 1, 0x2e, 0); (0x09, 1, 0x2e, 0); (0x17, 1, 0x2e, 0); (0x28, 1, 0x2e, 1)];
  [(0x03, 1, 0x20, 0); (0x06, 1, 0x20, 0); (0x0a, 1, 0x20, 0); (0x0f, 1, 0x20, 0);
   (0x18, 1, 0x20, 0); (0x1f, 1, 0x20, 0); (0x29, 1, 0x20, 0); (0x38, 1, 0x20, 1);
   (0x03, 1, 0x25, 0); (0x06, 1, 0x25, 0); (0x0a, 1, 0x25, 0); (0x0f, 1, 0x25, 0);
   (0x18, 1, 0x25, 0); (0x1f, 1, 0x25, 0); (0x29, 1, 0x25, 0); (0x38, 1, 0x25, 1)];
  [(0x03, 1, 0x2d, 0); (0x06, 1, 0x2d, 0); (0x0a, 1, 0x2d, 0); (0x0f, 1, 0x2d, 0);
   (0x18, 1, 0x2d, 0); (0x1f, 1, 0x2d, 0); (0x29, 1, 0x2d, 0); (0x38, 1, 0x2d, 1);
   (0x03, 1, 0x2e, 0); (0x06, 1, 0x2e, 0); (0x0a, 1, 0x2e, 0); (0x0f, 1, 0x2e, 0);
   (0x18, 1, 0x2e, 0); (0x1f, 1, 0x2e, 0); (0x29, 1, 0x2e, 0); (0x38, 1, 0x2e, 1)];
  [(0x01, 1, 0x2f, 0); (0x16, 1, 0x2f, 1); (0x01, 1, 0x33, 0); (0x16, 1, 0x33, 1);
   (0x01, 1, 0x34, 0); (0x16, 1, 0x34, 1); (0x01, 1, 0x35, 0); (0x16, 1, 0x35, 1);
   (0x01, 1, 0x36, 0); (0x16, 1, 0x36, 1); (0x01, 1, 0x37, 0); (0x16, 1, 0x37, 1);
   (0x01, 1, 0x38, 0); (0x16, 1, 0x38, 1); (0x01, 1, 0x39, 0); (0x16, 1, 0x39, 1)]
].

Definition huff_decode_codes_1 : list (list ngx_http_huff_decode_code_t) := map row [
  [(0x02, 1, 0x2f, 0); (0x09, 1, 0x2f, 0); (0x17, 1, 0x2f, 0); (0x28, 1, 0x2f, 1);
   (0x02, 1, 0x33, 0); (0x09, 1, 0x33, 0); (0x17, 1, 0x33, 0); (0x28, 1, 0x33, 1);
   (0x02, 1, 0x34, 0); (0x09, 1, 0x34, 0); (0x17, 1, 0x34, 0); (0x28, 1, 0x34, 1);
   (0x02, 1, 0x35, 0); (0x09, 1, 0x35, 0); (0x17, 1, 0x35, 0); (0x28, 1, 0x35, 1)];
  [(0x03, 1, 0x2f, 0); (0x06, 1, 0x2f, 0); (0x0a, 1, 0x2f, 0); (0x0f, 1, 0x2f, 0);
   (0x18, 1, 0x2f, 0); (0x1f, 1, 0x2f, 0); (0x29, 1, 0x2f, 0); (0x38, 1, 0x2f, 1);
   (0x03, 1, 0x33, 0); (0x06, 1, 0x33, 0); (0x0a, 1, 0x33, 0); (0x0f, 1, 0x33, 0);
   (0x18, 1, 0x33, 0); (0x1f, 1, 0x33, 0); (0x29, 1, 0x33, 0); (0x38, 1, 0x33, 1)];
  [(0x03, 1, 0x34, 0); (0x06, 1, 0x34, 0); (0x0a, 1, 0x34, 0); (0x0f, 1, 0x34, 0);
   (0x18, 1, 0x34, 0); (0x1f, 1, 0x34, 0); (0x29, 1, 0x34, 0); (0x38, 1, 0x34, 1);
   (0x03, 1, 0x35, 0); (0x06, 1, 0x35, 0); (0x0a, 1, 0x35, 0); (0x0f, 1, 0x35, 0);
   (0x18, 1, 0x35, 0); (0x1f, 1, 0x35, 0); (0x29, 1, 0x35, 0); (0x38, 1, 0x35, 1)];
  [(0x02, 1, 0x36, 0); (0x09, 1, 0x36, 0); (0x17, 1, 0x36, 0); (0x28, 1, 0x36, 1);
   (0x02, 1, 0x37, 0); (0x09, 1, 0x37, 0); (0x17, 1, 0x37, 0); (0x28, 1, 0x37, 1);
   (0x02, 1, 0x38, 0); (0x09, 1, 0x38, 0); (0x17, 1, 0x38, 0); (0x28, 1, 0x38, 1);
   (0x02, 1, 0x39, 0); (0x09, 1, 0x39, 0); (0x17, 1, 0x39, 0); (0x28, 1, 0x39, 1)];
  [(0x03, 1, 0x36, 0); (0x06, 1, 0x36, 0); (0x0a, 1, 0x36, 0); (0x0f, 1, 0x36, 0);
   (0x18, 1, 0x36, 0); (0x1f, 1, 0x36, 0); (0x29, 1, 0x36, 0); (0x38, 1, 0x36, 1);
   (0x03, 1, 0x37, 0); (0x06, 1, 0x37, 0); (0x0a, 1, 0x37, 0); (0x0f, 1, 0x37, 0);
   (0x18, 1, 0x37, 0); (0x1f, 1, 0x37, 0); (0x29, 1, 0x37, 0); (0x38, 1, 0x37, 1)];
  [(0x03, 1, 0x38, 0); (0x06, 1, 0x38, 0); (0x0a, 1, 0x38, 0); (0x0f, 1, 0x38, 0);
   (0x18, 1, 0x38, 0); (0x1f, 1, 0x38, 0); (0x29, 1, 0x38, 0); (0x38, 1, 0x38, 1);
   (0x03, 1, 0x39, 0); (0x06, 1, 0x39, 0); (0x0a, 1, 0x39, 0); (0x0f, 1, 0x39, 0);
   (0x18, 1, 0x39, 0); (0x1f, 1, 0x39, 0); (0x29, 1, 0x39, 0); (0x38, 1, 0x39, 1)];
  [(0x1a, 0, 0x00, 0); (0x1b, 0, 0x00, 0); (0x1d, 0, 0x00, 0); (0x1e, 0, 0x00, 0);
   (0x21, 0, 0x00, 0); (0x22, 0, 0x00, 0); (0x24, 0, 0x00, 0); (0x25, 0, 0x00, 0);
   (0x2b, 0, 0x00, 0); (0x2e, 0, 0x00, 0); (0x32, 0, 0x00, 0); (0x35, 0, 0x00, 0);
   (0x3a, 0, 0x00, 0); (0x3d, 0, 0x00, 0); (0x41, 0, 0x00, 0); (0x44, 0, 0x00, 1)];
  [(0x00, 1, 0x3d, 1); (0x00, 1, 0x41, 1); (0x00, 1, 0x5f, 1); (0x00, 1, 0x62, 1);
   (0x00, 1, 0x64, 1); (0x00, 1, 0x66, 1); (0x00, 1, 0x67, 1); (0x00, 1, 0x68, 1);
   (0x00, 1, 0x6c, 1); (0x00, 1, 0x6d, 1); (0x00, 1, 0x6e, 1); (0x00, 1, 0x70, 1);
   (0x00, 1, 0x72, 1); (0x00, 1, 0x75, 1); (0x26, 0, 0x00, 0); (0x27, 0, 0x00, 0)];
  [(0x01, 1, 0x3d, 0); (0x16, 1, 0x3d, 1); (0x01, 1, 0x41, 0); (0x16, 1, 0x41, 1);
   (0x01, 1, 0x5f, 0); (0x16, 1, 0x5f, 1); (0x01, 1, 0x62, 0); (0x16, 1, 0x62, 1);
   (0x01, 1, 0x64, 0); (0x16, 1, 0x64, 1); (0x01, 1, 0x66, 0); (0x16, 1, 0x66, 1);
   (0x01, 1, 0x67, 0); (0x16, 1, 0x67, 1); (0x01, 1, 0x68, 0); (0x16, 1, 0x68, 1)];
  [(0x02, 1, 0x3d, 0); (0x09, 1, 0x3d, 0); (0x17, 1, 0x3d, 0); (0x28, 1, 0x3d, 1);
   (0x02, 1, 0x41, 0); (0x09, 1, 0x41, 0); (0x17, 1, 0x41, 0); (0x28, 1, 0x41, 1);
   (0x02, 1, 0x5f, 0); (0x09, 1, 0x5f, 0); (0x17, 1, 0x5f, 0); (0x28, 1, 0x5f, 1);
   (0x02, 1, 0x62, 0); (0x09, 1, 0x62, 0); (0x17, 1, 0x62, 0); (0x28, 1, 0x62, 1)];
  [(0x03, 1, 0x3d, 0); (0x06, 1, 0x3d, 0); (0x0a, 1, 0x3d, 0); (0x0f, 1, 0x3d, 0);
   (0x18, 1, 0x3d, 0); (0x1f, 1, 0x3d, 0); (0x29, 1, 0x3d, 0); (0x38, 1, 0x3d, 1);
   (0x03, 1, 0x41, 0); (0x06, 1, 0x41, 0); (0x0a, 1, 0x41, 0); (0x0f, 1, 0x41, 0);
   (0x18, 1, 0x41, 0); (0x1f, 1, 0x41, 0); (0x29, 1, 0x41, 0); (0x38, 1, 0x41, 1)];
  [(0x03, 1, 0x5f, 0); (0x06, 1, 0x5f, 0); (0x0a, 1, 0x5f, 0); (0x0f, 1, 0x5f, 0);
   (0x18, 1, 0x5f, 0); (0x1f, 1, 0x5f, 0); (0x29, 1, 0x5f, 0); (0x38, 1, 0x5f, 1);
   (0x03, 1, 0x62, 0); (0x06, 1, 0x62, 0); (0x0a, 1, 0x62, 0); (0x0f, 1, 0x62, 0);
   (0x18, 1, 0x62, 0); (0x1f, 1, 0x62, 0); (0x29, 1, 0x62, 0); (0x38, 1, 0x62, 1)];
  [(0x02, 1, 0x64, 0); (0x09, 1, 0x64, 0); (0x17, 1, 0x64, 0); (0x28, 1, 0x64, 1);
   (0x02, 1, 0x66, 0); (0x09, 1, 0x66, 0); (0x17, 1, 0x66, 0); (0x28, 1, 0x66, 1);
   (0x02, 1, 0x67, 0); (0x09, 1, 0x67, 0); (0x17, 1, 0x67, 0); (0x28, 1, 0x67, 1);
   (0x02, 1, 0x68, 0); (0x09, 1, 0x68, 0); (0x17, 1, 0x68, 0); (0x28, 1, 0x68, 1)];
  [(0x03, 1, 0x64, 0); (0x06, 1, 0x64, 0); (0x0a, 1, 0x64, 0); (0x0f, 1, 0x64, 0);
   (0x18, 1, 0x64, 0); (0x1f, 1, 0x64, 0); (0x29, 1, 0x64, 0); (0x38, 1, 0x64, 1);
   (0x03, 1, 0x66, 0); (0x06, 1, 0x66, 0); (0x0a, 1, 0x66, 0); (0x0f, 1, 0x66, 0);
   (0x18, 1, 0x66, 0); (0x1f, 1, 0x66, 0); (0x29, 1, 0x66, 0); (0x38, 1, 0x66, 1)];
  [(0x03, 1, 0x67, 0); (0x06, 1, 0x67, 0); (0x0a, 1, 0x67, 0); (0x0f, 1, 0x67, 0);
   (0x18, 1, 0x67, 0); (0x1f, 1, 0x67, 0); (0x29, 1, 0x67, 0); (0x38, 1, 0x67, 1);
   (0x03, 1, 0x68, 0); (0x06, 1, 0x68, 0); (0x0a, 1, 0x68, 0); (0x0f, 1, 0x68, 0);
   (0x18, 1, 0x68, 0); (0x1f, 1, 0x68, 0); (0x29, 1, 0x68, 0); (0x38, 1, 0x68, 1)];
  [(0x01, 1, 0x6c, 0); (0x16, 1, 0x6c, 1); (0x01, 1, 0x6d, 0); (0x16, 1, 0x6d, 1);
   (0x01, 1, 0x6e, 0); (0x16, 1, 0x6e, 1); (0x01, 1, 0x70, 0); (0x16, 1, 0x70, 1);
   (0x01, 1, 0x72, 0); (0x16, 1, 0x72, 1); (0x01, 1, 0x75, 0); (0x16, 1, 0x75, 1);
   (0x00, 1, 0x3a, 1); (0x00, 1, 0x42, 1); (0x00, 1, 0x43, 1); (0x00, 1, 0x44, 1)]
].

Definition huff_decode_codes_2 : list (list ngx_http_huff_decode_code_t) := map row [
  [(0x02, 1, 0x6c, 0); (0x09, 1, 0x6c, 0); (0x17, 1, 0x6c, 0); (0x28, 1, 0x6c, 1);
   (0x02, 1, 0x6d, 0); (0x09, 1, 0x6d, 0); (0x17, 1, 0x6d, 0); (0x28, 1, 0x6d, 1);
   (0x02, 1, 0x6e, 0); (0x09, 1, 0x6e, 0); (0x17, 1, 0x6e, 0); (0x28, 1, 0x6e, 1);
   (0x02, 1, 0x70, 0); (0x09, 1, 0x70, 0); (0x17, 1, 0x70, 0); (0x28, 1, 0x70, 1)];
  [(0x03, 1, 0x6c, 0); (0x06, 1, 0x6c, 0); (0x0a, 1, 0x6c, 0); (0x0f, 1, 0x6c, 0);
   (0x18, 1, 0x6c, 0); (0x1f, 1, 0x6c, 0); (0x29, 1, 0x6c, 0); (0x38, 1, 0x6c, 1);
   (0x03, 1, 0x6d, 0); (0x06, 1, 0x6d, 0); (0x0a, 1, 0x6d, 0); (0x0f, 1, 0x6d, 0);
   (0x18, 1, 0x6d, 0); (0x1f, 1, 0x6d, 0); (0x29, 1, 0x6d, 0); (0x38, 1, 0x6d, 1)];
  [(0x03, 1, 0x6e, 0); (0x06, 1, 0x6e, 0); (0x0a, 1, 0x6e, 0); (0x0f, 1, 0x6e, 0);
   (0x18, 1, 0x6e, 0); (0x1f, 1, 0x6e, 0); (0x29, 1, 0x6e, 0); (0x38, 1, 0x6e, 1);
   (0x03, 1, 0x70, 0); (0x06, 1, 0x70, 0); (0x0a, 1, 0x70, 0); (0x0f, 1, 0x70, 0);
   (0x18, 1, 0x70, 0); (0x1f, 1, 0x70, 0); (0x29, 1, 0x70, 0); (0x38, 1, 0x70, 1)];
  [(0x02, 1, 0x72, 0); (0x09, 1, 0x72, 0); (0x17, 1, 0x72, 0); (0x28, 1, 0x72, 1);
   (0x02, 1, 0x75, 0); (0x09, 1, 0x75, 0); (0x17, 1, 0x75, 0); (0x28, 1, 0x75, 1);
   (0x01, 1, 0x3a, 0); (0x16, 1, 0x3a, 1); (0x01, 1, 0x42, 0); (0x16, 1, 0x42, 1);
   (0x01, 1, 0x43, 0); (0x16, 1, 0x43, 1); (0x01, 1, 0x44, 0); (0x16, 1, 0x44, 1)];
  [(0x03, 1, 0x72, 0); (0x06, 1, 0x72, 0); (0x0a, 1, 0x72, 0); (0x0f, 1, 0x72, 0);
   (0x18, 1, 0x72, 0); (0x1f, 1, 0x72, 0); (0x29, 1, 0x72, 0); (0x38, 1, 0x72, 1);
   (0x03, 1, 0x75, 0); (0x06, 1, 0x75, 0); (0x0a, 1, 0x75, 0); (0x0f, 1, 0x75, 0);
   (0x18, 1, 0x75, 0); (0x1f, 1, 0x75, 0); (0x29, 1, 0x75, 0); (0x38, 1, 0x75, 1)];
  [(0x02, 1, 0x3a, 0); (0x09, 1, 0x3a, 0); (0x17, 1, 0x3a, 0); (0x28, 1, 0x3a, 1);
   (0x02, 1, 0x42, 0); (0x09, 1, 0x42, 0); (0x17, 1, 0x42, 0); (0x28, 1, 0x42, 1);
   (0x02, 1, 0x43, 0); (0x09, 1, 0x43, 0); (0x17, 1, 0x43, 0); (0x28, 1, 0x43, 1);
   (0x02, 1, 0x44, 0); (0x09, 1, 0x44, 0); (0x17, 1, 0x44, 0); (0x28, 1, 0x44, 1)];
  [(0x03, 1, 0x3a, 0); (0x06, 1, 0x3a, 0); (0x0a, 1, 0x3a, 0); (0x0f, 1, 0x3a, 0);
   (0x18, 1, 0x3a, 0); (0x1f, 1, 0x3a, 0); (0x29, 1, 0x3a, 0); (0x38, 1, 0x3a, 1);
   (0x03, 1, 0x42, 0); (0x06, 1, 0x42, 0); (0x0a, 1, 0x42, 0); (0x0f, 1, 0x42, 0);
   (0x18, 1, 0x42, 0); (0x1f, 1, 0x42, 0); (0x29, 1, 0x42, 0); (0x38, 1, 0x42, 1)];
  [(0x03, 1, 0x43, 0); (0x06, 1, 0x43, 0); (0x0a, 1, 0x43, 0); (0x0f, 1, 0x43, 0);
   (0x18, 1, 0x43, 0); (0x1f, 1, 0x43, 0); (0x29, 1, 0x43, 0); (0x38, 1, 0x43, 1);
   (0x03, 1, 0x44, 0); (0x06, 1, 0x44, 0); (0x0a, 1, 0x44, 0); (0x0f, 1, 0x44, 0);
   (0x18, 1, 0x44, 0); (0x1f, 1, 0x44, 0); (0x29, 1, 0x44, 0); (0x38, 1, 0x44, 1)];
  [(0x2c, 0, 0x00, 0); (0x2d, 0, 0x00, 0); (0x2f, 0, 0x00, 0); (0x30, 0, 0x00, 0);
   (0x33, 0, 0x00, 0); (0x34, 0, 0x00, 0); (0x36, 0, 0x00, 0); (0x37, 0, 0x00, 0);
   (0x3b, 0, 0x00, 0); (0x3c, 0, 0x00, 0); (0x3e, 0, 0x00, 0); (0x3f, 0, 0x00, 0);
   (0x42, 0, 0x00, 0); (0x43, 0, 0x00, 0); (0x45, 0, 0x00, 0); (0x48, 0, 0x00, 1)];
  [(0x00, 1, 0x45, 1); (0x00, 1, 0x46, 1); (0x00, 1, 0x47, 1); (0x00, 1, 0x48, 1);
   (0x00, 1, 0x49, 1); (0x00, 1, 0x4a, 1); (0x00, 1, 0x4b, 1); (0x00, 1, 0x4c, 1);
   (0x00, 1, 0x4d, 1); (0x00, 1, 0x4e, 1); (0x00, 1, 0x4f, 1); (0x00, 1, 0x50, 1);
   (0x00, 1, 0x51, 1); (0x00, 1, 0x52, 1); (0x00, 1, 0x53, 1); (0x00, 1, 0x54, 1)];
  [(0x01, 1, 0x45, 0); (0x16, 1, 0x45, 1); (0x01, 1, 0x46, 0); (0x16, 1, 0x46, 1);
   (0x01, 1, 0x47, 0); (0x16, 1, 0x47, 1); (0x01, 1, 0x48, 0); (0x16, 1, 0x48, 1);
   (0x01, 1, 0x49, 0); (0x16, 1, 0x49, 1); (0x01, 1, 0x4a, 0); (0x16, 1, 0x4a, 1);
   (0x01, 1, 0x4b, 0); (0x16, 1, 0x4b, 1); (0x01, 1, 0x4c, 0); (0x16, 1, 0x4c, 1)];
  [(0x02, 1, 0x45, 0); (0x09, 1, 0x45, 0); (0x17, 1, 0x45, 0); (0x28, 1, 0x45, 1);
   (0x02, 1, 0x46, 0); (0x09, 1, 0x46, 0); (0x17, 1, 0x46, 0); (0x28, 1, 0x46, 1);
   (0x02, 1, 0x47, 0); (0x09, 1, 0x47, 0); (0x17, 1, 0x47, 0); (0x28, 1, 0x47, 1);
   (0x02, 1, 0x48, 0); (0x09, 1, 0x48, 0); (0x17, 1, 0x48, 0); (0x28, 1, 0x48, 1)];
  [(0x03, 1, 0x45, 0); (0x06, 1, 0x45, 0); (0x0a, 1, 0x45, 0); (0x0f, 1, 0x45, 0);
   (0x18, 1, 0x45, 0); (0x1f, 1, 0x45, 0); (0x29, 1, 0x45, 0); (0x38, 1, 0x45, 1);
   (0x03, 1, 0x46, 0); (0x06, 1, 0x46, 0); (0x0a, 1, 0x46, 0); (0x0f, 1, 0x46, 0);
   (0x18, 1, 0x46, 0); (0x1f, 1, 0x46, 0); (0x29, 1, 0x46, 0); (0x38, 1, 0x46, 1)];
  [(0x03, 1, 0x47, 0); (0x06, 1, 0x47, 0); (0x0a, 1, 0x47, 0); (0x0f, 1, 0x47, 0);
   (0x18, 1, 0x47, 0); (0x1f, 1, 0x47, 0); (0x29, 1, 0x47, 0); (0x38, 1, 0x47, 1);
   (0x03, 1, 0x48, 0); (0x06, 1, 0x48, 0); (0x0a, 1, 0x48, 0); (0x0f, 1, 0x48, 0);
   (0x18, 1, 0x48, 0); (0x1f, 1, 0x48, 0); (0x29, 1, 0x48, 0); (0x38, 1, 0x48, 1)];
  [(0x02, 1, 0x49, 0); (0x09, 1, 0x49, 0); (0x17, 1, 0x49, 0); (0x28, 1, 0x49, 1);
   (0x02, 1, 0x4a, 0); (0x09, 1, 0x4a, 0); (0x17, 1, 0x4a, 0); (0x28, 1, 0x4a, 1);
   (0x02, 1, 0x4b, 0); (0x09, 1, 0x4b, 0); (0x17, 1, 0x4b, 0); (0x28, 1, 0x4b, 1);
   (0x02, 1, 0x4c, 0); (0x09, 1, 0x4c, 0); (0x17, 1, 0x4c, 0); (0x28, 1, 0x4c, 1)];
  [(0x03, 1, 0x49, 0); (0x06, 1, 0x49, 0); (0x0a, 1, 0x49, 0); (0x0f, 1, 0x49, 0);
   (0x18, 1, 0x49, 0); (0x1f, 1, 0x49, 0); (0x29, 1, 0x49, 0); (0x38, 1, 0x49, 1);
   (0x03, 1, 0x4a, 0); (0x06, 1, 0x4a, 0); (0x0a, 1, 0x4a, 0); (0x0f, 1, 0x4a, 0);
   (0x18, 1, 0x4a, 0); (0x1f, 1, 0x4a, 0); (0x29, 1, 0x4a, 0); (0x38, 1, 0x4a, 1)]
].

Definition huff_decode_codes_3 : list (list ngx_http_huff_decode_code_t) := map row [
  [(0x03, 1, 0x4b, 0); (0x06, 1, 0x4b, 0); (0x0a, 1, 0x4b, 0); (0x0f, 1, 0x4b, 0);
   (0x18, 1, 0x4b, 0); (0x1f, 1, 0x4b, 0); (0x29, 1, 0x4b, 0); (0x38, 1, 0x4b, 1);
   (0x03, 1, 0x4c, 0); (0x06, 1, 0x4c, 0); (0x0a, 1, 0x4c, 0); (0x0f, 1, 0x4c, 0);
   (0x18, 1, 0x4c, 0); (0x1f, 1, 0x4c, 0); (0x29, 1, 0x4c, 0); (0x38, 1, 0x4c, 1)];
  [(0x01, 1, 0x4d, 0); (0x16, 1, 0x4d, 1); (0x01, 1, 0x4e, 0); (0x16, 1, 0x4e, 1);
   (0x01, 1, 0x4f, 0); (0x16, 1, 0x4f, 1); (0x01, 1, 0x50, 0); (0x16, 1, 0x50, 1);
   (0x01, 1, 0x51, 0); (0x16, 1, 0x51, 1); (0x01, 1, 0x52, 0); (0x16, 1, 0x52, 1);
   (0x01, 1, 0x53, 0); (0x16, 1, 0x53, 1); (0x01, 1, 0x54, 0); (0x16, 1, 0x54, 1)];
  [(0x02, 1, 0x4d, 0); (0x09, 1, 0x4d, 0); (0x17, 1, 0x4d, 0); (0x28, 1, 0x4d, 1);
   (0x02, 1, 0x4e, 0); (0x09, 1, 0x4e, 0); (0x17, 1, 0x4e, 0); (0x28, 1, 0x4e, 1);
   (0x02, 1, 0x4f, 0); (0x09, 1, 0x4f, 0); (0x17, 1, 0x4f, 0); (0x28, 1, 0x4f, 1);
   (0x02, 1, 0x50, 0); (0x09, 1, 0x50, 0); (0x17, 1, 0x50, 0); (0x28, 1, 0x50, 1)];
  [(0x03, 1, 0x4d, 0); (0x06, 1, 0x4d, 0); (0x0a, 1, 0x4d, 0); (0x0f, 1, 0x4d, 0);
   (0x18, 1, 0x4d, 0); (0x1f, 1, 0x4d, 0); (0x29, 1, 0x4d, 0); (0x38, 1, 0x4d, 1);
   (0x03, 1, 0x4e, 0); (0x06, 1, 0x4e, 0); (0x0a, 1, 0x4e, 0); (0x0f, 1, 0x4e, 0);
   (0x18, 1, 0x4e, 0); (0x1f, 1, 0x4e, 0); (0x29, 1, 0x4e, 0); (0x38, 1, 0x4e, 1)];
  [(0x03, 1, 0x4f, 0); (0x06, 1, 0x4f, 0); (0x0a, 1, 0x4f, 0); (0x0f, 1, 0x4f, 0);
   (0x18, 1, 0x4f, 0); (0x1f, 1, 0x4f, 0); (0x29, 1, 0x4f, 0); (0x38, 1, 0x4f, 1);
   (0x03, 1, 0x50, 0); (0x06, 1, 0x50, 0); (0x0a, 1, 0x50, 0); (0x0f, 1, 0x50, 0);
   (0x18, 1, 0x50, 0); (0x1f, 1, 0x50, 0); (0x29, 1, 0x50, 0); (0x38, 1, 0x50, 1)];
  [(0x02, 1, 0x51, 0); (0x09, 1, 0x51, 0); (0x17, 1, 0x51, 0); (0x28, 1, 0x51, 1);
   (0x02, 1, 0x52, 0); (0x09, 1, 0x52, 0); (0x17, 1, 0x52, 0); (0x28, 1, 0x52, 1);
   (0x02, 1, 0x53, 0); (0x09, 1, 0x53, 0); (0x17, 1, 0x53, 0); (0x28, 1, 0x53, 1);
   (0x02, 1, 0x54, 0); (0x09, 1, 0x54, 0); (0x17, 1, 0x54, 0); (0x28, 1, 0x54, 1)];
  [(0x03, 1, 0x51, 0); (0x06, 1, 0x51, 0); (0x0a, 1, 0x51, 0); (0x0f, 1, 0x51, 0);
   (0x18, 1, 0x51, 0); (0x1f, 1, 0x51, 0); (0x29, 1, 0x51, 0); (0x38, 1, 0x51, 1);
   (0x03, 1, 0x52, 0); (0x06, 1, 0x52, 0); (0x0a, 1, 0x52, 0); (0x0f, 1, 0x52, 0);
   (0x18, 1, 0x52, 0); (0x1f, 1, 0x52, 0); (0x29, 1, 0x52, 0); (0x38, 1, 0x52, 1)];
  [(0x03, 1, 0x53, 0); (0x06, 1, 0x53, 0); (0x0a, 1, 0x53, 0); (0x0f, 1, 0x53, 0);
   (0x18, 1, 0x53, 0); (0x1f, 1, 0x53, 0); (0x29, 1, 0x53, 0); (0x38, 1, 0x53, 1);
   (0x03, 1, 0x54, 0); (0x06, 1, 0x54, 0); (0x0a, 1, 0x54, 0); (0x0f, 1, 0x54, 0);
   (0x18, 1, 0x54, 0); (0x1f, 1, 0x54, 0); (0x29, 1, 0x54, 0); (0x38, 1, 0x54, 1)];
  [(0x00, 1, 0x55, 1); (0x00, 1, 0x56, 1); (0x00, 1, 0x57, 1); (0x00, 1, 0x59, 1);
   (0x00, 1, 0x6a, 1); (0x00, 1, 0x6b, 1); (0x00, 1, 0x71, 1); (0x00, 1, 0x76, 1);
   (0x00, 1, 0x77, 1); (0x00, 1, 0x78, 1); (0x00, 1, 0x79, 1); (0x00, 1, 0x7a, 1);
   (0x46, 0, 0x00, 0); (0x47, 0, 0x00, 0); (0x49, 0, 0x00, 0); (0x4a, 0, 0x00, 1)];
  [(0x01, 1, 0x55, 0); (0x16, 1, 0x55, 1); (0x01, 1, 0x56, 0); (0x16, 1, 0x56, 1);
   (0x01, 1, 0x57, 0); (0x16, 1, 0x57, 1); (0x01, 1, 0x59, 0); (0x16, 1, 0x59, 1);
   (0x01, 1, 0x6a, 0); (0x16, 1, 0x6a, 1); (0x01, 1, 0x6b, 0); (0x16, 1, 0x6b, 1);
   (0x01, 1, 0x71, 0); (0x16, 1, 0x71, 1); (0x01, 1, 0x76, 0); (0x16, 1, 0x76, 1)];
  [(0x02, 1, 0x55, 0); (0x09, 1, 0x55, 0); (0x17, 1, 0x55, 0); (0x28, 1, 0x55, 1);
   (0x02, 1, 0x56, 0); (0x09, 1, 0x56, 0); (0x17, 1, 0x56, 0); (0x28, 1, 0x56, 1);
   (0x02, 1, 0x57, 0); (0x09, 1, 0x57, 0); (0x17, 1, 0x57, 0); (0x28, 1, 0x57, 1);
   (0x02, 1, 0x59, 0); (0x09, 1, 0x59, 0); (0x17, 1, 0x59, 0); (0x28, 1, 0x59, 1)];
  [(0x03, 1, 0x55, 0); (0x06, 1, 0x55, 0); (0x0a, 1, 0x55, 0); (0x0f, 1, 0x55, 0);
   (0x18, 1, 0x55, 0); (0x1f, 1, 0x55, 0); (0x29, 1, 0x55, 0); (0x38, 1, 0x55, 1);
   (0x03, 1, 0x56, 0); (0x06, 1, 0x56, 0); (0x0a, 1, 0x56, 0); (0x0f, 1, 0x56, 0);
   (0x18, 1, 0x56, 0); (0x1f, 1, 0x56, 0); (0x29, 1, 0x56, 0); (0x38, 1, 0x56, 1)];
  [(0x03, 1, 0x57, 0); (0x06, 1, 0x57, 0); (0x0a, 1, 0x57, 0); (0x0f, 1, 0x57, 0);
   (0x18, 1, 0x57, 0); (0x1f, 1, 0x57, 0); (0x29, 1, 0x57, 0); (0x38, 1, 0x57, 1);
   (0x03, 1, 0x59, 0); (0x06, 1, 0x59, 0); (0x0a, 1, 0x59, 0); (0x0f, 1, 0x59, 0);
   (0x18, 1, 0x59, 0); (0x1f, 1, 0x59, 0); (0x29, 1, 0x59, 0); (0x38, 1, 0x59, 1)];
  [(0x02, 1, 0x6a, 0); (0x09, 1, 0x6a, 0); (0x17, 1, 0x6a, 0); (0x28, 1, 0x6a, 1);
   (0x02, 1, 0x6b, 0); (0x09, 1, 0x6b, 0); (0x17, 1, 0x6b, 0); (0x28, 1, 0x6b, 1);
   (0x02, 1, 0x71, 0); (0x09, 1, 0x71, 0); (0x17, 1, 0x71, 0); (0x28, 1, 0x71, 1);
   (0x02, 1, 0x76, 0); (0x09, 1, 0x76, 0); (0x17, 1, 0x76, 0); (0x28, 1, 0x76, 1)];
  [(0x03, 1, 0x6a, 0); (0x06, 1, 0x6a, 0); (0x0a, 1, 0x6a, 0); (0x0f, 1, 0x6a, 0);
   (0x18, 1, 0x6a, 0); (0x1f, 1, 0x6a, 0); (0x29, 1, 0x6a, 0); (0x38, 1, 0x6a, 1);
   (0x03, 1, 0x6b, 0); (0x06, 1, 0x6b, 0); (0x0a, 1, 0x6b, 0); (0x0f, 1, 0x6b, 0);
   (0x18, 1, 0x6b, 0); (0x1f, 1, 0x6b, 0); (0x29, 1, 0x6b, 0); (0x38, 1, 0x6b, 1)];
  [(0x03, 1, 0x71, 0); (0x06, 1, 0x71, 0); (0x0a, 1, 0x71, 0); (0x0f, 1, 0x71, 0);
   (0x18, 1, 0x71, 0); (0x1f, 1, 0x71, 0); (0x29, 1, 0x71, 0); (0x38, 1, 0x71, 1);
   (0x03, 1, 0x76, 0); (0x06, 1, 0x76, 0); (0x0a, 1, 0x76, 0); (0x0f, 1, 0x76, 0);
   (0x18, 1, 0x76, 0); (0x1f, 1, 0x76, 0); (0x29, 1, 0x76, 0); (0x38, 1, 0x76, 1)]
].

Definition huff_decode_codes_4 : list (list ngx_http_huff_decode_code_t) := map row [
  [(0x01, 1, 0x77, 0); (0x16, 1, 0x77, 1); (0x01, 1, 0x78, 0); (0x16, 1, 0x78, 1);
   (0x01, 1, 0x79, 0); (0x16, 1, 0x79, 1); (0x01, 1, 0x7a, 0); (0x16, 1, 0x7a, 1);
   (0x00, 1, 0x26, 1); (0x00, 1, 0x2a, 1); (0x00, 1, 0x2c, 1); (0x00, 1, 0x3b, 1);
   (0x00, 1, 0x58, 1); (0x00, 1, 0x5a, 1); (0x4b, 0, 0x00, 0); (0x4e, 0, 0x00, 1)];
  [(0x02, 1, 0x77, 0); (0x09, 1, 0x77, 0); (0x17, 1, 0x77, 0); (0x28, 1, 0x77, 1);
   (0x02, 1, 0x78, 0); (0x09, 1, 0x78, 0); (0x17, 1, 0x78, 0); (0x28, 1, 0x78, 1);
   (0x02, 1, 0x79, 0); (0x09, 1, 0x79, 0); (0x17, 1, 0x79, 0); (0x28, 1, 0x79, 1);
   (0x02, 1, 0x7a, 0); (0x09, 1, 0x7a, 0); (0x17, 1, 0x7a, 0); (0x28, 1, 0x7a, 1)];
  [(0x03, 1, 0x77, 0); (0x06, 1, 0x77, 0); (0x0a, 1, 0x77, 0); (0x0f, 1, 0x77, 0);
   (0x18, 1, 0x77, 0); (0x1f, 1, 0x77, 0); (0x29, 1, 0x77, 0); (0x38, 1, 0x77, 1);
   (0x03, 1, 0x78, 0); (0x06, 1, 0x78, 0); (0x0a, 1, 0x78, 0); (0x0f, 1, 0x78, 0);
   (0x18, 1, 0x78, 0); (0x1f, 1, 0x78, 0); (0x29, 1, 0x78, 0); (0x38, 1, 0x78, 1)];
  [(0x03, 1, 0x79, 0); (0x06, 1, 0x79, 0); (0x0a, 1, 0x79, 0); (0x0f, 1, 0x79, 0);
   (0x18, 1, 0x79, 0); (0x1f, 1, 0x79, 0); (0x29, 1, 0x79, 0); (0x38, 1, 0x79, 1);
   (0x03, 1, 0x7a, 0); (0x06, 1, 0x7a, 0); (0x0a, 1, 0x7a, 0); (0x0f, 1, 0x7a, 0);
   (0x18, 1, 0x7a, 0); (0x1f, 1, 0x7a, 0); (0x29, 1, 0x7a, 0); (0x38, 1, 0x7a, 1)];
  [(0x01, 1, 0x26, 0); (0x16, 1, 0x26, 1); (0x01, 1, 0x2a, 0); (0x16, 1, 0x2a, 1);
   (0x01, 1, 0x2c, 0); (0x16, 1, 0x2c, 1); (0x01, 1, 0x3b, 0); (0x16, 1, 0x3b, 1);
   (0x01, 1, 0x58, 0); (0x16, 1, 0x58, 1); (0x01, 1, 0x5a, 0); (0x16, 1, 0x5a, 1);
   (0x4c, 0, 0x00, 0); (0x4d, 0, 0x00, 0); (0x4f, 0, 0x00, 0); (0x51, 0, 0x00, 1)];
  [(0x02, 1, 0x26, 0); (0x09, 1, 0x26, 0); (0x17, 1, 0x26, 0); (0x28, 1, 0x26, 1);
   (0x02, 1, 0x2a, 0); (0x09, 1, 0x2a, 0); (0x17, 1, 0x2a, 0); (0x28, 1, 0x2a, 1);
   (0x02, 1, 0x2c, 0); (0x09, 1, 0x2c, 0); (0x17, 1, 0x2c, 0); (0x28, 1, 0x2c, 1);
   (0x02, 1, 0x3b, 0); (0x09, 1, 0x3b, 0); (0x17, 1, 0x3b, 0); (0x28, 1, 0x3b, 1)];
  [(0x03, 1, 0x26, 0); (0x06, 1, 0x26, 0); (0x0a, 1, 0x26, 0); (0x0f, 1, 0x26, 0);
   (0x18, 1, 0x26, 0); (0x1f, 1, 0x26, 0); (0x29, 1, 0x26, 0); (0x38, 1, 0x26, 1);
   (0x03, 1, 0x2a, 0); (0x06, 1, 0x2a, 0); (0x0a, 1, 0x2a, 0); (0x0f, 1, 0x2a, 0);
   (0x18, 1, 0x2a, 0); (0x1f, 1, 0x2a, 0); (0x29, 1, 0x2a, 0); (0x38, 1, 0x2a, 1)];
  [(0x03, 1, 0x2c, 0); (0x06, 1, 0x2c, 0); (0x0a, 1, 0x2c, 0); (0x0f, 1, 0x2c, 0);
   (0x18, 1, 0x2c, 0); (0x1f, 1, 0x2c, 0); (0x29, 1, 0x2c, 0); (0x38, 1, 0x2c, 1);
   (0x03, 1, 0x3b, 0); (0x06, 1, 0x3b, 0); (0x0a, 1, 0x3b, 0); (0x0f, 1, 0x3b, 0);
   (0x18, 1, 0x3b, 0); (0x1f, 1, 0x3b, 0); (0x29, 1, 0x3b, 0); (0x38, 1, 0x3b, 1)];
  [(0x02, 1, 0x58, 0); (0x09, 1, 0x58, 0); (0x17, 1, 0x58, 0); (0x28, 1, 0x58, 1);
   (0x02, 1, 0x5a, 0); (0x09, 1, 0x5a, 0); (0x17, 1, 0x5a, 0); (0x28, 1, 0x5a, 1);
   (0x00, 1, 0x21, 1); (0x00, 1, 0x22, 1); (0x00, 1, 0x28, 1); (0x00, 1, 0x29, 1);
   (0x00, 1, 0x3f, 1); (0x50, 0, 0x00, 0); (0x52, 0, 0x00, 0); (0x54, 0, 0x00, 1)];
  [(0x03, 1, 0x58, 0); (0x06, 1, 0x58, 0); (0x0a, 1, 0x58, 0); (0x0f, 1, 0x58, 0);
   (0x18, 1, 0x58, 0); (0x1f, 1, 0x58, 0); (0x29, 1, 0x58, 0); (0x38, 1, 0x58, 1);
   (0x03, 1, 0x5a, 0); (0x06, 1, 0x5a, 0); (0x0a, 1, 0x5a, 0); (0x0f, 1, 0x5a, 0);
   (0x18, 1, 0x5a, 0); (0x1f, 1, 0x5a, 0); (0x29, 1, 0x5a, 0); (0x38, 1, 0x5a, 1)];
  [(0x01, 1, 0x21, 0); (0x16, 1, 0x21, 1); (0x01, 1, 0x22, 0); (0x16, 1, 0x22, 1);
   (0x01, 1, 0x28, 0); (0x16, 1, 0x28, 1); (0x01, 1, 0x29, 0); (0x16, 1, 0x29, 1);
   (0x01, 1, 0x3f, 0); (0x16, 1, 0x3f, 1); (0x00, 1, 0x27, 1); (0x00, 1, 0x2b, 1);
   (0x00, 1, 0x7c, 1); (0x53, 0, 0x00, 0); (0x55, 0, 0x00, 0); (0x58, 0, 0x00, 1)];
  [(0x02, 1, 0x21, 0); (0x09, 1, 0x21, 0); (0x17, 1, 0x21, 0); (0x28, 1, 0x21, 1);
   (0x02, 1, 0x22, 0); (0x09, 1, 0x22, 0); (0x17, 1, 0x22, 0); (0x28, 1, 0x22, 1);
   (0x02, 1, 0x28, 0); (0x09, 1, 0x28, 0); (0x17, 1, 0x28, 0); (0x28, 1, 0x28, 1);
   (0x02, 1, 0x29, 0); (0x09, 1, 0x29, 0); (0x17, 1, 0x29, 0); (0x28, 1, 0x29, 1)];
  [(0x03, 1, 0x21, 0); (0x06, 1, 0x21, 0); (0x0a, 1, 0x21, 0); (0x0f, 1, 0x21, 0);
   (0x18, 1, 0x21, 0); (0x1f, 1, 0x21, 0); (0x29, 1, 0x21, 0); (0x38, 1, 0x21, 1);
   (0x03, 1, 0x22, 0); (0x06, 1, 0x22, 0); (0x0a, 1, 0x22, 0); (0x0f, 1, 0x22, 0);
   (0x18, 1, 0x22, 0); (0x1f, 1, 0x22, 0); (0x29, 1, 0x22, 0); (0x38, 1, 0x22, 1)];
  [(0x03, 1, 0x28, 0); (0x06, 1, 0x28, 0); (0x0a, 1, 0x28, 0); (0x0f, 1, 0x28, 0);
   (0x18, 1, 0x28, 0); (0x1f, 1, 0x28, 0); (0x29, 1, 0x28, 0); (0x38, 1, 0x28, 1);
   (0x03, 1, 0x29, 0); (0x06, 1, 0x29, 0); (0x0a, 1, 0x29, 0); (0x0f, 1, 0x29, 0);
   (0x18, 1, 0x29, 0); (0x1f, 1, 0x29, 0); (0x29, 1, 0x29, 0); (0x38, 1, 0x29, 1)];
  [(0x02, 1, 0x3f, 0); (0x09, 1, 0x3f, 0); (0x17, 1, 0x3f, 0); (0x28, 1, 0x3f, 1);
   (0x01, 1, 0x27, 0); (0x16, 1, 0x27, 1); (0x01, 1, 0x2b, 0); (0x16, 1, 0x2b, 1);
   (0x01, 1, 0x7c, 0); (0x16, 1, 0x7c, 1); (0x00, 1, 0x23, 1); (0x00, 1, 0x3e, 1);
   (0x56, 0, 0x00, 0); (0x57, 0, 0x00, 0); (0x59, 0, 0x00, 0); (0x5a, 0, 0x00, 1)];
  [(0x03, 1, 0x3f, 0); (0x06, 1, 0x3f, 0); (0x0a, 1, 0x3f, 0); (0x0f, 1, 0x3f, 0);
   (0x18, 1, 0x3f, 0); (0x1f, 1, 0x3f, 0); (0x29, 1, 0x3f, 0); (0x38, 1, 0x3f, 1);
   (0x02, 1, 0x27, 0); (0x09, 1, 0x27, 0); (0x17, 1, 0x27, 0); (0x28, 1, 0x27, 1);
   (0x02, 1, 0x2b, 0); (0x09, 1, 0x2b, 0); (0x17, 1, 0x2b, 0); (0x28, 1, 0x2b, 1)]
].

Definition huff_decode_codes_5 : list (list ngx_http_huff_decode_code_t) := map row [
  [(0x03, 1, 0x27, 0); (0x06, 1, 0x27, 0); (0x0a, 1, 0x27, 0); (0x0f, 1, 0x27, 0);
   (0x18, 1, 0x27, 0); (0x1f, 1, 0x27, 0); (0x29, 1, 0x27, 0); (0x38, 1, 0x27, 1);
   (0x03, 1, 0x2b, 0); (0x06, 1, 0x2b, 0); (0x0a, 1, 0x2b, 0); (0x0f, 1, 0x2b, 0);
   (0x18, 1, 0x2b, 0); (0x1f, 1, 0x2b, 0); (0x29, 1, 0x2b, 0); (0x38, 1, 0x2b, 1)];
  [(0x02, 1, 0x7c, 0); (0x09, 1, 0x7c, 0); (0x17, 1, 0x7c, 0); (0x28, 1, 0x7c, 1);
   (0x01, 1, 0x23, 0); (0x16, 1, 0x23, 1); (0x01, 1, 0x3e, 0); (0x16, 1, 0x3e, 1);
   (0x00, 1, 0x00, 1); (0x00, 1, 0x24, 1); (0x00, 1, 0x40, 1); (0x00, 1, 0x5b, 1);
   (0x00, 1, 0x5d, 1); (0x00, 1, 0x7e, 1); (0x5b, 0, 0x00, 0); (0x5c, 0, 0x00, 1)];
  [(0x03, 1, 0x7c, 0); (0x06, 1, 0x7c, 0); (0x0a, 1, 0x7c, 0); (0x0f, 1, 0x7c, 0);
   (0x18, 1, 0x7c, 0); (0x1f, 1, 0x7c, 0); (0x29, 1, 0x7c, 0); (0x38, 1, 0x7c, 1);
   (0x02, 1, 0x23, 0); (0x09, 1, 0x23, 0); (0x17, 1, 0x23, 0); (0x28, 1, 0x23, 1);
   (0x02, 1, 0x3e, 0); (0x09, 1, 0x3e, 0); (0x17, 1, 0x3e, 0); (0x28, 1, 0x3e, 1)];
  [(0x03, 1, 0x23, 0); (0x06, 1, 0x23, 0); (0x0a, 1, 0x23, 0); (0x0f, 1, 0x23, 0);
   (0x18, 1, 0x23, 0); (0x1f, 1, 0x23, 0); (0x29, 1, 0x23, 0); (0x38, 1, 0x23, 1);
   (0x03, 1, 0x3e, 0); (0x06, 1, 0x3e, 0); (0x0a, 1, 0x3e, 0); (0x0f, 1, 0x3e, 0);
   (0x18, 1, 0x3e, 0); (0x1f, 1, 0x3e, 0); (0x29, 1, 0x3e, 0); (0x38, 1, 0x3e, 1)];
  [(0x01, 1, 0x00, 0); (0x16, 1, 0x00, 1); (0x01, 1, 0x24, 0); (0x16, 1, 0x24, 1);
   (0x01, 1, 0x40, 0); (0x16, 1, 0x40, 1); (0x01, 1, 0x5b, 0); (0x16, 1, 0x5b, 1);
   (0x01, 1, 0x5d, 0); (0x16, 1, 0x5d, 1); (0x01, 1, 0x7e, 0); (0x16, 1, 0x7e, 1);
   (0x00, 1, 0x5e, 1); (0x00, 1, 0x7d, 1); (0x5d, 0, 0x00, 0); (0x5e, 0, 0x00, 1)];
  [(0x02, 1, 0x00, 0); (0x09, 1, 0x00, 0); (0x17, 1, 0x00, 0); (0x28, 1, 0x00, 1);
   (0x02, 1, 0x24, 0); (0x09, 1, 0x24, 0); (0x17, 1, 0x24, 0); (0x28, 1, 0x24, 1);
   (0x02, 1, 0x40, 0); (0x09, 1, 0x40, 0); (0x17, 1, 0x40, 0); (0x28, 1, 0x40, 1);
   (0x02, 1, 0x5b, 0); (0x09, 1, 0x5b, 0); (0x17, 1, 0x5b, 0); (0x28, 1, 0x5b, 1)];
  [(0x03, 1, 0x00, 0); (0x06, 1, 0x00, 0); (0x0a, 1, 0x00, 0); (0x0f, 1, 0x00, 0);
   (0x18, 1, 0x00, 0); (0x1f, 1, 0x00, 0); (0x29, 1, 0x00, 0); (0x38, 1, 0x00, 1);
   (0x03, 1, 0x24, 0); (0x06, 1, 0x24, 0); (0x0a, 1, 0x24, 0); (0x0f, 1, 0x24, 0);
   (0x18, 1, 0x24, 0); (0x1f, 1, 0x24, 0); (0x29, 1, 0x24, 0); (0x38, 1, 0x24, 1)];
  [(0x03, 1, 0x40, 0); (0x06, 1, 0x40, 0); (0x0a, 1, 0x40, 0); (0x0f, 1, 0x40, 0);
   (0x18, 1, 0x40, 0); (0x1f, 1, 0x40, 0); (0x29, 1, 0x40, 0); (0x38, 1, 0x40, 1);
   (0x03, 1, 0x5b, 0); (0x06, 1, 0x5b, 0); (0x0a, 1, 0x5b, 0); (0x0f, 1, 0x5b, 0);
   (0x18, 1, 0x5b, 0); (0x1f, 1, 0x5b, 0); (0x29, 1, 0x5b, 0); (0x38, 1, 0x5b, 1)];
  [(0x02, 1, 0x5d, 0); (0x09, 1, 0x5d, 0); (0x17, 1, 0x5d, 0); (0x28, 1, 0x5d, 1);
   (0x02, 1, 0x7e, 0); (0x09, 1, 0x7e, 0); (0x17, 1, 0x7e, 0); (0x28, 1, 0x7e, 1);
   (0x01, 1, 0x5e, 0); (0x16, 1, 0x5e, 1); (0x01, 1, 0x7d, 0); (0x16, 1, 0x7d, 1);
   (0x00, 1, 0x3c, 1); (0x00, 1, 0x60, 1); (0x00, 1, 0x7b, 1); (0x5f, 0, 0x00, 1)];
  [(0x03, 1, 0x5d, 0); (0x06, 1, 0x5d, 0); (0x0a, 1, 0x5d, 0); (0x0f, 1, 0x5d, 0);
   (0x18, 1, 0x5d, 0); (0x1f, 1, 0x5d, 0); (0x29, 1, 0x5d, 0); (0x38, 1, 0x5d, 1);
   (0x03, 1, 0x7e, 0); (0x06, 1, 0x7e, 0); (0x0a, 1, 0x7e, 0); (0x0f, 1, 0x7e, 0);
   (0x18, 1, 0x7e, 0); (0x1f, 1, 0x7e, 0); (0x29, 1, 0x7e, 0); (0x38, 1, 0x7e, 1)];
  [(0x02, 1, 0x5e, 0); (0x09, 1, 0x5e, 0); (0x17, 1, 0x5e, 0); (0x28, 1, 0x5e, 1);
   (0x02, 1, 0x7d, 0); (0x09, 1, 0x7d, 0); (0x17, 1, 0x7d, 0); (0x28, 1, 0x7d, 1);
   (0x01, 1, 0x3c, 0); (0x16, 1, 0x3c, 1); (0x01, 1, 0x60, 0); (0x16, 1, 0x60, 1);
   (0x01, 1, 0x7b, 0); (0x16, 1, 0x7b, 1); (0x60, 0, 0x00, 0); (0x6e, 0, 0x00, 1)];
  [(0x03, 1, 0x5e, 0); (0x06, 1, 0x5e, 0); (0x0a, 1, 0x5e, 0); (0x0f, 1, 0x5e, 0);
   (0x18, 1, 0x5e, 0); (0x1f, 1, 0x5e, 0); (0x29, 1, 0x5e, 0); (0x38, 1, 0x5e, 1);
   (0x03, 1, 0x7d, 0); (0x06, 1, 0x7d, 0); (0x0a, 1, 0x7d, 0); (0x0f, 1, 0x7d, 0);
   (0x18, 1, 0x7d, 0); (0x1f, 1, 0x7d, 0); (0x29, 1, 0x7d, 0); (0x38, 1, 0x7d, 1)];
  [(0x02, 1, 0x3c, 0); (0x09, 1, 0x3c, 0); (0x17, 1, 0x3c, 0); (0x28, 1, 0x3c, 1);
   (0x02, 1, 0x60, 0); (0x09, 1, 0x60, 0); (0x17, 1, 0x60, 0); (0x28, 1, 0x60, 1);
   (0x02, 1, 0x7b, 0); (0x09, 1, 0x7b, 0); (0x17, 1, 0x7b, 0); (0x28, 1, 0x7b, 1);
   (0x61, 0, 0x00, 0); (0x65, 0, 0x00, 0); (0x6f, 0, 0x00, 0); (0x85, 0, 0x00, 1)];
  [(0x03, 1, 0x3c, 0); (0x06, 1, 0x3c, 0); (0x0a, 1, 0x3c, 0); (0x0f, 1, 0x3c, 0);
   (0x18, 1, 0x3c, 0); (0x1f, 1, 0x3c, 0); (0x29, 1, 0x3c, 0); (0x38, 1, 0x3c, 1);
   (0x03, 1, 0x60, 0); (0x06, 1, 0x60, 0); (0x0a, 1, 0x60, 0); (0x0f, 1, 0x60, 0);
   (0x18, 1, 0x60, 0); (0x1f, 1, 0x60, 0); (0x29, 1, 0x60, 0); (0x38, 1, 0x60, 1)];
  [(0x03, 1, 0x7b, 0); (0x06, 1, 0x7b, 0); (0x0a, 1, 0x7b, 0); (0x0f, 1, 0x7b, 0);
   (0x18, 1, 0x7b, 0); (0x1f, 1, 0x7b, 0); (0x29, 1, 0x7b, 0); (0x38, 1, 0x7b, 1);
   (0x62, 0, 0x00, 0); (0x63, 0, 0x00, 0); (0x66, 0, 0x00, 0); (0x69, 0, 0x00, 0);
   (0x70, 0, 0x00, 0); (0x77, 0, 0x00, 0); (0x86, 0, 0x00, 0); (0x99, 0, 0x00, 1)];
  [(0x00, 1, 0x5c, 1); (0x00, 1, 0xc3, 1); (0x00, 1, 0xd0, 1); (0x64, 0, 0x00, 0);
   (0x67, 0, 0x00, 0); (0x68, 0, 0x00, 0); (0x6a, 0, 0x00, 0); (0x6b, 0, 0x00, 0);
   (0x71, 0, 0x00, 0); (0x74, 0, 0x00, 0); (0x78, 0, 0x00, 0); (0x7e, 0, 0x00, 0);
   (0x87, 0, 0x00, 0); (0x8e, 0, 0x00, 0); (0x9a, 0, 0x00, 0); (0xa9, 0, 0x00, 1)]
].

Definition huff_decode_codes_6 : list (list ngx_http_huff_decode_code_t) := map row [
  [(0x01, 1, 0x5c, 0); (0x16, 1, 0x5c, 1); (0x01, 1, 0xc3, 0); (0x16, 1, 0xc3, 1);
   (0x01, 1, 0xd0, 0); (0x16, 1, 0xd0, 1); (0x00, 1, 0x80, 1); (0x00, 1, 0x82, 1);
   (0x00, 1, 0x83, 1); (0x00, 1, 0xa2, 1); (0x00, 1, 0xb8, 1); (0x00, 1, 0xc2, 1);
   (0x00, 1, 0xe0, 1); (0x00, 1, 0xe2, 1); (0x6c, 0, 0x00, 0); (0x6d, 0, 0x00, 0)];
  [(0x02, 1, 0x5c, 0); (0x09, 1, 0x5c, 0); (0x17, 1, 0x5c, 0); (0x28, 1, 0x5c, 1);
   (0x02, 1, 0xc3, 0); (0x09, 1, 0xc3, 0); (0x17, 1, 0xc3, 0); (0x28, 1, 0xc3, 1);
   (0x02, 1, 0xd0, 0); (0x09, 1, 0xd0, 0); (0x17, 1, 0xd0, 0); (0x28, 1, 0xd0, 1);
   (0x01, 1, 0x80, 0); (0x16, 1, 0x80, 1); (0x01, 1, 0x82, 0); (0x16, 1, 0x82, 1)];
  [(0x03, 1, 0x5c, 0); (0x06, 1, 0x5c, 0); (0x0a, 1, 0x5c, 0); (0x0f, 1, 0x5c, 0);
   (0x18, 1, 0x5c, 0); (0x1f, 1, 0x5c, 0); (0x29, 1, 0x5c, 0); (0x38, 1, 0x5c, 1);
   (0x03, 1, 0xc3, 0); (0x06, 1, 0xc3, 0); (0x0a, 1, 0xc3, 0); (0x0f, 1, 0xc3, 0);
   (0x18, 1, 0xc3, 0); (0x1f, 1, 0xc3, 0); (0x29, 1, 0xc3, 0); (0x38, 1, 0xc3, 1)];
  [(0x03, 1, 0xd0, 0); (0x06, 1, 0xd0, 0); (0x0a, 1, 0xd0, 0); (0x0f, 1, 0xd0, 0);
   (0x18, 1, 0xd0, 0); (0x1f, 1, 0xd0, 0); (0x29, 1, 0xd0, 0); (0x38, 1, 0xd0, 1);
   (0x02, 1, 0x80, 0); (0x09, 1, 0x80, 0); (0x17, 1, 0x80, 0); (0x28, 1, 0x80, 1);
   (0x02, 1, 0x82, 0); (0x09, 1, 0x82, 0); (0x17, 1, 0x82, 0); (0x28, 1, 0x82, 1)];
  [(0x03, 1, 0x80, 0); (0x06, 1, 0x80, 0); (0x0a, 1, 0x80, 0); (0x0f, 1, 0x80, 0);
   (0x18, 1, 0x80, 0); (0x1f, 1, 0x80, 0); (0x29, 1, 0x80, 0); (0x38, 1, 0x80, 1);
   (0x03, 1, 0x82, 0); (0x06, 1, 0x82, 0); (0x0a, 1, 0x82, 0); (0x0f, 1, 0x82, 0);
   (0x18, 1, 0x82, 0); (0x1f, 1, 0x82, 0); (0x29, 1, 0x82, 0); (0x38, 1, 0x82, 1)];
  [(0x01, 1, 0x83, 0); (0x16, 1, 0x83, 1); (0x01, 1, 0xa2, 0); (0x16, 1, 0xa2, 1);
   (0x01, 1, 0xb8, 0); (0x16, 1, 0xb8, 1); (0x01, 1, 0xc2, 0); (0x16, 1, 0xc2, 1);
   (0x01, 1, 0xe0, 0); (0x16, 1, 0xe0, 1); (0x01, 1, 0xe2, 0); (0x16, 1, 0xe2, 1);
   (0x00, 1, 0x99, 1); (0x00, 1, 0xa1, 1); (0x00, 1, 0xa7, 1); (0x00, 1, 0xac, 1)];
  [(0x02, 1, 0x83, 0); (0x09, 1, 0x83, 0); (0x17, 1, 0x83, 0); (0x28, 1, 0x83, 1);
   (0x02, 1, 0xa2, 0); (0x09, 1, 0xa2, 0); (0x17, 1, 0xa2, 0); (0x28, 1, 0xa2, 1);
   (0x02, 1, 0xb8, 0); (0x09, 1, 0xb8, 0); (0x17, 1, 0xb8, 0); (0x28, 1, 0xb8, 1);
   (0x02, 1, 0xc2, 0); (0x09, 1, 0xc2, 0); (0x17, 1, 0xc2, 0); (0x28, 1, 0xc2, 1)];
  [(0x03, 1, 0x83, 0); (0x06, 1, 0x83, 0); (0x0a, 1, 0x83, 0); (0x0f, 1, 0x83, 0);
   (0x18, 1, 0x83, 0); (0x1f, 1, 0x83, 0); (0x29, 1, 0x83, 0); (0x38, 1, 0x83, 1);
   (0x03, 1, 0xa2, 0); (0x06, 1, 0xa2, 0); (0x0a, 1, 0xa2, 0); (0x0f, 1, 0xa2, 0);
   (0x18, 1, 0xa2, 0); (0x1f, 1, 0xa2, 0); (0x29, 1, 0xa2, 0); (0x38, 1, 0xa2, 1)];
  [(0x03, 1, 0xb8, 0); (0x06, 1, 0xb8, 0); (0x0a, 1, 0xb8, 0); (0x0f, 1, 0xb8, 0);
   (0x18, 1, 0xb8, 0); (0x1f, 1, 0xb8, 0); (0x29, 1, 0xb8, 0); (0x38, 1, 0xb8, 1);
   (0x03, 1, 0xc2, 0); (0x06, 1, 0xc2, 0); (0x0a, 1, 0xc2, 0); (0x0f, 1, 0xc2, 0);
   (0x18, 1, 0xc2, 0); (0x1f, 1, 0xc2, 0); (0x29, 1, 0xc2, 0); (0x38, 1, 0xc2, 1)];
  [(0x02, 1, 0xe0, 0); (0x09, 1, 0xe0, 0); (0x17, 1, 0xe0, 0); (0x28, 1, 0xe0, 1);
   (0x02, 1, 0xe2, 0); (0x09, 1, 0xe2, 0); (0x17, 1, 0xe2, 0); (0x28, 1, 0xe2, 1);
   (0x01, 1, 0x99, 0); (0x16, 1, 0x99, 1); (0x01, 1, 0xa1, 0); (0x16, 1, 0xa1, 1);
   (0x01, 1, 0xa7, 0); (0x16, 1, 0xa7, 1); (0x01, 1, 0xac, 0); (0x16, 1, 0xac, 1)];
  [(0x03, 1, 0xe0, 0); (0x06, 1, 0xe0, 0); (0x0a, 1, 0xe0, 0); (0x0f, 1, 0xe0, 0);
   (0x18, 1, 0xe0, 0); (0x1f, 1, 0xe0, 0); (0x29, 1, 0xe0, 0); (0x38, 1, 0xe0, 1);
   (0x03, 1, 0xe2, 0); (0x06, 1, 0xe2, 0); (0x0a, 1, 0xe2, 0); (0x0f, 1, 0xe2, 0);
   (0x18, 1, 0xe2, 0); (0x1f, 1, 0xe2, 0); (0x29, 1, 0xe2, 0); (0x38, 1, 0xe2, 1)];
  [(0x02, 1, 0x99, 0); (0x09, 1, 0x99, 0); (0x17, 1, 0x99, 0); (0x28, 1, 0x99, 1);
   (0x02, 1, 0xa1, 0); (0x09, 1, 0xa1, 0); (0x17, 1, 0xa1, 0); (0x28, 1, 0xa1, 1);
   (0x02, 1, 0xa7, 0); (0x09, 1, 0xa7, 0); (0x17, 1, 0xa7, 0); (0x28, 1, 0xa7, 1);
   (0x02, 1, 0xac, 0); (0x09, 1, 0xac, 0); (0x17, 1, 0xac, 0); (0x28, 1, 0xac, 1)];
  [(0x03, 1, 0x99, 0); (0x06, 1, 0x99, 0); (0x0a, 1, 0x99, 0); (0x0f, 1, 0x99, 0);
   (0x18, 1, 0x99, 0); (0x1f, 1, 0x99, 0); (0x29, 1, 0x99, 0); (0x38, 1, 0x99, 1);
   (0x03, 1, 0xa1, 0); (0x06, 1, 0xa1, 0); (0x0a, 1, 0xa1, 0); (0x0f, 1, 0xa1, 0);
   (0x18, 1, 0xa1, 0); (0x1f, 1, 0xa1, 0); (0x29, 1, 0xa1, 0); (0x38, 1, 0xa1, 1)];
  [(0x03, 1, 0xa7, 0); (0x06, 1, 0xa7, 0); (0x0a, 1, 0xa7, 0); (0x0f, 1, 0xa7, 0);
   (0x18, 1, 0xa7, 0); (0x1f, 1, 0xa7, 0); (0x29, 1, 0xa7, 0); (0x38, 1, 0xa7, 1);
   (0x03, 1, 0xac, 0); (0x06, 1, 0xac, 0); (0x0a, 1, 0xac, 0); (0x0f, 1, 0xac, 0);
   (0x18, 1, 0xac, 0); (0x1f, 1, 0xac, 0); (0x29, 1, 0xac, 0); (0x38, 1, 0xac, 1)];
  [(0x72, 0, 0x00, 0); (0x73, 0, 0x00, 0); (0x75, 0, 0x00, 0); (0x76, 0, 0x00, 0);
   (0x79, 0, 0x00, 0); (0x7b, 0, 0x00, 0); (0x7f, 0, 0x00, 0); (0x82, 0, 0x00, 0);
   (0x88, 0, 0x00, 0); (0x8b, 0, 0x00, 0); (0x8f, 0, 0x00, 0); (0x92, 0, 0x00, 0);
   (0x9b, 0, 0x00, 0); (0xa2, 0, 0x00, 0); (0xaa, 0, 0x00, 0); (0xb4, 0, 0x00, 1)];
  [(0x00, 1, 0xb0, 1); (0x00, 1, 0xb1, 1); (0x00, 1, 0xb3, 1); (0x00, 1, 0xd1, 1);
   (0x00, 1, 0xd8, 1); (0x00, 1, 0xd9, 1); (0x00, 1, 0xe3, 1); (0x00, 1, 0xe5, 1);
   (0x00, 1, 0xe6, 1); (0x7a, 0, 0x00, 0); (0x7c, 0, 0x00, 0); (0x7d, 0, 0x00, 0);
   (0x80, 0, 0x00, 0); (0x81, 0, 0x00, 0); (0x83, 0, 0x00, 0); (0x84, 0, 0x00, 0)]
].

Definition huff_decode_codes_7 : list (list ngx_http_huff_decode_code_t) := map row [
  [(0x01, 1, 0xb0, 0); (0x16, 1, 0xb0, 1); (0x01, 1, 0xb1, 0); (0x16, 1, 0xb1, 1);
   (0x01, 1, 0xb3, 0); (0x16, 1, 0xb3, 1); (0x01, 1, 0xd1, 0); (0x16, 1, 0xd1, 1);
   (0x01, 1, 0xd8, 0); (0x16, 1, 0xd8, 1); (0x01, 1, 0xd9, 0); (0x16, 1, 0xd9, 1);
   (0x01, 1, 0xe3, 0); (0x16, 1, 0xe3, 1); (0x01, 1, 0xe5, 0); (0x16, 1, 0xe5, 1)];
  [(0x02, 1, 0xb0, 0); (0x09, 1, 0xb0, 0); (0x17, 1, 0xb0, 0); (0x28, 1, 0xb0, 1);
   (0x02, 1, 0xb1, 0); (0x09, 1, 0xb1, 0); (0x17, 1, 0xb1, 0); (0x28, 1, 0xb1, 1);
   (0x02, 1, 0xb3, 0); (0x09, 1, 0xb3, 0); (0x17, 1, 0xb3, 0); (0x28, 1, 0xb3, 1);
   (0x02, 1, 0xd1, 0); (0x09, 1, 0xd1, 0); (0x17, 1, 0xd1, 0); (0x28, 1, 0xd1, 1)];
  [(0x03, 1, 0xb0, 0); (0x06, 1, 0xb0, 0); (0x0a, 1, 0xb0, 0); (0x0f, 1, 0xb0, 0);
   (0x18, 1, 0xb0, 0); (0x1f, 1, 0xb0, 0); (0x29, 1, 0xb0, 0); (0x38, 1, 0xb0, 1);
   (0x03, 1, 0xb1, 0); (0x06, 1, 0xb1, 0); (0x0a, 1, 0xb1, 0); (0x0f, 1, 0xb1, 0);
   (0x18, 1, 0xb1, 0); (0x1f, 1, 0xb1, 0); (0x29, 1, 0xb1, 0); (0x38, 1, 0xb1, 1)];
  [(0x03, 1, 0xb3, 0); (0x06, 1, 0xb3, 0); (0x0a, 1, 0xb3, 0); (0x0f, 1, 0xb3, 0);
   (0x18, 1, 0xb3, 0); (0x1f, 1, 0xb3, 0); (0x29, 1, 0xb3, 0); (0x38, 1, 0xb3, 1);
   (0x03, 1, 0xd1, 0); (0x06, 1, 0xd1, 0); (0x0a, 1, 0xd1, 0); (0x0f, 1, 0xd1, 0);
   (0x18, 1, 0xd1, 0); (0x1f, 1, 0xd1, 0); (0x29, 1, 0xd1, 0); (0x38, 1, 0xd1, 1)];
  [(0x02, 1, 0xd8, 0); (0x09, 1, 0xd8, 0); (0x17, 1, 0xd8, 0); (0x28, 1, 0xd8, 1);
   (0x02, 1, 0xd9, 0); (0x09, 1, 0xd9, 0); (0x17, 1, 0xd9, 0); (0x28, 1, 0xd9, 1);
   (0x02, 1, 0xe3, 0); (0x09, 1, 0xe3, 0); (0x17, 1, 0xe3, 0); (0x28, 1, 0xe3, 1);
   (0x02, 1, 0xe5, 0); (0x09, 1, 0xe5, 0); (0x17, 1, 0xe5, 0); (0x28, 1, 0xe5, 1)];
  [(0x03, 1, 0xd8, 0); (0x06, 1, 0xd8, 0); (0x0a, 1, 0xd8, 0); (0x0f, 1, 0xd8, 0);
   (0x18, 1, 0xd8, 0); (0x1f, 1, 0xd8, 0); (0x29, 1, 0xd8, 0); (0x38, 1, 0xd8, 1);
   (0x03, 1, 0xd9, 0); (0x06, 1, 0xd9, 0); (0x0a, 1, 0xd9, 0); (0x0f, 1, 0xd9, 0);
   (0x18, 1, 0xd9, 0); (0x1f, 1, 0xd9, 0); (0x29, 1, 0xd9, 0); (0x38, 1, 0xd9, 1)];
  [(0x03, 1, 0xe3, 0); (0x06, 1, 0xe3, 0); (0x0a, 1, 0xe3, 0); (0x0f, 1, 0xe3, 0);
   (0x18, 1, 0xe3, 0); (0x1f, 1, 0xe3, 0); (0x29, 1, 0xe3, 0); (0x38, 1, 0xe3, 1);
   (0x03, 1, 0xe5, 0); (0x06, 1, 0xe5, 0); (0x0a, 1, 0xe5, 0); (0x0f, 1, 0xe5, 0);
   (0x18, 1, 0xe5, 0); (0x1f, 1, 0xe5, 0); (0x29, 1, 0xe5, 0); (0x38, 1, 0xe5, 1)];
  [(0x01, 1, 0xe6, 0); (0x16, 1, 0xe6, 1); (0x00, 1, 0x81, 1); (0x00, 1, 0x84, 1);
   (0x00, 1, 0x85, 1); (0x00, 1, 0x86, 1); (0x00, 1, 0x88, 1); (0x00, 1, 0x92, 1);
   (0x00, 1, 0x9a, 1); (0x00, 1, 0x9c, 1); (0x00, 1, 0xa0, 1); (0x00, 1, 0xa3, 1);
   (0x00, 1, 0xa4, 1); (0x00, 1, 0xa9, 1); (0x00, 1, 0xaa, 1); (0x00, 1, 0xad, 1)];
  [(0x02, 1, 0xe6, 0); (0x09, 1, 0xe6, 0); (0x17, 1, 0xe6, 0); (0x28, 1, 0xe6, 1);
   (0x01, 1, 0x81, 0); (0x16, 1, 0x81, 1); (0x01, 1, 0x84, 0); (0x16, 1, 0x84, 1);
   (0x01, 1, 0x85, 0); (0x16, 1, 0x85, 1); (0x01, 1, 0x86, 0); (0x16, 1, 0x86, 1);
   (0x01, 1, 0x88, 0); (0x16, 1, 0x88, 1); (0x01, 1, 0x92, 0); (0x16, 1, 0x92, 1)];
  [(0x03, 1, 0xe6, 0); (0x06, 1, 0xe6, 0); (0x0a, 1, 0xe6, 0); (0x0f, 1, 0xe6, 0);
   (0x18, 1, 0xe6, 0); (0x1f, 1, 0xe6, 0); (0x29, 1, 0xe6, 0); (0x38, 1, 0xe6, 1);
   (0x02, 1, 0x81, 0); (0x09, 1, 0x81, 0); (0x17, 1, 0x81, 0); (0x28, 1, 0x81, 1);
   (0x02, 1, 0x84, 0); (0x09, 1, 0x84, 0); (0x17, 1, 0x84, 0); (0x28, 1, 0x84, 1)];
  [(0x03, 1, 0x81, 0); (0x06, 1, 0x81, 0); (0x0a, 1, 0x81, 0); (0x0f, 1, 0x81, 0);
   (0x18, 1, 0x81, 0); (0x1f, 1, 0x81, 0); (0x29, 1, 0x81, 0); (0x38, 1, 0x81, 1);
   (0x03, 1, 0x84, 0); (0x06, 1, 0x84, 0); (0x0a, 1, 0x84, 0); (0x0f, 1, 0x84, 0);
   (0x18, 1, 0x84, 0); (0x1f, 1, 0x84, 0); (0x29, 1, 0x84, 0); (0x38, 1, 0x84, 1)];
  [(0x02, 1, 0x85, 0); (0x09, 1, 0x85, 0); (0x17, 1, 0x85, 0); (0x28, 1, 0x85, 1);
   (0x02, 1, 0x86, 0); (0x09, 1, 0x86, 0); (0x17, 1, 0x86, 0); (0x28, 1, 0x86, 1);
   (0x02, 1, 0x88, 0); (0x09, 1, 0x88, 0); (0x17, 1, 0x88, 0); (0x28, 1, 0x88, 1);
   (0x02, 1, 0x92, 0); (0x09, 1, 0x92, 0); (0x17, 1, 0x92, 0); (0x28, 1, 0x92, 1)];
  [(0x03, 1, 0x85, 0); (0x06, 1, 0x85, 0); (0x0a, 1, 0x85, 0); (0x0f, 1, 0x85, 0);
   (0x18, 1, 0x85, 0); (0x1f, 1, 0x85, 0); (0x29, 1, 0x85, 0); (0x38, 1, 0x85, 1);
   (0x03, 1, 0x86, 0); (0x06, 1, 0x86, 0); (0x0a, 1, 0x86, 0); (0x0f, 1, 0x86, 0);
   (0x18, 1, 0x86, 0); (0x1f, 1, 0x86, 0); (0x29, 1, 0x86, 0); (0x38, 1, 0x86, 1)];
  [(0x03, 1, 0x88, 0); (0x06, 1, 0x88, 0); (0x0a, 1, 0x88, 0); (0x0f, 1, 0x88, 0);
   (0x18, 1, 0x88, 0); (0x1f, 1, 0x88, 0); (0x29, 1, 0x88, 0); (0x38, 1, 0x88, 1);
   (0x03, 1, 0x92, 0); (0x06, 1, 0x92, 0); (0x0a, 1, 0x92, 0); (0x0f, 1, 0x92, 0);
   (0x18, 1, 0x92, 0); (0x1f, 1, 0x92, 0); (0x29, 1, 0x92, 0); (0x38, 1, 0x92, 1)];
  [(0x01, 1, 0x9a, 0); (0x16, 1, 0x9a, 1); (0x01, 1, 0x9c, 0); (0x16, 1, 0x9c, 1);
   (0x01, 1, 0xa0, 0); (0x16, 1, 0xa0, 1); (0x01, 1, 0xa3, 0); (0x16, 1, 0xa3, 1);
   (0x01, 1, 0xa4, 0); (0x16, 1, 0xa4, 1); (0x01, 1, 0xa9, 0); (0x16, 1, 0xa9, 1);
   (0x01, 1, 0xaa, 0); (0x16, 1, 0xaa, 1); (0x01, 1, 0xad, 0); (0x16, 1, 0xad, 1)];
  [(0x02, 1, 0x9a, 0); (0x09, 1, 0x9a, 0); (0x17, 1, 0x9a, 0); (0x28, 1, 0x9a, 1);
   (0x02, 1, 0x9c, 0); (0x09, 1, 0x9c, 0); (0x17, 1, 0x9c, 0); (0x28, 1, 0x9c, 1);
   (0x02, 1, 0xa0, 0); (0x09, 1, 0xa0, 0); (0x17, 1, 0xa0, 0); (0x28, 1, 0xa0, 1);
   (0x02, 1, 0xa3, 0); (0x09, 1, 0xa3, 0); (0x17, 1, 0xa3, 0); (0x28, 1, 0xa3, 1)]
].

Definition huff_decode_codes_8 : list (list ngx_http_huff_decode_code_t) := map row [
  [(0x03, 1, 0x9a, 0); (0x06, 1, 0x9a, 0); (0x0a, 1, 0x9a, 0); (0x0f, 1, 0x9a, 0);
   (0x18, 1, 0x9a, 0); (0x1f, 1, 0x9a, 0); (0x29, 1, 0x9a, 0); (0x38, 1, 0x9a, 1);
   (0x03, 1, 0x9c, 0); (0x06, 1, 0x9c, 0); (0x0a, 1, 0x9c, 0); (0x0f, 1, 0x9c, 0);
   (0x18, 1, 0x9c, 0); (0x1f, 1, 0x9c, 0); (0x29, 1, 0x9c, 0); (0x38, 1, 0x9c, 1)];
  [(0x03, 1, 0xa0, 0); (0x06, 1, 0xa0, 0); (0x0a, 1, 0xa0, 0); (0x0f, 1, 0xa0, 0);
   (0x18, 1, 0xa0, 0); (0x1f, 1, 0xa0, 0); (0x29, 1, 0xa0, 0); (0x38, 1, 0xa0, 1);
   (0x03, 1, 0xa3, 0); (0x06, 1, 0xa3, 0); (0x0a, 1, 0xa3, 0); (0x0f, 1, 0xa3, 0);
   (0x18, 1, 0xa3, 0); (0x1f, 1, 0xa3, 0); (0x29, 1, 0xa3, 0); (0x38, 1, 0xa3, 1)];
  [(0x02, 1, 0xa4, 0); (0x09, 1, 0xa4, 0); (0x17, 1, 0xa4, 0); (0x28, 1, 0xa4, 1);
   (0x02, 1, 0xa9, 0); (0x09, 1, 0xa9, 0); (0x17, 1, 0xa9, 0); (0x28, 1, 0xa9, 1);
   (0x02, 1, 0xaa, 0); (0x09, 1, 0xaa, 0); (0x17, 1, 0xaa, 0); (0x28, 1, 0xaa, 1);
   (0x02, 1, 0xad, 0); (0x09, 1, 0xad, 0); (0x17, 1, 0xad, 0); (0x28, 1, 0xad, 1)];
  [(0x03, 1, 0xa4, 0); (0x06, 1, 0xa4, 0); (0x0a, 1, 0xa4, 0); (0x0f, 1, 0xa4, 0);
   (0x18, 1, 0xa4, 0); (0x1f, 1, 0xa4, 0); (0x29, 1, 0xa4, 0); (0x38, 1, 0xa4, 1);
   (0x03, 1, 0xa9, 0); (0x06, 1, 0xa9, 0); (0x0a, 1, 0xa9, 0); (0x0f, 1, 0xa9, 0);
   (0x18, 1, 0xa9, 0); (0x1f, 1, 0xa9, 0); (0x29, 1, 0xa9, 0); (0x38, 1, 0xa9, 1)];
  [(0x03, 1, 0xaa, 0); (0x06, 1, 0xaa, 0); (0x0a, 1, 0xaa, 0); (0x0f, 1, 0xaa, 0);
   (0x18, 1, 0xaa, 0); (0x1f, 1, 0xaa, 0); (0x29, 1, 0xaa, 0); (0x38, 1, 0xaa, 1);
   (0x03, 1, 0xad, 0); (0x06, 1, 0xad, 0); (0x0a, 1, 0xad, 0); (0x0f, 1, 0xad, 0);
   (0x18, 1, 0xad, 0); (0x1f, 1, 0xad, 0); (0x29, 1, 0xad, 0); (0x38, 1, 0xad, 1)];
  [(0x89, 0, 0x00, 0); (0x8a, 0, 0x00, 0); (0x8c, 0, 0x00, 0); (0x8d, 0, 0x00, 0);
   (0x90, 0, 0x00, 0); (0x91, 0, 0x00, 0); (0x93, 0, 0x00, 0); (0x96, 0, 0x00, 0);
   (0x9c, 0, 0x00, 0); (0x9f, 0, 0x00, 0); (0xa3, 0, 0x00, 0); (0xa6, 0, 0x00, 0);
   (0xab, 0, 0x00, 0); (0xae, 0, 0x00, 0); (0xb5, 0, 0x00, 0); (0xbe, 0, 0x00, 1)];
  [(0x00, 1, 0xb2, 1); (0x00, 1, 0xb5, 1); (0x00, 1, 0xb9, 1); (0x00, 1, 0xba, 1);
   (0x00, 1, 0xbb, 1); (0x00, 1, 0xbd, 1); (0x00, 1, 0xbe, 1); (0x00, 1, 0xc4, 1);
   (0x00, 1, 0xc6, 1); (0x00, 1, 0xe4, 1); (0x00, 1, 0xe8, 1); (0x00, 1, 0xe9, 1);
   (0x94, 0, 0x00, 0); (0x95, 0, 0x00, 0); (0x97, 0, 0x00, 0); (0x98, 0, 0x00, 0)];
  [(0x01, 1, 0xb2, 0); (0x16, 1, 0xb2, 1); (0x01, 1, 0xb5, 0); (0x16, 1, 0xb5, 1);
   (0x01, 1, 0xb9, 0); (0x16, 1, 0xb9, 1); (0x01, 1, 0xba, 0); (0x16, 1, 0xba, 1);
   (0x01, 1, 0xbb, 0); (0x16, 1, 0xbb, 1); (0x01, 1, 0xbd, 0); (0x16, 1, 0xbd, 1);
   (0x01, 1, 0xbe, 0); (0x16, 1, 0xbe, 1); (0x01, 1, 0xc4, 0); (0x16, 1, 0xc4, 1)];
  [(0x02, 1, 0xb2, 0); (0x09, 1, 0xb2, 0); (0x17, 1, 0xb2, 0); (0x28, 1, 0xb2, 1);
   (0x02, 1, 0xb5, 0); (0x09, 1, 0xb5, 0); (0x17, 1, 0xb5, 0); (0x28, 1, 0xb5, 1);
   (0x02, 1, 0xb9, 0); (0x09, 1, 0xb9, 0); (0x17, 1, 0xb9, 0); (0x28, 1, 0xb9, 1);
   (0x02, 1, 0xba, 0); (0x09, 1, 0xba, 0); (0x17, 1, 0xba, 0); (0x28, 1, 0xba, 1)];
  [(0x03, 1, 0xb2, 0); (0x06, 1, 0xb2, 0); (0x0a, 1, 0xb2, 0); (0x0f, 1, 0xb2, 0);
   (0x18, 1, 0xb2, 0); (0x1f, 1, 0xb2, 0); (0x29, 1, 0xb2, 0); (0x38, 1, 0xb2, 1);
   (0x03, 1, 0xb5, 0); (0x06, 1, 0xb5, 0); (0x0a, 1, 0xb5, 0); (0x0f, 1, 0xb5, 0);
   (0x18, 1, 0xb5, 0); (0x1f, 1, 0xb5, 0); (0x29, 1, 0xb5, 0); (0x38, 1, 0xb5, 1)];
  [(0x03, 1, 0xb9, 0); (0x06, 1, 0xb9, 0); (0x0a, 1, 0xb9, 0); (0x0f, 1, 0xb9, 0);
   (0x18, 1, 0xb9, 0); (0x1f, 1, 0xb9, 0); (0x29, 1, 0xb9, 0); (0x38, 1, 0xb9, 1);
   (0x03, 1, 0xba, 0); (0x06, 1, 0xba, 0); (0x0a, 1, 0xba, 0); (0x0f, 1, 0xba, 0);
   (0x18, 1, 0xba, 0); (0x1f, 1, 0xba, 0); (0x29, 1, 0xba, 0); (0x38, 1, 0xba, 1)];
  [(0x02, 1, 0xbb, 0); (0x09, 1, 0xbb, 0); (0x17, 1, 0xbb, 0); (0x28, 1, 0xbb, 1);
   (0x02, 1, 0xbd, 0); (0x09, 1, 0xbd, 0); (0x17, 1, 0xbd, 0); (0x28, 1, 0xbd, 1);
   (0x02, 1, 0xbe, 0); (0x09, 1, 0xbe, 0); (0x17, 1, 0xbe, 0); (0x28, 1, 0xbe, 1);
   (0x02, 1, 0xc4, 0); (0x09, 1, 0xc4, 0); (0x17, 1, 0xc4, 0); (0x28, 1, 0xc4, 1)];
  [(0x03, 1, 0xbb, 0); (0x06, 1, 0xbb, 0); (0x0a, 1, 0xbb, 0); (0x0f, 1, 0xbb, 0);
   (0x18, 1, 0xbb, 0); (0x1f, 1, 0xbb, 0); (0x29, 1, 0xbb, 0); (0x38, 1, 0xbb, 1);
   (0x03, 1, 0xbd, 0); (0x06, 1, 0xbd, 0); (0x0a, 1, 0xbd, 0); (0x0f, 1, 0xbd, 0);
   (0x18, 1, 0xbd, 0); (0x1f, 1, 0xbd, 0); (0x29, 1, 0xbd, 0); (0x38, 1, 0xbd, 1)];
  [(0x03, 1, 0xbe, 0); (0x06, 1, 0xbe, 0); (0x0a, 1, 0xbe, 0); (0x0f, 1, 0xbe, 0);
   (0x18, 1, 0xbe, 0); (0x1f, 1, 0xbe, 0); (0x29, 1, 0xbe, 0); (0x38, 1, 0xbe, 1);
   (0x03, 1, 0xc4, 0); (0x06, 1, 0xc4, 0); (0x0a, 1, 0xc4, 0); (0x0f, 1, 0xc4, 0);
   (0x18, 1, 0xc4, 0); (0x1f, 1, 0xc4, 0); (0x29, 1, 0xc4, 0); (0x38, 1, 0xc4, 1)];
  [(0x01, 1, 0xc6, 0); (0x16, 1, 0xc6, 1); (0x01, 1, 0xe4, 0); (0x16, 1, 0xe4, 1);
   (0x01, 1, 0xe8, 0); (0x16, 1, 0xe8, 1); (0x01, 1, 0xe9, 0); (0x16, 1, 0xe9, 1);
   (0x00, 1, 0x01, 1); (0x00, 1, 0x87, 1); (0x00, 1, 0x89, 1); (0x00, 1, 0x8a, 1);
   (0x00, 1, 0x8b, 1); (0x00, 1, 0x8c, 1); (0x00, 1, 0x8d, 1); (0x00, 1, 0x8f, 1)];
  [(0x02, 1, 0xc6, 0); (0x09, 1, 0xc6, 0); (0x17, 1, 0xc6, 0); (0x28, 1, 0xc6, 1);
   (0x02, 1, 0xe4, 0); (0x09, 1, 0xe4, 0); (0x17, 1, 0xe4, 0); (0x28, 1, 0xe4, 1);
   (0x02, 1, 0xe8, 0); (0x09, 1, 0xe8, 0); (0x17, 1, 0xe8, 0); (0x28, 1, 0xe8, 1);
   (0x02, 1, 0xe9, 0); (0x09, 1, 0xe9, 0); (0x17, 1, 0xe9, 0); (0x28, 1, 0xe9, 1)]
].

Definition huff_decode_codes_9 : list (list ngx_http_huff_decode_code_t) := map row [
  [(0x03, 1, 0xc6, 0); (0x06, 1, 0xc6, 0); (0x0a, 1, 0xc6, 0); (0x0f, 1, 0xc6, 0);
   (0x18, 1, 0xc6, 0); (0x1f, 1, 0xc6, 0); (0x29, 1, 0xc6, 0); (0x38, 1, 0xc6, 1);
   (0x03, 1, 0xe4, 0); (0x06, 1, 0xe4, 0); (0x0a, 1, 0xe4, 0); (0x0f, 1, 0xe4, 0);
   (0x18, 1, 0xe4, 0); (0x1f, 1, 0xe4, 0); (0x29, 1, 0xe4, 0); (0x38, 1, 0xe4, 1)];
  [(0x03, 1, 0xe8, 0); (0x06, 1, 0xe8, 0); (0x0a, 1, 0xe8, 0); (0x0f, 1, 0xe8, 0);
   (0x18, 1, 0xe8, 0); (0x1f, 1, 0xe8, 0); (0x29, 1, 0xe8, 0); (0x38, 1, 0xe8, 1);
   (0x03, 1, 0xe9, 0); (0x06, 1, 0xe9, 0); (0x0a, 1, 0xe9, 0); (0x0f, 1, 0xe9, 0);
   (0x18, 1, 0xe9, 0); (0x1f, 1, 0xe9, 0); (0x29, 1, 0xe9, 0); (0x38, 1, 0xe9, 1)];
  [(0x01, 1, 0x01, 0); (0x16, 1, 0x01, 1); (0x01, 1, 0x87, 0); (0x16, 1, 0x87, 1);
   (0x01, 1, 0x89, 0); (0x16, 1, 0x89, 1); (0x01, 1, 0x8a, 0); (0x16, 1, 0x8a, 1);
   (0x01, 1, 0x8b, 0); (0x16, 1, 0x8b, 1); (0x01, 1, 0x8c, 0); (0x16, 1, 0x8c, 1);
   (0x01, 1, 0x8d, 0); (0x16, 1, 0x8d, 1); (0x01, 1, 0x8f, 0); (0x16, 1, 0x8f, 1)];
  [(0x02, 1, 0x01, 0); (0x09, 1, 0x01, 0); (0x17, 1, 0x01, 0); (0x28, 1, 0x01, 1);
   (0x02, 1, 0x87, 0); (0x09, 1, 0x87, 0); (0x17, 1, 0x87, 0); (0x28, 1, 0x87, 1);
   (0x02, 1, 0x89, 0); (0x09, 1, 0x89, 0); (0x17, 1, 0x89, 0); (0x28, 1, 0x89, 1);
   (0x02, 1, 0x8a, 0); (0x09, 1, 0x8a, 0); (0x17, 1, 0x8a, 0); (0x28, 1, 0x8a, 1)];
  [(0x03, 1, 0x01, 0); (0x06, 1, 0x01, 0); (0x0a, 1, 0x01, 0); (0x0f, 1, 0x01, 0);
   (0x18, 1, 0x01, 0); (0x1f, 1, 0x01, 0); (0x29, 1, 0x01, 0); (0x38, 1, 0x01, 1);
   (0x03, 1, 0x87, 0); (0x06, 1, 0x87, 0); (0x0a, 1, 0x87, 0); (0x0f, 1, 0x87, 0);
   (0x18, 1, 0x87, 0); (0x1f, 1, 0x87, 0); (0x29, 1, 0x87, 0); (0x38, 1, 0x87, 1)];
  [(0x03, 1, 0x89, 0); (0x06, 1, 0x89, 0); (0x0a, 1, 0x89, 0); (0x0f, 1, 0x89, 0);
   (0x18, 1, 0x89, 0); (0x1f, 1, 0x89, 0); (0x29, 1, 0x89, 0); (0x38, 1, 0x89, 1);
   (0x03, 1, 0x8a, 0); (0x06, 1, 0x8a, 0); (0x0a, 1, 0x8a, 0); (0x0f, 1, 0x8a, 0);
   (0x18, 1, 0x8a, 0); (0x1f, 1, 0x8a, 0); (0x29, 1, 0x8a, 0); (0x38, 1, 0x8a, 1)];
  [(0x02, 1, 0x8b, 0); (0x09, 1, 0x8b, 0); (0x17, 1, 0x8b, 0); (0x28, 1, 0x8b, 1);
   (0x02, 1, 0x8c, 0); (0x09, 1, 0x8c, 0); (0x17, 1, 0x8c, 0); (0x28, 1, 0x8c, 1);
   (0x02, 1, 0x8d, 0); (0x09, 1, 0x8d, 0); (0x17, 1, 0x8d, 0); (0x28, 1, 0x8d, 1);
   (0x02, 1, 0x8f, 0); (0x09, 1, 0x8f, 0); (0x17, 1, 0x8f, 0); (0x28, 1, 0x8f, 1)];
  [(0x03, 1, 0x8b, 0); (0x06, 1, 0x8b, 0); (0x0a, 1, 0x8b, 0); (0x0f, 1, 0x8b, 0);
   (0x18, 1, 0x8b, 0); (0x1f, 1, 0x8b, 0); (0x29, 1, 0x8b, 0); (0x38, 1, 0x8b, 1);
   (0x03, 1, 0x8c, 0); (0x06, 1, 0x8c, 0); (0x0a, 1, 0x8c, 0); (0x0f, 1, 0x8c, 0);
   (0x18, 1, 0x8c, 0); (0x1f, 1, 0x8c, 0); (0x29, 1, 0x8c, 0); (0x38, 1, 0x8c, 1)];
  [(0x03, 1, 0x8d, 0); (0x06, 1, 0x8d, 0); (0x0a, 1, 0x8d, 0); (0x0f, 1, 0x8d, 0);
   (0x18, 1, 0x8d, 0); (0x1f, 1, 0x8d, 0); (0x29, 1, 0x8d, 0); (0x38, 1, 0x8d, 1);
   (0x03, 1, 0x8f, 0); (0x06, 1, 0x8f, 0); (0x0a, 1, 0x8f, 0); (0x0f, 1, 0x8f, 0);
   (0x18, 1, 0x8f, 0); (0x1f, 1, 0x8f, 0); (0x29, 1, 0x8f, 0); (0x38, 1, 0x8f, 1)];
  [(0x9d, 0, 0x00, 0); (0x9e, 0, 0x00, 0); (0xa0, 0, 0x00, 0); (0xa1, 0, 0x00, 0);
   (0xa4, 0, 0x00, 0); (0xa5, 0, 0x00, 0); (0xa7, 0, 0x00, 0); (0xa8, 0, 0x00, 0);
   (0xac, 0, 0x00, 0); (0xad, 0, 0x00, 0); (0xaf, 0, 0x00, 0); (0xb1, 0, 0x00, 0);
   (0xb6, 0, 0x00, 0); (0xb9, 0, 0x00, 0); (0xbf, 0, 0x00, 0); (0xcf, 0, 0x00, 1)];
  [(0x00, 1, 0x93, 1); (0x00, 1, 0x95, 1); (0x00, 1, 0x96, 1); (0x00, 1, 0x97, 1);
   (0x00, 1, 0x98, 1); (0x00, 1, 0x9b, 1); (0x00, 1, 0x9d, 1); (0x00, 1, 0x9e, 1);
   (0x00, 1, 0xa5, 1); (0x00, 1, 0xa6, 1); (0x00, 1, 0xa8, 1); (0x00, 1, 0xae, 1);
   (0x00, 1, 0xaf, 1); (0x00, 1, 0xb4, 1); (0x00, 1, 0xb6, 1); (0x00, 1, 0xb7, 1)];
  [(0x01, 1, 0x93, 0); (0x16, 1, 0x93, 1); (0x01, 1, 0x95, 0); (0x16, 1, 0x95, 1);
   (0x01, 1, 0x96, 0); (0x16, 1, 0x96, 1); (0x01, 1, 0x97, 0); (0x16, 1, 0x97, 1);
   (0x01, 1, 0x98, 0); (0x16, 1, 0x98, 1); (0x01, 1, 0x9b, 0); (0x16, 1, 0x9b, 1);
   (0x01, 1, 0x9d, 0); (0x16, 1, 0x9d, 1); (0x01, 1, 0x9e, 0); (0x16, 1, 0x9e, 1)];
  [(0x02, 1, 0x93, 0); (0x09, 1, 0x93, 0); (0x17, 1, 0x93, 0); (0x28, 1, 0x93, 1);
   (0x02, 1, 0x95, 0); (0x09, 1, 0x95, 0); (0x17, 1, 0x95, 0); (0x28, 1, 0x95, 1);
   (0x02, 1, 0x96, 0); (0x09, 1, 0x96, 0); (0x17, 1, 0x96, 0); (0x28, 1, 0x96, 1);
   (0x02, 1, 0x97, 0); (0x09, 1, 0x97, 0); (0x17, 1, 0x97, 0); (0x28, 1, 0x97, 1)];
  [(0x03, 1, 0x93, 0); (0x06, 1, 0x93, 0); (0x0a, 1, 0x93, 0); (0x0f, 1, 0x93, 0);
   (0x18, 1, 0x93, 0); (0x1f, 1, 0x93, 0); (0x29, 1, 0x93, 0); (0x38, 1, 0x93, 1);
   (0x03, 1, 0x95, 0); (0x06, 1, 0x95, 0); (0x0a, 1, 0x95, 0); (0x0f, 1, 0x95, 0);
   (0x18, 1, 0x95, 0); (0x1f, 1, 0x95, 0); (0x29, 1, 0x95, 0); (0x38, 1, 0x95, 1)];
  [(0x03, 1, 0x96, 0); (0x06, 1, 0x96, 0); (0x0a, 1, 0x96, 0); (0x0f, 1, 0x96, 0);
   (0x18, 1, 0x96, 0); (0x1f, 1, 0x96, 0); (0x29, 1, 0x96, 0); (0x38, 1, 0x96, 1);
   (0x03, 1, 0x97, 0); (0x06, 1, 0x97, 0); (0x0a, 1, 0x97, 0); (0x0f, 1, 0x97, 0);
   (0x18, 1, 0x97, 0); (0x1f, 1, 0x97, 0); (0x29, 1, 0x97, 0); (0x38, 1, 0x97, 1)];
  [(0x02, 1, 0x98, 0); (0x09, 1, 0x98, 0); (0x17, 1, 0x98, 0); (0x28, 1, 0x98, 1);
   (0x02, 1, 0x9b, 0); (0x09, 1, 0x9b, 0); (0x17, 1, 0x9b, 0); (0x28, 1, 0x9b, 1);
   (0x02, 1, 0x9d, 0); (0x09, 1, 0x9d, 0); (0x17, 1, 0x9d, 0); (0x28, 1, 0x9d, 1);
   (0x02, 1, 0x9e, 0); (0x09, 1, 0x9e, 0); (0x17, 1, 0x9e, 0); (0x28, 1, 0x9e, 1)]
].

Definition huff_decode_codes_10 : list (list ngx_http_huff_decode_code_t) := map row [
  [(0x03, 1, 0x98, 0); (0x06, 1, 0x98, 0); (0x0a, 1, 0x98, 0); (0x0f, 1, 0x98, 0);
   (0x18, 1, 0x98, 0); (0x1f, 1, 0x98, 0); (0x29, 1, 0x98, 0); (0x38, 1, 0x98, 1);
   (0x03, 1, 0x9b, 0); (0x06, 1, 0x9b, 0); (0x0a, 1, 0x9b, 0); (0x0f, 1, 0x9b, 0);
   (0x18, 1, 0x9b, 0); (0x1f, 1, 0x9b, 0); (0x29, 1, 0x9b, 0); (0x38, 1, 0x9b, 1)];
  [(0x03, 1, 0x9d, 0); (0x06, 1, 0x9d, 0); (0x0a, 1, 0x9d, 0); (0x0f, 1, 0x9d, 0);
   (0x18, 1, 0x9d, 0); (0x1f, 1, 0x9d, 0); (0x29, 1, 0x9d, 0); (0x38, 1, 0x9d, 1);
   (0x03, 1, 0x9e, 0); (0x06, 1, 0x9e, 0); (0x0a, 1, 0x9e, 0); (0x0f, 1, 0x9e, 0);
   (0x18, 1, 0x9e, 0); (0x1f, 1, 0x9e, 0); (0x29, 1, 0x9e, 0); (0x38, 1, 0x9e, 1)];
  [(0x01, 1, 0xa5, 0); (0x16, 1, 0xa5, 1); (0x01, 1, 0xa6, 0); (0x16, 1, 0xa6, 1);
   (0x01, 1, 0xa8, 0); (0x16, 1, 0xa8, 1); (0x01, 1, 0xae, 0); (0x16, 1, 0xae, 1);
   (0x01, 1, 0xaf, 0); (0x16, 1, 0xaf, 1); (0x01, 1, 0xb4, 0); (0x16, 1, 0xb4, 1);
   (0x01, 1, 0xb6, 0); (0x16, 1, 0xb6, 1); (0x01, 1, 0xb7, 0); (0x16, 1, 0xb7, 1)];
  [(0x02, 1, 0xa5, 0); (0x09, 1, 0xa5, 0); (0x17, 1, 0xa5, 0); (0x28, 1, 0xa5, 1);
   (0x02, 1, 0xa6, 0); (0x09, 1, 0xa6, 0); (0x17, 1, 0xa6, 0); (0x28, 1, 0xa6, 1);
   (0x02, 1, 0xa8, 0); (0x09, 1, 0xa8, 0); (0x17, 1, 0xa8, 0); (0x28, 1, 0xa8, 1);
   (0x02, 1, 0xae, 0); (0x09, 1, 0xae, 0); (0x17, 1, 0xae, 0); (0x28, 1, 0xae, 1)];
  [(0x03, 1, 0xa5, 0); (0x06, 1, 0xa5, 0); (0x0a, 1, 0xa5, 0); (0x0f, 1, 0xa5, 0);
   (0x18, 1, 0xa5, 0); (0x1f, 1, 0xa5, 0); (0x29, 1, 0xa5, 0); (0x38, 1, 0xa5, 1);
   (0x03, 1, 0xa6, 0); (0x06, 1, 0xa6, 0); (0x0a, 1, 0xa6, 0); (0x0f, 1, 0xa6, 0);
   (0x18, 1, 0xa6, 0); (0x1f, 1, 0xa6, 0); (0x29, 1, 0xa6, 0); (0x38, 1, 0xa6, 1)];
  [(0x03, 1, 0xa8, 0); (0x06, 1, 0xa8, 0); (0x0a, 1, 0xa8, 0); (0x0f, 1, 0xa8, 0);
   (0x18, 1, 0xa8, 0); (0x1f, 1, 0xa8, 0); (0x29, 1, 0xa8, 0); (0x38, 1, 0xa8, 1);
   (0x03, 1, 0xae, 0); (0x06, 1, 0xae, 0); (0x0a, 1, 0xae, 0); (0x0f, 1, 0xae, 0);
   (0x18, 1, 0xae, 0); (0x1f, 1, 0xae, 0); (0x29, 1, 0xae, 0); (0x38, 1, 0xae, 1)];
  [(0x02, 1, 0xaf, 0); (0x09, 1, 0xaf, 0); (0x17, 1, 0xaf, 0); (0x28, 1, 0xaf, 1);
   (0x02, 1, 0xb4, 0); (0x09, 1, 0xb4, 0); (0x17, 1, 0xb4, 0); (0x28, 1, 0xb4, 1);
   (0x02, 1, 0xb6, 0); (0x09, 1, 0xb6, 0); (0x17, 1, 0xb6, 0); (0x28, 1, 0xb6, 1);
   (0x02, 1, 0xb7, 0); (0x09, 1, 0xb7, 0); (0x17, 1, 0xb7, 0); (0x28, 1, 0xb7, 1)];
  [(0x03, 1, 0xaf, 0); (0x06, 1, 0xaf, 0); (0x0a, 1, 0xaf, 0); (0x0f, 1, 0xaf, 0);
   (0x18, 1, 0xaf, 0); (0x1f, 1, 0xaf, 0); (0x29, 1, 0xaf, 0); (0x38, 1, 0xaf, 1);
   (0x03, 1, 0xb4, 0); (0x06, 1, 0xb4, 0); (0x0a, 1, 0xb4, 0); (0x0f, 1, 0xb4, 0);
   (0x18, 1, 0xb4, 0); (0x1f, 1, 0xb4, 0); (0x29, 1, 0xb4, 0); (0x38, 1, 0xb4, 1)];
  [(0x03, 1, 0xb6, 0); (0x06, 1, 0xb6, 0); (0x0a, 1, 0xb6, 0); (0x0f, 1, 0xb6, 0);
   (0x18, 1, 0xb6, 0); (0x1f, 1, 0xb6, 0); (0x29, 1, 0xb6, 0); (0x38, 1, 0xb6, 1);
   (0x03, 1, 0xb7, 0); (0x06, 1, 0xb7, 0); (0x0a, 1, 0xb7, 0); (0x0f, 1, 0xb7, 0);
   (0x18, 1, 0xb7, 0); (0x1f, 1, 0xb7, 0); (0x29, 1, 0xb7, 0); (0x38, 1, 0xb7, 1)];
  [(0x00, 1, 0xbc, 1); (0x00, 1, 0xbf, 1); (0x00, 1, 0xc5, 1); (0x00, 1, 0xe7, 1);
   (0x00, 1, 0xef, 1); (0xb0, 0, 0x00, 0); (0xb2, 0, 0x00, 0); (0xb3, 0, 0x00, 0);
   (0xb7, 0, 0x00, 0); (0xb8, 0, 0x00, 0); (0xba, 0, 0x00, 0); (0xbb, 0, 0x00, 0);
   (0xc0, 0, 0x00, 0); (0xc7, 0, 0x00, 0); (0xd0, 0, 0x00, 0); (0xdf, 0, 0x00, 1)];
  [(0x01, 1, 0xbc, 0); (0x16, 1, 0xbc, 1); (0x01, 1, 0xbf, 0); (0x16, 1, 0xbf, 1);
   (0x01, 1, 0xc5, 0); (0x16, 1, 0xc5, 1); (0x01, 1, 0xe7, 0); (0x16, 1, 0xe7, 1);
   (0x01, 1, 0xef, 0); (0x16, 1, 0xef, 1); (0x00, 1, 0x09, 1); (0x00, 1, 0x8e, 1);
   (0x00, 1, 0x90, 1); (0x00, 1, 0x91, 1); (0x00, 1, 0x94, 1); (0x00, 1, 0x9f, 1)];
  [(0x02, 1, 0xbc, 0); (0x09, 1, 0xbc, 0); (0x17, 1, 0xbc, 0); (0x28, 1, 0xbc, 1);
   (0x02, 1, 0xbf, 0); (0x09, 1, 0xbf, 0); (0x17, 1, 0xbf, 0); (0x28, 1, 0xbf, 1);
   (0x02, 1, 0xc5, 0); (0x09, 1, 0xc5, 0); (0x17, 1, 0xc5, 0); (0x28, 1, 0xc5, 1);
   (0x02, 1, 0xe7, 0); (0x09, 1, 0xe7, 0); (0x17, 1, 0xe7, 0); (0x28, 1, 0xe7, 1)];
  [(0x03, 1, 0xbc, 0); (0x06, 1, 0xbc, 0); (0x0a, 1, 0xbc, 0); (0x0f, 1, 0xbc, 0);
   (0x18, 1, 0xbc, 0); (0x1f, 1, 0xbc, 0); (0x29, 1, 0xbc, 0); (0x38, 1, 0xbc, 1);
   (0x03, 1, 0xbf, 0); (0x06, 1, 0xbf, 0); (0x0a, 1, 0xbf, 0); (0x0f, 1, 0xbf, 0);
   (0x18, 1, 0xbf, 0); (0x1f, 1, 0xbf, 0); (0x29, 1, 0xbf, 0); (0x38, 1, 0xbf, 1)];
  [(0x03, 1, 0xc5, 0); (0x06, 1, 0xc5, 0); (0x0a, 1, 0xc5, 0); (0x0f, 1, 0xc5, 0);
   (0x18, 1, 0xc5, 0); (0x1f, 1, 0xc5, 0); (0x29, 1, 0xc5, 0); (0x38, 1, 0xc5, 1);
   (0x03, 1, 0xe7, 0); (0x06, 1, 0xe7, 0); (0x0a, 1, 0xe7, 0); (0x0f, 1, 0xe7, 0);
   (0x18, 1, 0xe7, 0); (0x1f, 1, 0xe7, 0); (0x29, 1, 0xe7, 0); (0x38, 1, 0xe7, 1)];
  [(0x02, 1, 0xef, 0); (0x09, 1, 0xef, 0); (0x17, 1, 0xef, 0); (0x28, 1, 0xef, 1);
   (0x01, 1, 0x09, 0); (0x16, 1, 0x09, 1); (0x01, 1, 0x8e, 0); (0x16, 1, 0x8e, 1);
   (0x01, 1, 0x90, 0); (0x16, 1, 0x90, 1); (0x01, 1, 0x91, 0); (0x16, 1, 0x91, 1);
   (0x01, 1, 0x94, 0); (0x16, 1, 0x94, 1); (0x01, 1, 0x9f, 0); (0x16, 1, 0x9f, 1)];
  [(0x03, 1, 0xef, 0); (0x06, 1, 0xef, 0); (0x0a, 1, 0xef, 0); (0x0f, 1, 0xef, 0);
   (0x18, 1, 0xef, 0); (0x1f, 1, 0xef, 0); (0x29, 1, 0xef, 0); (0x38, 1, 0xef, 1);
   (0x02, 1, 0x09, 0); (0x09, 1, 0x09, 0); (0x17, 1, 0x09, 0); (0x28, 1, 0x09, 1);
   (0x02, 1, 0x8e, 0); (0x09, 1, 0x8e, 0); (0x17, 1, 0x8e, 0); (0x28, 1, 0x8e, 1)]
].

Definition huff_decode_codes_11 : list (list ngx_http_huff_decode_code_t) := map row [
  [(0x03, 1, 0x09, 0); (0x06, 1, 0x09, 0); (0x0a, 1, 0x09, 0); (0x0f, 1, 0x09, 0);
   (0x18, 1, 0x09, 0); (0x1f, 1, 0x09, 0); (0x29, 1, 0x09, 0); (0x38, 1, 0x09, 1);
   (0x03, 1, 0x8e, 0); (0x06, 1, 0x8e, 0); (0x0a, 1, 0x8e, 0); (0x0f, 1, 0x8e, 0);
   (0x18, 1, 0x8e, 0); (0x1f, 1, 0x8e, 0); (0x29, 1, 0x8e, 0); (0x38, 1, 0x8e, 1)];
  [(0x02, 1, 0x90, 0); (0x09, 1, 0x90, 0); (0x17, 1, 0x90, 0); (0x28, 1, 0x90, 1);
   (0x02, 1, 0x91, 0); (0x09, 1, 0x91, 0); (0x17, 1, 0x91, 0); (0x28, 1, 0x91, 1);
   (0x02, 1, 0x94, 0); (0x09, 1, 0x94, 0); (0x17, 1, 0x94, 0); (0x28, 1, 0x94, 1);
   (0x02, 1, 0x9f, 0); (0x09, 1, 0x9f, 0); (0x17, 1, 0x9f, 0); (0x28, 1, 0x9f, 1)];
  [(0x03, 1, 0x90, 0); (0x06, 1, 0x90, 0); (0x0a, 1, 0x90, 0); (0x0f, 1, 0x90, 0);
   (0x18, 1, 0x90, 0); (0x1f, 1, 0x90, 0); (0x29, 1, 0x90, 0); (0x38, 1, 0x90, 1);
   (0x03, 1, 0x91, 0); (0x06, 1, 0x91, 0); (0x0a, 1, 0x91, 0); (0x0f, 1, 0x91, 0);
   (0x18, 1, 0x91, 0); (0x1f, 1, 0x91, 0); (0x29, 1, 0x91, 0); (0x38, 1, 0x91, 1)];
  [(0x03, 1, 0x94, 0); (0x06, 1, 0x94, 0); (0x0a, 1, 0x94, 0); (0x0f, 1, 0x94, 0);
   (0x18, 1, 0x94, 0); (0x1f, 1, 0x94, 0); (0x29, 1, 0x94, 0); (0x38, 1, 0x94, 1);
   (0x03, 1, 0x9f, 0); (0x06, 1, 0x9f, 0); (0x0a, 1, 0x9f, 0); (0x0f, 1, 0x9f, 0);
   (0x18, 1, 0x9f, 0); (0x1f, 1, 0x9f, 0); (0x29, 1, 0x9f, 0); (0x38, 1, 0x9f, 1)];
  [(0x00, 1, 0xab, 1); (0x00, 1, 0xce, 1); (0x00, 1, 0xd7, 1); (0x00, 1, 0xe1, 1);
   (0x00, 1, 0xec, 1); (0x00, 1, 0xed, 1); (0xbc, 0, 0x00, 0); (0xbd, 0, 0x00, 0);
   (0xc1, 0, 0x00, 0); (0xc4, 0, 0x00, 0); (0xc8, 0, 0x00, 0); (0xcb, 0, 0x00, 0);
   (0xd1, 0, 0x00, 0); (0xd8, 0, 0x00, 0); (0xe0, 0, 0x00, 0); (0xee, 0, 0x00, 1)];
  [(0x01, 1, 0xab, 0); (0x16, 1, 0xab, 1); (0x01, 1, 0xce, 0); (0x16, 1, 0xce, 1);
   (0x01, 1, 0xd7, 0); (0x16, 1, 0xd7, 1); (0x01, 1, 0xe1, 0); (0x16, 1, 0xe1, 1);
   (0x01, 1, 0xec, 0); (0x16, 1, 0xec, 1); (0x01, 1, 0xed, 0); (0x16, 1, 0xed, 1);
   (0x00, 1, 0xc7, 1); (0x00, 1, 0xcf, 1); (0x00, 1, 0xea, 1); (0x00, 1, 0xeb, 1)];
  [(0x02, 1, 0xab, 0); (0x09, 1, 0xab, 0); (0x17, 1, 0xab, 0); (0x28, 1, 0xab, 1);
   (0x02, 1, 0xce, 0); (0x09, 1, 0xce, 0); (0x17, 1, 0xce, 0); (0x28, 1, 0xce, 1);
   (0x02, 1, 0xd7, 0); (0x09, 1, 0xd7, 0); (0x17, 1, 0xd7, 0); (0x28, 1, 0xd7, 1);
   (0x02, 1, 0xe1, 0); (0x09, 1, 0xe1, 0); (0x17, 1, 0xe1, 0); (0x28, 1, 0xe1, 1)];
  [(0x03, 1, 0xab, 0); (0x06, 1, 0xab, 0); (0x0a, 1, 0xab, 0); (0x0f, 1, 0xab, 0);
   (0x18, 1, 0xab, 0); (0x1f, 1, 0xab, 0); (0x29, 1, 0xab, 0); (0x38, 1, 0xab, 1);
   (0x03, 1, 0xce, 0); (0x06, 1, 0xce, 0); (0x0a, 1, 0xce, 0); (0x0f, 1, 0xce, 0);
   (0x18, 1, 0xce, 0); (0x1f, 1, 0xce, 0); (0x29, 1, 0xce, 0); (0x38, 1, 0xce, 1)];
  [(0x03, 1, 0xd7, 0); (0x06, 1, 0xd7, 0); (0x0a, 1, 0xd7, 0); (0x0f, 1, 0xd7, 0);
   (0x18, 1, 0xd7, 0); (0x1f, 1, 0xd7, 0); (0x29, 1, 0xd7, 0); (0x38, 1, 0xd7, 1);
   (0x03, 1, 0xe1, 0); (0x06, 1, 0xe1, 0); (0x0a, 1, 0xe1, 0); (0x0f, 1, 0xe1, 0);
   (0x18, 1, 0xe1, 0); (0x1f, 1, 0xe1, 0); (0x29, 1, 0xe1, 0); (0x38, 1, 0xe1, 1)];
  [(0x02, 1, 0xec, 0); (0x09, 1, 0xec, 0); (0x17, 1, 0xec, 0); (0x28, 1, 0xec, 1);
   (0x02, 1, 0xed, 0); (0x09, 1, 0xed, 0); (0x17, 1, 0xed, 0); (0x28, 1, 0xed, 1);
   (0x01, 1, 0xc7, 0); (0x16, 1, 0xc7, 1); (0x01, 1, 0xcf, 0); (0x16, 1, 0xcf, 1);
   (0x01, 1, 0xea, 0); (0x16, 1, 0xea, 1); (0x01, 1, 0xeb, 0); (0x16, 1, 0xeb, 1)];
  [(0x03, 1, 0xec, 0); (0x06, 1, 0xec, 0); (0x0a, 1, 0xec, 0); (0x0f, 1, 0xec, 0);
   (0x18, 1, 0xec, 0); (0x1f, 1, 0xec, 0); (0x29, 1, 0xec, 0); (0x38, 1, 0xec, 1);
   (0x03, 1, 0xed, 0); (0x06, 1, 0xed, 0); (0x0a, 1, 0xed, 0); (0x0f, 1, 0xed, 0);
   (0x18, 1, 0xed, 0); (0x1f, 1, 0xed, 0); (0x29, 1, 0xed, 0); (0x38, 1, 0xed, 1)];
  [(0x02, 1, 0xc7, 0); (0x09, 1, 0xc7, 0); (0x17, 1, 0xc7, 0); (0x28, 1, 0xc7, 1);
   (0x02, 1, 0xcf, 0); (0x09, 1, 0xcf, 0); (0x17, 1, 0xcf, 0); (0x28, 1, 0xcf, 1);
   (0x02, 1, 0xea, 0); (0x09, 1, 0xea, 0); (0x17, 1, 0xea, 0); (0x28, 1, 0xea, 1);
   (0x02, 1, 0xeb, 0); (0x09, 1, 0xeb, 0); (0x17, 1, 0xeb, 0); (0x28, 1, 0xeb, 1)];
  [(0x03, 1, 0xc7, 0); (0x06, 1, 0xc7, 0); (0x0a, 1, 0xc7, 0); (0x0f, 1, 0xc7, 0);
   (0x18, 1, 0xc7, 0); (0x1f, 1, 0xc7, 0); (0x29, 1, 0xc7, 0); (0x38, 1, 0xc7, 1);
   (0x03, 1, 0xcf, 0); (0x06, 1, 0xcf, 0); (0x0a, 1, 0xcf, 0); (0x0f, 1, 0xcf, 0);
   (0x18, 1, 0xcf, 0); (0x1f, 1, 0xcf, 0); (0x29, 1, 0xcf, 0); (0x38, 1, 0xcf, 1)];
  [(0x03, 1, 0xea, 0); (0x06, 1, 0xea, 0); (0x0a, 1, 0xea, 0); (0x0f, 1, 0xea, 0);
   (0x18, 1, 0xea, 0); (0x1f, 1, 0xea, 0); (0x29, 1, 0xea, 0); (0x38, 1, 0xea, 1);
   (0x03, 1, 0xeb, 0); (0x06, 1, 0xeb, 0); (0x0a, 1, 0xeb, 0); (0x0f, 1, 0xeb, 0);
   (0x18, 1, 0xeb, 0); (0x1f, 1, 0xeb, 0); (0x29, 1, 0xeb, 0); (0x38, 1, 0xeb, 1)];
  [(0xc2, 0, 0x00, 0); (0xc3, 0, 0x00, 0); (0xc5, 0, 0x00, 0); (0xc6, 0, 0x00, 0);
   (0xc9, 0, 0x00, 0); (0xca, 0, 0x00, 0); (0xcc, 0, 0x00, 0); (0xcd, 0, 0x00, 0);
   (0xd2, 0, 0x00, 0); (0xd5, 0, 0x00, 0); (0xd9, 0, 0x00, 0); (0xdc, 0, 0x00, 0);
   (0xe1, 0, 0x00, 0); (0xe7, 0, 0x00, 0); (0xef, 0, 0x00, 0); (0xf6, 0, 0x00, 1)];
  [(0x00, 1, 0xc0, 1); (0x00, 1, 0xc1, 1); (0x00, 1, 0xc8, 1); (0x00, 1, 0xc9, 1);
   (0x00, 1, 0xca, 1); (0x00, 1, 0xcd, 1); (0x00, 1, 0xd2, 1); (0x00, 1, 0xd5, 1);
   (0x00, 1, 0xda, 1); (0x00, 1, 0xdb, 1); (0x00, 1, 0xee, 1); (0x00, 1, 0xf0, 1);
   (0x00, 1, 0xf2, 1); (0x00, 1, 0xf3, 1); (0x00, 1, 0xff, 1); (0xce, 0, 0x00, 0)]
].

Definition huff_decode_codes_12 : list (list ngx_http_huff_decode_code_t) := map row [
  [(0x01, 1, 0xc0, 0); (0x16, 1, 0xc0, 1); (0x01, 1, 0xc1, 0); (0x16, 1, 0xc1, 1);
   (0x01, 1, 0xc8, 0); (0x16, 1, 0xc8, 1); (0x01, 1, 0xc9, 0); (0x16, 1, 0xc9, 1);
   (0x01, 1, 0xca, 0); (0x16, 1, 0xca, 1); (0x01, 1, 0xcd, 0); (0x16, 1, 0xcd, 1);
   (0x01, 1, 0xd2, 0); (0x16, 1, 0xd2, 1); (0x01, 1, 0xd5, 0); (0x16, 1, 0xd5, 1)];
  [(0x02, 1, 0xc0, 0); (0x09, 1, 0xc0, 0); (0x17, 1, 0xc0, 0); (0x28, 1, 0xc0, 1);
   (0x02, 1, 0xc1, 0); (0x09, 1, 0xc1, 0); (0x17, 1, 0xc1, 0); (0x28, 1, 0xc1, 1);
   (0x02, 1, 0xc8, 0); (0x09, 1, 0xc8, 0); (0x17, 1, 0xc8, 0); (0x28, 1, 0xc8, 1);
   (0x02, 1, 0xc9, 0); (0x09, 1, 0xc9, 0); (0x17, 1, 0xc9, 0); (0x28, 1, 0xc9, 1)];
  [(0x03, 1, 0xc0, 0); (0x06, 1, 0xc0, 0); (0x0a, 1, 0xc0, 0); (0x0f, 1, 0xc0, 0);
   (0x18, 1, 0xc0, 0); (0x1f, 1, 0xc0, 0); (0x29, 1, 0xc0, 0); (0x38, 1, 0xc0, 1);
   (0x03, 1, 0xc1, 0); (0x06, 1, 0xc1, 0); (0x0a, 1, 0xc1, 0); (0x0f, 1, 0xc1, 0);
   (0x18, 1, 0xc1, 0); (0x1f, 1, 0xc1, 0); (0x29, 1, 0xc1, 0); (0x38, 1, 0xc1, 1)];
  [(0x03, 1, 0xc8, 0); (0x06, 1, 0xc8, 0); (0x0a, 1, 0xc8, 0); (0x0f, 1, 0xc8, 0);
   (0x18, 1, 0xc8, 0); (0x1f, 1, 0xc8, 0); (0x29, 1, 0xc8, 0); (0x38, 1, 0xc8, 1);
   (0x03, 1, 0xc9, 0); (0x06, 1, 0xc9, 0); (0x0a, 1, 0xc9, 0); (0x0f, 1, 0xc9, 0);
   (0x18, 1, 0xc9, 0); (0x1f, 1, 0xc9, 0); (0x29, 1, 0xc9, 0); (0x38, 1, 0xc9, 1)];
  [(0x02, 1, 0xca, 0); (0x09, 1, 0xca, 0); (0x17, 1, 0xca, 0); (0x28, 1, 0xca, 1);
   (0x02, 1, 0xcd, 0); (0x09, 1, 0xcd, 0); (0x17, 1, 0xcd, 0); (0x28, 1, 0xcd, 1);
   (0x02, 1, 0xd2, 0); (0x09, 1, 0xd2, 0); (0x17, 1, 0xd2, 0); (0x28, 1, 0xd2, 1);
   (0x02, 1, 0xd5, 0); (0x09, 1, 0xd5, 0); (0x17, 1, 0xd5, 0); (0x28, 1, 0xd5, 1)];
  [(0x03, 1, 0xca, 0); (0x06, 1, 0xca, 0); (0x0a, 1, 0xca, 0); (0x0f, 1, 0xca, 0);
   (0x18, 1, 0xca, 0); (0x1f, 1, 0xca, 0); (0x29, 1, 0xca, 0); (0x38, 1, 0xca, 1);
   (0x03, 1, 0xcd, 0); (0x06, 1, 0xcd, 0); (0x0a, 1, 0xcd, 0); (0x0f, 1, 0xcd, 0);
   (0x18, 1, 0xcd, 0); (0x1f, 1, 0xcd, 0); (0x29, 1, 0xcd, 0); (0x38, 1, 0xcd, 1)];
  [(0x03, 1, 0xd2, 0); (0x06, 1, 0xd2, 0); (0x0a, 1, 0xd2, 0); (0x0f, 1, 0xd2, 0);
   (0x18, 1, 0xd2, 0); (0x1f, 1, 0xd2, 0); (0x29, 1, 0xd2, 0); (0x38, 1, 0xd2, 1);
   (0x03, 1, 0xd5, 0); (0x06, 1, 0xd5, 0); (0x0a, 1, 0xd5, 0); (0x0f, 1, 0xd5, 0);
   (0x18, 1, 0xd5, 0); (0x1f, 1, 0xd5, 0); (0x29, 1, 0xd5, 0); (0x38, 1, 0xd5, 1)];
  [(0x01, 1, 0xda, 0); (0x16, 1, 0xda, 1); (0x01, 1, 0xdb, 0); (0x16, 1, 0xdb, 1);
   (0x01, 1, 0xee, 0); (0x16, 1, 0xee, 1); (0x01, 1, 0xf0, 0); (0x16, 1, 0xf0, 1);
   (0x01, 1, 0xf2, 0); (0x16, 1, 0xf2, 1); (0x01, 1, 0xf3, 0); (0x16, 1, 0xf3, 1);
   (0x01, 1, 0xff, 0); (0x16, 1, 0xff, 1); (0x00, 1, 0xcb, 1); (0x00, 1, 0xcc, 1)];
  [(0x02, 1, 0xda, 0); (0x09, 1, 0xda, 0); (0x17, 1, 0xda, 0); (0x28, 1, 0xda, 1);
   (0x02, 1, 0xdb, 0); (0x09, 1, 0xdb, 0); (0x17, 1, 0xdb, 0); (0x28, 1, 0xdb, 1);
   (0x02, 1, 0xee, 0); (0x09, 1, 0xee, 0); (0x17, 1, 0xee, 0); (0x28, 1, 0xee, 1);
   (0x02, 1, 0xf0, 0); (0x09, 1, 0xf0, 0); (0x17, 1, 0xf0, 0); (0x28, 1, 0xf0, 1)];
  [(0x03, 1, 0xda, 0); (0x06, 1, 0xda, 0); (0x0a, 1, 0xda, 0); (0x0f, 1, 0xda, 0);
   (0x18, 1, 0xda, 0); (0x1f, 1, 0xda, 0); (0x29, 1, 0xda, 0); (0x38, 1, 0xda, 1);
   (0x03, 1, 0xdb, 0); (0x06, 1, 0xdb, 0); (0x0a, 1, 0xdb, 0); (0x0f, 1, 0xdb, 0);
   (0x18, 1, 0xdb, 0); (0x1f, 1, 0xdb, 0); (0x29, 1, 0xdb, 0); (0x38, 1, 0xdb, 1)];
  [(0x03, 1, 0xee, 0); (0x06, 1, 0xee, 0); (0x0a, 1, 0xee, 0); (0x0f, 1, 0xee, 0);
   (0x18, 1, 0xee, 0); (0x1f, 1, 0xee, 0); (0x29, 1, 0xee, 0); (0x38, 1, 0xee, 1);
   (0x03, 1, 0xf0, 0); (0x06, 1, 0xf0, 0); (0x0a, 1, 0xf0, 0); (0x0f, 1, 0xf0, 0);
   (0x18, 1, 0xf0, 0); (0x1f, 1, 0xf0, 0); (0x29, 1, 0xf0, 0); (0x38, 1, 0xf0, 1)];
  [(0x02, 1, 0xf2, 0); (0x09, 1, 0xf2, 0); (0x17, 1, 0xf2, 0); (0x28, 1, 0xf2, 1);
   (0x02, 1, 0xf3, 0); (0x09, 1, 0xf3, 0); (0x17, 1, 0xf3, 0); (0x28, 1, 0xf3, 1);
   (0x02, 1, 0xff, 0); (0x09, 1, 0xff, 0); (0x17, 1, 0xff, 0); (0x28, 1, 0xff, 1);
   (0x01, 1, 0xcb, 0); (0x16, 1, 0xcb, 1); (0x01, 1, 0xcc, 0); (0x16, 1, 0xcc, 1)];
  [(0x03, 1, 0xf2, 0); (0x06, 1, 0xf2, 0); (0x0a, 1, 0xf2, 0); (0x0f, 1, 0xf2, 0);
   (0x18, 1, 0xf2, 0); (0x1f, 1, 0xf2, 0); (0x29, 1, 0xf2, 0); (0x38, 1, 0xf2, 1);
   (0x03, 1, 0xf3, 0); (0x06, 1, 0xf3, 0); (0x0a, 1, 0xf3, 0); (0x0f, 1, 0xf3, 0);
   (0x18, 1, 0xf3, 0); (0x1f, 1, 0xf3, 0); (0x29, 1, 0xf3, 0); (0x38, 1, 0xf3, 1)];
  [(0x03, 1, 0xff, 0); (0x06, 1, 0xff, 0); (0x0a, 1, 0xff, 0); (0x0f, 1, 0xff, 0);
   (0x18, 1, 0xff, 0); (0x1f, 1, 0xff, 0); (0x29, 1, 0xff, 0); (0x38, 1, 0xff, 1);
   (0x02, 1, 0xcb, 0); (0x09, 1, 0xcb, 0); (0x17, 1, 0xcb, 0); (0x28, 1, 0xcb, 1);
   (0x02, 1, 0xcc, 0); (0x09, 1, 0xcc, 0); (0x17, 1, 0xcc, 0); (0x28, 1, 0xcc, 1)];
  [(0x03, 1, 0xcb, 0); (0x06, 1, 0xcb, 0); (0x0a, 1, 0xcb, 0); (0x0f, 1, 0xcb, 0);
   (0x18, 1, 0xcb, 0); (0x1f, 1, 0xcb, 0); (0x29, 1, 0xcb, 0); (0x38, 1, 0xcb, 1);
   (0x03, 1, 0xcc, 0); (0x06, 1, 0xcc, 0); (0x0a, 1, 0xcc, 0); (0x0f, 1, 0xcc, 0);
   (0x18, 1, 0xcc, 0); (0x1f, 1, 0xcc, 0); (0x29, 1, 0xcc, 0); (0x38, 1, 0xcc, 1)];
  [(0xd3, 0, 0x00, 0); (0xd4, 0, 0x00, 0); (0xd6, 0, 0x00, 0); (0xd7, 0, 0x00, 0);
   (0xda, 0, 0x00, 0); (0xdb, 0, 0x00, 0); (0xdd, 0, 0x00, 0); (0xde, 0, 0x00, 0);
   (0xe2, 0, 0x00, 0); (0xe4, 0, 0x00, 0); (0xe8, 0, 0x00, 0); (0xeb, 0, 0x00, 0);
   (0xf0, 0, 0x00, 0); (0xf3, 0, 0x00, 0); (0xf7, 0, 0x00, 0); (0xfa, 0, 0x00, 1)]
].

Definition huff_decode_codes_13 : list (list ngx_http_huff_decode_code_t) := map row [
  [(0x00, 1, 0xd3, 1); (0x00, 1, 0xd4, 1); (0x00, 1, 0xd6, 1); (0x00, 1, 0xdd, 1);
   (0x00, 1, 0xde, 1); (0x00, 1, 0xdf, 1); (0x00, 1, 0xf1, 1); (0x00, 1, 0xf4, 1);
   (0x00, 1, 0xf5, 1); (0x00, 1, 0xf6, 1); (0x00, 1, 0xf7, 1); (0x00, 1, 0xf8, 1);
   (0x00, 1, 0xfa, 1); (0x00, 1, 0xfb, 1); (0x00, 1, 0xfc, 1); (0x00, 1, 0xfd, 1)];
  [(0x01, 1, 0xd3, 0); (0x16, 1, 0xd3, 1); (0x01, 1, 0xd4, 0); (0x16, 1, 0xd4, 1);
   (0x01, 1, 0xd6, 0); (0x16, 1, 0xd6, 1); (0x01, 1, 0xdd, 0); (0x16, 1, 0xdd, 1);
   (0x01, 1, 0xde, 0); (0x16, 1, 0xde, 1); (0x01, 1, 0xdf, 0); (0x16, 1, 0xdf, 1);
   (0x01, 1, 0xf1, 0); (0x16, 1, 0xf1, 1); (0x01, 1, 0xf4, 0); (0x16, 1, 0xf4, 1)];
  [(0x02, 1, 0xd3, 0); (0x09, 1, 0xd3, 0); (0x17, 1, 0xd3, 0); (0x28, 1, 0xd3, 1);
   (0x02, 1, 0xd4, 0); (0x09, 1, 0xd4, 0); (0x17, 1, 0xd4, 0); (0x28, 1, 0xd4, 1);
   (0x02, 1, 0xd6, 0); (0x09, 1, 0xd6, 0); (0x17, 1, 0xd6, 0); (0x28, 1, 0xd6, 1);
   (0x02, 1, 0xdd, 0); (0x09, 1, 0xdd, 0); (0x17, 1, 0xdd, 0); (0x28, 1, 0xdd, 1)];
  [(0x03, 1, 0xd3, 0); (0x06, 1, 0xd3, 0); (0x0a, 1, 0xd3, 0); (0x0f, 1, 0xd3, 0);
   (0x18, 1, 0xd3, 0); (0x1f, 1, 0xd3, 0); (0x29, 1, 0xd3, 0); (0x38, 1, 0xd3, 1);
   (0x03, 1, 0xd4, 0); (0x06, 1, 0xd4, 0); (0x0a, 1, 0xd4, 0); (0x0f, 1, 0xd4, 0);
   (0x18, 1, 0xd4, 0); (0x1f, 1, 0xd4, 0); (0x29, 1, 0xd4, 0); (0x38, 1, 0xd4, 1)];
  [(0x03, 1, 0xd6, 0); (0x06, 1, 0xd6, 0); (0x0a, 1, 0xd6, 0); (0x0f, 1, 0xd6, 0);
   (0x18, 1, 0xd6, 0); (0x1f, 1, 0xd6, 0); (0x29, 1, 0xd6, 0); (0x38, 1, 0xd6, 1);
   (0x03, 1, 0xdd, 0); (0x06, 1, 0xdd, 0); (0x0a, 1, 0xdd, 0); (0x0f, 1, 0xdd, 0);
   (0x18, 1, 0xdd, 0); (0x1f, 1, 0xdd, 0); (0x29, 1, 0xdd, 0); (0x38, 1, 0xdd, 1)];
  [(0x02, 1, 0xde, 0); (0x09, 1, 0xde, 0); (0x17, 1, 0xde, 0); (0x28, 1, 0xde, 1);
   (0x02, 1, 0xdf, 0); (0x09, 1, 0xdf, 0); (0x17, 1, 0xdf, 0); (0x28, 1, 0xdf, 1);
   (0x02, 1, 0xf1, 0); (0x09, 1, 0xf1, 0); (0x17, 1, 0xf1, 0); (0x28, 1, 0xf1, 1);
   (0x02, 1, 0xf4, 0); (0x09, 1, 0xf4, 0); (0x17, 1, 0xf4, 0); (0x28, 1, 0xf4, 1)];
  [(0x03, 1, 0xde, 0); (0x06, 1, 0xde, 0); (0x0a, 1, 0xde, 0); (0x0f, 1, 0xde, 0);
   (0x18, 1, 0xde, 0); (0x1f, 1, 0xde, 0); (0x29, 1, 0xde, 0); (0x38, 1, 0xde, 1);
   (0x03, 1, 0xdf, 0); (0x06, 1, 0xdf, 0); (0x0a, 1, 0xdf, 0); (0x0f, 1, 0xdf, 0);
   (0x18, 1, 0xdf, 0); (0x1f, 1, 0xdf, 0); (0x29, 1, 0xdf, 0); (0x38, 1, 0xdf, 1)];
  [(0x03, 1, 0xf1, 0); (0x06, 1, 0xf1, 0); (0x0a, 1, 0xf1, 0); (0x0f, 1, 0xf1, 0);
   (0x18, 1, 0xf1, 0); (0x1f, 1, 0xf1, 0); (0x29, 1, 0xf1, 0); (0x38, 1, 0xf1, 1);
   (0x03, 1, 0xf4, 0); (0x06, 1, 0xf4, 0); (0x0a, 1, 0xf4, 0); (0x0f, 1, 0xf4, 0);
   (0x18, 1, 0xf4, 0); (0x1f, 1, 0xf4, 0); (0x29, 1, 0xf4, 0); (0x38, 1, 0xf4, 1)];
  [(0x01, 1, 0xf5, 0); (0x16, 1, 0xf5, 1); (0x01, 1, 0xf6, 0); (0x16, 1, 0xf6, 1);
   (0x01, 1, 0xf7, 0); (0x16, 1, 0xf7, 1); (0x01, 1, 0xf8, 0); (0x16, 1, 0xf8, 1);
   (0x01, 1, 0xfa, 0); (0x16, 1, 0xfa, 1); (0x01, 1, 0xfb, 0); (0x16, 1, 0xfb, 1);
   (0x01, 1, 0xfc, 0); (0x16, 1, 0xfc, 1); (0x01, 1, 0xfd, 0); (0x16, 1, 0xfd, 1)];
  [(0x02, 1, 0xf5, 0); (0x09, 1, 0xf5, 0); (0x17, 1, 0xf5, 0); (0x28, 1, 0xf5, 1);
   (0x02, 1, 0xf6, 0); (0x09, 1, 0xf6, 0); (0x17, 1, 0xf6, 0); (0x28, 1, 0xf6, 1);
   (0x02, 1, 0xf7, 0); (0x09, 1, 0xf7, 0); (0x17, 1, 0xf7, 0); (0x28, 1, 0xf7, 1);
   (0x02, 1, 0xf8, 0); (0x09, 1, 0xf8, 0); (0x17, 1, 0xf8, 0); (0x28, 1, 0xf8, 1)];
  [(0x03, 1, 0xf5, 0); (0x06, 1, 0xf5, 0); (0x0a, 1, 0xf5, 0); (0x0f, 1, 0xf5, 0);
   (0x18, 1, 0xf5, 0); (0x1f, 1, 0xf5, 0); (0x29, 1, 0xf5, 0); (0x38, 1, 0xf5, 1);
   (0x03, 1, 0xf6, 0); (0x06, 1, 0xf6, 0); (0x0a, 1, 0xf6, 0); (0x0f, 1, 0xf6, 0);
   (0x18, 1, 0xf6, 0); (0x1f, 1, 0xf6, 0); (0x29, 1, 0xf6, 0); (0x38, 1, 0xf6, 1)];
  [(0x03, 1, 0xf7, 0); (0x06, 1, 0xf7, 0); (0x0a, 1, 0xf7, 0); (0x0f, 1, 0xf7, 0);
   (0x18, 1, 0xf7, 0); (0x1f, 1, 0xf7, 0); (0x29, 1, 0xf7, 0); (0x38, 1, 0xf7, 1);
   (0x03, 1, 0xf8, 0); (0x06, 1, 0xf8, 0); (0x0a, 1, 0xf8, 0); (0x0f, 1, 0xf8, 0);
   (0x18, 1, 0xf8, 0); (0x1f, 1, 0xf8, 0); (0x29, 1, 0xf8, 0); (0x38, 1, 0xf8, 1)];
  [(0x02, 1, 0xfa, 0); (0x09, 1, 0xfa, 0); (0x17, 1, 0xfa, 0); (0x28, 1, 0xfa, 1);
   (0x02, 1, 0xfb, 0); (0x09, 1, 0xfb, 0); (0x17, 1, 0xfb, 0); (0x28, 1, 0xfb, 1);
   (0x02, 1, 0xfc, 0); (0x09, 1, 0xfc, 0); (0x17, 1, 0xfc, 0); (0x28, 1, 0xfc, 1);
   (0x02, 1, 0xfd, 0); (0x09, 1, 0xfd, 0); (0x17, 1, 0xfd, 0); (0x28, 1, 0xfd, 1)];
  [(0x03, 1, 0xfa, 0); (0x06, 1, 0xfa, 0); (0x0a, 1, 0xfa, 0); (0x0f, 1, 0xfa, 0);
   (0x18, 1, 0xfa, 0); (0x1f, 1, 0xfa, 0); (0x29, 1, 0xfa, 0); (0x38, 1, 0xfa, 1);
   (0x03, 1, 0xfb, 0); (0x06, 1, 0xfb, 0); (0x0a, 1, 0xfb, 0); (0x0f, 1, 0xfb, 0);
   (0x18, 1, 0xfb, 0); (0x1f, 1, 0xfb, 0); (0x29, 1, 0xfb, 0); (0x38, 1, 0xfb, 1)];
  [(0x03, 1, 0xfc, 0); (0x06, 1, 0xfc, 0); (0x0a, 1, 0xfc, 0); (0x0f, 1, 0xfc, 0);
   (0x18, 1, 0xfc, 0); (0x1f, 1, 0xfc, 0); (0x29, 1, 0xfc, 0); (0x38, 1, 0xfc, 1);
   (0x03, 1, 0xfd, 0); (0x06, 1, 0xfd, 0); (0x0a, 1, 0xfd, 0); (0x0f, 1, 0xfd, 0);
   (0x18, 1, 0xfd, 0); (0x1f, 1, 0xfd, 0); (0x29, 1, 0xfd, 0); (0x38, 1, 0xfd, 1)];
  [(0x00, 1, 0xfe, 1); (0xe3, 0, 0x00, 0); (0xe5, 0, 0x00, 0); (0xe6, 0, 0x00, 0);
   (0xe9, 0, 0x00, 0); (0xea, 0, 0x00, 0); (0xec, 0, 0x00, 0); (0xed, 0, 0x00, 0);
   (0xf1, 0, 0x00, 0); (0xf2, 0, 0x00, 0); (0xf4, 0, 0x00, 0); (0xf5, 0, 0x00, 0);
   (0xf8, 0, 0x00, 0); (0xf9, 0, 0x00, 0); (0xfb, 0, 0x00, 0); (0xfc, 0, 0x00, 1)]
].

Definition huff_decode_codes_14 : list (list ngx_http_huff_decode_code_t) := map row [
  [(0x01, 1, 0xfe, 0); (0x16, 1, 0xfe, 1); (0x00, 1, 0x02, 1); (0x00, 1, 0x03, 1);
   (0x00, 1, 0x04, 1); (0x00, 1, 0x05, 1); (0x00, 1, 0x06, 1); (0x00, 1, 0x07, 1);
   (0x00, 1, 0x08, 1); (0x00, 1, 0x0b, 1); (0x00, 1, 0x0c, 1); (0x00, 1, 0x0e, 1);
   (0x00, 1, 0x0f, 1); (0x00, 1, 0x10, 1); (0x00, 1, 0x11, 1); (0x00, 1, 0x12, 1)];
  [(0x02, 1, 0xfe, 0); (0x09, 1, 0xfe, 0); (0x17, 1, 0xfe, 0); (0x28, 1, 0xfe, 1);
   (0x01, 1, 0x02, 0); (0x16, 1, 0x02, 1); (0x01, 1, 0x03, 0); (0x16, 1, 0x03, 1);
   (0x01, 1, 0x04, 0); (0x16, 1, 0x04, 1); (0x01, 1, 0x05, 0); (0x16, 1, 0x05, 1);
   (0x01, 1, 0x06, 0); (0x16, 1, 0x06, 1); (0x01, 1, 0x07, 0); (0x16, 1, 0x07, 1)];
  [(0x03, 1, 0xfe, 0); (0x06, 1, 0xfe, 0); (0x0a, 1, 0xfe, 0); (0x0f, 1, 0xfe, 0);
   (0x18, 1, 0xfe, 0); (0x1f, 1, 0xfe, 0); (0x29, 1, 0xfe, 0); (0x38, 1, 0xfe, 1);
   (0x02, 1, 0x02, 0); (0x09, 1, 0x02, 0); (0x17, 1, 0x02, 0); (0x28, 1, 0x02, 1);
   (0x02, 1, 0x03, 0); (0x09, 1, 0x03, 0); (0x17, 1, 0x03, 0); (0x28, 1, 0x03, 1)];
  [(0x03, 1, 0x02, 0); (0x06, 1, 0x02, 0); (0x0a, 1, 0x02, 0); (0x0f, 1, 0x02, 0);
   (0x18, 1, 0x02, 0); (0x1f, 1, 0x02, 0); (0x29, 1, 0x02, 0); (0x38, 1, 0x02, 1);
   (0x03, 1, 0x03, 0); (0x06, 1, 0x03, 0); (0x0a, 1, 0x03, 0); (0x0f, 1, 0x03, 0);
   (0x18, 1, 0x03, 0); (0x1f, 1, 0x03, 0); (0x29, 1, 0x03, 0); (0x38, 1, 0x03, 1)];
  [(0x02, 1, 0x04, 0); (0x09, 1, 0x04, 0); (0x17, 1, 0x04, 0); (0x28, 1, 0x04, 1);
   (0x02, 1, 0x05, 0); (0x09, 1, 0x05, 0); (0x17, 1, 0x05, 0); (0x28, 1, 0x05, 1);
   (0x02, 1, 0x06, 0); (0x09, 1, 0x06, 0); (0x17, 1, 0x06, 0); (0x28, 1, 0x06, 1);
   (0x02, 1, 0x07, 0); (0x09, 1, 0x07, 0); (0x17, 1, 0x07, 0); (0x28, 1, 0x07, 1)];
  [(0x03, 1, 0x04, 0); (0x06, 1, 0x04, 0); (0x0a, 1, 0x04, 0); (0x0f, 1, 0x04, 0);
   (0x18, 1, 0x04, 0); (0x1f, 1, 0x04, 0); (0x29, 1, 0x04, 0); (0x38, 1, 0x04, 1);
   (0x03, 1, 0x05, 0); (0x06, 1, 0x05, 0); (0x0a, 1, 0x05, 0); (0x0f, 1, 0x05, 0);
   (0x18, 1, 0x05, 0); (0x1f, 1, 0x05, 0); (0x29, 1, 0x05, 0); (0x38, 1, 0x05, 1)];
  [(0x03, 1, 0x06, 0); (0x06, 1, 0x06, 0); (0x0a, 1, 0x06, 0); (0x0f, 1, 0x06, 0);
   (0x18, 1, 0x06, 0); (0x1f, 1, 0x06, 0); (0x29, 1, 0x06, 0); (0x38, 1, 0x06, 1);
   (0x03, 1, 0x07, 0); (0x06, 1, 0x07, 0); (0x0a, 1, 0x07, 0); (0x0f, 1, 0x07, 0);
   (0x18, 1, 0x07, 0); (0x1f, 1, 0x07, 0); (0x29, 1, 0x07, 0); (0x38, 1, 0x07, 1)];
  [(0x01, 1, 0x08, 0); (0x16, 1, 0x08, 1); (0x01, 1, 0x0b, 0); (0x16, 1, 0x0b, 1);
   (0x01, 1, 0x0c, 0); (0x16, 1, 0x0c, 1); (0x01, 1, 0x0e, 0); (0x16, 1, 0x0e, 1);
   (0x01, 1, 0x0f, 0); (0x16, 1, 0x0f, 1); (0x01, 1, 0x10, 0); (0x16, 1, 0x10, 1);
   (0x01, 1, 0x11, 0); (0x16, 1, 0x11, 1); (0x01, 1, 0x12, 0); (0x16, 1, 0x12, 1)];
  [(0x02, 1, 0x08, 0); (0x09, 1, 0x08, 0); (0x17, 1, 0x08, 0); (0x28, 1, 0x08, 1);
   (0x02, 1, 0x0b, 0); (0x09, 1, 0x0b, 0); (0x17, 1, 0x0b, 0); (0x28, 1, 0x0b, 1);
   (0x02, 1, 0x0c, 0); (0x09, 1, 0x0c, 0); (0x17, 1, 0x0c, 0); (0x28, 1, 0x0c, 1);
   (0x02, 1, 0x0e, 0); (0x09, 1, 0x0e, 0); (0x17, 1, 0x0e, 0); (0x28, 1, 0x0e, 1)];
  [(0x03, 1, 0x08, 0); (0x06, 1, 0x08, 0); (0x0a, 1, 0x08, 0); (0x0f, 1, 0x08, 0);
   (0x18, 1, 0x08, 0); (0x1f, 1, 0x08, 0); (0x29, 1, 0x08, 0); (0x38, 1, 0x08, 1);
   (0x03, 1, 0x0b, 0); (0x06, 1, 0x0b, 0); (0x0a, 1, 0x0b, 0); (0x0f, 1, 0x0b, 0);
   (0x18, 1, 0x0b, 0); (0x1f, 1, 0x0b, 0); (0x29, 1, 0x0b, 0); (0x38, 1, 0x0b, 1)];
  [(0x03, 1, 0x0c, 0); (0x06, 1, 0x0c, 0); (0x0a, 1, 0x0c, 0); (0x0f, 1, 0x0c, 0);
   (0x18, 1, 0x0c, 0); (0x1f, 1, 0x0c, 0); (0x29, 1, 0x0c, 0); (0x38, 1, 0x0c, 1);
   (0x03, 1, 0x0e, 0); (0x06, 1, 0x0e, 0); (0x0a, 1, 0x0e, 0); (0x0f, 1, 0x0e, 0);
   (0x18, 1, 0x0e, 0); (0x1f, 1, 0x0e, 0); (0x29, 1, 0x0e, 0); (0x38, 1, 0x0e, 1)];
  [(0x02, 1, 0x0f, 0); (0x09, 1, 0x0f, 0); (0x17, 1, 0x0f, 0); (0x28, 1, 0x0f, 1);
   (0x02, 1, 0x10, 0); (0x09, 1, 0x10, 0); (0x17, 1, 0x10, 0); (0x28, 1, 0x10, 1);
   (0x02, 1, 0x11, 0); (0x09, 1, 0x11, 0); (0x17, 1, 0x11, 0); (0x28, 1, 0x11, 1);
   (0x02, 1, 0x12, 0); (0x09, 1, 0x12, 0); (0x17, 1, 0x12, 0); (0x28, 1, 0x12, 1)];
  [(0x03, 1, 0x0f, 0); (0x06, 1, 0x0f, 0); (0x0a, 1, 0x0f, 0); (0x0f, 1, 0x0f, 0);
   (0x18, 1, 0x0f, 0); (0x1f, 1, 0x0f, 0); (0x29, 1, 0x0f, 0); (0x38, 1, 0x0f, 1);
   (0x03, 1, 0x10, 0); (0x06, 1, 0x10, 0); (0x0a, 1, 0x10, 0); (0x0f, 1, 0x10, 0);
   (0x18, 1, 0x10, 0); (0x1f, 1, 0x10, 0); (0x29, 1, 0x10, 0); (0x38, 1, 0x10, 1)];
  [(0x03, 1, 0x11, 0); (0x06, 1, 0x11, 0); (0x0a, 1, 0x11, 0); (0x0f, 1, 0x11, 0);
   (0x18, 1, 0x11, 0); (0x1f, 1, 0x11, 0); (0x29, 1, 0x11, 0); (0x38, 1, 0x11, 1);
   (0x03, 1, 0x12, 0); (0x06, 1, 0x12, 0); (0x0a, 1, 0x12, 0); (0x0f, 1, 0x12, 0);
   (0x18, 1, 0x12, 0); (0x1f, 1, 0x12, 0); (0x29, 1, 0x12, 0); (0x38, 1, 0x12, 1)];
  [(0x00, 1, 0x13, 1); (0x00, 1, 0x14, 1); (0x00, 1, 0x15, 1); (0x00, 1, 0x17, 1);
   (0x00, 1, 0x18, 1); (0x00, 1, 0x19, 1); (0x00, 1, 0x1a, 1); (0x00, 1, 0x1b, 1);
   (0x00, 1, 0x1c, 1); (0x00, 1, 0x1d, 1); (0x00, 1, 0x1e, 1); (0x00, 1, 0x1f, 1);
   (0x00, 1, 0x7f, 1); (0x00, 1, 0xdc, 1); (0x00, 1, 0xf9, 1); (0xfd, 0, 0x00, 1)];
  [(0x01, 1, 0x13, 0); (0x16, 1, 0x13, 1); (0x01, 1, 0x14, 0); (0x16, 1, 0x14, 1);
   (0x01, 1, 0x15, 0); (0x16, 1, 0x15, 1); (0x01, 1, 0x17, 0); (0x16, 1, 0x17, 1);
   (0x01, 1, 0x18, 0); (0x16, 1, 0x18, 1); (0x01, 1, 0x19, 0); (0x16, 1, 0x19, 1);
   (0x01, 1, 0x1a, 0); (0x16, 1, 0x1a, 1); (0x01, 1, 0x1b, 0); (0x16, 1, 0x1b, 1)]
].

Definition huff_decode_codes_15 : list (list ngx_http_huff_decode_code_t) := map row [
  [(0x02, 1, 0x13, 0); (0x09, 1, 0x13, 0); (0x17, 1, 0x13, 0); (0x28, 1, 0x13, 1);
   (0x02, 1, 0x14, 0); (0x09, 1, 0x14, 0); (0x17, 1, 0x14, 0); (0x28, 1, 0x14, 1);
   (0x02, 1, 0x15, 0); (0x09, 1, 0x15, 0); (0x17, 1, 0x15, 0); (0x28, 1, 0x15, 1);
   (0x02, 1, 0x17, 0); (0x09, 1, 0x17, 0); (0x17, 1, 0x17, 0); (0x28, 1, 0x17, 1)];
  [(0x03, 1, 0x13, 0); (0x06, 1, 0x13, 0); (0x0a, 1, 0x13, 0); (0x0f, 1, 0x13, 0);
   (0x18, 1, 0x13, 0); (0x1f, 1, 0x13, 0); (0x29, 1, 0x13, 0); (0x38, 1, 0x13, 1);
   (0x03, 1, 0x14, 0); (0x06, 1, 0x14, 0); (0x0a, 1, 0x14, 0); (0x0f, 1, 0x14, 0);
   (0x18, 1, 0x14, 0); (0x1f, 1, 0x14, 0); (0x29, 1, 0x14, 0); (0x38, 1, 0x14, 1)];
  [(0x03, 1, 0x15, 0); (0x06, 1, 0x15, 0); (0x0a, 1, 0x15, 0); (0x0f, 1, 0x15, 0);
   (0x18, 1, 0x15, 0); (0x1f, 1, 0x15, 0); (0x29, 1, 0x15, 0); (0x38, 1, 0x15, 1);
   (0x03, 1, 0x17, 0); (0x06, 1, 0x17, 0); (0x0a, 1, 0x17, 0); (0x0f, 1, 0x17, 0);
   (0x18, 1, 0x17, 0); (0x1f, 1, 0x17, 0); (0x29, 1, 0x17, 0); (0x38, 1, 0x17, 1)];
  [(0x02, 1, 0x18, 0); (0x09, 1, 0x18, 0); (0x17, 1, 0x18, 0); (0x28, 1, 0x18, 1);
   (0x02, 1, 0x19, 0); (0x09, 1, 0x19, 0); (0x17, 1, 0x19, 0); (0x28, 1, 0x19, 1);
   (0x02, 1, 0x1a, 0); (0x09, 1, 0x1a, 0); (0x17, 1, 0x1a, 0); (0x28, 1, 0x1a, 1);
   (0x02, 1, 0x1b, 0); (0x09, 1, 0x1b, 0); (0x17, 1, 0x1b, 0); (0x28, 1, 0x1b, 1)];
  [(0x03, 1, 0x18, 0); (0x06, 1, 0x18, 0); (0x0a, 1, 0x18, 0); (0x0f, 1, 0x18, 0);
   (0x18, 1, 0x18, 0); (0x1f, 1, 0x18, 0); (0x29, 1, 0x18, 0); (0x38, 1, 0x18, 1);
   (0x03, 1, 0x19, 0); (0x06, 1, 0x19, 0); (0x0a, 1, 0x19, 0); (0x0f, 1, 0x19, 0);
   (0x18, 1, 0x19, 0); (0x1f, 1, 0x19, 0); (0x29, 1, 0x19, 0); (0x38, 1, 0x19, 1)];
  [(0x03, 1, 0x1a, 0); (0x06, 1, 0x1a, 0); (0x0a, 1, 0x1a, 0); (0x0f, 1, 0x1a, 0);
   (0x18, 1, 0x1a, 0); (0x1f, 1, 0x1a, 0); (0x29, 1, 0x1a, 0); (0x38, 1, 0x1a, 1);
   (0x03, 1, 0x1b, 0); (0x06, 1, 0x1b, 0); (0x0a, 1, 0x1b, 0); (0x0f, 1, 0x1b, 0);
   (0x18, 1, 0x1b, 0); (0x1f, 1, 0x1b, 0); (0x29, 1, 0x1b, 0); (0x38, 1, 0x1b, 1)];
  [(0x01, 1, 0x1c, 0); (0x16, 1, 0x1c, 1); (0x01, 1, 0x1d, 0); (0x16, 1, 0x1d, 1);
   (0x01, 1, 0x1e, 0); (0x16, 1, 0x1e, 1); (0x01, 1, 0x1f, 0); (0x16, 1, 0x1f, 1);
   (0x01, 1, 0x7f, 0); (0x16, 1, 0x7f, 1); (0x01, 1, 0xdc, 0); (0x16, 1, 0xdc, 1);
   (0x01, 1, 0xf9, 0); (0x16, 1, 0xf9, 1); (0xfe, 0, 0x00, 0); (0xff, 0, 0x00, 1)];
  [(0x02, 1, 0x1c, 0); (0x09, 1, 0x1c, 0); (0x17, 1, 0x1c, 0); (0x28, 1, 0x1c, 1);
   (0x02, 1, 0x1d, 0); (0x09, 1, 0x1d, 0); (0x17, 1, 0x1d, 0); (0x28, 1, 0x1d, 1);
   (0x02, 1, 0x1e, 0); (0x09, 1, 0x1e, 0); (0x17, 1, 0x1e, 0); (0x28, 1, 0x1e, 1);
   (0x02, 1, 0x1f, 0); (0x09, 1, 0x1f, 0); (0x17, 1, 0x1f, 0); (0x28, 1, 0x1f, 1)];
  [(0x03, 1, 0x1c, 0); (0x06, 1, 0x1c, 0); (0x0a, 1, 0x1c, 0); (0x0f, 1, 0x1c, 0);
   (0x18, 1, 0x1c, 0); (0x1f, 1, 0x1c, 0); (0x29, 1, 0x1c, 0); (0x38, 1, 0x1c, 1);
   (0x03, 1, 0x1d, 0); (0x06, 1, 0x1d, 0); (0x0a, 1, 0x1d, 0); (0x0f, 1, 0x1d, 0);
   (0x18, 1, 0x1d, 0); (0x1f, 1, 0x1d, 0); (0x29, 1, 0x1d, 0); (0x38, 1, 0x1d, 1)];
  [(0x03, 1, 0x1e, 0); (0x06, 1, 0x1e, 0); (0x0a, 1, 0x1e, 0); (0x0f, 1, 0x1e, 0);
   (0x18, 1, 0x1e, 0); (0x1f, 1, 0x1e, 0); (0x29, 1, 0x1e, 0); (0x38, 1, 0x1e, 1);
   (0x03, 1, 0x1f, 0); (0x06, 1, 0x1f, 0); (0x0a, 1, 0x1f, 0); (0x0f, 1, 0x1f, 0);
   (0x18, 1, 0x1f, 0); (0x1f, 1, 0x1f, 0); (0x29, 1, 0x1f, 0); (0x38, 1, 0x1f, 1)];
  [(0x02, 1, 0x7f, 0); (0x09, 1, 0x7f, 0); (0x17, 1, 0x7f, 0); (0x28, 1, 0x7f, 1);
   (0x02, 1, 0xdc, 0); (0x09, 1, 0xdc, 0); (0x17, 1, 0xdc, 0); (0x28, 1, 0xdc, 1);
   (0x02, 1, 0xf9, 0); (0x09, 1, 0xf9, 0); (0x17, 1, 0xf9, 0); (0x28, 1, 0xf9, 1);
   (0x00, 1, 0x0a, 1); (0x00, 1, 0x0d, 1); (0x00, 1, 0x16, 1); (0xfa, 0, 0x00, 0)];
  [(0x03, 1, 0x7f, 0); (0x06, 1, 0x7f, 0); (0x0a, 1, 0x7f, 0); (0x0f, 1, 0x7f, 0);
   (0x18, 1, 0x7f, 0); (0x1f, 1, 0x7f, 0); (0x29, 1, 0x7f, 0); (0x38, 1, 0x7f, 1);
   (0x03, 1, 0xdc, 0); (0x06, 1, 0xdc, 0); (0x0a, 1, 0xdc, 0); (0x0f, 1, 0xdc, 0);
   (0x18, 1, 0xdc, 0); (0x1f, 1, 0xdc, 0); (0x29, 1, 0xdc, 0); (0x38, 1, 0xdc, 1)];
  [(0x03, 1, 0xf9, 0); (0x06, 1, 0xf9, 0); (0x0a, 1, 0xf9, 0); (0x0f, 1, 0xf9, 0);
   (0x18, 1, 0xf9, 0); (0x1f, 1, 0xf9, 0); (0x29, 1, 0xf9, 0); (0x38, 1, 0xf9, 1);
   (0x01, 1, 0x0a, 0); (0x16, 1, 0x0a, 1); (0x01, 1, 0x0d, 0); (0x16, 1, 0x0d, 1);
   (0x01, 1, 0x16, 0); (0x16, 1, 0x16, 1); (0xfc, 0, 0x00, 0); (0xfc, 0, 0x00, 0)];
  [(0x02, 1, 0x0a, 0); (0x09, 1, 0x0a, 0); (0x17, 1, 0x0a, 0); (0x28, 1, 0x0a, 1);
   (0x02, 1, 0x0d, 0); (0x09, 1, 0x0d, 0); (0x17, 1, 0x0d, 0); (0x28, 1, 0x0d, 1);
   (0x02, 1, 0x16, 0); (0x09, 1, 0x16, 0); (0x17, 1, 0x16, 0); (0x28, 1, 0x16, 1);
   (0xfd, 0, 0x00, 0); (0xfd, 0, 0x00, 0); (0xfd, 0, 0x00, 0); (0xfd, 0, 0x00, 0)];
  [(0x03, 1, 0x0a, 0); (0x06, 1, 0x0a, 0); (0x0a, 1, 0x0a, 0); (0x0f, 1, 0x0a, 0);
   (0x18, 1, 0x0a, 0); (0x1f, 1, 0x0a, 0); (0x29, 1, 0x0a, 0); (0x38, 1, 0x0a, 1);
   (0x03, 1, 0x0d, 0); (0x06, 1, 0x0d, 0); (0x0a, 1, 0x0d, 0); (0x0f, 1, 0x0d, 0);
   (0x18, 1, 0x0d, 0); (0x1f, 1, 0x0d, 0); (0x29, 1, 0x0d, 0); (0x38, 1, 0x0d, 1)];
  [(0x03, 1, 0x16, 0); (0x06, 1, 0x16, 0); (0x0a, 1, 0x16, 0); (0x0f, 1, 0x16, 0);
   (0x18, 1, 0x16, 0); (0x1f, 1, 0x16, 0); (0x29, 1, 0x16, 0); (0x38, 1, 0x16, 1);
   (0xff, 0, 0x00, 0); (0xff, 0, 0x00, 0); (0xff, 0, 0x00, 0); (0xff, 0, 0x00, 0);
   (0xff, 0, 0x00, 0); (0xff, 0, 0x00, 0); (0xff, 0, 0x00, 0); (0xff, 0, 0x00, 0)]
].

Definition ngx_http_huff_decode_codes : list (list ngx_http_huff_decode_code_t) :=
  huff_decode_codes_0 ++ huff_decode_codes_1 ++ huff_decode_codes_2 ++ huff_decode_codes_3 ++ huff_decode_codes_4 ++ huff_decode_codes_5 ++ huff_decode_codes_6 ++ huff_decode_codes_7 ++
  huff_decode_codes_8 ++ huff_decode_codes_9 ++ huff_decode_codes_10 ++ huff_decode_codes_11 ++ huff_decode_codes_12 ++ huff_decode_codes_13 ++ huff_decode_codes_14 ++ huff_decode_codes_15.
