(* ===== verification/Huff.v ===== *)
(** * Huffman coding

    [ngx_http_huff_encode] and [ngx_http_huff_decode], by which HTTP/2 compresses header
    names and values. *)

From S2P Require Import Prelude HuffTables.

(** ** Encoding *)

(** The bytes of [buf], the highest first: [ngx_http_huff_encode_buf]. *)
Definition ngx_http_huff_encode_buf (buf : Z) : list Z :=
  map (fun k => u8 (Z.shiftr buf k)) [56; 48; 40; 32; 24; 16; 8; 0].

(** The loop over [src]; [out] are the bytes written at [dst], [hlen] of them. [None] is
    the [return 0] of the loop. *)
Fixpoint huff_encode_loop (table : list ngx_http_huff_encode_code_t) (len : Z)
    (src : list Z) (buf pending : Z) (out : list Z) : res (option (Z * Z * list Z)) :=
  match src with
  | [] => Ok (Some (buf, pending, out))
  | c :: src =>
      match table !! Z.to_nat c with
      | None => Fault
      | Some next =>
          let code := next.(he_code) in
          let pending := pending + next.(he_len) in
          if pending <? 64 then
            huff_encode_loop table len src (Z.lor buf (u64 (Z.shiftl code (64 - pending)))) pending out
          else if len <=? zlen out + 8 then Ok None
          else
            let pending := pending - 64 in
            let buf := Z.lor buf (Z.shiftr code pending) in
            let out := out ++ ngx_http_huff_encode_buf buf in
            let buf := if negb (pending =? 0) then u64 (Z.shiftl code (64 - pending)) else 0 in
            huff_encode_loop table len src buf pending out
      end
  end.

(** [do { pending -= 8; dst[hlen++] = (u_char) (buf >> pending); } while (pending)], with
    [k] bytes pending. *)
Fixpoint huff_encode_tail (k : nat) (buf : Z) (out : list Z) : list Z :=
  match k with
  | O => out
  | S k => huff_encode_tail k buf (out ++ [u8 (Z.shiftr buf (8 * Z.of_nat k))])
  end.

(** What is written, [hlen] bytes; nothing if 0 is returned. *)
Definition ngx_http_huff_encode (src : list Z) (lower : bool) : res (list Z) :=
  let len := zlen src in
  let table := if lower then ngx_http_huff_encode_table_lc else ngx_http_huff_encode_table in
  r ← huff_encode_loop table len src 0 0 [];
  match r with
  | None => Ok []
  | Some (buf, pending, out) =>
      if pending =? 0 then Ok out
      else
        let buf := Z.lor buf (Z.shiftr 18446744073709551615 pending) in
        let pending := Z.land (pending + 7) (-8) in
        if len <=? zlen out + pending / 8 then Ok []
        else Ok (huff_encode_tail (Z.to_nat (pending / 8)) (Z.shiftr buf (64 - pending)) out)
  end.

(** ** Decoding *)

(** The variables of the decoder, and whether the last bits were an error. *)
Record huff := Huff { hf_state : Z; hf_ending : Z; hf_dst : list Z }.

Definition ngx_http_huff_decode_bits (h : huff) (bits : Z) : res (Z * huff) :=
  match ngx_http_huff_decode_codes !! Z.to_nat h.(hf_state) with
  | None => Fault
  | Some row =>
      match row !! Z.to_nat bits with
      | None => Fault
      | Some code =>
          if code.(hd_next) =? h.(hf_state) then Ok (NGX_ERROR, h)
          else
            Ok (NGX_OK, Huff code.(hd_next) code.(hd_ending)
                  (if negb (code.(hd_emit) =? 0) then h.(hf_dst) ++ [code.(hd_sym)] else h.(hf_dst)))
      end
  end.

Fixpoint huff_decode_loop (src : list Z) (h : huff) : res (Z * huff) :=
  match src with
  | [] => Ok (NGX_OK, h)
  | ch :: src =>
      '(rc, h) ← ngx_http_huff_decode_bits h (Z.shiftr ch 4);
      if negb (rc =? NGX_OK) then Ok (NGX_ERROR, h)
      else
        '(rc, h) ← ngx_http_huff_decode_bits h (Z.land ch 0xf);
        if negb (rc =? NGX_OK) then Ok (NGX_ERROR, h)
        else huff_decode_loop src h
  end.

(** The code returned, [state] and what is written. *)
Definition ngx_http_huff_decode (state : Z) (src dst : list Z) (last : bool) : res (Z * Z * list Z) :=
  '(rc, h) ← huff_decode_loop src (Huff state 1 dst);
  Ok (if negb (rc =? NGX_OK) then (NGX_ERROR, h.(hf_state), h.(hf_dst))
      else if last then
        if h.(hf_ending) =? 0 then (NGX_ERROR, h.(hf_state), h.(hf_dst))
        else (NGX_OK, 0, h.(hf_dst))
      else (NGX_OK, h.(hf_state), h.(hf_dst))).

Example huff_example :
  ngx_http_huff_encode (str "www.example.com") false
    = Ok [0xf1; 0xe3; 0xc2; 0xe5; 0xf2; 0x3a; 0x6b; 0xa0; 0xab; 0x90; 0xf4; 0xff] /\
  ngx_http_huff_decode 0 [0xf1; 0xe3; 0xc2; 0xe5; 0xf2; 0x3a; 0x6b; 0xa0; 0xab; 0x90; 0xf4; 0xff] [] true
    = Ok (NGX_OK, 0, str "www.example.com").
Proof. split; vm_compute; reflexivity. Qed.
