(* ===== verification/HuffBits.v ===== *)
(** * Bits of numbers, and what Huffman coding promises

    The bits of a number as a list, the highest first, and what the encoder writes. *)

From S2P Require Import Prelude HuffTables Huff.

Fixpoint zbits (n : nat) (z : Z) : list bool :=
  match n with O => [] | S n => Z.testbit z (Z.of_nat n) :: zbits n z end.

(** The bits of a text. *)
Definition bits_of (l : list Z) : list bool := concat (map (zbits 8) l).

Lemma length_zbits n z : length (zbits n z) = n.
Proof. induction n as [|n IH]; cbn; [done|]. by rewrite IH. Qed.

Lemma zbits_ext n a b : (forall i, 0 <= i < Z.of_nat n -> Z.testbit a i = Z.testbit b i) -> zbits n a = zbits n b.
Proof.
  induction n as [|n IH]; intros H; [done|]. cbn [zbits]. rewrite H by lia. f_equal. apply IH. intros i Hi. apply H. lia.
Qed.

Lemma zbits_app n m z : zbits (n + m) z = zbits n (Z.shiftr z (Z.of_nat m)) ++ zbits m z.
Proof.
  induction n as [|n IH]; [done|]. cbn [zbits Nat.add app]. rewrite IH, Z.shiftr_spec by lia.
  do 2 f_equal. lia.
Qed.

Lemma zbits_zero n : zbits n 0 = replicate n false.
Proof. induction n as [|n IH]; [done|]. cbn [zbits replicate]. by rewrite IH, Z.bits_0. Qed.

Lemma zbits_const n z v : (forall i, 0 <= i < Z.of_nat n -> Z.testbit z i = v) -> zbits n z = replicate n v.
Proof.
  induction n as [|n IH]; intros H; [done|]. cbn [zbits replicate]. rewrite H by lia. f_equal.
  apply IH. intros i Hi. apply H. lia.
Qed.

Lemma zbits_shiftl n m z : zbits (n + m) (Z.shiftl z (Z.of_nat m)) = zbits n z ++ replicate m false.
Proof.
  rewrite zbits_app. f_equal.
  - rewrite Z.shiftr_shiftl_l by lia. by replace (Z.of_nat m - Z.of_nat m) with 0 by lia.
  - apply zbits_const. intros i Hi. apply Z.shiftl_spec_low. lia.
Qed.

Lemma testbit_small z k i : 0 <= z < 2 ^ k -> k <= i -> Z.testbit z i = false.
Proof.
  intros Hz Hi. destruct (decide (0 <= k)); [|rewrite Z.pow_neg_r in Hz by lia; lia].
  rewrite <- (Z.mod_small z (2 ^ k)) by done. apply Z.mod_pow2_bits_high. lia.
Qed.

Lemma zbits_small n m z : 0 <= z < 2 ^ Z.of_nat n -> zbits (m + n) z = replicate m false ++ zbits n z.
Proof.
  intros Hz. rewrite zbits_app. f_equal. apply zbits_const. intros i Hi. rewrite Z.shiftr_spec by lia.
  apply (testbit_small _ (Z.of_nat n)); [done|lia].
Qed.

Lemma zbits_mod n k z : (n <= k)%nat -> zbits n (z mod 2 ^ Z.of_nat k) = zbits n z.
Proof. intros H. apply zbits_ext. intros i Hi. apply Z.mod_pow2_bits_low. lia. Qed.

Lemma zbits_u64 n z : (n <= 64)%nat -> zbits n (u64 z) = zbits n z.
Proof. intros H. apply (zbits_mod n 64). done. Qed.

Lemma zbits_u8 z : zbits 8 (u8 z) = zbits 8 z.
Proof. by apply (zbits_mod 8 8). Qed.

Lemma zbits_lor n a b : zbits n (Z.lor a b) = zip_with orb (zbits n a) (zbits n b).
Proof. induction n as [|n IH]; [done|]. cbn [zbits zip_with]. by rewrite IH, Z.lor_spec. Qed.

Lemma zip_orb_l l n : length l = n -> zip_with orb l (replicate n false) = l.
Proof.
  revert n. induction l as [|b l IH]; intros [|n] H; try done. cbn [replicate zip_with].
  rewrite IH by (by injection H). by rewrite orb_false_r.
Qed.

Lemma zip_orb_r l n : length l = n -> zip_with orb (replicate n false) l = l.
Proof.
  revert n. induction l as [|b l IH]; intros [|n] H; try done. cbn [replicate zip_with].
  by rewrite IH by (by injection H).
Qed.

(** Two numbers with their set bits apart. *)
Lemma zbits_lor_apart a b p q r n m k :
  zbits (n + m + k) a = p ++ replicate (m + k) false -> length p = n ->
  zbits (n + m + k) b = replicate n false ++ q ++ r -> length q = m -> length r = k ->
  zbits (n + m + k) (Z.lor a b) = p ++ q ++ r.
Proof.
  intros Ha Hp Hb Hq Hr. rewrite zbits_lor, Ha, Hb.
  rewrite zip_with_app by (by rewrite length_replicate).
  by rewrite zip_orb_l, zip_orb_r by (rewrite ?length_app; lia).
Qed.

Lemma zbits_ones n z : (forall i, 0 <= i < Z.of_nat n -> Z.testbit z i = true) -> zbits n z = replicate n true.
Proof. apply zbits_const. Qed.

Lemma bits_of_app l1 l2 : bits_of (l1 ++ l2) = bits_of l1 ++ bits_of l2.
Proof. unfold bits_of. by rewrite map_app, concat_app. Qed.

Lemma length_bits_of l : Z.of_nat (length (bits_of l)) = 8 * zlen l.
Proof.
  induction l as [|c l IH]; [done|]. change (bits_of (c :: l)) with (zbits 8 c ++ bits_of l).
  rewrite length_app, length_zbits, zlen_cons. lia.
Qed.

(** Eight bytes written from a 64-bit number. *)
Lemma zbits_bytes k z :
  zbits (8 * k) z = bits_of (map (fun j => u8 (Z.shiftr z (8 * Z.of_nat j))) (rev (seq 0 k))).
Proof.
  induction k as [|k IH]; [done|]. rewrite seq_S, rev_app_distr. cbn [rev app map Nat.add].
  change (bits_of (?a :: ?l)) with (zbits 8 a ++ bits_of l). rewrite <- IH, zbits_u8.
  replace (8 * S k)%nat with (8 + 8 * k)%nat by lia. rewrite zbits_app. do 3 f_equal. lia.
Qed.

(** ** What Huffman coding promises

    The encoder writes the codes of the characters one behind the other and fills the last
    byte with ones. *)

(** The code of a character. *)
Definition code_bits (table : list ngx_http_huff_encode_code_t) (c : Z) : list bool :=
  match table !! Z.to_nat c with
  | Some e => zbits (Z.to_nat e.(he_len)) e.(he_code)
  | None => []
  end.

Definition huff_bits (table : list ngx_http_huff_encode_code_t) (l : list Z) : list bool :=
  concat (map (code_bits table) l).

Lemma huff_bits_cons table c l : huff_bits table (c :: l) = code_bits table c ++ huff_bits table l.
Proof. reflexivity. Qed.

Lemma huff_bits_app table l1 l2 : huff_bits table (l1 ++ l2) = huff_bits table l1 ++ huff_bits table l2.
Proof. unfold huff_bits. by rewrite map_app, concat_app. Qed.

(** ** Encoding *)

Definition good_code (e : ngx_http_huff_encode_code_t) : bool :=
  (5 <=? e.(he_len)) && (e.(he_len) <=? 30) && (0 <=? e.(he_code)) && (e.(he_code) <? 2 ^ e.(he_len)).

Lemma table_codes (lower : bool) :
  let table := if lower then ngx_http_huff_encode_table_lc else ngx_http_huff_encode_table in
  length table = 256%nat /\ forallb good_code table = true.
Proof. destruct lower; split; vm_compute; reflexivity. Qed.

Section encode.
Context (table : list ngx_http_huff_encode_code_t) (Hsize : length table = 256%nat)
  (Hgood : forallb good_code table = true).

Lemma table_at c :
  is_byte c -> exists e : ngx_http_huff_encode_code_t, table !! Z.to_nat c = Some e /\ 5 <= e.(he_len) <= 30 /\ 0 <= e.(he_code) < 2 ^ e.(he_len) /\
    code_bits table c = zbits (Z.to_nat e.(he_len)) e.(he_code).
Proof.
  intros Hc. destruct (lookup_lt_is_Some_2 table (Z.to_nat c)) as [e He]; [lia|]. exists e. split; [done|].
  assert (good_code e = true) as Hg.
  { rewrite forallb_forall in Hgood. apply Hgood. apply list_elem_of_In. by eapply list_elem_of_lookup_2. }
  unfold good_code in Hg. split; [lia|]. split; [lia|]. unfold code_bits. by rewrite He.
Qed.

Lemma zbits_buf buf : bits_of (ngx_http_huff_encode_buf buf) = zbits 64 buf.
Proof. change 64%nat with (8 * 8)%nat. by rewrite zbits_bytes. Qed.

(** The bits pending at the top of [buf]. *)
Definition pend (buf pending : Z) (p : list bool) : Prop :=
  Z.of_nat (length p) = pending /\ 0 <= pending < 64 /\
  zbits 64 buf = p ++ replicate (64 - length p) false.

(** A code that fits. *)
Lemma pend_add buf pending p n code :
  pend buf pending p -> 0 <= n -> 0 <= code < 2 ^ n -> pending + n < 64 ->
  pend (Z.lor buf (u64 (Z.shiftl code (64 - (pending + n))))) (pending + n) (p ++ zbits (Z.to_nat n) code).
Proof.
  intros (Hl & Hp & Hb) Hn Hcode Hfit. split; [rewrite length_app, length_zbits; lia|]. split; [lia|].
  rewrite length_app, length_zbits, <- app_assoc.
  set (k := (64 - (length p + Z.to_nat n))%nat).
  replace 64%nat with (length p + Z.to_nat n + k)%nat in * by lia.
  apply (zbits_lor_apart _ _ p (zbits (Z.to_nat n) code) (replicate k false)).
  - rewrite Hb. do 2 f_equal. lia.
  - done.
  - replace (length p + Z.to_nat n + k)%nat with 64%nat by lia. rewrite zbits_u64 by lia.
    replace 64%nat with ((length p + Z.to_nat n) + k)%nat at 1 by lia.
    replace (64 - (pending + n)) with (Z.of_nat k) by lia. rewrite zbits_shiftl.
    rewrite zbits_small by (by rewrite Z2Nat.id by lia). by rewrite <- app_assoc.
  - apply length_zbits.
  - apply length_replicate.
Qed.

(** A code that fills the buffer: its first bits go out with it, the others stay. *)
Lemma pend_flush buf pending p n code :
  pend buf pending p -> 0 <= n <= 30 -> 0 <= code < 2 ^ n -> 64 <= pending + n ->
  let rest := pending + n - 64 in
  exists q r, zbits (Z.to_nat n) code = q ++ r /\
    zbits 64 (Z.lor buf (Z.shiftr code rest)) = p ++ q /\
    pend (if negb (rest =? 0) then u64 (Z.shiftl code (64 - rest)) else 0) rest r.
Proof.
  intros (Hl & Hp & Hb) Hn Hcode Hfit rest.
  set (m := (64 - length p)%nat). set (k := Z.to_nat rest).
  exists (zbits m (Z.shiftr code rest)), (zbits k code).
  assert (Z.to_nat n = (m + k)%nat) as En by (unfold m, k, rest; lia).
  assert (rest = Z.of_nat k) as Er by (unfold k, rest; lia).
  split; [by rewrite En, zbits_app, Er|]. split.
  - replace 64%nat with (length p + m + 0)%nat at 1 by lia.
    rewrite <- (app_nil_r (p ++ _)), <- app_assoc. apply zbits_lor_apart; try done.
    + replace (length p + m + 0)%nat with 64%nat by lia. rewrite Hb. do 2 f_equal. lia.
    + rewrite app_nil_r, Nat.add_0_r. apply zbits_small. rewrite Z.shiftr_div_pow2 by lia.
      split; [apply Z.div_pos; lia|]. apply Z.div_lt_upper_bound; [lia|].
      rewrite <- Z.pow_add_r by lia. replace (rest + Z.of_nat m) with n by lia. lia.
    + apply length_zbits.
  - split; [rewrite length_zbits; lia|]. split; [unfold rest; lia|]. rewrite length_zbits.
    destruct (Z.eqb_spec rest 0) as [E|E]; cbn [negb].
    + replace k with 0%nat by lia. by rewrite zbits_zero.
    + rewrite zbits_u64 by lia. replace 64%nat with (k + (64 - k))%nat at 1 by lia.
      replace (64 - rest) with (Z.of_nat (64 - k)) by lia. apply zbits_shiftl.
Qed.

(** The loop: what is written and pending are the codes read, and 0 is returned only if
    they need at least as much room as [src]. *)
Lemma encode_loop_spec len src buf pending out p :
  bytes src -> pend buf pending p -> out = [] \/ zlen out < len ->
  exists r, huff_encode_loop table len src buf pending out = Ok r /\
    match r with
    | Some (buf', pending', out') =>
        exists p', pend buf' pending' p' /\ bits_of out' ++ p' = bits_of out ++ p ++ huff_bits table src /\
          (out' = [] \/ zlen out' < len)
    | None => 8 * len <= Z.of_nat (length (bits_of out ++ p ++ huff_bits table src))
    end.
Proof.
  intros Hs. revert buf pending out p. induction Hs as [|c src Hc Hs IH]; intros buf pending out p Hp Hout; cbn [huff_encode_loop].
  - eexists. split; [done|]. exists p. split; [done|]. change (huff_bits table []) with (@nil bool). by rewrite app_nil_r.
  - destruct (table_at c Hc) as (e & -> & Hlen & Hcode & Hbits). rewrite huff_bits_cons, Hbits.
    destruct (Z.ltb_spec (pending + he_len e) 64) as [Hlt|Hge].
    + destruct (IH _ _ out _ (pend_add buf pending p (he_len e) (he_code e) Hp ltac:(lia) Hcode Hlt) Hout) as (r & Hr & Hspec).
      exists r. split; [exact Hr|]. by rewrite <- app_assoc in Hspec.
    + destruct (pend_flush buf pending p (he_len e) (he_code e) Hp ltac:(lia) Hcode Hge) as (q & r & E & Hq & Hr).
      destruct (Z.leb_spec len (zlen out + 8)).
      * eexists. split; [done|]. cbn beta iota. rewrite !length_app, length_zbits.
        pose proof (length_bits_of out). destruct Hp as (? & ? & _). lia.
      * destruct (IH _ _ (out ++ ngx_http_huff_encode_buf (Z.lor buf (Z.shiftr (he_code e) (pending + he_len e - 64)))) _ Hr)
          as (r' & Hr' & Hspec); [right; rewrite zlen_app; change (zlen (ngx_http_huff_encode_buf _)) with 8; lia|].
        exists r'. split; [exact Hr'|]. rewrite bits_of_app, zbits_buf, Hq in Hspec.
        rewrite E. rewrite <- !app_assoc in *. exact Hspec.
Qed.

Lemma encode_tail_spec k buf out :
  huff_encode_tail k buf out = out ++ map (fun j => u8 (Z.shiftr buf (8 * Z.of_nat j))) (rev (seq 0 k)).
Proof.
  revert out. induction k as [|k IH]; intros out; [by rewrite app_nil_r|].
  cbn [huff_encode_tail]. rewrite IH, seq_S, rev_app_distr. cbn [rev app map Nat.add]. by rewrite <- app_assoc.
Qed.

Lemma align8 z : 0 <= z -> Z.land (z + 7) (-8) = 8 * ((z + 7) / 8).
Proof.
  intros Hz. change (-8) with (Z.lnot (Z.ones 3)). rewrite <- Z.ldiff_land, Z.ldiff_ones_r by lia.
  rewrite Z.shiftl_mul_pow2, Z.shiftr_div_pow2 by lia. change (2 ^ 3) with 8. lia.
Qed.

(** The last bytes: the pending bits and ones up to a full byte. *)
Lemma encode_end buf pending p :
  pend buf pending p -> pending <> 0 ->
  let m := Z.land (pending + 7) (-8) in
  let b := Z.shiftr (Z.lor buf (Z.shiftr 18446744073709551615 pending)) (64 - m) in
  exists k, (k < 8)%nat /\ m / 8 = (pending + 7) / 8 /\
  bits_of (map (fun j => u8 (Z.shiftr b (8 * Z.of_nat j))) (rev (seq 0 (Z.to_nat (m / 8))))) = p ++ replicate k true.
Proof.
  intros (Hl & Hp & Hb) Hne m b. unfold b, m. clear b m. rewrite align8 by lia.
  set (h := (pending + 7) / 8). assert (pending <= 8 * h <= pending + 7 /\ h <= 8) as [Hh H8] by (unfold h; clear -Hp; Z.to_euclidean_division_equations; lia).
  exists (8 * Z.to_nat h - length p)%nat. split; [lia|]. assert (8 * h / 8 = h) as -> by (rewrite Z.mul_comm; by apply Z.div_mul). split; [done|].
  rewrite <- zbits_bytes.
  assert (zbits 64 (Z.lor buf (Z.shiftr 18446744073709551615 pending)) = p ++ replicate (64 - length p) true) as H64.
  { rewrite <- (app_nil_r (p ++ _)), <- app_assoc. replace 64%nat with (length p + (64 - length p) + 0)%nat at 1 by lia.
    apply zbits_lor_apart; try done.
    - replace (length p + (64 - length p) + 0)%nat with 64%nat by lia. rewrite Hb. do 2 f_equal. lia.
    - rewrite app_nil_r, Nat.add_0_r. rewrite zbits_small.
      + f_equal. apply zbits_const. intros i Hi. rewrite Z.shiftr_spec by lia. change 18446744073709551615 with (Z.ones 64).
        apply Z.ones_spec_low. lia.
      + change 18446744073709551615 with (2 ^ 64 - 1). rewrite Z.shiftr_div_pow2 by lia.
        split; [apply Z.div_pos; lia|]. apply Z.div_lt_upper_bound; [lia|].
        rewrite <- Z.pow_add_r by lia. replace (pending + Z.of_nat (64 - length p)) with 64 by lia. lia.
    - apply length_replicate. }
  replace 64%nat with (8 * Z.to_nat h + (64 - 8 * Z.to_nat h))%nat in H64 at 1 by lia.
  rewrite zbits_app in H64. apply (f_equal (take (8 * Z.to_nat h))) in H64.
  rewrite take_app_length' in H64 by (by rewrite length_zbits).
  replace (64 - 8 * h) with (Z.of_nat (64 - 8 * Z.to_nat h)) by lia. rewrite H64.
  rewrite take_app_ge, take_replicate by lia. f_equal. f_equal. lia.
Qed.
End encode.

(** What the encoder writes: nothing if it would not be shorter than [src]. *)
Lemma huff_encode_spec (lower : bool) src :
  bytes src ->
  let table := if lower then ngx_http_huff_encode_table_lc else ngx_http_huff_encode_table in
  exists out, ngx_http_huff_encode src lower = Ok out /\
    (out = [] /\ 8 * zlen src <= Z.of_nat (length (huff_bits table src)) + 7 \/
     zlen out < zlen src /\ exists k, (k < 8)%nat /\ bits_of out = huff_bits table src ++ replicate k true).
Proof.
  intros Hs table. destruct (table_codes lower) as [Hsize Hgood]. fold table in Hsize, Hgood.
  unfold ngx_http_huff_encode. fold table. pose proof (zlen_nonneg src).
  destruct (encode_loop_spec table Hsize Hgood (zlen src) src 0 0 [] [] Hs) as (r & Hr & Hspec);
    [split; [done|split; [lia|reflexivity]]|by left|].
  change (bits_of []) with (@nil bool) in Hspec. cbn [app] in Hspec.
  rewrite Hr, Ok_bind. destruct r as [[[buf pending] out]|]; [|eexists; split; [done|left; split; [done|lia]]].
  destruct Hspec as (p & Hp & E & Hout).
  pose proof (f_equal (fun l => Z.of_nat (length l)) E) as El. cbn beta in El. rewrite length_app, Nat2Z.inj_add, length_bits_of in El.
  pose proof Hp as (Hpl & Hpr & _). destruct (Z.eqb_spec pending 0) as [->|Hne].
  - assert (p = []) as -> by (destruct p; [done|cbn in Hpl; lia]). rewrite app_nil_r in E. cbn in El.
    eexists. split; [done|]. destruct Hout as [->|Hout]; [left; split; [done|]|right; split; [done|exists 0%nat; split; [lia|by rewrite app_nil_r]]].
    change (zlen (@nil Z)) with 0 in El. unfold huff_bits in *. destruct src as [|c src]; [by apply Z.leb_le|].
    exfalso. apply Forall_cons_1 in Hs as [Hc _]. destruct (table_at table Hsize Hgood c Hc) as (e & _ & Hlen & _ & Hb).
    cbn [map concat] in El. rewrite length_app, Hb, length_zbits in El. lia.
  - destruct (encode_end table Hsize buf pending p Hp Hne) as (k & Hk & Hm & Hend). rewrite Hm in *.
    assert (8 * ((pending + 7) / 8) <= pending + 7) by (apply Z.mul_div_le; lia).
    destruct (Z.leb_spec (zlen src) (zlen out + (pending + 7) / 8)).
    + eexists. split; [done|]. left. split; [done|]. lia.
    + eexists. split; [done|]. right. rewrite encode_tail_spec. split.
      * rewrite zlen_app. unfold zlen at 2. rewrite length_map, length_rev, length_seq.
        assert (0 <= (pending + 7) / 8) by (apply Z.div_pos; lia). lia.
      * exists k. split; [done|]. by rewrite bits_of_app, Hend, app_assoc, E.
Qed.

Lemma encode_loop_bytes table len src buf pending out r :
  huff_encode_loop table len src buf pending out = Ok r -> bytes out ->
  match r with Some (_, _, out') => bytes out' | None => True end.
Proof.
  revert buf pending out. induction src as [|c src IH]; intros buf pending out H Hb; cbn [huff_encode_loop] in H.
  - by injection H as <-.
  - destruct (table !! Z.to_nat c) as [e|]; [|done]. cbv zeta in H.
    destruct (pending + he_len e <? 64); [by eapply IH|]. destruct (len <=? zlen out + 8); [by injection H as <-|].
    eapply IH; [exact H|]. apply Forall_app. split; [done|]. apply Forall_fmap, Forall_true. intros k. apply u8_byte.
Qed.

Lemma huff_encode_bytes src lower out : ngx_http_huff_encode src lower = Ok out -> bytes out.
Proof.
  unfold ngx_http_huff_encode. intros H. apply bind_Ok in H as (r & Hr & H).
  apply encode_loop_bytes in Hr; [|by apply Forall_nil_2]. destruct r as [[[buf pending] out']|]; [|injection H as <-; by apply Forall_nil_2].
  destruct (pending =? 0); [by injection H as <-|].
  match type of H with (if ?b then _ else _) = _ => destruct b end; injection H as <-; [by apply Forall_nil_2|].
  rewrite encode_tail_spec. apply Forall_app. split; [done|]. apply Forall_fmap, Forall_true. intros k. apply u8_byte.
Qed.
