(* ===== verification/HuffDecode.v ===== *)
(** * The Huffman decoder

    A state of the decoder stands for the bits that it has read behind the last decided
    character. What the table has to fulfil is decided by evaluation, and the rest
    follows from it: the decoder accepts exactly the texts of codes with less than
    30 ones behind them. *)

From S2P Require Import Prelude HuffTables Huff HuffBits.

Definition ctable : list ngx_http_huff_encode_code_t := ngx_http_huff_encode_table.
Definition cbits : Z -> list bool := code_bits ctable.

(** The codes of all characters. *)
Definition all_codes : list (list bool) :=
  Eval vm_compute in map (fun c => cbits (Z.of_nat c)) (seq 0 256).

Lemma all_codes_eq : all_codes = map (fun c => cbits (Z.of_nat c)) (seq 0 256).
Proof. vm_compute. reflexivity. Qed.

(** ** The states *)

Definition entry (s b : nat) : ngx_http_huff_decode_code_t :=
  default (Decode 0 0 0 0) (row ← ngx_http_huff_decode_codes !! s; row !! b).

(** The bits behind the last character, of the states that [s] leads to. *)
Definition spread (s : nat) (known : list (option (list bool))) : list (option (list bool)) :=
  match known !! s with
  | Some (Some p) =>
      fold_left (fun known b =>
        let e := entry s b in
        if e.(hd_next) =? Z.of_nat s then known
        else
          let q := p ++ zbits 4 (Z.of_nat b) in
          let q := if e.(hd_emit) =? 0 then q else drop (length (cbits e.(hd_sym))) q in
          <[Z.to_nat e.(hd_next) := Some q]> known) (seq 0 16) known
  | _ => known
  end.

Definition spread_all (known : list (option (list bool))) : list (option (list bool)) :=
  fold_left (fun known s => spread s known) (seq 0 256) known.

(** Eight rounds are enough: the longest code has 30 bits. *)
Definition prefixes : list (list bool) :=
  Eval vm_compute in
    map (default []) (Nat.iter 8 spread_all (<[0%nat := Some []]> (replicate 256 None))).

Definition prefix_at (s : Z) : list bool := default [] (prefixes !! Z.to_nat s).

(** Whether one of two lists of bits begins with the other. *)
Fixpoint compatible (p q : list bool) : bool :=
  match p, q with
  | a :: p, b :: q => Bool.eqb a b && compatible p q
  | _, _ => true
  end.

Definition is_pad (p : list bool) : bool := forallb id p && (length p <? 30)%nat.

(** ** What holds of the tables *)

Definition entry_ok (s b : nat) (e : ngx_http_huff_decode_code_t) : bool :=
  let p := default [] (prefixes !! s) ++ zbits 4 (Z.of_nat b) in
  (0 <=? e.(hd_next)) && (e.(hd_next) <? 256) && (0 <=? e.(hd_sym)) && (e.(hd_sym) <? 256) &&
  if e.(hd_next) =? Z.of_nat s then negb (is_pad p) && forallb (fun c => negb (compatible p c)) all_codes
  else
    bool_decide (p = (if e.(hd_emit) =? 0 then [] else default [] (all_codes !! Z.to_nat e.(hd_sym))) ++ prefix_at e.(hd_next)) &&
    Bool.eqb (negb (e.(hd_ending) =? 0)) (is_pad (prefix_at e.(hd_next))).

Lemma entries_ok :
  forallb (fun '(s, row) => forallb (fun '(b, e) => entry_ok s b e) (zip (seq 0 16) row))
    (zip (seq 0 256) ngx_http_huff_decode_codes) = true.
Proof. vm_compute. reflexivity. Qed.

Lemma shape_ok :
  forallb (fun row => Nat.eqb (length row) 16) ngx_http_huff_decode_codes && Nat.eqb (length ngx_http_huff_decode_codes) 256 &&
  Nat.eqb (length prefixes) 256 = true.
Proof. vm_compute. reflexivity. Qed.

(** No code begins with another. *)
Fixpoint prefix_free (l : list (list bool)) : bool :=
  match l with [] => true | p :: l => forallb (fun q => negb (compatible p q)) l && prefix_free l end.

Lemma codes_free : prefix_free all_codes = true.
Proof. vm_compute. reflexivity. Qed.

(** None is a padding, and no state has read a whole one. *)
Lemma codes_ok :
  forallb (fun c => negb (is_pad c) && (5 <=? length c)%nat) all_codes &&
  forallb (fun p => forallb (fun c => negb (bool_decide (c `prefix_of` p))) all_codes) prefixes = true.
Proof. vm_compute. reflexivity. Qed.

Lemma entry_spec s b :
  0 <= s < 256 -> 0 <= b < 16 ->
  exists row (e : ngx_http_huff_decode_code_t),
    ngx_http_huff_decode_codes !! Z.to_nat s = Some row /\ row !! Z.to_nat b = Some e /\
    entry_ok (Z.to_nat s) (Z.to_nat b) e = true.
Proof.
  intros Hs Hb. pose proof shape_ok as Hshape. rewrite !andb_true_iff, !Nat.eqb_eq in Hshape.
  destruct Hshape as [[Hrows Hlen] _].
  destruct (lookup_lt_is_Some_2 ngx_http_huff_decode_codes (Z.to_nat s)) as [row Hrow]; [lia|].
  rewrite forallb_forall in Hrows.
  assert (length row = 16%nat) as Hrl.
  { apply Nat.eqb_eq, Hrows, list_elem_of_In. by eapply list_elem_of_lookup_2. }
  destruct (lookup_lt_is_Some_2 row (Z.to_nat b)) as [e He]; [lia|].
  exists row, e. split; [done|]. split; [done|].
  pose proof entries_ok as H. rewrite forallb_forall in H. specialize (H (Z.to_nat s, row)).
  assert (In (Z.to_nat s, row) (zip (seq 0 256) ngx_http_huff_decode_codes)) as Hin.
  { apply list_elem_of_In, (list_elem_of_lookup_2 _ (Z.to_nat s)), lookup_zip_Some.
    split; [apply lookup_seq; lia|done]. }
  specialize (H Hin). cbn beta iota in H. rewrite forallb_forall in H. apply (H (Z.to_nat b, e)).
  apply list_elem_of_In, (list_elem_of_lookup_2 _ (Z.to_nat b)), lookup_zip_Some.
  split; [apply lookup_seq; lia|done].
Qed.

(** ** Codes *)

Lemma compatible_app p q r t : p ++ r = q ++ t -> compatible p q = true.
Proof.
  revert q. induction p as [|a p IH]; intros [|b q] H; try done. injection H as -> H. cbn [compatible].
  by rewrite Bool.eqb_reflx, (IH q).
Qed.

Lemma compatible_sym p q : compatible p q = compatible q p.
Proof.
  revert q. induction p as [|a p IH]; intros [|b q]; try done. cbn [compatible]. rewrite IH.
  f_equal. by destruct a, b.
Qed.

Lemma prefix_free_lookup l i j p q :
  prefix_free l = true -> l !! i = Some p -> l !! j = Some q -> (i < j)%nat -> compatible p q = false.
Proof.
  revert i j. induction l as [|x l IH]; intros i j Hf Hi Hj Hij; [done|].
  cbn [prefix_free] in Hf. apply andb_true_iff in Hf as [Hx Hf].
  destruct i as [|i], j as [|j]; try lia.
  - injection Hi as ->. rewrite forallb_forall in Hx. apply negb_true_iff, Hx, list_elem_of_In.
    by eapply list_elem_of_lookup_2.
  - apply (IH i j); (done || lia).
Qed.

Lemma code_at c : is_byte c -> all_codes !! Z.to_nat c = Some (cbits c).
Proof.
  intros Hc. rewrite all_codes_eq, list_lookup_fmap, lookup_seq_lt by lia. cbn. by rewrite Z2Nat.id by lia.
Qed.

Lemma codes_differ c d : is_byte c -> is_byte d -> compatible (cbits c) (cbits d) = true -> c = d.
Proof.
  intros Hc Hd H. destruct (Z.lt_trichotomy c d) as [E|[E|E]]; [|done|].
  - by rewrite (prefix_free_lookup _ _ _ _ _ codes_free (code_at c Hc) (code_at d Hd) ltac:(lia)) in H.
  - by rewrite compatible_sym, (prefix_free_lookup _ _ _ _ _ codes_free (code_at d Hd) (code_at c Hc) ltac:(lia)) in H.
Qed.

Lemma code_ok c : is_byte c -> is_pad (cbits c) = false /\ 5 <= Z.of_nat (length (cbits c)).
Proof.
  intros Hc. pose proof codes_ok as H. apply andb_true_iff in H as [H _]. rewrite forallb_forall in H.
  specialize (H (cbits c)). rewrite andb_true_iff, negb_true_iff, Nat.leb_le in H.
  destruct H; [|split; [done|lia]]. apply list_elem_of_In. eapply list_elem_of_lookup_2. by apply code_at.
Qed.

Lemma prefix_ok s c : 0 <= s < 256 -> is_byte c -> ~ cbits c `prefix_of` prefix_at s.
Proof.
  intros Hs Hc. pose proof codes_ok as H. apply andb_true_iff in H as [_ H]. rewrite forallb_forall in H.
  pose proof shape_ok as Hshape. rewrite !andb_true_iff, !Nat.eqb_eq in Hshape. destruct Hshape as [_ Hlen].
  destruct (lookup_lt_is_Some_2 prefixes (Z.to_nat s)) as [p Hp]; [lia|]. unfold prefix_at. rewrite Hp.
  specialize (H p). rewrite forallb_forall in H. specialize (fun A => H A (cbits c)).
  rewrite negb_true_iff, bool_decide_eq_false in H.
  apply H; apply list_elem_of_In; eapply list_elem_of_lookup_2; [exact Hp|by apply code_at].
Qed.

(** A padding has only ones, and so has what it begins with. *)
Lemma is_pad_app p q : is_pad (p ++ q) = true -> is_pad p = true.
Proof.
  unfold is_pad. rewrite forallb_app, length_app, !andb_true_iff, !Nat.ltb_lt. intros [[? ?] ?]. split; [done|lia].
Qed.

Lemma is_pad_ones p : is_pad p = true <-> exists k, (k < 30)%nat /\ p = replicate k true.
Proof.
  unfold is_pad. rewrite andb_true_iff, Nat.ltb_lt. split.
  - intros [H Hl]. exists (length p). split; [done|]. clear Hl. induction p as [|[] p IH]; try done.
    cbn [length replicate]. f_equal. by apply IH.
  - intros (k & Hk & ->). rewrite length_replicate. split; [|done]. clear Hk. by induction k.
Qed.

(** ** Four bits at a time *)

Fixpoint run_bits (ns : list Z) (h : huff) : res (Z * huff) :=
  match ns with
  | [] => Ok (NGX_OK, h)
  | b :: ns =>
      '(rc, h) ← ngx_http_huff_decode_bits h b;
      if negb (rc =? NGX_OK) then Ok (NGX_ERROR, h) else run_bits ns h
  end.

Definition nibbles (src : list Z) : list Z := concat (map (fun c => [Z.shiftr c 4; Z.land c 0xf]) src).

Definition nbits (ns : list Z) : list bool := concat (map (zbits 4) ns).

Lemma decode_loop_bits src h : huff_decode_loop src h = run_bits (nibbles src) h.
Proof.
  revert h. induction src as [|c src IH]; intros h; [done|]. cbn [huff_decode_loop].
  change (nibbles (c :: src)) with (Z.shiftr c 4 :: Z.land c 15 :: nibbles src). cbn [run_bits].
  destruct (ngx_http_huff_decode_bits h (Z.shiftr c 4)) as [[rc h1]| |]; try done. rewrite !Ok_bind.
  destruct (negb (rc =? NGX_OK)); [done|].
  destruct (ngx_http_huff_decode_bits h1 (Z.land c 15)) as [[rc2 h2]| |]; try done. rewrite !Ok_bind.
  destruct (negb (rc2 =? NGX_OK)); [done|]. apply IH.
Qed.

Lemma nibbles_ok src : bytes src -> Forall (fun b => 0 <= b < 16) (nibbles src) /\ nbits (nibbles src) = bits_of src.
Proof.
  induction 1 as [|c src Hc _ [IH1 IH2]]; [split; [by apply Forall_nil_2|done]|].
  change (nibbles (c :: src)) with (Z.shiftr c 4 :: Z.land c 15 :: nibbles src).
  change 15 with (Z.ones 4). rewrite Z.shiftr_div_pow2, Z.land_ones by lia. change (2 ^ 4) with 16. split.
  - apply Forall_cons_2; [clear -Hc; Z.to_euclidean_division_equations; lia|].
    apply Forall_cons_2; [by apply Z.mod_pos_bound|done].
  - change (nbits (?a :: ?b :: ?l)) with (zbits 4 a ++ zbits 4 b ++ nbits l). rewrite IH2.
    change (bits_of (c :: src)) with (zbits 8 c ++ bits_of src). rewrite app_assoc. f_equal.
    change 8%nat with (4 + 4)%nat. rewrite zbits_app. change (Z.of_nat 4) with 4. rewrite Z.shiftr_div_pow2 by lia.
    f_equal. apply (zbits_mod 4 4). lia.
Qed.

(** One step, by what the table fulfils. *)
Lemma bits_step h b :
  0 <= hf_state h < 256 -> 0 <= b < 16 ->
  (ngx_http_huff_decode_bits h b = Ok (NGX_ERROR, h) /\
   is_pad (prefix_at (hf_state h) ++ zbits 4 b) = false /\
   forall c, is_byte c -> compatible (prefix_at (hf_state h) ++ zbits 4 b) (cbits c) = false) \/
  exists s' f l,
    ngx_http_huff_decode_bits h b = Ok (NGX_OK, Huff s' f (hf_dst h ++ l)) /\
    0 <= s' < 256 /\ negb (f =? 0) = is_pad (prefix_at s') /\
    prefix_at (hf_state h) ++ zbits 4 b = huff_bits ctable l ++ prefix_at s' /\
    (l = [] \/ exists c, l = [c] /\ is_byte c).
Proof.
  intros Hs Hb. destruct (entry_spec (hf_state h) b Hs Hb) as (row & e & Hrow & He & Hok).
  unfold ngx_http_huff_decode_bits. rewrite Hrow, He. unfold entry_ok in Hok.
  fold (prefix_at (hf_state h)) in Hok. rewrite !Z2Nat.id in Hok by lia. rewrite !andb_true_iff in Hok.
  destruct Hok as ((((H1 & H2) & H3) & H4) & Hok). destruct (Z.eqb_spec (hd_next e) (hf_state h)) as [E|E].
  - left. split; [done|]. apply andb_true_iff in Hok as [Hp Hc]. split; [by apply negb_true_iff|].
    intros c Hc'. rewrite forallb_forall in Hc. apply negb_true_iff, Hc, list_elem_of_In.
    eapply list_elem_of_lookup_2. by apply code_at.
  - right. apply andb_true_iff in Hok as [Hp Hf]. apply bool_decide_eq_true in Hp. apply Bool.eqb_prop in Hf.
    rewrite code_at in Hp by lia.
    exists (hd_next e), (hd_ending e), (if hd_emit e =? 0 then [] else [hd_sym e]).
    split; [|split; [lia|split; [done|split]]].
    + destruct (hd_emit e =? 0); cbn [negb]; [by rewrite app_nil_r|done].
    + rewrite Hp. destruct (hd_emit e =? 0); [done|]. rewrite huff_bits_cons. change (huff_bits ctable []) with (@nil bool).
      by rewrite app_nil_r.
    + destruct (hd_emit e =? 0); [by left|right]. exists (hd_sym e). split; [done|lia].
Qed.

(** Whatever is read, the codes of what is written have been read. *)
Lemma run_sound ns h :
  Forall (fun b => 0 <= b < 16) ns -> 0 <= hf_state h < 256 ->
  exists rc h' l, run_bits ns h = Ok (rc, h') /\ hf_dst h' = hf_dst h ++ l /\ bytes l /\ 0 <= hf_state h' < 256 /\
    Z.of_nat (length (huff_bits ctable l)) <= Z.of_nat (length (prefix_at (hf_state h) ++ nbits ns)) /\
    (rc = NGX_ERROR \/ rc = NGX_OK /\
      prefix_at (hf_state h) ++ nbits ns = huff_bits ctable l ++ prefix_at (hf_state h') /\
      (negb (hf_ending h =? 0) = is_pad (prefix_at (hf_state h)) ->
       negb (hf_ending h' =? 0) = is_pad (prefix_at (hf_state h')))).
Proof.
  intros Hns. revert h. induction Hns as [|b ns Hb _ IH]; intros h Hs; cbn [run_bits].
  - exists NGX_OK, h, []. rewrite app_nil_r. change (nbits []) with (@nil bool). rewrite app_nil_r.
    do 4 (split; [done|]). split; [cbn; lia|]. by right.
  - change (nbits (b :: ns)) with (zbits 4 b ++ nbits ns). rewrite (app_assoc (prefix_at _)).
    destruct (bits_step h b Hs Hb) as [(-> & _)|(s' & f & l & -> & Hs' & Hf & E & Hl)]; rewrite Ok_bind.
    + exists NGX_ERROR, h, []. rewrite app_nil_r. do 4 (split; [done|]). split; [cbn; lia|]. by left.
    + change (negb (NGX_OK =? NGX_OK)) with false. cbn iota.
      destruct (IH (Huff s' f (hf_dst h ++ l)) Hs') as (rc & h' & l' & Hrun & Hd & Hb' & Hs'' & Hlen & Hrc).
      cbn [hf_state hf_dst hf_ending] in *.
      exists rc, h', (l ++ l'). rewrite huff_bits_app, E. split; [done|]. split; [by rewrite Hd, <- app_assoc|].
      split; [apply Forall_app; split; [|done]; destruct Hl as [->|(c & -> & Hc)]; [by apply Forall_nil_2|by apply Forall_cons_2]|].
      split; [done|]. rewrite <- app_assoc. split; [rewrite !length_app in *; lia|].
      destruct Hrc as [->|(-> & E' & Hf')]; [by left|right]. split; [done|]. rewrite <- app_assoc, E'. auto.
Qed.

(** A text of codes with a padding is read to its end. *)
Lemma run_complete ns h l pad :
  Forall (fun b => 0 <= b < 16) ns -> 0 <= hf_state h < 256 -> bytes l -> is_pad pad = true ->
  prefix_at (hf_state h) ++ nbits ns = huff_bits ctable l ++ pad ->
  exists h', run_bits ns h = Ok (NGX_OK, h') /\ hf_dst h' = hf_dst h ++ l /\ prefix_at (hf_state h') = pad.
Proof.
  intros Hns. revert h l. induction Hns as [|b ns Hb _ IH]; intros h l Hs Hl Hpad E; cbn [run_bits].
  - change (nbits []) with (@nil bool) in E. rewrite app_nil_r in E. exists h. split; [done|].
    destruct Hl as [|c l Hc Hl]; [by rewrite app_nil_r|]. exfalso. apply (prefix_ok (hf_state h) c Hs Hc).
    rewrite huff_bits_cons, <- app_assoc in E. by eexists.
  - change (nbits (b :: ns)) with (zbits 4 b ++ nbits ns) in E. rewrite (app_assoc (prefix_at (hf_state h)) (zbits 4 b)) in E.
    destruct (bits_step h b Hs Hb) as [(_ & Hp & Hc)|(s' & f & m & -> & Hs' & Hf & E' & Hm)].
    + exfalso. destruct Hl as [|c l Hc' Hl].
      * change (huff_bits ctable []) with (@nil bool) in E. cbn [app] in E. rewrite <- E in Hpad.
        apply is_pad_app in Hpad. congruence.
      * rewrite huff_bits_cons, <- (app_assoc (code_bits ctable c)) in E. apply compatible_app in E. specialize (Hc c Hc'). unfold cbits in Hc. congruence.
    + rewrite Ok_bind. change (negb (NGX_OK =? NGX_OK)) with false. cbn iota. rewrite E', <- app_assoc in E.
      destruct Hm as [->|(c & -> & Hc)].
      * change (huff_bits ctable []) with (@nil bool) in E. cbn [app] in E.
        destruct (IH (Huff s' f (hf_dst h ++ [])) l Hs' Hl Hpad E) as (h' & Hr & Hd & Hp).
        exists h'. split; [exact Hr|]. split; [|done]. rewrite Hd. cbn [hf_dst]. by rewrite app_nil_r.
      * rewrite huff_bits_cons in E. change (huff_bits ctable []) with (@nil bool) in E. rewrite app_nil_r in E.
        destruct Hl as [|d l Hd Hl].
        -- exfalso. change (huff_bits ctable []) with (@nil bool) in E. cbn [app] in E. rewrite <- E in Hpad.
           apply is_pad_app in Hpad. destruct (code_ok c Hc) as [Hno _]. unfold cbits in Hno. congruence.
        -- rewrite huff_bits_cons, <- app_assoc in E.
           assert (c = d) as <- by (apply codes_differ; [done|done|by eapply compatible_app]).
           apply app_inv_head in E.
           destruct (IH (Huff s' f (hf_dst h ++ [c])) l Hs' Hl Hpad E) as (h' & Hr & Hd' & Hp).
           exists h'. split; [exact Hr|]. split; [|done]. rewrite Hd'. cbn [hf_dst]. by rewrite <- app_assoc.
Qed.

Lemma huff_bits_length l : bytes l -> 5 * zlen l <= Z.of_nat (length (huff_bits ctable l)).
Proof.
  induction 1 as [|c l Hc _ IH]; [done|]. rewrite huff_bits_cons, length_app, zlen_cons.
  destruct (code_ok c Hc) as [_ Hlen]. unfold cbits in Hlen. lia.
Qed.

Lemma prefix_zero : prefix_at 0 = [].
Proof. vm_compute. reflexivity. Qed.

(** The decoder on a whole text. *)
Lemma huff_decode_spec src :
  bytes src ->
  exists rc state l, ngx_http_huff_decode 0 src [] true = Ok (rc, state, l) /\
    5 * zlen l <= 8 * zlen src /\ bytes l /\ 
    (rc = NGX_OK /\ state = 0 \/ rc = NGX_ERROR) /\
    (rc = NGX_OK <-> exists m k, bytes m /\ (k < 30)%nat /\ bits_of src = huff_bits ctable m ++ replicate k true) /\
    (forall m k, bytes m -> (k < 30)%nat -> bits_of src = huff_bits ctable m ++ replicate k true -> l = m).
Proof.
  intros Hs. destruct (nibbles_ok src Hs) as [Hn Hnb]. unfold ngx_http_huff_decode.
  rewrite decode_loop_bits.
  destruct (run_sound (nibbles src) (Huff 0 1 []) Hn ltac:(cbn; lia)) as (rc & h' & l & Hrun & Hd & Hl & Hst & Hlen & Hrc).
  cbn [hf_state hf_dst app] in *. rewrite prefix_zero in *. cbn [app] in *. rewrite Hnb in *.
  rewrite Hrun, Ok_bind. rewrite length_bits_of in Hlen. pose proof (huff_bits_length l Hl).
  assert (forall m k, bytes m -> (k < 30)%nat -> bits_of src = huff_bits ctable m ++ replicate k true ->
    rc = NGX_OK /\ l = m /\ is_pad (prefix_at (hf_state h')) = true) as Hcomplete.
  { intros m k Hm Hk E. destruct (run_complete (nibbles src) (Huff 0 1 []) m (replicate k true) Hn) as (h'' & Hrun' & Hd' & Hp');
      [cbn; lia|done|apply is_pad_ones; eauto|cbn [hf_state]; by rewrite prefix_zero, Hnb|].
    rewrite Hrun in Hrun'. injection Hrun' as -> ->. cbn in Hd'. split; [done|]. split; [congruence|].
    rewrite Hp'. apply is_pad_ones. eauto. }
  rewrite Hd. destruct Hrc as [->|(-> & E & Hf)].
  - do 3 eexists. split; [done|]. split; [lia|]. split; [done|]. split; [by right|]. split; [split; [done|]|].
    + intros (m & k & Hm & Hk & E). by destruct (Hcomplete m k Hm Hk E).
    + intros m k Hm Hk E. by destruct (Hcomplete m k Hm Hk E).
  - specialize (Hf eq_refl). change (negb (NGX_OK =? NGX_OK)) with false. cbn iota.
    destruct (Z.eqb_spec (hf_ending h') 0) as [E0|E0]; cbn [negb] in Hf.
    + do 3 eexists. split; [done|]. split; [lia|]. split; [done|]. split; [by right|]. split; [split; [done|]|].
      * intros (m & k & Hm & Hk & E'). destruct (Hcomplete m k Hm Hk E') as (_ & _ & Hp). congruence.
      * intros m k Hm Hk E'. destruct (Hcomplete m k Hm Hk E') as (_ & _ & Hp). congruence.
    + do 3 eexists. split; [done|]. split; [lia|]. split; [done|]. split; [by left|]. split; [split; [intros _|done]|].
      * symmetry in Hf. apply is_pad_ones in Hf as (k & Hk & Ep). exists l, k. split; [done|]. split; [done|]. by rewrite <- Ep.
      * intros m k Hm Hk E'. by destruct (Hcomplete m k Hm Hk E') as (_ & ? & _).
Qed.

(** ** In pieces *)

Lemma decode_loop_app a b h :
  huff_decode_loop (a ++ b) h
  = ('(rc, h) ← huff_decode_loop a h; if negb (rc =? NGX_OK) then Ok (NGX_ERROR, h) else huff_decode_loop b h).
Proof.
  revert h. induction a as [|c a IH]; intros h; [done|]. cbn [app huff_decode_loop].
  destruct (ngx_http_huff_decode_bits h (Z.shiftr c 4)) as [[rc h1]| |]; try done. rewrite !Ok_bind.
  destruct (negb (rc =? NGX_OK)); [done|].
  destruct (ngx_http_huff_decode_bits h1 (Z.land c 15)) as [[rc2 h2]| |]; try done. rewrite !Ok_bind.
  destruct (negb (rc2 =? NGX_OK)); [done|]. apply IH.
Qed.

(** The mark of the beginning does not matter to a text that is not empty. *)
Lemma decode_bits_ending s e1 e2 d b :
  match ngx_http_huff_decode_bits (Huff s e1 d) b, ngx_http_huff_decode_bits (Huff s e2 d) b with
  | Ok (rc1, h1), Ok (rc2, h2) =>
      rc1 = rc2 /\ (rc1 = NGX_OK /\ h1 = h2 \/ rc1 = NGX_ERROR /\ h1 = Huff s e1 d /\ h2 = Huff s e2 d)
  | Fault, Fault | NoFuel, NoFuel => True
  | _, _ => False
  end.
Proof.
  unfold ngx_http_huff_decode_bits. cbn [hf_state hf_dst].
  destruct (ngx_http_huff_decode_codes !! Z.to_nat s) as [row|]; [|done].
  destruct (row !! Z.to_nat b) as [e|]; [|done]. destruct (hd_next e =? s); split; auto.
Qed.

Lemma huff_decode_pieces state a b dst last :
  b <> [] ->
  ngx_http_huff_decode state (a ++ b) dst last
  = ('(rc, state, dst) ← ngx_http_huff_decode state a dst false;
     if negb (rc =? NGX_OK) then Ok (rc, state, dst) else ngx_http_huff_decode state b dst last).
Proof.
  intros Hb. unfold ngx_http_huff_decode. rewrite decode_loop_app.
  destruct (huff_decode_loop a (Huff state 1 dst)) as [[rc h]| |]; try done. rewrite !Ok_bind.
  destruct (negb (rc =? NGX_OK)); [done|]. change (negb (NGX_OK =? NGX_OK)) with false. cbn iota.
  destruct h as [s e d]. cbn [hf_state hf_dst]. destruct b as [|c b]; [done|]. cbn [huff_decode_loop].
  pose proof (decode_bits_ending s e 1 d (Z.shiftr c 4)) as H.
  destruct (ngx_http_huff_decode_bits (Huff s e d) (Z.shiftr c 4)) as [[rc1 h1]| |],
    (ngx_http_huff_decode_bits (Huff s 1 d) (Z.shiftr c 4)) as [[rc2 h2]| |]; try done. rewrite !Ok_bind.
  destruct H as [<- [[-> ->]|(-> & -> & ->)]]; done.
Qed.

(** C16: the Huffman decoder accepts a text exactly if it consists of the codes of some
    characters, as the encoder has them, with less than 30 ones behind them, and then
    writes these characters; on every other text it returns [NGX_ERROR]. It never writes
    more than 8 characters for each 5 bytes, which is the room its callers give it, and it
    may be called on two pieces of a text one after the other, if the last one is not
    empty. *)
Theorem huff_decode_exact src front rest :
  bytes src -> src = front ++ rest -> rest <> [] ->
  exists rc state l, ngx_http_huff_decode 0 src [] true = Ok (rc, state, l) /\
    zlen l <= zlen src * 8 / 5 /\
    (rc = NGX_OK /\ state = 0 \/ rc = NGX_ERROR) /\
    (rc = NGX_OK <-> exists m k, bytes m /\ (k < 30)%nat /\ bits_of src = huff_bits ngx_http_huff_encode_table m ++ replicate k true) /\
    (forall m k, bytes m -> (k < 30)%nat -> bits_of src = huff_bits ngx_http_huff_encode_table m ++ replicate k true -> l = m) /\
    ('(rc, state, dst) ← ngx_http_huff_decode 0 front [] false;
     if negb (rc =? NGX_OK) then Ok (rc, state, dst) else ngx_http_huff_decode state rest dst true) = Ok (rc, state, l).
Proof.
  intros Hs -> Hr. destruct (huff_decode_spec (front ++ rest) Hs) as (rc & state & l & Hd & Hlen & _ & Hrc & Hiff & Hm).
  exists rc, state, l. split; [done|]. split; [apply Z.div_le_lower_bound; lia|]. split; [done|]. split; [done|].
  split; [done|]. by rewrite <- huff_decode_pieces.
Qed.

Lemma huff_decode_exact_witness :
  exists state l, ngx_http_huff_decode 0 ([0xf1; 0xe3; 0xc2] ++ [0xe5; 0xf2; 0x3a; 0x6b; 0xa0; 0xab; 0x90; 0xf4; 0xff]) [] true
    = Ok (NGX_OK, state, l) /\ l = str "www.example.com".
Proof.
  destruct (huff_decode_exact ([0xf1; 0xe3; 0xc2] ++ [0xe5; 0xf2; 0x3a; 0x6b; 0xa0; 0xab; 0x90; 0xf4; 0xff])
    [0xf1; 0xe3; 0xc2] [0xe5; 0xf2; 0x3a; 0x6b; 0xa0; 0xab; 0x90; 0xf4; 0xff]) as (rc & state & l & H1 & _ & _ & H2 & H3 & _).
  - repeat (apply Forall_cons_2; [lia|]). by apply Forall_nil_2.
  - reflexivity.
  - discriminate.
  - assert (bytes (str "www.example.com")) as Hb by (vm_compute; repeat constructor; intros [=]).
    assert (rc = NGX_OK) as -> by (apply H2; exists (str "www.example.com"), 7%nat; split; [exact Hb|split; [lia|vm_compute; reflexivity]]).
    exists state, l. split; [exact H1|]. apply (H3 (str "www.example.com") 7%nat Hb); [lia|vm_compute; reflexivity].
Defined.
