(* ===== verification/Hpack.v ===== *)
(** * HPACK integers and strings

    How HTTP/2 writes the numbers and strings of a header block
    ([http/v2/ngx_http_v2_encode.c]) and reads the numbers ([http/v2/ngx_http_v2.c]). *)

From S2P Require Import Prelude Huff.

Definition NGX_HTTP_V2_ENCODE_RAW : Z := 0.
Definition NGX_HTTP_V2_ENCODE_HUFF : Z := 0x80.
Definition NGX_HTTP_V2_INT_OCTETS : Z := 4.
Definition NGX_HTTP_V2_MAX_FIELD : Z := 127 + Z.shiftl 1 ((NGX_HTTP_V2_INT_OCTETS - 1) * 7) - 1.

Definition ngx_http_v2_prefix (bits : Z) : Z := Z.shiftl 1 bits - 1.

(** [while (value >= 128) ...], and the last byte; 10 rounds are enough for 64 bits. *)
Fixpoint write_int_loop (rounds : nat) (value : Z) : res (list Z) :=
  if value <? 128 then Ok [u8 value]
  else
    match rounds with
    | O => NoFuel
    | S rounds => l ← write_int_loop rounds (value / 128); Ok (u8 (value mod 128 + 128) :: l)
    end.

(** [first] is what stands at [pos] already. *)
Definition ngx_http_v2_write_int (first prefix value : Z) : res (list Z) :=
  if value <? prefix then Ok [u8 (Z.lor first value)]
  else l ← write_int_loop 10 (value - prefix); Ok (u8 (Z.lor first prefix) :: l).

Definition strlow (c : Z) : Z := if between "A"%chr "Z"%chr c then Z.lor c 0x20 else c.

Definition ngx_http_v2_string_encode (src : list Z) (lower : bool) : res (list Z) :=
  tmp ← ngx_http_huff_encode src lower;
  if 0 <? zlen tmp then
    l ← ngx_http_v2_write_int NGX_HTTP_V2_ENCODE_HUFF (ngx_http_v2_prefix 7) (zlen tmp);
    Ok (l ++ tmp)
  else
    l ← ngx_http_v2_write_int NGX_HTTP_V2_ENCODE_RAW (ngx_http_v2_prefix 7) (zlen src);
    Ok (l ++ if lower then map strlow src else src).

(** The loop of [ngx_http_v2_parse_int]: [p] is what may be read, [used] the bytes that
    have been. The number and how many bytes it takes, or nothing at the end of [p]. *)
Fixpoint parse_int_loop (p : list Z) (value shift used : Z) : option (Z * Z) :=
  match p with
  | [] => None
  | octet :: p =>
      let used := used + 1 in
      let value := u64 (value + u64 (Z.shiftl (Z.land octet 0x7f) shift)) in
      if octet <? 128 then Some (value, used) else parse_int_loop p value (shift + 7) used
  end.

(** [length] is [h2c->state.length], what is left of the frame; [p] are the bytes from
    [*pos] to [end]. The number or an error code, and the two as they are set. *)
Definition ngx_http_v2_parse_int (length : Z) (p : list Z) (prefix : Z) : res (Z * Z * list Z) :=
  match p with
  | [] => Fault
  | c :: rest =>
      let value := Z.land c prefix in
      if negb (value =? prefix) then
        Ok (if length =? 0 then (NGX_ERROR, length, p) else (value, length - 1, rest))
      else
        let start := take (Z.to_nat NGX_HTTP_V2_INT_OCTETS) p in
        match parse_int_loop (drop 1 start) value 0 1 with
        | Some (value, used) =>
            Ok (if length <? used then (NGX_ERROR, length, p)
                else (value, length - used, drop (Z.to_nat used) p))
        | None =>
            Ok (if length <=? zlen start then NGX_ERROR
                else if zlen start =? NGX_HTTP_V2_INT_OCTETS then NGX_DECLINED
                else NGX_AGAIN, length, p)
        end
  end.

Example int_example :
  ngx_http_v2_write_int 0 (ngx_http_v2_prefix 5) 1337 = Ok [31; 154; 10] /\
  ngx_http_v2_parse_int 5 [31; 154; 10; 7] (ngx_http_v2_prefix 5) = Ok (1337, 2, [7]).
Proof. split; reflexivity. Qed.
