(* ===== verification/HpackSpec.v ===== *)
(** * What is read of HPACK integers and strings

    The reader takes back the numbers and the strings that the writer writes. *)

From S2P Require Import Prelude HuffTables Huff HuffBits HuffDecode Hpack.

(** ** Integers *)

Lemma shiftl_mul octet k : 0 <= k -> Z.shiftl (Z.land octet 0x7f) k = octet mod 128 * 2 ^ k.
Proof. intros Hk. change 0x7f with (Z.ones 7). by rewrite Z.land_ones, Z.shiftl_mul_pow2 by lia. Qed.

(** One octet of a number. *)
Lemma parse_octet octet p value shift used :
  0 <= octet < 256 -> 0 <= value < 4294967296 -> 0 <= shift <= 14 ->
  parse_int_loop (octet :: p) value shift used
  = let value := value + octet mod 128 * 2 ^ shift in
    if octet <? 128 then Some (value, used + 1) else parse_int_loop p value (shift + 7) (used + 1).
Proof.
  intros Ho Hv Hs. cbn [parse_int_loop]. rewrite shiftl_mul by lia.
  assert (0 <= octet mod 128 < 128) by (apply Z.mod_pos_bound; lia).
  assert (1 <= 2 ^ shift <= 2 ^ 14) as Hp by (split; [apply (Z.pow_le_mono_r 2 0); lia|apply Z.pow_le_mono_r; lia]).
  change (2 ^ 14) with 16384 in Hp.
  assert (0 <= octet mod 128 * 2 ^ shift <= 127 * 16384) by nia.
  by rewrite !u64_id by (rewrite ?u64_id; lia).
Qed.

Lemma write_loop_total r v :
  0 <= v < 128 ^ (Z.of_nat r + 1) ->
  exists l, write_int_loop r v = Ok l /\ l <> [] /\ bytes l /\ zlen l <= Z.of_nat r + 1.
Proof.
  revert v. induction r as [|r IH]; intros v Hv; cbn [write_int_loop].
  - change (128 ^ (Z.of_nat 0 + 1)) with 128 in Hv. destruct (Z.ltb_spec v 128); [|lia].
    eexists. split; [done|]. split; [done|]. split; [|done]. apply Forall_cons_2; [by apply Z.mod_pos_bound|by apply Forall_nil_2].
  - destruct (Z.ltb_spec v 128).
    + eexists. split; [done|]. split; [done|]. split; [apply Forall_cons_2; [by apply Z.mod_pos_bound|by apply Forall_nil_2]|].
      change (zlen [u8 v]) with 1. lia.
    + destruct (IH (v / 128)) as (l & -> & Hl & Hb & Hlen).
      { replace (Z.of_nat (S r) + 1) with (Z.succ (Z.of_nat r + 1)) in Hv by lia. rewrite Z.pow_succ_r in Hv by lia.
        split; [apply Z.div_pos; lia|apply Z.div_lt_upper_bound; lia]. }
      rewrite Ok_bind. eexists. split; [done|]. split; [done|].
      split; [apply Forall_cons_2; [by apply Z.mod_pos_bound|done]|]. rewrite zlen_cons. lia.
Qed.

Lemma write_loop_more r v l : write_int_loop r v = Ok l -> write_int_loop (S r) v = Ok l.
Proof.
  revert v l. induction r as [|r IH]; intros v l H.
  - cbn [write_int_loop] in *. by destruct (v <? 128).
  - change (write_int_loop (S (S r)) v) with
      (if v <? 128 then Ok [u8 v] else l ← write_int_loop (S r) (v / 128); Ok (u8 (v mod 128 + 128) :: l)).
    cbn [write_int_loop] in H. destruct (v <? 128); [done|].
    apply bind_Ok in H as (l' & Hl' & H). by rewrite (IH _ _ Hl').
Qed.

(** What is written of a number, as far as the reader looks. *)
Inductive varint (v : Z) : list Z -> Prop :=
| Varint_1 : 0 <= v < 128 -> varint v [v]
| Varint_2 : 128 <= v < 16384 -> varint v [v mod 128 + 128; v / 128]
| Varint_3 : 16384 <= v < 2097152 -> varint v [v mod 128 + 128; v / 128 mod 128 + 128; v / 16384]
| Varint_more a b c l : 2097152 <= v -> 128 <= a < 256 -> 128 <= b < 256 -> 128 <= c < 256 -> l <> [] ->
    varint v (a :: b :: c :: l).

Lemma write_loop_varint v :
  0 <= v < 18446744073709551616 ->
  exists l, write_int_loop 10 v = Ok l /\ bytes l /\ zlen l <= 10 /\ varint v l.
Proof.
  intros Hv.
  assert (forall x, 0 <= x -> u8 (x mod 128 + 128) = x mod 128 + 128) as Hu.
  { intros x Hx. pose proof (Z.mod_pos_bound x 128). unfold u8. rewrite Z.mod_small by lia. done. }
  assert (forall x, 0 <= x < 128 -> u8 x = x) as Hs by (intros x Hx; unfold u8; rewrite Z.mod_small by lia; done).
  destruct (write_loop_total 9 v) as (l & Hl & _ & Hb & Hlen); [change (128 ^ (Z.of_nat 9 + 1)) with 1180591620717411303424; lia|].
  assert (write_int_loop 10 v = Ok l) as H10.
  { by apply write_loop_more. }
  exists l. split; [done|]. split; [done|]. split; [done|]. clear Hl Hb Hlen.
  change 10%nat with (S (S (S 7))) in H10. remember 7%nat as r eqn:Er. cbn [write_int_loop] in H10.
  pose proof (Z.mod_pos_bound v 128). pose proof (Z.mod_pos_bound (v / 128) 128).
  rewrite Z.div_div in H10 by lia. change (128 * 128) with 16384 in H10.
  assert (v / 128 < 128 <-> v < 16384) by (clear; Z.to_euclidean_division_equations; lia).
  assert (v / 16384 < 128 <-> v < 2097152) by (clear; Z.to_euclidean_division_equations; lia).
  assert (0 <= v / 128 /\ 0 <= v / 16384) by (split; apply Z.div_pos; lia).
  destruct (Z.ltb_spec v 128); [injection H10 as <-; rewrite Hs by lia; apply Varint_1; lia|].
  destruct (Z.ltb_spec (v / 128) 128).
  { injection H10 as <-. rewrite (Hs (v / 128)), Hu by lia. apply Varint_2. lia. }
  destruct (Z.ltb_spec (v / 16384) 128).
  { injection H10 as <-. rewrite (Hs (v / 16384)), !Hu by lia. apply Varint_3. lia. }
  destruct (write_loop_total r (v / 16384 / 128)) as (l' & Hl' & Hne & _).
  { subst r. rewrite Z.div_div by lia. split; [apply Z.div_pos; lia|]. apply Z.div_lt_upper_bound; [lia|].
    change (16384 * 128 * 128 ^ (Z.of_nat 7 + 1)) with 151115727451828646838272. lia. }
  rewrite Hl' in H10. injection H10 as <-. rewrite !Hu by lia.
  pose proof (Z.mod_pos_bound (v / 16384) 128). apply Varint_more; (done || lia).
Qed.

(** Reading back: numbers that take three octets behind the first at most. *)
Lemma varint_read v l rest value :
  varint v l -> 0 <= value < 256 ->
  parse_int_loop (take 3 (l ++ rest)) value 0 1
  = if v <? 2097152 then Some (value + v, 1 + zlen l) else None.
Proof.
  intros Hl Hv. pose proof (Z.mod_pos_bound v 128 ltac:(lia)) as H1.
  pose proof (Z.mod_pos_bound (v / 128) 128 ltac:(lia)) as H2.
  assert (forall x, 0 <= x < 128 -> (x + 128) mod 128 = x) as Hm.
  { intros x Hx. rewrite <- (Z.mul_1_l 128) at 1. rewrite Z.mod_add, Z.mod_small by lia. done. }
  destruct Hl as [Hr|Hr|Hr|a b c l Hr Ha Hb Hc Hl]; cbn [app take]; destruct (Z.ltb_spec v 2097152); try lia.
  - rewrite parse_octet by lia. cbv zeta. destruct (Z.ltb_spec v 128); [|lia].
    rewrite Z.mod_small by lia. change (2 ^ 0) with 1. f_equal. f_equal. lia.
  - rewrite parse_octet by lia. cbv zeta. destruct (Z.ltb_spec (v mod 128 + 128) 128); [lia|].
    rewrite Hm by lia. change (2 ^ 0) with 1.
    assert (0 <= v / 128 < 128) by (split; [apply Z.div_pos; lia|apply Z.div_lt_upper_bound; lia]).
    rewrite parse_octet by lia. cbv zeta. destruct (Z.ltb_spec (v / 128) 128); [|lia].
    rewrite (Z.mod_small (v / 128)) by lia. change (2 ^ (0 + 7)) with 128. f_equal. f_equal.
    clear; Z.to_euclidean_division_equations; lia.
  - rewrite parse_octet by lia. cbv zeta. destruct (Z.ltb_spec (v mod 128 + 128) 128); [lia|].
    rewrite Hm by lia. change (2 ^ 0) with 1.
    rewrite parse_octet by lia. cbv zeta. destruct (Z.ltb_spec (v / 128 mod 128 + 128) 128); [lia|].
    rewrite Hm by lia. change (2 ^ (0 + 7)) with 128.
    assert (0 <= v / 16384 < 128) by (split; [apply Z.div_pos; lia|apply Z.div_lt_upper_bound; lia]).
    rewrite parse_octet by lia. cbv zeta. destruct (Z.ltb_spec (v / 16384) 128); [|lia].
    rewrite (Z.mod_small (v / 16384)) by lia. change (2 ^ (0 + 7 + 7)) with 16384. f_equal. f_equal.
    clear; Z.to_euclidean_division_equations; lia.
  - rewrite parse_octet by lia. cbv zeta. destruct (Z.ltb_spec a 128); [lia|].
    assert (forall x, 0 <= x mod 128 < 128) as Hx by (intros x; apply Z.mod_pos_bound; lia).
    pose proof (Hx a). pose proof (Hx b). change (2 ^ 0) with 1. rewrite parse_octet by lia. cbv zeta. destruct (Z.ltb_spec b 128); [lia|].
    change (2 ^ (0 + 7)) with 128. rewrite parse_octet by lia. cbv zeta. destruct (Z.ltb_spec c 128); [lia|]. done.
Qed.

(** The beginning of a number, read again when more has come. *)
Lemma varint_short v l p q value :
  varint v l -> l = p ++ q -> q <> [] -> 0 <= value < 256 -> parse_int_loop (take 3 p) value 0 1 = None.
Proof.
  intros Hl E Hq Hv. assert (Forall (fun x => 128 <= x < 256) (take 3 p)) as Hp.
  { pose proof (Z.mod_pos_bound v 128 ltac:(lia)). pose proof (Z.mod_pos_bound (v / 128) 128 ltac:(lia)).
    destruct Hl as [Hr|Hr|Hr|a b c l Hr Ha Hb Hc Hl];
      (destruct p as [|x [|y [|z p]]]; cbn [app] in E; simplify_eq; cbn [take];
       repeat (apply Forall_cons_2; [lia|]); try by apply Forall_nil_2; try done).
    all: destruct p, q; done. }
  clear E Hl Hq. remember (take 3 p) as m eqn:Em.
  assert (length m <= 3)%nat as Hm by (subst m; rewrite length_take; lia). clear Em p q.
  assert (forall x, 0 <= x mod 128 < 128) as Hx by (intros x; apply Z.mod_pos_bound; lia).
  destruct Hp as [|a m Ha Hp]; [done|]. rewrite parse_octet by lia. cbv zeta. destruct (Z.ltb_spec a 128); [lia|].
  change (2 ^ 0) with 1. pose proof (Hx a).
  destruct Hp as [|b m Hb Hp]; [done|]. rewrite parse_octet by lia. cbv zeta. destruct (Z.ltb_spec b 128); [lia|].
  change (2 ^ (0 + 7)) with 128. pose proof (Hx b).
  destruct Hp as [|c m Hc Hp]; [done|]. rewrite parse_octet by lia. cbv zeta. destruct (Z.ltb_spec c 128); [lia|].
  destruct Hp; [done|]. cbn [length] in Hm. lia.
Qed.

(** ** The first octet *)

Lemma prefix_value k : 1 <= k <= 7 -> ngx_http_v2_prefix k = Z.ones k /\ 0 < Z.ones k < 128 + 1.
Proof.
  intros Hk. unfold ngx_http_v2_prefix. rewrite Z.ones_equiv, Z.shiftl_mul_pow2, Z.mul_1_l by lia.
  assert (2 ^ 1 <= 2 ^ k <= 2 ^ 7) as Hp by (split; apply Z.pow_le_mono_r; lia).
  change (2 ^ 1) with 2 in Hp. change (2 ^ 7) with 128 in Hp. lia.
Qed.

(** Flags above the prefix and a number in it. *)
Lemma first_octet first k x :
  is_byte first -> 1 <= k <= 7 -> Z.land first (Z.ones k) = 0 -> 0 <= x <= Z.ones k ->
  let c := u8 (Z.lor first x) in is_byte c /\ Z.land c (Z.ones k) = x /\ Z.shiftr c k = Z.shiftr first k.
Proof.
  intros Hf Hk H0 Hx.
  assert (0 <= x < 2 ^ k) as Hxk by (rewrite Z.ones_equiv in Hx; lia).
  assert (first = Z.shiftl (Z.shiftr first k) k) as Ef.
  { rewrite Z.land_ones in H0 by lia. rewrite Z.shiftl_mul_pow2, Z.shiftr_div_pow2 by lia.
    pose proof (Z.div_mod first (2 ^ k)). lia. }
  assert (Z.lor first x = first + x) as El.
  { rewrite Ef at 1. rewrite shiftl_lor_add by (done || lia). by rewrite <- Z.shiftl_mul_pow2, <- Ef by lia. }
  assert (u8 (Z.lor first x) = Z.lor first x) as Eu.
  { unfold u8. apply Z.mod_small. split; [apply Z.lor_nonneg; lia|]. rewrite El, Ef, Z.shiftl_mul_pow2, Z.shiftr_div_pow2 by lia.
    assert (first / 2 ^ k <= 255 / 2 ^ k) by (apply Z.div_le_mono; lia).
    assert (255 / 2 ^ k * 2 ^ k + 2 ^ k <= 256).
    { assert (k = 1 \/ k = 2 \/ k = 3 \/ k = 4 \/ k = 5 \/ k = 6 \/ k = 7) as Hks by lia.
      destruct Hks as [->|[->|[->|[->|[->|[->| ->]]]]]]; apply Z.leb_le; reflexivity. }
    nia. }
  cbv zeta. split; [apply u8_byte|]. rewrite Eu. split.
  - rewrite Z.land_lor_distr_l, H0, Z.lor_0_l. rewrite Z.land_ones by lia. by apply Z.mod_small.
  - rewrite Z.shiftr_lor. rewrite (Z.shiftr_div_pow2 x), Z.div_small by lia. by rewrite Z.lor_0_r.
Qed.

(** What [ngx_http_v2_write_int] writes, and what is read of it. *)
Lemma write_int_read k first value :
  1 <= k <= 7 -> is_byte first -> Z.land first (Z.ones k) = 0 -> 0 <= value < 18446744073709551616 ->
  exists c l, ngx_http_v2_write_int first (ngx_http_v2_prefix k) value = Ok (c :: l) /\ bytes (c :: l) /\
    Z.shiftr c k = Z.shiftr first k /\ zlen l <= 10 /\
    (forall length rest, 0 <= length ->
      ngx_http_v2_parse_int length (c :: l ++ rest) (ngx_http_v2_prefix k)
      = Ok (if value <? Z.ones k + 2097152 then
              if length <? 1 + zlen l then (NGX_ERROR, length, c :: l ++ rest) else (value, length - (1 + zlen l), rest)
            else (if length <=? 4 then NGX_ERROR else NGX_DECLINED, length, c :: l ++ rest))) /\
    (forall length p q, l = p ++ q -> q <> [] -> value < Z.ones k + 2097152 ->
      ngx_http_v2_parse_int length (c :: p) (ngx_http_v2_prefix k)
      = Ok (if length <=? 1 + zlen p then NGX_ERROR else NGX_AGAIN, length, c :: p)).
Proof.
  intros Hk Hf H0 Hv. destruct (prefix_value k Hk) as [Hpre Hones]. unfold ngx_http_v2_write_int. rewrite Hpre.
  destruct (Z.ltb_spec value (Z.ones k)) as [Hlt|Hge].
  - destruct (first_octet first k value Hf Hk H0 ltac:(lia)) as (Hb & Hand & Hshift).
    eexists _, []. split; [done|]. split; [by apply Forall_cons_2|]. split; [done|]. split; [done|].
    split; [|by intros length [|? ?] q E Hq].
    intros length rest Hlen. unfold ngx_http_v2_parse_int. rewrite Hand.
    destruct (Z.eqb_spec value (Z.ones k)); [lia|]. cbn [negb app].
    destruct (Z.ltb_spec value (Z.ones k + 2097152)); [|lia]. change (1 + zlen (@nil Z)) with 1.
    destruct (Z.eqb_spec length 0), (Z.ltb_spec length 1); (lia || done).
  - destruct (first_octet first k (Z.ones k) Hf Hk H0 ltac:(lia)) as (Hb & Hand & Hshift).
    destruct (write_loop_varint (value - Z.ones k)) as (l & -> & Hlb & Hl10 & Hl); [lia|]. rewrite Ok_bind.
    eexists _, l. split; [done|]. split; [by apply Forall_cons_2|]. split; [done|]. split; [done|]. split.
    + intros length rest Hlen. unfold ngx_http_v2_parse_int. rewrite Hand, Z.eqb_refl. cbn [negb]. cbv zeta.
      change (take (Z.to_nat NGX_HTTP_V2_INT_OCTETS) (?c :: ?t)) with (c :: take 3 t).
      change (drop 1 (?c :: ?t)) with (drop 0 t). rewrite drop_0.
      rewrite (varint_read (value - Z.ones k)) by (done || lia).
      destruct (Z.ltb_spec (value - Z.ones k) 2097152), (Z.ltb_spec value (Z.ones k + 2097152)); try lia.
      * replace (Z.ones k + (value - Z.ones k)) with value by lia.
        replace (Z.to_nat (1 + zlen l)) with (S (Datatypes.length l)) by (unfold zlen; lia). cbn [drop].
        by rewrite drop_app_length.
      * destruct Hl as [|? |?|a b c l Hr Ha Hbb Hc Hl]; try lia. cbn [app take].
        rewrite zlen_cons. change (zlen [a; b; c]) with 3. change (1 + 3 =? NGX_HTTP_V2_INT_OCTETS) with true. done.
    + intros length p q E Hq Hsmall. unfold ngx_http_v2_parse_int. rewrite Hand, Z.eqb_refl. cbn [negb]. cbv zeta.
      change (take (Z.to_nat NGX_HTTP_V2_INT_OCTETS) (?c :: ?t)) with (c :: take 3 t).
      change (drop 1 (?c :: ?t)) with (drop 0 t). rewrite drop_0.
      rewrite (varint_short (value - Z.ones k) l p q) by (done || lia). rewrite zlen_cons.
      assert (take 3 p = p /\ zlen p <= 2) as [-> Hp].
      { destruct Hl as [|?|?|a b c l Hr Ha Hbb Hc Hl]; try lia;
          (destruct p as [|? [|? [|? p]]]; cbn [app] in E; simplify_eq; try done; destruct p, q; done). }
      destruct (Z.leb_spec length (1 + zlen p)); [done|].
      unfold NGX_HTTP_V2_INT_OCTETS. destruct (Z.eqb_spec (1 + zlen p) 4); [lia|done].
Qed.

(** ** Strings *)

Lemma lower_codes :
  forallb (fun c => bool_decide (code_bits ngx_http_huff_encode_table_lc (Z.of_nat c) = cbits (strlow (Z.of_nat c))) &&
    (0 <=? strlow (Z.of_nat c)) && (strlow (Z.of_nat c) <? 256)) (seq 0 256) = true.
Proof. vm_compute. reflexivity. Qed.

Lemma lower_code c :
  is_byte c -> code_bits ngx_http_huff_encode_table_lc c = cbits (strlow c) /\ is_byte (strlow c).
Proof.
  intros Hc. pose proof lower_codes as H. rewrite forallb_forall in H. specialize (H (Z.to_nat c)).
  rewrite in_seq in H. specialize (H ltac:(lia)). rewrite Z2Nat.id, !andb_true_iff in H by lia.
  destruct H as [[H H1] H2]. apply bool_decide_eq_true in H. split; [done|lia].
Qed.

Definition lowered (lower : bool) (src : list Z) : list Z := if lower then map strlow src else src.

Lemma huff_bits_lowered (lower : bool) src :
  bytes src ->
  huff_bits (if lower then ngx_http_huff_encode_table_lc else ngx_http_huff_encode_table) src
  = huff_bits ctable (lowered lower src) /\ bytes (lowered lower src).
Proof.
  destruct lower; [|done]. induction 1 as [|c src Hc _ [IH1 IH2]]; [done|]. cbn [lowered map] in *.
  destruct (lower_code c Hc) as [E Hb]. rewrite !huff_bits_cons, IH1, E. split; [done|by apply Forall_cons_2].
Qed.

(** The text of a field: its length, and whether it is encoded, is in front of it. *)
Definition field_text (huff : Z) (data : list Z) : option (list Z) :=
  if huff =? 0 then Some data
  else match ngx_http_huff_decode 0 data [] true with Ok (rc, _, l) => if rc =? NGX_OK then Some l else None | _ => None end.

Lemma string_encode_read src (lower : bool) :
  bytes src -> zlen src <= NGX_HTTP_V2_MAX_FIELD ->
  exists c l data, ngx_http_v2_string_encode src lower = Ok (c :: l ++ data) /\ bytes (c :: l ++ data) /\
    zlen data <= zlen src /\ zlen l <= 10 /\ field_text (Z.shiftr c 7) data = Some (lowered lower src) /\
    forall length rest, 1 + zlen l <= length ->
      ngx_http_v2_parse_int length (c :: l ++ data ++ rest) (ngx_http_v2_prefix 7)
      = Ok (zlen data, length - (1 + zlen l), data ++ rest).
Proof.
  intros Hs Hmax. change NGX_HTTP_V2_MAX_FIELD with 2097278 in Hmax. unfold ngx_http_v2_string_encode.
  destruct (huff_encode_spec lower src Hs) as (out & Henc & Hout). rewrite Henc, Ok_bind. cbv zeta in Hout.
  destruct (huff_bits_lowered lower src Hs) as [E Hb]. rewrite E in Hout.
  pose proof (zlen_nonneg src). pose proof (zlen_nonneg out).
  destruct (Z.ltb_spec 0 (zlen out)) as [Hpos|Hpos].
  - destruct Hout as [[-> _]|(Hlen & k & Hk & Hbits)]; [done|].
    destruct (write_int_read 7 NGX_HTTP_V2_ENCODE_HUFF (zlen out)) as (c & l & -> & Hcb & Hc & Hl & Hread & _);
      [lia|done|done|lia|]. rewrite Ok_bind.
    assert (bytes out) as Hob by (by eapply huff_encode_bytes).
    exists c, l, out. split; [done|]. split; [rewrite app_comm_cons; by apply Forall_app|]. split; [lia|]. split; [done|]. split.
    + unfold field_text. rewrite Hc. change (Z.shiftr NGX_HTTP_V2_ENCODE_HUFF 7 =? 0) with false. cbn iota.
      destruct (huff_decode_spec out Hob) as (rc & st & m & -> & _ & _ & _ & Hrc & Hm).
      assert (exists m k, bytes m /\ (k < 30)%nat /\ bits_of out = huff_bits ctable m ++ replicate k true) as Hex.
      { exists (lowered lower src), k. split; [done|]. split; [lia|done]. }
      apply Hrc in Hex as ->. change (NGX_OK =? NGX_OK) with true. cbn iota. f_equal. apply (Hm _ k); (done || lia).
    + intros length rest Hlength. pose proof (zlen_nonneg l). rewrite Hread by lia. change (Z.ones 7) with 127.
      destruct (Z.ltb_spec (zlen out) (127 + 2097152)); [|lia]. destruct (Z.ltb_spec length (1 + zlen l)); [lia|done].
  - destruct (write_int_read 7 NGX_HTTP_V2_ENCODE_RAW (zlen src)) as (c & l & -> & Hcb & Hc & Hl & Hread & _);
      [lia|done|done|lia|]. rewrite Ok_bind.
    assert (zlen (lowered lower src) = zlen src) as Hz by (unfold lowered, zlen; destruct lower; by rewrite ?length_map).
    exists c, l, (lowered lower src). split; [done|]. split; [rewrite app_comm_cons; by apply Forall_app|]. split; [lia|].
    split; [done|]. split; [unfold field_text; by rewrite Hc|].
    intros length rest Hlength. pose proof (zlen_nonneg l). rewrite Hread, Hz by lia. change (Z.ones 7) with 127.
    destruct (Z.ltb_spec (zlen src) (127 + 2097152)); [|lia]. destruct (Z.ltb_spec length (1 + zlen l)); [lia|done].
Qed.

(** What [ngx_http_v2_write_int] writes of any 64-bit number [ngx_http_v2_parse_int]
    reads back if it takes at most four octets and fits into the frame, without touching
    what follows or the flags in the first octet; a longer one is declined, and of a part
    it asks for more. What [ngx_http_v2_string_encode] writes of a text, which is never
    longer than [src] and the length in front of it, is read by the same and by the
    Huffman decoder as that text, in lower case if that was asked for. *)
Theorem hpack_string_roundtrip k first value src (lower : bool) :
  1 <= k <= 7 -> is_byte first -> Z.land first (Z.ones k) = 0 -> 0 <= value < 18446744073709551616 ->
  bytes src -> zlen src <= NGX_HTTP_V2_MAX_FIELD ->
  (exists c l, ngx_http_v2_write_int first (ngx_http_v2_prefix k) value = Ok (c :: l) /\
    Z.shiftr c k = Z.shiftr first k /\
    (forall length rest, 0 <= length ->
      ngx_http_v2_parse_int length (c :: l ++ rest) (ngx_http_v2_prefix k)
      = Ok (if value <? Z.ones k + 2097152 then
              if length <? 1 + zlen l then (NGX_ERROR, length, c :: l ++ rest) else (value, length - (1 + zlen l), rest)
            else (if length <=? 4 then NGX_ERROR else NGX_DECLINED, length, c :: l ++ rest))) /\
    (forall length p q, l = p ++ q -> q <> [] -> value < Z.ones k + 2097152 ->
      ngx_http_v2_parse_int length (c :: p) (ngx_http_v2_prefix k)
      = Ok (if length <=? 1 + zlen p then NGX_ERROR else NGX_AGAIN, length, c :: p))) /\
  (exists c l data, ngx_http_v2_string_encode src lower = Ok (c :: l ++ data) /\
    zlen data <= zlen src /\ field_text (Z.shiftr c 7) data = Some (lowered lower src) /\
    forall length rest, 1 + zlen l <= length ->
      ngx_http_v2_parse_int length (c :: l ++ data ++ rest) (ngx_http_v2_prefix 7)
      = Ok (zlen data, length - (1 + zlen l), data ++ rest)).
Proof.
  intros Hk Hf H0 Hv Hs Hmax. split.
  - destruct (write_int_read k first value Hk Hf H0 Hv) as (c & l & Hw & _ & Hc & _ & Hread & Hshort). eauto 10.
  - destruct (string_encode_read src lower Hs Hmax) as (c & l & data & Hw & _ & Hd & _ & Ht & Hread). eauto 10.
Qed.

Lemma hpack_string_roundtrip_witness :
  exists c l data, ngx_http_v2_string_encode (str "Content-Type") true = Ok (c :: l ++ data) /\
    field_text (Z.shiftr c 7) data = Some (str "content-type").
Proof.
  destruct (hpack_string_roundtrip 5 0x20 1337 (str "Content-Type") true) as (_ & c & l & data & H1 & _ & H2 & _).
  - lia.
  - lia.
  - reflexivity.
  - lia.
  - vm_compute. repeat constructor; intros [=].
  - vm_compute. intros [=].
  - exists c, l, data. split; [exact H1|exact H2].
Defined.
