(* ===== verification/HpackTable.v ===== *)
(** * The HPACK tables

    [http/v2/ngx_http_v2_table.c]: the static table, and the dynamic table of a
    connection. The names and values of the dynamic table lie one behind the other in a
    ring of 4096 bytes; its entries are objects that an array of pointers, used as a ring
    too, refers to. An entry that has been dropped is used again for a new one, so the
    same pointer may stand in the array twice. *)

From S2P Require Import Prelude.

Definition NGX_HTTP_V2_TABLE_SIZE : Z := 4096.

Definition ngx_http_v2_static_table : list (list Z * list Z) := [
  (str ":authority", str "");
  (str ":method", str "GET");
  (str ":method", str "POST");
  (str ":path", str "/");
  (str ":path", str "/index.html");
  (str ":scheme", str "http");
  (str ":scheme", str "https");
  (str ":status", str "200");
  (str ":status", str "204");
  (str ":status", str "206");
  (str ":status", str "304");
  (str ":status", str "400");
  (str ":status", str "404");
  (str ":status", str "500");
  (str "accept-charset", str "");
  (str "accept-encoding", str "gzip, deflate");
  (str "accept-language", str "");
  (str "accept-ranges", str "");
  (str "accept", str "");
  (str "access-control-allow-origin", str "");
  (str "age", str "");
  (str "allow", str "");
  (str "authorization", str "");
  (str "cache-control", str "");
  (str "content-disposition", str "");
  (str "content-encoding", str "");
  (str "content-language", str "");
  (str "content-length", str "");
  (str "content-location", str "");
  (str "content-range", str "");
  (str "content-type", str "");
  (str "cookie", str "");
  (str "date", str "");
  (str "etag", str "");
  (str "expect", str "");
  (str "expires", str "");
  (str "from", str "");
  (str "host", str "");
  (str "if-match", str "");
  (str "if-modified-since", str "");
  (str "if-none-match", str "");
  (str "if-range", str "");
  (str "if-unmodified-since", str "");
  (str "last-modified", str "");
  (str "link", str "");
  (str "location", str "");
  (str "max-forwards", str "");
  (str "proxy-authenticate", str "");
  (str "proxy-authorization", str "");
  (str "range", str "");
  (str "referer", str "");
  (str "refresh", str "");
  (str "retry-after", str "");
  (str "server", str "");
  (str "set-cookie", str "");
  (str "strict-transport-security", str "");
  (str "transfer-encoding", str "");
  (str "user-agent", str "");
  (str "vary", str "");
  (str "via", str "");
  (str "www-authenticate", str "")
].

Definition NGX_HTTP_V2_STATIC_TABLE_ENTRIES : Z := zlen ngx_http_v2_static_table.

(** [ngx_http_v2_header_t]: [name.data] and [value.data] are offsets into the storage. *)
Record ngx_http_v2_header_t := Entry {
  name_len : Z;
  name_data : Z;
  value_len : Z;
  value_data : Z
}.

(** [entries] is the array of pointers, of which each is the number of an object in
    [h_objects]; [None] are pointers that nobody has written yet. *)
Record ngx_http_v2_hpack_t := Hpack {
  h_objects : list ngx_http_v2_header_t;
  h_entries : option (list (option nat));
  h_added : Z;
  h_deleted : Z;
  h_reused : Z;
  h_allocated : Z;
  h_size : Z;
  h_free : Z;
  h_storage : list Z;
  h_pos : Z
}.

#[export] Instance hpack_rebuild : Rebuild ngx_http_v2_hpack_t := fun h =>
  Hpack (h_objects h) (h_entries h) (h_added h) (h_deleted h) (h_reused h) (h_allocated h)
    (h_size h) (h_free h) (h_storage h) (h_pos h).

(** As [ngx_pcalloc] leaves it. *)
Definition hpack_zero : ngx_http_v2_hpack_t := Hpack [] None 0 0 0 0 0 0 [] 0.

(** [entries[i % allocated]] *)
Definition pointer_at (h : ngx_http_v2_hpack_t) (i : Z) : res nat :=
  match h.(h_entries) with
  | Some a =>
      if h.(h_allocated) =? 0 then Fault
      else match a !! Z.to_nat (i mod h.(h_allocated)) with Some (Some id) => Ok id | _ => Fault end
  | None => Fault
  end.

Definition object_at (h : ngx_http_v2_hpack_t) (id : nat) : res ngx_http_v2_header_t :=
  match h.(h_objects) !! id with Some e => Ok e | None => Fault end.

(** ** Looking up *)

(** The bytes at [data], which may run over the end of the storage. *)
Definition read_ring (storage : list Z) (data len : Z) : res (list Z) :=
  let rest := NGX_HTTP_V2_TABLE_SIZE - data in
  if rest <? len then
    l ← slice storage data rest;
    r ← slice storage 0 (len - rest);
    Ok (l ++ r)
  else slice storage data len.

Section memory.

(** Whether the [k]-th allocation of an operation succeeds, and what new memory holds. *)
Context (palloc : nat -> bool) (fresh : list Z).

(** The code returned and [h2c->state.header], a name and a value. *)
Definition ngx_http_v2_get_indexed_header (h : ngx_http_v2_hpack_t) (header : list Z * list Z)
    (index : Z) (name_only : bool) : res (Z * (list Z * list Z)) :=
  if index =? 0 then Ok (NGX_ERROR, header)
  else
    let index := index - 1 in
    if index <? NGX_HTTP_V2_STATIC_TABLE_ENTRIES then
      match ngx_http_v2_static_table !! Z.to_nat index with
      | Some e => Ok (NGX_OK, e)
      | None => Fault
      end
    else
      let index := index - NGX_HTTP_V2_STATIC_TABLE_ENTRIES in
      if index <? u64 (h.(h_added) - h.(h_deleted)) then
        id ← pointer_at h (u64 (h.(h_added) - index - 1));
        entry ← object_at h id;
        if negb (palloc 0) then Ok (NGX_ERROR, header)
        else
          name ← read_ring h.(h_storage) entry.(name_data) entry.(name_len);
          if name_only then Ok (NGX_OK, (name, header.2))
          else if negb (palloc 1) then Ok (NGX_ERROR, (name, header.2))
          else
            value ← read_ring h.(h_storage) entry.(value_data) entry.(value_len);
            Ok (NGX_OK, (name, value))
      else Ok (NGX_ERROR, header).

(** ** Making room *)

(** The oldest entry is dropped. *)
Definition drop_oldest (h : ngx_http_v2_hpack_t) : res ngx_http_v2_hpack_t :=
  id ← pointer_at h h.(h_deleted);
  entry ← object_at h id;
  Ok (h <| h_deleted := u64 (h.(h_deleted) + 1) |>
        <| h_free := u64 (h.(h_free) + (32 + entry.(name_len) + entry.(value_len))) |>).

(** [do { ... } while (size > h2c->hpack.free)]; as many rounds as there are entries. *)
Fixpoint account_loop (rounds : nat) (size : Z) (h : ngx_http_v2_hpack_t) : res ngx_http_v2_hpack_t :=
  match rounds with
  | O => NoFuel
  | S rounds =>
      h ← drop_oldest h;
      if h.(h_free) <? size then account_loop rounds size h else Ok h
  end.

Definition ngx_http_v2_table_account (h : ngx_http_v2_hpack_t) (size : Z) : res (Z * ngx_http_v2_hpack_t) :=
  let size := size + 32 in
  if size <=? h.(h_free) then Ok (NGX_OK, h <| h_free := h.(h_free) - size |>)
  else if h.(h_size) <? size then
    Ok (NGX_DECLINED, h <| h_deleted := h.(h_added) |> <| h_free := h.(h_size) |>)
  else
    h ← account_loop (Z.to_nat (h.(h_added) - h.(h_deleted))) size h;
    Ok (NGX_OK, h <| h_free := h.(h_free) - size |>).

(** [while (needed > (ssize_t) h2c->hpack.free)] *)
Fixpoint size_loop (rounds : nat) (needed : Z) (h : ngx_http_v2_hpack_t) : res ngx_http_v2_hpack_t :=
  if h.(h_free) <? needed then
    match rounds with
    | O => NoFuel
    | S rounds => h ← drop_oldest h; size_loop rounds needed h
    end
  else Ok h.

Definition ngx_http_v2_table_size (h : ngx_http_v2_hpack_t) (size : Z) : res (Z * ngx_http_v2_hpack_t) :=
  if NGX_HTTP_V2_TABLE_SIZE <? size then Ok (NGX_ERROR, h)
  else
    let needed := h.(h_size) - size in
    h ← size_loop (Z.to_nat (h.(h_added) - h.(h_deleted))) needed h;
    Ok (NGX_OK, h <| h_size := size |> <| h_free := u64 (h.(h_free) - needed) |>).

(** ** Adding *)

Definition table_init (h : ngx_http_v2_hpack_t) : bool * ngx_http_v2_hpack_t :=
  let h := h <| h_allocated := 64 |> <| h_size := NGX_HTTP_V2_TABLE_SIZE |> <| h_free := NGX_HTTP_V2_TABLE_SIZE |> in
  if negb (palloc 0) then (false, h)
  else
    let h := h <| h_entries := Some (replicate 64 None) |> in
    if negb (palloc 1) then (false, h <| h_storage := [] |>)
    else (true, h <| h_storage := fresh |> <| h_pos := 0 |>).

(** The object for a new entry: a dropped one, if there is any that has not been used
    again. *)
Definition take_object (h : ngx_http_v2_hpack_t) : res (option (nat * ngx_http_v2_hpack_t)) :=
  if h.(h_reused) =? h.(h_deleted) then
    if negb (palloc 2) then Ok None
    else Ok (Some (length h.(h_objects), h <| h_objects := h.(h_objects) ++ [Entry 0 0 0 0] |>))
  else
    id ← pointer_at h h.(h_reused);
    Ok (Some (id, h <| h_reused := u64 (h.(h_reused) + 1) |>)).

(** The text is copied to [pos], around the end of the storage if it does not fit in
    front of it ([avail]). *)
Definition write_ring (storage : list Z) (pos avail : Z) (l : list Z) : res (list Z * Z) :=
  if zlen l <=? avail then
    storage ← blit storage pos l;
    Ok (storage, pos + zlen l)
  else
    storage ← blit storage pos (take (Z.to_nat avail) l);
    storage ← blit storage 0 (drop (Z.to_nat avail) l);
    Ok (storage, zlen l - avail).

(** The array is full: a larger one, with the entries from the oldest on. *)
Definition grow (h : ngx_http_v2_hpack_t) : res ngx_http_v2_hpack_t :=
  match h.(h_entries) with
  | Some a =>
      let index := Z.to_nat (h.(h_deleted) mod h.(h_allocated)) in
      Ok (h <| h_entries := Some (drop index a ++ take index a ++ replicate 64 None) |>
            <| h_added := h.(h_allocated) |> <| h_deleted := 0 |> <| h_reused := 0 |>
            <| h_allocated := h.(h_allocated) + 64 |>)
  | None => Fault
  end.

Definition push_pointer (h : ngx_http_v2_hpack_t) (id : nat) : res ngx_http_v2_hpack_t :=
  match h.(h_entries) with
  | Some a =>
      let i := Z.to_nat (h.(h_added) mod h.(h_allocated)) in
      if (i <? length a)%nat then
        Ok (h <| h_entries := Some (<[i := Some id]> a) |> <| h_added := u64 (h.(h_added) + 1) |>)
      else Fault
  | None => Fault
  end.

Definition add_entry (h : ngx_http_v2_hpack_t) (header : list Z * list Z) : res (Z * ngx_http_v2_hpack_t) :=
  o ← take_object h;
  match o with
  | None => Ok (NGX_ERROR, h)
  | Some (id, h) =>
      let '(name, value) := header in
      let avail := NGX_HTTP_V2_TABLE_SIZE - h.(h_pos) in
      let name_at := h.(h_pos) in
      '(storage, pos) ← write_ring h.(h_storage) name_at avail name;
      let avail := (if zlen name <=? avail then avail else NGX_HTTP_V2_TABLE_SIZE) - zlen name in
      let value_at := pos in
      '(storage, pos) ← write_ring storage value_at avail value;
      let entry := Entry (zlen name) name_at (zlen value) value_at in
      let h := h <| h_objects := <[id := entry]> h.(h_objects) |> <| h_storage := storage |> <| h_pos := pos |> in
      if h.(h_allocated) =? u64 (h.(h_added) - h.(h_deleted)) then
        if negb (palloc 3) then Ok (NGX_ERROR, h)
        else
          h ← grow h;
          h ← push_pointer h id;
          Ok (NGX_OK, h)
      else
        h ← push_pointer h id;
        Ok (NGX_OK, h)
  end.

Definition ngx_http_v2_add_header (h : ngx_http_v2_hpack_t) (header : list Z * list Z)
    : res (Z * ngx_http_v2_hpack_t) :=
  let '(ok, h) := match h.(h_entries) with None => table_init h | Some _ => (true, h) end in
  if negb ok then Ok (NGX_ERROR, h)
  else
    '(rc, h) ← ngx_http_v2_table_account h (zlen header.1 + zlen header.2);
    if negb (rc =? NGX_OK) then Ok (NGX_OK, h)
    else add_entry h header.
End memory.

Example table_example :
  (let mem := fun _ => true in
   '(_, h) ← ngx_http_v2_add_header mem (replicate 4096 0) hpack_zero (str "a", str "xyz");
   '(_, h) ← ngx_http_v2_add_header mem (replicate 4096 0) h (str "b", str "");
   '(rc, e) ← ngx_http_v2_get_indexed_header mem h ([], []) 63 false;
   Ok (rc, e, h.(h_free)))
  = Ok (NGX_OK, (str "a", str "xyz"), 4096 - 36 - 33).
Proof. vm_compute. reflexivity. Qed.
