(* ===== verification/HpackTableSpec.v ===== *)
(** * The dynamic table is a list

    What HPACK says of the dynamic table: a list of entries, the newest first, of which
    the oldest are dropped so that the sizes of the others stay within a limit. The rings
    of [HpackTable] implement it: the second part says how, and that they keep doing so. *)

From S2P Require Import Prelude HpackTable.

Abbreviation header := (list Z * list Z)%type.

(** ** The specification *)

Definition entry_size (e : header) : Z := 32 + zlen e.1 + zlen e.2.

Fixpoint total (l : list header) : Z :=
  match l with [] => 0 | e :: l => entry_size e + total l end.

(** The newest entries that fit into [max]. *)
Fixpoint fit (max : Z) (l : list header) : list header :=
  match l with
  | [] => []
  | e :: l => if entry_size e <=? max then e :: fit (max - entry_size e) l else []
  end.

(** A table that nothing has been added to yet keeps no limit. *)
Record table := Table { t_max : option Z; t_list : list header }.

Definition table_zero : table := Table None [].

Definition table_add (e : header) (t : table) : table :=
  let max := default NGX_HTTP_V2_TABLE_SIZE t.(t_max) in Table (Some max) (fit max (e :: t.(t_list))).

Definition table_resize (size : Z) (t : table) : table :=
  match t.(t_max) with Some _ => Table (Some size) (fit size t.(t_list)) | None => t end.

(** The entry of an index, in the static table or behind it. *)
Definition table_lookup (index : Z) (t : table) : option header :=
  if index <=? 0 then None
  else if index <=? 61 then ngx_http_v2_static_table !! Z.to_nat (index - 1)
  else t.(t_list) !! Z.to_nat (index - 62).

Lemma entry_size_pos e : 32 <= entry_size e.
Proof. unfold entry_size. pose proof (zlen_nonneg e.1). pose proof (zlen_nonneg e.2). lia. Qed.

Lemma total_length l : 32 * zlen l <= total l.
Proof.
  induction l as [|e l IH]; [done|]. cbn [total]. rewrite zlen_cons. pose proof (entry_size_pos e). lia.
Qed.

Lemma total_app l1 l2 : total (l1 ++ l2) = total l1 + total l2.
Proof. induction l1 as [|e l1 IH]; cbn [app total]; lia. Qed.

Lemma fit_all max l : total l <= max -> fit max l = l.
Proof.
  revert max. induction l as [|e l IH]; intros max H; [done|]. cbn [fit total] in *.
  pose proof (total_length l). pose proof (zlen_nonneg l).
  destruct (Z.leb_spec (entry_size e) max); [|lia]. by rewrite IH by lia.
Qed.

Lemma fit_total max l : 0 <= max -> total (fit max l) <= max.
Proof.
  revert max. induction l as [|e l IH]; intros max H; [done|]. cbn [fit].
  destruct (Z.leb_spec (entry_size e) max); [|done]. cbn [total]. specialize (IH (max - entry_size e) ltac:(lia)). lia.
Qed.

(** Dropping the oldest entry of a table that is too large changes nothing. *)
Lemma fit_drop max l e : max < total (l ++ [e]) -> fit max (l ++ [e]) = fit max l.
Proof.
  revert max. induction l as [|x l IH]; intros max H; cbn [app fit total] in *.
  - destruct (Z.leb_spec (entry_size e) max); [lia|done].
  - destruct (Z.leb_spec (entry_size x) max); [|done]. by rewrite IH by lia.
Qed.

(** ** The ring of bytes *)

(** The text [l] stands in the ring, from the position [a] on. *)
Definition ring_at (storage : list Z) (a : Z) (l : list Z) : Prop :=
  forall i c, l !! i = Some c -> storage !! Z.to_nat ((a + Z.of_nat i) mod 4096) = Some c.

Definition same_place (data a : Z) : Prop := 0 <= data <= 4096 /\ data mod 4096 = a mod 4096.

Lemma ring_at_app storage a l1 l2 :
  ring_at storage a (l1 ++ l2) <-> ring_at storage a l1 /\ ring_at storage (a + zlen l1) l2.
Proof.
  unfold ring_at. split.
  - intros H. split; intros i c Hc.
    + apply H. by apply lookup_app_l_Some.
    + rewrite <- Z.add_assoc. unfold zlen. rewrite <- Nat2Z.inj_add. apply H.
      by rewrite lookup_app_r, Nat.add_sub' by lia.
  - intros [H1 H2] i c Hc. apply lookup_app_Some in Hc as [Hc|[Hle Hc]]; [by apply H1|].
    apply H2 in Hc. rewrite <- Hc. do 3 f_equal. unfold zlen. lia.
Qed.

(** A text that does not go around the end. *)
Lemma ring_at_straight storage data l :
  length storage = 4096%nat -> 0 <= data -> data + zlen l <= 4096 ->
  ring_at storage data l <-> slice storage data (zlen l) = Ok l.
Proof.
  intros Hs Hd Hl. unfold slice, zlen in *. rewrite Hs.
  assert ((0 <=? data) && (0 <=? Z.of_nat (length l)) && (data + Z.of_nat (length l) <=? Z.of_nat 4096) = true) as ->.
  { rewrite !andb_true_iff, !Z.leb_le. lia. }
  rewrite Nat2Z.id.
  assert (forall i, (i < length l)%nat -> Z.to_nat ((data + Z.of_nat i) mod 4096) = (Z.to_nat data + i)%nat) as Hi.
  { intros i Hi. rewrite Z.mod_small by lia. lia. }
  split.
  - intros H. f_equal. apply list_eq. intros i. destruct (decide (i < length l)%nat) as [Hlt|Hge].
    + rewrite lookup_take_lt, lookup_drop by done. destruct (lookup_lt_is_Some_2 l i Hlt) as [c Hc]. rewrite Hc.
      apply H in Hc. by rewrite Hi in Hc.
    + rewrite lookup_take_ge by lia. symmetry. apply lookup_ge_None. lia.
  - intros H i c Hc. assert (i < length l)%nat as Hlt by (apply lookup_lt_is_Some_1; by eexists).
    rewrite Hi by done. injection H as H. rewrite <- H in Hc. by rewrite lookup_take_lt, lookup_drop in Hc by done.
Qed.

Lemma read_ring_spec storage data a l :
  length storage = 4096%nat -> same_place data a -> zlen l <= 4096 -> ring_at storage a l ->
  read_ring storage data (zlen l) = Ok l.
Proof.
  intros Hs [Hd Hmod] Hl Hr.
  assert (ring_at storage data l) as Hr'.
  { intros i c Hc. apply Hr in Hc. rewrite <- Hc. do 2 f_equal. rewrite <- Zplus_mod_idemp_l, Hmod. apply Zplus_mod_idemp_l. }
  clear Hr Hmod a. unfold read_ring, NGX_HTTP_V2_TABLE_SIZE.
  destruct (Z.ltb_spec (4096 - data) (zlen l)).
  - rewrite <- (take_drop (Z.to_nat (4096 - data)) l) in Hr'. apply ring_at_app in Hr' as [H1 H2].
    assert (zlen (take (Z.to_nat (4096 - data)) l) = 4096 - data) as Ht by (rewrite zlen_take by lia; lia).
    assert (zlen (drop (Z.to_nat (4096 - data)) l) = zlen l - (4096 - data)) as Hdr by (rewrite zlen_drop by lia; lia).
    rewrite ring_at_straight in H1 by (done || lia). rewrite Ht in H1, H2. rewrite H1, Ok_bind.
    assert (ring_at storage 0 (drop (Z.to_nat (4096 - data)) l)) as H3.
    { intros i c Hc. apply H2 in Hc. rewrite <- Hc. do 2 f_equal. replace (data + (4096 - data)) with (0 + 1 * 4096) by lia.
      rewrite <- !Z.add_assoc, (Z.add_comm (1 * 4096)), Z.add_assoc. by rewrite Z.mod_add. }
    rewrite ring_at_straight, Hdr in H3 by (done || lia). by rewrite H3, Ok_bind, take_drop.
  - apply ring_at_straight; (done || lia).
Qed.

(** Writing [l] at the position [p] leaves what stands within the ring before it. *)
Definition ring_write (storage storage' : list Z) (p : Z) (l : list Z) : Prop :=
  length storage' = 4096%nat /\ ring_at storage' p l /\
  forall a m, ring_at storage a m -> p + zlen l - 4096 <= a -> a + zlen m <= p -> ring_at storage' a m.

Lemma mod_apart x y : x mod 4096 = y mod 4096 -> y - 4096 < x < y + 4096 -> x = y.
Proof. intros H Hxy. pose proof (Z.div_mod x 4096). pose proof (Z.div_mod y 4096). nia. Qed.

Lemma blit_lookup b i l b' :
  blit b i l = Ok b' ->
  length b' = length b /\
  forall k, b' !! k = if decide (Z.to_nat i <= k < Z.to_nat i + length l)%nat then l !! (k - Z.to_nat i)%nat else b !! k.
Proof.
  unfold blit. destruct ((0 <=? i) && (i + zlen l <=? zlen b)) eqn:E; [|done]. intros [= <-]. unfold zlen in *.
  assert (0 <= i /\ i + Z.of_nat (length l) <= Z.of_nat (length b)) as [H0 H1] by lia. clear E.
  split.
  - rewrite !length_app, length_take, length_drop. lia.
  - intros k. assert (length (take (Z.to_nat i) b) = Z.to_nat i) as Ht by (rewrite length_take; lia).
    destruct (decide _) as [Hk|Hk].
    + rewrite lookup_app_r, Ht, lookup_app_l by lia. done.
    + destruct (decide (k < Z.to_nat i)%nat).
      * rewrite lookup_app_l, lookup_take_lt by lia. done.
      * rewrite lookup_app_r, Ht, lookup_app_r, lookup_drop by lia. f_equal. lia.
Qed.

Lemma write_ring_spec storage pos avail p l :
  length storage = 4096%nat -> same_place pos p -> zlen l <= 4096 -> 0 <= avail <= 4096 - pos ->
  (zlen l <= avail \/ avail = 4096 - pos) ->
  exists storage' pos', write_ring storage pos avail l = Ok (storage', pos') /\
    same_place pos' (p + zlen l) /\ ring_write storage storage' p l.
Proof.
  intros Hs [Hp Hmod] Hl Hav Hcase. unfold write_ring. pose proof (zlen_nonneg l).
  assert (forall a, pos mod 4096 = p mod 4096 -> (pos + a) mod 4096 = (p + a) mod 4096) as Hshift.
  { intros a E. rewrite <- Zplus_mod_idemp_l, E. apply Zplus_mod_idemp_l. }
  assert (forall storage', length storage' = 4096%nat ->
    (forall k, (k < 4096)%nat -> storage' !! k =
      if decide ((Z.of_nat k - pos) mod 4096 < zlen l) then l !! Z.to_nat ((Z.of_nat k - pos) mod 4096) else storage !! k) ->
    ring_write storage storage' p l) as Hwrite.
  { intros storage' Hs' Hk. split; [done|].
    assert (forall x, 0 <= x mod 4096 < 4096) as Hx by (intros x; by apply Z.mod_pos_bound). split.
    - intros i c Hc. assert (i < length l)%nat as Hi by (apply lookup_lt_is_Some_1; by eexists). unfold zlen in *.
      rewrite Hk by (specialize (Hx (p + Z.of_nat i)); lia).
      assert ((Z.of_nat (Z.to_nat ((p + Z.of_nat i) mod 4096)) - pos) mod 4096 = Z.of_nat i) as ->.
      { rewrite Z2Nat.id by apply Hx. rewrite <- Hshift by done. rewrite Zminus_mod_idemp_l.
        replace (pos + Z.of_nat i - pos) with (Z.of_nat i) by lia. apply Z.mod_small. lia. }
      rewrite decide_True by lia. by rewrite Nat2Z.id.
    - intros a m Hm Ha1 Ha2 i c Hc. assert (i < length m)%nat as Hi by (apply lookup_lt_is_Some_1; by eexists).
      apply Hm in Hc. unfold zlen in *. rewrite Hk by (specialize (Hx (a + Z.of_nat i)); lia).
      rewrite decide_False; [done|]. rewrite Z2Nat.id by apply Hx.
      set (y := (Z.of_nat i + a - p + 4096)). 
      assert (((a + Z.of_nat i) mod 4096 - pos) mod 4096 = y) as ->; [|unfold y; lia].
      rewrite Zminus_mod_idemp_l. rewrite <- (Zminus_mod_idemp_r _ pos), Hmod, Zminus_mod_idemp_r.
      rewrite <- (Z.mod_small y 4096) by (unfold y; lia). unfold y.
      replace (Z.of_nat i + a - p + 4096) with (a + Z.of_nat i - p + 1 * 4096) by lia. by rewrite Z.mod_add. }
  destruct (Z.leb_spec (zlen l) avail) as [Hle|Hgt].
  - destruct (blit_ok storage pos l) as [s' Hb]; [lia|unfold zlen in *; lia|]. rewrite Hb, Ok_bind.
    eexists _, _. split; [done|]. split; [split; [lia|by apply Hshift]|].
    apply blit_lookup in Hb as [Hlen Hb]. apply Hwrite; [congruence|]. intros k Hk. rewrite Hb. unfold zlen in *.
    destruct (decide (Z.to_nat pos <= k)%nat).
    + rewrite Z.mod_small by lia. repeat case_decide; try lia; [f_equal; lia|done].
    + assert ((Z.of_nat k - pos) mod 4096 = Z.of_nat k - pos + 4096) as ->.
      { rewrite <- (Z.mod_add _ 1) by lia. apply Z.mod_small. lia. }
      repeat case_decide; try lia; done.
  - destruct Hcase as [?| ->]; [lia|]. set (n := Z.to_nat (4096 - pos)).
    assert (zlen (take n l) = 4096 - pos) as Ht by (unfold n; rewrite zlen_take by lia; lia).
    assert (zlen (drop n l) = zlen l - (4096 - pos)) as Hdr by (unfold n; rewrite zlen_drop by lia; lia).
    destruct (blit_ok storage pos (take n l)) as [s1 Hb1]; [lia|rewrite Ht; unfold zlen; lia|]. rewrite Hb1, Ok_bind.
    apply blit_lookup in Hb1 as [Hl1 Hb1].
    destruct (blit_ok s1 0 (drop n l)) as [s2 Hb2]; [lia|rewrite Hdr; unfold zlen in *; lia|]. rewrite Hb2, Ok_bind.
    apply blit_lookup in Hb2 as [Hl2 Hb2].
    eexists _, _. split; [done|]. split.
    { split; [lia|]. rewrite <- Hshift by done. replace (pos + zlen l) with (zlen l - (4096 - pos) + 1 * 4096) by lia. by rewrite Z.mod_add. }
    apply Hwrite; [congruence|]. intros k Hk. rewrite Hb2, Hb1. unfold zlen in *. rewrite length_take, length_drop in *.
    destruct (decide (Z.to_nat pos <= k)%nat).
    + rewrite Z.mod_small by lia. repeat case_decide; try lia; try done. rewrite lookup_take_lt by (unfold n; lia). f_equal. lia.
    + assert ((Z.of_nat k - pos) mod 4096 = Z.of_nat k - pos + 4096) as ->.
      { rewrite <- (Z.mod_add _ 1) by lia. apply Z.mod_small. lia. }
      repeat case_decide; try lia; try done. rewrite lookup_drop. f_equal. unfold n. lia.
Qed.

(** ** The rings and the list

    How the arrays of [HpackTable] hold a list of entries, and that each operation keeps
    it so. *)

(** ** What is stored *)

(** The entries [l], the newest first, whose objects are [ids]; the text of the newest
    ends at the position [p] of the ring. *)
Fixpoint stored (storage : list Z) (objs : list ngx_http_v2_header_t) (ids : list nat) (p : Z) (l : list header) {struct l} : Prop :=
  match l, ids with
  | [], _ => True
  | (n, v) :: l, id :: ids =>
      let a := p - zlen n - zlen v in
      (exists d1 d2, objs !! id = Some (Entry (zlen n) d1 (zlen v) d2) /\ same_place d1 a /\ same_place d2 (a + zlen n)) /\
      ring_at storage a (n ++ v) /\ stored storage objs ids a l
  | _ :: _, [] => False
  end.

(** The state of a table that has been used, all but its sizes. *)
Record core (h : ngx_http_v2_hpack_t) (c_array : list (option nat)) (ids : list nat) (p : Z) (l : list header) : Prop := Core {
  c_entries : h_entries h = Some c_array;
  c_length : zlen c_array = h_allocated h;
  c_allocated : 64 <= h_allocated h <= 256;
  c_order : 0 <= h_reused h <= h_deleted h /\ h_deleted h <= h_added h /\ h_added h < 18446744073709551616;
  c_room : h_added h - h_reused h <= h_allocated h;
  c_ids : zlen ids = h_added h - h_reused h;
  c_pointers : forall i id, ids !! i = Some id ->
    c_array !! Z.to_nat ((h_added h - 1 - Z.of_nat i) mod h_allocated h) = Some (Some id);
  c_objects : Forall (fun id => (id < length (h_objects h))%nat) ids;
  c_distinct : NoDup ids;
  c_live : zlen l = h_added h - h_deleted h;
  c_stored : stored (h_storage h) (h_objects h) ids p l;
  c_storage : length (h_storage h) = 4096%nat;
  c_pos : same_place (h_pos h) p
}.

Lemma stored_app storage objs ids p l1 l2 : stored storage objs ids p (l1 ++ l2) -> stored storage objs ids p l1.
Proof.
  revert ids p. induction l1 as [|[n v] l1 IH]; intros ids p H; [done|]. cbn [app stored] in *.
  destruct ids as [|id ids]; [done|]. destruct H as (H1 & H2 & H3). auto.
Qed.

(** One of the entries. *)
Lemma stored_lookup storage (objs : list ngx_http_v2_header_t) (ids : list nat) p (l : list header) (i : nat) (n v : list Z) :
  stored storage objs ids p l -> l !! i = Some (n, v) ->
  exists (id : nat) d1 d2 a, ids !! i = Some id /\ objs !! id = Some (Entry (zlen n) d1 (zlen v) d2) /\
    same_place d1 a /\ same_place d2 (a + zlen n) /\ ring_at storage a (n ++ v).
Proof.
  revert ids p i. induction l as [|[n' v'] l IH]; intros ids p i H Hi; [done|]. cbn [stored] in H.
  destruct ids as [|id ids]; [done|]. destruct H as ((d1 & d2 & Ho & H1 & H2) & Hr & H).
  destruct i as [|i]; [|exact (IH ids _ i H Hi)]. injection Hi as -> ->. by eauto 10.
Qed.

Lemma stored_ids storage objs ids id p l :
  stored storage objs (ids ++ [id]) p l -> (length l <= length ids)%nat -> stored storage objs ids p l.
Proof.
  revert ids p. induction l as [|[n v] l IH]; intros ids p H Hl; [done|]. cbn [stored] in *.
  destruct ids as [|id' ids]; [cbn in Hl; lia|]. cbn [app] in H. destruct H as (H1 & H2 & H3).
  split; [done|]. split; [done|]. apply IH; [done|cbn in Hl; lia].
Qed.

Lemma stored_change storage storage' (objs objs' : list ngx_http_v2_header_t) (ids : list nat) p l :
  stored storage objs ids p l ->
  (forall id, id ∈ ids -> (id < length objs)%nat -> objs' !! id = objs !! id) ->
  (forall a m, ring_at storage a m -> p - total l <= a -> a + zlen m <= p -> ring_at storage' a m) ->
  stored storage' objs' ids p l.
Proof.
  revert ids p. induction l as [|[n v] l IH]; intros ids p H Hobj Hring; [done|]. cbn [stored total] in *.
  destruct ids as [|id ids]; [done|]. destruct H as ((d1 & d2 & Ho & H1 & H2) & Hr & H).
  unfold entry_size in Hring. cbn [fst snd] in Hring.
  pose proof (total_length l). pose proof (zlen_nonneg l). pose proof (zlen_nonneg n). pose proof (zlen_nonneg v).
  split; [|split].
  - exists d1, d2. split; [|done]. rewrite Hobj; [done|apply list_elem_of_here|by eapply lookup_lt_Some].
  - apply Hring; [done|lia|rewrite zlen_app; lia].
  - apply IH; [done| |].
    + intros id' Hid. apply Hobj. by apply list_elem_of_further.
    + intros a m Ha Ha1 Ha2. apply Hring; [done|lia|lia].
Qed.

(** ** Looking up *)

Section pointers.
Context h arr ids p l (Hc : core h arr ids p l).

Lemma pointer_ok i id : ids !! i = Some id -> pointer_at h (h_added h - 1 - Z.of_nat i) = Ok id.
Proof.
  intros Hi. unfold pointer_at. rewrite (c_entries _ _ _ _ _ Hc). pose proof (c_allocated _ _ _ _ _ Hc).
  destruct (Z.eqb_spec (h_allocated h) 0); [lia|]. by rewrite (c_pointers _ _ _ _ _ Hc i id Hi).
Qed.

Lemma id_at i : 0 <= i < h_added h - h_reused h -> exists id, ids !! Z.to_nat i = Some id /\ (id < length (h_objects h))%nat.
Proof.
  intros Hi. destruct (lookup_lt_is_Some_2 ids (Z.to_nat i)) as [id Hid].
  { pose proof (c_ids _ _ _ _ _ Hc). unfold zlen in *. lia. }
  exists id. split; [done|]. pose proof (c_objects _ _ _ _ _ Hc) as Ho. rewrite Forall_forall in Ho.
  apply Ho. by eapply list_elem_of_lookup_2.
Qed.

Lemma lookup_live i n v :
  l !! i = Some (n, v) ->
  exists id d1 d2 a, pointer_at h (h_added h - Z.of_nat i - 1) = Ok id /\
    object_at h id = Ok (Entry (zlen n) d1 (zlen v) d2) /\
    same_place d1 a /\ same_place d2 (a + zlen n) /\ ring_at (h_storage h) a (n ++ v).
Proof.
  intros Hi. destruct (stored_lookup _ _ _ _ _ _ _ _ (c_stored _ _ _ _ _ Hc) Hi) as (id & d1 & d2 & a & Hid & Ho & H1 & H2 & H3).
  exists id, d1, d2, a. unfold object_at. rewrite Ho. split; [|done].
  replace (h_added h - Z.of_nat i - 1) with (h_added h - 1 - Z.of_nat i) by lia. by apply pointer_ok.
Qed.
End pointers.

(** ** Dropping *)

Lemma drop_oldest_ok h arr ids p l e :
  core h arr ids p (l ++ [e]) -> 0 <= h_free h -> h_free h + entry_size e < 18446744073709551616 ->
  exists h', drop_oldest h = Ok h' /\ core h' arr ids p l /\ h_free h' = h_free h + entry_size e /\ h_size h' = h_size h /\
    h_added h' = h_added h.
Proof.
  intros Hc Hf Hfit. destruct e as [n v].
  destruct (lookup_live h arr ids p (l ++ [(n, v)]) Hc (length l) n v) as (id & d1 & d2 & a & Hp & Ho & _).
  { by rewrite lookup_app_r, Nat.sub_diag by lia. }
  pose proof (c_live _ _ _ _ _ Hc) as Hlive. rewrite zlen_app in Hlive. change (zlen [(n, v)]) with 1 in Hlive.
  assert (h_added h - Z.of_nat (length l) - 1 = h_deleted h) as E by (unfold zlen in Hlive; lia). rewrite E in Hp.
  unfold drop_oldest. rewrite Hp, Ok_bind, Ho, Ok_bind. cbn [name_len value_len].
  eexists. split; [done|]. pose proof (c_order _ _ _ _ _ Hc) as Hord. pose proof (zlen_nonneg l).
  unfold entry_size in *. cbn [fst snd] in *. pose proof (zlen_nonneg n). pose proof (zlen_nonneg v).
  destruct h as [objs ent added deleted reused alloc size free st pos]. cbn [h_added h_deleted h_reused h_free h_size] in *.
  rewrite (u64_id (deleted + 1)), u64_id by lia.
  split; [|split; [cbn; lia|split; done]].
  destruct Hc. cbn [h_objects h_entries h_added h_deleted h_reused h_allocated h_storage h_pos] in *.
  split; cbn; try done; try lia. by eapply stored_app.
Qed.

Lemma account_loop_ok size h arr ids p l max :
  core h arr ids p l -> h_free h = max - total l -> 0 <= h_free h -> max <= 4096 -> h_free h < size -> size <= max ->
  exists h', account_loop (Z.to_nat (h_added h - h_deleted h)) size h = Ok h' /\
    core h' arr ids p (fit (max - size) l) /\ h_free h' = max - total (fit (max - size) l) /\
    h_size h' = h_size h /\ size <= h_free h' /\ h_added h' = h_added h.
Proof.
  revert h. induction l as [|e l IH] using rev_ind; intros h Hc Hf H0 Hmax Hlt Hle.
  { cbn [total] in Hf. lia. }
  pose proof (c_live _ _ _ _ _ Hc) as Hlive. rewrite zlen_app in Hlive. change (zlen [e]) with 1 in Hlive.
  pose proof (zlen_nonneg l). replace (Z.to_nat (h_added h - h_deleted h)) with (S (Z.to_nat (zlen l))) by lia.
  cbn [account_loop]. rewrite total_app in Hf. cbn [total] in Hf. pose proof (entry_size_pos e).
  pose proof (total_length l).
  destruct (drop_oldest_ok h arr ids p l e Hc H0) as (h' & -> & Hc' & Hf' & Hs' & Ha'); [lia|]. rewrite Ok_bind.
  rewrite fit_drop by (rewrite total_app; cbn [total]; lia).
  pose proof (c_live _ _ _ _ _ Hc') as Hlive'.
  destruct (Z.ltb_spec (h_free h') size).
  - rewrite Hlive'. destruct (IH h' Hc' ltac:(lia) ltac:(lia) Hmax ltac:(lia) Hle) as (h'' & Hr & Hc'' & Hf'' & Hs'' & Hle'' & Ha'').
    exists h''. split; [exact Hr|]. split; [done|]. split; [done|]. split; [congruence|split; [done|congruence]].
  - exists h'. split; [done|]. rewrite fit_all by lia. split; [done|]. split; [lia|]. split; [done|split; [lia|done]].
Qed.

Lemma size_loop_ok needed h arr ids p l max :
  core h arr ids p l -> h_free h = max - total l -> 0 <= h_free h -> max <= 4096 -> needed <= max ->
  exists h', size_loop (Z.to_nat (h_added h - h_deleted h)) needed h = Ok h' /\
    core h' arr ids p (fit (max - needed) l) /\ h_free h' = max - total (fit (max - needed) l) /\
    h_size h' = h_size h /\ needed <= h_free h' /\ h_added h' = h_added h.
Proof.
  revert h. induction l as [|e l IH] using rev_ind; intros h Hc Hf H0 Hmax Hle.
  { exists h. cbn [total fit] in *. split; [|split; [done|split; [done|split; [done|split; [lia|done]]]]].
    pose proof (c_live _ _ _ _ _ Hc) as Hlive. change (zlen []) with 0 in Hlive. rewrite <- Hlive. change (Z.to_nat 0) with O. unfold size_loop.
    destruct (Z.ltb_spec (h_free h) needed); [lia|done]. }
  pose proof (c_live _ _ _ _ _ Hc) as Hlive. rewrite zlen_app in Hlive. change (zlen [e]) with 1 in Hlive.
  pose proof (zlen_nonneg l). replace (Z.to_nat (h_added h - h_deleted h)) with (S (Z.to_nat (zlen l))) by lia.
  cbn [size_loop]. rewrite total_app in Hf. cbn [total] in Hf. pose proof (entry_size_pos e).
  pose proof (total_length l). destruct (Z.ltb_spec (h_free h) needed).
  - destruct (drop_oldest_ok h arr ids p l e Hc H0) as (h' & -> & Hc' & Hf' & Hs' & Ha'); [lia|]. rewrite Ok_bind.
    rewrite fit_drop by (rewrite total_app; cbn [total]; lia).
    pose proof (c_live _ _ _ _ _ Hc') as Hlive'. rewrite Hlive'.
    destruct (IH h' Hc' ltac:(lia) ltac:(lia) Hmax Hle) as (h'' & Hr & Hc'' & Hf'' & Hs'' & Hle'' & Ha'').
    exists h''. split; [exact Hr|]. split; [done|]. split; [done|]. split; [congruence|split; [done|congruence]].
  - exists h. split; [done|]. rewrite fit_all by (rewrite total_app; cbn [total]; lia).
    rewrite total_app. cbn [total]. split; [done|]. split; [lia|]. split; [done|split; [lia|done]].
Qed.

(** ** Adding *)

(** An object has been taken for the new entry: none of [ids] is it, and there is room in
    the array or the array is full of live entries. *)
Record taken (h : ngx_http_v2_hpack_t) (arr : list (option nat)) (ids : list nat) (p : Z) (l : list header) (id : nat) : Prop := Taken {
  k_core : core h arr ids p l;
  k_fresh : id ∉ ids;
  k_object : (id < length (h_objects h))%nat;
  k_space : h_added h - h_reused h < h_allocated h \/ h_reused h = h_deleted h
}.

Lemma take_new h arr ids p l :
  core h arr ids p l -> h_reused h = h_deleted h ->
  taken (h <| h_objects := h_objects h ++ [Entry 0 0 0 0] |>) arr ids p l (length (h_objects h)).
Proof.
  intros [He Hl Ha Ho Hr Hi Hp Hobj Hd Hlive Hst Hs Hpos] E.
  destruct h as [objs ent added deleted reused alloc size free st pos].
  cbn [h_objects h_entries h_added h_deleted h_reused h_allocated h_size h_free h_storage h_pos] in *.
  assert (length objs ∉ ids) as Hnew.
  { intros Hin. rewrite Forall_forall in Hobj. specialize (Hobj _ Hin). lia. }
  split; [split; try done| |..]; try done.
  - eapply Forall_impl; [exact Hobj|]. intros id Hid. cbn in *. rewrite length_app. lia.
  - eapply stored_change; [exact Hst| |done]. intros id _ Hid. cbn. by rewrite lookup_app_l.
  - cbn. rewrite length_app. cbn. lia.
  - by right.
Qed.

Lemma take_old h arr ids id p l :
  core h arr (ids ++ [id]) p l -> h_reused h < h_deleted h ->
  pointer_at h (h_reused h) = Ok id /\ taken (h <| h_reused := u64 (h_reused h + 1) |>) arr ids p l id.
Proof.
  intros Hc E. pose proof (pointer_ok h arr _ p l Hc (length ids) id) as Hptr.
  rewrite lookup_app_r, Nat.sub_diag in Hptr by lia. specialize (Hptr eq_refl).
  destruct Hc as [He Hl Ha Ho Hr Hi Hp Hobj Hd Hlive Hst Hs Hpos].
  rewrite zlen_app in Hi. change (zlen [id]) with 1 in Hi.
  replace (h_added h - 1 - Z.of_nat (length ids)) with (h_reused h) in Hptr by (unfold zlen in Hi; lia).
  split; [done|]. clear Hptr. rewrite u64_id by lia.
  apply NoDup_app in Hd as (Hd & Hdis & _). apply Forall_app in Hobj as [Hobj Hid]. apply Forall_cons_1 in Hid as [Hid _].
  destruct h as [objs ent added deleted reused alloc size free st pos].
  cbn [h_objects h_entries h_added h_deleted h_reused h_allocated h_size h_free h_storage h_pos] in *.
  pose proof (zlen_nonneg l).
  split; [split; try done| |..]; try done; cbn; try lia.
  - intros i id' Hi'. apply Hp. by apply lookup_app_l_Some.
  - eapply stored_ids; [exact Hst|]. unfold zlen in *. lia.
  - intros Hin. apply (Hdis _ Hin). apply list_elem_of_here.
Qed.

Lemma take_object_ok palloc h arr ids p l :
  core h arr ids p l ->
  take_object palloc h = Ok None /\ palloc 2%nat = false \/
  exists h' ids' id, take_object palloc h = Ok (Some (id, h')) /\ taken h' arr ids' p l id /\
    h_free h' = h_free h /\ h_size h' = h_size h /\ h_added h' = h_added h.
Proof.
  intros Hc. unfold take_object. pose proof (c_order _ _ _ _ _ Hc) as Hord.
  destruct (Z.eqb_spec (h_reused h) (h_deleted h)) as [E|E].
  - destruct (palloc 2%nat); [right|by left]. do 3 eexists. split; [done|]. split; [by apply take_new|done].
  - pose proof (c_ids _ _ _ _ _ Hc) as Hids.
    destruct ids as [|id ids' _] using rev_ind; [change (zlen (@nil nat)) with 0 in Hids; lia|].
    destruct (take_old h arr ids' id p l Hc ltac:(lia)) as [Hp Ht]. rewrite Hp, Ok_bind.
    right. do 3 eexists. split; [done|]. split; [exact Ht|done].
Qed.
