(* ===== verification/HpackTableAdd.v ===== *)
(** * Adding to the dynamic table

    [ngx_http_v2_add_header], and that the two rings refine the list of
    [HpackTableSpec]. *)

From S2P Require Import Prelude HpackTable HpackTableSpec.

(** The text of a new entry, written behind the newest one. *)
Lemma write_entry h arr ids p l id n v :
  taken h arr ids p l id -> total l + entry_size (n, v) <= 4096 ->
  exists storage1 name_end storage2 value_end,
    write_ring (h_storage h) (h_pos h) (NGX_HTTP_V2_TABLE_SIZE - h_pos h) n = Ok (storage1, name_end) /\
    write_ring storage1 name_end
      ((if zlen n <=? NGX_HTTP_V2_TABLE_SIZE - h_pos h then NGX_HTTP_V2_TABLE_SIZE - h_pos h else NGX_HTTP_V2_TABLE_SIZE) - zlen n) v
      = Ok (storage2, value_end) /\
    let entry := Entry (zlen n) (h_pos h) (zlen v) name_end in
    length storage2 = 4096%nat /\ same_place value_end (p + zlen n + zlen v) /\
    stored storage2 (<[id := entry]> (h_objects h)) (id :: ids) (p + zlen n + zlen v) ((n, v) :: l).
Proof.
  intros [Hc Hfresh Hobj _] Hfit. unfold entry_size in Hfit. cbn [fst snd] in Hfit.
  pose proof (total_length l). pose proof (zlen_nonneg l). pose proof (zlen_nonneg n). pose proof (zlen_nonneg v).
  pose proof (c_storage _ _ _ _ _ Hc) as Hs. pose proof (c_pos _ _ _ _ _ Hc) as Hpos. pose proof Hpos as [Hp _].
  unfold NGX_HTTP_V2_TABLE_SIZE.
  destruct (write_ring_spec (h_storage h) (h_pos h) (4096 - h_pos h) p n Hs Hpos) as (s1 & e1 & Hw1 & He1 & Hl1 & Hr1 & Hk1);
    [lia|lia|by right|].
  exists s1, e1. assert (e1 = if zlen n <=? 4096 - h_pos h then h_pos h + zlen n else zlen n - (4096 - h_pos h)) as Ee1.
  { unfold write_ring in Hw1. destruct (Z.leb_spec (zlen n) (4096 - h_pos h)).
    - apply bind_Ok in Hw1 as (? & _ & Hw1). by injection Hw1.
    - apply bind_Ok in Hw1 as (? & _ & Hw1). apply bind_Ok in Hw1 as (? & _ & Hw1). by injection Hw1. }
  destruct (write_ring_spec s1 e1
    ((if zlen n <=? 4096 - h_pos h then 4096 - h_pos h else 4096) - zlen n) (p + zlen n) v Hl1 He1)
    as (s2 & e2 & Hw2 & He2 & Hl2 & Hr2 & Hk2).
  { lia. }
  { rewrite Ee1. destruct (Z.leb_spec (zlen n) (4096 - h_pos h)); lia. }
  { rewrite Ee1. destruct (Z.leb_spec (zlen n) (4096 - h_pos h)); lia. }
  exists s2, e2. split; [done|]. split; [done|]. cbv zeta. split; [done|]. split; [done|]. cbn [stored].
  replace (p + zlen n + zlen v - zlen n - zlen v) with p by lia. split; [|split].
  - exists (h_pos h), e1. split; [|done]. by rewrite list_lookup_insert_eq.
  - apply ring_at_app. split; [|exact Hr2]. apply Hk2; [exact Hr1|lia|lia].
  - eapply stored_change; [exact (c_stored _ _ _ _ _ Hc)| |].
    + intros id' Hid _. rewrite list_lookup_insert_ne; [done|]. intros ->. done.
    + intros a m Ha Ha1 Ha2. apply Hk2; [|lia|lia]. apply Hk1; [done|lia|lia].
Qed.

(** The part of the state that the array of pointers is about. *)
Record array_ok (h : ngx_http_v2_hpack_t) (arr : list (option nat)) (ids : list nat) : Prop := Array {
  a_entries : h_entries h = Some arr;
  a_length : zlen arr = h_allocated h;
  a_allocated : 64 <= h_allocated h <= 256;
  a_order : 0 <= h_reused h <= h_deleted h /\ h_deleted h <= h_added h;
  a_ids : zlen ids = h_added h - h_reused h;
  a_pointers : forall i id, ids !! i = Some id ->
    arr !! Z.to_nat ((h_added h - 1 - Z.of_nat i) mod h_allocated h) = Some (Some id)
}.

Lemma core_array h arr ids p l : core h arr ids p l -> array_ok h arr ids.
Proof. intros []. split; (done || lia). Qed.

(** The pointer of the new entry goes into the array. *)
Lemma push_pointer_ok h arr ids p' l id e :
  array_ok h arr ids -> h_added h < 18446744073709551615 -> h_added h - h_reused h < h_allocated h ->
  Forall (fun id => (id < length (h_objects h))%nat) (id :: ids) -> NoDup (id :: ids) ->
  zlen l = h_added h - h_deleted h -> stored (h_storage h) (h_objects h) (id :: ids) p' (e :: l) ->
  length (h_storage h) = 4096%nat -> same_place (h_pos h) p' ->
  exists h' arr', push_pointer h id = Ok h' /\ core h' arr' (id :: ids) p' (e :: l) /\
    h_free h' = h_free h /\ h_size h' = h_size h /\ h_added h' = h_added h + 1.
Proof.
  intros [He Hlen Ha [Hr1 Hr2] Hids Hptr] Hadd Hroom Hobj Hnd Hlive Hst Hs Hpos. unfold push_pointer. rewrite He.
  pose proof (Z.mod_pos_bound (h_added h) (h_allocated h) ltac:(lia)) as Hm.
  set (k := Z.to_nat (h_added h mod h_allocated h)). assert ((k < length arr)%nat) as Hk by (unfold zlen in Hlen; lia).
  destruct (Nat.ltb_spec k (length arr)); [|lia]. rewrite u64_id by lia.
  eexists _, (<[k := Some id]> arr). split; [done|]. split; [|done].
  destruct h as [objs ent added deleted reused alloc size free st pos].
  cbn [h_objects h_entries h_added h_deleted h_reused h_allocated h_size h_free h_storage h_pos] in *.
  split; cbn; try done; try lia.
  - unfold zlen. by rewrite length_insert.
  - rewrite zlen_cons. lia.
  - intros [|i] id' Hi.
    + injection Hi as ->. replace (added + 1 - 1 - Z.of_nat 0) with added by lia. by apply list_lookup_insert_eq.
    + cbn in Hi. replace (added + 1 - 1 - Z.of_nat (S i)) with (added - 1 - Z.of_nat i) by lia.
      rewrite list_lookup_insert_ne; [by apply Hptr|]. unfold k. intros E.
      assert (i < length ids)%nat by (apply lookup_lt_is_Some_1; by eexists). unfold zlen in Hids.
      pose proof (Z.mod_pos_bound (added - 1 - Z.of_nat i) alloc ltac:(lia)).
      apply Z2Nat.inj in E; [|lia|lia].
      pose proof (Z.div_mod added alloc ltac:(lia)). pose proof (Z.div_mod (added - 1 - Z.of_nat i) alloc ltac:(lia)).
      assert (alloc * (added / alloc - (added - 1 - Z.of_nat i) / alloc) = Z.of_nat i + 1) as Hq by lia.
      revert Hq. generalize (added / alloc - (added - 1 - Z.of_nat i) / alloc). intros q Hq.
      destruct (Z.le_gt_cases q 0); nia.
  - rewrite zlen_cons. lia.
Qed.

(** A full array is copied into a larger one, the oldest entry first. *)
Lemma grow_ok h arr ids :
  array_ok h arr ids -> h_allocated h = h_added h - h_deleted h -> h_reused h = h_deleted h -> h_allocated h <= 128 ->
  exists h' arr', grow h = Ok h' /\ array_ok h' arr' ids /\
    h_added h' - h_deleted h' = h_added h - h_deleted h /\ h_added h' = h_added h - h_deleted h /\ h_added h' - h_reused h' < h_allocated h' /\
    h_objects h' = h_objects h /\ h_storage h' = h_storage h /\ h_pos h' = h_pos h /\ h_free h' = h_free h /\ h_size h' = h_size h.
Proof.
  intros [He Hl Ha Ho Hi Hp] Hfull Hre Hmax. unfold grow. rewrite He.
  destruct h as [objs ent added deleted reused alloc size free st pos].
  cbn [h_objects h_entries h_added h_deleted h_reused h_allocated h_size h_free h_storage h_pos] in *.
  pose proof (Z.mod_pos_bound deleted alloc ltac:(lia)) as Hm. set (k := Z.to_nat (deleted mod alloc)).
  eexists _, (drop k arr ++ take k arr ++ replicate 64 None). split; [done|]. cbn -[replicate].
  assert (length arr = Z.to_nat alloc) as Hla by (unfold zlen in Hl; lia).
  split; [|split; [lia|split; [lia|split; [lia|done]]]]. split; cbn -[replicate]; try done; try lia.
  { unfold zlen in *. rewrite !length_app, length_drop, length_take, length_replicate. lia. }
  intros i id Hid. assert (i < length ids)%nat as Hlt by (apply lookup_lt_is_Some_1; by eexists).
  unfold zlen in Hi. specialize (Hp i id Hid). rewrite <- Hp. rewrite (Z.mod_small (alloc - 1 - Z.of_nat i)) by lia.
  set (t := alloc - 1 - Z.of_nat i). assert (0 <= t < alloc) as Ht by (unfold t; lia).
  replace (added - 1 - Z.of_nat i) with (deleted + t) by (unfold t; lia).
  assert ((deleted + t) mod alloc = if decide (deleted mod alloc + t < alloc) then deleted mod alloc + t else deleted mod alloc + t - alloc) as ->.
  { rewrite <- Zplus_mod_idemp_l. case_decide; [by apply Z.mod_small; lia|].
    rewrite <- (Z.mod_add _ (-1)) by lia. rewrite Z.mod_small; lia. }
  case_decide.
  - rewrite lookup_app_l, lookup_drop by (rewrite length_drop; lia). f_equal. lia.
  - rewrite lookup_app_r by (rewrite length_drop; lia). rewrite length_drop, lookup_app_l by (rewrite length_take; lia).
    rewrite lookup_take_lt by lia. f_equal. lia.
Qed.

(** ** The operations *)

(** A table in memory and the list it stands for. *)
Definition used (h : ngx_http_v2_hpack_t) (max : Z) (l : list header) : Prop :=
  (exists arr ids p, core h arr ids p l) /\ h_size h = max /\ 0 <= max <= 4096 /\ h_free h = max - total l /\ total l <= max.

Definition related (h : ngx_http_v2_hpack_t) (t : table) : Prop :=
  match t.(t_max) with
  | Some max => used h max t.(t_list)
  | None => h_entries h = None /\ t.(t_list) = [] /\ h_added h = 0 /\ h_deleted h = 0 /\ h_reused h = 0 /\
      0 <= h_size h <= 4096 /\ h_free h = h_size h
  end.

Lemma core_resized h arr ids p l f s : core h arr ids p l -> core (h <| h_size := s |> <| h_free := f |>) arr ids p l.
Proof. intros [? ? ? ? ? ? ? ? ? ? ? ? ?]. by destruct h; split. Qed.

Lemma core_free h arr ids p l f : core h arr ids p l -> core (h <| h_free := f |>) arr ids p l.
Proof. intros [? ? ? ? ? ? ? ? ? ? ? ? ?]. by destruct h; split. Qed.

Lemma core_cleared h arr ids p l f : core h arr ids p l -> core (h <| h_deleted := h_added h |> <| h_free := f |>) arr ids p [].
Proof.
  intros [? ? ? ? ? ? ? ? ? ? ? ? ?].
  destruct h as [objs ent added deleted reused alloc size free st pos].
  cbn [h_objects h_entries h_added h_deleted h_reused h_allocated h_size h_free h_storage h_pos] in *.
  split; cbn; try done; try lia.
  change (0 = added - added). lia.
Qed.

Lemma account_ok h max l e :
  used h max l ->
  exists rc h', ngx_http_v2_table_account h (zlen e.1 + zlen e.2) = Ok (rc, h') /\ h_added h' = h_added h /\
    (max < entry_size e /\ rc = NGX_DECLINED /\ used h' max [] \/
     entry_size e <= max /\ rc = NGX_OK /\
       let l' := fit (max - entry_size e) l in
       (exists arr ids p, core h' arr ids p l') /\ h_size h' = max /\ h_free h' = max - total l' - entry_size e).
Proof.
  intros ((arr & ids & p & Hc) & Hs & Hm & Hf & Ht). unfold ngx_http_v2_table_account.
  replace (zlen e.1 + zlen e.2 + 32) with (entry_size e) by (unfold entry_size; lia). pose proof (entry_size_pos e).
  destruct (Z.leb_spec (entry_size e) (h_free h)).
  - do 2 eexists. split; [done|]. split; [done|]. right. split; [pose proof (total_length l); pose proof (zlen_nonneg l); lia|].
    split; [done|]. cbv zeta. rewrite fit_all by lia. split; [do 3 eexists; by apply core_free|]. split; [done|]. cbn. lia.
  - rewrite Hs. destruct (Z.ltb_spec max (entry_size e)).
    + do 2 eexists. split; [done|]. split; [done|]. left. split; [lia|]. split; [done|].
      split; [do 3 eexists; by eapply core_cleared|]. cbn [total]. cbn. split; [done|]. lia.
    + pose proof (total_length l). pose proof (zlen_nonneg l).
      destruct (account_loop_ok (entry_size e) h arr ids p l max Hc) as (h' & Hr & Hc' & Hf' & Hs' & Hle & Ha'); try lia.
      rewrite Hr, Ok_bind. do 2 eexists. split; [done|]. split; [done|].
      right. split; [done|]. split; [done|].
      split; [do 3 eexists; by apply core_free|]. cbn. split; [congruence|lia].
Qed.

Lemma add_entry_ok palloc h arr ids p l e :
  core h arr ids p l -> total l + entry_size e <= 4096 -> h_added h < 18446744073709551615 ->
  exists rc h', add_entry palloc h e = Ok (rc, h') /\
    (rc = NGX_ERROR /\ (exists k, palloc k = false) \/
     rc = NGX_OK /\ (exists arr ids p, core h' arr ids p (e :: l)) /\
       h_free h' = h_free h /\ h_size h' = h_size h /\ h_added h' <= h_added h + 1).
Proof.
  intros Hc Hfit Hadd. destruct e as [n v]. unfold add_entry.
  destruct (take_object_ok palloc h arr ids p l Hc) as [[-> Hno]|(h1 & ids1 & id & -> & Ht & Hf1 & Hs1 & Ha1)];
    [rewrite Ok_bind; do 2 eexists; split; [done|left; eauto]|].
  rewrite Ok_bind. destruct (write_entry h1 arr ids1 p l id n v Ht Hfit) as (s1 & e1 & s2 & e2 & Hw1 & Hw2 & Hl2 & He2 & Hst).
  rewrite Hw1, Ok_bind, Hw2, Ok_bind. destruct Ht as [Hc1 Hfresh Hobj Hspace].
  pose proof (core_array _ _ _ _ _ Hc1) as Harr.
  destruct Hc1 as [_ _ _ Ho Hr _ _ Hob Hd Hlive _ _ _].
  pose proof (entry_size_pos (n, v)). pose proof (total_length l).
  assert (NoDup (id :: ids1)) as Hnd by (by apply NoDup_cons).
  set (objs := <[id := Entry (zlen n) (h_pos h1) (zlen v) e1]> (h_objects h1)) in *.
  assert (Forall (fun i => (i < length objs)%nat) (id :: ids1)) as Hids.
  { unfold objs. rewrite length_insert. by apply Forall_cons_2. }
  set (h2 := h1 <| h_objects := objs |> <| h_storage := s2 |> <| h_pos := e2 |>).
  assert (array_ok h2 arr ids1) as Harr2 by (by destruct Harr).
  change (h_allocated h2 =? u64 (h_added h2 - h_deleted h2)) with (h_allocated h1 =? u64 (h_added h1 - h_deleted h1)).
  rewrite u64_id by lia.
  destruct (Z.eqb_spec (h_allocated h1) (h_added h1 - h_deleted h1)) as [Hfull|Hnot].
  - destruct (palloc 3%nat) eqn:H3; cbn [negb]; [|do 2 eexists; split; [done|left; eauto]].
    destruct (grow_ok h2 arr ids1 Harr2 Hfull) as (h3 & arr3 & -> & Harr3 & Hsame & Ha3 & Hroom3 & Ho3 & Hst3 & Hpos3 & Hf3 & Hs3).
    { change (h_reused h1 = h_deleted h1). lia. }
    { change (h_allocated h1 <= 128). unfold entry_size in *. lia. }
    rewrite Ok_bind. change (h_added h2) with (h_added h1) in *. change (h_deleted h2) with (h_deleted h1) in *.
    change (h_free h2) with (h_free h1) in Hf3. change (h_size h2) with (h_size h1) in Hs3.
    change (h_objects h2) with objs in Ho3. change (h_storage h2) with s2 in Hst3. change (h_pos h2) with e2 in Hpos3.
    destruct (push_pointer_ok h3 arr3 ids1 (p + zlen n + zlen v) l id (n, v)) as (h4 & arr4 & -> & Hc4 & Hf4 & Hs4 & Ha4);
      rewrite ?Ho3, ?Hst3, ?Hpos3; try done; try lia.
    rewrite Ok_bind. do 2 eexists. split; [done|]. right. split; [done|]. split; [eauto|].
    split; [congruence|]. split; [congruence|lia].
  - destruct (push_pointer_ok h2 arr ids1 (p + zlen n + zlen v) l id (n, v)) as (h4 & arr4 & -> & Hc4 & Hf4 & Hs4 & Ha4);
      try done.
    { change (h_added h1 < 18446744073709551615). lia. }
    { change (h_added h1 - h_reused h1 < h_allocated h1). lia. }
    rewrite Ok_bind. do 2 eexists. split; [done|]. right. split; [done|]. split; [eauto|].
    change (h_free h2) with (h_free h1) in Hf4. change (h_size h2) with (h_size h1) in Hs4.
    change (h_added h2) with (h_added h1) in Ha4. split; [congruence|]. split; [congruence|lia].
Qed.

Lemma add_ok palloc fresh h t e :
  related h t -> length fresh = 4096%nat -> h_added h < 18446744073709551615 ->
  exists rc h', ngx_http_v2_add_header palloc fresh h e = Ok (rc, h') /\
    (rc = NGX_ERROR /\ (exists k, palloc k = false) \/
     rc = NGX_OK /\ related h' (table_add e t) /\ h_added h' <= h_added h + 1).
Proof.
  intros Hrel Hfresh Hadd.
  assert (exists ok h1, (match h_entries h with None => table_init palloc fresh h | Some _ => (true, h) end) = (ok, h1) /\
    h_added h1 = h_added h /\
    (ok = false /\ (exists k, palloc k = false) \/
     ok = true /\ used h1 (default NGX_HTTP_V2_TABLE_SIZE (t_max t)) (t_list t))) as (ok & h1 & Hinit & Ha1 & Hok).
  { unfold related in Hrel. destruct t as [[max|] l]; cbn [t_max t_list default] in *.
    - pose proof Hrel as ((arr & ids & p & Hc) & _). rewrite (c_entries _ _ _ _ _ Hc). do 2 eexists. split; [done|]. auto.
    - destruct Hrel as (He & -> & H1 & H2 & H3 & _). rewrite He. unfold table_init.
      destruct (palloc 0%nat) eqn:P0; cbn [negb]; [|do 2 eexists; split; [done|split; [done|left; eauto]]].
      destruct (palloc 1%nat) eqn:P1; cbn [negb]; [|do 2 eexists; split; [done|split; [done|left; eauto]]].
      do 2 eexists. split; [done|]. split; [done|]. right. split; [done|].
      destruct h as [objs ent added deleted reused alloc size free st pos].
      cbn [h_objects h_entries h_added h_deleted h_reused h_allocated h_size h_free h_storage h_pos] in *. subst.
      split; [|done]. exists (replicate 64 None), [], 0.
      split; cbn -[replicate]; try done; try lia.
      by apply NoDup_nil. }
  unfold ngx_http_v2_add_header. rewrite Hinit. destruct Hok as [[-> Hno]|[-> Hused]];
    [do 2 eexists; split; [done|by left]|]. cbn [negb].
  set (max := default NGX_HTTP_V2_TABLE_SIZE (t_max t)) in *. pose proof Hused as (_ & _ & Hmax & _).
  destruct (account_ok h1 max (t_list t) e Hused) as (rc & h2 & -> & Ha2 & Hrc). rewrite Ok_bind.
  assert (table_add e t = Table (Some max) (fit max (e :: t_list t))) as Eadd by done.
  destruct Hrc as [(Hbig & -> & Hused2)|(Hsmall & -> & (arr & ids & p & Hc) & Hs2 & Hf2)].
  - change (negb (NGX_DECLINED =? NGX_OK)) with true. cbn iota. do 2 eexists. split; [done|]. right. split; [done|].
    split; [|lia]. rewrite Eadd. cbn [fit]. destruct (Z.leb_spec (entry_size e) max); [lia|]. exact Hused2.
  - change (negb (NGX_OK =? NGX_OK)) with false. cbn iota.
    pose proof (fit_total (max - entry_size e) (t_list t) ltac:(lia)) as Hft.
    destruct (add_entry_ok palloc h2 arr ids p _ e Hc) as (rc & h3 & -> & Hrc); [lia|lia|].
    do 2 eexists. split; [done|]. destruct Hrc as [[-> Hno]|(-> & Hc3 & Hf3 & Hs3 & Ha3)]; [by left|right].
    split; [done|]. split; [|lia]. rewrite Eadd. cbn [fit]. destruct (Z.leb_spec (entry_size e) max); [|lia].
    unfold related, used. cbn [t_max t_list total]. split; [done|]. split; [congruence|]. split; [done|]. lia.
Qed.

Lemma resize_ok h t size :
  related h t -> 0 <= size ->
  exists rc h', ngx_http_v2_table_size h size = Ok (rc, h') /\ h_added h' = h_added h /\
    (rc = NGX_ERROR /\ 4096 < size \/ rc = NGX_OK /\ size <= 4096 /\ related h' (table_resize size t)).
Proof.
  intros Hrel Hsize. unfold ngx_http_v2_table_size, NGX_HTTP_V2_TABLE_SIZE.
  destruct (Z.ltb_spec 4096 size); [do 2 eexists; split; [done|split; [done|by left]]|].
  unfold related in Hrel. destruct t as [[max|] l]; cbn [t_max t_list] in *.
  - destruct Hrel as ((arr & ids & p & Hc) & Hs & Hm & Hf & Ht). rewrite Hs.
    destruct (size_loop_ok (max - size) h arr ids p l max Hc) as (h' & Hr & Hc' & Hf' & Hs' & Hle & Ha'); try lia.
    rewrite Hr, Ok_bind. replace (max - (max - size)) with size in * by lia.
    pose proof (fit_total size l Hsize). pose proof (total_length (fit size l)). pose proof (zlen_nonneg (fit size l)).
    do 2 eexists. split; [done|]. split; [done|]. right. split; [done|]. split; [lia|].
    split; [do 3 eexists; by apply core_resized|]. cbn [t_list]. split; [done|]. split; [lia|].
    change (t_list (table_resize size (Table (Some max) l))) with (fit size l).
    split; [|lia]. change (u64 (h_free h' - (max - size)) = size - total (fit size l)). rewrite u64_id; lia.
  - destruct Hrel as (He & -> & H1 & H2 & H3 & H4 & H5). rewrite H1, H2. change (Z.to_nat (0 - 0)) with O. cbn [size_loop].
    destruct (Z.ltb_spec (h_free h) (h_size h - size)); [lia|]. rewrite Ok_bind.
    do 2 eexists. split; [done|]. split; [by destruct h|]. right. split; [done|]. split; [lia|].
    unfold related. destruct h as [objs ent added deleted reused alloc sz free st pos]. cbn in *.
    do 5 (split; [done|]). split; [lia|]. rewrite u64_id; lia.
Qed.

Lemma get_indexed_ok palloc h t hdr index name_only :
  related h t -> h_added h < 18446744073709551616 -> 0 <= index < 18446744073709551616 ->
  exists rc hdr', ngx_http_v2_get_indexed_header palloc h hdr index name_only = Ok (rc, hdr') /\
    (rc = NGX_ERROR /\ (exists k, palloc k = false) \/
     match table_lookup index t with
     | Some e => rc = NGX_OK /\ hdr' = if name_only && (61 <? index) then (e.1, hdr.2) else e
     | None => rc = NGX_ERROR
     end).
Proof.
  intros Hrel Hadd Hi. unfold ngx_http_v2_get_indexed_header, table_lookup.
  change NGX_HTTP_V2_STATIC_TABLE_ENTRIES with 61.
  destruct (Z.eqb_spec index 0) as [|Hi0], (Z.leb_spec index 0); try lia; [do 2 eexists; split; [done|by right]|].
  destruct (Z.ltb_spec (index - 1) 61), (Z.leb_spec index 61); try lia.
  { destruct (lookup_lt_is_Some_2 ngx_http_v2_static_table (Z.to_nat (index - 1))) as [e He].
    { change (length ngx_http_v2_static_table) with 61%nat. lia. }
    rewrite He. do 2 eexists. split; [done|]. right. split; [done|]. destruct (Z.ltb_spec 61 index); [lia|].
    by rewrite andb_false_r. }
  replace (index - 1 - 61) with (index - 62) by lia.
  unfold related in Hrel. destruct t as [[max|] l]; cbn [t_max t_list] in *.
  - destruct Hrel as ((arr & ids & p & Hc) & _ & Hm & _ & Ht).
    pose proof (c_order _ _ _ _ _ Hc). pose proof (c_live _ _ _ _ _ Hc) as Hlive. rewrite u64_id by lia.
    destruct (Z.ltb_spec (index - 62) (h_added h - h_deleted h)).
    + destruct (lookup_lt_is_Some_2 l (Z.to_nat (index - 62))) as [[n v] Hnv]; [unfold zlen in Hlive; lia|]. rewrite Hnv.
      destruct (lookup_live h arr ids p l Hc _ n v Hnv) as (id & d1 & d2 & a & Hp & Ho & H1' & H2' & Hring).
      rewrite Z2Nat.id in Hp by lia. rewrite u64_id, Hp, Ok_bind, Ho, Ok_bind by lia. cbn [name_len name_data value_len value_data].
      destruct (palloc 0%nat) eqn:P0; cbn [negb]; [|do 2 eexists; split; [done|left; eauto]].
      assert (zlen n <= 4096 /\ zlen v <= 4096) as [Hn Hv].
      { apply list_elem_of_lookup_2 in Hnv. pose proof (zlen_nonneg n). pose proof (zlen_nonneg v).
        enough (entry_size (n, v) <= total l) by (unfold entry_size in *; cbn in *; lia).
        apply list_elem_of_split in Hnv as (l1 & l2 & ->). rewrite total_app. cbn [total].
        pose proof (total_length l1). pose proof (total_length l2). pose proof (zlen_nonneg l1). pose proof (zlen_nonneg l2). lia. }
      apply ring_at_app in Hring as [Hr1 Hr2]. pose proof (c_storage _ _ _ _ _ Hc) as Hst.
      rewrite (read_ring_spec _ _ _ _ Hst H1' Hn Hr1), Ok_bind. assert ((61 <? index) = true) as -> by lia. rewrite andb_true_r.
      destruct name_only; [do 2 eexists; split; [done|right; done]|].
      destruct (palloc 1%nat) eqn:P1; cbn [negb]; [|do 2 eexists; split; [done|left; eauto]].
      rewrite (read_ring_spec _ _ _ _ Hst H2' Hv Hr2), Ok_bind. do 2 eexists. split; [done|right; done].
    + rewrite (lookup_ge_None_2 l) by (unfold zlen in Hlive; lia). do 2 eexists. split; [done|by right].
  - destruct Hrel as (_ & -> & Ha & Hd & _). rewrite Ha, Hd. change (u64 (0 - 0)) with 0.
    destruct (Z.ltb_spec (index - 62) 0); [lia|]. rewrite lookup_nil. do 2 eexists. split; [done|by right].
Qed.

(** ** Histories *)

Inductive table_op := Op_add (palloc : nat -> bool) (e : header) | Op_size (size : Z).

(** The operations on one connection, up to the first that fails: that ends it. *)
Fixpoint hpack_run (fresh : list Z) (ops : list table_op) (h : ngx_http_v2_hpack_t) : res (Z * ngx_http_v2_hpack_t) :=
  match ops with
  | [] => Ok (NGX_OK, h)
  | op :: ops =>
      '(rc, h) ← match op with
                  | Op_add palloc e => ngx_http_v2_add_header palloc fresh h e
                  | Op_size size => ngx_http_v2_table_size h size
                  end;
      if rc =? NGX_OK then hpack_run fresh ops h else Ok (rc, h)
  end.

Definition op_fails (op : table_op) : Prop :=
  match op with Op_add palloc _ => exists k, palloc k = false | Op_size size => 4096 < size end.

Definition table_step (t : table) (op : table_op) : table :=
  match op with Op_add _ e => table_add e t | Op_size size => table_resize size t end.

Lemma hpack_run_ok fresh ops h t :
  length fresh = 4096%nat -> related h t -> Forall (fun op => if op is Op_size size then 0 <= size else True) ops ->
  h_added h + zlen ops < 18446744073709551616 ->
  exists rc h', hpack_run fresh ops h = Ok (rc, h') /\
    (rc = NGX_ERROR /\ Exists op_fails ops \/
     rc = NGX_OK /\ related h' (fold_left table_step ops t) /\ h_added h' < 18446744073709551616).
Proof.
  intros Hf Hrel Hops. revert h t Hrel. induction Hops as [|op ops Hop _ IH]; intros h t Hrel Hadd; cbn [hpack_run].
  - change (zlen (@nil table_op)) with 0 in Hadd. do 2 eexists. split; [done|]. right. split; [done|]. split; [done|lia].
  - rewrite zlen_cons in Hadd. pose proof (zlen_nonneg ops). destruct op as [palloc e|size].
    + destruct (add_ok palloc fresh h t e Hrel Hf) as (rc & h' & -> & [[-> Hno]|(-> & Hrel' & Ha)]); [lia|..]; rewrite Ok_bind.
      * do 2 eexists. split; [done|]. left. split; [done|by apply Exists_cons_hd].
      * change (NGX_OK =? NGX_OK) with true. cbn iota.
        destruct (IH h' _ Hrel' ltac:(lia)) as (rc & h'' & Hr & Hspec). do 2 eexists. split; [exact Hr|].
        destruct Hspec as [[-> Hex]|Hspec]; [left; split; [done|by apply Exists_cons_tl]|by right].
    + destruct (resize_ok h t size Hrel Hop) as (rc & h' & -> & Ha & [[-> Hno]|(-> & _ & Hrel')]); rewrite Ok_bind.
      * do 2 eexists. split; [done|]. left. split; [done|by apply Exists_cons_hd].
      * change (NGX_OK =? NGX_OK) with true. cbn iota.
        destruct (IH h' _ Hrel' ltac:(lia)) as (rc & h'' & Hr & Hspec). do 2 eexists. split; [exact Hr|].
        destruct Hspec as [[-> Hex]|Hspec]; [left; split; [done|by apply Exists_cons_tl]|by right].
Qed.

Lemma related_zero : related hpack_zero table_zero.
Proof. unfold related. cbn. split_and!; try done; lia. Qed.

(** C15: whatever is added to the dynamic table of a connection and however its size is
    changed, the table in memory answers every index as the list that HPACK describes: the
    static table first, then the entries from the newest on, the oldest of which have been
    dropped so that the others stay within the limit. No access leaves the rings, an entry
    that is used again never touches one that lives, and an operation fails only if memory
    is short or a size above 4096 is asked for. A size that is set before the first entry
    is forgotten. *)
Theorem hpack_table_refines fresh ops palloc hdr index name_only :
  length fresh = 4096%nat -> Forall (fun op => if op is Op_size size then 0 <= size else True) ops ->
  zlen ops < 18446744073709551616 -> 0 <= index < 18446744073709551616 ->
  exists rc h, hpack_run fresh ops hpack_zero = Ok (rc, h) /\
    (rc = NGX_ERROR /\ Exists op_fails ops \/
     rc = NGX_OK /\
     let t := fold_left table_step ops table_zero in
     total (t_list t) <= default NGX_HTTP_V2_TABLE_SIZE (t_max t) <= NGX_HTTP_V2_TABLE_SIZE /\
     exists rc' hdr', ngx_http_v2_get_indexed_header palloc h hdr index name_only = Ok (rc', hdr') /\
       (rc' = NGX_ERROR /\ (exists k, palloc k = false) \/
        match table_lookup index t with
        | Some e => rc' = NGX_OK /\ hdr' = if name_only && (61 <? index) then (e.1, hdr.2) else e
        | None => rc' = NGX_ERROR
        end)).
Proof.
  intros Hf Hops Hlen Hi.
  destruct (hpack_run_ok fresh ops hpack_zero table_zero Hf related_zero Hops) as (rc & h & Hr & Hspec); [cbn [h_added hpack_zero]; lia|].
  exists rc, h. split; [done|]. destruct Hspec as [Hno|(-> & Hrel & Ha)]; [by left|right]. split; [done|]. cbv zeta. split.
  - unfold related in Hrel. destruct (t_max (fold_left table_step ops table_zero)) as [max|] eqn:E; cbn [default].
    + destruct Hrel as (_ & _ & Hm & _ & Ht). unfold NGX_HTTP_V2_TABLE_SIZE, id. lia.
    + destruct Hrel as (_ & Hl & _). rewrite Hl. done.
  - by apply get_indexed_ok.
Qed.

Lemma hpack_table_refines_witness :
  let ops := [Op_add (fun _ => true) (str "a", str "x"); Op_size 40; Op_add (fun _ => true) (str "b", str "y")] in
  exists rc h, hpack_run (replicate 4096 0) ops hpack_zero = Ok (rc, h) /\ rc = NGX_OK /\
    ngx_http_v2_get_indexed_header (fun _ => true) h ([], []) 62 false = Ok (NGX_OK, (str "b", str "y")).
Proof.
  cbv zeta.
  destruct (hpack_table_refines (replicate 4096 0)
    [Op_add (fun _ => true) (str "a", str "x"); Op_size 40; Op_add (fun _ => true) (str "b", str "y")]
    (fun _ => true) ([], []) 62 false) as (rc & h & H1 & H2).
  - reflexivity.
  - repeat (apply Forall_cons_2; [first [exact I|lia]|]). by apply Forall_nil_2.
  - vm_compute. reflexivity.
  - lia.
  - exists rc, h. split; [exact H1|]. destruct H2 as [[_ H2]|(-> & _ & rc' & hdr' & H3 & H4)].
    + exfalso. apply Exists_exists in H2 as (op & Hop & Hf).
      repeat (apply elem_of_cons in Hop as [->|Hop]; [cbn in Hf; first [lia|by destruct Hf]|]). by apply not_elem_of_nil in Hop.
    + split; [reflexivity|]. rewrite H3. destruct H4 as [[_ [k Hk]]|H4]; [discriminate Hk|].
      vm_compute in H4. destruct H4 as [-> ->]. reflexivity.
Defined.
