(* ===== verification/HttpRange.v ===== *)
(** * Byte ranges of a response

    [src/http/modules/ngx_http_range_filter_module.c]: the header filter parses the
    [Range] header of a request and turns the response into one with one part or with
    several; the body filter cuts the parts out of the body, which comes in chains of
    buffers. *)

From S2P Require Import Prelude Sprintf HttpHeaderLine Times.

(** ** Data *)

Definition NGX_OFF_T_LEN : Z := 20.
Definition NGX_HTTP_VERSION_10 : Z := 1000.
Definition NGX_HTTP_OK : Z := 200.
Definition NGX_HTTP_PARTIAL_CONTENT : Z := 206.
Definition NGX_HTTP_RANGE_NOT_SATISFIABLE : Z := 416.

Record ngx_http_range_t := Range {
  rg_start : Z;
  rg_end : Z;
  rg_content_range : list Z
}.

#[export] Instance range_rebuild : Rebuild ngx_http_range_t := fun r =>
  Range (rg_start r) (rg_end r) (rg_content_range r).

Record ngx_http_range_filter_ctx_t := RangeCtx {
  cx_offset : Z;
  cx_boundary_header : list Z;
  cx_ranges : list ngx_http_range_t
}.

#[export] Instance range_ctx_rebuild : Rebuild ngx_http_range_filter_ctx_t := fun r =>
  RangeCtx (cx_offset r) (cx_boundary_header r) (cx_ranges r).

(** A header of the response, [ngx_table_elt_t]; one with [hash] 0 is not sent. *)
Record table_elt := Elt { te_hash : Z; te_key : list Z; te_value : list Z }.

#[export] Instance table_elt_rebuild : Rebuild table_elt := fun r =>
  Elt (te_hash r) (te_key r) (te_value r).

(** What the filter uses of a request. A pointer to a header of the response is its
    position in the list. *)
Record http_request := Request {
  rq_is_main : bool  (* [r == r->main] *);
  rq_main_ctx : option (list ngx_http_range_t)
    (* [mctx->ranges], if the main request has a context of this module *);
  rq_http_version : Z;
  rq_subrequest_ranges : bool;
  rq_allow_ranges : bool;
  rq_single_range : bool;
  rq_range : option (list Z * Z)  (* [headers_in.range]: the memory from [data] on, [len] *);
  rq_if_range : option (list Z);
  rq_status : Z;
  rq_status_line_len : Z;
  rq_headers : list table_elt;
  rq_content_length : option nat;
  rq_content_range : option nat;
  rq_accept_ranges : option nat;
  rq_etag : option (list Z);
  rq_last_modified_time : Z;
  rq_content_length_n : Z;
  rq_content_offset : Z;
  rq_content_type : list Z;
  rq_content_type_len : Z;
  rq_content_type_lowcase : option (list Z);
  rq_charset : list Z;
  rq_ctx : option ngx_http_range_filter_ctx_t;
  rq_temp_number : Z  (* [*ngx_temp_number], shared by all requests *)
}.

#[export] Instance request_rebuild : Rebuild http_request := fun r =>
  Request (rq_is_main r) (rq_main_ctx r) (rq_http_version r) (rq_subrequest_ranges r)
    (rq_allow_ranges r) (rq_single_range r) (rq_range r) (rq_if_range r) (rq_status r)
    (rq_status_line_len r) (rq_headers r) (rq_content_length r) (rq_content_range r)
    (rq_accept_ranges r) (rq_etag r) (rq_last_modified_time r) (rq_content_length_n r)
    (rq_content_offset r) (rq_content_type r) (rq_content_type_len r)
    (rq_content_type_lowcase r) (rq_charset r) (rq_ctx r) (rq_temp_number r).

(** How a header filter ends: it returns, or it calls the next filter with [r]. *)
Inductive verdict :=
| Return (rc : Z)
| NextFilter.

(** ** The [Range] header *)

(** [while ( *p == ' ') { p++; }] *)
Fixpoint skip_sp (p : list Z) : res (list Z) :=
  match p with
  | [] => Fault
  | c :: rest => if c =? " "%chr then skip_sp rest else Ok p
  end.

Definition cutoff : Z := NGX_MAX_OFF_T_VALUE / 10.
Definition cutlim : Z := NGX_MAX_OFF_T_VALUE mod 10.

(** The loop over the digits of a position; [None] returns
    [NGX_HTTP_RANGE_NOT_SATISFIABLE]. *)
Fixpoint position_digits (v : Z) (p : list Z) : res (option (Z * list Z)) :=
  match p with
  | [] => Fault
  | c :: rest =>
      if is_digit c then
        if (cutoff <=? v) && ((cutoff <? v) || (cutlim <? c - "0"%chr)) then Ok None
        else v ← int64 (v * 10 + (c - "0"%chr)); position_digits v rest
      else Ok (Some (v, p))
  end.

(** A position, which has a digit at least. *)
Definition position (p : list Z) : res (option (Z * list Z)) :=
  c ← get p 0;
  if negb (is_digit c) then Ok None else position_digits 0 p.

(** [if (suffix)] and [if (end >= content_length)], up to [found]. *)
Definition adjust (content_length : Z) (suffix : bool) (start end_ : Z) : res (Z * Z) :=
  '(start, end_) ←
    (if suffix then
       start ← (if end_ <? content_length then int64 (content_length - end_) else Ok 0);
       end_ ← int64 (content_length - 1);
       Ok (start, end_)
     else Ok (start, end_));
  if content_length <=? end_ then Ok (start, content_length)
  else end_ ← int64 (end_ + 1); Ok (start, end_).

(** The last position of a range, from line 339 on. *)
Definition range_end (content_length : Z) (suffix : bool) (start : Z) (p : list Z)
    : res (option (Z * Z * list Z)) :=
  n ← position p;
  match n with
  | None => Ok None
  | Some (end_, p) =>
      p ← skip_sp p;
      c ← get p 0;
      if negb (c =? ","%chr) && negb (c =? 0) then Ok None
      else
        '(start, end_) ← adjust content_length suffix start end_;
        Ok (Some (start, end_, p))
  end.

(** A range after its first position, from line 321 on. *)
Definition range_rest (content_length start : Z) (p : list Z) : res (option (Z * Z * list Z)) :=
  p ← skip_sp p;
  c ← get p 0;
  if negb (c =? "-"%chr) then Ok None
  else
    p ← skip_sp (drop 1 p);
    c ← get p 0;
    if (c =? ","%chr) || (c =? 0) then Ok (Some (start, content_length, p))
    else range_end content_length false start p.

(** One range, up to [found]: [start], [end] and [p]. *)
Definition parse_range (content_length : Z) (p : list Z) : res (option (Z * Z * list Z)) :=
  p ← skip_sp p;
  c ← get p 0;
  if c =? "-"%chr then range_end content_length true 0 (drop 1 p)
  else
    n ← position p;
    match n with
    | None => Ok None
    | Some (start, p) => range_rest content_length start p
    end.

Section allocations.
(** Whether the [k]-th allocation of a handler succeeds. *)
Context (palloc : nat -> bool).

(** The loop over the ranges, with what [ctx->ranges] holds already; every round
    consumes a comma, so the length of the text is enough fuel. *)
Fixpoint range_loop (fuel : nat) (content_length size ranges : Z) (found : list ngx_http_range_t)
    (p : list Z) : res (Z * list ngx_http_range_t) :=
  match fuel with
  | O => NoFuel
  | S fuel =>
      n ← parse_range content_length p;
      match n with
      | None => Ok (NGX_HTTP_RANGE_NOT_SATISFIABLE, found)
      | Some (start, end_, p) =>
          let next size ranges found :=
            c ← get p 0;
            if negb (c =? ","%chr) then
              Ok (match found with
                  | [] => NGX_HTTP_RANGE_NOT_SATISFIABLE
                  | _ => if content_length <? size then NGX_DECLINED else NGX_OK
                  end, found)
            else range_loop fuel content_length size ranges found (drop 1 p) in
          if start <? end_ then
            if negb (palloc (S (length found))) then Ok (NGX_ERROR, found)
            else
              let found := found ++ [Range start end_ []] in
              len ← int64 (end_ - start);
              limit ← int64 (NGX_MAX_OFF_T_VALUE - len);
              if limit <? size then Ok (NGX_HTTP_RANGE_NOT_SATISFIABLE, found)
              else
                size ← int64 (size + len);
                if ranges =? 0 then Ok (NGX_DECLINED, found)
                else next size (ranges - 1) found
          else if start =? 0 then Ok (NGX_DECLINED, found)
          else next size ranges found
      end
  end.

(** [ngx_http_range_parse]: its result and [ctx->ranges]. *)
Definition ngx_http_range_parse (r : http_request) (ranges : Z) : res (Z * list ngx_http_range_t) :=
  match rq_is_main r, rq_main_ctx r with
  | false, Some found => Ok (NGX_OK, found)
  | _, _ =>
      if negb (palloc 0) then Ok (NGX_ERROR, [])
      else
        match rq_range r with
        | None => Fault
        | Some (data, _) =>
            let p := drop 6 data in
            range_loop (S (length p)) (rq_content_length_n r) 0 ranges [] p
        end
  end.

(** ** The header of the response *)

(** [ngx_sprintf] into a buffer of [size] bytes. *)
Definition sprintf_into (size : Z) (fmt : list Z) (args : list arg) : res (list Z) :=
  out ← ngx_sprintf fmt args;
  if zlen out <=? size then Ok out else Fault.

(** [ngx_list_push(&r->headers_out.headers)] with [hash], [key] and [value] set; the
    position of the header. *)
Definition push_header (r : http_request) (key value : list Z) : nat * http_request :=
  (length (rq_headers r), r <| rq_headers := rq_headers r ++ [Elt 1 key value] |>).

(** [r->headers_out.headers] with [hash] 0 in the header at [i] *)
Definition hide (i : nat) (l : list table_elt) : list table_elt :=
  alter (fun h => h <| te_hash := 0 |>) i l.

(** [if (r->headers_out.content_length) { ... }] *)
Definition drop_content_length (r : http_request) : http_request :=
  match rq_content_length r with
  | Some i => r <| rq_headers := hide i (rq_headers r) |> <| rq_content_length := None |>
  | None => r
  end.

(** [content_range->hash = 0; r->headers_out.content_range = NULL;] *)
Definition undo_content_range (i : nat) (r : http_request) : http_request :=
  r <| rq_headers := hide i (rq_headers r) |> <| rq_content_range := None |>.

Definition ngx_http_range_singlepart_header (ctx : ngx_http_range_filter_ctx_t) (r : http_request)
    : res (verdict * http_request) :=
  if negb (rq_is_main r) then Ok (NextFilter, r)
  else if negb (palloc 0) then Ok (Return NGX_ERROR, r)
  else
    let '(i, r) := push_header r (str "Content-Range") [] in
    let r := r <| rq_content_range := Some i |> in
    if negb (palloc 1) then Ok (Return NGX_ERROR, undo_content_range i r)
    else
      match cx_ranges ctx with
      | [] => Fault
      | range :: _ =>
          last ← int64 (rg_end range - 1);
          value ← sprintf_into (zlen (str "bytes -/") + 3 * NGX_OFF_T_LEN) (str "bytes %O-%O/%O")
                    [A64 (rg_start range); A64 last; A64 (rq_content_length_n r)];
          let r := r <| rq_headers := alter (fun h => h <| te_value := value |>) i (rq_headers r) |> in
          n ← int64 (rg_end range - rg_start range);
          let r := r <| rq_content_length_n := n |> <| rq_content_offset := rg_start range |> in
          Ok (NextFilter, drop_content_length r)
      end.

Definition CRLF : list Z := [CR; LF].

(** [ngx_next_temp_number(0)] of [core/ngx_file.c] *)
Definition ngx_next_temp_number (r : http_request) : Z * http_request :=
  let n := u64 (rq_temp_number r + 1) in (n, r <| rq_temp_number := n |>).

(** Whether [Content-Type] is to have a parameter with the character set. *)
Definition with_charset (r : http_request) : bool :=
  (rq_content_type_len r =? zlen (rq_content_type r)) && (0 <? zlen (rq_charset r)).

(** [size], and [ctx->boundary_header] that is printed to so many bytes. *)
Definition boundary_size (r : http_request) : Z :=
  zlen (CRLF ++ str "--") + NGX_ATOMIC_T_LEN + zlen (CRLF ++ str "Content-Type: ")
    + zlen (rq_content_type r) + zlen (CRLF ++ str "Content-Range: bytes ")
    + (if with_charset r then zlen (str "; charset=") + zlen (rq_charset r) else 0).

Definition boundary_header (r : http_request) (boundary : Z) : res (list Z) :=
  if with_charset r then
    sprintf_into (boundary_size r)
      (CRLF ++ str "--%0muA" ++ CRLF ++ str "Content-Type: %V; charset=%V" ++ CRLF
       ++ str "Content-Range: bytes ")
      [A64 boundary; AStr (rq_content_type r); AStr (rq_charset r)]
  else if 0 <? zlen (rq_content_type r) then
    sprintf_into (boundary_size r)
      (CRLF ++ str "--%0muA" ++ CRLF ++ str "Content-Type: %V" ++ CRLF
       ++ str "Content-Range: bytes ")
      [A64 boundary; AStr (rq_content_type r)]
  else
    sprintf_into (boundary_size r)
      (CRLF ++ str "--%0muA" ++ CRLF ++ str "Content-Range: bytes ") [A64 boundary].

(** The loop that prints [content_range] of every range ([k] allocations were made) and
    sums up the length of the response; it ends early if an allocation fails. *)
Fixpoint print_ranges (k : nat) (total : Z) (header : list Z) (len : Z)
    (todo : list ngx_http_range_t) : res (bool * Z * list ngx_http_range_t) :=
  match todo with
  | [] => Ok (true, len, [])
  | range :: rest =>
      if negb (palloc k) then Ok (false, len, todo)
      else
        last ← int64 (rg_end range - 1);
        text ← sprintf_into (3 * NGX_OFF_T_LEN + 2 + 4) (str "%O-%O/%O" ++ CRLF ++ CRLF)
                 [A64 (rg_start range); A64 last; A64 total];
        n ← int64 (rg_end range - rg_start range);
        let len := signed64 (len + u64 (zlen header + zlen text + n)) in
        '(ok, len, rest) ← print_ranges (S k) total header len rest;
        Ok (ok, len, range <| rg_content_range := text |> :: rest)
  end.

(** The array of a subrequest that found the context of the main request is that of the
    main request. *)
Definition share (ranges : list ngx_http_range_t) (r : http_request) : option (list ngx_http_range_t) :=
  if rq_is_main r then rq_main_ctx r else option_map (fun _ => ranges) (rq_main_ctx r).

Definition ngx_http_range_multipart_header (ctx : ngx_http_range_filter_ctx_t) (r : http_request)
    : res (verdict * http_request) :=
  if negb (palloc 0) then Ok (Return NGX_ERROR, r)
  else
    let '(boundary, r) := ngx_next_temp_number r in
    header ← boundary_header r boundary;
    let ctx := ctx <| cx_boundary_header := header |> in
    let r := r <| rq_ctx := Some ctx |> in
    if negb (palloc 1) then Ok (Return NGX_ERROR, r)
    else
      type ← sprintf_into (zlen (str "Content-Type: multipart/byteranges; boundary=") + NGX_ATOMIC_T_LEN)
               (str "multipart/byteranges; boundary=%0muA") [A64 boundary];
      let r := r <| rq_content_type_lowcase := None |> <| rq_content_type := type |>
                 <| rq_content_type_len := zlen type |> <| rq_charset := [] |> in
      let len := zlen (CRLF ++ str "--") + NGX_ATOMIC_T_LEN + zlen (str "--" ++ CRLF) in
      '(ok, len, ranges) ← print_ranges 2 (rq_content_length_n r) header len (cx_ranges ctx);
      let r := r <| rq_ctx := Some (ctx <| cx_ranges := ranges |>) |>
                 <| rq_main_ctx := share ranges r |> in
      if negb ok then Ok (Return NGX_ERROR, r)
      else
        let r := r <| rq_content_length_n := len |> in
        Ok (NextFilter, drop_content_length r).

Definition ngx_http_range_not_satisfiable (r : http_request) : res (verdict * http_request) :=
  let r := r <| rq_status := NGX_HTTP_RANGE_NOT_SATISFIABLE |> in
  if negb (palloc 0) then Ok (Return NGX_ERROR, r)
  else
    let '(i, r) := push_header r (str "Content-Range") [] in
    let r := r <| rq_content_range := Some i |> in
    if negb (palloc 1) then Ok (Return NGX_ERROR, undo_content_range i r)
    else
      value ← sprintf_into (zlen (str "bytes */") + NGX_OFF_T_LEN) (str "bytes */%O")
                [A64 (rq_content_length_n r)];
      let r := r <| rq_headers := alter (fun h => h <| te_value := value |>) i (rq_headers r) |>
                 <| rq_content_length_n := -1 |> in
      Ok (Return NGX_HTTP_RANGE_NOT_SATISFIABLE, drop_content_length r).

(** ** The header filter *)

(** [ngx_strncasecmp(s1, s2, n) == 0] *)
Fixpoint ngx_strncasecmp (n : nat) (s1 s2 : list Z) : res Z :=
  match n with
  | O => Ok 0
  | S n =>
      c1 ← get s1 0;
      c2 ← get s2 0;
      let c1 := if between "A"%chr "Z"%chr c1 then Z.lor c1 0x20 else c1 in
      let c2 := if between "A"%chr "Z"%chr c2 then Z.lor c2 0x20 else c2 in
      if c1 =? c2 then if negb (c1 =? 0) then ngx_strncasecmp n (drop 1 s1) (drop 1 s2) else Ok 0
      else Ok (signed64 (c1 - c2))
  end.

(** [ngx_strncmp(s1, s2, n) == 0] *)
Fixpoint strncmp_same (n : nat) (s1 s2 : list Z) : res bool :=
  match n with
  | O => Ok true
  | S n =>
      c1 ← get s1 0;
      c2 ← get s2 0;
      if c1 =? c2 then if c1 =? 0 then Ok true else strncmp_same n (drop 1 s1) (drop 1 s2)
      else Ok false
  end.

(** Whether the response may be cut. *)
Definition ranges_allowed (r : http_request) : bool :=
  negb ((rq_http_version r <? NGX_HTTP_VERSION_10)
        || negb (rq_status r =? NGX_HTTP_OK)
        || (negb (rq_is_main r) && negb (rq_subrequest_ranges r))
        || (rq_content_length_n r =? -1)
        || negb (rq_allow_ranges r)).

(** Whether there is a [Range] header in bytes. *)
Definition has_range (r : http_request) : res bool :=
  match rq_range r with
  | None => Ok false
  | Some (data, len) =>
      if len <? 7 then Ok false
      else c ← ngx_strncasecmp 6 data (str "bytes="); Ok (c =? 0)
  end.

(** Whether [If-Range] lets the range through. *)
Definition if_range_holds (r : http_request) : res bool :=
  match rq_if_range r with
  | None => Ok true
  | Some if_range =>
      quoted ← (if 2 <=? zlen if_range then c ← get if_range (zlen if_range - 1); Ok (c =? 34)
                else Ok false);
      if (quoted : bool) then
        match rq_etag r with
        | None => Ok false
        | Some etag =>
            if negb (zlen if_range =? zlen etag) then Ok false
            else strncmp_same (length etag) if_range etag
        end
      else if rq_last_modified_time r =? -1 then Ok false
      else time ← ngx_parse_http_time if_range; Ok (time =? rq_last_modified_time r)
  end.

(** [next_filter]: the response says that ranges are understood. *)
Definition announce_ranges (r : http_request) : verdict * http_request :=
  if negb (palloc 0) then (Return NGX_ERROR, r <| rq_accept_ranges := None |>)
  else
    let '(i, r) := push_header r (str "Accept-Ranges") (str "bytes") in
    (NextFilter, r <| rq_accept_ranges := Some i |>).
End allocations.

(** The allocations of a callee, as the caller sees them. *)
Definition even (palloc : nat -> bool) (k : nat) : bool := palloc (2 * k)%nat.
Definition odd (palloc : nat -> bool) (k : nat) : bool := palloc (2 * k + 1)%nat.

(** The part of [ngx_http_range_header_filter] behind [parse]. The context is allocated
    with the array of ranges, the rest belongs to the callee. *)
Definition range_response (palloc : nat -> bool) (max_ranges : Z) (r : http_request)
    : res (verdict * http_request) :=
  if negb (palloc 0%nat) then Ok (Return NGX_ERROR, r)
  else
    let ranges := if rq_single_range r then 1 else max_ranges in
    '(rc, found) ← ngx_http_range_parse (odd palloc) r ranges;
    let ctx := RangeCtx (rq_content_offset r) [] found in
    if rc =? NGX_OK then
      let r := r <| rq_ctx := Some ctx |> <| rq_status := NGX_HTTP_PARTIAL_CONTENT |>
                 <| rq_status_line_len := 0 |> in
      if (length found =? 1)%nat then ngx_http_range_singlepart_header (fun k => even palloc (S k)) ctx r
      else ngx_http_range_multipart_header (fun k => even palloc (S k)) ctx r
    else if rc =? NGX_HTTP_RANGE_NOT_SATISFIABLE then
      ngx_http_range_not_satisfiable (fun k => even palloc (S k)) r
    else if rc =? NGX_ERROR then Ok (Return NGX_ERROR, r)
    else Ok (announce_ranges (fun k => even palloc (S k)) r).

Definition ngx_http_range_header_filter (palloc : nat -> bool) (max_ranges : Z) (r : http_request)
    : res (verdict * http_request) :=
  if negb (ranges_allowed r) then Ok (NextFilter, r)
  else if max_ranges =? 0 then Ok (NextFilter, r)
  else
    range ← has_range r;
    if negb range then Ok (announce_ranges (even palloc) r)
    else
      holds ← if_range_holds r;
      if negb holds then Ok (announce_ranges (even palloc) r)
      else range_response palloc max_ranges r.

(** ** Buffers *)

(** [ngx_buf_t]: [pos] and [last] are positions in the memory [b_data], [file_pos] and
    [file_last] in the file [b_file]. *)
Record ngx_buf_t := Buf {
  b_temporary : bool;
  b_memory : bool;
  b_mmap : bool;
  b_in_file : bool;
  b_flush : bool;
  b_sync : bool;
  b_last_buf : bool;
  b_last_in_chain : bool;
  b_pos : Z;
  b_last : Z;
  b_file_pos : Z;
  b_file_last : Z;
  b_data : list Z;
  b_file : list Z
}.

#[export] Instance buf_rebuild : Rebuild ngx_buf_t := fun b =>
  Buf (b_temporary b) (b_memory b) (b_mmap b) (b_in_file b) (b_flush b) (b_sync b) (b_last_buf b)
    (b_last_in_chain b) (b_pos b) (b_last b) (b_file_pos b) (b_file_last b) (b_data b) (b_file b).

(** [ngx_calloc_buf] *)
Definition calloc_buf : ngx_buf_t :=
  Buf false false false false false false false false 0 0 0 0 [] [].

Definition ngx_buf_in_memory (b : ngx_buf_t) : bool := b_temporary b || b_memory b || b_mmap b.

Definition ngx_buf_special (b : ngx_buf_t) : bool :=
  (b_flush b || b_last_buf b || b_sync b) && negb (ngx_buf_in_memory b) && negb (b_in_file b).

Definition ngx_buf_size (b : ngx_buf_t) : res Z :=
  if ngx_buf_in_memory b then int64 (b_last b - b_pos b) else int64 (b_file_last b - b_file_pos b).

(** ** The body filter *)

(** A buffer of which nothing is sent. *)
Definition skip_buf (b : ngx_buf_t) : ngx_buf_t :=
  let b := if b_in_file b then b <| b_file_pos := b_file_last b |> else b in
  b <| b_pos := b_last b |> <| b_sync := true |>.

(** [range->start > start]: the bytes before the range are dropped. *)
Definition trim_start (n : Z) (b : ngx_buf_t) : res ngx_buf_t :=
  b ← (if b_in_file b then p ← int64 (b_file_pos b + n); Ok (b <| b_file_pos := p |>) else Ok b);
  Ok (if ngx_buf_in_memory b then b <| b_pos := b_pos b + n |> else b).

(** [range->end <= last]: the bytes behind the range are dropped. *)
Definition trim_end (n : Z) (b : ngx_buf_t) : res ngx_buf_t :=
  b ← (if b_in_file b then p ← int64 (b_file_last b - n); Ok (b <| b_file_last := p |>) else Ok b);
  Ok (if ngx_buf_in_memory b then b <| b_last := b_last b - n |> else b).

(** One buffer of a chain that starts at [start] of the body and ends at [last]: the
    buffer as the filter leaves it, and whether it goes into the chain [out]. *)
Definition single_buf (is_main : bool) (range : ngx_http_range_t) (start last : Z) (b : ngx_buf_t)
    : res (ngx_buf_t * bool) :=
  if ngx_buf_special b then Ok (b, negb (rg_end range <=? start))
  else if (rg_end range <=? start) || (last <=? rg_start range) then Ok (skip_buf b, false)
  else
    b ← (if start <? rg_start range then n ← int64 (rg_start range - start); trim_start n b else Ok b);
    if rg_end range <=? last then
      n ← int64 (last - rg_end range);
      b ← trim_end n b;
      Ok (b <| b_last_buf := is_main |> <| b_last_in_chain := true |>, true)
    else Ok (b, true).

(** The loop over the chain: whether every link was allocated ([k] were before), the
    new offset, the buffers of [in] as they are left, and those of [out]. *)
Fixpoint single_loop (palloc : nat -> bool) (k : nat) (is_main : bool) (range : ngx_http_range_t)
    (offset : Z) (in_ : list ngx_buf_t) : res (bool * Z * list ngx_buf_t * list ngx_buf_t) :=
  match in_ with
  | [] => Ok (true, offset, [], [])
  | b :: in_ =>
      size ← ngx_buf_size b;
      last ← int64 (offset + size);
      '(b, linked) ← single_buf is_main range offset last b;
      if (linked : bool) && negb (palloc k) then Ok (false, last, b :: in_, [])
      else
        '(ok, offset, in_, out) ←
          single_loop palloc (if linked then S k else k) is_main range last in_;
        Ok (ok, offset, b :: in_, if linked then b :: out else out)
  end.

(** How a body filter ends: it returns, or it calls the next filter with a chain. *)
Inductive body_verdict :=
| BodyReturn (rc : Z)
| BodyNext (out : list ngx_buf_t).

Definition ngx_http_range_singlepart_body (palloc : nat -> bool) (is_main : bool)
    (ctx : ngx_http_range_filter_ctx_t) (in_ : list ngx_buf_t)
    : res (body_verdict * ngx_http_range_filter_ctx_t * list ngx_buf_t) :=
  match cx_ranges ctx with
  | [] => Fault
  | range :: _ =>
      '(ok, offset, in_, out) ← single_loop palloc 0 is_main range (cx_offset ctx) in_;
      Ok (if (ok : bool) then BodyNext out else BodyReturn NGX_ERROR, ctx <| cx_offset := offset |>, in_)
  end.

(** [None] is [overlapped]. *)
Definition ngx_http_range_test_overlapped (ctx : ngx_http_range_filter_ctx_t) (buf : ngx_buf_t)
    : res (option ngx_http_range_filter_ctx_t) :=
  if negb (cx_offset ctx =? 0) then Ok None
  else
    size ← ngx_buf_size buf;
    let start := cx_offset ctx in
    last ← int64 (cx_offset ctx + size);
    if negb (b_last_buf buf)
       && existsb (fun range => (rg_start range <? start) || (last <? rg_end range)) (cx_ranges ctx)
    then Ok None
    else Ok (Some (ctx <| cx_offset := size |>)).

(** A new buffer with the bytes [l] in memory. *)
Definition memory_buf (l : list Z) : ngx_buf_t :=
  calloc_buf <| b_data := l |> <| b_last := zlen l |>.

(** The data of a range. *)
Definition data_buf (buf : ngx_buf_t) (range : ngx_http_range_t) : res ngx_buf_t :=
  let b := calloc_buf <| b_in_file := b_in_file buf |> <| b_temporary := b_temporary buf |>
             <| b_memory := b_memory buf |> <| b_mmap := b_mmap buf |> <| b_file := b_file buf |> in
  b ← (if b_in_file buf then
         p ← int64 (b_file_pos buf + rg_start range);
         l ← int64 (b_file_pos buf + rg_end range);
         Ok (b <| b_file_pos := p |> <| b_file_last := l |>)
       else Ok b);
  Ok (if ngx_buf_in_memory buf then
        b <| b_data := b_data buf |> <| b_pos := b_pos buf + rg_start range |>
          <| b_last := b_pos buf + rg_end range |>
      else b).

(** The loop over the ranges, which makes three buffers and three links of each; [None]
    is a failed allocation. *)
Fixpoint multipart_parts (palloc : nat -> bool) (k : nat) (header : list Z) (buf : ngx_buf_t)
    (ranges : list ngx_http_range_t) : res (option (list ngx_buf_t)) :=
  match ranges with
  | [] => Ok (Some [])
  | range :: ranges =>
      if forallb palloc (seq k 6) then
        data ← data_buf buf range;
        rest ← multipart_parts palloc (k + 6) header buf ranges;
        Ok (match rest with
            | Some out =>
                Some ((memory_buf header) <| b_memory := true |>
                      :: (memory_buf (rg_content_range range)) <| b_temporary := true |>
                      :: data :: out)
            | None => None
            end)
      else Ok None
  end.

Definition ngx_http_range_multipart_body (palloc : nat -> bool) (ctx : ngx_http_range_filter_ctx_t)
    (buf : ngx_buf_t) : res body_verdict :=
  parts ← multipart_parts palloc 3 (cx_boundary_header ctx) buf (cx_ranges ctx);
  match parts with
  | None => Ok (BodyReturn NGX_ERROR)
  | Some out =>
      if forallb palloc (seq 0 3) then
        boundary ← slice (cx_boundary_header ctx) 0 (zlen (CRLF ++ str "--") + NGX_ATOMIC_T_LEN);
        Ok (BodyNext (out ++ [(memory_buf (boundary ++ str "--" ++ CRLF))
                                <| b_temporary := true |> <| b_last_buf := true |>]))
      else Ok (BodyReturn NGX_ERROR)
  end.

(** [ngx_http_range_body_filter]: its verdict, the context and the buffers of [in]. *)
Definition ngx_http_range_body_filter (palloc : nat -> bool) (is_main : bool)
    (ctx : option ngx_http_range_filter_ctx_t) (in_ : list ngx_buf_t)
    : res (body_verdict * option ngx_http_range_filter_ctx_t * list ngx_buf_t) :=
  match in_, ctx with
  | [], _ | _, None => Ok (BodyNext in_, ctx, in_)
  | buf :: _, Some c =>
      if (length (cx_ranges c) =? 1)%nat then
        '(v, c, in_) ← ngx_http_range_singlepart_body palloc is_main c in_;
        Ok (v, Some c, in_)
      else if ngx_buf_special buf then Ok (BodyNext in_, ctx, in_)
      else
        t ← ngx_http_range_test_overlapped c buf;
        match t with
        | None => Ok (BodyReturn NGX_ERROR, ctx, in_)
        | Some c =>
            v ← ngx_http_range_multipart_body palloc c buf;
            Ok (v, Some c, in_)
        end
  end.

(** ** Examples *)

Definition range_request (value : list Z) (n : Z) : http_request :=
  Request true None 1001 false true false (Some (value ++ [0], zlen value)) None 200 6
    [Elt 1 (str "Content-Length") (str "10")] (Some 0%nat) None None None (-1) n 0 (str "text/plain")
    10 None [] None 41.

Example range_parse_example :
  ngx_http_range_parse (fun _ => true) (range_request (str "bytes=0-1, 4 - 5 ,-3,7-") 10) 10
    = Ok (NGX_OK, [Range 0 2 []; Range 4 6 []; Range 7 10 []; Range 7 10 []]).
Proof. reflexivity. Qed.

Example range_parse_limit :
  ngx_http_range_parse (fun _ => true) (range_request (str "bytes=0-1,2-3") 10) 1
    = Ok (NGX_DECLINED, [Range 0 2 []; Range 2 4 []]).
Proof. reflexivity. Qed.

(** The largest position, and one more. *)
Example range_parse_max :
  ngx_http_range_parse (fun _ => true) (range_request (str "bytes=1-9223372036854775807") 10) 1
    = Ok (NGX_OK, [Range 1 10 []]) /\
  ngx_http_range_parse (fun _ => true) (range_request (str "bytes=1-9223372036854775808") 10) 1
    = Ok (NGX_HTTP_RANGE_NOT_SATISFIABLE, []).
Proof. split; reflexivity. Qed.
