(* ===== verification/HttpRangeSpec.v ===== *)
(** * What a [Range] header asks for

    The grammar of the header, the ranges it stands for in a body of known length, and
    the theorem that [ngx_http_range_parse] returns these and accepts nothing else. *)

From S2P Require Import Prelude Numeric NumericSpec Sprintf HttpHeaderLine Times HttpRange.

(** ** The grammar *)

Inductive range_spec :=
| From (first : Z)
| Span (first last : Z)
| Suffix (n : Z).

Definition number (ds : list Z) (v : Z) : Prop :=
  ds <> [] /\ forallb is_digit ds = true /\ dec_from 0 ds = v /\ v <= NGX_MAX_OFF_T_VALUE.

Definition spaces (n : nat) : list Z := replicate n " "%chr.

(** One range, with spaces at the places where they are allowed. *)
Inductive item : list Z -> range_spec -> Prop :=
| item_from a ds v b c :
    number ds v -> item (spaces a ++ ds ++ spaces b ++ "-"%chr :: spaces c) (From v)
| item_span a ds v b c es w d :
    number ds v -> number es w ->
    item (spaces a ++ ds ++ spaces b ++ "-"%chr :: spaces c ++ es ++ spaces d) (Span v w)
| item_suffix a es w d : number es w -> item (spaces a ++ "-"%chr :: es ++ spaces d) (Suffix w).

(** Ranges with commas between them. *)
Inductive range_set : list Z -> list range_spec -> Prop :=
| set_one t s : item t s -> range_set t [s]
| set_more t s l ss : item t s -> range_set l ss -> range_set (t ++ ","%chr :: l) (s :: ss).

(** ** The meaning *)

(** The positions from the first to behind the last, in a body of [n] bytes. *)
Definition resolve (n : Z) (s : range_spec) : Z * Z :=
  match s with
  | From first => (first, n)
  | Span first last => (first, Z.min n (last + 1))
  | Suffix k => (Z.max 0 (n - k), n)
  end.

Definition nonempty (r : Z * Z) : bool := r.1 <? r.2.

(** The ranges that have a byte of the body. *)
Definition wanted (n : Z) (ss : list range_spec) : list (Z * Z) :=
  List.filter nonempty (map (resolve n) ss).

Definition total (l : list (Z * Z)) : Z := foldr (fun r s => r.2 - r.1 + s) 0 l.

(** A range that starts at 0 and is empty: the body is. *)
Definition of_nothing (n : Z) (s : range_spec) : bool :=
  let r := resolve n s in (r.1 =? 0) && negb (nonempty r).

(** What becomes of the request: the whole body is sent if there are too many ranges or
    they are longer than it; there is an error if none has a byte. *)
Definition range_verdict (n ranges : Z) (ss : list range_spec) : Z :=
  let w := wanted n ss in
  if existsb (of_nothing n) ss || (ranges <? zlen w) then NGX_DECLINED
  else match w with
       | [] => NGX_HTTP_RANGE_NOT_SATISFIABLE
       | _ => if n <? total w then NGX_DECLINED else NGX_OK
       end.

Definition as_range (r : Z * Z) : ngx_http_range_t := Range r.1 r.2 [].

(** ** Scanning *)

Definition terminated (p : list Z) : Prop := 0 ∈ p.

Lemma terminated_tail c p : terminated (c :: p) -> c <> 0 -> terminated p.
Proof. unfold terminated. by intros [<-|?]%elem_of_cons ?. Qed.

Lemma terminated_head p : terminated p -> exists c rest, p = c :: rest.
Proof. destruct p as [|c p]; [by intros ?%elem_of_nil|eauto]. Qed.

Lemma skip_sp_app n c p : c <> 32 -> skip_sp (spaces n ++ c :: p) = Ok (c :: p).
Proof.
  intros Hc. induction n as [|n IH]; cbn; [|done]. by destruct (Z.eqb_spec c 32).
Qed.

Lemma skip_sp_ok p :
  terminated p ->
  exists n c rest, skip_sp p = Ok (c :: rest) /\ p = spaces n ++ c :: rest /\ c <> 32 /\
    terminated (c :: rest).
Proof.
  induction p as [|c p IH]; intros Ht; [by apply elem_of_nil in Ht|]. cbn [skip_sp].
  destruct (Z.eqb_spec c 32) as [->|Hc].
  - apply terminated_tail in Ht; [|done]. destruct (IH Ht) as (n & c & rest & -> & -> & Hc & Ht').
    by exists (S n), c, rest.
  - by exists O, c, p.
Qed.

Lemma overflow_test v d :
  0 <= v -> 0 <= d <= 9 ->
  (cutoff <=? v) && ((cutoff <? v) || (cutlim <? d)) = (NGX_MAX_OFF_T_VALUE <? v * 10 + d).
Proof.
  intros Hv Hd. change cutoff with 922337203685477580. change cutlim with 7. unfold NGX_MAX_OFF_T_VALUE.
  destruct (Z.leb_spec 922337203685477580 v), (Z.ltb_spec 922337203685477580 v), (Z.ltb_spec 7 d),
    (Z.ltb_spec 9223372036854775807 (v * 10 + d)); cbn; lia.
Qed.

Lemma dec_from_step v c l : dec_from v (c :: l) = dec_from (v * 10 + (c - 48)) l.
Proof. reflexivity. Qed.

Lemma position_digits_app v ds c p :
  0 <= v <= NGX_MAX_OFF_T_VALUE -> forallb is_digit ds = true -> is_digit c = false ->
  position_digits v (ds ++ c :: p) =
    Ok (if dec_from v ds <=? NGX_MAX_OFF_T_VALUE then Some (dec_from v ds, c :: p) else None).
Proof.
  revert v. induction ds as [|d ds IH]; intros v Hv Hds Hc.
  - cbn [app position_digits]. rewrite Hc. change (dec_from v []) with v.
    by destruct (Z.leb_spec v NGX_MAX_OFF_T_VALUE); [|lia].
  - cbn [forallb] in Hds. apply andb_true_iff in Hds as [Hd Hds].
    cbn [app position_digits]. rewrite Hd. apply is_digit_spec in Hd as Hd'.
    rewrite overflow_test, dec_from_step by lia.
    pose proof (dec_from_le (v * 10 + (d - 48)) ds ltac:(lia) Hds) as Hle.
    destruct (Z.ltb_spec NGX_MAX_OFF_T_VALUE (v * 10 + (d - 48))) as [Hb|Hb].
    + by destruct (Z.leb_spec (dec_from (v * 10 + (d - 48)) ds) NGX_MAX_OFF_T_VALUE); [lia|].
    + unfold NGX_MAX_OFF_T_VALUE in *. rewrite int64_ok, Ok_bind by lia. apply IH; [lia|done|done].
Qed.

(** A text splits into its leading digits and the rest. *)
Lemma split_digits p :
  terminated p ->
  exists ds c rest, p = ds ++ c :: rest /\ forallb is_digit ds = true /\ is_digit c = false /\
    terminated (c :: rest).
Proof.
  induction p as [|c p IH]; intros Ht; [by apply elem_of_nil in Ht|].
  destruct (is_digit c) eqn:Hc; [|by exists [], c, p].
  apply terminated_tail in Ht; [|intros ->; done].
  destruct (IH Ht) as (ds & c' & rest & -> & Hds & Hc' & Ht'). exists (c :: ds), c', rest.
  repeat split; [|done|done]. cbn [forallb]. by rewrite Hc.
Qed.

(** What follows the digits of a number. *)
Definition no_digit (p : list Z) : Prop := exists c q, p = c :: q /\ is_digit c = false.

Lemma no_digit_spaces n c p : is_digit c = false -> no_digit (spaces n ++ c :: p).
Proof. intros Hc. destruct n as [|n]; [by exists c, p|]. by exists 32, (spaces n ++ c :: p). Qed.

Lemma position_digit d p : position (d :: p) = if is_digit d then position_digits 0 (d :: p) else Ok None.
Proof. unfold position. change (get (d :: p) 0) with (Ok d). rewrite Ok_bind. by destruct (is_digit d). Qed.

Lemma position_app ds v q : number ds v -> no_digit q -> position (ds ++ q) = Ok (Some (v, q)).
Proof.
  intros (Hne & Hds & <- & Hv) (c & p & -> & Hc). destruct ds as [|d ds]; [done|].
  cbn [app]. rewrite position_digit. pose proof Hds as [Hd _]%andb_true_iff. rewrite Hd.
  change (d :: ds ++ c :: p) with ((d :: ds) ++ c :: p).
  rewrite position_digits_app by (done || (unfold NGX_MAX_OFF_T_VALUE; lia)).
  by destruct (Z.leb_spec (dec_from 0 (d :: ds)) NGX_MAX_OFF_T_VALUE); [|lia].
Qed.

Lemma position_ok p :
  terminated p ->
  position p = Ok None \/
  exists ds v q, p = ds ++ q /\ number ds v /\ no_digit q /\ terminated q /\
    position p = Ok (Some (v, q)).
Proof.
  intros Ht. destruct (split_digits p Ht) as (ds & c & rest & -> & Hds & Hc & Ht').
  assert (no_digit (c :: rest)) as Hq by (by exists c, rest).
  destruct ds as [|d ds]; [left; cbn [app]; by rewrite position_digit, Hc|].
  destruct (Z.leb_spec (dec_from 0 (d :: ds)) NGX_MAX_OFF_T_VALUE) as [Hv|Hv].
  - right. exists (d :: ds), (dec_from 0 (d :: ds)), (c :: rest).
    assert (number (d :: ds) (dec_from 0 (d :: ds))) as Hn by (by repeat split).
    repeat split; try done. by apply position_app.
  - left. cbn [app]. rewrite position_digit. pose proof Hds as [Hd _]%andb_true_iff. rewrite Hd.
    change (d :: ds ++ c :: rest) with ((d :: ds) ++ c :: rest).
    rewrite position_digits_app by (done || (unfold NGX_MAX_OFF_T_VALUE; lia)).
    by destruct (Z.leb_spec (dec_from 0 (d :: ds)) NGX_MAX_OFF_T_VALUE); [lia|].
Qed.

(** ** One range *)

Definition stop (c : Z) : Prop := c = ","%chr \/ c = 0.

Lemma stop_facts c :
  stop c -> c <> 32 /\ is_digit c = false /\ (c =? ","%chr) || (c =? 0) = true /\
    negb (c =? ","%chr) && negb (c =? 0) = false.
Proof. by intros [-> | ->]. Qed.

Section body.
Context (n : Z) (Hn : 0 <= n <= NGX_MAX_OFF_T_VALUE).

Lemma adjust_ok suffix start e :
  0 <= e <= NGX_MAX_OFF_T_VALUE ->
  adjust n suffix start e =
    Ok (if suffix then resolve n (Suffix e) else resolve n (Span start e)).
Proof using Hn.
  unfold NGX_MAX_OFF_T_VALUE in Hn |- *. intros He. unfold adjust, resolve. destruct suffix; cbn [mbind].
  - destruct (Z.ltb_spec e n).
    + rewrite !(int64_ok (n - e)), Ok_bind, (int64_ok (n - 1)), !Ok_bind by lia.
      destruct (Z.leb_spec n (n - 1)); [lia|]. rewrite int64_ok, Ok_bind by lia.
      do 2 f_equal; lia.
    + rewrite Ok_bind, (int64_ok (n - 1)), !Ok_bind by lia.
      destruct (Z.leb_spec n (n - 1)); [lia|]. rewrite int64_ok, Ok_bind by lia.
      do 2 f_equal; lia.
  - rewrite Ok_bind. destruct (Z.leb_spec n e); [do 2 f_equal; lia|].
    rewrite int64_ok, Ok_bind by lia. do 2 f_equal; lia.
Qed.

Lemma number_range ds v : number ds v -> 0 <= v <= NGX_MAX_OFF_T_VALUE.
Proof. intros (_ & Hds & <- & Hv). pose proof (dec_from_le 0 ds ltac:(lia) Hds). lia. Qed.

(** What [resolve] makes of a range, and where the text goes on. *)
Definition found_at (s : range_spec) (q : list Z) : res (option (Z * Z * list Z)) :=
  Ok (Some ((resolve n s).1, (resolve n s).2, q)).

Lemma range_end_app suffix start es w d c q :
  number es w -> stop c ->
  range_end n suffix start (es ++ spaces d ++ c :: q) =
    found_at (if suffix then Suffix w else Span start w) (c :: q).
Proof using Hn.
  intros Hes Hc. destruct (stop_facts c Hc) as (Hs & Hd & _ & Ht). unfold range_end.
  rewrite (position_app es w) by (done || by apply no_digit_spaces). rewrite Ok_bind.
  rewrite skip_sp_app, Ok_bind by done. change (get (c :: q) 0) with (Ok c). rewrite Ok_bind, Ht.
  rewrite adjust_ok by (by eapply number_range). by destruct suffix.
Qed.

Lemma range_end_ok suffix start p :
  terminated p ->
  range_end n suffix start p = Ok None \/
  exists es w d c q, p = es ++ spaces d ++ c :: q /\ number es w /\ stop c /\ terminated (c :: q).
Proof using Hn.
  intros Ht. unfold range_end.
  destruct (position_ok p Ht) as [->|(es & w & q & -> & Hes & Hq & Htq & ->)]; [by left|].
  rewrite Ok_bind. destruct (skip_sp_ok q Htq) as (d & c & q' & -> & -> & Hc & Htc).
  rewrite Ok_bind. change (get (c :: q') 0) with (Ok c). rewrite Ok_bind.
  destruct (Z.eqb_spec c 44) as [->|]; [right; exists es, w, d, 44, q'; exact (conj eq_refl (conj Hes (conj (or_introl eq_refl) Htc)))|].
  destruct (Z.eqb_spec c 0) as [->|]; [right; exists es, w, d, 0, q'; exact (conj eq_refl (conj Hes (conj (or_intror eq_refl) Htc)))|].
  by left.
Qed.

Lemma range_rest_from v b d c q :
  stop c -> range_rest n v (spaces b ++ "-"%chr :: spaces d ++ c :: q) = found_at (From v) (c :: q).
Proof using.
  intros Hc. destruct (stop_facts c Hc) as (Hs & _ & Ht & _). unfold range_rest.
  rewrite skip_sp_app by done. rewrite Ok_bind. change (get (45 :: ?l) 0) with (Ok 45). rewrite Ok_bind.
  change (drop 1 (45 :: ?l)) with l. rewrite skip_sp_app by done.
  cbn [negb Z.eqb Pos.eqb]. rewrite Ok_bind. change (get (c :: q) 0) with (Ok c). by rewrite Ok_bind, Ht.
Qed.

Lemma number_head ds v :
  number ds v -> exists x ds', ds = x :: ds' /\ is_digit x = true /\ x <> 32 /\ x <> 45 /\ x <> 44 /\ x <> 0.
Proof using.
  intros (Hne & Hds & _). destruct ds as [|x ds]; [done|]. exists x, ds.
  pose proof Hds as [Hx _]%andb_true_iff. apply is_digit_spec in Hx as Hx'. repeat split; done || lia.
Qed.

Lemma range_rest_span v b d es w e c q :
  number es w -> stop c ->
  range_rest n v (spaces b ++ "-"%chr :: spaces d ++ es ++ spaces e ++ c :: q) = found_at (Span v w) (c :: q).
Proof using Hn.
  intros Hes Hc. unfold range_rest. rewrite skip_sp_app by done. rewrite Ok_bind.
  change (get (45 :: ?l) 0) with (Ok 45). rewrite Ok_bind. cbn [negb Z.eqb Pos.eqb].
  change (drop 1 (45 :: ?l)) with l. destruct (number_head es w Hes) as (x & es' & -> & Hx & H1 & _ & H2 & H3).
  cbn [app]. rewrite skip_sp_app by done. rewrite Ok_bind. change (get (x :: ?l) 0) with (Ok x).
  rewrite Ok_bind. destruct (Z.eqb_spec x 44); [done|]. destruct (Z.eqb_spec x 0); [done|]. cbn [orb].
  by apply (range_end_app false v (x :: es')).
Qed.

Lemma parse_range_number a ds v q :
  number ds v -> no_digit q -> parse_range n (spaces a ++ ds ++ q) = range_rest n v q.
Proof using.
  intros Hv Hq. unfold parse_range. destruct (number_head ds v Hv) as (x & ds' & -> & Hx & H1 & H2 & _).
  cbn [app]. rewrite skip_sp_app by done. rewrite Ok_bind. change (get (x :: ?l) 0) with (Ok x).
  rewrite Ok_bind. destruct (Z.eqb_spec x 45); [done|].
  change (x :: ds' ++ q) with ((x :: ds') ++ q). by rewrite (position_app _ v).
Qed.

Lemma parse_range_minus a q : parse_range n (spaces a ++ "-"%chr :: q) = range_end n true 0 q.
Proof using.
  unfold parse_range. rewrite skip_sp_app by done. rewrite Ok_bind.
  change (get (45 :: ?l) 0) with (Ok 45). by rewrite Ok_bind.
Qed.

Lemma parse_range_item t s c q :
  item t s -> stop c -> parse_range n (t ++ c :: q) = found_at s (c :: q).
Proof using Hn.
  intros Hi Hc. destruct Hi as [a ds v b d Hv|a ds v b d es w e Hv Hw|a es w d Hw].
  all: rewrite <- !app_assoc; cbn [app]; rewrite <- ?app_assoc.
  - rewrite (parse_range_number a ds v) by (done || by apply no_digit_spaces). by apply range_rest_from.
  - rewrite (parse_range_number a ds v) by (done || by apply no_digit_spaces). by apply range_rest_span.
  - rewrite parse_range_minus. by apply (range_end_app true).
Qed.

(** The parser accepts nothing else. *)
Lemma range_rest_ok v q :
  terminated q ->
  range_rest n v q = Ok None \/
  exists u s c q', q = u ++ c :: q' /\ stop c /\ terminated (c :: q') /\
    forall a ds, number ds v -> item (spaces a ++ ds ++ u) s.
Proof using Hn.
  intros Ht. unfold range_rest. destruct (skip_sp_ok q Ht) as (b & c1 & q1 & -> & -> & Hc1 & Ht1).
  rewrite Ok_bind. change (get (c1 :: q1) 0) with (Ok c1). rewrite Ok_bind.
  destruct (Z.eqb_spec c1 45) as [->|]; [|by left]. cbn [negb]. change (drop 1 (45 :: q1)) with q1.
  apply terminated_tail in Ht1; [|done].
  destruct (skip_sp_ok q1 Ht1) as (d & c2 & q2 & -> & -> & Hc2 & Ht2).
  rewrite Ok_bind. change (get (c2 :: q2) 0) with (Ok c2). rewrite Ok_bind.
  destruct ((c2 =? 44) || (c2 =? 0)) eqn:Hstop.
  - right. exists (spaces b ++ 45 :: spaces d), (From v), c2, q2. split; [by rewrite <- app_assoc|].
    split; [unfold stop; lia|]. split; [done|]. intros a ds Hds. by apply item_from.
  - destruct (range_end_ok false v (c2 :: q2) Ht2) as [->|(es & w & e & c & q' & -> & Hes & Hc & Htq)]; [by left|].
    right. exists (spaces b ++ 45 :: spaces d ++ es ++ spaces e), (Span v w), c, q'.
    split; [by rewrite <- app_assoc; cbn [app]; rewrite <- !app_assoc|]. split; [done|]. split; [done|].
    intros a ds Hds. by apply item_span.
Qed.

Lemma parse_range_ok p :
  terminated p ->
  parse_range n p = Ok None \/
  exists t s c q, p = t ++ c :: q /\ item t s /\ stop c /\ terminated (c :: q) /\
    parse_range n p = found_at s (c :: q).
Proof using Hn.
  intros Ht. cut (parse_range n p = Ok None \/
    exists t s c q, p = t ++ c :: q /\ item t s /\ stop c /\ terminated (c :: q)).
  { intros [H|(t & s & c & q & -> & Hi & Hc & Hq)]; [by left|right].
    exists t, s, c, q. pose proof (parse_range_item t s c q Hi Hc). done. }
  destruct (skip_sp_ok p Ht) as (a & c & q & Hp & -> & Hc & Htc).
  destruct (Z.eq_dec c 45) as [->|Hm].
  - rewrite parse_range_minus. apply terminated_tail in Htc; [|done].
    destruct (range_end_ok true 0 q Htc) as [->|(es & w & d & c & q' & -> & Hes & Hc' & Htq)]; [by left|right].
    exists (spaces a ++ 45 :: es ++ spaces d), (Suffix w), c, q'.
    split; [by rewrite <- !app_assoc; cbn [app]; rewrite <- app_assoc|]. split; [by apply item_suffix|done].
  - destruct (position_ok (c :: q) Htc) as [Hnone|(ds & v & q' & Hq & Hds & Hnd & Htq & _)].
    { left. unfold parse_range. rewrite Hp, Ok_bind. change (get (c :: q) 0) with (Ok c). rewrite Ok_bind.
      destruct (Z.eqb_spec c 45); [done|]. by rewrite Hnone. }
    rewrite Hq, (parse_range_number a ds v) by done.
    destruct (range_rest_ok v q' Htq) as [->|(u & s & c1 & q1 & -> & Hc1 & Ht1 & Hi)]; [by left|right].
    exists (spaces a ++ ds ++ u), s, c1, q1. split; [by rewrite <- !app_assoc|]. by split; [apply Hi|].
Qed.
(** ** The loop over the ranges *)

Lemma item_bounds t s : item t s -> nonempty (resolve n s) = true -> 0 <= (resolve n s).1 < (resolve n s).2 /\ (resolve n s).2 <= n.
Proof using Hn.
  unfold nonempty. intros Hi Hne%Z.ltb_lt. split; [split; [|done]|].
  - destruct Hi as [a ds v b d Hv|a ds v b d es w e Hv Hw|a es w d Hw]; cbn; try lia; by eapply number_range.
  - destruct Hi; cbn; lia.
Qed.

Section loop.
Context (palloc : nat -> bool).

(** The result behind the last range. *)
Definition closing (size : Z) (found : list ngx_http_range_t) : Z :=
  match found with
  | [] => NGX_HTTP_RANGE_NOT_SATISFIABLE
  | _ => if n <? size then NGX_DECLINED else NGX_OK
  end.

Definition go_on (fuel : nat) (size ranges : Z) (found : list ngx_http_range_t) (c : Z) (q : list Z) :=
  if c =? ","%chr then range_loop palloc fuel n size ranges found q
  else Ok (closing size found, found).

Lemma range_loop_step fuel size ranges found t s c q :
  item t s -> stop c -> 0 <= size <= NGX_MAX_OFF_T_VALUE ->
  let r := resolve n s in
  let found' := found ++ [as_range r] in
  range_loop palloc (S fuel) n size ranges found (t ++ c :: q) =
    if nonempty r then
      if negb (palloc (S (length found))) then Ok (NGX_ERROR, found)
      else if NGX_MAX_OFF_T_VALUE <? size + (r.2 - r.1) then Ok (NGX_HTTP_RANGE_NOT_SATISFIABLE, found')
      else if ranges =? 0 then Ok (NGX_DECLINED, found')
      else go_on fuel (size + (r.2 - r.1)) (ranges - 1) found' c q
    else if r.1 =? 0 then Ok (NGX_DECLINED, found)
    else go_on fuel size ranges found c q.
Proof using Hn.
  intros Hi Hc Hsize r found'. cbn [range_loop]. rewrite (parse_range_item t s) by done.
  unfold found_at. rewrite Ok_bind. fold r. pose proof (item_bounds t s Hi) as Hb. fold r in Hb.
  unfold nonempty in *. change (get (c :: q) 0) with (Ok c). change (drop 1 (c :: q)) with q. rewrite !Ok_bind.
  unfold go_on. destruct (r.1 <? r.2).
  - destruct (palloc (S (length found))); [|done]. cbn [negb]. specialize (Hb eq_refl).
    unfold NGX_MAX_OFF_T_VALUE in *. rewrite (int64_ok (r.2 - r.1)), Ok_bind by lia.
    rewrite (int64_ok (9223372036854775807 - (r.2 - r.1))), Ok_bind by lia.
    replace (9223372036854775807 - (r.2 - r.1) <? size) with (9223372036854775807 <? size + (r.2 - r.1)) by lia.
    destruct (Z.ltb_spec 9223372036854775807 (size + (r.2 - r.1))); [done|].
    rewrite int64_ok, Ok_bind by lia. destruct (ranges =? 0); [done|]. rewrite Ok_bind. by destruct (c =? 44).
  - destruct (r.1 =? 0); [done|]. by destruct (c =? 44).
Qed.

Lemma wanted_cons s ss :
  wanted n (s :: ss) = (if nonempty (resolve n s) then [resolve n s] else []) ++ wanted n ss.
Proof using. unfold wanted. cbn [map List.filter]. by destruct (nonempty (resolve n s)). Qed.

Lemma sizes_app l1 l2 : total (l1 ++ l2) = total l1 + total l2.
Proof using. induction l1 as [|r l1 IH]; [done|]. cbn. fold (total (l1 ++ l2)) (total l1). lia. Qed.

Lemma wanted_bounds t ss :
  range_set t ss -> Forall (fun r => 0 <= r.1 < r.2 /\ r.2 <= n) (wanted n ss).
Proof using Hn.
  induction 1 as [t s Hi|t s l ss Hi Hs IH]; rewrite wanted_cons; apply Forall_app; (split; [|done || by apply Forall_nil]).
  all: destruct (nonempty (resolve n s)) eqn:E; [|by apply Forall_nil].
  all: apply Forall_singleton; by apply (item_bounds t).
Qed.

Lemma total_nonneg l : Forall (fun r => 0 <= r.1 < r.2 /\ r.2 <= n) l -> 0 <= total l.
Proof using. induction 1 as [|r l Hr Hl IH]; [done|]. cbn. fold (total l). lia. Qed.

(** On a text of the grammar. *)
Lemma range_loop_spec t ss :
  range_set t ss -> (forall k, palloc k = true) ->
  forall fuel size ranges found q,
  0 <= size -> size + total (wanted n ss) <= NGX_MAX_OFF_T_VALUE -> 0 <= ranges -> (length t < fuel)%nat ->
  if existsb (of_nothing n) ss || (ranges <? zlen (wanted n ss)) then
    exists found', range_loop palloc fuel n size ranges found (t ++ 0 :: q) = Ok (NGX_DECLINED, found')
  else
    let found' := found ++ map as_range (wanted n ss) in
    range_loop palloc fuel n size ranges found (t ++ 0 :: q)
    = Ok (closing (size + total (wanted n ss)) found', found').
Proof using Hn.
  intros Hset Hp. induction Hset as [t s Hi|t s l ss Hi Hs IH]; intros fuel size ranges found q H0 Hmax Hr Hf.
  all: destruct fuel as [|fuel]; [lia|].
  - pose proof (wanted_bounds t [s] ltac:(by apply set_one)) as Hb%total_nonneg.
    rewrite (range_loop_step fuel size ranges found t s) by (done || (by right) || lia).
    rewrite Hp. cbn [existsb negb]. rewrite orb_false_r. unfold of_nothing. revert Hb Hmax. unfold wanted. cbn [map List.filter].
    destruct (nonempty (resolve n s)); cbn [total foldr map fst snd app negb]; intros Hb Hmax.
    + rewrite andb_false_r. cbn [orb]. rewrite zlen_cons, zlen_nil.
      destruct (Z.ltb_spec NGX_MAX_OFF_T_VALUE (size + ((resolve n s).2 - (resolve n s).1))); [lia|].
      destruct (Z.eqb_spec ranges 0); destruct (Z.ltb_spec ranges (1 + 0)); try lia; [by eexists|].
      unfold go_on. cbn [Z.eqb]. rewrite Z.add_0_r. done.
    + rewrite andb_true_r. change (zlen (@nil (Z * Z))) with 0. rewrite app_nil_r. rewrite Z.add_0_r. destruct ((resolve n s).1 =? 0); [by eexists|].
      destruct (Z.ltb_spec ranges 0); [lia|]. done.
  - pose proof (wanted_bounds l ss Hs) as Hb%total_nonneg.
    rewrite length_app in Hf. cbn [length] in Hf. rewrite <- app_assoc. cbn [app].
    pose proof (item_bounds t s Hi) as Hib.
    rewrite wanted_cons in Hmax |- *. rewrite zlen_app. rewrite sizes_app in Hmax |- *.
    cbn [existsb]. unfold of_nothing at 1.
    assert (0 <= size <= NGX_MAX_OFF_T_VALUE) as Hsz.
    { destruct (nonempty (resolve n s)); [specialize (Hib eq_refl)|]; cbn in Hmax; lia. }
    rewrite (range_loop_step fuel size ranges found t s) by (done || by left).
    rewrite Hp. cbn [negb]. unfold go_on. rewrite Z.eqb_refl.
    destruct (nonempty (resolve n s)); cbn [total foldr map fst snd app negb] in *.
    + specialize (Hib eq_refl). rewrite zlen_cons. change (zlen (@nil (Z * Z))) with 0. rewrite andb_false_r. cbn [orb].
      destruct (Z.ltb_spec NGX_MAX_OFF_T_VALUE (size + ((resolve n s).2 - (resolve n s).1))); [lia|].
      destruct (Z.eqb_spec ranges 0) as [->|].
      { pose proof (zlen_nonneg (wanted n ss)). destruct (Z.ltb_spec 0 (1 + 0 + zlen (wanted n ss))); [|lia].
        rewrite orb_true_r. by eexists. }
      specialize (IH fuel (size + ((resolve n s).2 - (resolve n s).1)) (ranges - 1)
        (found ++ [as_range (resolve n s)]) q ltac:(lia) ltac:(lia) ltac:(lia) ltac:(lia)).
      replace (ranges <? 1 + 0 + zlen (wanted n ss)) with (ranges - 1 <? zlen (wanted n ss)) by lia.
      case_match; [done|]. rewrite IH, <- app_assoc. cbn [app].
      do 3 f_equal. lia.
    + change (zlen (@nil (Z * Z))) with 0. rewrite andb_true_r. destruct ((resolve n s).1 =? 0); [by eexists|]. cbn [orb].
      apply IH; lia || done.
Qed.
(** On any text: the loop ends, and what it accepts is of the grammar. *)
Lemma range_loop_sound fuel size ranges found p :
  terminated p -> 0 <= size <= NGX_MAX_OFF_T_VALUE -> 0 <= ranges -> (length p < fuel)%nat ->
  exists rc found', range_loop palloc fuel n size ranges found p = Ok (rc, found') /\
    (rc = NGX_OK -> exists t ss q, p = t ++ 0 :: q /\ range_set t ss /\
      existsb (of_nothing n) ss = false /\ zlen (wanted n ss) <= ranges /\
      size + total (wanted n ss) <= n /\ found' = found ++ map as_range (wanted n ss) /\ found' <> []).
Proof using Hn.
  revert size ranges found p. induction fuel as [|fuel IH]; intros size ranges found p Ht Hsize Hr Hf; [lia|].
  destruct (parse_range_ok p Ht) as [Hnone|(t & s & c & q & -> & Hi & Hc & Htq & _)].
  { cbn [range_loop]. rewrite Hnone, Ok_bind. by do 2 eexists. }
  rewrite (range_loop_step fuel size ranges found t s) by done. pose proof (item_bounds t s Hi) as Hib.
  assert (forall size' ranges' found', 0 <= size' <= NGX_MAX_OFF_T_VALUE -> 0 <= ranges' ->
    (resolve n s).1 <> 0 \/ nonempty (resolve n s) = true ->
    size' = size + total (if nonempty (resolve n s) then [resolve n s] else []) ->
    zlen (if nonempty (resolve n s) then [resolve n s] else []) + ranges' <= ranges ->
    found' = found ++ map as_range (if nonempty (resolve n s) then [resolve n s] else []) ->
    exists rc found'', go_on fuel size' ranges' found' c q = Ok (rc, found'') /\
    (rc = NGX_OK -> exists t' ss q', t ++ c :: q = t' ++ 0 :: q' /\ range_set t' ss /\
      existsb (of_nothing n) ss = false /\ zlen (wanted n ss) <= ranges /\
      size + total (wanted n ss) <= n /\ found'' = found ++ map as_range (wanted n ss) /\ found'' <> [])) as Hgo.
  { intros size' ranges' found' Hs' Hr' Hnz -> Hzr ->. unfold go_on.
    assert (of_nothing n s = false) as Hnot.
    { unfold of_nothing. destruct (Z.eqb_spec (resolve n s).1 0), (nonempty (resolve n s)); cbn; try done. by destruct Hnz. }
    destruct Hc as [-> | ->]; cbn [Z.eqb Pos.eqb].
    - apply terminated_tail in Htq; [|done]. rewrite length_app in Hf. cbn [length] in Hf.
      destruct (IH _ ranges' (found ++ map as_range (if nonempty (resolve n s) then [resolve n s] else [])) q Htq Hs' Hr'
        ltac:(lia)) as (rc & found'' & -> & Hok). exists rc, found''. split; [done|]. intros Hrc.
      destruct (Hok Hrc) as (t' & ss & q' & -> & Hset & Hno & Hl & Hsum & -> & Hne).
      exists (t ++ 44 :: t'), (s :: ss), q'. rewrite wanted_cons, zlen_app, sizes_app, map_app, <- app_assoc.
      split; [done|]. split; [by apply set_more|]. split; [cbn [existsb]; by rewrite Hnot|].
      split; [lia|]. split; [lia|]. by rewrite app_assoc.
    - do 2 eexists. split; [done|]. intros Hrc. exists t, [s], q. rewrite wanted_cons, app_nil_r.
      split; [done|]. split; [by apply set_one|]. split; [cbn [existsb]; by rewrite Hnot|].
      split; [lia|]. unfold closing in Hrc.
      destruct (found ++ map as_range (if nonempty (resolve n s) then [resolve n s] else [])) eqn:E; [done|].
      destruct (Z.ltb_spec n (size + total (if nonempty (resolve n s) then [resolve n s] else []))); [done|].
      by repeat split. }
  unfold nonempty in *. destruct (Z.ltb_spec (resolve n s).1 (resolve n s).2).
  - destruct (palloc (S (length found))); cbn [negb]; [|by do 2 eexists]. specialize (Hib eq_refl).
    destruct (Z.ltb_spec NGX_MAX_OFF_T_VALUE (size + ((resolve n s).2 - (resolve n s).1))); [by do 2 eexists|].
    destruct (Z.eqb_spec ranges 0); [by do 2 eexists|].
    apply Hgo; [lia|lia|by right|cbn; lia|rewrite zlen_cons; change (zlen (@nil (Z * Z))) with 0; lia|done].
  - destruct (Z.eqb_spec (resolve n s).1 0); [by do 2 eexists|].
    apply Hgo; [done|done|by left|cbn; lia|change (zlen (@nil (Z * Z))) with 0; lia|by rewrite app_nil_r].
Qed.
End loop.
End body.

(** ** The header *)

(** C12: A [Range] header is understood as its grammar says. If the text behind [bytes=] is
    a list of ranges, the result is what their meaning in a body of [n] bytes calls for:
    the ranges that have a byte, in their order, unless they are more than [ranges] or
    together longer than the body. On any other text that ends with a zero the parser
    stays in the text and does not return [NGX_OK]; so every range it delivers lies
    within the body. *)
Theorem range_parse_exact r ranges data len :
  rq_is_main r = true \/ rq_main_ctx r = None ->
  0 <= rq_content_length_n r <= NGX_MAX_OFF_T_VALUE -> 0 <= ranges ->
  rq_range r = Some (data, len) -> terminated (drop 6 data) ->
  let n := rq_content_length_n r in
  (forall t ss q, drop 6 data = t ++ 0 :: q -> range_set t ss -> total (wanted n ss) <= NGX_MAX_OFF_T_VALUE ->
    exists found, ngx_http_range_parse (fun _ => true) r ranges = Ok (range_verdict n ranges ss, found) /\
      (range_verdict n ranges ss = NGX_OK -> found = map as_range (wanted n ss))) /\
  (forall palloc, exists rc found, ngx_http_range_parse palloc r ranges = Ok (rc, found) /\
    (rc = NGX_OK ->
      Forall (fun x => 0 <= rg_start x < rg_end x /\ rg_end x <= n) found /\ 1 <= zlen found <= ranges /\
      exists t ss q, drop 6 data = t ++ 0 :: q /\ range_set t ss /\ range_verdict n ranges ss = NGX_OK /\
        found = map as_range (wanted n ss))).
Proof.
  intros Hmain Hn Hr Hdata Ht n. fold n in Hn.
  assert (forall palloc, ngx_http_range_parse palloc r ranges =
    if negb (palloc O) then Ok (NGX_ERROR, [])
    else range_loop palloc (S (length (drop 6 data))) n 0 ranges [] (drop 6 data)) as Hparse.
  { intros palloc. unfold ngx_http_range_parse. rewrite Hdata.
    destruct Hmain as [-> | ->]; [done|by destruct (rq_is_main r)]. }
  split.
  - intros t ss q Hp Hset Htotal. rewrite Hparse. cbn [negb]. rewrite Hp.
    pose proof (range_loop_spec n Hn (fun _ => true) t ss Hset (fun _ => eq_refl) (S (length (t ++ 0 :: q))) 0 ranges []
      q ltac:(lia) Htotal Hr ltac:(rewrite length_app; lia)) as H.
    unfold range_verdict. case_match; [destruct H as [found ->]; by exists found|].
    rewrite H. eexists. split; [|done]. cbn [app]. rewrite Z.add_0_l. unfold closing.
    by destruct (wanted n ss).
  - intros palloc. rewrite Hparse. destruct (palloc O); cbn [negb]; [|by do 2 eexists].
    destruct (range_loop_sound n Hn palloc (S (length (drop 6 data))) 0 ranges [] (drop 6 data) Ht
      ltac:(unfold NGX_MAX_OFF_T_VALUE; lia) Hr ltac:(lia)) as (rc & found & -> & Hok).
    exists rc, found. split; [done|]. intros Hrc.
    destruct (Hok Hrc) as (t & ss & q & Hp & Hset & Hno & Hl & Hsum & Hf & Hne). cbn [app] in Hf.
    pose proof (wanted_bounds n Hn t ss Hset) as Hb. subst found.
    split; [by apply Forall_map|]. split.
    { unfold zlen in *. rewrite length_map. destruct (wanted n ss); [done|]. cbn [length] in *. lia. }
    exists t, ss, q. repeat split; try done. unfold range_verdict. rewrite Hno. cbn [orb].
    destruct (Z.ltb_spec ranges (zlen (wanted n ss))); [lia|].
    destruct (wanted n ss) eqn:E; [done|]. rewrite <- E in *.
    destruct (Z.ltb_spec n (total (wanted n ss))); [lia|done].
Qed.

Lemma number_1 d : is_digit d = true -> number [d] (d - 48).
Proof.
  intros Hd. pose proof Hd as Hd'. apply is_digit_spec in Hd'. unfold number, NGX_MAX_OFF_T_VALUE. cbn.
  rewrite Hd. repeat split; done || lia.
Qed.

Lemma range_parse_exact_witness :
  exists found, ngx_http_range_parse (fun _ => true) (range_request (str "bytes=0-1, -3") 10) 2 = Ok (NGX_OK, found) /\
    (NGX_OK = NGX_OK -> found = [Range 0 2 []; Range 7 10 []]).
Proof.
  apply (range_parse_exact (range_request (str "bytes=0-1, -3") 10) 2 (str "bytes=0-1, -3" ++ [0]) 13)
    with (t := str "0-1, -3") (q := []) (ss := [Span 0 1; Suffix 3]).
  - by left.
  - by vm_compute.
  - lia.
  - done.
  - unfold terminated. vm_compute. by do 7 right; left.
  - done.
  - apply (set_more (str "0-1") (Span 0 1) (str " -3")); [|apply set_one].
    + by apply (item_span O [48] 0 O O [49] 1 O); [apply (number_1 48)|apply (number_1 49)].
    + by apply (item_suffix 1 [51] 3 O), (number_1 51).
  - by vm_compute.
Defined.
