(* ===== verification/HttpRangeBody.v ===== *)
(** * The parts of a body that are sent

    The body filter cuts a part out of the body, however the body comes in buffers and
    chains; a response with several parts is as long as its header says. *)

From S2P Require Import Prelude Numeric NumericSpec Sprintf SprintfSpec HttpHeaderLine Times HttpRange.

(** ** Parts of lists *)

(** The bytes of [l] at the positions from [a] to before [b]; positions that are not in
    [l] count for nothing. *)
Definition cut {A} (a b : Z) (l : list A) : list A := drop (Z.to_nat a) (take (Z.to_nat b) l).

Lemma cut_nil {A} a b : cut a b (@nil A) = [].
Proof. unfold cut. by rewrite take_nil, drop_nil. Qed.

Lemma cut_app {A} a b (l1 l2 : list A) :
  cut a b (l1 ++ l2) = cut a b l1 ++ cut (a - zlen l1) (b - zlen l1) l2.
Proof.
  unfold cut, zlen. rewrite take_app, drop_app, length_take. f_equal.
  replace (Z.to_nat b - length l1)%nat with (Z.to_nat (b - Z.of_nat (length l1))) by lia.
  destruct (decide (Z.of_nat (length l1) <= b)).
  - f_equal. lia.
  - replace (Z.to_nat (b - Z.of_nat (length l1))) with O by lia. by rewrite !take_0, !drop_nil.
Qed.

Lemma cut_none {A} a b (l : list A) : b <= 0 \/ zlen l <= a -> cut a b l = [].
Proof.
  unfold cut, zlen. intros [H|H].
  - replace (Z.to_nat b) with O by lia. by rewrite take_0, drop_nil.
  - apply drop_ge. rewrite length_take. lia.
Qed.

Lemma cut_all {A} a b (l : list A) : a <= 0 -> zlen l <= b -> cut a b l = l.
Proof.
  unfold cut, zlen. intros Ha Hb. replace (Z.to_nat a) with O by lia. rewrite drop_0. apply take_ge. lia.
Qed.

Lemma slice_cut b i n l : slice b i n = Ok l <-> l = cut i (i + n) b /\ 0 <= i /\ 0 <= n /\ i + n <= zlen b.
Proof.
  unfold slice, cut. split.
  - case_match eqn:E; [|done]. intros [= <-]. split; [|lia].
    rewrite skipn_firstn_comm. f_equal. lia.
  - intros (-> & H0 & H1 & H2). destruct (Z.leb_spec 0 i), (Z.leb_spec 0 n), (Z.leb_spec (i + n) (zlen b)); try lia.
    cbn [andb]. rewrite skipn_firstn_comm. do 2 f_equal. lia.
Qed.

Lemma zlen_cut {A} a b (l : list A) : 0 <= a <= b -> b <= zlen l -> zlen (cut a b l) = b - a.
Proof. unfold cut, zlen. intros. rewrite length_drop, length_take. lia. Qed.

(** A part of a part. *)
Lemma cut_of_cut {A} i j a b (l : list A) :
  0 <= i -> 0 <= a -> i + b <= j -> cut a b (cut i j l) = cut (i + a) (i + b) l.
Proof.
  unfold cut. intros Hi Ha Hb. destruct (Z.leb_spec 0 b) as [H0|H0].
  - rewrite take_drop_commute, drop_drop, take_take. f_equal; [lia|]. f_equal. lia.
  - replace (Z.to_nat b) with O by lia. rewrite take_0, drop_nil. symmetry. apply drop_ge. rewrite length_take. lia.
Qed.

(** ** What a buffer carries *)

(** The bytes of a buffer that are to be sent; a buffer that is both in memory and in a
    file has them in both places. *)
Record carries (b : ngx_buf_t) (l : list Z) : Prop := {
  in_memory : ngx_buf_in_memory b = true -> slice (b_data b) (b_pos b) (b_last b - b_pos b) = Ok l;
  in_file : b_in_file b = true -> slice (b_file b) (b_file_pos b) (b_file_last b - b_file_pos b) = Ok l;
  nowhere : ngx_buf_in_memory b = false -> b_in_file b = false ->
    l = [] /\ b_file_last b = b_file_pos b /\ ngx_buf_special b = true;
  file_size : zlen (b_file b) <= NGX_MAX_OFF_T_VALUE
}.

Lemma carries_special b l : carries b l -> ngx_buf_special b = true -> l = [].
Proof.
  intros H. unfold ngx_buf_special. intros [[_ Hm]%andb_true_iff Hf]%andb_true_iff.
  apply negb_true_iff in Hm, Hf. by destruct (nowhere _ _ H Hm Hf).
Qed.

Lemma slice_zlen b i n l : slice b i n = Ok l -> zlen l = n /\ 0 <= n <= zlen b.
Proof. intros H. pose proof (slice_holds _ _ _ _ H) as [_ <-]. apply slice_cut in H. lia. Qed.

Lemma carries_size b l : carries b l -> zlen l <= NGX_MAX_OFF_T_VALUE -> ngx_buf_size b = Ok (zlen l).
Proof.
  intros [Hm Hf Hn Hs] Hl. pose proof (zlen_nonneg l). unfold ngx_buf_size, NGX_MAX_OFF_T_VALUE in *.
  destruct (ngx_buf_in_memory b).
  - destruct (slice_zlen _ _ _ _ (Hm eq_refl)) as [<- _]. apply int64_ok. lia.
  - destruct (b_in_file b).
    + destruct (slice_zlen _ _ _ _ (Hf eq_refl)) as [<- _]. apply int64_ok. lia.
    + destruct (Hn eq_refl eq_refl) as (-> & -> & _). by rewrite Z.sub_diag.
Qed.

(** A buffer with other positions. *)
Definition place (b : ngx_buf_t) (pos last file_pos file_last : Z) : ngx_buf_t :=
  Buf (b_temporary b) (b_memory b) (b_mmap b) (b_in_file b) (b_flush b) (b_sync b) (b_last_buf b)
    (b_last_in_chain b) pos last file_pos file_last (b_data b) (b_file b).

Definition moved (b : ngx_buf_t) (x n : Z) : Z := if ngx_buf_in_memory b then x + n else x.

Lemma trim_start_place n b :
  trim_start n b =
    (fp ← (if b_in_file b then int64 (b_file_pos b + n) else Ok (b_file_pos b));
     Ok (place b (moved b (b_pos b) n) (b_last b) fp (b_file_last b))).
Proof.
  destruct b as [t m mm f fl sy lb lc p la fp fla data file]. unfold trim_start, moved. cbn [b_in_file b_file_pos].
  destruct f; [destruct (int64 (fp + n)); try done|]; by destruct t, m, mm.
Qed.

Lemma trim_end_place n b :
  trim_end n b =
    (l ← (if b_in_file b then int64 (b_file_last b - n) else Ok (b_file_last b));
     Ok (place b (b_pos b) (moved b (b_last b) (- n)) (b_file_pos b) l)).
Proof.
  destruct b as [t m mm f fl sy lb lc p la fp fla data file]. unfold trim_end, moved. cbn [b_in_file b_file_last].
  destruct f; [destruct (int64 (fla - n)); try done|]; by destruct t, m, mm.
Qed.

Lemma slice_trim b i n l x y :
  slice b i n = Ok l -> 0 <= x -> 0 <= y -> x + y <= zlen l ->
  slice b (i + x) (n - x - y) = Ok (cut x (zlen l - y) l).
Proof.
  intros Hs Hx Hy Hxy. destruct (slice_zlen _ _ _ _ Hs) as [Hl _].
  apply slice_cut in Hs as (-> & H0 & H1 & H2). rewrite zlen_cut in * by lia.
  apply slice_cut. rewrite cut_of_cut by lia. split; [f_equal; lia|lia].
Qed.

(** A buffer that lost [x] bytes at its start and [y] at its end. *)
Lemma carries_trim b l x y fp fl :
  carries b l -> ngx_buf_special b = false -> 0 <= x -> 0 <= y -> x + y <= zlen l ->
  (b_in_file b = true -> fp = b_file_pos b + x /\ fl = b_file_last b - y) ->
  carries (place b (moved b (b_pos b) x) (moved b (b_last b) (- y)) fp fl) (cut x (zlen l - y) l).
Proof.
  intros [Hm Hf Hn Hs] Hsp Hx Hy Hxy Hpos. unfold moved. split.
  - change (ngx_buf_in_memory (place _ _ _ _ _)) with (ngx_buf_in_memory b). intros E. cbn. rewrite E.
    replace (b_last b + - y - (b_pos b + x)) with (b_last b - b_pos b - x - y) by lia. by apply slice_trim; [apply Hm|..].
  - cbn. intros E. destruct (Hpos E) as [-> ->].
    replace (b_file_last b - y - (b_file_pos b + x)) with (b_file_last b - b_file_pos b - x - y) by lia.
    by apply slice_trim; [apply Hf|..].
  - change (ngx_buf_in_memory (place _ _ _ _ _)) with (ngx_buf_in_memory b). cbn. intros E1 E2.
    destruct (Hn E1 E2) as (_ & _ & E). congruence.
  - done.
Qed.

Lemma file_bounds b l : carries b l -> b_in_file b = true ->
  0 <= b_file_pos b /\ b_file_last b = b_file_pos b + zlen l /\ b_file_last b <= NGX_MAX_OFF_T_VALUE.
Proof.
  intros [_ Hf _ Hs] E. specialize (Hf E). destruct (slice_zlen _ _ _ _ Hf) as [Hl _].
  apply slice_cut in Hf as (_ & H0 & H1 & H2). lia.
Qed.

Lemma trim_ok n b l :
  carries b l -> ngx_buf_special b = false -> 0 <= n <= zlen l ->
  (exists fp, trim_start n b = Ok (place b (moved b (b_pos b) n) (b_last b) fp (b_file_last b)) /\
     carries (place b (moved b (b_pos b) n) (b_last b) fp (b_file_last b)) (cut n (zlen l) l)) /\
  (exists fl, trim_end n b = Ok (place b (b_pos b) (moved b (b_last b) (- n)) (b_file_pos b) fl) /\
     carries (place b (b_pos b) (moved b (b_last b) (- n)) (b_file_pos b) fl) (cut 0 (zlen l - n) l)).
Proof.
  intros Hc Hsp Hn. pose proof (file_bounds b l Hc) as Hb. unfold NGX_MAX_OFF_T_VALUE in Hb.
  assert (forall x, moved b x 0 = x) as Hz by (intros x; unfold moved; case_match; lia). split.
  - exists (if b_in_file b then b_file_pos b + n else b_file_pos b). split.
    + rewrite trim_start_place. destruct (b_in_file b); [|done]. destruct (Hb eq_refl) as (H0 & H1 & H2).
      by rewrite int64_ok by lia.
    + pose proof (carries_trim b l n 0 (if b_in_file b then b_file_pos b + n else b_file_pos b) (b_file_last b) Hc Hsp
        ltac:(lia) ltac:(lia) ltac:(lia)) as H. change (- 0) with 0 in H. rewrite Hz, !Z.sub_0_r in H. apply H.
      intros E. rewrite E. lia.
  - exists (if b_in_file b then b_file_last b - n else b_file_last b). split.
    + rewrite trim_end_place. destruct (b_in_file b); [|done]. destruct (Hb eq_refl) as (H0 & H1 & H2).
      by rewrite int64_ok by lia.
    + pose proof (carries_trim b l 0 n (b_file_pos b) (if b_in_file b then b_file_last b - n else b_file_last b) Hc Hsp
        ltac:(lia) ltac:(lia) ltac:(lia)) as H. rewrite Hz in H. apply H. intros E. rewrite E. lia.
Qed.

(** ** One part *)

Section single.
Context (palloc : nat -> bool) (Hp : forall k, palloc k = true).
Context (is_main : bool) (range : ngx_http_range_t).
Context (Hrange : 0 <= rg_start range < rg_end range).

(** What of the bytes [l] at the offset [o] is in the range. *)
Definition part (o : Z) (l : list Z) : list Z := cut (rg_start range - o) (rg_end range - o) l.

(** The buffer that has the end of the range is the last one. *)
Definition marked (b : ngx_buf_t) : Prop := b_last_buf b = is_main /\ b_last_in_chain b = true.

Lemma single_buf_ok o b l :
  carries b l -> 0 <= o -> o + zlen l <= NGX_MAX_OFF_T_VALUE ->
  exists b' linked, single_buf is_main range o (o + zlen l) b = Ok (b', linked) /\
    (if linked then carries b' (part o l) /\ o < rg_end range else part o l = []) /\
    (o < rg_end range <= o + zlen l -> linked = true /\ marked b').
Proof using Hrange.
  intros Hc Ho Hmax. unfold NGX_MAX_OFF_T_VALUE in Hmax. pose proof (zlen_nonneg l) as Hl. unfold single_buf.
  destruct (ngx_buf_special b) eqn:Hsp.
  { pose proof (carries_special b l Hc Hsp) as ->. exists b, (negb (rg_end range <=? o)). split; [done|].
    unfold part. rewrite cut_nil. split; [|change (zlen (@nil Z)) with 0; lia].
    by destruct (Z.leb_spec (rg_end range) o). }
  destruct (Z.leb_spec (rg_end range) o) as [He|He]; cbn [orb].
  { exists (skip_buf b), false. split; [done|]. split; [apply cut_none; lia|lia]. }
  destruct (Z.leb_spec (o + zlen l) (rg_start range)) as [Hs|Hs].
  { exists (skip_buf b), false. split; [done|]. split; [apply cut_none; lia|lia]. }
  assert (exists b1, (if o <? rg_start range then n ← int64 (rg_start range - o); trim_start n b else Ok b) = Ok b1 /\
    carries b1 (cut (rg_start range - o) (zlen l) l) /\ ngx_buf_special b1 = false) as (b1 & -> & Hc1 & Hsp1).
  { destruct (Z.ltb_spec o (rg_start range)).
    - rewrite int64_ok, Ok_bind by lia.
      destruct (trim_ok (rg_start range - o) b l Hc Hsp ltac:(lia)) as [(fp & -> & Hc1) _]. by eexists.
    - exists b. split; [done|]. by rewrite cut_all by lia. }
  rewrite Ok_bind. destruct (Z.leb_spec (rg_end range) (o + zlen l)) as [Hl1|Hl1].
  - rewrite int64_ok, Ok_bind by lia.
    set (l1 := cut (rg_start range - o) (zlen l) l) in *.
    assert (zlen l1 = zlen l - Z.max 0 (rg_start range - o)) as Hz1.
    { unfold l1. destruct (Z.leb_spec 0 (rg_start range - o)); [rewrite zlen_cut by lia; lia|].
      rewrite cut_all by lia. lia. }
    destruct (trim_ok (o + zlen l - rg_end range) b1 l1 Hc1 Hsp1 ltac:(lia)) as [_ (fl & -> & Hc2)].
    rewrite Ok_bind. eexists _, true. split; [done|]. split; [split; [|done]|by intros _].
    assert (part o l = cut 0 (zlen l1 - (o + zlen l - rg_end range)) l1) as ->.
    { rewrite Hz1. unfold part, l1. destruct (Z.leb_spec 0 (rg_start range - o)).
      - rewrite cut_of_cut by lia. f_equal; lia.
      - rewrite (cut_all _ (zlen l)) by lia. unfold cut. f_equal; [lia|]. f_equal. lia. }
    destruct Hc2 as [Hm Hf Hn Hfs]. split; [exact Hm|exact Hf| |exact Hfs].
    intros E1 E2. destruct (Hn E1 E2) as (_ & _ & E). change (ngx_buf_special b1 = true) in E. congruence.
  - exists b1, true. split; [done|]. split; [split; [|done]|lia].
    assert (part o l = cut (rg_start range - o) (zlen l) l) as ->; [|done].
    unfold part, cut, zlen in *. rewrite !take_ge by lia. done.
Qed.

(** A chain: its buffers carry [ls]. *)
Lemma single_loop_ok in_ ls : Forall2 carries in_ ls ->
  forall k o, 0 <= o -> o + zlen (concat ls) <= NGX_MAX_OFF_T_VALUE ->
  exists in' out outs, single_loop palloc k is_main range o in_ = Ok (true, o + zlen (concat ls), in', out) /\
    Forall2 carries out outs /\ concat outs = part o (concat ls) /\
    (rg_end range <= o -> out = []) /\
    (o < rg_end range <= o + zlen (concat ls) -> exists b, last out = Some b /\ marked b).
Proof using Hrange Hp.
  induction 1 as [|b l in_ ls Hc Hcs IH]; intros k o Ho Hmax.
  { exists [], [], []. cbn [concat]. change (zlen (@nil Z)) with 0. rewrite Z.add_0_r. split; [done|].
    split; [done|]. split; [unfold part; by rewrite cut_nil|]. split; [done|lia]. }
  cbn [concat] in *. rewrite zlen_app in *. pose proof (zlen_nonneg l). pose proof (zlen_nonneg (concat ls)).
  cbn [single_loop]. rewrite (carries_size b l), Ok_bind by (done || lia).
  unfold NGX_MAX_OFF_T_VALUE in *. rewrite int64_ok, Ok_bind by lia.
  destruct (single_buf_ok o b l Hc Ho ltac:(unfold NGX_MAX_OFF_T_VALUE; lia)) as (b' & linked & -> & Hb & Hend).
  rewrite Ok_bind, Hp, andb_false_r.
  destruct (IH (if linked then S k else k) (o + zlen l) ltac:(lia) ltac:(lia))
    as (in' & out & outs & -> & Hout & Hcat & Hafter & Hlast).
  rewrite Ok_bind. rewrite Z.add_assoc. exists (b' :: in'), (if linked then b' :: out else out).
  exists (if linked then part o l :: outs else outs). split; [done|].
  assert (part o (l ++ concat ls) = part o l ++ part (o + zlen l) (concat ls)) as ->.
  { unfold part. rewrite cut_app. do 2 f_equal; lia. }
  split; [destruct linked; [constructor; [by destruct Hb|done]|done]|].
  split; [destruct linked; cbn [concat]; rewrite Hcat; [done|by rewrite Hb]|].
  split.
  { intros He. rewrite (Hafter ltac:(lia)). destruct linked; [destruct Hb; lia|done]. }
  intros He. destruct (Z.leb_spec (rg_end range) (o + zlen l)).
  - destruct (Hend ltac:(lia)) as [-> Hm]. rewrite (Hafter ltac:(lia)). by exists b'.
  - destruct (Hlast ltac:(lia)) as (b1 & Hb1 & Hm). exists b1. split; [|done].
    destruct linked; [|done]. by destruct out.
Qed.
End single.

(** Several calls of the filter, one for each chain that the body comes in, and the
    verdict of each. *)
Fixpoint body_calls (palloc : nat -> bool) (is_main : bool) (ctx : option ngx_http_range_filter_ctx_t)
    (chains : list (list ngx_buf_t)) : res (list body_verdict) :=
  match chains with
  | [] => Ok []
  | in_ :: chains =>
      '(v, ctx, _) ← ngx_http_range_body_filter palloc is_main ctx in_;
      rest ← body_calls palloc is_main ctx chains;
      Ok (v :: rest)
  end.

(** The buffers carry the bytes, one by one. *)
Definition chain_carries (in_ : list ngx_buf_t) (ls : list (list Z)) : Prop := Forall2 carries in_ ls.

Definition body_of (chains : list (list (list Z))) : list Z := concat (concat chains).

Lemma body_calls_ok palloc is_main range header chains lss o :
  (forall k, palloc k = true) -> 0 <= rg_start range < rg_end range ->
  Forall2 chain_carries chains lss -> 0 <= o -> o + zlen (body_of lss) <= NGX_MAX_OFF_T_VALUE ->
  exists outs bs, body_calls palloc is_main (Some (RangeCtx o header [range])) chains = Ok (map BodyNext outs) /\
    Forall2 carries (concat outs) bs /\ concat bs = part range o (body_of lss) /\
    (rg_end range <= o -> concat outs = []) /\
    (o < rg_end range <= o + zlen (body_of lss) -> exists b, last (concat outs) = Some b /\ marked is_main b).
Proof.
  intros Hp Hr Hc. revert o. induction Hc as [|in_ ls chains lss Hin Hcs IH]; intros o Ho Hmax.
  { exists [], []. unfold body_of. cbn [concat]. change (zlen (@nil Z)) with 0. split; [done|].
    split; [constructor|]. split; [unfold part; by rewrite cut_nil|]. split; [done|lia]. }
  unfold body_of in *. cbn [concat] in *. rewrite concat_app, zlen_app in *.
  set (l := concat ls) in *. set (rest := concat (concat lss)) in *.
  pose proof (zlen_nonneg l). pose proof (zlen_nonneg rest).
  assert (exists in' out bs ctx', ngx_http_range_body_filter palloc is_main (Some (RangeCtx o header [range])) in_
    = Ok (BodyNext out, ctx', in') /\ ctx' = Some (RangeCtx (o + zlen l) header [range]) /\
    Forall2 carries out bs /\ concat bs = part range o l /\
    (rg_end range <= o -> out = []) /\
    (o < rg_end range <= o + zlen l -> exists b, last out = Some b /\ marked is_main b))
    as (in' & out & bs & ctx' & Hcall & -> & Hout & Hcat & Hafter & Hlast).
  { destruct (single_loop_ok palloc Hp is_main range Hr in_ ls Hin O o Ho ltac:(fold l; lia))
      as (in' & out & bs & Hloop & Hout & Hcat & Hafter & Hlast). fold l in Hloop, Hcat, Hlast.
    destruct in_ as [|b in_].
    - inversion Hin; subst ls. exists [], [], [], (Some (RangeCtx o header [range])). unfold l, part. cbn [concat].
      change (zlen (@nil Z)) with 0. rewrite Z.add_0_r, cut_nil. repeat split; constructor || lia.
    - exists in', out, bs, (Some (RangeCtx (o + zlen l) header [range])). split; [|done].
      unfold ngx_http_range_body_filter, ngx_http_range_singlepart_body. cbn [cx_ranges cx_offset length Nat.eqb].
      by rewrite Hloop, !Ok_bind. }
  cbn [body_calls]. rewrite Hcall, Ok_bind.
  destruct (IH (o + zlen l) ltac:(lia) ltac:(lia)) as (outs & bs' & -> & Hout' & Hcat' & Hafter' & Hlast').
  rewrite Ok_bind. exists (out :: outs), (bs ++ bs'). split; [done|]. cbn [concat].
  split; [by apply Forall2_app|]. split.
  { rewrite concat_app, Hcat, Hcat'. unfold part. rewrite cut_app. do 2 f_equal; lia. }
  split; [intros He; by rewrite Hafter, Hafter' by lia|].
  intros He. destruct (Z.leb_spec (rg_end range) (o + zlen l)).
  - rewrite Hafter' by lia. rewrite app_nil_r. apply Hlast. lia.
  - destruct (Hlast' ltac:(lia)) as (b & Hb & Hm). exists b. split; [|done]. by rewrite last_app, Hb.
Qed.

(** C13: The body of a response with one part. However the body is spread over buffers
    and calls of the filter, in memory or in files, the buffers that go to the next
    filter carry exactly the bytes of the range, in order; and the one with the end of
    the range, marked as the last, is the last that is sent. *)
Theorem range_body_exact palloc is_main range header chains lss :
  (forall k, palloc k = true) -> 0 <= rg_start range < rg_end range ->
  Forall2 chain_carries chains lss -> rg_end range <= zlen (body_of lss) <= NGX_MAX_OFF_T_VALUE ->
  exists outs bs, body_calls palloc is_main (Some (RangeCtx 0 header [range])) chains = Ok (map BodyNext outs) /\
    Forall2 carries (concat outs) bs /\
    slice (body_of lss) (rg_start range) (rg_end range - rg_start range) = Ok (concat bs) /\
    exists b, last (concat outs) = Some b /\ b_last_buf b = is_main /\ b_last_in_chain b = true.
Proof.
  intros Hp Hr Hc Hlen.
  destruct (body_calls_ok palloc is_main range header chains lss 0 Hp Hr Hc ltac:(lia) ltac:(lia))
    as (outs & bs & -> & Hout & Hcat & _ & Hlast).
  exists outs, bs. split; [done|]. split; [done|]. split; [|apply Hlast; lia].
  rewrite Hcat. apply slice_cut. unfold part. rewrite !Z.sub_0_r. split; [f_equal; lia|lia].
Qed.

(** ** Several parts *)

(** What stands before a part, and behind the last one. *)
Definition delimiter (boundary : Z) : list Z := CRLF ++ str "--" ++ atomic_text boundary.

Definition type_line (r : http_request) : list Z :=
  if with_charset r then
    str "Content-Type: " ++ rq_content_type r ++ str "; charset=" ++ rq_charset r ++ CRLF
  else if 0 <? zlen (rq_content_type r) then str "Content-Type: " ++ rq_content_type r ++ CRLF
  else [].

Definition boundary_text (r : http_request) (boundary : Z) : list Z :=
  delimiter boundary ++ CRLF ++ type_line r ++ str "Content-Range: bytes ".

Definition position_text (n : Z) (range : ngx_http_range_t) : list Z :=
  num 0 (rg_start range) ++ str "-" ++ num 0 (rg_end range - 1) ++ str "/" ++ num 0 n ++ CRLF ++ CRLF.

(** The body of the response: [body] is that of the original one. *)
Definition part_text (r : http_request) (boundary : Z) (body : list Z) (range : ngx_http_range_t) : list Z :=
  boundary_text r boundary ++ position_text (zlen body) range ++ cut (rg_start range) (rg_end range) body.

Definition multipart_text (r : http_request) (boundary : Z) (body : list Z) (ranges : list ngx_http_range_t) : list Z :=
  concat (map (part_text r boundary body) ranges) ++ delimiter boundary ++ str "--" ++ CRLF.

Definition off_t_range (v : Z) : Prop := 0 <= v <= NGX_MAX_OFF_T_VALUE.

Lemma zlen_num_off v : off_t_range v -> 1 <= zlen (num 0 v) <= 19.
Proof.
  unfold off_t_range, NGX_MAX_OFF_T_VALUE. intros Hv.
  destruct (num_spec 0 v) as (_ & _ & H1 & Hk); [lia|]. split; [done|]. apply Hk; [lia|].
  change (base 0 ^ 19) with 10000000000000000000. lia.
Qed.

Lemma position_sprintf n range :
  off_t_range n -> off_t_range (rg_start range) -> off_t_range (rg_end range - 1) ->
  sprintf_into (3 * NGX_OFF_T_LEN + 2 + 4) (str "%O-%O/%O" ++ CRLF ++ CRLF)
    [A64 (rg_start range); A64 (rg_end range - 1); A64 n] = Ok (position_text n range).
Proof.
  intros Hn Hs He. pose proof (zlen_num_off _ Hn). pose proof (zlen_num_off _ Hs). pose proof (zlen_num_off _ He).
  unfold off_t_range, NGX_MAX_OFF_T_VALUE in *. unfold sprintf_into, position_text.
  generalize dependent (rg_start range). generalize dependent (rg_end range - 1). intros e He Hle s Hs Hls.
  num_start. repeat num_step.
  cbn [vslprintf_loop]. rewrite Ok_bind, <- !app_assoc. cbn [app]. rewrite !zlen_app.
  change (3 * NGX_OFF_T_LEN + 2 + 4) with 66. rewrite !zlen_cons, !zlen_app, !zlen_cons, !zlen_app.
  change (zlen [13; 10; 13; 10]) with 4.
  match goal with |- (if ?x <=? 66 then _ else _) = _ => destruct (Z.leb_spec x 66); [done|lia] end.
Qed.

Lemma sprintf_into_ok size fmt args out :
  ngx_sprintf fmt args = Ok out -> zlen out <= size -> sprintf_into size fmt args = Ok out.
Proof. intros H Hl. unfold sprintf_into. rewrite H, Ok_bind. by destruct (Z.leb_spec (zlen out) size); [|lia]. Qed.

(** The lengths of literals. *)
Ltac literal_lengths :=
  rewrite ?zlen_app;
  repeat match goal with
  | |- context [zlen (str ?s)] => let n := eval vm_compute in (zlen (str s)) in change (zlen (str s)) with n
  end;
  change (zlen CRLF) with 2 in *; change (zlen (@nil Z)) with 0 in *; change NGX_ATOMIC_T_LEN with 20 in *.

Definition short (l : list Z) : Prop := zlen l < 4611686018427387904.

Lemma boundary_header_text r boundary :
  0 <= boundary < 18446744073709551616 -> short (rq_content_type r) -> short (rq_charset r) ->
  boundary_header r boundary = Ok (boundary_text r boundary).
Proof.
  unfold short. intros Hb Ht Hc. pose proof (zlen_atomic boundary Hb) as Ha.
  pose proof (zlen_nonneg (rq_content_type r)). pose proof (zlen_nonneg (rq_charset r)).
  unfold boundary_header, boundary_text, type_line. destruct (with_charset r) eqn:Hw.
  - apply sprintf_into_ok.
    + generalize dependent (rq_content_type r). generalize dependent (rq_charset r). intros cs Hc Hc0 ct Ht Ht0.
      num_start. repeat num_step. cbn [vslprintf_loop]. rewrite <- !app_assoc. unfold delimiter.
      rewrite <- !app_assoc. reflexivity.
    + unfold boundary_size, delimiter. rewrite Hw. literal_lengths. lia.
  - destruct (Z.ltb_spec 0 (zlen (rq_content_type r))); apply sprintf_into_ok.
    + generalize dependent (rq_content_type r). intros ct Ht Ht0 Ht1.
      num_start. repeat num_step. cbn [vslprintf_loop]. rewrite <- !app_assoc. unfold delimiter.
      rewrite <- !app_assoc. reflexivity.
    + unfold boundary_size, delimiter. rewrite Hw. literal_lengths. lia.
    + num_start. repeat num_step. cbn [vslprintf_loop]. rewrite <- !app_assoc. unfold delimiter.
      rewrite <- !app_assoc. reflexivity.
    + unfold boundary_size, delimiter. rewrite Hw. literal_lengths. lia.
Qed.

(** The ranges lie in a body of [n] bytes. *)
Definition within (n : Z) (range : ngx_http_range_t) : Prop :=
  0 <= rg_start range < rg_end range /\ rg_end range <= n.

(** A range as the header filter leaves it. *)
Definition printed (n : Z) (range : ngx_http_range_t) : ngx_http_range_t :=
  range <| rg_content_range := position_text n range |>.

Section multipart.
Context (palloc : nat -> bool) (Hp : forall k, palloc k = true).
Context (r : http_request) (boundary : Z) (body : list Z).

Definition parts_size (ranges : list ngx_http_range_t) : Z :=
  zlen (concat (map (part_text r boundary body) ranges)).

Lemma parts_size_cons range ranges :
  within (zlen body) range ->
  parts_size (range :: ranges) =
    zlen (boundary_text r boundary) + zlen (position_text (zlen body) range) + (rg_end range - rg_start range)
    + parts_size ranges.
Proof using.
  intros [H1 H2]. unfold parts_size. cbn [map concat]. unfold part_text at 1. rewrite !zlen_app, zlen_cut by lia. lia.
Qed.

Lemma print_ranges_ok k len ranges :
  Forall (within (zlen body)) ranges -> zlen body <= NGX_MAX_OFF_T_VALUE -> 0 <= len ->
  len + parts_size ranges <= NGX_MAX_OFF_T_VALUE ->
  print_ranges palloc k (zlen body) (boundary_text r boundary) len ranges =
    Ok (true, len + parts_size ranges, map (printed (zlen body)) ranges).
Proof using Hp.
  intros Hw Hn. revert k len. induction Hw as [|range ranges [H1 H2] Hw IH]; intros k len H0 Hmax.
  { cbn [print_ranges map]. by rewrite Z.add_0_r. }
  rewrite parts_size_cons in Hmax |- * by done. cbn [print_ranges]. rewrite Hp. cbn [negb].
  pose proof (zlen_nonneg (concat (map (part_text r boundary body) ranges))) as Hps. fold (parts_size ranges) in Hps.
  pose proof (zlen_nonneg (boundary_text r boundary)). pose proof (zlen_nonneg (position_text (zlen body) range)).
  unfold NGX_MAX_OFF_T_VALUE in *. rewrite (int64_ok (rg_end range - 1)), Ok_bind by lia.
  rewrite position_sprintf by (unfold off_t_range, NGX_MAX_OFF_T_VALUE; lia). rewrite Ok_bind.
  rewrite (int64_ok (rg_end range - rg_start range)), Ok_bind by lia.
  rewrite u64_id, signed64_id by lia. rewrite IH, Ok_bind by lia. cbn [map]. do 3 f_equal. lia.
Qed.

Lemma data_buf_ok buf range :
  carries buf body -> within (zlen body) range -> zlen body <= NGX_MAX_OFF_T_VALUE ->
  exists b, data_buf buf range = Ok b /\ carries b (cut (rg_start range) (rg_end range) body).
Proof using.
  intros Hc [H1 H2] Hmax. pose proof (file_bounds buf body Hc) as Hfb. unfold NGX_MAX_OFF_T_VALUE in *.
  destruct Hc as [Hm Hf Hno Hfs].
  set (b := Buf (b_temporary buf) (b_memory buf) (b_mmap buf) (b_in_file buf) false false false false
    (if ngx_buf_in_memory buf then b_pos buf + rg_start range else 0)
    (if ngx_buf_in_memory buf then b_pos buf + rg_end range else 0)
    (if b_in_file buf then b_file_pos buf + rg_start range else 0)
    (if b_in_file buf then b_file_pos buf + rg_end range else 0)
    (if ngx_buf_in_memory buf then b_data buf else []) (b_file buf)).
  assert (forall m x l, slice m x l = Ok body ->
    slice m (x + rg_start range) (x + rg_end range - (x + rg_start range)) = Ok (cut (rg_start range) (rg_end range) body)) as Hs.
  { intros m x l Hs. destruct (slice_zlen _ _ _ _ Hs) as [Hl _].
    pose proof (slice_trim m x l body (rg_start range) (zlen body - rg_end range) Hs ltac:(lia) ltac:(lia) ltac:(lia)) as H.
    replace (l - rg_start range - (zlen body - rg_end range)) with (x + rg_end range - (x + rg_start range)) in H by lia.
    by replace (zlen body - (zlen body - rg_end range)) with (rg_end range) in H by lia. }
  exists b. split.
  - unfold data_buf, b. destruct (b_in_file buf) eqn:Ef.
    + destruct (Hfb eq_refl) as (F1 & F2 & F3). rewrite !int64_ok, !Ok_bind by lia. by destruct (ngx_buf_in_memory buf).
    + rewrite Ok_bind. by destruct (ngx_buf_in_memory buf).
  - split.
    + change (ngx_buf_in_memory b) with (ngx_buf_in_memory buf). intros E. unfold b. rewrite E.
      cbn [b_data b_pos b_last]. by eapply Hs, Hm.
    + change (b_in_file b) with (b_in_file buf). intros E. unfold b. rewrite E.
      cbn [b_file b_file_pos b_file_last]. by eapply Hs, Hf.
    + change (ngx_buf_in_memory b) with (ngx_buf_in_memory buf). change (b_in_file b) with (b_in_file buf).
      intros E1 E2. destruct (Hno E1 E2) as (-> & _). change (zlen (@nil Z)) with 0 in H2. lia.
    + exact Hfs.
Qed.
Lemma memory_carries l b :
  b_data b = l -> b_pos b = 0 -> b_last b = zlen l -> b_in_file b = false -> b_file b = [] ->
  ngx_buf_in_memory b = true -> carries b l.
Proof using.
  intros H1 H2 H3 H4 H5 H6. split; [|congruence|congruence|rewrite H5; done].
  intros _. rewrite H1, H2, H3, Z.sub_0_r. pose proof (zlen_nonneg l). apply slice_cut. rewrite Z.add_0_l.
  split; [|lia]. by rewrite cut_all by lia.
Qed.

Lemma multipart_parts_ok k buf ranges :
  carries buf body -> Forall (within (zlen body)) ranges -> zlen body <= NGX_MAX_OFF_T_VALUE ->
  exists out bs, multipart_parts palloc k (boundary_text r boundary) buf (map (printed (zlen body)) ranges) = Ok (Some out) /\
    Forall2 carries out bs /\ concat bs = concat (map (part_text r boundary body) ranges).
Proof using Hp.
  intros Hc Hw Hmax. revert k. induction Hw as [|range ranges Hr Hw IH]; intros k; [by exists [], []|].
  cbn [map multipart_parts].
  assert (forallb palloc (seq k 6) = true) as -> by (apply forallb_forall; auto).
  destruct (data_buf_ok buf range Hc Hr Hmax) as (b & Hb & Hcb).
  change (data_buf buf (printed (zlen body) range)) with (data_buf buf range). rewrite Hb, Ok_bind.
  destruct (IH (k + 6)%nat) as (out & bs & -> & Hout & Hcat). rewrite Ok_bind. eexists _, (_ :: _ :: _ :: bs).
  split; [done|]. split.
  - constructor; [by apply (memory_carries (boundary_text r boundary))|].
    constructor; [by apply (memory_carries (position_text (zlen body) range))|]. by constructor.
  - cbn [map concat]. rewrite Hcat. unfold part_text. by rewrite <- !app_assoc.
Qed.
End multipart.

Lemma boundary_delimiter r boundary :
  0 <= boundary < 18446744073709551616 ->
  slice (boundary_text r boundary) 0 (zlen (CRLF ++ str "--") + NGX_ATOMIC_T_LEN) = Ok (delimiter boundary).
Proof.
  intros Hb. unfold boundary_text. apply (slice_app []); [done|].
  unfold delimiter. rewrite !zlen_app, zlen_atomic by done. unfold NGX_ATOMIC_T_LEN. lia.
Qed.

Lemma drop_content_length_keeps r :
  rq_content_length_n (drop_content_length r) = rq_content_length_n r /\
  rq_ctx (drop_content_length r) = rq_ctx r /\ rq_content_type (drop_content_length r) = rq_content_type r.
Proof. unfold drop_content_length. by case_match. Qed.

(** The body filter, on a first buffer that carries the whole body. *)
Lemma multipart_body_ok palloc is_main r boundary body ranges buf rest :
  (forall k, palloc k = true) -> 0 <= boundary < 18446744073709551616 ->
  Forall (within (zlen body)) ranges -> length ranges <> 1%nat -> zlen body <= NGX_MAX_OFF_T_VALUE ->
  carries buf body -> ngx_buf_special buf = false ->
  exists out bs ctx', ngx_http_range_body_filter palloc is_main
      (Some (RangeCtx 0 (boundary_text r boundary) (map (printed (zlen body)) ranges))) (buf :: rest)
      = Ok (BodyNext out, ctx', buf :: rest) /\
    Forall2 carries out bs /\ concat bs = multipart_text r boundary body ranges /\
    exists b, last out = Some b /\ b_last_buf b = true.
Proof.
  intros Hp Hb Hw Hlen Hmax Hc Hsp. unfold ngx_http_range_body_filter. cbn [cx_ranges].
  rewrite length_map. apply Nat.eqb_neq in Hlen. rewrite Hlen, Hsp.
  pose proof (zlen_nonneg body). unfold ngx_http_range_test_overlapped. cbn [cx_offset cx_ranges Z.eqb negb].
  rewrite (carries_size buf body), Ok_bind by done. rewrite Z.add_0_l, int64_ok, Ok_bind by
    (unfold NGX_MAX_OFF_T_VALUE in *; lia).
  assert (existsb (fun range => (rg_start range <? 0) || (zlen body <? rg_end range)) (map (printed (zlen body)) ranges)
    = false) as ->.
  { clear Hlen. induction Hw as [|range ranges' [H1 H2] Hw IH]; [done|]. cbn [map existsb].
    rewrite IH, orb_false_r. change (rg_start (printed (zlen body) range)) with (rg_start range).
    change (rg_end (printed (zlen body) range)) with (rg_end range). lia. }
  rewrite andb_false_r, Ok_bind. unfold ngx_http_range_multipart_body. cbn [cx_ranges cx_boundary_header].
  destruct (multipart_parts_ok palloc Hp r boundary body 3 buf ranges Hc Hw Hmax) as (out & bs & Hparts & Hout & Hcat).
  match goal with |- context [multipart_parts _ _ ?h _ ?l] =>
    change h with (boundary_text r boundary); change l with (map (printed (zlen body)) ranges) end.
  rewrite Hparts, Ok_bind. assert (forallb palloc (seq 0 3) = true) as -> by (apply forallb_forall; auto).
  rewrite boundary_delimiter, !Ok_bind by done.
  eexists _, (bs ++ [delimiter boundary ++ str "--" ++ CRLF]), _. split; [done|].
  split; [|split; [|eexists; split; [by rewrite last_snoc|done]]].
  - apply Forall2_app; [done|]. constructor; [|done].
    by apply (memory_carries (delimiter boundary ++ str "--" ++ CRLF)).
  - rewrite concat_app, Hcat. cbn [concat]. by rewrite app_nil_r.
Qed.

Lemma type_sprintf boundary :
  0 <= boundary < 18446744073709551616 ->
  sprintf_into (zlen (str "Content-Type: multipart/byteranges; boundary=") + NGX_ATOMIC_T_LEN)
    (str "multipart/byteranges; boundary=%0muA") [A64 boundary]
  = Ok (str "multipart/byteranges; boundary=" ++ atomic_text boundary).
Proof.
  intros Hb. pose proof (zlen_atomic boundary Hb) as Ha. apply sprintf_into_ok.
  - num_start. repeat num_step. cbn [vslprintf_loop]. by rewrite <- ?app_assoc.
  - literal_lengths. lia.
Qed.


(** A body of ten bytes: the first four in memory, the others in a file, in two calls. *)
Definition example_memory : ngx_buf_t :=
  Buf true false false false false false false false 1 5 0 0 (str "xabcdy") [].
Definition example_file : ngx_buf_t :=
  Buf false false false true false false true true 0 0 2 8 [] (str "--efghij").
Definition example_both : ngx_buf_t :=
  Buf false true false true false false true true 1 11 0 10 (str "xabcdefghijy") (str "abcdefghij").

Lemma range_body_exact_witness :
  exists outs bs, body_calls (fun _ => true) true (Some (RangeCtx 0 [] [Range 2 7 []])) [[example_memory]; [example_file]]
      = Ok (map BodyNext outs) /\
    Forall2 carries (concat outs) bs /\
    slice (body_of [[str "abcd"]; [str "efghij"]]) 2 5 = Ok (concat bs) /\
    exists b, last (concat outs) = Some b /\ b_last_buf b = true /\ b_last_in_chain b = true.
Proof.
  apply (range_body_exact (fun _ => true) true (Range 2 7 []) [] [[example_memory]; [example_file]] [[str "abcd"]; [str "efghij"]]).
  - done.
  - cbn. lia.
  - repeat (constructor; try done).
  - by vm_compute.
Defined.

Definition example_request : http_request :=
  Request true None 1001 false true false None None 200 6 [] None None None None (-1) 10 0
    (str "text/plain") 10 None (str "utf-8") None 41.

