(* ===== verification/Digest.v ===== *)
(** * Digests of data that comes in pieces

    [ngx_md5_update] and [ngx_md5_final] of [src/core/ngx_md5.c], and their counterparts
    in [src/core/ngx_sha1.c], which differ only in the function of a block and in the
    order of the bytes of the length. They are modelled once, for a hash that is given by
    these two, with the theorem that the pieces do not matter. *)

From S2P Require Import Prelude.

(** [ngx_md5_t], [ngx_sha1_t]: [regs] are the fields [a], [b], ... *)
Record digest_ctx (R : Type) := DigestCtx {
  d_bytes : Z;
  d_regs : R;
  d_buffer : list Z
}.
Arguments DigestCtx {R}.
Arguments d_bytes {R}.
Arguments d_regs {R}.
Arguments d_buffer {R}.

(** A hash of blocks of 64 bytes: the round of [ngx_md5_body] on the block of [data] at
    [p], and the eight bytes that stand for the length. *)
Class BlockHash (R : Type) := {
  block_round : R -> list Z -> Z -> res R;
  length_bytes : Z -> list Z
}.

Definition memzero (n : Z) : list Z := replicate (Z.to_nat n) 0.

Section digest.
Context {R : Type} `{BlockHash R}.
Implicit Types (ctx : digest_ctx R) (regs : R) (data : list Z).

(** [do { ... p += 64; } while (size -= 64)]. A round that is not in the data is a fault,
    so its length is enough fuel. *)
Fixpoint body_loop (fuel : nat) regs data (p size : Z) : res R :=
  match fuel with
  | O => NoFuel
  | S fuel =>
      regs ← block_round regs data p;
      let size := u64 (size - 64) in
      if size =? 0 then Ok regs else body_loop fuel regs data (p + 64) size
  end.

(** [ngx_md5_body]; it returns [data + size]. *)
Definition digest_body regs data (size : Z) : res R := body_loop (S (length data)) regs data 0 size.

(** [ngx_md5_update] behind the bytes that were left over. *)
Definition update_rest ctx data (size : Z) : res (digest_ctx R) :=
  '(regs, data, size) ←
    (if 64 <=? size then
       let n := Z.land size (Z.lnot 0x3f) in
       regs ← digest_body (d_regs ctx) data n;
       Ok (regs, drop (Z.to_nat n) data, Z.land size 0x3f)
     else Ok (d_regs ctx, data, size));
  src ← slice data 0 size;
  buffer ← blit (d_buffer ctx) 0 src;
  Ok (DigestCtx (d_bytes ctx) regs buffer).

Definition digest_update ctx data (size : Z) : res (digest_ctx R) :=
  let used := Z.land (d_bytes ctx) 0x3f in
  let total := u64 (d_bytes ctx + size) in
  if negb (used =? 0) then
    let free := 64 - used in
    if size <? free then
      src ← slice data 0 size;
      buffer ← blit (d_buffer ctx) used src;
      Ok (DigestCtx total (d_regs ctx) buffer)
    else
      src ← slice data 0 free;
      buffer ← blit (d_buffer ctx) used src;
      regs ← digest_body (d_regs ctx) buffer 64;
      update_rest (DigestCtx total regs buffer) (drop (Z.to_nat free) data) (size - free)
  else update_rest (DigestCtx total (d_regs ctx) (d_buffer ctx)) data size.

(** [ngx_md5_final] up to the result, which is made of the registers. *)
Definition digest_final ctx : res R :=
  let used := Z.land (d_bytes ctx) 0x3f in
  buffer ← put (d_buffer ctx) used 0x80;
  let used := used + 1 in
  let free := 64 - used in
  '(regs, buffer, used, free) ←
    (if free <? 8 then
       buffer ← blit buffer used (memzero free);
       regs ← digest_body (d_regs ctx) buffer 64;
       Ok (regs, buffer, 0, 64)
     else Ok (d_regs ctx, buffer, used, free));
  buffer ← blit buffer used (memzero (free - 8));
  buffer ← blit buffer 56 (length_bytes (u64 (Z.shiftl (d_bytes ctx) 3)));
  digest_body regs buffer 64.

(** Several calls. *)
Fixpoint digest_updates ctx (pieces : list (list Z)) : res (digest_ctx R) :=
  match pieces with
  | [] => Ok ctx
  | data :: pieces => ctx ← digest_update ctx data (zlen data); digest_updates ctx pieces
  end.
End digest.

(** ** The digest of a message *)

(** The message with a one bit, zeros, and its length in bits in the last eight bytes of
    a block. *)
Definition padded (len : Z -> list Z) (m : list Z) : list Z :=
  m ++ [0x80] ++ memzero ((55 - zlen m) mod 64) ++ len (u64 (8 * zlen m)).

Section spec.
Context {R : Type} (compress : R -> list Z -> R).

(** [n] blocks, one by one. *)
Fixpoint compress_blocks (n : nat) (regs : R) (l : list Z) : R :=
  match n with
  | O => regs
  | S n => compress_blocks n (compress regs (take 64 l)) (drop 64 l)
  end.

Definition blocks_of (l : list Z) : nat := Z.to_nat (zlen l / 64).

Definition digest_of (len : Z -> list Z) (init : R) (m : list Z) : R :=
  let l := padded len m in compress_blocks (blocks_of l) init l.

Lemma compress_blocks_app n k regs l1 l2 :
  length l1 = (64 * n)%nat ->
  compress_blocks (n + k) regs (l1 ++ l2) = compress_blocks k (compress_blocks n regs l1) l2.
Proof using.
  revert regs l1. induction n as [|n IH]; intros regs l1 Hl.
  - by destruct l1.
  - cbn [Nat.add compress_blocks]. rewrite <- IH by (rewrite length_drop; lia).
    rewrite take_app_le, drop_app_le by lia. done.
Qed.

(** Bytes behind the blocks are not read. *)
Lemma compress_blocks_more n regs l extra :
  (64 * n <= length l)%nat -> compress_blocks n regs (l ++ extra) = compress_blocks n regs l.
Proof using.
  revert regs l. induction n as [|n IH]; intros regs l Hl; [done|]. cbn [compress_blocks].
  rewrite take_app_le, drop_app_le by lia. apply IH. rewrite length_drop. lia.
Qed.

Lemma compress_blocks_prefix n regs l1 l2 :
  length l1 = (64 * n)%nat -> compress_blocks n regs (l1 ++ l2) = compress_blocks n regs l1.
Proof using. intros Hl. apply compress_blocks_more. lia. Qed.
End spec.

(** ** The pieces of a digest do not matter

    Whatever the pieces in which a message is given, the digest is that of the padded
    message, block by block. *)

(** What a hash of blocks promises: a round on a block that is in the data is [compress]
    of this block. *)
Class BlockHashLaws (R : Type) `{BlockHash R} (compress : R -> list Z -> R) := {
  round_ok regs data p : bytes data -> 0 <= p -> p + 64 <= zlen data ->
    block_round regs data p = Ok (compress regs (take 64 (drop (Z.to_nat p) data)));
  length_bytes_8 n : zlen (length_bytes n) = 8;
  length_bytes_byte n : bytes (length_bytes n)
}.

Lemma zlen_zeros n : 0 <= n -> zlen (memzero n) = n.
Proof. intros Hn. unfold memzero. rewrite zlen_replicate. lia. Qed.

Lemma bytes_zeros n : bytes (memzero n).
Proof. apply Forall_replicate. lia. Qed.

Lemma land_63 z : 0 <= z -> Z.land z 0x3f = z mod 64.
Proof. intros _. change 0x3f with (Z.ones 6). by rewrite Z.land_ones. Qed.

Lemma land_not_63 z : 0 <= z -> Z.land z (Z.lnot 0x3f) = z - z mod 64.
Proof.
  intros Hz. rewrite <- (land_63 z) by done.
  assert (Z.land z (Z.lnot 0x3f) = Z.ldiff z 0x3f) as -> by (by rewrite Z.ldiff_land).
  pose proof (Z.sub_nocarry_ldiff z (Z.land z 0x3f)) as Hs. rewrite Hs.
  - apply Z.bits_inj'. intros i Hi. rewrite !Z.ldiff_spec, Z.land_spec.
    by destruct (Z.testbit z i), (Z.testbit 0x3f i).
  - apply Z.bits_inj'. intros i Hi. rewrite Z.ldiff_spec, Z.land_spec, Z.bits_0.
    by destruct (Z.testbit z i), (Z.testbit 0x3f i).
Qed.

(** The four bytes of a word of a block. *)
Lemma block_bytes data p n :
  bytes data -> 0 <= p -> p + 64 <= zlen data -> (n < 16)%nat ->
  exists b0 b1 b2 b3, take 4 (drop (4 * n) (take 64 (drop (Z.to_nat p) data))) = [b0; b1; b2; b3] /\
    bytes [b0; b1; b2; b3] /\
    get data (p + Z.of_nat n * 4) = Ok b0 /\ get data (p + Z.of_nat n * 4 + 1) = Ok b1 /\
    get data (p + Z.of_nat n * 4 + 2) = Ok b2 /\ get data (p + Z.of_nat n * 4 + 3) = Ok b3.
Proof.
  intros Hb Hp Hl Hn. destruct (slice_ok data (p + Z.of_nat n * 4) 4) as (l & Hs & Hz); [lia|lia|lia|].
  apply slice_holds in Hs as Hh. destruct Hh as [Hh _].
  assert (take 4 (drop (4 * n) (take 64 (drop (Z.to_nat p) data))) = l) as ->.
  { unfold slice in Hs. case_match; [|done]. injection Hs as <-.
    rewrite skipn_firstn_comm, drop_drop, take_take. f_equal; [lia|]. f_equal. lia. }
  assert (bytes l) as Hlb by (by eapply slice_bytes).
  destruct l as [|b0 [|b1 [|b2 [|b3 [|]]]]]; unfold zlen in Hz; cbn [length] in Hz; try lia.
  exists b0, b1, b2, b3. split; [done|]. split; [done|].
  rewrite <- (Z.add_0_r (p + Z.of_nat n * 4)) at 1. repeat split; by apply (holds_get _ _ _ _ _ Hh).
Qed.

Section spec.
Context {R : Type} `{BlockHash R} (compress : R -> list Z -> R) `{!BlockHashLaws R compress}.

Lemma body_loop_ok n fuel regs data p :
  bytes data -> (n < fuel)%nat -> 0 <= p -> p + 64 * (Z.of_nat n + 1) <= zlen data ->
  zlen data < 18446744073709551616 ->
  body_loop fuel regs data p (64 * (Z.of_nat n + 1)) =
    Ok (compress_blocks compress (S n) regs (drop (Z.to_nat p) data)).
Proof.
  intros Hb Hf Hp Hl Hmax. revert fuel regs p Hf Hp Hl. induction n as [|n IH]; intros [|fuel] regs p Hf Hp Hl; try lia;
    cbn [body_loop]; rewrite round_ok, Ok_bind by (done || lia); rewrite u64_id by lia.
  - done.
  - destruct (Z.eqb_spec (64 * (Z.of_nat (S n) + 1) - 64) 0); [lia|].
    replace (64 * (Z.of_nat (S n) + 1) - 64) with (64 * (Z.of_nat n + 1)) by lia.
    rewrite IH by lia. f_equal.
    change (compress_blocks compress (S (S n)) regs (drop (Z.to_nat p) data)) with
      (compress_blocks compress (S n) (compress regs (take 64 (drop (Z.to_nat p) data))) (drop 64 (drop (Z.to_nat p) data))).
    rewrite drop_drop. do 2 f_equal. lia.
Qed.

Lemma digest_body_ok n regs data size :
  bytes data -> size = 64 * (Z.of_nat n + 1) -> size <= zlen data -> zlen data < 18446744073709551616 ->
  digest_body regs data size = Ok (compress_blocks compress (S n) regs data).
Proof.
  intros Hb -> Hl Hmax. unfold digest_body. rewrite (body_loop_ok n) by (done || (unfold zlen in *; lia)). done.
Qed.
(** ** Reading the pieces *)

Lemma blit_eq b i src :
  0 <= i -> i + zlen src <= zlen b ->
  blit b i src = Ok (take (Z.to_nat i) b ++ src ++ drop (Z.to_nat (i + zlen src)) b).
Proof using.
  intros H0 H1. unfold blit. by destruct (Z.leb_spec 0 i), (Z.leb_spec (i + zlen src) (zlen b)); try lia.
Qed.

Lemma bytes_blit b i src b' : bytes b -> bytes src -> blit b i src = Ok b' -> bytes b'.
Proof using.
  intros Hb Hs. unfold blit. case_match; [|done]. intros [= <-].
  apply Forall_app. split; [by apply Forall_take|]. apply Forall_app. split; [done|by apply Forall_drop].
Qed.

Lemma slice_front data n : 0 <= n <= zlen data -> slice data 0 n = Ok (take (Z.to_nat n) data).
Proof using.
  intros Hn. unfold slice. by destruct (Z.leb_spec 0 n), (Z.leb_spec (0 + n) (zlen data)); try lia.
Qed.

(** The context has read the message [m], which started from [init]. *)
Record absorbed (init : R) (ctx : digest_ctx R) (m : list Z) : Prop := {
  ab_bytes : d_bytes ctx = u64 (zlen m);
  ab_buffer : zlen (d_buffer ctx) = 64 /\ bytes (d_buffer ctx);
  ab_regs : d_regs ctx = compress_blocks compress (blocks_of m) init m;
  ab_rest : take (Z.to_nat (zlen m mod 64)) (d_buffer ctx) = drop (64 * blocks_of m) m
}.

Lemma used_ok init ctx m : absorbed init ctx m -> Z.land (d_bytes ctx) 0x3f = zlen m mod 64.
Proof using.
  intros [-> _ _ _]. pose proof (zlen_nonneg m). unfold u64. rewrite land_63 by (apply Z.mod_pos_bound; lia).
  symmetry. rewrite <- (Z.mod_mod_divide (zlen m) 18446744073709551616 64); [done|].
  by exists 288230376151711744.
Qed.

Lemma blocks_of_spec {l : list Z} : zlen l = 64 * Z.of_nat (blocks_of l) + zlen l mod 64.
Proof using.
  unfold blocks_of. pose proof (zlen_nonneg l). pose proof (Z.div_mod (zlen l) 64 ltac:(lia)).
  rewrite Z2Nat.id by (apply Z.div_pos; lia). lia.
Qed.

Lemma blocks_of_unique l n r : zlen l = 64 * Z.of_nat n + r -> 0 <= r < 64 -> blocks_of l = n /\ zlen l mod 64 = r.
Proof using.
  intros Hl Hr. unfold blocks_of. rewrite Hl.
  rewrite (Z.add_comm (64 * _)), (Z.mul_comm 64), Z.div_add, Z.mod_add by lia.
  rewrite Z.div_small, Z.mod_small by lia. split; [lia|done].
Qed.

(** Behind whole blocks; the memory goes on behind the data. *)
Lemma update_rest_ok init ctx m data extra n :
  d_regs ctx = compress_blocks compress n init m -> zlen m = 64 * Z.of_nat n ->
  d_bytes ctx = u64 (zlen m + zlen data) -> zlen (d_buffer ctx) = 64 -> bytes (d_buffer ctx) ->
  bytes (data ++ extra) -> zlen (data ++ extra) < 18446744073709551616 ->
  exists ctx', update_rest ctx (data ++ extra) (zlen data) = Ok ctx' /\ absorbed init ctx' (m ++ data).
Proof.
  intros Hr Hm Hbytes Hbuf Hbb Hb Hmax. pose proof (zlen_nonneg data) as H0.
  pose proof (zlen_app data extra) as Happ. pose proof (zlen_nonneg extra) as He.
  pose proof Hb as [Hbd _]%Forall_app.
  pose proof (@blocks_of_spec data) as Hd. pose proof (Z.mod_pos_bound (zlen data) 64 ltac:(lia)) as Hmod.
  set (k := blocks_of data) in *. set (u := zlen data mod 64) in *.
  destruct (blocks_of_unique (m ++ data) (n + k) u) as [Hblocks Hmd]; [rewrite zlen_app; lia|done|].
  assert (update_rest ctx (data ++ extra) (zlen data) =
    (src ← slice (drop (64 * k) data ++ extra) 0 u; buffer ← blit (d_buffer ctx) 0 src;
     Ok (DigestCtx (d_bytes ctx) (compress_blocks compress k (d_regs ctx) data) buffer))) as ->.
  { unfold update_rest. destruct (Z.leb_spec 64 (zlen data)).
    - rewrite land_not_63, land_63 by done. fold u. destruct k as [|k']; [lia|].
      rewrite (digest_body_ok k') by (done || lia). rewrite !Ok_bind.
      replace (Z.to_nat (zlen data - u)) with (64 * S k')%nat by lia.
      rewrite drop_app_le by (unfold zlen in *; lia).
      by rewrite compress_blocks_more by (unfold zlen in *; lia).
    - assert (k = O) as -> by lia. rewrite Ok_bind. cbn [compress_blocks]. rewrite Nat.mul_0_r, drop_0.
      by replace u with (zlen data) by lia. }
  assert (zlen (drop (64 * k) data) = u) as Hrest by (unfold zlen in *; rewrite length_drop; lia).
  rewrite slice_front by (rewrite zlen_app; lia). rewrite Ok_bind, take_app_le by (unfold zlen in *; lia).
  rewrite (take_ge (drop _ _)) by (unfold zlen in *; lia).
  pose proof (blit_eq (d_buffer ctx) 0 (drop (64 * k) data) ltac:(lia) ltac:(lia)) as Hblit.
  rewrite Hblit, Ok_bind. eexists. split; [done|]. split; cbn [d_bytes d_regs d_buffer].
  - rewrite zlen_app. done.
  - split; [by rewrite (zlen_blit _ _ _ _ Hblit)|]. eapply bytes_blit; [exact Hbb|by apply Forall_drop|exact Hblit].
  - rewrite Hblocks, compress_blocks_app by (unfold zlen in *; lia). by rewrite Hr.
  - rewrite Hblocks, Hmd. change (take (Z.to_nat 0) (d_buffer ctx)) with (@nil Z). cbn [app].
    rewrite take_app_le by (unfold zlen in *; lia).
    rewrite take_ge by (unfold zlen in *; lia). rewrite drop_app_ge by (unfold zlen in *; lia).
    f_equal. unfold zlen in *. lia.
Qed.
(** The message splits into its blocks and the bytes in the buffer. *)
Lemma absorbed_split init ctx m :
  absorbed init ctx m ->
  let n := blocks_of m in
  let used := zlen m mod 64 in
  m = take (64 * n) m ++ take (Z.to_nat used) (d_buffer ctx) /\
  length (take (64 * n) m) = (64 * n)%nat /\ zlen (take (Z.to_nat used) (d_buffer ctx)) = used /\
  0 <= used < 64 /\ d_regs ctx = compress_blocks compress n init (take (64 * n) m).
Proof using.
  intros [_ [Hb _] Hr Hrest]. cbv zeta. pose proof (@blocks_of_spec m) as Hm.
  pose proof (Z.mod_pos_bound (zlen m) 64 ltac:(lia)) as Hmod.
  assert (length (take (64 * blocks_of m) m) = 64 * blocks_of m)%nat as Hl by
    (rewrite length_take; unfold zlen in *; lia).
  split; [by rewrite Hrest, take_drop|]. split; [done|]. split; [by rewrite zlen_take by lia|]. split; [done|].
  rewrite Hr. rewrite <- (take_drop (64 * blocks_of m) m) at 2. by rewrite compress_blocks_prefix.
Qed.

(** The first call after bytes that were left over. *)
Lemma update_ok init ctx m data extra :
  absorbed init ctx m -> bytes (data ++ extra) -> zlen (data ++ extra) < 18446744073709551616 ->
  exists ctx', digest_update ctx (data ++ extra) (zlen data) = Ok ctx' /\ absorbed init ctx' (m ++ data).
Proof.
  intros Ha Hb Hmax. pose proof (zlen_nonneg data) as H0.
  pose proof (zlen_app data extra) as Happ. pose proof (zlen_nonneg extra) as He.
  pose proof Hb as [Hbd Hbe]%Forall_app. pose proof (absorbed_split init ctx m Ha) as Hsplit.
  cbv zeta in Hsplit. destruct Hsplit as (Hm & Hl & Hu & Hmod & Hregs).
  unfold digest_update. rewrite (used_ok init ctx m Ha). destruct Ha as [Hbytes [Hbuf Hbb] Hr Hrest].
  pose proof (@blocks_of_spec m) as Hblk. set (n := blocks_of m) in *. set (used := zlen m mod 64) in *.
  assert (u64 (d_bytes ctx + zlen data) = u64 (zlen m + zlen data)) as Htotal by (by rewrite Hbytes, u64_add).
  destruct (Z.eqb_spec used 0) as [E|E]; cbn [negb].
  { eapply (update_rest_ok init _ m data extra n); cbn [d_regs d_bytes d_buffer]; try done; try lia. }
  destruct (Z.ltb_spec (zlen data) (64 - used)) as [Hlt|Hge].
  - rewrite slice_front by lia. rewrite Ok_bind, take_app_le, take_ge by (unfold zlen; lia).
    pose proof (blit_eq (d_buffer ctx) used data ltac:(lia) ltac:(lia)) as Hblit.
    rewrite Hblit, Ok_bind. eexists. split; [done|].
    destruct (blocks_of_unique (m ++ data) n (used + zlen data)) as [H1 H2]; [rewrite zlen_app; lia|lia|].
    split; cbn [d_bytes d_regs d_buffer].
    + by rewrite zlen_app.
    + split; [by rewrite (zlen_blit _ _ _ _ Hblit)|]. by apply (bytes_blit _ _ _ _ Hbb Hbd Hblit).
    + rewrite H1, Hregs. rewrite Hm at 2. rewrite <- app_assoc. by rewrite compress_blocks_prefix.
    + rewrite H1, H2, Hm. rewrite <- app_assoc, drop_app_length' by lia.
      rewrite app_assoc, take_app_le by (rewrite length_app; unfold zlen in *; lia).
      apply take_ge. rewrite length_app. unfold zlen in *. lia.
  - rewrite slice_front by lia. rewrite Ok_bind, take_app_le, drop_app_le by (unfold zlen in *; lia). set (front := take (Z.to_nat (64 - used)) data).
    assert (zlen front = 64 - used) as Hf by (unfold front; rewrite zlen_take by lia; lia).
    rewrite blit_eq, Ok_bind by lia. rewrite drop_ge, app_nil_r by (unfold zlen in *; lia).
    set (block := take (Z.to_nat used) (d_buffer ctx) ++ front).
    assert (zlen block = 64) as Hblock by (unfold block; rewrite zlen_app; lia).
    rewrite (digest_body_ok 0) by (lia || (apply Forall_app; split; apply Forall_take; done)).
    rewrite Ok_bind. replace (zlen data - (64 - used)) with (zlen (drop (Z.to_nat (64 - used)) data)) by
      (rewrite zlen_drop; lia).
    destruct (update_rest_ok init (DigestCtx (u64 (d_bytes ctx + zlen data)) (compress_blocks compress 1 (d_regs ctx) block) block)
      (m ++ front) (drop (Z.to_nat (64 - used)) data) extra (n + 1)) as (ctx' & -> & Ha'); cbn [d_regs d_bytes d_buffer].
    + rewrite Hm, <- app_assoc. rewrite compress_blocks_app by done. by rewrite Hregs.
    + rewrite zlen_app. lia.
    + rewrite zlen_app, zlen_drop, Hf, Htotal by lia. f_equal. lia.
    + done.
    + apply Forall_app. split; by apply Forall_take.
    + apply Forall_app. split; [by apply Forall_drop|done].
    + rewrite zlen_app, zlen_drop; lia.
    + exists ctx'. split; [done|]. unfold front in Ha'. by rewrite <- app_assoc, take_drop in Ha'.
Qed.

Lemma updates_ok init pieces ctx m :
  absorbed init ctx m -> Forall (fun data => bytes data /\ zlen data < 18446744073709551616) pieces ->
  exists ctx', digest_updates ctx pieces = Ok ctx' /\ absorbed init ctx' (m ++ concat pieces).
Proof.
  intros Ha Hp. revert ctx m Ha. induction Hp as [|data pieces [Hb Hl] Hp IH]; intros ctx m Ha.
  - exists ctx. cbn [concat]. by rewrite app_nil_r.
  - cbn [digest_updates concat]. destruct (update_ok init ctx m data [] Ha) as (ctx' & Hu & Ha'); rewrite ?app_nil_r in *; [done..|].
    rewrite Hu. rewrite Ok_bind, app_assoc. by apply IH.
Qed.
(** ** The last block *)

Lemma blit_at pre rest src i :
  i = zlen pre -> zlen src <= zlen rest ->
  blit (pre ++ rest) i src = Ok ((pre ++ src) ++ drop (Z.to_nat (zlen src)) rest).
Proof using.
  intros -> Hl. pose proof (zlen_nonneg pre). pose proof (zlen_nonneg src).
  rewrite blit_eq by (rewrite ?zlen_app; lia). rewrite take_app_length' by (unfold zlen; lia).
  rewrite <- app_assoc. rewrite drop_app_ge by (unfold zlen; lia). do 4 f_equal. unfold zlen. lia.
Qed.

Lemma final_ok init ctx m :
  absorbed init ctx m -> digest_final ctx = Ok (digest_of compress length_bytes init m).
Proof.
  intros Ha. pose proof (absorbed_split init ctx m Ha) as Hsplit. cbv zeta in Hsplit.
  destruct Hsplit as (Hm & Hl & Hu & Hmod & Hregs).
  unfold digest_final. rewrite (used_ok init ctx m Ha). destruct Ha as [Hbytes [Hbuf Hbb] _ _].
  pose proof (@blocks_of_spec m) as Hblk. set (n := blocks_of m) in *. set (used := zlen m mod 64) in *.
  assert (u64 (Z.shiftl (d_bytes ctx) 3) = u64 (8 * zlen m)) as ->.
  { rewrite Hbytes, Z.shiftl_mul_pow2 by lia. change (2 ^ 3) with 8. unfold u64. rewrite Z.mul_mod_idemp_l by lia.
    f_equal. lia. }
  set (len := length_bytes (u64 (8 * zlen m))). pose proof (length_bytes_8 (u64 (8 * zlen m))) as Hlen. fold len in Hlen.
  pose proof (length_bytes_byte (u64 (8 * zlen m))) as Hlenb. fold len in Hlenb.
  set (r := take (Z.to_nat used) (d_buffer ctx)) in *.
  assert (bytes r) as Hrb by (by apply Forall_take).
  rewrite <- (take_drop (Z.to_nat used) (d_buffer ctx)). fold r. set (rest := drop (Z.to_nat used) (d_buffer ctx)).
  assert (zlen rest = 64 - used) as Hrest by (unfold rest; rewrite zlen_drop; lia).
  unfold put. rewrite blit_at, Ok_bind by (change (zlen [128]) with 1; lia). change (zlen [128]) with 1.
  change (Z.to_nat 1) with 1%nat. set (rest1 := drop 1 rest).
  assert (zlen rest1 = 63 - used) as Hrest1 by (unfold rest1, zlen in *; rewrite length_drop; lia).
  assert (zlen (r ++ [128]) = used + 1) as Hr1 by (rewrite zlen_app; change (zlen [128]) with 1; lia).
  assert (bytes (r ++ [128])) as Hr1b by (apply Forall_app; split; [done|repeat constructor; lia]).
  unfold digest_of, padded. cbv zeta. change [0x80] with [128]. fold len.
  destruct (Z.ltb_spec (64 - (used + 1)) 8) as [Hfree|Hfree].
  - rewrite blit_at, Ok_bind by (rewrite ?zlen_zeros; lia).
    rewrite drop_ge, app_nil_r by (rewrite zlen_zeros by lia; unfold zlen in *; lia).
    set (block := (r ++ [128]) ++ memzero (64 - (used + 1))).
    assert (zlen block = 64) as Hblock by (unfold block; rewrite zlen_app, zlen_zeros; lia).
    assert (bytes block) as Hblockb by (apply Forall_app; split; [done|apply bytes_zeros]).
    rewrite (digest_body_ok 0) by (done || lia). rewrite !Ok_bind.
    change block with ([] ++ block) at 2. rewrite blit_at, Ok_bind by (rewrite ?zlen_zeros; done || lia).
    cbn [app]. rewrite zlen_zeros by lia. rewrite blit_at, Ok_bind by
      (rewrite ?zlen_zeros, ?zlen_drop, ?Hlen by lia; lia).
    rewrite (drop_ge (drop _ block)), app_nil_r by (rewrite length_drop; unfold zlen in *; lia).
    rewrite (digest_body_ok 0) by (rewrite ?zlen_app, ?zlen_zeros, ?Hlen by lia; done || lia ||
      (apply Forall_app; split; [apply bytes_zeros|done])).
    f_equal.
    assert (m ++ 128 :: memzero ((55 - zlen m) mod 64) ++ len = take (64 * n) m ++ block ++ memzero 56 ++ len) as ->.
    { change (128 :: ?l) with ([128] ++ l). rewrite Hm at 1. unfold block. rewrite <- !app_assoc. do 3 f_equal. rewrite app_assoc. f_equal.
      unfold memzero. rewrite <- replicate_add. f_equal.
      assert ((55 - zlen m) mod 64 = 119 - used) as -> by (unfold used in *; Z.to_euclidean_division_equations; lia). lia. }
    destruct (blocks_of_unique (take (64 * n) m ++ block ++ memzero 56 ++ len) (n + 2) 0) as [-> _]; [|lia|].
    { rewrite !zlen_app, zlen_zeros, Hlen, Hblock by lia. unfold zlen at 1. lia. }
    rewrite compress_blocks_app by done. rewrite Hregs.
    change 2%nat with (1 + 1)%nat. rewrite (compress_blocks_app compress 1 1 _ block) by (unfold zlen in *; lia). done.
  - rewrite Ok_bind. rewrite blit_at, Ok_bind by (rewrite ?zlen_zeros by lia; lia).
    rewrite zlen_zeros by lia. rewrite blit_at, Ok_bind by
      (rewrite ?zlen_app, ?zlen_zeros, ?zlen_drop, ?Hlen by lia; change (zlen [128]) with 1; lia).
    rewrite (drop_ge (drop _ rest1)), app_nil_r by (rewrite length_drop; unfold zlen in *; lia).
    rewrite (digest_body_ok 0) by (rewrite ?zlen_app, ?zlen_zeros, ?Hlen by lia; change (zlen [128]) with 1; lia ||
      (repeat (apply Forall_app; split); done || apply bytes_zeros || (repeat constructor; lia))).
    f_equal.
    set (block := ((r ++ [128]) ++ memzero (64 - (used + 1) - 8)) ++ len).
    assert (m ++ [128] ++ memzero ((55 - zlen m) mod 64) ++ len = take (64 * n) m ++ block) as ->.
    { rewrite Hm at 1. unfold block. rewrite <- !app_assoc. do 4 f_equal.
      assert ((55 - zlen m) mod 64 = 64 - (used + 1) - 8) as -> by (unfold used in *; Z.to_euclidean_division_equations; lia). done. }
    destruct (blocks_of_unique (take (64 * n) m ++ block) (n + 1) 0) as [-> _]; [|lia|].
    { unfold block. rewrite !zlen_app, zlen_zeros, Hlen by lia. change (zlen [128]) with 1. unfold zlen at 1. lia. }
    rewrite compress_blocks_app by done. by rewrite Hregs.
Qed.

(** A context that was just initialised, whatever its buffer holds. *)
Lemma absorbed_init init buffer : zlen buffer = 64 -> bytes buffer -> absorbed init (DigestCtx 0 init buffer) [].
Proof using. done. Qed.

(** All calls together. *)
Lemma digest_pieces init buffer pieces :
  zlen buffer = 64 -> bytes buffer ->
  Forall (fun data => bytes data /\ zlen data < 18446744073709551616) pieces ->
  (ctx ← digest_updates (DigestCtx 0 init buffer) pieces; digest_final ctx)
  = Ok (digest_of compress length_bytes init (concat pieces)).
Proof.
  intros H1 H2 Hp. destruct (updates_ok init pieces _ [] (absorbed_init init buffer H1 H2) Hp) as (ctx & -> & Ha).
  rewrite Ok_bind. by apply final_ok.
Qed.
End spec.
