(* ===== verification/Md5.v ===== *)
(** * MD5

    [src/core/ngx_md5.c]. The sixty-four lines of the transformation are a table that is
    run line by line; [MD5] is the algorithm as RFC 1321 describes it, with a formula for
    the word, the rotation and the order of the registers of a step. *)

From S2P Require Import Prelude Digest.

(** ** The code *)

Record md5_regs := Md5Regs { m_a : Z; m_b : Z; m_c : Z; m_d : Z }.

(** The basic functions, on words of 32 bits. *)
Definition F (x y z : Z) : Z := Z.lxor z (Z.land x (Z.lxor y z)).
Definition G (x y z : Z) : Z := Z.lxor y (Z.land z (Z.lxor x y)).
Definition H (x y z : Z) : Z := Z.lxor (Z.lxor x y) z.
Definition I (x y z : Z) : Z := Z.lxor y (Z.lor x (u32 (Z.lnot z))).

(** A word at [p]: [SET] and [GET] of a little-endian machine. *)
Definition word_le (data : list Z) (p : Z) : res Z :=
  b0 ← get data p;
  b1 ← get data (p + 1);
  b2 ← get data (p + 2);
  b3 ← get data (p + 3);
  Ok (b0 + Z.shiftl b1 8 + Z.shiftl b2 16 + Z.shiftl b3 24).

Inductive reg := reg_a | reg_b | reg_c | reg_d.

Definition read (r : reg) (st : md5_regs) : Z :=
  match r with reg_a => m_a st | reg_b => m_b st | reg_c => m_c st | reg_d => m_d st end.

Definition write (r : reg) (v : Z) (st : md5_regs) : md5_regs :=
  let '(Md5Regs a b c d) := st in
  match r with
  | reg_a => Md5Regs v b c d
  | reg_b => Md5Regs a v c d
  | reg_c => Md5Regs a b v d
  | reg_d => Md5Regs a b c v
  end.

Definition rotate (v s : Z) : Z :=
  Z.lor (u32 (Z.shiftl v s)) (Z.shiftr (Z.land v 0xffffffff) (32 - s)).

(** One line: [STEP(f, a, b, c, d, GET(n), t, s)]. *)
Record md5_line := STEP {
  st_f : Z -> Z -> Z -> Z;
  st_a : reg; st_b : reg; st_c : reg; st_d : reg;
  st_n : Z; st_t : Z; st_s : Z
}.

Definition run_line (data : list Z) (p : Z) (st : md5_regs) (l : md5_line) : res md5_regs :=
  x ← word_le data (p + st_n l * 4);
  let a := u32 (read (st_a l) st + (st_f l (read (st_b l) st) (read (st_c l) st) (read (st_d l) st) + x + st_t l)) in
  let a := rotate a (st_s l) in
  Ok (write (st_a l) (u32 (a + read (st_b l) st)) st).

Definition md5_lines : list md5_line :=
  [ (* Round 1 *)
   STEP F reg_a reg_b reg_c reg_d 0 0xd76aa478 7; STEP F reg_d reg_a reg_b reg_c 1 0xe8c7b756 12;
   STEP F reg_c reg_d reg_a reg_b 2 0x242070db 17; STEP F reg_b reg_c reg_d reg_a 3 0xc1bdceee 22;
   STEP F reg_a reg_b reg_c reg_d 4 0xf57c0faf 7; STEP F reg_d reg_a reg_b reg_c 5 0x4787c62a 12;
   STEP F reg_c reg_d reg_a reg_b 6 0xa8304613 17; STEP F reg_b reg_c reg_d reg_a 7 0xfd469501 22;
   STEP F reg_a reg_b reg_c reg_d 8 0x698098d8 7; STEP F reg_d reg_a reg_b reg_c 9 0x8b44f7af 12;
   STEP F reg_c reg_d reg_a reg_b 10 0xffff5bb1 17; STEP F reg_b reg_c reg_d reg_a 11 0x895cd7be 22;
   STEP F reg_a reg_b reg_c reg_d 12 0x6b901122 7; STEP F reg_d reg_a reg_b reg_c 13 0xfd987193 12;
   STEP F reg_c reg_d reg_a reg_b 14 0xa679438e 17; STEP F reg_b reg_c reg_d reg_a 15 0x49b40821 22;
   (* Round 2 *)
   STEP G reg_a reg_b reg_c reg_d 1 0xf61e2562 5; STEP G reg_d reg_a reg_b reg_c 6 0xc040b340 9;
   STEP G reg_c reg_d reg_a reg_b 11 0x265e5a51 14; STEP G reg_b reg_c reg_d reg_a 0 0xe9b6c7aa 20;
   STEP G reg_a reg_b reg_c reg_d 5 0xd62f105d 5; STEP G reg_d reg_a reg_b reg_c 10 0x02441453 9;
   STEP G reg_c reg_d reg_a reg_b 15 0xd8a1e681 14; STEP G reg_b reg_c reg_d reg_a 4 0xe7d3fbc8 20;
   STEP G reg_a reg_b reg_c reg_d 9 0x21e1cde6 5; STEP G reg_d reg_a reg_b reg_c 14 0xc33707d6 9;
   STEP G reg_c reg_d reg_a reg_b 3 0xf4d50d87 14; STEP G reg_b reg_c reg_d reg_a 8 0x455a14ed 20;
   STEP G reg_a reg_b reg_c reg_d 13 0xa9e3e905 5; STEP G reg_d reg_a reg_b reg_c 2 0xfcefa3f8 9;
   STEP G reg_c reg_d reg_a reg_b 7 0x676f02d9 14; STEP G reg_b reg_c reg_d reg_a 12 0x8d2a4c8a 20;
   (* Round 3 *)
   STEP H reg_a reg_b reg_c reg_d 5 0xfffa3942 4; STEP H reg_d reg_a reg_b reg_c 8 0x8771f681 11;
   STEP H reg_c reg_d reg_a reg_b 11 0x6d9d6122 16; STEP H reg_b reg_c reg_d reg_a 14 0xfde5380c 23;
   STEP H reg_a reg_b reg_c reg_d 1 0xa4beea44 4; STEP H reg_d reg_a reg_b reg_c 4 0x4bdecfa9 11;
   STEP H reg_c reg_d reg_a reg_b 7 0xf6bb4b60 16; STEP H reg_b reg_c reg_d reg_a 10 0xbebfbc70 23;
   STEP H reg_a reg_b reg_c reg_d 13 0x289b7ec6 4; STEP H reg_d reg_a reg_b reg_c 0 0xeaa127fa 11;
   STEP H reg_c reg_d reg_a reg_b 3 0xd4ef3085 16; STEP H reg_b reg_c reg_d reg_a 6 0x04881d05 23;
   STEP H reg_a reg_b reg_c reg_d 9 0xd9d4d039 4; STEP H reg_d reg_a reg_b reg_c 12 0xe6db99e5 11;
   STEP H reg_c reg_d reg_a reg_b 15 0x1fa27cf8 16; STEP H reg_b reg_c reg_d reg_a 2 0xc4ac5665 23;
   (* Round 4 *)
   STEP I reg_a reg_b reg_c reg_d 0 0xf4292244 6; STEP I reg_d reg_a reg_b reg_c 7 0x432aff97 10;
   STEP I reg_c reg_d reg_a reg_b 14 0xab9423a7 15; STEP I reg_b reg_c reg_d reg_a 5 0xfc93a039 21;
   STEP I reg_a reg_b reg_c reg_d 12 0x655b59c3 6; STEP I reg_d reg_a reg_b reg_c 3 0x8f0ccc92 10;
   STEP I reg_c reg_d reg_a reg_b 10 0xffeff47d 15; STEP I reg_b reg_c reg_d reg_a 1 0x85845dd1 21;
   STEP I reg_a reg_b reg_c reg_d 8 0x6fa87e4f 6; STEP I reg_d reg_a reg_b reg_c 15 0xfe2ce6e0 10;
   STEP I reg_c reg_d reg_a reg_b 6 0xa3014314 15; STEP I reg_b reg_c reg_d reg_a 13 0x4e0811a1 21;
   STEP I reg_a reg_b reg_c reg_d 4 0xf7537e82 6; STEP I reg_d reg_a reg_b reg_c 11 0xbd3af235 10;
   STEP I reg_c reg_d reg_a reg_b 2 0x2ad7d2bb 15; STEP I reg_b reg_c reg_d reg_a 9 0xeb86d391 21].

Fixpoint run_lines (data : list Z) (p : Z) (st : md5_regs) (lines : list md5_line) : res md5_regs :=
  match lines with
  | [] => Ok st
  | l :: lines => st ← run_line data p st l; run_lines data p st lines
  end.

Definition add_saved (st saved : md5_regs) : md5_regs :=
  Md5Regs (u32 (m_a st + m_a saved)) (u32 (m_b st + m_b saved)) (u32 (m_c st + m_c saved))
    (u32 (m_d st + m_d saved)).

(** The body of the loop of [ngx_md5_body]. *)
Definition md5_round (st : md5_regs) (data : list Z) (p : Z) : res md5_regs :=
  st' ← run_lines data p st md5_lines; Ok (add_saved st' st).

(** The length in the last block, from its low byte. *)
Definition md5_length (n : Z) : list Z :=
  [u8 n; u8 (Z.shiftr n 8); u8 (Z.shiftr n 16); u8 (Z.shiftr n 24);
   u8 (Z.shiftr n 32); u8 (Z.shiftr n 40); u8 (Z.shiftr n 48); u8 (Z.shiftr n 56)].

#[export] Instance md5_hash : BlockHash md5_regs := { block_round := md5_round; length_bytes := md5_length }.

Definition ngx_md5_init (ctx : digest_ctx md5_regs) : digest_ctx md5_regs :=
  DigestCtx 0 (Md5Regs 0x67452301 0xefcdab89 0x98badcfe 0x10325476) (d_buffer ctx).

Definition ngx_md5_update (ctx : digest_ctx md5_regs) (data : list Z) (size : Z) : res (digest_ctx md5_regs) :=
  digest_update ctx data size.

(** The four bytes of a register, the low one first. *)
Definition bytes_le (v : Z) : list Z := [u8 v; u8 (Z.shiftr v 8); u8 (Z.shiftr v 16); u8 (Z.shiftr v 24)].

Definition ngx_md5_final (ctx : digest_ctx md5_regs) : res (list Z) :=
  st ← digest_final ctx;
  Ok (bytes_le (m_a st) ++ bytes_le (m_b st) ++ bytes_le (m_c st) ++ bytes_le (m_d st)).

(** All of it, for a message in pieces. *)
Definition md5_pieces (ctx : digest_ctx md5_regs) (pieces : list (list Z)) : res (list Z) :=
  ctx ← digest_updates (ngx_md5_init ctx) pieces; ngx_md5_final ctx.

Example md5_abc :
  md5_pieces (DigestCtx 7 (Md5Regs 1 2 3 4) (memzero 64)) [str "a"; []; str "bc"] =
  Ok [0x90; 0x01; 0x50; 0x98; 0x3c; 0xd2; 0x4f; 0xb0; 0xd6; 0x96; 0x3f; 0x7d; 0x28; 0xe1; 0x7f; 0x72].
Proof. vm_compute. reflexivity. Qed.

(** ** MD5 as RFC 1321 describes it

    The table of lines above is that of the formulas of the RFC, and the registers that
    take turns in it are a tuple that is rotated. *)

(** ** The algorithm *)

Definition rfc_F (x y z : Z) : Z := Z.lor (Z.land x y) (Z.land (Z.lnot x) z).
Definition rfc_G (x y z : Z) : Z := Z.lor (Z.land x z) (Z.land y (Z.lnot z)).
Definition rfc_H (x y z : Z) : Z := Z.lxor (Z.lxor x y) z.
Definition rfc_I (x y z : Z) : Z := Z.lxor y (Z.lor x (u32 (Z.lnot z))).

(** [T[i + 1]], the integer part of [4294967296 * abs(sin(i + 1))] *)
Definition T : list Z :=
  [0xd76aa478; 0xe8c7b756; 0x242070db; 0xc1bdceee; 0xf57c0faf; 0x4787c62a; 0xa8304613; 0xfd469501;
   0x698098d8; 0x8b44f7af; 0xffff5bb1; 0x895cd7be; 0x6b901122; 0xfd987193; 0xa679438e; 0x49b40821;
   0xf61e2562; 0xc040b340; 0x265e5a51; 0xe9b6c7aa; 0xd62f105d; 0x02441453; 0xd8a1e681; 0xe7d3fbc8;
   0x21e1cde6; 0xc33707d6; 0xf4d50d87; 0x455a14ed; 0xa9e3e905; 0xfcefa3f8; 0x676f02d9; 0x8d2a4c8a;
   0xfffa3942; 0x8771f681; 0x6d9d6122; 0xfde5380c; 0xa4beea44; 0x4bdecfa9; 0xf6bb4b60; 0xbebfbc70;
   0x289b7ec6; 0xeaa127fa; 0xd4ef3085; 0x04881d05; 0xd9d4d039; 0xe6db99e5; 0x1fa27cf8; 0xc4ac5665;
   0xf4292244; 0x432aff97; 0xab9423a7; 0xfc93a039; 0x655b59c3; 0x8f0ccc92; 0xffeff47d; 0x85845dd1;
   0x6fa87e4f; 0xfe2ce6e0; 0xa3014314; 0x4e0811a1; 0xf7537e82; 0xbd3af235; 0x2ad7d2bb; 0xeb86d391].

Definition rfc_fn (i : nat) : Z -> Z -> Z -> Z :=
  match (i / 16)%nat with O => rfc_F | 1%nat => rfc_G | 2%nat => rfc_H | _ => rfc_I end.

(** The word of the block that the step uses. *)
Definition rfc_word (i : nat) : nat :=
  (match i / 16 with O => i | 1 => 5 * i + 1 | 2 => 3 * i + 5 | _ => 7 * i end mod 16)%nat.

Definition rfc_shift (i : nat) : Z :=
  nth (i mod 4)%nat (nth (i / 16)%nat [[7; 12; 17; 22]; [5; 9; 14; 20]; [4; 11; 16; 23]; [6; 10; 15; 21]] []) 0.

Definition rotl (v s : Z) : Z := Z.lor (u32 (Z.shiftl v s)) (Z.shiftr v (32 - s)).

(** A number from its bytes, the low one first. *)
Definition le_value (l : list Z) : Z := foldr (fun b v => b + 256 * v) 0 l.

Definition block_word (block : list Z) (n : nat) : Z := le_value (take 4 (drop (4 * n) block)).

Definition rfc_step (block : list Z) (st : md5_regs) (i : nat) : md5_regs :=
  let '(Md5Regs a b c d) := st in
  Md5Regs d (u32 (b + rotl (u32 (a + rfc_fn i b c d + block_word block (rfc_word i) + nth i T 0)) (rfc_shift i))) b c.

Definition md5_compress (st : md5_regs) (block : list Z) : md5_regs :=
  add_saved (fold_left (rfc_step block) (seq 0 64) st) st.

Definition md5_start : md5_regs := Md5Regs 0x67452301 0xefcdab89 0x98badcfe 0x10325476.

Definition MD5 (m : list Z) : list Z :=
  let st := digest_of md5_compress md5_length md5_start m in
  bytes_le (m_a st) ++ bytes_le (m_b st) ++ bytes_le (m_c st) ++ bytes_le (m_d st).

(** ** The table *)

Definition code_fn (i : nat) : Z -> Z -> Z -> Z :=
  match (i / 16)%nat with O => F | 1%nat => G | 2%nat => H | _ => I end.

(** The registers that are [a], [b], [c], [d] of step [i]. *)
Definition roles (i : nat) : reg * reg * reg * reg :=
  match (i mod 4)%nat with
  | O => (reg_a, reg_b, reg_c, reg_d)
  | 1%nat => (reg_d, reg_a, reg_b, reg_c)
  | 2%nat => (reg_c, reg_d, reg_a, reg_b)
  | _ => (reg_b, reg_c, reg_d, reg_a)
  end.

Definition code_line (i : nat) : md5_line :=
  let '(a, b, c, d) := roles i in
  STEP (code_fn i) a b c d (Z.of_nat (rfc_word i)) (nth i T 0) (rfc_shift i).

Lemma md5_lines_eq : md5_lines = map code_line (seq 0 64).
Proof. reflexivity. Qed.

Lemma F_eq x y z : F x y z = rfc_F x y z.
Proof.
  apply Z.bits_inj'. intros i Hi. unfold F, rfc_F.
  rewrite Z.lxor_spec, Z.lor_spec, !Z.land_spec, Z.lxor_spec, Z.lnot_spec by done.
  by destruct (Z.testbit x i), (Z.testbit y i), (Z.testbit z i).
Qed.

Lemma G_eq x y z : G x y z = rfc_G x y z.
Proof.
  apply Z.bits_inj'. intros i Hi. unfold G, rfc_G.
  rewrite Z.lxor_spec, Z.lor_spec, !Z.land_spec, Z.lxor_spec, Z.lnot_spec by done.
  by destruct (Z.testbit x i), (Z.testbit y i), (Z.testbit z i).
Qed.

Lemma code_fn_eq i x y z : code_fn i x y z = rfc_fn i x y z.
Proof. unfold code_fn, rfc_fn. destruct (i / 16)%nat as [|[|[|?]]]; [apply F_eq|apply G_eq|done|done]. Qed.

Lemma rotate_eq v s : rotate (u32 v) s = rotl (u32 v) s.
Proof.
  unfold rotate, rotl. change 0xffffffff with (Z.ones 32). rewrite Z.land_ones by lia.
  change (2 ^ 32) with 4294967296. unfold u32. by rewrite (Z.mod_mod v) by lia.
Qed.

(** ** Steps *)

(** The tuple of the algorithm before step [i], as the registers hold it. *)
Definition turned (i : nat) (st : md5_regs) : md5_regs :=
  let '(a, b, c, d) := roles i in Md5Regs (read a st) (read b st) (read c st) (read d st).

Lemma mod_4_cases i : (i mod 4 = 0 /\ S i mod 4 = 1 \/ i mod 4 = 1 /\ S i mod 4 = 2 \/
  i mod 4 = 2 /\ S i mod 4 = 3 \/ i mod 4 = 3 /\ S i mod 4 = 0)%nat.
Proof.
  pose proof (Nat.mod_upper_bound i 4 ltac:(lia)) as H1. pose proof (Nat.div_mod_eq i 4) as H2.
  pose proof (Nat.mod_upper_bound (S i) 4 ltac:(lia)) as H3. pose proof (Nat.div_mod_eq (S i) 4) as H4. lia.
Qed.

Lemma run_line_ok data p st i block :
  word_le data (p + Z.of_nat (rfc_word i) * 4) = Ok (block_word block (rfc_word i)) ->
  exists st', run_line data p st (code_line i) = Ok st' /\ turned (S i) st' = rfc_step block (turned i st) i.
Proof.
  intros Hw. unfold run_line, code_line, turned, roles. destruct st as [a b c d].
  destruct (mod_4_cases i) as [[-> ->]|[[-> ->]|[[-> ->]|[-> ->]]]].
  all: cbn [st_n st_a st_b st_c st_d st_f st_t st_s]; rewrite Hw, Ok_bind; eexists; split; [reflexivity|].
  all: unfold read, write, rfc_step; cbn [m_a m_b m_c m_d]; rewrite code_fn_eq, rotate_eq.
  all: f_equal; f_equal; rewrite Z.add_comm; do 2 f_equal; f_equal; lia.
Qed.

Lemma run_lines_ok data p block n : forall i st,
  (forall j, (j < 16)%nat -> word_le data (p + Z.of_nat j * 4) = Ok (block_word block j)) ->
  exists st', run_lines data p st (map code_line (seq i n)) = Ok st' /\
    turned (i + n) st' = fold_left (rfc_step block) (seq i n) (turned i st).
Proof.
  induction n as [|n IH]; intros i st Hw.
  - exists st. by rewrite Nat.add_0_r.
  - cbn [seq map run_lines fold_left].
    destruct (run_line_ok data p st i block) as (st1 & -> & Ht).
    { apply Hw. unfold rfc_word. apply Nat.mod_upper_bound. lia. }
    rewrite Ok_bind. destruct (IH (S i) st1 Hw) as (st' & -> & Ht'). exists st'. split; [done|].
    by rewrite <- Nat.add_succ_comm, Ht', Ht.
Qed.

Lemma word_le_ok data p n :
  bytes data -> 0 <= p -> p + 64 <= zlen data -> (n < 16)%nat ->
  word_le data (p + Z.of_nat n * 4) = Ok (block_word (take 64 (drop (Z.to_nat p) data)) n).
Proof.
  intros Hb Hp Hl Hn. destruct (block_bytes data p n Hb Hp Hl Hn) as (b0 & b1 & b2 & b3 & Hw & _ & H0 & H1 & H2 & H3).
  unfold word_le, block_word. rewrite Hw, H0, Ok_bind, H1, Ok_bind, H2, Ok_bind, H3, Ok_bind.
  rewrite !Z.shiftl_mul_pow2 by lia. cbn [le_value foldr]. f_equal. lia.
Qed.

#[export] Instance md5_laws : BlockHashLaws md5_regs md5_compress.
Proof.
  split.
  - intros regs data p Hb Hp Hl. cbn [block_round md5_hash]. unfold md5_round. rewrite md5_lines_eq.
    destruct (run_lines_ok data p (take 64 (drop (Z.to_nat p) data)) 64 0 regs) as (st' & -> & Ht).
    { intros j Hj. by apply word_le_ok. }
    rewrite Ok_bind. unfold md5_compress. f_equal. f_equal.
    change (turned (0 + 64) st') with (turned 0 st') in Ht. unfold turned in Ht. change (roles 0) with (reg_a, reg_b, reg_c, reg_d) in Ht.
    destruct st', regs. exact Ht.
  - done.
  - intros n. repeat constructor; apply u8_byte.
Qed.

Lemma md5_pieces_ok ctx pieces :
  zlen (d_buffer ctx) = 64 -> bytes (d_buffer ctx) ->
  Forall (fun data => bytes data /\ zlen data < 18446744073709551616) pieces ->
  md5_pieces ctx pieces = Ok (MD5 (concat pieces)).
Proof.
  intros H1 H2 Hp. pose proof (digest_pieces md5_compress md5_start (d_buffer ctx) pieces H1 H2 Hp) as H.
  unfold md5_pieces, ngx_md5_init, ngx_md5_final. fold md5_start. destruct (digest_updates _ _) as [c| |]; [|done..].
  rewrite Ok_bind in H. by rewrite Ok_bind, H, Ok_bind.
Qed.
