(* ===== verification/Sha1.v ===== *)
(** * SHA-1

    [src/core/ngx_sha1.c]. The eighty lines of the transformation are a table that is run
    line by line; [SHA1] is the algorithm as FIPS 180-4 describes it. The last part is the theorem on both digests. *)

From S2P Require Import Prelude Digest Md5.

(** ** The code *)

Record sha1_regs := Sha1Regs { s_a : Z; s_b : Z; s_c : Z; s_d : Z; s_e : Z }.

Definition ROTATE (bits word : Z) : Z := Z.lor (u32 (Z.shiftl word bits)) (Z.shiftr word (32 - bits)).

Definition F1 (b c d : Z) : Z := Z.lor (Z.land b c) (Z.land (u32 (Z.lnot b)) d).
Definition F2 (b c d : Z) : Z := Z.lxor (Z.lxor b c) d.
Definition F3 (b c d : Z) : Z := Z.lor (Z.lor (Z.land b c) (Z.land b d)) (Z.land c d).

(** [GET(n)], a big-endian word *)
Definition word_be (data : list Z) (p : Z) : res Z :=
  b3 ← get data (p + 3);
  b2 ← get data (p + 2);
  b1 ← get data (p + 1);
  b0 ← get data p;
  Ok (Z.lor (Z.lor (Z.lor b3 (Z.shiftl b2 8)) (Z.shiftl b1 16)) (Z.shiftl b0 24)).

(** [STEP(f, a, b, c, d, e, w, t)] *)
Definition sha1_step (f : Z -> Z -> Z -> Z) (st : sha1_regs) (w t : Z) : sha1_regs :=
  let '(Sha1Regs a b c d e) := st in
  let temp := u32 (ROTATE 5 a + f b c d + e + w + t) in
  Sha1Regs temp a (ROTATE 30 b) c d.

(** The first loop over [words]: [n] words from the [i]-th on, behind those there are. *)
Fixpoint load_words (data : list Z) (p : Z) (n : nat) (i : Z) (words : list Z) : res (list Z) :=
  match n with
  | O => Ok words
  | S n => w ← word_be data (p + i * 4); load_words data p n (i + 1) (words ++ [w])
  end.

(** The second loop. *)
Fixpoint extend_words (n : nat) (i : Z) (words : list Z) : res (list Z) :=
  match n with
  | O => Ok words
  | S n =>
      w3 ← get words (i - 3);
      w8 ← get words (i - 8);
      w14 ← get words (i - 14);
      w16 ← get words (i - 16);
      extend_words n (i + 1) (words ++ [ROTATE 1 (Z.lxor (Z.lxor (Z.lxor w3 w8) w14) w16)])
  end.

(** The lines: the function, the word and the constant of each. *)
Definition sha1_lines : list ((Z -> Z -> Z -> Z) * Z * Z) :=
  [(F1, 0, 0x5a827999); (F1, 1, 0x5a827999); (F1, 2, 0x5a827999); (F1, 3, 0x5a827999);
   (F1, 4, 0x5a827999); (F1, 5, 0x5a827999); (F1, 6, 0x5a827999); (F1, 7, 0x5a827999);
   (F1, 8, 0x5a827999); (F1, 9, 0x5a827999); (F1, 10, 0x5a827999); (F1, 11, 0x5a827999);
   (F1, 12, 0x5a827999); (F1, 13, 0x5a827999); (F1, 14, 0x5a827999); (F1, 15, 0x5a827999);
   (F1, 16, 0x5a827999); (F1, 17, 0x5a827999); (F1, 18, 0x5a827999); (F1, 19, 0x5a827999);
   (F2, 20, 0x6ed9eba1); (F2, 21, 0x6ed9eba1); (F2, 22, 0x6ed9eba1); (F2, 23, 0x6ed9eba1);
   (F2, 24, 0x6ed9eba1); (F2, 25, 0x6ed9eba1); (F2, 26, 0x6ed9eba1); (F2, 27, 0x6ed9eba1);
   (F2, 28, 0x6ed9eba1); (F2, 29, 0x6ed9eba1); (F2, 30, 0x6ed9eba1); (F2, 31, 0x6ed9eba1);
   (F2, 32, 0x6ed9eba1); (F2, 33, 0x6ed9eba1); (F2, 34, 0x6ed9eba1); (F2, 35, 0x6ed9eba1);
   (F2, 36, 0x6ed9eba1); (F2, 37, 0x6ed9eba1); (F2, 38, 0x6ed9eba1); (F2, 39, 0x6ed9eba1);
   (F3, 40, 0x8f1bbcdc); (F3, 41, 0x8f1bbcdc); (F3, 42, 0x8f1bbcdc); (F3, 43, 0x8f1bbcdc);
   (F3, 44, 0x8f1bbcdc); (F3, 45, 0x8f1bbcdc); (F3, 46, 0x8f1bbcdc); (F3, 47, 0x8f1bbcdc);
   (F3, 48, 0x8f1bbcdc); (F3, 49, 0x8f1bbcdc); (F3, 50, 0x8f1bbcdc); (F3, 51, 0x8f1bbcdc);
   (F3, 52, 0x8f1bbcdc); (F3, 53, 0x8f1bbcdc); (F3, 54, 0x8f1bbcdc); (F3, 55, 0x8f1bbcdc);
   (F3, 56, 0x8f1bbcdc); (F3, 57, 0x8f1bbcdc); (F3, 58, 0x8f1bbcdc); (F3, 59, 0x8f1bbcdc);
   (F2, 60, 0xca62c1d6); (F2, 61, 0xca62c1d6); (F2, 62, 0xca62c1d6); (F2, 63, 0xca62c1d6);
   (F2, 64, 0xca62c1d6); (F2, 65, 0xca62c1d6); (F2, 66, 0xca62c1d6); (F2, 67, 0xca62c1d6);
   (F2, 68, 0xca62c1d6); (F2, 69, 0xca62c1d6); (F2, 70, 0xca62c1d6); (F2, 71, 0xca62c1d6);
   (F2, 72, 0xca62c1d6); (F2, 73, 0xca62c1d6); (F2, 74, 0xca62c1d6); (F2, 75, 0xca62c1d6);
   (F2, 76, 0xca62c1d6); (F2, 77, 0xca62c1d6); (F2, 78, 0xca62c1d6); (F2, 79, 0xca62c1d6)].

Fixpoint run_steps (words : list Z) (st : sha1_regs) (lines : list ((Z -> Z -> Z -> Z) * Z * Z)) : res sha1_regs :=
  match lines with
  | [] => Ok st
  | (f, n, t) :: lines => w ← get words n; run_steps words (sha1_step f st w t) lines
  end.

Definition sha1_add (st saved : sha1_regs) : sha1_regs :=
  Sha1Regs (u32 (s_a st + s_a saved)) (u32 (s_b st + s_b saved)) (u32 (s_c st + s_c saved))
    (u32 (s_d st + s_d saved)) (u32 (s_e st + s_e saved)).

(** The body of the loop of [ngx_sha1_body]. *)
Definition sha1_round (st : sha1_regs) (data : list Z) (p : Z) : res sha1_regs :=
  words ← load_words data p 16 0 [];
  words ← extend_words 64 16 words;
  st' ← run_steps words st sha1_lines;
  Ok (sha1_add st' st).

(** The length in the last block, from its high byte. *)
Definition sha1_length (n : Z) : list Z :=
  [u8 (Z.shiftr n 56); u8 (Z.shiftr n 48); u8 (Z.shiftr n 40); u8 (Z.shiftr n 32);
   u8 (Z.shiftr n 24); u8 (Z.shiftr n 16); u8 (Z.shiftr n 8); u8 n].

#[export] Instance sha1_hash : BlockHash sha1_regs := { block_round := sha1_round; length_bytes := sha1_length }.

Definition ngx_sha1_init (ctx : digest_ctx sha1_regs) : digest_ctx sha1_regs :=
  DigestCtx 0 (Sha1Regs 0x67452301 0xefcdab89 0x98badcfe 0x10325476 0xc3d2e1f0) (d_buffer ctx).

Definition ngx_sha1_update (ctx : digest_ctx sha1_regs) (data : list Z) (size : Z) : res (digest_ctx sha1_regs) :=
  digest_update ctx data size.

(** The four bytes of a register, the high one first. *)
Definition bytes_be (v : Z) : list Z := [u8 (Z.shiftr v 24); u8 (Z.shiftr v 16); u8 (Z.shiftr v 8); u8 v].

Definition ngx_sha1_final (ctx : digest_ctx sha1_regs) : res (list Z) :=
  st ← digest_final ctx;
  Ok (bytes_be (s_a st) ++ bytes_be (s_b st) ++ bytes_be (s_c st) ++ bytes_be (s_d st) ++ bytes_be (s_e st)).

(** All of it, for a message in pieces. *)
Definition sha1_pieces (ctx : digest_ctx sha1_regs) (pieces : list (list Z)) : res (list Z) :=
  ctx ← digest_updates (ngx_sha1_init ctx) pieces; ngx_sha1_final ctx.

Example sha1_abc :
  sha1_pieces (DigestCtx 7 (Sha1Regs 1 2 3 4 5) (memzero 64)) [str "a"; []; str "bc"] =
  Ok [0xa9; 0x99; 0x3e; 0x36; 0x47; 0x06; 0x81; 0x6a; 0xba; 0x3e; 0x25; 0x71; 0x78; 0x50; 0xc2; 0x6c; 0x9c; 0xd0; 0xd8; 0x9d].
Proof. vm_compute. reflexivity. Qed.

(** ** SHA-1 as FIPS 180-4 describes it

    The code computes the message schedule and the steps of the standard. *)

(** ** The algorithm *)

Definition Ch (x y z : Z) : Z := Z.lxor (Z.land x y) (Z.land (u32 (Z.lnot x)) z).
Definition Parity (x y z : Z) : Z := Z.lxor (Z.lxor x y) z.
Definition Maj (x y z : Z) : Z := Z.lxor (Z.lxor (Z.land x y) (Z.land x z)) (Z.land y z).

Definition fips_fn (t : nat) : Z -> Z -> Z -> Z :=
  match (t / 20)%nat with O => Ch | 1%nat => Parity | 2%nat => Maj | _ => Parity end.

Definition fips_K (t : nat) : Z := nth (t / 20)%nat [0x5a827999; 0x6ed9eba1; 0x8f1bbcdc; 0xca62c1d6] 0.

(** A number from its bytes, the high one first. *)
Definition be_value (l : list Z) : Z := fold_left (fun v b => 256 * v + b) l 0.

(** The message schedule: the sixteen words of the block, then each word from four that
    are before it. *)
Definition fips_word (block : list Z) (words : list Z) (t : nat) : Z :=
  if (t <? 16)%nat then be_value (take 4 (drop (4 * t) block))
  else ROTATE 1 (Z.lxor (Z.lxor (Z.lxor (nth (t - 3) words 0) (nth (t - 8) words 0)) (nth (t - 14) words 0))
                   (nth (t - 16) words 0)).

Definition schedule (block : list Z) (n : nat) : list Z :=
  fold_left (fun words t => words ++ [fips_word block words t]) (seq 0 n) [].

Definition fips_step (words : list Z) (st : sha1_regs) (t : nat) : sha1_regs :=
  let '(Sha1Regs a b c d e) := st in
  Sha1Regs (u32 (ROTATE 5 a + fips_fn t b c d + e + fips_K t + nth t words 0)) a (ROTATE 30 b) c d.

Definition sha1_compress (st : sha1_regs) (block : list Z) : sha1_regs :=
  sha1_add (fold_left (fips_step (schedule block 80)) (seq 0 80) st) st.

Definition sha1_start : sha1_regs := Sha1Regs 0x67452301 0xefcdab89 0x98badcfe 0x10325476 0xc3d2e1f0.

Definition SHA1 (m : list Z) : list Z :=
  let st := digest_of sha1_compress sha1_length sha1_start m in
  bytes_be (s_a st) ++ bytes_be (s_b st) ++ bytes_be (s_c st) ++ bytes_be (s_d st) ++ bytes_be (s_e st).

(** ** The functions *)

Lemma F1_eq x y z : F1 x y z = Ch x y z.
Proof.
  apply Z.bits_inj'. intros i Hi. unfold F1, Ch. rewrite Z.lxor_spec, Z.lor_spec, !Z.land_spec.
  unfold u32. change 4294967296 with (2 ^ 32). destruct (Z.ltb_spec i 32).
  - rewrite Z.mod_pow2_bits_low, Z.lnot_spec by lia. by destruct (Z.testbit x i), (Z.testbit y i), (Z.testbit z i).
  - rewrite Z.mod_pow2_bits_high by lia. by rewrite orb_false_r, xorb_false_r.
Qed.

Lemma F3_eq x y z : F3 x y z = Maj x y z.
Proof.
  apply Z.bits_inj'. intros i Hi. unfold F3, Maj. rewrite !Z.lxor_spec, !Z.lor_spec, !Z.land_spec.
  by destruct (Z.testbit x i), (Z.testbit y i), (Z.testbit z i).
Qed.

Definition sha1_fn (t : nat) : Z -> Z -> Z -> Z :=
  match (t / 20)%nat with O => F1 | 1%nat => F2 | 2%nat => F3 | _ => F2 end.

Lemma sha1_lines_eq : sha1_lines = map (fun t => (sha1_fn t, Z.of_nat t, fips_K t)) (seq 0 80).
Proof. reflexivity. Qed.

Lemma sha1_fn_eq t x y z : sha1_fn t x y z = fips_fn t x y z.
Proof. unfold sha1_fn, fips_fn. destruct (t / 20)%nat as [|[|[|?]]]; [apply F1_eq|done|apply F3_eq|done]. Qed.

(** ** The words *)

Lemma schedule_S block n : schedule block (S n) = schedule block n ++ [fips_word block (schedule block n) n].
Proof. unfold schedule. by rewrite seq_S, fold_left_app. Qed.

Lemma schedule_length block n : length (schedule block n) = n.
Proof. induction n as [|n IH]; [done|]. rewrite schedule_S, length_app, IH. cbn. lia. Qed.

Lemma get_nth l i n : i = Z.of_nat n -> (n < length l)%nat -> get l i = Ok (nth n l 0).
Proof.
  intros -> Hn. unfold get. destruct (Z.ltb_spec (Z.of_nat n) 0); [lia|]. rewrite Nat2Z.id.
  destruct (l !! n) as [c|] eqn:E; [|apply lookup_ge_None in E; lia]. by rewrite (nth_lookup_Some _ _ _ _ E).
Qed.

Lemma word_be_ok data p n :
  bytes data -> 0 <= p -> p + 64 <= zlen data -> (n < 16)%nat ->
  word_be data (p + Z.of_nat n * 4) = Ok (be_value (take 4 (drop (4 * n) (take 64 (drop (Z.to_nat p) data))))).
Proof.
  intros Hb Hp Hl Hn. destruct (block_bytes data p n Hb Hp Hl Hn) as (b0 & b1 & b2 & b3 & Hw & Hbs & H0 & H1 & H2 & H3).
  unfold word_be. rewrite Hw, H3, Ok_bind, H2, Ok_bind, H1, Ok_bind, H0, Ok_bind.
  apply Forall_cons_1 in Hbs as [B0 Hbs]. apply Forall_cons_1 in Hbs as [B1 Hbs].
  apply Forall_cons_1 in Hbs as [B2 Hbs]. apply Forall_cons_1 in Hbs as [B3 _].
  unfold be_value. cbn [fold_left]. f_equal.
  rewrite (lor_shiftl_add b3 b2 8) by (change (2 ^ 8) with 256; lia).
  rewrite (lor_shiftl_add _ b1 16) by (change (2 ^ 8) with 256; change (2 ^ 16) with 65536; lia).
  rewrite (lor_shiftl_add _ b0 24) by
    (change (2 ^ 8) with 256; change (2 ^ 16) with 65536; change (2 ^ 24) with 16777216; lia).
  change (2 ^ 8) with 256. change (2 ^ 16) with 65536. change (2 ^ 24) with 16777216. lia.
Qed.

Section block.
Context (data : list Z) (p : Z) (Hb : bytes data) (Hp : 0 <= p) (Hl : p + 64 <= zlen data).
Definition the_block : list Z := take 64 (drop (Z.to_nat p) data).

Lemma load_words_ok n i :
  (i + n <= 16)%nat -> load_words data p n (Z.of_nat i) (schedule the_block i) = Ok (schedule the_block (i + n)).
Proof using Hb Hp Hl.
  revert i. induction n as [|n IH]; intros i Hi; cbn [load_words]; [by rewrite Nat.add_0_r|].
  rewrite word_be_ok, Ok_bind by (done || lia). rewrite <- Nat.add_succ_comm, <- IH by lia.
  replace (Z.of_nat i + 1) with (Z.of_nat (S i)) by lia. rewrite schedule_S. unfold fips_word.
  by destruct (Nat.ltb_spec i 16); [|lia].
Qed.

Lemma extend_words_ok n i :
  (16 <= i)%nat -> extend_words n (Z.of_nat i) (schedule the_block i) = Ok (schedule the_block (i + n)).
Proof using.
  revert i. induction n as [|n IH]; intros i Hi; cbn [extend_words]; [by rewrite Nat.add_0_r|].
  pose proof (schedule_length the_block i) as Hlen.
  rewrite (get_nth _ (Z.of_nat i - 3) (i - 3)), Ok_bind by lia. rewrite (get_nth _ (Z.of_nat i - 8) (i - 8)), Ok_bind by lia.
  rewrite (get_nth _ (Z.of_nat i - 14) (i - 14)), Ok_bind by lia. rewrite (get_nth _ (Z.of_nat i - 16) (i - 16)), Ok_bind by lia.
  rewrite <- Nat.add_succ_comm, <- IH by lia. replace (Z.of_nat i + 1) with (Z.of_nat (S i)) by lia.
  rewrite schedule_S. unfold fips_word. by destruct (Nat.ltb_spec i 16); [lia|].
Qed.

Lemma run_steps_ok words n i st :
  (i + n <= length words)%nat ->
  run_steps words st (map (fun t => (sha1_fn t, Z.of_nat t, fips_K t)) (seq i n)) =
    Ok (fold_left (fips_step words) (seq i n) st).
Proof using.
  revert i st. induction n as [|n IH]; intros i st Hi; cbn [seq map run_steps fold_left]; [done|].
  rewrite (get_nth _ _ i), Ok_bind by lia. rewrite IH by lia. do 2 f_equal.
  destruct st as [a b c d e]. unfold sha1_step, fips_step. rewrite sha1_fn_eq. do 2 f_equal. lia.
Qed.
End block.

#[export] Instance sha1_laws : BlockHashLaws sha1_regs sha1_compress.
Proof.
  split.
  - intros regs data p Hb Hp Hl. cbn [block_round sha1_hash]. unfold sha1_round.
    change (@nil Z) with (schedule (the_block data p) 0). change 0 with (Z.of_nat 0) at 1.
    rewrite load_words_ok, Ok_bind by (done || lia). change 16 with (Z.of_nat (0 + 16)).
    rewrite extend_words_ok, Ok_bind by lia. rewrite sha1_lines_eq, run_steps_ok by (by rewrite schedule_length).
    done.
  - done.
  - intros n. repeat constructor; apply u8_byte.
Qed.

Lemma sha1_pieces_ok ctx pieces :
  zlen (d_buffer ctx) = 64 -> bytes (d_buffer ctx) ->
  Forall (fun data => bytes data /\ zlen data < 18446744073709551616) pieces ->
  sha1_pieces ctx pieces = Ok (SHA1 (concat pieces)).
Proof.
  intros H1 H2 Hp. pose proof (digest_pieces sha1_compress sha1_start (d_buffer ctx) pieces H1 H2 Hp) as H.
  unfold sha1_pieces, ngx_sha1_init, ngx_sha1_final. fold sha1_start. destruct (digest_updates _ _) as [c| |]; [|done..].
  rewrite Ok_bind in H. by rewrite Ok_bind, H, Ok_bind.
Qed.

(** ** Digests are the standard ones

    Of the pieces of a message, whatever their lengths, and whatever the context on the
    stack holds before it is initialised. *)

(** C20: Digests. [ngx_md5_init], calls of [ngx_md5_update] with the pieces of a message,
    empty ones and ones of any length among them, and [ngx_md5_final] give the MD5 digest
    (RFC 1321) of the whole message; [ngx_sha1_init], [ngx_sha1_update] and
    [ngx_sha1_final] its SHA-1 digest (FIPS 180-4). Neither fails, neither reads outside
    a piece, and what the context held before does not matter. *)
Theorem digests_exact md5 sha1 pieces :
  zlen (d_buffer md5) = 64 -> bytes (d_buffer md5) ->
  zlen (d_buffer sha1) = 64 -> bytes (d_buffer sha1) ->
  Forall (fun data => bytes data /\ zlen data < 18446744073709551616) pieces ->
  md5_pieces md5 pieces = Ok (MD5 (concat pieces)) /\ sha1_pieces sha1 pieces = Ok (SHA1 (concat pieces)).
Proof. intros. split; [by apply md5_pieces_ok|by apply sha1_pieces_ok]. Qed.

Lemma digests_exact_witness :
  md5_pieces (DigestCtx 7 (Md5Regs 1 2 3 4) (memzero 64)) [str "a"; []; str "bc"] = Ok (MD5 (str "abc")) /\
  sha1_pieces (DigestCtx 7 (Sha1Regs 1 2 3 4 5) (memzero 64)) [str "a"; []; str "bc"] = Ok (SHA1 (str "abc")).
Proof.
  apply (digests_exact (DigestCtx 7 (Md5Regs 1 2 3 4) (memzero 64)) (DigestCtx 7 (Sha1Regs 1 2 3 4 5) (memzero 64))
    [str "a"; []; str "bc"]).
  - done.
  - apply bytes_zeros.
  - done.
  - apply bytes_zeros.
  - repeat constructor; done || by apply bytes_check.
Defined.
