(* ===== verification/Crypt.v ===== *)
(** * Stored passwords

    [src/core/ngx_crypt.c]: a password is checked by encrypting it with the stored one as
    salt; the result is to be the stored one. *)

From S2P Require Import Prelude Base64 HttpHeaderLine Digest Md5 Sha1.

(** The bytes of a string that ends with a zero; [ngx_strlen] is their number. *)
Fixpoint c_string (p : list Z) : res (list Z) :=
  match p with
  | [] => Fault
  | c :: p => if c =? 0 then Ok [] else l ← c_string p; Ok (c :: l)
  end.

Definition ngx_strlen (p : list Z) : res Z := l ← c_string p; Ok (zlen l).

Definition itoa64 : list Z := str "./0123456789ABCDEFGHIJKLMNOPQRSTUVWXYZabcdefghijklmnopqrstuvwxyz".

(** [ngx_crypt_to64]: what it writes. *)
Fixpoint ngx_crypt_to64 (v : Z) (n : nat) : list Z :=
  match n with
  | O => []
  | S n => table_at itoa64 (Z.land v 0x3f) :: ngx_crypt_to64 (Z.shiftr v 6) n
  end.

Section crypt.
(** Whether the [k]-th allocation succeeds; what the contexts on the stack hold. *)
Context (palloc : nat -> bool) (md5_stack : digest_ctx md5_regs) (sha1_stack : digest_ctx sha1_regs).

(** ** apr1 *)

(** [for (p = salt; *p && *p != '$' && p < last; p++)] with [n] bytes up to [last]. *)
Fixpoint true_salt (n : nat) (p : list Z) : res (list Z) :=
  c ← get p 0;
  if c =? 0 then Ok []
  else if c =? "$"%chr then Ok []
  else match n with
       | O => Ok []
       | S n => l ← true_salt n (drop 1 p); Ok (c :: l)
       end.

(** [for (n = keylen; n > 0; n -= 16)]; every round takes sixteen off [n]. *)
Fixpoint apr1_fill (fuel : nat) (final : list Z) (n : Z) (md5 : digest_ctx md5_regs) : res (digest_ctx md5_regs) :=
  if n <=? 0 then Ok md5
  else match fuel with
       | O => NoFuel
       | S fuel =>
           md5 ← ngx_md5_update md5 final (if 16 <? n then 16 else n);
           n ← int64 (n - 16);
           apr1_fill fuel final n md5
       end.

(** [for (i = keylen; i; i >>= 1)]; 64 rounds are enough for a number of 64 bits. *)
Fixpoint apr1_bits (fuel : nat) (final key : list Z) (i : Z) (md5 : digest_ctx md5_regs) : res (digest_ctx md5_regs) :=
  if i =? 0 then Ok md5
  else match fuel with
       | O => NoFuel
       | S fuel =>
           md5 ← (if negb (Z.land i 1 =? 0) then ngx_md5_update md5 final 1 else ngx_md5_update md5 key 1);
           apr1_bits fuel final key (Z.shiftr i 1) md5
       end.

(** As [ngx_md5_final] leaves the context. *)
Definition md5_cleared : digest_ctx md5_regs := DigestCtx 0 (Md5Regs 0 0 0 0) (memzero 64).

(** One of the thousand rounds. *)
Definition apr1_round (key salt : list Z) (keylen saltlen i : Z) (final : list Z) (ctx1 : digest_ctx md5_regs)
    : res (list Z) :=
  let ctx1 := ngx_md5_init ctx1 in
  ctx1 ← (if negb (Z.land i 1 =? 0) then ngx_md5_update ctx1 key keylen else ngx_md5_update ctx1 final 16);
  ctx1 ← (if negb (i mod 3 =? 0) then ngx_md5_update ctx1 salt saltlen else Ok ctx1);
  ctx1 ← (if negb (i mod 7 =? 0) then ngx_md5_update ctx1 key keylen else Ok ctx1);
  ctx1 ← (if negb (Z.land i 1 =? 0) then ngx_md5_update ctx1 final 16 else ngx_md5_update ctx1 key keylen);
  ngx_md5_final ctx1.

Fixpoint apr1_rounds (n : nat) (key salt : list Z) (keylen saltlen i : Z) (final : list Z) : res (list Z) :=
  match n with
  | O => Ok final
  | S n =>
      final ← apr1_round key salt keylen saltlen i final md5_cleared;
      apr1_rounds n key salt keylen saltlen (i + 1) final
  end.

(** Three bytes of [final] in one number. *)
Definition pack (final : list Z) (i j k : Z) : res Z :=
  a ← get final i;
  b ← get final j;
  c ← get final k;
  Ok (u32 (Z.lor (Z.lor (Z.shiftl a 16) (Z.shiftl b 8)) c)).

(** The digits of the result. *)
Definition apr1_digits (final : list Z) : res (list Z) :=
  v0 ← pack final 0 6 12;
  v1 ← pack final 1 7 13;
  v2 ← pack final 2 8 14;
  v3 ← pack final 3 9 15;
  v4 ← pack final 4 10 5;
  v5 ← get final 11;
  Ok (ngx_crypt_to64 v0 4 ++ ngx_crypt_to64 v1 4 ++ ngx_crypt_to64 v2 4 ++ ngx_crypt_to64 v3 4
      ++ ngx_crypt_to64 v4 4 ++ ngx_crypt_to64 v5 2).

(** The text into a buffer of [size] bytes; the result of every scheme. *)
Definition deliver (size : Z) (text : list Z) : res (Z * list Z) :=
  if zlen text <=? size then Ok (NGX_OK, text) else Fault.

(** The first digest, of key, salt and key. *)
Definition apr1_inner (key salt : list Z) (keylen saltlen : Z) : res (list Z) :=
  let ctx1 := ngx_md5_init md5_stack in
  ctx1 ← ngx_md5_update ctx1 key keylen;
  ctx1 ← ngx_md5_update ctx1 salt saltlen;
  ctx1 ← ngx_md5_update ctx1 key keylen;
  ngx_md5_final ctx1.

(** The second one, which takes the first and the length of the key. *)
Definition apr1_outer (key salt : list Z) (keylen saltlen : Z) (final : list Z) : res (list Z) :=
  let md5 := ngx_md5_init md5_stack in
  md5 ← ngx_md5_update md5 key keylen;
  md5 ← ngx_md5_update md5 (str "$apr1$" ++ [0]) 6;
  md5 ← ngx_md5_update md5 salt saltlen;
  md5 ← apr1_fill (S (length key)) final keylen md5;
  let final := memzero 16 in
  md5 ← apr1_bits 64 final key keylen md5;
  ngx_md5_final md5.

Definition ngx_crypt_apr1 (key salt : list Z) : res (Z * list Z) :=
  keylen ← ngx_strlen key;
  let salt := drop 6 salt in
  s ← true_salt 8 salt;
  let saltlen := zlen s in
  final ← apr1_inner key salt keylen saltlen;
  final ← apr1_outer key salt keylen saltlen final;
  final ← apr1_rounds 1000 key salt keylen saltlen 0 final;
  if negb (palloc 0) then Ok (NGX_ERROR, [])
  else
    src ← slice salt 0 saltlen;
    digits ← apr1_digits final;
    deliver (6 + saltlen + 1 + 22 + 1) (str "$apr1$" ++ src ++ str "$" ++ digits ++ [0]).

(** ** The other schemes *)

Definition ngx_crypt_plain (key salt : list Z) : res (Z * list Z) :=
  len ← ngx_strlen key;
  if negb (palloc 0) then Ok (NGX_ERROR, [])
  else
    l ← slice key 0 (len + 1);
    deliver (7 + len + 1) (str "{PLAIN}" ++ l).

(** The text behind the magic is decoded to find the salt, which follows the digest. *)
Definition ngx_crypt_ssha (key salt : list Z) : res (Z * list Z) :=
  encoded ← c_string (drop 6 salt);
  let len := Z.max (ngx_base64_decoded_length (zlen encoded)) 20 in
  if negb (palloc 0) then Ok (NGX_ERROR, [])
  else
    let '(rc, decoded) := ngx_decode_base64 encoded in
    if len <? zlen decoded then Fault
    else
      let extra := if negb (rc =? NGX_OK) || (zlen decoded <? 20) then [] else drop 20 decoded in
      let sha1 := ngx_sha1_init sha1_stack in
      n ← ngx_strlen key;
      sha1 ← ngx_sha1_update sha1 key n;
      sha1 ← ngx_sha1_update sha1 extra (zlen extra);
      digest ← ngx_sha1_final sha1;
      let decoded := digest ++ extra in
      let len := 6 + ngx_base64_encoded_length (zlen decoded) + 1 in
      if negb (palloc 1) then Ok (NGX_ERROR, [])
      else deliver len (str "{SSHA}" ++ ngx_encode_base64 decoded ++ [0]).

Definition ngx_crypt_sha (key salt : list Z) : res (Z * list Z) :=
  let sha1 := ngx_sha1_init sha1_stack in
  n ← ngx_strlen key;
  sha1 ← ngx_sha1_update sha1 key n;
  digest ← ngx_sha1_final sha1;
  let len := 5 + ngx_base64_encoded_length 20 + 1 in
  if negb (palloc 0) then Ok (NGX_ERROR, [])
  else deliver len (str "{SHA}" ++ ngx_encode_base64 digest ++ [0]).

(** [libc_crypt] is the function of the C library. *)
Definition ngx_crypt (libc_crypt : list Z -> list Z -> res (Z * list Z)) (key salt : list Z) : res (Z * list Z) :=
  apr1 ← strncmp_eq salt 0 (str "$apr1$");
  if (apr1 : bool) then ngx_crypt_apr1 key salt
  else
    plain ← strncmp_eq salt 0 (str "{PLAIN}");
    if (plain : bool) then ngx_crypt_plain key salt
    else
      ssha ← strncmp_eq salt 0 (str "{SSHA}");
      if (ssha : bool) then ngx_crypt_ssha key salt
      else
        sha ← strncmp_eq salt 0 (str "{SHA}");
        if (sha : bool) then ngx_crypt_sha key salt
        else libc_crypt key salt.
End crypt.

Definition test_crypt (key salt : list Z) : res (Z * list Z) :=
  ngx_crypt (fun _ => true) md5_cleared (DigestCtx 0 (Sha1Regs 0 0 0 0 0) (memzero 64)) (fun _ _ => Fault)
    (key ++ [0]) (salt ++ [0]).

Example crypt_sha :
  test_crypt (str "password") (str "{SHA}") = Ok (NGX_OK, str "{SHA}W6ph5Mm5Pz8GgiULbPgzG37mj9g=" ++ [0]).
Proof. vm_compute. reflexivity. Qed.
