(* ===== verification/CryptSpec.v ===== *)
(** * What a stored password is

    The text that each scheme stores, made of the digests of the standards; [ngx_crypt]
    computes it, and accepts it again as salt. *)

From S2P Require Import Prelude Base64 HttpHeaderLine Digest Md5 Sha1 Crypt.

(** ** The texts *)

(** The first [n] bytes of [l], repeated. *)
Definition repeated (n : nat) (l : list Z) : list Z := take n (concat (replicate n l)).

(** A byte for each binary digit of a number, the low digit first: zero for a one. *)
Fixpoint bit_bytes (p : positive) (c : Z) : list Z :=
  match p with
  | xH => [0]
  | xI p => 0 :: bit_bytes p c
  | xO p => c :: bit_bytes p c
  end.

Definition length_bits (k : list Z) : list Z :=
  match zlen k with Zpos p => bit_bytes p (hd 0 k) | _ => [] end.

Definition round_text (k s : list Z) (i : Z) (f : list Z) : list Z :=
  (if Z.odd i then k else f) ++ (if i mod 3 =? 0 then [] else s) ++ (if i mod 7 =? 0 then [] else k)
  ++ (if Z.odd i then f else k).

Fixpoint md5_rounds (n : nat) (k s : list Z) (i : Z) (f : list Z) : list Z :=
  match n with
  | O => f
  | S n => md5_rounds n k s (i + 1) (MD5 (round_text k s i f))
  end.

Definition apr1_digest (k s : list Z) : list Z :=
  let inner := MD5 (k ++ s ++ k) in
  md5_rounds 1000 k s 0
    (MD5 (k ++ str "$apr1$" ++ s ++ repeated (length k) inner ++ length_bits k)).

Definition triple (f : list Z) (i j k : nat) : Z := nth i f 0 * 65536 + nth j f 0 * 256 + nth k f 0.

Definition digits_64 (f : list Z) : list Z :=
  ngx_crypt_to64 (triple f 0 6 12) 4 ++ ngx_crypt_to64 (triple f 1 7 13) 4 ++ ngx_crypt_to64 (triple f 2 8 14) 4
  ++ ngx_crypt_to64 (triple f 3 9 15) 4 ++ ngx_crypt_to64 (triple f 4 10 5) 4 ++ ngx_crypt_to64 (nth 11 f 0) 2.

Definition apr1_text (k s : list Z) : list Z := str "$apr1$" ++ s ++ str "$" ++ digits_64 (apr1_digest k s).
Definition ssha_text (k s : list Z) : list Z := str "{SSHA}" ++ ngx_encode_base64 (SHA1 (k ++ s) ++ s).
Definition sha_text (k : list Z) : list Z := str "{SHA}" ++ ngx_encode_base64 (SHA1 k).

(** At most [n] bytes, up to a dollar sign. *)
Fixpoint before_dollar (n : nat) (l : list Z) : list Z :=
  match n, l with
  | S n, c :: l => if c =? "$"%chr then [] else c :: before_dollar n l
  | _, _ => []
  end.

(** The salt behind the digest of a text in base 64. *)
Definition ssha_salt (l : list Z) : list Z :=
  let '(rc, decoded) := ngx_decode_base64 l in
  if negb (rc =? NGX_OK) then [] else drop 20 decoded.

Definition starts_with (m l : list Z) : bool := bool_decide (take (length m) l = m).

(** What the password [k] becomes with the text [salt], if its scheme is not left to the C
    library. *)
Definition stored (k salt : list Z) : option (list Z) :=
  if starts_with (str "$apr1$") salt then Some (apr1_text k (before_dollar 8 (drop 6 salt)))
  else if starts_with (str "{PLAIN}") salt then Some (str "{PLAIN}" ++ k)
  else if starts_with (str "{SSHA}") salt then Some (ssha_text k (ssha_salt (drop 6 salt)))
  else if starts_with (str "{SHA}") salt then Some (sha_text k)
  else None.

(** ** Strings *)

Definition no_zero (l : list Z) : Prop := Forall (fun c => c <> 0) l.

Lemma c_string_app l rest : no_zero l -> c_string (l ++ 0 :: rest) = Ok l.
Proof.
  induction 1 as [|c l Hc Hl IH]; [done|]. cbn [app c_string]. destruct (Z.eqb_spec c 0); [done|]. by rewrite IH.
Qed.

Lemma c_string_inv p l : c_string p = Ok l -> no_zero l /\ exists rest, p = l ++ 0 :: rest.
Proof.
  revert l. induction p as [|c p IH]; intros l; cbn [c_string]; [done|].
  destruct (Z.eqb_spec c 0) as [->|Hc].
  - intros [= <-]. split; [constructor|by exists p].
  - intros Hl. apply bind_Ok in Hl as (l' & Hl' & [= <-]). destruct (IH l' Hl') as [Hn [rest ->]].
    split; [by constructor|by exists rest].
Qed.

Lemma strncmp_eq_prefix m : forall b p l rest,
  b = p ++ l ++ 0 :: rest -> no_zero m ->
  strncmp_eq b (zlen p) m = Ok (starts_with m l).
Proof.
  induction m as [|x m IH]; intros b p l rest Hb Hm; cbn [strncmp_eq].
  { unfold starts_with. by rewrite bool_decide_true. }
  apply Forall_cons_1 in Hm as [Hx Hm]. rewrite Hb, <- (Z.add_0_r (zlen p)), get_app_r by lia.
  destruct l as [|c l].
  - cbn [app]. rewrite get_cons_0, Ok_bind. destruct (Z.eqb_spec 0 x); [done|].
    unfold starts_with. by rewrite bool_decide_false.
  - cbn [app]. rewrite get_cons_0, Ok_bind. unfold starts_with. cbn [length take].
    destruct (Z.eqb_spec c x) as [->|Hcx]; [|by rewrite bool_decide_false by congruence].
    rewrite Z.add_0_r. replace (zlen p + 1) with (zlen (p ++ [x])) by (by rewrite zlen_app).
    change (p ++ x :: l ++ 0 :: rest) with (p ++ (x :: l) ++ 0 :: rest). rewrite <- Hb. rewrite (IH b (p ++ [x]) l rest) by (done || by rewrite <- app_assoc).
    unfold starts_with. f_equal. apply bool_decide_ext. split; congruence.
Qed.

Lemma starts_with_app m l : starts_with m (m ++ l) = true.
Proof. unfold starts_with. apply bool_decide_eq_true. by rewrite take_app_length. Qed.

Lemma starts_with_inv m l : starts_with m l = true -> exists rest, l = m ++ rest.
Proof.
  unfold starts_with. intros H%bool_decide_eq_true. exists (drop (length m) l).
  by rewrite <- H at 1; rewrite take_drop.
Qed.

(** ** Digests in steps *)

(** The context has read [m]. *)
Definition md5_read (ctx : digest_ctx md5_regs) (m : list Z) : Prop := absorbed md5_compress md5_start ctx m.

Definition small (l : list Z) : Prop := bytes l /\ zlen l < 9223372036854775808.

Lemma small_app_l l1 l2 : small (l1 ++ l2) -> small l1.
Proof. intros [Hb Hl]. rewrite zlen_app in Hl. pose proof (zlen_nonneg l2). apply Forall_app in Hb as [? _]. split; [done|lia]. Qed.

Lemma md5_read_init ctx :
  zlen (d_buffer ctx) = 64 -> bytes (d_buffer ctx) -> md5_read (ngx_md5_init ctx) [].
Proof. intros H1 H2. by apply absorbed_init. Qed.

Lemma md5_read_update ctx m l extra :
  md5_read ctx m -> small (l ++ extra) ->
  exists ctx', ngx_md5_update ctx (l ++ extra) (zlen l) = Ok ctx' /\ md5_read ctx' (m ++ l).
Proof. intros Hr [Hb Hl]. apply (update_ok md5_compress md5_start ctx m l extra Hr Hb). lia. Qed.

Lemma md5_read_final ctx m : md5_read ctx m -> ngx_md5_final ctx = Ok (MD5 m).
Proof.
  intros Hr. unfold ngx_md5_final. by rewrite (final_ok md5_compress md5_start ctx m Hr).
Qed.

Lemma MD5_16 m : bytes (MD5 m) /\ zlen (MD5 m) = 16.
Proof. split; [|done]. unfold MD5. repeat (apply Forall_app; split); repeat constructor; apply u8_byte. Qed.

Lemma SHA1_20 m : bytes (SHA1 m) /\ zlen (SHA1 m) = 20.
Proof. split; [|done]. unfold SHA1. repeat (apply Forall_app; split); repeat constructor; apply u8_byte. Qed.

Lemma MD5_small m : small (MD5 m).
Proof. destruct (MD5_16 m) as [Hb Hl]. split; [done|lia]. Qed.

(** One update after another: [l] of the memory [l ++ extra]. *)
Ltac md5_update Hr Hs :=
  let ctx := fresh "ctx" in
  let H := fresh "H" in
  destruct (md5_read_update _ _ _ _ Hr Hs) as (ctx & H & Hr');
  rewrite H, Ok_bind; clear H; clear Hr; rename Hr' into Hr.

(** ** The repeated digest *)

Lemma concat_replicate_length n (f : list Z) : length (concat (replicate n f)) = (n * length f)%nat.
Proof. induction n as [|n IH]; [done|]. cbn [replicate concat]. rewrite length_app, IH. lia. Qed.

Lemma take_replicate_more k m (f : list Z) :
  (k <= m)%nat -> f <> [] -> take k (concat (replicate m f)) = take k (concat (replicate k f)).
Proof.
  intros Hkm Hf. replace m with (k + (m - k))%nat by lia. rewrite replicate_add, concat_app.
  apply take_app_le. rewrite concat_replicate_length. destruct f; [done|]. cbn [length]. lia.
Qed.

Lemma repeated_step n f :
  length f = 16%nat -> repeated n f = if (n <=? 16)%nat then take n f else f ++ repeated (n - 16) f.
Proof.
  intros Hf. assert (f <> []) as Hne by (by destruct f). unfold repeated.
  destruct (Nat.leb_spec n 16).
  - destruct n as [|n]; [done|]. cbn [replicate concat]. apply take_app_le. lia.
  - destruct n as [|n]; [lia|]. cbn [replicate concat]. rewrite take_app_ge by lia. rewrite Hf. f_equal.
    apply take_replicate_more; [lia|done].
Qed.

Lemma apr1_fill_ok fuel f n ctx m :
  md5_read ctx m -> bytes f -> zlen f = 16 -> 0 <= n < 9223372036854775808 -> n < Z.of_nat fuel ->
  exists ctx', apr1_fill fuel f n ctx = Ok ctx' /\ md5_read ctx' (m ++ repeated (Z.to_nat n) f).
Proof.
  intros Hr Hb Hf. revert n ctx m Hr. induction fuel as [|fuel IH]; intros n ctx m Hr Hn Hfuel; [lia|].
  assert (length f = 16%nat) as Hlf by (unfold zlen in Hf; lia).
  cbn [apr1_fill]. destruct (Z.leb_spec n 0).
  { assert (n = 0) as -> by lia. exists ctx. by rewrite app_nil_r. }
  rewrite repeated_step by done. destruct (Z.ltb_spec 16 n).
  - destruct (md5_read_update ctx m f [] Hr) as (ctx1 & Hu & Hr1); rewrite ?app_nil_r in *; [split; [done|lia]|].
    rewrite Hf in Hu. rewrite Hu, Ok_bind, int64_ok, Ok_bind by lia.
    destruct (IH (n - 16) ctx1 (m ++ f) Hr1) as (ctx2 & -> & Hr2); [lia|lia|]. exists ctx2. split; [done|].
    destruct (Nat.leb_spec (Z.to_nat n) 16); [lia|]. rewrite <- app_assoc in Hr2.
    by replace (Z.to_nat n - 16)%nat with (Z.to_nat (n - 16)) by lia.
  - destruct (Nat.leb_spec (Z.to_nat n) 16); [|lia].
    destruct (md5_read_update ctx m (take (Z.to_nat n) f) (drop (Z.to_nat n) f) Hr) as (ctx1 & Hu & Hr1);
      rewrite ?take_drop in *; [split; [done|lia]|].
    rewrite zlen_take in Hu by lia. rewrite Hu, Ok_bind, int64_ok, Ok_bind by lia. exists ctx1. split; [|done].
    destruct fuel; cbn [apr1_fill]; by destruct (Z.leb_spec (n - 16) 0); [|lia].
Qed.

(** ** The bits of the length *)

Lemma size_nat_bound p n : Zpos p < 2 ^ Z.of_nat n -> (Pos.size_nat p <= n)%nat.
Proof.
  revert n. induction p as [p IH|p IH|]; intros [|n] Hp; cbn [Pos.size_nat] in *; try (cbn in Hp; lia).
  - rewrite Nat2Z.inj_succ, Z.pow_succ_r in Hp by lia. apply le_n_S, IH. lia.
  - rewrite Nat2Z.inj_succ, Z.pow_succ_r in Hp by lia. apply le_n_S, IH. lia.
Qed.

Lemma apr1_bits_ok fuel p key c rest ctx m :
  md5_read ctx m -> key = c :: rest -> small key -> (Pos.size_nat p <= fuel)%nat ->
  exists ctx', apr1_bits fuel (memzero 16) key (Zpos p) ctx = Ok ctx' /\ md5_read ctx' (m ++ bit_bytes p c).
Proof.
  intros Hr -> Hs. revert fuel ctx m Hr.
  assert (forall ctx m, md5_read ctx m ->
    exists ctx', ngx_md5_update ctx (memzero 16) 1 = Ok ctx' /\ md5_read ctx' (m ++ [0])) as Hone.
  { intros ctx m Hr. apply (md5_read_update ctx m [0] (memzero 15) Hr). split; [repeat constructor; lia|done]. }
  induction p as [p IH|p IH|]; intros [|fuel] ctx m Hr Hf; cbn [Pos.size_nat] in Hf; try lia;
    cbn [apr1_bits bit_bytes Z.eqb].
  - change (Z.land (Zpos (xI p)) 1) with 1. cbn [Z.eqb negb]. destruct (Hone ctx m Hr) as (ctx1 & -> & Hr1).
    rewrite Ok_bind. change (Z.shiftr (Zpos (xI p)) 1) with (Zpos p).
    destruct (IH fuel ctx1 _ Hr1) as (ctx2 & -> & Hr2); [lia|]. exists ctx2. by rewrite <- app_assoc in Hr2.
  - change (Z.land (Zpos (xO p)) 1) with 0. cbn [Z.eqb negb].
    destruct (md5_read_update ctx m [c] rest Hr Hs) as (ctx1 & H1 & Hr1).
    change ([c] ++ rest) with (c :: rest) in H1. change (zlen [c]) with 1 in H1. rewrite H1, Ok_bind.
    change (Z.shiftr (Zpos (xO p)) 1) with (Zpos p).
    destruct (IH fuel ctx1 _ Hr1) as (ctx2 & -> & Hr2); [lia|]. exists ctx2. by rewrite <- app_assoc in Hr2.
  - change (Z.land 1 1) with 1. cbn [Z.eqb negb]. destruct (Hone ctx m Hr) as (ctx1 & -> & Hr1).
    rewrite Ok_bind. exists ctx1. split; [|done]. by destruct fuel.
Qed.

Section apr1.
Context (k s krest srest : list Z) (Hk : small (k ++ krest)) (Hs : small (s ++ srest)).
Context (stack : digest_ctx md5_regs) (Hstack : zlen (d_buffer stack) = 64 /\ bytes (d_buffer stack)).

Lemma apr1_inner_ok :
  apr1_inner stack (k ++ krest) (s ++ srest) (zlen k) (zlen s) = Ok (MD5 (k ++ s ++ k)).
Proof using Hk Hs Hstack.
  unfold apr1_inner. pose proof (md5_read_init stack (proj1 Hstack) (proj2 Hstack)) as Hr.
  md5_update Hr Hk. md5_update Hr Hs. md5_update Hr Hk.
  rewrite (md5_read_final _ _ Hr). by rewrite <- !app_assoc.
Qed.
Lemma length_bits_ok ctx m :
  md5_read ctx m ->
  exists ctx', apr1_bits 64 (memzero 16) (k ++ krest) (zlen k) ctx = Ok ctx' /\ md5_read ctx' (m ++ length_bits k).
Proof using Hk.
  intros Hr. unfold length_bits. pose proof (small_app_l _ _ Hk) as [_ Hl].
  destruct (zlen k) as [|p|p] eqn:Hz; [| |pose proof (zlen_nonneg k); lia].
  { exists ctx. by rewrite app_nil_r. }
  assert (exists c k', k = c :: k') as (c & k' & E) by (destruct k as [|c k']; [done|by exists c, k']).
  replace (hd 0 k) with c by (by rewrite E).
  apply (apr1_bits_ok 64 p _ c (k' ++ krest)); [done|by rewrite E|done|].
  apply size_nat_bound. change (2 ^ Z.of_nat 64) with 18446744073709551616. lia.
Qed.

Lemma apr1_outer_ok f :
  bytes f -> zlen f = 16 ->
  apr1_outer stack (k ++ krest) (s ++ srest) (zlen k) (zlen s) f =
    Ok (MD5 (k ++ str "$apr1$" ++ s ++ repeated (length k) f ++ length_bits k)).
Proof using Hk Hs Hstack.
  intros Hf Hf16. unfold apr1_outer. pose proof (md5_read_init stack (proj1 Hstack) (proj2 Hstack)) as Hr.
  md5_update Hr Hk.
  assert (small (str "$apr1$" ++ [0])) as Hmagic by (split; [by apply bytes_check|done]).
  change 6 with (zlen (str "$apr1$")). md5_update Hr Hmagic. md5_update Hr Hs.
  pose proof (small_app_l _ _ Hk) as [_ Hl]. pose proof (zlen_nonneg k).
  destruct (apr1_fill_ok (S (length (k ++ krest))) f (zlen k) _ _ Hr Hf Hf16) as (cfill & -> & Hr1); [lia| |].
  { unfold zlen. rewrite length_app. lia. }
  rewrite Ok_bind. destruct (length_bits_ok _ _ Hr1) as (cbits & -> & Hr2). rewrite Ok_bind.
  rewrite (md5_read_final _ _ Hr2). do 2 f_equal. unfold zlen. rewrite Nat2Z.id. by rewrite <- !app_assoc.
Qed.
(** ** The rounds *)

Lemma land_1 i : negb (Z.land i 1 =? 0) = Z.odd i.
Proof using. change 1 with (Z.ones 1). rewrite Z.land_ones by lia. change (2 ^ 1) with 2. rewrite Zmod_odd. by destruct (Z.odd i). Qed.

Lemma update_if (b : bool) ctx m l extra :
  md5_read ctx m -> small (l ++ extra) ->
  exists ctx', (if b then ngx_md5_update ctx (l ++ extra) (zlen l) else Ok ctx) = Ok ctx' /\
    md5_read ctx' (m ++ (if b then l else [])).
Proof using.
  intros Hr Hl. destruct b; [by apply md5_read_update|]. exists ctx. by rewrite app_nil_r.
Qed.

Lemma update_either (b : bool) ctx m f :
  md5_read ctx m -> bytes f -> zlen f = 16 ->
  exists ctx', (if b then ngx_md5_update ctx (k ++ krest) (zlen k) else ngx_md5_update ctx f 16) = Ok ctx' /\
    md5_read ctx' (m ++ (if b then k else f)).
Proof using Hk.
  intros Hr Hf Hf16. destruct b; [by apply md5_read_update|].
  destruct (md5_read_update ctx m f [] Hr) as (ctx' & Hu & Hr'); rewrite ?app_nil_r in *; [split; [done|lia]|].
  rewrite Hf16 in Hu. by exists ctx'.
Qed.

Lemma apr1_round_ok i f ctx :
  zlen (d_buffer ctx) = 64 -> bytes (d_buffer ctx) -> bytes f -> zlen f = 16 ->
  apr1_round (k ++ krest) (s ++ srest) (zlen k) (zlen s) i f ctx = Ok (MD5 (round_text k s i f)).
Proof using Hk Hs.
  intros H1 H2 Hf Hf16. unfold apr1_round. pose proof (md5_read_init ctx H1 H2) as Hr. rewrite land_1.
  destruct (update_either (Z.odd i) _ _ f Hr Hf Hf16) as (c1 & -> & Hr1). rewrite Ok_bind.
  destruct (update_if (negb (i mod 3 =? 0)) _ _ _ _ Hr1 Hs) as (c2 & -> & Hr2). rewrite Ok_bind.
  destruct (update_if (negb (i mod 7 =? 0)) _ _ _ _ Hr2 Hk) as (c3 & -> & Hr3). rewrite Ok_bind.
  assert ((if Z.odd i then ngx_md5_update c3 f 16 else ngx_md5_update c3 (k ++ krest) (zlen k)) =
    (if negb (Z.odd i) then ngx_md5_update c3 (k ++ krest) (zlen k) else ngx_md5_update c3 f 16)) as ->
    by (by destruct (Z.odd i)).
  destruct (update_either (negb (Z.odd i)) _ _ f Hr3 Hf Hf16) as (c4 & -> & Hr4). rewrite Ok_bind.
  rewrite (md5_read_final _ _ Hr4). unfold round_text. do 2 f_equal. rewrite <- !app_assoc. cbn [app].
  by destruct (Z.odd i), (i mod 3 =? 0), (i mod 7 =? 0).
Qed.

Lemma apr1_rounds_ok n i f :
  bytes f -> zlen f = 16 ->
  apr1_rounds n (k ++ krest) (s ++ srest) (zlen k) (zlen s) i f = Ok (md5_rounds n k s i f).
Proof using Hk Hs.
  revert i f. induction n as [|n IH]; intros i f Hf Hf16; [done|]. cbn [apr1_rounds md5_rounds].
  rewrite apr1_round_ok, Ok_bind by (done || apply bytes_zeros). apply IH; apply MD5_16.
Qed.
End apr1.

Lemma md5_rounds_16 n k s i f : bytes f -> zlen f = 16 -> bytes (md5_rounds n k s i f) /\ zlen (md5_rounds n k s i f) = 16.
Proof.
  revert i f. induction n as [|n IH]; intros i f Hf Hf16; [done|]. cbn [md5_rounds]. apply IH; apply MD5_16.
Qed.

(** ** The digits *)

Lemma pack_ok f i j k :
  bytes f -> (i < length f)%nat -> (j < length f)%nat -> (k < length f)%nat ->
  pack f (Z.of_nat i) (Z.of_nat j) (Z.of_nat k) = Ok (triple f i j k).
Proof.
  intros Hf Hi Hj Hk. unfold pack. rewrite (get_nth f (Z.of_nat i) i), Ok_bind by done. rewrite (get_nth f (Z.of_nat j) j), Ok_bind by done.
  rewrite (get_nth f (Z.of_nat k) k), Ok_bind by done. f_equal. unfold triple.
  assert (forall n, (n < length f)%nat -> is_byte (nth n f 0)) as Hb.
  { intros n Hn. rewrite Forall_forall in Hf. apply Hf. apply list_elem_of_In, nth_In. done. }
  pose proof (Hb i Hi). pose proof (Hb j Hj). pose proof (Hb k Hk).
  rewrite (Z.lor_comm (Z.shiftl (nth i f 0) 16)), (Z.lor_comm (Z.lor _ _)), Z.lor_assoc.
  rewrite (lor_shiftl_add (nth k f 0)) by (change (2 ^ 8) with 256; lia). change (2 ^ 8) with 256.
  rewrite (lor_shiftl_add _ (nth i f 0) 16) by (change (2 ^ 16) with 65536; lia). change (2 ^ 16) with 65536.
  rewrite u32_id by lia. lia.
Qed.

Lemma apr1_digits_ok f : bytes f -> zlen f = 16 -> apr1_digits f = Ok (digits_64 f).
Proof.
  intros Hf H16. assert (length f = 16%nat) as Hl by (unfold zlen in H16; lia). unfold apr1_digits.
  change 0 with (Z.of_nat 0). change 1 with (Z.of_nat 1). change 2 with (Z.of_nat 2). change 3 with (Z.of_nat 3).
  change 4 with (Z.of_nat 4). change 5 with (Z.of_nat 5). change 6 with (Z.of_nat 6). change 7 with (Z.of_nat 7).
  change 8 with (Z.of_nat 8). change 9 with (Z.of_nat 9). change 10 with (Z.of_nat 10). change 12 with (Z.of_nat 12).
  change 13 with (Z.of_nat 13). change 14 with (Z.of_nat 14). change 15 with (Z.of_nat 15).
  rewrite (pack_ok f 0 6 12), Ok_bind by (done || lia). rewrite (pack_ok f 1 7 13), Ok_bind by (done || lia).
  rewrite (pack_ok f 2 8 14), Ok_bind by (done || lia). rewrite (pack_ok f 3 9 15), Ok_bind by (done || lia).
  rewrite (pack_ok f 4 10 5), Ok_bind by (done || lia). by rewrite (get_nth f 11 11), Ok_bind by (done || lia).
Qed.

Lemma to64_length v n : zlen (ngx_crypt_to64 v n) = Z.of_nat n.
Proof. revert v. induction n as [|n IH]; intros v; [done|]. cbn [ngx_crypt_to64]. rewrite zlen_cons, IH. lia. Qed.

Lemma itoa64_no_zero v : table_at itoa64 (Z.land v 0x3f) <> 0.
Proof.
  change 0x3f with (Z.ones 6). rewrite Z.land_ones by lia. change (2 ^ 6) with 64.
  pose proof (Z.mod_pos_bound v 64 ltac:(lia)) as H. unfold table_at. revert H. generalize (v mod 64). intros i Hi.
  assert (Forall (fun c => c <> 0) itoa64) as Ha by (vm_compute; repeat constructor; intros [=]).
  rewrite Forall_forall in Ha. apply Ha, list_elem_of_In, nth_In. change (length itoa64) with 64%nat. lia.
Qed.

Lemma to64_no_zero v n : no_zero (ngx_crypt_to64 v n).
Proof. revert v. induction n as [|n IH]; intros v; [constructor|]. cbn [ngx_crypt_to64]. constructor; [apply itoa64_no_zero|apply IH]. Qed.

Lemma digits_64_facts f : zlen (digits_64 f) = 22 /\ no_zero (digits_64 f).
Proof.
  split; [unfold digits_64; rewrite !zlen_app, !to64_length; lia|].
  unfold digits_64, no_zero. repeat (apply Forall_app; split); apply to64_no_zero.
Qed.

(** ** apr1 *)

Lemma true_salt_ok n l more : no_zero l -> true_salt n (l ++ 0 :: more) = Ok (before_dollar n l).
Proof.
  revert l. induction n as [|n IH]; intros l Hl; destruct Hl as [|c l Hc Hl]; cbn [app true_salt before_dollar].
  1, 3: done.
  all: rewrite get_cons_0, Ok_bind; destruct (Z.eqb_spec c 0); [done|]; destruct (Z.eqb_spec c 36); [done|].
  - done.
  - change (drop 1 (c :: l ++ 0 :: more)) with (l ++ 0 :: more). by rewrite IH, Ok_bind.
Qed.

Lemma before_dollar_prefix n l : exists rest, l = before_dollar n l ++ rest.
Proof.
  revert l. induction n as [|n IH]; intros l; [by exists l|]. destruct l as [|c l]; [by exists []|].
  cbn [before_dollar]. destruct (c =? 36); [by exists (c :: l)|]. destruct (IH l) as [rest Hrest].
  exists rest. cbn [app]. by rewrite <- Hrest.
Qed.

(** The salt of a result is the one it was made with. *)
Lemma before_dollar_again n l rest : before_dollar n (before_dollar n l ++ "$"%chr :: rest) = before_dollar n l.
Proof.
  revert l. induction n as [|n IH]; intros l; [done|]. destruct l as [|c l]; [done|].
  cbn [before_dollar]. destruct (c =? 36) eqn:E; [done|]. cbn [app before_dollar]. by rewrite E, IH.
Qed.

Lemma deliver_ok size text : zlen text <= size -> deliver size text = Ok (NGX_OK, text).
Proof. intros H. unfold deliver. by destruct (Z.leb_spec (zlen text) size); [|lia]. Qed.

Section schemes.
Context (palloc : nat -> bool) (Hp : forall n, palloc n = true).
Context (md5_stack : digest_ctx md5_regs) (Hmd5 : zlen (d_buffer md5_stack) = 64 /\ bytes (d_buffer md5_stack)).
Context (sha1_stack : digest_ctx sha1_regs) (Hsha1 : zlen (d_buffer sha1_stack) = 64 /\ bytes (d_buffer sha1_stack)).
Context (k krest : list Z) (Hk : small (k ++ 0 :: krest)) (Hkz : no_zero k).

Lemma strlen_key : ngx_strlen (k ++ 0 :: krest) = Ok (zlen k).
Proof using Hkz. unfold ngx_strlen. by rewrite c_string_app. Qed.

Lemma crypt_apr1_ok t more :
  no_zero t -> small (t ++ 0 :: more) ->
  ngx_crypt_apr1 palloc md5_stack (k ++ 0 :: krest) (str "$apr1$" ++ t ++ 0 :: more) =
    Ok (NGX_OK, apr1_text k (before_dollar 8 t) ++ [0]).
Proof using Hp Hmd5 Hk Hkz.
  intros Ht Hs. unfold ngx_crypt_apr1. rewrite strlen_key, Ok_bind.
  change (drop 6 (str "$apr1$" ++ t ++ 0 :: more)) with (t ++ 0 :: more).
  rewrite true_salt_ok, Ok_bind by done. destruct (before_dollar_prefix 8 t) as [rest Hrest].
  set (s := before_dollar 8 t) in *.
  assert (t ++ 0 :: more = s ++ rest ++ 0 :: more) as Heq by (rewrite Hrest; by rewrite <- app_assoc).
  rewrite Heq in *.
  rewrite apr1_inner_ok, Ok_bind by done. destruct (MD5_16 (k ++ s ++ k)) as [Hb H16].
  rewrite apr1_outer_ok, Ok_bind by done.
  match goal with |- context [apr1_rounds 1000 _ _ _ _ 0 (MD5 ?m)] => destruct (MD5_16 m) as [Hb1 H161] end.
  rewrite apr1_rounds_ok, Ok_bind by done. rewrite Hp. cbn [negb].
  rewrite (slice_app [] s (rest ++ 0 :: more)), Ok_bind by done.
  match goal with |- context [apr1_digits ?f] => destruct (md5_rounds_16 1000 k s 0 _ Hb1 H161) as [Hb2 H162] end.
  rewrite apr1_digits_ok, Ok_bind by done. change (md5_rounds 1000 k s 0 _) with (apr1_digest k s).
  destruct (digits_64_facts (apr1_digest k s)) as [Hd _].
  rewrite deliver_ok.
  - unfold apr1_text. by rewrite <- !app_assoc.
  - rewrite !zlen_app, Hd. change (zlen (str "$apr1$")) with 6. change (zlen (str "$")) with 1. change (zlen [0]) with 1. lia.
Qed.

Lemma crypt_plain_ok salt :
  ngx_crypt_plain palloc (k ++ 0 :: krest) salt = Ok (NGX_OK, str "{PLAIN}" ++ k ++ [0]).
Proof using Hp Hkz.
  unfold ngx_crypt_plain. rewrite strlen_key, Ok_bind, Hp. cbn [negb].
  assert (slice (k ++ 0 :: krest) 0 (zlen k + 1) = Ok (k ++ [0])) as ->.
  { change (k ++ 0 :: krest) with (k ++ [0] ++ krest). rewrite app_assoc.
    apply (slice_app [] (k ++ [0]) krest); [done|]. by rewrite zlen_app. }
  rewrite Ok_bind. apply deliver_ok. rewrite !zlen_app. change (zlen (str "{PLAIN}")) with 7. change (zlen [0]) with 1. lia.
Qed.

Lemma sha1_two l extra :
  small (l ++ extra) -> forall salt, small salt ->
  exists c1 c2, ngx_sha1_update (ngx_sha1_init sha1_stack) (l ++ extra) (zlen l) = Ok c1 /\
    ngx_sha1_final c1 = Ok (SHA1 l) /\
    ngx_sha1_update c1 salt (zlen salt) = Ok c2 /\ ngx_sha1_final c2 = Ok (SHA1 (l ++ salt)).
Proof using Hsha1.
  intros [Hb Hl] salt [Hsb Hsl].
  assert (absorbed sha1_compress sha1_start (ngx_sha1_init sha1_stack) []) as Hr by (destruct Hsha1; by apply absorbed_init).
  destruct (update_ok sha1_compress sha1_start _ _ l extra Hr Hb ltac:(lia)) as (c1 & H1 & Hr1).
  destruct (update_ok sha1_compress sha1_start _ _ salt [] Hr1) as (c2 & H2 & Hr2); rewrite ?app_nil_r in *; [done|lia|].
  exists c1, c2. split; [exact H1|]. split.
  - unfold ngx_sha1_final. by rewrite (final_ok sha1_compress sha1_start c1 _ Hr1).
  - split; [exact H2|]. unfold ngx_sha1_final. by rewrite (final_ok sha1_compress sha1_start c2 _ Hr2).
Qed.

Lemma zlen_encode l : zlen (ngx_encode_base64 l) = ngx_base64_encoded_length (zlen l).
Proof using. by apply (encode_length l basis64 true). Qed.

Lemma crypt_sha_ok salt : ngx_crypt_sha palloc sha1_stack (k ++ 0 :: krest) salt = Ok (NGX_OK, sha_text k ++ [0]).
Proof using Hp Hsha1 Hk Hkz.
  unfold ngx_crypt_sha. rewrite strlen_key, Ok_bind.
  destruct (sha1_two k (0 :: krest) Hk []) as (c1 & c2 & -> & H1 & _); [done|].
  rewrite Ok_bind, H1, Ok_bind, Hp. cbn [negb]. rewrite deliver_ok; [unfold sha_text; by rewrite <- app_assoc|].
  rewrite !zlen_app, zlen_encode. destruct (SHA1_20 k) as [_ ->]. change (zlen (str "{SHA}")) with 5. change (zlen [0]) with 1. lia.
Qed.

Lemma decode_bytes l : bytes (ngx_decode_base64 l).2.
Proof using.
  unfold ngx_decode_base64, ngx_decode_base64_internal. destruct (base64_len l decode64) as [s|]; [|constructor].
  destruct (zlen s mod 4 =? 1); [constructor|]. cbn [snd].
  induction s as [|a|a b|a b c|a b c d s IH] using list_ind4; cbn [base64_bytes];
    repeat first [apply Forall_nil_2 | exact IH | apply Forall_cons_2; [apply u8_byte|]].
Qed.

Lemma crypt_ssha_ok t more :
  no_zero t -> zlen t < 4611686018427387904 ->
  ngx_crypt_ssha palloc sha1_stack (k ++ 0 :: krest) (str "{SSHA}" ++ t ++ 0 :: more) =
    Ok (NGX_OK, ssha_text k (ssha_salt t) ++ [0]).
Proof using Hp Hsha1 Hk Hkz.
  clear Hmd5 md5_stack. intros Ht Hl. unfold ngx_crypt_ssha. change (drop 6 (str "{SSHA}" ++ t ++ 0 :: more)) with (t ++ 0 :: more).
  rewrite c_string_app, Ok_bind by done. rewrite Hp. cbn [negb].
  pose proof (decode_bytes t) as Hb. pose proof (base64_fits t) as (_ & _ & Hfit & _). unfold ssha_salt.
  destruct (ngx_decode_base64 t) as [rc decoded]. cbn [snd] in *.
  destruct (Z.ltb_spec (Z.max (ngx_base64_decoded_length (zlen t)) 20) (zlen decoded)); [lia|].
  assert ((if negb (rc =? NGX_OK) || (zlen decoded <? 20) then [] else drop 20 decoded)
    = (if negb (rc =? NGX_OK) then [] else drop 20 decoded)) as ->.
  { destruct (negb (rc =? NGX_OK)); [done|]. cbn [orb]. destruct (Z.ltb_spec (zlen decoded) 20); [|done].
    symmetry. apply drop_ge. unfold zlen in *. lia. }
  set (s := if negb (rc =? NGX_OK) then [] else drop 20 decoded).
  assert (small s) as Hs.
  { unfold s, small. destruct (negb (rc =? NGX_OK)); [done|]. split; [by apply Forall_drop|].
    unfold ngx_base64_decoded_length in *. pose proof (zlen_nonneg t).
    assert (zlen (drop 20 decoded) <= zlen decoded) by (unfold zlen; rewrite length_drop; lia).
    Z.to_euclidean_division_equations. lia. }
  rewrite strlen_key, Ok_bind. destruct (sha1_two k (0 :: krest) Hk s Hs) as (c1 & c2 & -> & _ & H2 & H3).
  rewrite Ok_bind, H2, Ok_bind, H3, Ok_bind, Hp. cbn [negb].
  rewrite deliver_ok; [unfold ssha_text; by rewrite <- app_assoc|].
  rewrite !zlen_app, zlen_encode, zlen_app. change (zlen (str "{SSHA}")) with 6. change (zlen [0]) with 1. lia.
Qed.

(** The scheme that the salt names. *)
Lemma crypt_stored libc salt more t :
  no_zero salt -> small (salt ++ 0 :: more) -> zlen salt < 4611686018427387904 -> stored k salt = Some t ->
  ngx_crypt palloc md5_stack sha1_stack libc (k ++ 0 :: krest) (salt ++ 0 :: more) = Ok (NGX_OK, t ++ [0]).
Proof using Hp Hmd5 Hsha1 Hk Hkz.
  intros Hz Hs Hl. unfold stored, ngx_crypt.
  assert (forall m, no_zero m -> strncmp_eq (salt ++ 0 :: more) 0 m = Ok (starts_with m salt)) as Hpre.
  { intros m Hm. by apply (strncmp_eq_prefix m _ [] salt more). }
  assert (no_zero (str "$apr1$") /\ no_zero (str "{PLAIN}") /\ no_zero (str "{SSHA}") /\ no_zero (str "{SHA}")) as (N1 & N2 & N3 & N4).
  { by repeat split; repeat constructor. }
  rewrite !Hpre, Ok_bind by done.
  destruct (starts_with (str "$apr1$") salt) eqn:E1.
  { intros [= <-]. apply starts_with_inv in E1 as [rest ->]. rewrite <- app_assoc in Hs |- *.
    apply Forall_app in Hz as [_ Hz]. rewrite crypt_apr1_ok; [done|done|].
    destruct Hs as [Hb Hsl]. split; [by apply Forall_app in Hb as [_ ?]|]. rewrite zlen_app in Hsl.
    pose proof (zlen_nonneg (str "$apr1$")). lia. }
  rewrite Ok_bind. destruct (starts_with (str "{PLAIN}") salt) eqn:E2.
  { intros [= <-]. by rewrite crypt_plain_ok. }
  rewrite Ok_bind. destruct (starts_with (str "{SSHA}") salt) eqn:E3.
  { intros [= <-]. apply starts_with_inv in E3 as [rest ->]. rewrite <- app_assoc.
    apply Forall_app in Hz as [_ Hz]. rewrite zlen_app in Hl. change (zlen (str "{SSHA}")) with 6 in Hl.
    rewrite crypt_ssha_ok; [done|done|lia]. }
  rewrite Ok_bind. destruct (starts_with (str "{SHA}") salt) eqn:E4; [|done].
  intros [= <-]. apply crypt_sha_ok.
Qed.
End schemes.

(** ** A stored password is accepted *)

Lemma basis64_no_zero i : 0 <= i < 64 -> table_at basis64 i <> 0.
Proof.
  intros Hi. unfold table_at.
  assert (Forall (fun c => c <> 0) basis64) as Ha by (vm_compute; repeat constructor; intros [=]).
  rewrite Forall_forall in Ha. apply Ha, list_elem_of_In, nth_In. change (length basis64) with 64%nat. lia.
Qed.

Lemma base64_no_zero l : bytes l -> no_zero (ngx_encode_base64 l).
Proof.
  intros Hb. unfold ngx_encode_base64. rewrite encode_sextets by done. apply Forall_app. split.
  - apply Forall_map. pose proof (sextets_bounds l Hb) as Hx. eapply Forall_impl; [exact Hx|].
    intros i Hi. by apply basis64_no_zero.
  - destruct (pad_of_spec true l) as [n ->]. by apply Forall_replicate.
Qed.

Lemma before_dollar_no_zero n l : no_zero l -> no_zero (before_dollar n l).
Proof. intros Hl. destruct (before_dollar_prefix n l) as [rest E]. rewrite E in Hl. by apply Forall_app in Hl as [? _]. Qed.

(** What is stored has no zero in it, and names its own scheme and salt. *)
Lemma stored_again k salt t :
  no_zero k -> no_zero salt -> stored k salt = Some t -> no_zero t /\ stored k t = Some t.
Proof.
  intros Hk Hz. unfold stored at 1. destruct (SHA1_20 k) as [Hsb _].
  destruct (starts_with (str "$apr1$") salt) eqn:E1; [|destruct (starts_with (str "{PLAIN}") salt) eqn:E2;
    [|destruct (starts_with (str "{SSHA}") salt) eqn:E3; [|destruct (starts_with (str "{SHA}") salt) eqn:E4; [|done]]]].
  - intros H. apply (inj Some) in H. subst t. apply starts_with_inv in E1 as [rest ->]. apply Forall_app in Hz as [Hm Hz].
    change (drop 6 (str "$apr1$" ++ rest)) with rest.
    pose proof (before_dollar_no_zero 8 rest Hz) as Hs. split.
    + unfold apr1_text, no_zero. apply Forall_app. split; [done|]. apply Forall_app. split; [done|].
      apply Forall_app. split; [by repeat constructor|]. apply digits_64_facts.
    + unfold stored. unfold apr1_text at 1. rewrite starts_with_app. unfold apr1_text at 2.
      change (drop 6 (str "$apr1$" ++ ?l)) with l. change (str "$") with ["$"%chr]. cbn [app].
      by rewrite before_dollar_again.
  - intros H. apply (inj Some) in H. subst t. split; [|done]. apply Forall_app. split; [by repeat constructor|done].
  - intros H. apply (inj Some) in H. subst t. set (s := ssha_salt (drop 6 salt)).
    assert (bytes s) as Hs.
    { unfold s, ssha_salt. pose proof (decode_bytes (drop 6 salt)) as Hb.
      destruct (ngx_decode_base64 (drop 6 salt)) as [rc d]. cbn [snd] in Hb.
      destruct (negb (rc =? NGX_OK)); [done|by apply Forall_drop]. }
    destruct (SHA1_20 (k ++ s)) as [Hb H20].
    assert (bytes (SHA1 (k ++ s) ++ s)) as Hall by (by apply Forall_app).
    split; [apply Forall_app; split; [by repeat constructor|by apply base64_no_zero]|].
    unfold stored, ssha_text. change (starts_with (str "$apr1$") _) with false.
    change (starts_with (str "{PLAIN}") _) with false. rewrite starts_with_app.
    change (drop 6 (str "{SSHA}" ++ ?l)) with l. unfold ssha_salt, ngx_decode_base64, ngx_encode_base64.
    rewrite decode_encode by done. change (negb (NGX_OK =? NGX_OK)) with false. cbn [negb].
    by rewrite drop_app_length' by (unfold zlen in H20; lia).
  - intros H. apply (inj Some) in H. subst t. split; [|done].
    apply Forall_app. split; [by repeat constructor|by apply base64_no_zero].
Qed.

(** C21: Passwords. If the text [salt] names one of the schemes of nginx itself, then
    [ngx_crypt] turns a password into the text that this scheme stores: with the digests
    of the standards, and the salt that is in the text. With the stored text as salt it
    returns this text again, whatever the stack and the memory behind the strings hold,
    so the password is accepted. *)
Theorem crypt_stored_accepted palloc md5_stack sha1_stack libc k krest salt more more' t :
  (forall n, palloc n = true) ->
  zlen (d_buffer md5_stack) = 64 -> bytes (d_buffer md5_stack) ->
  zlen (d_buffer sha1_stack) = 64 -> bytes (d_buffer sha1_stack) ->
  no_zero k -> small (k ++ 0 :: krest) ->
  no_zero salt -> small (salt ++ 0 :: more) -> zlen salt < 4611686018427387904 ->
  stored k salt = Some t ->
  ngx_crypt palloc md5_stack sha1_stack libc (k ++ 0 :: krest) (salt ++ 0 :: more) = Ok (NGX_OK, t ++ [0]) /\
  (small (t ++ 0 :: more') -> zlen t < 4611686018427387904 ->
   ngx_crypt palloc md5_stack sha1_stack libc (k ++ 0 :: krest) (t ++ 0 :: more') = Ok (NGX_OK, t ++ [0])).
Proof.
  intros Hp M1 M2 S1 S2 Hkz Hk Hz Hs Hl Ht.
  destruct (stored_again k salt t Hkz Hz Ht) as [Htz Hagain].
  split; [by apply crypt_stored|]. intros Hsm Htl. by apply crypt_stored.
Qed.

Lemma crypt_stored_accepted_witness :
  ngx_crypt (fun _ => true) md5_cleared (DigestCtx 0 sha1_start (memzero 64)) (fun _ _ => Fault)
    (str "secret" ++ [0]) (str "{SSHA}" ++ [0]) = Ok (NGX_OK, ssha_text (str "secret") [] ++ [0]) /\
  (small (ssha_text (str "secret") [] ++ [0]) -> zlen (ssha_text (str "secret") []) < 4611686018427387904 ->
   ngx_crypt (fun _ => true) md5_cleared (DigestCtx 0 sha1_start (memzero 64)) (fun _ _ => Fault)
     (str "secret" ++ [0]) (ssha_text (str "secret") [] ++ [0]) = Ok (NGX_OK, ssha_text (str "secret") [] ++ [0])).
Proof.
  apply (crypt_stored_accepted (fun _ => true) md5_cleared (DigestCtx 0 sha1_start (memzero 64)) (fun _ _ => Fault)
    (str "secret") [] (str "{SSHA}") [] []).
  - done.
  - done.
  - apply bytes_zeros.
  - done.
  - apply bytes_zeros.
  - by repeat constructor.
  - split; [by apply bytes_check|done].
  - by repeat constructor.
  - split; [by apply bytes_check|done].
  - done.
  - done.
Defined.
