(* ===== verification/Radix.v ===== *)
(** * Radix trees

    [src/core/ngx_radix_tree.c]: networks with a value each, and the search for the
    longest network that has an address. The nodes are in a store, a pointer is their
    address there, so that what the parent, the children and the free list share is
    seen. The functions for addresses of 32 and of 128 bits walk in the same way and
    differ in how they step through the bits of a key: they are one definition each, over
    a cursor ([Cursor]) with two instances. *)

From stdpp Require Import gmap.
From S2P Require Import Prelude.

Definition NGX_RADIX_NO_VALUE : Z := 18446744073709551615.

Record ngx_radix_node_t := RNode {
  n_right : option nat;
  n_left : option nat;
  n_parent : option nat;
  n_value : Z
}.

(** Addresses are numbered in the order in which nodes are taken from pages: [t_start] is
    the next one. [t_size] is what is left of the page, in bytes; [t_pages] counts the
    pages that were asked for. *)
Record ngx_radix_tree_t := RTree {
  t_store : gmap nat ngx_radix_node_t;
  t_root : nat;
  t_free : option nat;
  t_start : nat;
  t_size : Z;
  t_pages : nat
}.

#[export] Instance rebuild_node : Rebuild ngx_radix_node_t :=
  fun r => RNode r.(n_right) r.(n_left) r.(n_parent) r.(n_value).
#[export] Instance rebuild_tree : Rebuild ngx_radix_tree_t :=
  fun r => RTree r.(t_store) r.(t_root) r.(t_free) r.(t_start) r.(t_size) r.(t_pages).

(** [p->...] *)
Definition load (t : ngx_radix_tree_t) (p : nat) : res ngx_radix_node_t :=
  match t_store t !! p with Some n => Ok n | None => Fault end.

Definition deref (p : option nat) : res nat :=
  match p with Some p => Ok p | None => Fault end.

Definition store (t : ngx_radix_tree_t) (p : nat) (n : ngx_radix_node_t) : ngx_radix_tree_t :=
  t <| t_store := <[p := n]> (t_store t) |>.

Definition child (d : bool) (n : ngx_radix_node_t) : option nat := if d then n_right n else n_left n.

Definition set_child (d : bool) (c : option nat) (n : ngx_radix_node_t) : ngx_radix_node_t :=
  if d then n <| n_right := c |> else n <| n_left := c |>.

(** [sizeof(ngx_radix_node_t)]: three pointers and a number. *)
Definition node_size : Z := 32.

Section radix.
(** The size of a page; whether the [k]-th allocation of one succeeds. *)
Context (ngx_pagesize : Z) (pmemalign : nat -> bool).
Implicit Types (t : ngx_radix_tree_t).

Definition ngx_radix_alloc t : res (option nat * ngx_radix_tree_t) :=
  match t_free t with
  | Some p => n ← load t p; Ok (Some p, t <| t_free := n_right n |>)
  | None =>
      let ok := (node_size <=? t_size t) || pmemalign (t_pages t) in
      let t := if t_size t <? node_size then
                 t <| t_size := if ok then ngx_pagesize else t_size t |> <| t_pages := S (t_pages t) |>
               else t in
      if negb ok then Ok (None, t)
      else if t_size t <? node_size then Fault
      else Ok (Some (t_start t), t <| t_start := S (t_start t) |> <| t_size := t_size t - node_size |>)
  end.

(** ** Walks

    A cursor is a place in a key and its mask: whether the mask has a bit there, which
    way the key goes, and the next place, with a flag for [break]. [cur_next] is the step
    of the search, which has no mask. *)
Class Cursor (C : Type) := {
  cur_start : C;
  cur_more : C -> res bool;
  cur_dir : C -> res bool;
  cur_step : C -> C * bool;
  cur_next : C -> C
}.

Context {C : Type} {cur : Cursor C}.

(** The first loop of an insertion: [node], [next] and the place. *)
Fixpoint insert_walk (fuel : nat) t (node : nat) (next : option nat) (c : C) : res (nat * option nat * C) :=
  match fuel with
  | O => NoFuel
  | S fuel =>
      m ← cur_more c;
      if (m : bool) then
        d ← cur_dir c;
        n ← load t node;
        match child d n with
        | None => Ok (node, None, c)
        | Some x =>
            let '(c, stop) := cur_step c in
            if stop then Ok (x, Some x, c) else insert_walk fuel t x (Some x) c
        end
      else Ok (node, next, c)
  end.

(** The second loop: the nodes that are missing. [None] if one cannot be allocated. *)
Fixpoint insert_nodes (fuel : nat) t (node : nat) (c : C) : res (option nat * ngx_radix_tree_t) :=
  match fuel with
  | O => NoFuel
  | S fuel =>
      m ← cur_more c;
      if (m : bool) then
        '(p, t) ← ngx_radix_alloc t;
        match p with
        | None => Ok (None, t)
        | Some next =>
            let t := store t next (RNode None None (Some node) NGX_RADIX_NO_VALUE) in
            d ← cur_dir c;
            n ← load t node;
            let t := store t node (set_child d (Some next) n) in
            let '(c, stop) := cur_step c in
            if stop then Ok (Some next, t) else insert_nodes fuel t next c
        end
      else Ok (Some node, t)
  end.

Definition radix_insert (fuel : nat) t (value : Z) : res (Z * ngx_radix_tree_t) :=
  '(node, next, c) ← insert_walk fuel t (t_root t) (Some (t_root t)) cur_start;
  match next with
  | Some _ =>
      n ← load t node;
      if negb (n_value n =? NGX_RADIX_NO_VALUE) then Ok (NGX_BUSY, t)
      else Ok (NGX_OK, store t node (n <| n_value := value |>))
  | None =>
      '(p, t) ← insert_nodes fuel t node c;
      match p with
      | None => Ok (NGX_ERROR, t)
      | Some node => n ← load t node; Ok (NGX_OK, store t node (n <| n_value := value |>))
      end
  end.

Fixpoint delete_walk (fuel : nat) t (node : option nat) (c : C) : res (option nat) :=
  match node with
  | None => Ok None
  | Some p =>
      match fuel with
      | O => NoFuel
      | S fuel =>
          m ← cur_more c;
          if (m : bool) then
            d ← cur_dir c;
            n ← load t p;
            let '(c, stop) := cur_step c in
            if stop then Ok (child d n) else delete_walk fuel t (child d n) c
          else Ok (Some p)
      end
  end.

Definition has_child (n : ngx_radix_node_t) : bool := bool_decide (is_Some (n_right n)) || bool_decide (is_Some (n_left n)).

(** [for ( ;; )]: a leaf is taken out, and its parent too if it is left without children
    and has no value. *)
Fixpoint prune (fuel : nat) t (node : nat) : res ngx_radix_tree_t :=
  match fuel with
  | O => NoFuel
  | S fuel =>
      n ← load t node;
      parent ← deref (n_parent n);
      pn ← load t parent;
      let pn := if bool_decide (n_right pn = Some node) then pn <| n_right := None |> else pn <| n_left := None |> in
      let t := store t parent pn in
      n ← load t node;
      let t := (store t node (n <| n_right := t_free t |>)) <| t_free := Some node |> in
      n ← load t node;
      node ← deref (n_parent n);
      n ← load t node;
      if has_child n then Ok t
      else if negb (n_value n =? NGX_RADIX_NO_VALUE) then Ok t
      else if bool_decide (n_parent n = None) then Ok t
      else prune fuel t node
  end.

Definition radix_delete (fuel : nat) t : res (Z * ngx_radix_tree_t) :=
  p ← delete_walk fuel t (Some (t_root t)) cur_start;
  match p with
  | None => Ok (NGX_ERROR, t)
  | Some node =>
      n ← load t node;
      if has_child n then
        if negb (n_value n =? NGX_RADIX_NO_VALUE)
        then Ok (NGX_OK, store t node (n <| n_value := NGX_RADIX_NO_VALUE |>))
        else Ok (NGX_ERROR, t)
      else t ← prune fuel t node; Ok (NGX_OK, t)
  end.

Fixpoint find_walk (fuel : nat) t (node : option nat) (c : C) (value : Z) : res Z :=
  match node with
  | None => Ok value
  | Some p =>
      match fuel with
      | O => NoFuel
      | S fuel =>
          n ← load t p;
          let value := if negb (n_value n =? NGX_RADIX_NO_VALUE) then n_value n else value in
          d ← cur_dir c;
          find_walk fuel t (child d n) (cur_next c) value
      end
  end.

Definition radix_find (fuel : nat) t : res Z :=
  find_walk fuel t (Some (t_root t)) cur_start NGX_RADIX_NO_VALUE.
End radix.

(** ** Keys of 32 bits: a place is [bit] *)

Definition cursor32 (key mask : Z) : Cursor Z := {|
  cur_start := 0x80000000;
  cur_more := fun bit => Ok (negb (Z.land bit mask =? 0));
  cur_dir := fun bit => Ok (negb (Z.land key bit =? 0));
  cur_step := fun bit => (Z.shiftr bit 1, false);
  cur_next := fun bit => Z.shiftr bit 1
|}.

(** A path has 32 steps at most. *)
Definition ngx_radix32tree_insert (pagesize : Z) (pmemalign : nat -> bool) (t : ngx_radix_tree_t) (key mask value : Z)
    : res (Z * ngx_radix_tree_t) :=
  radix_insert pagesize pmemalign (cur := cursor32 key mask) 33 t value.

Definition ngx_radix32tree_delete (t : ngx_radix_tree_t) (key mask : Z) : res (Z * ngx_radix_tree_t) :=
  radix_delete (cur := cursor32 key mask) 33 t.

Definition ngx_radix32tree_find (t : ngx_radix_tree_t) (key : Z) : res Z :=
  radix_find (cur := cursor32 key 0) 34 t.

(** ** Keys of 128 bits: a place is [i] and [bit] *)

Definition cursor128 (key mask : list Z) : Cursor (Z * Z) := {|
  cur_start := (0, 0x80);
  cur_more := fun '(i, bit) => m ← get mask i; Ok (negb (Z.land bit m =? 0));
  cur_dir := fun '(i, bit) => k ← get key i; Ok (negb (Z.land k bit =? 0));
  cur_step := fun '(i, bit) =>
    let bit := Z.shiftr bit 1 in
    if bit =? 0 then
      let i := i + 1 in
      if i =? 16 then ((i, bit), true) else ((i, 0x80), false)
    else ((i, bit), false);
  cur_next := fun '(i, bit) =>
    let bit := Z.shiftr bit 1 in
    if bit =? 0 then (i + 1, 0x80) else (i, bit)
|}.

Definition ngx_radix128tree_insert (pagesize : Z) (pmemalign : nat -> bool) (t : ngx_radix_tree_t)
    (key mask : list Z) (value : Z) : res (Z * ngx_radix_tree_t) :=
  radix_insert pagesize pmemalign (cur := cursor128 key mask) 129 t value.

Definition ngx_radix128tree_delete (t : ngx_radix_tree_t) (key mask : list Z) : res (Z * ngx_radix_tree_t) :=
  radix_delete (cur := cursor128 key mask) 129 t.

Definition ngx_radix128tree_find (t : ngx_radix_tree_t) (key : list Z) : res Z :=
  radix_find (cur := cursor128 key []) 130 t.

(** ** Creation *)

Section create.
Context (ngx_pagesize : Z) (pmemalign : nat -> bool).

(** [do { ... key += inc; } while (key)] *)
Fixpoint prealloc_row (fuel : nat) (t : ngx_radix_tree_t) (key mask inc : Z) : res (option ngx_radix_tree_t) :=
  match fuel with
  | O => NoFuel
  | S fuel =>
      '(rc, t) ← ngx_radix32tree_insert ngx_pagesize pmemalign t key mask NGX_RADIX_NO_VALUE;
      if negb (rc =? NGX_OK) then Ok None
      else
        let key := u32 (key + inc) in
        if key =? 0 then Ok (Some t) else prealloc_row fuel t key mask inc
  end.

(** [while (preallocate--)] for a number that is not negative. A row has a key for each
    multiple of [inc]. *)
Fixpoint prealloc_rows (n : nat) (t : ngx_radix_tree_t) (mask inc : Z) : res (option ngx_radix_tree_t) :=
  match n with
  | O => Ok (Some t)
  | S n =>
      let mask := Z.lor (Z.shiftr mask 1) 0x80000000 in
      r ← prealloc_row (Z.to_nat (4294967296 / inc)) t 0 mask inc;
      match r with
      | None => Ok None
      | Some t => prealloc_rows n t mask (Z.shiftr inc 1)
      end
  end.

Definition default_bits : Z :=
  let n := ngx_pagesize / node_size in
  if n =? 128 then 6 else if n =? 256 then 7 else 8.

(** [None] is [NULL]. [ok] is whether the structure of the tree is allocated. *)
Definition ngx_radix_tree_create (ok : bool) (preallocate : Z) : res (option ngx_radix_tree_t) :=
  if negb ok then Ok None
  else
    let t := RTree ∅ 0%nat None 0%nat 0 0%nat in
    '(root, t) ← ngx_radix_alloc ngx_pagesize pmemalign t;
    match root with
    | None => Ok None
    | Some root =>
        let t := (store t root (RNode None None None NGX_RADIX_NO_VALUE)) <| t_root := root |> in
        if preallocate =? 0 then Ok (Some t)
        else
          let preallocate := if preallocate =? -1 then default_bits else preallocate in
          if preallocate <? 0 then NoFuel
          else prealloc_rows (Z.to_nat preallocate) t 0 0x80000000
    end.
End create.

(** 10.0.0.0/8 has the value 1, 10.1.0.0/16 the value 2. *)
Example radix_networks :
  (r ← ngx_radix_tree_create 4096 (fun _ => true) true (-1);
   match r with
   | None => Fault
   | Some t =>
       '(_, t) ← ngx_radix32tree_insert 4096 (fun _ => true) t 0x0a000000 0xff000000 1;
       '(_, t) ← ngx_radix32tree_insert 4096 (fun _ => true) t 0x0a010000 0xffff0000 2;
       a ← ngx_radix32tree_find t 0x0a010203;
       b ← ngx_radix32tree_find t 0x0a020203;
       c ← ngx_radix32tree_find t 0x0b020203;
       '(rc, t) ← ngx_radix32tree_delete t 0x0a010000 0xffff0000;
       d ← ngx_radix32tree_find t 0x0a010203;
       Ok [a; b; c; rc; d]
   end) = Ok [2; 1; NGX_RADIX_NO_VALUE; NGX_OK; 1].
Proof. vm_compute. reflexivity. Qed.
