(* ===== verification/RadixInv.v ===== *)
(** * What the nodes of a radix tree stand for

    A map from paths to the address and the value of a node. A path is the list of its
    steps, the last one first, so that the children of [p] are [true :: p] and
    [false :: p] and its parent is its tail. Each elementary change of the nodes keeps the
    representation, for the map with the corresponding change. *)

From stdpp Require Import gmap.
From S2P Require Import Prelude Radix.

Abbreviation path := (list bool).
Abbreviation nodes := (gmap (list bool) (nat * Z)).

Definition address (A : nodes) (p : path) : option nat := fst <$> A !! p.

Definition value_at (A : nodes) (p : path) : Z := default NGX_RADIX_NO_VALUE (snd <$> A !! p).

Definition parent_of (A : nodes) (p : path) : option nat :=
  match p with [] => None | _ :: p => address A p end.

Definition node_at (A : nodes) (p : path) (v : Z) : ngx_radix_node_t :=
  RNode (address A (true :: p)) (address A (false :: p)) (parent_of A p) v.

(** The free list, linked by [right]. *)
Fixpoint chain (s : gmap nat ngx_radix_node_t) (p : option nat) (l : list nat) : Prop :=
  match l with
  | [] => p = None
  | a :: l => p = Some a /\ exists n, s !! a = Some n /\ chain s (n_right n) l
  end.

(** [used] are addresses that are neither in the tree nor free, such as that of a node
    that is about to be linked. *)
Record repr (W : nat) (t : ngx_radix_tree_t) (A : nodes) (free : list nat) : Prop := {
  r_root : address A [] = Some (t_root t);
  r_inj p q a v w : A !! p = Some (a, v) -> A !! q = Some (a, w) -> p = q;
  r_node p a v : A !! p = Some (a, v) -> t_store t !! a = Some (node_at A p v);
  r_closed d p : is_Some (A !! (d :: p)) -> is_Some (A !! p);
  r_depth p : is_Some (A !! p) -> (length p <= W)%nat;
  r_fresh p a v : A !! p = Some (a, v) -> (a < t_start t)%nat;
  r_chain : chain (t_store t) (t_free t) free;
  r_free_nodup : NoDup free;
  r_free a : a ∈ free -> (a < t_start t)%nat /\ forall p v, A !! p <> Some (a, v)
}.

(** An address that may be given to a new node. *)
Definition unused (t : ngx_radix_tree_t) (A : nodes) (free : list nat) (a : nat) : Prop :=
  (a < t_start t)%nat /\ (a ∉ free) /\ forall p v, A !! p <> Some (a, v).

Lemma load_store_same t p n : load (store t p n) p = Ok n.
Proof. unfold load, store. change (t_store (t <| t_store := ?s |>)) with s. by rewrite lookup_insert_eq. Qed.

Lemma load_store_other t p q n : p <> q -> load (store t p n) q = load t q.
Proof. intros H. unfold load, store. change (t_store (t <| t_store := ?s |>)) with s. by rewrite lookup_insert_ne. Qed.

Lemma chain_insert s p l a n : a ∉ l -> chain s p l -> chain (<[a := n]> s) p l.
Proof.
  revert p. induction l as [|b l IH]; intros p Ha; [done|]. intros [-> (m & Hm & Hc)].
  apply not_elem_of_cons in Ha as [Hab Ha]. split; [done|]. exists m. by rewrite lookup_insert_ne; auto.
Qed.

Section repr.
Context (W : nat).
Implicit Types (t : ngx_radix_tree_t) (A : nodes) (p q : path) (free : list nat).

Lemma repr_load t A free p a v : repr W t A free -> A !! p = Some (a, v) -> load t a = Ok (node_at A p v).
Proof. intros R H. unfold load. by rewrite (r_node _ _ _ _ R _ _ _ H). Qed.

Lemma repr_not_free t A free p a v : repr W t A free -> A !! p = Some (a, v) -> a ∉ free.
Proof. intros R H Hf. by apply (r_free _ _ _ _ R) in Hf as [_ Hf]; apply Hf in H. Qed.

Lemma closed_none t A free d p : repr W t A free -> A !! p = None -> A !! (d :: p) = None.
Proof.
  intros R H. destruct (A !! (d :: p)) eqn:E; [|done].
  assert (is_Some (A !! p)) as [x Hx] by (eapply (r_closed _ _ _ _ R); eauto). congruence.
Qed.

(** Writing to an address that is not in use. *)
Lemma repr_store_unused t A free a n : repr W t A free -> unused t A free a -> repr W (store t a n) A free.
Proof.
  intros R (H1 & H2 & H3). destruct R. split; auto.
  - intros p b v Hp. unfold store. change (t_store (t <| t_store := ?s |>)) with s.
    rewrite lookup_insert_ne; [eauto|]. intros ->. by apply H3 in Hp.
  - apply chain_insert; auto.
Qed.

(** Allocation. *)
Lemma alloc_ok pagesize pmemalign t A free :
  node_size <= pagesize -> repr W t A free ->
  exists r t', ngx_radix_alloc pagesize pmemalign t = Ok (r, t') /\
    match r with
    | None => repr W t' A free /\ exists k, pmemalign k = false
    | Some a => exists free', repr W t' A free' /\ unused t' A free' a
    end.
Proof.
  intros Hs R. unfold ngx_radix_alloc. destruct (t_free t) as [a|] eqn:Ef.
  - pose proof (r_chain _ _ _ _ R) as Hc. destruct free as [|b free]; cbn in Hc; [congruence|].
    destruct Hc as [Hab (n & Hn & Hc)]. rewrite Ef in Hab. injection Hab as <-. unfold load. rewrite Hn, Ok_bind.
    eexists _, _. split; [done|]. exists free. destruct R as [R1 R2 R3 R4 R5 R6 R7 R8 R9].
    apply NoDup_cons in R8 as [Hna Hnd]. split; [split; auto; intros c Hc'; apply R9; by right|].
    destruct (R9 a) as [Ha1 Ha2]; [by left|]. by repeat split.
  - assert (free = []) as -> by (pose proof (r_chain _ _ _ _ R) as Hc; destruct free; [done|cbn in Hc; destruct Hc; congruence]).
    destruct R as [R1 R2 R3 R4 R5 R6 R7 R8 R9].
    assert (forall c, (c < t_start t -> c < S (t_start t))%nat) as Hlt by lia.
    destruct (Z.leb_spec node_size (t_size t)) as [Hle|Hgt]; cbn [orb negb].
    + destruct (Z.ltb_spec (t_size t) node_size); [lia|]. cbv zeta. destruct (Z.ltb_spec (t_size t) node_size); [lia|].
      eexists _, _. split; [done|]. exists []. split.
      * split; eauto. intros c Hc. by apply elem_of_nil in Hc.
      * split; [apply Nat.lt_succ_diag_r|]. split; [apply not_elem_of_nil|]. intros p v Hp. apply R6 in Hp. lia.
    + destruct (Z.ltb_spec (t_size t) node_size); [|lia]. cbv zeta.
      destruct (pmemalign (t_pages t)) eqn:E; cbn [negb].
      * change (t_size ((t <| t_size := ?x |>) <| t_pages := ?y |>)) with x. destruct (Z.ltb_spec pagesize node_size); [lia|].
        eexists _, _. split; [done|]. exists []. split.
        -- split; eauto. intros c Hc. by apply elem_of_nil in Hc.
        -- split; [apply Nat.lt_succ_diag_r|]. split; [apply not_elem_of_nil|]. intros p v Hp. apply R6 in Hp. clear -Hp. cbn in Hp. lia.
      * eexists _, _. split; [done|]. split; [split; eauto|eauto].
Qed.

(** ** Changes of the nodes *)

Lemma address_same A p a v v' q : A !! p = Some (a, v) -> address (<[p := (a, v')]> A) q = address A q.
Proof.
  intros H. unfold address. destruct (decide (p = q)) as [<-|Hne].
  - by rewrite lookup_insert_eq, H.
  - by rewrite lookup_insert_ne.
Qed.

Lemma node_at_same A p a v v' q w : A !! p = Some (a, v) -> node_at (<[p := (a, v')]> A) q w = node_at A q w.
Proof.
  intros H. unfold node_at, parent_of. destruct q; by rewrite !(address_same A p a v v') by done.
Qed.

(** The value of a node. *)
Lemma repr_set_value t A free p a v v' :
  repr W t A free -> A !! p = Some (a, v) ->
  repr W (store t a (node_at A p v')) (<[p := (a, v')]> A) free.
Proof.
  intros R H. pose proof (repr_not_free _ _ _ _ _ _ R H) as Hfree. destruct R as [R1 R2 R3 R4 R5 R6 R7 R8 R9].
  assert (forall q b w, <[p := (a, v')]> A !! q = Some (b, w) -> exists w', A !! q = Some (b, w')) as Hold.
  { intros q b w. destruct (decide (p = q)) as [<-|Hne]; [|rewrite lookup_insert_ne by done; eauto].
    rewrite lookup_insert_eq. intros [= <- <-]. eauto. }
  assert (forall q, is_Some (<[p := (a, v')]> A !! q) <-> is_Some (A !! q)) as Hsome.
  { intros q. destruct (decide (p = q)) as [<-|Hne]; [|by rewrite lookup_insert_ne].
    rewrite lookup_insert_eq, H. split; eauto. }
  split.
  - rewrite (address_same A p a v v') by done. exact R1.
  - intros q r b w w' Hq Hr. apply Hold in Hq as [? Hq]. apply Hold in Hr as [? Hr]. eauto.
  - intros q b w Hq. rewrite (node_at_same A p a v v') by done. unfold store. change (t_store (t <| t_store := ?s |>)) with s.
    destruct (decide (p = q)) as [<-|Hne].
    + rewrite lookup_insert_eq in Hq. injection Hq as <- <-. by rewrite lookup_insert_eq.
    + rewrite lookup_insert_ne in Hq by done. rewrite lookup_insert_ne; [eauto|]. intros <-. eauto.
  - intros d q. rewrite !Hsome. eauto.
  - intros q. rewrite Hsome. eauto.
  - intros q b w Hq. apply Hold in Hq as [? Hq]. eauto.
  - by apply chain_insert.
  - done.
  - intros b Hb. destruct (R9 b Hb) as [R10 R11]. split; [exact R10|]. intros q w Hq. apply Hold in Hq as [? Hq]. by apply R11 in Hq.
Qed.

Lemma address_other A p q x : q <> p -> address (<[p := x]> A) q = address A q.
Proof. intros H. unfold address. by rewrite lookup_insert_ne. Qed.

Lemma address_new A p a v : address (<[p := (a, v)]> A) p = Some a.
Proof. unfold address. by rewrite lookup_insert_eq. Qed.

Lemma cons_ne (d : bool) p : d :: p <> p.
Proof. intros H. apply (f_equal length) in H. cbn in H. lia. Qed.

Lemma node_at_child A d p b w v :
  node_at (<[d :: p := (b, w)]> A) p v = set_child d (Some b) (node_at A p v).
Proof.
  unfold node_at, parent_of. destruct d.
  - rewrite address_new, address_other by done. destruct p; [done|]. rewrite address_other; [done|].
    intros E. apply (f_equal length) in E. cbn in E. lia.
  - rewrite address_new, address_other by done. destruct p; [done|]. rewrite address_other; [done|].
    intros E. apply (f_equal length) in E. cbn in E. lia.
Qed.

(** A new leaf. *)
Lemma repr_add_leaf t A free d p a v b :
  repr W t A free -> A !! p = Some (a, v) -> A !! (d :: p) = None -> (S (length p) <= W)%nat ->
  unused t A free b -> t_store t !! b = Some (RNode None None (Some a) NGX_RADIX_NO_VALUE) ->
  repr W (store t a (set_child d (Some b) (node_at A p v))) (<[d :: p := (b, NGX_RADIX_NO_VALUE)]> A) free.
Proof.
  intros R H Hnone Hlen (Hb1 & Hb2 & Hb3) Hnew. pose proof (repr_not_free _ _ _ _ _ _ R H) as Hfree.
  assert (b <> a) as Hab by (intros ->; by apply Hb3 in H).
  assert (forall e, A !! (e :: d :: p) = None) as Hleaf by (intros e; by eapply closed_none).
  destruct R as [R1 R2 R3 R4 R5 R6 R7 R8 R9]. set (w := NGX_RADIX_NO_VALUE) in *.
  assert (forall q c x, <[d :: p := (b, w)]> A !! q = Some (c, x) ->
    (q = d :: p /\ c = b /\ x = w) \/ (q <> d :: p /\ A !! q = Some (c, x) /\ c <> b)) as Hold.
  { intros q c x. destruct (decide (q = d :: p)) as [->|Hne].
    - rewrite lookup_insert_eq. intros [= <- <-]. by left.
    - rewrite lookup_insert_ne by done. intros Hq. right. repeat split; [done..|]. intros ->. by apply Hb3 in Hq. }
  split.
  - rewrite address_other by done. exact R1.
  - intros q r c x y Hq Hr. apply Hold in Hq as [(-> & -> & _)|(_ & Hq & Hc)]; apply Hold in Hr as [(-> & Hc' & _)|(_ & Hr & Hc')]; try congruence; eauto.
  - intros q c x Hq. unfold store. change (t_store (t <| t_store := ?s |>)) with s.
    destruct (decide (q = p)) as [->|Hqp].
    { assert (c = a /\ x = v) as [-> ->].
      { apply Hold in Hq as [(E & _)|(_ & Hq & _)]; [symmetry in E; by apply cons_ne in E|]. rewrite H in Hq. by injection Hq. }
      by rewrite lookup_insert_eq, node_at_child. }
    apply Hold in Hq as [(-> & -> & ->)|(Hne & Hq & _)].
    + rewrite lookup_insert_ne by done. rewrite Hnew. unfold node_at, parent_of.
      rewrite !address_other by (apply cons_ne || apply not_eq_sym, cons_ne).
      unfold address. by rewrite !Hleaf, H.
    + rewrite lookup_insert_ne; [|intros <-; apply Hqp; eauto]. rewrite (R3 _ _ _ Hq). unfold node_at, parent_of. f_equal. f_equal.
      * rewrite address_other; [done|]. congruence.
      * rewrite address_other; [done|]. congruence.
      * destruct q as [|e q]; [done|]. rewrite address_other; [done|]. intros ->.
        assert (is_Some (A !! (d :: p))) as [? ?] by (eapply R4; eauto). congruence.
  - intros e q Hq. destruct (decide (q = d :: p)) as [->|Hne]; [rewrite lookup_insert_eq; eauto|].
    rewrite lookup_insert_ne by done. destruct (decide (e :: q = d :: p)) as [[= -> ->]|Hne']; [eauto|].
    rewrite lookup_insert_ne in Hq by done. eauto.
  - intros q Hq. destruct (decide (q = d :: p)) as [->|Hne]; [exact Hlen|]. rewrite lookup_insert_ne in Hq by done. eauto.
  - intros q c x Hq. apply Hold in Hq as [(-> & -> & _)|(_ & Hq & _)]; [exact Hb1|eauto].
  - by apply chain_insert.
  - done.
  - intros c Hc. destruct (R9 c Hc) as [R10 R11]. split; [exact R10|]. intros q x Hq.
    apply Hold in Hq as [(-> & -> & _)|(_ & Hq & _)]; [by apply Hb2|by apply R11 in Hq].
Qed.

Lemma address_delete_other A p q : q <> p -> address (delete p A) q = address A q.
Proof. intros H. unfold address. by rewrite lookup_delete_ne. Qed.

Lemma address_delete A p : address (delete p A) p = None.
Proof. unfold address. by rewrite lookup_delete_eq. Qed.

Lemma node_at_delete A d p v : node_at (delete (d :: p) A) p v = set_child d None (node_at A p v).
Proof.
  unfold node_at, parent_of. destruct d.
  - rewrite address_delete, address_delete_other by done. destruct p; [done|]. rewrite address_delete_other; [done|].
    intros E. apply (f_equal length) in E. cbn in E. lia.
  - rewrite address_delete, address_delete_other by done. destruct p; [done|]. rewrite address_delete_other; [done|].
    intros E. apply (f_equal length) in E. cbn in E. lia.
Qed.

(** A leaf goes to the free list. *)
Lemma repr_remove_leaf t A free d p a v b w :
  repr W t A free -> A !! p = Some (a, v) -> A !! (d :: p) = Some (b, w) ->
  A !! (true :: d :: p) = None -> A !! (false :: d :: p) = None ->
  repr W ((store (store t a (set_child d None (node_at A p v))) b ((node_at A (d :: p) w) <| n_right := t_free t |>))
            <| t_free := Some b |>) (delete (d :: p) A) (b :: free).
Proof.
  intros R H Hb Hl1 Hl2. pose proof (repr_not_free _ _ _ _ _ _ R H) as Hfa. pose proof (repr_not_free _ _ _ _ _ _ R Hb) as Hfb.
  destruct R as [R1 R2 R3 R4 R5 R6 R7 R8 R9].
  assert (a <> b) as Hab by (intros ->; assert (p = d :: p) as E by eauto; symmetry in E; by apply cons_ne in E).
  assert (forall q c x, delete (d :: p) A !! q = Some (c, x) -> q <> d :: p /\ A !! q = Some (c, x) /\ c <> b) as Hold.
  { intros q c x. destruct (decide (q = d :: p)) as [->|Hne]; [by rewrite lookup_delete_eq|].
    rewrite lookup_delete_ne by done. intros Hq. repeat split; [done..|]. intros ->. apply Hne. eauto. }
  unfold store. cbn [t_store t_root t_free t_start t_size t_pages].
  change (t_store (?r <| t_free := ?x |>)) with (t_store r). change (t_store (t <| t_store := ?s |>)) with s.
  change (t_store (?r <| t_store := ?s |>)) with s. split.
  - rewrite address_delete_other by done. exact R1.
  - intros q r c x y Hq Hr. apply Hold in Hq as (_ & Hq & _). apply Hold in Hr as (_ & Hr & _). eauto.
  - intros q c x Hq. apply Hold in Hq as (Hne & Hq & Hcb).
    change (t_store (?r <| t_free := ?x |>)) with (t_store r). change (t_store (?r <| t_store := ?s |>)) with s.
    rewrite lookup_insert_ne by done. destruct (decide (q = p)) as [->|Hqp].
    { rewrite H in Hq. injection Hq as <- <-. by rewrite lookup_insert_eq, node_at_delete. }
    rewrite lookup_insert_ne; [|intros <-; apply Hqp; eauto]. rewrite (R3 _ _ _ Hq). unfold node_at, parent_of. f_equal. f_equal.
    + rewrite address_delete_other; [done|]. congruence.
    + rewrite address_delete_other; [done|]. congruence.
    + destruct q as [|e q]; [done|]. rewrite address_delete_other; [done|]. intros ->. destruct e; congruence.
  - intros e q Hq. destruct (decide (q = d :: p)) as [->|Hne].
    + destruct (decide (e :: d :: p = d :: p)) as [E|E]; [by apply cons_ne in E|]. rewrite lookup_delete_ne in Hq by done.
      destruct Hq as [? ?], e; congruence.
    + rewrite lookup_delete_ne by done. destruct (decide (e :: q = d :: p)) as [E|E]; [rewrite E, lookup_delete_eq in Hq; by destruct Hq|].
      rewrite lookup_delete_ne in Hq by done. eauto.
  - intros q Hq. destruct (decide (q = d :: p)) as [->|Hne]; [rewrite lookup_delete_eq in Hq; by destruct Hq|].
    rewrite lookup_delete_ne in Hq by done. eauto.
  - intros q c x Hq. apply Hold in Hq as (_ & Hq & _). eauto.
  - cbn [chain]. split; [done|]. change (t_store (?r <| t_free := ?x |>)) with (t_store r). change (t_store (?r <| t_store := ?s |>)) with s.
    rewrite lookup_insert_eq. eexists. split; [done|]. change (n_right (?n <| n_right := ?x |>)) with x. by repeat apply chain_insert.
  - by apply NoDup_cons.
  - intros c Hc. apply elem_of_cons in Hc as [->|Hc].
    + split; [eapply R6; eauto|]. intros q x Hq. by apply Hold in Hq as (_ & _ & Hq).
    + destruct (R9 c Hc) as [R10 R11]. split; [exact R10|]. intros q x Hq. apply Hold in Hq as (_ & Hq & _). by apply R11 in Hq.
Qed.

(** The test by which the parent finds its child. *)
Lemma clear_child t A free d p v b w :
  repr W t A free -> A !! (d :: p) = Some (b, w) ->
  (if bool_decide (n_right (node_at A p v) = Some b) then (node_at A p v) <| n_right := None |>
   else (node_at A p v) <| n_left := None |>) = set_child d None (node_at A p v).
Proof.
  intros R Hb. cbn [node_at n_right]. destruct d; cbn [set_child].
  - unfold address. rewrite Hb. by rewrite bool_decide_eq_true_2.
  - rewrite bool_decide_eq_false_2; [done|]. unfold address. intros H. destruct (A !! (true :: p)) as [[c x]|] eqn:E; [|done].
    cbn in H. injection H as ->. pose proof (r_inj _ _ _ _ R _ _ _ _ _ E Hb). congruence.
Qed.
End repr.
