(* ===== verification/RadixWalk.v ===== *)
(** * The operations of a radix tree on any kind of key

    For a cursor that keeps the laws [CursorLaws], the operations are those of a map from
    networks to values; a network is the list of its bits. *)

From stdpp Require Import gmap.
From S2P Require Import Prelude Radix RadixInv.

Abbreviation networks := (gmap (list bool) Z).

(** The tree [t] with paths of at most [W] bits has the networks [M]. *)
Definition models (W : nat) (t : ngx_radix_tree_t) (M : networks) : Prop :=
  exists A free, repr W t A free /\
    forall l, M !! l = let v := value_at A (reverse l) in if v =? NGX_RADIX_NO_VALUE then None else Some v.

(** The ones that a mask begins with. *)
Fixpoint leading (mask : list bool) : nat :=
  match mask with true :: mask => S (leading mask) | _ => O end.

Definition network (key mask : list bool) : list bool := take (leading mask) key.

(** A network with the value that stands for none is not entered. *)
Definition put_network (M : networks) (net : list bool) (v : Z) : networks :=
  if v =? NGX_RADIX_NO_VALUE then M else <[net := v]> M.

(** The value of the longest of the networks that begin [addr]. *)
Definition longest_match (M : networks) (addr : list bool) (v : Z) : Prop :=
  (exists n, (n <= length addr)%nat /\ M !! take n addr = Some v /\
     forall m, (n < m <= length addr)%nat -> M !! take m addr = None) \/
  (v = NGX_RADIX_NO_VALUE /\ forall m, (m <= length addr)%nat -> M !! take m addr = None).

(** [place k] is the cursor before the [k]-th bit. If the last step is not a [break],
    the mask has no bit there. *)
Class CursorLaws (C : Type) (cur : Cursor C) (W : nat) (key mask : list bool) := {
  place : nat -> C;
  place_start : cur_start = place 0;
  more_ok k b : mask !! k = Some b -> cur_more (place k) = Ok b;
  dir_ok k b : key !! k = Some b -> cur_dir (place k) = Ok b;
  step_ok k : (k < W)%nat -> exists stop, cur_step (place k) = (place (S k), stop) /\
    (stop = true -> S k = W) /\ (stop = false -> S k = W -> cur_more (place W) = Ok false)
}.

(** The laws of the search, which has no mask. *)
Class SearchLaws (C : Type) (cur : Cursor C) (W : nat) (key : list bool) := {
  at_bit : nat -> C;
  at_bit_start : cur_start = at_bit 0;
  search_dir k b : key !! k = Some b -> cur_dir (at_bit k) = Ok b;
  search_next k : (k < W)%nat -> cur_next (at_bit k) = at_bit (S k)
}.

Lemma leading_le mask : (leading mask <= length mask)%nat.
Proof. induction mask as [|[] mask IH]; cbn; lia. Qed.

Lemma leading_lt mask k : (k < leading mask)%nat -> mask !! k = Some true.
Proof.
  revert k. induction mask as [|[] mask IH]; intros k Hk; cbn in Hk; [lia| |lia]. destruct k; [done|]. cbn. apply IH. lia.
Qed.

Lemma leading_end mask : (leading mask < length mask)%nat -> mask !! leading mask = Some false.
Proof. induction mask as [|[] mask IH]; cbn; [lia| |done]. intros H. apply IH. lia. Qed.

Lemma value_at_some A p a v : A !! p = Some (a, v) -> value_at A p = v.
Proof. intros H. unfold value_at. by rewrite H. Qed.

Lemma value_at_none A p : A !! p = None -> value_at A p = NGX_RADIX_NO_VALUE.
Proof. intros H. unfold value_at. by rewrite H. Qed.

Lemma has_child_spec A p v : has_child (node_at A p v) = false <-> A !! (true :: p) = None /\ A !! (false :: p) = None.
Proof.
  unfold has_child, node_at, address. cbn [n_right n_left]. rewrite orb_false_iff, !bool_decide_eq_false, <- !eq_None_not_Some, !fmap_None.
  done.
Qed.

Section paths.
Context (key : list bool).

(** The path of the first [k] bits of the key. *)
Definition rpath (k : nat) : path := reverse (take k key).

Lemma rpath_S k d : key !! k = Some d -> rpath (S k) = d :: rpath k.
Proof using. intros H. unfold rpath. by rewrite (take_S_r _ _ d), reverse_snoc. Qed.

Lemma rpath_length k : (k <= length key)%nat -> length (rpath k) = k.
Proof using. intros H. unfold rpath. rewrite length_reverse, length_take. lia. Qed.

Lemma key_bit k : (k < length key)%nat -> exists d, key !! k = Some d.
Proof using. intros H. by apply lookup_lt_is_Some_2 in H as [? ?]; eauto. Qed.

Lemma rpath_none W t A free k m :
  repr W t A free -> (k <= m <= length key)%nat -> A !! rpath k = None -> A !! rpath m = None.
Proof using.
  intros R Hk Hn. assert (exists i, m = k + i)%nat as [i ->] by (exists (m - k)%nat; lia).
  induction i as [|i IH]; [by rewrite Nat.add_0_r|]. rewrite Nat.add_succ_r in *.
  destruct (key_bit (k + i)) as [d Hd]; [lia|]. rewrite (rpath_S _ d Hd). eapply closed_none; [done|apply IH; lia].
Qed.
End paths.

Section insert.
Context {C : Type} {cur : Cursor C} {W : nat} {key mask : list bool} {laws : CursorLaws C cur W key mask}.
Context (pagesize : Z) (pmemalign : nat -> bool) (Hpage : node_size <= pagesize).
Context (HW : (0 < W)%nat) (Hkey : length key = W) (Hmask : length mask = W).
Implicit Types (t : ngx_radix_tree_t) (A : nodes) (free : list nat).

Abbreviation depth := (leading mask).
Definition at_end (k : nat) : Prop := k = W -> cur_more (place k) = Ok false.

Lemma depth_le : (depth <= W)%nat.
Proof using Hmask. rewrite <- Hmask. apply leading_le. Qed.

Lemma more_below k : (k < depth)%nat -> cur_more (place k) = Ok true.
Proof using. intros H. by apply more_ok, leading_lt. Qed.

Lemma more_end : at_end depth -> cur_more (place depth) = Ok false.
Proof using HW Hkey Hmask.
  intros H. pose proof depth_le. destruct (decide (depth = W)) as [E|E]; [by apply H|]. apply more_ok, leading_end. lia.
Qed.

Lemma insert_walk_ok fuel t A free k node v :
  repr W t A free -> (k <= depth)%nat -> (depth - k < fuel)%nat -> at_end k -> A !! rpath key k = Some (node, v) ->
  exists r, insert_walk fuel t node (Some node) (place k) = Ok r /\
    match r with
    | (node', Some _, _) => exists v, A !! rpath key depth = Some (node', v)
    | (node', None, c) => exists j v, c = place j /\ (j < depth)%nat /\ A !! rpath key j = Some (node', v)
                                      /\ A !! rpath key (S j) = None
    end.
Proof using HW Hkey Hmask.
  intros R. revert k node v. induction fuel as [|fuel IH]; intros k node v Hk Hf He Hn; [lia|]. cbn [insert_walk].
  pose proof depth_le as Hd. destruct (decide (k = depth)) as [->|Hne].
  { rewrite more_end, Ok_bind by done. eexists. split; [done|]. by exists v. }
  rewrite more_below, Ok_bind by lia. destruct (key_bit key k) as [d Hbit]; [lia|].
  rewrite (dir_ok k d Hbit), Ok_bind, (repr_load W _ _ _ _ _ _ R Hn), Ok_bind.
  assert (child d (node_at A (rpath key k) v) = address A (rpath key (S k))) as -> by (rewrite (rpath_S key k d Hbit); by destruct d).
  destruct (address A (rpath key (S k))) as [x|] eqn:Ex; unfold address in Ex.
  - destruct (A !! rpath key (S k)) as [[x' v']|] eqn:Ex'; [|done]. injection Ex as ->.
    destruct (step_ok k ltac:(lia)) as (stop & -> & Hs1 & Hs2). destruct stop.
    + eexists. split; [done|]. replace (S k) with depth in Ex' by (specialize (Hs1 eq_refl); lia). by exists v'.
    + apply (IH (S k) x v'); [lia|lia| |done]. intros E. rewrite E. by apply Hs2.
  - eexists. split; [done|]. exists k, v. repeat split; [lia|done|]. by destruct (A !! rpath key (S k)).
Qed.

Lemma insert_nodes_ok fuel t A free j node v :
  repr W t A free -> (j <= depth)%nat -> (depth - j < fuel)%nat -> at_end j -> A !! rpath key j = Some (node, v) ->
  (forall d, A !! (d :: rpath key j) = None) \/ (exists d, key !! j = Some d /\ A !! (d :: rpath key j) = None) ->
  exists r t' A' free', insert_nodes pagesize pmemalign fuel t node (place j) = Ok (r, t') /\ repr W t' A' free' /\
    (forall q, value_at A' q = value_at A q) /\
    match r with
    | None => exists k, pmemalign k = false
    | Some b => exists v, A' !! rpath key depth = Some (b, v)
    end.
Proof using HW Hkey Hmask Hpage.
  revert t A free j node v. induction fuel as [|fuel IH]; intros t A free j node v R Hj Hf He Hn Hnone; [lia|]. cbn [insert_nodes].
  pose proof depth_le as Hd. destruct (decide (j = depth)) as [->|Hne].
  { rewrite more_end, Ok_bind by done. exists (Some node), t, A, free. eauto. }
  rewrite more_below, Ok_bind by lia. destruct (key_bit key j) as [d Hbit]; [lia|].
  assert (A !! (d :: rpath key j) = None) as Hc by (destruct Hnone as [?|(e & ? & ?)]; [done|congruence]).
  destruct (alloc_ok W pagesize pmemalign t A free Hpage R) as (r & t1 & -> & Hr). rewrite Ok_bind. destruct r as [b|].
  2:{ destruct Hr as [Hr ?]. exists None, t1, A, free. eauto. }
  destruct Hr as (free1 & R1 & Hb). rewrite (dir_ok j d Hbit), Ok_bind.
  pose proof (repr_store_unused W t1 A free1 b (RNode None None (Some node) NGX_RADIX_NO_VALUE) R1 Hb) as R2.
  assert (node <> b) as Hnb by (intros ->; destruct Hb as (_ & _ & Hb); by apply Hb in Hn).
  rewrite (repr_load W _ _ _ _ _ _ R2 Hn), Ok_bind.
  assert (repr W (store (store t1 b (RNode None None (Some node) NGX_RADIX_NO_VALUE)) node
    (set_child d (Some b) (node_at A (rpath key j) v))) (<[d :: rpath key j := (b, NGX_RADIX_NO_VALUE)]> A) free1) as R3.
  { apply repr_add_leaf; [done..|rewrite rpath_length by lia; lia|exact Hb|].
    unfold store. change (t_store (t1 <| t_store := ?s |>)) with s. by rewrite lookup_insert_eq. }
  assert (forall q, value_at (<[d :: rpath key j := (b, NGX_RADIX_NO_VALUE)]> A) q = value_at A q) as Hval.
  { intros q. destruct (decide (q = d :: rpath key j)) as [->|Hq].
    - by rewrite (value_at_none A), (value_at_some _ _ b NGX_RADIX_NO_VALUE) by (done || apply lookup_insert_eq).
    - unfold value_at. by rewrite lookup_insert_ne. }
  rewrite <- (rpath_S key j d Hbit) in *.
  destruct (step_ok j ltac:(lia)) as (stop & -> & Hs1 & Hs2). destruct stop.
  - eexists (Some b), _, _, free1. split; [done|]. split; [exact R3|]. split; [done|].
    replace depth with (S j) by (specialize (Hs1 eq_refl); lia). eexists. apply lookup_insert_eq.
  - destruct (IH _ _ free1 (S j) b NGX_RADIX_NO_VALUE R3) as (r & t2 & A2 & free2 & -> & R4 & Hv & Hr); [lia|lia| |apply lookup_insert_eq| |].
    + intros E. rewrite E. by apply Hs2.
    + left. intros e. rewrite lookup_insert_ne by (apply not_eq_sym, cons_ne). by eapply closed_none.
    + eexists r, t2, A2, free2. split; [done|]. split; [done|]. split; [|done]. intros q. by rewrite Hv, Hval.
Qed.
End insert.

(** ** What an insertion, a deletion and a search do to the networks *)

Lemma value_at_insert A p a v q : value_at (<[p := (a, v)]> A) q = if decide (q = p) then v else value_at A q.
Proof.
  unfold value_at. destruct (decide (q = p)) as [->|H]; [by rewrite lookup_insert_eq|by rewrite lookup_insert_ne].
Qed.

Lemma value_at_delete A p q : value_at (delete p A) q = if decide (q = p) then NGX_RADIX_NO_VALUE else value_at A q.
Proof.
  unfold value_at. destruct (decide (q = p)) as [->|H]; [by rewrite lookup_delete_eq|by rewrite lookup_delete_ne].
Qed.

Section insert.
Context {C : Type} {cur : Cursor C} {W : nat} {key mask : list bool} {laws : CursorLaws C cur W key mask}.
Context (pagesize : Z) (pmemalign : nat -> bool) (Hpage : node_size <= pagesize).
Context (HW : (0 < W)%nat) (Hkey : length key = W) (Hmask : length mask = W).

Abbreviation net := (network key mask).
Abbreviation goal_path := (rpath key (leading mask)).

Lemma goal_path_net : goal_path = reverse net.
Proof using. done. Qed.

Lemma root_node t A free : repr W t A free -> exists v, A !! rpath key 0 = Some (t_root t, v).
Proof using.
  intros R. pose proof (r_root _ _ _ _ R) as H. unfold address in H. change (rpath key 0) with (@nil bool).
  destruct (A !! []) as [[a v]|]; [|done]. injection H as ->. eauto.
Qed.

(** An insertion. *)
Lemma insert_models fuel t M v :
  (W < fuel)%nat -> models W t M ->
  exists rc t' M', radix_insert pagesize pmemalign fuel t v = Ok (rc, t') /\ models W t' M' /\
    ((rc = NGX_OK /\ M !! net = None /\ M' = put_network M net v) \/
     (rc = NGX_BUSY /\ is_Some (M !! net) /\ M' = M) \/
     (rc = NGX_ERROR /\ M !! net = None /\ M' = M /\ exists k, pmemalign k = false)).
Proof using HW Hkey Hmask Hpage laws.
  intros Hf (A & free & R & HM). destruct (root_node t A free R) as [v0 Hroot]. pose proof (@depth_le W mask Hmask) as Hd.
  unfold radix_insert. rewrite place_start.
  destruct (insert_walk_ok HW Hkey Hmask fuel t A free 0 (t_root t) v0 R) as (r & -> & Hr); [lia|lia|intros E; lia|done|].
  rewrite Ok_bind. destruct r as [[node next] c]. destruct next as [x|].
  - destruct Hr as [w Hw]. rewrite (repr_load W _ _ _ _ _ _ R Hw), Ok_bind. cbn [node_at n_value].
    pose proof (value_at_some _ _ _ _ Hw) as Hv. rewrite goal_path_net in *.
    pose proof (HM net) as HMn. cbv zeta in HMn. rewrite Hv in HMn.
    destruct (Z.eqb_spec w NGX_RADIX_NO_VALUE) as [->|Hne]; cbn [negb].
    + eexists NGX_OK, _, _. split; [done|]. split; [|by left].
      exists (<[reverse net := (node, v)]> A), free. split; [by apply (repr_set_value W t A free _ node NGX_RADIX_NO_VALUE v)|].
      intros l. cbv zeta. rewrite value_at_insert. unfold put_network. destruct (decide (reverse l = reverse net)) as [E|E].
      * apply (inj reverse) in E as ->. destruct (Z.eqb_spec v NGX_RADIX_NO_VALUE); [done|]. by rewrite lookup_insert_eq.
      * destruct (Z.eqb_spec v NGX_RADIX_NO_VALUE); [apply HM|]. rewrite lookup_insert_ne; [apply HM|congruence].
    + exists NGX_BUSY, t, M. split; [done|]. split; [by exists A, free|]. right. left. rewrite HMn. eauto.
  - destruct Hr as (j & w & -> & Hj & Hn & Hnone). destruct (key_bit key j) as [d Hbit]; [lia|].
    rewrite (rpath_S key j d Hbit) in Hnone.
    destruct (insert_nodes_ok pagesize pmemalign Hpage HW Hkey Hmask fuel t A free j node w R) as (r & t1 & A1 & free1 & -> & R1 & Hv & Hr);
      [lia|lia|intros E; lia|done|right; eauto|].
    assert (M !! net = None) as Hnet.
    { rewrite HM. cbv zeta. rewrite <- goal_path_net, (value_at_none A); [done|].
      eapply (rpath_none key W t A free (S j)); [done|lia|by rewrite (rpath_S key j d Hbit)]. }
    rewrite Ok_bind. destruct r as [b|].
    + destruct Hr as [x Hx]. rewrite (repr_load W _ _ _ _ _ _ R1 Hx), Ok_bind. eexists NGX_OK, _, _. split; [done|]. split; [|by left].
      exists (<[goal_path := (b, v)]> A1), free1. split; [by apply (repr_set_value W t1 A1 free1 _ b x v)|].
      intros l. cbv zeta. rewrite value_at_insert, Hv, goal_path_net. unfold put_network. destruct (decide (reverse l = reverse net)) as [E|E].
      * apply (inj reverse) in E as ->. destruct (Z.eqb_spec v NGX_RADIX_NO_VALUE); [done|]. by rewrite lookup_insert_eq.
      * destruct (Z.eqb_spec v NGX_RADIX_NO_VALUE); [apply HM|]. rewrite lookup_insert_ne; [apply HM|congruence].
    + exists NGX_ERROR, t1, M. split; [done|]. split; [|right; right; eauto]. exists A1, free1. split; [done|].
      intros l. cbv zeta. by rewrite Hv, HM.
Qed.

(** ** Deletion *)

Lemma delete_walk_ok fuel t A free k :
  repr W t A free -> (k <= leading mask)%nat -> (leading mask - k < fuel)%nat -> at_end (key := key) (mask := mask) k ->
  delete_walk fuel t (address A (rpath key k)) (place k) = Ok (address A goal_path).
Proof using HW Hkey Hmask.
  intros R. pose proof (@depth_le W mask Hmask) as Hd. revert k. induction fuel as [|fuel IH]; intros k Hk Hf He; [lia|].
  destruct (address A (rpath key k)) as [node|] eqn:En; unfold address in En; cbn [delete_walk].
  2:{ assert (A !! goal_path = None) as Hnone; [|unfold address; by rewrite Hnone].
      eapply (rpath_none key W t A free k); [done|lia|by destruct (A !! rpath key k)]. }
  destruct (A !! rpath key k) as [[a v]|] eqn:Ea; [|done]. injection En as ->.
  destruct (decide (k = leading mask)) as [->|Hne].
  { rewrite (more_end HW Hkey Hmask), Ok_bind by done. unfold address. by rewrite Ea. }
  rewrite more_below, Ok_bind by lia. destruct (key_bit key k) as [d Hbit]; [lia|].
  rewrite (dir_ok k d Hbit), Ok_bind, (repr_load W _ _ _ _ _ _ R Ea), Ok_bind.
  assert (child d (node_at A (rpath key k) v) = address A (rpath key (S k))) as -> by (rewrite (rpath_S key k d Hbit); by destruct d).
  destruct (step_ok k ltac:(lia)) as (stop & -> & Hs1 & Hs2). destruct stop.
  - by replace (S k) with (leading mask) by (specialize (Hs1 eq_refl); lia).
  - apply IH; [lia|lia|]. intros E. rewrite E. by apply Hs2.
Qed.
End insert.

Section prune.
Context (W : nat).

(** A leaf goes, and with it every node above it that is left without children and has
    no value. *)
Lemma prune_ok fuel p d t A free b v :
  (length p < fuel)%nat -> repr W t A free -> A !! (d :: p) = Some (b, v) ->
  A !! (true :: d :: p) = None -> A !! (false :: d :: p) = None ->
  exists t' A' free', prune fuel t b = Ok t' /\ repr W t' A' free' /\
    forall q, value_at A' q = if decide (q = d :: p) then NGX_RADIX_NO_VALUE else value_at A q.
Proof.
  revert d t A free b v. induction fuel as [|fuel IH] in p |- *; intros d t A free b v Hf R Hb H1 H2; [lia|]. cbn [prune].
  destruct (r_closed _ _ _ _ R d p) as [[a w] Ha]; [eauto|].
  rewrite (repr_load W _ _ _ _ _ _ R Hb), Ok_bind. unfold node_at at 1. cbn [n_parent parent_of]. unfold address at 1. rewrite Ha.
  change (deref (fst <$> Some (a, w))) with (Ok a). rewrite Ok_bind, (repr_load W _ _ _ _ _ _ R Ha), Ok_bind.
  rewrite (clear_child W t A free d p w b v R Hb).
  assert (a <> b) as Hab.
  { intros ->. pose proof (r_inj _ _ _ _ R _ _ _ _ _ Ha Hb) as E. symmetry in E. by apply cons_ne in E. }
  rewrite load_store_other, (repr_load W _ _ _ _ _ _ R Hb), Ok_bind by done.
  change (t_free (store t a ?n)) with (t_free t).
  pose proof (repr_remove_leaf W t A free d p a w b v R Ha Hb H1 H2) as R1.
  set (t1 := (store (store t a _) b _) <| t_free := Some b |>) in R1 |- *.
  assert (load t1 b = Ok ((node_at A (d :: p) v) <| n_right := t_free t |>)) as -> by apply load_store_same.
  rewrite Ok_bind. change (n_parent (?n <| n_right := ?x |>)) with (n_parent n). unfold node_at at 1. cbn [n_parent parent_of].
  unfold address at 1. rewrite Ha. change (deref (fst <$> Some (a, w))) with (Ok a). rewrite Ok_bind.
  assert (delete (d :: p) A !! p = Some (a, w)) as Ha1 by (by rewrite lookup_delete_ne by apply cons_ne).
  rewrite (repr_load W _ _ _ _ _ _ R1 Ha1), Ok_bind.
  assert (forall q, value_at (delete (d :: p) A) q = if decide (q = d :: p) then NGX_RADIX_NO_VALUE else value_at A q) as Hv
    by apply value_at_delete.
  destruct (has_child (node_at (delete (d :: p) A) p w)) eqn:Ec; [by eexists _, _, _|].
  apply has_child_spec in Ec as [Ec1 Ec2]. cbn [node_at n_value n_parent].
  destruct (Z.eqb_spec w NGX_RADIX_NO_VALUE) as [->|Hw]; cbn [negb]; [|by eexists _, _, _].
  destruct p as [|e p]; cbn [parent_of]; [by eexists _, _, _|].
  destruct (r_closed _ _ _ _ R1 e p) as [[c x] Hc]; [eauto|].
  rewrite bool_decide_eq_false_2 by (unfold address; by rewrite Hc).
  destruct (IH p e _ _ _ a NGX_RADIX_NO_VALUE ltac:(cbn in Hf; lia) R1 Ha1 Ec1 Ec2) as (t2 & A2 & free2 & -> & R2 & Hv2).
  eexists t2, A2, free2. split; [done|]. split; [done|]. intros q. rewrite Hv2, Hv.
  destruct (decide (q = e :: p)) as [->|Hq]; [|done].
  destruct (decide (e :: p = d :: e :: p)) as [E|E]; [done|]. symmetry. by apply (value_at_some _ _ a).
Qed.
End prune.

Section delete.
Context {C : Type} {cur : Cursor C} {W : nat} {key mask : list bool} {laws : CursorLaws C cur W key mask}.
Context (HW : (0 < W)%nat) (Hkey : length key = W) (Hmask : length mask = W).

Abbreviation net := (network key mask).

(** A root that is a leaf has no parent from which it could be taken out: the access is one
    to [NULL]. *)
Lemma delete_root_fault fuel t A free v :
  (W < fuel)%nat -> net = [] -> repr W t A free -> A !! [] = Some (t_root t, v) ->
  A !! [true] = None -> A !! [false] = None -> radix_delete fuel t = Fault.
Proof using HW Hkey Hmask laws.
  intros Hf Hnet R Hroot H1 H2. pose proof (@depth_le W mask Hmask) as Hd. unfold radix_delete. rewrite place_start.
  assert (Some (t_root t) = address A (rpath key 0)) as -> by (unfold address; change (rpath key 0) with (@nil bool); by rewrite Hroot).
  rewrite (delete_walk_ok HW Hkey Hmask fuel t A free 0 R), Ok_bind by (lia || (intros E; lia)).
  change (rpath key (leading mask)) with (reverse net). rewrite Hnet. change (reverse (@nil bool)) with (@nil bool).
  unfold address. rewrite Hroot. cbn [fmap option_fmap option_map fst].
  rewrite (repr_load W _ _ _ _ _ _ R Hroot), Ok_bind. rewrite (proj2 (has_child_spec A [] v)) by done.
  destruct fuel; [lia|]. cbn [prune]. by rewrite (repr_load W _ _ _ _ _ _ R Hroot).
Qed.

(** A root without children is the only node. *)
Lemma root_alone t A free p : repr W t A free -> A !! [true] = None -> A !! [false] = None -> p <> [] -> A !! p = None.
Proof using.
  intros R H1 H2. induction p as [|d p IH]; [done|]. intros _. destruct (A !! (d :: p)) as [x|] eqn:E; [|done].
  destruct p as [|e p]; [destruct d; congruence|]. destruct (r_closed _ _ _ _ R d (e :: p)) as [y Hy]; [eauto|].
  by rewrite IH in Hy.
Qed.

(** A deletion. The network of all addresses can be taken out as long as there is another
    node; the root alone has no parent. *)
Lemma delete_models fuel t M :
  (W < fuel)%nat -> models W t M ->
  (exists rc t' M', radix_delete fuel t = Ok (rc, t') /\ models W t' M' /\
     ((rc = NGX_OK /\ M' = delete net M) \/ (rc = NGX_ERROR /\ M !! net = None /\ M' = M))) \/
  (net = [] /\ (forall l, l <> [] -> M !! l = None) /\ radix_delete fuel t = Fault).
Proof using HW Hkey Hmask laws.
  intros Hf (A & free & R & HM). destruct (root_node (key := key) t A free R) as [v0 Hroot]. pose proof (@depth_le W mask Hmask) as Hd.
  destruct (decide (net = [] /\ A !! [true] = None /\ A !! [false] = None)) as [(Hnet & H1 & H2)|Hnet].
  { right. split; [done|]. split; [|by apply (delete_root_fault fuel t A free v0)].
    intros l Hl. rewrite HM. cbv zeta. rewrite value_at_none; [done|]. apply (root_alone t A free); [done..|].
    intros H. apply (f_equal reverse) in H. by rewrite reverse_involutive in H. }
  left. unfold radix_delete. rewrite place_start.
  assert (Some (t_root t) = address A (rpath key 0)) as -> by (unfold address; by rewrite Hroot).
  rewrite (delete_walk_ok HW Hkey Hmask fuel t A free 0 R), Ok_bind by (lia || (intros E; lia)).
  change (rpath key (leading mask)) with (reverse net). pose proof (HM net) as HMn. cbv zeta in HMn.
  destruct (A !! reverse net) as [[b v]|] eqn:Eb; unfold address; rewrite Eb; cbn [fmap option_fmap option_map fst].
  2:{ exists NGX_ERROR, t, M. split; [done|]. split; [by exists A, free|]. right. rewrite HMn, (value_at_none A) by done. done. }
  rewrite (repr_load W _ _ _ _ _ _ R Eb), Ok_bind. pose proof (value_at_some _ _ _ _ Eb) as Hv. rewrite Hv in HMn. clear Hv.
  destruct (has_child (node_at A (reverse net) v)) eqn:Ec; cbn [node_at n_value].
  - destruct (Z.eqb_spec v NGX_RADIX_NO_VALUE) as [E|Hne]; cbn [negb].
    + exists NGX_ERROR, t, M. split; [done|]. split; [by exists A, free|]. by right.
    + eexists NGX_OK, _, _. split; [done|]. split; [|by left].
      exists (<[reverse net := (b, NGX_RADIX_NO_VALUE)]> A), free. split; [by apply (repr_set_value W t A free _ b v)|].
      intros l. cbv zeta. rewrite value_at_insert. destruct (decide (reverse l = reverse net)) as [E|E].
      * apply (inj reverse) in E as ->. by rewrite lookup_delete_eq.
      * rewrite lookup_delete_ne by congruence. apply HM.
  - apply has_child_spec in Ec as [E1 E2]. destruct (reverse net) as [|d p] eqn:Er.
    { apply (f_equal reverse) in Er. rewrite reverse_involutive in Er. by destruct Hnet. }
    assert (length (d :: p) <= W)%nat as Hlen by (apply (r_depth _ _ _ _ R); eauto).
    destruct (prune_ok W fuel p d t A free b v) as (t' & A' & free' & -> & R' & Hv'); [cbn in Hlen; lia|done..|].
    rewrite Ok_bind. eexists NGX_OK, t', _. split; [done|]. split; [|by left]. exists A', free'. split; [done|].
    intros l. cbv zeta. rewrite Hv', <- Er. destruct (decide (reverse l = reverse net)) as [E|E].
    + apply (inj reverse) in E as ->. by rewrite lookup_delete_eq.
    + rewrite lookup_delete_ne by congruence. apply HM.
Qed.

End delete.

(** ** Search *)

Section find.
Context {C : Type} {cur : Cursor C} {W : nat} {key : list bool} {laws : SearchLaws C cur W key}.
Context (Hkey : length key = W).

(** The value at the longest path, or [acc]. *)
Definition best (A : nodes) (k : nat) (acc r : Z) : Prop :=
  (exists n, (k <= n <= W)%nat /\ value_at A (rpath key n) = r /\ r <> NGX_RADIX_NO_VALUE /\
     forall m, (n < m <= W)%nat -> value_at A (rpath key m) = NGX_RADIX_NO_VALUE) \/
  (r = acc /\ forall m, (k <= m <= W)%nat -> value_at A (rpath key m) = NGX_RADIX_NO_VALUE).

Lemma best_step A k v acc r :
  (k <= W)%nat -> value_at A (rpath key k) = v ->
  best A (S k) (if negb (v =? NGX_RADIX_NO_VALUE) then v else acc) r -> best A k acc r.
Proof using.
  clear Hkey. intros Hk Hv [(n & Hn & Hr & Hne & Hm)|[-> Hm]].
  - left. exists n. repeat split; [lia|lia|done..].
  - destruct (Z.eqb_spec v NGX_RADIX_NO_VALUE) as [->|Hne]; cbn [negb].
    + right. split; [done|]. intros m Hm'. destruct (decide (m = k)) as [->|]; [done|apply Hm; lia].
    + left. exists k. repeat split; [lia|lia|done..|]. intros m Hm'. apply Hm. lia.
Qed.

Lemma best_none t A free k acc : repr W t A free -> (k <= W)%nat -> A !! rpath key k = None -> best A k acc acc.
Proof using Hkey.
  intros R Hk Hn. right. split; [done|]. intros m Hm. apply value_at_none. eapply (rpath_none key W t A free k); [done|lia|done].
Qed.

Lemma find_walk_ok fuel t A free k acc :
  repr W t A free -> (k <= W)%nat -> (W - k + 1 < fuel)%nat ->
  (is_Some (A !! rpath key W) -> exists d, cur_dir (at_bit W) = Ok d) ->
  exists r, find_walk fuel t (address A (rpath key k)) (at_bit k) acc = Ok r /\ best A k acc r.
Proof using Hkey laws.
  intros R Hk Hf Hend. revert k acc Hk Hf. induction fuel as [|fuel IH]; intros k acc Hk Hf; [lia|].
  destruct (address A (rpath key k)) as [node|] eqn:En; unfold address in En; cbn [find_walk].
  2:{ exists acc. split; [done|]. apply (best_none t A free); [done..|]. by destruct (A !! rpath key k). }
  destruct (A !! rpath key k) as [[a v]|] eqn:Ea; [|done]. injection En as ->.
  rewrite (repr_load W _ _ _ _ _ _ R Ea), Ok_bind. cbn [node_at n_value].
  pose proof (value_at_some _ _ _ _ Ea) as Hv. destruct (decide (k = W)) as [->|Hne].
  - destruct Hend as [d Hd]; [eauto|]. rewrite Hd, Ok_bind.
    assert (child d (node_at A (rpath key W) v) = None) as ->.
    { assert (A !! (d :: rpath key W) = None) as Hc.
      { destruct (A !! (d :: rpath key W)) eqn:E; [|done]. assert (length (d :: rpath key W) <= W)%nat as Hl by (apply (r_depth _ _ _ _ R); eauto).
        cbn in Hl. rewrite rpath_length in Hl by lia. lia. }
      unfold child, node_at, address. destruct d; cbn [n_right n_left]; by rewrite Hc. }
    eexists. split; [by destruct fuel|]. apply (best_step A W v); [lia|done|]. right. split; [done|]. intros; lia.
  - destruct (key_bit key k) as [d Hbit]; [lia|]. rewrite (search_dir k d Hbit), Ok_bind, search_next by lia.
    assert (child d (node_at A (rpath key k) v) = address A (rpath key (S k))) as -> by (rewrite (rpath_S key k d Hbit); by destruct d).
    destruct (IH (S k) (if negb (v =? NGX_RADIX_NO_VALUE) then v else acc)) as (r & -> & Hr); [lia|lia|].
    exists r. split; [done|]. by apply (best_step A k v).
Qed.

(** At the last node of a full path the key is read once more. *)
Lemma find_walk_fault fuel t A free k acc a v :
  repr W t A free -> (k <= W)%nat -> (W - k < fuel)%nat -> A !! rpath key W = Some (a, v) ->
  cur_dir (at_bit W) = Fault -> find_walk fuel t (address A (rpath key k)) (at_bit k) acc = Fault.
Proof using Hkey laws.
  intros R Hk Hf Hfull Hend. revert k acc Hk Hf. induction fuel as [|fuel IH]; intros k acc Hk Hf; [lia|].
  destruct (A !! rpath key k) as [[b w]|] eqn:Ea.
  2:{ pose proof (rpath_none key W t A free k W R ltac:(lia) Ea). congruence. }
  unfold address at 1. rewrite Ea. cbn [fmap option_fmap option_map fst find_walk].
  rewrite (repr_load W _ _ _ _ _ _ R Ea), Ok_bind. destruct (decide (k = W)) as [->|Hne]; [by rewrite Hend|].
  destruct (key_bit key k) as [d Hbit]; [lia|]. rewrite (search_dir k d Hbit), Ok_bind, search_next by lia.
  assert (child d (node_at A (rpath key k) w) = address A (rpath key (S k))) as -> by (rewrite (rpath_S key k d Hbit); by destruct d).
  apply IH; lia.
Qed.

(** A search. *)
Lemma find_models fuel t M :
  (W + 1 < fuel)%nat -> (exists d, cur_dir (at_bit W) = Ok d) -> models W t M ->
  exists r, radix_find fuel t = Ok r /\ longest_match M key r.
Proof using Hkey laws.
  intros Hf Hend (A & free & R & HM). destruct (root_node (key := key) t A free R) as [v0 Hroot].
  unfold radix_find. rewrite at_bit_start.
  assert (Some (t_root t) = address A (rpath key 0)) as -> by (unfold address; by rewrite Hroot).
  destruct (find_walk_ok fuel t A free 0 NGX_RADIX_NO_VALUE R) as (r & -> & Hr); [lia|lia|done|].
  exists r. split; [done|]. rewrite <- Hkey in *. destruct Hr as [(n & Hn & Hv & Hne & Hm)|[-> Hm]].
  - left. exists n. split; [lia|]. split.
    + rewrite HM. cbv zeta. change (reverse (take n key)) with (rpath key n). rewrite Hv. by destruct (Z.eqb_spec r NGX_RADIX_NO_VALUE).
    + intros m Hm'. rewrite HM. cbv zeta. change (reverse (take m key)) with (rpath key m). by rewrite Hm by lia.
  - right. split; [done|]. intros m Hm'. rewrite HM. cbv zeta. change (reverse (take m key)) with (rpath key m). by rewrite Hm by lia.
Qed.
End find.
