(* ===== verification/RadixSpec.v ===== *)
(** * Radix trees find the longest network

    The two kinds of keys, and runs of operations on a tree from its creation on. *)

From stdpp Require Import gmap.
From S2P Require Import Prelude Radix RadixInv RadixWalk.

(** ** Bits *)

(** The [n] low bits of a number, the highest one first. *)
Definition bits_be (n : nat) (z : Z) : list bool := map (fun i => Z.testbit z (Z.of_nat n - 1 - Z.of_nat i)) (seq 0 n).

Definition bits32 (z : Z) : list bool := bits_be 32 z.

Definition bits128 (l : list Z) : list bool := concat (map (bits_be 8) (take 16 l)).

Lemma bits_be_length n z : length (bits_be n z) = n.
Proof. unfold bits_be. by rewrite length_map, length_seq. Qed.

Lemma bits_be_lookup n z k b :
  bits_be n z !! k = Some b -> (k < n)%nat /\ b = Z.testbit z (Z.of_nat n - 1 - Z.of_nat k).
Proof.
  intros H. assert (k < n)%nat as Hk by (apply lookup_lt_Some in H; by rewrite bits_be_length in H). split; [done|].
  unfold bits_be in H. rewrite list_lookup_fmap, lookup_seq_lt in H by done. by injection H as <-.
Qed.

Lemma land_pow_bit z i : 0 <= i -> negb (Z.land z (2 ^ i) =? 0) = Z.testbit z i.
Proof.
  intros Hi. destruct (Z.testbit z i) eqn:E.
  - destruct (Z.eqb_spec (Z.land z (2 ^ i)) 0) as [H|]; [|done].
    apply (f_equal (fun x => Z.testbit x i)) in H. rewrite Z.land_spec, E, Z.pow2_bits_true, Z.bits_0 in H by done. done.
  - destruct (Z.eqb_spec (Z.land z (2 ^ i)) 0) as [|H]; [done|]. destruct H. apply Z.bits_inj'. intros j Hj.
    rewrite Z.land_spec, Z.bits_0, Z.pow2_bits_eqb by done. destruct (Z.eqb_spec i j) as [->|]; [by rewrite E|by rewrite andb_false_r].
Qed.

Lemma bits_concat_lookup l k b :
  concat (map (bits_be 8) l) !! k = Some b ->
  exists c, l !! (k / 8)%nat = Some c /\ b = Z.testbit c (7 - Z.of_nat (k mod 8)).
Proof.
  revert k. induction l as [|c l IH]; intros k; [done|]. cbn [map concat]. intros H. apply lookup_app_Some in H as [H|[Hk H]].
  - apply bits_be_lookup in H as [Hk ->]. rewrite Nat.div_small, Nat.mod_small by lia. exists c. split; [done|]. done.
  - rewrite bits_be_length in *. apply IH in H as (c' & Hc & ->). exists c'.
    replace k with (k - 8 + 1 * 8)%nat by lia. rewrite Nat.div_add, Nat.Div0.mod_add by lia.
    replace (k - 8 + 1 * 8 - 8)%nat with (k - 8)%nat in * by lia. split; [|done].
    rewrite Nat.add_comm. exact Hc.
Qed.

Lemma bits128_length l : (16 <= length l)%nat -> length (bits128 l) = 128%nat.
Proof.
  intros H. unfold bits128. assert (forall m : list Z, length (concat (map (bits_be 8) m)) = (8 * length m)%nat) as ->.
  { induction m as [|c m IH]; [done|]. cbn [map concat length]. rewrite length_app, IH, bits_be_length. lia. }
  rewrite length_take. lia.
Qed.

Lemma bits128_lookup l k b : (16 <= length l)%nat -> bits128 l !! k = Some b ->
  exists c, get l (Z.of_nat (k / 8)) = Ok c /\ b = Z.testbit c (7 - Z.of_nat (k mod 8)).
Proof.
  intros Hl H. pose proof (lookup_lt_Some _ _ _ H) as Hk. rewrite bits128_length in Hk by done.
  apply bits_concat_lookup in H as (c & Hc & ->). exists c. split; [|done]. apply lookup_take_Some in Hc as [Hc _].
  unfold get. destruct (Z.ltb_spec (Z.of_nat (k / 8)) 0); [lia|]. by rewrite Nat2Z.id, Hc.
Qed.

(** ** The cursor of 32 bits *)

Definition place32 (k : nat) : Z := Z.shiftr 0x80000000 (Z.of_nat k).

Lemma place32_pow k : (k < 32)%nat -> place32 k = 2 ^ (31 - Z.of_nat k).
Proof. intros H. unfold place32. change 0x80000000 with (2 ^ 31). rewrite Z.shiftr_div_pow2, <- Z.pow_sub_r by lia. done. Qed.

Lemma place32_S k : Z.shiftr (place32 k) 1 = place32 (S k).
Proof. unfold place32. rewrite Z.shiftr_shiftr by lia. f_equal. lia. Qed.

#[export] Instance laws32 key mask : CursorLaws Z (cursor32 key mask) 32 (bits32 key) (bits32 mask).
Proof.
  apply (Build_CursorLaws Z (cursor32 key mask) 32 (bits32 key) (bits32 mask) place32).
  - done.
  - intros k b H. apply bits_be_lookup in H as [Hk ->]. cbn [cur_more cursor32]. rewrite place32_pow, Z.land_comm, land_pow_bit by lia. done.
  - intros k b H. apply bits_be_lookup in H as [Hk ->]. cbn [cur_dir cursor32]. rewrite place32_pow, land_pow_bit by lia. done.
  - intros k Hk. exists false. cbn [cur_step cursor32]. by rewrite place32_S.
Defined.

#[export] Instance search32 key mask : SearchLaws Z (cursor32 key mask) 32 (bits32 key).
Proof.
  apply (Build_SearchLaws Z (cursor32 key mask) 32 (bits32 key) place32).
  - done.
  - intros k b H. apply bits_be_lookup in H as [Hk ->]. cbn [cur_dir cursor32]. rewrite place32_pow, land_pow_bit by lia. done.
  - intros k Hk. apply place32_S.
Defined.

(** ** The cursor of 128 bits *)

Definition place128 (k : nat) : Z * Z :=
  if (k <? 128)%nat then (Z.of_nat (k / 8), Z.shiftr 0x80 (Z.of_nat (k mod 8))) else (16, 0).

Definition at_bit128 (k : nat) : Z * Z := (Z.of_nat (k / 8), Z.shiftr 0x80 (Z.of_nat (k mod 8))).

Lemma bit_in_byte k : Z.shiftr 0x80 (Z.of_nat (k mod 8)) = 2 ^ (7 - Z.of_nat (k mod 8)).
Proof.
  pose proof (Nat.mod_upper_bound k 8 ltac:(lia)). change 0x80 with (2 ^ 7).
  rewrite Z.shiftr_div_pow2, <- Z.pow_sub_r by lia. done.
Qed.

Lemma step128 key mask k :
  (k < 128)%nat -> @cur_step _ (cursor128 key mask) (place128 k) = (place128 (S k), (k =? 127)%nat) /\
    @cur_next _ (cursor128 key mask) (at_bit128 k) = at_bit128 (S k).
Proof.
  intros Hk. cbn [cur_step cur_next cursor128].
  assert (Forall (fun k => (let '(i, bit) := place128 k in
      let bit := Z.shiftr bit 1 in
      if bit =? 0 then let i := i + 1 in if i =? 16 then ((i, bit), true) else ((i, 0x80), false) else ((i, bit), false))
      = (place128 (S k), (k =? 127)%nat) /\
      (let '(i, bit) := at_bit128 k in
       let bit := Z.shiftr bit 1 in if bit =? 0 then (i + 1, 0x80) else (i, bit)) = at_bit128 (S k)) (seq 0 128)) as H.
  { vm_compute. repeat constructor. }
  rewrite Forall_forall in H. apply H, elem_of_seq. lia.
Qed.

Section laws128.
Context (key mask : list Z) (Hkey : (16 <= length key)%nat) (Hmask : (16 <= length mask)%nat).

#[export] Instance laws128 : CursorLaws (Z * Z) (cursor128 key mask) 128 (bits128 key) (bits128 mask).
Proof using Hkey Hmask.
  assert (forall l k b, (16 <= length l)%nat -> bits128 l !! k = Some b -> (k < 128)%nat) as Hlt.
  { intros l k b Hl H. apply lookup_lt_Some in H. by rewrite bits128_length in H. }
  apply (Build_CursorLaws _ (cursor128 key mask) 128 (bits128 key) (bits128 mask) place128).
  - done.
  - intros k b H. pose proof (Hlt _ _ _ Hmask H) as Hk. apply bits128_lookup in H as (c & Hc & ->); [|done].
    cbn [cur_more cursor128]. unfold place128. rewrite (proj2 (Nat.ltb_lt k 128)) by done.
    rewrite Hc, Ok_bind, bit_in_byte, Z.land_comm, land_pow_bit; [done|]. pose proof (Nat.mod_upper_bound k 8 ltac:(lia)). lia.
  - intros k b H. pose proof (Hlt _ _ _ Hkey H) as Hk. apply bits128_lookup in H as (c & Hc & ->); [|done].
    cbn [cur_dir cursor128]. unfold place128. rewrite (proj2 (Nat.ltb_lt k 128)) by done.
    rewrite Hc, Ok_bind, bit_in_byte, land_pow_bit; [done|]. pose proof (Nat.mod_upper_bound k 8 ltac:(lia)). lia.
  - intros k Hk. destruct (step128 key mask k Hk) as [-> _]. exists (k =? 127)%nat. split; [done|].
    destruct (Nat.eqb_spec k 127); split; intros; lia || done.
Defined.
End laws128.

Section search128.
Context (key mask : list Z) (Hkey : (16 <= length key)%nat).

#[export] Instance search128 : SearchLaws (Z * Z) (cursor128 key mask) 128 (bits128 key).
Proof using Hkey.
  apply (Build_SearchLaws _ (cursor128 key mask) 128 (bits128 key) at_bit128).
  - done.
  - intros k b H. apply bits128_lookup in H as (c & Hc & ->); [|done]. cbn [cur_dir cursor128]. unfold at_bit128.
    rewrite Hc, Ok_bind, bit_in_byte, land_pow_bit; [done|]. pose proof (Nat.mod_upper_bound k 8 ltac:(lia)). lia.
  - intros k Hk. by destruct (step128 key mask k Hk).
Defined.
End search128.

(** ** Runs of operations on a radix tree

    The trees that [ngx_radix_tree_create] makes, and what a client sees of the
    operations on them. *)

(** ** What a client expects *)

Inductive net_op :=
| NetInsert (net : list bool) (v : Z)
| NetDelete (net : list bool)
| NetFind (addr : list bool).

(** The networks before an operation, its result, the networks behind it. [fails] is
    whether memory may be missing. *)
Inductive net_step (fails : Prop) : net_op -> networks -> Z -> networks -> Prop :=
| step_inserted net v M : M !! net = None -> net_step fails (NetInsert net v) M NGX_OK (put_network M net v)
| step_busy net v M : is_Some (M !! net) -> net_step fails (NetInsert net v) M NGX_BUSY M
| step_failed net v M : fails -> M !! net = None -> net_step fails (NetInsert net v) M NGX_ERROR M
| step_deleted net M : net_step fails (NetDelete net) M NGX_OK (delete net M)
| step_absent net M : M !! net = None -> net_step fails (NetDelete net) M NGX_ERROR M
| step_found addr r M : longest_match M addr r -> net_step fails (NetFind addr) M r M.

(** What a run may come to: the results of its operations, or the access to a null pointer
    that a deletion of the network of all addresses may end in, if it is the only network
    or there is none. *)
Inductive net_run (fails : Prop) : list net_op -> networks -> res (list Z) -> Prop :=
| run_nil M : net_run fails [] M (Ok [])
| run_cons op ops M r M' rs :
    net_step fails op M r M' -> net_run fails ops M' rs ->
    net_run fails (op :: ops) M (rs ← rs; Ok (r :: rs))
| run_null ops M : (forall net, net <> [] -> M !! net = None) -> net_run fails (NetDelete [] :: ops) M Fault.

(** ** What the code does *)

Section runs.
Context (pagesize : Z) (pmemalign : nat -> bool).

(** A key and a mask are numbers for addresses of 32 bits, and the bytes from a pointer on
    for those of 128 bits. *)
Inductive radix_op (K : Type) :=
| Insert (key mask : K) (value : Z)
| Delete (key mask : K)
| Find (key : K).
Arguments Insert {K}.
Arguments Delete {K}.
Arguments Find {K}.

Definition run_op32 (t : ngx_radix_tree_t) (op : radix_op Z) : res (Z * ngx_radix_tree_t) :=
  match op with
  | Insert key mask value => ngx_radix32tree_insert pagesize pmemalign t key mask value
  | Delete key mask => ngx_radix32tree_delete t key mask
  | Find key => r ← ngx_radix32tree_find t key; Ok (r, t)
  end.

Definition run_op128 (t : ngx_radix_tree_t) (op : radix_op (list Z)) : res (Z * ngx_radix_tree_t) :=
  match op with
  | Insert key mask value => ngx_radix128tree_insert pagesize pmemalign t key mask value
  | Delete key mask => ngx_radix128tree_delete t key mask
  | Find key => r ← ngx_radix128tree_find t key; Ok (r, t)
  end.

Definition net_of {K} (bits : K -> list bool) (op : radix_op K) : net_op :=
  match op with
  | Insert key mask value => NetInsert (network (bits key) (bits mask)) value
  | Delete key mask => NetDelete (network (bits key) (bits mask))
  | Find key => NetFind (bits key)
  end.

Fixpoint run_ops {K} (run : ngx_radix_tree_t -> radix_op K -> res (Z * ngx_radix_tree_t)) (t : ngx_radix_tree_t)
    (ops : list (radix_op K)) : res (list Z) :=
  match ops with
  | [] => Ok []
  | op :: ops => '(r, t) ← run t op; rs ← run_ops run t ops; Ok (r :: rs)
  end.

(** Sixteen bytes of keys and masks can be read, and one more behind an address that is
    looked for. *)
Definition readable (op : radix_op (list Z)) : Prop :=
  match op with
  | Insert key mask _ | Delete key mask => (16 <= length key)%nat /\ (16 <= length mask)%nat
  | Find key => (17 <= length key)%nat
  end.

(** ** Creation *)

Abbreviation fails := (exists k, pmemalign k = false).

Lemma insert32_ok t key mask v M :
  node_size <= pagesize -> models 32 t M ->
  exists rc t' M', ngx_radix32tree_insert pagesize pmemalign t key mask v = Ok (rc, t') /\ models 32 t' M' /\
    net_step fails (NetInsert (network (bits32 key) (bits32 mask)) v) M rc M'.
Proof using.
  intros Hp HM.
  destruct (insert_models (laws := laws32 key mask) pagesize pmemalign Hp) with (fuel := 33%nat) (t := t) (M := M) (v := v)
    as (rc & t' & M' & E & HM' & H); [lia|apply bits_be_length|apply bits_be_length|lia|done|].
  exists rc, t', M'. split; [exact E|]. split; [done|].
  destruct H as [(-> & ? & ->)|[(-> & ? & ->)|(-> & ? & -> & ?)]]; by constructor.
Qed.

Lemma prealloc_row_ok n t key mask inc :
  node_size <= pagesize -> models 32 t ∅ -> 0 < inc -> key + (Z.of_nat n + 1) * inc = 4294967296 -> 0 <= key ->
  exists r, prealloc_row pagesize pmemalign (S n) t key mask inc = Ok r /\
    match r with None => fails | Some t => models 32 t ∅ end.
Proof using.
  intros Hp. revert t key. induction n as [|n IH]; intros t key HM Hi Hk H0; cbn [prealloc_row].
  all: destruct (insert32_ok t key mask NGX_RADIX_NO_VALUE ∅ Hp HM) as (rc & t1 & M1 & -> & HM1 & Hstep); rewrite Ok_bind.
  all: inversion Hstep as [|? ? ? Hbusy|? ? ? Hfails| | |]; subst;
    [change (negb (NGX_OK =? NGX_OK)) with false; cbv iota|by destruct Hbusy|by exists None].
  - replace (key + inc) with 4294967296 by lia. change (u32 4294967296 =? 0) with true. cbv iota.
    exists (Some t1). split; [done|]. exact HM1.
  - rewrite u32_id by nia. destruct (Z.eqb_spec (key + inc) 0); [lia|]. apply IH; [exact HM1|done|nia|lia].
Qed.

Lemma prealloc_rows_ok n i t mask :
  node_size <= pagesize -> models 32 t ∅ -> (n + i <= 32)%nat ->
  exists r, prealloc_rows pagesize pmemalign n t mask (place32 i) = Ok r /\
    match r with None => fails | Some t => models 32 t ∅ end.
Proof using.
  intros Hp. revert i t mask. induction n as [|n IH]; intros i t mask HM Hn; cbn [prealloc_rows]; [by exists (Some t)|].
  assert (4294967296 / place32 i = 2 ^ (1 + Z.of_nat i)) as ->.
  { rewrite place32_pow by lia. change 4294967296 with (2 ^ 32). rewrite <- Z.pow_sub_r by lia. f_equal. lia. }
  assert (exists m, Z.to_nat (2 ^ (1 + Z.of_nat i)) = S m /\ Z.of_nat m + 1 = 2 ^ (1 + Z.of_nat i)) as (m & -> & Hm).
  { pose proof (Z.pow_pos_nonneg 2 (1 + Z.of_nat i)). exists (Z.to_nat (2 ^ (1 + Z.of_nat i)) - 1)%nat. lia. }
  destruct (prealloc_row_ok m t 0 (Z.lor (Z.shiftr mask 1) 0x80000000) (place32 i) Hp HM) as (r & -> & Hr); [| |done|].
  { rewrite place32_pow by lia. apply Z.pow_pos_nonneg; lia. }
  { rewrite Hm, place32_pow by lia. rewrite Z.add_0_l, <- Z.pow_add_r by lia. change 4294967296 with (2 ^ 32). f_equal. lia. }
  rewrite Ok_bind. destruct r as [t'|]; [|by exists None]. rewrite place32_S. apply IH; [done|lia].
Qed.

Lemma create_ok ok preallocate :
  node_size <= pagesize -> -1 <= preallocate <= 32 ->
  exists r, ngx_radix_tree_create pagesize pmemalign ok preallocate = Ok r /\
    match r with None => ok = false \/ fails | Some t => models 32 t ∅ end.
Proof using.
  intros Hp Hr. unfold ngx_radix_tree_create. destruct ok; cbn [negb]; [|exists None; eauto].
  unfold ngx_radix_alloc. cbn [t_free]. change (node_size <=? t_size (RTree ∅ 0 None 0 0 0)) with false. cbn [orb].
  change (t_pages (RTree ∅ 0 None 0 0 0)) with 0%nat. destruct (pmemalign 0) eqn:E0; cbn [negb].
  2:{ cbv zeta. rewrite Ok_bind. exists None. split; [done|]. right. eauto. }
  cbv zeta. change (t_size (RTree ∅ 0 None 0 0 0) <? node_size) with true. cbv iota.
  change (t_size ((?t <| t_size := ?x |>) <| t_pages := ?y |>)) with x. destruct (Z.ltb_spec pagesize node_size); [lia|].
  rewrite Ok_bind. set (t := (store _ _ _) <| t_root := _ |>).
  assert (models 32 t ∅) as HM.
  { exists {[ [] := (0%nat, NGX_RADIX_NO_VALUE) ]}, []. split.
    - assert (forall (p : path) a v, ({[ [] := (0%nat, NGX_RADIX_NO_VALUE) ]} : nodes) !! p = Some (a, v) -> p = [] /\ a = 0%nat /\ v = NGX_RADIX_NO_VALUE) as Hone.
      { intros p a v H'. apply lookup_singleton_Some in H' as [<- [= <- <-]]. done. }
      split.
      + done.
      + intros p q a v w Hp' Hq. apply Hone in Hp' as [-> _]. by apply Hone in Hq as [-> _].
      + intros p a v Hp'. apply Hone in Hp' as (-> & -> & ->). done.
      + intros d p [[a v] Hp']. by apply Hone in Hp' as [? _].
      + intros p [[a v] Hp']. apply Hone in Hp' as [-> _]. cbn. lia.
      + intros p a v Hp'. apply Hone in Hp' as (_ & -> & _). cbn. lia.
      + done.
      + constructor.
      + intros a Ha. by apply elem_of_nil in Ha.
    - intros l. rewrite lookup_empty. cbv zeta. unfold value_at.
      destruct (decide (reverse l = [])) as [->|Hne]; [by rewrite lookup_singleton_eq|by rewrite lookup_singleton_ne]. }
  destruct (Z.eqb_spec preallocate 0); [by exists (Some t)|].
  assert (forall b, 0 <= b <= 32 -> exists r, prealloc_rows pagesize pmemalign (Z.to_nat b) t 0 0x80000000 = Ok r /\
    match r with None => fails | Some t => models 32 t ∅ end) as Hrows.
  { intros b Hb. apply (prealloc_rows_ok (Z.to_nat b) 0 t 0 Hp HM). lia. }
  destruct (Z.eqb_spec preallocate (-1)) as [->|Hne].
  - assert (0 <= default_bits pagesize <= 32) as Hb by (unfold default_bits; cbv zeta; repeat case_match; lia).
    destruct (Z.ltb_spec (default_bits pagesize) 0); [lia|]. destruct (Hrows _ Hb) as (r & -> & H'). exists r. split; [done|]. destruct r; eauto.
  - destruct (Z.ltb_spec preallocate 0); [lia|]. destruct (Hrows preallocate ltac:(lia)) as (r & -> & H'). exists r. split; [done|].
    destruct r; eauto.
Qed.

(** ** One operation *)

Lemma run_op32_ok t M op :
  node_size <= pagesize -> models 32 t M ->
  (exists r t' M', run_op32 t op = Ok (r, t') /\ models 32 t' M' /\ net_step fails (net_of bits32 op) M r M') \/
  (net_of bits32 op = NetDelete [] /\ (forall net, net <> [] -> M !! net = None) /\ run_op32 t op = Fault).
Proof using.
  intros Hp HM. destruct op as [key mask v|key mask|key]; cbn [run_op32 net_of].
  - left. by apply insert32_ok.
  - destruct (delete_models (laws := laws32 key mask)) with (fuel := 33%nat) (t := t) (M := M)
      as [(rc & t' & M' & E & HM' & H)|(Hn & Hno & E)]; [lia|apply bits_be_length|apply bits_be_length|lia|done| |].
    + left. exists rc, t', M'. split; [exact E|]. split; [done|]. destruct H as [(-> & ->)|(-> & ? & ->)]; by constructor.
    + right. rewrite Hn. by split.
  - left. destruct (find_models (laws := search32 key 0)) with (fuel := 34%nat) (t := t) (M := M) as (r & E & H);
      [apply bits_be_length|lia|by eexists|done|].
    exists r, t, M. change (ngx_radix32tree_find t key) with (radix_find (cur := cursor32 key 0) 34 t). rewrite E. split; [done|].
    split; [done|]. by constructor.
Qed.

Lemma run_op128_ok t M op :
  node_size <= pagesize -> models 128 t M -> readable op ->
  (exists r t' M', run_op128 t op = Ok (r, t') /\ models 128 t' M' /\ net_step fails (net_of bits128 op) M r M') \/
  (net_of bits128 op = NetDelete [] /\ (forall net, net <> [] -> M !! net = None) /\ run_op128 t op = Fault).
Proof using.
  intros Hp HM Hread. destruct op as [key mask v|key mask|key]; cbn [run_op128 net_of readable] in *.
  - left. destruct Hread as [H1 H2].
    destruct (insert_models (laws := laws128 key mask H1 H2) pagesize pmemalign Hp) with (fuel := 129%nat) (t := t) (M := M) (v := v)
      as (rc & t' & M' & E & HM' & H); [lia|by apply bits128_length|by apply bits128_length|lia|done|].
    exists rc, t', M'. split; [exact E|]. split; [done|].
    destruct H as [(-> & ? & ->)|[(-> & ? & ->)|(-> & ? & -> & ?)]]; by constructor.
  - destruct Hread as (H1 & H2).
    destruct (delete_models (laws := laws128 key mask H1 H2)) with (fuel := 129%nat) (t := t) (M := M)
      as [(rc & t' & M' & E & HM' & H)|(Hn & Hno & E)]; [lia|by apply bits128_length|by apply bits128_length|lia|done| |].
    + left. exists rc, t', M'. split; [exact E|]. split; [done|]. destruct H as [(-> & ->)|(-> & ? & ->)]; by constructor.
    + right. rewrite Hn. by split.
  - left. assert (16 <= length key)%nat as Hk by lia.
    destruct (find_models (laws := search128 key [] Hk)) with (fuel := 130%nat) (t := t) (M := M) as (r & E & H);
      [by apply bits128_length|lia| |done|].
    { cbn [cur_dir cursor128 at_bit search128]. unfold at_bit128. change (Z.of_nat (128 / 8)) with 16.
      destruct (get_ok key 16) as [c ->]; [unfold zlen; lia|]. by eexists. }
    exists r, t, M. change (ngx_radix128tree_find t key) with (radix_find (cur := cursor128 key []) 130 t). rewrite E. split; [done|].
    split; [done|]. by constructor.
Qed.

Lemma run_ops_ok {K} W (run : ngx_radix_tree_t -> radix_op K -> res (Z * ngx_radix_tree_t)) (bits : K -> list bool)
    (fair : radix_op K -> Prop) t M ops :
  (forall t M op, models W t M -> fair op ->
     (exists r t' M', run t op = Ok (r, t') /\ models W t' M' /\ net_step fails (net_of bits op) M r M') \/
     (net_of bits op = NetDelete [] /\ (forall net, net <> [] -> M !! net = None) /\ run t op = Fault)) ->
  models W t M -> Forall fair ops -> net_run fails (map (net_of bits) ops) M (run_ops run t ops).
Proof using.
  intros Hrun HM Hops. revert t M HM. induction Hops as [|op ops Hop _ IH]; intros t M HM; cbn [run_ops map]; [constructor|].
  destruct (Hrun t M op HM Hop) as [(r & t' & M' & -> & HM' & Hs)|(-> & Hno & ->)]; [|by constructor].
  rewrite Ok_bind. econstructor; [done|]. by apply IH.
Qed.

Lemma models_weaken W W' t M : (W <= W')%nat -> models W t M -> models W' t M.
Proof using.
  intros H (A & free & R & HM). exists A, free. split; [|done]. destruct R as [R1 R2 R3 R4 R5 R6 R7 R8 R9]. split; try done.
  intros p Hp. apply R5 in Hp. lia.
Qed.
End runs.
Arguments Insert {K}.
Arguments Delete {K}.
Arguments Find {K}.

(** C22: Radix trees, on pages that have room for a node, and with at most 32 levels
    preallocated. A tree that is created has no networks, or creating it failed for
    want of memory. On it, any run of operations on keys of 32 bits shows the client a map
    from networks to values: an insertion enters the network of the leading ones of its
    mask, unless it is there (busy) or memory is missing, in which case nothing changes; a
    deletion takes it out, or reports an error, which it does only if the network is not
    there; a search returns the value of the longest network that the address begins with,
    or that there is none. Nodes that are shared, left behind or freed too early would show
    in the results of later operations. The run succeeds, with one exception: a deletion
    of the network of all addresses (mask 0), while there is no other network, may follow
    the null pointer that is the parent of the root. *)
Theorem radix32_refines pagesize pmemalign ok preallocate ops :
  node_size <= pagesize -> -1 <= preallocate <= 32 ->
  exists r, ngx_radix_tree_create pagesize pmemalign ok preallocate = Ok r /\
    match r with
    | None => ok = false \/ exists k, pmemalign k = false
    | Some t => net_run (exists k, pmemalign k = false) (map (net_of bits32) ops) ∅
                  (run_ops (run_op32 pagesize pmemalign) t ops)
    end.
Proof.
  intros Hp Hr. destruct (create_ok pagesize pmemalign ok preallocate Hp Hr) as (r & E & H). exists r. split; [exact E|].
  destruct r as [t|]; [|done]. apply (run_ops_ok pmemalign 32 _ bits32 (fun _ => True)); [|done|by apply Forall_true].
  intros t' M op HM _. by apply run_op32_ok.
Qed.

(** C23: The same for keys of 128 bits, whose sixteen bytes are read from memory. A search
    may also read the byte behind the address, which therefore has to be readable. *)
Theorem radix128_refines pagesize pmemalign ok preallocate ops :
  node_size <= pagesize -> -1 <= preallocate <= 32 -> Forall readable ops ->
  exists r, ngx_radix_tree_create pagesize pmemalign ok preallocate = Ok r /\
    match r with
    | None => ok = false \/ exists k, pmemalign k = false
    | Some t => net_run (exists k, pmemalign k = false) (map (net_of bits128) ops) ∅
                  (run_ops (run_op128 pagesize pmemalign) t ops)
    end.
Proof.
  intros Hp Hr Hops. destruct (create_ok pagesize pmemalign ok preallocate Hp Hr) as (r & E & H). exists r. split; [exact E|].
  destruct r as [t|]; [|done]. apply (run_ops_ok pmemalign 128 _ bits128 readable); [|by apply (models_weaken 32); [lia|]|done].
  intros t' M op HM Hf. by apply run_op128_ok.
Qed.

(** C24: A search for an address of 128 bits that is itself a network of the tree (a /128)
    reads the byte behind the sixteen bytes of the address. *)
Theorem radix128_find_overreads t M key :
  models 128 t M -> length key = 16%nat -> is_Some (M !! bits128 key) -> ngx_radix128tree_find t key = Fault.
Proof.
  intros (A & free & R & HM) Hl Hin. assert (16 <= length key)%nat as Hk by lia.
  pose proof (bits128_length key Hk) as Hlen. destruct (root_node (key := bits128 key) t A free R) as [v0 Hroot].
  assert (exists a v, A !! rpath (bits128 key) 128 = Some (a, v)) as (a & v & Hfull).
  { unfold rpath. rewrite take_ge by lia. rewrite HM in Hin. cbv zeta in Hin. unfold value_at in Hin.
    destruct (A !! reverse (bits128 key)) as [[a v]|]; [eauto|]. by destruct Hin. }
  change (ngx_radix128tree_find t key) with (radix_find (cur := cursor128 key []) 130 t). unfold radix_find.
  assert (Some (t_root t) = address A (rpath (bits128 key) 0)) as -> by (unfold address; by rewrite Hroot).
  rewrite (at_bit_start (SearchLaws := search128 key [] Hk)).
  apply (find_walk_fault (laws := search128 key [] Hk) Hlen 130 t A free 0 _ a v R); [lia|lia|done|].
  cbn [cur_dir cursor128 at_bit search128]. unfold at_bit128. change (Z.of_nat (128 / 8)) with 16.
  by rewrite get_oob by (right; unfold zlen; lia).
Qed.

(** ** Examples *)

Definition ops_example : list (radix_op Z) :=
  [Insert 0x0a000000 0xff000000 1; Find 0x0a010203; Delete 0x0a000000 0xff000000; Delete 0 0].

(** The last deletion, of the network of all addresses, meets the null pointer unless the
    tree has preallocated nodes. *)
Lemma radix32_refines_witness :
  exists t, ngx_radix_tree_create 4096 (fun _ => true) true 0 = Ok (Some t) /\
    run_ops (run_op32 4096 (fun _ => true)) t (take 3 ops_example) = Ok [NGX_OK; 1; NGX_OK] /\
    run_ops (run_op32 4096 (fun _ => true)) t ops_example = Fault /\
    net_run (exists k : nat, true = false) (map (net_of bits32) ops_example) ∅ Fault.
Proof.
  destruct (radix32_refines 4096 (fun _ => true) true 0 ops_example) as (r & E & H); [done|done|].
  destruct r as [t|]; [|by vm_compute in E]. exists t. split; [exact E|].
  assert (run_ops (run_op32 4096 (fun _ => true)) t ops_example = Fault) as Hf
    by (vm_compute in E; injection E as <-; vm_compute; reflexivity).
  split; [vm_compute in E; injection E as <-; vm_compute; reflexivity|]. split; [exact Hf|].
  rewrite Hf in H. exact H.
Defined.

Definition ones_16 : list Z := replicate 16 255.
Definition address_16 : list Z := replicate 16 1.

Definition ops_example_128 : list (radix_op (list Z)) :=
  [Insert address_16 ones_16 1; Find (address_16 ++ [0]); Delete address_16 ones_16].

Lemma radix128_refines_witness :
  exists t, ngx_radix_tree_create 4096 (fun _ => true) true 0 = Ok (Some t) /\
    net_run (exists k : nat, true = false) (map (net_of bits128) ops_example_128) ∅ (Ok [NGX_OK; 1; NGX_OK]).
Proof.
  destruct (radix128_refines 4096 (fun _ => true) true 0 ops_example_128) as (r & E & H).
  - done.
  - done.
  - repeat constructor; cbn; lia.
  - destruct r as [t|]; [|by vm_compute in E]. exists t. split; [exact E|].
    assert (run_ops (run_op128 4096 (fun _ => true)) t ops_example_128 = Ok [NGX_OK; 1; NGX_OK]) as <-
      by (vm_compute in E; injection E as <-; vm_compute; reflexivity).
    exact H.
Defined.

Lemma one_network : exists t M, models 128 t M /\ M !! bits128 address_16 = Some 1.
Proof.
  destruct (create_ok 4096 (fun _ => true) true 0) as (r & _ & H); [done|done|]. destruct r as [t|]; [|by destruct H as [|[_ ?]]].
  destruct (run_op128_ok 4096 (fun _ => true) t ∅ (Insert address_16 ones_16 1)) as [(rc & t' & M' & _ & HM & Hs)|(H' & _)];
    [done|by apply (models_weaken 32); [lia|]|cbn; lia| |done].
  exists t', M'. split; [done|]. inversion Hs as [|? ? ? Hbusy|? ? ? [k Hk]| | |]; subst; [|by destruct Hbusy|done].
  change (network (bits128 address_16) (bits128 ones_16)) with (bits128 address_16). apply lookup_insert_eq.
Qed.

Lemma radix128_find_overreads_witness :
  exists t M, models 128 t M /\ M !! bits128 address_16 = Some 1 /\ ngx_radix128tree_find t address_16 = Fault.
Proof.
  destruct one_network as (t & M & H1 & H2). exists t, M. split; [exact H1|]. split; [exact H2|].
  apply (radix128_find_overreads t M address_16 H1); [reflexivity|]. rewrite H2. by eexists.
Defined.
