(* ===== verification/ProxyProtocol.v ===== *)
(** * The PROXY protocol

    [src/core/ngx_proxy_protocol.c]: the header in which a proxy tells who its client is,
    read in both of its versions and written in the first. The buffer up to [last] is the
    list of its bytes; a pointer into it is what is left of the list, and a pointer that
    is returned is what is behind the header. *)

From S2P Require Import Prelude Numeric Sprintf HttpHeaderLine Inet.

Definition NGX_PROXY_PROTOCOL_MAX_HEADER : Z := 107.
Definition NGX_PROXY_PROTOCOL_AF_INET : Z := 1.
Definition NGX_PROXY_PROTOCOL_AF_INET6 : Z := 2.

(** [sizeof("unix:") - 1 + sizeof(sun_path)] *)
Definition NGX_SOCKADDR_STRLEN : Z := 113.

Record ngx_proxy_protocol_t := PP {
  pp_src_addr : list Z;
  pp_dst_addr : list Z;
  pp_src_port : Z;
  pp_dst_port : Z
}.

Definition ngx_proxy_protocol_parse_uint16 (p : list Z) (i : Z) : res Z :=
  b0 ← get p i; b1 ← get p (i + 1); Ok (Z.lor (Z.shiftl b0 8) b1).

(** ** Version 1 *)

Definition is_addr_char (ch : Z) : bool :=
  (ch =? ":"%chr) || (ch =? "."%chr) || between "a"%chr "f"%chr ch || between "A"%chr "F"%chr ch
  || between "0"%chr "9"%chr ch.

(** The loop of [ngx_proxy_protocol_read_addr]: the bytes before the space, and what is
    behind it. *)
Fixpoint addr_loop (p : list Z) : option (list Z * list Z) :=
  match p with
  | [] => None
  | ch :: p =>
      if ch =? " "%chr then Some ([], p)
      else if negb (is_addr_char ch) then None
      else match addr_loop p with Some (l, p) => Some (ch :: l, p) | None => None end
  end.

Fixpoint port_loop (sep : Z) (p : list Z) : option (list Z * list Z) :=
  match p with
  | [] => None
  | ch :: p =>
      if ch =? sep then Some ([], p)
      else match port_loop sep p with Some (l, p) => Some (ch :: l, p) | None => None end
  end.

(** The port, and what is behind the separator. *)
Definition ngx_proxy_protocol_read_port (p : list Z) (sep : Z) : res (option (Z * list Z)) :=
  match port_loop sep p with
  | None => Ok None
  | Some (digits, p) =>
      n ← ngx_atoi digits;
      if (n <? 0) || (65535 <? n) then Ok None else Ok (Some (u16 n, p))
  end.

(** [for ( ; p < last - 1; p++)] *)
Fixpoint skip_line (p : list Z) : option (list Z) :=
  match p with
  | c :: ((d :: r) as q) => if (c =? CR) && (d =? LF) then Some r else skip_line q
  | _ => None
  end.

Section read.
(** Whether the [k]-th allocation succeeds. *)
Context (palloc : nat -> bool).

(** The result is [NULL], or the pointer behind the header with what was stored in
    [c->proxy_protocol], if anything was. *)
Abbreviation result := (res (option (list Z) * option ngx_proxy_protocol_t)).

Definition ngx_proxy_protocol_read_addr (k : nat) (p : list Z) : option (list Z * list Z) :=
  match addr_loop p with
  | None => None
  | Some (l, p) => if palloc k then Some (l, p) else None
  end.

(** Behind "PROXY TCP4 " or "PROXY TCP6 ". *)
Definition read_tcp (p : list Z) : result :=
  if negb (palloc 0) then Ok (None, None)
  else
    match ngx_proxy_protocol_read_addr 1 p with
    | None => Ok (None, None)
    | Some (src, p) =>
        match ngx_proxy_protocol_read_addr 2 p with
        | None => Ok (None, None)
        | Some (dst, p) =>
            r ← ngx_proxy_protocol_read_port p " "%chr;
            match r with
            | None => Ok (None, None)
            | Some (src_port, p) =>
                r ← ngx_proxy_protocol_read_port p CR;
                match r with
                | None => Ok (None, None)
                | Some (dst_port, p) =>
                    match p with
                    | [] => Ok (None, None)
                    | c :: p =>
                        if negb (c =? LF) then Ok (None, None)
                        else Ok (Some p, Some (PP src dst src_port dst_port))
                    end
                end
            end
        end
    end.

(** ** Version 2 *)

Definition signature : list Z := [CR; LF; CR; LF; 0; CR; LF] ++ str "QUIT" ++ [LF].

(** The bytes of [sin_addr] in memory. *)
Definition in_addr (l : list Z) : Z := foldr (fun c z => c + 256 * z) 0 l.

(** The addresses of either family, behind [buf], up to [end]. [None]: not enough bytes;
    [Some None]: a family that is not supported. *)
Definition v2_addrs (family : Z) (buf : list Z) (len : Z)
    : res (option (option (ngx_sockaddr_t * ngx_sockaddr_t * Z * Z))) :=
  if family =? NGX_PROXY_PROTOCOL_AF_INET then
    if len <? 12 then Ok None
    else
      src ← slice buf 0 4;
      dst ← slice buf 4 4;
      src_port ← ngx_proxy_protocol_parse_uint16 buf 8;
      dst_port ← ngx_proxy_protocol_parse_uint16 buf 10;
      Ok (Some (Some (AF_INET (in_addr src) 0, AF_INET (in_addr dst) 0, src_port, dst_port)))
  else if family =? NGX_PROXY_PROTOCOL_AF_INET6 then
    if len <? 36 then Ok None
    else
      src ← slice buf 0 16;
      dst ← slice buf 16 16;
      src_port ← ngx_proxy_protocol_parse_uint16 buf 32;
      dst_port ← ngx_proxy_protocol_parse_uint16 buf 34;
      Ok (Some (Some (AF_INET6 src 0, AF_INET6 dst 0, src_port, dst_port)))
  else Ok (Some None).

Definition ngx_proxy_protocol_v2_read (b : list Z) : result :=
  version_command ← get b 12;
  family_transport ← get b 13;
  let buf := drop 16 b in
  if negb (Z.shiftr version_command 4 =? 2) then Ok (None, None)
  else
    len ← ngx_proxy_protocol_parse_uint16 b 14;
    if zlen buf <? len then Ok (None, None)
    else
      let end_ := drop (Z.to_nat len) buf in
      if negb (Z.land version_command 0x0f =? 1) then Ok (Some end_, None)
      else if negb (Z.land family_transport 0x0f =? 1) then Ok (Some end_, None)
      else if negb (palloc 0) then Ok (None, None)
      else
        addrs ← v2_addrs (Z.shiftr family_transport 4) buf len;
        match addrs with
        | None => Ok (None, None)
        | Some None => Ok (Some end_, None)
        | Some (Some (src, dst, src_port, dst_port)) =>
            if negb (palloc 1) then Ok (None, None)
            else
              '(src_addr, n) ← ngx_sock_ntop src NGX_SOCKADDR_STRLEN NGX_SOCKADDR_STRLEN false;
              if negb (palloc 2) then Ok (None, None)
              else
                '(dst_addr, m) ← ngx_sock_ntop dst NGX_SOCKADDR_STRLEN NGX_SOCKADDR_STRLEN false;
                Ok (Some end_, Some (PP (take (Z.to_nat n) src_addr) (take (Z.to_nat m) dst_addr) src_port dst_port))
        end.

(** ** Both *)

Definition ngx_proxy_protocol_read (b : list Z) : result :=
  let len := zlen b in
  v2 ← (if 16 <=? len then l ← slice b 0 12; Ok (beq l signature) else Ok false);
  if (v2 : bool) then ngx_proxy_protocol_v2_read b
  else if len <? 8 then Ok (None, None)
  else
    proxy ← strncmp_eq b 0 (str "PROXY ");
    if negb proxy then Ok (None, None)
    else
      let p := drop 6 b in
      let len := len - 6 in
      unknown ← (if 7 <=? len then strncmp_eq p 0 (str "UNKNOWN") else Ok false);
      if (unknown : bool) then Ok (skip_line (drop 7 p), None)
      else if len <? 5 then Ok (None, None)
      else
        tcp ← strncmp_eq p 0 (str "TCP");
        if negb tcp then Ok (None, None)
        else
          c3 ← get p 3;
          if negb (c3 =? "4"%chr) && negb (c3 =? "6"%chr) then Ok (None, None)
          else
            c4 ← get p 4;
            if negb (c4 =? " "%chr) then Ok (None, None) else read_tcp (drop 5 p).
End read.

(** ** Writing *)

(** The words in front of the addresses; [None] if the family is not supported. *)
Definition write_family (sa : ngx_sockaddr_t) : option (list Z) :=
  match sa with
  | AF_INET _ _ => Some (str "PROXY TCP4 ")
  | AF_INET6 _ _ => Some (str "PROXY TCP6 ")
  | AF_UNIX _ => None
  end.

(** [local] is what [ngx_connection_local_sockaddr] finds, [None] if it fails. The result
    is [None] for [NULL], or the bytes written into the buffer, which has [room]. *)
Definition ngx_proxy_protocol_write (room : Z) (sockaddr : ngx_sockaddr_t) (local : option ngx_sockaddr_t)
    : res (option (list Z)) :=
  if room <? NGX_PROXY_PROTOCOL_MAX_HEADER then Ok None
  else
    match local with
    | None => Ok None
    | Some local_sockaddr =>
        match write_family sockaddr with
        | None => Ok (Some (str "PROXY UNKNOWN" ++ [CR; LF]))
        | Some out =>
            '(text, n) ← ngx_sock_ntop sockaddr (room - zlen out) (room - zlen out) false;
            let out := out ++ take (Z.to_nat n) text in
            out ← write_at room out (str " ");
            '(text, n) ← ngx_sock_ntop local_sockaddr (room - zlen out) (room - zlen out) false;
            let out := out ++ take (Z.to_nat n) text in
            let port := ngx_inet_get_port sockaddr in
            let lport := ngx_inet_get_port local_sockaddr in
            l ← ngx_vslprintf (room - zlen out) (str " %ui %ui" ++ [CR; LF]) [A64 port; A64 lport];
            Ok (Some (out ++ l))
        end
    end.

Example proxy_v1 :
  ngx_proxy_protocol_read (fun _ => true) (str "PROXY TCP4 10.1.2.3 10.0.0.1 4711 80" ++ [CR; LF] ++ str "GET /")
  = Ok (Some (str "GET /"), Some (PP (str "10.1.2.3") (str "10.0.0.1") 4711 80)).
Proof. vm_compute. reflexivity. Qed.

Example proxy_v2 :
  ngx_proxy_protocol_read (fun _ => true)
    (signature ++ [0x21; 0x11; 0; 13; 10; 1; 2; 3; 10; 0; 0; 1; 0x12; 0x67; 0; 80; 9] ++ str "GET /")
  = Ok (Some (str "GET /"), Some (PP (str "10.1.2.3") (str "10.0.0.1") 4711 80)).
Proof. vm_compute. reflexivity. Qed.

Example proxy_write :
  ngx_proxy_protocol_write 107 (AF_INET (in_addr [10; 1; 2; 3]) (htons 4711)) (Some (AF_INET6 (replicate 15 0 ++ [1]) (htons 80)))
  = Ok (Some (str "PROXY TCP4 10.1.2.3 ::1 4711 80" ++ [CR; LF])).
Proof. vm_compute. reflexivity. Qed.
