(* ===== verification/ProxyProtocolSpec.v ===== *)
(** * What a PROXY protocol header is

    The grammar of both versions, and that [ngx_proxy_protocol_read] accepts exactly what
    begins with such a header; and that the headers that are written are read back. *)

From S2P Require Import Prelude Numeric NumericSpec HttpHeaderLine Sprintf SprintfSpec Inet InetSpec Inet6Spec Inet6Print InetCidr InetSock ProxyProtocol.

(** ** The grammar *)

(** The first end of line of [line ++ CRLF] is the one behind it. *)
Definition no_eol (line : list Z) : Prop := forall a b, line ++ [CR] <> a ++ CR :: LF :: b.

Definition addr_text (l : list Z) : Prop := Forall (fun c => is_addr_char c = true) l.

(** A decimal number of 16 bits. *)
Definition port_text (l : list Z) (v : Z) : Prop := decimal l = Some v /\ v <= 65535.

(** The two bytes of a number. *)
Definition be_16 (v : Z) : list Z := [v / 256; v mod 256].

(** What the bytes behind the first 16 of a header of version 2 say. *)
Definition v2_content (command family transport : Z) (payload : list Z) (pp : option ngx_proxy_protocol_t) : Prop :=
  if negb ((command =? 1) && (transport =? 1)) then pp = None
  else if family =? 1 then
    exists src dst sp dp tlvs, payload = src ++ dst ++ be_16 sp ++ be_16 dp ++ tlvs /\
      length src = 4%nat /\ length dst = 4%nat /\ 0 <= sp < 65536 /\ 0 <= dp < 65536 /\
      pp = Some (PP (inet_text src) (inet_text dst) sp dp)
  else if family =? 2 then
    exists src dst sp dp tlvs src_text dst_text, payload = src ++ dst ++ be_16 sp ++ be_16 dp ++ tlvs /\
      length src = 16%nat /\ length dst = 16%nat /\ 0 <= sp < 65536 /\ 0 <= dp < 65536 /\
      ngx_inet_ntop false src 113 = Ok src_text /\ ngx_inet_ntop false dst 113 = Ok dst_text /\
      pp = Some (PP src_text dst_text sp dp)
  else pp = None.

Inductive header : list Z -> option ngx_proxy_protocol_t -> Prop :=
| Header_unknown line : no_eol line -> header (str "PROXY UNKNOWN" ++ line ++ [CR; LF]) None
| Header_tcp family src dst sp dp v w :
    family = "4"%chr \/ family = "6"%chr -> addr_text src -> addr_text dst -> port_text sp v -> port_text dp w ->
    header (str "PROXY TCP" ++ [family] ++ str " " ++ src ++ str " " ++ dst ++ str " " ++ sp ++ str " " ++ dp ++ [CR; LF])
      (Some (PP src dst v w))
| Header_v2 command family transport payload pp :
    0 <= command < 16 -> 0 <= family < 16 -> 0 <= transport < 16 -> zlen payload < 65536 ->
    v2_content command family transport payload pp ->
    header (signature ++ [0x20 + command; 16 * family + transport] ++ be_16 (zlen payload) ++ payload) pp.

(** ** The pieces of version 1 *)

Lemma strncmp_app m : forall p l, (length m <= length l)%nat ->
  strncmp_eq (p ++ l) (zlen p) m = Ok (bool_decide (take (length m) l = m)).
Proof.
  induction m as [|x m IH]; intros p l Hl; cbn [strncmp_eq]; [by rewrite bool_decide_true|].
  destruct l as [|c l]; [cbn in Hl; lia|]. rewrite <- (Z.add_0_r (zlen p)) at 1. rewrite get_app_r, get_cons_0, Ok_bind by lia.
  cbn [length take]. destruct (Z.eqb_spec c x) as [->|Hcx]; [|by rewrite bool_decide_false by congruence].
  replace (zlen p + 1) with (zlen (p ++ [x])) by (by rewrite zlen_app).
  change (p ++ x :: l) with (p ++ [x] ++ l). rewrite app_assoc, IH by (cbn in Hl; lia).
  f_equal. apply bool_decide_ext. split; congruence.
Qed.

Lemma strncmp_start m l : zlen m <= zlen l -> strncmp_eq l 0 m = Ok (bool_decide (take (length m) l = m)).
Proof. intros H. apply (strncmp_app m []). unfold zlen in H. lia. Qed.

Lemma take_prefix {A} (m l : list A) : take (length m) l = m <-> exists r, l = m ++ r.
Proof.
  split; [|intros [r ->]; by rewrite take_app_length].
  intros H. exists (drop (length m) l). by rewrite <- H at 1; rewrite take_drop.
Qed.

Lemma addr_loop_spec p l r : addr_loop p = Some (l, r) <-> p = l ++ " "%chr :: r /\ addr_text l.
Proof.
  revert l. induction p as [|c p IH]; intros l; cbn [addr_loop].
  { split; [done|]. intros [H _]. by destruct l. }
  destruct (Z.eqb_spec c " "%chr) as [->|Hc].
  { split.
    - intros [= <- <-]. by split; [|apply Forall_nil_2].
    - intros [H Hl]. destruct l as [|d l]; [by injection H as ->|]. injection H as <- _.
      apply Forall_cons_1 in Hl as [Hl _]. discriminate Hl. }
  destruct (is_addr_char c) eqn:Ec; cbn [negb].
  - destruct (addr_loop p) as [[l' r']|] eqn:E.
    + split.
      * intros [= <- <-]. destruct (proj1 (IH l')) as [-> Hl]; [done|]. split; [done|by apply Forall_cons_2].
      * intros [H Hl]. destruct l as [|d l]; [injection H as ->; done|]. injection H as <- H.
        apply Forall_cons_1 in Hl as [_ Hl]. pose proof (proj2 (IH l) (conj H Hl)) as E'. by injection E' as -> ->.
    + split; [done|]. intros [H Hl]. destruct l as [|d l]; [injection H as ->; done|]. injection H as <- H.
      apply Forall_cons_1 in Hl as [_ Hl]. discriminate (proj2 (IH l) (conj H Hl)).
  - split; [done|]. intros [H Hl]. destruct l as [|d l]; [injection H as ->; done|]. injection H as <- H.
    apply Forall_cons_1 in Hl as [Hl _]. congruence.
Qed.

Lemma port_loop_spec sep p l r : port_loop sep p = Some (l, r) <-> p = l ++ sep :: r /\ Forall (fun c => c <> sep) l.
Proof.
  revert l. induction p as [|c p IH]; intros l; cbn [port_loop].
  { split; [done|]. intros [H _]. by destruct l. }
  destruct (Z.eqb_spec c sep) as [->|Hc].
  { split.
    - intros [= <- <-]. by split; [|apply Forall_nil_2].
    - intros [H Hl]. destruct l as [|d l]; [by injection H as ->|]. injection H as <- _. by apply Forall_cons_1 in Hl as [Hl _]. }
  destruct (port_loop sep p) as [[l' r']|] eqn:E.
  - split.
    + intros [= <- <-]. destruct (proj1 (IH l')) as [-> Hl]; [done|]. split; [done|by apply Forall_cons_2].
    + intros [H Hl]. destruct l as [|d l]; [injection H as ->; done|]. injection H as <- H.
      apply Forall_cons_1 in Hl as [_ Hl]. pose proof (proj2 (IH l) (conj H Hl)) as E'. by injection E' as -> ->.
  - split; [done|]. intros [H Hl]. destruct l as [|d l]; [injection H as ->; done|]. injection H as <- H.
    apply Forall_cons_1 in Hl as [_ Hl]. discriminate (proj2 (IH l) (conj H Hl)).
Qed.

Lemma decimal_digits l v : decimal l = Some v -> forallb is_digit l = true /\ 0 <= v.
Proof.
  intros H. pose proof (decimal_nonneg l v H) as [Hv _]. unfold decimal in H. destruct (forallb is_digit l); [by split|].
  by rewrite andb_false_r in H.
Qed.

Lemma port_text_no_sep l v sep : port_text l v -> is_digit sep = false -> Forall (fun c => c <> sep) l.
Proof.
  intros [H _] Hs. apply decimal_digits in H as [H _]. rewrite forallb_forall in H. apply Forall_forall. intros c Hc ->.
  apply list_elem_of_In in Hc. apply H in Hc. congruence.
Qed.

Lemma read_port_spec p sep :
  is_digit sep = false ->
  exists r, ngx_proxy_protocol_read_port p sep = Ok r /\
    forall v q, r = Some (v, q) <-> exists l, p = l ++ sep :: q /\ port_text l v.
Proof.
  intros Hsep. unfold ngx_proxy_protocol_read_port. destruct (port_loop sep p) as [[l r]|] eqn:E.
  - apply port_loop_spec in E as [-> Hl]. rewrite ngx_atoi_decimal, Ok_bind.
    assert (forall v q l', l ++ sep :: r = l' ++ sep :: q -> port_text l' v -> l' = l /\ q = r) as Huniq.
    { intros v q l' H Hv. pose proof (port_text_no_sep l' v sep Hv Hsep) as Hl'.
      assert (port_loop sep (l ++ sep :: r) = Some (l', q)) as E1 by (by apply port_loop_spec).
      assert (port_loop sep (l ++ sep :: r) = Some (l, r)) as E2 by (by apply port_loop_spec).
      rewrite E1 in E2. by injection E2. }
    destruct (decimal l) as [n|] eqn:En; cbn [or_error default from_option id].
    + destruct (decimal_digits l n En) as [_ Hn]. destruct (Z.ltb_spec n 0); [lia|]. destruct (Z.ltb_spec 65535 n); cbn [orb].
      * eexists. split; [done|]. intros v q. split; [done|]. intros (l' & H' & Hv). destruct (Huniq v q l' H' Hv) as [-> _].
        destruct Hv as [Hv1 Hv2]. rewrite En in Hv1. injection Hv1 as ->. lia.
      * rewrite u16_id by lia. eexists. split; [done|]. intros v q. split.
        -- intros [= <- <-]. exists l. split; [done|]. by split.
        -- intros (l' & H' & Hv). destruct (Huniq v q l' H' Hv) as [-> ->]. destruct Hv as [Hv1 _]. rewrite En in Hv1. by injection Hv1 as ->.
    + change ((NGX_ERROR <? 0) || (65535 <? NGX_ERROR)) with true. cbv iota. eexists. split; [done|]. intros v q. split; [done|].
      intros (l' & H' & Hv). destruct (Huniq v q l' H' Hv) as [-> _]. destruct Hv as [Hv1 _]. congruence.
  - eexists. split; [done|]. intros v q. split; [done|]. intros (l & -> & Hv). pose proof (port_text_no_sep l v sep Hv Hsep) as Hl.
    assert (port_loop sep (l ++ sep :: q) = Some (l, q)) as E1 by (by apply port_loop_spec). congruence.
Qed.

Lemma skip_line_spec p r : skip_line p = Some r <-> exists line, p = line ++ CR :: LF :: r /\ no_eol line.
Proof.
  induction p as [|c p IH]; [split; [done|intros (line & H & _); by destruct line]|].
  destruct p as [|d p].
  { split; [done|]. intros (line & H & _). destruct line as [|? [|? line]]; done. }
  change (skip_line (c :: d :: p)) with (if (c =? CR) && (d =? LF) then Some p else skip_line (d :: p)).
  destruct (Z.eqb_spec c CR) as [Hc|Hc], (Z.eqb_spec d LF) as [Hd|Hd]; cbn [andb].
  1:{ subst. split.
      - intros [= ->]. exists []. split; [done|]. intros a b H. destruct a as [|? [|? a]]; done.
      - intros (line & H & Hno). destruct line as [|x [|y line]].
        + by injection H as ->.
        + done.
        + injection H as <- <- H. by destruct (Hno [] (line ++ [CR])). }
  all: rewrite IH; split; intros (line & H & Hno);
    [exists (c :: line); split; [by rewrite H|]; intros a b E; destruct a as [|x a]; cbn in E;
      [injection E as E1 E2; destruct line as [|y line]; cbn in E2; [done|injection E2 as E2 _; injection H as H _; congruence]
      |injection E as -> E; by apply (Hno a b)]
    |destruct line as [|x line]; [exfalso; cbn in H; congruence|];
      injection H as <- H; exists line; split; [done|]; intros a b E; apply (Hno (c :: a) b); cbn; by rewrite E].
Qed.

(** ** Version 1 *)

Section read.
Context (palloc : nat -> bool) (Hp : forall n, palloc n = true).

(** What a result says of the bytes that were read; [good] is what may be accepted. *)
Definition sound (good : list Z -> list Z -> option ngx_proxy_protocol_t -> Prop) (b : list Z)
    (r : res (option (list Z) * option ngx_proxy_protocol_t)) : Prop :=
  match r with
  | Ok (Some rest, pp) => good b rest pp
  | Ok (None, pp) => pp = None
  | _ => False
  end.

Definition tcp_form (b rest : list Z) (pp : option ngx_proxy_protocol_t) : Prop :=
  exists src dst sp dp v w, b = src ++ " "%chr :: dst ++ " "%chr :: sp ++ " "%chr :: dp ++ CR :: LF :: rest /\
    addr_text src /\ addr_text dst /\ port_text sp v /\ port_text dp w /\ pp = Some (PP src dst v w).

Lemma read_tcp_sound p : sound tcp_form p (read_tcp palloc p).
Proof using Hp.
  unfold read_tcp, ngx_proxy_protocol_read_addr. rewrite !Hp. cbn [negb].
  destruct (addr_loop p) as [[src p1]|] eqn:E1; [|done]. apply addr_loop_spec in E1 as [-> H1].
  destruct (addr_loop p1) as [[dst p2]|] eqn:E2; [|done]. apply addr_loop_spec in E2 as [-> H2].
  destruct (read_port_spec p2 " "%chr) as (r3 & -> & H3); [done|]. rewrite Ok_bind. destruct r3 as [[v p3]|]; [|done].
  destruct (proj1 (H3 v p3) eq_refl) as (sp & -> & Hsp). clear H3.
  destruct (read_port_spec p3 CR) as (r4 & -> & H4); [done|]. rewrite Ok_bind. destruct r4 as [[w p4]|]; [|done].
  destruct (proj1 (H4 w p4) eq_refl) as (dp & -> & Hdp). clear H4.
  destruct p4 as [|c p4]; [done|]. destruct (Z.eqb_spec c LF) as [->|]; cbn [negb]; [|done].
  exists src, dst, sp, dp, v, w. split; [done|]. split; [done|]. split; [done|]. by split.
Qed.

Lemma read_tcp_complete p rest pp : tcp_form p rest pp -> read_tcp palloc p = Ok (Some rest, pp).
Proof using Hp.
  intros (src & dst & sp & dp & v & w & -> & H1 & H2 & H3 & H4 & ->).
  unfold read_tcp, ngx_proxy_protocol_read_addr. rewrite !Hp. cbn [negb].
  rewrite (proj2 (addr_loop_spec _ src _) (conj eq_refl H1)), (proj2 (addr_loop_spec _ dst _) (conj eq_refl H2)).
  destruct (read_port_spec (sp ++ " "%chr :: dp ++ CR :: LF :: rest) " "%chr) as (r3 & -> & Hr3); [done|].
  rewrite Ok_bind, (proj2 (Hr3 v (dp ++ CR :: LF :: rest))) by eauto.
  destruct (read_port_spec (dp ++ CR :: LF :: rest) CR) as (r4 & -> & Hr4); [done|].
  rewrite Ok_bind, (proj2 (Hr4 w (LF :: rest))) by eauto. done.
Qed.

(** ** Version 2 *)

Lemma be_16_bytes b0 b1 : is_byte b0 -> is_byte b1 ->
  exists v, Z.lor (Z.shiftl b0 8) b1 = v /\ 0 <= v < 65536 /\ [b0; b1] = be_16 v.
Proof using.
  intros H0 H1. exists (b0 * 256 + b1). rewrite shiftl_lor_add by (change (2 ^ 8) with 256; lia). change (2 ^ 8) with 256.
  split; [done|]. split; [lia|]. unfold be_16. f_equal; [|f_equal]; Z.to_euclidean_division_equations; lia.
Qed.

Lemma parse_uint16_app pre v post i :
  i = zlen pre -> 0 <= v < 65536 -> ngx_proxy_protocol_parse_uint16 (pre ++ be_16 v ++ post) i = Ok v.
Proof using.
  intros -> Hv. unfold ngx_proxy_protocol_parse_uint16, be_16. rewrite <- (Z.add_0_r (zlen pre)) at 1.
  rewrite !get_app_r by lia. cbn [app]. rewrite get_cons_0, Ok_bind. rewrite get_cons_S by lia. change (1 - 1) with 0. rewrite get_cons_0, Ok_bind.
  rewrite shiftl_lor_add by (change (2 ^ 8) with 256; Z.to_euclidean_division_equations; lia). change (2 ^ 8) with 256.
  f_equal. Z.to_euclidean_division_equations. lia.
Qed.

Lemma inet_printed src : bytes src -> length src = 4%nat ->
  ngx_sock_ntop (AF_INET (in_addr src) 0) 113 113 false = Ok (inet_text src, zlen (inet_text src)).
Proof using.
  intros Hb Hl. destruct src as [|a [|b [|c [|d [|]]]]]; try done.
  replace (in_addr [a; b; c; d]) with (u32_of_bytes [a; b; c; d]) by (cbn [in_addr u32_of_bytes foldr]; lia).
  cbn [ngx_sock_ntop]. rewrite bytes_of_u32_of_bytes by done. change (print_in [a; b; c; d]) with (Ok [A32 a; A32 b; A32 c; A32 d]).
  rewrite Ok_bind, print_inet, Ok_bind by (done || lia). done.
Qed.

Lemma inet6_printed src : bytes src -> length src = 16%nat ->
  exists text, ngx_inet_ntop false src 113 = Ok text /\ ngx_sock_ntop (AF_INET6 src 0) 113 113 false = Ok (text, zlen text).
Proof using.
  intros Hb Hl. destruct (ntop_form src Hb Hl 113 113 []) as (text & H & _); [lia|change (zlen (@nil Z)) with 0; lia|].
  exists text. split; [exact H|]. cbn [ngx_sock_ntop]. by rewrite Ok_bind, H, !Ok_bind.
Qed.

Lemma take_zlen (l : list Z) : take (Z.to_nat (zlen l)) l = l.
Proof using. rewrite take_ge; [done|unfold zlen; lia]. Qed.

Lemma v2_fields (n : nat) payload :
  bytes payload -> 2 * Z.of_nat n + 4 <= zlen payload ->
  exists src dst sp dp tlvs, payload = src ++ dst ++ be_16 sp ++ be_16 dp ++ tlvs /\ length src = n /\ length dst = n /\
    0 <= sp < 65536 /\ 0 <= dp < 65536 /\ bytes src /\ bytes dst.
Proof using.
  intros Hb Hl. exists (take n payload), (take n (drop n payload)).
  assert (length (drop n (drop n payload)) = length payload - n - n)%nat as Hd by (by rewrite !length_drop). unfold zlen in Hl.
  pose proof (take_drop n (drop n payload)) as E2. pose proof (take_drop n payload) as E1.
  assert (bytes (drop n (drop n payload))) as Hr by (by repeat apply Forall_drop).
  destruct (drop n (drop n payload)) as [|a [|b [|c [|d tlvs]]]]; cbn in Hd; try lia.
  apply Forall_cons_1 in Hr as [Ha Hr]. apply Forall_cons_1 in Hr as [Hb' Hr]. apply Forall_cons_1 in Hr as [Hc Hr]. apply Forall_cons_1 in Hr as [Hd' Hr].
  destruct (be_16_bytes a b Ha Hb') as (sp & _ & Hsp & Esp). destruct (be_16_bytes c d Hc Hd') as (dp & _ & Hdp & Edp).
  exists sp, dp, tlvs. rewrite <- Esp, <- Edp. split.
  { rewrite <- E1 at 1. f_equal. rewrite <- E2 at 1. done. }
  rewrite !length_take, length_drop. split; [lia|]. split; [lia|]. split; [done|]. split; [done|].
  split; [by apply Forall_take|by apply Forall_take, Forall_drop].
Qed.

Lemma fields_read (n : nat) src dst sp dp post :
  length src = n -> length dst = n -> 0 <= sp < 65536 -> 0 <= dp < 65536 ->
  let buf := src ++ dst ++ be_16 sp ++ be_16 dp ++ post in
  slice buf 0 (Z.of_nat n) = Ok src /\ slice buf (Z.of_nat n) (Z.of_nat n) = Ok dst /\
  ngx_proxy_protocol_parse_uint16 buf (2 * Z.of_nat n) = Ok sp /\ ngx_proxy_protocol_parse_uint16 buf (2 * Z.of_nat n + 2) = Ok dp.
Proof using.
  intros H1 H2 Hsp Hdp buf. unfold buf. split_and!.
  - apply (slice_app [] src); [done|unfold zlen; lia].
  - apply slice_app; unfold zlen; lia.
  - rewrite app_assoc. apply parse_uint16_app; [rewrite zlen_app; unfold zlen; lia|done].
  - rewrite !app_assoc, <- (app_assoc _ (be_16 dp)). apply parse_uint16_app; [|done].
    rewrite !zlen_app. change (zlen (be_16 sp)) with 2. unfold zlen. lia.
Qed.

Lemma v2_read_sound b :
  bytes b -> 16 <= zlen b -> take 12 b = signature ->
  sound (fun b rest pp => exists h, b = h ++ rest /\ header h pp) b (ngx_proxy_protocol_v2_read palloc b).
Proof using Hp.
  intros Hb Hl Hsig.
  assert (exists vc ft l0 l1 buf, b = signature ++ [vc; ft; l0; l1] ++ buf) as (vc & ft & l0 & l1 & buf & ->).
  { assert (length (drop 12 b) = length b - 12)%nat as Hd by apply length_drop. unfold zlen in Hl.
    rewrite <- (take_drop 12 b), Hsig. destruct (drop 12 b) as [|vc [|ft [|l0 [|l1 buf]]]]; cbn in Hd; try lia. by exists vc, ft, l0, l1, buf. }
  clear Hsig Hl. apply Forall_app in Hb as [_ Hb]. apply Forall_cons_1 in Hb as [Hvc Hb]. apply Forall_cons_1 in Hb as [Hft Hb].
  apply Forall_cons_1 in Hb as [Hl0 Hb]. apply Forall_cons_1 in Hb as [Hl1 Hb].
  unfold ngx_proxy_protocol_v2_read. change 12 with (zlen signature + 0) at 1. rewrite get_app_r by lia. cbn [app]. rewrite get_cons_0, Ok_bind.
  change 13 with (zlen signature + 1) at 1. rewrite get_app_r by lia. rewrite get_cons_S by lia. change (1 - 1) with 0. rewrite get_cons_0, Ok_bind.
  change (drop 16 (signature ++ vc :: ft :: l0 :: l1 :: buf)) with buf.
  destruct (Z.eqb_spec (Z.shiftr vc 4) 2) as [Hv|]; cbn [negb]; [|done].
  destruct (be_16_bytes l0 l1 Hl0 Hl1) as (len & Hlen & Hr & Hbytes).
  assert (ngx_proxy_protocol_parse_uint16 (signature ++ vc :: ft :: l0 :: l1 :: buf) 14 = Ok len) as ->.
  { change (signature ++ vc :: ft :: l0 :: l1 :: buf) with ((signature ++ [vc; ft]) ++ [l0; l1] ++ buf).
    rewrite Hbytes. by apply parse_uint16_app. }
  rewrite Ok_bind. destruct (Z.ltb_spec (zlen buf) len) as [|Hfit]; [done|].
  set (payload := take (Z.to_nat len) buf). set (rest := drop (Z.to_nat len) buf).
  assert (buf = payload ++ rest) as Hbuf by (symmetry; apply take_drop).
  assert (zlen payload = len) as Hpl by (apply zlen_take; lia).
  assert (bytes payload) as Hpb by (by apply Forall_take).
  change 0x0f with (Z.ones 4). rewrite !Z.land_ones by lia. change (2 ^ 4) with 16.
  rewrite Z.shiftr_div_pow2 in * by lia. change (2 ^ 4) with 16 in *.
  assert (forall pp, v2_content (vc mod 16) (ft / 16) (ft mod 16) payload pp ->
    exists h, signature ++ vc :: ft :: l0 :: l1 :: buf = h ++ rest /\ header h pp) as Hgood.
  { intros pp Hpp. exists (signature ++ [0x20 + vc mod 16; 16 * (ft / 16) + ft mod 16] ++ be_16 (zlen payload) ++ payload). split.
    - rewrite Hpl, <- Hbytes, <- !app_assoc, <- Hbuf. cbn [app]. repeat f_equal; Z.to_euclidean_division_equations; lia.
    - constructor; try done; try (Z.to_euclidean_division_equations; lia). }
  destruct (Z.eqb_spec (vc mod 16) 1) as [Hc|Hc]; cbn [negb].
  2:{ apply Hgood. unfold v2_content. by destruct (Z.eqb_spec (vc mod 16) 1). }
  destruct (Z.eqb_spec (ft mod 16) 1) as [Ht|Ht]; cbn [negb].
  2:{ apply Hgood. unfold v2_content. destruct (Z.eqb_spec (ft mod 16) 1); [done|]. by rewrite andb_false_r. }
  rewrite !Hp. cbn [negb]. unfold v2_content in Hgood. rewrite Hc, Ht in Hgood. cbn [Z.eqb Pos.eqb andb negb] in Hgood.
  unfold v2_addrs, NGX_PROXY_PROTOCOL_AF_INET, NGX_PROXY_PROTOCOL_AF_INET6, NGX_SOCKADDR_STRLEN.
  destruct (Z.eqb_spec (ft / 16) 1) as [Hf1|Hf1]; [|destruct (Z.eqb_spec (ft / 16) 2) as [Hf2|Hf2]; [|by apply Hgood]].
  - destruct (Z.ltb_spec len 12) as [|H12]; [done|]. clearbody payload rest.
    destruct (v2_fields 4 payload Hpb) as (src & dst & sp & dp & tlvs & E & Hs & Hd & Hsp & Hdp & Bs & Bd); [lia|].
    pose proof (fields_read 4 src dst sp dp (tlvs ++ rest) Hs Hd Hsp Hdp) as (R1 & R2 & R3 & R4). cbv zeta in *.
    rewrite Hbuf, E, <- !app_assoc in *. change (2 * Z.of_nat 4) with 8 in *. change (Z.of_nat 4) with 4 in *. change (8 + 2) with 10 in *.
    rewrite R1, Ok_bind, R2, Ok_bind, R3, Ok_bind, R4, !Ok_bind.
    cbv beta iota. rewrite (inet_printed src), Ok_bind by done. cbv beta iota. rewrite (inet_printed dst), Ok_bind by done. cbv beta iota.
    rewrite !take_zlen. apply Hgood. exists src, dst, sp, dp, tlvs. split_and!; done || lia.
  - destruct (Z.ltb_spec len 36) as [|H36]; [done|]. clearbody payload rest.
    destruct (v2_fields 16 payload Hpb) as (src & dst & sp & dp & tlvs & E & Hs & Hd & Hsp & Hdp & Bs & Bd); [lia|].
    pose proof (fields_read 16 src dst sp dp (tlvs ++ rest) Hs Hd Hsp Hdp) as (R1 & R2 & R3 & R4). cbv zeta in *.
    rewrite Hbuf, E, <- !app_assoc in *. change (2 * Z.of_nat 16) with 32 in *. change (Z.of_nat 16) with 16 in *. change (32 + 2) with 34 in *.
    destruct (inet6_printed src Bs Hs) as (st & Hst & St). destruct (inet6_printed dst Bd Hd) as (dt & Hdt & Dt).
    rewrite R1, Ok_bind, R2, Ok_bind, R3, Ok_bind, R4, !Ok_bind.
    cbv beta iota. rewrite St, Ok_bind. cbv beta iota. rewrite Dt, Ok_bind. cbv beta iota.
    rewrite !take_zlen. apply Hgood. exists src, dst, sp, dp, tlvs, st, dt. split_and!; done || lia.
Qed.

Lemma v2_read_complete command family transport payload pp rest :
  0 <= command < 16 -> 0 <= family < 16 -> 0 <= transport < 16 -> zlen payload < 65536 -> bytes payload ->
  v2_content command family transport payload pp ->
  ngx_proxy_protocol_v2_read palloc
    (signature ++ [0x20 + command; 16 * family + transport] ++ be_16 (zlen payload) ++ payload ++ rest) = Ok (Some rest, pp).
Proof using Hp.
  intros Hc Hf Ht Hl Hb Hpp. pose proof (zlen_nonneg payload). unfold ngx_proxy_protocol_v2_read.
  set (x := 0x20 + command). set (y := 16 * family + transport).
  change 12 with (zlen signature + 0) at 1. rewrite get_app_r by lia. cbn [app]. rewrite get_cons_0, Ok_bind.
  change 13 with (zlen signature + 1) at 1. rewrite get_app_r by lia. rewrite get_cons_S by lia. change (1 - 1) with 0. rewrite get_cons_0, Ok_bind.
  change (drop 16 (signature ++ x :: y :: be_16 (zlen payload) ++ payload ++ rest)) with (payload ++ rest).
  rewrite Z.shiftr_div_pow2 by lia. change (2 ^ 4) with 16. replace (x / 16) with 2 by (unfold x; Z.to_euclidean_division_equations; lia).
  change (negb (2 =? 2)) with false. cbv iota.
  change (signature ++ x :: y :: be_16 (zlen payload) ++ payload ++ rest) with ((signature ++ [x; y]) ++ be_16 (zlen payload) ++ payload ++ rest).
  rewrite parse_uint16_app, Ok_bind by (done || lia).
  rewrite zlen_app. pose proof (zlen_nonneg rest). destruct (Z.ltb_spec (zlen payload + zlen rest) (zlen payload)); [lia|].
  assert (drop (Z.to_nat (zlen payload)) (payload ++ rest) = rest) as -> by (apply drop_app_length'; unfold zlen; lia).
  change 0x0f with (Z.ones 4). rewrite !Z.land_ones, Z.shiftr_div_pow2 by lia. change (2 ^ 4) with 16.
  replace (x mod 16) with command by (unfold x; Z.to_euclidean_division_equations; lia).
  replace (y mod 16) with transport by (unfold y; Z.to_euclidean_division_equations; lia).
  replace (y / 16) with family by (unfold y; Z.to_euclidean_division_equations; lia).
  unfold v2_content in Hpp. destruct (Z.eqb_spec command 1); cbn [negb andb] in *; [|by subst].
  destruct (Z.eqb_spec transport 1); cbn [negb andb] in *; [|by subst]. rewrite !Hp. cbn [negb].
  unfold v2_addrs, NGX_PROXY_PROTOCOL_AF_INET, NGX_PROXY_PROTOCOL_AF_INET6, NGX_SOCKADDR_STRLEN.
  destruct (Z.eqb_spec family 1); [|destruct (Z.eqb_spec family 2); [|by subst]].
  - destruct Hpp as (src & dst & sp & dp & tlvs & -> & Hs & Hd & Hsp & Hdp & ->).
    apply Forall_app in Hb as [Bs Hb]. apply Forall_app in Hb as [Bd _].
    destruct (Z.ltb_spec (zlen (src ++ dst ++ be_16 sp ++ be_16 dp ++ tlvs)) 12) as [H12|_].
    { rewrite !zlen_app in H12. change (zlen (be_16 sp)) with 2 in H12. change (zlen (be_16 dp)) with 2 in H12.
      pose proof (zlen_nonneg tlvs). unfold zlen in *. lia. }
    rewrite <- !app_assoc.
    pose proof (fields_read 4 src dst sp dp (tlvs ++ rest) Hs Hd Hsp Hdp) as (R1 & R2 & R3 & R4). cbv zeta in *.
    change (2 * Z.of_nat 4) with 8 in *. change (Z.of_nat 4) with 4 in *. change (8 + 2) with 10 in *.
    rewrite R1, Ok_bind, R2, Ok_bind, R3, Ok_bind, R4, !Ok_bind.
    cbv beta iota. rewrite (inet_printed src), Ok_bind by done. cbv beta iota. rewrite (inet_printed dst), Ok_bind by done. cbv beta iota.
    by rewrite !take_zlen.
  - destruct Hpp as (src & dst & sp & dp & tlvs & st & dt & -> & Hs & Hd & Hsp & Hdp & Es & Ed & ->).
    apply Forall_app in Hb as [Bs Hb]. apply Forall_app in Hb as [Bd _].
    destruct (Z.ltb_spec (zlen (src ++ dst ++ be_16 sp ++ be_16 dp ++ tlvs)) 36) as [H36|_].
    { rewrite !zlen_app in H36. change (zlen (be_16 sp)) with 2 in H36. change (zlen (be_16 dp)) with 2 in H36.
      pose proof (zlen_nonneg tlvs). unfold zlen in *. lia. }
    rewrite <- !app_assoc.
    pose proof (fields_read 16 src dst sp dp (tlvs ++ rest) Hs Hd Hsp Hdp) as (R1 & R2 & R3 & R4). cbv zeta in *.
    change (2 * Z.of_nat 16) with 32 in *. change (Z.of_nat 16) with 16 in *. change (32 + 2) with 34 in *.
    destruct (inet6_printed src Bs Hs) as (st' & Hst & St). destruct (inet6_printed dst Bd Hd) as (dt' & Hdt & Dt).
    rewrite Es in Hst. injection Hst as <-. rewrite Ed in Hdt. injection Hdt as <-.
    rewrite R1, Ok_bind, R2, Ok_bind, R3, Ok_bind, R4, !Ok_bind.
    cbv beta iota. rewrite St, Ok_bind. cbv beta iota. rewrite Dt, Ok_bind. cbv beta iota. by rewrite !take_zlen.
Qed.

(** ** Both versions *)

Lemma version_check b :
  (if 16 <=? zlen b then l ← slice b 0 12; Ok (beq l signature) else Ok false) =
  Ok (bool_decide (16 <= zlen b /\ take 12 b = signature)).
Proof using.
  destruct (Z.leb_spec 16 (zlen b)) as [H|H].
  - unfold slice. destruct (Z.leb_spec (0 + 12) (zlen b)); [|lia]. cbn [Z.leb Z.compare andb]. rewrite Ok_bind.
    change (drop (Z.to_nat 0) b) with b. change (Z.to_nat 12) with 12%nat. unfold beq. f_equal. apply bool_decide_ext. tauto.
  - by rewrite bool_decide_false by lia.
Qed.

Lemma keyword m b : zlen m <= zlen b ->
  exists found, strncmp_eq b 0 m = Ok found /\
    (found = true -> b = m ++ drop (length m) b) /\ (forall r, b = m ++ r -> found = true).
Proof using.
  intros H. exists (bool_decide (take (length m) b = m)). split; [by apply strncmp_start|]. split.
  - intros E. apply bool_decide_eq_true in E. rewrite <- E at 1. by rewrite take_drop.
  - intros r ->. apply bool_decide_eq_true. by rewrite take_app_length.
Qed.

Lemma proxy_read_sound b :
  bytes b -> sound (fun b rest pp => exists h, b = h ++ rest /\ header h pp) b (ngx_proxy_protocol_read palloc b).
Proof using Hp.
  intros Hb. unfold ngx_proxy_protocol_read. rewrite version_check, Ok_bind.
  destruct (bool_decide (16 <= zlen b /\ take 12 b = signature)) eqn:Ev.
  { apply bool_decide_eq_true in Ev as [H1 H2]. by apply v2_read_sound. }
  clear Ev. destruct (Z.ltb_spec (zlen b) 8) as [|H8]; [done|].
  destruct (keyword (str "PROXY ") b) as (found & -> & Hf & _); [change (zlen (str "PROXY ")) with 6; lia|]. rewrite Ok_bind.
  destruct found; cbn [negb]; [|done]. specialize (Hf eq_refl). change (length (str "PROXY ")) with 6%nat in Hf.
  assert (zlen b - 6 = zlen (drop 6 b)) as ->
    by (pose proof (f_equal zlen Hf) as E; rewrite zlen_app in E; change (zlen (str "PROXY ")) with 6 in E; lia).
  set (p := drop 6 b) in *. clearbody p. subst b.
  assert (exists unknown, (if 7 <=? zlen p then strncmp_eq p 0 (str "UNKNOWN") else Ok false) = Ok unknown /\
    (unknown = true -> p = str "UNKNOWN" ++ drop 7 p)) as (unknown & -> & Hu).
  { destruct (Z.leb_spec 7 (zlen p)); [|by exists false]. destruct (keyword (str "UNKNOWN") p) as (u & E & Hu & _); [done|]. by exists u. }
  rewrite Ok_bind. destruct unknown.
  { specialize (Hu eq_refl). destruct (skip_line (drop 7 p)) as [rest|] eqn:Es; [|done].
    apply skip_line_spec in Es as (line & Es & Hno). rewrite Es in Hu. exists (str "PROXY UNKNOWN" ++ line ++ [CR; LF]). rewrite Hu.
    split; [by rewrite <- !app_assoc|by constructor]. }
  clear Hu. destruct (Z.ltb_spec (zlen p) 5) as [|H5]; [done|].
  destruct (keyword (str "TCP") p) as (found & -> & Hf & _); [change (zlen (str "TCP")) with 3; lia|]. rewrite Ok_bind.
  destruct found; cbn [negb]; [|done]. specialize (Hf eq_refl). change (length (str "TCP")) with 3%nat in Hf.
  assert (exists c3 c4 q, p = str "TCP" ++ c3 :: c4 :: q) as (c3 & c4 & q & ->).
  { assert (zlen (drop 3 p) = zlen p - 3) as Hd
      by (pose proof (f_equal zlen Hf) as E; rewrite zlen_app in E; change (zlen (str "TCP")) with 3 in E; lia).
    destruct (drop 3 p) as [|c3 [|c4 q]]; [change (zlen (@nil Z)) with 0 in Hd; lia|change (zlen [c3]) with 1 in Hd; lia|eauto]. }
  clear Hf H5. change (get (str "TCP" ++ c3 :: c4 :: q) 3) with (Ok c3). change (get (str "TCP" ++ c3 :: c4 :: q) 4) with (Ok c4).
  rewrite !Ok_bind. change (drop 5 (str "TCP" ++ c3 :: c4 :: q)) with q.
  assert (negb (c3 =? "4"%chr) && negb (c3 =? "6"%chr) = false -> c3 = "4"%chr \/ c3 = "6"%chr) as H3.
  { destruct (Z.eqb_spec c3 "4"%chr); [by left|]. destruct (Z.eqb_spec c3 "6"%chr); [by right|done]. }
  destruct (negb (c3 =? "4"%chr) && negb (c3 =? "6"%chr)); [done|].
  destruct (Z.eqb_spec c4 " "%chr) as [->|]; cbn [negb]; [|done].
  pose proof (read_tcp_sound q) as Hs. unfold sound in *. destruct (read_tcp palloc q) as [[[rest|] pp]| |]; [|done..].
  destruct Hs as (src & dst & sp & dp & v & w & -> & A1 & A2 & P1 & P2 & ->). eexists. split; [|by apply (Header_tcp c3 src dst sp dp v w); auto].
  change (str " ") with [" "%chr]. rewrite <- !app_assoc. done.
Qed.

Lemma proxy_read_complete h rest pp :
  bytes h -> header h pp -> ngx_proxy_protocol_read palloc (h ++ rest) = Ok (Some rest, pp).
Proof using Hp.
  intros Hb Hh. unfold ngx_proxy_protocol_read. rewrite version_check, Ok_bind.
  destruct Hh as [line Hno|family src dst sp dp v w Hfam A1 A2 P1 P2|command family transport payload pp Hc Hf Ht Hl Hpp].
  - rewrite bool_decide_eq_false_2 by (intros [_ E]; discriminate E). rewrite <- !app_assoc.
    change (str "PROXY UNKNOWN" ++ ?x) with (str "PROXY " ++ str "UNKNOWN" ++ x). cbn [app]. set (q := line ++ CR :: LF :: rest).
    pose proof (zlen_nonneg q). rewrite !zlen_app. change (zlen (str "PROXY ")) with 6. change (zlen (str "UNKNOWN")) with 7.
    destruct (Z.ltb_spec (6 + (7 + zlen q)) 8); [lia|].
    rewrite (strncmp_start (str "PROXY ")), Ok_bind by (rewrite !zlen_app; change (zlen (str "PROXY ")) with 6; change (zlen (str "UNKNOWN")) with 7; lia).
    change (take (length (str "PROXY ")) (str "PROXY " ++ str "UNKNOWN" ++ q)) with (str "PROXY "). rewrite bool_decide_true by done. cbn [negb].
    change (drop 6 (str "PROXY " ++ str "UNKNOWN" ++ q)) with (str "UNKNOWN" ++ q).
    destruct (Z.leb_spec 7 (6 + (7 + zlen q) - 6)); [|lia].
    rewrite (strncmp_start (str "UNKNOWN")), Ok_bind by (rewrite zlen_app; change (zlen (str "UNKNOWN")) with 7; lia).
    change (take (length (str "UNKNOWN")) (str "UNKNOWN" ++ q)) with (str "UNKNOWN"). rewrite bool_decide_true by done.
    change (drop 7 (str "UNKNOWN" ++ q)) with q. by rewrite (proj2 (skip_line_spec q rest)) by (by exists line).
  - rewrite bool_decide_eq_false_2 by (intros [_ E]; discriminate E). rewrite <- !app_assoc.
    change (str "PROXY TCP" ++ ?x) with (str "PROXY " ++ str "TCP" ++ x). set (q := str " " ++ _). cbn [app].
    assert (tcp_form (drop 1 q) rest (Some (PP src dst v w))) as Hform.
    { exists src, dst, sp, dp, v, w. by split_and!. }
    assert (q = " "%chr :: drop 1 q) as Hq by done. clearbody q. set (t := drop 1 q) in *. clearbody t. subst q.
    pose proof (zlen_nonneg t). rewrite !zlen_app, !zlen_cons. change (zlen (str "PROXY ")) with 6. change (zlen (str "TCP")) with 3.
    destruct (Z.ltb_spec (6 + (3 + (1 + (1 + zlen t)))) 8); [lia|].
    rewrite (strncmp_start (str "PROXY ")), Ok_bind by (rewrite !zlen_app, !zlen_cons; change (zlen (str "PROXY ")) with 6; change (zlen (str "TCP")) with 3; lia).
    change (take (length (str "PROXY ")) (str "PROXY " ++ ?x)) with (str "PROXY "). rewrite bool_decide_true by done. cbn [negb].
    change (drop 6 (str "PROXY " ++ ?x)) with x.
    assert ((if 7 <=? 6 + (3 + (1 + (1 + zlen t))) - 6 then strncmp_eq (str "TCP" ++ family :: " "%chr :: t) 0 (str "UNKNOWN") else Ok false) = Ok false) as ->.
    { by destruct (7 <=? _). }
    rewrite Ok_bind. destruct (Z.ltb_spec (6 + (3 + (1 + (1 + zlen t))) - 6) 5); [lia|].
    change (strncmp_eq (str "TCP" ++ family :: " "%chr :: t) 0 (str "TCP")) with (Ok true). rewrite Ok_bind. cbn [negb].
    change (get (str "TCP" ++ family :: " "%chr :: t) 3) with (Ok family). change (get (str "TCP" ++ family :: " "%chr :: t) 4) with (Ok " "%chr).
    rewrite !Ok_bind. assert (negb (family =? "4"%chr) && negb (family =? "6"%chr) = false) as -> by (by destruct Hfam; subst).
    change (negb (" "%chr =? " "%chr)) with false. cbv iota. change (drop 5 (str "TCP" ++ family :: " "%chr :: t)) with t.
    by apply read_tcp_complete.
  - rewrite bool_decide_eq_true_2.
    2:{ split; [|done]. rewrite !zlen_app. change (zlen signature) with 12. pose proof (zlen_nonneg payload). pose proof (zlen_nonneg rest).
        change (zlen (be_16 (zlen payload))) with 2. change (zlen [0x20 + command; 16 * family + transport]) with 2. lia. }
    rewrite <- !app_assoc. apply v2_read_complete; try done. apply Forall_app in Hb as [_ Hb]. apply Forall_app in Hb as [_ Hb]. by apply Forall_app in Hb as [_ Hb].
Qed.
End read.

(** ** Headers of the PROXY protocol are read back

    What [ngx_proxy_protocol_read] accepts, as theorems, and that it reads the header that
    [ngx_proxy_protocol_write] writes. *)

(** ** Printed addresses and ports *)

Lemma print_ports cap sp dp :
  0 <= sp < 65536 -> 0 <= dp < 65536 -> 14 <= cap ->
  ngx_vslprintf cap (str " %ui %ui" ++ [CR; LF]) [A64 sp; A64 dp]
  = Ok (str " " ++ num 0 sp ++ str " " ++ num 0 dp ++ [CR; LF]).
Proof.
  intros Hs Hd Hc. pose proof (num_port sp Hs). pose proof (num_port dp Hd).
  change (ngx_vslprintf cap ?f ?a) with (ngx_snprintf cap f a). num_start. do 6 num_step.
  cbn [vslprintf_loop]. by rewrite <- !app_assoc.
Qed.

Lemma addr_char_text l : Forall addr_char l -> addr_text l.
Proof.
  intros H. eapply Forall_impl; [exact H|]. intros c [->|[->|[w Hw]]]; [done|done|]. unfold is_addr_char.
  unfold hex_digit in Hw. destruct (between "0"%chr "9"%chr c); [by rewrite !orb_true_r|].
  destruct (between "a"%chr "f"%chr c); [by rewrite !orb_true_r|]. destruct (between "A"%chr "F"%chr c); [by rewrite !orb_true_r|done].
Qed.

Lemma port_num v : 0 <= v < 65536 -> port_text (num 0 v) v.
Proof.
  intros Hv. split; [|lia]. pose proof (port_read v Hv) as H. rewrite ngx_atoi_decimal in H.
  destruct (decimal (num 0 v)) as [w|]; cbn in H; [congruence|]. injection H as H. unfold NGX_ERROR in H. lia.
Qed.

Lemma addr_char_bytes l : Forall addr_char l -> bytes l.
Proof.
  intros H. eapply Forall_impl; [exact H|]. intros c [->|[->|[w Hw]]]; [lia|lia|]. unfold hex_digit, between in Hw.
  repeat case_match; try done; lia.
Qed.

(** An IPv4 or IPv6 address with a port. *)
Definition sock_inet (sa : ngx_sockaddr_t) : Prop :=
  sock_ok sa /\
  match sa with
  | AF_INET _ port | AF_INET6 _ port => 0 <= port < 65536
  | AF_UNIX _ => False
  end.

(** The addresses whose text ends in 255.255.255.255, which [ngx_inet_addr] cannot tell from
    an error. *)
Definition unreadable (sa : ngx_sockaddr_t) : Prop :=
  match sa with
  | AF_INET a _ => bytes_of_u32 a = all_ones
  | AF_INET6 p _ => v4_ones p
  | AF_UNIX _ => False
  end.

(** What [ngx_parse_addr] makes of the text of an address. *)
Definition text_of (text : list Z) (sa : ngx_sockaddr_t) : Prop :=
  (~ unreadable sa -> ngx_parse_addr true text = Ok (NGX_OK, Some (ngx_inet_set_port sa 0))) /\
  (unreadable sa -> ngx_parse_addr true text = Ok (NGX_DECLINED, None)).

(** The text of an address without its port. *)
Lemma sock_text sa room :
  sock_inet sa -> 53 <= room ->
  exists text, ngx_sock_ntop sa room room false = Ok (text, zlen text) /\ zlen text <= 39 /\ addr_text text /\ bytes text /\
    text_of text sa.
Proof.
  intros [Hok Hport] Hroom. unfold text_of. destruct sa as [a port|p port|path]; [| |done]; cbn [unreadable].
  - destruct (u32_bytes a Hok) as [Hb Ha]. cbn [ngx_sock_ntop].
    assert (exists x y z w, bytes_of_u32 a = [x; y; z; w]) as (x & y & z & w & E) by (by do 4 eexists).
    rewrite E in *. change (print_in [x; y; z; w]) with (Ok [A32 x; A32 y; A32 z; A32 w]).
    rewrite !Ok_bind, print_inet, Ok_bind by (done || lia). exists (inet_text [x; y; z; w]). split; [done|].
    pose proof (inet_text_length _ Hb). split; [lia|]. pose proof (inet_text_chars _ Hb) as Hc.
    split; [by apply addr_char_text|]. split; [by apply addr_char_bytes|]. split.
    + intros Hne. destruct (parse_inet [x; y; z; w] [] Hb eq_refl Hne) as [-> _]. by rewrite Ha.
    + intros ->. by vm_compute.
  - destruct Hok as [Hp Hl].
    destruct (ntop_form p Hp Hl room room []) as (text & Ht & Hz & Hf); [lia|change (zlen (@nil Z)) with 0; lia|].
    exists text. cbn [ngx_sock_ntop]. rewrite Ok_bind, Ht, !Ok_bind. split; [done|]. split; [done|].
    destruct (form_chars p text Hp Hl Hf) as [Hcolon Hc]. split; [by apply addr_char_text|]. split; [by apply addr_char_bytes|].
    split; [intros Hne; by apply parse_inet6|]. intros Hv.
    destruct (ones_rejected p room room ltac:(lia) ltac:(lia) Hp Hv) as (text' & Ht' & _ & Hrej).
    rewrite Ht in Ht'. injection Ht' as <-. unfold ngx_parse_addr.
    rewrite inet_addr_none by (by apply (not_dotted ":"%chr)). cbn [negb].
    by destruct (Hrej (replicate 16 0) eq_refl) as [buf ->].
Qed.

Lemma inet_port sa : sock_inet sa -> 0 <= ngx_inet_get_port sa < 65536.
Proof. intros [_ H]. destruct sa; [apply htons_range|apply htons_range|done]. Qed.

Lemma proxy_write_ok room client server :
  sock_inet client -> sock_inet server -> 107 <= room ->
  exists f src dst, (f = "4"%chr \/ f = "6"%chr) /\
    let h := str "PROXY TCP" ++ [f] ++ str " " ++ src ++ str " " ++ dst ++ str " " ++ num 0 (ngx_inet_get_port client)
             ++ str " " ++ num 0 (ngx_inet_get_port server) ++ [CR; LF] in
    ngx_proxy_protocol_write room client (Some server) = Ok (Some h) /\ zlen h <= 107 /\
    addr_text src /\ addr_text dst /\ bytes src /\ bytes dst /\
    text_of src client /\ text_of dst server.
Proof.
  intros Hc Hs Hroom. unfold ngx_proxy_protocol_write, NGX_PROXY_PROTOCOL_MAX_HEADER. destruct (Z.ltb_spec room 107); [lia|].
  pose proof (inet_port client Hc) as Pc. pose proof (inet_port server Hs) as Ps.
  pose proof (num_port _ Pc). pose proof (num_port _ Ps).
  assert (exists f, (f = "4"%chr \/ f = "6"%chr) /\ write_family client = Some (str "PROXY TCP" ++ [f] ++ str " ")) as (f & Hf & ->).
  { destruct client; [exists "4"%chr; auto|exists "6"%chr; auto|by destruct Hc]. }
  set (head := str "PROXY TCP" ++ [f] ++ str " "). assert (zlen head = 11) as Hh by done.
  destruct (sock_text client (room - zlen head) Hc) as (src & -> & Zs & As & Bs & Es); [lia|]. rewrite Ok_bind. cbv beta iota.
  rewrite take_zlen. rewrite write_at_ok, Ok_bind by (rewrite zlen_app; change (zlen (str " ")) with 1; lia).
  set (out := (head ++ src) ++ str " "). assert (zlen out = 12 + zlen src) as Ho by (unfold out; rewrite !zlen_app; change (zlen (str " ")) with 1; lia).
  destruct (sock_text server (room - zlen out) Hs) as (dst & -> & Zd & Ad & Bd & Ed); [lia|]. rewrite Ok_bind. cbv beta iota.
  rewrite take_zlen, print_ports, Ok_bind by (done || (rewrite zlen_app; lia)).
  exists f, src, dst. split; [exact Hf|]. cbv zeta. split; [unfold out, head; by rewrite <- !app_assoc|].
  split; [|done]. rewrite !zlen_app. change (zlen (str "PROXY TCP")) with 9. change (zlen [f]) with 1. change (zlen (str " ")) with 1.
  change (zlen [CR; LF]) with 2. lia.
Qed.

(** ** The theorems *)

(** C25: PROXY protocol, if allocations succeed. A header that [ngx_proxy_protocol_write]
    writes, into a buffer of 107 bytes or more, for a client and a server with any IPv4 or
    IPv6 addresses, fits, and [ngx_proxy_protocol_read] reads the texts of the two addresses
    and the ports from it and returns the place behind it, whatever follows.
    [ngx_parse_addr] reads the addresses from these texts, except that it declines
    255.255.255.255, also behind ::ffff: or two colons. For a client behind a Unix domain
    socket, the header says that it is unknown. *)
Theorem proxy_header_roundtrip palloc room client server rest :
  (forall n, palloc n = true) -> sock_inet client -> sock_inet server -> 107 <= room ->
  (exists h src dst, ngx_proxy_protocol_write room client (Some server) = Ok (Some h) /\ zlen h <= 107 /\
    ngx_proxy_protocol_read palloc (h ++ rest) =
      Ok (Some rest, Some (PP src dst (ngx_inet_get_port client) (ngx_inet_get_port server))) /\
    text_of src client /\ text_of dst server) /\
  (forall path, exists h, ngx_proxy_protocol_write room (AF_UNIX path) (Some server) = Ok (Some h) /\ zlen h <= 107 /\
    ngx_proxy_protocol_read palloc (h ++ rest) = Ok (Some rest, None)).
Proof.
  intros Hp Hc Hs Hroom. split.
  - destruct (proxy_write_ok room client server Hc Hs Hroom) as (f & src & dst & Hf & -> & Hl & A1 & A2 & B1 & B2 & P1 & P2).
    eexists _, src, dst. split; [done|]. split; [exact Hl|]. split; [|by split]. apply (proxy_read_complete palloc Hp).
    + rewrite !Forall_app. split_and!; try done; try (by apply bytes_check).
      * destruct Hf as [-> | ->]; by apply bytes_check.
      * by apply addr_char_bytes, num_chars; [pose proof (inet_port client Hc); lia|left].
      * by apply addr_char_bytes, num_chars; [pose proof (inet_port server Hs); lia|left].
    + apply Header_tcp; [done..|by apply port_num, inet_port|by apply port_num, inet_port].
  - intros path. unfold ngx_proxy_protocol_write, NGX_PROXY_PROTOCOL_MAX_HEADER. destruct (Z.ltb_spec room 107); [lia|].
    eexists. split; [done|]. split; [done|]. apply (proxy_read_complete palloc Hp); [by apply bytes_check|].
    apply (Header_unknown []). intros a b H'. by destruct a as [|? [|]].
Qed.

(** C26: [ngx_proxy_protocol_read] accepts exactly the bytes that begin with a PROXY
    protocol header ([header]): text of version 1, with an unknown protocol or with two
    addresses and two ports below 65536, or the binary form of version 2, of which it
    takes the addresses of TCP connections over IPv4 and IPv6 and skips anything else. It
    returns the place behind the header, and reads nothing behind the bytes it is given. *)
Theorem proxy_read_exact palloc b :
  (forall n, palloc n = true) -> bytes b ->
  exists r pp, ngx_proxy_protocol_read palloc b = Ok (r, pp) /\
    match r with
    | Some rest => exists h, b = h ++ rest /\ header h pp
    | None => pp = None
    end /\
    (forall h rest pp', b = h ++ rest -> header h pp' -> r = Some rest /\ pp = pp').
Proof.
  intros Hp Hb. pose proof (proxy_read_sound palloc Hp b Hb) as Hs.
  destruct (ngx_proxy_protocol_read palloc b) as [[r pp]| |] eqn:E; [|done..]. exists r, pp. split; [done|]. split.
  - by destruct r.
  - intros h rest pp' -> Hh. apply Forall_app in Hb as [Hb _]. rewrite (proxy_read_complete palloc Hp h rest pp' Hb Hh) in E.
    by injection E as -> ->.
Qed.

(** ** Examples *)

Lemma proxy_header_roundtrip_witness :
  exists h src dst,
    ngx_proxy_protocol_write 107 (AF_INET 0x0100000a 0x901f) (Some (AF_INET6 (replicate 15 0 ++ [1]) 0x5000)) = Ok (Some h) /\
    ngx_proxy_protocol_read (fun _ => true) (h ++ str "GET /") = Ok (Some (str "GET /"), Some (PP src dst 8080 80)) /\
    ngx_parse_addr true src = Ok (NGX_OK, Some (AF_INET 0x0100000a 0)).
Proof.
  destruct (proxy_header_roundtrip (fun _ => true) 107 (AF_INET 0x0100000a 0x901f) (AF_INET6 (replicate 15 0 ++ [1]) 0x5000) (str "GET /"))
    as [(h & src & dst & H1 & _ & H2 & [H3 _] & _) _].
  - done.
  - split; [split; [lia|reflexivity]|lia].
  - split; [split; [by apply bytes_check|reflexivity]|lia].
  - lia.
  - exists h, src, dst. split; [exact H1|]. split; [exact H2|]. apply H3. intros H. discriminate H.
Defined.

Lemma proxy_read_exact_witness :
  exists r pp, ngx_proxy_protocol_read (fun _ => true) (str "PROXY UNKNOWN x" ++ [CR; LF]) = Ok (r, pp) /\
    (forall h rest pp', str "PROXY UNKNOWN x" ++ [CR; LF] = h ++ rest -> header h pp' -> r = Some rest /\ pp = pp').
Proof.
  destruct (proxy_read_exact (fun _ => true) (str "PROXY UNKNOWN x" ++ [CR; LF])) as (r & pp & H1 & _ & H2).
  - done.
  - by apply bytes_check.
  - exists r, pp. split; [exact H1|exact H2].
Defined.
