(* ===== verification/Resolver.v ===== *)
(** * Names in messages of the domain name system

    From [src/core/ngx_resolver.c]: the queries that are sent, and [ngx_resolver_copy],
    which takes a name out of a response. A pointer into a message is an offset. *)

From S2P Require Import Prelude Sprintf Hpack Inet.

Definition NGX_RESOLVE_A : Z := 1.
Definition NGX_RESOLVE_PTR : Z := 12.
Definition NGX_RESOLVE_AAAA : Z := 28.
Definition NGX_RESOLVE_SRV : Z := 33.

(** [sizeof(ngx_resolver_hdr_t)], [sizeof(ngx_resolver_qs_t)] *)
Definition hdr_size : Z := 12.
Definition qs_size : Z := 4.

(** ** Names in a response *)

Section copy.
(** The message: the bytes from [buf] to [last]. *)
Context (buf : list Z).
Abbreviation last := (zlen buf).

(** [for (i = 0; i < 128; i++)], from [n] rounds before the end. The number of bytes the
    name takes, or [None] if it is invalid. *)
Fixpoint name_scan (n : nat) (p len : Z) : res (option Z) :=
  match n with
  | O => Ok None
  | S n =>
      c ← get buf p;
      let p := p + 1 in
      if c =? 0 then Ok (Some len)
      else if negb (Z.land c 0xc0 =? 0) then
        if negb (Z.land c 0xc0 =? 0xc0) then Ok None
        else if last <=? p then Ok None
        else
          d ← get buf p;
          let p := Z.shiftl (Z.land c 0x3f) 8 + d in
          if last <=? p then Ok None else name_scan n p len
      else
        let len := len + (1 + c) in
        let p := p + c in
        if last <=? p then Ok None else name_scan n p len
  end.

(** The second loop: [dst] are the bytes written into the [room] that was allocated. *)
Fixpoint name_write (fuel : nat) (room src : Z) (dst : list Z) : res (list Z) :=
  match fuel with
  | O => NoFuel
  | S fuel =>
      c ← get buf src;
      let src := src + 1 in
      if c =? 0 then slice dst 0 (zlen dst - 1)
      else if negb (Z.land c 0xc0 =? 0) then
        d ← get buf src;
        name_write fuel room (Z.shiftl (Z.land c 0x3f) 8 + d) dst
      else
        l ← slice buf src c;
        dst ← write_at room dst (map strlow l);
        dst ← write_at room dst (str ".");
        name_write fuel room (src + c) dst
  end.

(** [want] is whether [name] is not [NULL]; the name is the second part of the result.
    What the first loop accepts has 128 steps at most. *)
Definition ngx_resolver_copy (alloc want : bool) (src : Z) : res (Z * option (list Z)) :=
  len ← name_scan 128 src 0;
  match len with
  | None => Ok (NGX_ERROR, None)
  | Some len =>
      if negb want then Ok (NGX_OK, None)
      else if len =? 0 then Ok (NGX_OK, Some [])
      else if negb alloc then Ok (NGX_ERROR, None)
      else name ← name_write 128 len src []; Ok (NGX_OK, Some name)
  end.
End copy.

(** ** Queries

    [query] is the memory at [rn->query]. *)

Definition dns_header (ident : Z) : list Z :=
  [Z.land (Z.shiftr ident 8) 0xff; Z.land ident 0xff; 1; 0; 0; 1; 0; 0; 0; 0; 0; 0].

(** The loop that goes through the name from its end; [s] is what is left of it, the last
    byte first. The flag is [false] if the name is declined. *)
Fixpoint labels_loop (s query : list Z) (p len : Z) : res (bool * list Z * Z * Z) :=
  match s with
  | [] => Ok (true, query, p, len)
  | c :: s =>
      if negb (c =? "."%chr) then
        query ← put query p c;
        labels_loop s query (p - 1) (len + 1)
      else if (len =? 0) || (255 <? len) then Ok (false, query, p, len)
      else
        query ← put query p (u8 len);
        labels_loop s query (p - 1) 0
  end.

Definition name_size (name : list Z) : Z := if zlen name =? 0 then 1 else 1 + zlen name + 1.

(** From the header to the name, for a query of type [qtype]. *)
Definition fill_query (query name : list Z) (ident qtype : Z) : res (Z * list Z) :=
  query ← blit query 0 (dns_header ident);
  let p := hdr_size + name_size name in
  query ← blit query p [0; qtype; 0; 1];
  query ← put query (p - 1) 0;
  let p := p - 2 in
  if zlen name =? 0 then Ok (NGX_DECLINED, query)
  else
    '(ok, query, p, len) ← labels_loop (rev name) query p 0;
    if negb ok then Ok (NGX_DECLINED, query)
    else if (len =? 0) || (255 <? len) then Ok (NGX_DECLINED, query)
    else query ← put query p (u8 len); Ok (NGX_OK, query).

(** [alloc len] is the memory that [ngx_resolver_alloc] returns, with whatever it holds,
    or [None]; [ident] and [ident6] are random. [rn->query6] is [rn->query + len]. *)
Definition ngx_resolver_create_name_query (alloc : Z -> option (list Z)) (ipv6 : bool) (ident ident6 : Z) (name : list Z)
    : res (Z * list Z) :=
  let len := hdr_size + name_size name + qs_size in
  match alloc (if ipv6 then len * 2 else len) with
  | None => Ok (NGX_ERROR, [])
  | Some query =>
      let qlen := u16 len in
      '(rc, query) ← fill_query query name ident NGX_RESOLVE_A;
      if negb (rc =? NGX_OK) then Ok (rc, query)
      else if negb ipv6 then Ok (NGX_OK, query)
      else
        l ← slice query 0 qlen;
        query ← blit query len l;
        query ← blit query len [Z.land (Z.shiftr ident6 8) 0xff; Z.land ident6 0xff];
        query ← put query (len + hdr_size + name_size name + 1) NGX_RESOLVE_AAAA;
        Ok (NGX_OK, query)
  end.

Definition ngx_resolver_create_srv_query (alloc : Z -> option (list Z)) (ident : Z) (name : list Z) : res (Z * list Z) :=
  let len := hdr_size + name_size name + qs_size in
  match alloc len with
  | None => Ok (NGX_ERROR, [])
  | Some query => fill_query query name ident NGX_RESOLVE_SRV
  end.

(** [for (n = 15; n >= 0; n--)], from [n] on down. *)
Fixpoint nibble_labels (n : nat) (s6_addr : list Z) : res (list Z) :=
  match n with
  | O => Ok []
  | S n =>
      b ← get s6_addr (Z.of_nat n);
      l ← ngx_sprintf ([1] ++ str "%xd" ++ [1] ++ str "%xd") [A32 (Z.land b 0xf); A32 (Z.land (Z.shiftr b 4) 0xf)];
      rest ← nibble_labels n s6_addr;
      Ok (l ++ rest)
  end.

(** [for (n = 0; n < 32; n += 8)], [k] rounds before the end. *)
Fixpoint octet_labels (k : nat) (inaddr n : Z) : res (list Z) :=
  match k with
  | O => Ok []
  | S k =>
      d ← ngx_sprintf (str "%ud") [A32 (Z.land (Z.shiftr inaddr n) 0xff)];
      rest ← octet_labels k inaddr (n + 8);
      Ok (u8 (zlen d) :: d ++ rest)
  end.

(** The query for the name of an address; it is as long as what is written. *)
Definition ngx_resolver_create_addr_query (alloc : bool) (ident : Z) (addr : ngx_sockaddr_t) : res (Z * list Z) :=
  let len := match addr with
             | AF_INET6 _ _ => hdr_size + 64 + 10 + qs_size
             | _ => hdr_size + 30 + qs_size
             end in
  if negb alloc then Ok (NGX_ERROR, [])
  else
    out ← write_at len [] (dns_header ident);
    out ← match addr with
          | AF_INET6 s6_addr _ =>
              l ← nibble_labels 16 s6_addr;
              out ← write_at len out l;
              write_at len out ([3] ++ str "ip6" ++ [4] ++ str "arpa" ++ [0])
          | AF_INET s_addr _ =>
              l ← octet_labels 4 (ntohl s_addr) 0;
              out ← write_at len out l;
              write_at len out ([7] ++ str "in-addr" ++ [4] ++ str "arpa" ++ [0])
          | AF_UNIX _ => Fault
          end;
    out ← write_at len out [0; 12; 0; 1];
    Ok (NGX_OK, out).

Example resolver_query :
  (r ← ngx_resolver_create_name_query (fun n => Some (replicate (Z.to_nat n) 7)) false 0x1234 0 (str "www.Example.com");
   ngx_resolver_copy r.2 true true 12) = Ok (NGX_OK, Some (str "www.example.com")).
Proof. vm_compute. reflexivity. Qed.

Example resolver_addr_query :
  (r ← ngx_resolver_create_addr_query true 0x1234 (AF_INET 0x0100000a 0);
   ngx_resolver_copy r.2 true true 12) = Ok (NGX_OK, Some (str "1.0.0.10.in-addr.arpa")).
Proof. vm_compute. reflexivity. Qed.
