(* ===== verification/ResolverSpec.v ===== *)
(** * Names in messages of the domain name system are what they mean

    What a name in a message is, with its labels and compression pointers, that
    [ngx_resolver_copy] finds exactly these, and that it reads the names of the queries
    that [src/core/ngx_resolver.c] makes. *)

From S2P Require Import Prelude NetBytes Sprintf SprintfSpec Hpack Inet InetSpec Inet6Print Resolver.

(** ** Names in messages *)

(** The labels of the name at [p], which takes [k] labels and pointers, with the end. The
    place behind a label and the one a pointer leads to are in the message. *)
Inductive dns_name (buf : list Z) : nat -> Z -> list (list Z) -> Prop :=
| Dns_end p : get buf p = Ok 0 -> dns_name buf 1 p []
| Dns_label k p l ls :
    get buf p = Ok (zlen l) -> 1 <= zlen l < 64 -> slice buf (p + 1) (zlen l) = Ok l -> p + 1 + zlen l < zlen buf ->
    dns_name buf k (p + 1 + zlen l) ls -> dns_name buf (S k) p (l :: ls)
| Dns_pointer k p hi lo ls :
    get buf p = Ok (192 + hi) -> 0 <= hi < 64 -> get buf (p + 1) = Ok lo -> hi * 256 + lo < zlen buf ->
    dns_name buf k (hi * 256 + lo) ls -> dns_name buf (S k) p ls.

(** The text with a dot behind each label, and without the last one. *)
Definition dotted_labels (ls : list (list Z)) : list Z := concat (map (fun l => l ++ str ".") ls).

Definition name_text (ls : list (list Z)) : list Z := removelast (dotted_labels ls).

Lemma kind_of_byte c :
  is_byte c ->
  if c <? 64 then Z.land c 0xc0 = 0
  else if c <? 192 then Z.land c 0xc0 <> 0 /\ Z.land c 0xc0 <> 0xc0
  else Z.land c 0xc0 = 0xc0 /\ Z.land c 0x3f = c - 192.
Proof.
  intros Hc.
  assert (forallb (fun c => if c <? 64 then Z.land c 0xc0 =? 0
    else if c <? 192 then negb (Z.land c 0xc0 =? 0) && negb (Z.land c 0xc0 =? 0xc0)
    else (Z.land c 0xc0 =? 0xc0) && (Z.land c 0x3f =? c - 192)) (map Z.of_nat (seq 0 256)) = true) as H by reflexivity.
  rewrite forallb_forall in H. specialize (H c). destruct (c <? 64) eqn:E1; [|destruct (c <? 192) eqn:E2].
  all: assert (In c (map Z.of_nat (seq 0 256))) as Hin by (apply in_map_iff; exists (Z.to_nat c); split; [lia|apply in_seq; lia]).
  all: apply H in Hin; rewrite ?andb_true_iff, ?negb_true_iff, ?Z.eqb_eq, ?Z.eqb_neq in Hin; done.
Qed.

Section copy.
Context (buf : list Z) (Hbuf : bytes buf).

Lemma name_scan_ok n p len :
  0 <= p < zlen buf ->
  exists r, name_scan buf n p len = Ok r /\
    match r with
    | Some len' => exists k ls, (k <= n)%nat /\ dns_name buf k p ls /\ len' = len + zlen (dotted_labels ls)
    | None => forall k ls, (k <= n)%nat -> ~ dns_name buf k p ls
    end.
Proof using Hbuf.
  revert p len. induction n as [|n IH]; intros p len Hp; cbn [name_scan].
  { exists None. split; [done|]. intros k ls Hk H. inversion H; lia. }
  destruct (get_ok buf p Hp) as [c Hc]. rewrite Hc, Ok_bind. pose proof (get_byte buf p c Hbuf Hc) as Hb.
  pose proof (kind_of_byte c Hb) as Hkind.
  destruct (Z.eqb_spec c 0) as [->|Hc0].
  { eexists. split; [done|]. exists 1%nat, []. split; [lia|]. split; [by constructor|]. change (zlen (dotted_labels [])) with 0. lia. }
  destruct (Z.ltb_spec c 64) as [H64|H64].
  - rewrite Hkind. change (negb (0 =? 0)) with false. cbv iota. destruct (Z.leb_spec (zlen buf) (p + 1 + c)) as [Hout|Hin].
    + exists None. split; [done|]. intros k ls Hk H. inversion H as [? H1|? ? l ? H1 H2 H3 H4|? ? hi lo ? H1 H2]; subst; rewrite Hc in H1; injection H1 as H1; lia.
    + destruct (slice_ok buf (p + 1) c) as (l & Hl & Hz); [lia..|].
      destruct (IH (p + 1 + c) (len + (1 + c))) as (r & -> & Hr); [lia|]. exists r. split; [done|]. destruct r as [len'|].
      * destruct Hr as (k & ls & Hk & Hn & ->). exists (S k), (l :: ls). split; [lia|]. subst c. split; [by constructor; try lia|].
        unfold dotted_labels. cbn [map concat]. rewrite !zlen_app. change (zlen (str ".")) with 1. lia.
      * intros k ls Hk H. inversion H as [? H1|k' ? l' ls' H1 H2 H3 H4 H5|? ? hi lo ? H1 H2]; subst; rewrite Hc in H1; injection H1 as H1; [lia| |lia].
        rewrite <- H1 in H5. by apply (Hr k' ls'); [lia|].
  - destruct (Z.ltb_spec c 192) as [H192|H192].
    + destruct Hkind as [K1 K2]. destruct (Z.eqb_spec (Z.land c 0xc0) 0); [done|]. destruct (Z.eqb_spec (Z.land c 0xc0) 0xc0); [done|]. cbn [negb].
      exists None. split; [done|]. intros k ls Hk H. inversion H as [? H1|? ? l ? H1 H2|? ? hi lo ? H1 H2]; subst; rewrite Hc in H1; injection H1 as H1; lia.
    + destruct Hkind as [-> ->]. change (negb (0xc0 =? 0)) with true. change (negb (0xc0 =? 0xc0)) with false. cbv iota.
      destruct (Z.leb_spec (zlen buf) (p + 1)) as [Hout|Hin].
      { exists None. split; [done|]. intros k ls Hk H. inversion H as [? H1|? ? l ? H1 H2|? ? hi lo ? H1 H2 H3]; subst; rewrite Hc in H1; injection H1 as H1; [lia..|].
        apply get_Ok_range in H3. lia. }
      destruct (get_ok buf (p + 1)) as [d Hd]; [lia|]. rewrite Hd, Ok_bind. pose proof (get_byte buf _ d Hbuf Hd) as Hdb.
      rewrite Z.shiftl_mul_pow2 by lia. change (2 ^ 8) with 256.
      destruct (Z.leb_spec (zlen buf) ((c - 192) * 256 + d)) as [Hout|Hto].
      * exists None. split; [done|]. intros k ls Hk H. inversion H as [? H1|? ? l ? H1 H2|? ? hi lo ? H1 H2 H3 H4]; subst; rewrite Hc in H1; injection H1 as H1; [lia..|].
        rewrite Hd in H3. injection H3 as <-. lia.
      * destruct (IH ((c - 192) * 256 + d) len) as (r & -> & Hr); [lia|]. exists r. split; [done|]. destruct r as [len'|].
        -- destruct Hr as (k & ls & Hk & Hn & ->). exists (S k), ls. split; [lia|]. split; [|done].
           apply (Dns_pointer buf k p (c - 192) d); [rewrite Hc; f_equal; lia|lia|done|done|done].
        -- intros k ls Hk H. inversion H as [? H1|? ? l ? H1 H2|k' ? hi lo ls' H1 H2 H3 H4 H5]; subst; rewrite Hc in H1; injection H1 as H1; [lia..|].
           rewrite Hd in H3. injection H3 as <-. replace hi with (c - 192) in H5 by lia. by apply (Hr k' ls); [lia|].
Qed.

Lemma name_write_ok k p ls fuel room dst :
  dns_name buf k p ls -> (k <= fuel)%nat -> zlen dst + zlen (dotted_labels ls) <= room -> 1 <= zlen dst + zlen (dotted_labels ls) ->
  name_write buf fuel room p dst = Ok (removelast (dst ++ map strlow (dotted_labels ls))).
Proof using Hbuf.
  intros H. revert fuel dst. induction H as [p H1|k p l ls H1 H2 H3 H4 _ IH|k p hi lo ls H1 H2 H3 H4 _ IH]; intros fuel dst Hk Hroom Hne;
    (destruct fuel as [|fuel]; [lia|]); cbn [name_write]; rewrite H1, Ok_bind.
  - rewrite Z.eqb_refl. change (dotted_labels []) with (@nil Z) in *. cbn [map]. rewrite app_nil_r.
    change (zlen (@nil Z)) with 0 in *. destruct dst as [|x dst] using rev_ind; [change (zlen (@nil Z)) with 0 in Hne; lia|].
    rewrite removelast_last, zlen_app. change (zlen [x]) with 1. replace (zlen dst + 1 - 1) with (zlen dst) by lia.
    apply (slice_app [] dst [x]); done.
  - pose proof (kind_of_byte (zlen l) ltac:(lia)) as Hkind. destruct (Z.ltb_spec (zlen l) 64); [|lia].
    destruct (Z.eqb_spec (zlen l) 0); [lia|]. rewrite Hkind. change (negb (0 =? 0)) with false. cbv iota. rewrite H3, Ok_bind.
    unfold dotted_labels in *. cbn [map concat] in *. rewrite !zlen_app in *. change (zlen (str ".")) with 1 in *.
    pose proof (zlen_nonneg (concat (map (fun l => l ++ str ".") ls))).
    assert (zlen (map strlow l) = zlen l) as Hm by (unfold zlen; by rewrite length_map).
    rewrite write_at_ok, Ok_bind by lia. rewrite write_at_ok, Ok_bind by (rewrite zlen_app; change (zlen (str ".")) with 1; lia).
    rewrite IH; [|lia|rewrite !zlen_app; change (zlen (str ".")) with 1; lia|rewrite !zlen_app; change (zlen (str ".")) with 1; pose proof (zlen_nonneg dst); lia].
    rewrite !map_app. change (map strlow (str ".")) with (str "."). by rewrite <- !app_assoc.
  - pose proof (kind_of_byte (192 + hi) ltac:(lia)) as Hkind. destruct (Z.ltb_spec (192 + hi) 64); [lia|]. destruct (Z.ltb_spec (192 + hi) 192); [lia|].
    destruct (Z.eqb_spec (192 + hi) 0); [lia|]. destruct Hkind as [-> ->]. change (negb (0xc0 =? 0)) with true. cbv iota. rewrite H3, Ok_bind.
    rewrite Z.shiftl_mul_pow2 by lia. change (2 ^ 8) with 256. replace ((192 + hi - 192) * 256 + lo) with (hi * 256 + lo) by lia.
    apply IH; [lia|done|done].
Qed.
End copy.

(** ** The theorem on names in responses *)

Lemma dns_name_unique buf k p ls : dns_name buf k p ls -> forall k' ls', dns_name buf k' p ls' -> ls' = ls.
Proof.
  induction 1 as [p H1|k p l ls H1 H2 H3 H4 _ IH|k p hi lo ls H1 H2 H3 H4 _ IH]; intros k' ls' H;
    inversion H as [? J1|? ? l' ? J1 J2 J3 J4 J5|? ? hi' lo' ? J1 J2 J3 J4 J5]; subst;
    rewrite H1 in J1; try (injection J1 as J1); try lia; try done.
  - rewrite <- J1 in *. rewrite H3 in J3. injection J3 as <-. f_equal. by apply (IH _ _ J5).
  - rewrite H3 in J3. injection J3 as <-. replace hi' with hi in * by lia. by apply (IH _ _ J5).
Qed.

Lemma dotted_labels_nil ls : zlen (dotted_labels ls) = 0 -> ls = [].
Proof.
  destruct ls as [|l ls]; [done|]. unfold dotted_labels. cbn [map concat]. rewrite !zlen_app. change (zlen (str ".")) with 1.
  pose proof (zlen_nonneg l). pose proof (zlen_nonneg (concat (map (fun l => l ++ str ".") ls))). lia.
Qed.

Lemma removelast_map (f : Z -> Z) l : removelast (map f l) = map f (removelast l).
Proof. induction l as [|a l IH]; [done|]. destruct l as [|b l]; [done|]. cbn in *. by rewrite IH. Qed.

Lemma resolver_copy_name buf k src ls :
  bytes buf -> 0 <= src < zlen buf -> (k <= 128)%nat -> dns_name buf k src ls ->
  forall alloc want, ngx_resolver_copy buf alloc want src = Ok
    (if negb want then (NGX_OK, None)
     else if alloc || bool_decide (ls = []) then (NGX_OK, Some (map strlow (name_text ls)))
     else (NGX_ERROR, None)).
Proof.
  intros Hb Hs Hk Hn alloc want. unfold ngx_resolver_copy.
  destruct (name_scan_ok buf Hb 128 src 0 Hs) as (r & -> & Hr). rewrite Ok_bind.
  destruct r as [len|]; [|by destruct (Hr k ls)].
  destruct Hr as (k' & ls' & Hk' & Hn' & ->). rewrite (dns_name_unique _ _ _ _ Hn _ _ Hn') in *.
  destruct want; cbn [negb]; [|done]. destruct (Z.eqb_spec (0 + zlen (dotted_labels ls)) 0) as [H|H].
  - rewrite (dotted_labels_nil ls) by lia. rewrite bool_decide_true, orb_true_r by done. done.
  - rewrite bool_decide_false, orb_false_r by (intros ->; by apply H).
    destruct alloc; cbn [negb]; [|done]. pose proof (zlen_nonneg (dotted_labels ls)).
    rewrite (name_write_ok buf Hb k src ls) by (try done; change (zlen (@nil Z)) with 0; lia).
    rewrite Ok_bind. by rewrite app_nil_l, removelast_map.
Qed.

(** C27: DNS names. [ngx_resolver_copy] gives the name at a place of a message, its labels in
    lower case with dots between them, if a name is there that takes no more than 128
    labels and pointers, with each label and the target of each pointer in the message;
    there is only one such name. Otherwise, as for pointers in a cycle or out of the
    message, it fails. In any case it ends, reads only the message, and writes only the
    memory that it has allocated for the name. *)
Theorem resolver_copy_exact buf src alloc want :
  bytes buf -> 0 <= src < zlen buf ->
  (exists k ls, (k <= 128)%nat /\ dns_name buf k src ls /\ (forall k' ls', dns_name buf k' src ls' -> ls' = ls) /\
    ngx_resolver_copy buf alloc want src = Ok
      (if negb want then (NGX_OK, None)
       else if alloc || bool_decide (ls = []) then (NGX_OK, Some (map strlow (name_text ls)))
       else (NGX_ERROR, None))) \/
  ((forall k ls, (k <= 128)%nat -> ~ dns_name buf k src ls) /\
    ngx_resolver_copy buf alloc want src = Ok (NGX_ERROR, None)).
Proof.
  intros Hb Hs. destruct (name_scan_ok buf Hb 128 src 0 Hs) as (r & Hr & Hname). destruct r as [len|].
  - destruct Hname as (k & ls & Hk & Hn & _). left. exists k, ls. split; [done|]. split; [done|].
    split; [exact (dns_name_unique _ _ _ _ Hn)|]. by apply (resolver_copy_name buf k).
  - right. split; [done|]. unfold ngx_resolver_copy. by rewrite Hr, Ok_bind.
Qed.

(** ** Queries *)

Definition label_ok (l : list Z) : Prop := 1 <= zlen l <= 255.

#[global] Instance label_ok_dec l : Decision (label_ok l).
Proof. unfold label_ok. apply _. Defined.

(** Labels as they are in a message, but for the byte zero behind them. *)
Definition wire (ls : list (list Z)) : list Z := concat (map (fun l => zlen l :: l) ls).

Definition labels (name : list Z) : list (list Z) := split_on "."%chr name.

Definition query_text (ident qtype : Z) (ls : list (list Z)) : list Z :=
  dns_header ident ++ wire ls ++ [0] ++ [0; qtype; 0; 1].

Lemma wire_labels name : zlen (wire (labels name)) = zlen name + 1.
Proof.
  unfold labels, wire. induction name as [|c name IH]; cbn [split_on]; [done|]. rewrite (zlen_cons c).
  destruct (c =? "."%chr).
  - cbn [map concat]. change (zlen ([] : list Z)) with 0. cbn [app]. rewrite zlen_cons. lia.
  - destruct (split_on_cons "."%chr name) as (p & ps & E). rewrite E in *. cbn [map concat] in *. rewrite !zlen_app, !zlen_cons in *. lia.
Qed.

Lemma split_on_join x a r : split_on x (a ++ x :: r) = split_on x a ++ split_on x r.
Proof.
  induction a as [|c a IH]; cbn [app split_on]; [by rewrite Z.eqb_refl|].
  destruct (c =? x); [by rewrite IH|]. rewrite IH. destruct (split_on_cons x a) as (p & ps & ->). done.
Qed.

Lemma take_whole {A} (B : list A) : take (Z.to_nat (zlen B)) B = B.
Proof. unfold zlen. by rewrite Nat2Z.id, firstn_all. Qed.

Lemma take_front {A} n (B : list A) x : (n <= length B)%nat -> take n (B ++ [x]) = take n B.
Proof. intros H. by rewrite take_app_le. Qed.

Lemma labels_loop_ok s t B W :
  zlen s < zlen B -> Forall label_ok (tl (labels t)) ->
  exists ok q p len,
    labels_loop s (B ++ hd [] (labels t) ++ wire (tl (labels t)) ++ W) (zlen B - 1) (zlen (hd [] (labels t))) = Ok (ok, q, p, len) /\
    if ok : bool then
      let L := labels (rev s ++ t) in
      Forall label_ok (tl L) /\ len = zlen (hd [] L) /\ p = zlen B - 1 - zlen s /\
      q = take (Z.to_nat (zlen B - zlen s)) B ++ hd [] L ++ wire (tl L) ++ W
    else ~ Forall label_ok (labels (rev s ++ t)).
Proof.
  revert t B. induction s as [|c s IH]; intros t B HB HF; cbn [labels_loop rev].
  { exists true. do 3 eexists. split; [reflexivity|]. cbn [app]. rewrite zlen_nil, !Z.sub_0_r. rewrite take_whole. done. }
  destruct B as [|x B _] using rev_ind; [rewrite zlen_nil in HB; pose proof (zlen_nonneg (c :: s)); lia|].
  rewrite zlen_cons, zlen_app in *. change (zlen [x]) with 1 in *. replace (zlen B + 1 - 1) with (zlen B) by lia.
  rewrite <- !(app_assoc _ [c] t). change ([c] ++ t) with (c :: t). pose proof (zlen_nonneg s) as Hs0.
  specialize (IH (c :: t) B ltac:(lia)). rewrite <- !(app_assoc B [x]). cbn [app].
  replace (zlen B + 1 - (1 + zlen s)) with (zlen B - zlen s) by lia. rewrite take_front by (unfold zlen in *; lia).
  replace (zlen B - (1 + zlen s)) with (zlen B - 1 - zlen s) by lia.
  destruct (split_on_cons "."%chr t) as (l & ls & E). unfold labels in *. cbn [split_on] in IH. rewrite E in *. cbn [hd tl] in *.
  destruct (Z.eqb_spec c "."%chr) as [->|Hc]; cbn [negb].
  - assert (forall l', l' = l -> ~ label_ok l' -> ~ Forall label_ok (split_on "."%chr (rev s ++ "."%chr :: t))) as Hbad.
    { intros ? -> Hl H. rewrite split_on_join, Forall_app, E in H. destruct H as [_ H]. by apply Forall_cons_1 in H as [? _]. }
    pose proof (zlen_nonneg l). unfold label_ok in Hbad at 1. cbn [hd tl] in IH.
    destruct (Z.eqb_spec (zlen l) 0); cbn [orb]; [exists false; do 3 eexists; split; [reflexivity|]; apply (Hbad l); [done|lia]|].
    destruct (Z.ltb_spec 255 (zlen l)); cbn [orb]; [exists false; do 3 eexists; split; [reflexivity|]; apply (Hbad l); [done|lia]|].
    rewrite put_app, Ok_bind by done. unfold u8. rewrite Z.mod_small by lia.
    destruct IH as (ok & q & p & len & Hrun & Hres); [constructor; [unfold label_ok; lia|done]|].
    exists ok, q, p, len. split; [|exact Hres].
    unfold wire in Hrun at 1. cbn [map concat app] in Hrun. fold (wire ls) in Hrun. rewrite <- !app_assoc in Hrun. exact Hrun.
  - rewrite put_app, Ok_bind by done. cbn [hd tl app] in IH. rewrite zlen_cons in IH. rewrite (Z.add_comm (zlen l)). exact (IH HF).
Qed.

Lemma fill_query_ok Q T name ident qtype :
  zlen Q = 12 + name_size name + 4 ->
  exists rc q, fill_query (Q ++ T) name ident qtype = Ok (rc, q) /\
    if bool_decide (Forall label_ok (labels name)) then rc = NGX_OK /\ q = query_text ident qtype (labels name) ++ T
    else rc = NGX_DECLINED.
Proof.
  intros HQ. pose proof (zlen_nonneg name) as Hn0.
  assert (1 <= name_size name /\ (name <> [] -> name_size name = zlen name + 2)) as [H1 H2].
  { unfold name_size. destruct (Z.eqb_spec (zlen name) 0) as [H|H]; (split; [lia|]); intros Hne; [|lia].
    destruct name; [done|]. rewrite zlen_cons in H. pose proof (zlen_nonneg name). lia. }
  destruct (zlen_split Q 12) as (A & Q1 & -> & HA & HQ1); [lia|]. rewrite HQ in HQ1.
  destruct (zlen_split Q1 (name_size name - 1)) as (B & Q2 & -> & HB & HQ2); [lia|].
  destruct Q2 as [|b C]; [change (zlen (@nil Z)) with 0 in HQ2; lia|]. rewrite zlen_cons in HQ2.
  unfold fill_query. rewrite <- !app_assoc. change ((b :: C) ++ T) with (b :: C ++ T).
  assert (blit (A ++ B ++ b :: C ++ T) 0 (dns_header ident) = Ok (dns_header ident ++ B ++ b :: C ++ T)) as -> by (by apply (blit_app [] A)).
  rewrite Ok_bind. set (H := dns_header ident). assert (zlen H = 12) as HH by done.
  change (H ++ B ++ b :: C ++ T) with (H ++ B ++ [b] ++ C ++ T). rewrite !(app_assoc H), (app_assoc (H ++ B)).
  rewrite blit_app; [|rewrite !zlen_app; change (zlen [b]) with 1; unfold hdr_size; lia|change (zlen [0; qtype; 0; 1]) with 4; lia].
  rewrite Ok_bind. cbv zeta. rewrite <- (app_assoc _ [b]). change ([b] ++ ?l) with (b :: l).
  rewrite put_app, Ok_bind by (rewrite zlen_app; unfold hdr_size; lia).
  destruct (Z.eqb_spec (zlen name) 0) as [Hz|Hz].
  { do 2 eexists. split; [reflexivity|]. destruct name; [|rewrite zlen_cons in Hz; pose proof (zlen_nonneg name); lia].
    rewrite bool_decide_false; [done|]. intros HF. apply Forall_cons_1 in HF as [[HF _] _]. change (zlen (@nil Z)) with 0 in HF. lia. }
  assert (zlen B = zlen name + 1) as HB' by (rewrite HB, H2; [lia|by intros ->]).
  pose proof (labels_loop_ok (rev name) [] (H ++ B) (0 :: [0; qtype; 0; 1] ++ T)) as (ok & q & p & len & Hrun & Hres).
  { rewrite zlen_app. unfold zlen in *. rewrite length_rev. lia. }
  { constructor. }
  cbn [labels split_on hd tl wire map concat] in Hrun. change (zlen (@nil Z)) with 0 in Hrun. cbn [app] in Hrun, Hres.
  replace (hdr_size + name_size name - 2) with (zlen (H ++ B) - 1) by (rewrite zlen_app; unfold hdr_size; lia).
  cbn [app]. rewrite Hrun, Ok_bind. cbv beta iota. rewrite rev_involutive, app_nil_r in Hres.
  destruct ok; cbn [negb]; [|do 2 eexists; split; [reflexivity|]; by rewrite bool_decide_false].
  destruct Hres as (HF & -> & -> & ->). unfold labels in *. destruct (split_on_cons "."%chr name) as (l & ls & E). rewrite E in *. cbn [hd tl] in *.
  pose proof (zlen_nonneg l).
  assert (forall P : Prop, ~ label_ok l -> (bool_decide (Forall label_ok (l :: ls)) = false -> P) -> P) as Hbad.
  { intros P Hl HP. apply HP, bool_decide_false. intros HF'. by apply Forall_cons_1 in HF' as [? _]. }
  destruct (Z.eqb_spec (zlen l) 0); cbn [orb]; [do 2 eexists; split; [reflexivity|]; apply Hbad; [unfold label_ok; lia|by intros ->]|].
  destruct (Z.ltb_spec 255 (zlen l)); cbn [orb]; [do 2 eexists; split; [reflexivity|]; apply Hbad; [unfold label_ok; lia|by intros ->]|].
  assert (zlen (rev name) = zlen name) as Hrev by (unfold zlen; by rewrite length_rev).
  rewrite Hrev, zlen_app, HH. replace (12 + zlen B - zlen name) with 13 by lia.
  destruct B as [|b0 B]; [change (zlen (@nil Z)) with 0 in HB'; lia|].
  replace (take (Z.to_nat 13) (H ++ b0 :: B)) with (H ++ [b0]).
  2:{ change (Z.to_nat 13) with (length H + 1)%nat. rewrite firstn_app_2. done. }
  rewrite <- app_assoc. change ([b0] ++ ?r) with (b0 :: r). rewrite put_app, Ok_bind by (rewrite HH; lia).
  do 2 eexists. split; [reflexivity|]. rewrite bool_decide_true by (constructor; [unfold label_ok; lia|done]). split; [done|].
  unfold query_text, wire. cbn [map concat]. unfold u8. rewrite Z.mod_small by lia. fold H. by rewrite <- !app_assoc.
Qed.

(** What comes back of a query, however it goes on. *)
Lemma dns_name_wire pre ls rest :
  Forall (fun l => 1 <= zlen l < 64) ls -> dns_name (pre ++ wire ls ++ 0 :: rest) (S (length ls)) (zlen pre) ls.
Proof.
  intros HF. revert pre. induction HF as [|l ls Hl HF IH]; intros pre; unfold wire; cbn [map concat app length].
  - apply Dns_end. rewrite <- (Z.add_0_r (zlen pre)). by rewrite get_app_r.
  - fold (wire ls). rewrite <- app_assoc. assert (zlen (pre ++ zlen l :: l ++ wire ls ++ 0 :: rest) = zlen pre + 1 + zlen l + zlen (wire ls) + 1 + zlen rest) as Hz.
    { rewrite zlen_app, zlen_cons, !zlen_app, zlen_cons. lia. }
    pose proof (zlen_nonneg (wire ls)). pose proof (zlen_nonneg rest).
    apply Dns_label; [|done| |lia|].
    + rewrite <- (Z.add_0_r (zlen pre)). by rewrite get_app_r.
    + change (pre ++ zlen l :: l ++ wire ls ++ 0 :: rest) with (pre ++ [zlen l] ++ l ++ wire ls ++ 0 :: rest).
      rewrite (app_assoc pre). apply slice_app; [rewrite zlen_app; done|done].
    + specialize (IH (pre ++ zlen l :: l)). rewrite zlen_app, zlen_cons, <- app_assoc in IH. cbn [app] in IH.
      by replace (zlen pre + 1 + zlen l) with (zlen pre + (1 + zlen l)) by lia.
Qed.

Lemma name_text_labels name : name_text (labels name) = name.
Proof.
  unfold name_text, labels. assert (forall name, dotted_labels (split_on "."%chr name) = name ++ str ".") as ->; [|apply removelast_last].
  clear name. induction name as [|c name IH]; cbn [split_on app]; [done|].
  destruct (Z.eqb_spec c "."%chr) as [->|_].
  - unfold dotted_labels in *. cbn [map concat]. by rewrite IH.
  - destruct (split_on_cons "."%chr name) as (p & ps & E). rewrite E in *. unfold dotted_labels in *. cbn [map concat app] in *. by rewrite IH.
Qed.

Lemma bytes_wire ls : Forall (fun l => bytes l /\ zlen l < 256) ls -> bytes (wire ls).
Proof.
  induction 1 as [|l ls [H1 H2] _ IH]; [constructor|]. unfold wire. cbn [map concat app]. constructor; [pose proof (zlen_nonneg l); lia|].
  by apply Forall_app.
Qed.

Lemma bytes_labels name : bytes name -> Forall bytes (labels name).
Proof.
  unfold labels. induction 1 as [|c name Hc _ IH]; cbn [split_on]; [by repeat constructor|].
  destruct (c =? "."%chr); [by constructor; [constructor|]|].
  destruct (split_on_cons "."%chr name) as (p & ps & E). rewrite E in *. apply Forall_cons_1 in IH as [H1 H2]. constructor; [by constructor|done].
Qed.

Lemma dns_header_bytes ident : bytes (dns_header ident).
Proof.
  assert (forall z, is_byte (Z.land z 0xff)) as H.
  { intros z. change 0xff with (Z.ones 8). rewrite Z.land_ones by lia. change (2 ^ 8) with 256. Z.to_euclidean_division_equations; lia. }
  unfold dns_header. by repeat (constructor; [first [apply H | lia]|]).
Qed.

Lemma query_text_name ident qtype ls :
  is_byte qtype -> Forall bytes ls -> Forall (fun l => 1 <= zlen l < 64) ls -> (length ls <= 127)%nat ->
  ngx_resolver_copy (query_text ident qtype ls) true true 12 = Ok (NGX_OK, Some (map strlow (name_text ls))).
Proof.
  intros Hq Hb HF Hn. rewrite (resolver_copy_name _ (S (length ls)) _ ls); [done|..].
  - unfold query_text. apply Forall_app. split; [apply dns_header_bytes|]. apply Forall_app. split; [|by repeat (constructor; [first [done|lia]|])].
    apply bytes_wire. apply Forall_forall. intros l Hl. pose proof (proj1 (Forall_forall _ _) HF l Hl) as Hl'.
    split; [|cbn in Hl'; lia]. by apply (proj1 (Forall_forall _ _) Hb).
  - unfold query_text. rewrite !zlen_app. change (zlen (dns_header ident)) with 12. change (zlen [0]) with 1. pose proof (zlen_nonneg (wire ls)).
    pose proof (zlen_nonneg [0; qtype; 0; 1]). lia.
  - lia.
  - by apply (dns_name_wire (dns_header ident)).
Qed.

Section queries.
Context (alloc : Z -> option (list Z)) (Halloc : forall n l, alloc n = Some l -> zlen l = n).

Lemma name_size_bounds name : 1 <= name_size name <= zlen name + 2 /\ (name_size name = zlen name + 2 \/ labels name = [[]]).
Proof.
  unfold name_size. pose proof (zlen_nonneg name). destruct (Z.eqb_spec (zlen name) 0) as [E|E]; [|lia].
  split; [lia|]. right. destruct name; [done|]. rewrite zlen_cons in E. pose proof (zlen_nonneg name). lia.
Qed.

Lemma query_size ident qtype name :
  Forall label_ok (labels name) -> zlen (query_text ident qtype (labels name)) = 12 + name_size name + 4.
Proof.
  intros HF. unfold query_text. rewrite !zlen_app, wire_labels. change (zlen (dns_header ident)) with 12.
  change (zlen [0; qtype; 0; 1]) with 4. change (zlen [0]) with 1.
  destruct (name_size_bounds name) as [_ [->|E]]; [lia|]. rewrite E in HF. apply Forall_cons_1 in HF as [[HF _] _].
  change (zlen (@nil Z)) with 0 in HF. lia.
Qed.

Lemma name_query_ok ipv6 ident ident6 name :
  zlen name < 65518 ->
  exists rc q, ngx_resolver_create_name_query alloc ipv6 ident ident6 name = Ok (rc, q) /\
    match alloc (if ipv6 then (16 + name_size name) * 2 else 16 + name_size name) with
    | None => rc = NGX_ERROR
    | Some _ =>
        if bool_decide (Forall label_ok (labels name)) then
          rc = NGX_OK /\ q = query_text ident NGX_RESOLVE_A (labels name)
                            ++ (if ipv6 then query_text ident6 NGX_RESOLVE_AAAA (labels name) else [])
        else rc = NGX_DECLINED
    end.
Proof using Halloc.
  intros Hn. destruct (name_size_bounds name) as [[H1 H2] H3]. unfold ngx_resolver_create_name_query, hdr_size, qs_size. cbv zeta.
  replace (12 + name_size name + 4) with (16 + name_size name) by lia.
  destruct (alloc (if ipv6 then _ else _)) as [m|] eqn:Em; [|by eauto].
  assert (exists Q T, m = Q ++ T /\ zlen Q = 12 + name_size name + 4 /\ zlen T = if ipv6 then 16 + name_size name else 0) as (Q & T & -> & HQ & HT).
  { apply Halloc in Em. destruct (zlen_split m (16 + name_size name)) as (Q & T & -> & HQ & HT); [destruct ipv6; lia|].
    exists Q, T. split; [done|]. split; [lia|]. destruct ipv6; lia. }
  destruct (fill_query_ok Q T name ident NGX_RESOLVE_A HQ) as (rc & q & -> & Hq). rewrite Ok_bind. cbv beta iota.
  destruct (bool_decide_reflect (Forall label_ok (labels name))) as [HF|HF]; [|subst rc; do 2 eexists; split; [reflexivity|done]].
  destruct Hq as [-> ->]. change (negb (NGX_OK =? NGX_OK)) with false. cbv iota.
  pose proof (query_size ident NGX_RESOLVE_A name HF) as Hs. pose proof (query_size ident6 NGX_RESOLVE_A name HF) as Hs6.
  destruct ipv6; cbn [negb].
  2:{ do 2 eexists. split; [reflexivity|]. split; [done|]. destruct T; [done|]. rewrite zlen_cons in HT. pose proof (zlen_nonneg T). lia. }
  set (A := query_text ident NGX_RESOLVE_A (labels name)) in *.
  assert (slice (A ++ T) 0 (u16 (16 + name_size name)) = Ok A) as ->.
  { unfold u16. rewrite Z.mod_small by lia. apply (slice_app [] A T); [done|lia]. }
  rewrite Ok_bind. assert (blit (A ++ T) (16 + name_size name) A = Ok (A ++ A)) as ->.
  { pose proof (blit_app A T [] A (16 + name_size name)) as E. rewrite !app_nil_r in E. apply E; lia. }
  rewrite Ok_bind. set (W := wire (labels name) ++ [0]). 
  assert (A = [Z.land (Z.shiftr ident 8) 0xff; Z.land ident 0xff] ++ [1; 0; 0; 1; 0; 0; 0; 0; 0; 0] ++ W ++ [0; NGX_RESOLVE_A; 0; 1]) as EA.
  { unfold A, query_text, dns_header, W. by rewrite <- !app_assoc. }
  set (R := [1; 0; 0; 1; 0; 0; 0; 0; 0; 0] ++ W ++ [0; NGX_RESOLVE_A; 0; 1]) in EA.
  assert (blit (A ++ A) (16 + name_size name) [Z.land (Z.shiftr ident6 8) 0xff; Z.land ident6 0xff]
    = Ok (A ++ [Z.land (Z.shiftr ident6 8) 0xff; Z.land ident6 0xff] ++ R)) as ->.
  { replace (A ++ A) with (A ++ [Z.land (Z.shiftr ident 8) 0xff; Z.land ident 0xff] ++ R) by (by rewrite <- EA). apply blit_app; [lia|done]. }
  rewrite Ok_bind. unfold R in *. clear R.
  assert (zlen W = name_size name) as HW.
  { rewrite EA, !zlen_app in Hs. change (zlen [0; NGX_RESOLVE_A; 0; 1]) with 4 in Hs.
    change (zlen [Z.land (Z.shiftr ident 8) 0xff; Z.land ident 0xff]) with 2 in Hs. change (zlen [1; 0; 0; 1; 0; 0; 0; 0; 0; 0]) with 10 in Hs. lia. }
  set (h := [Z.land (Z.shiftr ident6 8) 0xff; Z.land ident6 0xff]). set (h' := [1; 0; 0; 1; 0; 0; 0; 0; 0; 0]).
  assert (A ++ h ++ h' ++ W ++ [0; NGX_RESOLVE_A; 0; 1] = (A ++ h ++ h' ++ W ++ [0]) ++ NGX_RESOLVE_A :: [0; 1]) as -> by (by rewrite <- !app_assoc).
  rewrite put_app, Ok_bind.
  2:{ rewrite !zlen_app, HW. change (zlen h) with 2. change (zlen h') with 10. change (zlen [0]) with 1. lia. }
  do 2 eexists. split; [reflexivity|]. split; [done|]. rewrite <- !app_assoc. f_equal. unfold query_text, dns_header, W. by rewrite <- !app_assoc.
Qed.

Lemma srv_query_ok ident name :
  exists rc q, ngx_resolver_create_srv_query alloc ident name = Ok (rc, q) /\
    match alloc (16 + name_size name) with
    | None => rc = NGX_ERROR
    | Some _ =>
        if bool_decide (Forall label_ok (labels name)) then rc = NGX_OK /\ q = query_text ident NGX_RESOLVE_SRV (labels name)
        else rc = NGX_DECLINED
    end.
Proof using Halloc.
  unfold ngx_resolver_create_srv_query, hdr_size, qs_size. cbv zeta.
  replace (12 + name_size name + 4) with (16 + name_size name) by lia. destruct (alloc _) as [m|] eqn:Em; [|by eauto].
  apply Halloc in Em. destruct (fill_query_ok m [] name ident NGX_RESOLVE_SRV) as (rc & q & Hq & H); [lia|].
  rewrite !app_nil_r in *. eauto.
Qed.
End queries.

(** ** The theorems on queries *)

Definition queries_sent (alloc : Z -> option (list Z)) (ipv6 : bool) (ident ident6 : Z) (name : list Z) (rc : Z) (q : list Z) : Prop :=
  match alloc (if ipv6 then (16 + name_size name) * 2 else 16 + name_size name) with
  | None => rc = NGX_ERROR
  | Some _ =>
      if bool_decide (Forall label_ok (labels name)) then
        rc = NGX_OK /\ q = query_text ident NGX_RESOLVE_A (labels name)
                          ++ (if ipv6 then query_text ident6 NGX_RESOLVE_AAAA (labels name) else [])
      else rc = NGX_DECLINED
  end.

(** C28: DNS names of less than 65518 bytes. [ngx_resolver_create_name_query] turns a name into one query, or into
    two if IPv6 is on, and [ngx_resolver_create_srv_query] into one: the header, the
    labels with their lengths, and the type. They fit in the memory that is allocated.
    A name with an empty label, or one of more than 255 bytes, is declined; so are the
    empty name and one with a dot at its end. If the labels have 63 bytes at most
    and there are at most 127 of them, [ngx_resolver_copy] reads the name, in lower case,
    from each query. *)
Theorem resolver_query_roundtrip alloc ipv6 ident ident6 name :
  (forall n l, alloc n = Some l -> zlen l = n) -> bytes name -> zlen name < 65518 ->
  exists rc q rc' q',
    ngx_resolver_create_name_query alloc ipv6 ident ident6 name = Ok (rc, q) /\
    queries_sent alloc ipv6 ident ident6 name rc q /\
    ngx_resolver_create_srv_query alloc ident name = Ok (rc', q') /\
    match alloc (16 + name_size name) with
    | None => rc' = NGX_ERROR
    | Some _ =>
        if bool_decide (Forall label_ok (labels name)) then
          rc' = NGX_OK /\ q' = query_text ident NGX_RESOLVE_SRV (labels name)
        else rc' = NGX_DECLINED
    end /\
    (Forall (fun l => 1 <= zlen l <= 63) (labels name) -> (length (labels name) <= 127)%nat ->
     forall id ty, ty ∈ [NGX_RESOLVE_A; NGX_RESOLVE_AAAA; NGX_RESOLVE_SRV] ->
       ngx_resolver_copy (query_text id ty (labels name)) true true 12 = Ok (NGX_OK, Some (map strlow name))).
Proof.
  intros Ha Hb Hn. destruct (name_query_ok alloc Ha ipv6 ident ident6 name Hn) as (rc & q & Hq & Hsent).
  destruct (srv_query_ok alloc Ha ident name) as (rc' & q' & Hq' & Hsrv).
  exists rc, q, rc', q'. split_and!; try done. intros HF Hl id ty Hty. rewrite query_text_name, name_text_labels;
    [done| |by apply bytes_labels|by apply (Forall_impl _ _ _ HF); intros l Hl'; cbn in *; lia|done].
  repeat (apply elem_of_cons in Hty as [->|Hty]; [done|]). by apply elem_of_nil in Hty.
Qed.

(** The names of addresses. *)
Definition nibble (v : Z) : list Z := num 1 v.

Definition ip6_labels (s6_addr : list Z) : list (list Z) :=
  concat (map (fun b => [nibble (b mod 16); nibble (b / 16)]) (rev s6_addr)) ++ [str "ip6"; str "arpa"].

Definition in_addr_labels (a b c d : Z) : list (list Z) := [num 0 d; num 0 c; num 0 b; num 0 a; str "in-addr"; str "arpa"].

Lemma wire_app a b : wire (a ++ b) = wire a ++ wire b.
Proof. unfold wire. by rewrite map_app, concat_app. Qed.

Lemma check_bytes (f : Z -> bool) v : forallb f (map Z.of_nat (seq 0 256)) = true -> is_byte v -> f v = true.
Proof.
  intros H Hv. rewrite forallb_forall in H. apply H, in_map_iff. exists (Z.to_nat v). split; [lia|]. apply in_seq. lia.
Qed.

Definition gives (r : res (list Z)) (l : list Z) : bool :=
  match r with Ok x => bool_decide (x = l) | _ => false end.

Lemma gives_ok r l : gives r l = true -> r = Ok l.
Proof. destruct r; try done. intros H. f_equal. by apply bool_decide_eq_true_1 in H. Qed.

Lemma byte_label v :
  is_byte v -> ngx_sprintf (str "%ud") [A32 v] = Ok (num 0 v) /\ 1 <= zlen (num 0 v) <= 3.
Proof.
  intros Hv. split; [|by apply num_byte]. apply gives_ok.
  apply (check_bytes (fun v => gives (ngx_sprintf (str "%ud") [A32 v]) (num 0 v))); [vm_compute; reflexivity|done].
Qed.

Definition nibbles_check (v : Z) : bool :=
  gives (ngx_sprintf ([1] ++ str "%xd" ++ [1] ++ str "%xd") [A32 (Z.land v 0xf); A32 (Z.land (Z.shiftr v 4) 0xf)])
    (wire [nibble (v mod 16); nibble (v / 16)])
  && ((zlen (nibble (v mod 16)) =? 1) && (zlen (nibble (v / 16)) =? 1)).

Lemma byte_nibbles v :
  is_byte v ->
  ngx_sprintf ([1] ++ str "%xd" ++ [1] ++ str "%xd") [A32 (Z.land v 0xf); A32 (Z.land (Z.shiftr v 4) 0xf)]
  = Ok (wire [nibble (v mod 16); nibble (v / 16)]) /\ zlen (nibble (v mod 16)) = 1 /\ zlen (nibble (v / 16)) = 1.
Proof.
  intros Hv. assert (nibbles_check v = true) as H by (apply check_bytes; [vm_compute; reflexivity|done]).
  apply andb_true_iff in H as [H H2]. apply andb_true_iff in H2 as [H1 H2].
  apply Z.eqb_eq in H1, H2. split; [exact (gives_ok _ _ H)|]. split; assumption.
Qed.

Lemma nibble_labels_ok n s6_addr :
  (n <= length s6_addr)%nat -> bytes s6_addr ->
  let ls := concat (map (fun b => [nibble (b mod 16); nibble (b / 16)]) (rev (take n s6_addr))) in
  nibble_labels n s6_addr = Ok (wire ls) /\ zlen (wire ls) = 4 * Z.of_nat n /\ Forall (fun l => zlen l = 1) ls.
Proof.
  intros Hn Hb. induction n as [|n IH]; [done|]. destruct IH as (E & Hz & HF); [lia|].
  destruct (lookup_lt_is_Some_2 s6_addr n) as [c Hc]; [lia|]. cbn [nibble_labels].
  assert (get s6_addr (Z.of_nat n) = Ok c) as Hg.
  { unfold get. destruct (Z.ltb_spec (Z.of_nat n) 0); [lia|]. by rewrite Nat2Z.id, Hc. }
  destruct (byte_nibbles c (get_byte _ _ _ Hb Hg)) as (Hp & Z1 & Z2).
  rewrite Hg, Ok_bind, Hp, Ok_bind, E, Ok_bind. erewrite take_S_r by exact Hc. rewrite rev_app_distr.
  change (rev [c]) with [c]. rewrite map_app, concat_app. change (concat (map ?f [c])) with [nibble (c mod 16); nibble (c / 16)].
  rewrite (wire_app [nibble (c mod 16); nibble (c / 16)]). split; [done|]. split; [|apply Forall_app; split; [|done]; apply Forall_cons_2; [exact Z1|]; apply Forall_cons_2; [exact Z2|constructor]].
  rewrite zlen_app, Hz. unfold wire. cbn [map concat]. rewrite !zlen_app, !zlen_cons, Z1, Z2. change (zlen (@nil Z)) with 0. lia.
Qed.

Lemma octet_labels_ok k inaddr n :
  0 <= n ->
  let ls := map (fun i => num 0 (Z.land (Z.shiftr inaddr (n + 8 * Z.of_nat i)) 0xff)) (seq 0 k) in
  octet_labels k inaddr n = Ok (wire ls) /\ zlen (wire ls) <= 4 * Z.of_nat k /\ Forall (fun l => 1 <= zlen l <= 3) ls.
Proof.
  revert n. induction k as [|k IH]; intros n Hn; [done|]. cbn [octet_labels seq map].
  rewrite Z.mul_0_r, Z.add_0_r. destruct (byte_label (Z.land (Z.shiftr inaddr n) 0xff)) as [-> Hz].
  { change 0xff with (Z.ones 8). rewrite Z.land_ones by lia. change (2 ^ 8) with 256. Z.to_euclidean_division_equations; lia. }
  rewrite Ok_bind. destruct (IH (n + 8)) as (-> & Hw & HF); [lia|]. rewrite Ok_bind.
  replace (map (fun i => num 0 (Z.land (Z.shiftr inaddr (n + 8 + 8 * Z.of_nat i)) 0xff)) (seq 0 k))
    with (map (fun i => num 0 (Z.land (Z.shiftr inaddr (n + 8 * Z.of_nat i)) 0xff)) (seq 1 k)) in *.
  2:{ rewrite <- seq_shift, map_map. apply map_ext. intros i. do 3 f_equal. lia. }
  unfold u8. rewrite Z.mod_small by lia. split; [done|]. split; [|by constructor].
  unfold wire in *. cbn [map concat]. rewrite zlen_app, zlen_cons. lia.
Qed.

Lemma addr_octets a b c d :
  bytes [a; b; c; d] ->
  map (fun i => num 0 (Z.land (Z.shiftr (ntohl (u32_of_bytes [a; b; c; d])) (0 + 8 * Z.of_nat i)) 0xff)) (seq 0 4)
  = [num 0 d; num 0 c; num 0 b; num 0 a].
Proof.
  intros Hb. apply bytes_4 in Hb as (Ha & Hb & Hc & Hd). unfold ntohl.
  replace (u32_of_bytes [a; b; c; d]) with (a + 256 * (b + 256 * (c + 256 * d))) by (cbn [u32_of_bytes]; lia).
  rewrite (htonl_spec d c b a) by (by repeat apply Forall_cons_2). cbn [seq map u32_of_bytes].
  change 0xff with (Z.ones 8). rewrite !Z.land_ones, !Z.shiftr_div_pow2 by lia.
  change (2 ^ (0 + 8 * Z.of_nat 0)) with 1. change (2 ^ (0 + 8 * Z.of_nat 1)) with 256.
  change (2 ^ (0 + 8 * Z.of_nat 2)) with 65536. change (2 ^ (0 + 8 * Z.of_nat 3)) with 16777216. change (2 ^ 8) with 256.
  repeat f_equal; Z.to_euclidean_division_equations; lia.
Qed.

Lemma addr_query_inet ident port a b c d :
  bytes [a; b; c; d] ->
  ngx_resolver_create_addr_query true ident (AF_INET (u32_of_bytes [a; b; c; d]) port)
  = Ok (NGX_OK, query_text ident NGX_RESOLVE_PTR (in_addr_labels a b c d)).
Proof.
  intros Hb. destruct (octet_labels_ok 4 (ntohl (u32_of_bytes [a; b; c; d])) 0) as (E & Hz & _); [lia|].
  rewrite addr_octets in E, Hz by done. unfold ngx_resolver_create_addr_query. cbv zeta. cbn [negb]. change (hdr_size + 30 + qs_size) with 46.
  assert (forall out, write_at 46 out (dns_header ident) = if zlen out + 12 <=? 46 then Ok (out ++ dns_header ident) else Fault) as E1 by done.
  rewrite write_at_ok, Ok_bind by (change (zlen (dns_header ident)) with 12; change (zlen (@nil Z)) with 0; lia). rewrite app_nil_l, E, Ok_bind.
  rewrite write_at_ok, Ok_bind by (change (zlen (dns_header ident)) with 12; lia).
  rewrite write_at_ok, Ok_bind by (rewrite zlen_app; change (zlen (dns_header ident)) with 12; change (zlen ([7] ++ str "in-addr" ++ [4] ++ str "arpa" ++ [0])) with 14; lia).
  rewrite write_at_ok, Ok_bind by (rewrite !zlen_app; change (zlen (dns_header ident)) with 12; change (zlen [0; 12; 0; 1]) with 4;
    change (zlen [7]) with 1; change (zlen (str "in-addr")) with 7; change (zlen [4]) with 1; change (zlen (str "arpa")) with 4; change (zlen [0]) with 1; lia).
  do 2 f_equal. unfold query_text, in_addr_labels.
  change [num 0 d; num 0 c; num 0 b; num 0 a; str "in-addr"; str "arpa"] with ([num 0 d; num 0 c; num 0 b; num 0 a] ++ [str "in-addr"; str "arpa"]).
  rewrite wire_app, <- !app_assoc. done.
Qed.

Lemma addr_query_inet6 ident port s6_addr :
  bytes s6_addr -> zlen s6_addr = 16 ->
  ngx_resolver_create_addr_query true ident (AF_INET6 s6_addr port) = Ok (NGX_OK, query_text ident NGX_RESOLVE_PTR (ip6_labels s6_addr)).
Proof.
  intros Hb Hz. destruct (nibble_labels_ok 16 s6_addr) as (E & Hw & _); [unfold zlen in Hz; lia|done|].
  rewrite firstn_all2 in E, Hw by (unfold zlen in Hz; lia). change (4 * Z.of_nat 16) with 64 in Hw.
  unfold ngx_resolver_create_addr_query. cbv zeta. cbn [negb]. change (hdr_size + 64 + 10 + qs_size) with 90.
  rewrite write_at_ok, Ok_bind by (change (zlen (dns_header ident)) with 12; change (zlen (@nil Z)) with 0; lia). rewrite app_nil_l, E, Ok_bind.
  rewrite write_at_ok, Ok_bind by (change (zlen (dns_header ident)) with 12; lia).
  rewrite write_at_ok, Ok_bind by (rewrite zlen_app, Hw; change (zlen (dns_header ident)) with 12; change (zlen ([3] ++ str "ip6" ++ [4] ++ str "arpa" ++ [0])) with 10; lia).
  rewrite write_at_ok, Ok_bind by (rewrite !zlen_app, Hw; change (zlen (dns_header ident)) with 12; change (zlen [0; 12; 0; 1]) with 4;
    change (zlen [3]) with 1; change (zlen (str "ip6")) with 3; change (zlen [4]) with 1; change (zlen (str "arpa")) with 4; change (zlen [0]) with 1; lia).
  do 2 f_equal. unfold query_text, ip6_labels. rewrite wire_app, <- !app_assoc. done.
Qed.

Definition address_label (l : list Z) : bool :=
  bool_decide (map strlow l = l) && forallb (fun c => (0 <=? c) && (c <? 256)) l && (1 <=? zlen l) && (zlen l <? 64).

Lemma address_label_num h v : (h = 0 \/ h = 1) -> is_byte v -> address_label (num h v) = true.
Proof.
  intros Hh Hv. assert (address_label (num 0 v) && address_label (num 1 v) = true) as H.
  { apply (check_bytes (fun v => address_label (num 0 v) && address_label (num 1 v))); [vm_compute; reflexivity|done]. }
  apply andb_true_iff in H as [H0 H1]. by destruct Hh as [-> | ->].
Qed.

Lemma address_labels_ok ls :
  Forall (fun l => address_label l = true) ls ->
  Forall bytes ls /\ Forall (fun l => 1 <= zlen l < 64) ls /\ map strlow (name_text ls) = name_text ls.
Proof.
  intros HF. assert (Forall bytes ls /\ Forall (fun l => 1 <= zlen l < 64) ls /\ map strlow (dotted_labels ls) = dotted_labels ls) as (H1 & H2 & H3).
  { induction HF as [|l ls Hl _ (H1 & H2 & H3)]; [done|]. unfold address_label in Hl.
    apply andb_true_iff in Hl as [Hl Hz2]. apply andb_true_iff in Hl as [Hl Hz1]. apply andb_true_iff in Hl as [Hl Hb].
    apply bool_decide_eq_true_1 in Hl. split_and!; constructor || idtac; try done; try lia.
    - apply Forall_forall. intros c Hc. rewrite forallb_forall in Hb. apply list_elem_of_In in Hc. apply Hb in Hc. lia.
    - unfold dotted_labels in *. cbn [map concat]. by rewrite !map_app, H3, Hl. }
  split; [done|]. split; [done|]. unfold name_text. by rewrite <- removelast_map, H3.
Qed.

Lemma in_addr_name a b c d :
  name_text (in_addr_labels a b c d) = inet_text [d; c; b; a] ++ str ".in-addr.arpa".
Proof.
  unfold name_text. assert (dotted_labels (in_addr_labels a b c d) = (inet_text [d; c; b; a] ++ str ".in-addr.arpa") ++ str ".") as ->.
  { unfold dotted_labels, in_addr_labels, inet_text. cbn [map concat]. by rewrite <- !app_assoc. }
  apply removelast_last.
Qed.

(** C29: DNS names. The query for the name of an address, which fits in the memory that is
    allocated, asks for the address backwards: for IPv4, [ngx_resolver_copy] reads from it
    the octets of the address with the last one first, and [.in-addr.arpa]; for IPv6, the
    labels are the hexadecimal digits, the last one first, and [ip6.arpa]. *)
Theorem resolver_addr_query_exact ident port a b c d s6_addr :
  bytes [a; b; c; d] -> bytes s6_addr -> zlen s6_addr = 16 ->
  (exists q, ngx_resolver_create_addr_query true ident (AF_INET (u32_of_bytes [a; b; c; d]) port) = Ok (NGX_OK, q) /\
    q = query_text ident NGX_RESOLVE_PTR (in_addr_labels a b c d) /\
    ngx_resolver_copy q true true 12 = Ok (NGX_OK, Some (inet_text [d; c; b; a] ++ str ".in-addr.arpa"))) /\
  (exists q, ngx_resolver_create_addr_query true ident (AF_INET6 s6_addr port) = Ok (NGX_OK, q) /\
    q = query_text ident NGX_RESOLVE_PTR (ip6_labels s6_addr) /\
    ngx_resolver_copy q true true 12 = Ok (NGX_OK, Some (name_text (ip6_labels s6_addr)))).
Proof.
  intros Hb H6 Hz. split.
  - eexists. split; [by apply addr_query_inet|]. split; [done|]. apply bytes_4 in Hb as (Ha & Hb & Hc & Hd).
    destruct (address_labels_ok (in_addr_labels a b c d)) as (H1 & H2 & H3).
    { repeat (constructor; [first [by apply address_label_num; [left|] | reflexivity]|]). constructor. }
    rewrite query_text_name by (try done; cbn; lia). by rewrite H3, in_addr_name.
  - eexists. split; [by apply addr_query_inet6|]. split; [done|].
    destruct (address_labels_ok (ip6_labels s6_addr)) as (H1 & H2 & H3).
    { apply Forall_app. split; [|by repeat constructor]. apply Forall_concat. apply Forall_map, Forall_forall. intros v Hv.
      apply list_elem_of_In, in_rev, list_elem_of_In in Hv. pose proof (proj1 (Forall_forall _ _) H6 v Hv) as Hv'. cbn in Hv'.
      apply Forall_cons_2; [apply address_label_num; [by right|Z.to_euclidean_division_equations; lia]|].
      apply Forall_cons_2; [apply address_label_num; [by right|Z.to_euclidean_division_equations; lia]|constructor]. }
    rewrite query_text_name, H3; [done|done|done|done|].
    unfold ip6_labels. rewrite length_app.
    assert (forall l : list Z, length (concat (map (fun b => [nibble (b mod 16); nibble (b / 16)]) l)) = (2 * length l)%nat) as ->.
    { intros l. induction l as [|x l IH]; [done|]. cbn [map concat app length]. rewrite IH. lia. }
    rewrite length_rev. unfold zlen in Hz. cbn [length]. lia.
Qed.

(** ** Examples *)

Lemma resolver_copy_exact_witness :
  let buf := str "12 bytes of " ++ [3] ++ str "wWw" ++ [2] ++ str "mE" ++ [0; 1; 65; 192; 16] in
  (0 <= 20 < zlen buf) /\ exists k ls, dns_name buf k 20 ls /\ map strlow (name_text ls) = str "a.me".
Proof.
  intros buf. split; [vm_compute; done|].
  destruct (resolver_copy_exact buf 20 true true (bytes_check buf eq_refl) ltac:(vm_compute; done)) as [(k & ls & _ & Hn & _ & E)|[_ E]].
  - exists k, ls. split; [exact Hn|].
    assert (ngx_resolver_copy buf true true 20 = Ok (NGX_OK, Some (str "a.me"))) as E' by (vm_compute; reflexivity).
    rewrite E' in E. cbn [negb orb] in E. congruence.
  - vm_compute in E. discriminate.
Defined.

Lemma resolver_query_roundtrip_witness :
  let alloc n := if n <? 0 then None else Some (replicate (Z.to_nat n) 7) in
  exists rc q, ngx_resolver_create_name_query alloc true 1 2 (str "Nginx.org") = Ok (rc, q) /\
    queries_sent alloc true 1 2 (str "Nginx.org") rc q /\
    ngx_resolver_copy (query_text 9 NGX_RESOLVE_AAAA (labels (str "Nginx.org"))) true true 12 = Ok (NGX_OK, Some (str "nginx.org")).
Proof.
  intros alloc. assert (forall n l, alloc n = Some l -> zlen l = n) as Ha.
  { intros n l. unfold alloc. destruct (Z.ltb_spec n 0); [done|]. intros H'. injection H' as <-. unfold zlen. rewrite length_replicate. lia. }
  destruct (resolver_query_roundtrip alloc true 1 2 (str "Nginx.org") Ha (bytes_check (str "Nginx.org") eq_refl) eq_refl) as (rc & q & _ & _ & Hq & Hs & _ & _ & Hc).
  exists rc, q. split; [exact Hq|]. split; [exact Hs|].
  apply Hc; [|apply Nat.leb_le; reflexivity|right; left].
  repeat (constructor; [split; apply Z.leb_le; reflexivity|]). constructor.
Defined.

Lemma resolver_addr_query_exact_witness :
  exists q, ngx_resolver_create_addr_query true 7 (AF_INET (u32_of_bytes [192; 0; 2; 1]) 0) = Ok (NGX_OK, q) /\
    ngx_resolver_copy q true true 12 = Ok (NGX_OK, Some (str "1.2.0.192.in-addr.arpa")).
Proof.
  destruct (resolver_addr_query_exact 7 0 192 0 2 1 (replicate 16 1) (bytes_check [192; 0; 2; 1] eq_refl) (bytes_check (replicate 16 1) eq_refl) eq_refl) as [(q & E & _ & N) _].
  exists q. split; [exact E|exact N].
Defined.
