(* ===== verification/SslPreread.v ===== *)
(** * The ClientHello of a TLS connection, read ahead

    [src/stream/ngx_stream_ssl_preread_module.c]: the handler of the preread phase that
    takes the server name, the application protocols and the version out of the first
    message of a client, and [ngx_stream_core_preread_phase], which calls it. Only
    debug messages are left out. *)

From S2P Require Import Prelude.

(** ** The parser of records *)

Inductive state :=
| sw_start | sw_header | sw_version | sw_random | sw_sid_len | sw_sid | sw_cs_len | sw_cs
| sw_cm_len | sw_cm | sw_ext | sw_ext_header | sw_sni_len | sw_sni_host_head | sw_sni_host
| sw_alpn_len | sw_alpn_proto_len | sw_alpn_proto_data | sw_supver_len.

(** What [dst] points into, with the offset. *)
Inductive target := ToBuf | ToVersion | ToHost | ToAlpn.

(** The local variables of the parser ([l_left] is also written [lft]), which are kept in the context from one record to
    the next one. *)
Record locals := Locals {
  l_state : state;
  l_size : Z;
  l_left : Z;
  l_ext : Z;
  l_dst : option (target * Z)
}.

(** What the parser writes to directly: [ctx->buf], [version], [host] and [alpn]. The data
    of a string is the memory at its pointer, [None] for [NULL]. *)
Record memory := Memory {
  m_buf : list Z;
  m_version : list Z;
  m_host_data : option (list Z);
  m_host_len : Z;
  m_alpn_data : option (list Z);
  m_alpn_len : Z
}.

(** [ngx_stream_ssl_preread_ctx_t]; [c_pos] is an offset into the buffer. *)
Record ngx_stream_ssl_preread_ctx_t := Ctx {
  c_locals : locals;
  c_mem : memory;
  c_pos : Z
}.

Definition set_buf (m : memory) (l : list Z) : memory :=
  Memory l m.(m_version) m.(m_host_data) m.(m_host_len) m.(m_alpn_data) m.(m_alpn_len).
Definition set_version (m : memory) (l : list Z) : memory :=
  Memory m.(m_buf) l m.(m_host_data) m.(m_host_len) m.(m_alpn_data) m.(m_alpn_len).
Definition set_host (m : memory) (data : option (list Z)) (len : Z) : memory :=
  Memory m.(m_buf) m.(m_version) data len m.(m_alpn_data) m.(m_alpn_len).
Definition set_alpn (m : memory) (data : option (list Z)) (len : Z) : memory :=
  Memory m.(m_buf) m.(m_version) m.(m_host_data) m.(m_host_len) data len.

(** [ngx_cpymem(dst, pos, n)], with the bytes that are copied. *)
Definition store_at (m : memory) (t : target) (off : Z) (l : list Z) : res memory :=
  match t with
  | ToBuf => b ← blit m.(m_buf) off l; Ok (set_buf m b)
  | ToVersion => b ← blit m.(m_version) off l; Ok (set_version m b)
  | ToHost =>
      match m.(m_host_data) with
      | Some d => b ← blit d off l; Ok (set_host m (Some b) m.(m_host_len))
      | None => Fault
      end
  | ToAlpn =>
      match m.(m_alpn_data) with
      | Some d => b ← blit d off l; Ok (set_alpn m (Some b) m.(m_alpn_len))
      | None => Fault
      end
  end.

Section parser.
(** [ngx_pnalloc] for the name and for the protocols, each called once at most: the memory
    for a size, with whatever it holds. *)
Context (host_alloc alpn_alloc : Z -> option (list Z)).

(** What a case of the [switch] does: it returns, or goes on with other variables. *)
Inductive verdict := Return (rc : Z) (m : memory) | Next (v : locals) (m : memory).

Definition to_buf : option (target * Z) := Some (ToBuf, 0).

(** The cases, when a field is complete. [p] is [ctx->buf]. *)
Definition transition (v : locals) (m : memory) : res verdict :=
  let '(Locals state size lft ext dst) := v in
  let p := m.(m_buf) in
  let go st size := Ok (Next (Locals st size lft ext to_buf) m) in
  let skip st size := Ok (Next (Locals st size lft ext None) m) in
  match state with
  | sw_start => Ok (Next (Locals sw_header 4 4 ext to_buf) m)
  | sw_header =>
      p0 ← get p 0;
      if negb (p0 =? 1) then Ok (Return NGX_DECLINED m)
      else
        p1 ← get p 1; p2 ← get p 2; p3 ← get p 3;
        Ok (Next (Locals sw_version 2 (Z.shiftl p1 16 + Z.shiftl p2 8 + p3) ext (Some (ToVersion, 0))) m)
  | sw_version => skip sw_random 32
  | sw_random => go sw_sid_len 1
  | sw_sid_len => p0 ← get p 0; skip sw_sid p0
  | sw_sid => go sw_cs_len 2
  | sw_cs_len => p0 ← get p 0; p1 ← get p 1; skip sw_cs (Z.shiftl p0 8 + p1)
  | sw_cs => go sw_cm_len 1
  | sw_cm_len => p0 ← get p 0; skip sw_cm p0
  | sw_cm => if lft =? 0 then Ok (Return NGX_OK m) else go sw_ext 2
  | sw_ext => if lft =? 0 then Ok (Return NGX_OK m) else go sw_ext_header 4
  | sw_ext_header =>
      p0 ← get p 0; p1 ← get p 1;
      if (p0 =? 0) && (p1 =? 0) && bool_decide (m.(m_host_data) = None) then go sw_sni_len 2
      else if (p0 =? 0) && (p1 =? 16) && bool_decide (m.(m_alpn_data) = None) then go sw_alpn_len 2
      else if (p0 =? 0) && (p1 =? 43) then go sw_supver_len 1
      else p2 ← get p 2; p3 ← get p 3; skip sw_ext (Z.shiftl p2 8 + p3)
  | sw_sni_len =>
      p0 ← get p 0; p1 ← get p 1;
      Ok (Next (Locals sw_sni_host_head 3 lft (Z.shiftl p0 8 + p1) to_buf) m)
  | sw_sni_host_head =>
      p0 ← get p 0;
      if negb (p0 =? 0) then Ok (Return NGX_DECLINED m)
      else
        p1 ← get p 1; p2 ← get p 2;
        let size := Z.shiftl p1 8 + p2 in
        if ext <? 3 + size then Ok (Return NGX_DECLINED m)
        else
          match host_alloc size with
          | None => Ok (Return NGX_ERROR (set_host m None m.(m_host_len)))
          | Some d =>
              Ok (Next (Locals sw_sni_host size lft (ext - (3 + size)) (Some (ToHost, 0))) (set_host m (Some d) m.(m_host_len)))
          end
  | sw_sni_host =>
      p1 ← get p 1; p2 ← get p 2;
      Ok (Next (Locals sw_ext ext lft ext None) (set_host m m.(m_host_data) (Z.shiftl p1 8 + p2)))
  | sw_alpn_len =>
      p0 ← get p 0; p1 ← get p 1;
      let ext := Z.shiftl p0 8 + p1 in
      match alpn_alloc ext with
      | None => Ok (Return NGX_ERROR (set_alpn m None m.(m_alpn_len)))
      | Some d => Ok (Next (Locals sw_alpn_proto_len 1 lft ext to_buf) (set_alpn m (Some d) m.(m_alpn_len)))
      end
  | sw_alpn_proto_len =>
      size ← get p 0;
      if size =? 0 then Ok (Return NGX_DECLINED m)
      else if ext <? 1 + size then Ok (Return NGX_DECLINED m)
      else Ok (Next (Locals sw_alpn_proto_data size lft (ext - (1 + size)) (Some (ToAlpn, m.(m_alpn_len)))) m)
  | sw_alpn_proto_data =>
      p0 ← get p 0;
      let len := m.(m_alpn_len) + p0 in
      if negb (ext =? 0) then
        match m.(m_alpn_data) with
        | None => Fault
        | Some d =>
            d ← put d len ","%chr;
            Ok (Next (Locals sw_alpn_proto_len 1 lft ext to_buf) (set_alpn m (Some d) (len + 1)))
        end
      else Ok (Next (Locals sw_ext 0 lft ext None) (set_alpn m m.(m_alpn_data) len))
  | sw_supver_len =>
      p0 ← get p 0;
      Ok (Next (Locals sw_ext p0 lft ext None) (set_version m [3; 4]))
  end.

(** [for ( ;; )], with what is left of the record. The result has the local variables at
    the end. *)
Fixpoint parse_loop (fuel : nat) (v : locals) (m : memory) (l : list Z) : res (Z * locals * memory) :=
  match fuel with
  | O => NoFuel
  | S fuel =>
      let '(Locals state size lft ext dst) := v in
      let n := Z.min (zlen l) size in
      bytes ← slice l 0 n;
      '(dst, m) ← match dst with
                  | None => Ok (None, m)
                  | Some (t, off) => m ← store_at m t off bytes; Ok (Some (t, off + n), m)
                  end;
      let l := drop (Z.to_nat n) l in
      let size := u64 (size - n) in
      let lft := u64 (lft - n) in
      if negb (size =? 0) then Ok (NGX_AGAIN, Locals state size lft ext dst, m)
      else
        r ← transition (Locals state size lft ext dst) m;
        match r with
        | Return rc m => Ok (rc, Locals state size lft ext dst, m)
        | Next v m =>
            if v.(l_left) <? v.(l_size) then Ok (NGX_DECLINED, v, m) else parse_loop fuel v m l
        end
  end.

(** No more than two fields without a byte follow each other. *)
Definition ngx_stream_ssl_preread_parse_record (ctx : ngx_stream_ssl_preread_ctx_t) (l : list Z)
    : res (Z * ngx_stream_ssl_preread_ctx_t) :=
  '(rc, v, m) ← parse_loop (3 * length l + 3) ctx.(c_locals) ctx.(c_mem) l;
  Ok (rc, Ctx (if rc =? NGX_AGAIN then v else ctx.(c_locals)) m ctx.(c_pos)).

(** ** The handler *)

Definition fresh_ctx : ngx_stream_ssl_preread_ctx_t :=
  Ctx (Locals sw_start 0 0 0 None) (Memory [0; 0; 0; 0] [0; 0] None 0 None 0) 0.

(** [while (last - p >= 5)], with the buffer from [c->buffer->pos] to [last]. [None] is a
    context that was taken from the session. *)
Fixpoint records_loop (fuel : nat) (ctx : ngx_stream_ssl_preread_ctx_t) (data : list Z) (p : Z)
    : res (Z * option ngx_stream_ssl_preread_ctx_t) :=
  match fuel with
  | O => NoFuel
  | S fuel =>
      let again := Ok (NGX_AGAIN, Some (Ctx ctx.(c_locals) ctx.(c_mem) p)) in
      if zlen data - p <? 5 then again
      else
        p0 ← get data p; p1 ← get data (p + 1); p2 ← get data (p + 2); p3 ← get data (p + 3); p4 ← get data (p + 4);
        if negb (Z.land p0 0x80 =? 0) && (p2 =? 1) && ((p3 =? 0) || (p3 =? 3)) then
          Ok (NGX_OK, Some (Ctx ctx.(c_locals) (set_version ctx.(c_mem) [p3; p4]) ctx.(c_pos)))
        else if negb (p0 =? 0x16) then Ok (NGX_DECLINED, None)
        else if negb (p1 =? 3) then Ok (NGX_DECLINED, None)
        else
          let len := Z.shiftl p3 8 + p4 in
          if zlen data - p <? len + 5 then again
          else
            let p := p + 5 in
            l ← slice data p len;
            '(rc, ctx) ← ngx_stream_ssl_preread_parse_record ctx l;
            if rc =? NGX_DECLINED then Ok (NGX_DECLINED, None)
            else if negb (rc =? NGX_AGAIN) then Ok (rc, Some ctx)
            else records_loop fuel ctx data (p + len)
  end.

(** [ctx_alloc] is whether there is memory for a context; [buffer] is [c->buffer]. The
    second part of the result is the context of the session. *)
Definition ngx_stream_ssl_preread_handler (enabled sock_stream ctx_alloc : bool)
    (ctx : option ngx_stream_ssl_preread_ctx_t) (buffer : option (list Z))
    : res (Z * option ngx_stream_ssl_preread_ctx_t) :=
  if negb enabled then Ok (NGX_DECLINED, ctx)
  else if negb sock_stream then Ok (NGX_DECLINED, ctx)
  else
    match buffer with
    | None => Ok (NGX_AGAIN, ctx)
    | Some data =>
        match ctx with
        | None => if ctx_alloc then records_loop (length data + 1) fresh_ctx data 0 else Ok (NGX_ERROR, None)
        | Some ctx => records_loop (length data + 1) ctx data ctx.(c_pos)
        end
    end.
End parser.

(** ** The variables

    The text of each, or [None] if it is not found. *)

Definition ngx_stream_ssl_preread_protocol_variable (ctx : option ngx_stream_ssl_preread_ctx_t) : res (option (list Z)) :=
  match ctx with
  | None => Ok None
  | Some ctx =>
      v0 ← get ctx.(c_mem).(m_version) 0;
      v1 ← get ctx.(c_mem).(m_version) 1;
      Ok (Some
        (if v0 =? 0 then if v1 =? 2 then str "SSLv2" else []
         else if v0 =? 3 then
           if v1 =? 0 then str "SSLv3" else if v1 =? 1 then str "TLSv1" else if v1 =? 2 then str "TLSv1.1"
           else if v1 =? 3 then str "TLSv1.2" else if v1 =? 4 then str "TLSv1.3" else []
         else []))
  end.

(** The bytes of a string; none are read if there is no memory and no length. *)
Definition string_text (data : option (list Z)) (len : Z) : res (list Z) :=
  match data with
  | Some d => slice d 0 len
  | None => if len =? 0 then Ok [] else Fault
  end.

Definition ngx_stream_ssl_preread_server_name_variable (ctx : option ngx_stream_ssl_preread_ctx_t) : res (option (list Z)) :=
  match ctx with
  | None => Ok None
  | Some ctx => l ← string_text ctx.(c_mem).(m_host_data) ctx.(c_mem).(m_host_len); Ok (Some l)
  end.

Definition ngx_stream_ssl_preread_alpn_protocols_variable (ctx : option ngx_stream_ssl_preread_ctx_t) : res (option (list Z)) :=
  match ctx with
  | None => Ok None
  | Some ctx => l ← string_text ctx.(c_mem).(m_alpn_data) ctx.(c_mem).(m_alpn_len); Ok (Some l)
  end.

(** ** The preread phase

    [ngx_stream_core_preread_phase] of [src/stream/ngx_stream_core_module.c], for any
    handler [ph->handler] with a context of its own. *)

(** What [c->recv] gives for [size] bytes of room: bytes, [NGX_ERROR] or 0, or
    [NGX_AGAIN]. *)
Inductive recv_result := Recv (l : list Z) | RecvEnd | RecvAgain.

(** What becomes of the session: it waits for events, goes on to another handler of the
    phases, has been taken over by the handler, or is finalized. *)
Inductive phase_result := Wait | NextPhase | NextHandler | Taken | Finalized (rc : Z).

Section phase.
Context {C : Type} (handler : C -> option (list Z) -> res (Z * C)).
(** Whether there is memory for the buffer of [preread_buffer_size] bytes, and whether
    [ngx_handle_read_event] succeeds. *)
Context (buffer_alloc : bool) (preread_buffer_size : Z) (read_event : bool).

(** The context of the handler, [c->buffer] and [c->read->timer_set]. *)
Record session := Session { s_ctx : C; s_buffer : option (list Z); s_timer_set : bool }.

(** [while (rc == NGX_AGAIN)]. [recv] is what the calls of [c->recv] give while
    [c->read->ready] is set, each with [c->read->eof] afterwards. *)
Fixpoint preread_loop (recv : list (recv_result * bool)) (eof : bool) (rc : Z) (ctx : C) (buffer : option (list Z))
    : res (Z * C * option (list Z)) :=
  if negb (rc =? NGX_AGAIN) then Ok (rc, ctx, buffer)
  else
    match (match buffer with Some data => Some data | None => if buffer_alloc then Some [] else None end) with
    | None => Ok (NGX_ERROR, ctx, None)
    | Some data =>
        let size := preread_buffer_size - zlen data in
        if size =? 0 then Ok (NGX_STREAM_BAD_REQUEST, ctx, Some data)
        else if eof then Ok (NGX_STREAM_OK, ctx, Some data)
        else
          match recv with
          | [] => Ok (NGX_AGAIN, ctx, Some data)
          | (RecvEnd, _) :: _ => Ok (NGX_STREAM_OK, ctx, Some data)
          | (RecvAgain, _) :: _ => Ok (NGX_AGAIN, ctx, Some data)
          | (Recv l, eof) :: recv =>
              let data := data ++ l in
              '(rc, ctx) ← handler ctx (Some data);
              preread_loop recv eof rc ctx (Some data)
          end
    end.

(** What the phase makes of the code that the loop ends with. *)
Definition phase_end (timer_set : bool) (rc : Z) (ctx : C) (buffer : option (list Z)) : phase_result * session :=
  if rc =? NGX_AGAIN then
    if read_event then (Wait, Session ctx buffer true)
    else (Finalized NGX_STREAM_INTERNAL_SERVER_ERROR, Session ctx buffer timer_set)
  else
    (if rc =? NGX_OK then NextPhase
     else if rc =? NGX_DECLINED then NextHandler
     else if rc =? NGX_DONE then Taken
     else Finalized (if rc =? NGX_ERROR then NGX_STREAM_INTERNAL_SERVER_ERROR else rc),
     Session ctx buffer false).

Definition ngx_stream_core_preread_phase (timedout eof : bool) (recv : list (recv_result * bool)) (s : session)
    : res (phase_result * session) :=
  '(rc, ctx) ← (if timedout then Ok (NGX_STREAM_OK, s.(s_ctx))
                else if s.(s_timer_set) then Ok (NGX_AGAIN, s.(s_ctx))
                else handler s.(s_ctx) s.(s_buffer));
  '(rc, ctx, buffer) ← preread_loop recv eof rc ctx s.(s_buffer);
  Ok (phase_end s.(s_timer_set) rc ctx buffer).
End phase.
