(* ===== verification/SslPrereadSpec.v ===== *)
(** * What is read ahead of a TLS connection

    The parser of records never leaves its memory and always ends, it does not matter how
    the client cuts its message into records and segments, and the variables of a
    ClientHello are what it says. *)

From S2P Require Import Prelude NetBytes NumericSpec SslPreread.

(** ** The invariant of the parser *)

Definition string_ok (data : option (list Z)) (len : Z) : Prop :=
  match data with Some d => 0 <= len <= zlen d | None => len = 0 end.

Definition memory_ok (m : memory) : Prop :=
  zlen m.(m_buf) = 4 /\ bytes m.(m_buf) /\ zlen m.(m_version) = 2 /\
  string_ok m.(m_host_data) m.(m_host_len) /\ string_ok m.(m_alpn_data) m.(m_alpn_len).

(** The number of bytes a state reads into [ctx->buf]. *)
Definition buf_field (st : state) : option Z :=
  match st with
  | sw_header | sw_ext_header => Some 4
  | sw_sni_host_head => Some 3
  | sw_cs_len | sw_sni_len | sw_alpn_len => Some 2
  | sw_sid_len | sw_cm_len | sw_alpn_proto_len | sw_supver_len => Some 1
  | _ => None
  end.

(** The place where the rest of a field, of [size] bytes, goes. *)
Definition field_ok (v : locals) (m : memory) : Prop :=
  let '(Locals st size lft ext dst) := v in
  match buf_field st with
  | Some k => size <= k /\ dst = Some (ToBuf, k - size)
  | None =>
      match st with
      | sw_start => size = 0 /\ dst = None
      | sw_version => size <= 2 /\ dst = Some (ToVersion, 2 - size)
      | sw_ext => dst = None \/ (size <= 2 /\ dst = Some (ToBuf, 2 - size))
      | sw_sni_host => exists d p1 p2, m.(m_host_data) = Some d /\ get m.(m_buf) 1 = Ok p1 /\ get m.(m_buf) 2 = Ok p2 /\
          zlen d = Z.shiftl p1 8 + p2 /\ size <= zlen d /\ dst = Some (ToHost, zlen d - size)
      | sw_alpn_proto_data => exists d p0, m.(m_alpn_data) = Some d /\ get m.(m_buf) 0 = Ok p0 /\ size <= p0 /\
          m.(m_alpn_len) + p0 + 1 + ext <= zlen d /\ dst = Some (ToAlpn, m.(m_alpn_len) + p0 - size)
      | _ => dst = None
      end
  end /\
  match st with
  | sw_sni_len | sw_sni_host_head => m.(m_host_data) = None
  | sw_alpn_len => m.(m_alpn_data) = None
  | sw_alpn_proto_len => exists d, m.(m_alpn_data) = Some d /\ m.(m_alpn_len) + ext <= zlen d
  | _ => True
  end.

Definition locals_ok (v : locals) : Prop :=
  0 <= v.(l_size) /\ (v.(l_state) = sw_start \/ v.(l_size) <= v.(l_left)) /\ 0 <= v.(l_left) < 16777216 /\ 0 <= v.(l_ext) < 65536.

Definition inv (v : locals) (m : memory) : Prop := memory_ok m /\ locals_ok v /\ field_ok v m.

(** The states in which nothing may be left to read, and how many of them may follow. *)
Definition rank (v : locals) : Z :=
  if v.(l_size) =? 0 then match v.(l_state) with sw_sni_host => 2 | _ => 1 end else 0.

Definition may_be_empty (st : state) : bool :=
  match st with sw_start | sw_sid | sw_cs | sw_cm | sw_ext | sw_sni_host => true | _ => false end.

Definition head (v : locals) : Prop := v.(l_size) = 0 -> may_be_empty v.(l_state) = true.

Lemma word_16 a b : is_byte a -> is_byte b -> 0 <= Z.shiftl a 8 + b < 65536.
Proof. intros Ha Hb. rewrite Z.shiftl_mul_pow2 by lia. change (2 ^ 8) with 256. lia. Qed.

Section safety.
Context (host_alloc alpn_alloc : Z -> option (list Z)).
Context (Hhost : forall n d, host_alloc n = Some d -> zlen d = n) (Halpn : forall n d, alpn_alloc n = Some d -> zlen d = n).

(** What a verdict promises to the loop. *)
Definition verdict_ok (v : locals) (r : verdict) : Prop :=
  match r with
  | Return rc m => memory_ok m /\ (rc = NGX_OK \/ rc = NGX_DECLINED \/ rc = NGX_ERROR)
  | Next v' m => memory_ok m /\ (v'.(l_size) <= v'.(l_left) -> (locals_ok v' /\ field_ok v' m) /\ head v' /\ (v.(l_state) = sw_start \/ may_be_empty v.(l_state) = true -> rank v' < rank v))
  end.

Ltac fields m Hm :=
  let Hb := fresh "Hlen" in let Hbytes := fresh "Hbytes" in let Hv := fresh "Hv" in let Hh := fresh "Hh" in let Ha := fresh "Ha" in
  destruct Hm as (Hb & Hbytes & Hv & Hh & Ha);
  destruct (get_ok m.(m_buf) 0 ltac:(lia)) as [p0 Q0]; pose proof (get_byte _ _ _ Hbytes Q0);
  destruct (get_ok m.(m_buf) 1 ltac:(lia)) as [p1 Q1]; pose proof (get_byte _ _ _ Hbytes Q1);
  destruct (get_ok m.(m_buf) 2 ltac:(lia)) as [p2 Q2]; pose proof (get_byte _ _ _ Hbytes Q2);
  destruct (get_ok m.(m_buf) 3 ltac:(lia)) as [p3 Q3]; pose proof (get_byte _ _ _ Hbytes Q3).

(** A verdict that goes on: the three parts of what it promises. *)
Ltac goes_on :=
  eexists; split; [reflexivity|]; cbn [verdict_ok l_size l_left]; split; [try done|intros Hle; split;
    [split; [unfold locals_ok; cbn [l_size l_left l_ext l_state]; split_and!; try lia; by right
            |unfold field_ok; cbn [buf_field]; split; [try done; try (split; [lia|done])|try done]]
    |split; [unfold head; cbn [l_size l_state]; try done; try lia
            |unfold rank; cbn [l_size l_state may_be_empty]; intros [H'|H']; try discriminate; repeat case_match; lia]]].

Ltac returns := eexists; split; [reflexivity|]; cbn [verdict_ok]; split; [done|by auto].

Lemma transition_ok st lft ext dst m :
  inv (Locals st 0 lft ext dst) m ->
  exists r, transition host_alloc alpn_alloc (Locals st 0 lft ext dst) m = Ok r /\ verdict_ok (Locals st 0 lft ext dst) r.
Proof using Hhost Halpn.
  intros (Hm & (Hs & Hsl & Hl & He) & Hf). cbn [l_size l_left l_ext l_state] in *. pose proof Hm as Hm0. fields m Hm.
  pose proof (word_16 p0 p1 ltac:(done) ltac:(done)). pose proof (word_16 p1 p2 ltac:(done) ltac:(done)). pose proof (word_16 p2 p3 ltac:(done) ltac:(done)).
  destruct st; cbn [transition]; rewrite ?Q0, ?Q1, ?Q2, ?Q3, ?Ok_bind; try (goes_on; fail).
  - destruct (negb _); [returns|]. rewrite !Z.shiftl_mul_pow2 by lia. change (2 ^ 16) with 65536. change (2 ^ 8) with 256. goes_on.
  - destruct (Z.eqb_spec lft 0); [returns|]. goes_on. right. split; [lia|done].
  - destruct (Z.eqb_spec lft 0); [returns|]. goes_on.
  - destruct ((p0 =? 0) && (p1 =? 0) && bool_decide (m.(m_host_data) = None)) eqn:E1;
      [|destruct ((p0 =? 0) && (p1 =? 16) && bool_decide (m.(m_alpn_data) = None)) eqn:E2].
    + apply andb_true_iff in E1 as [_ E1]. apply bool_decide_eq_true_1 in E1. goes_on.
    + apply andb_true_iff in E2 as [_ E2]. apply bool_decide_eq_true_1 in E2. goes_on.
    + destruct ((p0 =? 0) && (p1 =? 43)); [goes_on|]. goes_on. by left.
  - destruct Hf as [_ Hf]. goes_on.
  - destruct Hf as [_ Hf]. destruct (negb _); [returns|]. destruct (Z.ltb_spec ext (3 + (Z.shiftl p1 8 + p2))); [returns|].
    unfold string_ok in Hh. rewrite Hf in Hh. destruct (host_alloc _) as [d|] eqn:Hd.
    + apply Hhost in Hd. goes_on; [split_and!; try done; cbn; lia|]. exists d, p1, p2. cbn. split_and!; try done; [lia|]. do 2 f_equal. lia.
    + returns.
  - destruct Hf as [(d & p1' & p2' & E1 & E2 & E3 & E4 & _) _]. goes_on; [|by left].
    rewrite Q1 in E2. rewrite Q2 in E3. injection E2 as <-. injection E3 as <-. unfold string_ok in Hh. rewrite E1 in Hh.
    split_and!; try done. cbn. rewrite E1. cbn. lia.
  - destruct Hf as [_ Hf]. unfold string_ok in Ha. rewrite Hf in Ha. destruct (alpn_alloc _) as [d|] eqn:Hd.
    + apply Halpn in Hd. goes_on; [split_and!; try done; cbn; lia|]. exists d. cbn. split; [done|]. lia.
    + returns.
  - destruct Hf as [_ (d & E1 & E2)]. destruct (Z.eqb_spec p0 0); [returns|]. destruct (Z.ltb_spec ext (1 + p0)); [returns|].
    goes_on. exists d, p0. split_and!; try done; try lia. do 2 f_equal. lia.
  - destruct Hf as [(d & p0' & E1 & E2 & _ & E3 & _) _]. rewrite Q0 in E2. injection E2 as <-. unfold string_ok in Ha. rewrite E1 in *.
    destruct (Z.eqb_spec ext 0) as [->|Hext]; cbn [negb].
    + goes_on; [|by left]. split_and!; try done. cbn. lia.
    + destruct (put_ok d (m.(m_alpn_len) + p0) ","%chr) as (d' & Hd' & Hz); [lia|]. rewrite Hd', Ok_bind.
      goes_on; [split_and!; try done; cbn; lia|]. exists d'. cbn. split; [done|]. lia.
  - goes_on. by left.
Qed.

(** The bytes of a field, or some of them, are where they should go. *)
Definition moved (dst : option (target * Z)) (n : Z) : option (target * Z) :=
  match dst with Some (t, off) => Some (t, off + n) | None => None end.

Definition stored (m : memory) (dst : option (target * Z)) (l : list Z) : res memory :=
  match dst with Some (t, off) => store_at m t off l | None => Ok m end.

Lemma parse_loop_eq fuel v m l :
  parse_loop host_alloc alpn_alloc (S fuel) v m l =
  (let n := Z.min (zlen l) v.(l_size) in
   bytes ← slice l 0 n;
   m ← stored m v.(l_dst) bytes;
   let v := Locals v.(l_state) (u64 (v.(l_size) - n)) (u64 (v.(l_left) - n)) v.(l_ext) (moved v.(l_dst) n) in
   if negb (v.(l_size) =? 0) then Ok (NGX_AGAIN, v, m)
   else
     r ← transition host_alloc alpn_alloc v m;
     match r with
     | Return rc m => Ok (rc, v, m)
     | Next v m => if v.(l_left) <? v.(l_size) then Ok (NGX_DECLINED, v, m) else parse_loop host_alloc alpn_alloc fuel v m (drop (Z.to_nat n) l)
     end).
Proof using.
  destruct v as [st size lft ext dst]. cbn [parse_loop l_state l_size l_left l_ext l_dst]. cbv zeta.
  destruct (slice l 0 _); try done. rewrite !Ok_bind. destruct dst as [[t off]|]; cbn [stored moved]; [|done].
  destruct (store_at m t off _); done.
Qed.

Lemma blit_bytes b i l b' : blit b i l = Ok b' -> bytes b -> bytes l -> bytes b'.
Proof using.
  unfold blit. case_match; [|done]. intros [= <-] Hb Hl. rewrite !Forall_app. split_and!; [by apply Forall_take|done|by apply Forall_drop].
Qed.

(** Storing the next bytes of a field. *)
Lemma stored_ok v m l :
  inv v m -> bytes l -> zlen l <= v.(l_size) ->
  exists m', stored m v.(l_dst) l = Ok m' /\
    inv (Locals v.(l_state) (v.(l_size) - zlen l) (v.(l_left) - zlen l) v.(l_ext) (moved v.(l_dst) (zlen l))) m'.
Proof using.
  destruct v as [st size lft ext dst]. cbn [l_state l_size l_left l_ext l_dst]. intros (Hm & (Hs & Hsl & Hl & He) & Hf) Hbl Hn.
  cbn [l_size l_left l_ext l_state] in *. pose proof (zlen_nonneg l).
  assert (zlen l <= lft) as Hll by (destruct Hsl as [->|Hsl]; [destruct Hf as [[-> _] _]|]; lia).
  assert (locals_ok (Locals st (size - zlen l) (lft - zlen l) ext (moved dst (zlen l)))) as Hlo.
  { unfold locals_ok. cbn [l_size l_left l_ext l_state]. split_and!; try lia. destruct Hsl; [by left|right; lia]. }
  pose proof Hm as (Hlen & Hbytes & Hv & Hh & Ha). destruct Hf as [Hf Hg].
  assert (forall k, k <= 4 -> size <= k -> dst = Some (ToBuf, k - size) ->
    exists b, stored m dst l = Ok (set_buf m b) /\ memory_ok (set_buf m b) /\
      size - zlen l <= k /\ moved dst (zlen l) = Some (ToBuf, k - (size - zlen l))) as Hbuf.
  { intros k Hk4 Hk ->. destruct (blit_ok m.(m_buf) (k - size) l) as [b Hb]; [lia..|]. exists b. cbn [stored store_at moved]. rewrite Hb, Ok_bind.
    split; [done|]. split; [|split; [lia|do 2 f_equal; lia]]. split_and!; cbn; try done; [by rewrite (zlen_blit _ _ _ _ Hb)|by apply (blit_bytes _ _ _ _ Hb)]. }
  assert (dst = None -> stored m dst l = Ok m /\ moved dst (zlen l) = None) as Hnone by (by intros ->).
  destruct (buf_field st) as [k|] eqn:Ek.
  { destruct (Hbuf k) as (b & Hst & Hmb & Hk & Hd); [by destruct st; simplify_eq/=|tauto|tauto|]. exists (set_buf m b). rewrite Hst, Hd.
    split; [done|]. split; [done|]. rewrite Hd in Hlo. split; [done|]. unfold field_ok. rewrite Ek. split; [done|]. by destruct st. }
  destruct st; try discriminate Ek.
  - destruct Hf as [-> Hf]. destruct (Hnone Hf) as [-> Hd]. rewrite Hd in *. exists m. do 3 (split; [done|]). split; [split; [lia|done]|done].
  - destruct Hf as [Hs2 ->]. cbn [stored store_at moved] in *. destruct (blit_ok m.(m_version) (2 - size) l) as [b Hb]; [lia..|].
    rewrite Hb, Ok_bind. eexists. split; [done|]. split; [split_and!; cbn; try done; by rewrite (zlen_blit _ _ _ _ Hb)|].
    split; [done|]. split; [|done]. cbn [buf_field]. split; [lia|]. do 2 f_equal. lia.
  - destruct (Hnone Hf) as [-> Hd]. rewrite Hd in *. by exists m.
  - destruct (Hnone Hf) as [-> Hd]. rewrite Hd in *. by exists m.
  - destruct (Hnone Hf) as [-> Hd]. rewrite Hd in *. by exists m.
  - destruct (Hnone Hf) as [-> Hd]. rewrite Hd in *. by exists m.
  - destruct Hf as [Hf|[Hs2 Hf]].
    + destruct (Hnone Hf) as [-> Hd]. rewrite Hd in *. exists m. split; [done|]. split; [done|]. split; [done|]. split; [by left|done].
    + destruct (Hbuf 2) as (b & Hst & Hmb & Hk & Hd); [lia|lia|done|]. exists (set_buf m b). rewrite Hst, Hd in *.
      split; [done|]. split; [done|]. split; [done|]. split; [|done]. right. split; [lia|done].
  - destruct Hf as (d & p1 & p2 & E1 & E2 & E3 & E4 & E5 & ->). cbn [stored store_at moved] in *. rewrite E1.
    destruct (blit_ok d (zlen d - size) l) as [b Hb]; [lia..|]. rewrite Hb, Ok_bind. pose proof (zlen_blit _ _ _ _ Hb) as Hz.
    eexists. split; [done|]. unfold string_ok in Hh. rewrite E1 in Hh. split; [split_and!; cbn; try done; lia|].
    split; [done|]. split; [|done]. exists b, p1, p2. cbn. split_and!; try done; try lia. do 2 f_equal. lia.
  - destruct Hf as (d & p0 & E1 & E2 & E3 & E4 & ->). cbn [stored store_at moved] in *. rewrite E1.
    unfold string_ok in Ha. rewrite E1 in Ha.
    destruct (blit_ok d (m.(m_alpn_len) + p0 - size) l) as [b Hb]; [lia..|]. rewrite Hb, Ok_bind. pose proof (zlen_blit _ _ _ _ Hb) as Hz.
    eexists. split; [done|]. split; [split_and!; cbn; try done; lia|].
    split; [done|]. split; [|done]. exists b, p0. cbn. split_and!; try done; try lia. do 2 f_equal. lia.
Qed.

Definition code_ok (rc : Z) : Prop := rc = NGX_OK \/ rc = NGX_AGAIN \/ rc = NGX_DECLINED \/ rc = NGX_ERROR.

(** A result of the loop: the variables can be used with the next record. *)
Definition good (r : res (Z * locals * memory)) : Prop :=
  exists rc v m, r = Ok (rc, v, m) /\ code_ok rc /\ memory_ok m /\ (rc = NGX_AGAIN -> inv v m /\ 0 < v.(l_size)).

Lemma inv_size v m : inv v m -> 0 <= v.(l_size) <= v.(l_left) /\ v.(l_left) < 16777216.
Proof using.
  intros (_ & (Hs & Hsl & Hl & _) & Hf). split; [|lia]. split; [done|]. destruct Hsl as [Est|]; [|done].
  destruct v as [st size lft ext dst]. cbn [l_state l_size l_left] in *. subst st. destruct Hf as [[-> _] _]. lia.
Qed.

Lemma slice_zlen_eq b i n l : slice b i n = Ok l -> zlen l = n /\ 0 <= i /\ 0 <= n /\ i + n <= zlen b.
Proof using.
  unfold slice. destruct (Z.leb_spec 0 i), (Z.leb_spec 0 n), (Z.leb_spec (i + n) (zlen b)); try done. cbn [andb]. intros [= <-].
  rewrite zlen_take; [lia|]. rewrite zlen_drop; lia.
Qed.

Lemma slice_front_part (a b : list Z) i n l : slice a i n = Ok l -> slice (a ++ b) i n = Ok l.
Proof using.
  intros Hl. destruct (slice_zlen_eq _ _ _ _ Hl) as (_ & H1 & H2 & H3).
  assert (slice (a ++ b) 0 (zlen a) = Ok a) as Ha by (apply (slice_app [] a b); done).
  rewrite <- Hl. symmetry. replace i with (0 + i) at 2 by lia. by apply (slice_slice _ _ _ _ _ _ Ha).
Qed.

Lemma slice_parts (b : list Z) n y : slice b 0 n = Ok y -> exists z, b = y ++ z.
Proof using.
  unfold slice. case_match; [|done]. intros [= <-]. exists (drop (Z.to_nat n) b). by rewrite take_drop.
Qed.

Lemma parse_loop_ok fuel v m l :
  inv v m -> head v -> bytes l -> 3 * zlen l + rank v < Z.of_nat fuel ->
  good (parse_loop host_alloc alpn_alloc fuel v m l).
Proof using Hhost Halpn.
  revert v m l. induction fuel as [|fuel IH]; intros v m l Hi Hh Hl Hf.
  { pose proof (zlen_nonneg l). unfold rank in Hf. repeat case_match; lia. }
  rewrite parse_loop_eq. cbv zeta. pose proof Hi as (Hm & (Hs & Hsl & Hle & He) & _). pose proof (zlen_nonneg l).
  set (n := Z.min (zlen l) v.(l_size)).
  destruct (slice_ok l 0 n) as (w & Hw & Hz); [lia..|]. rewrite Hw, Ok_bind. pose proof (slice_bytes _ _ _ _ Hl Hw) as Hwb.
  assert (exists m', stored m v.(l_dst) w = Ok m' /\ inv (Locals v.(l_state) (v.(l_size) - n) (v.(l_left) - n) v.(l_ext) (moved v.(l_dst) n)) m') as (m' & -> & Hi').
  { rewrite <- Hz. apply stored_ok; [done|done|lia]. }
  rewrite Ok_bind. cbn [l_state l_size l_left].
  pose proof (inv_size v m Hi) as [[_ Hsz] _].
  assert (n <= v.(l_left)) as Hnl.
  { destruct Hi' as (_ & (_ & _ & Hl' & _) & _). cbn [l_left] in Hl'. lia. }
  unfold u64. rewrite !Z.mod_small by lia. destruct (Z.eqb_spec (v.(l_size) - n) 0) as [E|E]; cbn [negb].
  2:{ do 3 eexists. split; [reflexivity|]. split; [unfold code_ok; auto|]. split; [apply Hi'|]. intros _. split; [done|]. cbn [l_size]. lia. }
  rewrite E in *. destruct (transition_ok _ _ _ _ _ Hi') as (r & -> & Hr). rewrite Ok_bind. destruct r as [rc m''|v'' m'']; cbn [verdict_ok] in Hr.
  { destruct Hr as [Hm'' Hrc]. do 3 eexists. split; [reflexivity|]. split; [unfold code_ok; tauto|]. split; [done|].
    intros ->. by destruct Hrc as [?|[?|?]]. }
  destruct (Z.ltb_spec v''.(l_left) v''.(l_size)) as [Hlt|Hge].
  { do 3 eexists. split; [reflexivity|]. split; [unfold code_ok; auto|]. split; [apply Hr|done]. }
  destruct Hr as [Hm'' Hr]. destruct (Hr Hge) as ([Hlo'' Hf''] & Hh'' & Hrank). apply IH; [done|done|by apply Forall_drop|].
  rewrite zlen_drop by lia. cbn [l_state] in Hrank. destruct (decide (v.(l_size) = 0)) as [E0|E0].
  - assert (rank (Locals v.(l_state) 0 (v.(l_left) - n) v.(l_ext) (moved v.(l_dst) n)) = rank v) as Er by (unfold rank; cbn [l_size l_state]; by rewrite E0).
    rewrite Er in Hrank. specialize (Hrank ltac:(right; by apply Hh)). lia.
  - assert (rank v'' <= 2) by (unfold rank; repeat case_match; lia). assert (rank v = 0) by (unfold rank; by rewrite (proj2 (Z.eqb_neq _ _) E0)). lia.
Qed.

(** ** Fields in pieces *)

Lemma blit_pieces b i x y b2 : blit b i (x ++ y) = Ok b2 -> exists b1, blit b i x = Ok b1 /\ blit b1 (i + zlen x) y = Ok b2.
Proof using.
  unfold blit. rewrite zlen_app. pose proof (zlen_nonneg x). pose proof (zlen_nonneg y).
  destruct (Z.leb_spec 0 i), (Z.leb_spec (i + (zlen x + zlen y)) (zlen b)); try done. cbn [andb]. intros [= <-].
  destruct (Z.leb_spec (i + zlen x) (zlen b)); [|lia]. cbn [andb]. eexists. split; [done|].
  assert (zlen (take (Z.to_nat i) b ++ x ++ drop (Z.to_nat (i + zlen x)) b) = zlen b) as Hz.
  { rewrite !zlen_app, zlen_take, zlen_drop by lia. lia. }
  rewrite Hz. destruct (Z.leb_spec 0 (i + zlen x)), (Z.leb_spec (i + zlen x + zlen y) (zlen b)); try lia. cbn [andb]. do 1 f_equal.
  assert (length (take (Z.to_nat i) b ++ x) = Z.to_nat (i + zlen x)) as Hl.
  { rewrite length_app, length_take. unfold zlen in *. lia. }
  rewrite <- (app_assoc x y), !(app_assoc (take (Z.to_nat i) b) x), take_app_length' by done.
  rewrite drop_app_ge, Hl, drop_drop by (rewrite Hl; lia). do 4 f_equal. lia.
Qed.

Lemma stored_pieces m dst x y m2 :
  stored m dst (x ++ y) = Ok m2 -> exists m1, stored m dst x = Ok m1 /\ stored m1 (moved dst (zlen x)) y = Ok m2.
Proof using.
  destruct dst as [[t off]|]; cbn [stored moved]; [|by eauto]. destruct t; cbn [store_at].
  1, 2: intros H; apply bind_Ok in H as (b2 & Hb & Hm); destruct (blit_pieces _ _ _ _ _ Hb) as (b1 & H1 & H2); rewrite H1, Ok_bind;
    eexists; split; [done|]; cbn; rewrite H2, Ok_bind; by injection Hm as <-.
  - destruct (m_host_data m) as [d|]; [|done]. intros H; apply bind_Ok in H as (b2 & Hb & Hm); destruct (blit_pieces _ _ _ _ _ Hb) as (b1 & H1 & H2).
    rewrite H1, Ok_bind. eexists. split; [done|]. cbn. rewrite H2, Ok_bind. by injection Hm as <-.
  - destruct (m_alpn_data m) as [d|]; [|done]. intros H; apply bind_Ok in H as (b2 & Hb & Hm); destruct (blit_pieces _ _ _ _ _ Hb) as (b1 & H1 & H2).
    rewrite H1, Ok_bind. eexists. split; [done|]. cbn. rewrite H2, Ok_bind. by injection Hm as <-.
Qed.

Abbreviation parse := (parse_loop host_alloc alpn_alloc).

Lemma parse_more fuel fuel' v m l r : parse fuel v m l = Ok r -> (fuel <= fuel')%nat -> parse fuel' v m l = Ok r.
Proof using.
  revert fuel' v m l. induction fuel as [|fuel IH]; intros fuel' v m l H Hf; [done|]. destruct fuel' as [|fuel']; [lia|].
  rewrite parse_loop_eq in *. cbv zeta in *. destruct (slice l 0 _) as [w| |]; try done. rewrite !Ok_bind in *.
  destruct (stored m v.(l_dst) w) as [m1| |]; try done. rewrite !Ok_bind in *. destruct (negb _); [done|].
  destruct (transition _ _ _ _) as [[rc m2|v2 m2]| |]; try done. rewrite !Ok_bind in *. cbv beta iota in *. destruct (_ <? _); [done|]. apply IH; [done|lia].
Qed.

(** Where the data is cut does not matter. *)
Lemma parse_split fuel v m a b r :
  inv v m -> head v -> bytes (a ++ b) -> parse fuel v m (a ++ b) = Ok r ->
  exists fuel1 rc v1 m1, parse fuel1 v m a = Ok (rc, v1, m1) /\
    if rc =? NGX_AGAIN then exists fuel2, parse fuel2 v1 m1 b = Ok r else (rc, v1, m1) = r.
Proof using Hhost Halpn.
  revert v m a. induction fuel as [|fuel IH]; intros v m a Hi Hh Hb H; [done|]. rewrite parse_loop_eq in H. cbv zeta in H.
  pose proof (inv_size v m Hi) as Hsz. pose proof (zlen_nonneg a). pose proof (zlen_nonneg b). rewrite zlen_app in H.
  destruct (Z.le_gt_cases v.(l_size) (zlen a)) as [Hle|Hgt].
  - (* the field ends in the first part *)
    rewrite Z.min_r in H by lia. destruct (slice_ok a 0 v.(l_size)) as (w & Hw & Hwz); [lia..|].
    rewrite (slice_front_part a b _ _ _ Hw), Ok_bind in H.
    destruct (stored_ok v m w Hi) as (m1 & Hst & Hi1).
    { apply Forall_app in Hb as [Hba _]. by apply (slice_bytes _ _ _ _ Hba Hw). } { lia. }
    rewrite Hst, Ok_bind in H. rewrite Hwz in Hi1. unfold u64 in H. rewrite !Z.mod_small in H by lia. rewrite Z.sub_diag in *.
    change (negb (0 =? 0)) with false in H. cbv iota in H.
    destruct (transition_ok _ _ _ _ _ Hi1) as (t & Ht & Hok). rewrite Ht, Ok_bind in H.
    assert (forall g, parse (S g) v m a = match t with
        | Return rc m => Ok (rc, Locals v.(l_state) 0 (v.(l_left) - v.(l_size)) v.(l_ext) (moved v.(l_dst) v.(l_size)), m)
        | Next v' m => if v'.(l_left) <? v'.(l_size) then Ok (NGX_DECLINED, v', m) else parse g v' m (drop (Z.to_nat v.(l_size)) a) end) as Hstep.
    { intros g. rewrite parse_loop_eq. cbv zeta. rewrite Z.min_r by lia. rewrite Hw, Ok_bind, Hst, Ok_bind.
      unfold u64. rewrite !Z.mod_small by lia. rewrite Z.sub_diag. change (negb (0 =? 0)) with false. cbv iota. by rewrite Ht, Ok_bind. }
    destruct t as [rc m2|v2 m2].
    + injection H as <-. exists 1%nat. do 3 eexists. rewrite Hstep. split; [reflexivity|].
      destruct (Z.eqb_spec rc NGX_AGAIN) as [->|]; [|done]. destruct Hok as [_ Hok]. by destruct Hok as [?|[?|?]].
    + destruct (Z.ltb_spec v2.(l_left) v2.(l_size)) as [Hlt|Hge].
      { injection H as <-. exists 1%nat. do 3 eexists. rewrite Hstep. split; [reflexivity|done]. }
      destruct Hok as [Hm2 Hok]. destruct (Hok Hge) as ([Hlo Hf] & Hh2 & _).
      rewrite drop_app_le in H by (unfold zlen in *; lia).
      destruct (IH v2 m2 (drop (Z.to_nat v.(l_size)) a)) as (g & rc & v3 & m3 & Hg & Hrest); [done|done| |done|].
      { apply Forall_app in Hb as [Hba Hbb]. apply Forall_app. split; [by apply Forall_drop|done]. }
      exists (S g), rc, v3, m3. by rewrite Hstep.
  - (* the field goes on in the second one *)
    assert (Z.min (zlen a + zlen b) v.(l_size) = zlen a + Z.min (zlen b) (v.(l_size) - zlen a)) as En by lia. rewrite En in H.
    set (n2 := Z.min (zlen b) (v.(l_size) - zlen a)) in *.
    destruct (slice_ok b 0 n2) as (y & Hy & Hyz); [lia..|].
    assert (slice (a ++ b) 0 (zlen a + n2) = Ok (a ++ y)) as E.
    { destruct (slice_parts _ _ _ Hy) as (z & ->). rewrite app_assoc. apply (slice_app [] (a ++ y) z); [done|rewrite zlen_app; lia]. }
    rewrite E, Ok_bind in H.
    destruct (stored m v.(l_dst) (a ++ y)) as [m2| |] eqn:Hst; [|done..]. rewrite Ok_bind in H.
    destruct (stored_pieces _ _ _ _ _ Hst) as (m1 & Hst1 & Hst2).
    exists 1%nat, NGX_AGAIN, (Locals v.(l_state) (v.(l_size) - zlen a) (v.(l_left) - zlen a) v.(l_ext) (moved v.(l_dst) (zlen a))), m1. split.
    { rewrite parse_loop_eq. cbv zeta. rewrite Z.min_l by lia.
      assert (slice a 0 (zlen a) = Ok a) as -> by (by apply slice_whole). rewrite Ok_bind, Hst1, Ok_bind. cbn [l_state l_size l_left l_ext l_dst].
      unfold u64. rewrite !Z.mod_small by lia. destruct (Z.eqb_spec (v.(l_size) - zlen a) 0); [lia|]. done. }
    rewrite Z.eqb_refl. exists (S fuel). rewrite parse_loop_eq. cbv zeta. cbn [l_state l_size l_left l_ext l_dst]. fold n2.
    rewrite Hy, Ok_bind, Hst2, Ok_bind.
    assert (moved (moved v.(l_dst) (zlen a)) n2 = moved v.(l_dst) (zlen a + n2)) as Em.
    { destruct v.(l_dst) as [[t off]|]; [|done]. cbn. do 2 f_equal. lia. }
    rewrite Em. replace (v.(l_size) - zlen a - n2) with (v.(l_size) - (zlen a + n2)) by lia.
    replace (v.(l_left) - zlen a - n2) with (v.(l_left) - (zlen a + n2)) by lia.
    rewrite drop_app_ge in H by (unfold zlen in *; lia).
    replace (Z.to_nat (zlen a + n2) - length a)%nat with (Z.to_nat n2) in H by (unfold zlen in *; lia). exact H.
Qed.

(** ** Records *)

Abbreviation records := (records_loop host_alloc alpn_alloc).

(** What is found at a place of the data. *)
Inductive found := NeedMore | Version2 (version : list Z) | Refused | Payload (l : list Z).

#[local] Instance found_eq_dec : EqDecision found.
Proof. solve_decision. Defined.

Definition record_at (data : list Z) (p : Z) : res found :=
  if zlen data - p <? 5 then Ok NeedMore
  else
    p0 ← get data p; p1 ← get data (p + 1); p2 ← get data (p + 2); p3 ← get data (p + 3); p4 ← get data (p + 4);
    if negb (Z.land p0 0x80 =? 0) && (p2 =? 1) && ((p3 =? 0) || (p3 =? 3)) then Ok (Version2 [p3; p4])
    else if negb (p0 =? 0x16) then Ok Refused
    else if negb (p1 =? 3) then Ok Refused
    else if zlen data - p <? Z.shiftl p3 8 + p4 + 5 then Ok NeedMore
    else l ← slice data (p + 5) (Z.shiftl p3 8 + p4); Ok (Payload l).

Lemma records_eq fuel ctx data p :
  records (S fuel) ctx data p =
  (k ← record_at data p;
   match k with
   | NeedMore => Ok (NGX_AGAIN, Some (Ctx ctx.(c_locals) ctx.(c_mem) p))
   | Version2 version => Ok (NGX_OK, Some (Ctx ctx.(c_locals) (set_version ctx.(c_mem) version) ctx.(c_pos)))
   | Refused => Ok (NGX_DECLINED, None)
   | Payload l =>
       '(rc, ctx) ← ngx_stream_ssl_preread_parse_record host_alloc alpn_alloc ctx l;
       if rc =? NGX_DECLINED then Ok (NGX_DECLINED, None)
       else if negb (rc =? NGX_AGAIN) then Ok (rc, Some ctx)
       else records fuel ctx data (p + 5 + zlen l)
   end).
Proof using.
  cbn [records_loop]. unfold record_at. cbv zeta. destruct (_ <? 5); [done|].
  destruct (get data p); try done. rewrite !Ok_bind. destruct (get data (p + 1)); try done. rewrite !Ok_bind.
  destruct (get data (p + 2)); try done. rewrite !Ok_bind. destruct (get data (p + 3)); try done. rewrite !Ok_bind.
  destruct (get data (p + 4)); try done. rewrite !Ok_bind.
  destruct (_ && (_ || _)); [done|]. destruct (negb _); [done|]. destruct (negb _); [done|]. destruct (_ <? _); [done|].
  destruct (slice data _ _) as [l| |] eqn:Hl; try done. rewrite !Ok_bind. by destruct (slice_zlen_eq _ _ _ _ Hl) as [-> _].
Qed.

Lemma record_at_ok data p :
  0 <= p <= zlen data -> bytes data ->
  exists k, record_at data p = Ok k /\
    match k with
    | Version2 version => zlen version = 2
    | Payload l => bytes l /\ p + 5 + zlen l <= zlen data
    | _ => True
    end.
Proof using.
  intros Hp Hd. unfold record_at. destruct (Z.ltb_spec (zlen data - p) 5) as [H5|H5]; [by eexists|].
  destruct (get_ok data p) as [p0 E0]; [lia|]. destruct (get_ok data (p + 1)) as [p1 E1]; [lia|]. destruct (get_ok data (p + 2)) as [p2 E2]; [lia|].
  destruct (get_ok data (p + 3)) as [p3 E3]; [lia|]. destruct (get_ok data (p + 4)) as [p4 E4]; [lia|].
  pose proof (word_16 p3 p4 (get_byte _ _ _ Hd E3) (get_byte _ _ _ Hd E4)). rewrite E0, E1, E2, E3, E4, !Ok_bind.
  destruct (_ && (_ || _)); [by eexists|]. destruct (negb _); [by eexists|]. destruct (negb _); [by eexists|].
  destruct (Z.ltb_spec (zlen data - p) (Z.shiftl p3 8 + p4 + 5)); [by eexists|].
  destruct (slice_ok data (p + 5) (Z.shiftl p3 8 + p4)) as (l & Hl & Hz); [lia..|]. rewrite Hl, Ok_bind.
  eexists. split; [reflexivity|]. split; [by apply (slice_bytes _ _ _ _ Hd Hl)|lia].
Qed.

Lemma record_at_front a b p k : record_at a p = Ok k -> k <> NeedMore -> record_at (a ++ b) p = Ok k.
Proof using.
  unfold record_at. rewrite zlen_app. pose proof (zlen_nonneg b). destruct (Z.ltb_spec (zlen a - p) 5) as [H5|H5]; [intros [= <-]; done|].
  destruct (Z.ltb_spec (zlen a + zlen b - p) 5); [lia|].
  rewrite !(get_app_l a b) by lia. intros Hr0 Hk. revert Hr0.
  destruct (get a p); try done. rewrite !Ok_bind. destruct (get a (p + 1)); try done. rewrite !Ok_bind.
  destruct (get a (p + 2)); try done. rewrite !Ok_bind. destruct (get a (p + 3)); try done. rewrite !Ok_bind.
  destruct (get a (p + 4)); try done. rewrite !Ok_bind. destruct (_ && (_ || _)); [done|]. destruct (negb _); [done|]. destruct (negb _); [done|].
  match goal with |- (if ?x <? ?y then _ else _) = _ -> _ => destruct (Z.ltb_spec x y) end; [intros [= <-]; done|].
  match goal with |- _ -> (if ?x <? ?y then _ else _) = _ => destruct (Z.ltb_spec x y) end; [lia|].
  destruct (slice a _ _) as [l| |] eqn:Hl; try done. rewrite (slice_front_part _ _ _ _ _ Hl). done.
Qed.

(** ** The handler *)

(** A context that is kept for the next call. *)
Definition ctx_ok (c : ngx_stream_ssl_preread_ctx_t) : Prop := inv c.(c_locals) c.(c_mem) /\ head c.(c_locals).

Lemma fresh_ctx_ok : ctx_ok fresh_ctx.
Proof using.
  split; [|intros _; reflexivity]. split; [by repeat (constructor; try done)|]. split; [|by repeat split].
  unfold locals_ok. cbn. split_and!; try lia.
Qed.

Lemma parse_record_ok ctx l :
  ctx_ok ctx -> bytes l ->
  exists rc ctx', ngx_stream_ssl_preread_parse_record host_alloc alpn_alloc ctx l = Ok (rc, ctx') /\
    code_ok rc /\ memory_ok ctx'.(c_mem) /\ (rc = NGX_AGAIN -> ctx_ok ctx').
Proof using Hhost Halpn.
  intros [Hi Hh] Hl. unfold ngx_stream_ssl_preread_parse_record.
  destruct (parse_loop_ok (3 * length l + 3) ctx.(c_locals) ctx.(c_mem) l Hi Hh Hl) as (rc & v & m & -> & Hrc & Hm & Ha).
  { unfold rank, zlen. repeat case_match; lia. }
  rewrite Ok_bind. do 2 eexists. split; [reflexivity|]. split; [done|]. split; [done|]. intros ->. rewrite Z.eqb_refl.
  destruct (Ha eq_refl) as [Hi' Hs]. split; [exact Hi'|]. intros Hz. cbn [c_locals] in Hz. lia.
Qed.

Definition session_ok (data : list Z) (rc : Z) (o : option ngx_stream_ssl_preread_ctx_t) : Prop :=
  code_ok rc /\ (forall c, o = Some c -> memory_ok c.(c_mem)) /\
  (rc = NGX_AGAIN -> exists c, o = Some c /\ ctx_ok c /\ 0 <= c.(c_pos) <= zlen data).

Lemma records_loop_ok fuel ctx data p :
  ctx_ok ctx -> bytes data -> 0 <= p <= zlen data -> zlen data - p < Z.of_nat fuel ->
  exists rc o, records_loop host_alloc alpn_alloc fuel ctx data p = Ok (rc, o) /\ session_ok data rc o.
Proof using Hhost Halpn.
  revert ctx p. induction fuel as [|fuel IH]; intros ctx p Hc Hd Hp Hf; [lia|]. rewrite records_eq.
  destruct (record_at_ok data p Hp Hd) as (k & -> & Hk). rewrite Ok_bind. destruct k as [|version| |l].
  - do 2 eexists. split; [reflexivity|]. split; [unfold code_ok; auto|]. split; [intros c [= <-]; apply Hc|].
    intros _. eexists. split; [done|]. split; [apply Hc|done].
  - do 2 eexists. split; [reflexivity|]. split; [unfold code_ok; auto|]. split; [|done].
    intros c [= <-]. destruct Hc as [[(? & ? & ? & ? & ?) _] _]. unfold memory_ok. cbn. by split_and!.
  - do 2 eexists. split; [reflexivity|]. split; [unfold code_ok; auto|done].
  - destruct Hk as [Hl Hz]. destruct (parse_record_ok ctx l Hc Hl) as (rc & ctx' & -> & Hrc & Hm & Hag). rewrite Ok_bind. cbv beta iota.
    destruct (Z.eqb_spec rc NGX_DECLINED); [do 2 eexists; split; [reflexivity|]; split; [unfold code_ok; auto|done]|].
    pose proof (zlen_nonneg l). destruct (Z.eqb_spec rc NGX_AGAIN) as [->|]; cbn [negb].
    + apply IH; [by apply Hag|done|lia|lia].
    + do 2 eexists. split; [reflexivity|]. split; [done|]. split; [by intros c [= <-]|done].
Qed.

(** A context that a session may have. *)
Definition session_ctx (data : list Z) (o : option ngx_stream_ssl_preread_ctx_t) : Prop :=
  match o with None => True | Some c => ctx_ok c /\ 0 <= c.(c_pos) <= zlen data end.

Lemma handler_ok ctx_alloc o data :
  session_ctx data o -> bytes data ->
  exists rc o', ngx_stream_ssl_preread_handler host_alloc alpn_alloc true true ctx_alloc o (Some data) = Ok (rc, o') /\
    session_ok data rc o'.
Proof using Hhost Halpn.
  intros Ho Hd. unfold ngx_stream_ssl_preread_handler. cbn [negb]. pose proof (zlen_nonneg data). destruct o as [c|].
  - destruct Ho as [Hc Hp]. apply records_loop_ok; [done|done|done|unfold zlen in *; lia].
  - destruct ctx_alloc; [apply records_loop_ok; [apply fresh_ctx_ok|done|lia|unfold zlen; lia]|].
    do 2 eexists. split; [reflexivity|]. split; [unfold code_ok; auto|done].
Qed.

(** ** Segments *)

(** What a client of the module can see of a context. *)
Definition seen (r : Z * option ngx_stream_ssl_preread_ctx_t) : Z * option (locals * memory) :=
  (r.1, option_map (fun c => (c.(c_locals), c.(c_mem))) r.2).

(** Two results that a client cannot tell apart; and if more data is wanted, neither can
    the next call of the handler. *)
Definition same (r r' : Z * option ngx_stream_ssl_preread_ctx_t) : Prop :=
  seen r' = seen r /\ (r.1 = NGX_AGAIN -> r' = r).

Lemma same_refl r : same r r.
Proof using. done. Qed.

Lemma same_trans r1 r2 r3 : same r1 r2 -> same r2 r3 -> same r1 r3.
Proof using.
  intros [H1 H2] [H3 H4]. split; [congruence|]. intros H. pose proof (H2 H) as ->. by apply H4.
Qed.

Lemma same_code r r' : same r r' -> r'.1 = r.1.
Proof using. intros [H _]. by injection H. Qed.

(** Where the parser was before does not matter, but for what is left in the context. *)
Lemma records_pos fuel v m q q' data p r :
  records fuel (Ctx v m q) data p = Ok r ->
  exists r', records fuel (Ctx v m q') data p = Ok r' /\ same r r'.
Proof using.
  revert v m q q' p. induction fuel as [|fuel IH]; intros v m q q' p; [done|]. rewrite !records_eq.
  destruct (record_at data p) as [k| |]; try done. rewrite !Ok_bind. cbn [c_locals c_mem c_pos].
  destruct k as [|version| |l]; [intros [= <-]; by eexists|intros [= <-]; by eexists|intros [= <-]; by eexists|].
  unfold ngx_stream_ssl_preread_parse_record. cbn [c_locals c_mem c_pos].
  destruct (parse_loop _ _ _ _ _ _) as [[[rc v'] m']| |]; try done. rewrite !Ok_bind. cbv beta iota.
  destruct (rc =? NGX_DECLINED); [intros [= <-]; by eexists|]. destruct (Z.eqb_spec rc NGX_AGAIN) as [->|Hrc]; cbn [negb]; [apply IH|].
  intros [= <-]. eexists. split; [reflexivity|]. by split.
Qed.

Lemma records_more fuel fuel' ctx data p r :
  records fuel ctx data p = Ok r -> (fuel <= fuel')%nat -> records fuel' ctx data p = Ok r.
Proof using.
  revert fuel' ctx p. induction fuel as [|fuel IH]; intros fuel' ctx p H Hf; [done|]. destruct fuel' as [|fuel']; [lia|].
  rewrite records_eq in *. destruct (record_at data p) as [k| |]; try done. rewrite !Ok_bind in *. destruct k as [|version| |l]; try done.
  destruct (ngx_stream_ssl_preread_parse_record _ _ _ _) as [[rc c']| |]; try done. rewrite !Ok_bind in *. cbv beta iota in *.
  destruct (rc =? NGX_DECLINED); [done|]. destruct (negb _); [done|]. apply IH; [done|lia].
Qed.

(** A record of a handshake. *)
Definition record_bytes (r : Z * list Z) : list Z := [0x16; 3; r.1; zlen r.2 / 256; zlen r.2 mod 256] ++ r.2.

Definition records_bytes (l : list (Z * list Z)) : list Z := concat (map record_bytes l).

Lemma record_at_payload pre r post :
  zlen r.2 < 65536 -> record_at (pre ++ record_bytes r ++ post) (zlen pre) = Ok (Payload r.2).
Proof using.
  destruct r as [minor l]. cbn [snd]. intros Hl. unfold record_at, record_bytes. cbn [fst snd]. rewrite !zlen_app.
  set (hd := [0x16; 3; minor; zlen l / 256; zlen l mod 256]). change (zlen hd) with 5. pose proof (zlen_nonneg l). pose proof (zlen_nonneg post).
  destruct (Z.ltb_spec (zlen pre + (5 + zlen l + zlen post) - zlen pre) 5); [lia|].
  assert (forall i c, 0 <= i -> get (hd ++ l ++ post) i = Ok c -> get (pre ++ (hd ++ l) ++ post) (zlen pre + i) = Ok c) as Hget.
  { intros i c Hi H'. by rewrite <- (app_assoc hd), get_app_r. }
  assert (get (pre ++ (hd ++ l) ++ post) (zlen pre) = Ok 0x16) as -> by (rewrite <- (Z.add_0_r (zlen pre)); by apply Hget).
  rewrite (Hget 1 3), (Hget 2 minor), (Hget 3 (zlen l / 256)), (Hget 4 (zlen l mod 256)) by done.
  rewrite !Ok_bind. change (negb (Z.land 0x16 0x80 =? 0)) with false. change (negb (0x16 =? 0x16)) with false. change (negb (3 =? 3)) with false.
  cbn [andb]. cbv iota.
  assert (Z.shiftl (zlen l / 256) 8 + zlen l mod 256 = zlen l) as ->.
  { rewrite Z.shiftl_mul_pow2 by lia. change (2 ^ 8) with 256. pose proof (Z.div_mod (zlen l) 256). lia. }
  destruct (Z.ltb_spec (zlen pre + (5 + zlen l + zlen post) - zlen pre) (zlen l + 5)); [lia|].
  rewrite <- app_assoc, (app_assoc pre hd). rewrite slice_app; [done|rewrite zlen_app; done|done].
Qed.

(** How a message is cut into records does not matter. *)
Lemma records_message l : forall fuel ctx pre post r,
  ctx_ok ctx -> (l = [] -> 0 < ctx.(c_locals).(l_size)) -> bytes (concat (map snd l)) -> Forall (fun r => zlen r.2 < 65536) l ->
  parse fuel ctx.(c_locals) ctx.(c_mem) (concat (map snd l)) = Ok r -> r.1.1 = NGX_OK ->
  exists fuel' c, records fuel' ctx (pre ++ records_bytes l ++ post) (zlen pre) = Ok (NGX_OK, Some c) /\ c.(c_mem) = r.2.
Proof using Hhost Halpn.
  induction l as [|[minor l] rs IH]; intros fuel ctx pre post r Hc Hne Hb Hz Hr Hok; cbn [map concat snd] in *.
  - (* more would be wanted *)
    destruct fuel as [|fuel]; [done|]. rewrite parse_loop_eq in Hr. cbv zeta in Hr. specialize (Hne eq_refl). destruct Hc as [Hi _].
    change (zlen (@nil Z)) with 0 in Hr. pose proof (inv_size _ _ Hi). rewrite Z.min_l in Hr by lia.
    assert (slice [] 0 0 = Ok []) as E by done. rewrite E, Ok_bind in Hr. destruct (stored _ _ _); try done. rewrite Ok_bind in Hr.
    unfold u64 in Hr. cbn [l_size] in Hr. rewrite Z.sub_0_r, Z.mod_small in Hr by lia. rewrite (proj2 (Z.eqb_neq _ 0)) in Hr by lia. cbn [negb] in Hr.
    injection Hr as <-. done.
  - apply Forall_cons_1 in Hz as [Hz1 Hz]. cbn [snd] in Hz1. apply Forall_app in Hb as Hb'. destruct Hb' as [Hbl Hbr].
    destruct (parse_split fuel ctx.(c_locals) ctx.(c_mem) l _ r (proj1 Hc) (proj2 Hc) Hb Hr) as (f1 & rc & v1 & m1 & H1 & Hrest).
    destruct (parse_loop_ok (3 * length l + 3) ctx.(c_locals) ctx.(c_mem) l (proj1 Hc) (proj2 Hc) Hbl) as (rc2 & v2 & m2 & H2 & _ & _ & Hag).
    { unfold rank, zlen. repeat case_match; lia. }
    pose proof (parse_more _ (f1 + (3 * length l + 3)) _ _ _ _ H1 ltac:(lia)) as M1.
    pose proof (parse_more _ (f1 + (3 * length l + 3)) _ _ _ _ H2 ltac:(lia)) as M2.
    rewrite M1 in M2. injection M2 as <- <- <-.
    assert (forall fuel', records (S fuel') ctx (pre ++ records_bytes ((minor, l) :: rs) ++ post) (zlen pre) =
      (if rc =? NGX_DECLINED then Ok (NGX_DECLINED, None)
       else if negb (rc =? NGX_AGAIN) then Ok (rc, Some (Ctx (if rc =? NGX_AGAIN then v1 else ctx.(c_locals)) m1 ctx.(c_pos)))
       else records fuel' (Ctx (if rc =? NGX_AGAIN then v1 else ctx.(c_locals)) m1 ctx.(c_pos))
              ((pre ++ record_bytes (minor, l)) ++ records_bytes rs ++ post) (zlen (pre ++ record_bytes (minor, l))))) as Hstep.
    { intros fuel'. unfold records_bytes. cbn [map concat]. rewrite <- !app_assoc. rewrite records_eq, (record_at_payload pre (minor, l)) by done.
      rewrite Ok_bind. cbn [snd]. unfold ngx_stream_ssl_preread_parse_record. rewrite H2, !Ok_bind. cbv beta iota.
      replace (zlen pre + 5 + zlen l) with (zlen (pre ++ record_bytes (minor, l)))
        by (unfold record_bytes; rewrite !zlen_app; change (zlen [22; 3; (minor, l).1; zlen (minor, l).2 / 256; zlen (minor, l).2 mod 256]) with 5; cbn [snd]; lia).
      done. }
    destruct (Z.eqb_spec rc NGX_AGAIN) as [->|Hrc].
    + destruct Hrest as (f2 & Hf2). destruct (Hag eq_refl) as [Hi1 Hs1].
      destruct (IH f2 (Ctx v1 m1 ctx.(c_pos)) (pre ++ record_bytes (minor, l)) post r) as (fuel' & c & Hrec & Hm); try done.
      { split; [done|]. intros E. cbn [c_locals] in E. lia. }
      exists (S fuel'), c. split; [|done]. rewrite Hstep. exact Hrec.
    + subst r. cbn [fst] in Hok. subst rc. exists 1%nat, (Ctx ctx.(c_locals) m1 ctx.(c_pos)). split; [|done]. by rewrite Hstep.
Qed.

(** More data changes nothing of what was done with the first part. *)
Lemma records_extend fuel ctx a b p rc o :
  records fuel ctx a p = Ok (rc, o) ->
  if rc =? NGX_AGAIN then
    exists c, o = Some c /\ forall f r, records f c (a ++ b) c.(c_pos) = Ok r ->
      exists f' r', records f' ctx (a ++ b) p = Ok r' /\ same r r'
  else records fuel ctx (a ++ b) p = Ok (rc, o).
Proof using.
  revert ctx p. induction fuel as [|fuel IH]; intros ctx p; [done|]. rewrite records_eq.
  destruct (record_at a p) as [k| |] eqn:Hk; try done. rewrite Ok_bind. intros H.
  destruct (decide (k = NeedMore)) as [->|Hne].
  { injection H as <- <-. rewrite Z.eqb_refl. eexists. split; [done|]. intros f r Hr. destruct ctx as [v m q].
    destruct (records_pos _ _ _ _ q _ _ _ Hr) as (r' & Hr' & Hs). by exists f, r'. }
  rewrite records_eq, (record_at_front _ b _ _ Hk Hne), Ok_bind. destruct k as [|version| |l]; try done; [by injection H as <- <-..|].
  destruct (ngx_stream_ssl_preread_parse_record _ _ _ _) as [[rc' c']| |] eqn:Hrec; try done. rewrite Ok_bind in *. cbv beta iota in *.
  destruct (rc' =? NGX_DECLINED) eqn:Ed; [by injection H as <- <-|]. destruct (rc' =? NGX_AGAIN) eqn:Ea; cbn [negb] in *; [|injection H as <- <-; by rewrite Ea].
  specialize (IH _ _ H). destruct (rc =? NGX_AGAIN); [|done].
  destruct IH as (c & -> & Hc). exists c. split; [done|]. intros f r Hr. destruct (Hc f r Hr) as (f' & r' & Hr' & Hs).
  exists (S f'), r'. split; [|done]. by rewrite records_eq, (record_at_front _ b _ _ Hk Hne), Ok_bind, Hrec, Ok_bind, Ed, Ea.
Qed.

Abbreviation call ctx_alloc ctx data := (ngx_stream_ssl_preread_handler host_alloc alpn_alloc true true ctx_alloc ctx (Some data)).

(** The handler, called with a part of the data first and with all of it then, does what
    one call does. *)
Lemma call_again ctx_alloc a b rc o :
  bytes (a ++ b) -> call ctx_alloc None a = Ok (rc, o) ->
  exists r, call ctx_alloc None (a ++ b) = Ok r /\
    if rc =? NGX_AGAIN then exists r', call ctx_alloc o (a ++ b) = Ok r' /\ same r' r else same (rc, o) r.
Proof using Hhost Halpn.
  intros Hb H. destruct (handler_ok ctx_alloc None (a ++ b) I Hb) as (rc2 & o2 & H2 & Hok2). exists (rc2, o2). split; [done|].
  apply Forall_app in Hb as [Hba Hbb].
  destruct (handler_ok ctx_alloc None a I Hba) as (rc1 & o1 & H1 & Hok1). rewrite H in H1. injection H1 as <- <-.
  cbn [ngx_stream_ssl_preread_handler negb] in H, H2. destruct ctx_alloc.
  2:{ injection H as <- <-. injection H2 as <- <-. by apply same_refl. }
  pose proof (records_extend _ _ _ b _ _ _ H) as He. destruct (Z.eqb_spec rc NGX_AGAIN) as [->|Hrc].
  - destruct He as (c & -> & Hc).
    destruct Hok1 as (_ & _ & Hc1). destruct (Hc1 eq_refl) as (c' & [= <-] & Hcok & Hpos).
    destruct (handler_ok true (Some c) (a ++ b)) as (rc3 & o3 & H3 & _).
    { split; [done|]. rewrite zlen_app. pose proof (zlen_nonneg b). lia. }
    { by apply Forall_app. }
    exists (rc3, o3). split; [done|]. cbn [ngx_stream_ssl_preread_handler negb] in H3.
    destruct (Hc _ _ H3) as (f' & r' & Hr' & Hs).
    pose proof (records_more _ (f' + (length (a ++ b) + 1)) _ _ _ _ Hr' ltac:(lia)) as M1.
    pose proof (records_more _ (f' + (length (a ++ b) + 1)) _ _ _ _ H2 ltac:(lia)) as M2.
    rewrite M1 in M2. by injection M2 as ->.
  - pose proof (records_more _ (length (a ++ b) + 1) _ _ _ _ He ltac:(rewrite length_app; lia)) as M.
    rewrite M in H2. injection H2 as <- <-. apply same_refl.
Qed.

(** ** The phase *)

Section phase.
Context (ctx_alloc buffer_alloc read_event : bool) (cap : Z) (Hcap : 0 <= cap).

Abbreviation handler := (ngx_stream_ssl_preread_handler host_alloc alpn_alloc true true ctx_alloc).

(** What is received is bytes, and fits in the buffer. *)
Fixpoint fits (data : list Z) (recv : list (recv_result * bool)) : Prop :=
  match recv with
  | (Recv l, _) :: recv => bytes l /\ zlen data + zlen l <= cap /\ fits (data ++ l) recv
  | _ => True
  end.

(** The context is the one that a single call of the handler with all of [data] makes. *)
Definition caught_up (data : list Z) (o : option ngx_stream_ssl_preread_ctx_t) : Prop :=
  data = [] /\ o = None \/ handler None (Some data) = Ok (NGX_AGAIN, o).

Definition decided (data : list Z) (rc : Z) (o : option ngx_stream_ssl_preread_ctx_t) : Prop :=
  exists r, handler None (Some data) = Ok r /\ same (rc, o) r.

Lemma handler_step data l o :
  bytes (data ++ l) -> caught_up data o ->
  exists rc o', handler o (Some (data ++ l)) = Ok (rc, o') /\ code_ok rc /\
    (if rc =? NGX_AGAIN then caught_up (data ++ l) o' else decided (data ++ l) rc o').
Proof using Hhost Halpn.
  intros Hb [[-> ->]|Ha].
  - destruct (handler_ok ctx_alloc None ([] ++ l) I Hb) as (rc & o & H & [Hrc _]). exists rc, o. split; [done|]. split; [done|].
    destruct (Z.eqb_spec rc NGX_AGAIN) as [->|]; [by right|]. by exists (rc, o).
  - destruct (call_again ctx_alloc data l _ _ Hb Ha) as ([rc o'] & H & ([rc1 o1] & H1 & Hs)). cbn in Hs.
    destruct (handler_ok ctx_alloc None _ I Hb) as (rc2 & o2 & H2 & [Hrc _]). rewrite H in H2. injection H2 as <- <-.
    pose proof (same_code _ _ Hs) as E. cbn in E. subst rc1. exists rc, o1. split; [done|]. split; [done|].
    destruct (Z.eqb_spec rc NGX_AGAIN) as [->|]; [|by exists (rc, o')]. right. destruct Hs as [_ Hs]. specialize (Hs eq_refl). injection Hs as ->. done.
Qed.

(** How the loop of the phase ends, with all the [data] that was received. *)
Definition loop_end (data : list Z) (rc : Z) (o : option ngx_stream_ssl_preread_ctx_t) : Prop :=
  rc = NGX_AGAIN /\ caught_up data o \/
  rc = NGX_STREAM_BAD_REQUEST /\ caught_up data o /\ zlen data = cap \/
  rc = NGX_STREAM_OK /\ caught_up data o \/
  (rc = NGX_OK \/ rc = NGX_DECLINED \/ rc = NGX_ERROR) /\ decided data rc o.

Lemma preread_loop_ok recv eof rc o data :
  bytes data -> zlen data <= cap -> fits data recv -> code_ok rc ->
  (if rc =? NGX_AGAIN then caught_up data o else decided data rc o) ->
  exists rc' o' l, preread_loop handler buffer_alloc cap recv eof rc o (Some data) = Ok (rc', o', Some (data ++ l)) /\
    bytes (data ++ l) /\ zlen (data ++ l) <= cap /\ loop_end (data ++ l) rc' o'.
Proof using Hhost Halpn.
  revert eof rc o data. induction recv as [|[r e] recv IH]; intros eof rc o data Hb Hz Hfit Hrc Hst; cbn [preread_loop]; cbv zeta.
  all: destruct (Z.eqb_spec rc NGX_AGAIN) as [->|Hne]; cbn [negb];
    [|exists rc, o, []; rewrite app_nil_r; split_and!; try done; right; right; right; split; [|done]; by destruct Hrc as [?|[?|[?|?]]]; auto].
  all: destruct (Z.eqb_spec (cap - zlen data) 0) as [Hfull|Hroom];
    [exists NGX_STREAM_BAD_REQUEST, o, []; rewrite app_nil_r; split_and!; try done; right; left; split_and!; [done|done|lia]|].
  all: destruct eof; [exists NGX_STREAM_OK, o, []; rewrite app_nil_r; split_and!; try done; right; right; left; done|].
  { exists NGX_AGAIN, o, []. rewrite app_nil_r. split_and!; try done. by left. }
  destruct r as [l| |].
  - destruct Hfit as (Hl & Hlz & Hfit). assert (bytes (data ++ l)) as Hbl by (by apply Forall_app).
    destruct (handler_step data l o Hbl Hst) as (rc1 & o1 & H1 & Hrc1 & Hst1). rewrite H1, Ok_bind. cbv beta iota.
    destruct (IH e rc1 o1 (data ++ l) Hbl ltac:(rewrite zlen_app; lia) Hfit Hrc1 Hst1) as (rc' & o' & l' & Hr & H2 & H3 & H4).
    exists rc', o', (l ++ l'). rewrite app_assoc. done.
  - exists NGX_STREAM_OK, o, []. rewrite app_nil_r. split_and!; try done. right; right; left. done.
  - exists NGX_AGAIN, o, []. rewrite app_nil_r. split_and!; try done. by left.
Qed.

(** A session before a call of the phase: at its start, or waiting for more. *)
Abbreviation preread_session := (session (C := option ngx_stream_ssl_preread_ctx_t)).

Definition waiting (s : preread_session) : Prop :=
  s = Session None None false \/
  exists data, s.(s_buffer) = Some data /\ s.(s_timer_set) = true /\ bytes data /\ zlen data <= cap /\ caught_up data s.(s_ctx).

Definition received (s : preread_session) : list Z := default [] s.(s_buffer).

Definition outcome_ok (o : phase_result) (s' : preread_session) : Prop :=
  match o with
  | Wait => waiting s' /\ read_event = true
  | NextPhase => decided (received s') NGX_OK s'.(s_ctx)
  | NextHandler => decided (received s') NGX_DECLINED s'.(s_ctx)
  | Taken => False
  | Finalized rc =>
      rc = NGX_STREAM_BAD_REQUEST /\ caught_up (received s') s'.(s_ctx) /\ zlen (received s') = cap \/
      rc = NGX_STREAM_OK /\ caught_up (received s') s'.(s_ctx) \/
      rc = NGX_STREAM_INTERNAL_SERVER_ERROR /\
        (read_event = false \/ buffer_alloc = false \/ decided (received s') NGX_ERROR s'.(s_ctx))
  end.

Lemma phase_end_ok timer data rc o :
  bytes data -> zlen data <= cap -> loop_end data rc o ->
  exists r s', phase_end read_event timer rc o (Some data) = (r, s') /\ received s' = data /\ outcome_ok r s'.
Proof using.
  unfold phase_end. intros Hb Hz [(-> & Hc)|[(-> & Hc & Hfull)|[(-> & Hc)|(Hrc & Hd)]]].
  - change (NGX_AGAIN =? NGX_AGAIN) with true. cbv iota. destruct read_event eqn:Ere.
    + do 2 eexists. split; [reflexivity|]. split; [done|]. split; [|done]. right. by exists data.
    + do 2 eexists. split; [reflexivity|]. split; [done|]. right; right. split; [done|by left].
  - do 2 eexists. split; [reflexivity|]. split; [done|]. by left.
  - do 2 eexists. split; [reflexivity|]. split; [done|]. right; by left.
  - destruct Hrc as [->|[->| ->]]; (do 2 eexists; split; [reflexivity|]; split; [done|]); [done|done|].
    right; right. split; [done|]. right; by right.
Qed.

Lemma preread_loop_start recv eof o :
  preread_loop handler true cap recv eof NGX_AGAIN o None = preread_loop handler true cap recv eof NGX_AGAIN o (Some []).
Proof using. by destruct recv. Qed.

(** C30: TLS preread. Whatever pieces of data arrive in whatever calls of the preread phase, as
    long as the session waits, its context is the one that a single call of the handler with
    all of the data would have made; and when the phase ends, it is with the verdict of
    such a call, and with a context in which a client sees the same: or because the
    buffer is full (400), because the client or the time is at an end (200), or for want
    of memory or of events (500). Nothing outside of the buffers is read or written. *)
Theorem preread_phase_one_call timedout eof recv s :
  waiting s -> fits (received s) recv ->
  exists o s' l, ngx_stream_core_preread_phase handler buffer_alloc cap read_event timedout eof recv s = Ok (o, s') /\
    received s' = received s ++ l /\
    outcome_ok o s'.
Proof using Hhost Halpn Hcap.
  intros Hw Hfit. unfold ngx_stream_core_preread_phase. destruct Hw as [->|(data & Ebuf & Et & Hb & Hz & Hc)].
  - cbn [s_ctx s_buffer s_timer_set received default] in *. assert (caught_up [] None) as Hc by (by left). destruct timedout.
    { rewrite Ok_bind. exists (Finalized NGX_STREAM_OK), (Session None None false), []. split; [by destruct recv|]. split; [done|]. right; by left. }
    change (handler None None) with (Ok (NGX_AGAIN, @None ngx_stream_ssl_preread_ctx_t)). rewrite Ok_bind. cbv beta iota.
    destruct buffer_alloc eqn:Ealloc.
    + rewrite preread_loop_start.
      destruct (preread_loop_ok recv eof NGX_AGAIN None []) as (rc & o & l & Hr & Hb & Hz & He);
        [constructor|done|done|unfold code_ok; auto|done|]. rewrite Ealloc in Hr. rewrite Hr, Ok_bind. cbv beta iota.
      destruct (phase_end_ok false _ _ _ Hb Hz He) as (r & s' & -> & Hs & Ho). by exists r, s', l.
    + exists (Finalized NGX_STREAM_INTERNAL_SERVER_ERROR), (Session None None false), []. split; [by destruct recv|]. split; [done|].
      right; right. split; [done|]. by right; left.
  - unfold received in Hfit. rewrite Ebuf in Hfit. rewrite Et. cbn [default] in Hfit.
    assert (received s = data) as -> by (unfold received; by rewrite Ebuf). destruct timedout; rewrite Ok_bind; cbv beta iota; rewrite Ebuf.
    + assert (loop_end data NGX_STREAM_OK s.(s_ctx)) as He by (right; right; by left).
      destruct (phase_end_ok true _ _ _ Hb Hz He) as (r & s' & Hr & Hs & Ho). exists r, s', [].
      split; [destruct recv; cbn [preread_loop]; change (negb (NGX_STREAM_OK =? NGX_AGAIN)) with true; cbv iota; by rewrite Ok_bind, Hr|].
      by rewrite app_nil_r.
    + destruct (preread_loop_ok recv eof NGX_AGAIN s.(s_ctx) data) as (rc & o & l & Hr & Hb' & Hz' & He);
        [done|done|done|unfold code_ok; auto|done|]. rewrite Hr, Ok_bind. cbv beta iota.
      destruct (phase_end_ok true _ _ _ Hb' Hz' He) as (r & s' & -> & Hs & Ho). by exists r, s', l.
Qed.
End phase.
End safety.

(** ** What a ClientHello says *)

Inductive extension :=
| ServerName (host more : list Z)
| Alpn (protos : list (list Z))
| SupportedVersions (versions : list Z)
| OtherExtension (type : Z) (data : list Z).

Record hello := Hello {
  h_version : list Z;
  h_random : list Z;
  h_session_id : list Z;
  h_suites : list Z;
  h_methods : list Z;
  h_extensions : option (list extension)
}.

(** *** As bytes *)

Definition be_word (n : Z) : list Z := [n / 256; n mod 256].

Definition with_length_8 (l : list Z) : list Z := zlen l :: l.
Definition with_length_16 (l : list Z) : list Z := be_word (zlen l) ++ l.

Definition ext_type (e : extension) : Z :=
  match e with ServerName _ _ => 0 | Alpn _ => 16 | SupportedVersions _ => 43 | OtherExtension ty _ => ty end.

Definition ext_data (e : extension) : list Z :=
  match e with
  | ServerName host more => with_length_16 ([0] ++ with_length_16 host ++ more)
  | Alpn protos => with_length_16 (concat (map with_length_8 protos))
  | SupportedVersions versions => with_length_8 versions
  | OtherExtension _ data => data
  end.

Definition ext_bytes (e : extension) : list Z := be_word (ext_type e) ++ with_length_16 (ext_data e).

Definition exts_bytes (es : list extension) : list Z := concat (map ext_bytes es).

Definition hello_body (h : hello) : list Z :=
  h.(h_version) ++ h.(h_random) ++ with_length_8 h.(h_session_id) ++ with_length_16 h.(h_suites) ++ with_length_8 h.(h_methods)
  ++ match h.(h_extensions) with Some es => with_length_16 (exts_bytes es) | None => [] end.

(** The message, with its type and its length of three bytes. *)
Definition hello_message (h : hello) : list Z :=
  let body := hello_body h in [1; zlen body / 65536; zlen body / 256 mod 256; zlen body mod 256] ++ body.

(** Lengths that fit in their fields. *)
Definition ext_fits (e : extension) : Prop :=
  zlen (ext_data e) < 65536 /\
  match e with
  | ServerName host _ => bytes host
  | Alpn protos => protos <> [] /\ Forall (fun l => 1 <= zlen l < 256) protos
  | SupportedVersions versions => zlen versions < 256
  | OtherExtension ty _ => 0 <= ty < 65536 /\ ty <> 0 /\ ty <> 16 /\ ty <> 43
  end.

Definition hello_fits (h : hello) : Prop :=
  zlen h.(h_version) = 2 /\ zlen h.(h_random) = 32 /\ zlen h.(h_session_id) < 256 /\ zlen h.(h_suites) < 65536 /\
  zlen h.(h_methods) < 256 /\ zlen (hello_body h) < 16777216 /\
  match h.(h_extensions) with Some es => Forall ext_fits es /\ zlen (exts_bytes es) < 65536 | None => True end.

(** *** As a client means it *)

Record learned := Learned { k_version : list Z; k_host : option (list Z); k_alpn : option (list Z) }.

(** The names of protocols, with commas between them. *)
Fixpoint joined (protos : list (list Z)) : list Z :=
  match protos with
  | [] => []
  | [l] => l
  | l :: protos => l ++ str "," ++ joined protos
  end.

(** The first extension of a kind counts. *)
Definition learn (k : learned) (e : extension) : learned :=
  match e with
  | ServerName host _ => match k.(k_host) with None => Learned k.(k_version) (Some host) k.(k_alpn) | Some _ => k end
  | Alpn protos => match k.(k_alpn) with None => Learned k.(k_version) k.(k_host) (Some (joined protos)) | Some _ => k end
  | SupportedVersions _ => Learned [3; 4] k.(k_host) k.(k_alpn)
  | OtherExtension _ _ => k
  end.

Definition hello_says (h : hello) : learned :=
  fold_left learn (default [] h.(h_extensions)) (Learned h.(h_version) None None).

(** What the parser has of it in memory. *)
Definition knows (m : memory) (k : learned) : Prop :=
  zlen m.(m_buf) = 4 /\ m.(m_version) = k.(k_version) /\
  (m.(m_host_data) = None <-> k.(k_host) = None) /\ string_text m.(m_host_data) m.(m_host_len) = Ok (default [] k.(k_host)) /\
  (m.(m_alpn_data) = None <-> k.(k_alpn) = None) /\ string_text m.(m_alpn_data) m.(m_alpn_len) = Ok (default [] k.(k_alpn)) /\
  (k.(k_host) = None -> m.(m_host_len) = 0) /\ (k.(k_alpn) = None -> m.(m_alpn_len) = 0).

Section hello.
Context (host_alloc alpn_alloc : Z -> option (list Z)).
Context (Hhost : forall n, 0 <= n -> exists d, host_alloc n = Some d /\ zlen d = n)
  (Halpn : forall n, 0 <= n -> exists d, alpn_alloc n = Some d /\ zlen d = n).

Abbreviation loop := (parse_loop host_alloc alpn_alloc).

Definition runs (v : locals) (m : memory) (l : list Z) (r : Z * locals * memory) : Prop :=
  exists fuel, loop fuel v m l = Ok r.

(** A field that is there as a whole. *)
Lemma runs_field st size lft ext dst m w rest m1 v2 m2 r :
  zlen w = size -> size <= lft -> lft < 16777216 ->
  stored m dst w = Ok m1 ->
  transition host_alloc alpn_alloc (Locals st 0 (lft - size) ext (moved dst size)) m1 = Ok (Next v2 m2) ->
  v2.(l_size) <= v2.(l_left) -> runs v2 m2 rest r ->
  runs (Locals st size lft ext dst) m (w ++ rest) r.
Proof using.
  intros Hz Hs Hl Hst Ht Hle [fuel Hr]. exists (S fuel). rewrite parse_loop_eq. cbv zeta. cbn [l_state l_size l_left l_ext l_dst].
  pose proof (zlen_nonneg w). pose proof (zlen_nonneg rest). rewrite zlen_app, Z.min_r by lia.
  assert (slice (w ++ rest) 0 size = Ok w) as -> by (apply (slice_app [] w rest); [done|lia]). rewrite Ok_bind, Hst, Ok_bind.
  unfold u64. rewrite !Z.mod_small by lia. rewrite Z.sub_diag. change (negb (0 =? 0)) with false. cbv iota. rewrite Ht, Ok_bind. cbv beta iota.
  destruct (Z.ltb_spec v2.(l_left) v2.(l_size)); [lia|]. rewrite drop_app_length' by (unfold zlen in *; lia). done.
Qed.

(** The last field. *)
Lemma runs_end st size lft ext dst m w rest m1 rc m2 :
  zlen w = size -> size <= lft -> lft < 16777216 ->
  stored m dst w = Ok m1 ->
  transition host_alloc alpn_alloc (Locals st 0 (lft - size) ext (moved dst size)) m1 = Ok (Return rc m2) ->
  exists v, runs (Locals st size lft ext dst) m (w ++ rest) (rc, v, m2).
Proof using.
  intros Hz Hs Hl Hst Ht. eexists. exists 1%nat. rewrite parse_loop_eq. cbv zeta. cbn [l_state l_size l_left l_ext l_dst].
  pose proof (zlen_nonneg w). pose proof (zlen_nonneg rest). rewrite zlen_app, Z.min_r by lia.
  assert (slice (w ++ rest) 0 size = Ok w) as -> by (apply (slice_app [] w rest); [done|lia]). rewrite Ok_bind, Hst, Ok_bind.
  unfold u64. rewrite !Z.mod_small by lia. rewrite Z.sub_diag. change (negb (0 =? 0)) with false. cbv iota. by rewrite Ht, Ok_bind.
Qed.

Lemma word_value n : Z.shiftl (n / 256) 8 + n mod 256 = n.
Proof using. rewrite Z.shiftl_mul_pow2 by lia. change (2 ^ 8) with 256. pose proof (Z.div_mod n 256). lia. Qed.

Lemma stored_buf m w : zlen m.(m_buf) = 4 -> zlen w <= 4 ->
  stored m to_buf w = Ok (set_buf m (w ++ drop (length w) m.(m_buf))).
Proof using.
  intros Hb Hw. cbn [stored to_buf store_at]. rewrite <- (take_drop (length w) m.(m_buf)) at 1.
  pose proof (blit_app [] (take (length w) m.(m_buf)) (drop (length w) m.(m_buf)) w 0 eq_refl) as E. cbn [app] in E.
  rewrite E; [done|]. unfold zlen in *. rewrite length_take. lia.
Qed.

(** A field that is read into [ctx->buf]. *)
Lemma runs_buf st lft ext m w rest v2 m2 r :
  zlen m.(m_buf) = 4 -> zlen w <= 4 -> zlen w <= lft -> lft < 16777216 ->
  transition host_alloc alpn_alloc (Locals st 0 (lft - zlen w) ext (Some (ToBuf, zlen w))) (set_buf m (w ++ drop (length w) m.(m_buf)))
    = Ok (Next v2 m2) ->
  v2.(l_size) <= v2.(l_left) -> runs v2 m2 rest r ->
  runs (Locals st (zlen w) lft ext to_buf) m (w ++ rest) r.
Proof using. intros Hb Hw Hl Hl2 Ht Hle Hr. by apply (runs_field _ _ _ _ _ _ _ _ _ v2 m2 r eq_refl Hl Hl2 (stored_buf m w Hb Hw)). Qed.

(** A field that is skipped. *)
Lemma runs_skip st lft ext m w rest v2 m2 r :
  zlen w <= lft -> lft < 16777216 ->
  transition host_alloc alpn_alloc (Locals st 0 (lft - zlen w) ext None) m = Ok (Next v2 m2) ->
  v2.(l_size) <= v2.(l_left) -> runs v2 m2 rest r ->
  runs (Locals st (zlen w) lft ext None) m (w ++ rest) r.
Proof using. intros Hl Hl2 Ht Hle Hr. by apply (runs_field _ _ _ _ None m w rest m v2 m2 r). Qed.

(** The loop ends with a code, and with what is promised of the memory. *)
Definition ends (v : locals) (m : memory) (l : list Z) (rc : Z) (Q : memory -> Prop) : Prop :=
  exists v' m', runs v m l (rc, v', m') /\ Q m'.

(** What is left of an extension makes no difference. *)
Lemma ext_skip lft ext ext' dst m m1 w rest rc m' :
  stored m dst w = Ok m1 -> 0 <= lft -> lft + zlen w < 16777216 ->
  ends (Locals sw_ext 0 lft ext' None) m1 rest rc m' -> ext' = ext ->
  ends (Locals sw_ext (zlen w) (lft + zlen w) ext dst) m (w ++ rest) rc m'.
Proof using.
  intros Hst Hl Hl2 (v & m2 & [fuel Hr] & HQ) ->. pose proof (zlen_nonneg w). destruct fuel as [|fuel]; [done|].
  rewrite parse_loop_eq in Hr. cbv zeta in Hr. cbn [l_state l_size l_left l_ext l_dst stored moved] in Hr.
  pose proof (zlen_nonneg rest). rewrite Z.min_r in Hr by lia.
  assert (slice rest 0 0 = Ok []) as E by (apply (slice_app [] [] rest); done). rewrite E, !Ok_bind in Hr.
  unfold u64 in Hr. rewrite !Z.sub_0_r, !Z.mod_small in Hr by lia. change (negb (0 =? 0)) with false in Hr. cbv iota in Hr.
  cbn [transition] in Hr. destruct (Z.eqb_spec lft 0) as [->|Hne].
  - rewrite Ok_bind in Hr. injection Hr as <- _ <-.
    destruct (runs_end sw_ext (zlen w) (0 + zlen w) ext dst m w rest m1 NGX_OK m1) as [v' H']; [done|lia|lia|done|cbn [transition]; by rewrite Z.add_simpl_r|].
    by exists v', m1.
  - rewrite Ok_bind in Hr. cbv beta iota in Hr. cbn [l_left l_size] in Hr. destruct (Z.ltb_spec lft 4) as [H4|H4].
    + injection Hr as <- <- <-. do 2 eexists. split; [|exact HQ]. exists 1%nat. rewrite parse_loop_eq. cbv zeta. cbn [l_state l_size l_left l_ext l_dst].
      rewrite zlen_app, Z.min_r by lia.
      assert (slice (w ++ rest) 0 (zlen w) = Ok w) as -> by (by apply (slice_app [] w rest)). rewrite Ok_bind, Hst, Ok_bind.
      unfold u64. rewrite !Z.mod_small by lia. rewrite Z.sub_diag, Z.add_simpl_r. change (negb (0 =? 0)) with false. cbv iota.
      cbn [transition]. rewrite (proj2 (Z.eqb_neq lft 0) Hne), Ok_bind. cbv beta iota. cbn [l_left l_size].
      by rewrite (proj2 (Z.ltb_lt lft 4) H4).
    + exists v, m2. split; [|done]. apply (runs_field _ _ _ _ _ _ _ _ m1 (Locals sw_ext_header 4 lft ext to_buf) m1); [done|lia|lia|done| |done|].
      * cbn [transition]. by rewrite Z.add_simpl_r, (proj2 (Z.eqb_neq lft 0) Hne).
      * by exists fuel.
Qed.

Lemma set_buf_4 m w : zlen m.(m_buf) = 4 -> zlen w <= 4 -> zlen (w ++ drop (length w) m.(m_buf)) = 4.
Proof using. intros H Hw. unfold zlen in *. rewrite length_app, length_drop. lia. Qed.

Lemma ends_step v m w rest v2 m2 rc m' :
  (forall r, runs v2 m2 rest r -> runs v m (w ++ rest) r) -> ends v2 m2 rest rc m' -> ends v m (w ++ rest) rc m'.
Proof using. intros H (v' & m'' & Hr & HQ). exists v', m''. split; [by apply H|done]. Qed.

(** The list of protocols, from the state that reads the length of one; [out] is what is
    there already. *)
Lemma alpn_runs protos out junk lft m rest rc m' :
  let n := zlen (concat (map with_length_8 protos)) in
  protos <> [] -> Forall (fun l => 1 <= zlen l < 256) protos -> zlen m.(m_buf) = 4 ->
  m.(m_alpn_data) = Some (out ++ junk) -> m.(m_alpn_len) = zlen out -> n <= zlen junk -> n < 65536 ->
  0 <= lft -> n + lft < 16777216 ->
  (forall m1 junk1, zlen m1.(m_buf) = 4 -> m1.(m_version) = m.(m_version) -> m1.(m_host_data) = m.(m_host_data) -> m1.(m_host_len) = m.(m_host_len) ->
     m1.(m_alpn_data) = Some ((out ++ joined protos) ++ junk1) -> m1.(m_alpn_len) = zlen (out ++ joined protos) ->
     ends (Locals sw_ext 0 lft 0 None) m1 rest rc m') ->
  ends (Locals sw_alpn_proto_len 1 (n + lft) n to_buf) m (concat (map with_length_8 protos) ++ rest) rc m'.
Proof using.
  cbv zeta. intros Hne HF. revert out junk lft m. induction HF as [|l protos Hl HF IH]; [done|]. clear Hne.
  intros out junk lft m Hb Hd Hlen Hn Hn2 Hlft Hmax Hk. cbn [map concat] in *.
  set (tail := concat (map with_length_8 protos)) in *. change (with_length_8 l) with (zlen l :: l) in *. rewrite zlen_app, zlen_cons in *. pose proof (zlen_nonneg tail).
  change ((zlen l :: l) ++ tail) with ([zlen l] ++ l ++ tail). rewrite <- !app_assoc.
  (* the length *)
  set (m1 := set_buf m ([zlen l] ++ drop (length [zlen l]) m.(m_buf))).
  eapply (ends_step _ _ [zlen l] (l ++ tail ++ rest) (Locals sw_alpn_proto_data (zlen l) (zlen l + zlen tail + lft) (zlen tail) (Some (ToAlpn, zlen out))) m1).
  { intros r. change 1 with (zlen [zlen l]) at 1. apply runs_buf; [done|done|change (zlen [zlen l]) with 1; lia|lia| |cbn; lia].
    cbn [transition]. change (get (m_buf (set_buf m ([zlen l] ++ drop (length [zlen l]) (m_buf m)))) 0) with (Ok (zlen l)). rewrite Ok_bind.
    destruct (Z.eqb_spec (zlen l) 0); [lia|]. destruct (Z.ltb_spec (1 + zlen l + zlen tail) (1 + zlen l)); [lia|]. fold m1.
    change (m_alpn_len m1) with (m_alpn_len m). rewrite Hlen. change (zlen [zlen l]) with 1. do 3 f_equal; lia. }
  (* the name *)
  destruct (zlen_split junk (zlen l)) as (j1 & j2 & -> & Hj1 & Hj2); [lia|]. rewrite zlen_app in Hn.
  destruct j2 as [|x j2]; [change (zlen (@nil Z)) with 0 in *; lia|]. rewrite zlen_cons in *.
  set (m2 := set_alpn m1 (Some (out ++ l ++ x :: j2)) (zlen out)).
  assert (stored m1 (Some (ToAlpn, zlen out)) l = Ok m2) as Hst.
  { cbn [stored store_at]. change (m_alpn_data m1) with (m_alpn_data m). rewrite Hd. rewrite blit_app by done. rewrite Ok_bind.
    unfold m2. change (m_alpn_len m1) with (m_alpn_len m). by rewrite Hlen. }
  assert (get (m_buf m2) 0 = Ok (zlen l)) as Hp0 by done.
  destruct protos as [|l2 protos].
  - (* the last one *)
    eapply (ends_step _ _ l rest (Locals sw_ext 0 lft 0 None) (set_alpn m2 (Some (out ++ l ++ x :: j2)) (zlen out + zlen l))).
    { intros r. apply (runs_field _ _ _ _ _ _ _ _ m2); [done|lia|lia|done| |cbn; lia].
      cbn [transition]. rewrite Hp0, Ok_bind. change (zlen tail) with 0. change (negb (0 =? 0)) with false. cbv iota. do 3 f_equal. lia. }
    apply (Hk _ (x :: j2)); try done; [by apply set_buf_4|cbn; by rewrite <- app_assoc].
  - (* a comma *)
    assert (1 <= zlen tail) as Ht. { unfold tail. cbn [map concat]. unfold with_length_8 at 1. rewrite zlen_app, zlen_cons. pose proof (zlen_nonneg l2).
      pose proof (zlen_nonneg (concat (map with_length_8 protos))). lia. }
    set (m3 := set_alpn m2 (Some ((out ++ l ++ str ",") ++ j2)) (zlen out + zlen l + 1)).
    eapply (ends_step _ _ l (tail ++ rest) (Locals sw_alpn_proto_len 1 (zlen tail + lft) (zlen tail) to_buf) m3).
    { intros r. apply (runs_field _ _ _ _ _ _ _ _ m2); [done|lia|lia|done| |cbn [l_size l_left]; lia].
      cbn [transition]. rewrite Hp0, Ok_bind. destruct (Z.eqb_spec (zlen tail) 0); [lia|]. cbn [negb]. change (m_alpn_data m2) with (Some (out ++ l ++ x :: j2)).
      cbv iota. rewrite (app_assoc out l). change (m_alpn_len m2) with (zlen out). rewrite put_app, Ok_bind by (rewrite zlen_app; lia).
      unfold m3. rewrite <- !app_assoc. cbn [app]. do 3 f_equal. lia. }
    apply (IH ltac:(done) (out ++ l ++ str ",") j2); try done; try lia.
    + by apply set_buf_4.
    + change (m_alpn_len m3) with (zlen out + zlen l + 1). rewrite !zlen_app. change (zlen (str ",")) with 1. lia.
    + intros m4 junk4 H1 H2 H3 H4 H5 H6. apply (Hk m4 junk4); try done; cbn [joined] in *.
      * rewrite H5. by rewrite <- !app_assoc.
      * rewrite H6, !zlen_app. lia.
Qed.

Lemma knows_buf m k b : knows m k -> zlen b = 4 -> knows (set_buf m b) k.
Proof using. intros (_ & H) Hb. by split. Qed.

Lemma sni_runs host more k lft ext m rest rc m' :
  let data := ext_data (ServerName host more) in
  knows m k -> k.(k_host) = None -> zlen data < 65536 -> bytes host -> 0 <= lft -> zlen data + lft < 16777216 ->
  (forall m1 ext1, knows m1 (Learned k.(k_version) (Some host) k.(k_alpn)) -> ends (Locals sw_ext 0 lft ext1 None) m1 rest rc m') ->
  ends (Locals sw_sni_len 2 (zlen data + lft) ext to_buf) m (data ++ rest) rc m'.
Proof using Hhost.
  cbv zeta. intros Hk Hnone Hfit Hbytes Hl Hmax Hnext. cbn [ext_data] in *. unfold with_length_16 in *.
  set (n := zlen ([0] ++ (be_word (zlen host) ++ host) ++ more)) in *.
  assert (n = 3 + zlen host + zlen more) as Hn by (unfold n; rewrite !zlen_app; change (zlen [0]) with 1; change (zlen (be_word (zlen host))) with 2; lia).
  pose proof (zlen_nonneg host). pose proof (zlen_nonneg more).
  assert (forall tail : list Z, zlen (be_word n ++ tail) = 2 + zlen tail) as Hz2 by (intros; rewrite zlen_app; done).
  rewrite Hz2 in *. fold n in Hfit, Hmax |- *. rewrite <- !app_assoc.
  pose proof Hk as (Hb & Hv & Hh & Hhs & Ha & Has & Hh0 & Ha0).
  (* the length of the list *)
  set (m1 := set_buf m (be_word n ++ drop (length (be_word n)) m.(m_buf))).
  eapply (ends_step _ _ (be_word n) _ (Locals sw_sni_host_head 3 (n + lft) n to_buf) m1).
  { intros r. change 2 with (zlen (be_word n)) at 1. apply runs_buf; [done|done|change (zlen (be_word n)) with 2; lia|lia| |cbn [l_size l_left]; lia].
    cbn [transition]. change (get (m_buf (set_buf m (be_word n ++ drop (length (be_word n)) (m_buf m)))) 0) with (Ok (n / 256)).
    change (get (m_buf (set_buf m (be_word n ++ drop (length (be_word n)) (m_buf m)))) 1) with (Ok (n mod 256)).
    rewrite !Ok_bind, word_value. change (zlen (be_word n)) with 2. do 3 f_equal. lia. }
  (* the type and the length of the name *)
  destruct (Hhost (zlen host)) as (d & Hd & Hdz); [done|].
  set (w := [0] ++ be_word (zlen host)).
  set (m2 := set_host (set_buf m1 (w ++ drop (length w) m1.(m_buf))) (Some d) 0).
  assert (zlen m1.(m_buf) = 4) as Hb1 by (by apply set_buf_4).
  eapply (ends_step _ _ w (host ++ more ++ rest) (Locals sw_sni_host (zlen host) (zlen host + zlen more + lft) (zlen more) (Some (ToHost, 0))) m2).
  { intros r. change 3 with (zlen w) at 1. apply runs_buf; [done|done|change (zlen w) with 3; lia|lia| |cbn [l_size l_left]; lia].
    cbn [transition]. change (get (m_buf (set_buf m1 (w ++ drop (length w) (m_buf m1)))) 0) with (Ok 0).
    change (get (m_buf (set_buf m1 (w ++ drop (length w) (m_buf m1)))) 1) with (Ok (zlen host / 256)).
    change (get (m_buf (set_buf m1 (w ++ drop (length w) (m_buf m1)))) 2) with (Ok (zlen host mod 256)).
    rewrite !Ok_bind. change (negb (0 =? 0)) with false. cbv iota. rewrite word_value. cbv zeta.
    destruct (Z.ltb_spec n (3 + zlen host)); [lia|]. rewrite Hd. change (zlen w) with 3. unfold m2.
    change (m_host_len (set_buf m1 (w ++ drop (length w) (m_buf m1)))) with (m_host_len m). rewrite (Hh0 Hnone). do 3 f_equal; lia. }
  (* the name *)
  set (m3 := set_host m2 (Some host) 0).
  eapply (ends_step _ _ host (more ++ rest) (Locals sw_ext (zlen more) (lft + zlen more) (zlen more) None) (set_host m3 (Some host) (zlen host))).
  { intros r. apply (runs_field _ _ _ _ _ _ _ _ m3); [done|lia|lia| | |cbn [l_size l_left]; lia].
    - cbn [stored store_at]. change (m_host_data m2) with (Some d). cbv iota.
      pose proof (blit_app [] d [] host 0 eq_refl Hdz) as E. cbn [app] in E. rewrite !app_nil_r in E. by rewrite E.
    - cbn [transition]. change (get (m_buf m3) 1) with (Ok (zlen host / 256)). change (get (m_buf m3) 2) with (Ok (zlen host mod 256)).
      rewrite !Ok_bind, word_value. change (m_host_data m3) with (Some host). do 3 f_equal. lia. }
  (* other names *)
  eapply ext_skip; [done|done|lia| |done]. apply Hnext.
  split_and!; try done; [by apply set_buf_4|]. cbn. by rewrite slice_whole.
Qed.

Lemma alpn_ext_runs protos k lft ext m rest rc m' :
  let data := ext_data (Alpn protos) in
  knows m k -> k.(k_alpn) = None -> zlen data < 65536 -> protos <> [] -> Forall (fun l => 1 <= zlen l < 256) protos ->
  0 <= lft -> zlen data + lft < 16777216 ->
  (forall m1 ext1, knows m1 (Learned k.(k_version) k.(k_host) (Some (joined protos))) -> ends (Locals sw_ext 0 lft ext1 None) m1 rest rc m') ->
  ends (Locals sw_alpn_len 2 (zlen data + lft) ext to_buf) m (data ++ rest) rc m'.
Proof using Halpn.
  cbv zeta. intros Hk Hnone Hfit Hne HF Hl Hmax Hnext. cbn [ext_data] in *. unfold with_length_16 in *.
  set (n := zlen (concat (map with_length_8 protos))) in *. pose proof (zlen_nonneg (concat (map with_length_8 protos))) as Hn0. fold n in Hn0.
  rewrite zlen_app in *. fold n in Hfit, Hmax |- *. change (zlen (be_word n)) with 2 in *. rewrite <- !app_assoc.
  pose proof Hk as (Hb & Hv & Hh & Hhs & Ha & Has & Hh0 & Ha0).
  destruct (Halpn n) as (d & Hd & Hdz); [done|].
  set (m1 := set_alpn (set_buf m (be_word n ++ drop (length (be_word n)) m.(m_buf))) (Some d) 0).
  eapply (ends_step _ _ (be_word n) _ (Locals sw_alpn_proto_len 1 (n + lft) n to_buf) m1).
  { intros r. change 2 with (zlen (be_word n)) at 1. apply runs_buf; [done|done|change (zlen (be_word n)) with 2; lia|lia| |].
    - cbn [transition]. change (get (m_buf (set_buf m (be_word n ++ drop (length (be_word n)) (m_buf m)))) 0) with (Ok (n / 256)).
      change (get (m_buf (set_buf m (be_word n ++ drop (length (be_word n)) (m_buf m)))) 1) with (Ok (n mod 256)).
      rewrite !Ok_bind, word_value. cbv zeta. rewrite Hd. unfold m1.
      change (m_alpn_len (set_buf m (be_word n ++ drop (length (be_word n)) (m_buf m)))) with (m_alpn_len m). rewrite (Ha0 Hnone).
      change (zlen (be_word n)) with 2. do 3 f_equal. lia.
    - cbn [l_size l_left]. destruct HF as [|l protos Hl1 _]; [done|]. unfold n. cbn [map concat]. unfold with_length_8 at 1. rewrite zlen_app, zlen_cons.
      pose proof (zlen_nonneg (concat (map with_length_8 protos))). lia. }
  apply (alpn_runs protos [] d); try done; try (fold n; lia); [by apply set_buf_4|].
  intros m2 junk H1 H2 H3 H4 H5 H6. apply Hnext.
  rewrite app_nil_l in *. split_and!; try done; try (by rewrite ?H2, ?H3, ?H4).
  - rewrite H5. cbn. by split.
  - rewrite H5, H6. cbn. by apply (slice_app [] (joined protos) junk).
Qed.

Lemma supver_runs versions k lft ext m rest rc m' :
  let data := ext_data (SupportedVersions versions) in
  knows m k -> zlen versions < 256 -> 0 <= lft -> zlen data + lft < 16777216 ->
  (forall m1 ext1, knows m1 (Learned [3; 4] k.(k_host) k.(k_alpn)) -> ends (Locals sw_ext 0 lft ext1 None) m1 rest rc m') ->
  ends (Locals sw_supver_len 1 (zlen data + lft) ext to_buf) m (data ++ rest) rc m'.
Proof using.
  cbv zeta. intros Hk Hfit Hl Hmax Hnext. cbn [ext_data] in *. change (with_length_8 versions) with ([zlen versions] ++ versions) in *.
  rewrite zlen_app in *. change (zlen [zlen versions]) with 1 in *. rewrite <- !app_assoc. pose proof (zlen_nonneg versions).
  pose proof Hk as (Hb & Hv & Hh & Hhs & Ha & Has & Hh0 & Ha0).
  set (w := [zlen versions]). set (m1 := set_buf m (w ++ drop (length w) m.(m_buf))).
  eapply (ends_step _ _ w _ (Locals sw_ext (zlen versions) (lft + zlen versions) ext None) (set_version m1 [3; 4])).
  { intros r. change 1 with (zlen w) at 1. apply runs_buf; [done|done|change (zlen w) with 1; lia|lia| |cbn [l_size l_left]; lia].
    cbn [transition]. fold m1. change (get (m_buf m1) 0) with (Ok (zlen versions)). rewrite !Ok_bind. change (zlen w) with 1. do 3 f_equal. lia. }
  eapply ext_skip; [done|done|lia| |done]. apply Hnext. split_and!; try done. by apply set_buf_4.
Qed.

(** One extension, from the state behind the one before. *)
Lemma extension_runs e k lft ext m rest rc m' :
  knows m k -> ext_fits e -> 0 <= lft -> zlen (ext_bytes e) + lft < 16777216 ->
  (forall m1 ext1, knows m1 (learn k e) -> ends (Locals sw_ext 0 lft ext1 None) m1 rest rc m') ->
  ends (Locals sw_ext 0 (zlen (ext_bytes e) + lft) ext None) m (ext_bytes e ++ rest) rc m'.
Proof using Hhost Halpn.
  intros Hk [Hfit He] Hl Hmax Hnext. pose proof Hk as (Hb & Hv & Hh & Hhs & Ha & Has & Hh0 & Ha0).
  assert (zlen (ext_bytes e) = 4 + zlen (ext_data e)) as Hz.
  { unfold ext_bytes, with_length_16. rewrite !zlen_app. change (zlen (be_word (ext_type e))) with 2. change (zlen (be_word (zlen (ext_data e)))) with 2. lia. }
  pose proof (zlen_nonneg (ext_data e)).
  (* the header *)
  set (hd := be_word (ext_type e) ++ be_word (zlen (ext_data e))).
  assert (ext_bytes e ++ rest = [] ++ hd ++ ext_data e ++ rest) as -> by (unfold ext_bytes, with_length_16, hd; by rewrite <- !app_assoc).
  eapply (ends_step _ _ [] (hd ++ ext_data e ++ rest) (Locals sw_ext_header 4 (zlen (ext_bytes e) + lft) ext to_buf) m).
  { intros r. apply (runs_skip sw_ext _ _ _ []); [change (zlen (@nil Z)) with 0; lia|lia| |cbn [l_size l_left]; lia].
    cbn [transition]. rewrite Z.sub_0_r. destruct (Z.eqb_spec (zlen (ext_bytes e) + lft) 0); [lia|done]. }
  set (m1 := set_buf m (hd ++ drop (length hd) m.(m_buf))).
  assert (knows m1 k) as Hk1 by (apply knows_buf; [done|by apply set_buf_4]).
  set (L := zlen (ext_data e)) in *.
  assert (forall v2, transition host_alloc alpn_alloc (Locals sw_ext_header 0 (L + lft) ext (Some (ToBuf, 4))) m1 = Ok (Next v2 m1) ->
    v2.(l_size) <= v2.(l_left) -> ends v2 m1 (ext_data e ++ rest) rc m' ->
    ends (Locals sw_ext_header 4 (zlen (ext_bytes e) + lft) ext to_buf) m (hd ++ ext_data e ++ rest) rc m') as Hheader.
  { intros v2 Ht Hle. apply ends_step. intros r. change 4 with (zlen hd) at 1.
    apply runs_buf; [done|done|change (zlen hd) with 4; lia|lia| |done]. change (zlen hd) with 4. fold m1. rewrite <- Ht. do 2 f_equal. lia. }
  cbn [transition] in Hheader. change (m_host_data m1) with (m_host_data m) in Hheader. change (m_alpn_data m1) with (m_alpn_data m) in Hheader.
  assert (get (m_buf m1) 0 = Ok (ext_type e / 256)) as T0 by done. assert (get (m_buf m1) 1 = Ok (ext_type e mod 256)) as T1 by done.
  assert (get (m_buf m1) 2 = Ok (L / 256)) as T2 by done. assert (get (m_buf m1) 3 = Ok (L mod 256)) as T3 by done.
  assert (learn k e = k -> ends (Locals sw_ext L (lft + L) ext None) m1 (ext_data e ++ rest) rc m') as Hskip.
  { intros E. rewrite E in Hnext. eapply ext_skip; [done|done|lia|by apply Hnext|done]. }
  destruct e as [host more|protos|versions|ty data]; cbn [ext_type learn] in *.
  - change (0 / 256) with 0 in *. change (0 mod 256) with 0 in *. destruct (k_host k) as [h|] eqn:Eh.
    + apply (Hheader (Locals sw_ext L (L + lft) ext None)); [|cbn [l_size l_left]; lia|rewrite (Z.add_comm L); by apply Hskip].
      rewrite T0, T1, T2, T3, !Ok_bind, word_value. rewrite bool_decide_false by (intros E; apply Hh in E; done). done.
    + apply (Hheader (Locals sw_sni_len 2 (L + lft) ext to_buf)); [|cbn [l_size l_left]|apply (sni_runs host more k); first [done | subst L; lia]].
      * rewrite T0, T1, !Ok_bind. rewrite bool_decide_true by (by apply Hh). done.
      * unfold L. cbn [ext_data]. unfold with_length_16 at 1. rewrite zlen_app. pose proof (zlen_nonneg ([0] ++ with_length_16 host ++ more)).
        change (zlen (be_word (zlen ([0] ++ with_length_16 host ++ more)))) with 2. lia.
  - change (16 / 256) with 0 in *. change (16 mod 256) with 16 in *. destruct He as [Hne HF]. destruct (k_alpn k) as [h|] eqn:Ea.
    + apply (Hheader (Locals sw_ext L (L + lft) ext None)); [|cbn [l_size l_left]; lia|rewrite (Z.add_comm L); by apply Hskip].
      rewrite T0, T1, T2, T3, !Ok_bind, word_value. rewrite (bool_decide_false (m_alpn_data m = None)) by (intros E; apply Ha in E; done). done.
    + apply (Hheader (Locals sw_alpn_len 2 (L + lft) ext to_buf)); [|cbn [l_size l_left]|apply (alpn_ext_runs protos k); first [done | subst L; lia]].
      * rewrite T0, T1, !Ok_bind. rewrite (bool_decide_true (m_alpn_data m = None)) by (by apply Ha). done.
      * unfold L. cbn [ext_data]. unfold with_length_16. rewrite zlen_app. pose proof (zlen_nonneg (concat (map with_length_8 protos))).
        change (zlen (be_word (zlen (concat (map with_length_8 protos))))) with 2. lia.
  - change (43 / 256) with 0 in *. change (43 mod 256) with 43 in *. apply (Hheader (Locals sw_supver_len 1 (L + lft) ext to_buf)); [|cbn [l_size l_left]|apply (supver_runs versions k); first [done | subst L; lia]].
    + rewrite T0, T1, !Ok_bind. done.
    + unfold L. cbn [ext_data]. unfold with_length_8. rewrite zlen_cons. pose proof (zlen_nonneg versions). lia.
  - destruct He as (Hty & N0 & N16 & N43). apply (Hheader (Locals sw_ext L (L + lft) ext None)); [|cbn [l_size l_left]; lia|rewrite (Z.add_comm L); by apply Hskip].
    rewrite T0, T1, T2, T3, !Ok_bind, word_value. pose proof (Z.div_mod ty 256).
    destruct (Z.eqb_spec (ty / 256) 0); [|done]. destruct (Z.eqb_spec (ty mod 256) 0), (Z.eqb_spec (ty mod 256) 16), (Z.eqb_spec (ty mod 256) 43); try lia. done.
Qed.

Lemma exts_runs es k ext m rest :
  knows m k -> Forall ext_fits es -> zlen (exts_bytes es) < 16777216 ->
  ends (Locals sw_ext 0 (zlen (exts_bytes es)) ext None) m (exts_bytes es ++ rest) NGX_OK (fun m' => knows m' (fold_left learn es k)).
Proof using Hhost Halpn.
  intros Hk HF. revert k ext m Hk. induction HF as [|e es He HF IH]; intros k ext m Hk Hmax; unfold exts_bytes in *; cbn [map concat fold_left] in *.
  - destruct (runs_end sw_ext 0 0 ext None m [] rest m NGX_OK m) as [v Hr]; try done. by exists v, m.
  - rewrite zlen_app in *. rewrite <- app_assoc. pose proof (zlen_nonneg (concat (map ext_bytes es))).
    apply (extension_runs e k); [done|done|lia|lia|]. intros m1 ext1 Hk1. apply IH; [done|]. pose proof (zlen_nonneg (ext_bytes e)). lia.
Qed.

Lemma runs_start m rest Q :
  ends (Locals sw_header 4 4 0 to_buf) m rest NGX_OK Q -> ends (Locals sw_start 0 0 0 None) m rest NGX_OK Q.
Proof using. intros H. apply (ends_step _ m [] rest (Locals sw_header 4 4 0 to_buf) m); [|done]. intros r. by apply (runs_skip sw_start 0 0 m []). Qed.

(** Fields outside of extensions. *)
Lemma go_buf st w lft m rest st2 size2 dst2 k Q :
  knows m k -> zlen w <= 4 -> 0 <= lft -> zlen w + lft < 16777216 ->
  (forall b, transition host_alloc alpn_alloc (Locals st 0 lft 0 (Some (ToBuf, zlen w))) (set_buf m (w ++ b))
     = Ok (Next (Locals st2 size2 lft 0 dst2) (set_buf m (w ++ b)))) ->
  size2 <= lft ->
  (forall m1, knows m1 k -> ends (Locals st2 size2 lft 0 dst2) m1 rest NGX_OK Q) ->
  ends (Locals st (zlen w) (zlen w + lft) 0 to_buf) m (w ++ rest) NGX_OK Q.
Proof using.
  intros Hk Hw Hl Hmax Ht Hs Hnext. pose proof Hk as [Hb _].
  eapply ends_step; [|apply Hnext; apply (knows_buf _ _ (w ++ drop (length w) m.(m_buf)) Hk); by apply set_buf_4].
  intros r. apply runs_buf; [done|done|lia|lia| |cbn [l_size l_left]; lia]. by rewrite Z.add_simpl_l.
Qed.

Lemma go_skip st w lft m rest st2 size2 dst2 Q :
  0 <= lft -> zlen w + lft < 16777216 ->
  transition host_alloc alpn_alloc (Locals st 0 lft 0 None) m = Ok (Next (Locals st2 size2 lft 0 dst2) m) ->
  size2 <= lft ->
  ends (Locals st2 size2 lft 0 dst2) m rest NGX_OK Q ->
  ends (Locals st (zlen w) (zlen w + lft) 0 None) m (w ++ rest) NGX_OK Q.
Proof using.
  intros Hl Hmax Ht Hs Hnext. eapply ends_step; [|exact Hnext].
  intros r. apply runs_skip; [lia|lia| |cbn [l_size l_left]; lia]. by rewrite Z.add_simpl_l.
Qed.

(** What is behind the version. *)
Lemma hello_rest_runs h m rest :
  let X := match h.(h_extensions) with Some es => with_length_16 (exts_bytes es) | None => [] end in
  let k := Learned h.(h_version) None None in
  knows m k -> hello_fits h ->
  ends (Locals sw_random 32 (32 + (1 + (zlen h.(h_session_id) + (2 + (zlen h.(h_suites) + (1 + (zlen h.(h_methods) + zlen X))))))) 0 None) m
    (h.(h_random) ++ [zlen h.(h_session_id)] ++ h.(h_session_id) ++ be_word (zlen h.(h_suites)) ++ h.(h_suites)
       ++ [zlen h.(h_methods)] ++ h.(h_methods) ++ X ++ rest)
    NGX_OK (fun m' => knows m' (hello_says h)).
Proof using Hhost Halpn.
  cbv zeta. intros Hk (Hv & Hr & Hsid & Hcs & Hcm & Hbody & Hex).
  set (X := match h.(h_extensions) with Some es => with_length_16 (exts_bytes es) | None => [] end) in *.
  pose proof (zlen_nonneg h.(h_session_id)). pose proof (zlen_nonneg h.(h_suites)). pose proof (zlen_nonneg h.(h_methods)). pose proof (zlen_nonneg X).
  assert (34 + (1 + (zlen h.(h_session_id) + (2 + (zlen h.(h_suites) + (1 + (zlen h.(h_methods) + zlen X)))))) < 16777216) as Hmax.
  { unfold hello_body in Hbody. fold X in Hbody. rewrite !zlen_app in Hbody. unfold with_length_8, with_length_16 in Hbody.
    rewrite !zlen_cons, zlen_app in Hbody. change (zlen (be_word (zlen (h_suites h)))) with 2 in Hbody. lia. }
  rewrite <- Hr. apply go_skip with (st2 := sw_sid_len) (size2 := 1) (dst2 := to_buf); [lia|lia|done|lia|].
  apply (go_buf sw_sid_len [zlen h.(h_session_id)]) with (st2 := sw_sid) (size2 := zlen h.(h_session_id)) (dst2 := None) (k := Learned h.(h_version) None None);
    [done|done|lia|change (zlen [zlen (h_session_id h)]) with 1; lia|done|lia|]. clear m Hk. intros m Hk.
  apply go_skip with (st2 := sw_cs_len) (size2 := 2) (dst2 := to_buf); [lia|lia|done|lia|].
  apply (go_buf sw_cs_len (be_word (zlen h.(h_suites)))) with (st2 := sw_cs) (size2 := zlen h.(h_suites)) (dst2 := None) (k := Learned h.(h_version) None None);
    [done|done|lia|change (zlen (be_word (zlen (h_suites h)))) with 2; lia| |lia|].
  { intros b. cbn [transition]. change (get (m_buf (set_buf m (be_word (zlen (h_suites h)) ++ b))) 0) with (Ok (zlen (h_suites h) / 256)).
    change (get (m_buf (set_buf m (be_word (zlen (h_suites h)) ++ b))) 1) with (Ok (zlen (h_suites h) mod 256)). by rewrite !Ok_bind, word_value. }
  clear m Hk. intros m Hk.
  apply go_skip with (st2 := sw_cm_len) (size2 := 1) (dst2 := to_buf); [lia|lia|done|lia|].
  apply (go_buf sw_cm_len [zlen h.(h_methods)]) with (st2 := sw_cm) (size2 := zlen h.(h_methods)) (dst2 := None) (k := Learned h.(h_version) None None);
    [done|done|lia|change (zlen [zlen (h_methods h)]) with 1; lia|done|lia|]. clear m Hk. intros m Hk.
  unfold hello_says. destruct h.(h_extensions) as [es|]; cbn [default].
  - destruct Hex as [HF Hel]. unfold X, with_length_16 in *. rewrite zlen_app in *. change (zlen (be_word (zlen (exts_bytes es)))) with 2 in *.
    pose proof (zlen_nonneg (exts_bytes es)).
    apply go_skip with (st2 := sw_ext) (size2 := 2) (dst2 := to_buf); [lia|lia| |lia|].
    { cbn [transition]. destruct (Z.eqb_spec (2 + zlen (exts_bytes es)) 0); [lia|done]. }
    pose proof Hk as [Hb _]. rewrite (Z.add_comm 2), <- app_assoc. change 2 with (zlen (be_word (zlen (exts_bytes es)))).
    apply (ext_skip _ _ 0 _ _ (set_buf m (be_word (zlen (exts_bytes es)) ++ drop 2 m.(m_buf)))); [by apply (stored_buf m)|lia|change (zlen (be_word (zlen (exts_bytes es)))) with 2; lia| |done].
    apply (exts_runs es (Learned h.(h_version) None None)); [|done|lia]. apply knows_buf; [done|by apply (set_buf_4 m (be_word _))].
  - destruct (runs_end sw_cm (zlen h.(h_methods)) (zlen h.(h_methods) + 0) 0 None m h.(h_methods) rest m NGX_OK m) as [v Hrun]; [done|lia|lia|done| |by exists v, m].
    cbn [transition]. by rewrite Z.add_simpl_l.
Qed.

Lemma hello_runs h rest :
  hello_fits h ->
  ends (c_locals fresh_ctx) (c_mem fresh_ctx) (hello_message h ++ rest) NGX_OK (fun m => knows m (hello_says h)).
Proof using Hhost Halpn.
  intros (Hv & Hr & Hsid & Hcs & Hcm & Hbody & Hex). unfold hello_message. set (n := zlen (hello_body h)) in *.
  cbn [c_locals c_mem fresh_ctx]. apply runs_start. set (m0 := Memory [0; 0; 0; 0] [0; 0] None 0 None 0).
  pose proof (zlen_nonneg (hello_body h)) as Hn. fold n in Hn. cbv zeta.
  set (w := [1; n / 65536; n / 256 mod 256; n mod 256]). rewrite <- app_assoc.
  assert (2 <= n) as Hn2. { unfold n, hello_body. rewrite zlen_app. match goal with |- 2 <= _ + zlen ?l => pose proof (zlen_nonneg l) end. lia. }
  apply (ends_step _ m0 w _ (Locals sw_version 2 n 0 (Some (ToVersion, 0))) (set_buf m0 w)).
  { intros r. change 4 with (zlen w). apply runs_buf; [done|done|done|done| |done]. change (zlen w) with 4.
    cbn [transition]. change (get (m_buf (set_buf m0 (w ++ drop (length w) (m_buf m0)))) 0) with (Ok 1).
    change (get (m_buf (set_buf m0 (w ++ drop (length w) (m_buf m0)))) 1) with (Ok (n / 65536)).
    change (get (m_buf (set_buf m0 (w ++ drop (length w) (m_buf m0)))) 2) with (Ok (n / 256 mod 256)).
    change (get (m_buf (set_buf m0 (w ++ drop (length w) (m_buf m0)))) 3) with (Ok (n mod 256)). rewrite !Ok_bind.
    change (negb (1 =? 1)) with false. cbv iota. do 3 f_equal. rewrite !Z.shiftl_mul_pow2 by lia.
    change (2 ^ 16) with 65536. change (2 ^ 8) with 256. Z.to_euclidean_division_equations. lia. }
  assert (hello_body h = h.(h_version) ++ h.(h_random) ++ [zlen h.(h_session_id)] ++ h.(h_session_id) ++ be_word (zlen h.(h_suites)) ++ h.(h_suites)
       ++ [zlen h.(h_methods)] ++ h.(h_methods) ++ match h.(h_extensions) with Some es => with_length_16 (exts_bytes es) | None => [] end) as Eb.
  { unfold hello_body, with_length_8. unfold with_length_16 at 1. by rewrite <- !app_assoc. }
  set (X := match h.(h_extensions) with Some es => with_length_16 (exts_bytes es) | None => [] end) in *.
  set (lft := 32 + (1 + (zlen h.(h_session_id) + (2 + (zlen h.(h_suites) + (1 + (zlen h.(h_methods) + zlen X))))))).
  assert (n = 2 + lft) as En.
  { unfold n, lft. rewrite Eb, !zlen_app. change (zlen [zlen (h_session_id h)]) with 1. change (zlen [zlen (h_methods h)]) with 1.
    change (zlen (be_word (zlen (h_suites h)))) with 2. lia. }
  rewrite Eb, <- !app_assoc.
  apply (ends_step _ _ h.(h_version) _ (Locals sw_random 32 lft 0 None) (set_version (set_buf m0 w) h.(h_version))).
  { intros r. assert (32 <= lft) as Hlft.
    { unfold lft. pose proof (zlen_nonneg h.(h_session_id)). pose proof (zlen_nonneg h.(h_suites)). pose proof (zlen_nonneg h.(h_methods)).
      pose proof (zlen_nonneg X). lia. }
    apply (runs_field _ _ _ _ _ _ _ _ (set_version (set_buf m0 w) h.(h_version))); [done|lia|lia| | |done].
    - cbn [stored store_at]. change (m_version (set_buf m0 w)) with [0; 0]. pose proof (blit_app [] [0; 0] [] h.(h_version) 0 eq_refl) as E. cbn [app] in E. rewrite !app_nil_r in E. by rewrite E.
    - cbn [transition]. rewrite En. by rewrite Z.add_simpl_l. }
  apply (hello_rest_runs h); [by split_and!|]. by split_and!.
Qed.
End hello.

(** ** The theorem on ClientHellos *)

Definition protocol_name (version : list Z) : list Z :=
  match version with
  | [0; 2] => str "SSLv2"
  | [3; 0] => str "SSLv3"
  | [3; 1] => str "TLSv1"
  | [3; 2] => str "TLSv1.1"
  | [3; 3] => str "TLSv1.2"
  | [3; 4] => str "TLSv1.3"
  | _ => []
  end.

Lemma hello_version_length h : zlen h.(h_version) = 2 -> zlen (hello_says h).(k_version) = 2.
Proof.
  unfold hello_says. generalize (default [] h.(h_extensions)) as es. intros es H.
  assert (forall es k, zlen k.(k_version) = 2 -> zlen (fold_left learn es k).(k_version) = 2) as Hfold; [|by apply Hfold].
  clear. induction es as [|e es IH]; intros k Hk; [done|]. cbn [fold_left]. apply IH. destruct e; cbn [learn]; by try case_match.
Qed.

Lemma protocol_variable ctx :
  zlen ctx.(c_mem).(m_version) = 2 -> ngx_stream_ssl_preread_protocol_variable (Some ctx) = Ok (Some (protocol_name ctx.(c_mem).(m_version))).
Proof.
  unfold ngx_stream_ssl_preread_protocol_variable. destruct ctx.(c_mem).(m_version) as [|a [|b [|]]]; try (intros H; unfold zlen in H; cbn in H; lia). intros _.
  rewrite !get_cons_0, get_cons_S, Ok_bind by lia. change (1 - 1) with 0. rewrite get_cons_0, Ok_bind. do 2 f_equal.
  destruct (Z.eqb_spec a 0) as [->|Ha0].
  - destruct (Z.eqb_spec b 2) as [->|Hb]; [done|]. unfold protocol_name. repeat case_match; done.
  - destruct (Z.eqb_spec a 3) as [->|Ha3]; [|unfold protocol_name; repeat case_match; done].
    repeat (match goal with |- context [b =? ?n] => destruct (Z.eqb_spec b n) as [->|?]; [done|] end). unfold protocol_name. repeat case_match; done.
Qed.

Lemma alloc_total (alloc : Z -> option (list Z)) :
  (forall n d, alloc n = Some d -> zlen d = n) -> (forall n, 0 <= n -> alloc n <> None) ->
  forall n, 0 <= n -> exists d, alloc n = Some d /\ zlen d = n.
Proof. intros H1 H2 n Hn. specialize (H2 n Hn). destruct (alloc n) as [d|] eqn:E; [|done]. exists d. split; [done|]. by apply H1. Qed.

Lemma records_payloads rs : bytes (records_bytes rs) -> bytes (concat (map snd rs)).
Proof.
  unfold records_bytes. induction rs as [|[minor l] rs IH]; cbn [map concat]; [done|]. rewrite !Forall_app. unfold record_bytes at 1.
  intros [H1 H2]. split; [|by apply IH]. by apply Forall_app in H1 as [_ H1].
Qed.

(** C31: TLS preread. A ClientHello, cut into records in any way and with anything behind it, is
    recognised by one call of the handler; the variables are then the name of the first
    server name extension, the protocols of the first extension of these with commas
    between them, and the version that the message has, or TLS 1.3 if there is an
    extension with versions. *)
Theorem preread_hello host_alloc alpn_alloc h rs more post :
  (forall n d, host_alloc n = Some d -> zlen d = n) -> (forall n d, alpn_alloc n = Some d -> zlen d = n) ->
  (forall n, 0 <= n -> host_alloc n <> None) -> (forall n, 0 <= n -> alpn_alloc n <> None) ->
  hello_fits h -> concat (map snd rs) = hello_message h ++ more -> Forall (fun r => zlen r.2 < 65536) rs ->
  bytes (records_bytes rs ++ post) ->
  exists c, ngx_stream_ssl_preread_handler host_alloc alpn_alloc true true true None (Some (records_bytes rs ++ post)) = Ok (NGX_OK, Some c) /\
    ngx_stream_ssl_preread_server_name_variable (Some c) = Ok (Some (default [] (hello_says h).(k_host))) /\
    ngx_stream_ssl_preread_alpn_protocols_variable (Some c) = Ok (Some (default [] (hello_says h).(k_alpn))) /\
    ngx_stream_ssl_preread_protocol_variable (Some c) = Ok (Some (protocol_name (hello_says h).(k_version))).
Proof.
  intros Hh Ha Hhn Han Hfit Hcat Hz Hb. apply Forall_app in Hb as Hb'. destruct Hb' as [Hbr _].
  destruct (hello_runs host_alloc alpn_alloc (alloc_total _ Hh Hhn) (alloc_total _ Ha Han) h more Hfit) as (v & m & [fuel Hrun] & Hk).
  rewrite <- Hcat in Hrun.
  destruct (records_message host_alloc alpn_alloc Hh Ha rs fuel fresh_ctx [] post (NGX_OK, v, m)) as (fuel' & c & Hrec & Hm); [apply fresh_ctx_ok| | |done|exact Hrun|done|].
  { intros ->. unfold hello_message in Hcat. discriminate Hcat. }
  { by apply records_payloads. }
  cbn [app] in Hrec. change (zlen (@nil Z)) with 0 in Hrec. cbn [snd] in Hm.
  set (data := records_bytes rs ++ post) in *.
  destruct (records_loop_ok host_alloc alpn_alloc Hh Ha (length data + 1) fresh_ctx data 0) as (rc & o & Hrec2 & _);
    [apply fresh_ctx_ok|done|pose proof (zlen_nonneg data); lia|unfold zlen; lia|].
  pose proof (records_more _ _ _ (fuel' + (length data + 1)) _ _ _ _ Hrec ltac:(lia)) as M1.
  pose proof (records_more _ _ _ (fuel' + (length data + 1)) _ _ _ _ Hrec2 ltac:(lia)) as M2.
  rewrite M1 in M2. injection M2 as <- <-. exists c. split; [exact Hrec2|]. subst m.
  destruct Hk as (_ & Hv & _ & Hhs & _ & Has & _ & _). cbn [ngx_stream_ssl_preread_server_name_variable ngx_stream_ssl_preread_alpn_protocols_variable].
  rewrite Hhs, Has, !Ok_bind. split; [done|]. split; [done|]. rewrite <- Hv. apply protocol_variable. rewrite Hv. apply hello_version_length, Hfit.
Qed.

(** ** Examples *)

Definition some_memory (n : Z) : option (list Z) := if n <? 0 then None else Some (replicate (Z.to_nat n) 7).

Lemma some_memory_size n d : some_memory n = Some d -> zlen d = n.
Proof.
  unfold some_memory. destruct (Z.ltb_spec n 0); [done|]. intros H'. injection H' as <-. unfold zlen. rewrite length_replicate. lia.
Qed.

Lemma some_memory_there n : 0 <= n -> some_memory n <> None.
Proof. intros H. unfold some_memory. by rewrite (proj2 (Z.ltb_ge n 0) H). Qed.

Definition example_hello : hello :=
  Hello [3; 3] (replicate 32 5) [] [19; 1] [0]
    (Some [OtherExtension 5 [1]; ServerName (str "nginx.org") []; SupportedVersions [3; 4]; Alpn [str "h2"; str "http/1.1"]]).

(** The message in two records. *)
Definition example_records : list (Z * list Z) :=
  [(1, take 60 (hello_message example_hello)); (3, drop 60 (hello_message example_hello))].

Lemma preread_hello_witness :
  exists c, ngx_stream_ssl_preread_handler some_memory some_memory true true true None (Some (records_bytes example_records ++ [])) = Ok (NGX_OK, Some c) /\
    ngx_stream_ssl_preread_server_name_variable (Some c) = Ok (Some (str "nginx.org")) /\
    ngx_stream_ssl_preread_alpn_protocols_variable (Some c) = Ok (Some (str "h2,http/1.1")) /\
    ngx_stream_ssl_preread_protocol_variable (Some c) = Ok (Some (str "TLSv1.3")).
Proof.
  destruct (preread_hello some_memory some_memory example_hello example_records [] [] some_memory_size some_memory_size some_memory_there some_memory_there)
    as (c & H1 & H2 & H3 & H4).
  - unfold hello_fits. split_and!; try (vm_compute; reflexivity).
    unfold example_hello, h_extensions. split; [|vm_compute; reflexivity].
    apply Forall_cons_2; [split; [vm_compute; reflexivity|split_and!; lia]|].
    apply Forall_cons_2; [split; [vm_compute; reflexivity|by apply (bytes_check (str "nginx.org"))]|].
    apply Forall_cons_2; [split; vm_compute; reflexivity|].
    apply Forall_cons_2; [split; [vm_compute; reflexivity|split; [done|]]|constructor].
    repeat (constructor; [vm_compute; split; [intros E; discriminate E|reflexivity]|]). constructor.
  - vm_compute. reflexivity.
  - repeat (constructor; [vm_compute; reflexivity|]). constructor.
  - apply (bytes_check (records_bytes example_records ++ [])). vm_compute. reflexivity.
  - exists c. split; [exact H1|]. split; [exact H2|]. split; [exact H3|exact H4].
Defined.

Lemma preread_phase_one_call_witness :
  exists o s' l, ngx_stream_core_preread_phase (ngx_stream_ssl_preread_handler some_memory some_memory true true true) true 16384 true
      false false [(Recv (take 70 (records_bytes example_records)), false)] (Session None None false) = Ok (o, s') /\
    received s' = [] ++ l /\ o = Wait /\ waiting some_memory some_memory true 16384 s'.
Proof.
  destruct (preread_phase_one_call some_memory some_memory some_memory_size some_memory_size true true true 16384 ltac:(lia)
    false false [(Recv (take 70 (records_bytes example_records)), false)] (Session None None false)) as (o & s' & l & H1 & H2 & H3).
  - by left.
  - split; [apply (bytes_check (take 70 (records_bytes example_records))); vm_compute; reflexivity|]. split; [vm_compute; intros E; discriminate E|exact I].
  - exists o, s', l. split; [exact H1|]. split; [exact H2|].
    assert (o = Wait) as ->. { vm_compute in H1. injection H1 as <- _. reflexivity. }
    split; [reflexivity|exact (proj1 H3)].
Defined.
